(* ===== verification/_CoqProject ===== *)
-Q . S2P
Prelude.v
IntStore.v
Serialize.v
MaList.v
FltCodec.v
CrcBits.v
Crc16.v
Crc32.v
Uuid.v
TraceText.v
Trace.v
TraceInv.v
Protocol20.v
ExtraInfo.v
FltRequest.v
DynArray.v
DynString.v
Bitmap.v
Hash.v
HashInv.v
HashSearch.v
HashInsert.v
HashDelete.v
HashTable.v
HashUpdate.v
NumText.v
LenEnc.v
StmtTime.v
TimeText.v
OracleTime.v
LobLocator.v
StmtFetch.v
StmtFloat.v
StmtOracle.v
StmtRow.v
ObObject.v
Charset.v
Escape.v
OracleFormat.v
OracleText.v
OracleBuffer.v
TextTime.v
StmtParam.v
Net.v
NetPlain.v
NetRead.v
TextRow.v
NetPackets.v
TextResult.v
TextFetch.v
NetPacked.v
Net20.v
NetCompress.v
Tns.v
TnsText.v
TnsService.v
TnsEnds.v
LoadBalance.v
LoadOrder.v
