(* ===== verification/Prelude.v ===== *)
(** * A verification of the protocol layer of obconnector-c

    obconnector-c is the C client library of OceanBase, derived from MariaDB
    Connector/C.  The development covers what OceanBase added below the client API and
    the packet layer that carries it: the wire format of integers, strings and trace
    records, the full-link trace of a connection, the header and the extra information of
    the 2.0 protocol, and framing, buffering, compression and checksums of packets; the
    binary protocol of prepared statements, parameters and rows with the Oracle types; the
    rows of the text protocol, with the times of Oracle mode in the formats of the session;
    cells, character sets and the escaping of texts; service names and load balancing; and
    the containers that the library is built on.

    ** How C is modelled

    A C function is a Rocq function into [cres] (this file): [Ret] is a return, [Fault] is
    undefined behaviour such as an access outside an allocation, and [OutOfFuel] is a loop
    that was cut off.  Integers are [Z], with [u8] to [u64] and [s8] to [s64] where the
    code converts; memory is a list of bytes per allocation with checked [load] and
    [store]; linked nodes live in finite maps from addresses.  What the sources take from
    outside (allocation results, the clock, rand(), the transport, zlib) is an argument or
    a field of the state.  A loop that is not structural takes a bound.  The theorems say
    which bound is enough: the ten groups of a 64-bit integer, one round per byte or item,
    1025 rounds for flushing a trace, 16 tags and 4 spans, one round per packet of a
    message ([packet_count]), two scans for a message in one packed packet, one round per
    character of a description, one per address that is tried.

    ** Parts and files

    - Prelude.v: [cres], machine integers, memory, [splice] (writing a block), lemmas and
      hints for them.
    - IntStore.v: the byte-order macros of include/ma_global.h.
    - Serialize.v: libmariadb/ob_serialize.c and the field macros of ob_serialize.h.
    - MaList.v: libmariadb/ma_list.c over a heap of nodes.
    - FltCodec.v: the record codec of libmariadb/ob_full_link_trace.c (the families
      flt_store, flt_get, flt_serialize and flt_deserialize).
    - CrcBits.v: cyclic redundancy checks bit by bit, as an interface ([CrcPoly]) that
      Crc16.v (ob_crc16 of ob_protocol20.c) and Crc32.v (ob_crc32 of mariadb_stmt.c)
      instantiate.
    - Uuid.v, TraceText.v, Trace.v, TraceInv.v: the trace of a connection in
      ob_full_link_trace.c: random numbers and identifiers, the text of tags and log
      lines, the operations on spans and tags, and their invariant.
    - Protocol20.v, ExtraInfo.v: libmariadb/ob_protocol20.c: headers, request numbers,
      extra information.
    - FltRequest.v: flt_build_request, which queues the trace records of a request as
      extra information of a packet.
    - DynArray.v, DynString.v, Bitmap.v: libmariadb/ma_array.c, ma_string.c and
      ob_bitmap.c.
    - Hash.v: libmariadb/ma_hash.c on the bytes of its dynamic array; HashInv.v its
      invariant (chains of records that partition the slots), HashInsert.v, HashDelete.v,
      HashUpdate.v and HashSearch.v what the operations do to it, HashTable.v the table as
      a multiset of records.
    - NumText.v, LenEnc.v: numbers as text (ma_ll2str.c and the readers of
      ma_stmt_codec.c) and length-encoded integers (mariadb_stmt.c, mariadb_lib.c).
    - StmtTime.v, TimeText.v, OracleTime.v, LobLocator.v: values of prepared statements, as
      parameters (mariadb_stmt.c) and as results (ma_stmt_codec.c): dates and times in
      binary and as text, timestamps and intervals of Oracle mode, locators of large
      objects.
    - StmtFetch.v, StmtFloat.v, StmtOracle.v: the conversion of a column into the buffer
      bound to it (ma_stmt_codec.c), for integers, strings and dates, for floating-point
      numbers, and for the Oracle types; StmtRow.v: the table of these functions and
      mthd_stmt_fetch_to_bind, which takes a row apart.
    - StmtParam.v: the request that executes a prepared statement
      (mysql_stmt_execute_generate_simple_request and store_param of mariadb_stmt.c).
    - ObObject.v: the cells of libmariadb/ob_object.c.
    - Charset.v, Escape.v: libmariadb/ma_charset.c, the table of character sets with its
      functions for multibyte characters, and mysql_real_escape_string against a server that
      reads literals.
    - OracleFormat.v: libmariadb/ob_oracle_format_models.c, the parser of formats, the length
      and the text of a time; OracleText.v what is printed, OracleBuffer.v where.
    - TextTime.v, TextRow.v: rows of the text protocol in mariadb_lib.c: the conversion of
      dates, timestamps and intervals, and mthd_my_read_rows, mthd_my_read_one_row and
      ma_net_safe_read over an interface of packets, [PacketReader]; NetPackets.v makes one of
      Net.v, TextResult.v and TextFetch.v prove what the two functions deliver.
    - Net.v: libmariadb/ma_net.c with the cache of ma_pvio.c and ma_compress.c; NetPlain.v
      and NetRead.v prove writing and reading without compression, NetPacked.v what the
      packed protocols share, Net20.v the 2.0 protocol and NetCompress.v compression
      against the interface [Zlib].
    - Tns.v: libmariadb/ob_tnsname.c, the parser of descriptions and of the file of service
      names; TnsText.v what its lexer and its pairs make of a text, TnsService.v what a
      description is read as, TnsEnds.v that parsing ends.
    - LoadBalance.v: libmariadb/ob_load_balance.c, connecting to one of several addresses, with
      the black list; LoadOrder.v which addresses are tried.

    The parts meet in Net.v: ma_net_real_write puts the extra information of Protocol20.v,
    which carries the records of FltCodec.v queued by FltRequest.v from the trace of
    Trace.v, between a header with the checksum of Crc16.v and a payload with the checksum
    of Crc32.v; ma_net_read takes such packets apart again.  Rows are read through
    [PacketReader], whose laws NetPackets.v derives from the theorems on reading, and printed
    with OracleFormat.v.  LoadBalance.v takes addresses and settings from the records of Tns.v.

    ** What the theorems show

    - Packets: without compression any messages written arrive as their packets in order
      ([messages_written]), these bytes are read back as the messages in whatever pieces
      they come ([messages_read]), and arbitrary bytes of a peer lead to an error or to one
      message, never outside the buffer ([read_any_stream]); a message crosses a 2.0
      connection ([ob20_delivery]) and a compressed one ([compressed_delivery]) unchanged;
      damage to a header or a payload is detected unless its checksum is 0, which switches
      the test off ([header_corruption_detected], [payload_damage_detected]); data that
      cannot be uncompressed are not reported ([uncompress_failure_unreported]).
    - Checksums: the table routines compute the bit-by-bit division ([ob_crc16_correct],
      [ob_crc32_correct]).
    - Codecs: round trips, exact sizes, bounds and termination of the field macros, the
      strings and the trace records ([unis_roundtrip], [serialize_exact],
      [serialize_safe], and lemmas such as [deserialize_terminates] and
      [control_message_decoded]).
    - Trace: every history of operations keeps the span lists, the tag chains and the
      buffers well formed ([trace_invariant]) and every operation returns, flushing the
      first span when it has a tag ([trace_operations_return]); from every such state a
      request identifies the active span, carries exactly the records of the identifiers,
      the logs and the application information as one item and clears them, or queues
      nothing ([request_carries]).
    - Containers: doubly linked lists, growing arrays and strings and bitmaps behave as the
      lists, byte strings and sets they stand for ([array_refines], [dynstr_refines],
      [bitmap_refines]; the lemma [list_move]), with and without memory, except that a
      freeze that fails loses the array; the hash table finds after any history of
      operations exactly the records that were inserted and not removed
      ([table_refines]; the lemma [search_finds_all] is about searching on).
    - Prepared statements: for parameters of the supported types with given lengths the
      request is laid out as the protocol says and fits its buffer ([request_layout]); a row
      is delivered column by column to the bound buffers and truncation is returned exactly
      when a column lost something ([row_delivered]); numbers arrive exactly or with a
      truncation error, where the code has the range right ([int_fetch_exact],
      [real_fetch_exact]), strings piece by piece (the lemma [string_fetch]); what is sent
      is what would be read, in the shortest form, for dates, times up to 255 hours,
      timestamps and locators
      ([times_roundtrip], [time_text_roundtrip], [oracle_time_roundtrip],
      [lob_roundtrip]) and by lemmas for lengths and numbers ([length_roundtrip],
      [decimal_roundtrip]).
    - Text protocol: a result that arrives as packets is stored ([rows_delivered]) or read row
      by row ([rows_fetched]) with exactly the texts that were sent, converted in Oracle mode;
      a time is printed as its format says, in the length calculated for it but for a few
      elements ([oracle_text_printed]), and never outside its buffer ([print_stays_inside]).
    - Texts and cells: in the character sets whose multibyte functions agree with the server,
      what mysql_real_escape_string writes is read as the original text
      ([escaped_text_read]); a cell is deserialized as it was serialized
      ([cell_roundtrip]) and whatever is deserialized is well typed ([deserialized_typed]).
    - Connecting: a description is read as the settings it lists ([description_read]) and
      no loop of the parser runs longer than the text ([service_search_ends]); with the
      strategy NORMAL the addresses of a list that are not black are tried in
      order and each once, until one is reached or denies access
      ([addresses_tried_in_order]).
    - The conditions of a theorem that the code itself needs are shown to be needed: what
      the code gets wrong is stated as theorems too: over-reads and length checks that
      wrap, lost tags and text, keys outside a table, extra information that is released
      twice, errors that are not reported, truncations that go unnoticed, buffers that are
      one byte short.

    ** Not modelled

    Of the client API (mariadb_lib.c) options, the handshake, commands and reconnecting; the
    life cycle of prepared statements, bulk requests and complex types as parameters and
    results; dynamic columns are not modelled.  Where a modelled function calls one of them it
    is an argument.  The functions of ob_tnsname.c that print its records or copy values out of
    them, and the locks of ob_load_balance.c, are left out.  The reader
    str_to_ob_time_oracle_dfm of the format models and rewrite_new_time are called from
    nowhere and left out.  The names and conversions of the operating system's character sets,
    error messages, configuration files, stack switching for asynchronous calls, thread
    wrappers, TLS back ends, authentication plugins and transports are system calls, tables
    or cryptography; zlib, ref10, win-iconv and the floating-point conversion of ma_dtoa.c
    are third-party code.  In the modelled files, debug output and the hardware CRC
    instruction are left out, and of the byte-order macros those for floating-point values
    and for other processors. *)

From stdpp Require Export base list option strings.
From stdpp Require Import tactics numbers gmap.
From Stdlib Require Export ZArith Lia.

Open Scope Z_scope.

(** * Computations of C code

    A C function of the sources becomes a Rocq function into [cres]:
    [Ret] is a normal return, [Fault] is undefined behaviour (an access outside
    an allocation, a NULL dereference, an oversized shift, a use after free)
    and [OutOfFuel] marks a loop that was cut off. *)

Inductive cres (A : Type) : Type :=
| Ret (a : A)
| Fault
| OutOfFuel.
Arguments Ret {A} a.
Arguments Fault {A}.
Arguments OutOfFuel {A}.

#[export] Instance cres_ret : MRet cres := fun A a => Ret a.
#[export] Instance cres_bind : MBind cres := fun A B f m =>
  match m with Ret a => f a | Fault => Fault | OutOfFuel => OutOfFuel end.

Definition of_option {A} (o : option A) : cres A :=
  match o with Some a => Ret a | None => Fault end.

Definition returns {A} (m : cres A) : Prop := exists a, m = Ret a.

Lemma bind_ret {A B} (a : A) (f : A -> cres B) : (Ret a ≫= f) = f a.
Proof. reflexivity. Qed.

Lemma bind_Ret_inv {A B} (m : cres A) (f : A -> cres B) b :
  (m ≫= f) = Ret b -> exists a, m = Ret a /\ f a = Ret b.
Proof. destruct m; simpl; intros H; try discriminate; eauto. Qed.

Lemma bind_ret_r {A} (m : cres A) : (m ≫= Ret) = m.
Proof. by destruct m. Qed.

Lemma bind_assoc {A B C} (m : cres A) (f : A -> cres B) (g : B -> cres C) :
  ((m ≫= f) ≫= g) = (m ≫= (fun a => f a ≫= g)).
Proof. by destruct m. Qed.

(** A computation without a loop never runs out of fuel: [bounded] steps through its
    binds and case distinctions. *)
Definition loop_free {A} (m : cres A) : Prop := m <> OutOfFuel.

Lemma loop_free_ret {A} (a : A) : loop_free (Ret a).
Proof. done. Qed.

Lemma loop_free_fault {A} : loop_free (@Fault A).
Proof. done. Qed.

Lemma loop_free_of_option {A} (o : option A) : loop_free (of_option o).
Proof. by destruct o. Qed.

Lemma loop_free_bind {A B} (m : cres A) (f : A -> cres B) :
  loop_free m -> (forall a, f a <> OutOfFuel) -> loop_free (m ≫= f).
Proof. intros Hm Hf. destruct m; simpl; [apply Hf|done|done]. Qed.

Create HintDb loop_free.
#[export] Hint Resolve loop_free_ret loop_free_fault loop_free_of_option : loop_free.

Ltac loop_free :=
  repeat first
    [ progress intros
    | progress cbv zeta
    | progress change (?m <> OutOfFuel) with (loop_free m)
    | solve [auto with loop_free]
    | apply loop_free_bind
    | case_match ].

#[global] Arguments Z.land : simpl never.
#[global] Arguments Z.lor : simpl never.
#[global] Arguments Z.lxor : simpl never.
#[global] Arguments Z.shiftl : simpl never.
#[global] Arguments Z.shiftr : simpl never.

(** * Fixed-width integers

    A w-bit C integer is a [Z]; [wrap w] is the conversion to the unsigned
    w-bit type and [swrap w] the conversion to the signed one. *)

Definition wrap (w z : Z) : Z := z mod 2 ^ w.
Definition swrap (w z : Z) : Z := (z + 2 ^ (w - 1)) mod 2 ^ w - 2 ^ (w - 1).

Abbreviation u8 := (wrap 8).
Abbreviation u16 := (wrap 16).
Abbreviation u32 := (wrap 32).
Abbreviation u64 := (wrap 64).
Abbreviation s8 := (swrap 8).
Abbreviation s16 := (swrap 16).
Abbreviation s32 := (swrap 32).
Abbreviation s64 := (swrap 64).

(** The value ranges of the types. *)
Definition uint (w z : Z) : Prop := 0 <= z < 2 ^ w.
Definition sint (w z : Z) : Prop := - 2 ^ (w - 1) <= z < 2 ^ (w - 1).

Lemma wrap_uint w z : 0 <= w -> uint w (wrap w z).
Proof. intros. apply Z.mod_pos_bound. lia. Qed.

Lemma wrap_small w z : uint w z -> wrap w z = z.
Proof. apply Z.mod_small. Qed.

Lemma swrap_sint w z : 0 < w -> sint w (swrap w z).
Proof.
  intros Hw. unfold sint, swrap.
  pose proof (Z.mod_pos_bound (z + 2 ^ (w - 1)) (2 ^ w) ltac:(lia)) as H.
  replace (2 ^ w) with (2 * 2 ^ (w - 1)) in * by (rewrite <- Z.pow_succ_r; [f_equal; lia | lia]).
  lia.
Qed.

Lemma swrap_small w z : 0 < w -> sint w z -> swrap w z = z.
Proof.
  intros Hw [H1 H2]. unfold swrap. rewrite Z.mod_small; [lia|].
  replace (2 ^ w) with (2 * 2 ^ (w - 1)) by (rewrite <- Z.pow_succ_r; [f_equal; lia | lia]).
  lia.
Qed.

Lemma swrap_wrap w z : 0 < w -> swrap w (wrap w z) = swrap w z.
Proof.
  intros Hw. unfold swrap, wrap.
  rewrite Z.add_mod_idemp_l; [done | lia].
Qed.

Lemma wrap_swrap w z : 0 < w -> wrap w (swrap w z) = wrap w z.
Proof.
  intros Hw. unfold swrap, wrap.
  rewrite Zminus_mod_idemp_l. f_equal. lia.
Qed.

Lemma wrap_wrap w z : 0 <= w -> wrap w (wrap w z) = wrap w z.
Proof. intros. unfold wrap. apply Z.mod_mod. lia. Qed.

(** A narrower conversion absorbs a wider one. *)
Lemma wrap_wrap_le w w' z : 0 <= w <= w' -> wrap w (wrap w' z) = wrap w z.
Proof.
  intros Hw. apply Z.bits_inj'. intros i Hi. unfold wrap.
  rewrite !Z.testbit_mod_pow2 by lia.
  destruct (Z.ltb_spec i w), (Z.ltb_spec i w'); simpl; lia || done.
Qed.

(** Bits of a converted value. *)
Lemma testbit_wrap w z i :
  0 <= w -> 0 <= i -> Z.testbit (wrap w z) i = (i <? w) && Z.testbit z i.
Proof.
  intros Hw Hi. unfold wrap. rewrite Z.testbit_mod_pow2 by lia. done.
Qed.

(** [zbits i] proves an equality of integers bit by bit. *)
Ltac zbits_norm :=
  repeat first
    [ rewrite Z.lor_spec | rewrite Z.land_spec | rewrite Z.lxor_spec
    | rewrite Z.shiftr_spec by lia | rewrite testbit_wrap by lia
    | rewrite Z.testbit_ones_nonneg by lia | rewrite Z.bits_0 ].

(** [lia] with division and remainder by constants. *)
Ltac dlia := Z.to_euclidean_division_equations; lia.

Create HintDb cint.
Create Rewrite HintDb cint.
#[export] Hint Rewrite wrap_wrap swrap_wrap wrap_swrap using lia : cint.
#[export] Hint Resolve wrap_uint swrap_sint : cint.

(** * Bytes in memory

    An allocation is the list of its bytes, each an unsigned 8-bit value; a
    pointer into it is an index.  A read or a write outside the list is a
    [Fault]. *)

Abbreviation bytes := (list Z).

(** A possibly NULL pointer to an allocation. *)
Abbreviation ptr := (option (list Z)).

Definition is_byte (b : Z) : Prop := uint 8 b.
Abbreviation all_bytes := (Forall is_byte).

Definition load (buf : bytes) (i : Z) : cres Z :=
  if i <? 0 then Fault else of_option (buf !! Z.to_nat i).

Definition store (buf : bytes) (i b : Z) : cres bytes :=
  if (i <? 0) || (Z.of_nat (length buf) <=? i) then Fault
  else Ret (<[Z.to_nat i := u8 b]> buf).

(** [load_bytes buf i n] reads [n] bytes from [buf + i]; [store_bytes] is
    [memcpy] to [buf + i]. *)
Fixpoint load_bytes (buf : bytes) (i : Z) (n : nat) : cres bytes :=
  match n with
  | O => Ret []
  | S n' => b ← load buf i; bs ← load_bytes buf (i + 1) n'; Ret (b :: bs)
  end.

Fixpoint store_bytes (buf : bytes) (i : Z) (bs : bytes) : cres bytes :=
  match bs with
  | [] => Ret buf
  | b :: bs' => buf' ← store buf i b; store_bytes buf' (i + 1) bs'
  end.

(** Reference semantics of a block write. *)
Definition splice (i : Z) (bs buf : bytes) : bytes :=
  take (Z.to_nat i) buf ++ bs ++ drop (Z.to_nat i + length bs) buf.

Definition room (buf : bytes) (i : Z) (n : nat) : Prop :=
  0 <= i /\ i + Z.of_nat n <= Z.of_nat (length buf).

Lemma load_loop_free buf i : loop_free (load buf i).
Proof. unfold load. case_match; [done|apply loop_free_of_option]. Qed.
#[export] Hint Resolve load_loop_free : loop_free.

Lemma load_in buf i :
  0 <= i < Z.of_nat (length buf) -> exists b, load buf i = Ret b /\ buf !! Z.to_nat i = Some b.
Proof.
  intros H. unfold load. destruct (Z.ltb_spec i 0); [lia|].
  destruct (lookup_lt_is_Some_2 buf (Z.to_nat i)) as [b Hb]; [lia|].
  exists b. by rewrite Hb.
Qed.

Lemma load_lookup buf i b :
  0 <= i -> buf !! Z.to_nat i = Some b -> load buf i = Ret b.
Proof. intros ? Hb. unfold load. destruct (Z.ltb_spec i 0); [lia|]. by rewrite Hb. Qed.

Lemma load_Ret buf i b :
  load buf i = Ret b -> 0 <= i < Z.of_nat (length buf) /\ buf !! Z.to_nat i = Some b.
Proof.
  unfold load. destruct (Z.ltb_spec i 0); [done|].
  destruct (buf !! Z.to_nat i) eqn:E; simpl; [|done]. intros [= <-].
  apply lookup_lt_Some in E as ?. split; [lia|done].
Qed.

Lemma load_oob buf i : i < 0 \/ Z.of_nat (length buf) <= i -> load buf i = Fault.
Proof.
  intros H. unfold load. destruct (Z.ltb_spec i 0); [done|].
  rewrite lookup_ge_None_2; [done|lia].
Qed.

Lemma store_in buf i b :
  0 <= i < Z.of_nat (length buf) -> store buf i b = Ret (<[Z.to_nat i := u8 b]> buf).
Proof.
  intros H. unfold store.
  destruct (Z.ltb_spec i 0), (Z.leb_spec (Z.of_nat (length buf)) i); simpl; lia || done.
Qed.

Lemma length_splice i bs buf : room buf i (length bs) -> length (splice i bs buf) = length buf.
Proof. intros [? ?]. unfold splice. rewrite !length_app, length_take, length_drop. lia. Qed.

Lemma splice_0 bs buf : splice 0 bs buf = bs ++ drop (length bs) buf.
Proof. reflexivity. Qed.

Lemma splice_nil i buf : splice i [] buf = buf.
Proof. unfold splice. simpl. by rewrite Nat.add_0_r, take_drop. Qed.

Lemma store_bytes_splice buf i bs :
  room buf i (length bs) -> store_bytes buf i bs = Ret (splice i (map (wrap 8) bs) buf).
Proof.
  revert buf i. induction bs as [|b bs IH]; intros buf i [Hi Hlen].
  - unfold splice. simpl. rewrite Nat.add_0_r, take_drop. done.
  - simpl length in Hlen. change (store_bytes buf i (b :: bs)) with
      (buf' ← store buf i b; store_bytes buf' (i + 1) bs).
    rewrite store_in by lia. rewrite bind_ret, IH.
    2: { split; [lia|]. rewrite length_insert. lia. }
    f_equal. unfold splice. simpl map. rewrite length_cons, !length_map.
    replace (Z.to_nat (i + 1)) with (S (Z.to_nat i)) by lia.
    rewrite (take_S_r _ _ (wrap 8 b)) by (apply list_lookup_insert_eq; lia).
    rewrite take_insert_ge by lia. rewrite drop_insert_lt by lia.
    rewrite <- !app_assoc. simpl. do 4 f_equal. lia.
Qed.

Lemma lookup_splice_in i bs buf k :
  room buf i (length bs) -> (k < length bs)%nat ->
  splice i bs buf !! (Z.to_nat i + k)%nat = bs !! k.
Proof.
  intros [? ?] Hk. unfold splice.
  rewrite lookup_app_r; rewrite length_take; [|lia].
  rewrite lookup_app_l by lia. f_equal. lia.
Qed.

Lemma lookup_splice_out i bs buf k :
  room buf i (length bs) ->
  (k < Z.to_nat i \/ Z.to_nat i + length bs <= k)%nat ->
  splice i bs buf !! k = buf !! k.
Proof.
  intros [? ?] Hk. unfold splice.
  destruct (decide (k < Z.to_nat i)%nat).
  - rewrite lookup_app_l by (rewrite length_take; lia). by apply lookup_take_lt.
  - rewrite lookup_app_r; rewrite length_take; [|lia].
    rewrite lookup_app_r by lia. rewrite lookup_drop. f_equal. lia.
Qed.

Lemma load_splice_in i bs buf j b :
  room buf i (length bs) -> i <= j < i + Z.of_nat (length bs) ->
  bs !! Z.to_nat (j - i) = Some b -> load (splice i bs buf) j = Ret b.
Proof.
  intros Hr Hj Hb. pose proof Hr as [? ?]. apply load_lookup; [lia|].
  replace (Z.to_nat j) with (Z.to_nat i + Z.to_nat (j - i))%nat by lia.
  rewrite lookup_splice_in by (done || lia). done.
Qed.

Lemma load_splice_out i bs buf j :
  room buf i (length bs) -> j < i \/ i + Z.of_nat (length bs) <= j ->
  load (splice i bs buf) j = load buf j.
Proof.
  intros Hr Hj. pose proof Hr as [? ?]. unfold load.
  destruct (Z.ltb_spec j 0); [done|]. rewrite lookup_splice_out; [done|done|lia].
Qed.

Lemma load_bytes_ext buf buf' i n :
  (forall j, i <= j < i + Z.of_nat n -> load buf j = load buf' j) ->
  load_bytes buf i n = load_bytes buf' i n.
Proof.
  revert i. induction n as [|n IH]; intros i H; [done|]. simpl.
  rewrite H by lia. rewrite (IH (i + 1)); [done|]. intros. apply H. lia.
Qed.

Lemma load_bytes_in buf i n :
  room buf i n -> load_bytes buf i n = Ret (take n (drop (Z.to_nat i) buf)).
Proof.
  revert i. induction n as [|n IH]; intros i [Hi Hn]; [done|].
  destruct (load_in buf i) as (b & Hb & Hl); [lia|].
  simpl. rewrite Hb. simpl. rewrite IH by (split; lia). simpl.
  rewrite (drop_S buf b (Z.to_nat i)) by done. simpl. do 4 f_equal. lia.
Qed.

Lemma load_bytes_splice i bs buf :
  room buf i (length bs) -> load_bytes (splice i bs buf) i (length bs) = Ret bs.
Proof.
  intros Hr. pose proof Hr as [? ?]. rewrite load_bytes_in.
  2: { split; [lia|]. rewrite length_splice; done. }
  f_equal. unfold splice. rewrite drop_app_length' by (rewrite length_take; lia).
  apply take_app_length.
Qed.

Lemma load_bytes_splice_out i bs buf j n :
  room buf i (length bs) -> j + Z.of_nat n <= i \/ i + Z.of_nat (length bs) <= j ->
  load_bytes (splice i bs buf) j n = load_bytes buf j n.
Proof. intros. apply load_bytes_ext. intros. apply load_splice_out; [done|lia]. Qed.

(** Consecutive block writes and reads. *)
Lemma splice_app i a b buf :
  room buf i (length (a ++ b)) ->
  splice (i + Z.of_nat (length a)) b (splice i a buf) = splice i (a ++ b) buf.
Proof.
  rewrite length_app. intros [Hi Hr]. unfold splice. rewrite length_app.
  replace (Z.to_nat (i + Z.of_nat (length a))) with (Z.to_nat i + length a)%nat by lia.
  rewrite (app_assoc (take _ _) a), take_app_length'.
  2: { rewrite length_app, length_take. lia. }
  rewrite <- !app_assoc. do 2 f_equal. f_equal.
  rewrite app_assoc, drop_app_ge by (rewrite length_app, length_take; lia).
  rewrite drop_drop. f_equal. rewrite length_app, length_take. lia.
Qed.

(** A longer block hides a shorter one at the same place. *)
Lemma splice_overwrite i a b buf :
  room buf i (length b) -> (length a <= length b)%nat -> splice i b (splice i a buf) = splice i b buf.
Proof.
  intros [Hi Hr] Hab. unfold splice.
  rewrite take_app_le, take_take, Nat.min_l by (rewrite ?length_take; lia). do 2 f_equal.
  rewrite drop_app_ge by (rewrite length_take; lia). rewrite length_take, Nat.min_l by lia.
  rewrite drop_app_ge by lia. rewrite drop_drop. f_equal. lia.
Qed.

(** A block written just before another one. *)
Lemma splice_app_before i a b buf :
  room buf i (length (a ++ b)) ->
  splice i a (splice (i + Z.of_nat (length a)) b buf) = splice i (a ++ b) buf.
Proof.
  rewrite length_app. intros [Hi Hr]. unfold splice. rewrite length_app.
  replace (Z.to_nat (i + Z.of_nat (length a))) with (Z.to_nat i + length a)%nat by lia.
  rewrite take_app_le by (rewrite length_take; lia). rewrite take_take, Nat.min_l by lia.
  f_equal. rewrite <- app_assoc. f_equal.
  rewrite drop_app_length' by (rewrite length_take; lia). do 2 f_equal. lia.
Qed.

(** A block written over one of the same length. *)
Lemma splice_middle a bs cs b :
  length cs = length bs -> splice (Z.of_nat (length a)) bs (a ++ cs ++ b) = a ++ bs ++ b.
Proof.
  intros Hl. unfold splice. rewrite Nat2Z.id, take_app_length, <- Hl. do 2 f_equal.
  rewrite app_assoc. apply drop_app_length'. by rewrite length_app.
Qed.

(** Two adjacent elements of a list. *)
Lemma split_two {A} (l : list A) j :
  (j + 2 <= length l)%nat -> exists a x y b, l = a ++ [x; y] ++ b /\ length a = j.
Proof.
  intros Hj. destruct (drop j l) as [|x [|y b]] eqn:E;
    try (apply (f_equal length) in E; rewrite length_drop in E; simpl in E; lia).
  exists (take j l), x, y, b. split; [|rewrite length_take; lia].
  change ([x; y] ++ b) with (x :: y :: b). by rewrite <- E, take_drop.
Qed.

(** Reading through a pointer into the middle of an allocation. *)
Lemma load_drop buf k i : 0 <= i -> load (drop k buf) i = load buf (Z.of_nat k + i).
Proof.
  intros Hi. unfold load. destruct (Z.ltb_spec i 0), (Z.ltb_spec (Z.of_nat k + i) 0); try lia.
  rewrite lookup_drop. do 2 f_equal. lia.
Qed.

Lemma load_bytes_drop buf k i n :
  0 <= i -> load_bytes (drop k buf) i n = load_bytes buf (Z.of_nat k + i) n.
Proof.
  revert i. induction n as [|n IH]; intros i Hi; [done|]. simpl.
  rewrite load_drop, IH by lia. by rewrite Z.add_assoc.
Qed.

Lemma load_bytes_app buf i a b :
  load_bytes buf i (length (a ++ b)) = Ret (a ++ b) <->
  load_bytes buf i (length a) = Ret a /\
  load_bytes buf (i + Z.of_nat (length a)) (length b) = Ret b.
Proof.
  revert i. induction a as [|x a IH]; intros i; simpl.
  - rewrite Z.add_0_r. naive_solver.
  - destruct (load buf i); simpl; [|naive_solver..].
    specialize (IH (i + 1)).
    replace (i + Z.of_nat (S (length a))) with (i + 1 + Z.of_nat (length a)) by lia.
    destruct (load_bytes buf (i + 1) (length (a ++ b))), (load_bytes buf (i + 1) (length a));
      simpl; naive_solver.
Qed.

Lemma load_bytes_room buf i n bs : load_bytes buf i n = Ret bs -> (0 < n)%nat -> room buf i n.
Proof.
  revert i bs. induction n as [|n IH]; intros i bs; [lia|]. simpl.
  intros (b & Hb & (bs' & Hbs & _)%bind_Ret_inv)%bind_Ret_inv _.
  apply load_Ret in Hb as [? _]. destruct n; [split; lia|].
  destruct (IH _ _ Hbs); [lia|]. split; lia.
Qed.

Lemma load_bytes_length buf i n bs : load_bytes buf i n = Ret bs -> length bs = n.
Proof.
  revert i bs. induction n as [|n IH]; intros i bs; simpl; [by intros [= <-]|].
  intros (b & Hb & (bs' & Hbs & [= <-])%bind_Ret_inv)%bind_Ret_inv. simpl. f_equal. eauto.
Qed.

Lemma load_bytes_fuel buf i n : loop_free (load_bytes buf i n).
Proof.
  revert i. induction n as [|n IH]; intros i; [done|]. simpl.
  unfold load. destruct (i <? 0); [done|]. destruct (buf !! Z.to_nat i); [simpl|done].
  specialize (IH (i + 1)). by destruct (load_bytes buf (i + 1) n).
Qed.

#[export] Hint Resolve load_bytes_fuel : loop_free.

Lemma load_bytes_Fault buf i n : ~ room buf i n -> (0 < n)%nat -> load_bytes buf i n = Fault.
Proof.
  intros Hr Hn. pose proof (load_bytes_fuel buf i n).
  destruct (load_bytes buf i n) as [bs| |] eqn:E; [|done|done].
  by destruct Hr; apply load_bytes_room with bs.
Qed.

(** A block write past the end of the allocation faults. *)
Lemma store_bytes_Fault buf i bs :
  0 <= i -> Z.of_nat (length buf) < i + Z.of_nat (length bs) -> bs <> [] -> store_bytes buf i bs = Fault.
Proof.
  revert buf i. induction bs as [|b bs IH]; intros buf i Hi Hl Hne; [done|]. simpl in Hl |- *.
  destruct (decide (i < Z.of_nat (length buf))).
  - rewrite store_in by lia. simpl. apply IH; [lia| |].
    + rewrite length_insert. lia.
    + intros ->. simpl in *. lia.
  - unfold store. destruct (Z.leb_spec (Z.of_nat (length buf)) i); [|lia]. by rewrite orb_true_r.
Qed.

(** * Shift arithmetic *)

Lemma lor_shiftl_add a b k :
  0 <= k -> 0 <= b < 2 ^ k -> Z.lor (Z.shiftl a k) b = a * 2 ^ k + b.
Proof.
  intros Hk Hb. rewrite <- Z.shiftl_mul_pow2 by done.
  assert (Z.land (Z.shiftl a k) b = 0) as Hand.
  { apply Z.bits_inj'. intros i Hi. rewrite Z.land_spec, Z.bits_0.
    destruct (decide (i < k)).
    - by rewrite Z.shiftl_spec_low by lia.
    - rewrite <- (wrap_small k b), testbit_wrap by done.
      destruct (Z.ltb_spec i k); [lia|]. apply andb_false_r. }
  rewrite <- Z.lxor_lor by done. symmetry. by apply Z.add_nocarry_lxor.
Qed.

Lemma lor_add_shiftl a b k :
  0 <= k -> 0 <= b < 2 ^ k -> Z.lor b (Z.shiftl a k) = b + a * 2 ^ k.
Proof. intros. rewrite Z.lor_comm, lor_shiftl_add by done. lia. Qed.

Lemma uint_lxor w a b : 0 <= w -> uint w a -> uint w b -> uint w (Z.lxor a b).
Proof.
  intros Hw Ha Hb. replace (Z.lxor a b) with (wrap w (Z.lxor a b)); [by apply wrap_uint|].
  apply Z.bits_inj'. intros i Hi. rewrite testbit_wrap, !Z.lxor_spec by done.
  rewrite <- (wrap_small w a Ha), <- (wrap_small w b Hb), !testbit_wrap by done.
  by destruct (i <? w).
Qed.

(** Bit 7 of a byte, the continuation or sign bit. *)
Lemma land_cont v : 0 <= v -> (Z.land v 0x80 =? 0) = (v mod 256 <? 128).
Proof.
  intros Hv. change 0x80 with (Z.shiftl 1 7) at 1.
  replace (v mod 256) with (u8 v) by done.
  assert (Z.land v (Z.shiftl 1 7) = if Z.testbit v 7 then 128 else 0) as ->.
  { apply Z.bits_inj'. intros i Hi. rewrite Z.land_spec, Z.shiftl_spec by lia.
    destruct (decide (i = 7)) as [->|Hne].
    - change (Z.testbit 1 (7 - 7)) with true. rewrite andb_true_r. by destruct (Z.testbit v 7).
    - replace (Z.testbit 1 (i - 7)) with false.
      + rewrite andb_false_r. destruct (Z.testbit v 7); [|by rewrite Z.bits_0].
        change 128 with (2 ^ 7). by rewrite Z.pow2_bits_eqb, (proj2 (Z.eqb_neq 7 i)) by lia.
      + symmetry. destruct (decide (i < 7)); [apply Z.testbit_neg_r; lia|].
        apply Z.bits_above_log2; simpl; lia. }
  destruct (Z.testbit v 7) eqn:E.
  - destruct (Z.ltb_spec (u8 v) 128); [exfalso|done].
        apply Z.testbit_true in E; [|lia]. unfold wrap in *. change (2 ^ 7) with 128 in E.
    change (2 ^ 8) with 256 in *. dlia.
  - destruct (Z.ltb_spec (u8 v) 128); [done|exfalso].
    apply Z.testbit_false in E; [|lia]. unfold wrap in *. change (2 ^ 7) with 128 in E.
    change (2 ^ 8) with 256 in *. dlia.
Qed.

(** * Return codes of the OceanBase modules (include/ma_global.h) *)

Definition OB_SUCCESS : Z := 0.
Definition OB_ERROR : Z := -4000.
Definition OB_SIZE_OVERFLOW : Z := -4019.
Definition OB_DESERIALIZE_ERROR : Z := -4034.

(** ** Bytes stored as they are *)

Lemma map_u8_bytes bs : all_bytes bs -> map (wrap 8) bs = bs.
Proof. induction 1 as [|b bs Hb _ IH]; simpl; [done|]. by rewrite wrap_small, IH. Qed.

Lemma store_splice1 buf i b : is_byte b -> room buf i 1 -> store buf i b = Ret (splice i [b] buf).
Proof.
  intros Hb Hr. rewrite <- (bind_ret_r (store buf i b)). change (store_bytes buf i [b] = Ret (splice i [b] buf)).
  rewrite store_bytes_splice by done. simpl. by rewrite wrap_small.
Qed.

Lemma splice_front (a b rest : bytes) :
  (length b <= length rest)%nat -> splice (Z.of_nat (length a)) b (a ++ rest) = a ++ b ++ drop (length b) rest.
Proof.
  intros Hl. rewrite <- (take_drop (length b) rest) at 1. apply splice_middle. rewrite length_take. lia.
Qed.

(** ** realloc *)

(** realloc to [n] bytes; new memory holds [junk]. *)
Definition resize (junk n : Z) (buf : bytes) : bytes :=
  take (Z.to_nat n) buf ++ repeat junk (Z.to_nat n - length buf).

Lemma length_resize j n b : 0 <= n -> Z.of_nat (length (resize j n b)) = n.
Proof. intros. unfold resize. rewrite length_app, length_take, repeat_length. lia. Qed.

Lemma take_resize j n k b :
  (k <= length b)%nat -> Z.of_nat k <= n -> take k (resize j n b) = take k b.
Proof.
  intros Hk Hn. unfold resize. rewrite take_app_le by (rewrite length_take; lia).
  rewrite take_take. f_equal. lia.
Qed.

Lemma resize_grow j n (b : bytes) : Z.of_nat (length b) <= n ->
  resize j n b = b ++ repeat j (Z.to_nat n - length b).
Proof. intros Hn. unfold resize. by rewrite take_ge by lia. Qed.

(** ** Strings of C *)

(** strlen: the number of bytes before the first NUL; running off the allocation faults. *)
Fixpoint strlen (s : bytes) : cres Z :=
  match s with
  | [] => Fault
  | c :: s' => if c =? 0 then Ret 0 else n ← strlen s'; Ret (n + 1)
  end.

Lemma strlen_cstr data rest :
  Forall (fun c => 0 < c < 256) data -> strlen (data ++ 0 :: rest) = Ret (Z.of_nat (length data)).
Proof.
  induction 1 as [|c data Hc _ IH]; [done|]. simpl.
  destruct (Z.eqb_spec c 0); [lia|]. rewrite IH, bind_ret. f_equal. lia.
Qed.
