(* ===== verification/IntStore.v ===== *)
(** Byte-order macros of include/ma_global.h (the branch for machines other than
    IA-32): [int1store] .. [int8store] write an integer low byte first,
    [uint1korr] .. [sint8korr] read it back.

    The macros are modelled one by one; [le_bytes] and [le_val] are the
    reference little-endian encoding that all of them are shown to implement. *)

From stdpp Require Import tactics.
From S2P Require Import Prelude.

(** * Reference encoding *)

Fixpoint le_bytes (n : nat) (v : Z) : bytes :=
  match n with O => [] | S n' => u8 v :: le_bytes n' (Z.shiftr v 8) end.

Fixpoint le_val (bs : bytes) : Z :=
  match bs with [] => 0 | b :: bs' => b + 256 * le_val bs' end.

(** * The store macros *)

Definition int1store (buf : bytes) (t a : Z) : cres bytes := store buf t a.

Definition int2store (buf : bytes) (t a : Z) : cres bytes :=
  let def_temp := u32 a in
  buf ← store buf t def_temp;
  store buf (t + 1) (Z.shiftr def_temp 8).

Definition int3store (buf : bytes) (t a : Z) : cres bytes :=
  buf ← store buf t a;
  buf ← store buf (t + 1) (Z.shiftr a 8);
  store buf (t + 2) (Z.shiftr a 16).

Definition int4store (buf : bytes) (t a : Z) : cres bytes :=
  buf ← store buf t a;
  buf ← store buf (t + 1) (Z.shiftr a 8);
  buf ← store buf (t + 2) (Z.shiftr a 16);
  store buf (t + 3) (Z.shiftr a 24).

Definition int5store (buf : bytes) (t a : Z) : cres bytes :=
  buf ← store buf t a;
  buf ← store buf (t + 1) (Z.shiftr a 8);
  buf ← store buf (t + 2) (Z.shiftr a 16);
  buf ← store buf (t + 3) (Z.shiftr a 24);
  store buf (t + 4) (Z.shiftr a 32).

Definition int6store (buf : bytes) (t a : Z) : cres bytes :=
  buf ← store buf t a;
  buf ← store buf (t + 1) (Z.shiftr a 8);
  buf ← store buf (t + 2) (Z.shiftr a 16);
  buf ← store buf (t + 3) (Z.shiftr a 24);
  buf ← store buf (t + 4) (Z.shiftr a 32);
  store buf (t + 5) (Z.shiftr a 40).

Definition int8store (buf : bytes) (t a : Z) : cres bytes :=
  let def_temp := u32 a in
  let def_temp2 := u32 (Z.shiftr a 32) in
  buf ← int4store buf t def_temp;
  int4store buf (t + 4) def_temp2.

(** * The load macros *)

Definition uint1korr (buf : bytes) (a : Z) : cres Z := load buf a.

Definition uint2korr (buf : bytes) (a : Z) : cres Z :=
  b0 ← load buf a; b1 ← load buf (a + 1);
  Ret (u16 (b0 + Z.shiftl b1 8)).

Definition uint3korr (buf : bytes) (a : Z) : cres Z :=
  b0 ← load buf a; b1 ← load buf (a + 1); b2 ← load buf (a + 2);
  Ret (u32 (b0 + Z.shiftl b1 8 + Z.shiftl b2 16)).

Definition uint4korr (buf : bytes) (a : Z) : cres Z :=
  b0 ← load buf a; b1 ← load buf (a + 1); b2 ← load buf (a + 2); b3 ← load buf (a + 3);
  Ret (u32 (b0 + Z.shiftl b1 8 + Z.shiftl b2 16 + Z.shiftl b3 24)).

Definition uint8korr (buf : bytes) (a : Z) : cres Z :=
  b0 ← load buf a; b1 ← load buf (a + 1); b2 ← load buf (a + 2); b3 ← load buf (a + 3);
  b4 ← load buf (a + 4); b5 ← load buf (a + 5); b6 ← load buf (a + 6); b7 ← load buf (a + 7);
  let lo := u32 (b0 + Z.shiftl b1 8 + Z.shiftl b2 16 + Z.shiftl b3 24) in
  let hi := u32 (b4 + Z.shiftl b5 8 + Z.shiftl b6 16 + Z.shiftl b7 24) in
  Ret (u64 (lo + Z.shiftl hi 32)).

(** The signed readers take the top byte through a (signed) [char]. *)
Definition sint1korr (buf : bytes) (a : Z) : cres Z := b0 ← load buf a; Ret (s8 b0).

Definition sint2korr (buf : bytes) (a : Z) : cres Z :=
  b0 ← load buf a; b1 ← load buf (a + 1);
  Ret (s16 (b0 + Z.shiftl (s8 b1) 8)).

Definition sint3korr (buf : bytes) (a : Z) : cres Z :=
  b0 ← load buf a; b1 ← load buf (a + 1); b2 ← load buf (a + 2);
  Ret (s32 (if Z.land b2 128 =? 0
            then Z.lor (Z.lor (Z.shiftl b2 16) (Z.shiftl b1 8)) b0
            else Z.lor (Z.lor (Z.lor (Z.shiftl 255 24) (Z.shiftl b2 16)) (Z.shiftl b1 8)) b0)).

Definition sint4korr (buf : bytes) (a : Z) : cres Z :=
  b0 ← load buf a; b1 ← load buf (a + 1); b2 ← load buf (a + 2); b3 ← load buf (a + 3);
  Ret (s32 (b0 + Z.shiftl b1 8 + Z.shiftl b2 16 + Z.shiftl (s8 b3) 24)).

Definition sint8korr (buf : bytes) (a : Z) : cres Z :=
  v ← uint8korr buf a; Ret (s64 v).

(** * Theory of the reference encoding *)

Lemma length_le_bytes n v : length (le_bytes n v) = n.
Proof. revert v. induction n; intros; simpl; auto. Qed.

Lemma le_bytes_bytes n v : all_bytes (le_bytes n v).
Proof. revert v. induction n; intros; simpl; constructor; auto. apply wrap_uint. lia. Qed.

Lemma le_val_le_bytes n v : le_val (le_bytes n v) = wrap (8 * Z.of_nat n) v.
Proof.
  revert v. induction n as [|n IH]; intros v; simpl le_bytes; simpl le_val.
  - unfold wrap. simpl. by rewrite Z.mod_1_r.
  - rewrite IH. unfold wrap. rewrite Z.shiftr_div_pow2 by lia.
    replace (8 * Z.of_nat (S n)) with (8 + 8 * Z.of_nat n) by lia.
    rewrite Z.pow_add_r, Z.rem_mul_r by lia. change (2 ^ 8) with 256. lia.
Qed.

Lemma le_bytes_wrap n w v : 8 * Z.of_nat n <= w -> le_bytes n (wrap w v) = le_bytes n v.
Proof.
  revert v w. induction n as [|n IH]; intros v w Hw; [done|]. simpl. f_equal.
  - apply wrap_wrap_le. lia.
  - replace (Z.shiftr (wrap w v) 8) with (wrap (w - 8) (Z.shiftr v 8)).
    + apply IH. lia.
    + apply Z.bits_inj'. intros i Hi.
      rewrite testbit_wrap, !Z.shiftr_spec, testbit_wrap by lia.
      f_equal. destruct (Z.ltb_spec i (w - 8)), (Z.ltb_spec (i + 8) w); lia || done.
Qed.

Lemma le_val_bound bs : all_bytes bs -> 0 <= le_val bs < 2 ^ (8 * Z.of_nat (length bs)).
Proof.
  induction 1 as [|b bs [Hb1 Hb2] Hbs IH]; [simpl; lia|]. simpl le_val.
  replace (8 * Z.of_nat (length (b :: bs))) with (8 + 8 * Z.of_nat (length bs)) by (simpl length; lia).
  rewrite Z.pow_add_r by lia. change (2 ^ 8) with 256 in *. lia.
Qed.

Lemma le_val_inj bs bs' :
  all_bytes bs -> all_bytes bs' -> length bs = length bs' -> le_val bs = le_val bs' -> bs = bs'.
Proof.
  intros H. revert bs'. induction H as [|b bs Hb Hbs IH]; intros [|b' bs'] H' Hl Hv; try done.
  apply Forall_cons in H' as [Hb' Hbs']. simpl in Hv, Hl.
  unfold is_byte, uint in *. change (2 ^ 8) with 256 in *.
  assert (b = b' /\ le_val bs = le_val bs') as [-> E] by lia. f_equal. apply IH; auto.
Qed.

Lemma le_bytes_le_val bs n : all_bytes bs -> length bs = n -> le_bytes n (le_val bs) = bs.
Proof.
  intros Hb <-. apply le_val_inj; [apply le_bytes_bytes|done|apply length_le_bytes|].
  rewrite le_val_le_bytes. apply wrap_small, le_val_bound, Hb.
Qed.

(** * The store macros implement the reference encoding *)

Lemma store_u8 buf i b : store buf i (u8 b) = store buf i b.
Proof. unfold store. by rewrite wrap_wrap by lia. Qed.

Lemma store_same_byte buf i a b : u8 a = u8 b -> store buf i a = store buf i b.
Proof. intros H. rewrite <- store_u8, H. apply store_u8. Qed.

Lemma u8_shiftr_wrap w a k : 0 <= k -> k + 8 <= w -> u8 (Z.shiftr (wrap w a) k) = u8 (Z.shiftr a k).
Proof.
  intros ? ?. apply Z.bits_inj'. intros i Hi.
  rewrite !testbit_wrap, !Z.shiftr_spec, testbit_wrap by lia.
  destruct (Z.ltb_spec i 8); [|done]. destruct (Z.ltb_spec (i + k) w); lia || done.
Qed.

Lemma store_bytes_app buf i bs bs' :
  store_bytes buf i (bs ++ bs') =
  (buf' ← store_bytes buf i bs; store_bytes buf' (i + Z.of_nat (length bs)) bs').
Proof.
  revert buf i. induction bs as [|b bs IH]; intros buf i; simpl.
  - by rewrite Z.add_0_r.
  - destruct (store buf i b); simpl; [|done|done]. rewrite IH.
    destruct (store_bytes a (i + 1) bs); simpl; [|done|done]. f_equal. lia.
Qed.

(** A macro is the chain of byte stores it expands to. *)
Ltac macro_chain :=
  cbn [store_bytes];
  repeat match goal with
  | |- context [?t + Zpos ?p + Zpos ?r] =>
      let q := eval compute in (Zpos p + Zpos r) in
      replace (t + Zpos p + Zpos r) with (t + q) by lia
  end;
  repeat match goal with
  | |- (?m ≫= _) = (?m ≫= _) => destruct m; [rewrite !bind_ret | done | done]
  end;
  symmetry; apply bind_ret_r.

Lemma int2store_chain buf t a :
  int2store buf t a = store_bytes buf t [u32 a; Z.shiftr (u32 a) 8].
Proof. unfold int2store. macro_chain. Qed.

Lemma int3store_chain buf t a :
  int3store buf t a = store_bytes buf t [a; Z.shiftr a 8; Z.shiftr a 16].
Proof. unfold int3store. macro_chain. Qed.

Lemma int4store_chain buf t a :
  int4store buf t a = store_bytes buf t [a; Z.shiftr a 8; Z.shiftr a 16; Z.shiftr a 24].
Proof. unfold int4store. macro_chain. Qed.

Lemma int5store_chain buf t a :
  int5store buf t a =
  store_bytes buf t [a; Z.shiftr a 8; Z.shiftr a 16; Z.shiftr a 24; Z.shiftr a 32].
Proof. unfold int5store. macro_chain. Qed.

Lemma int6store_chain buf t a :
  int6store buf t a =
  store_bytes buf t [a; Z.shiftr a 8; Z.shiftr a 16; Z.shiftr a 24; Z.shiftr a 32; Z.shiftr a 40].
Proof. unfold int6store. macro_chain. Qed.

Lemma int8store_chain buf t a :
  int8store buf t a =
  store_bytes buf t
    ([u32 a; Z.shiftr (u32 a) 8; Z.shiftr (u32 a) 16; Z.shiftr (u32 a) 24] ++
     (let h := u32 (Z.shiftr a 32) in [h; Z.shiftr h 8; Z.shiftr h 16; Z.shiftr h 24])).
Proof.
  unfold int8store. rewrite store_bytes_app, <- int4store_chain.
  destruct (int4store _ _ _); [rewrite !bind_ret | done | done]. apply int4store_chain.
Qed.

(** With room in the allocation each macro writes the reference bytes and
    nothing else. *)
Section store_splice.
Context (buf : bytes) (t a : Z).

Ltac by_chain lem :=
  intros Hr; rewrite lem, store_bytes_splice by exact Hr; do 2 f_equal;
  simpl; repeat (apply (f_equal2 cons));
  rewrite ?u8_shiftr_wrap, ?wrap_wrap_le, ?Z.shiftr_shiftr by lia; reflexivity.

Lemma int1store_splice : room buf t 1 -> int1store buf t a = Ret (splice t (le_bytes 1 a) buf).
Proof.
  intros Hr. change (int1store buf t a) with (store buf t a).
  rewrite <- (bind_ret_r (store buf t a)). change (store_bytes buf t [a] = Ret (splice t (le_bytes 1 a) buf)).
  by rewrite store_bytes_splice.
Qed.

Lemma int2store_splice : room buf t 2 -> int2store buf t a = Ret (splice t (le_bytes 2 a) buf).
Proof. by_chain int2store_chain. Qed.

Lemma int3store_splice : room buf t 3 -> int3store buf t a = Ret (splice t (le_bytes 3 a) buf).
Proof. by_chain int3store_chain. Qed.

Lemma int4store_splice : room buf t 4 -> int4store buf t a = Ret (splice t (le_bytes 4 a) buf).
Proof. by_chain int4store_chain. Qed.

Lemma int5store_splice : room buf t 5 -> int5store buf t a = Ret (splice t (le_bytes 5 a) buf).
Proof. by_chain int5store_chain. Qed.

Lemma int6store_splice : room buf t 6 -> int6store buf t a = Ret (splice t (le_bytes 6 a) buf).
Proof. by_chain int6store_chain. Qed.

Lemma int8store_splice : room buf t 8 -> int8store buf t a = Ret (splice t (le_bytes 8 a) buf).
Proof. by_chain int8store_chain. Qed.
End store_splice.

(** * The load macros read the reference encoding *)

Lemma load_bytes_cons buf i n bs :
  load_bytes buf i (S n) = Ret bs ->
  exists b bs', bs = b :: bs' /\ load buf i = Ret b /\ load_bytes buf (i + 1) n = Ret bs'.
Proof.
  simpl. intros (b & Hb & H)%bind_Ret_inv. apply bind_Ret_inv in H as (bs' & Hbs & [= <-]). eauto.
Qed.

Lemma swrap_period w z k : 0 < w -> swrap w (z + k * 2 ^ w) = swrap w z.
Proof.
  intros. unfold swrap. replace (z + k * 2 ^ w + 2 ^ (w - 1)) with (z + 2 ^ (w - 1) + k * 2 ^ w) by lia.
  by rewrite Z_mod_plus_full.
Qed.

Lemma s8_byte b : is_byte b -> s8 b = b \/ s8 b = b - 256.
Proof.
  intros [H1 H2]. destruct (decide (b < 128)).
  - left. apply swrap_small; [lia|]. unfold sint. change (2 ^ (8 - 1)) with 128. lia.
  - right. rewrite <- (swrap_small 8 (b - 256)); [|lia|].
    + rewrite <- (swrap_period 8 (b - 256) 1) by lia. f_equal. lia.
    + unfold sint. change (2 ^ (8 - 1)) with 128. change (2 ^ 8) with 256 in *. lia.
Qed.

Lemma sint3_value b0 b1 b2 :
  is_byte b0 -> is_byte b1 -> is_byte b2 ->
  s32 (if Z.land b2 128 =? 0
       then Z.lor (Z.lor (Z.shiftl b2 16) (Z.shiftl b1 8)) b0
       else Z.lor (Z.lor (Z.lor (Z.shiftl 255 24) (Z.shiftl b2 16)) (Z.shiftl b1 8)) b0)
  = swrap 24 (b0 + 256 * b1 + 65536 * b2).
Proof.
  unfold is_byte, uint. intros H0 H1 H2.
  assert (forall l, Z.lor (Z.lor l (Z.shiftl b1 8)) b0 = Z.lor l (b1 * 256 + b0)) as E.
  { intros l. by rewrite <- Z.lor_assoc, lor_shiftl_add by lia. }
  rewrite !E. rewrite <- (Z.lor_assoc (Z.shiftl 255 24)).
  rewrite !(lor_shiftl_add b2 _ 16), lor_shiftl_add by lia.
  rewrite land_cont, Z.mod_small by lia. destruct (Z.ltb_spec b2 128).
  - rewrite !swrap_small by (unfold sint; lia). lia.
  - rewrite <- (swrap_period 24 _ (-1)), (swrap_small 24) by (unfold sint; lia).
    rewrite <- (swrap_period 32 _ (-1)), swrap_small by (unfold sint; lia). lia.
Qed.

Section korr.
Context (buf : bytes) (a : Z) (bs : bytes).
Hypothesis Hbytes : all_bytes bs.

(** Names the bytes read and rewrites the loads with them. *)
Ltac read_all H :=
  repeat (apply load_bytes_cons in H as (? & ? & -> & ?Hl & H));
  injection H as <-;
  repeat match goal with
  | H : context [?t + Zpos ?p + Zpos ?r] |- _ =>
      let q := eval compute in (Zpos p + Zpos r) in
      replace (t + Zpos p + Zpos r) with (t + q) in H by lia
  end;
  repeat match goal with H : load _ _ = Ret _ |- _ => rewrite H; clear H end;
  rewrite ?bind_ret;
  repeat match goal with H : all_bytes (_ :: _) |- _ => apply Forall_cons in H as [? H] end;
  unfold is_byte, uint in *; change (2 ^ 8) with 256 in *;
  cbn [le_val]; rewrite ?Z.shiftl_mul_pow2 by lia.

(** A [char] read as signed differs by 0 or 256 from the byte. *)
Ltac s8_cases :=
  match goal with |- context [s8 ?b] =>
    destruct (s8_byte b) as [->| ->]; [unfold is_byte, uint; lia | f_equal; lia |]
  end;
  match goal with |- swrap ?w ?x = swrap ?w ?y =>
    replace y with (x + 1 * 2 ^ w) by lia; symmetry; apply swrap_period; lia
  end.

Lemma uint1korr_load : load_bytes buf a 1 = Ret bs -> uint1korr buf a = Ret (le_val bs).
Proof. intros H. unfold uint1korr. read_all H. f_equal. lia. Qed.

Lemma uint2korr_load : load_bytes buf a 2 = Ret bs -> uint2korr buf a = Ret (le_val bs).
Proof. intros H. unfold uint2korr. read_all H. rewrite wrap_small; [f_equal|unfold uint]; lia. Qed.

Lemma uint3korr_load : load_bytes buf a 3 = Ret bs -> uint3korr buf a = Ret (le_val bs).
Proof. intros H. unfold uint3korr. read_all H. rewrite wrap_small; [f_equal|unfold uint]; lia. Qed.

Lemma uint4korr_load : load_bytes buf a 4 = Ret bs -> uint4korr buf a = Ret (le_val bs).
Proof. intros H. unfold uint4korr. read_all H. rewrite wrap_small; [f_equal|unfold uint]; lia. Qed.

Lemma uint8korr_load : load_bytes buf a 8 = Ret bs -> uint8korr buf a = Ret (le_val bs).
Proof.
  intros H. unfold uint8korr. read_all H. cbv zeta.
  rewrite 2!(wrap_small 32) by (unfold uint; lia).
  rewrite wrap_small; [f_equal|unfold uint]; lia.
Qed.

Lemma sint1korr_load : load_bytes buf a 1 = Ret bs -> sint1korr buf a = Ret (s8 (le_val bs)).
Proof. intros H. unfold sint1korr. read_all H. do 2 f_equal. lia. Qed.

Lemma sint2korr_load : load_bytes buf a 2 = Ret bs -> sint2korr buf a = Ret (s16 (le_val bs)).
Proof.
  intros H. unfold sint2korr. read_all H. f_equal. s8_cases.
Qed.

Lemma sint4korr_load : load_bytes buf a 4 = Ret bs -> sint4korr buf a = Ret (s32 (le_val bs)).
Proof.
  intros H. unfold sint4korr. read_all H. f_equal. s8_cases.
Qed.

Lemma sint3korr_load : load_bytes buf a 3 = Ret bs -> sint3korr buf a = Ret (swrap 24 (le_val bs)).
Proof.
  intros H. unfold sint3korr. read_all H. f_equal.
  rewrite <- !Z.shiftl_mul_pow2 by lia. rewrite sint3_value by (unfold is_byte, uint; lia).
  f_equal. lia.
Qed.

Lemma sint8korr_load : load_bytes buf a 8 = Ret bs -> sint8korr buf a = Ret (s64 (le_val bs)).
Proof. intros H. unfold sint8korr. by rewrite uint8korr_load. Qed.
End korr.
