(* ===== verification/Serialize.v ===== *)
(** libmariadb/ob_serialize.c: the variable-length and fixed-length integer codec
    and the length-prefixed string codec of the OceanBase wire formats. *)

From stdpp Require Import tactics.
From S2P Require Import Prelude IntStore.

Module Serialize.

(** * Variable-length integers *)

Definition OB_MAX_V1B : Z := Z.shiftl 1 7 - 1.
Definition OB_MAX_V2B : Z := Z.shiftl 1 14 - 1.
Definition OB_MAX_V3B : Z := Z.shiftl 1 21 - 1.
Definition OB_MAX_V4B : Z := Z.shiftl 1 28 - 1.
Definition OB_MAX_V5B : Z := Z.shiftl 1 35 - 1.
Definition OB_MAX_V6B : Z := Z.shiftl 1 42 - 1.
Definition OB_MAX_V7B : Z := Z.shiftl 1 49 - 1.
Definition OB_MAX_V8B : Z := Z.shiftl 1 56 - 1.
Definition OB_MAX_V9B : Z := Z.shiftl 1 63 - 1.

Definition encoded_length_vi64 (val : Z) : Z :=
  let __v := u64 val in
  if __v <=? OB_MAX_V1B then 1 else
  if __v <=? OB_MAX_V2B then 2 else
  if __v <=? OB_MAX_V3B then 3 else
  if __v <=? OB_MAX_V4B then 4 else
  if __v <=? OB_MAX_V5B then 5 else
  if __v <=? OB_MAX_V6B then 6 else
  if __v <=? OB_MAX_V7B then 7 else
  if __v <=? OB_MAX_V8B then 8 else
  if __v <=? OB_MAX_V9B then 9 else 10.

Definition encoded_length_vi32 (val : Z) : Z :=
  let __v := u32 val in
  if __v <=? OB_MAX_V1B then 1 else
  if __v <=? OB_MAX_V2B then 2 else
  if __v <=? OB_MAX_V3B then 3 else
  if __v <=? OB_MAX_V4B then 4 else 5.

(** The loop shared by [encode_vi64] and [encode_vi32]: writes the groups of
    seven bits of [__v] from the low end; the state is (buf, pos, __v). *)
Fixpoint encode_vi_loop (fuel : nat) (buf : bytes) (pos __v : Z) : cres (bytes * Z * Z) :=
  if __v >? OB_MAX_V1B then
    match fuel with
    | O => OutOfFuel
    | S fuel' =>
        buf ← store buf pos (Z.lor __v 0x80);
        encode_vi_loop fuel' buf (pos + 1) (Z.shiftr __v 7)
    end
  else Ret (buf, pos, __v).

(** The result of an encoder: the return code, the buffer and [*ppos]. *)
Abbreviation enc_result := (Z * ptr * Z)%type.

(** The body of an encoder once the space check has passed. *)
Definition encode_vi_body (buf : bytes) (pos __v : Z) : cres enc_result :=
  '(buf, pos, __v) ← encode_vi_loop 10 buf pos __v;
  if __v <=? OB_MAX_V1B then
    buf ← store buf pos (Z.land __v 0x7f);
    Ret (OB_SUCCESS, Some buf, pos + 1)
  else Ret (OB_SUCCESS, Some buf, pos).

Definition encode_vi64 (buf : ptr) (buf_len ppos val : Z) : cres enc_result :=
  let pos := ppos in
  let __v := u64 val in
  match buf with
  | Some mem =>
      if encoded_length_vi64 __v <=? buf_len - pos
      then encode_vi_body mem pos __v
      else Ret (OB_SIZE_OVERFLOW, buf, ppos)
  | None => Ret (OB_SIZE_OVERFLOW, buf, ppos)
  end.

Definition encode_vi32 (buf : ptr) (buf_len ppos val : Z) : cres enc_result :=
  let pos := ppos in
  let __v := u32 val in
  match buf with
  | Some mem =>
      if encoded_length_vi32 val <=? buf_len - pos
      then encode_vi_body mem pos __v
      else Ret (OB_SIZE_OVERFLOW, buf, ppos)
  | None => Ret (OB_SIZE_OVERFLOW, buf, ppos)
  end.

(** The result of a decoder: the return code, [*ppos] and [*val]. *)
Abbreviation dec_result := (Z * Z * Z)%type.

(** A pointer that is dereferenced without a NULL check. *)
Definition deref (p : ptr) : cres bytes := of_option p.

(** [x << shift] at the unsigned width [w]; a shift by the width or more is
    undefined. *)
Definition shl (w x shift : Z) : cres Z :=
  if shift <? w then Ret (wrap w (Z.shiftl x shift)) else Fault.

(** The loop of [decode_vi64] (w = 64) and [decode_vi32] (w = 32).  The byte
    under [tmp_pos] is read before [tmp_pos] is compared with [data_len]. The
    state is (ret, tmp_pos, __v, shift). *)
Fixpoint decode_vi_loop (w : Z) (fuel : nat) (buf : bytes) (data_len tmp_pos __v shift : Z)
    : cres (Z * Z * Z * Z) :=
  c ← load buf tmp_pos;
  if Z.land c 0x80 =? 0 then Ret (OB_SUCCESS, tmp_pos, __v, shift)
  else match fuel with
  | O => OutOfFuel
  | S fuel' =>
      if data_len - tmp_pos <? 1 then Ret (OB_DESERIALIZE_ERROR, tmp_pos, __v, shift)
      else
        g ← shl w (Z.land c 0x7f) shift;
        decode_vi_loop w fuel' buf data_len (tmp_pos + 1) (Z.lor __v g) (u32 (shift + 7))
  end.

(** The code after the loop: the last group. *)
Definition decode_vi_end (w : Z) (buf : bytes) (data_len pos val : Z)
    (st : Z * Z * Z * Z) : cres dec_result :=
  let '(ret, tmp_pos, __v, shift) := st in
  if ret =? OB_SUCCESS then
    if data_len - tmp_pos <? 1 then Ret (OB_DESERIALIZE_ERROR, pos, val)
    else
      c ← load buf tmp_pos;
      g ← shl w (Z.land c 0x7f) shift;
      Ret (OB_SUCCESS, tmp_pos + 1, swrap w (Z.lor __v g))
  else Ret (ret, pos, val).

(** Eleven rounds of fuel reach a shift of at least 64, where [shl] faults. *)
Definition decode_vi (w : Z) (buf : ptr) (data_len ppos val : Z) : cres dec_result :=
  buf ← deref buf;
  st ← decode_vi_loop w 11 buf data_len ppos 0 0;
  decode_vi_end w buf data_len ppos val st.

Definition decode_vi64 (buf : ptr) (data_len ppos val : Z) : cres dec_result :=
  decode_vi 64 buf data_len ppos val.

Definition decode_vi32 (buf : ptr) (data_len ppos val : Z) : cres dec_result :=
  decode_vi 32 buf data_len ppos val.

(** * Fixed-length integers *)

Definition encoded_length_i8 (val : Z) : Z := 1.

Definition encode_i8 (buf : ptr) (buf_len ppos val : Z) : cres enc_result :=
  let pos := ppos in
  match buf with
  | Some mem =>
      if 1 <=? buf_len - pos then
        mem ← store mem pos val;
        Ret (OB_SUCCESS, Some mem, pos + 1)
      else Ret (OB_SIZE_OVERFLOW, buf, ppos)
  | None => Ret (OB_SIZE_OVERFLOW, buf, ppos)
  end.

(** [int pos = *ppos] converts the position to 32 bits. *)
Definition decode_i8 (buf : ptr) (data_len ppos val : Z) : cres dec_result :=
  let pos := s32 ppos in
  match buf with
  | Some mem =>
      if 1 <=? data_len - pos then
        c ← load mem pos;
        Ret (OB_SUCCESS, pos + 1, s8 c)
      else Ret (OB_DESERIALIZE_ERROR, ppos, val)
  | None => Ret (OB_DESERIALIZE_ERROR, ppos, val)
  end.

Definition encode_i64 (buf : ptr) (buf_len ppos val : Z) : cres enc_result :=
  let pos := s32 ppos in
  match buf with
  | Some mem =>
      if 8 <=? buf_len - pos then
        mem ← store mem pos (Z.land (Z.shiftr val 56) 0xff);
        mem ← store mem (pos + 1) (Z.land (Z.shiftr val 48) 0xff);
        mem ← store mem (pos + 2) (Z.land (Z.shiftr val 40) 0xff);
        mem ← store mem (pos + 3) (Z.land (Z.shiftr val 32) 0xff);
        mem ← store mem (pos + 4) (Z.land (Z.shiftr val 24) 0xff);
        mem ← store mem (pos + 5) (Z.land (Z.shiftr val 16) 0xff);
        mem ← store mem (pos + 6) (Z.land (Z.shiftr val 8) 0xff);
        mem ← store mem (pos + 7) (Z.land val 0xff);
        Ret (OB_SUCCESS, Some mem, pos + 8)
      else Ret (OB_ERROR, buf, ppos)
  | None => Ret (OB_ERROR, buf, ppos)
  end.

(** The local [pos] advances but is never written back to [*ppos]. *)
Definition decode_i64 (buf : ptr) (data_len ppos val : Z) : cres dec_result :=
  let pos := s32 ppos in
  match buf with
  | Some mem =>
      if 8 <=? data_len - pos then
        c0 ← load mem pos;
        c1 ← load mem (pos + 1);
        c2 ← load mem (pos + 2);
        c3 ← load mem (pos + 3);
        c4 ← load mem (pos + 4);
        c5 ← load mem (pos + 5);
        c6 ← load mem (pos + 6);
        c7 ← load mem (pos + 7);
        let val := s64 (Z.shiftl c0 56) in
        let val := Z.lor val (Z.shiftl c1 48) in
        let val := Z.lor val (Z.shiftl c2 40) in
        let val := Z.lor val (Z.shiftl c3 32) in
        let val := Z.lor val (Z.shiftl c4 24) in
        let val := Z.lor val (Z.shiftl c5 16) in
        let val := Z.lor val (Z.shiftl c6 8) in
        let val := Z.lor val c7 in
        Ret (OB_SUCCESS, ppos, val)
      else Ret (OB_ERROR, ppos, val)
  | None => Ret (OB_ERROR, ppos, val)
  end.

(** * Typed wrappers *)

Definition encode_int64_t := encode_vi64.
Definition encode_uint64_t (buf : ptr) (buf_len pos val : Z) := encode_vi64 buf buf_len pos (s64 val).
Definition encode_int32_t := encode_vi32.
Definition encode_uint32_t (buf : ptr) (buf_len pos val : Z) := encode_vi32 buf buf_len pos (s32 val).
Definition encode_int16_t := encode_vi32.
Definition encode_uint16_t := encode_vi32.
Definition encode_int8_t := encode_i8.
Definition encode_uint8_t (buf : ptr) (buf_len pos val : Z) := encode_i8 buf buf_len pos (s8 val).

(** The decoders first clear [*val]; the narrow ones decode 32 bits and convert
    whatever the decoder left. *)
Definition conv_val (f : Z -> Z) (m : cres dec_result) : cres dec_result :=
  '(ret, pos, v) ← m; Ret (ret, pos, f v).

Definition decode_int8_t (buf : ptr) (data_len pos : Z) := decode_i8 buf data_len pos 0.
Definition decode_uint8_t (buf : ptr) (data_len pos : Z) := conv_val u8 (decode_i8 buf data_len pos 0).
Definition decode_int16_t (buf : ptr) (data_len pos : Z) := conv_val s16 (decode_vi32 buf data_len pos 0).
Definition decode_uint16_t (buf : ptr) (data_len pos : Z) := conv_val u16 (decode_vi32 buf data_len pos 0).
Definition decode_int32_t (buf : ptr) (data_len pos : Z) := decode_vi32 buf data_len pos 0.
Definition decode_uint32_t (buf : ptr) (data_len pos : Z) := conv_val u32 (decode_vi32 buf data_len pos 0).
Definition decode_int64_t (buf : ptr) (data_len pos : Z) := decode_vi64 buf data_len pos 0.
Definition decode_uint64_t (buf : ptr) (data_len pos : Z) := conv_val u64 (decode_vi64 buf data_len pos 0).

Definition encoded_length_int64_t := encoded_length_vi64.
Definition encoded_length_uint64_t (val : Z) := encoded_length_vi64 (s64 val).
Definition encoded_length_int32_t := encoded_length_vi32.
Definition encoded_length_uint32_t (val : Z) := encoded_length_vi32 (s32 val).
Definition encoded_length_int16_t := encoded_length_vi32.
Definition encoded_length_uint16_t := encoded_length_vi32.
Definition encoded_length_int8_t (unused : Z) : Z := 1.
Definition encoded_length_uint8_t (unused : Z) : Z := 1.

(** A [float] or [double] is its bit pattern, an unsigned 32- or 64-bit value;
    [memcpy] to an integer of the same size reinterprets it. *)
Definition encoded_length_float (val : Z) : Z := encoded_length_vi32 (s32 val).
Definition encode_float (buf : ptr) (buf_len pos val : Z) := encode_vi32 buf buf_len pos (s32 val).
Definition decode_float (buf : ptr) (data_len pos val : Z) : cres dec_result :=
  '(ret, pos, tmp) ← decode_vi32 buf data_len pos 0;
  if ret =? 0 then Ret (ret, pos, u32 tmp) else Ret (ret, pos, val).

Definition encoded_length_double (val : Z) : Z := encoded_length_vi64 (s64 val).
Definition encode_double (buf : ptr) (buf_len pos val : Z) := encode_vi64 buf buf_len pos (s64 val).
Definition decode_double (buf : ptr) (data_len pos val : Z) : cres dec_result :=
  '(ret, pos, tmp) ← decode_vi64 buf data_len pos 0;
  if ret =? 0 then Ret (ret, pos, u64 tmp) else Ret (ret, pos, val).

(** * Length-prefixed strings *)

Definition encoded_length_vstr_with_len (len : Z) : Z := encoded_length_vi64 len + len + 1.

Definition encoded_length_vstr (str : ptr) : cres Z :=
  match str with
  | Some s => n ← strlen s; Ret (encoded_length_vstr_with_len (n + 1))
  | None => Ret (encoded_length_vstr_with_len 0)
  end.

Definition decoded_length_vstr (buf : ptr) (data_len pos : Z) : cres Z :=
  match buf with
  | None => Ret (-1)
  | Some _ =>
      if (data_len <? 0) || (pos <? 0) then Ret (-1)
      else
        '(ret, _, len) ← decode_vi64 buf data_len pos (-1);
        if ret =? 0 then Ret len else Ret (-1)
  end.

(** The required size is compared after a conversion to [int32_t]. *)
Definition encode_vstr_with_len (buf : ptr) (buf_len ppos : Z) (vbuf : ptr) (len : Z)
    : cres enc_result :=
  let pos := ppos in
  match buf with
  | Some mem =>
      if (0 <=? len) && (s32 (encoded_length_vstr_with_len len) <=? buf_len - pos) then
        '(ret, b, pos) ← encode_vi64 buf buf_len pos len;
        mem ← deref b;
        '(mem, pos) ←
          match vbuf with
          | Some v =>
              if (ret =? OB_SUCCESS) && (0 <? len) then
                data ← load_bytes v 0 (Z.to_nat len);
                mem ← store_bytes mem pos data;
                Ret (mem, pos + len)
              else Ret (mem, pos)
          | None => Ret (mem, pos)
          end;
        mem ← store mem pos 0;
        Ret (ret, Some mem, pos + 1)
      else Ret (OB_SIZE_OVERFLOW, buf, ppos)
  | None => Ret (OB_SIZE_OVERFLOW, buf, ppos)
  end.

Definition encode_vstr (buf : ptr) (buf_len ppos : Z) (s : ptr) : cres enc_result :=
  match s with
  | Some str => n ← strlen str; encode_vstr_with_len buf buf_len ppos s (n + 1)
  | None => encode_vstr_with_len buf buf_len ppos s 0
  end.

(** The result of a string decoder: the offset of the string in [buf] (None for
    NULL), [*ppos] and [*lenp].  [lenp] is assumed not NULL. *)
Definition decode_vstr_nocopy (buf : ptr) (data_len ppos lenp : Z) : cres (option Z * Z * Z) :=
  let pos := ppos in
  match buf with
  | None => Ret (None, pos, lenp)
  | Some _ =>
      if (data_len <? 0) || (pos <? 0) then Ret (None, pos, lenp)
      else
        '(ret, tmp_pos, tmp_len) ← decode_vi64 buf data_len pos 0;
        if negb (ret =? OB_SUCCESS) then Ret (None, pos, -1)
        else if 0 <=? tmp_len then
          if tmp_len <=? data_len - tmp_pos
          then Ret (Some tmp_pos, tmp_pos + (tmp_len + 1), tmp_len)
          else Ret (None, pos, -1)
        else Ret (None, pos, lenp)
  end.

(** [decode_vstr] also copies the string to [dest], whose size is [buf_len]. *)
Definition decode_vstr (buf : ptr) (data_len ppos : Z) (dest : ptr) (buf_len lenp : Z)
    : cres (option Z * Z * ptr * Z) :=
  let pos := ppos in
  match buf, dest with
  | Some mem, Some d =>
      if (data_len <? 0) || (pos <? 0) || (buf_len <? 0) then Ret (None, pos, dest, lenp)
      else
        '(ret, tmp_pos, tmp_len) ← decode_vi64 buf data_len pos 0;
        if negb (ret =? 0) || (buf_len <? tmp_len) then Ret (None, pos, dest, -1)
        else if 0 <=? tmp_len then
          if tmp_len <=? data_len - tmp_pos then
            data ← load_bytes mem tmp_pos (Z.to_nat tmp_len);
            d ← store_bytes d 0 data;
            Ret (Some tmp_pos, tmp_pos + (tmp_len + 1), Some d, tmp_len)
          else Ret (None, pos, dest, -1)
        else Ret (None, pos, dest, lenp)
  | _, _ => Ret (None, pos, dest, lenp)
  end.

(** * Reference encoding of a variable-length integer

    [vi_bytes n v] is the little-endian base-128 notation of [v], the high bit
    marking that another group follows. *)

Fixpoint vi_bytes (n : nat) (v : Z) : bytes :=
  match n with
  | O => [v]
  | S n' => if v <=? 127 then [v] else (v mod 128 + 128) :: vi_bytes n' (v / 128)
  end.

Definition vi_len (v : Z) : Z := Z.of_nat (length (vi_bytes 10 v)).

Lemma vi_bytes_nonempty n v : (1 <= length (vi_bytes n v))%nat.
Proof. destruct n; simpl; [lia|]. destruct (v <=? 127); simpl; lia. Qed.

(** One step of the recursion, at the level of values. *)
Lemma vi_split v : v = v mod 128 + v / 128 * 128 /\ 0 <= v mod 128 < 128.
Proof. dlia. Qed.

Lemma pow2_7 n : 0 <= n -> 2 ^ (7 * (n + 1)) = 128 * 2 ^ (7 * n).
Proof. intros. replace (7 * (n + 1)) with (7 + 7 * n) by lia. by rewrite Z.pow_add_r by lia. Qed.

Lemma vi_bytes_bytes n v :
  0 <= v < 2 ^ (7 * (Z.of_nat n + 1)) -> all_bytes (vi_bytes n v).
Proof.
  revert v. induction n as [|n IH]; intros v Hv; simpl.
  - constructor; [|constructor]. unfold is_byte, uint. simpl in Hv. lia.
  - destruct (Z.leb_spec v 127).
    + constructor; [|constructor]. unfold is_byte, uint. lia.
    + constructor; [unfold is_byte, uint; dlia|]. apply IH.
      rewrite Nat2Z.inj_succ, <- Z.add_1_r, pow2_7 in Hv by lia. dlia.
Qed.

(** ** The encoder writes the reference encoding *)

Lemma u8_lor_128 v : 0 <= v -> u8 (Z.lor v 0x80) = v mod 128 + 128.
Proof.
  intros Hv.
  assert (u8 (Z.lor v 0x80) = Z.lor (Z.shiftl 1 7) (v mod 2 ^ 7)) as ->.
  { apply Z.bits_inj'. intros i Hi.
    rewrite testbit_wrap, !Z.lor_spec, Z.testbit_mod_pow2, Z.shiftl_spec by lia.
    change 0x80 with (Z.shiftl 1 7). rewrite Z.shiftl_spec by lia.
    destruct (decide (i = 7)) as [->|]; [by rewrite !orb_true_r|].
    replace (Z.testbit 1 (i - 7)) with false.
    - rewrite orb_false_r. simpl. destruct (Z.ltb_spec i 8), (Z.ltb_spec i 7); done || lia.
    - symmetry. destruct (decide (i < 7)); [apply Z.testbit_neg_r; lia|].
      apply Z.bits_above_log2; simpl; lia. }
  rewrite lor_shiftl_add by (first [lia | apply Z.mod_pos_bound; lia]).
  change (2 ^ 7) with 128. lia.
Qed.

Lemma encode_vi_loop_store n buf pos v :
  0 <= v < 2 ^ (7 * (Z.of_nat n + 1)) ->
  ('(buf, pos, __v) ← encode_vi_loop n buf pos v;
   if __v <=? OB_MAX_V1B then
     buf ← store buf pos (Z.land __v 0x7f);
     Ret (OB_SUCCESS, Some buf, pos + 1)
   else Ret (OB_SUCCESS, Some buf, pos)) =
  (buf' ← store_bytes buf pos (vi_bytes n v);
   Ret (OB_SUCCESS, Some buf', pos + Z.of_nat (length (vi_bytes n v)))).
Proof.
  assert (forall v, 0 <= v <= 127 -> Z.land v 0x7f = v) as Hland.
  { intros x Hx. change 0x7f with (Z.ones 7). rewrite Z.land_ones by lia.
    apply Z.mod_small. simpl; lia. }
  revert buf pos v. induction n as [|n IH]; intros buf pos v Hv.
  - change (2 ^ _) with 128 in Hv. simpl encode_vi_loop. change OB_MAX_V1B with 127.
    rewrite Z.gtb_ltb. destruct (Z.ltb_spec 127 v); [lia|]. simpl.
    destruct (Z.leb_spec v 127); [|lia]. rewrite Hland by lia.
    by destruct (store buf pos v).
  - rewrite Nat2Z.inj_succ, <- Z.add_1_r, pow2_7 in Hv by lia.
    simpl encode_vi_loop. change OB_MAX_V1B with 127.
    rewrite Z.gtb_ltb. simpl vi_bytes.
    destruct (Z.ltb_spec 127 v); destruct (Z.leb_spec v 127); try lia.
    + simpl store_bytes. simpl length.
      rewrite (store_same_byte buf pos (Z.lor v 128) (v mod 128 + 128)).
      2: { rewrite u8_lor_128 by lia. symmetry. apply wrap_small. unfold uint. dlia. }
      destruct (store buf pos (v mod 128 + 128)); simpl; [|done..].
      replace (Z.shiftr v 7) with (v / 128) by (rewrite Z.shiftr_div_pow2 by lia; done).
      specialize (IH a (pos + 1) (v / 128)). change OB_MAX_V1B with 127 in IH.
      cbn in IH |- *. rewrite IH by dlia.
      destruct (store_bytes a (pos + 1) (vi_bytes n (v / 128))); simpl; [|done..].
      do 2 f_equal. lia.
    + simpl. destruct (Z.leb_spec v 127); [|lia]. rewrite Hland by lia.
      by destruct (store buf pos v).
Qed.

Lemma encode_vi_body_splice buf pos v :
  uint 64 v -> room buf pos (length (vi_bytes 10 v)) ->
  encode_vi_body buf pos v = Ret (OB_SUCCESS, Some (splice pos (vi_bytes 10 v) buf), pos + vi_len v).
Proof.
  intros [H1 H2] Hr.
  assert (0 <= v < 2 ^ (7 * (Z.of_nat 10 + 1))) as Hv.
  { pose proof (Z.pow_lt_mono_r 2 64 77). simpl Z.of_nat. simpl Z.add. simpl Z.mul. lia. }
  unfold encode_vi_body. rewrite encode_vi_loop_store by exact Hv.
  rewrite store_bytes_splice by exact Hr. rewrite bind_ret.
  rewrite map_u8_bytes by (apply vi_bytes_bytes; exact Hv). done.
Qed.

(** ** The decoder inverts the reference encoding *)

Lemma land_127 v : Z.land v 0x7f = v mod 128.
Proof. change 0x7f with (Z.ones 7). by rewrite Z.land_ones. Qed.

(** A group fits below the width, so the shift neither faults nor wraps. *)
Lemma shl_fits w g shift :
  0 <= g -> 0 <= shift < w -> g * 2 ^ shift < 2 ^ w -> shl w g shift = Ret (Z.shiftl g shift).
Proof.
  intros Hg Hs Hf. unfold shl. destruct (Z.ltb_spec shift w); [|lia]. f_equal.
  apply wrap_small. rewrite Z.shiftl_mul_pow2 by lia. split; [nia|done].
Qed.

Lemma decode_vi_loop_bytes w buf data_len pos0 val0 n : forall fuel v tmp_pos acc shift,
  (n <= fuel)%nat -> w <= 64 ->
  load_bytes buf tmp_pos (length (vi_bytes n v)) = Ret (vi_bytes n v) ->
  tmp_pos + Z.of_nat (length (vi_bytes n v)) <= data_len ->
  0 <= v < 2 ^ (7 * (Z.of_nat n + 1)) ->
  0 <= shift < w -> v * 2 ^ shift < 2 ^ w -> 0 <= acc < 2 ^ shift ->
  (decode_vi_loop w fuel buf data_len tmp_pos acc shift ≫= decode_vi_end w buf data_len pos0 val0) =
  Ret (OB_SUCCESS, tmp_pos + Z.of_nat (length (vi_bytes n v)), swrap w (acc + v * 2 ^ shift)).
Proof.
  assert (forall fuel v tmp_pos acc shift,
    load buf tmp_pos = Ret v -> tmp_pos + 1 <= data_len -> 0 <= v <= 127 ->
    0 <= shift < w -> v * 2 ^ shift < 2 ^ w -> 0 <= acc < 2 ^ shift ->
    (decode_vi_loop w fuel buf data_len tmp_pos acc shift ≫= decode_vi_end w buf data_len pos0 val0) =
    Ret (OB_SUCCESS, tmp_pos + 1, swrap w (acc + v * 2 ^ shift))) as Hlast.
  { intros fuel v tmp_pos acc shift Hl Hd Hv Hs Hf Ha.
    destruct fuel; cbn [decode_vi_loop]; rewrite Hl; rewrite bind_ret;
      rewrite land_cont by lia; rewrite Z.mod_small by lia;
      destruct (Z.ltb_spec v 128); try lia; rewrite bind_ret; unfold decode_vi_end;
      change (OB_SUCCESS =? OB_SUCCESS) with true; cbv iota;
      destruct (Z.ltb_spec (data_len - tmp_pos) 1); try lia;
      rewrite Hl; rewrite bind_ret; rewrite land_127, Z.mod_small by lia;
      rewrite shl_fits by lia; rewrite bind_ret; do 2 f_equal;
      rewrite lor_add_shiftl by lia; done. }
  induction n as [|n IH]; intros fuel v tmp_pos acc shift Hn Hw Hl Hd Hv Hs Hf Ha.
  - simpl vi_bytes in *. simpl length in *. change (2 ^ (7 * _)) with 128 in Hv.
    apply load_bytes_cons in Hl as (b & bs & [= <- <-] & Hl & _). apply Hlast; try lia; done.
  - rewrite Nat2Z.inj_succ, <- Z.add_1_r, pow2_7 in Hv by lia.
    simpl vi_bytes in *. destruct (Z.leb_spec v 127).
    + apply load_bytes_cons in Hl as (b & bs & [= <- <-] & Hl & _).
      simpl length in *. apply Hlast; try lia; done.
    + simpl length in *.
      apply load_bytes_cons in Hl as (b & bs & [= <- <-] & Hb & Hl).
      destruct fuel as [|fuel]; [lia|].
      destruct (vi_split v) as [E Hm].
      set (g := v mod 128) in *. set (q := v / 128) in *.
      pose proof (vi_bytes_nonempty n q).
      assert (2 ^ (shift + 7) = 128 * 2 ^ shift) as Hp by (rewrite Z.pow_add_r by lia; lia).
      assert (g * 2 ^ shift + q * 2 ^ (shift + 7) = v * 2 ^ shift) as Hsum by (rewrite Hp; nia).
      assert (1 <= q) by lia.
      assert (shift + 7 < w).
      { apply (Z.pow_lt_mono_r_iff 2); [lia..|]. nia. }
      cbn [decode_vi_loop]. rewrite Hb. rewrite bind_ret.
      rewrite land_cont, Z.mod_small by lia.
      destruct (Z.ltb_spec (g + 128) 128); [lia|].
      destruct (Z.ltb_spec (data_len - tmp_pos) 1); [lia|].
      rewrite land_127. replace ((g + 128) mod 128) with g by dlia.
      rewrite shl_fits by nia. rewrite bind_ret.
      rewrite lor_add_shiftl by lia.
      rewrite (wrap_small 32) by (unfold uint; lia).
      rewrite (IH fuel q); [do 2 f_equal; [f_equal; lia|] | lia | lia | done | lia | lia | lia | nia | nia].
      f_equal. lia.
Qed.

(** ** Lengths *)

Lemma length_vi_bytes n v k :
  (k <= n)%nat -> (k = 0%nat \/ 2 ^ (7 * Z.of_nat k) <= v) -> 0 <= v < 2 ^ (7 * (Z.of_nat k + 1)) ->
  length (vi_bytes n v) = S k.
Proof.
  revert v k. induction n as [|n IH]; intros v k Hk Hlo Hhi.
  - assert (k = 0%nat) as -> by lia. done.
  - destruct k as [|k].
    + change (2 ^ _) with 128 in Hhi. simpl. destruct (Z.leb_spec v 127); [done|lia].
    + destruct Hlo as [?|Hlo]; [lia|].
      rewrite Nat2Z.inj_succ, <- Z.add_1_r, !pow2_7 in Hhi by lia.
      rewrite Nat2Z.inj_succ, <- Z.add_1_r, pow2_7 in Hlo by lia.
      assert (0 < 2 ^ (7 * Z.of_nat k)) by lia.
      simpl. destruct (Z.leb_spec v 127); [lia|]. simpl. f_equal.
      apply IH; [lia| |].
      * right. dlia.
      * rewrite pow2_7 by lia. dlia.
Qed.

Lemma encoded_length_vi64_len val : encoded_length_vi64 val = vi_len (u64 val).
Proof.
  pose proof (wrap_uint 64 val ltac:(lia)) as Hv. unfold uint in Hv.
  unfold encoded_length_vi64, vi_len. cbv zeta. set (v := u64 val) in *.
  repeat match goal with
  | |- context [v <=? ?c] => let c' := eval compute in c in
      change c with c'; destruct (Z.leb_spec v c')
  end;
  symmetry;
  match goal with |- _ = ?k =>
    let k' := eval compute in (Z.to_nat (k - 1)) in
    rewrite (length_vi_bytes 10 v k'); [done | lia | | ]
  end; first [lia | simpl; lia].
Qed.

Lemma encoded_length_vi32_len val : encoded_length_vi32 val = vi_len (u32 val).
Proof.
  pose proof (wrap_uint 32 val ltac:(lia)) as Hv. unfold uint in Hv.
  unfold encoded_length_vi32, vi_len. cbv zeta. set (v := u32 val) in *.
  repeat match goal with
  | |- context [v <=? ?c] => let c' := eval compute in c in
      change c with c'; destruct (Z.leb_spec v c')
  end;
  symmetry;
  match goal with |- _ = ?k =>
    let k' := eval compute in (Z.to_nat (k - 1)) in
    rewrite (length_vi_bytes 10 v k'); [done | lia | | ]
  end; first [lia | simpl; lia].
Qed.

Lemma vi_len_pos v : 1 <= vi_len v.
Proof. unfold vi_len. pose proof (vi_bytes_nonempty 10 v). lia. Qed.

(** ** Encoders and decoders on whole calls *)

Lemma encode_vi64_ok mem buf_len pos val :
  0 <= pos -> pos + encoded_length_vi64 val <= buf_len <= Z.of_nat (length mem) ->
  encode_vi64 (Some mem) buf_len pos val =
  Ret (OB_SUCCESS, Some (splice pos (vi_bytes 10 (u64 val)) mem), pos + encoded_length_vi64 val).
Proof.
  intros Hp Hb. unfold encode_vi64. rewrite encoded_length_vi64_len, (wrap_wrap 64) by lia.
  rewrite encoded_length_vi64_len in Hb |- *.
  destruct (Z.leb_spec (vi_len (u64 val)) (buf_len - pos)); [|lia].
  apply encode_vi_body_splice; [apply wrap_uint; lia|]. unfold room, vi_len in *. lia.
Qed.

Lemma encode_vi32_ok mem buf_len pos val :
  0 <= pos -> pos + encoded_length_vi32 val <= buf_len <= Z.of_nat (length mem) ->
  encode_vi32 (Some mem) buf_len pos val =
  Ret (OB_SUCCESS, Some (splice pos (vi_bytes 10 (u32 val)) mem), pos + encoded_length_vi32 val).
Proof.
  intros Hp Hb. unfold encode_vi32. rewrite encoded_length_vi32_len in *.
  destruct (Z.leb_spec (vi_len (u32 val)) (buf_len - pos)); [|lia].
  apply encode_vi_body_splice.
  - pose proof (wrap_uint 32 val ltac:(lia)). unfold uint in *. lia.
  - unfold room, vi_len in *. lia.
Qed.

Lemma decode_vi_ok w mem data_len pos v val0 :
  0 < w <= 64 -> uint w v ->
  load_bytes mem pos (length (vi_bytes 10 v)) = Ret (vi_bytes 10 v) ->
  pos + vi_len v <= data_len ->
  decode_vi w (Some mem) data_len pos val0 = Ret (OB_SUCCESS, pos + vi_len v, swrap w v).
Proof.
  intros Hw [Hv1 Hv2] Hl Hd. unfold decode_vi. change (deref (Some mem)) with (Ret mem). rewrite bind_ret.
  rewrite (decode_vi_loop_bytes w mem data_len pos val0 10 11 v);
    [by rewrite Z.add_0_l, Z.mul_1_r | lia | lia | done | done | | lia | lia | lia].
  pose proof (Z.pow_le_mono_r 2 w 64). pose proof (Z.pow_lt_mono_r 2 64 77). lia.
Qed.

(** * The codec interface

    What the encoders and decoders of one wire type promise to the code that
    strings them together: a reference encoding [wc_bytes] that the encoder
    writes when the declared buffer has room, that it refuses otherwise without
    touching anything, and that the decoder reads back.  Positions stay below
    2^31, the range of the [int pos] locals of the sources. *)

Record wire_type : Type := WireType {
  wt_dom : Z -> Prop;
  wt_len : Z -> Z;
  wt_enc : ptr -> Z -> Z -> Z -> cres enc_result;
  wt_dec : ptr -> Z -> Z -> cres dec_result
}.

Class WireCodec (t : wire_type) : Type := {
  wc_bytes : Z -> bytes;
  wc_len v : wt_dom t v -> wt_len t v = Z.of_nat (length (wc_bytes v));
  wc_nonempty v : wt_dom t v -> 0 < wt_len t v;
  wc_enc mem buf_len pos v :
    wt_dom t v -> 0 <= pos -> pos + wt_len t v <= buf_len <= Z.of_nat (length mem) ->
    wt_enc t (Some mem) buf_len pos v =
    Ret (OB_SUCCESS, Some (splice pos (wc_bytes v) mem), pos + wt_len t v);
  wc_enc_full mem buf_len pos v :
    wt_dom t v -> buf_len < pos + wt_len t v ->
    wt_enc t (Some mem) buf_len pos v = Ret (OB_SIZE_OVERFLOW, Some mem, pos);
  wc_dec mem data_len pos v :
    wt_dom t v -> 0 <= pos -> pos + wt_len t v <= data_len < 2 ^ 31 ->
    load_bytes mem pos (length (wc_bytes v)) = Ret (wc_bytes v) ->
    wt_dec t (Some mem) data_len pos = Ret (OB_SUCCESS, pos + wt_len t v, v)
}.

Definition wt_int64 := WireType (sint 64) encoded_length_int64_t encode_int64_t decode_int64_t.
Definition wt_uint64 := WireType (uint 64) encoded_length_uint64_t encode_uint64_t decode_uint64_t.
Definition wt_int32 := WireType (sint 32) encoded_length_int32_t encode_int32_t decode_int32_t.
Definition wt_uint32 := WireType (uint 32) encoded_length_uint32_t encode_uint32_t decode_uint32_t.
Definition wt_int16 := WireType (sint 16) encoded_length_int16_t encode_int16_t decode_int16_t.
Definition wt_uint16 := WireType (uint 16) encoded_length_uint16_t encode_uint16_t decode_uint16_t.
Definition wt_int8 := WireType (sint 8) encoded_length_int8_t encode_int8_t decode_int8_t.
Definition wt_uint8 := WireType (uint 8) encoded_length_uint8_t encode_uint8_t decode_uint8_t.
Definition wt_double := WireType (uint 64) encoded_length_double encode_double
  (fun buf data_len pos => decode_double buf data_len pos 0).
Definition wt_float := WireType (uint 32) encoded_length_float encode_float
  (fun buf data_len pos => decode_float buf data_len pos 0).

Lemma encode_vi64_full mem buf_len pos val :
  buf_len < pos + encoded_length_vi64 val ->
  encode_vi64 (Some mem) buf_len pos val = Ret (OB_SIZE_OVERFLOW, Some mem, pos).
Proof.
  intros H. unfold encode_vi64.
  rewrite encoded_length_vi64_len, (wrap_wrap 64), <- encoded_length_vi64_len by lia.
  destruct (Z.leb_spec (encoded_length_vi64 val) (buf_len - pos)); [lia|done].
Qed.

Lemma encode_vi32_full mem buf_len pos val :
  buf_len < pos + encoded_length_vi32 val ->
  encode_vi32 (Some mem) buf_len pos val = Ret (OB_SIZE_OVERFLOW, Some mem, pos).
Proof.
  intros H. unfold encode_vi32.
  destruct (Z.leb_spec (encoded_length_vi32 val) (buf_len - pos)); [lia|done].
Qed.

Lemma decode_vi64_ok mem data_len pos val val0 :
  pos + encoded_length_vi64 val <= data_len ->
  load_bytes mem pos (length (vi_bytes 10 (u64 val))) = Ret (vi_bytes 10 (u64 val)) ->
  decode_vi64 (Some mem) data_len pos val0 =
  Ret (OB_SUCCESS, pos + encoded_length_vi64 val, s64 val).
Proof.
  rewrite encoded_length_vi64_len. intros Hd Hl. unfold decode_vi64.
  rewrite (decode_vi_ok 64 _ _ _ (u64 val)); auto with lia.
  - by rewrite swrap_wrap.
  - apply wrap_uint. lia.
Qed.

Lemma decode_vi32_ok mem data_len pos val val0 :
  pos + encoded_length_vi32 val <= data_len ->
  load_bytes mem pos (length (vi_bytes 10 (u32 val))) = Ret (vi_bytes 10 (u32 val)) ->
  decode_vi32 (Some mem) data_len pos val0 =
  Ret (OB_SUCCESS, pos + encoded_length_vi32 val, s32 val).
Proof.
  rewrite encoded_length_vi32_len. intros Hd Hl. unfold decode_vi32.
  rewrite (decode_vi_ok 32 _ _ _ (u32 val)); auto with lia.
  - by rewrite swrap_wrap.
  - apply wrap_uint. lia.
Qed.

(** Conversions between integer types of the same or a wider width. *)
Lemma s32_of_s16 v : sint 16 v -> s32 v = v.
Proof. intros []. apply swrap_small; [lia|]. unfold sint. simpl in *. lia. Qed.
Lemma s32_of_u16 v : uint 16 v -> s32 v = v.
Proof. intros []. apply swrap_small; [lia|]. unfold sint. simpl in *. lia. Qed.
Lemma unsigned_back w v : 0 < w -> uint w v -> wrap w (swrap w v) = v.
Proof. intros. rewrite wrap_swrap by lia. by apply wrap_small. Qed.

(** The laws of the two variable-length cores. *)
Record vi_core (w : Z) (elen : Z -> Z) (enc : ptr -> Z -> Z -> Z -> cres enc_result)
    (dec : ptr -> Z -> Z -> Z -> cres dec_result) : Prop := {
  vc_len val : elen val = vi_len (wrap w val);
  vc_ok mem buf_len pos val :
    0 <= pos -> pos + elen val <= buf_len <= Z.of_nat (length mem) ->
    enc (Some mem) buf_len pos val =
    Ret (OB_SUCCESS, Some (splice pos (vi_bytes 10 (wrap w val)) mem), pos + elen val);
  vc_full mem buf_len pos val :
    buf_len < pos + elen val ->
    enc (Some mem) buf_len pos val = Ret (OB_SIZE_OVERFLOW, Some mem, pos);
  vc_dec mem data_len pos val val0 :
    pos + elen val <= data_len ->
    load_bytes mem pos (length (vi_bytes 10 (wrap w val))) = Ret (vi_bytes 10 (wrap w val)) ->
    dec (Some mem) data_len pos val0 = Ret (OB_SUCCESS, pos + elen val, swrap w val)
}.

Lemma vi64_core : vi_core 64 encoded_length_vi64 encode_vi64 decode_vi64.
Proof.
  split; eauto using encoded_length_vi64_len, encode_vi64_ok, encode_vi64_full, decode_vi64_ok.
Qed.

Lemma vi32_core : vi_core 32 encoded_length_vi32 encode_vi32 decode_vi32.
Proof.
  split; eauto using encoded_length_vi32_len, encode_vi32_ok, encode_vi32_full, decode_vi32_ok.
Qed.

(** A wire type over a core: [cin] converts the argument of the encoder, [cout]
    the result of the decoder. *)
Section over_core.
Context {w elen enc dec} (core : vi_core w elen enc dec).
Context (t : wire_type) (cin cout : Z -> Z).
Hypothesis Hlen : forall v, wt_len t v = elen (cin v).
Hypothesis Henc : forall b l p v, wt_enc t b l p v = enc b l p (cin v).
Hypothesis Hdec : forall b l p p' x,
  dec b l p 0 = Ret (OB_SUCCESS, p', x) -> wt_dec t b l p = Ret (OB_SUCCESS, p', cout x).
Hypothesis Hback : forall v, wt_dom t v -> cout (swrap w (cin v)) = v.

Definition over_core : WireCodec t.
Proof using All.
  refine {| wc_bytes v := vi_bytes 10 (wrap w (cin v)) |}; intros *;
    rewrite ?Hlen, ?Henc; intros.
  - apply (vc_len _ _ _ _ core).
  - rewrite (vc_len _ _ _ _ core). pose proof (vi_len_pos (wrap w (cin v))). lia.
  - by apply (vc_ok _ _ _ _ core).
  - by apply (vc_full _ _ _ _ core).
  - rewrite (Hdec _ _ _ (pos + elen (cin v)) (swrap w (cin v))); [by rewrite Hback|].
    apply (vc_dec _ _ _ _ core); [lia|done].
Defined.
End over_core.

Lemma conv_val_ok f (m : cres dec_result) p' x :
  m = Ret (OB_SUCCESS, p', x) -> conv_val f m = Ret (OB_SUCCESS, p', f x).
Proof. by intros ->. Qed.

Ltac core_side :=
  first [ done
        | intros * Hm; apply conv_val_ok; exact Hm
        | intros * Hm; cbn; exact Hm ].

#[export] Instance codec_int64 : WireCodec wt_int64.
Proof.
  apply (over_core vi64_core wt_int64 id id); [core_side..|]. intros v Hv. by apply swrap_small.
Defined.

#[export] Instance codec_uint64 : WireCodec wt_uint64.
Proof.
  apply (over_core vi64_core wt_uint64 (swrap 64) (wrap 64)); [core_side..|].
  intros v Hv. rewrite wrap_swrap by lia. by apply unsigned_back.
Defined.

#[export] Instance codec_int32 : WireCodec wt_int32.
Proof.
  apply (over_core vi32_core wt_int32 id id); [core_side..|]. intros v Hv. by apply swrap_small.
Defined.

#[export] Instance codec_uint32 : WireCodec wt_uint32.
Proof.
  apply (over_core vi32_core wt_uint32 (swrap 32) (wrap 32)); [core_side..|].
  intros v Hv. rewrite wrap_swrap by lia. by apply unsigned_back.
Defined.

#[export] Instance codec_int16 : WireCodec wt_int16.
Proof.
  apply (over_core vi32_core wt_int16 id (swrap 16)); [core_side..|].
  intros v Hv. unfold id. rewrite s32_of_s16 by done. by apply swrap_small.
Defined.

#[export] Instance codec_uint16 : WireCodec wt_uint16.
Proof.
  apply (over_core vi32_core wt_uint16 id (wrap 16)); [core_side..|].
  intros v Hv. unfold id. rewrite s32_of_u16 by done. by apply wrap_small.
Defined.

#[export] Instance codec_float : WireCodec wt_float.
Proof.
  apply (over_core vi32_core wt_float (swrap 32) (wrap 32)); [done|done| |].
  - intros * Hm. cbn. unfold decode_float. by rewrite Hm.
  - intros v Hv. rewrite wrap_swrap by lia. by apply unsigned_back.
Defined.

#[export] Instance codec_double : WireCodec wt_double.
Proof.
  apply (over_core vi64_core wt_double (swrap 64) (wrap 64)); [done|done| |].
  - intros * Hm. cbn. unfold decode_double. by rewrite Hm.
  - intros v Hv. rewrite wrap_swrap by lia. by apply unsigned_back.
Defined.

(** The one-byte types. *)
Lemma encode_i8_ok mem buf_len pos val :
  0 <= pos -> pos + 1 <= buf_len <= Z.of_nat (length mem) ->
  encode_i8 (Some mem) buf_len pos val = Ret (OB_SUCCESS, Some (splice pos [u8 val] mem), pos + 1).
Proof.
  intros. unfold encode_i8. destruct (Z.leb_spec 1 (buf_len - pos)); [|lia].
  change (store mem pos val) with (int1store mem pos val).
  rewrite int1store_splice by (split; simpl; lia). done.
Qed.

Lemma encode_i8_full mem buf_len pos val :
  buf_len < pos + 1 -> encode_i8 (Some mem) buf_len pos val = Ret (OB_SIZE_OVERFLOW, Some mem, pos).
Proof. intros. unfold encode_i8. destruct (Z.leb_spec 1 (buf_len - pos)); [lia|done]. Qed.

Lemma decode_i8_ok mem data_len pos val val0 :
  0 <= pos -> pos + 1 <= data_len < 2 ^ 31 -> load_bytes mem pos 1 = Ret [u8 val] ->
  decode_i8 (Some mem) data_len pos val0 = Ret (OB_SUCCESS, pos + 1, s8 val).
Proof.
  intros Hp Hd Hl. unfold decode_i8. rewrite swrap_small by (unfold sint; simpl in *; lia).
  destruct (Z.leb_spec 1 (data_len - pos)); [|lia].
  apply load_bytes_cons in Hl as (b & bs & [= <- <-] & -> & _). rewrite bind_ret.
  by rewrite swrap_wrap.
Qed.

#[export] Instance codec_int8 : WireCodec wt_int8.
Proof.
  refine {| wc_bytes v := [u8 v] |}; cbn [wt_dom wt_len wt_enc wt_dec wt_int8]; intros.
  - done.
  - done.
  - by apply encode_i8_ok.
  - by apply encode_i8_full.
  - unfold decode_int8_t. rewrite (decode_i8_ok _ _ _ v) by done. by rewrite swrap_small.
Defined.

#[export] Instance codec_uint8 : WireCodec wt_uint8.
Proof.
  refine {| wc_bytes v := [u8 (s8 v)] |}; cbn [wt_dom wt_len wt_enc wt_dec wt_uint8]; intros.
  - done.
  - done.
  - by apply encode_i8_ok.
  - by apply encode_i8_full.
  - unfold decode_uint8_t. rewrite (decode_i8_ok _ _ _ (s8 v)) by done.
    rewrite (conv_val_ok u8 _ (pos + 1) (s8 (s8 v))) by done.
    do 2 f_equal. rewrite wrap_swrap by lia. by apply unsigned_back.
Defined.

(** * Field sequences (the OB_UNIS macros of include/ob_serialize.h) *)

(** A field: its wire type with the codec laws, and its value. *)
Record field : Type := Field {
  f_type : wire_type;
  f_codec : WireCodec f_type;
  f_val : Z
}.

Definition OB_UNIS_ENCODE (t : wire_type) (obj buf_len : Z) (st : enc_result) : cres enc_result :=
  let '(ret, buf, pos) := st in
  if ret =? OB_SUCCESS then wt_enc t buf buf_len pos obj else Ret (ret, buf, pos).

(** The object keeps its old value when nothing is left to decode. *)
Definition OB_UNIS_DECODE (t : wire_type) (buf : ptr) (data_len obj : Z) (ret pos : Z)
    : cres dec_result :=
  if (ret =? OB_SUCCESS) && (pos <? data_len) then wt_dec t buf data_len pos
  else Ret (ret, pos, obj).

Definition OB_UNIS_ADD_LEN (t : wire_type) (obj len : Z) : Z := len + wt_len t obj.

Fixpoint unis_encode (fs : list field) (buf_len : Z) (st : enc_result) : cres enc_result :=
  match fs with
  | [] => Ret st
  | f :: fs' => st ← OB_UNIS_ENCODE (f_type f) (f_val f) buf_len st; unis_encode fs' buf_len st
  end.

Fixpoint unis_decode (ts : list wire_type) (buf : ptr) (data_len ret pos : Z)
    : cres (Z * Z * list Z) :=
  match ts with
  | [] => Ret (ret, pos, [])
  | t :: ts' =>
      '(ret, pos, v) ← OB_UNIS_DECODE t buf data_len 0 ret pos;
      '(ret, pos, vs) ← unis_decode ts' buf data_len ret pos;
      Ret (ret, pos, v :: vs)
  end.

Fixpoint unis_len (fs : list field) (len : Z) : Z :=
  match fs with [] => len | f :: fs' => unis_len fs' (OB_UNIS_ADD_LEN (f_type f) (f_val f) len) end.

Definition field_ok (f : field) : Prop := wt_dom (f_type f) (f_val f).
Definition field_bytes (f : field) : bytes := @wc_bytes _ (f_codec f) (f_val f).

Lemma field_len f : field_ok f -> wt_len (f_type f) (f_val f) = Z.of_nat (length (field_bytes f)).
Proof. apply (@wc_len _ (f_codec f)). Qed.

Lemma unis_len_bytes fs len :
  Forall field_ok fs -> unis_len fs len = len + Z.of_nat (length (concat (map field_bytes fs))).
Proof.
  intros H. revert len. induction H as [|f fs Hf _ IH]; intros len; simpl; [lia|].
  rewrite IH. unfold OB_UNIS_ADD_LEN. rewrite field_len, length_app by done. lia.
Qed.

Lemma unis_encode_splice fs mem buf_len pos :
  Forall field_ok fs -> 0 <= pos -> unis_len fs pos <= buf_len <= Z.of_nat (length mem) ->
  unis_encode fs buf_len (OB_SUCCESS, Some mem, pos) =
  Ret (OB_SUCCESS, Some (splice pos (concat (map field_bytes fs)) mem), unis_len fs pos).
Proof.
  intros H. revert mem pos. induction H as [|f fs Hf Hfs IH]; intros mem pos Hp Hb.
  - simpl. by rewrite splice_nil.
  - rewrite unis_len_bytes in Hb by (by constructor). simpl concat in Hb. rewrite length_app in Hb.
    cbn [unis_encode unis_len OB_UNIS_ENCODE]. change (OB_SUCCESS =? OB_SUCCESS) with true. cbv iota.
    assert (room mem pos (length (field_bytes f))) by (split; lia).
    pose proof (field_len f Hf) as Hfl.
    rewrite (@wc_enc _ (f_codec f)) by (first [done | lia]).
    rewrite bind_ret. unfold OB_UNIS_ADD_LEN in *. rewrite Hfl.
    rewrite IH.
    + do 3 f_equal. rewrite splice_app; [done|]. split; [lia|]. rewrite length_app. fold (field_bytes f). lia.
    + lia.
    + rewrite unis_len_bytes, length_splice by done. lia.
Qed.

Lemma unis_decode_bytes fs mem data_len pos :
  Forall field_ok fs -> 0 <= pos -> unis_len fs pos <= data_len < 2 ^ 31 ->
  load_bytes mem pos (length (concat (map field_bytes fs))) = Ret (concat (map field_bytes fs)) ->
  unis_decode (map f_type fs) (Some mem) data_len OB_SUCCESS pos =
  Ret (OB_SUCCESS, unis_len fs pos, map f_val fs).
Proof.
  intros H. revert pos. induction H as [|f fs Hf Hfs IH]; intros pos Hp Hb Hl; [done|].
  rewrite unis_len_bytes in Hb by (by constructor). simpl concat in Hb, Hl.
  apply load_bytes_app in Hl as [Hl1 Hl2]. rewrite length_app in Hb.
  pose proof (@wc_nonempty _ (f_codec f) (f_val f) Hf) as Hne. rewrite field_len in Hne by done.
  cbn [map unis_decode unis_len]. unfold OB_UNIS_DECODE, OB_UNIS_ADD_LEN.
  change (OB_SUCCESS =? OB_SUCCESS) with true. destruct (Z.ltb_spec pos data_len); [|lia].
  cbn [andb].
  rewrite (@wc_dec _ (f_codec f) mem data_len pos (f_val f))
    by (first [done | rewrite field_len by done; lia]).
  rewrite bind_ret, field_len by done.
  rewrite IH; [done | lia | | done]. rewrite unis_len_bytes by done. lia.
Qed.

(** C24: Any sequence of typed fields encoded with OB_UNIS_ENCODE into a buffer that
    is large enough for the sum of their OB_UNIS_ADD_LEN lengths returns
    OB_SUCCESS, advances the position by exactly that sum, touches no byte
    outside the written range, and OB_UNIS_DECODE reads the same values back. *)
Theorem unis_roundtrip fs mem buf_len pos :
  Forall field_ok fs -> 0 <= pos -> unis_len fs pos <= buf_len <= Z.of_nat (length mem) ->
  buf_len < 2 ^ 31 ->
  exists mem',
    unis_encode fs buf_len (OB_SUCCESS, Some mem, pos) =
      Ret (OB_SUCCESS, Some mem', unis_len fs pos) /\
    length mem' = length mem /\
    (forall i, i < pos \/ unis_len fs pos <= i -> load mem' i = load mem i) /\
    (forall data_len, unis_len fs pos <= data_len <= buf_len ->
      unis_decode (map f_type fs) (Some mem') data_len OB_SUCCESS pos =
      Ret (OB_SUCCESS, unis_len fs pos, map f_val fs)).
Proof.
  intros Hok Hp Hb Hmax. exists (splice pos (concat (map field_bytes fs)) mem).
  pose proof (unis_len_bytes fs pos Hok) as Hlen.
  assert (room mem pos (length (concat (map field_bytes fs)))) as Hr by (split; lia).
  split_and!.
  - by apply unis_encode_splice.
  - by apply length_splice.
  - intros i Hi. apply load_splice_out; [done|lia].
  - intros data_len Hd. apply unis_decode_bytes; [done..|lia|]. by apply load_bytes_splice.
Qed.

Lemma unis_roundtrip_witness : exists mem',
  unis_encode [Field wt_int64 _ (-5); Field wt_uint16 _ 300; Field wt_int8 _ (-1)] 32
    (OB_SUCCESS, Some (replicate 32 0), 2) = Ret (OB_SUCCESS, Some mem', 15).
Proof.
  destruct (unis_roundtrip
    [Field wt_int64 _ (-5); Field wt_uint16 _ 300; Field wt_int8 _ (-1)] (replicate 32 0) 32 2)
    as (mem' & H & _).
  - repeat constructor; vm_compute; congruence.
  - lia.
  - vm_compute; split; congruence.
  - vm_compute; congruence.
  - exists mem'. exact H.
Defined.

(** * Big-endian 64-bit integers *)

Definition be8 (v : Z) : bytes :=
  map (fun k => u8 (Z.shiftr v k)) [56; 48; 40; 32; 24; 16; 8; 0].

Lemma u8_land_255 x : u8 (Z.land x 0xff) = u8 x.
Proof. change 0xff with (Z.ones 8). rewrite Z.land_ones by lia. by apply wrap_wrap. Qed.

Lemma encode_i64_ok mem buf_len pos val :
  0 <= pos -> pos + 8 <= buf_len <= Z.of_nat (length mem) -> buf_len < 2 ^ 31 ->
  encode_i64 (Some mem) buf_len pos val = Ret (OB_SUCCESS, Some (splice pos (be8 val) mem), pos + 8).
Proof.
  intros Hp Hb Hmax. unfold encode_i64. rewrite swrap_small by (unfold sint; simpl in *; lia).
  destruct (Z.leb_spec 8 (buf_len - pos)); [|lia].
  transitivity (m ← store_bytes mem pos
    (map (fun k => Z.land (Z.shiftr val k) 0xff) [56; 48; 40; 32; 24; 16; 8; 0]);
    Ret (OB_SUCCESS, Some m, pos + 8)).
  - cbn [map store_bytes]. rewrite Z.shiftr_0_r.
    repeat match goal with
    | |- context [?t + Zpos ?p + Zpos ?r] =>
        let q := eval compute in (Zpos p + Zpos r) in
        replace (t + Zpos p + Zpos r) with (t + q) by lia
    end.
    do 8 match goal with
    | |- context [store ?m ?i ?b ≫= _] => destruct (store m i b); [rewrite !bind_ret | done | done]
    end. done.
  - rewrite store_bytes_splice by (split; simpl; lia). rewrite bind_ret. do 4 f_equal.
    cbn [map]. by rewrite !u8_land_255.
Qed.

(** One more byte below the top of a value. *)
Lemma lor_next_byte v k k' :
  0 <= k -> k' = k + 8 ->
  Z.lor (Z.shiftl (Z.shiftr v k') k') (Z.shiftl (u8 (Z.shiftr v k)) k) = Z.shiftl (Z.shiftr v k) k.
Proof.
  intros Hk ->. pose proof (wrap_uint 8 (Z.shiftr v k) ltac:(lia)) as [].
  rewrite (Z.add_comm k 8), <- Z.shiftl_shiftl, <- Z.shiftl_lor by lia.
  rewrite lor_shiftl_add by (first [done | lia]). f_equal.
  rewrite (Z.add_comm 8 k), <- Z.shiftr_shiftr, (Z.shiftr_div_pow2 _ 8) by lia.
  unfold wrap. change (2 ^ 8) with 256. dlia.
Qed.

Lemma s64_shiftl_56 c : s64 (Z.shiftl c 56) = Z.shiftl (s8 c) 56.
Proof.
  rewrite !Z.shiftl_mul_pow2 by lia. unfold swrap.
  replace (c * 2 ^ 56 + 2 ^ (64 - 1)) with ((c + 2 ^ (8 - 1)) * 2 ^ 56) by (simpl; lia).
  change (2 ^ 64) with (2 ^ 8 * 2 ^ 56). rewrite Z.mul_mod_distr_r by done. simpl. lia.
Qed.

Lemma decode_i64_ok mem data_len pos val val0 :
  0 <= pos -> pos + 8 <= data_len < 2 ^ 31 -> sint 64 val ->
  load_bytes mem pos 8 = Ret (be8 val) ->
  decode_i64 (Some mem) data_len pos val0 = Ret (OB_SUCCESS, pos, val).
Proof.
  intros Hp Hd [Hv1 Hv2] Hl. unfold decode_i64. rewrite swrap_small by (unfold sint; simpl in *; lia).
  destruct (Z.leb_spec 8 (data_len - pos)); [|lia].
  unfold be8 in Hl. cbn [map] in Hl.
  do 8 (apply load_bytes_cons in Hl as (? & ? & [= <- <-] & ?Hl & Hl)). clear Hl.
  repeat match goal with
  | H : context [?t + Zpos ?p + Zpos ?r] |- _ =>
      let q := eval compute in (Zpos p + Zpos r) in
      replace (t + Zpos p + Zpos r) with (t + q) in H by lia
  end.
  repeat match goal with H : load _ _ = Ret _ |- _ => rewrite H; clear H; rewrite bind_ret end.
  cbv zeta. do 2 f_equal. rewrite s64_shiftl_56, swrap_wrap by lia.
  rewrite (swrap_small 8 (Z.shiftr val 56)).
  2: lia.
  2: { unfold sint in *. rewrite Z.shiftr_div_pow2 by lia. simpl in *. dlia. }
  rewrite <- (Z.shiftl_0_r (u8 (Z.shiftr val 0))).
  rewrite (lor_next_byte val 48 56), (lor_next_byte val 40 48), (lor_next_byte val 32 40),
    (lor_next_byte val 24 32), (lor_next_byte val 16 24), (lor_next_byte val 8 16),
    (lor_next_byte val 0 8) by lia.
  by rewrite Z.shiftl_0_r, Z.shiftr_0_r.
Qed.

(** A 64-bit integer written by encode_i64 into a buffer with eight free bytes is
    read back exactly by decode_i64, but decode_i64 leaves the caller's position
    where it was: the position it advances is a local copy. *)
Theorem i64_roundtrip mem buf_len pos val val0 :
  0 <= pos -> pos + 8 <= buf_len <= Z.of_nat (length mem) -> buf_len < 2 ^ 31 -> sint 64 val ->
  exists mem',
    encode_i64 (Some mem) buf_len pos val = Ret (OB_SUCCESS, Some mem', pos + 8) /\
    decode_i64 (Some mem') buf_len pos val0 = Ret (OB_SUCCESS, pos, val).
Proof.
  intros Hp Hb Hmax Hv. exists (splice pos (be8 val) mem). split; [by apply encode_i64_ok|].
  apply decode_i64_ok; [done|lia|done|]. apply (load_bytes_splice pos (be8 val) mem). split; simpl; lia.
Qed.

Lemma i64_roundtrip_witness : exists mem',
  encode_i64 (Some (replicate 12 0)) 12 3 (-2) = Ret (OB_SUCCESS, Some mem', 11) /\
  decode_i64 (Some mem') 12 3 7 = Ret (OB_SUCCESS, 3, -2).
Proof. apply (i64_roundtrip (replicate 12 0) 12 3 (-2) 7); vm_compute; intuition congruence. Defined.

(** * Memory safety of the decoder *)

(** A decoder result respects the declared input: on success it consumed at least
    one byte and stayed inside [data_len]; on failure it changed nothing. *)
Definition dec_sane (data_len pos val : Z) (r : dec_result) : Prop :=
  let '(ret, pos', val') := r in
  (ret = OB_SUCCESS /\ pos < pos' <= data_len) \/
  (ret = OB_DESERIALIZE_ERROR /\ pos' = pos /\ val' = val).

Lemma decode_vi_end_sane w mem data_len pos0 val0 tmp acc shift :
  0 <= shift < w -> pos0 <= tmp <= data_len -> 0 <= tmp -> data_len < Z.of_nat (length mem) ->
  exists r, decode_vi_end w mem data_len pos0 val0 (OB_SUCCESS, tmp, acc, shift) = Ret r /\
            dec_sane data_len pos0 val0 r.
Proof.
  intros Hs Ht Ht0 Hm. unfold decode_vi_end. change (OB_SUCCESS =? OB_SUCCESS) with true. cbv iota.
  destruct (Z.ltb_spec (data_len - tmp) 1); [eexists; split; [done|by right]|].
  destruct (load_in mem tmp) as (c & -> & _); [lia|]. rewrite bind_ret.
  unfold shl. destruct (Z.ltb_spec shift w); [|lia]. rewrite bind_ret.
  eexists; split; [done|left]. split; [done|lia].
Qed.

Lemma decode_vi_loop_sane w mem data_len pos0 val0 k : forall fuel tmp acc shift,
  (k < fuel)%nat -> 0 <= shift -> shift + 7 * Z.of_nat k < w <= 64 ->
  0 <= tmp -> pos0 <= tmp <= data_len -> data_len < Z.of_nat (length mem) ->
  (data_len <= tmp + Z.of_nat k \/
   exists c, load mem (tmp + Z.of_nat k) = Ret c /\ Z.land c 0x80 = 0) ->
  exists r, (decode_vi_loop w fuel mem data_len tmp acc shift
               ≫= decode_vi_end w mem data_len pos0 val0) = Ret r /\
            dec_sane data_len pos0 val0 r.
Proof.
  induction k as [|k IH]; intros fuel tmp acc shift Hk Hs Hw Ht0 Ht Hm Hstop;
    (destruct fuel as [|fuel]; [lia|]); cbn [decode_vi_loop];
    destruct (load_in mem tmp) as (c & Hc & _); [lia| |lia|]; rewrite Hc; rewrite bind_ret;
    (destruct (Z.eqb_spec (Z.land c 0x80) 0);
      [rewrite bind_ret; apply decode_vi_end_sane; lia|]);
    (destruct (Z.ltb_spec (data_len - tmp) 1);
      [rewrite bind_ret; eexists; split; [done|by right]|]).
  - exfalso. destruct Hstop as [?|(c' & Hc' & ?)]; [lia|].
    rewrite Z.add_0_r, Hc in Hc'. congruence.
  - unfold shl. destruct (Z.ltb_spec shift w); [|lia]. rewrite bind_ret.
    rewrite (wrap_small 32) by (unfold uint; lia).
    apply IH; try lia.
    replace (tmp + 1 + Z.of_nat k) with (tmp + Z.of_nat (S k)) by lia.
    destruct Hstop; [left; lia|by right].
Qed.

(** [decode_vi64] always returns, reads no byte outside the allocation and shifts
    by less than the width, when the allocation extends at least one byte past
    data_len and one of the ten bytes from the position ends the integer or lies
    past data_len; it then either consumes bytes inside data_len or fails with
    OB_DESERIALIZE_ERROR and changes neither the position nor the value. *)
Theorem decode_vi64_safe mem data_len pos val k :
  0 <= pos <= data_len -> data_len < Z.of_nat (length mem) -> (k <= 9)%nat ->
  (data_len <= pos + Z.of_nat k \/
   exists c, load mem (pos + Z.of_nat k) = Ret c /\ Z.land c 0x80 = 0) ->
  exists r, decode_vi64 (Some mem) data_len pos val = Ret r /\ dec_sane data_len pos val r.
Proof.
  intros Hp Hm Hk Hstop. unfold decode_vi64, decode_vi.
  change (deref (Some mem)) with (Ret mem). rewrite bind_ret.
  apply (decode_vi_loop_sane 64 mem data_len pos val k); auto; lia.
Qed.

Lemma decode_vi64_safe_witness : exists r,
  decode_vi64 (Some [0x81; 0x82; 5]) 2 0 77 = Ret r /\ dec_sane 2 0 77 r.
Proof.
  apply (decode_vi64_safe [0x81; 0x82; 5] 2 0 77 2); [lia | simpl; lia | lia | left; simpl; lia].
Defined.

(** Decode_vi64 tests the continuation bit of the next byte before it compares
    the position with data_len: on an input of at most nine bytes that all have
    the bit set, with nothing allocated behind it, it reads out of bounds. *)
Theorem decode_vi64_overread n val :
  (n <= 9)%nat -> decode_vi64 (Some (replicate n 0x80)) (Z.of_nat n) 0 val = Fault.
Proof. intros H. do 10 (destruct n as [|n]; [by vm_compute|]). lia. Qed.

Lemma decode_vi64_overread_witness : decode_vi64 (Some (replicate 3 0x80)) 3 0 0 = Fault.
Proof. apply (decode_vi64_overread 3 0). lia. Defined.

(** * Strings *)

Definition vstr_bytes (data : bytes) : bytes :=
  vi_bytes 10 (Z.of_nat (length data)) ++ data ++ [0].

Lemma vi_len_u64 len : 0 <= len < 2 ^ 31 -> encoded_length_vi64 len = vi_len len /\ u64 len = len.
Proof.
  intros H. assert (u64 len = len) as E by (apply wrap_small; unfold uint; simpl in *; lia).
  by rewrite encoded_length_vi64_len, E.
Qed.

Lemma length_vstr_bytes data :
  Z.of_nat (length data) < 2 ^ 31 ->
  Z.of_nat (length (vstr_bytes data)) = encoded_length_vstr_with_len (Z.of_nat (length data)).
Proof.
  intros H. unfold vstr_bytes, encoded_length_vstr_with_len.
  destruct (vi_len_u64 (Z.of_nat (length data))) as [-> _]; [lia|].
  rewrite !length_app. unfold vi_len. simpl. lia.
Qed.

Lemma encode_vstr_with_len_splice mem buf_len pos data rest :
  all_bytes data -> 0 <= pos ->
  encoded_length_vstr_with_len (Z.of_nat (length data)) < 2 ^ 31 ->
  pos + encoded_length_vstr_with_len (Z.of_nat (length data)) <= buf_len <= Z.of_nat (length mem) ->
  encode_vstr_with_len (Some mem) buf_len pos (Some (data ++ rest)) (Z.of_nat (length data)) =
  Ret (OB_SUCCESS, Some (splice pos (vstr_bytes data) mem),
       pos + encoded_length_vstr_with_len (Z.of_nat (length data))).
Proof.
  intros Hdata Hp Hmax Hb. set (len := Z.of_nat (length data)) in *.
  assert (0 <= len < 2 ^ 31) as Hlen.
  { unfold encoded_length_vstr_with_len in Hmax. rewrite encoded_length_vi64_len in Hmax.
    pose proof (vi_len_pos (u64 len)). lia. }
  pose proof (length_vstr_bytes data ltac:(lia)) as Hvl. fold len in Hvl.
  destruct (vi_len_u64 len Hlen) as [El Eu].
  assert (len = Z.of_nat (length data)) as Elen by done.
  unfold encode_vstr_with_len.
  rewrite (swrap_small 32) by (unfold sint; simpl in *; lia).
  rewrite (proj2 (Z.leb_le 0 len)) by lia.
  rewrite (proj2 (Z.leb_le _ (buf_len - pos))) by lia. cbn [andb].
  unfold encoded_length_vstr_with_len in Hb.
  rewrite encode_vi64_ok by lia. rewrite bind_ret, Eu. cbn [deref of_option]. rewrite !bind_ret.
  assert (room mem pos (length (vstr_bytes data))) as Hr.
  { split; [lia|]. rewrite Hvl. unfold encoded_length_vstr_with_len. lia. }
  assert (room mem pos (length (vi_bytes 10 len))) as Hr1.
  { split; [lia|]. unfold vi_len in El. lia. }
  assert (length (splice pos (vi_bytes 10 len) mem) = length mem) as Hsl by (by apply length_splice).
  change (OB_SUCCESS =? OB_SUCCESS) with true. cbn [andb].
  assert (forall m1,
    m1 = splice (pos + vi_len len) data (splice pos (vi_bytes 10 len) mem) ->
    (mem ← store m1 (pos + vi_len len + len) 0;
     Ret (OB_SUCCESS, Some mem, pos + vi_len len + len + 1)) =
    Ret (OB_SUCCESS, Some (splice pos (vstr_bytes data) mem), pos + (vi_len len + len + 1))) as Hend.
  { intros m1 ->. unfold vi_len. change (store ?m ?i 0) with (int1store m i 0).
    rewrite splice_app by (split; [lia|]; rewrite length_app; unfold vi_len in El; lia).
    assert (room mem pos (length (vi_bytes 10 len ++ data)))
      by (split; [lia|]; rewrite length_app; unfold vi_len in El; lia).
    rewrite int1store_splice.
    2: { split; [lia|]. rewrite length_splice by done. unfold vi_len in El. lia. }
    rewrite bind_ret. change (le_bytes 1 0) with [0]. apply f_equal. f_equal; [do 2 f_equal|lia].
    unfold vstr_bytes. fold len. rewrite app_assoc, <- (splice_app pos (vi_bytes 10 len ++ data) [0]).
    - rewrite length_app. f_equal. lia.
    - by rewrite <- app_assoc. }
  rewrite El. unfold encoded_length_vstr_with_len. rewrite El.
  destruct (Z.ltb_spec 0 len).
  - replace (Z.to_nat len) with (length data) by lia.
    rewrite load_bytes_in by (split; [lia|]; rewrite length_app; lia).
    rewrite drop_0, take_app_length. rewrite bind_ret.
    rewrite store_bytes_splice by (split; [|rewrite Hsl]; unfold vi_len in *; lia).
    rewrite !bind_ret, map_u8_bytes by done. apply Hend. done.
  - rewrite bind_ret. replace (pos + vi_len len + len) with (pos + vi_len len) in Hend by lia.
    apply Hend.
    assert (data = []) as -> by (apply length_zero_iff_nil; lia).
    by rewrite splice_nil.
Qed.

(** A byte string encoded by encode_vstr_with_len into a buffer with room for it
    (and whose encoded length fits in 31 bits) is found again by
    decode_vstr_nocopy, which returns its offset and length and the position
    after its terminating NUL; decode_vstr copies exactly its bytes to dest. *)
Theorem vstr_roundtrip mem buf_len pos data rest dest lenp :
  let len := Z.of_nat (length data) in
  all_bytes data -> 0 <= pos -> encoded_length_vstr_with_len len < 2 ^ 31 ->
  pos + encoded_length_vstr_with_len len <= buf_len <= Z.of_nat (length mem) ->
  len <= Z.of_nat (length dest) ->
  exists mem' off,
    encode_vstr_with_len (Some mem) buf_len pos (Some (data ++ rest)) len =
      Ret (OB_SUCCESS, Some mem', pos + encoded_length_vstr_with_len len) /\
    decode_vstr_nocopy (Some mem') buf_len pos lenp =
      Ret (Some off, pos + encoded_length_vstr_with_len len, len) /\
    load_bytes mem' off (length data) = Ret data /\
    decode_vstr (Some mem') buf_len pos (Some dest) (Z.of_nat (length dest)) lenp =
      Ret (Some off, pos + encoded_length_vstr_with_len len, Some (splice 0 data dest), len).
Proof.
  intros len Hdata Hp Hmax Hb Hdest.
  exists (splice pos (vstr_bytes data) mem), (pos + vi_len len).
  assert (0 <= len < 2 ^ 31) as Hlen.
  { unfold encoded_length_vstr_with_len in Hmax. rewrite encoded_length_vi64_len in Hmax.
    pose proof (vi_len_pos (u64 len)). lia. }
  pose proof (length_vstr_bytes data ltac:(lia)) as Hvl. fold len in Hvl.
  destruct (vi_len_u64 len Hlen) as [El Eu].
  assert (room mem pos (length (vstr_bytes data))) as Hr by (split; lia).
  pose proof (load_bytes_splice pos _ mem Hr) as Hld. unfold vstr_bytes at 2 3 in Hld.
  fold len in Hld. apply load_bytes_app in Hld as [Hld1 Hld2].
  apply load_bytes_app in Hld2 as [Hld2 _]. fold (vi_len len) in Hld2.
  unfold encoded_length_vstr_with_len in *. rewrite El in *.
  assert (forall v0, decode_vi64 (Some (splice pos (vstr_bytes data) mem)) buf_len pos v0 =
    Ret (OB_SUCCESS, pos + vi_len len, len)) as Hdec.
  { intros v0. rewrite (decode_vi64_ok _ _ _ len); rewrite ?El, ?Eu; [|lia|done].
    rewrite (swrap_small 64); [done|lia|]. unfold sint. simpl in *. lia. }
  split_and!.
  - fold len. rewrite <- El. apply (encode_vstr_with_len_splice mem buf_len pos data rest);
      unfold encoded_length_vstr_with_len; fold len; rewrite ?El; done.
  - unfold decode_vstr_nocopy. rewrite Hdec. rewrite bind_ret.
    destruct (Z.ltb_spec buf_len 0), (Z.ltb_spec pos 0); try lia. cbn [orb].
    change (negb (OB_SUCCESS =? OB_SUCCESS)) with false. cbv iota.
    rewrite (proj2 (Z.leb_le 0 len)), (proj2 (Z.leb_le len _)) by lia. do 2 f_equal. f_equal. lia.
  - done.
  - unfold decode_vstr. rewrite Hdec. rewrite bind_ret.
    destruct (Z.ltb_spec buf_len 0), (Z.ltb_spec pos 0), (Z.ltb_spec (Z.of_nat (length dest)) 0); try lia.
    cbn [orb]. change (negb (OB_SUCCESS =? 0)) with false. cbn [orb].
    rewrite (proj2 (Z.ltb_ge _ len)), (proj2 (Z.leb_le 0 len)), (proj2 (Z.leb_le len _)) by lia.
    replace (Z.to_nat len) with (length data) by lia. rewrite Hld2. rewrite bind_ret.
    rewrite store_bytes_splice by (split; lia). rewrite map_u8_bytes by done.
    rewrite bind_ret. do 4 f_equal. lia.
Qed.

Lemma vstr_roundtrip_witness : exists mem' off,
  encode_vstr_with_len (Some (replicate 8 9)) 8 1 (Some ([104; 105] ++ [0])) 2 =
    Ret (OB_SUCCESS, Some mem', 5) /\
  decode_vstr_nocopy (Some mem') 8 1 0 = Ret (Some off, 5, 2).
Proof.
  destruct (vstr_roundtrip (replicate 8 9) 8 1 [104; 105] [0] [0; 0] 0) as (mem' & off & H1 & H2 & _).
  - repeat constructor; vm_compute; congruence.
  - lia.
  - vm_compute; congruence.
  - vm_compute; split; congruence.
  - vm_compute; congruence.
  - exists mem', off. split; [exact H1 | exact H2].
Defined.

(** The space check of encode_vstr_with_len converts the needed size to 32 bits:
    at a length of 2^31 - 6 the size wraps to a negative number, any buffer passes
    the check, and the copy leaves the allocation. *)
Theorem vstr_length_check_wraps mem vbuf :
  (8 <= length mem <= 1024)%nat ->
  encode_vstr_with_len (Some mem) (Z.of_nat (length mem)) 0 (Some vbuf) (2 ^ 31 - 6) = Fault.
Proof.
  intros Hm. assert (encoded_length_vi64 (2 ^ 31 - 6) = 5) as El by (by vm_compute).
  unfold encode_vstr_with_len, encoded_length_vstr_with_len. rewrite El.
  replace (s32 (5 + (2 ^ 31 - 6) + 1)) with (- 2 ^ 31) by (by vm_compute).
  rewrite (proj2 (Z.leb_le (- 2 ^ 31) _)) by lia.
  change (0 <=? 2 ^ 31 - 6) with true. cbn [andb].
  rewrite encode_vi64_ok by (rewrite ?El; lia). rewrite bind_ret. cbn [deref of_option].
  rewrite bind_ret, El. change (OB_SUCCESS =? OB_SUCCESS) with true.
  change (0 <? 2 ^ 31 - 6) with true. cbn [andb].
  remember (Z.to_nat (2 ^ 31 - 6)) as N eqn:EN. assert (1024 < N)%nat by lia.
  destruct (load_bytes vbuf 0 N) as [data| |] eqn:Ed; [| done |].
  - apply load_bytes_length in Ed. rewrite bind_ret.
    rewrite store_bytes_Fault; [done | lia | | intros ->; simpl in Ed; lia].
    rewrite length_splice; [lia|]. split; [lia|].
    change (length (vi_bytes 10 (u64 (2 ^ 31 - 6)))) with 5%nat. lia.
  - by destruct (load_bytes_fuel vbuf 0 N).
Qed.

Lemma vstr_length_check_wraps_witness :
  encode_vstr_with_len (Some (replicate 16 0)) 16 0 (Some [1; 2]) (2 ^ 31 - 6) = Fault.
Proof. apply (vstr_length_check_wraps (replicate 16 0) [1; 2]). vm_compute; split; repeat constructor. Defined.

End Serialize.
