(* ===== verification/MaList.v ===== *)
(** libmariadb/ma_list.c: the intrusive doubly linked list [LIST].

    The nodes live in a heap; a pointer is a number, 0 is NULL, and reading or
    writing a node that is not allocated is a [Fault].  [dll] relates a heap to
    the list of nodes it represents. *)

From stdpp Require Import tactics gmap.
From S2P Require Import Prelude.

Module MaList.

Abbreviation loc := nat.
Abbreviation NULL := 0%nat.

Record LIST : Type := Node { prev : loc; next : loc; data : Z }.

Abbreviation heap := (gmap loc LIST).

(** Field accesses through a pointer. *)
Definition get (h : heap) (p : loc) : cres LIST := of_option (h !! p).
Definition set_prev (h : heap) (p v : loc) : cres heap :=
  n ← get h p; Ret (<[p := Node v (next n) (data n)]> h).
Definition set_next (h : heap) (p v : loc) : cres heap :=
  n ← get h p; Ret (<[p := Node (prev n) v (data n)]> h).

Definition is_null (p : loc) : bool := Nat.eqb p NULL.
#[global] Arguments is_null : simpl never.

(** * Operations *)

(** Add a element to start of list; returns the heap and the new root. *)
Definition list_add (h : heap) (root element : loc) : cres (heap * loc) :=
  h ← (if is_null root then set_prev h element NULL
       else
         r ← get h root;
         h ← (if is_null (prev r) then Ret h else set_next h (prev r) element);
         r ← get h root;
         h ← set_prev h element (prev r);
         set_prev h root element);
  h ← set_next h element root;
  Ret (h, element).

Definition list_delete (h : heap) (root element : loc) : cres (heap * loc) :=
  e ← get h element;
  '(h, root) ← (if is_null (prev e) then Ret (h, next e)
                else h ← set_next h (prev e) (next e); Ret (h, root));
  e ← get h element;
  h ← (if is_null (next e) then Ret h else set_prev h (next e) (prev e));
  Ret (h, root).

(** [free] of a node that is not allocated is undefined.  The nodes' data
    pointers belong to the caller; the calls in the library pass
    [free_data = 0]. *)
Fixpoint list_free (fuel : nat) (h : heap) (root : loc) : cres heap :=
  if is_null root then Ret h
  else match fuel with
  | O => OutOfFuel
  | S fuel' => r ← get h root; list_free fuel' (delete root h) (next r)
  end.

(** [fresh] is what malloc returned: NULL or an unallocated address. *)
Definition list_cons (h : heap) (fresh : loc) (d : Z) (list : loc) : cres (heap * loc) :=
  if is_null fresh then Ret (h, NULL)
  else list_add (<[fresh := Node NULL NULL d]> h) list fresh.

Fixpoint list_reverse_loop (fuel : nat) (h : heap) (root last : loc) : cres (heap * loc) :=
  if is_null root then Ret (h, last)
  else match fuel with
  | O => OutOfFuel
  | S fuel' =>
      let last := root in
      r ← get h root;
      let root := next r in
      l ← get h last;
      h ← set_next h last (prev l);
      h ← set_prev h last root;
      list_reverse_loop fuel' h root last
  end.

Definition list_reverse (fuel : nat) (h : heap) (root : loc) : cres (heap * loc) :=
  list_reverse_loop fuel h root root.

Fixpoint list_length_loop (fuel : nat) (h : heap) (list : loc) (count : Z) : cres Z :=
  if is_null list then Ret count
  else match fuel with
  | O => OutOfFuel
  | S fuel' => n ← get h list; list_length_loop fuel' h (next n) (u32 (count + 1))
  end.

Definition list_length (fuel : nat) (h : heap) (list : loc) : cres Z :=
  list_length_loop fuel h list 0.

(** [action] runs on each datum with its own state until it returns non-zero. *)
Fixpoint list_walk {S} (fuel : nat) (h : heap) (list : loc) (action : Z -> S -> Z * S) (s : S)
    : cres (Z * S) :=
  if is_null list then Ret (0, s)
  else match fuel with
  | O => OutOfFuel
  | Datatypes.S fuel' =>
      n ← get h list;
      let '(error, s) := action (data n) s in
      if error =? 0 then list_walk fuel' h (next n) action s else Ret (error, s)
  end.

(** * Representation *)

(** [dlseg h p0 p l p1 p2]: from [p] the heap holds the nodes [l] (address and
    datum), linked both ways; [p0] is the node before, [p1] the last node and
    [p2] the node after. *)
Fixpoint dlseg (h : heap) (p0 p : loc) (l : list (loc * Z)) (p1 p2 : loc) : Prop :=
  match l with
  | [] => p = p2 /\ p0 = p1
  | (a, d) :: l' => p = a /\ a <> NULL /\ exists n, h !! a = Some (Node p0 n d) /\ dlseg h a n l' p1 p2
  end.

Definition dll (h : heap) (root : loc) (l : list (loc * Z)) : Prop :=
  NoDup l.*1 /\ exists last, dlseg h NULL root l last NULL.

Lemma dlseg_app h l1 l2 : forall p0 p p1 p2,
  dlseg h p0 p (l1 ++ l2) p1 p2 <->
  exists m x, dlseg h p0 p l1 m x /\ dlseg h m x l2 p1 p2.
Proof.
  induction l1 as [|[a d] l1 IH]; intros p0 p p1 p2; simpl.
  - split; [intros H; exists p0, p; auto|]. by intros (m & x & [-> ->] & H).
  - split.
    + intros (-> & Ha & n & Hn & (m & x & H1 & H2)%IH). exists m, x. eauto 10.
    + intros (m & x & (-> & Ha & n & Hn & H1) & H2). split_and!; [done..|].
      exists n. split; [done|]. apply IH. eauto.
Qed.

(** A segment only depends on its own nodes. *)
Lemma dlseg_ext h h' l : forall p0 p p1 p2,
  (forall a, a ∈ l.*1 -> h' !! a = h !! a) ->
  dlseg h p0 p l p1 p2 -> dlseg h' p0 p l p1 p2.
Proof.
  induction l as [|[a d] l IH]; intros p0 p p1 p2 Heq; simpl; [done|].
  intros (-> & Ha & n & Hn & H). split_and!; [done..|]. exists n. split.
  - rewrite Heq; [done|]. simpl. set_solver.
  - apply IH; [|done]. intros b Hb. apply Heq. simpl. set_solver.
Qed.

Lemma dlseg_insert h l p0 p p1 p2 a n :
  a ∉ l.*1 -> dlseg h p0 p l p1 p2 -> dlseg (<[a := n]> h) p0 p l p1 p2.
Proof.
  intros Ha. apply dlseg_ext. intros b Hb. apply lookup_insert_ne. set_solver.
Qed.

Lemma dll_frame h h' root l :
  (forall a, a ∈ l.*1 -> h' !! a = h !! a) -> dll h root l -> dll h' root l.
Proof. intros Heq [Hnd (last & H)]. split; [done|]. exists last. by eapply dlseg_ext. Qed.

Lemma dll_nil h : dll h NULL [].
Proof. split; [constructor|by exists NULL]. Qed.

(** The heap determines the list. *)
Lemma dll_inj h root l l' : dll h root l -> dll h root l' -> l = l'.
Proof.
  intros [_ (last & H)] [_ (last' & H')]. generalize dependent root. generalize 0%nat at 1 3. revert l'.
  induction l as [|[a d] l IH]; intros [|[a' d'] l'] p0 root; simpl.
  - done.
  - intros [-> _] (<- & ? & _). done.
  - intros (-> & ? & _) [? _]. done.
  - intros (-> & _ & n & Hn & H) (<- & _ & n' & Hn' & H'). simplify_eq. f_equal. by eapply IH.
Qed.

(** The first node and the last node of a segment. *)
Lemma dlseg_last_in h l : forall p0 p p1 p2,
  dlseg h p0 p l p1 p2 -> (l = [] /\ p1 = p0 /\ p = p2) \/
  (p1 ∈ l.*1 /\ p1 <> NULL /\ exists b d, h !! p1 = Some (Node b p2 d)).
Proof.
  induction l as [|[a d] l IH]; intros p0 p p1 p2; simpl; [naive_solver|].
  intros (-> & Ha & n & Hn & H). right. destruct (IH _ _ _ _ H) as [(-> & -> & ->)|(Hin & Hne & He)].
  - simpl. split; [set_solver|]. eauto.
  - split; [set_solver|]. eauto.
Qed.

Lemma dlseg_set_next h l : forall p0 p p1 p2 p2' b d,
  NoDup l.*1 -> l <> [] -> dlseg h p0 p l p1 p2 -> h !! p1 = Some (Node b p2 d) ->
  dlseg (<[p1 := Node b p2' d]> h) p0 p l p1 p2'.
Proof.
  induction l as [|[a d'] l IH]; intros p0 p p1 p2 p2' b d Hnd Hne; [done|]. simpl.
  intros (-> & Ha & n & Hn & H) Hl. inversion Hnd as [|? ? Hnotin Hnd']; subst.
  destruct l as [|x l].
  - destruct H as [-> ->]. simplify_eq. split_and!; [done..|].
    exists p2'. rewrite lookup_insert_eq. done.
  - destruct (dlseg_last_in _ _ _ _ _ _ H) as [(? & _)|(Hin & _)]; [done|].
    split_and!; [done..|]. exists n. split.
    + rewrite lookup_insert_ne; [done|]. intros ->. done.
    + by apply IH with p2.
Qed.

Lemma dlseg_set_prev h p0 p0' a d l p1 p2 n :
  a ∉ l.*1 -> dlseg h p0 a ((a, d) :: l) p1 p2 -> h !! a = Some (Node p0 n d) ->
  dlseg (<[a := Node p0' n d]> h) p0' a ((a, d) :: l) p1 p2.
Proof.
  intros Ha. simpl. intros (_ & Hne & n' & Hn & H) Hn'.
  rewrite Hn in Hn'. injection Hn' as ->.
  split_and!; [done..|]. exists n. split; [by rewrite lookup_insert_eq|]. by apply dlseg_insert.
Qed.

Lemma is_null_true p : p = NULL -> is_null p = true.
Proof. by intros ->. Qed.

Lemma is_null_false p : p <> NULL -> is_null p = false.
Proof. intros. by apply Nat.eqb_neq. Qed.

Lemma get_Some h p n : h !! p = Some n -> get h p = Ret n.
Proof. unfold get. by intros ->. Qed.

Lemma set_prev_Some h p n v : h !! p = Some n -> set_prev h p v = Ret (<[p := Node v (next n) (data n)]> h).
Proof. intros H. unfold set_prev. by rewrite (get_Some _ _ _ H). Qed.

Lemma set_next_Some h p n v : h !! p = Some n -> set_next h p v = Ret (<[p := Node (prev n) v (data n)]> h).
Proof. intros H. unfold set_next. by rewrite (get_Some _ _ _ H). Qed.

(** The node before and the node after a position of a list. *)
Definition last_or (p0 : loc) (l : list (loc * Z)) : loc := default p0 (last l.*1).
Definition head_or (l : list (loc * Z)) (p2 : loc) : loc := default p2 (head l.*1).

Lemma dlseg_ends h l : forall p0 p p1 p2,
  dlseg h p0 p l p1 p2 -> p1 = last_or p0 l /\ p = head_or l p2.
Proof.
  induction l as [|[a d] l IH]; intros p0 p p1 p2; simpl; [naive_solver|].
  intros (-> & _ & n & _ & H). destruct (IH _ _ _ _ H) as [-> _]. split; [|done].
  unfold last_or. rewrite fmap_cons, last_cons. simpl. by destruct (last l.*1).
Qed.

(** Insertion in front of the root. *)
Lemma list_add_head h root l e n :
  dll h root l -> h !! e = Some n -> e <> NULL -> e ∉ l.*1 ->
  exists h', list_add h root e = Ret (h', e) /\ dll h' e ((e, data n) :: l) /\
    (forall a, a <> e -> a ∉ l.*1 -> h' !! a = h !! a).
Proof.
  intros [Hnd (last & H)] He Hne Hnotin. unfold list_add.
  assert (NoDup ((e, data n) :: l).*1) as Hnd' by (by constructor).
  destruct l as [|[b db] l2].
  - destruct H as [-> <-]. change (is_null NULL) with true. cbv iota.
    rewrite (set_prev_Some _ _ _ _ He). rewrite bind_ret.
    erewrite set_next_Some by apply lookup_insert_eq. rewrite bind_ret. simpl.
    rewrite insert_insert_eq. eexists; split_and!; [done| |].
    + split; [done|]. exists e. simpl. split_and!; [done..|]. exists NULL.
      rewrite lookup_insert_eq. done.
    + intros a Ha _. by apply lookup_insert_ne.
  - simpl in Hnd, Hnotin. inversion Hnd as [|? ? Hb Hnd2]; subst.
    destruct H as (-> & Hbn & nb & Hbnode & H2). rewrite (is_null_false b) by done.
    assert (e <> b) by set_solver.
    rewrite (get_Some _ _ _ Hbnode), bind_ret. cbn [prev next data]. change (is_null NULL) with true. cbv iota.
    rewrite bind_ret, (get_Some _ _ _ Hbnode), bind_ret, (set_prev_Some _ _ _ _ He), bind_ret.
    erewrite set_prev_Some by (rewrite lookup_insert_ne by done; exact Hbnode). rewrite bind_ret.
    erewrite set_next_Some by (rewrite lookup_insert_ne by done; apply lookup_insert_eq).
    rewrite bind_ret. simpl. eexists; split_and!; [done| |].
    + split; [done|]. exists last. simpl. split_and!; [done..|]. exists b.
      rewrite lookup_insert_eq. split; [done|]. split_and!; [done..|]. exists nb.
      rewrite lookup_insert_ne, lookup_insert_eq by done. split; [done|].
      do 3 (apply dlseg_insert; [set_solver|]). done.
    + intros a Ha Hni. rewrite !lookup_insert_ne by set_solver. done.
Qed.

(** Insertion between two nodes. *)
Lemma list_add_middle h first l1 b db l2 e n :
  dll h first (l1 ++ (b, db) :: l2) -> l1 <> [] ->
  h !! e = Some n -> e <> NULL -> e ∉ (l1 ++ (b, db) :: l2).*1 ->
  exists h', list_add h b e = Ret (h', e) /\ dll h' first (l1 ++ (e, data n) :: (b, db) :: l2) /\
    (forall a, a <> e -> a ∉ (l1 ++ (b, db) :: l2).*1 -> h' !! a = h !! a).
Proof.
  intros [Hnd (last & H)] Hl1 He Hne Hnotin. unfold list_add.
  rewrite fmap_app in Hnd, Hnotin. apply NoDup_app in Hnd as (Hnd1 & Hdisj & Hnd2).
  assert (NoDup (l1 ++ (e, data n) :: (b, db) :: l2).*1) as Hnd'.
  { rewrite fmap_app. apply NoDup_app. split_and!; [done| |].
    - intros x Hx. specialize (Hdisj x Hx). rewrite fmap_cons. set_solver.
    - constructor; [set_solver|done]. }
  apply dlseg_app in H as (m & x & H1 & H2).
  simpl in Hnd2, Hdisj, Hnotin. inversion Hnd2 as [|? ? Hb Hnd2']; subst.
  destruct H2 as (-> & Hbn & nb & Hbnode & H2). assert (e <> b) by set_solver.
  destruct (dlseg_last_in _ _ _ _ _ _ H1) as [(? & _)|(Hmin & Hmne & bm & dm & Hm)]; [done|].
  assert (m <> b) by (intros ->; by apply (Hdisj b Hmin); left).
  assert (m <> e) by set_solver.
  rewrite (is_null_false b), (get_Some _ _ _ Hbnode), bind_ret by done. cbn [prev next data].
  rewrite (is_null_false m), (set_next_Some _ _ _ _ Hm), bind_ret by done. cbn [prev next data].
  erewrite get_Some by (rewrite lookup_insert_ne by done; exact Hbnode). rewrite bind_ret. cbn [prev next data].
  erewrite set_prev_Some by (rewrite lookup_insert_ne by done; exact He). rewrite bind_ret.
  erewrite set_prev_Some by (rewrite !lookup_insert_ne by done; exact Hbnode). rewrite bind_ret.
  erewrite set_next_Some by (rewrite lookup_insert_ne by done; apply lookup_insert_eq).
  rewrite bind_ret. cbn [prev next data]. eexists; split_and!; [done| |].
  - split; [done|]. exists last. apply dlseg_app. exists m, e. split.
    + do 3 (apply dlseg_insert; [set_solver|]). by apply dlseg_set_next with b.
    + simpl. split_and!; [done..|]. exists b. rewrite lookup_insert_eq. split; [done|].
      split_and!; [done..|]. exists nb. rewrite lookup_insert_ne, lookup_insert_eq by done.
      split; [done|]. do 3 (apply dlseg_insert; [set_solver|]).
      apply dlseg_insert; [|done]. intros ?. apply (Hdisj m Hmin). by right.
  - intros a Ha Hni. rewrite fmap_app in Hni. rewrite !lookup_insert_ne; [done|set_solver..].
Qed.

(** Removal of any node: the node itself keeps its datum. *)
Lemma list_delete_node h root l1 e d l2 :
  dll h root (l1 ++ (e, d) :: l2) ->
  exists h' n, list_delete h root e = Ret (h', head_or (l1 ++ l2) NULL) /\
    dll h' (head_or (l1 ++ l2) NULL) (l1 ++ l2) /\ h' !! e = Some n /\ data n = d /\
    (forall a, a ∉ (l1 ++ l2).*1 -> h' !! a = h !! a).
Proof.
  intros [Hnd (last & H)]. rewrite fmap_app in Hnd.
  apply NoDup_app in Hnd as (Hnd1 & Hdisj & Hnd2). simpl in Hnd2, Hdisj.
  inversion Hnd2 as [|? ? He Hnd2']; subst.
  assert (NoDup (l1 ++ l2).*1) as Hnd'.
  { rewrite fmap_app. apply NoDup_app. split_and!; [done| |done]. intros y Hy ?. apply (Hdisj y Hy). by right. }
  assert (e ∉ l1.*1) as He1 by (intros ?; by apply (Hdisj e); [|left]).
  apply dlseg_app in H as (m & x & H1 & -> & Hen & nx & Henode & H2).
  unfold list_delete. rewrite (get_Some _ _ _ Henode), bind_ret. cbn [prev next data].
  (* the link from the left *)
  assert (exists h1, (if is_null m then Ret (h, nx) else h0 ← set_next h m nx; Ret (h0, root)) =
      Ret (h1, head_or (l1 ++ l2) NULL) /\
    dlseg h1 NULL (head_or (l1 ++ l2) NULL) l1 m nx /\ dlseg h1 e nx l2 last NULL /\
    h1 !! e = Some (Node m nx d) /\ (forall a, a ∉ l1.*1 -> h1 !! a = h !! a)) as
    (h1 & -> & Hs1 & Hs2 & He' & Hf1).
  { destruct (dlseg_ends _ _ _ _ _ _ H2) as [_ Hnx].
    destruct (dlseg_last_in _ _ _ _ _ _ H1) as [(-> & -> & ->)|(Hmin & Hmne & bm & dm & Hm)].
    - exists h. subst nx. split_and!; done.
    - rewrite is_null_false, (set_next_Some _ _ _ _ Hm) by done. rewrite bind_ret.
      assert (l1 <> []) by (intros ->; set_solver).
      destruct (dlseg_ends _ _ _ _ _ _ H1) as [_ Hroot].
      assert (head_or (l1 ++ l2) NULL = root) as -> by (rewrite Hroot; by destruct l1 as [|[]]).
      exists (<[m := Node bm nx dm]> h). split_and!; [done| | | |].
      + by apply dlseg_set_next with e.
      + apply dlseg_insert; [|done]. intros ?. apply (Hdisj m Hmin). by right.
      + rewrite lookup_insert_ne; [done|]. set_solver.
      + intros a Ha. apply lookup_insert_ne. set_solver. }
  rewrite bind_ret, (get_Some _ _ _ He'), bind_ret. cbn [prev next data].
  destruct l2 as [|[b db] l2].
  - destruct Hs2 as [-> ->]. change (is_null NULL) with true. cbv iota. rewrite bind_ret.
    rewrite app_nil_r in *. exists h1, (Node m NULL d). split_and!; [done| |exact He'|done|exact Hf1].
    split; [done|]. eauto.
  - destruct Hs2 as (-> & Hbn & nb & Hb & Hs2). rewrite is_null_false by done.
    rewrite (set_prev_Some _ _ _ _ Hb), bind_ret. cbn [prev next data].
    simpl in Hdisj. inversion Hnd2' as [|? ? Hbni _]; subst.
    assert (b ∉ l1.*1) by (intros Hx; apply (Hdisj b Hx); right; left).
    eexists _, _; split_and!; [done| |rewrite lookup_insert_ne by set_solver; exact He'|done|].
    + split; [done|]. exists last. apply dlseg_app. exists m, b.
      split; [by apply dlseg_insert|]. simpl. split_and!; [done..|]. exists nb.
      rewrite lookup_insert_eq. split; [done|]. by apply dlseg_insert.
    + intros a Ha. rewrite fmap_app, fmap_cons in Ha. rewrite lookup_insert_ne by set_solver.
      apply Hf1. set_solver.
Qed.

(** List_add inserts the element in front of the node it is given, whether that
    node is the root or lies inside the list (or the list is empty): the result is
    again a well-linked list with the element in that place, the returned pointer
    is the element, and no other node of the heap is changed. *)
Theorem list_add_inserts h first l1 l2 root e n :
  dll h first (l1 ++ l2) -> root = head_or l2 NULL -> (l2 = [] -> l1 = []) ->
  h !! e = Some n -> e <> NULL -> e ∉ (l1 ++ l2).*1 ->
  exists h', list_add h root e = Ret (h', e) /\
    dll h' (head_or (l1 ++ [(e, data n)]) NULL) (l1 ++ (e, data n) :: l2) /\
    (forall a, a <> e -> a ∉ (l1 ++ l2).*1 -> h' !! a = h !! a).
Proof.
  intros H -> Hempty He Hne Hnotin. destruct H as [Hnd (last & Hs)].
  destruct (dlseg_ends _ _ _ _ _ _ Hs) as [_ Hfirst].
  assert (dll h first (l1 ++ l2)) as H by (split; eauto).
  destruct (decide (l1 = [])) as [->|Hl1].
  - simpl in *. subst first. by apply list_add_head.
  - destruct l2 as [|[b db] l2]; [by destruct Hl1; auto|].
    assert (head_or (l1 ++ [(e, data n)]) NULL = first) as -> by (subst; by destruct l1 as [|[]]).
    by apply list_add_middle.
Qed.

Definition demo_heap : heap :=
  {[1%nat := Node 0 2 10; 2%nat := Node 1 0 20; 3%nat := Node 7 7 30]}.

Lemma demo_dll : dll demo_heap 1 [(1%nat, 10); (2%nat, 20)].
Proof.
  split; [simpl; repeat constructor; set_solver|]. exists 2%nat. simpl.
  split_and!; [done..|]. exists 2%nat. split; [done|]. split_and!; [done..|]. by exists 0%nat.
Qed.

Lemma list_add_inserts_witness : exists h',
  list_add demo_heap 2 3 = Ret (h', 3%nat) /\ dll h' 1 [(1%nat, 10); (3%nat, 30); (2%nat, 20)].
Proof.
  destruct (list_add_inserts demo_heap 1 [(1%nat, 10)] [(2%nat, 20)] 2 3 (Node 7 7 30))
    as (h' & H1 & H2 & _); [exact demo_dll | done | done | done | done | set_solver |].
  exists h'. split; [exact H1 | exact H2].
Defined.

Lemma list_move_spec h root l1 e d l2 root' l' :
  dll h root (l1 ++ (e, d) :: l2) -> dll h root' l' -> l'.*1 ## (l1 ++ (e, d) :: l2).*1 ->
  exists h1 h2, list_delete h root e = Ret (h1, head_or (l1 ++ l2) NULL) /\
    list_add h1 root' e = Ret (h2, e) /\
    dll h2 (head_or (l1 ++ l2) NULL) (l1 ++ l2) /\ dll h2 e ((e, d) :: l') /\
    (forall a, a ∉ (l1 ++ (e, d) :: l2).*1 -> a ∉ l'.*1 -> h2 !! a = h !! a).
Proof.
  intros H H' Hdisj. rewrite fmap_app, fmap_cons in Hdisj. simpl in Hdisj.
  assert (e <> NULL /\ e ∉ (l1 ++ l2).*1) as [Hne Hni].
  { destruct H as [Hnd (last & Hs)]. apply dlseg_app in Hs as (m & x & _ & -> & ? & _). split; [done|].
    rewrite fmap_app in Hnd |- *. simpl in Hnd. apply NoDup_app in Hnd as (_ & Hd & Hn).
    inversion Hn; subst. rewrite elem_of_app. intros [Hx|?]; [by apply (Hd e Hx); left|done]. }
  destruct (list_delete_node _ _ _ _ _ _ H) as (h1 & n & E1 & D1 & He & <- & Hf1).
  rewrite fmap_app in Hf1, Hni.
  assert (dll h1 root' l') as D1' by (eapply dll_frame, H'; intros; apply Hf1; set_solver).
  destruct (list_add_head _ _ _ _ _ D1' He Hne) as (h2 & E2 & D2 & Hf2); [set_solver|].
  exists h1, h2. split_and!; [done..| |done|].
  - eapply dll_frame, D1. rewrite fmap_app. intros a Ha. apply Hf2; set_solver.
  - intros a Ha Ha'. rewrite fmap_app, fmap_cons in Ha. simpl in Ha. rewrite Hf2, Hf1; set_solver.
Qed.

(** Moving a node from one list to the front of a disjoint one, list_delete
    followed by list_add (the way spans are recycled), returns the remaining list
    and the extended list, both well linked, and leaves every other node alone. *)
Theorem list_move h root l1 e d l2 root' l' :
  dll h root (l1 ++ (e, d) :: l2) -> dll h root' l' -> l'.*1 ## (l1 ++ (e, d) :: l2).*1 ->
  exists h1 h2, list_delete h root e = Ret (h1, head_or (l1 ++ l2) NULL) /\
    list_add h1 root' e = Ret (h2, e) /\
    dll h2 (head_or (l1 ++ l2) NULL) (l1 ++ l2) /\ dll h2 e ((e, d) :: l') /\
    (forall a, a ∉ (l1 ++ (e, d) :: l2).*1 -> a ∉ l'.*1 -> h2 !! a = h !! a).
Proof. apply list_move_spec. Qed.

Lemma list_move_witness : exists h1 h2,
  list_delete demo_heap 1 1 = Ret (h1, 2%nat) /\ list_add h1 0 1 = Ret (h2, 1%nat).
Proof.
  destruct (list_move demo_heap 1 [] 1 10 [(2%nat, 20)] 0 []) as (h1 & h2 & H1 & H2 & _).
  - exact demo_dll.
  - split; [constructor|]. exists 0%nat. split; reflexivity.
  - set_solver.
  - exists h1, h2. split; [exact H1 | exact H2].
Defined.

(** * Traversals *)

Lemma list_reverse_loop_spec l : forall fuel h root p0 v r x y,
  NoDup (l ++ r).*1 -> (length l <= fuel)%nat ->
  dlseg h root p0 r x NULL -> dlseg h p0 root l y NULL ->
  exists h', list_reverse_loop fuel h root v = Ret (h', head_or (rev l) v) /\
    (l <> [] -> exists x', dlseg h' NULL (head_or (rev l) v) (rev l ++ r) x' NULL) /\
    (forall a, a ∉ l.*1 -> h' !! a = h !! a).
Proof.
  induction l as [|[a d] l IH]; intros fuel h root p0 v r x y Hnd Hfuel Hr Hl.
  - destruct Hl as [-> ->]. exists h. split_and!; [by destruct fuel|done|done].
  - destruct fuel as [|fuel]; [simpl in Hfuel; lia|]. destruct Hl as (-> & Ha & n & Hn & Hl).
    simpl in Hnd. inversion Hnd as [|? ? Hnotin Hnd']; subst. rewrite fmap_app in Hnotin.
    cbn [list_reverse_loop]. rewrite (is_null_false a), (get_Some _ _ _ Hn), !bind_ret by done.
    rewrite (set_next_Some _ _ _ _ Hn), bind_ret. cbn [prev next data].
    erewrite set_prev_Some by apply lookup_insert_eq. rewrite bind_ret, insert_insert_eq.
    cbn [prev next data]. set (h1 := <[a := Node n p0 d]> h).
    assert (dlseg h1 n a ((a, d) :: r) x NULL) as Hr1.
    { simpl. split_and!; [done..|]. exists p0. unfold h1. rewrite lookup_insert_eq.
      split; [done|]. apply dlseg_insert; [set_solver|done]. }
    assert (dlseg h1 a n l y NULL) as Hl1 by (apply dlseg_insert; [set_solver|done]).
    destruct (IH fuel h1 n a a ((a, d) :: r) x y) as (h' & E & Hseg & Hf); [|simpl in Hfuel; lia|done..|].
    { rewrite fmap_app, fmap_cons. simpl. rewrite <- Permutation_middle. constructor; [set_solver|].
      by rewrite <- fmap_app. }
    assert (head_or (rev ((a, d) :: l)) v = head_or (rev l) a) as Eh.
    { simpl. destruct (rev l) as [|[] ?] eqn:El; done. }
    exists h'. rewrite Eh. split_and!; [done| |].
    + intros _. simpl rev. rewrite <- app_assoc. simpl.
      destruct (decide (l = [])) as [->|Hne]; [|by apply Hseg].
      destruct Hl1 as [-> ->]. simpl in E.
      assert (h' = h1) as -> by (destruct fuel; simpl in E; by injection E).
      simpl. eauto.
    + intros b Hb. simpl in Hb. rewrite Hf by set_solver. apply lookup_insert_ne. set_solver.
Qed.

Lemma list_length_loop_spec h l : forall fuel p0 p p1 c,
  dlseg h p0 p l p1 NULL -> (length l <= fuel)%nat ->
  list_length_loop fuel h p c = Ret (if decide (l = []) then c else u32 (c + Z.of_nat (length l))).
Proof.
  induction l as [|[a d] l IH]; intros fuel p0 p p1 c H Hf.
  - destruct H as [-> ->]. by destruct fuel.
  - destruct fuel as [|fuel]; [simpl in Hf; lia|]. destruct H as (-> & Ha & n & Hn & H).
    cbn [list_length_loop]. rewrite is_null_false, (get_Some _ _ _ Hn), bind_ret by done. simpl next.
    rewrite (IH fuel a n p1) by (done || (simpl in Hf; lia)).
    destruct (decide (l = [])) as [->|]; [done|]. rewrite decide_False by done. f_equal.
    unfold wrap. rewrite Z.add_mod_idemp_l by lia. f_equal. simpl. lia.
Qed.

Lemma list_free_spec l : forall fuel h p0 p p1,
  NoDup l.*1 -> dlseg h p0 p l p1 NULL -> (length l <= fuel)%nat ->
  exists h', list_free fuel h p = Ret h' /\
    (forall a, h' !! a = if decide (a ∈ l.*1) then None else h !! a).
Proof.
  induction l as [|[a d] l IH]; intros fuel h p0 p p1 Hnd H Hf.
  - destruct H as [-> ->]. exists h. split; [by destruct fuel|]. intros a. by rewrite decide_False by set_solver.
  - destruct fuel as [|fuel]; [simpl in Hf; lia|]. destruct H as (-> & Ha & n & Hn & H).
    inversion Hnd as [|? ? Hni Hnd']; subst.
    cbn [list_free]. rewrite is_null_false, (get_Some _ _ _ Hn), bind_ret by done. simpl next.
    destruct (IH fuel (delete a h) a n p1) as (h' & -> & Hh'); [done| |simpl in Hf; lia|].
    + eapply dlseg_ext, H. intros b Hb. apply lookup_delete_ne. set_solver.
    + exists h'. split; [done|]. intros b. rewrite Hh'. simpl.
      destruct (decide (b ∈ l.*1)); [by rewrite decide_True by set_solver|].
      destruct (decide (b = a)) as [->|].
      * rewrite decide_True by set_solver. by rewrite lookup_delete_eq.
      * rewrite decide_False by set_solver. by rewrite lookup_delete_ne.
Qed.

Fixpoint walk_list {S} (action : Z -> S -> Z * S) (l : list Z) (s : S) : Z * S :=
  match l with
  | [] => (0, s)
  | d :: l' => let '(error, s) := action d s in if error =? 0 then walk_list action l' s else (error, s)
  end.

Lemma list_walk_spec {S} (action : Z -> S -> Z * S) h l : forall fuel p0 p p1 s,
  dlseg h p0 p l p1 NULL -> (length l <= fuel)%nat ->
  list_walk fuel h p action s = Ret (walk_list action l.*2 s).
Proof.
  induction l as [|[a d] l IH]; intros fuel p0 p p1 s H Hf.
  - destruct H as [-> ->]. by destruct fuel.
  - destruct fuel as [|fuel]; [simpl in Hf; lia|]. destruct H as (-> & Ha & n & Hn & H).
    cbn [list_walk]. rewrite is_null_false, (get_Some _ _ _ Hn), bind_ret by done. simpl.
    destruct (action d s) as [err s']. destruct (err =? 0); [|done].
    apply (IH fuel a n p1); [done|simpl in Hf; lia].
Qed.

(** On a well-linked list the traversals end after one round per node and do what
    they say: list_length counts the nodes, list_walk runs the action on the data in
    order until it fails, list_reverse reverses the list in place and touches only
    its nodes, and list_free releases exactly its nodes. *)
Theorem list_traversals {S} (action : Z -> S -> Z * S) s h root l fuel :
  dll h root l -> (length l <= fuel)%nat ->
  list_length fuel h root = Ret (u32 (Z.of_nat (length l))) /\
  list_walk fuel h root action s = Ret (walk_list action l.*2 s) /\
  (exists h', list_reverse fuel h root = Ret (h', head_or (rev l) NULL) /\
    dll h' (head_or (rev l) NULL) (rev l) /\ forall a, a ∉ l.*1 -> h' !! a = h !! a) /\
  (exists h', list_free fuel h root = Ret h' /\
    forall a, h' !! a = if decide (a ∈ l.*1) then None else h !! a).
Proof.
  intros [Hnd (last & H)] Hf. split_and!.
  - unfold list_length. rewrite (list_length_loop_spec h l fuel NULL root last) by done.
    by destruct (decide (l = [])) as [->|].
  - by apply list_walk_spec with NULL last.
  - unfold list_reverse.
    destruct (list_reverse_loop_spec l fuel h root NULL root [] root last)
      as (h' & E & Hs & Hfr); [by rewrite app_nil_r|done|done|done|].
    assert (head_or (rev l) root = head_or (rev l) NULL) as Eh.
    { destruct (dlseg_ends _ _ _ _ _ _ H) as [_ ->]. destruct l as [|[a d] l]; [done|]. simpl.
      by destruct (rev l) as [|[]]. }
    rewrite Eh in E, Hs. exists h'. split_and!; [done| |done]. split.
    + change ((rev l).*1) with (map fst (rev l)). rewrite map_rev, <- Permutation_rev. exact Hnd.
    + destruct (decide (l = [])) as [->|Hne]; [by exists NULL|].
      destruct (Hs Hne) as (x' & Hx). rewrite app_nil_r in Hx. eauto.
  - by apply list_free_spec with NULL last.
Qed.

Lemma list_traversals_witness :
  list_length 2 demo_heap 1 = Ret 2 /\
  list_walk 2 demo_heap 1 (fun d s => (0, s + d)) 0 = Ret (0, 30).
Proof.
  destruct (list_traversals (fun d s => (0, s + d)) 0 demo_heap 1 _ 2 demo_dll) as (H1 & H2 & _).
  - simpl; lia.
  - split; [exact H1 | exact H2].
Defined.

End MaList.
