(* ===== verification/FltCodec.v ===== *)
(** libmariadb/ob_full_link_trace.c, the serialization half: the type-length-value
    fields of the full-link-trace extra information and the six info records built
    from them.

    A [double] is its 64-bit pattern; [memcpy] of it writes the bytes low end
    first (the host is little-endian).  A [const char *] is the memory from the
    pointer on; [void *flt_info] is one of the info records, tagged. *)

From stdpp Require Import tactics.
From S2P Require Import Prelude IntStore Serialize.
Import Serialize.

Module FltCodec.

Definition TYPE_LENGTH : Z := 2.
Definition LEN_LENGTH : Z := 4.
Definition DBL_SIZE : Z := 8.
Definition FLT_SIZE : Z := 4.
Definition UUID4_SERIALIZE_LEN : Z := 16.

(** FullLinkTraceExtraInfoId *)
Definition FLT_DRIVER_SPAN : Z := 1.
Definition FLT_CLIENT_IDENTIFIER : Z := 2001.
Definition FLT_MODULE : Z := 2002.
Definition FLT_ACTION : Z := 2003.
Definition FLT_CLIENT_INFO : Z := 2004.
Definition FLT_QUERY_START_TIMESTAMP : Z := 2010.
Definition FLT_QUERY_END_TIMESTAMP : Z := 2011.
Definition FLT_LEVEL : Z := 2020.
Definition FLT_SAMPLE_PERCENTAGE : Z := 2021.
Definition FLT_RECORD_POLICY : Z := 2022.
Definition FLT_PRINT_SAMPLE_PCT : Z := 2023.
Definition FLT_SLOW_QUERY_THRES : Z := 2024.
Definition FLT_SHOW_TRACE_ENABLE : Z := 2025.
Definition FLT_TRACE_ENABLE : Z := 2030.
Definition FLT_FORCE_PRINT : Z := 2031.
Definition FLT_TRACE_ID : Z := 2032.
Definition FLT_REF_TYPE : Z := 2033.
Definition FLT_SPAN_ID : Z := 2034.
Definition FLT_DRV_SHOW_TRACE_SPAN : Z := 2050.

(** FullLinkTraceExtraInfoType *)
Definition FLT_DRIVER_SPAN_INFO : Z := 1.
Definition FLT_APP_INFO : Z := 2001.
Definition FLT_QUERY_INFO : Z := 2002.
Definition FLT_CONTROL_INFO : Z := 2003.
Definition FLT_SPAN_INFO : Z := 2004.
Definition FLT_TYPE_SHOW_TRACE_SPAN : Z := 2005.

Record FLTControlInfo : Type := {
  ctl_type_ : Z; level_ : Z; sample_pct_ : Z; rp_ : Z; print_sample_pct_ : Z;
  slow_query_threshold_ : Z; flt_show_trace_enable_ : Z }.

Record FLTAppInfo : Type := {
  app_type_ : Z; identifier_ : ptr; module_ : ptr; action_ : ptr; client_info_ : ptr }.

Record FLTQueryInfo : Type := {
  qry_type_ : Z; query_start_timestamp_ : Z; query_end_timestamp_ : Z }.

Record FLTSpanInfo : Type := {
  spn_type_ : Z; trace_enable_ : Z; force_print_ : Z; trace_id_ : ptr; ref_type_ : Z; span_id_ : ptr }.

Record FLTDriverSpanInfo : Type := { drv_type_ : Z; client_span_ : ptr }.

Record FLTShowTraceSpan : Type := { sts_type_ : Z; client_span_json_ : ptr }.

(** What a [void *flt_info] points to. *)
Inductive flt_obj : Type :=
| ControlInfo (i : FLTControlInfo)
| AppInfo (i : FLTAppInfo)
| QueryInfo (i : FLTQueryInfo)
| SpanInfo (i : FLTSpanInfo)
| DriverSpanInfo (i : FLTDriverSpanInfo)
| ShowTraceSpan (i : FLTShowTraceSpan).

(** [((FLTInfoBase * )flt_info)->type_] *)
Definition base_type (o : flt_obj) : Z :=
  match o with
  | ControlInfo i => ctl_type_ i | AppInfo i => app_type_ i | QueryInfo i => qry_type_ i
  | SpanInfo i => spn_type_ i | DriverSpanInfo i => drv_type_ i | ShowTraceSpan i => sts_type_ i
  end.

(** * Storing one field *)

Definition flt_store_int (buf : ptr) (len ppos v type v_len : Z) : cres enc_result :=
  let pos := ppos in
  match buf with
  | None => Ret (OB_ERROR, buf, ppos)
  | Some mem =>
      if len <? pos + TYPE_LENGTH + LEN_LENGTH + v_len then Ret (OB_ERROR, buf, ppos)
      else
        mem ← int2store mem pos type;
        let pos := pos + 2 in
        mem ← int4store mem pos v_len;
        let pos := pos + 4 in
        mem ← (if 1 =? v_len then int1store mem pos v
               else if 2 =? v_len then int2store mem pos v
               else if 3 =? v_len then int3store mem pos v
               else if 4 =? v_len then int4store mem pos v
               else if 5 =? v_len then int5store mem pos v
               else if 6 =? v_len then int6store mem pos v
               else if 8 =? v_len then int8store mem pos v
               else Ret mem);
        Ret (OB_SUCCESS, Some mem, pos + v_len)
  end.

Definition flt_store_type_and_len (buf : ptr) (len ppos type v_len : Z) : cres enc_result :=
  let pos := ppos in
  match buf with
  | None => Ret (OB_ERROR, buf, ppos)
  | Some mem =>
      if len <? pos + TYPE_LENGTH + LEN_LENGTH then Ret (OB_ERROR, buf, ppos)
      else
        mem ← int2store mem pos type;
        mem ← int4store mem (pos + 2) v_len;
        Ret (OB_SUCCESS, Some mem, pos + 2 + 4)
  end.

Definition flt_store_str (buf : ptr) (len ppos : Z) (str : ptr) (str_len type : Z) : cres enc_result :=
  let pos := ppos in
  match buf with
  | None => Ret (OB_ERROR, buf, ppos)
  | Some mem =>
      if len <? pos + TYPE_LENGTH + LEN_LENGTH + s64 str_len then Ret (OB_ERROR, buf, ppos)
      else
        mem ← int2store mem pos type;
        let pos := pos + 2 in
        mem ← int4store mem pos str_len;
        let pos := pos + 4 in
        s ← deref str;
        data ← load_bytes s 0 (Z.to_nat str_len);
        mem ← store_bytes mem pos data;
        Ret (OB_SUCCESS, Some mem, pos + str_len)
  end.

Definition flt_store_int1 (buf : ptr) (len pos v type : Z) := flt_store_int buf len pos v type 1.
Definition flt_store_int2 (buf : ptr) (len pos v type : Z) := flt_store_int buf len pos v type 2.
Definition flt_store_int3 (buf : ptr) (len pos v type : Z) := flt_store_int buf len pos v type 3.
Definition flt_store_int4 (buf : ptr) (len pos v type : Z) := flt_store_int buf len pos v type 4.
Definition flt_store_int5 (buf : ptr) (len pos v type : Z) := flt_store_int buf len pos v type 5.
Definition flt_store_int6 (buf : ptr) (len pos v type : Z) := flt_store_int buf len pos v type 6.
(** The source passes 7 as the value length. *)
Definition flt_store_int8 (buf : ptr) (len pos v type : Z) := flt_store_int buf len pos v type 7.

(** [flt_store_double] and [flt_store_float] differ in the size only; the
    comparison is unsigned. *)
Definition flt_store_fp (size : Z) (buf : ptr) (len ppos val type : Z) : cres enc_result :=
  let v_len := size in
  let pos := ppos in
  match buf with
  | None => Ret (OB_ERROR, buf, ppos)
  | Some mem =>
      if u64 len <? u64 (pos + size + TYPE_LENGTH + LEN_LENGTH) then Ret (OB_ERROR, buf, ppos)
      else
        mem ← int2store mem pos type;
        let pos := pos + 2 in
        mem ← int4store mem pos v_len;
        let pos := pos + 4 in
        mem ← store_bytes mem pos (le_bytes (Z.to_nat size) val);
        Ret (OB_SUCCESS, Some mem, pos + size)
  end.

Definition flt_store_double (buf : ptr) (len pos val type : Z) := flt_store_fp DBL_SIZE buf len pos val type.
Definition flt_store_float (buf : ptr) (len pos val type : Z) := flt_store_fp FLT_SIZE buf len pos val type.

Definition flt_get_store_str_size (str_len : Z) : Z := s32 (TYPE_LENGTH + LEN_LENGTH + str_len).
Definition flt_get_store_int1_size : Z := TYPE_LENGTH + LEN_LENGTH + 1.
Definition flt_get_store_int2_size : Z := TYPE_LENGTH + LEN_LENGTH + 2.
Definition flt_get_store_int3_size : Z := TYPE_LENGTH + LEN_LENGTH + 3.
Definition flt_get_store_int4_size : Z := TYPE_LENGTH + LEN_LENGTH + 4.
Definition flt_get_store_int5_size : Z := TYPE_LENGTH + LEN_LENGTH + 5.
Definition flt_get_store_int6_size : Z := TYPE_LENGTH + LEN_LENGTH + 6.
Definition flt_get_store_int8_size : Z := TYPE_LENGTH + LEN_LENGTH + 8.
Definition flt_get_store_double_size : Z := TYPE_LENGTH + LEN_LENGTH + DBL_SIZE.
Definition flt_get_store_float_size : Z := TYPE_LENGTH + LEN_LENGTH + FLT_SIZE.

(** * Reading one field *)

Definition flt_get_int (buf : ptr) (len ppos v_len val : Z) : cres dec_result :=
  let pos := ppos in
  match buf with
  | None => Ret (OB_ERROR, ppos, val)
  | Some mem =>
      if pos + v_len >? len then Ret (OB_ERROR, ppos, val)
      else
        val ← (if 1 =? v_len then sint1korr mem pos
               else if 2 =? v_len then sint2korr mem pos
               else if 3 =? v_len then sint3korr mem pos
               else if 4 =? v_len then sint4korr mem pos
               else if 8 =? v_len then sint8korr mem pos
               else Ret val);
        Ret (OB_SUCCESS, pos + v_len, val)
  end.

(** Returns (ret, *ppos, *type, *v_len). *)
Definition flt_resolve_type_and_len (buf : ptr) (len ppos type v_len : Z) : cres (Z * Z * Z * Z) :=
  let pos := ppos in
  match buf with
  | None => Ret (OB_ERROR, ppos, type, v_len)
  | Some mem =>
      if pos + TYPE_LENGTH + LEN_LENGTH >? len then Ret (OB_ERROR, ppos, type, v_len)
      else
        type ← sint2korr mem pos;
        v_len ← sint4korr mem (pos + 2);
        Ret (OB_SUCCESS, pos + 2 + 4, type, v_len)
  end.

(** The string pointer is set to [buf], not to [buf + pos]. *)
Definition flt_get_str (buf : ptr) (len ppos str_len : Z) (str : ptr) : cres (Z * Z * ptr) :=
  let pos := ppos in
  match buf with
  | None => Ret (OB_ERROR, ppos, str)
  | Some mem =>
      if pos + str_len >? len then Ret (OB_ERROR, ppos, str)
      else Ret (OB_SUCCESS, pos + str_len, Some mem)
  end.

Definition flt_get_intN (n : Z) (buf : ptr) (len pos v_len val : Z) : cres dec_result :=
  if negb (n =? v_len) then Ret (OB_ERROR, pos, val) else flt_get_int buf len pos v_len val.

Definition flt_get_int1 (buf : ptr) (len pos v_len val : Z) := flt_get_intN 1 buf len pos v_len val.
Definition flt_get_int2 (buf : ptr) (len pos v_len val : Z) := flt_get_intN 2 buf len pos v_len val.
Definition flt_get_int3 (buf : ptr) (len pos v_len val : Z) := flt_get_intN 3 buf len pos v_len val.
Definition flt_get_int4 (buf : ptr) (len pos v_len val : Z) := flt_get_intN 4 buf len pos v_len val.
Definition flt_get_int8 (buf : ptr) (len pos v_len val : Z) := flt_get_intN 8 buf len pos v_len val.

(** [flt_get_double] and [flt_get_float]: the bit pattern of the given size. *)
Definition flt_get_fp (size : Z) (buf : ptr) (len ppos v_len val : Z) : cres dec_result :=
  let pos := ppos in
  match buf with
  | None => Ret (OB_ERROR, ppos, val)
  | Some mem =>
      if (pos + v_len >? len) || negb (size =? u64 v_len) then Ret (OB_ERROR, ppos, val)
      else
        bs ← load_bytes mem pos (Z.to_nat size);
        Ret (OB_SUCCESS, pos + v_len, le_val bs)
  end.

Definition flt_get_double (buf : ptr) (len pos v_len val : Z) := flt_get_fp DBL_SIZE buf len pos v_len val.
Definition flt_get_float (buf : ptr) (len pos v_len val : Z) := flt_get_fp FLT_SIZE buf len pos v_len val.

(** * Serializing the records *)

(** The [else if (OB_FAIL(f)) ret = OB_ERROR] ladder: [f] runs when everything
    before succeeded, and its failure becomes OB_ERROR. *)
Definition else_store (m : cres enc_result) (f : ptr -> Z -> cres enc_result) : cres enc_result :=
  '(ret, buf, pos) ← m;
  if ret =? OB_SUCCESS then
    '(ret, buf, pos) ← f buf pos;
    Ret (if ret =? OB_SUCCESS then OB_SUCCESS else OB_ERROR, buf, pos)
  else Ret (ret, buf, pos).

Infix "⊳" := else_store (at level 62, left associativity).

(** resrver for type and len *)
Definition reserve_head (buf : ptr) (len pos : Z) : cres enc_result :=
  if pos + 6 >? len then Ret (OB_SIZE_OVERFLOW, buf, pos) else Ret (OB_SUCCESS, buf, pos + 6).

(** fill type and len in the head *)
Definition fill_head (len org_pos type : Z) (buf : ptr) (pos : Z) : cres enc_result :=
  let total_len := s32 (pos - org_pos - 6) in
  '(ret, buf, _) ← flt_store_type_and_len buf len org_pos type total_len;
  Ret (ret, buf, pos).

Definition flt_serialize_controlinfo (buf : ptr) (len pos : Z) (i : FLTControlInfo) : cres enc_result :=
  reserve_head buf len pos
  ⊳ (fun b p => flt_store_int1 b len p (level_ i) FLT_LEVEL)
  ⊳ (fun b p => flt_store_double b len p (sample_pct_ i) FLT_SAMPLE_PERCENTAGE)
  ⊳ (fun b p => flt_store_int1 b len p (s8 (rp_ i)) FLT_RECORD_POLICY)
  ⊳ (fun b p => flt_store_double b len p (print_sample_pct_ i) FLT_PRINT_SAMPLE_PCT)
  ⊳ (fun b p => flt_store_int8 b len p (slow_query_threshold_ i) FLT_SLOW_QUERY_THRES)
  ⊳ (fun b p => flt_store_int8 b len p (flt_show_trace_enable_ i) FLT_SHOW_TRACE_ENABLE)
  ⊳ fill_head len pos (ctl_type_ i).

Definition flt_get_serialize_size_controlinfo (i : FLTControlInfo) : Z :=
  TYPE_LENGTH + LEN_LENGTH + flt_get_store_int1_size + flt_get_store_double_size +
  flt_get_store_int1_size + flt_get_store_double_size + flt_get_store_int8_size +
  flt_get_store_int8_size.

(** [OB_NOT_NULL(s) && OB_FAIL(flt_store_str(..., s, strlen(s), id))] *)
Definition store_cstr (len : Z) (s : ptr) (id : Z) (buf : ptr) (pos : Z) : cres enc_result :=
  match s with
  | None => Ret (OB_SUCCESS, buf, pos)
  | Some str => n ← strlen str; flt_store_str buf len pos s n id
  end.

Definition flt_serialize_appinfo (buf : ptr) (len pos : Z) (i : FLTAppInfo) : cres enc_result :=
  reserve_head buf len pos
  ⊳ store_cstr len (identifier_ i) FLT_CLIENT_IDENTIFIER
  ⊳ store_cstr len (module_ i) FLT_MODULE
  ⊳ store_cstr len (action_ i) FLT_ACTION
  ⊳ store_cstr len (client_info_ i) FLT_CLIENT_INFO
  ⊳ fill_head len pos (app_type_ i).

Definition cstr_size (s : ptr) : cres Z :=
  match s with None => Ret 0 | Some str => n ← strlen str; Ret (flt_get_store_str_size n) end.

Definition flt_get_serialize_size_appinfo (i : FLTAppInfo) : cres Z :=
  a ← cstr_size (identifier_ i);
  b ← cstr_size (module_ i);
  c ← cstr_size (action_ i);
  d ← cstr_size (client_info_ i);
  let local_size := s32 (s32 (s32 (s32 (0 + a) + b) + c) + d) in
  Ret (if negb (0 =? local_size) then s32 (local_size + (TYPE_LENGTH + LEN_LENGTH)) else local_size).

Definition flt_serialize_queryinfo (buf : ptr) (len pos : Z) (i : FLTQueryInfo) : cres enc_result :=
  reserve_head buf len pos
  ⊳ (fun b p => flt_store_int8 b len p (query_start_timestamp_ i) FLT_QUERY_START_TIMESTAMP)
  ⊳ (fun b p => flt_store_int8 b len p (query_end_timestamp_ i) FLT_QUERY_END_TIMESTAMP)
  ⊳ fill_head len pos (qry_type_ i).

Definition flt_get_serialize_size_queryinfo (i : FLTQueryInfo) : Z :=
  TYPE_LENGTH + LEN_LENGTH + flt_get_store_int8_size + flt_get_store_int8_size.

Definition flt_serialize_spaninfo (buf : ptr) (len pos : Z) (i : FLTSpanInfo) : cres enc_result :=
  if trace_enable_ i =? 1 then
    reserve_head buf len pos
    ⊳ (fun b p => flt_store_int1 b len p (trace_enable_ i) FLT_TRACE_ENABLE)
    ⊳ (fun b p => flt_store_int1 b len p (force_print_ i) FLT_FORCE_PRINT)
    ⊳ (fun b p => flt_store_str b len p (trace_id_ i) UUID4_SERIALIZE_LEN FLT_TRACE_ID)
    ⊳ (fun b p => flt_store_int1 b len p (ref_type_ i) FLT_REF_TYPE)
    ⊳ (fun b p => flt_store_str b len p (span_id_ i) UUID4_SERIALIZE_LEN FLT_SPAN_ID)
    ⊳ fill_head len pos (spn_type_ i)
  else Ret (OB_SUCCESS, buf, pos).

Definition flt_get_serialize_size_spaninfo (i : FLTSpanInfo) : Z :=
  if trace_enable_ i =? 1 then
    TYPE_LENGTH + LEN_LENGTH + flt_get_store_int1_size + flt_get_store_int1_size +
    flt_get_store_str_size UUID4_SERIALIZE_LEN + flt_get_store_int1_size +
    flt_get_store_str_size UUID4_SERIALIZE_LEN
  else 0.

(** A string stored with its terminating NUL, without a NULL check. *)
Definition store_cstr_nul (len : Z) (s : ptr) (id : Z) (buf : ptr) (pos : Z) : cres enc_result :=
  str ← deref s; n ← strlen str; flt_store_str buf len pos s (n + 1) id.

Definition flt_serialize_driverspaninfo (buf : ptr) (len pos : Z) (i : FLTDriverSpanInfo) : cres enc_result :=
  reserve_head buf len pos
  ⊳ store_cstr_nul len (client_span_ i) FLT_DRIVER_SPAN
  ⊳ fill_head len pos (drv_type_ i).

Definition cstr_nul_size (s : ptr) : cres Z :=
  match s with
  | None => Ret 0
  | Some str => n ← strlen str; Ret (s32 (TYPE_LENGTH + LEN_LENGTH + flt_get_store_str_size (n + 1)))
  end.

Definition flt_get_serialize_size_driverspaninfo (i : FLTDriverSpanInfo) : cres Z :=
  cstr_nul_size (client_span_ i).

Definition flt_serialize_showtracespan (buf : ptr) (len pos : Z) (i : FLTShowTraceSpan) : cres enc_result :=
  reserve_head buf len pos
  ⊳ store_cstr_nul len (client_span_json_ i) FLT_DRV_SHOW_TRACE_SPAN
  ⊳ fill_head len pos (sts_type_ i).

Definition flt_get_serialize_size_showtracespan (i : FLTShowTraceSpan) : cres Z :=
  cstr_nul_size (client_span_json_ i).

(** [flt_serialize_nosupport], [flt_get_serialize_size_nosupport] and
    [flt_deserialize_field_nosupport]: the functions of unsupported types. *)
Definition flt_serialize_nosupport (buf : ptr) (pos : Z) : cres enc_result := Ret (OB_ERROR, buf, pos).
Definition flt_get_serialize_size_nosupport (size : Z) : Z * Z := (OB_ERROR, size).
Definition flt_deserialize_field_nosupport (pos : Z) (o : flt_obj) : cres (Z * Z * flt_obj) :=
  Ret (OB_ERROR, pos, o).

(** The table flt_funcs after FLT_SERIALIZE_FUNC_INIT, applied to the object the
    info type says it is; an empty slot is a call through NULL, and an object of
    another record type is accessed through the wrong type. *)
Definition flt_serialize_extra_info (buf : ptr) (len pos : Z) (o : flt_obj) : cres enc_result :=
  let type := base_type o in
  if type =? FLT_DRIVER_SPAN_INFO then
    match o with DriverSpanInfo i => flt_serialize_driverspaninfo buf len pos i | _ => Fault end
  else if type =? FLT_APP_INFO then
    match o with AppInfo i => flt_serialize_appinfo buf len pos i | _ => Fault end
  else if type =? FLT_QUERY_INFO then
    match o with QueryInfo i => flt_serialize_queryinfo buf len pos i | _ => Fault end
  else if type =? FLT_CONTROL_INFO then
    match o with ControlInfo i => flt_serialize_controlinfo buf len pos i | _ => Fault end
  else if type =? FLT_SPAN_INFO then
    match o with SpanInfo i => flt_serialize_spaninfo buf len pos i | _ => Fault end
  else if type =? FLT_TYPE_SHOW_TRACE_SPAN then
    match o with ShowTraceSpan i => flt_serialize_showtracespan buf len pos i | _ => Fault end
  else Fault.

(** Returns *size; every size function of the table returns OB_SUCCESS. *)
Definition flt_get_serialize_size_extra_info (o : flt_obj) : cres Z :=
  let type := base_type o in
  if type =? FLT_DRIVER_SPAN_INFO then
    match o with DriverSpanInfo i => flt_get_serialize_size_driverspaninfo i | _ => Fault end
  else if type =? FLT_APP_INFO then
    match o with AppInfo i => flt_get_serialize_size_appinfo i | _ => Fault end
  else if type =? FLT_QUERY_INFO then
    match o with QueryInfo i => Ret (flt_get_serialize_size_queryinfo i) | _ => Fault end
  else if type =? FLT_CONTROL_INFO then
    match o with ControlInfo i => Ret (flt_get_serialize_size_controlinfo i) | _ => Fault end
  else if type =? FLT_SPAN_INFO then
    match o with SpanInfo i => Ret (flt_get_serialize_size_spaninfo i) | _ => Fault end
  else if type =? FLT_TYPE_SHOW_TRACE_SPAN then
    match o with ShowTraceSpan i => flt_get_serialize_size_showtracespan i | _ => Fault end
  else Fault.

(** * Deserializing the records *)

(** The result of a field function: the return code, *pos and the object. *)
Abbreviation fld_result := (Z * Z * flt_obj)%type.

(** Lenses: read and write one field of the record the field function expects; on
    another record the access is undefined. *)
Definition lens (A : Type) : Type := flt_obj -> option (A * (A -> flt_obj)).

(** One [case] of a field function: read the value with [get_]; on success store it
    through the lens, otherwise OB_ERROR. *)
Definition fld_case {A} (l : lens A) (o : flt_obj) (get_ : A -> cres (Z * Z * A)) (d : A)
    : cres fld_result :=
  match l o with
  | Some (old, put) =>
      '(ret, pos, v) ← get_ old;
      Ret (if ret =? OB_SUCCESS then OB_SUCCESS else OB_ERROR, pos, put v)
  | None =>
      '(ret, pos, v) ← get_ d;
      if ret =? OB_SUCCESS then Fault else Ret (OB_ERROR, pos, o)
  end.

Definition ctl_lens {A} (rd : FLTControlInfo -> A) (wr : FLTControlInfo -> A -> FLTControlInfo) : lens A :=
  fun o => match o with ControlInfo i => Some (rd i, fun v => ControlInfo (wr i v)) | _ => None end.
Definition app_lens {A} (rd : FLTAppInfo -> A) (wr : FLTAppInfo -> A -> FLTAppInfo) : lens A :=
  fun o => match o with AppInfo i => Some (rd i, fun v => AppInfo (wr i v)) | _ => None end.
Definition qry_lens {A} (rd : FLTQueryInfo -> A) (wr : FLTQueryInfo -> A -> FLTQueryInfo) : lens A :=
  fun o => match o with QueryInfo i => Some (rd i, fun v => QueryInfo (wr i v)) | _ => None end.
Definition spn_lens {A} (rd : FLTSpanInfo -> A) (wr : FLTSpanInfo -> A -> FLTSpanInfo) : lens A :=
  fun o => match o with SpanInfo i => Some (rd i, fun v => SpanInfo (wr i v)) | _ => None end.
Definition drv_lens {A} (rd : FLTDriverSpanInfo -> A) (wr : FLTDriverSpanInfo -> A -> FLTDriverSpanInfo) : lens A :=
  fun o => match o with DriverSpanInfo i => Some (rd i, fun v => DriverSpanInfo (wr i v)) | _ => None end.
Definition sts_lens {A} (rd : FLTShowTraceSpan -> A) (wr : FLTShowTraceSpan -> A -> FLTShowTraceSpan) : lens A :=
  fun o => match o with ShowTraceSpan i => Some (rd i, fun v => ShowTraceSpan (wr i v)) | _ => None end.

Definition set_level_ i v := Build_FLTControlInfo (ctl_type_ i) v (sample_pct_ i) (rp_ i)
  (print_sample_pct_ i) (slow_query_threshold_ i) (flt_show_trace_enable_ i).
Definition set_sample_pct_ i v := Build_FLTControlInfo (ctl_type_ i) (level_ i) v (rp_ i)
  (print_sample_pct_ i) (slow_query_threshold_ i) (flt_show_trace_enable_ i).
Definition set_rp_ i v := Build_FLTControlInfo (ctl_type_ i) (level_ i) (sample_pct_ i) v
  (print_sample_pct_ i) (slow_query_threshold_ i) (flt_show_trace_enable_ i).
Definition set_print_sample_pct_ i v := Build_FLTControlInfo (ctl_type_ i) (level_ i) (sample_pct_ i)
  (rp_ i) v (slow_query_threshold_ i) (flt_show_trace_enable_ i).
Definition set_slow_query_threshold_ i v := Build_FLTControlInfo (ctl_type_ i) (level_ i) (sample_pct_ i)
  (rp_ i) (print_sample_pct_ i) v (flt_show_trace_enable_ i).
Definition set_flt_show_trace_enable_ i v := Build_FLTControlInfo (ctl_type_ i) (level_ i) (sample_pct_ i)
  (rp_ i) (print_sample_pct_ i) (slow_query_threshold_ i) v.
Definition set_identifier_ i v := Build_FLTAppInfo (app_type_ i) v (module_ i) (action_ i) (client_info_ i).
Definition set_module_ i v := Build_FLTAppInfo (app_type_ i) (identifier_ i) v (action_ i) (client_info_ i).
Definition set_action_ i v := Build_FLTAppInfo (app_type_ i) (identifier_ i) (module_ i) v (client_info_ i).
Definition set_client_info_ i v := Build_FLTAppInfo (app_type_ i) (identifier_ i) (module_ i) (action_ i) v.
Definition set_query_start_ i v := Build_FLTQueryInfo (qry_type_ i) v (query_end_timestamp_ i).
Definition set_query_end_ i v := Build_FLTQueryInfo (qry_type_ i) (query_start_timestamp_ i) v.
Definition set_trace_enable_ i v := Build_FLTSpanInfo (spn_type_ i) v (force_print_ i) (trace_id_ i) (ref_type_ i) (span_id_ i).
Definition set_force_print_ i v := Build_FLTSpanInfo (spn_type_ i) (trace_enable_ i) v (trace_id_ i) (ref_type_ i) (span_id_ i).
Definition set_trace_id_ i v := Build_FLTSpanInfo (spn_type_ i) (trace_enable_ i) (force_print_ i) v (ref_type_ i) (span_id_ i).
Definition set_ref_type_ i v := Build_FLTSpanInfo (spn_type_ i) (trace_enable_ i) (force_print_ i) (trace_id_ i) v (span_id_ i).
Definition set_span_id_ i v := Build_FLTSpanInfo (spn_type_ i) (trace_enable_ i) (force_print_ i) (trace_id_ i) (ref_type_ i) v.
Definition set_client_span_ i v := Build_FLTDriverSpanInfo (drv_type_ i) v.
Definition set_client_span_json_ i v := Build_FLTShowTraceSpan (sts_type_ i) v.

(** The [default:] case of every field function: [*pos += *pos + v_len]. *)
Definition skip_unknown (pos v_len : Z) (o : flt_obj) : cres fld_result :=
  Ret (OB_SUCCESS, pos + (pos + v_len), o).

Definition flt_deserialize_field_controlinfo (extra_id v_len : Z) (buf : ptr) (len pos : Z) (o : flt_obj)
    : cres fld_result :=
  if extra_id =? FLT_LEVEL then
    fld_case (ctl_lens level_ set_level_) o (flt_get_int1 buf len pos v_len) 0
  else if extra_id =? FLT_SAMPLE_PERCENTAGE then
    fld_case (ctl_lens sample_pct_ set_sample_pct_) o (flt_get_double buf len pos v_len) 0
  else if extra_id =? FLT_RECORD_POLICY then
    (* through a local [int8_t v = 0], stored on success only *)
    '(ret, pos, v) ← flt_get_int1 buf len pos v_len 0;
    if ret =? OB_SUCCESS then
      match o with ControlInfo i => Ret (OB_SUCCESS, pos, ControlInfo (set_rp_ i (u32 v))) | _ => Fault end
    else Ret (OB_ERROR, pos, o)
  else if extra_id =? FLT_PRINT_SAMPLE_PCT then
    fld_case (ctl_lens print_sample_pct_ set_print_sample_pct_) o (flt_get_double buf len pos v_len) 0
  else if extra_id =? FLT_SLOW_QUERY_THRES then
    fld_case (ctl_lens slow_query_threshold_ set_slow_query_threshold_) o (flt_get_int8 buf len pos v_len) 0
  else if extra_id =? FLT_SHOW_TRACE_ENABLE then
    fld_case (ctl_lens flt_show_trace_enable_ set_flt_show_trace_enable_) o (flt_get_int1 buf len pos v_len) 0
  else skip_unknown pos v_len o.

Definition flt_deserialize_field_appinfo (extra_id v_len : Z) (buf : ptr) (len pos : Z) (o : flt_obj)
    : cres fld_result :=
  if extra_id =? FLT_CLIENT_IDENTIFIER then
    fld_case (app_lens identifier_ set_identifier_) o (flt_get_str buf len pos v_len) None
  else if extra_id =? FLT_MODULE then
    fld_case (app_lens module_ set_module_) o (flt_get_str buf len pos v_len) None
  else if extra_id =? FLT_ACTION then
    fld_case (app_lens action_ set_action_) o (flt_get_str buf len pos v_len) None
  else if extra_id =? FLT_CLIENT_INFO then
    fld_case (app_lens client_info_ set_client_info_) o (flt_get_str buf len pos v_len) None
  else skip_unknown pos v_len o.

Definition flt_deserialize_field_queryinfo (extra_id v_len : Z) (buf : ptr) (len pos : Z) (o : flt_obj)
    : cres fld_result :=
  if extra_id =? FLT_QUERY_START_TIMESTAMP then
    fld_case (qry_lens query_start_timestamp_ set_query_start_) o (flt_get_int8 buf len pos v_len) 0
  else if extra_id =? FLT_QUERY_END_TIMESTAMP then
    fld_case (qry_lens query_end_timestamp_ set_query_end_) o (flt_get_int8 buf len pos v_len) 0
  else skip_unknown pos v_len o.

Definition flt_deserialize_field_spaninfo (extra_id v_len : Z) (buf : ptr) (len pos : Z) (o : flt_obj)
    : cres fld_result :=
  if extra_id =? FLT_TRACE_ENABLE then
    fld_case (spn_lens trace_enable_ set_trace_enable_) o (flt_get_int1 buf len pos v_len) 0
  else if extra_id =? FLT_FORCE_PRINT then
    fld_case (spn_lens force_print_ set_force_print_) o (flt_get_int1 buf len pos v_len) 0
  else if extra_id =? FLT_TRACE_ID then
    fld_case (spn_lens trace_id_ set_trace_id_) o (flt_get_str buf len pos v_len) None
  else if extra_id =? FLT_REF_TYPE then
    fld_case (spn_lens ref_type_ set_ref_type_) o (flt_get_int1 buf len pos v_len) 0
  else if extra_id =? FLT_SPAN_ID then
    fld_case (spn_lens span_id_ set_span_id_) o (flt_get_str buf len pos v_len) None
  else skip_unknown pos v_len o.

Definition flt_deserialize_field_driverspaninfo (extra_id v_len : Z) (buf : ptr) (len pos : Z) (o : flt_obj)
    : cres fld_result :=
  if extra_id =? FLT_CLIENT_IDENTIFIER then
    fld_case (drv_lens client_span_ set_client_span_) o (flt_get_str buf len pos v_len) None
  else skip_unknown pos v_len o.

Definition flt_deserialize_field_showtracespan (extra_id v_len : Z) (buf : ptr) (len pos : Z) (o : flt_obj)
    : cres fld_result :=
  if extra_id =? FLT_CLIENT_IDENTIFIER then
    fld_case (sts_lens client_span_json_ set_client_span_json_) o (flt_get_str buf len pos v_len) None
  else skip_unknown pos v_len o.

(** [flt_funcs[type].deserialize_field_func] *)
Definition deserialize_field_func (type extra_id v_len : Z) (buf : ptr) (len pos : Z) (o : flt_obj)
    : cres fld_result :=
  if type =? FLT_DRIVER_SPAN_INFO then flt_deserialize_field_driverspaninfo extra_id v_len buf len pos o
  else if type =? FLT_APP_INFO then flt_deserialize_field_appinfo extra_id v_len buf len pos o
  else if type =? FLT_QUERY_INFO then flt_deserialize_field_queryinfo extra_id v_len buf len pos o
  else if type =? FLT_CONTROL_INFO then flt_deserialize_field_controlinfo extra_id v_len buf len pos o
  else if type =? FLT_SPAN_INFO then flt_deserialize_field_spaninfo extra_id v_len buf len pos o
  else if type =? FLT_TYPE_SHOW_TRACE_SPAN then flt_deserialize_field_showtracespan extra_id v_len buf len pos o
  else Fault.

(** The loop [while (OB_SUCC(ret) && *pos < len)], one round per unit of fuel. *)
Fixpoint flt_deserialize_extra_info (fuel : nat) (buf : ptr) (len pos type : Z) (o : flt_obj)
    : cres fld_result :=
  if pos <? len then
    match fuel with
    | O => OutOfFuel
    | S fuel' =>
        '(ret, pos, extra_id, val_len) ← flt_resolve_type_and_len buf len pos 0 0;
        if negb (ret =? OB_SUCCESS) then Ret (OB_ERROR, pos, o)
        else
          '(ret, pos, o) ← deserialize_field_func type extra_id val_len buf len pos o;
          if negb (ret =? OB_SUCCESS) then Ret (OB_ERROR, pos, o)
          else flt_deserialize_extra_info fuel' buf len pos type o
    end
  else Ret (OB_SUCCESS, pos, o).

(** * Reference encoding: type-length-value *)

Definition tlv_head (type n : Z) : bytes := le_bytes 2 type ++ le_bytes 4 n.
Definition tlv (type : Z) (bs : bytes) : bytes := tlv_head type (Z.of_nat (length bs)) ++ bs.

Lemma length_tlv_head type n : length (tlv_head type n) = 6%nat.
Proof. unfold tlv_head. by rewrite length_app, !length_le_bytes. Qed.

Lemma length_tlv type bs : length (tlv type bs) = (6 + length bs)%nat.
Proof. unfold tlv. by rewrite length_app, length_tlv_head. Qed.

(** [writes len w bs]: with room below [len], the writer [w] succeeds, puts [bs] at
    the position and advances it past them. *)
Definition writes (len : Z) (w : ptr -> Z -> cres enc_result) (bs : bytes) : Prop :=
  forall mem pos, 0 <= pos -> pos + Z.of_nat (length bs) <= len <= Z.of_nat (length mem) ->
  w (Some mem) pos = Ret (OB_SUCCESS, Some (splice pos bs mem), pos + Z.of_nat (length bs)).

Lemma head_stores mem pos type n :
  room mem pos 6 ->
  (m ← int2store mem pos type; int4store m (pos + 2) n) = Ret (splice pos (tlv_head type n) mem).
Proof.
  intros [H1 H2]. rewrite int2store_splice by (split; lia). rewrite bind_ret.
  rewrite int4store_splice.
  2: { split; [lia|]. rewrite length_splice by (split; rewrite ?length_le_bytes; lia). lia. }
  f_equal. unfold tlv_head. rewrite <- splice_app; rewrite ?length_app, ?length_le_bytes; [done|].
  split; lia.
Qed.

(** A head followed by a payload block. *)
Lemma tlv_stores mem pos type n payload (k : bytes -> cres bytes) :
  room mem pos (6 + length payload) ->
  (forall m, room m (pos + 6) (length payload) -> k m = Ret (splice (pos + 6) payload m)) ->
  (m ← int2store mem pos type; m ← int4store m (pos + 2) n; k m) =
  Ret (splice pos (tlv_head type n ++ payload) mem).
Proof.
  intros [H1 H2] Hk.
  transitivity ((m ← int2store mem pos type; int4store m (pos + 2) n) ≫= k).
  { by destruct (int2store mem pos type). }
  assert (room mem pos (length (tlv_head type n))) by (rewrite length_tlv_head; split; lia).
  rewrite head_stores by (split; lia). rewrite bind_ret, Hk.
  - rewrite <- splice_app; rewrite ?length_app, ?length_tlv_head; [done|]. split; lia.
  - split; [lia|]. rewrite length_splice by done. lia.
Qed.

(** The value part of [flt_store_int]. *)
Lemma flt_store_int_writes len v type n :
  (n = 1 \/ n = 2 \/ n = 3 \/ n = 4 \/ n = 5 \/ n = 6 \/ n = 8)%nat ->
  writes len (fun b p => flt_store_int b len p v type (Z.of_nat n)) (tlv type (le_bytes n v)).
Proof.
  intros Hn mem pos Hp Hl. rewrite length_tlv, length_le_bytes in Hl |- *.
  unfold flt_store_int, TYPE_LENGTH, LEN_LENGTH.
  destruct (Z.ltb_spec len (pos + 2 + 4 + Z.of_nat n)); [lia|]. cbv zeta.
  transitivity (Ret (splice pos (tlv type (le_bytes n v)) mem) ≫= fun m =>
    Ret (OB_SUCCESS, Some m, pos + 2 + 4 + Z.of_nat n)).
  2: { rewrite bind_ret. do 2 f_equal. lia. }
  unfold tlv. rewrite length_le_bytes.
  rewrite <- (tlv_stores mem pos type (Z.of_nat n) (le_bytes n v)
    (fun m => if 1 =? Z.of_nat n then int1store m (pos + 2 + 4) v
              else if 2 =? Z.of_nat n then int2store m (pos + 2 + 4) v
              else if 3 =? Z.of_nat n then int3store m (pos + 2 + 4) v
              else if 4 =? Z.of_nat n then int4store m (pos + 2 + 4) v
              else if 5 =? Z.of_nat n then int5store m (pos + 2 + 4) v
              else if 6 =? Z.of_nat n then int6store m (pos + 2 + 4) v
              else if 8 =? Z.of_nat n then int8store m (pos + 2 + 4) v
              else Ret m)).
  - rewrite !bind_assoc. destruct (int2store mem pos type); [rewrite !bind_ret|done..].
    by rewrite !bind_assoc.
  - rewrite length_le_bytes. split; lia.
  - intros m. rewrite length_le_bytes. replace (pos + 2 + 4) with (pos + 6) by lia. intros Hm.
    destruct Hn as [->|[->|[->|[->|[->|[->| ->]]]]]]; simpl Z.of_nat; simpl Z.eqb; cbv iota;
      eauto using int1store_splice, int2store_splice, int3store_splice, int4store_splice,
        int5store_splice, int6store_splice, int8store_splice.
Qed.

Lemma flt_store_str_writes len type str data rest :
  str = Some (data ++ rest) -> all_bytes data -> Z.of_nat (length data) < 2 ^ 31 ->
  writes len (fun b p => flt_store_str b len p str (Z.of_nat (length data)) type) (tlv type data).
Proof.
  intros -> Hdata Hmax mem pos Hp Hl. rewrite length_tlv in Hl |- *.
  unfold flt_store_str, TYPE_LENGTH, LEN_LENGTH.
  rewrite (swrap_small 64) by (unfold sint; simpl in *; lia).
  destruct (Z.ltb_spec len (pos + 2 + 4 + Z.of_nat (length data))); [lia|]. cbv zeta.
  transitivity (Ret (splice pos (tlv type data) mem) ≫= fun m =>
    Ret (OB_SUCCESS, Some m, pos + 2 + 4 + Z.of_nat (length data))).
  2: { rewrite bind_ret. do 2 f_equal. lia. }
  unfold tlv.
  rewrite <- (tlv_stores mem pos type (Z.of_nat (length data)) data
    (fun m => store_bytes m (pos + 2 + 4) data)).
  - rewrite !bind_assoc. destruct (int2store mem pos type); [rewrite !bind_ret|done..].
    rewrite !bind_assoc. destruct (int4store _ _ _); [rewrite !bind_ret|done..].
    cbn [deref of_option]. rewrite bind_ret, Nat2Z.id.
    rewrite load_bytes_in by (split; [lia|rewrite length_app; lia]).
    by rewrite drop_0, take_app_length, bind_ret.
  - split; lia.
  - intros m. replace (pos + 2 + 4) with (pos + 6) by lia. intros Hm.
    rewrite store_bytes_splice by done. by rewrite map_u8_bytes.
Qed.

Lemma flt_store_double_writes len val type :
  len < 2 ^ 63 -> writes len (fun b p => flt_store_double b len p val type) (tlv type (le_bytes 8 val)).
Proof.
  intros Hmax mem pos Hp Hl. rewrite length_tlv, length_le_bytes in Hl |- *.
  unfold flt_store_double, flt_store_fp, TYPE_LENGTH, LEN_LENGTH, DBL_SIZE.
  rewrite !wrap_small by (unfold uint; lia).
  destruct (Z.ltb_spec len (pos + 8 + 2 + 4)); [lia|]. cbv zeta.
  transitivity (Ret (splice pos (tlv type (le_bytes 8 val)) mem) ≫= fun m =>
    Ret (OB_SUCCESS, Some m, pos + 2 + 4 + 8)).
  2: { rewrite bind_ret. do 2 f_equal. lia. }
  unfold tlv. rewrite length_le_bytes.
  rewrite <- (tlv_stores mem pos type (Z.of_nat 8) (le_bytes 8 val)
    (fun m => store_bytes m (pos + 2 + 4) (le_bytes 8 val))).
  - rewrite !bind_assoc. destruct (int2store mem pos type); [rewrite !bind_ret|done..].
    by rewrite !bind_assoc.
  - rewrite length_le_bytes. split; lia.
  - intros m. replace (pos + 2 + 4) with (pos + 6) by lia. intros Hm.
    rewrite store_bytes_splice by done. by rewrite map_u8_bytes by apply le_bytes_bytes.
Qed.

(** ** Ladders of writers *)

Lemma else_store_writes len w bs2 mem p0 bs1 :
  writes len w bs2 -> 0 <= p0 ->
  p0 + Z.of_nat (length bs1) + Z.of_nat (length bs2) <= len <= Z.of_nat (length mem) ->
  (Ret (OB_SUCCESS, Some (splice p0 bs1 mem), p0 + Z.of_nat (length bs1)) ⊳ w) =
  Ret (OB_SUCCESS, Some (splice p0 (bs1 ++ bs2) mem), p0 + Z.of_nat (length (bs1 ++ bs2))).
Proof.
  intros Hw Hp Hl. unfold else_store. rewrite bind_ret.
  change (OB_SUCCESS =? OB_SUCCESS) with true. cbv iota.
  rewrite Hw, bind_ret.
  - rewrite splice_app by (rewrite length_app; split; lia). rewrite length_app.
    do 2 f_equal. lia.
  - lia.
  - rewrite length_splice by (split; lia). lia.
Qed.

Lemma reserve_head_ok mem len pos :
  pos + 6 <= len ->
  reserve_head (Some mem) len pos =
  Ret (OB_SUCCESS, Some (splice (pos + 6) [] mem), pos + 6 + Z.of_nat (length (@nil Z))).
Proof.
  intros. unfold reserve_head. rewrite Z.gtb_ltb. destruct (Z.ltb_spec len (pos + 6)); [lia|].
  rewrite splice_nil. simpl. by rewrite Z.add_0_r.
Qed.

Lemma flt_store_type_and_len_ok mem len pos type n :
  0 <= pos -> pos + 6 <= len <= Z.of_nat (length mem) ->
  flt_store_type_and_len (Some mem) len pos type n =
  Ret (OB_SUCCESS, Some (splice pos (tlv_head type n) mem), pos + 6).
Proof.
  intros. unfold flt_store_type_and_len, TYPE_LENGTH, LEN_LENGTH.
  destruct (Z.ltb_spec len (pos + 2 + 4)); [lia|].
  transitivity ((m ← int2store mem pos type; int4store m (pos + 2) n) ≫= fun m =>
    Ret (OB_SUCCESS, Some m, pos + 2 + 4)).
  - by rewrite bind_assoc.
  - rewrite head_stores by (split; lia). rewrite bind_ret. do 2 f_equal. lia.
Qed.

Lemma fill_head_ok mem len pos type bs :
  0 <= pos -> Z.of_nat (length bs) < 2 ^ 31 ->
  pos + 6 + Z.of_nat (length bs) <= len <= Z.of_nat (length mem) ->
  (Ret (OB_SUCCESS, Some (splice (pos + 6) bs mem), pos + 6 + Z.of_nat (length bs))
     ⊳ fill_head len pos type) =
  Ret (OB_SUCCESS, Some (splice pos (tlv type bs) mem), pos + Z.of_nat (length (tlv type bs))).
Proof.
  intros Hp Hmax Hl. unfold else_store. rewrite bind_ret.
  change (OB_SUCCESS =? OB_SUCCESS) with true. cbv iota. unfold fill_head.
  replace (pos + 6 + Z.of_nat (length bs) - pos - 6) with (Z.of_nat (length bs)) by lia.
  rewrite (swrap_small 32) by (unfold sint; simpl in *; lia).
  rewrite flt_store_type_and_len_ok by (rewrite ?length_splice by (split; lia); lia).
  rewrite !bind_ret, length_tlv. change (OB_SUCCESS =? OB_SUCCESS) with true. cbv iota.
  unfold tlv. apply f_equal. f_equal; [do 2 f_equal|lia].
  rewrite <- (splice_app_before pos (tlv_head type (Z.of_nat (length bs))) bs mem).
  - by rewrite length_tlv_head.
  - rewrite length_app, length_tlv_head. split; lia.
Qed.

(** ** C strings *)

(** [s] points to a NUL-terminated string whose characters are [data]. *)
Definition is_cstr (s : ptr) (data : bytes) : Prop :=
  exists rest, s = Some (data ++ 0 :: rest) /\ Forall (fun c => 0 < c < 256) data.

Lemma cstr_bytes data : Forall (fun c => 0 < c < 256) data -> all_bytes data.
Proof. intros H. eapply Forall_impl; [exact H|]. unfold is_byte, uint. simpl. lia. Qed.

(** A field present when the pointer is not NULL. *)
Definition opt_field (s : ptr) (id : Z) (bs : bytes) : Prop :=
  (s = None /\ bs = []) \/ exists data, is_cstr s data /\ bs = tlv id data.

Lemma store_cstr_writes len s id bs :
  opt_field s id bs -> Z.of_nat (length bs) < 2 ^ 31 -> writes len (store_cstr len s id) bs.
Proof.
  intros [[-> ->]|(data & (rest & -> & Hd) & ->)] Hmax.
  - intros mem pos _ _. simpl. by rewrite splice_nil, Z.add_0_r.
  - rewrite length_tlv in Hmax. intros mem pos Hp Hl. unfold store_cstr.
    rewrite strlen_cstr, bind_ret by done.
    apply (flt_store_str_writes len id (Some (data ++ 0 :: rest)) data (0 :: rest));
      [done | by apply cstr_bytes | lia | done | done].
Qed.

Lemma cstr_size_ok s id bs :
  opt_field s id bs -> Z.of_nat (length bs) < 2 ^ 31 -> cstr_size s = Ret (Z.of_nat (length bs)).
Proof.
  intros [[-> ->]|(data & (rest & -> & Hd) & ->)] Hmax; [done|].
  rewrite length_tlv in Hmax |- *. unfold cstr_size, flt_get_store_str_size, TYPE_LENGTH, LEN_LENGTH.
  rewrite strlen_cstr, bind_ret by done. rewrite (swrap_small 32) by (unfold sint; simpl in *; lia).
  f_equal. lia.
Qed.

Lemma store_cstr_nul_writes len s id data :
  is_cstr s data -> Z.of_nat (length data) + 1 < 2 ^ 31 ->
  writes len (store_cstr_nul len s id) (tlv id (data ++ [0])).
Proof.
  intros (rest & -> & Hd) Hmax mem pos Hp Hl. unfold store_cstr_nul. cbn [deref of_option].
  rewrite bind_ret, strlen_cstr, bind_ret by done.
  replace (Z.of_nat (length data) + 1) with (Z.of_nat (length (data ++ [0])))
    by (rewrite length_app; simpl; lia).
  apply (flt_store_str_writes len id (Some (data ++ 0 :: rest)) (data ++ [0]) rest).
  - by rewrite <- app_assoc.
  - apply Forall_app. split; [by apply cstr_bytes|]. repeat constructor; unfold is_byte, uint; simpl; lia.
  - rewrite length_app. simpl. lia.
  - done.
  - done.
Qed.

Lemma cstr_nul_size_ok s data :
  is_cstr s data -> Z.of_nat (length data) + 13 < 2 ^ 31 ->
  cstr_nul_size s = Ret (12 + Z.of_nat (length data) + 1).
Proof.
  intros (rest & -> & Hd) Hmax. unfold cstr_nul_size, flt_get_store_str_size, TYPE_LENGTH, LEN_LENGTH.
  rewrite strlen_cstr, bind_ret by done.
  rewrite (swrap_small 32 (2 + 4 + (Z.of_nat (length data) + 1))) by (unfold sint; simpl in *; lia).
  rewrite (swrap_small 32) by (unfold sint; simpl in *; lia).
  f_equal. lia.
Qed.

(** ** The records *)

(** The wire image of a record: one outer field with the present inner fields.
    Records that contain an 8-byte integer (control and query info) have none, see
    [int8_fields_too_short]. *)
Inductive encodes : flt_obj -> bytes -> Prop :=
| enc_span_off i :
    spn_type_ i = FLT_SPAN_INFO -> trace_enable_ i <> 1 -> encodes (SpanInfo i) []
| enc_span i tid sid rest1 rest2 :
    spn_type_ i = FLT_SPAN_INFO -> trace_enable_ i = 1 ->
    trace_id_ i = Some (tid ++ rest1) -> length tid = 16%nat -> all_bytes tid ->
    span_id_ i = Some (sid ++ rest2) -> length sid = 16%nat -> all_bytes sid ->
    encodes (SpanInfo i) (tlv FLT_SPAN_INFO
      (tlv FLT_TRACE_ENABLE (le_bytes 1 1) ++ tlv FLT_FORCE_PRINT (le_bytes 1 (force_print_ i)) ++
       tlv FLT_TRACE_ID tid ++ tlv FLT_REF_TYPE (le_bytes 1 (ref_type_ i)) ++ tlv FLT_SPAN_ID sid))
| enc_app i b1 b2 b3 b4 :
    app_type_ i = FLT_APP_INFO ->
    opt_field (identifier_ i) FLT_CLIENT_IDENTIFIER b1 -> opt_field (module_ i) FLT_MODULE b2 ->
    opt_field (action_ i) FLT_ACTION b3 -> opt_field (client_info_ i) FLT_CLIENT_INFO b4 ->
    b1 ++ b2 ++ b3 ++ b4 <> [] ->
    encodes (AppInfo i) (tlv FLT_APP_INFO (b1 ++ b2 ++ b3 ++ b4))
| enc_driver i data :
    drv_type_ i = FLT_DRIVER_SPAN_INFO -> is_cstr (client_span_ i) data ->
    encodes (DriverSpanInfo i) (tlv FLT_DRIVER_SPAN_INFO (tlv FLT_DRIVER_SPAN (data ++ [0])))
| enc_showtrace i data :
    sts_type_ i = FLT_TYPE_SHOW_TRACE_SPAN -> is_cstr (client_span_json_ i) data ->
    encodes (ShowTraceSpan i)
      (tlv FLT_TYPE_SHOW_TRACE_SPAN (tlv FLT_DRV_SHOW_TRACE_SPAN (data ++ [0]))).

(** Runs a ladder of writers between [reserve_head] and [fill_head]. *)
Fixpoint ladder (m : cres enc_result) (ws : list (ptr -> Z -> cres enc_result)) : cres enc_result :=
  match ws with [] => m | w :: ws => ladder (m ⊳ w) ws end.

Lemma ladder_writes len ws bss mem p0 bs0 :
  Forall2 (writes len) ws bss -> 0 <= p0 ->
  p0 + Z.of_nat (length (bs0 ++ concat bss)) <= len <= Z.of_nat (length mem) ->
  ladder (Ret (OB_SUCCESS, Some (splice p0 bs0 mem), p0 + Z.of_nat (length bs0))) ws =
  Ret (OB_SUCCESS, Some (splice p0 (bs0 ++ concat bss) mem),
       p0 + Z.of_nat (length (bs0 ++ concat bss))).
Proof.
  intros Hws Hp. revert bs0. induction Hws as [|w bs ws bss Hw _ IH]; intros bs0 Hl;
    cbn [ladder concat] in *.
  - by rewrite app_nil_r.
  - rewrite !length_app in Hl. rewrite (else_store_writes len w bs mem p0 bs0) by (done || lia).
    rewrite IH, <- app_assoc; [done|]. rewrite !length_app. lia.
Qed.

Lemma record_writes len type ws bss bs mem pos :
  Forall2 (writes len) ws bss -> concat bss = bs -> 0 <= pos ->
  Z.of_nat (length (tlv type bs)) < 2 ^ 31 ->
  pos + Z.of_nat (length (tlv type bs)) <= len <= Z.of_nat (length mem) ->
  (ladder (reserve_head (Some mem) len pos) ws ⊳ fill_head len pos type) =
  Ret (OB_SUCCESS, Some (splice pos (tlv type bs) mem), pos + Z.of_nat (length (tlv type bs))).
Proof.
  intros Hws <- Hp Hmax Hl. pose proof Hl as Hl'. rewrite length_tlv in Hl', Hmax.
  rewrite reserve_head_ok by lia. rewrite (ladder_writes len ws bss) by (done || (simpl; lia)).
  simpl app. apply fill_head_ok; lia.
Qed.

Lemma uuid_writes len type str data rest :
  str = Some (data ++ rest) -> length data = 16%nat -> all_bytes data ->
  writes len (fun b p => flt_store_str b len p str UUID4_SERIALIZE_LEN type) (tlv type data).
Proof.
  intros Hs Hl Hb. replace UUID4_SERIALIZE_LEN with (Z.of_nat (length data)) by (by rewrite Hl).
  apply (flt_store_str_writes len type str data rest); [done|done|by rewrite Hl].
Qed.

(** Splits a list of writers into one goal per writer. *)
Ltac writers := repeat apply List.Forall2_cons; try apply List.Forall2_nil.

Lemma serialize_record o bs mem len pos :
  encodes o bs -> 0 <= pos -> Z.of_nat (length bs) < 2 ^ 31 ->
  pos + Z.of_nat (length bs) <= len <= Z.of_nat (length mem) ->
  flt_serialize_extra_info (Some mem) len pos o =
  Ret (OB_SUCCESS, Some (splice pos bs mem), pos + Z.of_nat (length bs)).
Proof.
  destruct 1 as [i Ht Hen|i tid sid r1 r2 Ht Hen Htid Ltid Btid Hsid Lsid Bsid
    |i b1 b2 b3 b4 Ht F1 F2 F3 F4 Hne|i data Ht Hs|i data Ht Hs]; intros Hp Hmax Hl;
    unfold flt_serialize_extra_info, base_type; rewrite Ht; simpl Z.eqb; cbv iota.
  - unfold flt_serialize_spaninfo. destruct (Z.eqb_spec (trace_enable_ i) 1); [done|].
    by rewrite splice_nil, Z.add_0_r.
  - unfold flt_serialize_spaninfo. rewrite Hen, Z.eqb_refl, Ht.
    apply (record_writes len FLT_SPAN_INFO
      [fun b p => flt_store_int b len p 1 FLT_TRACE_ENABLE (Z.of_nat 1);
       fun b p => flt_store_int b len p (force_print_ i) FLT_FORCE_PRINT (Z.of_nat 1);
       fun b p => flt_store_str b len p (trace_id_ i) UUID4_SERIALIZE_LEN FLT_TRACE_ID;
       fun b p => flt_store_int b len p (ref_type_ i) FLT_REF_TYPE (Z.of_nat 1);
       fun b p => flt_store_str b len p (span_id_ i) UUID4_SERIALIZE_LEN FLT_SPAN_ID]
      [tlv FLT_TRACE_ENABLE (le_bytes 1 1); tlv FLT_FORCE_PRINT (le_bytes 1 (force_print_ i));
       tlv FLT_TRACE_ID tid; tlv FLT_REF_TYPE (le_bytes 1 (ref_type_ i)); tlv FLT_SPAN_ID sid]);
      [|by cbn [concat]; rewrite app_nil_r|done..].
    writers.
    + apply (flt_store_int_writes len 1 FLT_TRACE_ENABLE 1); lia.
    + apply (flt_store_int_writes len (force_print_ i) FLT_FORCE_PRINT 1); lia.
    + by apply (uuid_writes len _ _ tid r1).
    + apply (flt_store_int_writes len (ref_type_ i) FLT_REF_TYPE 1); lia.
    + by apply (uuid_writes len _ _ sid r2).
  - pose proof Hmax as Hm. rewrite length_tlv, !length_app in Hm.
    unfold flt_serialize_appinfo. rewrite Ht.
    apply (record_writes len FLT_APP_INFO
      [store_cstr len (identifier_ i) FLT_CLIENT_IDENTIFIER; store_cstr len (module_ i) FLT_MODULE;
       store_cstr len (action_ i) FLT_ACTION; store_cstr len (client_info_ i) FLT_CLIENT_INFO]
      [b1; b2; b3; b4]); [|by cbn [concat]; rewrite app_nil_r|done..].
    writers; apply store_cstr_writes; done || lia.
  - pose proof Hmax as Hm. rewrite !length_tlv, length_app in Hm. simpl in Hm.
    unfold flt_serialize_driverspaninfo. rewrite Ht.
    apply (record_writes len FLT_DRIVER_SPAN_INFO
      [store_cstr_nul len (client_span_ i) FLT_DRIVER_SPAN] [tlv FLT_DRIVER_SPAN (data ++ [0])]);
      [|by cbn [concat]; rewrite app_nil_r|done..].
    writers. apply store_cstr_nul_writes; [done|lia].
  - pose proof Hmax as Hm. rewrite !length_tlv, length_app in Hm. simpl in Hm.
    unfold flt_serialize_showtracespan. rewrite Ht.
    apply (record_writes len FLT_TYPE_SHOW_TRACE_SPAN
      [store_cstr_nul len (client_span_json_ i) FLT_DRV_SHOW_TRACE_SPAN]
      [tlv FLT_DRV_SHOW_TRACE_SPAN (data ++ [0])]);
      [|by cbn [concat]; rewrite app_nil_r|done..].
    writers. apply store_cstr_nul_writes; [done|lia].
Qed.

Lemma serialize_size o bs :
  encodes o bs -> Z.of_nat (length bs) < 2 ^ 31 ->
  flt_get_serialize_size_extra_info o = Ret (Z.of_nat (length bs)).
Proof.
  destruct 1 as [i Ht Hen|i tid sid r1 r2 Ht Hen Htid Ltid Btid Hsid Lsid Bsid
    |i b1 b2 b3 b4 Ht F1 F2 F3 F4 Hne|i data Ht Hs|i data Ht Hs]; intros Hmax;
    unfold flt_get_serialize_size_extra_info, base_type; rewrite Ht; simpl Z.eqb; cbv iota;
    rewrite ?length_tlv, ?length_app, ?length_tlv, ?length_app, ?length_tlv in Hmax |- *.
  - unfold flt_get_serialize_size_spaninfo. by destruct (Z.eqb_spec (trace_enable_ i) 1).
  - unfold flt_get_serialize_size_spaninfo.
    rewrite Hen, Z.eqb_refl, !length_le_bytes, Ltid, Lsid. reflexivity.
  - unfold flt_get_serialize_size_appinfo.
    rewrite (cstr_size_ok _ _ _ F1), (cstr_size_ok _ _ _ F2), (cstr_size_ok _ _ _ F3),
      (cstr_size_ok _ _ _ F4), !bind_ret by lia. cbv zeta.
    assert (0 < length b1 + length b2 + length b3 + length b4)%nat.
    { rewrite <- !length_app. destruct (b1 ++ b2 ++ b3 ++ b4) eqn:E; [done|].
      rewrite <- !app_assoc, E. simpl. lia. }
    assert (forall z, 0 <= z < 2 ^ 31 -> s32 z = z) as Hs
      by (intros; apply swrap_small; [lia|unfold sint; simpl in *; lia]).
    rewrite (Hs (0 + _)), (Hs (0 + _ + _)), (Hs (0 + _ + _ + _)), (Hs (0 + _ + _ + _ + _)) by lia.
    unfold TYPE_LENGTH, LEN_LENGTH. case_match eqn:E; [rewrite Hs by lia; f_equal; lia|].
    apply negb_false_iff, Z.eqb_eq in E. lia.
  - unfold flt_get_serialize_size_driverspaninfo. simpl in *.
    rewrite (cstr_nul_size_ok _ data) by (done || lia). f_equal. lia.
  - unfold flt_get_serialize_size_showtracespan. simpl in *.
    rewrite (cstr_nul_size_ok _ data) by (done || lia). f_equal. lia.
Qed.

(** ** Reading fields back *)

Lemma resolve_tlv mem len pos id data t0 n0 :
  load_bytes mem pos (length (tlv id data)) = Ret (tlv id data) ->
  pos + Z.of_nat (length (tlv id data)) <= len ->
  sint 16 id -> Z.of_nat (length data) < 2 ^ 31 ->
  flt_resolve_type_and_len (Some mem) len pos t0 n0 =
    Ret (OB_SUCCESS, pos + 6, id, Z.of_nat (length data)) /\
  load_bytes mem (pos + 6) (length data) = Ret data.
Proof.
  intros Hb Hl Hid Hmax. rewrite length_tlv in Hl. unfold tlv in Hb.
  apply load_bytes_app in Hb as [Hh Hd]. rewrite length_tlv_head in Hd. unfold tlv_head in Hh.
  apply load_bytes_app in Hh as [Ht Hn]. rewrite !length_le_bytes in *.
  split; [|exact Hd]. change (Z.of_nat 2) with 2 in Hn.
  unfold flt_resolve_type_and_len, TYPE_LENGTH, LEN_LENGTH. rewrite Z.gtb_ltb.
  destruct (Z.ltb_spec len (pos + 2 + 4)); [lia|].
  rewrite (sint2korr_load _ _ _ (le_bytes_bytes _ _) Ht), bind_ret, (sint4korr_load _ _ _ (le_bytes_bytes _ _) Hn), bind_ret.
  rewrite !le_val_le_bytes. change (8 * Z.of_nat 2) with 16. change (8 * Z.of_nat 4) with 32.
  rewrite !swrap_wrap, !swrap_small by (done || lia || (unfold sint; simpl in *; lia)).
  by replace (pos + 2 + 4) with (pos + 6) by lia.
Qed.

(** One round of the loop of [flt_deserialize_extra_info] over a complete field. *)
Lemma deserialize_step fuel mem len pos type o id data :
  load_bytes mem pos (length (tlv id data)) = Ret (tlv id data) ->
  pos + Z.of_nat (length (tlv id data)) <= len ->
  sint 16 id -> Z.of_nat (length data) < 2 ^ 31 ->
  flt_deserialize_extra_info (S fuel) (Some mem) len pos type o =
  ('(ret, pos, o) ← deserialize_field_func type id (Z.of_nat (length data)) (Some mem) len (pos + 6) o;
   if negb (ret =? OB_SUCCESS) then Ret (OB_ERROR, pos, o)
   else flt_deserialize_extra_info fuel (Some mem) len pos type o).
Proof.
  intros Hb Hl Hid Hmax. destruct (resolve_tlv mem len pos id data 0 0) as [Hr _]; try done.
  rewrite length_tlv in Hl. cbn [flt_deserialize_extra_info].
  destruct (Z.ltb_spec pos len); [|lia]. by rewrite Hr, bind_ret.
Qed.

Lemma deserialize_done fuel buf len type o :
  flt_deserialize_extra_info fuel buf len len type o = Ret (OB_SUCCESS, len, o).
Proof. destruct fuel; simpl; by rewrite Z.ltb_irrefl. Qed.

Lemma flt_get_int1_ok mem len pos v v0 :
  load_bytes mem pos 1 = Ret (le_bytes 1 v) -> pos + 1 <= len ->
  flt_get_int1 (Some mem) len pos 1 v0 = Ret (OB_SUCCESS, pos + 1, s8 v).
Proof.
  intros Hb Hl. unfold flt_get_int1, flt_get_intN. simpl negb. cbv iota.
  unfold flt_get_int. rewrite Z.gtb_ltb. destruct (Z.ltb_spec len (pos + 1)); [lia|].
  simpl Z.eqb. cbv iota. rewrite (sint1korr_load _ _ _ (le_bytes_bytes _ _) Hb), bind_ret.
  rewrite le_val_le_bytes. change (8 * Z.of_nat 1) with 8. by rewrite swrap_wrap by lia.
Qed.

Lemma flt_get_str_ok mem len pos n s0 :
  pos + n <= len -> flt_get_str (Some mem) len pos n s0 = Ret (OB_SUCCESS, pos + n, Some mem).
Proof.
  intros. unfold flt_get_str. rewrite Z.gtb_ltb. destruct (Z.ltb_spec len (pos + n)); [lia|done].
Qed.

(** A field function stores what it reads through its lens. *)
Lemma fld_case_some {A} (l : lens A) o old put (g : A -> cres (Z * Z * A)) d pos v :
  l o = Some (old, put) -> g old = Ret (OB_SUCCESS, pos, v) ->
  fld_case l o g d = Ret (OB_SUCCESS, pos, put v).
Proof. intros Hl Hg. unfold fld_case. by rewrite Hl, Hg. Qed.

(** A one-byte field and a string field of the span record. *)
Lemma span_int_step fuel mem len pos i id v rd wr :
  load_bytes mem pos (length (tlv id (le_bytes 1 v))) = Ret (tlv id (le_bytes 1 v)) ->
  pos + 7 <= len -> sint 16 id ->
  (forall v_len b p o, deserialize_field_func FLT_SPAN_INFO id v_len b len p o =
     fld_case (spn_lens rd wr) o (flt_get_int1 b len p v_len) 0) ->
  flt_deserialize_extra_info (S fuel) (Some mem) len pos FLT_SPAN_INFO (SpanInfo i) =
  flt_deserialize_extra_info fuel (Some mem) len (pos + 7) FLT_SPAN_INFO (SpanInfo (wr i (s8 v))).
Proof.
  intros Hb Hl Hid Hf.
  assert (length (tlv id (le_bytes 1 v)) = 7%nat) as L7 by (by rewrite length_tlv).
  rewrite (deserialize_step _ _ _ _ _ _ id (le_bytes 1 v)) by (done || lia).
  destruct (resolve_tlv mem len pos id (le_bytes 1 v) 0 0) as [_ Hd]; try (done || lia).
  rewrite Hf. erewrite fld_case_some; [|done|by apply flt_get_int1_ok; [|lia]].
  rewrite bind_ret. simpl negb. cbv iota. by replace (pos + 6 + 1) with (pos + 7) by lia.
Qed.

Lemma span_str_step fuel mem len pos i id data rd wr :
  load_bytes mem pos (length (tlv id data)) = Ret (tlv id data) -> length data = 16%nat ->
  pos + 22 <= len -> sint 16 id ->
  (forall v_len b p o, deserialize_field_func FLT_SPAN_INFO id v_len b len p o =
     fld_case (spn_lens rd wr) o (flt_get_str b len p v_len) None) ->
  flt_deserialize_extra_info (S fuel) (Some mem) len pos FLT_SPAN_INFO (SpanInfo i) =
  flt_deserialize_extra_info fuel (Some mem) len (pos + 22) FLT_SPAN_INFO (SpanInfo (wr i (Some mem))).
Proof.
  intros Hb Hd Hl Hid Hf.
  assert (length (tlv id data) = 22%nat) as L7 by (by rewrite length_tlv, Hd).
  rewrite (deserialize_step _ _ _ _ _ _ id data) by (done || lia || (rewrite Hd; done)).
  rewrite Hf, Hd. erewrite fld_case_some; [|done|by apply flt_get_str_ok; lia].
  rewrite bind_ret. simpl negb. cbv iota. by replace (pos + 6 + Z.of_nat 16) with (pos + 22) by lia.
Qed.

Definition span_payload (fp rt : Z) (tid sid : bytes) : bytes :=
  tlv FLT_TRACE_ENABLE (le_bytes 1 1) ++ tlv FLT_FORCE_PRINT (le_bytes 1 fp) ++
  tlv FLT_TRACE_ID tid ++ tlv FLT_REF_TYPE (le_bytes 1 rt) ++ tlv FLT_SPAN_ID sid.

Lemma length_span_payload fp rt tid sid :
  length tid = 16%nat -> length sid = 16%nat -> length (span_payload fp rt tid sid) = 65%nat.
Proof.
  intros Ht Hs. unfold span_payload.
  by rewrite !length_app, !length_tlv, !length_le_bytes, Ht, Hs.
Qed.

Lemma span_payload_read fuel mem p i0 fp rt tid sid :
  length tid = 16%nat -> length sid = 16%nat -> (5 <= fuel)%nat ->
  load_bytes mem p (length (span_payload fp rt tid sid)) = Ret (span_payload fp rt tid sid) ->
  flt_deserialize_extra_info fuel (Some mem) (p + 65) p FLT_SPAN_INFO (SpanInfo i0) =
  Ret (OB_SUCCESS, p + 65,
       SpanInfo {| spn_type_ := spn_type_ i0; trace_enable_ := 1; force_print_ := s8 fp;
                   trace_id_ := Some mem; ref_type_ := s8 rt; span_id_ := Some mem |}).
Proof.
  intros Lt Ls Hf Hpl.
  apply load_bytes_app in Hpl as [H1 Hpl]. rewrite length_tlv in Hpl. simpl Z.of_nat in Hpl.
  apply load_bytes_app in Hpl as [H2 Hpl]. rewrite length_tlv in Hpl. simpl Z.of_nat in Hpl.
  apply load_bytes_app in Hpl as [H3 Hpl]. rewrite length_tlv, Lt in Hpl. simpl Z.of_nat in Hpl.
  apply load_bytes_app in Hpl as [H4 H5]. rewrite length_tlv in H5. simpl Z.of_nat in H5.
  destruct fuel as [|[|[|[|[|fuel]]]]]; try lia.
  rewrite (span_int_step _ _ _ _ _ FLT_TRACE_ENABLE 1 trace_enable_ set_trace_enable_ H1)
    by (done || lia).
  rewrite (span_int_step _ _ _ _ _ FLT_FORCE_PRINT fp force_print_ set_force_print_ H2)
    by (done || lia).
  rewrite (span_str_step _ _ _ _ _ FLT_TRACE_ID tid trace_id_ set_trace_id_ H3)
    by (done || lia).
  rewrite (span_int_step _ _ _ _ _ FLT_REF_TYPE rt ref_type_ set_ref_type_ H4)
    by (done || lia).
  rewrite (span_str_step _ _ _ _ _ FLT_SPAN_ID sid span_id_ set_span_id_ H5)
    by (done || lia).
  replace (p + Z.of_nat 7 + Z.of_nat 7 + Z.of_nat 22 + Z.of_nat 7 + 22) with (p + 65) by lia.
  by rewrite deserialize_done.
Qed.

(** A span record with tracing on, serialized anywhere in a buffer and read
    back from its payload, restores the three one-byte fields; the reader consumes
    exactly the payload.  Both id pointers are set to the start of the buffer, not
    to the ids. *)
Theorem span_roundtrip i0 i bs mem len pos fuel :
  encodes (SpanInfo i) bs -> trace_enable_ i = 1 ->
  0 <= pos -> pos + Z.of_nat (length bs) <= len <= Z.of_nat (length mem) -> (5 <= fuel)%nat ->
  exists mem',
    flt_serialize_extra_info (Some mem) len pos (SpanInfo i) =
      Ret (OB_SUCCESS, Some mem', pos + Z.of_nat (length bs)) /\
    flt_resolve_type_and_len (Some mem') len pos 0 0 =
      Ret (OB_SUCCESS, pos + 6, FLT_SPAN_INFO, Z.of_nat (length bs) - 6) /\
    flt_deserialize_extra_info fuel (Some mem') (pos + Z.of_nat (length bs)) (pos + 6)
      FLT_SPAN_INFO (SpanInfo i0) =
      Ret (OB_SUCCESS, pos + Z.of_nat (length bs),
           SpanInfo {| spn_type_ := spn_type_ i0; trace_enable_ := 1;
                       force_print_ := s8 (force_print_ i); trace_id_ := Some mem';
                       ref_type_ := s8 (ref_type_ i); span_id_ := Some mem' |}).
Proof.
  intros He Hen Hp Hl Hf. pose proof He as He'.
  inversion He' as [|? tid sid r1 r2 Ht _ Htid Ltid Btid Hsid Lsid Bsid| | |]; subst; [done|].
  change (tlv FLT_TRACE_ENABLE (le_bytes 1 1) ++ _) with
    (span_payload (force_print_ i) (ref_type_ i) tid sid) in *.
  set (pl := span_payload _ _ _ _) in *.
  assert (length pl = 65%nat) as Lpl by by apply length_span_payload.
  rewrite length_tlv, Lpl in *. simpl Z.of_nat in *.
  assert (room mem pos (length (tlv FLT_SPAN_INFO pl))) as Hr
    by (rewrite length_tlv, Lpl; split; simpl; lia).
  pose proof (load_bytes_splice _ _ _ Hr) as Hin.
  destruct (resolve_tlv _ len pos FLT_SPAN_INFO pl 0 0 Hin) as [Hres Hpl];
    [rewrite length_tlv, Lpl; simpl; lia|done|by rewrite Lpl|].
  exists (splice pos (tlv FLT_SPAN_INFO pl) mem). repeat split.
  - rewrite (serialize_record _ _ mem len pos He) by (rewrite ?length_tlv, ?Lpl; simpl; lia).
    by rewrite length_tlv, Lpl.
  - by rewrite Hres, Lpl.
  - replace (pos + Z.of_nat 71) with (pos + 6 + 65) by lia. by apply (span_payload_read _ _ _ _ _ _ tid sid).
Qed.

Definition span_example : FLTSpanInfo :=
  {| spn_type_ := FLT_SPAN_INFO; trace_enable_ := 1; force_print_ := 1;
     trace_id_ := Some (repeat 7 16); ref_type_ := 0; span_id_ := Some (repeat 9 16) |}.

Lemma span_example_encodes :
  encodes (SpanInfo span_example) (tlv FLT_SPAN_INFO (span_payload 1 0 (repeat 7 16) (repeat 9 16))).
Proof.
  apply (enc_span span_example (repeat 7 16) (repeat 9 16) [] []); try done;
    repeat constructor; unfold is_byte, uint; simpl; lia.
Qed.

Lemma span_roundtrip_witness :
  exists mem', flt_serialize_extra_info (Some (repeat 0 80)) 80 2 (SpanInfo span_example) =
    Ret (OB_SUCCESS, Some mem', 2 + 71).
Proof.
  destruct (span_roundtrip span_example span_example _ (repeat 0 80) 80 2 5 span_example_encodes)
    as (mem' & H & _); [done|lia|split; vm_compute; discriminate|lia|].
  exists mem'. exact H.
Defined.

(** C22: every record that has a wire image is serialized to exactly that image, into
    any buffer with room for it: nothing else in the buffer changes, the position
    advances by the length, and that length is what the size function announced. *)
Theorem serialize_exact o bs mem len pos :
  encodes o bs -> Z.of_nat (length bs) < 2 ^ 31 ->
  0 <= pos -> pos + Z.of_nat (length bs) <= len <= Z.of_nat (length mem) ->
  exists size,
    flt_get_serialize_size_extra_info o = Ret size /\
    flt_serialize_extra_info (Some mem) len pos o =
      Ret (OB_SUCCESS, Some (splice pos bs mem), pos + size).
Proof.
  intros He Hmax Hp Hl. exists (Z.of_nat (length bs)).
  split; [by apply serialize_size|by apply serialize_record].
Qed.

Lemma serialize_exact_witness :
  exists size, flt_get_serialize_size_extra_info (SpanInfo span_example) = Ret size.
Proof.
  destruct (serialize_exact _ _ (repeat 0 80) 80 2 span_example_encodes) as (size & H & _);
    [vm_compute; done|lia|split; vm_compute; discriminate|]. exists size. exact H.
Defined.

(** [flt_store_int8] passes 7 as the length of the value, for which
    [flt_store_int] copies nothing: the value is never written, the serialization of
    a query record ends two bytes before the size that was announced for it, and
    reading the record back fails. *)
Theorem int8_fields_too_short t0 t1 t2 :
  flt_get_serialize_size_extra_info (QueryInfo (Build_FLTQueryInfo FLT_QUERY_INFO t1 t2)) = Ret 34 /\
  exists mem,
    flt_serialize_extra_info (Some (repeat 0 34)) 34 0
      (QueryInfo (Build_FLTQueryInfo FLT_QUERY_INFO t1 t2)) = Ret (OB_SUCCESS, Some mem, 32) /\
    mem = tlv_head FLT_QUERY_INFO 26 ++ tlv FLT_QUERY_START_TIMESTAMP (repeat 0 7) ++
          tlv FLT_QUERY_END_TIMESTAMP (repeat 0 7) ++ [0; 0] /\
    flt_deserialize_extra_info 1 (Some mem) 32 6 FLT_QUERY_INFO
      (QueryInfo (Build_FLTQueryInfo FLT_QUERY_INFO t0 t0)) =
      Ret (OB_ERROR, 12, QueryInfo (Build_FLTQueryInfo FLT_QUERY_INFO t0 t0)).
Proof. split; [reflexivity|]. eexists. split; [reflexivity|]. split; reflexivity. Qed.

(** A field with an unknown key is not skipped: the position jumps to twice its
    value plus the length.  A message with an unknown field before a known one is
    rejected although both are complete and the known field alone is accepted. *)
Theorem unknown_key_not_skipped i :
  flt_deserialize_extra_info 2 (Some (tlv 2099 [0] ++ tlv FLT_LEVEL [5])) 14 0 FLT_CONTROL_INFO
    (ControlInfo i) = Ret (OB_ERROR, 13, ControlInfo i) /\
  flt_deserialize_extra_info 2 (Some (tlv FLT_LEVEL [5])) 7 0 FLT_CONTROL_INFO (ControlInfo i) =
    Ret (OB_SUCCESS, 7, ControlInfo (set_level_ i 5)).
Proof. split; reflexivity. Qed.

(** ** Termination of the reader *)

(** No four bytes of the buffer read as a negative length. *)
Definition lengths_nonneg (mem : bytes) : Prop :=
  forall p v, sint4korr mem p = Ret v -> 0 <= v.

Lemma flt_get_intN_pos n buf len pos v_len val r p v :
  flt_get_intN n buf len pos v_len val = Ret (r, p, v) -> 0 <= v_len -> pos <= p.
Proof.
  unfold flt_get_intN, flt_get_int. intros H Hv. repeat case_match; simplify_eq; try lia.
  all: by apply bind_Ret_inv in H as (? & _ & [= <- <- <-]); lia.
Qed.

Lemma flt_get_fp_pos size buf len pos v_len val r p v :
  flt_get_fp size buf len pos v_len val = Ret (r, p, v) -> 0 <= v_len -> pos <= p.
Proof.
  unfold flt_get_fp. intros H Hv. repeat case_match; simplify_eq; try lia.
  apply bind_Ret_inv in H as (? & _ & [= <- <- <-]). lia.
Qed.

Lemma flt_get_str_pos buf len pos v_len val r p v :
  flt_get_str buf len pos v_len val = Ret (r, p, v) -> 0 <= v_len -> pos <= p.
Proof. unfold flt_get_str. intros H Hv. repeat case_match; simplify_eq; lia. Qed.

Lemma fld_case_pos {A} (l : lens A) o (g : A -> cres (Z * Z * A)) d pos r p o' :
  (forall a r p v, g a = Ret (r, p, v) -> pos <= p) ->
  fld_case l o g d = Ret (r, p, o') -> pos <= p.
Proof.
  intros Hg H. unfold fld_case in H. repeat case_match; simplify_eq.
  - apply bind_Ret_inv in H as ([[r1 p1] v1] & H1 & [= <- <- <-]). eauto.
  - apply bind_Ret_inv in H as ([[r1 p1] v1] & H1 & H). case_match; [done|]. simplify_eq. eauto.
Qed.

Lemma deserialize_field_pos type id v_len buf len pos o r p o' :
  deserialize_field_func type id v_len buf len pos o = Ret (r, p, o') ->
  0 <= v_len -> 0 <= pos -> pos <= p.
Proof.
  unfold deserialize_field_func, flt_deserialize_field_driverspaninfo, flt_deserialize_field_appinfo,
    flt_deserialize_field_queryinfo, flt_deserialize_field_controlinfo, flt_deserialize_field_spaninfo,
    flt_deserialize_field_showtracespan, skip_unknown.
  intros H Hv Hp. repeat (case_match; [|]); try done; simplify_eq; try lia;
    try (eapply fld_case_pos; [|exact H]; eauto using flt_get_intN_pos, flt_get_fp_pos, flt_get_str_pos).
  apply bind_Ret_inv in H as ([[r1 p1] v1] & Hget & H). apply flt_get_intN_pos in Hget; [|done].
  repeat case_match; by simplify_eq.
Qed.

Lemma korr_loop_free mem p :
  loop_free (sint1korr mem p) /\ loop_free (sint2korr mem p) /\ loop_free (sint3korr mem p) /\
  loop_free (sint4korr mem p) /\ loop_free (sint8korr mem p).
Proof.
  unfold sint1korr, sint2korr, sint3korr, sint4korr, sint8korr, uint8korr.
  repeat split; loop_free.
Qed.

Lemma flt_get_loop_free n buf len pos v_len val s :
  loop_free (flt_get_intN n buf len pos v_len val) /\ loop_free (flt_get_fp n buf len pos v_len val) /\
  loop_free (flt_get_str buf len pos v_len s).
Proof.
  unfold flt_get_intN, flt_get_int, flt_get_fp, flt_get_str.
  repeat split; loop_free; apply korr_loop_free.
Qed.

Lemma fld_case_loop_free {A} (l : lens A) o (g : A -> cres (Z * Z * A)) d :
  (forall a, loop_free (g a)) -> loop_free (fld_case l o g d).
Proof. intros Hg. unfold fld_case. loop_free; apply Hg. Qed.

Lemma deserialize_field_loop_free type id v_len buf len pos o :
  loop_free (deserialize_field_func type id v_len buf len pos o).
Proof.
  unfold deserialize_field_func, flt_deserialize_field_driverspaninfo, flt_deserialize_field_appinfo,
    flt_deserialize_field_queryinfo, flt_deserialize_field_controlinfo, flt_deserialize_field_spaninfo,
    flt_deserialize_field_showtracespan, skip_unknown.
  repeat (case_match; [|]); try apply fld_case_loop_free; loop_free; by apply flt_get_loop_free.
Qed.

(** The reader of the records terminates when no length in the buffer is negative:
    every round consumes at least the six bytes of a field head, so [len - pos] rounds
    are enough. *)
Theorem deserialize_terminates fuel mem len pos type o :
  lengths_nonneg mem -> 0 <= pos -> len - pos <= Z.of_nat fuel ->
  flt_deserialize_extra_info fuel (Some mem) len pos type o <> OutOfFuel.
Proof.
  intros Hnn. revert pos o. induction fuel as [|fuel IH]; intros pos o Hp Hf;
    cbn [flt_deserialize_extra_info]; destruct (Z.ltb_spec pos len); try done; [lia|].
  unfold flt_resolve_type_and_len, TYPE_LENGTH, LEN_LENGTH.
  destruct (pos + 2 + 4 >? len); [done|].
  destruct (korr_loop_free mem pos) as (_ & K2 & _).
  destruct (sint2korr mem pos) as [t| |]; [rewrite !bind_ret|done..].
  destruct (korr_loop_free mem (pos + 2)) as (_ & _ & _ & K4 & _).
  destruct (sint4korr mem (pos + 2)) as [v| |] eqn:Ev; [rewrite !bind_ret|done..].
  apply Hnn in Ev. simpl negb. cbv iota.
  pose proof (deserialize_field_loop_free type t v (Some mem) len (pos + 2 + 4) o) as Hfun.
  destruct (deserialize_field_func _ _ _ _ _ _ _) as [[[r p] o']| |] eqn:E; [|done..].
  rewrite bind_ret. apply deserialize_field_pos in E; [|lia..].
  case_match; [done|]. apply IH; lia.
Qed.

Lemma deserialize_terminates_witness :
  flt_deserialize_extra_info 7 (Some (tlv FLT_LEVEL [5])) 7 0 FLT_CONTROL_INFO
    (ControlInfo (Build_FLTControlInfo FLT_CONTROL_INFO 0 0 0 0 0 0)) <> OutOfFuel.
Proof.
  apply (deserialize_terminates 7); [|lia|lia]. intros p v Hv.
  destruct (decide (0 <= p < 7)) as [Hp|Hp].
  - assert (p = 0 \/ p = 1 \/ p = 2 \/ p = 3 \/ p = 4 \/ p = 5 \/ p = 6) as Hc by lia.
    destruct Hc as [->|[->|[->|[->|[->|[->| ->]]]]]]; vm_compute in Hv; simplify_eq; lia.
  - unfold sint4korr in Hv. rewrite (load_oob _ p) in Hv by (simpl; lia). destruct (load _ (p + 1)), (load _ (p + 2)), (load _ (p + 3)); done.
Defined.

(** A negative length in a string field moves the position back: the reader of an
    application record whose only field announces length -6 never stops. *)
Theorem negative_length_loops i fuel :
  flt_deserialize_extra_info fuel (Some (le_bytes 2 FLT_MODULE ++ le_bytes 4 (-6))) 6 0 FLT_APP_INFO
    (AppInfo i) = OutOfFuel.
Proof.
  revert i. induction fuel as [|fuel IH]; intros i; [done|].
  transitivity (flt_deserialize_extra_info fuel (Some (le_bytes 2 FLT_MODULE ++ le_bytes 4 (-6))) 6 0
    FLT_APP_INFO (AppInfo (set_module_ i (Some (le_bytes 2 FLT_MODULE ++ le_bytes 4 (-6)))))); [|done].
  reflexivity.
Qed.

(** ** Memory safety of the writers *)

(** [w] returns, keeps the size of the buffer and the position inside it. *)
Definition safe_writer (n : Z) (w : ptr -> Z -> cres enc_result) : Prop :=
  forall mem pos, Z.of_nat (length mem) = n -> 0 <= pos <= n ->
  exists ret mem' pos', w (Some mem) pos = Ret (ret, Some mem', pos') /\
    length mem' = length mem /\ pos <= pos' <= n.

Lemma refuses (mem : bytes) (pos n ret : Z) :
  Z.of_nat (length mem) = n -> 0 <= pos <= n ->
  exists r mem' pos', Ret (ret, Some mem, pos) = Ret (r, Some mem', pos') /\
    length mem' = length mem /\ pos <= pos' <= n.
Proof. intros. exists ret, mem, pos. repeat split; lia. Qed.

(** A writer that either refuses or writes a known block. *)
Lemma safe_of_writes n w bs :
  writes n w bs ->
  (forall mem pos, n < pos + Z.of_nat (length bs) -> 0 <= pos <= n ->
     exists ret, w (Some mem) pos = Ret (ret, Some mem, pos)) ->
  safe_writer n w.
Proof.
  intros Hw Hno mem pos Hn Hp. destruct (decide (pos + Z.of_nat (length bs) <= n)).
  - rewrite Hw by lia. eexists _, _, _. repeat split; [apply length_splice; split; lia|lia|lia].
  - destruct (Hno mem pos) as [ret ->]; [lia|done|]. by apply refuses.
Qed.

Lemma flt_store_int_safe n v type k :
  (k = 1 \/ k = 2 \/ k = 3 \/ k = 4 \/ k = 5 \/ k = 6 \/ k = 8)%nat ->
  safe_writer n (fun b p => flt_store_int b n p v type (Z.of_nat k)).
Proof.
  intros Hk. eapply safe_of_writes; [by apply flt_store_int_writes|].
  intros mem pos. rewrite length_tlv, length_le_bytes. intros Hno Hp. exists OB_ERROR.
  unfold flt_store_int, TYPE_LENGTH, LEN_LENGTH.
  by destruct (Z.ltb_spec n (pos + 2 + 4 + Z.of_nat k)); [|lia].
Qed.

Lemma flt_store_int8_safe n v type : safe_writer n (fun b p => flt_store_int8 b n p v type).
Proof.
  intros mem pos Hn Hp. unfold flt_store_int8, flt_store_int, TYPE_LENGTH, LEN_LENGTH.
  destruct (Z.ltb_spec n (pos + 2 + 4 + 7)); [by apply refuses|]. cbv zeta.
  rewrite int2store_splice, bind_ret by (split; lia).
  rewrite int4store_splice, bind_ret.
  2: { split; [lia|]. rewrite length_splice by (split; rewrite ?length_le_bytes; lia). lia. }
  simpl Z.eqb. cbv iota. rewrite bind_ret. eexists _, _, _. repeat split; [|lia|lia].
  rewrite !length_splice; [done|..]; rewrite ?length_le_bytes; split; try lia.
  rewrite length_splice by (split; rewrite ?length_le_bytes; lia). lia.
Qed.

Lemma flt_store_double_safe n v type :
  n < 2 ^ 62 -> safe_writer n (fun b p => flt_store_double b n p v type).
Proof.
  intros Hmax. eapply safe_of_writes; [apply flt_store_double_writes; lia|].
  intros mem pos. rewrite length_tlv, length_le_bytes. intros Hno Hp. exists OB_ERROR.
  unfold flt_store_double, flt_store_fp, TYPE_LENGTH, LEN_LENGTH, DBL_SIZE.
  rewrite !wrap_small by (unfold uint; lia).
  by destruct (Z.ltb_spec n (pos + 8 + 2 + 4)); [|lia].
Qed.

Lemma flt_store_str_safe n type str data rest :
  str = Some (data ++ rest) -> all_bytes data -> Z.of_nat (length data) < 2 ^ 31 ->
  safe_writer n (fun b p => flt_store_str b n p str (Z.of_nat (length data)) type).
Proof.
  intros Hs Hb Hmax. eapply safe_of_writes; [by eapply flt_store_str_writes|].
  intros mem pos. rewrite length_tlv. intros Hno Hp. exists OB_ERROR.
  unfold flt_store_str, TYPE_LENGTH, LEN_LENGTH.
  rewrite (swrap_small 64) by (unfold sint; simpl in *; lia).
  by destruct (Z.ltb_spec n (pos + 2 + 4 + Z.of_nat (length data))); [|lia].
Qed.

Lemma uuid_safe n type str data rest :
  str = Some (data ++ rest) -> length data = 16%nat -> all_bytes data ->
  safe_writer n (fun b p => flt_store_str b n p str UUID4_SERIALIZE_LEN type).
Proof.
  intros Hs Hl Hb. replace UUID4_SERIALIZE_LEN with (Z.of_nat (length data)) by (by rewrite Hl).
  eapply flt_store_str_safe; [done|done|by rewrite Hl].
Qed.

(** A NULL pointer or a string of representable length. *)
Definition opt_cstr (s : ptr) : Prop :=
  s = None \/ exists data, is_cstr s data /\ Z.of_nat (length data) < 2 ^ 31 - 1.

Lemma store_cstr_safe n s id : opt_cstr s -> safe_writer n (store_cstr n s id).
Proof.
  intros [->|(data & (rest & -> & Hd) & Hmax)].
  - intros mem pos Hn Hp. by apply refuses.
  - intros mem pos Hn Hp. unfold store_cstr. rewrite strlen_cstr, bind_ret by done.
    apply (flt_store_str_safe n id (Some (data ++ 0 :: rest)) data (0 :: rest));
      [done|by apply cstr_bytes|lia|done|done].
Qed.

Lemma store_cstr_nul_safe n s id data :
  is_cstr s data -> Z.of_nat (length data) < 2 ^ 31 - 1 -> safe_writer n (store_cstr_nul n s id).
Proof.
  intros (rest & -> & Hd) Hmax mem pos Hn Hp. unfold store_cstr_nul. cbn [deref of_option].
  rewrite bind_ret, strlen_cstr, bind_ret by done.
  replace (Z.of_nat (length data) + 1) with (Z.of_nat (length (data ++ [0])))
    by (rewrite length_app; simpl; lia).
  apply (flt_store_str_safe n id _ (data ++ [0]) rest); [by rewrite <- app_assoc| | |done|done].
  - apply Forall_app. split; [by apply cstr_bytes|]. repeat constructor; unfold is_byte, uint; simpl; lia.
  - rewrite length_app. simpl. lia.
Qed.

Definition safe_result (n : Z) (size : nat) (r : cres enc_result) : Prop :=
  exists ret mem' pos', r = Ret (ret, Some mem', pos') /\ length mem' = size /\ 0 <= pos' <= n.

Lemma else_store_safe n size m w :
  Z.of_nat size = n -> safe_result n size m -> safe_writer n w -> safe_result n size (m ⊳ w).
Proof.
  intros Hn (ret & mem & pos & -> & Hm & Hp) Hw. unfold else_store. rewrite bind_ret.
  destruct (ret =? OB_SUCCESS); [|by exists ret, mem, pos].
  destruct (Hw mem pos) as (r & mem' & pos' & -> & Hl & Hp'); [by rewrite Hm|done|].
  rewrite bind_ret. eexists _, _, _. repeat split; [by rewrite Hl|lia|lia].
Qed.

Lemma reserve_head_safe n mem pos :
  Z.of_nat (length mem) = n -> 0 <= pos <= n -> safe_result n (length mem) (reserve_head (Some mem) n pos).
Proof.
  intros Hn Hp. unfold reserve_head. rewrite Z.gtb_ltb.
  destruct (Z.ltb_spec n (pos + 6)); eexists _, _, _; repeat split; lia.
Qed.

Lemma fill_head_safe n org_pos type : 0 <= org_pos -> safe_writer n (fill_head n org_pos type).
Proof.
  intros Ho mem pos Hn Hp. unfold fill_head.
  destruct (decide (org_pos + 6 <= n)).
  - rewrite flt_store_type_and_len_ok, bind_ret by lia. eexists _, _, _.
    repeat split; [|lia|lia]. apply length_splice. rewrite length_tlv_head. split; lia.
  - unfold flt_store_type_and_len, TYPE_LENGTH, LEN_LENGTH.
    destruct (Z.ltb_spec n (org_pos + 2 + 4)); [|lia]. by apply refuses.
Qed.

(** The objects the serializers accept: the type tag says which record it is, and
    the strings they dereference are there. *)
Definition valid_obj (o : flt_obj) : Prop :=
  match o with
  | ControlInfo i => ctl_type_ i = FLT_CONTROL_INFO
  | QueryInfo i => qry_type_ i = FLT_QUERY_INFO
  | AppInfo i => app_type_ i = FLT_APP_INFO /\ opt_cstr (identifier_ i) /\ opt_cstr (module_ i) /\
      opt_cstr (action_ i) /\ opt_cstr (client_info_ i)
  | SpanInfo i => spn_type_ i = FLT_SPAN_INFO /\ (trace_enable_ i = 1 ->
      exists tid sid r1 r2, trace_id_ i = Some (tid ++ r1) /\ length tid = 16%nat /\ all_bytes tid /\
        span_id_ i = Some (sid ++ r2) /\ length sid = 16%nat /\ all_bytes sid)
  | DriverSpanInfo i => drv_type_ i = FLT_DRIVER_SPAN_INFO /\
      exists data, is_cstr (client_span_ i) data /\ Z.of_nat (length data) < 2 ^ 31 - 1
  | ShowTraceSpan i => sts_type_ i = FLT_TYPE_SHOW_TRACE_SPAN /\
      exists data, is_cstr (client_span_json_ i) data /\ Z.of_nat (length data) < 2 ^ 31 - 1
  end.

(** C23: serializing any of the six records into a buffer of any size stays inside the
    buffer: whatever the position and however small the buffer, the serializer
    returns, with the buffer's size unchanged and the position within it. *)
Theorem serialize_safe o mem pos :
  valid_obj o -> 0 <= pos <= Z.of_nat (length mem) -> Z.of_nat (length mem) < 2 ^ 62 ->
  safe_result (Z.of_nat (length mem)) (length mem)
    (flt_serialize_extra_info (Some mem) (Z.of_nat (length mem)) pos o).
Proof.
  set (n := Z.of_nat (length mem)). intros Ho Hp Hmax.
  pose proof (reserve_head_safe n mem pos eq_refl Hp) as Hr.
  destruct o as [i|i|i|i|i|i]; simpl in Ho; unfold flt_serialize_extra_info, base_type;
    first [rewrite Ho | rewrite (proj1 Ho)]; simpl Z.eqb; cbv iota.
  - unfold flt_serialize_controlinfo.
    repeat (apply else_store_safe; [done| |]); try done.
    1,3: apply (flt_store_int_safe n _ _ 1); lia.
    1,2: by apply flt_store_double_safe.
    1,2: by apply flt_store_int8_safe.
    apply fill_head_safe; lia.
  - destruct Ho as (_ & ? & ? & ? & ?). unfold flt_serialize_appinfo.
    repeat (apply else_store_safe; [done| |]); try done; [by apply store_cstr_safe..|].
    apply fill_head_safe; lia.
  - unfold flt_serialize_queryinfo.
    repeat (apply else_store_safe; [done| |]); try done; [by apply flt_store_int8_safe..|].
    apply fill_head_safe; lia.
  - unfold flt_serialize_spaninfo. destruct (Z.eqb_spec (trace_enable_ i) 1) as [E|].
    2: { by exists OB_SUCCESS, mem, pos. }
    destruct Ho as [_ (tid & sid & r1 & r2 & ? & ? & ? & ? & ? & ?)]; [done|].
    repeat (apply else_store_safe; [done| |]); try done.
    1,2,4: apply (flt_store_int_safe n _ _ 1); lia.
    1,2: by eapply uuid_safe.
    apply fill_head_safe; lia.
  - destruct Ho as [_ (data & ? & ?)]. unfold flt_serialize_driverspaninfo.
    repeat (apply else_store_safe; [done| |]); try done; [by eapply store_cstr_nul_safe|].
    apply fill_head_safe; lia.
  - destruct Ho as [_ (data & ? & ?)]. unfold flt_serialize_showtracespan.
    repeat (apply else_store_safe; [done| |]); try done; [by eapply store_cstr_nul_safe|].
    apply fill_head_safe; lia.
Qed.

Lemma serialize_safe_witness :
  safe_result 20 20 (flt_serialize_extra_info (Some (repeat 0 20)) 20 3
    (ControlInfo (Build_FLTControlInfo FLT_CONTROL_INFO 1 0 1 0 5 1))).
Proof. apply (serialize_safe _ (repeat 0 20)); [done|simpl; lia|done]. Defined.

End FltCodec.
