(* ===== verification/CrcBits.v ===== *)
(** Reflected cyclic redundancy checks as division by a polynomial, one bit at a time:
    the reference definition for the table-driven checksums of the protocol header
    (16 bits) and of the payload (32 bits). *)

From stdpp Require Import tactics.
From S2P Require Import Prelude IntStore.

Module CrcBits.

(** A reversed polynomial of degree [w]: its top bit is set. *)
Class CrcPoly (w poly : Z) : Prop := {
  poly_width : 16 <= w;
  poly_uint : uint w poly;
  poly_top : Z.testbit poly (w - 1) = true }.

Section crc.
Context {w : Z} (poly : Z) `{CP : !CrcPoly w poly}.

Definition crc_bit (c : Z) : Z :=
  if Z.odd c then Z.lxor (Z.shiftr c 1) poly else Z.shiftr c 1.

Definition crc_bits (n : nat) (c : Z) : Z := Nat.iter n crc_bit c.
#[local] Arguments crc_bits : simpl never.

Definition crc_ref (crc : Z) (bs : bytes) : Z :=
  fold_left (fun c b => crc_bits 8 (Z.lxor c b)) bs crc.

(** ** Linearity *)

Lemma crc_bit_lxor a b : crc_bit (Z.lxor a b) = Z.lxor (crc_bit a) (crc_bit b).
Proof.
  assert (Z.odd (Z.lxor a b) = xorb (Z.odd a) (Z.odd b)) as Ho.
  { rewrite <- !Z.bit0_odd. apply Z.lxor_spec. }
  unfold crc_bit. rewrite Ho, Z.shiftr_lxor.
  destruct (Z.odd a), (Z.odd b); simpl; apply Z.bits_inj'; intros i Hi;
    rewrite ?Z.lxor_spec; by repeat destruct (Z.testbit _ _).
Qed.

Lemma crc_bits_lxor n a b : crc_bits n (Z.lxor a b) = Z.lxor (crc_bits n a) (crc_bits n b).
Proof. induction n as [|n IH]; [done|]. unfold crc_bits in *. simpl. by rewrite IH, crc_bit_lxor. Qed.

Lemma crc_bit_shiftl c k : 0 < k -> crc_bit (Z.shiftl c k) = Z.shiftl c (k - 1).
Proof.
  intros Hk. unfold crc_bit. rewrite <- Z.bit0_odd, Z.shiftl_spec_low by lia.
  rewrite Z.shiftr_shiftl_l by lia. done.
Qed.

Lemma crc_bits_shiftl c n : crc_bits n (Z.shiftl c (Z.of_nat n)) = c.
Proof.
  induction n as [|n IH] in c |- *; [apply Z.shiftl_0_r|].
  unfold crc_bits in *. rewrite Nat.iter_succ_r, crc_bit_shiftl by lia.
  by replace (Z.of_nat (S n) - 1) with (Z.of_nat n) by lia.
Qed.

Lemma crc_bits_add n m c : crc_bits (n + m) c = crc_bits n (crc_bits m c).
Proof. apply Nat.iter_add. Qed.

(** Eight bits at once: the high part moves down, the low byte goes through the table. *)
Lemma crc_bits_split x : crc_bits 8 x = Z.lxor (Z.shiftr x 8) (crc_bits 8 (Z.land x 0xff)).
Proof.
  rewrite <- (crc_bits_shiftl (Z.shiftr x 8) 8) at 1. rewrite <- crc_bits_lxor. f_equal.
  change 0xff with (Z.ones 8). apply Z.bits_inj'. intros i Hi. change (Z.of_nat 8) with 8.
  rewrite Z.lxor_spec, Z.land_spec, Z.testbit_ones_nonneg by lia.
  destruct (Z.ltb_spec i 8).
  - rewrite Z.shiftl_spec_low by lia. by rewrite andb_true_r, xorb_false_l.
  - rewrite Z.shiftl_spec_high, Z.shiftr_spec by lia. rewrite andb_false_r, xorb_false_r. f_equal. lia.
Qed.

(** ** Range and injectivity *)

Lemma byte_uint b : is_byte b -> uint w b.
Proof.
  pose proof poly_width. intros [? Hb]. split; [lia|]. eapply Z.lt_le_trans; [exact Hb|].
  apply Z.pow_le_mono_r; lia.
Qed.

Lemma word_uint a b : is_byte a -> is_byte b -> uint w (a + b * 256).
Proof.
  pose proof poly_width. intros [? Ha] [? Hb]. split; [lia|]. apply Z.lt_le_trans with (2 ^ 16).
  - change (2 ^ 16) with (256 * 256). change (2 ^ 8) with 256 in *. nia.
  - apply Z.pow_le_mono_r; lia.
Qed.

Lemma lxor_uint a b : uint w a -> uint w b -> uint w (Z.lxor a b).
Proof. pose proof poly_width. intros. apply uint_lxor; [lia|done|done]. Qed.

Lemma half_lt c : uint w c -> 0 <= Z.shiftr c 1 < 2 ^ (w - 1).
Proof.
  pose proof poly_width. intros [? Hc]. rewrite Z.shiftr_div_pow2 by lia. change (2 ^ 1) with 2.
  replace w with (1 + (w - 1)) in Hc by lia. rewrite Z.pow_add_r in Hc by lia. change (2 ^ 1) with 2 in Hc.
  split; [apply Z.div_pos; lia|apply Z.div_lt_upper_bound; lia].
Qed.

Lemma crc_bit_uint c : uint w c -> uint w (crc_bit c).
Proof.
  intros Hc. pose proof (half_lt c Hc). pose proof poly_width.
  assert (uint w (Z.shiftr c 1)).
  { split; [lia|]. apply Z.lt_le_trans with (2 ^ (w - 1)); [lia|]. apply Z.pow_le_mono_r; lia. }
  unfold crc_bit. destruct (Z.odd c); [|done]. apply lxor_uint; [done|apply poly_uint].
Qed.

Lemma crc_bits_uint n c : uint w c -> uint w (crc_bits n c).
Proof. intros. induction n; [done|]. by apply crc_bit_uint. Qed.

(** The top bit of the result says whether the input was odd. *)
Lemma crc_bit_top c : uint w c -> Z.testbit (crc_bit c) (w - 1) = Z.odd c.
Proof.
  intros Hc. pose proof (half_lt c Hc). pose proof poly_width.
  assert (Z.testbit (Z.shiftr c 1) (w - 1) = false) as Ht.
  { apply Z.testbit_false; [lia|]. by rewrite Z.div_small. }
  unfold crc_bit. destruct (Z.odd c); [|done]. by rewrite Z.lxor_spec, Ht, poly_top.
Qed.

Lemma crc_bit_zero c : uint w c -> crc_bit c = 0 -> c = 0.
Proof.
  intros Hc H0. pose proof (crc_bit_top c Hc) as Ht. rewrite H0, Z.bits_0 in Ht.
  unfold crc_bit in H0. rewrite <- Ht in H0. rewrite Z.shiftr_div_pow2 in H0 by lia.
  destruct Hc. change (2 ^ 1) with 2 in H0. rewrite (Z.div_mod c 2), H0 by lia.
  rewrite Zmod_odd, <- Ht. done.
Qed.

Lemma crc_bits_zero n c : uint w c -> crc_bits n c = 0 -> c = 0.
Proof.
  intros Hc. induction n as [|n IH]; [done|]. intros H. apply IH.
  apply crc_bit_zero; [by apply crc_bits_uint|done].
Qed.

Lemma crc_bits_inj n a b : uint w a -> uint w b -> crc_bits n a = crc_bits n b -> a = b.
Proof.
  intros Ha Hb H. apply Z.lxor_eq, (crc_bits_zero n); [by apply lxor_uint|].
  by rewrite crc_bits_lxor, H, Z.lxor_nilpotent.
Qed.

Lemma crc_ref_uint crc bs : uint w crc -> all_bytes bs -> uint w (crc_ref crc bs).
Proof.
  intros Hc Hbs. revert crc Hc. induction Hbs as [|b bs Hb _ IH]; intros crc Hc; [done|].
  apply IH, crc_bits_uint, lxor_uint; [done|by apply byte_uint].
Qed.

Lemma crc_ref_app crc bs1 bs2 : crc_ref crc (bs1 ++ bs2) = crc_ref (crc_ref crc bs1) bs2.
Proof. apply fold_left_app. Qed.

Lemma crc_ref_inj bs : forall c c', uint w c -> uint w c' -> all_bytes bs ->
  crc_ref c bs = crc_ref c' bs -> c = c'.
Proof.
  induction bs as [|b bs IH]; intros c c' Hc Hc' Hbs H; [done|]. inversion Hbs; subst.
  assert (uint w b) by by apply byte_uint.
  apply IH in H; [|by apply crc_bits_uint, lxor_uint..|done].
  apply crc_bits_inj in H; [|by apply lxor_uint..].
  apply (f_equal (fun x => Z.lxor x b)) in H.
  by rewrite !Z.lxor_assoc, Z.lxor_nilpotent, !Z.lxor_0_r in H.
Qed.

(** ** Bursts *)

(** Two bytes are absorbed like one 16-bit word. *)
Lemma crc_ref_two c x y : crc_ref c [x; y] = crc_bits 16 (Z.lxor c (Z.lxor x (Z.shiftl y 8))).
Proof.
  unfold crc_ref. cbn [fold_left]. rewrite (crc_bits_add 8 8).
  pose proof (crc_bits_shiftl y 8) as Hy. change (Z.of_nat 8) with 8 in Hy.
  by rewrite <- Z.lxor_assoc, (crc_bits_lxor 8 (Z.lxor c x)), Hy.
Qed.

Lemma two_bytes_word x y : is_byte x -> is_byte y -> Z.lxor x (Z.shiftl y 8) = x + y * 256.
Proof.
  intros Hx Hy. rewrite Z.lxor_lor; [by rewrite (lor_add_shiftl y x 8) by (done || lia)|].
  apply Z.bits_inj'. intros i Hi. rewrite Z.land_spec, Z.bits_0.
  destruct (decide (i < 8)); [by rewrite Z.shiftl_spec_low, andb_false_r by lia|].
  rewrite <- (wrap_small 8 x Hx), testbit_wrap by lia. by destruct (Z.ltb_spec i 8); [lia|].
Qed.

Lemma crc_ref_burst crc pre x y x' y' post :
  uint w crc -> all_bytes (pre ++ [x; y] ++ post) -> all_bytes [x'; y'] -> [x; y] <> [x'; y'] ->
  crc_ref crc (pre ++ [x; y] ++ post) <> crc_ref crc (pre ++ [x'; y'] ++ post).
Proof.
  intros Hc Hall Hxy' Hne Heq. apply Forall_app in Hall as [Hpre [Hxy Hpost]%Forall_app].
  rewrite !crc_ref_app in Heq.
  assert (uint w (crc_ref crc pre)) as Hp by by apply crc_ref_uint.
  apply crc_ref_inj in Heq; [|by apply crc_ref_uint..|done].
  rewrite !crc_ref_two in Heq. decompose_Forall_hyps.
  rewrite !two_bytes_word in Heq by done.
  apply crc_bits_inj in Heq; [|apply lxor_uint; [done|by apply word_uint]..].
  apply (f_equal (Z.lxor (crc_ref crc pre))) in Heq.
  rewrite <- !Z.lxor_assoc, Z.lxor_nilpotent, !Z.lxor_0_l in Heq.
  apply Hne. unfold is_byte, uint in *. simpl in *. do 2 f_equal; [|f_equal]; lia.
Qed.

(** ** The table routine *)

(** A table of the remainders of all bytes. *)
Definition crc_table (table : list Z) : Prop :=
  forall n, (n < 256)%nat -> table !! n = Some (crc_bits 8 (Z.of_nat n)).

(** The step of a table routine for one byte. *)
Lemma table_step table crc b :
  crc_table table -> uint w crc -> is_byte b ->
  exists t, table !! Z.to_nat (Z.land (Z.lxor crc b) 0xff) = Some t /\
    Z.lxor (Z.shiftr crc 8) t = crc_bits 8 (Z.lxor crc b) /\ uint w (crc_bits 8 (Z.lxor crc b)).
Proof.
  intros Ht Hc Hb. assert (0 <= Z.land (Z.lxor crc b) 0xff < 256) as Hm.
  { change 0xff with (Z.ones 8). rewrite Z.land_ones by lia. apply Z.mod_pos_bound. lia. }
  exists (crc_bits 8 (Z.land (Z.lxor crc b) 0xff)). split; [|split].
  - rewrite Ht by lia. by rewrite Z2Nat.id by lia.
  - rewrite (crc_bits_split (Z.lxor crc b)). f_equal. destruct Hb.
    rewrite Z.shiftr_lxor, (Z.shiftr_div_pow2 b), (Z.div_small b), Z.lxor_0_r by (done || lia). done.
  - apply crc_bits_uint, lxor_uint; [done|by apply byte_uint].
Qed.

End crc.

#[global] Arguments crc_bits : simpl never.

End CrcBits.
