(* ===== verification/Crc16.v ===== *)
(** libmariadb/ob_protocol20.c, lines 29 to 306: the CRC-16 of the packet headers.

    The table-driven routine of the source is proved equal to the bit-by-bit
    division by the polynomial (reflected form 0xA001), and shown to detect every
    change that is confined to two adjacent bytes. *)

From stdpp Require Import tactics.
From S2P Require Import Prelude CrcBits.
Import CrcBits.

Module Crc16.

Definition ob_crc16_table : list Z :=
  [0x0000; 0xc0c1; 0xc181; 0x0140; 0xc301; 0x03c0; 0x0280; 0xc241;
   0xc601; 0x06c0; 0x0780; 0xc741; 0x0500; 0xc5c1; 0xc481; 0x0440;
   0xcc01; 0x0cc0; 0x0d80; 0xcd41; 0x0f00; 0xcfc1; 0xce81; 0x0e40;
   0x0a00; 0xcac1; 0xcb81; 0x0b40; 0xc901; 0x09c0; 0x0880; 0xc841;
   0xd801; 0x18c0; 0x1980; 0xd941; 0x1b00; 0xdbc1; 0xda81; 0x1a40;
   0x1e00; 0xdec1; 0xdf81; 0x1f40; 0xdd01; 0x1dc0; 0x1c80; 0xdc41;
   0x1400; 0xd4c1; 0xd581; 0x1540; 0xd701; 0x17c0; 0x1680; 0xd641;
   0xd201; 0x12c0; 0x1380; 0xd341; 0x1100; 0xd1c1; 0xd081; 0x1040;
   0xf001; 0x30c0; 0x3180; 0xf141; 0x3300; 0xf3c1; 0xf281; 0x3240;
   0x3600; 0xf6c1; 0xf781; 0x3740; 0xf501; 0x35c0; 0x3480; 0xf441;
   0x3c00; 0xfcc1; 0xfd81; 0x3d40; 0xff01; 0x3fc0; 0x3e80; 0xfe41;
   0xfa01; 0x3ac0; 0x3b80; 0xfb41; 0x3900; 0xf9c1; 0xf881; 0x3840;
   0x2800; 0xe8c1; 0xe981; 0x2940; 0xeb01; 0x2bc0; 0x2a80; 0xea41;
   0xee01; 0x2ec0; 0x2f80; 0xef41; 0x2d00; 0xedc1; 0xec81; 0x2c40;
   0xe401; 0x24c0; 0x2580; 0xe541; 0x2700; 0xe7c1; 0xe681; 0x2640;
   0x2200; 0xe2c1; 0xe381; 0x2340; 0xe101; 0x21c0; 0x2080; 0xe041;
   0xa001; 0x60c0; 0x6180; 0xa141; 0x6300; 0xa3c1; 0xa281; 0x6240;
   0x6600; 0xa6c1; 0xa781; 0x6740; 0xa501; 0x65c0; 0x6480; 0xa441;
   0x6c00; 0xacc1; 0xad81; 0x6d40; 0xaf01; 0x6fc0; 0x6e80; 0xae41;
   0xaa01; 0x6ac0; 0x6b80; 0xab41; 0x6900; 0xa9c1; 0xa881; 0x6840;
   0x7800; 0xb8c1; 0xb981; 0x7940; 0xbb01; 0x7bc0; 0x7a80; 0xba41;
   0xbe01; 0x7ec0; 0x7f80; 0xbf41; 0x7d00; 0xbdc1; 0xbc81; 0x7c40;
   0xb401; 0x74c0; 0x7580; 0xb541; 0x7700; 0xb7c1; 0xb681; 0x7640;
   0x7200; 0xb2c1; 0xb381; 0x7340; 0xb101; 0x71c0; 0x7080; 0xb041;
   0x5000; 0x90c1; 0x9181; 0x5140; 0x9301; 0x53c0; 0x5280; 0x9241;
   0x9601; 0x56c0; 0x5780; 0x9741; 0x5500; 0x95c1; 0x9481; 0x5440;
   0x9c01; 0x5cc0; 0x5d80; 0x9d41; 0x5f00; 0x9fc1; 0x9e81; 0x5e40;
   0x5a00; 0x9ac1; 0x9b81; 0x5b40; 0x9901; 0x59c0; 0x5880; 0x9841;
   0x8801; 0x48c0; 0x4980; 0x8941; 0x4b00; 0x8bc1; 0x8a81; 0x4a40;
   0x4e00; 0x8ec1; 0x8f81; 0x4f40; 0x8d01; 0x4dc0; 0x4c80; 0x8c41;
   0x4400; 0x84c1; 0x8581; 0x4540; 0x8701; 0x47c0; 0x4680; 0x8641;
   0x8201; 0x42c0; 0x4380; 0x8341; 0x4100; 0x81c1; 0x8081; 0x4040].

Definition ob_crc16_byte (crc data : Z) : cres Z :=
  t ← of_option (ob_crc16_table !! Z.to_nat (Z.land (Z.lxor crc data) 0xff));
  Ret (u16 (Z.lxor (Z.shiftr crc 8) t)).

(** [while (len--) crc = ob_crc16_byte(crc, *buffer++)], from [buffer + i]. *)
Fixpoint ob_crc16_loop (crc : Z) (buffer : bytes) (i : Z) (len : nat) : cres Z :=
  match len with
  | O => Ret crc
  | S len' => b ← load buffer i; crc ← ob_crc16_byte crc b; ob_crc16_loop crc buffer (i + 1) len'
  end.

(** A negative length counts down through the whole address space. *)
Definition ob_crc16 (crc : Z) (buffer : bytes) (i len : Z) : cres Z :=
  if len <? 0 then Fault else ob_crc16_loop crc buffer i (Z.to_nat len).

(** The reference is the bit-by-bit division of [CrcBits] by the reversed polynomial
    0xa001. *)
#[export] Instance crc16_poly : CrcPoly 16 0xa001.
Proof. split; [lia|split; simpl; lia|reflexivity]. Qed.

Abbreviation crc_bits := (CrcBits.crc_bits 0xa001).
Abbreviation crc_ref := (CrcBits.crc_ref 0xa001).

Definition crc16_ref_uint := crc_ref_uint (w := 16) 0xa001.
Definition crc16_ref_burst := crc_ref_burst (w := 16) 0xa001.

(** ** The table routine computes the reference *)

Lemma table_ref : crc_table 0xa001 ob_crc16_table.
Proof.
  intros n Hn.
  assert (forallb (fun k => bool_decide (ob_crc16_table !! k = Some (crc_bits 8 (Z.of_nat k))))
            (seq 0 256) = true) as H by (vm_compute; reflexivity).
  rewrite forallb_forall in H. specialize (H n). rewrite bool_decide_eq_true in H.
  apply H, in_seq. lia.
Qed.

Lemma ob_crc16_byte_ref crc b :
  uint 16 crc -> is_byte b -> ob_crc16_byte crc b = Ret (crc_bits 8 (Z.lxor crc b)).
Proof.
  intros Hc Hb. destruct (table_step 0xa001 _ crc b table_ref Hc Hb) as (t & Ht & Heq & Hu).
  unfold ob_crc16_byte. rewrite Ht. cbn [of_option]. rewrite bind_ret, Heq. by rewrite wrap_small.
Qed.

Lemma ob_crc16_loop_ref buffer : forall bs crc i,
  uint 16 crc -> all_bytes bs -> load_bytes buffer i (length bs) = Ret bs ->
  ob_crc16_loop crc buffer i (length bs) = Ret (crc_ref crc bs).
Proof.
  induction bs as [|b bs IH]; intros crc i Hc Hbs Hl; [done|]. simpl in Hl |- *.
  inversion Hbs; subst. apply bind_Ret_inv in Hl as (b' & Hb & Hl).
  apply bind_Ret_inv in Hl as (bs' & Hbs' & [= -> ->]).
  rewrite Hb, bind_ret, ob_crc16_byte_ref, bind_ret by done.
  apply IH; [|done|done]. destruct (table_step 0xa001 _ crc b table_ref Hc) as (? & _ & _ & Hu); done.
Qed.

Lemma ob_crc16_range crc buffer i n bs :
  uint 16 crc -> all_bytes bs -> n = Z.of_nat (length bs) -> load_bytes buffer i (length bs) = Ret bs ->
  ob_crc16 crc buffer i n = Ret (crc_ref crc bs).
Proof.
  intros Hc Hbs -> Hl. unfold ob_crc16. destruct (Z.ltb_spec (Z.of_nat (length bs)) 0); [lia|].
  rewrite Nat2Z.id. by apply ob_crc16_loop_ref.
Qed.

(** C25: on any readable range of bytes the table-driven checksum returns, without
    leaving the range, the remainder that bit-by-bit division by the polynomial
    gives. *)
Theorem ob_crc16_correct crc buffer i bs :
  uint 16 crc -> all_bytes bs -> load_bytes buffer i (length bs) = Ret bs ->
  ob_crc16 crc buffer i (Z.of_nat (length bs)) = Ret (crc_ref crc bs) /\ uint 16 (crc_ref crc bs).
Proof.
  intros Hc Hbs Hl. split; [by apply ob_crc16_range|by apply crc16_ref_uint].
Qed.

Lemma ob_crc16_correct_witness :
  ob_crc16 0 [9; 49; 50; 51; 9] 1 3 = Ret (crc_ref 0 [49; 50; 51]).
Proof.
  apply (ob_crc16_correct 0 [9; 49; 50; 51; 9] 1 [49; 50; 51]);
    [unfold uint; simpl; lia| |reflexivity].
  repeat constructor; simpl; lia.
Defined.

(** ** Error detection *)

Lemma ob_crc16_whole crc bs :
  uint 16 crc -> all_bytes bs -> ob_crc16 crc bs 0 (Z.of_nat (length bs)) = Ret (crc_ref crc bs).
Proof.
  intros Hc Hbs. apply ob_crc16_range; [done..|].
  rewrite load_bytes_in by (split; lia). by rewrite drop_0, take_ge.
Qed.

(** The checksum tells apart any two messages that differ only in two adjacent
    bytes (so also in a single byte, and by any burst of at most nine bits). *)
Theorem crc_detects_burst crc pre x y x' y' post :
  uint 16 crc -> all_bytes (pre ++ [x; y] ++ post) -> all_bytes [x'; y'] -> [x; y] <> [x'; y'] ->
  exists c c',
    ob_crc16 crc (pre ++ [x; y] ++ post) 0 (Z.of_nat (length (pre ++ [x; y] ++ post))) = Ret c /\
    ob_crc16 crc (pre ++ [x'; y'] ++ post) 0 (Z.of_nat (length (pre ++ [x'; y'] ++ post))) = Ret c' /\
    c <> c'.
Proof.
  intros Hc Hall Hxy' Hne. pose proof Hall as [Hpre [Hxy Hpost]%Forall_app]%Forall_app.
  exists (crc_ref crc (pre ++ [x; y] ++ post)), (crc_ref crc (pre ++ [x'; y'] ++ post)).
  split_and!; [by apply ob_crc16_whole| |by apply crc16_ref_burst].
  apply ob_crc16_whole; [done|]. by rewrite !Forall_app.
Qed.

Lemma crc_detects_burst_witness :
  exists c c', ob_crc16 0 [1; 2; 3; 4] 0 4 = Ret c /\ ob_crc16 0 [1; 2; 7; 4] 0 4 = Ret c' /\ c <> c'.
Proof.
  destruct (crc_detects_burst 0 [1] 2 3 2 7 [4]) as (c & c' & H1 & H2 & H3);
    [unfold uint; simpl; lia|repeat constructor; simpl; lia|repeat constructor; simpl; lia|done|].
  exists c, c'. split; [exact H1|]. split; [exact H2|exact H3].
Defined.

End Crc16.
