(* ===== verification/Crc32.v ===== *)
(** libmariadb/mariadb_stmt.c, lines 4476 to 4583: the CRC-32C of packet payloads and
    statement texts, in the portable form (crc64_sse42_manually); on x86 processors
    with SSE 4.2 the dispatcher takes the crc32 instruction instead, which is defined
    by the same polynomial.

    The routine is proved equal to the bit-by-bit division by the reversed polynomial
    0x82f63b78. *)

From stdpp Require Import tactics.
From S2P Require Import Prelude CrcBits.
Import CrcBits.

Module Crc32.

Definition crc32tab : list Z :=
  [ 0x00000000; 0xf26b8303; 0xe13b70f7; 0x1350f3f4; 0xc79a971f; 0x35f1141c; 0x26a1e7e8; 0xd4ca64eb;
   0x8ad958cf; 0x78b2dbcc; 0x6be22838; 0x9989ab3b; 0x4d43cfd0; 0xbf284cd3; 0xac78bf27; 0x5e133c24;
   0x105ec76f; 0xe235446c; 0xf165b798; 0x030e349b; 0xd7c45070; 0x25afd373; 0x36ff2087; 0xc494a384;
   0x9a879fa0; 0x68ec1ca3; 0x7bbcef57; 0x89d76c54; 0x5d1d08bf; 0xaf768bbc; 0xbc267848; 0x4e4dfb4b;
   0x20bd8ede; 0xd2d60ddd; 0xc186fe29; 0x33ed7d2a; 0xe72719c1; 0x154c9ac2; 0x061c6936; 0xf477ea35;
   0xaa64d611; 0x580f5512; 0x4b5fa6e6; 0xb93425e5; 0x6dfe410e; 0x9f95c20d; 0x8cc531f9; 0x7eaeb2fa;
   0x30e349b1; 0xc288cab2; 0xd1d83946; 0x23b3ba45; 0xf779deae; 0x05125dad; 0x1642ae59; 0xe4292d5a;
   0xba3a117e; 0x4851927d; 0x5b016189; 0xa96ae28a; 0x7da08661; 0x8fcb0562; 0x9c9bf696; 0x6ef07595;
   0x417b1dbc; 0xb3109ebf; 0xa0406d4b; 0x522bee48; 0x86e18aa3; 0x748a09a0; 0x67dafa54; 0x95b17957;
   0xcba24573; 0x39c9c670; 0x2a993584; 0xd8f2b687; 0x0c38d26c; 0xfe53516f; 0xed03a29b; 0x1f682198;
   0x5125dad3; 0xa34e59d0; 0xb01eaa24; 0x42752927; 0x96bf4dcc; 0x64d4cecf; 0x77843d3b; 0x85efbe38;
   0xdbfc821c; 0x2997011f; 0x3ac7f2eb; 0xc8ac71e8; 0x1c661503; 0xee0d9600; 0xfd5d65f4; 0x0f36e6f7;
   0x61c69362; 0x93ad1061; 0x80fde395; 0x72966096; 0xa65c047d; 0x5437877e; 0x4767748a; 0xb50cf789;
   0xeb1fcbad; 0x197448ae; 0x0a24bb5a; 0xf84f3859; 0x2c855cb2; 0xdeeedfb1; 0xcdbe2c45; 0x3fd5af46;
   0x7198540d; 0x83f3d70e; 0x90a324fa; 0x62c8a7f9; 0xb602c312; 0x44694011; 0x5739b3e5; 0xa55230e6;
   0xfb410cc2; 0x092a8fc1; 0x1a7a7c35; 0xe811ff36; 0x3cdb9bdd; 0xceb018de; 0xdde0eb2a; 0x2f8b6829;
   0x82f63b78; 0x709db87b; 0x63cd4b8f; 0x91a6c88c; 0x456cac67; 0xb7072f64; 0xa457dc90; 0x563c5f93;
   0x082f63b7; 0xfa44e0b4; 0xe9141340; 0x1b7f9043; 0xcfb5f4a8; 0x3dde77ab; 0x2e8e845f; 0xdce5075c;
   0x92a8fc17; 0x60c37f14; 0x73938ce0; 0x81f80fe3; 0x55326b08; 0xa759e80b; 0xb4091bff; 0x466298fc;
   0x1871a4d8; 0xea1a27db; 0xf94ad42f; 0x0b21572c; 0xdfeb33c7; 0x2d80b0c4; 0x3ed04330; 0xccbbc033;
   0xa24bb5a6; 0x502036a5; 0x4370c551; 0xb11b4652; 0x65d122b9; 0x97baa1ba; 0x84ea524e; 0x7681d14d;
   0x2892ed69; 0xdaf96e6a; 0xc9a99d9e; 0x3bc21e9d; 0xef087a76; 0x1d63f975; 0x0e330a81; 0xfc588982;
   0xb21572c9; 0x407ef1ca; 0x532e023e; 0xa145813d; 0x758fe5d6; 0x87e466d5; 0x94b49521; 0x66df1622;
   0x38cc2a06; 0xcaa7a905; 0xd9f75af1; 0x2b9cd9f2; 0xff56bd19; 0x0d3d3e1a; 0x1e6dcdee; 0xec064eed;
   0xc38d26c4; 0x31e6a5c7; 0x22b65633; 0xd0ddd530; 0x0417b1db; 0xf67c32d8; 0xe52cc12c; 0x1747422f;
   0x49547e0b; 0xbb3ffd08; 0xa86f0efc; 0x5a048dff; 0x8ecee914; 0x7ca56a17; 0x6ff599e3; 0x9d9e1ae0;
   0xd3d3e1ab; 0x21b862a8; 0x32e8915c; 0xc083125f; 0x144976b4; 0xe622f5b7; 0xf5720643; 0x07198540;
   0x590ab964; 0xab613a67; 0xb831c993; 0x4a5a4a90; 0x9e902e7b; 0x6cfbad78; 0x7fab5e8c; 0x8dc0dd8f;
   0xe330a81a; 0x115b2b19; 0x020bd8ed; 0xf0605bee; 0x24aa3f05; 0xd6c1bc06; 0xc5914ff2; 0x37faccf1;
   0x69e9f0d5; 0x9b8273d6; 0x88d28022; 0x7ab90321; 0xae7367ca; 0x5c18e4c9; 0x4f48173d; 0xbd23943e;
   0xf36e6f75; 0x0105ec76; 0x12551f82; 0xe03e9c81; 0x34f4f86a; 0xc69f7b69; 0xd5cf889d; 0x27a40b9e;
   0x79b737ba; 0x8bdcb4b9; 0x988c474d; 0x6ae7c44e; 0xbe2da0a5; 0x4c4623a6; 0x5f16d052; 0xad7d5351 ].

(** The index uses a (signed) [char]; the accumulator has 64 bits. *)
Definition crc64_byte (crc b : Z) : cres Z :=
  t ← of_option (crc32tab !! Z.to_nat (Z.land (Z.lxor crc (s8 b)) 0xff));
  Ret (Z.lxor t (Z.shiftr crc 8)).

(** [for (i = 0; i < len; ++i)], from [buf + i]. *)
Fixpoint crc64_loop (crc : Z) (buf : bytes) (i : Z) (len : nat) : cres Z :=
  match len with
  | O => Ret crc
  | S len' => b ← load buf i; crc ← crc64_byte crc b; crc64_loop crc buf (i + 1) len'
  end.

Definition crc64_sse42_manually (crc : Z) (buf : bytes) (i len : Z) : cres Z :=
  crc64_loop crc buf i (Z.to_nat len).

Definition ob_crc32 (crc : Z) (buf : bytes) (i len : Z) : cres Z :=
  crc64 ← crc64_sse42_manually crc buf i len;
  Ret (Z.land crc64 0xffffffff).

Definition ob_crc64 (crc : Z) (buf : bytes) (i len : Z) : cres Z := crc64_sse42_manually crc buf i len.

(** * Correctness *)

#[export] Instance crc32_poly : CrcPoly 32 0x82f63b78.
Proof. split; [lia|split; simpl; lia|reflexivity]. Qed.

Abbreviation crc32_bits := (CrcBits.crc_bits 0x82f63b78).
Abbreviation crc32_ref := (CrcBits.crc_ref 0x82f63b78).

Lemma crc32_table : crc_table 0x82f63b78 crc32tab.
Proof.
  intros n Hn.
  assert (forallb (fun k => bool_decide (crc32tab !! k = Some (crc32_bits 8 (Z.of_nat k))))
            (seq 0 256) = true) as H by (vm_compute; reflexivity).
  rewrite forallb_forall in H. specialize (H n). rewrite bool_decide_eq_true in H.
  apply H, in_seq. lia.
Qed.

(** The sign of the character does not reach the index. *)
Lemma index_unsigned crc b : Z.land (Z.lxor crc (s8 b)) 0xff = Z.land (Z.lxor crc b) 0xff.
Proof.
  change 0xff with (Z.ones 8). rewrite !Z.land_ones by lia. fold (wrap 8 (Z.lxor crc (s8 b))) (wrap 8 (Z.lxor crc b)).
  apply Z.bits_inj'. intros i Hi. rewrite !testbit_wrap, !Z.lxor_spec by lia.
  destruct (Z.ltb_spec i 8); [|done]. rewrite !andb_true_l. f_equal.
  pose proof (f_equal (fun z => Z.testbit z i) (wrap_swrap 8 b ltac:(lia))) as E. simpl in E.
  rewrite !testbit_wrap in E by lia. destruct (Z.ltb_spec i 8); [done|lia].
Qed.

Lemma crc64_byte_ref crc b :
  uint 32 crc -> is_byte b ->
  crc64_byte crc b = Ret (crc32_bits 8 (Z.lxor crc b)) /\ uint 32 (crc32_bits 8 (Z.lxor crc b)).
Proof.
  intros Hc Hb. destruct (table_step 0x82f63b78 _ crc b crc32_table Hc Hb) as (t & Ht & Heq & Hu).
  split; [|done]. unfold crc64_byte. rewrite index_unsigned, Ht. cbn [of_option].
  by rewrite bind_ret, Z.lxor_comm, Heq.
Qed.

Lemma crc64_loop_ref buffer : forall bs crc i,
  uint 32 crc -> all_bytes bs -> load_bytes buffer i (length bs) = Ret bs ->
  crc64_loop crc buffer i (length bs) = Ret (crc32_ref crc bs) /\ uint 32 (crc32_ref crc bs).
Proof.
  induction bs as [|b bs IH]; intros crc i Hc Hbs Hl; [done|]. cbn [length load_bytes crc64_loop] in Hl |- *.
  apply Forall_cons in Hbs as [Hb Hbs]. apply bind_Ret_inv in Hl as (b' & Hb' & Hl).
  apply bind_Ret_inv in Hl as (bs' & Hbs' & [= -> ->]).
  destruct (crc64_byte_ref crc b Hc Hb) as [E Hu]. rewrite Hb', bind_ret, E, bind_ret. by apply IH.
Qed.

Lemma ob_crc32_range crc buffer i n bs :
  uint 32 crc -> all_bytes bs -> n = Z.of_nat (length bs) -> load_bytes buffer i (length bs) = Ret bs ->
  ob_crc32 crc buffer i n = Ret (crc32_ref crc bs).
Proof.
  intros Hc Hbs -> Hl. unfold ob_crc32, crc64_sse42_manually. rewrite Nat2Z.id.
  destruct (crc64_loop_ref buffer bs crc i Hc Hbs Hl) as [-> Hu]. rewrite bind_ret.
  change 0xffffffff with (Z.ones 32). rewrite Z.land_ones by lia. f_equal. by apply wrap_small.
Qed.

Lemma crc32_ref_uint crc bs : uint 32 crc -> all_bytes bs -> uint 32 (crc32_ref crc bs).
Proof. apply (crc_ref_uint (w := 32)); exact _. Qed.

(** C26: on any readable range of bytes the payload checksum is the remainder that
    bit-by-bit division by the Castagnoli polynomial gives, whatever the sign of the
    characters, and the 64-bit accumulator never leaves 32 bits. *)
Theorem ob_crc32_correct crc buffer i bs :
  uint 32 crc -> all_bytes bs -> load_bytes buffer i (length bs) = Ret bs ->
  ob_crc32 crc buffer i (Z.of_nat (length bs)) = Ret (crc32_ref crc bs) /\
  ob_crc64 crc buffer i (Z.of_nat (length bs)) = Ret (crc32_ref crc bs) /\ uint 32 (crc32_ref crc bs).
Proof.
  intros Hc Hbs Hl. destruct (crc64_loop_ref buffer bs crc i Hc Hbs Hl) as [E Hu].
  split; [by apply ob_crc32_range|]. split; [|done].
  unfold ob_crc64, crc64_sse42_manually. by rewrite Nat2Z.id.
Qed.

Lemma ob_crc32_correct_witness :
  ob_crc32 0 [9; 200; 50; 51; 9] 1 3 = Ret (crc32_ref 0 [200; 50; 51]).
Proof.
  apply (ob_crc32_correct 0 [9; 200; 50; 51; 9] 1 [200; 50; 51]);
    [split; simpl; lia|repeat constructor; simpl; lia|reflexivity].
Defined.

End Crc32.
