(* ===== verification/Uuid.v ===== *)
(** libmariadb/ob_full_link_trace.c: the random numbers, the identifiers of traces
    and spans, and their text form (flt_get_pct, xorshift128plus, uuid4_init,
    uuid4_generate, serialize_UUID, deserialize_UUID, tostring_OBCLIENT_UUID and the
    UUID_PATTERN of the log lines). *)

From Stdlib Require Import SpecFloat.
From stdpp Require Import tactics.
From S2P Require Import Prelude IntStore Serialize.
Import Serialize.

Module Uuid.

Record OBCLIENT_UUID : Type := UUID { low_ : Z; high_ : Z }.

#[export] Instance uuid_eq_dec : EqDecision OBCLIENT_UUID.
Proof. solve_decision. Defined.

(** The two words of [uuid_random_seed]. *)
Abbreviation seed := (Z * Z)%type.

Definition xorshift128plus (s : seed) : Z * seed :=
  let s1 := s.1 in
  let s0 := s.2 in
  let s1 := Z.lxor s1 (u64 (Z.shiftl s1 23)) in
  let n1 := Z.lxor (Z.lxor (Z.lxor s1 s0) (Z.shiftr s1 18)) (Z.shiftr s0 5) in
  (u64 (n1 + s0), (s0, n1)).

(** [urandom] is what [fread] put into the seed, or None when the device could not
    be opened or gave too few bytes. *)
Definition uuid4_init (urandom : option seed) (s : seed) : Z * seed :=
  match urandom with None => (OB_ERROR, s) | Some r => (OB_SUCCESS, r) end.

(** [now] is the value of [get_current_time_us()]. *)
Definition uuid4_generate (now : Z) (s : seed) : OBCLIENT_UUID * seed :=
  let '(word, s) := xorshift128plus s in (UUID word (u64 now), s).

(** ** Doubles: IEEE binary64, given as bit patterns *)

Definition double_of_bits (b : Z) : spec_float :=
  let sign := Z.testbit b 63 in
  let e := Z.land (Z.shiftr b 52) 0x7ff in
  let m := Z.land b (2 ^ 52 - 1) in
  if e =? 0 then match m with Zpos p => S754_finite sign p (-1074) | _ => S754_zero sign end
  else if e =? 0x7ff then (if m =? 0 then S754_infinity sign else S754_nan)
  else match m + 2 ^ 52 with Zpos p => S754_finite sign p (e - 1075) | _ => S754_nan end.

Definition double_of_Z (z : Z) : spec_float := binary_normalize 53 1024 z 0 false.
Definition dbl_le (a b : spec_float) : bool := SFleb a b.

(** [(double)rand64 / UINT64_MAX]; the divisor is converted to double too. *)
Definition flt_get_pct (s : seed) : spec_float * seed :=
  let '(rand64, s) := xorshift128plus s in
  (SFdiv 53 1024 (double_of_Z rand64) (double_of_Z (2 ^ 64 - 1)), s).

(** ** Binary form *)

Definition serialize_UUID (buf : ptr) (buf_len pos : Z) (uuid : OBCLIENT_UUID) : cres enc_result :=
  '(ret, buf, pos) ← encode_i64 buf buf_len pos (s64 (high_ uuid));
  if negb (ret =? OB_SUCCESS) then Ret (ret, buf, pos)
  else encode_i64 buf buf_len pos (s64 (low_ uuid)).

(** Returns (ret, *pos, *uuid). *)
Definition deserialize_UUID (buf : ptr) (buf_len pos : Z) (uuid : OBCLIENT_UUID)
    : cres (Z * Z * OBCLIENT_UUID) :=
  '(ret, pos, high) ← decode_i64 buf buf_len pos (s64 (high_ uuid));
  if negb (ret =? OB_SUCCESS) then Ret (ret, pos, UUID (low_ uuid) (u64 high))
  else
    '(ret, pos, low) ← decode_i64 buf buf_len pos (s64 (low_ uuid));
    Ret (ret, pos, UUID (u64 low) (u64 high)).

(** ** Text form *)

(** The bytes of an ASCII string. *)
Definition str (s : string) : bytes :=
  map (fun c => Z.of_nat (Ascii.nat_of_ascii c)) (String.list_ascii_of_string s).

Definition transfer : bytes := str "0123456789abcdef".

(** [transfer[v >> k & 0xf]] *)
Definition nibble (v k : Z) : Z := default 0 (transfer !! Z.to_nat (Z.land (Z.shiftr v k) 0xf)).

Definition tostring_OBCLIENT_UUID (buf : bytes) (buf_len pos : Z) (src : OBCLIENT_UUID)
    : cres (Z * bytes * Z) :=
  if pos + 37 >? buf_len then Ret (OB_ERROR, buf, pos)
  else
    let h := nibble (high_ src) in
    let l := nibble (low_ src) in
    buf ← store_bytes buf pos
      [h 60; h 56; h 52; h 48; h 44; h 40; h 36; h 32; 45;
       h 28; h 24; h 20; h 16; 45;
       h 12; h 8; h 4; h 0; 45;
       l 60; l 56; l 52; l 48; 45;
       l 44; l 40; l 36; l 32; l 28; l 24; l 20; l 16; l 12; l 8; l 4; l 0];
    buf ← store buf (pos + 36) 0;
    Ret (OB_SUCCESS, buf, pos + 36).

(** The conversion [%n.nlx] of a value below 16^n: exactly n lower-case digits. *)
Fixpoint hex_digits (n : nat) (v : Z) : bytes :=
  match n with O => [] | S n' => nibble v (4 * Z.of_nat n') :: hex_digits n' v end.

(** UUID_PATTERN applied to UUID_TOSTRING(uuid) *)
Definition uuid_pattern (u : OBCLIENT_UUID) : bytes :=
  hex_digits 8 (Z.shiftr (high_ u) 32) ++ [45] ++
  hex_digits 4 (Z.land (Z.shiftr (high_ u) 16) 0xffff) ++ [45] ++
  hex_digits 4 (Z.land (high_ u) 0xffff) ++ [45] ++
  hex_digits 4 (Z.shiftr (low_ u) 48) ++ [45] ++
  hex_digits 12 (Z.land (low_ u) 0xffffffffffff).

(** * The generator *)

Lemma shl_xor_zero d k : 0 < k -> uint 64 d -> d = u64 (Z.shiftl d k) -> d = 0.
Proof.
  intros Hk Hd Heq. apply Z.bits_inj'. intros i Hi. rewrite Z.bits_0. revert i Hi.
  apply (Z_lt_induction (fun i => Z.testbit d i = false)). intros i IH.
  destruct (decide (i < 0)); [by apply Z.testbit_neg_r|].
  rewrite Heq, testbit_wrap, Z.shiftl_spec by lia.
  destruct (decide (i - k < 0)); [rewrite Z.testbit_neg_r by lia; apply andb_false_r|].
  rewrite IH by lia. apply andb_false_r.
Qed.

Lemma shr_xor_zero d k : 0 < k -> 0 <= d -> d = Z.shiftr d k -> d = 0.
Proof.
  intros Hk Hd Heq. rewrite Z.shiftr_div_pow2 in Heq by lia.
  destruct (decide (d = 0)); [done|]. exfalso.
  assert (2 ^ 1 <= 2 ^ k) by (apply Z.pow_le_mono_r; lia).
  pose proof (Z.div_lt d (2 ^ k) ltac:(lia) ltac:(lia)). lia.
Qed.

Lemma xor_shl_inj a b k :
  0 < k -> uint 64 a -> uint 64 b ->
  Z.lxor a (u64 (Z.shiftl a k)) = Z.lxor b (u64 (Z.shiftl b k)) -> a = b.
Proof.
  intros Hk Ha Hb Heq. apply Z.lxor_eq, (shl_xor_zero _ k); [done|by apply uint_lxor|].
  apply Z.bits_inj'. intros i Hi. apply (f_equal (fun z => Z.testbit z i)) in Heq.
  rewrite !Z.lxor_spec, !testbit_wrap, !Z.shiftl_spec, ?Z.lxor_spec in * by lia.
  destruct (i <? 64), (Z.testbit a i), (Z.testbit b i), (Z.testbit a (i - k)), (Z.testbit b (i - k));
    done.
Qed.

Lemma xor_shr_inj a b k :
  0 < k -> 0 <= a -> 0 <= b -> Z.lxor a (Z.shiftr a k) = Z.lxor b (Z.shiftr b k) -> a = b.
Proof.
  intros Hk Ha Hb Heq. apply Z.lxor_eq, (shr_xor_zero _ k); [done|by apply Z.lxor_nonneg|].
  apply Z.bits_inj'. intros i Hi. apply (f_equal (fun z => Z.testbit z i)) in Heq.
  rewrite !Z.lxor_spec, ?Z.shiftr_spec, ?Z.lxor_spec in * by lia.
  destruct (Z.testbit a i), (Z.testbit b i), (Z.testbit a (i + k)), (Z.testbit b (i + k)); done.
Qed.

Definition seed_ok (s : seed) : Prop := uint 64 s.1 /\ uint 64 s.2.

Lemma uint_shiftr w a k : 0 <= k -> uint w a -> uint w (Z.shiftr a k).
Proof.
  intros Hk [Ha1 Ha2]. split; [by apply Z.shiftr_nonneg|].
  rewrite Z.shiftr_div_pow2 by done. eapply Z.le_lt_trans; [|exact Ha2].
  apply Z.div_le_upper_bound; [lia|]. assert (1 <= 2 ^ k) by lia. nia.
Qed.

Lemma xorshift_seed_ok s : seed_ok s -> seed_ok (xorshift128plus s).2.
Proof.
  intros [H1 H2]. split; [done|]. simpl.
  assert (uint 64 (Z.lxor s.1 (u64 (Z.shiftl s.1 23)))) by (apply uint_lxor; [lia|done|apply wrap_uint; lia]).
  apply uint_lxor; [lia| |by apply uint_shiftr].
  apply uint_lxor; [lia| |by apply uint_shiftr]. by apply uint_lxor.
Qed.

Lemma xorshift_state_inj s s' :
  seed_ok s -> seed_ok s' -> (xorshift128plus s).2 = (xorshift128plus s').2 -> s = s'.
Proof.
  destruct s as [a b], s' as [a' b']. intros [Ha Hb] [Ha' Hb']. simpl in *.
  intros [= <- Heq]. f_equal. apply (xor_shl_inj a a' 23); [done..|].
  set (x := Z.lxor a _) in *. set (y := Z.lxor a' _) in *.
  assert (uint 64 x) as Hx by (apply uint_lxor; [lia|done|apply wrap_uint; lia]).
  assert (uint 64 y) as Hy by (apply uint_lxor; [lia|done|apply wrap_uint; lia]).
  apply (xor_shr_inj x y 18); [done|by destruct Hx|by destruct Hy|].
  apply (f_equal (fun z => Z.lxor z (Z.lxor b (Z.shiftr b 5)))) in Heq.
  revert Heq. generalize (Z.shiftr x 18), (Z.shiftr y 18), (Z.shiftr b 5). intros p q r Heq.
  apply Z.bits_inj'. intros i Hi. apply (f_equal (fun z => Z.testbit z i)) in Heq.
  rewrite !Z.lxor_spec in *.
  destruct (Z.testbit x i), (Z.testbit y i), (Z.testbit b i), (Z.testbit p i), (Z.testbit q i),
    (Z.testbit r i); done.
Qed.

(** Each step of the random generator permutes the 128-bit states, so a seed that
    is not all zero never degenerates to the all-zero state, in which the generator
    would return 0 forever. *)
Theorem xorshift_permutes n s s' :
  seed_ok s -> seed_ok s' ->
  let step := fun s => (xorshift128plus s).2 in
  seed_ok (Nat.iter n step s) /\
  (Nat.iter n step s = Nat.iter n step s' -> s = s') /\
  (s <> (0, 0) -> Nat.iter n step s <> (0, 0)).
Proof.
  intros Hs Hs' step.
  assert (forall k s, seed_ok s -> seed_ok (Nat.iter k step s)) as Hok.
  { intros k t Ht. induction k; [done|]. by apply xorshift_seed_ok. }
  assert (forall k s s', seed_ok s -> seed_ok s' ->
    Nat.iter k step s = Nat.iter k step s' -> s = s') as Hinj.
  { induction k as [|k IH]; intros t t' Ht Ht' Heq; [done|]. apply IH; [done..|].
    apply xorshift_state_inj in Heq; eauto. }
  split_and!; [by apply Hok|by apply Hinj|]. intros Hne H0. apply Hne, (Hinj n); [done|done|].
  rewrite H0. clear. induction n as [|n IH]; [done|]. simpl. by rewrite <- IH.
Qed.

Lemma xorshift_permutes_witness :
  Nat.iter 5 (fun s => (xorshift128plus s).2) (1, 2) <> (0, 0).
Proof.
  apply (xorshift_permutes 5 (1, 2) (1, 2)); [| |discriminate];
    split; split; vm_compute; (discriminate || reflexivity).
Defined.

(** * The text form *)

Lemma nibble_shiftr v k j : 0 <= k -> 0 <= j -> nibble (Z.shiftr v k) j = nibble v (k + j).
Proof. intros. unfold nibble. by rewrite Z.shiftr_shiftr by lia. Qed.

Lemma nibble_land v w j : 0 <= j -> j + 4 <= w -> nibble (Z.land v (Z.ones w)) j = nibble v j.
Proof.
  intros Hj Hw. unfold nibble. do 3 f_equal. change 0xf with (Z.ones 4). apply Z.bits_inj'. intros i Hi.
  rewrite !Z.land_spec, !Z.shiftr_spec, Z.land_spec, !Z.testbit_ones_nonneg by lia.
  destruct (Z.ltb_spec i 4), (Z.ltb_spec (i + j) w); rewrite ?andb_true_r, ?andb_false_r; done || lia.
Qed.

Definition uuid_text (src : OBCLIENT_UUID) : bytes :=
  let h := nibble (high_ src) in
  let l := nibble (low_ src) in
  [h 60; h 56; h 52; h 48; h 44; h 40; h 36; h 32; 45;
   h 28; h 24; h 20; h 16; 45; h 12; h 8; h 4; h 0; 45;
   l 60; l 56; l 52; l 48; 45;
   l 44; l 40; l 36; l 32; l 28; l 24; l 20; l 16; l 12; l 8; l 4; l 0].

Lemma uuid_pattern_text u : uuid_pattern u = uuid_text u.
Proof.
  unfold uuid_pattern. change 0xffff with (Z.ones 16). change 0xffffffffffff with (Z.ones 48).
  cbn [hex_digits app]. rewrite !nibble_land by lia. rewrite !nibble_shiftr by lia.
  reflexivity.
Qed.

Lemma nibble_char v k : 48 <= nibble v k <= 57 \/ 97 <= nibble v k <= 102.
Proof.
  unfold nibble. change 0xf with (Z.ones 4). rewrite Z.land_ones by lia.
  pose proof (Z.mod_pos_bound (Z.shiftr v k) (2 ^ 4) ltac:(lia)) as Hm. change (2 ^ 4) with 16 in *.
  assert (Forall (fun c => 48 <= c <= 57 \/ 97 <= c <= 102) transfer) as HF
    by (repeat constructor; vm_compute; intuition discriminate).
  destruct (lookup_lt_is_Some_2 transfer (Z.to_nat (Z.shiftr v k mod 16))) as [c Hc];
    [change (length transfer) with 16%nat; lia|].
  rewrite Hc. simpl. rewrite Forall_lookup in HF. by eapply HF.
Qed.

Lemma nibble_inj v w k : nibble v k = nibble w k -> Z.land (Z.shiftr v k) 0xf = Z.land (Z.shiftr w k) 0xf.
Proof.
  unfold nibble. change 0xf with (Z.ones 4). rewrite !Z.land_ones by lia.
  pose proof (Z.mod_pos_bound (Z.shiftr v k) (2 ^ 4) ltac:(lia)) as Hv.
  pose proof (Z.mod_pos_bound (Z.shiftr w k) (2 ^ 4) ltac:(lia)) as Hw. change (2 ^ 4) with 16 in *.
  generalize dependent (Z.shiftr v k mod 16). generalize dependent (Z.shiftr w k mod 16).
  intros b Hb a Ha Heq.
  assert (NoDup transfer) as Hnd by (apply (bool_decide_unpack _); vm_compute; exact I).
  destruct (lookup_lt_is_Some_2 transfer (Z.to_nat a)) as [c Hc];
    [change (length transfer) with 16%nat; lia|].
  destruct (lookup_lt_is_Some_2 transfer (Z.to_nat b)) as [d Hd];
    [change (length transfer) with 16%nat; lia|].
  rewrite Hc, Hd in Heq. simpl in Heq. subst d.
  pose proof (NoDup_lookup _ _ _ _ Hnd Hc Hd). lia.
Qed.

Lemma nibbles_inj v w :
  uint 64 v -> uint 64 w ->
  (forall j, 0 <= j < 16 -> nibble v (4 * j) = nibble w (4 * j)) -> v = w.
Proof.
  intros Hv Hw Hn. rewrite <- (wrap_small 64 v Hv), <- (wrap_small 64 w Hw).
  apply Z.bits_inj'. intros i Hi. rewrite !testbit_wrap by lia.
  destruct (Z.ltb_spec i 64); [|done]. simpl.
  specialize (Hn (i / 4) ltac:(dlia)). apply nibble_inj in Hn.
  apply (f_equal (fun z => Z.testbit z (i mod 4))) in Hn. change 0xf with (Z.ones 4) in Hn.
  assert (0 <= i mod 4 < 4) by (apply Z.mod_pos_bound; lia).
  rewrite !Z.land_spec, !Z.shiftr_spec, Z.testbit_ones_nonneg in Hn by lia.
  replace (i mod 4 + 4 * (i / 4)) with i in Hn by dlia.
  destruct (Z.ltb_spec (i mod 4) 4); [|lia]. by rewrite !andb_true_r in Hn.
Qed.

Lemma uuid_text_inj u u' :
  uint 64 (high_ u) -> uint 64 (low_ u) -> uint 64 (high_ u') -> uint 64 (low_ u') ->
  uuid_text u = uuid_text u' -> u = u'.
Proof.
  destruct u as [l h], u' as [l' h']. simpl. intros Hh Hl Hh' Hl' [=].
  assert (forall j, 0 <= j < 16 -> j = 0 \/ j = 1 \/ j = 2 \/ j = 3 \/ j = 4 \/ j = 5 \/ j = 6 \/
    j = 7 \/ j = 8 \/ j = 9 \/ j = 10 \/ j = 11 \/ j = 12 \/ j = 13 \/ j = 14 \/ j = 15) as Hcase by lia.
  f_equal; apply nibbles_inj; try done; intros j Hj; apply Hcase in Hj;
    repeat destruct Hj as [->|Hj]; subst; done.
Qed.

Lemma uuid_text_bytes u : all_bytes (uuid_text u ++ [0]).
Proof.
  unfold uuid_text. assert (forall v k, is_byte (nibble v k)) as Hn.
  { intros v k. unfold is_byte, uint. pose proof (nibble_char v k). simpl. lia. }
  simpl. repeat (constructor; [first [apply Hn | unfold is_byte, uint; simpl; lia]|]). constructor.
Qed.

(** With 37 bytes of room the identifier is printed as 36 characters and a NUL,
    in the layout that the log lines print with UUID_PATTERN, and different
    identifiers are printed differently; with less room nothing is written. *)
Theorem tostring_uuid buf buf_len pos u :
  0 <= pos -> buf_len <= Z.of_nat (length buf) ->
  (pos + 37 <= buf_len ->
   tostring_OBCLIENT_UUID buf buf_len pos u =
     Ret (OB_SUCCESS, splice pos (uuid_pattern u ++ [0]) buf, pos + 36)) /\
  (buf_len < pos + 37 -> tostring_OBCLIENT_UUID buf buf_len pos u = Ret (OB_ERROR, buf, pos)) /\
  (forall u', uint 64 (high_ u) -> uint 64 (low_ u) -> uint 64 (high_ u') -> uint 64 (low_ u') ->
     uuid_pattern u = uuid_pattern u' -> u = u').
Proof.
  intros Hp Hl. unfold tostring_OBCLIENT_UUID. rewrite Z.gtb_ltb. split_and!.
  - intros Hr. destruct (Z.ltb_spec buf_len (pos + 37)); [lia|]. cbv zeta.
    pose proof (uuid_text_bytes u) as [Hb _]%Forall_app.
    change [nibble (high_ u) 60; _; _; _; _; _; _; _; _; _; _; _; _; _; _; _; _; _; _; _; _; _; _; _;
            _; _; _; _; _; _; _; _; _; _; _; _] with (uuid_text u).
    rewrite store_bytes_splice by (split; simpl; lia). rewrite bind_ret, map_u8_bytes by done.
    change (store ?m (pos + 36) 0) with (store m (pos + Z.of_nat (length (uuid_text u))) 0).
    rewrite <- (bind_ret_r (store _ _ 0)).
    change (store ?m ?i 0 ≫= Ret) with (store_bytes m i [0]).
    rewrite store_bytes_splice by (split; [lia|]; rewrite length_splice by (split; simpl; lia); simpl; lia).
    rewrite bind_ret, splice_app by (split; simpl; lia). by rewrite uuid_pattern_text.
  - intros Hr. by destruct (Z.ltb_spec buf_len (pos + 37)); [|lia].
  - intros u' H1 H2 H3 H4. rewrite !uuid_pattern_text. by apply uuid_text_inj.
Qed.

Lemma tostring_uuid_witness :
  tostring_OBCLIENT_UUID (repeat 1 40) 40 2 (UUID 5 7) =
    Ret (OB_SUCCESS, splice 2 (uuid_pattern (UUID 5 7) ++ [0]) (repeat 1 40), 38).
Proof. apply (tostring_uuid (repeat 1 40) 40 2 (UUID 5 7)); [lia|simpl; lia|lia]. Defined.

(** * The binary form *)

(** [serialize_UUID] writes both halves, but [deserialize_UUID] reads the first
    half twice: what it returns has the high half in both places, and the position
    has not moved. *)
Theorem deserialize_uuid_halves u u0 mem pos :
  uint 64 (high_ u) -> uint 64 (low_ u) ->
  0 <= pos -> pos + 16 <= Z.of_nat (length mem) < 2 ^ 31 ->
  exists mem',
    serialize_UUID (Some mem) (Z.of_nat (length mem)) pos u = Ret (OB_SUCCESS, Some mem', pos + 16) /\
    length mem' = length mem /\
    deserialize_UUID (Some mem') (Z.of_nat (length mem)) pos u0 =
      Ret (OB_SUCCESS, pos, UUID (high_ u) (high_ u)).
Proof.
  intros Hh Hlo Hp Hm. set (n := Z.of_nat (length mem)) in *.
  assert (forall z, sint 64 (s64 z)) as Hs by (intros; apply swrap_sint; lia).
  exists (splice pos (be8 (s64 (high_ u)) ++ be8 (s64 (low_ u))) mem).
  split_and!.
  - unfold serialize_UUID. rewrite encode_i64_ok, bind_ret by (done || lia).
    change (negb (OB_SUCCESS =? OB_SUCCESS)) with false. cbv iota.
    rewrite encode_i64_ok; [|lia|rewrite length_splice by (split; simpl; lia); lia|lia].
    apply f_equal. f_equal; [do 2 f_equal|lia].
    apply (splice_app pos (be8 (s64 (high_ u))) (be8 (s64 (low_ u)))). split; simpl; lia.
  - apply length_splice. split; simpl; lia.
  - assert (room mem pos (length (be8 (s64 (high_ u)) ++ be8 (s64 (low_ u))))) as Hr
      by (split; simpl; lia).
    apply load_bytes_splice in Hr as Hb. apply load_bytes_app in Hb as [Hb _].
    change (length (be8 (s64 (high_ u)))) with 8%nat in Hb.
    unfold deserialize_UUID. rewrite (decode_i64_ok _ _ _ (s64 (high_ u))), bind_ret by (done || lia).
    change (negb (OB_SUCCESS =? OB_SUCCESS)) with false. cbv iota.
    rewrite (decode_i64_ok _ _ _ (s64 (high_ u))), bind_ret by (done || lia).
    by rewrite wrap_swrap, wrap_small by (done || lia).
Qed.

Lemma deserialize_uuid_halves_witness :
  exists mem', serialize_UUID (Some (repeat 0 20)) 20 3 (UUID 1 2) = Ret (OB_SUCCESS, Some mem', 19) /\
    deserialize_UUID (Some mem') 20 3 (UUID 0 0) = Ret (OB_SUCCESS, 3, UUID 2 2).
Proof.
  destruct (deserialize_uuid_halves (UUID 1 2) (UUID 0 0) (repeat 0 20) 3) as (mem' & H1 & _ & H2);
    [split; simpl; lia|split; simpl; lia|lia|simpl; lia|]. exists mem'. split; [exact H1|exact H2].
Defined.

End Uuid.
