(* ===== verification/TraceText.v ===== *)
(** libmariadb/ob_full_link_trace.c: the text of the log lines, that is the tags of a
    span as JSON (tostring_ObTagCtx and the tag loop of the flush functions) and the
    line format TRACE_PATTERN, with [snprintf] as the source uses it.

    The printers return and stay inside their buffer, and a tag without characters to
    escape is printed as it should be. *)

From stdpp Require Import tactics gmap.
From S2P Require Import Prelude IntStore Serialize MaList FltCodec Uuid.
Import Serialize MaList FltCodec Uuid.

Module TraceText.

Definition MAX_TRACE_LOG_SIZE : Z := 1024.

Record ObTagCtx : Type := Tag { tag_next : loc; tag_type_ : Z; data_ : ptr }.

(** * Printing *)

(** [snprintf(mem + off, n, ...)] where the format yields [text]. *)
Definition snprintf (mem : bytes) (off n : Z) (text : bytes) : cres (bytes * Z) :=
  mem ← (if n =? 0 then Ret mem
         else store_bytes mem off (take (Z.to_nat (n - 1)) text ++ [0]));
  Ret (mem, s32 (Z.of_nat (length text))).

(** The characters of a NUL-terminated string, as [%s] reads them. *)
Fixpoint cstring (m : bytes) : cres bytes :=
  match m with
  | [] => Fault
  | c :: m' => if c =? 0 then Ret [] else r ← cstring m'; Ret (c :: r)
  end.

(** [%ld]; twenty digits are enough for 64 bits. *)
Fixpoint dec_digits (fuel : nat) (n : Z) (acc : bytes) : bytes :=
  match fuel with
  | O => acc
  | S fuel' =>
      let acc := 48 + n mod 10 :: acc in
      if n <? 10 then acc else dec_digits fuel' (n / 10) acc
  end.

Definition print_ld (z : Z) : bytes :=
  if z <? 0 then 45 :: dec_digits 20 (- z) [] else dec_digits 20 z [].

(** A string in double quotes. *)
Definition quoted (s : bytes) : bytes := 34 :: s ++ [34].

(** TRACE_PATTERN "%s}" *)
Definition log_line (trace_id id : OBCLIENT_UUID) (start_ts end_ts : Z) (parent : OBCLIENT_UUID)
    (is_follow : bool) (tags : bytes) : bytes :=
  str "{" ++ quoted (str "trace_id") ++ str ":" ++ quoted (uuid_pattern trace_id) ++
  str "," ++ quoted (str "name") ++ str ":" ++ quoted (str "obclient") ++
  str "," ++ quoted (str "id") ++ str ":" ++ quoted (uuid_pattern id) ++
  str "," ++ quoted (str "start_ts") ++ str ":" ++ print_ld start_ts ++
  str "," ++ quoted (str "end_ts") ++ str ":" ++ print_ld end_ts ++
  str "," ++ quoted (str "parent_id") ++ str ":" ++ quoted (uuid_pattern parent) ++
  str "," ++ quoted (str "is_follow") ++ str ":" ++ (if is_follow then str "true" else str "false") ++
  tags ++ str "}".

(** tag_str *)
Definition tag_str (tag_type : Z) : cres bytes :=
  if tag_type =? 0 then Ret (str "command_name")
  else if tag_type =? 1 then Ret (str "client_host")
  else Fault.

(** The tables [from] and [to]. *)
Definition escape (c : Z) : option bytes :=
  if c =? 34 then Some [92; 34]
  else if c =? 10 then Some [92; 110]
  else if c =? 13 then Some [92; 114]
  else if c =? 92 then Some [92; 92]
  else None.

(** [for (toc = to[i]; *toc; ++toc)] *)
Fixpoint put_escape (buf : bytes) (buf_len tmp_pos ret : Z) (toc : bytes) : cres (bytes * Z * Z) :=
  match toc with
  | [] => Ret (buf, tmp_pos, ret)
  | c :: toc' =>
      if tmp_pos <? buf_len then
        buf ← store buf tmp_pos c; put_escape buf buf_len (tmp_pos + 1) ret toc'
      else put_escape buf buf_len tmp_pos OB_ERROR toc'
  end.

(** [for (; *c; ++c)]; [first] is [c == src->data_]. Returns (buf, tmp_pos, ret). *)
Fixpoint tag_chars (buf : bytes) (buf_len tmp_pos ret : Z) (conv first : bool) (c : bytes)
    : cres (bytes * Z * Z) :=
  match c with
  | [] => Fault
  | ch :: c' =>
      if ch =? 0 then Ret (buf, tmp_pos, ret)
      else
        middle ← (if first then Ret false else nx ← load c' 0; Ret (negb (nx =? 0)));
        '(buf, tmp_pos, ret, conv) ←
          (match (if middle : bool then escape ch else None) with
           | Some toc =>
               '(buf, tmp_pos, ret) ← put_escape buf buf_len tmp_pos ret toc;
               Ret (buf, tmp_pos, ret, true)
           | None => Ret (buf, tmp_pos, ret, conv)
           end);
        '(buf, tmp_pos) ←
          (if negb conv && (tmp_pos <? buf_len) then
             buf ← store buf tmp_pos ch; Ret (buf, tmp_pos + 1)
           else Ret (buf, tmp_pos));
        tag_chars buf buf_len tmp_pos ret conv false c'
  end.

(** Returns (ret, buf, *pos). *)
Definition tostring_ObTagCtx (buf : bytes) (buf_len pos : Z) (src : ObTagCtx) : cres (Z * bytes * Z) :=
  name ← tag_str (tag_type_ src);
  let l := Z.of_nat (length name) in
  let tmp_pos := pos in
  '(buf, tmp_pos, ret) ←
    (if tmp_pos + l + 7 >=? buf_len then
       buf ← store buf (buf_len - 1) 0; Ret (buf, tmp_pos, OB_ERROR)
     else
       buf ← store_bytes buf tmp_pos ([123; 34] ++ name ++ [34; 58; 0]);
       c ← deref (data_ src);
       tag_chars buf buf_len (tmp_pos + l + 4) OB_SUCCESS false true c);
  '(buf, tmp_pos) ←
    (if negb (ret =? OB_SUCCESS) || (tmp_pos + 1 >=? buf_len) then
       buf ← store buf (buf_len - 1) 0; Ret (buf, tmp_pos)
     else
       buf ← store buf tmp_pos 125;
       buf ← store buf (tmp_pos + 1) 0;
       Ret (buf, tmp_pos + 1));
  Ret (ret, buf, if ret =? OB_SUCCESS then tmp_pos else pos).

(** The loop [while (OB_SUCC(ret) && OB_NOT_NULL(tag))] of the flush functions. *)
Fixpoint render_tags (fuel : nat) (ts : gmap loc ObTagCtx) (buf : bytes) (pos ret : Z) (first : bool) (tag : loc)
    : cres (bytes * Z * Z) :=
  if (ret =? OB_SUCCESS) && negb (is_null tag) then
    match fuel with
    | O => OutOfFuel
    | S fuel' =>
        if pos + 10 >=? MAX_TRACE_LOG_SIZE then Ret (buf, pos, OB_ERROR)
        else
          buf ← store buf pos 44;
          let pos := pos + 1 in
          '(buf, pos) ←
            (if first then
               buf ← store_bytes buf pos (quoted (str "tags") ++ str ":[" ++ [0]); Ret (buf, pos + 8)
             else Ret (buf, pos));
          t ← of_option (ts !! tag);
          '(ret, buf, pos) ← tostring_ObTagCtx buf MAX_TRACE_LOG_SIZE pos t;
          render_tags fuel' ts buf pos ret false (tag_next t)
    end
  else Ret (buf, pos, ret).

(** [if (0 != pos) ...]: the closing bracket. *)
Definition close_tags (buf : bytes) (pos : Z) : cres bytes :=
  if pos =? 0 then Ret buf
  else if pos + 1 <? MAX_TRACE_LOG_SIZE then
    buf ← store buf pos 93; store buf (pos + 1) 0
  else
    buf ← store buf (MAX_TRACE_LOG_SIZE - 2) 93; store buf (MAX_TRACE_LOG_SIZE - 1) 0.

(** * Printing stays inside the buffer *)

(** A buffer operation that returns, keeps the buffer's size and a position in it. *)
Definition buf_ok (n : nat) (lo : Z) (r : cres (bytes * Z * Z)) : Prop :=
  exists buf pos ret, r = Ret (buf, pos, ret) /\ length buf = n /\ lo <= pos <= Z.of_nat n.

Lemma store_ok buf i b :
  0 <= i < Z.of_nat (length buf) -> exists buf', store buf i b = Ret buf' /\ length buf' = length buf.
Proof. intros H. rewrite store_in by done. eexists. split; [done|]. by rewrite length_insert. Qed.

Lemma store_bytes_ok buf i bs :
  room buf i (length bs) -> exists buf', store_bytes buf i bs = Ret buf' /\ length buf' = length buf.
Proof.
  intros H. rewrite store_bytes_splice by done. eexists. split; [done|].
  apply length_splice. by rewrite length_map.
Qed.

Lemma put_escape_ok toc : forall buf n pos ret,
  length buf = n -> 0 <= pos <= Z.of_nat n ->
  buf_ok n pos (put_escape buf (Z.of_nat n) pos ret toc).
Proof.
  induction toc as [|c toc IH]; intros buf n pos ret Hn Hp; simpl; [by exists buf, pos, ret; split_and!; done || lia|].
  destruct (Z.ltb_spec pos (Z.of_nat n)); [|by apply IH].
  destruct (store_ok buf pos c) as (buf' & -> & Hl); [lia|]. rewrite bind_ret.
  destruct (IH buf' n (pos + 1) ret) as (b & q & r & -> & ? & ?); [congruence|lia|].
  exists b, q, r. repeat split; try done; lia.
Qed.

Lemma tag_chars_ok data rest : forall buf n pos ret conv first,
  Forall (fun c => 0 < c < 256) data -> length buf = n -> 0 <= pos <= Z.of_nat n ->
  buf_ok n pos (tag_chars buf (Z.of_nat n) pos ret conv first (data ++ 0 :: rest)).
Proof.
  induction data as [|c data IH]; intros buf n pos ret conv first Hd Hn Hp; simpl.
  { exists buf, pos, ret; split_and!; done || lia. }
  inversion Hd as [|? ? Hc Hd']; subst. destruct (Z.eqb_spec c 0); [lia|].
  assert (exists m, (if first then Ret false else nx ← load (data ++ 0 :: rest) 0;
            Ret (negb (nx =? 0))) = Ret m) as [m ->].
  { destruct first; [by eexists|].
    destruct (load_in (data ++ 0 :: rest) 0) as (b & -> & _); [rewrite length_app; simpl; lia|].
    by eexists. }
  rewrite bind_ret.
  assert (exists b q r cv, (match (if m then escape c else None) with
     | Some toc => '(buf, tmp_pos, ret) ← put_escape buf (Z.of_nat (length buf)) pos ret toc;
                   Ret (buf, tmp_pos, ret, true)
     | None => Ret (buf, pos, ret, conv)
     end) = Ret (b, q, r, cv) /\ length b = length buf /\ pos <= q <= Z.of_nat (length buf))
    as (b & q & r & cv & -> & Hb & Hq).
  { destruct (if m then escape c else None) as [toc|]; [|eexists _, _, _, _; split; [done|lia]].
    destruct (put_escape_ok toc buf _ pos ret eq_refl Hp) as (b & q & r & -> & ? & ?).
    eexists _, _, _, _. split; [done|lia]. }
  rewrite bind_ret.
  destruct (negb cv && (q <? Z.of_nat (length buf))) eqn:E.
  - apply andb_true_iff in E as [_ Hlt%Z.ltb_lt].
    destruct (store_ok b q c) as (b' & -> & Hb'); [lia|]. rewrite !bind_ret.
    destruct (IH b' (length buf) (q + 1) r cv false Hd') as (b2 & q2 & r2 & -> & ? & ?); [lia|lia|].
    exists b2, q2, r2. repeat split; lia.
  - rewrite bind_ret.
    destruct (IH b (length buf) q r cv false Hd') as (b2 & q2 & r2 & -> & ? & ?); [lia|lia|].
    exists b2, q2, r2. repeat split; lia.
Qed.

(** A tag that can be printed: a known type and a C string. *)
Definition printable (t : ObTagCtx) : Prop :=
  (tag_type_ t = 0 \/ tag_type_ t = 1) /\ exists chars, is_cstr (data_ t) chars.

Lemma tag_str_ok t : printable t -> exists name, tag_str (tag_type_ t) = Ret name /\ (length name <= 12)%nat.
Proof. intros [[-> | ->] _]; eexists; (split; [done|]); simpl; lia. Qed.

Lemma tostring_tag_ok buf n pos t :
  printable t -> length buf = n -> (1 <= n)%nat -> 0 <= pos <= Z.of_nat n ->
  exists ret buf' pos', tostring_ObTagCtx buf (Z.of_nat n) pos t = Ret (ret, buf', pos') /\
    length buf' = n /\ pos <= pos' <= Z.of_nat n.
Proof.
  intros Ht Hn H1 Hp. destruct (tag_str_ok t Ht) as (name & Hname & Hl).
  destruct Ht as [_ (chars & rest & Hdata & Hch)]. unfold tostring_ObTagCtx.
  rewrite Hname, bind_ret, Hdata. cbv zeta.
  assert (exists b q r, (if pos + Z.of_nat (length name) + 7 >=? Z.of_nat n then
       buf ← store buf (Z.of_nat n - 1) 0; Ret (buf, pos, OB_ERROR)
     else
       buf ← store_bytes buf pos ([123; 34] ++ name ++ [34; 58; 0]);
       c ← deref (Some (chars ++ 0 :: rest));
       tag_chars buf (Z.of_nat n) (pos + Z.of_nat (length name) + 4) OB_SUCCESS false true c) =
     Ret (b, q, r) /\ length b = n /\ pos <= q <= Z.of_nat n) as (b & q & r & -> & Hb & Hq).
  { rewrite Z.geb_leb. destruct (Z.leb_spec (Z.of_nat n) (pos + Z.of_nat (length name) + 7)).
    - destruct (store_ok buf (Z.of_nat n - 1) 0) as (b & -> & ?); [lia|].
      eexists _, _, _. split; [done|lia].
    - destruct (store_bytes_ok buf pos ([123; 34] ++ name ++ [34; 58; 0])) as (b & -> & ?);
        [split; [lia|]; rewrite !length_app; simpl; lia|]. rewrite bind_ret. cbn [deref of_option].
      rewrite bind_ret.
      destruct (tag_chars_ok chars rest b n (pos + Z.of_nat (length name) + 4) OB_SUCCESS false true)
        as (b2 & q & r & -> & ? & ?); [done|lia|lia|].
      eexists _, _, _. split; [done|lia]. }
  rewrite bind_ret. rewrite Z.geb_leb.
  destruct (negb (r =? OB_SUCCESS) || (Z.of_nat n <=? q + 1)) eqn:E.
  - destruct (store_ok b (Z.of_nat n - 1) 0) as (b' & -> & ?); [lia|]. rewrite !bind_ret.
    eexists _, _, _. split; [done|]. split; [lia|]. case_match; lia.
  - apply orb_false_iff in E as [_ Hlt%Z.leb_gt].
    destruct (store_ok b q 125) as (b1 & -> & ?); [lia|]. rewrite bind_ret.
    destruct (store_ok b1 (q + 1) 0) as (b2 & -> & ?); [lia|]. rewrite !bind_ret.
    eexists _, _, _. split; [done|]. split; [lia|]. case_match; lia.
Qed.

(** ** Tag chains *)

(** [tchain ts p l]: from [p] the tags [l] are linked through [next_]. *)
Fixpoint tchain (ts : gmap loc ObTagCtx) (p : loc) (l : list loc) : Prop :=
  match l with
  | [] => p = NULL
  | a :: l' => p = a /\ a <> NULL /\ exists t, ts !! a = Some t /\ tchain ts (tag_next t) l'
  end.

Definition printable_at (ts : gmap loc ObTagCtx) (a : loc) : Prop :=
  exists t, ts !! a = Some t /\ printable t.

Lemma tchain_ext ts ts' l : forall p,
  (forall a, a ∈ l -> ts' !! a = ts !! a) -> tchain ts p l -> tchain ts' p l.
Proof.
  induction l as [|a l IH]; intros p Heq; simpl; [done|].
  intros (-> & Ha & t & Ht & H). split_and!; [done..|]. exists t. split.
  - rewrite Heq; [done|]. by left.
  - apply IH; [|done]. intros b Hb. apply Heq. by right.
Qed.

Lemma tchain_insert ts p l a t : a ∉ l -> tchain ts p l -> tchain (<[a := t]> ts) p l.
Proof. intros Ha. apply tchain_ext. intros b Hb. apply lookup_insert_ne. set_solver. Qed.

Lemma tchain_null ts p l : tchain ts p l -> p = NULL -> l = [].
Proof. destruct l; simpl; [done|]. intros (-> & ? & _) ->. done. Qed.

Lemma render_tags_ok l : forall fuel ts buf pos ret first p,
  tchain ts p l -> Forall (printable_at ts) l -> (length l <= fuel)%nat ->
  length buf = Z.to_nat MAX_TRACE_LOG_SIZE -> 0 <= pos <= MAX_TRACE_LOG_SIZE ->
  exists buf' pos' ret', render_tags fuel ts buf pos ret first p = Ret (buf', pos', ret') /\
    length buf' = length buf /\ pos <= pos' <= MAX_TRACE_LOG_SIZE /\ 
    (pos < pos' \/
     (buf' = buf /\ (l = [] \/ ret <> OB_SUCCESS \/ MAX_TRACE_LOG_SIZE <= pos + 10))).
Proof.
  induction l as [|a l IH]; intros fuel ts buf pos ret first p Hc Hpr Hf Hn Hp.
  { simpl in Hc. subst p. destruct fuel; simpl; rewrite andb_false_r;
      exists buf, pos, ret; split_and!; try done; try lia; by auto. }
  simpl in Hc. destruct Hc as (-> & Ha & t & Ht & Hc). inversion Hpr as [|? ? (t' & Ht' & Hpt) Hpr']; subst.
  simplify_eq. destruct fuel as [|fuel]; [simpl in Hf; lia|]. cbn [render_tags].
  rewrite (is_null_false a Ha), andb_true_r. destruct (Z.eqb_spec ret OB_SUCCESS).
  2: { exists buf, pos, ret; split_and!; try done; try lia; by auto. }
  rewrite Z.geb_leb. unfold MAX_TRACE_LOG_SIZE in *.
  destruct (Z.leb_spec 1024 (pos + 10)); [exists buf, pos, OB_ERROR; split_and!; try done; try lia; by auto|].
  destruct (store_ok buf pos 44) as (b1 & -> & Hb1); [lia|]. rewrite bind_ret. cbv zeta.
  assert (exists b2 q, (if first then
       buf ← store_bytes b1 (pos + 1) (quoted (str "tags") ++ str ":[" ++ [0]); Ret (buf, pos + 1 + 8)
     else Ret (b1, pos + 1)) = Ret (b2, q) /\ length b2 = 1024%nat /\ pos + 1 <= q <= 1023)
    as (b2 & q & -> & Hb2 & Hq).
  { destruct first; [|eexists _, _; split; [done|lia]].
    destruct (store_bytes_ok b1 (pos + 1) (quoted (str "tags") ++ str ":[" ++ [0])) as (b2 & -> & ?);
      [split; [lia|simpl; lia]|]. eexists _, _. split; [done|lia]. }
  rewrite bind_ret, Ht. simpl of_option. rewrite bind_ret.
  destruct (tostring_tag_ok b2 1024 q t Hpt Hb2) as (r & b3 & q3 & E & Hb3 & Hq3); [lia|lia|].
  change (Z.of_nat 1024) with 1024 in E. rewrite E, bind_ret.
  destruct (IH fuel ts b3 q3 r false (tag_next t)) as (b4 & q4 & r4 & -> & ? & ? & _);
    [done|done|simpl in Hf; lia|done|lia|].
  exists b4, q4, r4. split_and!; [done|lia|lia|lia|left; lia].
Qed.

(** ** The text of a tag buffer is a C string *)

Lemma cstring_ok m : 0 ∈ m -> exists s, cstring m = Ret s /\ (length s <= length m)%nat.
Proof.
  induction m as [|c m IH]; [by intros ?%elem_of_nil|]. intros H. simpl.
  destruct (Z.eqb_spec c 0) as [->|Hc]; [exists []; split; [done|simpl; lia]|].
  apply elem_of_cons in H as [H|H]; [congruence|]. destruct (IH H) as (s & -> & ?).
  eexists. split; [done|]. simpl. lia.
Qed.

Lemma store_zero_in buf i buf' : store buf i 0 = Ret buf' -> 0 ∈ buf'.
Proof.
  unfold store. destruct (i <? 0) eqn:E1; [done|]. destruct (_ <=? i) eqn:E2; [done|]. simpl.
  intros [= <-]. apply list_elem_of_lookup. exists (Z.to_nat i). apply list_lookup_insert_eq.
  apply Z.leb_gt in E2. apply Z.ltb_ge in E1. lia.
Qed.

Lemma close_tags_ok buf pos :
  length buf = Z.to_nat MAX_TRACE_LOG_SIZE -> 0 <= pos <= MAX_TRACE_LOG_SIZE ->
  exists buf', close_tags buf pos = Ret buf' /\ length buf' = length buf /\
    (0 ∈ buf' \/ (pos = 0 /\ buf' = buf)).
Proof.
  unfold MAX_TRACE_LOG_SIZE. intros Hn Hp. unfold close_tags, MAX_TRACE_LOG_SIZE.
  destruct (Z.eqb_spec pos 0); [exists buf; by auto|].
  destruct (Z.ltb_spec (pos + 1) 1024).
  - destruct (store_ok buf pos 93) as (b1 & -> & H1); [lia|]. rewrite bind_ret.
    destruct (store_ok b1 (pos + 1) 0) as (b2 & E & H2); [lia|]. rewrite E.
    eexists. split_and!; [done|lia|left; by eapply store_zero_in].
  - destruct (store_ok buf (1024 - 2) 93) as (b1 & -> & H1); [lia|]. rewrite bind_ret.
    destruct (store_ok b1 (1024 - 1) 0) as (b2 & E & H2); [lia|]. rewrite E.
    eexists. split_and!; [done|lia|left; by eapply store_zero_in].
Qed.

(** ** The log line *)

Lemma dec_digits_length fuel : forall n acc, (length (dec_digits fuel n acc) <= fuel + length acc)%nat.
Proof.
  induction fuel as [|fuel IH]; intros n acc; simpl; [done|].
  destruct (n <? 10); simpl; [lia|]. etransitivity; [apply IH|]. simpl. lia.
Qed.

Lemma print_ld_length z : (length (print_ld z) <= 21)%nat.
Proof.
  pose proof (dec_digits_length 20 z []) as H1. pose proof (dec_digits_length 20 (- z) []) as H2.
  unfold print_ld. destruct (z <? 0); rewrite ?length_cons; cbn [length] in *; lia.
Qed.

Lemma uuid_pattern_length u : length (uuid_pattern u) = 36%nat.
Proof. by rewrite uuid_pattern_text. Qed.

Lemma log_line_length tid id st en par fol text :
  (1 <= length (log_line tid id st en par fol text) <= 400 + length text)%nat.
Proof.
  pose proof (print_ld_length st). pose proof (print_ld_length en).
  unfold log_line, quoted. rewrite !length_app. cbn [length]. rewrite !length_app.
  rewrite !uuid_pattern_length.
  destruct fol; repeat match goal with |- context [length (str ?s)] =>
    let n := eval vm_compute in (length (str s)) in change (length (str s)) with n end;
    cbn [length]; lia.
Qed.

Lemma snprintf_ok mem off text :
  length mem = Z.to_nat MAX_TRACE_LOG_SIZE -> 0 <= off < MAX_TRACE_LOG_SIZE ->
  Z.of_nat (length text) < 2 ^ 31 ->
  exists mem', snprintf mem off (u64 (MAX_TRACE_LOG_SIZE - off)) text =
    Ret (mem', Z.of_nat (length text)) /\ length mem' = length mem.
Proof.
  unfold MAX_TRACE_LOG_SIZE. intros Hm Ho Ht. unfold snprintf.
  rewrite wrap_small by (unfold uint; lia). destruct (Z.eqb_spec (1024 - off) 0); [lia|].
  destruct (store_bytes_ok mem off (take (Z.to_nat (1024 - off - 1)) text ++ [0])) as (m & -> & Hl).
  - split; [lia|]. rewrite length_app, length_take. simpl. lia.
  - rewrite bind_ret, swrap_small by (lia || (unfold sint; simpl in *; lia)). by exists m.
Qed.

(** ** Buffers that hold a text *)

(** The characters of a C string. *)
Abbreviation text_byte := (fun c : Z => 0 < c < 256).

Ltac unbind H := repeat match type of H with
  | (_ ≫= _) = Ret _ => let x := fresh "x" in let E := fresh "E" in apply bind_Ret_inv in H as (x & E & H)
  end.

Lemma store_all buf i b buf' : store buf i b = Ret buf' -> all_bytes buf -> all_bytes buf'.
Proof.
  unfold store. destruct (_ || _); [done|]. intros [= <-] H. apply Forall_insert; [done|]. apply wrap_uint. lia.
Qed.

Lemma store_bytes_all bs : forall buf i buf', store_bytes buf i bs = Ret buf' -> all_bytes buf -> all_bytes buf'.
Proof.
  induction bs as [|b bs IH]; intros buf i buf'; cbn [store_bytes]; [by intros [= <-]|]. intros H Hb. unbind H.
  eapply IH; [exact H|]. by eapply store_all.
Qed.

Lemma put_escape_all n toc : forall buf p r buf' p' r',
  put_escape buf n p r toc = Ret (buf', p', r') -> all_bytes buf -> all_bytes buf'.
Proof.
  induction toc as [|c toc IH]; intros buf p r buf' p' r'; cbn [put_escape]; [by intros [= <- _ _]|].
  destruct (p <? n); intros H Hb; [|by eapply IH]. unbind H. eapply IH; [exact H|]. by eapply store_all.
Qed.

Lemma tag_chars_all n cs : forall buf p r conv first buf' p' r',
  tag_chars buf n p r conv first cs = Ret (buf', p', r') -> all_bytes buf -> all_bytes buf'.
Proof.
  induction cs as [|c cs IH]; intros buf p r conv first buf' p' r'; cbn [tag_chars]; [done|].
  destruct (c =? 0); [by intros [= <- _ _]|]. intros H Hb. apply bind_Ret_inv in H as (m & _ & H).
  apply bind_Ret_inv in H as ([[[b1 p1] r1] c1] & E1 & H). apply bind_Ret_inv in H as ([b2 p2] & E2 & H). eapply IH; [exact H|].
  assert (all_bytes b1) as Hb1.
  { destruct (if m then escape c else None); [|by injection E1 as <- _ _ _].
    apply bind_Ret_inv in E1 as ([[b q] e] & E1 & [= <- _ _ _]). by eapply put_escape_all. }
  destruct (_ && _); [|by injection E2 as <- _]. apply bind_Ret_inv in E2 as (b & E2 & [= <- _]). by eapply store_all.
Qed.

Lemma tostring_tag_all buf n pos t r buf' p : tostring_ObTagCtx buf n pos t = Ret (r, buf', p) -> all_bytes buf -> all_bytes buf'.
Proof.
  unfold tostring_ObTagCtx. intros H Hb. apply bind_Ret_inv in H as (name & _ & H). cbv zeta in H.
  apply bind_Ret_inv in H as ([[b1 p1] r1] & E1 & H). apply bind_Ret_inv in H as ([b2 p2] & E2 & [= _ <- _]).
  assert (all_bytes b1) as Hb1.
  { destruct (_ >=? _).
    - apply bind_Ret_inv in E1 as (b & E & [= <- _ _]). by eapply store_all.
    - apply bind_Ret_inv in E1 as (b & E & E1). apply bind_Ret_inv in E1 as (c & _ & E1).
      eapply tag_chars_all; [exact E1|]. by eapply store_bytes_all. }
  destruct (_ || _).
  - apply bind_Ret_inv in E2 as (b & E & [= <- _]). by eapply store_all.
  - apply bind_Ret_inv in E2 as (b & E & E2). apply bind_Ret_inv in E2 as (c & E' & [= <- _]).
    eapply store_all; [exact E'|]. by eapply store_all.
Qed.

Lemma render_tags_all ts fuel : forall buf p r first tag buf' p' r',
  render_tags fuel ts buf p r first tag = Ret (buf', p', r') -> all_bytes buf -> all_bytes buf'.
Proof.
  induction fuel as [|fuel IH]; intros buf p r first tag buf' p' r'; cbn [render_tags];
    (destruct (_ && _); [|by intros [= <- _ _]]); [done|]. destruct (_ >=? _); [by intros [= <- _ _]|].
  intros H Hb. apply bind_Ret_inv in H as (b1 & E1 & H). cbv zeta in H. apply bind_Ret_inv in H as ([b2 p2] & E2 & H).
  apply bind_Ret_inv in H as (t & _ & H). apply bind_Ret_inv in H as ([[r3 b3] p3] & E3 & H). eapply IH; [exact H|].
  eapply tostring_tag_all; [exact E3|]. eapply store_all in E1; [|done].
  destruct first; [|by injection E2 as <- _]. apply bind_Ret_inv in E2 as (b & E2 & [= <- _]). by eapply store_bytes_all.
Qed.

Lemma close_tags_all buf pos buf' : close_tags buf pos = Ret buf' -> all_bytes buf -> all_bytes buf'.
Proof.
  unfold close_tags. destruct (pos =? 0); [by intros [= <-]|].
  destruct (_ <? _); intros H Hb; apply bind_Ret_inv in H as (b & E & H); eapply store_all; [exact H|by eapply store_all|exact H|by eapply store_all].
Qed.

Lemma cstring_text m : forall s, cstring m = Ret s -> all_bytes m -> Forall text_byte s.
Proof.
  induction m as [|c m IH]; intros s; cbn [cstring]; [done|]. destruct (Z.eqb_spec c 0); [intros [= <-]; constructor|].
  intros H [Hc Hm]%Forall_cons. apply bind_Ret_inv in H as (r & E & [= <-]). constructor; [|by apply IH].
  unfold is_byte, uint in Hc. lia.
Qed.

Lemma dec_digits_text fuel : forall n acc, Forall text_byte acc -> Forall text_byte (dec_digits fuel n acc).
Proof.
  induction fuel as [|fuel IH]; intros n acc Ha; cbn [dec_digits]; [done|].
  assert (Forall text_byte (48 + n mod 10 :: acc)) by (constructor; [pose proof (Z.mod_pos_bound n 10); lia|done]).
  destruct (n <? 10); [done|by apply IH].
Qed.

Lemma uuid_pattern_bytes u : Forall text_byte (uuid_pattern u).
Proof.
  rewrite uuid_pattern_text. unfold uuid_text.
  repeat (apply Forall_cons; split; [first [lia|pose proof (nibble_char (high_ u)) as Hh; pose proof (nibble_char (low_ u)) as Hl;
    match goal with |- context [nibble ?v ?k] => destruct (nibble_char v k); lia end]|]). apply Forall_nil. done.
Qed.

Lemma log_line_text tid id st en par fol text : Forall text_byte text -> Forall text_byte (log_line tid id st en par fol text).
Proof.
  intros Ht. assert (forall z, Forall text_byte (print_ld z)) as Hd.
  { intros z. unfold print_ld. destruct (z <? 0); [constructor; [lia|]|]; by apply dec_digits_text. }
  pose proof uuid_pattern_bytes as Hu. unfold log_line, quoted.
  repeat first [done | apply Hd | apply Hu | apply Forall_app; split | apply Forall_cons; split; [lia|] | apply (bool_decide_unpack (Forall text_byte _)); vm_compute; exact I
    | destruct fol].
Qed.

(** The first [off] bytes are text and, behind [first] of them, the text ends with a NUL. *)
Definition holds_text (first : Z) (m : bytes) (off : Z) : Prop :=
  Forall text_byte (take (Z.to_nat off) m) /\
  (first < off -> exists data rest, m = data ++ 0 :: rest /\ Forall text_byte data /\ off <= Z.of_nat (length data)).

Lemma holds_data first data rest off : Forall text_byte data -> 0 <= off <= Z.of_nat (length data) -> holds_text first (data ++ 0 :: rest) off.
Proof.
  intros Hd Ho. split; [|intros _; exists data, rest; split_and!; done || lia].
  rewrite take_app_le by lia. by apply Forall_take.
Qed.

(** Printing behind a text, whether it fits or not. *)
Lemma snprintf_text first mem off text mem' n :
  length mem = Z.to_nat MAX_TRACE_LOG_SIZE -> 0 <= off < MAX_TRACE_LOG_SIZE -> Forall text_byte text -> holds_text first mem off ->
  snprintf mem off (u64 (MAX_TRACE_LOG_SIZE - off)) text = Ret (mem', n) ->
  holds_text first mem' off /\ (off + Z.of_nat (length text) < MAX_TRACE_LOG_SIZE -> holds_text first mem' (off + Z.of_nat (length text))).
Proof.
  unfold MAX_TRACE_LOG_SIZE. intros Hm Ho Ht [Hh _]. unfold snprintf. rewrite wrap_small by (unfold uint; lia).
  destruct (Z.eqb_spec (1024 - off) 0); [lia|]. set (T := take (Z.to_nat (1024 - off - 1)) text).
  assert (length T <= 1023 - Z.to_nat off)%nat as LT by (unfold T; rewrite length_take; lia).
  assert (Forall text_byte T) as HT by (by apply Forall_take).
  assert (all_bytes (T ++ [0])) as Hb.
  { apply Forall_app. split; [eapply Forall_impl; [exact HT|]; unfold is_byte, uint; simpl; lia|repeat constructor; unfold is_byte, uint; simpl; lia]. }
  rewrite store_bytes_splice, bind_ret, map_u8_bytes by (done || (split; [lia|rewrite length_app; simpl; lia])). intros [= <- _].
  unfold splice. rewrite <- app_assoc, app_assoc. cbn [app].
  assert (Forall text_byte (take (Z.to_nat off) mem ++ T)) as Hd by (by apply Forall_app).
  assert (length (take (Z.to_nat off) mem ++ T) = Z.to_nat off + length T)%nat as Ld by (rewrite length_app, length_take; lia).
  split; [apply holds_data; [done|lia]|]. intros Hfit. apply holds_data; [done|]. rewrite Ld. unfold T. rewrite length_take. lia.
Qed.

(** * Tag text *)

(** No character but the first and the last needs an escape. *)
Definition plain (first : bool) (chars : bytes) : Prop :=
  Forall (fun c => escape c = None) (removelast (if first then tail chars else chars)).

Lemma tag_chars_plain chars rest : forall buf n pos first,
  plain first chars -> Forall (fun c => 0 < c < 256) chars ->
  0 <= pos -> pos + Z.of_nat (length chars) <= n -> n <= Z.of_nat (length buf) ->
  tag_chars buf n pos OB_SUCCESS false first (chars ++ 0 :: rest) =
  Ret (splice pos chars buf, pos + Z.of_nat (length chars), OB_SUCCESS).
Proof.
  induction chars as [|c cs IH]; intros buf n pos first Hpl Hch Hp Hn Hl.
  { simpl. by rewrite splice_nil, Z.add_0_r. }
  inversion Hch as [|? ? Hc Hcs]; subst. simpl length in Hn. cbn [app tag_chars].
  destruct (Z.eqb_spec c 0); [lia|].
  assert (exists m, (if first then Ret false else nx ← load (cs ++ 0 :: rest) 0; Ret (negb (nx =? 0))) = Ret m /\
    (if m then escape c else None) = None /\ plain false cs) as (m & Hm & He & Hpl').
  { destruct first; [by exists false|]. destruct cs as [|c' cs]; simpl.
    - exists false. split_and!; [done|done|constructor].
    - inversion Hcs; subst. destruct (Z.eqb_spec c' 0); [lia|]. exists true. unfold plain in *.
      simpl in Hpl. by inversion Hpl; subst. }
  rewrite Hm, bind_ret, He, bind_ret. simpl negb. destruct (Z.ltb_spec pos n); [|lia]. simpl andb. cbv iota.
  assert (is_byte c) by (unfold is_byte, uint; simpl; lia).
  rewrite store_splice1 by (done || (split; lia)). rewrite !bind_ret.
  rewrite IH; [|done|done|lia|lia|rewrite length_splice by (split; simpl; lia); lia].
  rewrite (splice_app pos [c] cs) by (split; simpl; lia).
  do 3 f_equal. simpl length. lia.
Qed.

(** With room for it, a tag whose inner characters need no escaping is printed as
    the JSON object of its name and its data, and the position moves behind it; the
    bytes around it are untouched. *)
Theorem tostring_tag_plain buf n pos t name chars rest :
  tag_str (tag_type_ t) = Ret name -> data_ t = Some (chars ++ 0 :: rest) ->
  Forall (fun c => 0 < c < 256) chars -> plain true chars ->
  0 <= pos -> n <= Z.of_nat (length buf) ->
  pos + Z.of_nat (length name) + 7 < n -> pos + Z.of_nat (length name + length chars) + 5 < n ->
  tostring_ObTagCtx buf n pos t =
    Ret (OB_SUCCESS, splice pos (([123; 34] ++ name ++ [34; 58]) ++ chars ++ [125; 0]) buf,
         pos + Z.of_nat (length name + length chars) + 5).
Proof.
  intros Hname Hdata Hch Hpl Hp Hl H1 H2. unfold tostring_ObTagCtx.
  rewrite Hname, bind_ret, Hdata. cbv zeta. rewrite Z.geb_leb.
  destruct (Z.leb_spec n (pos + Z.of_nat (length name) + 7)); [lia|].
  assert (all_bytes name) as Hnb.
  { destruct (tag_type_ t =? 0) eqn:E0; unfold tag_str in Hname; rewrite E0 in Hname.
    - injection Hname as <-. apply (bool_decide_unpack _). vm_compute. exact I.
    - destruct (tag_type_ t =? 1); [|done]. injection Hname as <-.
      apply (bool_decide_unpack _). vm_compute. exact I. }
  rewrite (store_bytes_splice buf pos) by (split; [lia|]; rewrite !length_app; simpl; lia).
  rewrite bind_ret. cbn [deref of_option]. rewrite bind_ret.
  assert (all_bytes ([123; 34] ++ name ++ [34; 58; 0])) as Hhead.
  { rewrite !Forall_app. split_and!; [|done|]; apply (bool_decide_unpack _); vm_compute; exact I. }
  rewrite map_u8_bytes by done.
  set (head := [123; 34] ++ name ++ [34; 58]).
  assert (length head = (length name + 4)%nat) as Lh by (unfold head; rewrite !length_app; simpl; lia).
  assert ([123; 34] ++ name ++ [34; 58; 0] = head ++ [0]) as -> by (unfold head; by rewrite <- !app_assoc).
  rewrite <- (splice_app pos head [0]) by (rewrite length_app, Lh; split; simpl; lia).
  set (i := pos + Z.of_nat (length head)).
  replace (pos + Z.of_nat (length name) + 4) with i by (unfold i; rewrite Lh; lia).
  set (buf1 := splice i [0] (splice pos head buf)).
  assert (length (splice pos head buf) = length buf) as L1 by (apply length_splice; split; lia).
  assert (length buf1 = length buf) as Lb
    by (unfold buf1; rewrite length_splice; [done|split; rewrite ?L1; simpl; lia]).
  rewrite tag_chars_plain by (done || lia). rewrite bind_ret.
  change (negb (OB_SUCCESS =? OB_SUCCESS)) with false. simpl orb. rewrite Z.geb_leb.
  destruct (Z.leb_spec n (i + Z.of_nat (length chars) + 1)); [lia|].
  assert (length (splice i chars buf1) = length buf) as L2
    by (rewrite length_splice; [done|split; rewrite ?Lb; simpl; lia]).
  rewrite (store_splice1 _ _ 125) by first [split; simpl; lia | split; rewrite ?L2; simpl; lia].
  rewrite bind_ret.
  assert (length (splice (i + Z.of_nat (length chars)) [125] (splice i chars buf1)) = length buf) as L3
    by (rewrite length_splice; [done|split; rewrite ?L2; simpl; lia]).
  rewrite (store_splice1 _ _ 0) by first [split; simpl; lia | split; rewrite ?L3; simpl; lia].
  rewrite !bind_ret.
  change (OB_SUCCESS =? OB_SUCCESS) with true. cbv iota.
  apply f_equal. f_equal; [|unfold i; rewrite Lh; lia]. f_equal.
  rewrite (splice_app (i + Z.of_nat (length chars)) [125] [0]) by (split; rewrite ?L2; simpl; lia).
  rewrite (splice_app i chars [125; 0]) by (split; rewrite ?Lb, ?length_app; simpl; lia).
  unfold buf1. rewrite splice_overwrite;
    [|split; rewrite ?L1, ?length_app; simpl; lia|rewrite length_app; simpl; lia].
  unfold i. by rewrite splice_app by (split; rewrite ?length_app, ?Lh; simpl; lia).
Qed.

Lemma tostring_tag_plain_witness :
  tostring_ObTagCtx (repeat 1 64) 64 3 (Tag 0 0 (Some (quoted (str "q") ++ [0]))) =
    Ret (OB_SUCCESS, splice 3 (([123; 34] ++ str "command_name" ++ [34; 58]) ++ quoted (str "q") ++ [125; 0])
           (repeat 1 64), 23).
Proof.
  apply (tostring_tag_plain (repeat 1 64) 64 3 _ (str "command_name") (quoted (str "q")) []);
    [reflexivity|reflexivity| |repeat constructor|lia|simpl; lia|simpl; lia|simpl; lia].
  repeat constructor.
Defined.

(** After the first character that needs an escape, only escaped characters are
    printed: the flag [conv] is never reset.  Of the query text [a"bc"d] everything
    after the first quote but the second quote is lost. *)
Theorem tag_text_lost :
  tostring_ObTagCtx (repeat 1 64) 64 0 (Tag 0 1 (Some ([97; 34; 98; 99; 34; 100] ++ [0]))) =
    Ret (OB_SUCCESS, splice 0 ([123; 34] ++ str "client_host" ++ [34; 58] ++
           [97; 92; 34; 92; 34] ++ [125; 0]) (repeat 1 64), 21).
Proof. vm_compute. reflexivity. Qed.

End TraceText.
