(* ===== verification/Trace.v ===== *)
(** libmariadb/ob_full_link_trace.c: the trace of a connection, a cache of four spans
    and sixteen tags that commands begin, tag, end, flush to the log buffers and
    recycle (flt_is_vaild, trace_init, begin_trace, end_trace, begin_span, end_span,
    reset_span, append_tag, reset_tag, flush_first_span and flush_trace).

    Spans, tags and list nodes live in the trace allocation; a pointer to one is its
    offset in [data_], and 0 is NULL.  The clock is an argument: [now k] is what the
    k-th call of get_current_time_us returns.  [auto_flush_] and [in_trans_] are kept
    because the code sets them; nothing reads them. *)

From stdpp Require Import tactics gmap.
From S2P Require Import Prelude IntStore Serialize MaList FltCodec Uuid TraceText.
Import Serialize MaList FltCodec Uuid TraceText.

Module Trace.

Definition MAX_FLT_SERIALIZE_SIZE : Z := 2048.
Definition OBTRACE_DEFAULT_BUFFER_SIZE : Z := 5 * 1024.
Definition SPAN_CACHE_COUNT : Z := 4.
Definition TAG_CACHE_COUNT : Z := 16.

(** sizeof on an LP64 platform. *)
Definition sizeof_ObTagCtx : Z := 24.
Definition sizeof_LIST : Z := 24.
Definition sizeof_ObSpanCtx : Z := 64.
Definition sizeof_ObTrace : Z := 184.

Definition TAG_BUFFER_BEGIN : Z := 2 * MAX_TRACE_LOG_SIZE + MAX_FLT_SERIALIZE_SIZE.
Definition SPAN_BUFFER_BEGIN : Z :=
  2 * MAX_TRACE_LOG_SIZE + MAX_FLT_SERIALIZE_SIZE + TAG_CACHE_COUNT * sizeof_ObTagCtx.
Definition INIT_OFFSET : Z := SPAN_BUFFER_BEGIN + SPAN_CACHE_COUNT * (sizeof_LIST + sizeof_ObSpanCtx).

(** RecordPolicy *)
Definition RP_ALL : Z := 1.
Definition RP_ONLY_SLOW_QUERY : Z := 2.
Definition RP_SAMPLE_AND_SLOW_QUERY : Z := 3.
Definition MAX_RECORD_POLICY : Z := 4.

Record ObSpanCtx : Type := Span {
  span_type_ : Z;
  span_uuid : OBCLIENT_UUID;
  source_span_ : loc;
  is_follow_ : bool;
  start_ts_ : Z;
  end_ts_ : Z;
  tags_ : loc }.

(** [free_tag_list_] stands for [free_tag_list_.next_]; the fields [tr_*] are those of
    [ObTrace] whose names other records use too. *)
Record ObTrace : Type := Trace {
  offset_ : Z;
  seq_ : Z;
  tr_enable : bool;
  show_trace_enable_ : bool;
  tr_force_print : bool;
  slow_query_print_ : bool;
  uuid_random_seed : seed;
  tr_id : OBCLIENT_UUID;
  root_span_id_ : OBCLIENT_UUID;
  current_span_list_ : loc;
  free_span_list_ : loc;
  last_active_span_ : loc;
  free_tag_list_ : loc;
  tr_level : Z;
  auto_flush_ : bool;
  log_buf_offset_ : Z;
  log_buf_ : bytes;
  show_trace_buf_offset_ : Z;
  show_trace_buf_ : bytes;
  flt_serialize_buf_ : bytes }.

(** [flt_value_data_] is the pair of [value_data_] and [value_length]. *)
Record FLTInfo : Type := Flt {
  show_trace_span_ : FLTShowTraceSpan;
  flt_client_span : FLTDriverSpanInfo;
  control_info_ : FLTControlInfo;
  app_info_ : FLTAppInfo;
  query_info_ : FLTQueryInfo;
  span_info_ : FLTSpanInfo;
  value_data_ : ptr;
  value_length : Z;
  in_trans_ : bool;
  flt_trace_id : bytes;
  flt_span_id : bytes }.

(** The trace allocation ([None] is a NULL [flt->trace_]), the FLTInfo that
    [trace->flt] points to, the objects, and the number of clock reads so far. *)
Record World : Type := MkWorld {
  the_trace : option ObTrace;
  the_flt : option FLTInfo;
  nodes : heap;
  spans : gmap loc ObSpanCtx;
  tags : gmap loc ObTagCtx;
  ticks : nat }.

Definition set_span_uuid (r : ObSpanCtx) (v : OBCLIENT_UUID) : ObSpanCtx := Span (span_type_ r) v
  (source_span_ r) (is_follow_ r) (start_ts_ r) (end_ts_ r) (tags_ r).
Definition set_end_ts_ (r : ObSpanCtx) (v : Z) : ObSpanCtx := Span (span_type_ r) (span_uuid r)
  (source_span_ r) (is_follow_ r) (start_ts_ r) v (tags_ r).
Definition set_tags_ (r : ObSpanCtx) (v : loc) : ObSpanCtx := Span (span_type_ r) (span_uuid r)
  (source_span_ r) (is_follow_ r) (start_ts_ r) (end_ts_ r) v.

Definition set_offset_ (r : ObTrace) (v : Z) : ObTrace := Trace v (seq_ r) (tr_enable r)
  (show_trace_enable_ r) (tr_force_print r) (slow_query_print_ r) (uuid_random_seed r) (tr_id r)
  (root_span_id_ r) (current_span_list_ r) (free_span_list_ r) (last_active_span_ r) (free_tag_list_
  r) (tr_level r) (auto_flush_ r) (log_buf_offset_ r) (log_buf_ r) (show_trace_buf_offset_ r)
  (show_trace_buf_ r) (flt_serialize_buf_ r).
Definition set_seq_ (r : ObTrace) (v : Z) : ObTrace := Trace (offset_ r) v (tr_enable r)
  (show_trace_enable_ r) (tr_force_print r) (slow_query_print_ r) (uuid_random_seed r) (tr_id r)
  (root_span_id_ r) (current_span_list_ r) (free_span_list_ r) (last_active_span_ r) (free_tag_list_
  r) (tr_level r) (auto_flush_ r) (log_buf_offset_ r) (log_buf_ r) (show_trace_buf_offset_ r)
  (show_trace_buf_ r) (flt_serialize_buf_ r).
Definition set_tr_enable (r : ObTrace) (v : bool) : ObTrace := Trace (offset_ r) (seq_ r) v
  (show_trace_enable_ r) (tr_force_print r) (slow_query_print_ r) (uuid_random_seed r) (tr_id r)
  (root_span_id_ r) (current_span_list_ r) (free_span_list_ r) (last_active_span_ r) (free_tag_list_
  r) (tr_level r) (auto_flush_ r) (log_buf_offset_ r) (log_buf_ r) (show_trace_buf_offset_ r)
  (show_trace_buf_ r) (flt_serialize_buf_ r).
Definition set_show_trace_enable_ (r : ObTrace) (v : bool) : ObTrace := Trace (offset_ r) (seq_ r)
  (tr_enable r) v (tr_force_print r) (slow_query_print_ r) (uuid_random_seed r) (tr_id r)
  (root_span_id_ r) (current_span_list_ r) (free_span_list_ r) (last_active_span_ r) (free_tag_list_
  r) (tr_level r) (auto_flush_ r) (log_buf_offset_ r) (log_buf_ r) (show_trace_buf_offset_ r)
  (show_trace_buf_ r) (flt_serialize_buf_ r).
Definition set_tr_force_print (r : ObTrace) (v : bool) : ObTrace := Trace (offset_ r) (seq_ r)
  (tr_enable r) (show_trace_enable_ r) v (slow_query_print_ r) (uuid_random_seed r) (tr_id r)
  (root_span_id_ r) (current_span_list_ r) (free_span_list_ r) (last_active_span_ r) (free_tag_list_
  r) (tr_level r) (auto_flush_ r) (log_buf_offset_ r) (log_buf_ r) (show_trace_buf_offset_ r)
  (show_trace_buf_ r) (flt_serialize_buf_ r).
Definition set_slow_query_print_ (r : ObTrace) (v : bool) : ObTrace := Trace (offset_ r) (seq_ r)
  (tr_enable r) (show_trace_enable_ r) (tr_force_print r) v (uuid_random_seed r) (tr_id r)
  (root_span_id_ r) (current_span_list_ r) (free_span_list_ r) (last_active_span_ r) (free_tag_list_
  r) (tr_level r) (auto_flush_ r) (log_buf_offset_ r) (log_buf_ r) (show_trace_buf_offset_ r)
  (show_trace_buf_ r) (flt_serialize_buf_ r).
Definition set_uuid_random_seed (r : ObTrace) (v : seed) : ObTrace := Trace (offset_ r) (seq_ r)
  (tr_enable r) (show_trace_enable_ r) (tr_force_print r) (slow_query_print_ r) v (tr_id r)
  (root_span_id_ r) (current_span_list_ r) (free_span_list_ r) (last_active_span_ r) (free_tag_list_
  r) (tr_level r) (auto_flush_ r) (log_buf_offset_ r) (log_buf_ r) (show_trace_buf_offset_ r)
  (show_trace_buf_ r) (flt_serialize_buf_ r).
Definition set_tr_id (r : ObTrace) (v : OBCLIENT_UUID) : ObTrace := Trace (offset_ r) (seq_ r)
  (tr_enable r) (show_trace_enable_ r) (tr_force_print r) (slow_query_print_ r) (uuid_random_seed r) v
  (root_span_id_ r) (current_span_list_ r) (free_span_list_ r) (last_active_span_ r) (free_tag_list_
  r) (tr_level r) (auto_flush_ r) (log_buf_offset_ r) (log_buf_ r) (show_trace_buf_offset_ r)
  (show_trace_buf_ r) (flt_serialize_buf_ r).
Definition set_current_span_list_ (r : ObTrace) (v : loc) : ObTrace := Trace (offset_ r) (seq_ r)
  (tr_enable r) (show_trace_enable_ r) (tr_force_print r) (slow_query_print_ r) (uuid_random_seed r)
  (tr_id r) (root_span_id_ r) v (free_span_list_ r) (last_active_span_ r) (free_tag_list_ r) (tr_level
  r) (auto_flush_ r) (log_buf_offset_ r) (log_buf_ r) (show_trace_buf_offset_ r) (show_trace_buf_ r)
  (flt_serialize_buf_ r).
Definition set_free_span_list_ (r : ObTrace) (v : loc) : ObTrace := Trace (offset_ r) (seq_ r)
  (tr_enable r) (show_trace_enable_ r) (tr_force_print r) (slow_query_print_ r) (uuid_random_seed r)
  (tr_id r) (root_span_id_ r) (current_span_list_ r) v (last_active_span_ r) (free_tag_list_ r)
  (tr_level r) (auto_flush_ r) (log_buf_offset_ r) (log_buf_ r) (show_trace_buf_offset_ r)
  (show_trace_buf_ r) (flt_serialize_buf_ r).
Definition set_last_active_span_ (r : ObTrace) (v : loc) : ObTrace := Trace (offset_ r) (seq_ r)
  (tr_enable r) (show_trace_enable_ r) (tr_force_print r) (slow_query_print_ r) (uuid_random_seed r)
  (tr_id r) (root_span_id_ r) (current_span_list_ r) (free_span_list_ r) v (free_tag_list_ r)
  (tr_level r) (auto_flush_ r) (log_buf_offset_ r) (log_buf_ r) (show_trace_buf_offset_ r)
  (show_trace_buf_ r) (flt_serialize_buf_ r).
Definition set_free_tag_list_ (r : ObTrace) (v : loc) : ObTrace := Trace (offset_ r) (seq_ r)
  (tr_enable r) (show_trace_enable_ r) (tr_force_print r) (slow_query_print_ r) (uuid_random_seed r)
  (tr_id r) (root_span_id_ r) (current_span_list_ r) (free_span_list_ r) (last_active_span_ r) v
  (tr_level r) (auto_flush_ r) (log_buf_offset_ r) (log_buf_ r) (show_trace_buf_offset_ r)
  (show_trace_buf_ r) (flt_serialize_buf_ r).
Definition set_tr_level (r : ObTrace) (v : Z) : ObTrace := Trace (offset_ r) (seq_ r) (tr_enable r)
  (show_trace_enable_ r) (tr_force_print r) (slow_query_print_ r) (uuid_random_seed r) (tr_id r)
  (root_span_id_ r) (current_span_list_ r) (free_span_list_ r) (last_active_span_ r) (free_tag_list_
  r) v (auto_flush_ r) (log_buf_offset_ r) (log_buf_ r) (show_trace_buf_offset_ r) (show_trace_buf_ r)
  (flt_serialize_buf_ r).
Definition set_auto_flush_ (r : ObTrace) (v : bool) : ObTrace := Trace (offset_ r) (seq_ r)
  (tr_enable r) (show_trace_enable_ r) (tr_force_print r) (slow_query_print_ r) (uuid_random_seed r)
  (tr_id r) (root_span_id_ r) (current_span_list_ r) (free_span_list_ r) (last_active_span_ r)
  (free_tag_list_ r) (tr_level r) v (log_buf_offset_ r) (log_buf_ r) (show_trace_buf_offset_ r)
  (show_trace_buf_ r) (flt_serialize_buf_ r).
Definition set_log_buf_offset_ (r : ObTrace) (v : Z) : ObTrace := Trace (offset_ r) (seq_ r)
  (tr_enable r) (show_trace_enable_ r) (tr_force_print r) (slow_query_print_ r) (uuid_random_seed r)
  (tr_id r) (root_span_id_ r) (current_span_list_ r) (free_span_list_ r) (last_active_span_ r)
  (free_tag_list_ r) (tr_level r) (auto_flush_ r) v (log_buf_ r) (show_trace_buf_offset_ r)
  (show_trace_buf_ r) (flt_serialize_buf_ r).
Definition set_log_buf_ (r : ObTrace) (v : bytes) : ObTrace := Trace (offset_ r) (seq_ r) (tr_enable
  r) (show_trace_enable_ r) (tr_force_print r) (slow_query_print_ r) (uuid_random_seed r) (tr_id r)
  (root_span_id_ r) (current_span_list_ r) (free_span_list_ r) (last_active_span_ r) (free_tag_list_
  r) (tr_level r) (auto_flush_ r) (log_buf_offset_ r) v (show_trace_buf_offset_ r) (show_trace_buf_ r)
  (flt_serialize_buf_ r).
Definition set_show_trace_buf_offset_ (r : ObTrace) (v : Z) : ObTrace := Trace (offset_ r) (seq_ r)
  (tr_enable r) (show_trace_enable_ r) (tr_force_print r) (slow_query_print_ r) (uuid_random_seed r)
  (tr_id r) (root_span_id_ r) (current_span_list_ r) (free_span_list_ r) (last_active_span_ r)
  (free_tag_list_ r) (tr_level r) (auto_flush_ r) (log_buf_offset_ r) (log_buf_ r) v (show_trace_buf_
  r) (flt_serialize_buf_ r).
Definition set_show_trace_buf_ (r : ObTrace) (v : bytes) : ObTrace := Trace (offset_ r) (seq_ r)
  (tr_enable r) (show_trace_enable_ r) (tr_force_print r) (slow_query_print_ r) (uuid_random_seed r)
  (tr_id r) (root_span_id_ r) (current_span_list_ r) (free_span_list_ r) (last_active_span_ r)
  (free_tag_list_ r) (tr_level r) (auto_flush_ r) (log_buf_offset_ r) (log_buf_ r)
  (show_trace_buf_offset_ r) v (flt_serialize_buf_ r).
Definition set_flt_serialize_buf_ (r : ObTrace) (v : bytes) : ObTrace := Trace (offset_ r) (seq_ r)
  (tr_enable r) (show_trace_enable_ r) (tr_force_print r) (slow_query_print_ r) (uuid_random_seed r)
  (tr_id r) (root_span_id_ r) (current_span_list_ r) (free_span_list_ r) (last_active_span_ r)
  (free_tag_list_ r) (tr_level r) (auto_flush_ r) (log_buf_offset_ r) (log_buf_ r)
  (show_trace_buf_offset_ r) (show_trace_buf_ r) v.

Definition set_the_trace (r : World) (v : option ObTrace) : World := MkWorld v (the_flt r) (nodes r)
  (spans r) (tags r) (ticks r).
Definition set_the_flt (r : World) (v : option FLTInfo) : World := MkWorld (the_trace r) v (nodes r)
  (spans r) (tags r) (ticks r).
Definition set_nodes (r : World) (v : heap) : World := MkWorld (the_trace r) (the_flt r) v (spans r)
  (tags r) (ticks r).
Definition set_spans (r : World) (v : gmap loc ObSpanCtx) : World := MkWorld (the_trace r) (the_flt
  r) (nodes r) v (tags r) (ticks r).
Definition set_tags (r : World) (v : gmap loc ObTagCtx) : World := MkWorld (the_trace r) (the_flt r)
  (nodes r) (spans r) v (ticks r).
Definition set_ticks (r : World) (v : nat) : World := MkWorld (the_trace r) (the_flt r) (nodes r)
  (spans r) (tags r) v.

(** Accesses through pointers. *)
Definition get_span (w : World) (p : loc) : cres ObSpanCtx := of_option (spans w !! p).
Definition put_span (w : World) (p : loc) (s : ObSpanCtx) : World := set_spans w (<[p := s]> (spans w)).
Definition get_tag (w : World) (p : loc) : cres ObTagCtx := of_option (tags w !! p).
Definition put_tag (w : World) (p : loc) (t : ObTagCtx) : World := set_tags w (<[p := t]> (tags w)).
Definition put_trace (w : World) (t : ObTrace) : World := set_the_trace w (Some t).

(** [list->data] as a pointer to a span. *)
Definition node_span (h : heap) (p : loc) : cres loc := n ← get h p; Ret (Z.to_nat (data n)).

(** * The trace *)

(** flt_is_vaild, for a non-NULL FLTInfo *)
Definition flt_is_vaild (flt : option FLTInfo) : bool :=
  match flt with
  | None => false
  | Some f =>
      let control := control_info_ f in
      let zero := double_of_Z 0 in
      let one := double_of_Z 1 in
      let sample := double_of_bits (sample_pct_ control) in
      let print := double_of_bits (print_sample_pct_ control) in
      (0 <? level_ control) && (dbl_le zero sample && dbl_le sample one) &&
      (rp_ control <? MAX_RECORD_POLICY) && (dbl_le zero print && dbl_le print one)
  end.

Definition zero_uuid : OBCLIENT_UUID := UUID 0 0.
Definition uuid_is_zero (u : OBCLIENT_UUID) : bool := (low_ u =? 0) && (high_ u =? 0).

Section clock.
Context (now : nat -> Z).

Definition get_current_time_us (w : World) : Z * World := (now (ticks w), set_ticks w (S (ticks w))).

Definition begin_trace (w : World) : cres World :=
  match the_trace w with
  | None => Ret w
  | Some trace =>
      let trace :=
        match the_flt w with
        | None => set_show_trace_enable_ (set_tr_enable trace false) false
        | Some flt =>
            if negb (flt_is_vaild (Some flt)) then
              set_show_trace_enable_ (set_tr_enable trace false) false
            else if flt_show_trace_enable_ (control_info_ flt) =? 1 then
              set_show_trace_enable_ (set_tr_enable trace true) true
            else
              let '(trace_pct, s) := flt_get_pct (uuid_random_seed trace) in
              let trace := set_show_trace_enable_ (set_uuid_random_seed trace s) false in
              set_tr_enable trace (dbl_le trace_pct (double_of_bits (sample_pct_ (control_info_ flt))))
        end in
      if tr_enable trace then
        match the_flt w with
        | None => Fault
        | Some flt =>
            let control := control_info_ flt in
            let '(t, w) := get_current_time_us w in
            let '(id, s) := uuid4_generate t (uuid_random_seed trace) in
            let trace := set_uuid_random_seed (set_tr_id trace id) s in
            let trace := set_tr_level trace (Z.land (level_ control) 0x7f) in
            let trace :=
              if flt_show_trace_enable_ control =? 1 then set_tr_force_print trace true
              else if rp_ control =? RP_ALL then set_tr_force_print trace true
              else if rp_ control =? RP_SAMPLE_AND_SLOW_QUERY then
                let '(print_pct, s) := flt_get_pct (uuid_random_seed trace) in
                set_tr_force_print (set_uuid_random_seed trace s)
                  (dbl_le print_pct (double_of_bits (print_sample_pct_ control)))
              else set_tr_force_print trace false in
            Ret (put_trace w trace)
        end
      else
        Ret (put_trace w (set_tr_id (set_tr_force_print (set_tr_level trace 0) false) zero_uuid))
  end.

(** INIT_SPAN(trace, span) *)
Definition init_span (w : World) (trace : ObTrace) (p : loc) : cres (World * ObTrace) :=
  if is_null p then Ret (w, trace)
  else
    s ← get_span w p;
    if high_ (span_uuid s) =? 0 then
      let '(low, sd) := xorshift128plus (uuid_random_seed trace) in
      Ret (put_span w p (set_span_uuid s (UUID low (u64 (start_ts_ s)))),
           set_uuid_random_seed trace sd)
    else Ret (w, trace).

(** [current_span_list_ = list_delete(current, e); free_span_list_ = list_add(free, e)] *)
Definition recycle_node (w : World) (trace : ObTrace) (e : loc) : cres (World * ObTrace) :=
  '(h, cur) ← list_delete (nodes w) (current_span_list_ trace) e;
  let trace := set_current_span_list_ trace cur in
  '(h, free) ← list_add h (free_span_list_ trace) e;
  Ret (set_nodes w h, set_free_span_list_ trace free).

Fixpoint end_trace_loop (fuel : nat) (w : World) (trace : ObTrace) : cres (World * ObTrace) :=
  if is_null (current_span_list_ trace) then Ret (w, trace)
  else match fuel with
  | O => OutOfFuel
  | S fuel' =>
      let span_elem := current_span_list_ trace in
      p ← node_span (nodes w) span_elem;
      span ← get_span w p;
      let w :=
        if end_ts_ span =? 0 then
          let '(t, w) := get_current_time_us w in put_span w p (set_end_ts_ span t)
        else w in
      '(w, trace) ← recycle_node w trace span_elem;
      end_trace_loop fuel' w trace
  end.

Definition end_trace (fuel : nat) (w : World) : cres World :=
  match the_trace w with
  | None => Ret w
  | Some trace =>
      '(w, trace) ← end_trace_loop fuel w trace;
      let trace := set_offset_ trace INIT_OFFSET in
      let trace := set_auto_flush_ (set_tr_level trace 0) false in
      Ret (put_trace w (set_last_active_span_ trace NULL))
  end.

Definition append_tag (w : World) (span : loc) (tag_type : Z) (s : ptr) : cres World :=
  match the_trace w with
  | None => Ret w
  | Some trace =>
      match s with
      | None => Ret w
      | Some _ =>
          if is_null (free_tag_list_ trace) then Ret w
          else
            let tag := free_tag_list_ trace in
            t ← get_tag w tag;
            let trace := set_free_tag_list_ trace (tag_next t) in
            sp ← get_span w span;
            let w := put_tag w tag (Tag (tags_ sp) tag_type s) in
            let w := put_span w span (set_tags_ sp tag) in
            Ret (put_trace w trace)
      end
  end.

(** reset_tag, for a non-NULL trace *)
Definition reset_tag (w : World) (trace : ObTrace) (tag : loc) : cres (World * ObTrace) :=
  if is_null tag then Ret (w, trace)
  else
    t ← get_tag w tag;
    Ret (put_tag w tag (Tag (free_tag_list_ trace) (tag_type_ t) (data_ t)),
         set_free_tag_list_ trace tag).

(** [while (OB_NOT_NULL(tag)) { free_tag = tag; tag = tag->next_; reset_tag(...); }] *)
Fixpoint reset_tags (fuel : nat) (w : World) (trace : ObTrace) (tag : loc) : cres (World * ObTrace) :=
  if is_null tag then Ret (w, trace)
  else match fuel with
  | O => OutOfFuel
  | S fuel' =>
      t ← get_tag w tag;
      '(w, trace) ← reset_tag w trace tag;
      reset_tags fuel' w trace (tag_next t)
  end.

(** The part the two flush functions share: print the tags and the log line of the
    span at [p].  [buf] is [None] while the local buffer has no defined contents.
    Returns (ret, length of the line, world, trace). *)
Definition log_span (fuel : nat) (initialized : bool) (w : World) (trace : ObTrace) (p : loc)
    : cres (Z * Z * World * ObTrace) :=
  span ← get_span w p;
  let tag := tags_ span in
  '(w, trace) ← init_span w trace p;
  '(buf, pos, ret) ← render_tags fuel (tags w) (repeat 0 (Z.to_nat MAX_TRACE_LOG_SIZE)) 0 OB_SUCCESS true tag;
  buf ← close_tags buf pos;
  if negb (ret =? OB_SUCCESS) then Ret (ret, 0, w, trace)
  else
    '(w, trace) ← init_span w trace (source_span_ span);
    span ← get_span w p;
    parent ← (if is_null (source_span_ span) then Ret (root_span_id_ trace)
              else src ← get_span w (source_span_ span); Ret (span_uuid src));
    text ← (if negb initialized && (pos =? 0) then Fault else cstring buf);
    let line := log_line (tr_id trace) (span_uuid span) (start_ts_ span) (end_ts_ span) parent
                  (is_follow_ span) text in
    '(mem, len) ← snprintf (log_buf_ trace) (log_buf_offset_ trace)
                    (u64 (MAX_TRACE_LOG_SIZE - log_buf_offset_ trace)) line;
    let trace := set_log_buf_ trace mem in
    if (len <? 0) || (u64 (log_buf_offset_ trace + len) >=? MAX_TRACE_LOG_SIZE) then
      Ret (OB_ERROR, len, w, trace)
    else
      Ret (OB_SUCCESS, len, w, set_log_buf_offset_ trace (u64 (log_buf_offset_ trace + len))).

(** [clear span and reset tag] *)
Definition clear_span (fuel : nat) (w : World) (trace : ObTrace) (e p : loc) : cres (World * ObTrace) :=
  span ← get_span w p;
  '(w, trace) ← reset_tags fuel w trace (tags_ span);
  span ← get_span w p;
  recycle_node (put_span w p (set_tags_ span NULL)) trace e.

Definition flush_first_span (fuel : nat) (w : World) : cres World :=
  match the_trace w with
  | None => Ret w
  | Some trace =>
      if uuid_is_zero (tr_id trace) then Ret w
      else if is_null (current_span_list_ trace) then Ret w
      else
        let span_list := current_span_list_ trace in
        p ← node_span (nodes w) span_list;
        if is_null p then Ret w
        else
          '(ret, _, w, trace) ← log_span fuel false w trace p;
          span ← get_span w p;
          if (ret =? OB_SUCCESS) && negb (end_ts_ span =? 0) then
            '(w, trace) ← clear_span fuel w trace span_list p;
            Ret (put_trace w trace)
          else Ret (put_trace w trace)
  end.

(** The second half of the loop body of flush_trace: copy the line of a finished span
    to the show-trace buffer.  Returns (ret, trace). *)
Definition show_line (trace : ObTrace) (log_buf_len : Z) : cres (Z * ObTrace) :=
  text ← load_bytes (log_buf_ trace) (log_buf_offset_ trace - log_buf_len) (Z.to_nat log_buf_len);
  '(mem, len) ← snprintf (show_trace_buf_ trace) (show_trace_buf_offset_ trace)
                  (u64 (MAX_TRACE_LOG_SIZE - show_trace_buf_offset_ trace)) (text ++ str ",");
  let trace := set_show_trace_buf_ trace mem in
  if (len <? 0) || (u64 (show_trace_buf_offset_ trace + len) >=? MAX_TRACE_LOG_SIZE) then
    Ret (OB_ERROR, trace)
  else Ret (OB_SUCCESS, set_show_trace_buf_offset_ trace (u64 (show_trace_buf_offset_ trace + len))).

Definition flush_body (fuel : nat) (w : World) (trace : ObTrace) : cres (Z * World * ObTrace) :=
  let span_elem := current_span_list_ trace in
  p ← node_span (nodes w) span_elem;
  if is_null p then Ret (OB_SUCCESS, w, trace)
  else
    '(ret, len, w, trace) ← log_span fuel true w trace p;
    span ← get_span w p;
    '(ret, trace) ←
      (if (ret =? OB_SUCCESS) && negb (end_ts_ span =? 0) then show_line trace len
       else Ret (ret, trace));
    if (ret =? OB_SUCCESS) && negb (end_ts_ span =? 0) then
      '(w, trace) ← clear_span fuel w trace span_elem p;
      Ret (ret, w, trace)
    else Ret (ret, w, trace).

Fixpoint flush_loop (fuel tag_fuel : nat) (w : World) (trace : ObTrace) (ret : Z)
    : cres (World * ObTrace) :=
  if negb (is_null (current_span_list_ trace)) && (ret =? OB_SUCCESS) then
    match fuel with
    | O => OutOfFuel
    | S fuel' =>
        '(ret, w, trace) ← flush_body tag_fuel w trace;
        flush_loop fuel' tag_fuel w trace ret
    end
  else Ret (w, trace).

Definition flush_trace (fuel tag_fuel : nat) (w : World) : cres World :=
  match the_trace w with
  | None => Ret w
  | Some trace =>
      if uuid_is_zero (tr_id trace) then Ret w
      else if is_null (current_span_list_ trace) then Ret w
      else
        '(w, trace) ← flush_loop fuel tag_fuel w trace OB_SUCCESS;
        Ret (put_trace w (set_offset_ trace INIT_OFFSET))
  end.

(** Returns the world and the new span, NULL when there is none. *)
Definition begin_span (fuel tag_fuel : nat) (w : World) (span_type level : Z) (is_follow : bool)
    : cres (World * loc) :=
  match the_trace w with
  | None => Ret (w, NULL)
  | Some trace =>
      if uuid_is_zero (tr_id trace) then Ret (w, NULL)
      else if level >? tr_level trace then Ret (w, NULL)
      else
        w ← (if is_null (free_span_list_ trace) then
               (* FLUSH_TRACE(trace->flt) dereferences trace->flt *)
               match the_flt w with None => Fault | Some _ => flush_trace fuel tag_fuel w end
             else Ret w);
        trace ← of_option (the_trace w);
        if is_null (free_span_list_ trace) then Ret (w, NULL)
        else
          let span_elem := free_span_list_ trace in
          new_span ← node_span (nodes w) span_elem;
          _ ← get_span w new_span;
          let '(t, w) := get_current_time_us w in
          let seq := u64 (seq_ trace + 1) in
          let w := put_span w new_span
            (Span (u16 span_type) (UUID seq 0) (last_active_span_ trace) is_follow t 0 NULL) in
          let trace := set_last_active_span_ (set_seq_ trace seq) new_span in
          '(h, free) ← list_delete (nodes w) (free_span_list_ trace) span_elem;
          let trace := set_free_span_list_ trace free in
          '(h, cur) ← list_add h (current_span_list_ trace) span_elem;
          Ret (put_trace (set_nodes w h) (set_current_span_list_ trace cur), new_span)
  end.

Definition end_span (w : World) (span : loc) : cres World :=
  match the_trace w, the_flt w with
  | Some trace, Some flt =>
      if is_null span then Ret w
      else
        s ← get_span w span;
        if uuid_is_zero (tr_id trace) || uuid_is_zero (span_uuid s) then Ret w
        else
          let slow_query_threshold := slow_query_threshold_ (control_info_ flt) in
          let rp := rp_ (control_info_ flt) in
          let '(t, w) := get_current_time_us w in
          let w := put_span w span (set_end_ts_ s t) in
          let use_time := t - start_ts_ s in
          let trace := set_last_active_span_ trace (source_span_ s) in
          let trace :=
            if ((rp =? RP_ONLY_SLOW_QUERY) || (rp =? RP_SAMPLE_AND_SLOW_QUERY)) &&
               (negb (slow_query_threshold =? -1) && (slow_query_threshold <=? use_time))
            then set_slow_query_print_ trace true else trace in
          Ret (put_trace w trace)
  | _, _ => Ret w
  end.

Fixpoint reset_span_loop (fuel : nat) (w : World) (trace : ObTrace) : cres (World * ObTrace) :=
  if is_null (current_span_list_ trace) then Ret (w, trace)
  else match fuel with
  | O => OutOfFuel
  | S fuel' =>
      let span_elem := current_span_list_ trace in
      p ← node_span (nodes w) span_elem;
      '(w, trace) ← recycle_node w trace span_elem;
      span ← get_span w p;
      reset_span_loop fuel' (put_span w p (set_tags_ span NULL)) trace
  end.

Definition reset_span (fuel : nat) (w : World) : cres World :=
  match the_trace w, the_flt w with
  | Some trace, Some _ =>
      if uuid_is_zero (tr_id trace) then Ret w
      else '(w, trace) ← reset_span_loop fuel w trace; Ret (put_trace w trace)
  | _, _ => Ret w
  end.

End clock.

(** * Initialization *)

Definition tag_addr (index : Z) : loc := Z.to_nat (TAG_BUFFER_BEGIN + index * sizeof_ObTagCtx).
Definition node_addr (index : Z) : loc :=
  Z.to_nat (SPAN_BUFFER_BEGIN + index * (sizeof_LIST + sizeof_ObSpanCtx)).
Definition span_addr (index : Z) : loc := (node_addr index + Z.to_nat sizeof_LIST)%nat.

(** The memory that malloc returned has arbitrary contents: [junk_tag], [junk_node],
    [junk_span] and the buffers. *)
Record Junk : Type := {
  junk_tag : ObTagCtx; junk_node : LIST; junk_span : ObSpanCtx;
  junk_log : bytes; junk_show : bytes; junk_flt : bytes }.

(** [for (index = 0; index < TAG_CACHE_COUNT; ++index)] *)
Fixpoint init_tags (j : Junk) (ts : gmap loc ObTagCtx) (free : loc) (index : Z) (count : nat)
    : gmap loc ObTagCtx * loc :=
  match count with
  | O => (ts, free)
  | S count' =>
      let tag := tag_addr index in
      init_tags j (<[tag := Tag free (tag_type_ (junk_tag j)) (data_ (junk_tag j))]> ts) tag
        (index + 1) count'
  end.

(** [for (index = 0; index < SPAN_CACHE_COUNT; ++index)] *)
Fixpoint init_spans (j : Junk) (h : heap) (sp : gmap loc ObSpanCtx) (free : loc) (index : Z) (count : nat)
    : cres (heap * gmap loc ObSpanCtx * loc) :=
  match count with
  | O => Ret (h, sp, free)
  | S count' =>
      let list := node_addr index in
      let h := <[list := Node (prev (junk_node j)) (next (junk_node j)) (Z.of_nat (span_addr index))]> h in
      let sp := <[span_addr index := junk_span j]> sp in
      '(h, free) ← list_add h free list;
      init_spans j h sp free (index + 1) count'
  end.

(** [mem] is what malloc returned, [urandom] what uuid4_init reads.  Returns the
    return code and the world. *)
Definition trace_init (mem : option Junk) (urandom : option seed) (flt : option FLTInfo)
    : cres (Z * World) :=
  match flt with
  | None => Ret (OB_ERROR, MkWorld None None ∅ ∅ ∅ 0)
  | Some f =>
      match mem with
      | None => Ret (OB_ERROR, MkWorld None (Some f) ∅ ∅ ∅ 0)
      | Some j =>
          show ← store (junk_show j) 0 91;
          let '(ts, free_tag) := init_tags j ∅ NULL 0 (Z.to_nat TAG_CACHE_COUNT) in
          '(h, sp, free) ← init_spans j ∅ ∅ NULL 0 (Z.to_nat SPAN_CACHE_COUNT);
          let '(ret, sd) := uuid4_init urandom (0, 0) in
          Ret (ret, MkWorld
            (Some {| offset_ := INIT_OFFSET; seq_ := 0; tr_enable := false; show_trace_enable_ := false;
                     tr_force_print := false; slow_query_print_ := false; uuid_random_seed := sd;
                     tr_id := zero_uuid; root_span_id_ := zero_uuid; current_span_list_ := NULL;
                     free_span_list_ := free; last_active_span_ := NULL; free_tag_list_ := free_tag;
                     tr_level := 0; auto_flush_ := true; log_buf_offset_ := 0; log_buf_ := junk_log j;
                     show_trace_buf_offset_ := 1; show_trace_buf_ := show;
                     flt_serialize_buf_ := junk_flt j |})
            (Some f) h sp ts 0)
      end
  end.

(** -1.0 *)
Definition double_minus_one : Z := 0xbff0000000000000.

(** flt_init of a non-NULL FLTInfo; the tables it fills are constants of the model. *)
Definition flt_init (mem : option Junk) (urandom : option seed) : cres (Z * World) :=
  trace_init mem urandom (Some
    {| show_trace_span_ := {| sts_type_ := FLT_TYPE_SHOW_TRACE_SPAN; client_span_json_ := None |};
       flt_client_span := {| drv_type_ := FLT_DRIVER_SPAN_INFO; client_span_ := None |};
       control_info_ := {| ctl_type_ := FLT_CONTROL_INFO; level_ := -1; sample_pct_ := double_minus_one;
                           rp_ := MAX_RECORD_POLICY; print_sample_pct_ := double_minus_one;
                           slow_query_threshold_ := -1; flt_show_trace_enable_ := 0 |};
       app_info_ := {| app_type_ := FLT_APP_INFO; identifier_ := None; module_ := None;
                       action_ := None; client_info_ := None |};
       query_info_ := {| qry_type_ := FLT_QUERY_INFO; query_start_timestamp_ := 0;
                         query_end_timestamp_ := 0 |};
       span_info_ := {| spn_type_ := FLT_SPAN_INFO; trace_enable_ := 0; force_print_ := 0;
                        trace_id_ := None; ref_type_ := 0; span_id_ := None |};
       value_data_ := None; value_length := 0; in_trans_ := false;
       flt_trace_id := repeat 0 16; flt_span_id := repeat 0 16 |}).

(** flt_end / trace_end: the allocation and everything in it is gone. *)
Definition trace_end (w : World) : World := MkWorld None (the_flt w) ∅ ∅ ∅ (ticks w).

End Trace.
