(* ===== verification/TraceInv.v ===== *)
(** The invariant of the trace: every history of operations keeps the span lists, the
    tag chains and the text buffers of Trace.v well formed (the buffers hold a text that ends
    in the buffer), every operation returns from every such state, and what the operations nevertheless get wrong. *)

From stdpp Require Import tactics gmap.
From S2P Require Import Prelude IntStore Serialize MaList FltCodec Uuid TraceText Trace.
Import Serialize MaList FltCodec Uuid TraceText Trace.

#[local] Set Warnings "-clear-no-such-hyp".

Module TraceInv.

(** * The invariant *)

(** The four list nodes with the spans they carry, and the sixteen tags. *)
Definition cache : list (loc * Z) :=
  map (fun i => (node_addr i, Z.of_nat (span_addr i))) [3; 2; 1; 0].
Definition span_locs : list loc := map span_addr [3; 2; 1; 0].
Definition tag_locs : list loc := map (fun i => tag_addr (Z.of_nat i)) (seq 0 16).

(** A pointer to a span of the cache, or NULL. *)
Definition span_ptr (p : loc) : Prop := p = NULL \/ p ∈ span_locs.

Definition spans_ok (sp : gmap loc ObSpanCtx) : Prop := forall p, p ∈ span_locs -> is_Some (sp !! p).

Record bufs_ok (t : ObTrace) : Prop := {
  bufs_log : length (log_buf_ t) = Z.to_nat MAX_TRACE_LOG_SIZE;
  bufs_log_offset : 0 <= log_buf_offset_ t < MAX_TRACE_LOG_SIZE;
  bufs_show : length (show_trace_buf_ t) = Z.to_nat MAX_TRACE_LOG_SIZE;
  bufs_show_offset : 0 <= show_trace_buf_offset_ t < MAX_TRACE_LOG_SIZE;
  bufs_request : length (flt_serialize_buf_ t) = Z.to_nat MAX_FLT_SERIALIZE_SIZE;
  bufs_log_text : holds_text 0 (log_buf_ t) (log_buf_offset_ t);
  bufs_show_text : holds_text 1 (show_trace_buf_ t) (show_trace_buf_offset_ t) }.

(** The span of list node [x] has the tags [l]. *)
Definition span_tags (sp : gmap loc ObSpanCtx) (ts : gmap loc ObTagCtx) (x : loc * Z) (l : list loc)
    : Prop :=
  exists s, sp !! Z.to_nat x.2 = Some s /\ tchain ts (tags_ s) l /\ Forall (printable_at ts) l /\
    span_ptr (source_span_ s).

(** No tag is in two places: the free tags [ft] and the tags [ct] of the current spans. *)
Definition tags_ok (w : World) (t : ObTrace) (cur : list (loc * Z)) (ft : list loc) (ct : list (list loc))
    : Prop :=
  tchain (tags w) (free_tag_list_ t) ft /\ Forall2 (span_tags (spans w) (tags w)) cur ct /\
  NoDup (ft ++ concat ct) /\ (ft ++ concat ct) ⊆ tag_locs.

(** Every span of the cache is in exactly one of the two lists. *)
Definition lists_ok (w : World) (t : ObTrace) (cur free : list (loc * Z)) : Prop :=
  dll (nodes w) (current_span_list_ t) cur /\ dll (nodes w) (free_span_list_ t) free /\
  cur ++ free ≡ₚ cache.

Definition inv (w : World) (t : ObTrace) (cur free : list (loc * Z)) (ft : list loc) (ct : list (list loc))
    : Prop :=
  lists_ok w t cur free /\ spans_ok (spans w) /\ span_ptr (last_active_span_ t) /\
  tags_ok w t cur ft ct /\ bufs_ok t.

(** ** Spans that differ in their identifiers only *)

Definition same_but_uuid (sp sp' : gmap loc ObSpanCtx) : Prop :=
  forall p, match sp !! p with
            | None => sp' !! p = None
            | Some s => exists u, sp' !! p = Some (set_span_uuid s u)
            end.

Lemma same_refl sp : same_but_uuid sp sp.
Proof. intros p. destruct (sp !! p) as [[]|] eqn:E; [|done]. by eexists. Qed.

Lemma same_trans a b c : same_but_uuid a b -> same_but_uuid b c -> same_but_uuid a c.
Proof.
  intros Hab Hbc p. specialize (Hab p). specialize (Hbc p). destruct (a !! p).
  - destruct Hab as [u Hu]. rewrite Hu in Hbc. destruct Hbc as [v ->]. by exists v.
  - by rewrite Hab in Hbc.
Qed.

Lemma same_insert sp p s u : sp !! p = Some s -> same_but_uuid sp (<[p := set_span_uuid s u]> sp).
Proof.
  intros Hs q. destruct (decide (p = q)) as [<-|Hne].
  - rewrite Hs, lookup_insert_eq. by exists u.
  - rewrite lookup_insert_ne by done. apply same_refl.
Qed.

Lemma same_spans_ok sp sp' : same_but_uuid sp sp' -> spans_ok sp -> spans_ok sp'.
Proof. intros H Ho p Hp. destruct (Ho p Hp) as [s Hs]. specialize (H p). rewrite Hs in H. destruct H as [u ->]. done. Qed.

Lemma same_span_tags sp sp' ts x l :
  same_but_uuid sp sp' -> span_tags sp ts x l -> span_tags sp' ts x l.
Proof.
  intros H (s & Hs & Ht & Hp & Hsrc). specialize (H (Z.to_nat x.2)). rewrite Hs in H.
  destruct H as [u Hu]. by exists (set_span_uuid s u).
Qed.

Lemma same_tags_ok w t sp' cur ft ct :
  same_but_uuid (spans w) sp' -> tags_ok w t cur ft ct -> tags_ok (set_spans w sp') t cur ft ct.
Proof.
  intros H (H1 & H2 & H3 & H4). split_and!; try done. simpl.
  eapply Forall2_impl; [exact H2|]. intros x l. by apply same_span_tags.
Qed.

Lemma set_spans_id w : set_spans w (spans w) = w.
Proof. by destruct w. Qed.
Lemma set_seed_id t : set_uuid_random_seed t (uuid_random_seed t) = t.
Proof. by destruct t. Qed.

Lemma init_span_ok w t p :
  spans_ok (spans w) -> span_ptr p ->
  exists sp sd, init_span w t p = Ret (set_spans w sp, set_uuid_random_seed t sd) /\
    same_but_uuid (spans w) sp.
Proof.
  intros Ho Hp. unfold init_span. destruct (is_null p) eqn:E.
  - exists (spans w), (uuid_random_seed t). rewrite set_spans_id, set_seed_id. split; [done|apply same_refl].
  - destruct Hp as [->|Hp]; [done|]. destruct (Ho p Hp) as [s Hs]. unfold get_span. rewrite Hs.
    simpl of_option. rewrite bind_ret. destruct (high_ (span_uuid s) =? 0).
    + destruct (xorshift128plus (uuid_random_seed t)) as [low sd]. eexists _, sd. split; [done|].
      by apply same_insert.
    + exists (spans w), (uuid_random_seed t). rewrite set_spans_id, set_seed_id.
      split; [done|apply same_refl].
Qed.

Lemma get_span_some w p s : spans w !! p = Some s -> get_span w p = Ret s.
Proof. intros H. unfold get_span. by rewrite H. Qed.

Lemma log_span_ok fuel initialized w t p s l :
  spans_ok (spans w) -> p ∈ span_locs -> spans w !! p = Some s ->
  tchain (tags w) (tags_ s) l -> Forall (printable_at (tags w)) l -> span_ptr (source_span_ s) ->
  bufs_ok t -> (length l <= fuel)%nat -> (initialized = false -> l <> []) ->
  exists ret len sp sd m off,
    log_span fuel initialized w t p =
      Ret (ret, len, set_spans w sp, set_log_buf_offset_ (set_log_buf_ (set_uuid_random_seed t sd) m) off) /\
    same_but_uuid (spans w) sp /\ length m = Z.to_nat MAX_TRACE_LOG_SIZE /\
    0 <= off < MAX_TRACE_LOG_SIZE /\ holds_text 0 m off /\
    (ret = OB_SUCCESS -> off = log_buf_offset_ t + len /\ 1 <= len).
Proof.
  intros Ho Hp Hs Hc Hpr Hsrc Hb Hf Hi. unfold log_span.
  rewrite (get_span_some _ _ _ Hs), bind_ret. cbv zeta.
  destruct (init_span_ok w t p) as (sp1 & sd1 & -> & Hsame1); [done|by right|]. rewrite bind_ret.
  destruct (render_tags_ok l fuel (tags (set_spans w sp1)) (repeat 0 (Z.to_nat MAX_TRACE_LOG_SIZE)) 0 OB_SUCCESS
    true (tags_ s)) as (buf & pos & ret & Er & Hl1 & Hp1 & Hbuf); try done.
  rewrite Er, bind_ret. rewrite repeat_length in Hl1.
  destruct (close_tags_ok buf pos) as (buf2 & Ec & Hl2 & Hz); [done|done|]. rewrite Ec, bind_ret.
  assert (all_bytes buf2) as Hbytes.
  { eapply close_tags_all; [exact Ec|]. eapply render_tags_all; [exact Er|]. apply Forall_forall. intros x Hx%list_elem_of_In%repeat_spec. subst x. unfold is_byte, uint. lia. }
  destruct (Z.eqb_spec ret OB_SUCCESS) as [->|Hret]; simpl negb; cbv iota.
  2: { eexists ret, 0, sp1, sd1, (log_buf_ t), (log_buf_offset_ t). split_and!; try apply Hb; done. }
  destruct (init_span_ok (set_spans w sp1) (set_uuid_random_seed t sd1) (source_span_ s))
    as (sp2 & sd2 & -> & Hsame2); [by eapply same_spans_ok|done|]. rewrite bind_ret. simpl spans in Hsame2.
  assert (same_but_uuid (spans w) sp2) as Hsame by by eapply same_trans.
  pose proof (Hsame p) as Hs2. rewrite Hs in Hs2. destruct Hs2 as [u Hs2].
  rewrite (get_span_some (set_spans (set_spans w sp1) sp2) _ _ Hs2), bind_ret.
  assert (exists parent, (if is_null (source_span_ (set_span_uuid s u)) then
     Ret (root_span_id_ (set_uuid_random_seed (set_uuid_random_seed t sd1) sd2))
     else src ← get_span (set_spans (set_spans w sp1) sp2) (source_span_ (set_span_uuid s u));
          Ret (span_uuid src)) = Ret parent) as [parent ->].
  { simpl source_span_. destruct (is_null (source_span_ s)) eqn:E; [by eexists|].
    destruct Hsrc as [E'|Hsrc]; [by rewrite E' in E|].
    destruct (same_spans_ok _ _ Hsame Ho _ Hsrc) as [x Hx]. unfold get_span. simpl spans. rewrite Hx.
    by eexists. }
  rewrite bind_ret.
  assert (0 ∈ buf2) as Hz2.
  { destruct Hz as [?|[-> ->]]; [done|]. destruct Hbuf as [?|[-> _]]; [lia|].
    by left. }
  assert (negb initialized && (pos =? 0) = false) as ->.
  { destruct initialized; [done|]. simpl. apply Z.eqb_neq. intros ->.
    destruct Hbuf as [?|[_ [?|[?|?]]]]; [lia|by apply Hi|done|unfold MAX_TRACE_LOG_SIZE in *; lia]. }
  destruct (cstring_ok buf2 Hz2) as (text & Etext & Htext). rewrite Etext, bind_ret. apply cstring_text in Etext; [|done].
  set (line := log_line _ _ _ _ _ _ _).
  assert (1 <= length line <= 400 + length text)%nat as Hline by apply log_line_length.
  assert (Forall text_byte line) as Htl by (by apply log_line_text).
  clearbody line.
  assert (length text <= 1024)%nat by (unfold MAX_TRACE_LOG_SIZE in *; lia).
  destruct Hb as [Hb1 Hb2 Hb3 Hb4 Hb5 Hb6 Hb7].
  destruct (snprintf_ok (log_buf_ t) (log_buf_offset_ t) line) as (m & Hm & Hlm);
    [done|done|lia|].
  change (log_buf_ (set_uuid_random_seed (set_uuid_random_seed t sd1) sd2)) with (log_buf_ t).
  change (log_buf_offset_ (set_uuid_random_seed (set_uuid_random_seed t sd1) sd2)) with (log_buf_offset_ t).
  destruct (snprintf_text 0 _ _ _ _ _ Hb1 Hb2 Htl Hb6 Hm) as [Ht1 Ht2].
  rewrite Hm, bind_ret. simpl log_buf_offset_. unfold MAX_TRACE_LOG_SIZE in *.
  rewrite (wrap_small 64) by (unfold uint; simpl; lia). rewrite Z.geb_leb.
  destruct (Z.ltb_spec (Z.of_nat (length line)) 0); [lia|].
  destruct (Z.leb_spec 1024 (log_buf_offset_ t + Z.of_nat (length line))); simpl orb; cbv iota.
  - eexists OB_ERROR, _, sp2, sd2, m, (log_buf_offset_ t). split_and!; try done; lia.
  - eexists OB_SUCCESS, _, sp2, sd2, m, _. split_and!; [reflexivity|done|lia|lia|lia|apply Ht2; lia|]. intros _. lia.
Qed.

(** ** Recycling nodes and tags *)

Lemma cache_nodup : NoDup cache.*1 /\ NoDup (map (fun x => Z.to_nat x.2) cache).
Proof. split; apply (bool_decide_unpack _); vm_compute; exact I. Qed.

Lemma cache_span_loc x : x ∈ cache -> Z.to_nat x.2 ∈ span_locs /\ Z.to_nat x.2 <> NULL.
Proof.
  revert x. apply Forall_forall. apply (bool_decide_unpack _). vm_compute. exact I.
Qed.

Lemma lists_nodup w t cur free :
  lists_ok w t cur free -> NoDup (cur ++ free).*1 /\ NoDup (map (fun x => Z.to_nat x.2) (cur ++ free)).
Proof. intros (_ & _ & Hp). destruct cache_nodup as [H1 H2]. rewrite Hp. done. Qed.

Lemma cur_in_cache w t cur free x : lists_ok w t cur free -> x ∈ cur ++ free -> x ∈ cache.
Proof. intros (_ & _ & Hp). by rewrite Hp. Qed.

Lemma other_span w t e d cur free x :
  lists_ok w t ((e, d) :: cur) free -> x ∈ cur -> Z.to_nat x.2 <> Z.to_nat d.
Proof.
  intros [_ Hnd]%lists_nodup Hx Heq. simpl in Hnd. apply NoDup_cons in Hnd as [Hni _]. apply Hni.
  rewrite map_app, elem_of_app. left. apply list_elem_of_fmap. by exists x.
Qed.

Lemma recycle_node_ok w t e d cur free :
  lists_ok w t ((e, d) :: cur) free ->
  exists h, recycle_node w t e =
    Ret (set_nodes w h, set_free_span_list_ (set_current_span_list_ t (head_or cur NULL)) e) /\
    lists_ok (set_nodes w h) (set_free_span_list_ (set_current_span_list_ t (head_or cur NULL)) e)
      cur ((e, d) :: free).
Proof.
  intros Hl. pose proof (lists_nodup _ _ _ _ Hl) as [Hnd _]. destruct Hl as (Hc & Hf & Hp).
  destruct (list_move_spec (nodes w) (current_span_list_ t) [] e d cur (free_span_list_ t) free)
    as (h1 & h2 & E1 & E2 & D1 & D2 & _); [done|done| |].
  { rewrite fmap_app in Hnd. apply NoDup_app in Hnd as (_ & Hd & _). simpl in *.
    intros a Ha Ha'. by apply (Hd a). }
  exists h2. unfold recycle_node. rewrite E1, bind_ret. simpl free_span_list_. rewrite E2, bind_ret.
  split; [done|]. split_and!; [done|done|]. rewrite <- Hp. symmetry. apply Permutation_middle.
Qed.

Lemma reset_tags_ok l : forall fuel w t p ft,
  tchain (tags w) p l -> tchain (tags w) (free_tag_list_ t) ft -> NoDup (l ++ ft) -> (length l <= fuel)%nat ->
  exists ts hd, reset_tags fuel w t p = Ret (set_tags w ts, set_free_tag_list_ t hd) /\
    tchain ts hd (rev l ++ ft) /\ (forall a, a ∉ l -> ts !! a = tags w !! a).
Proof.
  induction l as [|a l IH]; intros fuel w t p ft Hl Hft Hnd Hf; simpl in Hl.
  - subst p. exists (tags w), (free_tag_list_ t). split_and!; [|done|done].
    destruct fuel; simpl; by destruct w, t.
  - destruct Hl as (-> & Ha & tg & Htg & Hl). destruct fuel as [|fuel]; [simpl in Hf; lia|].
    simpl in Hnd. apply NoDup_cons in Hnd as [Hni Hnd]. rewrite not_elem_of_app in Hni.
    cbn [reset_tags]. rewrite is_null_false by done. unfold get_tag. rewrite Htg. simpl of_option.
    rewrite bind_ret. unfold reset_tag, get_tag. rewrite is_null_false, Htg by done. simpl of_option.
    rewrite !bind_ret.
    destruct (IH fuel (put_tag w a (Tag (free_tag_list_ t) (tag_type_ tg) (data_ tg)))
      (set_free_tag_list_ t a) (tag_next tg) (a :: ft)) as (ts & hd & E & Hc & Hext).
    + apply tchain_insert; [set_solver|done].
    + simpl. split_and!; [done|done|]. eexists. rewrite lookup_insert_eq. split; [done|].
      simpl. apply tchain_insert; [set_solver|done].
    + rewrite <- Permutation_middle. apply NoDup_cons. split; [set_solver|done].
    + simpl in Hf. lia.
    + exists ts, hd. split_and!; [rewrite E; by destruct w, t| |].
      * simpl. by rewrite <- app_assoc.
      * intros b Hb. rewrite not_elem_of_cons in Hb. rewrite Hext by set_solver. simpl.
        apply lookup_insert_ne. set_solver.
Qed.

Lemma span_tags_ext sp sp' ts ts' x l :
  sp' !! Z.to_nat x.2 = sp !! Z.to_nat x.2 -> (forall a, a ∈ l -> ts' !! a = ts !! a) ->
  span_tags sp ts x l -> span_tags sp' ts' x l.
Proof.
  intros Hs Ht (s & Hx & Hc & Hp & Hsrc). exists s. split_and!; [by rewrite Hs|by eapply tchain_ext| |done].
  apply Forall_forall. intros a Ha. rewrite Forall_forall in Hp. destruct (Hp a Ha) as (tg & Htg & ?).
  exists tg. by rewrite Ht.
Qed.

Lemma all_span_tags_ext sp sp' ts ts' cur ct :
  (forall x, x ∈ cur -> sp' !! Z.to_nat x.2 = sp !! Z.to_nat x.2) ->
  (forall a, a ∈ concat ct -> ts' !! a = ts !! a) ->
  Forall2 (span_tags sp ts) cur ct -> Forall2 (span_tags sp' ts') cur ct.
Proof.
  intros Hs Ht H. induction H as [|x l cur ct Hx _ IH]; constructor.
  - eapply span_tags_ext, Hx; [apply Hs; by left|]. intros a Ha. apply Ht. simpl. set_solver.
  - apply IH; [intros y Hy; apply Hs; by right|]. intros a Ha. apply Ht. simpl. set_solver.
Qed.

Lemma tags_bound l : NoDup l -> l ⊆ tag_locs -> (length l <= 16)%nat.
Proof.
  intros Hnd Hsub. change 16%nat with (length tag_locs).
  apply submseteq_length, NoDup_submseteq; [done|]. intros a Ha. by apply Hsub.
Qed.

Lemma bufs_ok_ext t t' :
  log_buf_ t' = log_buf_ t -> log_buf_offset_ t' = log_buf_offset_ t ->
  show_trace_buf_ t' = show_trace_buf_ t -> show_trace_buf_offset_ t' = show_trace_buf_offset_ t ->
  flt_serialize_buf_ t' = flt_serialize_buf_ t -> bufs_ok t -> bufs_ok t'.
Proof. intros H1 H2 H3 H4 H5 [? ? ? ? ? ? ?]. split; by rewrite ?H1, ?H2, ?H3, ?H4, ?H5. Qed.

Lemma clear_span_ok fuel w t e d cur free ft l ct :
  inv w t ((e, d) :: cur) free ft (l :: ct) -> (16 <= fuel)%nat ->
  exists w' t', clear_span fuel w t e (Z.to_nat d) = Ret (w', t') /\
    inv w' t' cur ((e, d) :: free) (rev l ++ ft) ct /\
    the_flt w' = the_flt w /\ log_buf_offset_ t' = log_buf_offset_ t.
Proof.
  intros (Hl & Hsp & Hla & (Hft & Hct & Hnd & Hsub) & Hb) Hf.
  apply Forall2_cons_1 in Hct as [(s & Hs & Hc & Hpr & Hsrc) Hct]. simpl in Hs.
  simpl in Hnd, Hsub.
  assert (NoDup (l ++ ft) /\ (forall a, a ∈ l -> a ∉ concat ct) /\ NoDup ((rev l ++ ft) ++ concat ct) /\
    (rev l ++ ft) ++ concat ct ⊆ tag_locs) as (Hnd1 & Hdis & Hnd2 & Hsub2).
  { assert ((rev l ++ ft) ++ concat ct ≡ₚ ft ++ l ++ concat ct) as Hperm.
    { rewrite <- (Permutation_rev l), <- app_assoc, (Permutation_app_comm l).
      by rewrite <- app_assoc, (Permutation_app_comm (concat ct)). }
    split_and!.
    - rewrite (Permutation_app_comm l). rewrite app_assoc in Hnd. by apply NoDup_app in Hnd as [? _].
    - apply NoDup_app in Hnd as (_ & _ & Hnd). apply NoDup_app in Hnd as (_ & Hd & _). done.
    - by rewrite Hperm.
    - intros a. rewrite Hperm. apply Hsub. }
  destruct (reset_tags_ok l fuel w t (tags_ s) ft Hc Hft Hnd1) as (ts & hd & E & Hch & Hext).
  { assert (length (l ++ ft) <= 16)%nat as Hlen.
    { apply tags_bound; [done|]. intros a Ha. apply Hsub. set_solver. }
    rewrite length_app in Hlen. lia. }
  unfold clear_span. rewrite (get_span_some _ _ _ Hs), bind_ret, E, bind_ret.
  rewrite (get_span_some (set_tags w ts) _ _ Hs), bind_ret.
  set (w1 := put_span (set_tags w ts) (Z.to_nat d) (set_tags_ s NULL)).
  set (t1 := set_free_tag_list_ t hd).
  destruct (recycle_node_ok w1 t1 e d cur free) as (h & -> & Hl'); [done|].
  eexists _, _. split; [done|]. split; [|done].
  split_and!; [done| |done| |by apply (bufs_ok_ext t)].
  - intros q Hq. simpl. destruct (decide (Z.to_nat d = q)) as [<-|Hne];
      [by rewrite lookup_insert_eq|rewrite lookup_insert_ne by done; by apply Hsp].
  - split_and!; [done| |done|done]. simpl. eapply all_span_tags_ext, Hct.
    + intros x Hx. apply lookup_insert_ne. intros Heq. by apply (other_span _ _ _ _ _ _ _ Hl Hx).
    + intros a Ha. apply Hext. intros Ha'. by apply (Hdis a).
Qed.

(** ** Flushing *)

Lemma show_line_ok t len :
  bufs_ok t -> 1 <= len <= log_buf_offset_ t ->
  exists ret m off, show_line t len = Ret (ret, set_show_trace_buf_offset_ (set_show_trace_buf_ t m) off) /\
    length m = Z.to_nat MAX_TRACE_LOG_SIZE /\ 0 <= off < MAX_TRACE_LOG_SIZE /\ holds_text 1 m off.
Proof.
  intros [H1 H2 H3 H4 H5 H6 H7] Hlen. unfold MAX_TRACE_LOG_SIZE in *. unfold show_line.
  rewrite load_bytes_in by (split; lia). rewrite bind_ret.
  set (text := take _ _).
  assert (length text <= 1024)%nat by (unfold text; rewrite length_take, length_drop; lia).
  assert (Forall text_byte (text ++ str ",")) as Htext.
  { apply Forall_app. split; [|repeat constructor; simpl; lia]. destruct H6 as [H6 _].
    replace (Z.to_nat (log_buf_offset_ t)) with (Z.to_nat (log_buf_offset_ t - len) + Z.to_nat len)%nat in H6 by lia.
    rewrite <- (take_drop (Z.to_nat (log_buf_offset_ t - len)) (log_buf_ t)), take_app in H6.
    apply Forall_app in H6 as [_ H6]. rewrite length_take_le, Nat.add_sub' in H6 by lia. exact H6. }
  destruct (snprintf_ok (show_trace_buf_ t) (show_trace_buf_offset_ t) (text ++ str ",")) as (m & Hm & Hl);
    [done|done|rewrite length_app; simpl length; lia|].
  destruct (snprintf_text 1 _ _ _ _ _ H3 H4 Htext H7 Hm) as [Ht1 Ht2]. rewrite length_app in Ht2. change (length (str ",")) with 1%nat in Ht2.
  unfold MAX_TRACE_LOG_SIZE in *. rewrite Hm, bind_ret. cbv zeta. simpl show_trace_buf_offset_.
  rewrite length_app. change (length (str ",")) with 1%nat.
  rewrite (wrap_small 64) by (unfold uint; lia). rewrite Z.geb_leb.
  destruct (Z.ltb_spec (Z.of_nat (length text + 1)) 0); [lia|].
  destruct (Z.leb_spec 1024 (show_trace_buf_offset_ t + Z.of_nat (length text + 1))); simpl orb; cbv iota.
  - exists OB_ERROR, m, (show_trace_buf_offset_ t). split_and!; done || lia.
  - eexists OB_SUCCESS, m, _. split_and!; [reflexivity|lia..|apply Ht2; unfold MAX_TRACE_LOG_SIZE; lia].
Qed.

(** Logging the first current span keeps everything well formed and, when it
    succeeds, moves the log position forward by the length of the line. *)
Lemma log_current_ok fuel initialized w t e d cur free ft l ct :
  inv w t ((e, d) :: cur) free ft (l :: ct) -> (16 <= fuel)%nat -> (initialized = false -> l <> []) ->
  node_span (nodes w) (current_span_list_ t) = Ret (Z.to_nat d) /\ Z.to_nat d <> NULL /\
  current_span_list_ t = e /\
  exists ret len w1 t1 s, log_span fuel initialized w t (Z.to_nat d) = Ret (ret, len, w1, t1) /\
    spans w1 !! Z.to_nat d = Some s /\ inv w1 t1 ((e, d) :: cur) free ft (l :: ct) /\
    the_flt w1 = the_flt w /\
    (ret = OB_SUCCESS -> log_buf_offset_ t1 = log_buf_offset_ t + len /\ 1 <= len).
Proof.
  intros (Hl & Hsp & Hla & Htags & Hb) Hf Hi. pose proof Htags as (Hft & Hct & Hnd & Hsub).
  apply Forall2_cons_1 in Hct as [(s & Hs & Hc & Hpr & Hsrc) _]. simpl in Hs.
  destruct (cache_span_loc (e, d)) as [Hloc Hnn]; [eapply cur_in_cache; [exact Hl|by left]|].
  pose proof Hl as ([_ (last & He & _ & n & Hn & _)] & _).
  split_and!; [by unfold node_span; rewrite He, (get_Some _ _ _ Hn)|done|done|].
  assert (length (ft ++ concat (l :: ct)) <= 16)%nat as Hlen by by apply tags_bound.
  simpl in Hlen. rewrite !length_app in Hlen.
  destruct (log_span_ok fuel initialized w t (Z.to_nat d) s l)
    as (ret & len & sp & sd & m & off & -> & Hsame & Hm & Hoff & Htext & Hprog); try done; [lia|].
  pose proof (Hsame (Z.to_nat d)) as Hs'. rewrite Hs in Hs'. destruct Hs' as [u Hs'].
  eexists _, _, _, _, _. split_and!; [done|exact Hs'| |done|done].
  split_and!; [done|by eapply same_spans_ok|done|by apply same_tags_ok|]. destruct Hb. by split.
Qed.

(** One round of [flush_trace]: it fails or makes progress in the log buffer, and the
    lists stay well formed. *)
Lemma flush_body_ok fuel w t x cur free ft l ct :
  inv w t (x :: cur) free ft (l :: ct) -> (16 <= fuel)%nat ->
  exists ret w' t' cur' free' ft' ct', flush_body fuel w t = Ret (ret, w', t') /\
    inv w' t' cur' free' ft' ct' /\ the_flt w' = the_flt w /\
    (ret = OB_SUCCESS -> log_buf_offset_ t < log_buf_offset_ t').
Proof.
  intros Hinv Hf. destruct x as [e d].
  destruct (log_current_ok fuel true w t e d cur free ft l ct) as (Hnode & Hnn & He & ret & len & w1 & t1 &
    s & Elog & Hs & Hinv1 & Hflt & Hprog); [done..|].
  unfold flush_body. rewrite Hnode, bind_ret, is_null_false, Elog, bind_ret by done.
  rewrite (get_span_some _ _ _ Hs), bind_ret.
  destruct (Z.eqb_spec ret OB_SUCCESS) as [->|Hret]; simpl andb; cbv iota.
  2: { rewrite bind_ret. destruct (Z.eqb_spec ret OB_SUCCESS); [done|]. simpl.
       eexists _, _, t1, _, _, _, _. split_and!; [done|exact Hinv1|done|done]. }
  destruct (Hprog eq_refl) as [Hoff Hlen].
  destruct (Z.eqb_spec (end_ts_ s) 0); simpl negb; cbv iota.
  { rewrite bind_ret. eexists _, _, t1, _, _, _, _. split_and!; [done|exact Hinv1|done|]. intros _. lia. }
  pose proof Hinv as (_ & _ & _ & _ & [_ ? _ _ _ _ _]). pose proof Hinv1 as (? & ? & ? & ? & Hb1).
  destruct (show_line_ok t1 len) as (ret2 & m2 & off2 & -> & Hm2 & Hoff2 & Htext2); [done|lia|].
  rewrite bind_ret. set (t2 := set_show_trace_buf_offset_ _ _).
  assert (inv w1 t2 ((e, d) :: cur) free ft (l :: ct)) as Hinv2.
  { destruct Hb1. split_and!; done. }
  destruct (Z.eqb_spec ret2 OB_SUCCESS); simpl andb; cbv iota.
  2: { eexists _, _, t2, _, _, _, _. split_and!; [done|exact Hinv2|done|done]. }
  destruct (clear_span_ok fuel _ _ _ _ _ _ _ _ _ Hinv2 Hf) as (w' & t' & E & Hinv' & Hflt' & Hlog).
  rewrite He, E, bind_ret. eexists _, _, _, _, _, _, _. split_and!; [done|exact Hinv'|congruence|].
  intros _. rewrite Hlog. simpl. lia.
Qed.

Lemma inv_null w t cur free ft ct :
  inv w t cur free ft ct -> is_null (current_span_list_ t) = bool_decide (cur = []).
Proof.
  intros (([_ (last & H)] & _) & _). destruct cur as [|[a d] cur]; simpl in H.
  - by destruct H as [-> _].
  - destruct H as (-> & Ha & _). by rewrite is_null_false.
Qed.

Lemma inv_cons w t x cur free ft ct :
  inv w t (x :: cur) free ft ct -> exists l ct', ct = l :: ct'.
Proof. intros (_ & _ & _ & (_ & H & _) & _). inversion H; subst. by eexists _, _. Qed.

Lemma flush_loop_ok fuel tag_fuel : forall w t ret cur free ft ct,
  inv w t cur free ft ct -> (16 <= tag_fuel)%nat ->
  MAX_TRACE_LOG_SIZE - log_buf_offset_ t < Z.of_nat fuel ->
  exists w' t' cur' free' ft' ct', flush_loop fuel tag_fuel w t ret = Ret (w', t') /\
    inv w' t' cur' free' ft' ct' /\ the_flt w' = the_flt w.
Proof.
  induction fuel as [|fuel IH]; intros w t ret cur free ft ct Hinv Htf Hfuel.
  { destruct Hinv as (_ & _ & _ & _ & [_ ? _ _ _ _ _]). lia. }
  cbn [flush_loop]. rewrite (inv_null _ _ _ _ _ _ Hinv).
  destruct (bool_decide_reflect (cur = [])) as [->|Hne]; simpl negb; [by eauto 10|].
  destruct (Z.eqb_spec ret OB_SUCCESS); simpl andb; cbv iota; [|by eauto 10].
  destruct cur as [|x cur]; [done|]. destruct (inv_cons _ _ _ _ _ _ _ Hinv) as (l & ct' & ->).
  destruct (flush_body_ok tag_fuel _ _ _ _ _ _ _ _ Hinv Htf) as (r & w1 & t1 & c1 & f1 & ft1 & ct1 & -> &
    Hinv1 & Hflt & Hprog).
  rewrite bind_ret. destruct (decide (r = OB_SUCCESS)) as [->|Hr].
  - specialize (Hprog eq_refl). rewrite <- Hflt. eapply IH; [done|done|lia].
  - exists w1, t1, c1, f1, ft1, ct1. split_and!; [|done|done]. destruct fuel as [|fuel].
    + simpl. destruct (Z.eqb_spec r OB_SUCCESS); [done|]. by rewrite andb_false_r.
    + cbn [flush_loop]. destruct (Z.eqb_spec r OB_SUCCESS); [done|]. by rewrite andb_false_r.
Qed.

(** The world invariant: the lists, spans, tags and buffers are well formed. *)
Definition wf (w : World) : Prop :=
  exists t cur free ft ct, the_trace w = Some t /\ inv w t cur free ft ct.

Lemma put_trace_inv w t t' cur free ft ct : inv w t cur free ft ct -> inv (put_trace w t') t cur free ft ct.
Proof. done. Qed.

Lemma flush_trace_ok fuel tag_fuel w :
  wf w -> (16 <= tag_fuel)%nat -> (1025 <= fuel)%nat ->
  exists w', flush_trace fuel tag_fuel w = Ret w' /\ wf w' /\ the_flt w' = the_flt w.
Proof.
  intros (t & cur & free & ft & ct & Ht & Hinv) Htf Hf. unfold flush_trace. rewrite Ht.
  assert (wf w) by (by exists t, cur, free, ft, ct).
  destruct (uuid_is_zero (tr_id t)); [by eauto|].
  destruct (is_null (current_span_list_ t)); [by eauto|].
  destruct (flush_loop_ok fuel tag_fuel w t OB_SUCCESS _ _ _ _ Hinv Htf)
    as (w' & t' & c' & f' & ft' & ct' & -> & Hinv' & Hflt).
  { unfold MAX_TRACE_LOG_SIZE in *. destruct Hinv as (_ & _ & _ & _ & [_ ? _ _ _ _ _]).
    unfold MAX_TRACE_LOG_SIZE in *. lia. }
  rewrite bind_ret. eexists. split; [done|]. split; [|done].
  exists (set_offset_ t' INIT_OFFSET), c', f', ft', ct'. split; [done|].
  destruct Hinv' as (? & ? & ? & ? & [? ? ? ? ? ? ?]). split_and!; done.
Qed.

(** The first current span, if there is one, has a tag. *)
Definition first_span_tagged (w : World) : Prop :=
  forall t n s, the_trace w = Some t -> nodes w !! current_span_list_ t = Some n ->
    spans w !! Z.to_nat (data n) = Some s -> tags_ s <> NULL.

Lemma flush_first_span_ok fuel w :
  wf w -> (16 <= fuel)%nat -> first_span_tagged w ->
  exists w', flush_first_span fuel w = Ret w' /\ wf w' /\ the_flt w' = the_flt w.
Proof.
  intros Hwf Hf Htag. pose proof Hwf as (t & cur & free & ft & ct & Ht & Hinv).
  unfold flush_first_span. rewrite Ht. destruct (uuid_is_zero (tr_id t)); [by eauto|].
  rewrite (inv_null _ _ _ _ _ _ Hinv).
  destruct (bool_decide_reflect (cur = [])) as [->|Hne]; [by eauto|].
  destruct cur as [|[e d] cur]; [done|]. destruct (inv_cons _ _ _ _ _ _ _ Hinv) as (l & ct' & ->).
  assert (l <> []) as Hl.
  { destruct Hinv as (([_ (last & He & _ & n & Hn & _)] & _) & _ & _ & (_ & Hct & _) & _).
    apply Forall2_cons_1 in Hct as [(s & Hs & Hc & _) _]. rewrite <- He in Hn.
    intros ->. simpl in Hc. by apply (Htag _ _ _ Ht Hn Hs). }
  destruct (log_current_ok fuel false w t e d cur free ft l ct') as (Hnode & Hnn & He & ret & len & w1 & t1 &
    s & Elog & Hs & Hinv1 & Hflt & _); [done..|].
  rewrite Hnode, bind_ret, is_null_false, Elog, bind_ret by done.
  rewrite (get_span_some _ _ _ Hs), bind_ret. case_match.
  - destruct (clear_span_ok fuel _ _ _ _ _ _ _ _ _ Hinv1 Hf) as (w' & t' & E & Hinv' & Hflt' & _).
    rewrite He, E, bind_ret. eexists. split_and!; [done|by eexists _, _, _, _, _|simpl; congruence].
  - eexists. split_and!; [done|by eexists _, _, _, _, _|done].
Qed.

(** ** The other operations *)

Lemma inv_upd_span w t cur free ft ct p s s' :
  inv w t cur free ft ct -> spans w !! p = Some s -> tags_ s' = tags_ s ->
  source_span_ s' = source_span_ s -> inv (put_span w p s') t cur free ft ct.
Proof.
  intros (Hl & Hsp & Hla & (Hft & Hct & Hnd & Hsub) & Hb) Hs Ht Hsrc. split_and!; try done.
  - intros q Hq. simpl. destruct (decide (p = q)) as [<-|Hne];
      [by rewrite lookup_insert_eq|rewrite lookup_insert_ne by done; by apply Hsp].
  - split_and!; try done. simpl. eapply Forall2_impl; [exact Hct|].
    intros x l (sx & Hx & Hc & Hp & Hpt). destruct (decide (p = Z.to_nat x.2)) as [->|Hne].
    + simplify_eq. exists s'. rewrite lookup_insert_eq, Ht, Hsrc. done.
    + exists sx. by rewrite lookup_insert_ne.
Qed.

Lemma inv_put_other w t cur free ft ct p s :
  inv w t cur free ft ct -> (forall x, x ∈ cur -> Z.to_nat x.2 <> p) ->
  inv (put_span w p s) t cur free ft ct.
Proof.
  intros (Hl & Hsp & Hla & (Hft & Hct & Hnd & Hsub) & Hb) Hne. split_and!; try done.
  - intros q Hq. simpl. destruct (decide (p = q)) as [<-|];
      [by rewrite lookup_insert_eq|rewrite lookup_insert_ne by done; by apply Hsp].
  - split_and!; try done. simpl. eapply all_span_tags_ext, Hct; [|done].
    intros x Hx. apply lookup_insert_ne. intros Heq. by apply (Hne x Hx).
Qed.

(** Recycling the first current span without returning its tags. *)
Lemma recycle_inv w t e d cur free ft l ct :
  inv w t ((e, d) :: cur) free ft (l :: ct) ->
  exists h t', recycle_node w t e = Ret (set_nodes w h, t') /\
    inv (set_nodes w h) t' cur ((e, d) :: free) ft ct.
Proof.
  intros (Hl & Hsp & Hla & (Hft & Hct & Hnd & Hsub) & Hb).
  destruct (recycle_node_ok _ _ _ _ _ _ Hl) as (h & E & Hl'). eexists _, _. split; [exact E|].
  apply Forall2_cons_1 in Hct as [_ Hct]. simpl in Hnd, Hsub.
  split_and!; [done|done|done| |by apply (bufs_ok_ext t)].
  split_and!; [done|done| |].
  - apply NoDup_app in Hnd as (H1 & H2 & (_ & _ & H3)%NoDup_app). apply NoDup_app. set_solver.
  - set_solver.
Qed.

Lemma inv_first w t x cur free ft ct :
  inv w t (x :: cur) free ft ct ->
  current_span_list_ t = x.1 /\ node_span (nodes w) (current_span_list_ t) = Ret (Z.to_nat x.2) /\
  exists s, spans w !! Z.to_nat x.2 = Some s.
Proof.
  intros (Hl & _ & _ & (_ & Hct & _) & _). destruct x as [e d].
  pose proof Hl as ([_ (last & He & _ & n & Hn & _)] & _).
  inversion Hct as [|? ? ? ? (s & Hs & _)]; subst. split_and!; [done| |by exists s].
  unfold node_span. by rewrite (get_Some _ _ _ Hn).
Qed.

Lemma cur_length w t cur free ft ct : inv w t cur free ft ct -> (length cur <= 4)%nat.
Proof.
  intros ((_ & _ & Hp) & _). apply Permutation_length in Hp. rewrite length_app in Hp.
  change (length cache) with 4%nat in Hp. lia.
Qed.

Section ops.
Context (now : nat -> Z).

Lemma end_trace_loop_ok fuel : forall w t cur free ft ct,
  inv w t cur free ft ct -> (length cur <= fuel)%nat ->
  exists w' t' free', end_trace_loop now fuel w t = Ret (w', t') /\
    inv w' t' [] free' ft [] /\ the_flt w' = the_flt w.
Proof.
  induction fuel as [|fuel IH]; intros w t cur free ft ct Hinv Hf.
  { destruct cur; [|simpl in Hf; lia]. cbn [end_trace_loop].
    rewrite (inv_null _ _ _ _ _ _ Hinv). simpl. exists w, t, free. split_and!; try done.
    destruct Hinv as (? & ? & ? & (? & Hct & ?) & ?). by inversion Hct; subst. }
  cbn [end_trace_loop]. rewrite (inv_null _ _ _ _ _ _ Hinv).
  destruct (bool_decide_reflect (cur = [])) as [->|Hne].
  { exists w, t, free. split_and!; try done.
    destruct Hinv as (? & ? & ? & (? & Hct & ?) & ?). by inversion Hct; subst. }
  destruct cur as [|[e d] cur]; [done|]. destruct (inv_cons _ _ _ _ _ _ _ Hinv) as (l & ct' & ->).
  destruct (inv_first _ _ _ _ _ _ _ Hinv) as (He & Hnode & s & Hs). simpl in He, Hnode, Hs.
  cbv zeta. rewrite Hnode, bind_ret, (get_span_some _ _ _ Hs), bind_ret.
  set (w1 := if end_ts_ s =? 0 then _ else w).
  assert (inv w1 t ((e, d) :: cur) free ft (l :: ct') /\ the_flt w1 = the_flt w) as [Hinv1 Hflt].
  { unfold w1. destruct (end_ts_ s =? 0); [|done]. split; [|done].
    by eapply (inv_upd_span (set_ticks w (S (ticks w)))). }
  destruct (recycle_inv _ _ _ _ _ _ _ _ _ Hinv1) as (h & t' & E & Hinv2). rewrite He, E, bind_ret.
  rewrite <- Hflt. apply (IH (set_nodes w1 h) t' _ _ _ _ Hinv2). simpl in Hf. lia.
Qed.

Lemma end_trace_ok fuel w :
  wf w -> (4 <= fuel)%nat ->
  exists w', end_trace now fuel w = Ret w' /\ wf w' /\ the_flt w' = the_flt w.
Proof.
  intros (t & cur & free & ft & ct & Ht & Hinv) Hf. unfold end_trace. rewrite Ht.
  pose proof (cur_length _ _ _ _ _ _ Hinv).
  destruct (end_trace_loop_ok fuel w t cur free ft ct Hinv) as (w' & t' & free' & -> & Hinv' & Hflt); [lia|].
  rewrite bind_ret. eexists. split; [done|]. split; [|done]. eexists _, [], free', ft, []. split; [done|].
  destruct Hinv' as (? & ? & _ & ? & [? ? ? ? ? ? ?]). split_and!; try done. by left.
Qed.

Lemma reset_span_loop_ok fuel : forall w t cur free ft ct,
  inv w t cur free ft ct -> (length cur <= fuel)%nat ->
  exists w' t' free', reset_span_loop fuel w t = Ret (w', t') /\
    inv w' t' [] free' ft [] /\ the_flt w' = the_flt w.
Proof.
  induction fuel as [|fuel IH]; intros w t cur free ft ct Hinv Hf.
  { destruct cur; [|simpl in Hf; lia]. cbn [reset_span_loop].
    rewrite (inv_null _ _ _ _ _ _ Hinv). simpl. exists w, t, free. split_and!; try done.
    destruct Hinv as (? & ? & ? & (? & Hct & ?) & ?). by inversion Hct; subst. }
  cbn [reset_span_loop]. rewrite (inv_null _ _ _ _ _ _ Hinv).
  destruct (bool_decide_reflect (cur = [])) as [->|Hne].
  { exists w, t, free. split_and!; try done.
    destruct Hinv as (? & ? & ? & (? & Hct & ?) & ?). by inversion Hct; subst. }
  destruct cur as [|[e d] cur]; [done|]. destruct (inv_cons _ _ _ _ _ _ _ Hinv) as (l & ct' & ->).
  destruct (inv_first _ _ _ _ _ _ _ Hinv) as (He & Hnode & s & Hs). simpl in He, Hnode, Hs.
  cbv zeta. rewrite Hnode, bind_ret.
  destruct (recycle_inv _ _ _ _ _ _ _ _ _ Hinv) as (h & t' & E & Hinv2). rewrite He, E, bind_ret.
  rewrite (get_span_some (set_nodes w h) _ _ Hs), bind_ret.
  apply (IH (put_span (set_nodes w h) (Z.to_nat d) (set_tags_ s NULL)) t' cur ((e, d) :: free) ft ct').
  - apply inv_put_other; [done|]. intros x Hx. destruct Hinv as (Hl & _). by eapply other_span.
  - simpl in Hf. lia.
Qed.

Lemma reset_span_ok fuel w :
  wf w -> (4 <= fuel)%nat ->
  exists w', reset_span fuel w = Ret w' /\ wf w' /\ the_flt w' = the_flt w.
Proof.
  intros Hwf Hf. pose proof Hwf as (t & cur & free & ft & ct & Ht & Hinv). unfold reset_span. rewrite Ht.
  destruct (the_flt w) eqn:Hflt; [|by eauto]. destruct (uuid_is_zero (tr_id t)); [by eauto|].
  pose proof (cur_length _ _ _ _ _ _ Hinv).
  destruct (reset_span_loop_ok fuel w t cur free ft ct Hinv) as (w' & t' & free' & -> & Hinv' & Hflt'); [lia|].
  rewrite bind_ret. eexists. split_and!; [done|by eexists _, [], free', ft, []|by rewrite <- Hflt].
Qed.

(** Taking a tag from the free chain and putting it in front of the chain [l] of the
    span at [p]. *)
Lemma append_tag_current w t cur free a ft ct p tg sp typ s c1 x c2 ct1 l ct2 :
  inv w t cur free (a :: ft) ct -> tags w !! a = Some tg -> spans w !! p = Some sp ->
  cur = c1 ++ x :: c2 -> ct = ct1 ++ l :: ct2 -> length c1 = length ct1 -> Z.to_nat x.2 = p ->
  printable (Tag (tags_ sp) typ s) ->
  inv (put_span (put_tag w a (Tag (tags_ sp) typ s)) p (set_tags_ sp a))
    (set_free_tag_list_ t (tag_next tg)) cur free ft (ct1 ++ (a :: l) :: ct2).
Proof.
  intros Hinv Hta Hs Hcur Hct0 Hlen Hxp Hpr.
  pose proof Hinv as (Hl & Hsp & Hla & (Hft & Hct & Hnd & Hsub) & Hb).
  simpl in Hft. destruct Hft as (Hfa & Ha & tg' & Hta' & Hft). rewrite Hta in Hta'. injection Hta' as <-.
  simpl in Hnd. apply NoDup_cons in Hnd as [Hani Hnd]. apply not_elem_of_app in Hani as [Ha1 Ha2].
  subst cur ct.
  assert (forall y, y ∈ c1 \/ y ∈ c2 -> Z.to_nat y.2 <> p) as Hother.
  { intros y Hy Heq. apply lists_nodup in Hl as [_ Hn]. subst p.
    assert (c1 ++ x :: c2 ≡ₚ x :: c1 ++ c2) as Hperm by (symmetry; apply Permutation_middle).
    rewrite Hperm in Hn. simpl in Hn. apply NoDup_cons in Hn as [Hn _]. apply Hn.
    rewrite <- Heq. apply list_elem_of_fmap. exists y. split; [done|]. set_solver. }
  assert (forall b, b ∈ concat (ct1 ++ l :: ct2) ->
    tags (put_tag w a (Tag (tags_ sp) typ s)) !! b = tags w !! b) as Htext.
  { intros b Hb'. simpl. apply lookup_insert_ne. intros ->. done. }
  rewrite concat_app in Htext, Ha2. simpl in Htext, Ha2.
  apply Forall2_app_inv in Hct as [Hct1 Hct2]; [|done].
  apply Forall2_cons_1 in Hct2 as [(sx & Hsx & Hcx & Hpx & Hsrcx) Hct2].
  rewrite Hxp, Hs in Hsx. injection Hsx as <-.
  split_and!; [done| |done| |by apply (bufs_ok_ext t)].
  - intros q Hq. simpl. destruct (decide (p = q)) as [<-|];
      [by rewrite lookup_insert_eq|rewrite lookup_insert_ne by done; by apply Hsp].
  - split_and!.
    + simpl. apply tchain_insert; done.
    + apply Forall2_app; [|constructor].
      * eapply all_span_tags_ext, Hct1; [|intros b Hb'; apply Htext; set_solver].
        intros y Hy. apply lookup_insert_ne. intros Heq. apply (Hother y); [by left|done].
      * exists (set_tags_ sp a). simpl. rewrite Hxp, lookup_insert_eq.
        split; [done|]. split; [|split; [|done]].
        -- split_and!; [done|done|]. eexists. rewrite lookup_insert_eq. split; [done|]. simpl.
           apply tchain_insert; [set_solver|done].
        -- constructor; [eexists; rewrite lookup_insert_eq; done|].
           apply Forall_forall. intros b Hb'. rewrite Forall_forall in Hpx.
           destruct (Hpx b Hb') as (tb & Htb & ?). exists tb. rewrite Htext by set_solver. done.
      * eapply all_span_tags_ext, Hct2; [|intros b Hb'; apply Htext; set_solver].
        intros y Hy. apply lookup_insert_ne. intros Heq. apply (Hother y); [by right|done].
    + rewrite concat_app. simpl. assert (ft ++ concat ct1 ++ a :: l ++ concat ct2 ≡ₚ
        a :: ft ++ concat ct1 ++ l ++ concat ct2) as ->.
      { by rewrite <- Permutation_middle, <- Permutation_middle. }
      rewrite concat_app in Hnd. simpl in Hnd. apply NoDup_cons. split; [set_solver|done].
    + rewrite concat_app in Hsub |- *. simpl in Hsub |- *. set_solver.
Qed.

Lemma append_tag_other w t cur free a ft ct p tg sp typ s :
  inv w t cur free (a :: ft) ct -> tags w !! a = Some tg -> spans w !! p = Some sp ->
  (forall x, x ∈ cur -> Z.to_nat x.2 <> p) ->
  inv (put_span (put_tag w a (Tag (tags_ sp) typ s)) p (set_tags_ sp a))
    (set_free_tag_list_ t (tag_next tg)) cur free ft ct.
Proof.
  intros (Hl & Hsp & Hla & (Hft & Hct & Hnd & Hsub) & Hb) Hta Hs Hne. apply inv_put_other; [|done].
  simpl in Hft. destruct Hft as (Hfa & Ha & tg' & Hta' & Hft). rewrite Hta in Hta'. injection Hta' as <-.
  simpl in Hnd. apply NoDup_cons in Hnd as [Hani Hnd]. apply not_elem_of_app in Hani as [Ha1 Ha2].
  split_and!; [done|done|done| |by apply (bufs_ok_ext t)].
  split_and!; [by apply tchain_insert| |done|set_solver]. simpl.
  eapply all_span_tags_ext, Hct; [done|]. intros b Hb'. apply lookup_insert_ne. by intros ->.
Qed.

Lemma append_tag_ok w p typ s :
  wf w -> p ∈ span_locs -> typ = 0 \/ typ = 1 -> (exists chars, is_cstr s chars) ->
  exists w', append_tag w p typ s = Ret w' /\ wf w' /\ the_flt w' = the_flt w.
Proof.
  intros Hwf Hp Htyp Hcs. pose proof Hwf as (t & cur & free & ft & ct & Ht & Hinv).
  unfold append_tag. rewrite Ht. destruct s as [m|]; [|by eauto].
  pose proof Hinv as (_ & Hsp & _ & (Hft & Hct & _) & _). destruct (Hsp p Hp) as [sp Hs].
  destruct ft as [|a ft]; simpl in Hft.
  { rewrite is_null_true by done. by eauto. }
  destruct Hft as (Hfa & Ha & tg & Hta & Hft). rewrite Hfa, is_null_false by done. cbv zeta.
  unfold get_tag. rewrite Hta. simpl of_option. rewrite bind_ret, (get_span_some _ _ _ Hs), bind_ret.
  eexists. split; [done|]. split; [|done].
  destruct (decide (p ∈ map (fun x => Z.to_nat x.2) cur)) as [Hin|Hni].
  - apply list_elem_of_fmap in Hin as (x & Hxp & Hx). apply list_elem_of_split in Hx as (c1 & c2 & Hcur).
    rewrite Hcur in Hct. apply Forall2_app_inv_l in Hct as (ct1 & ct2' & H1 & H2 & Hct').
    destruct ct2' as [|l ct2]; [inversion H2|].
    eexists _, cur, free, ft, (ct1 ++ (a :: l) :: ct2). split; [done|].
    apply (append_tag_current w t cur free a ft ct p tg sp typ (Some m) c1 x c2 ct1 l ct2); try done.
    by eapply Forall2_length.
  - eexists _, cur, free, ft, ct. split; [done|].
    apply (append_tag_other w t cur free a ft ct p tg sp typ (Some m)); [done..|].
    intros x Hx Heq. apply Hni. apply list_elem_of_fmap. by exists x.
Qed.

(** A trace that differs in the fields the invariant does not mention. *)
Lemma inv_trace w t t' cur free ft ct :
  current_span_list_ t' = current_span_list_ t -> free_span_list_ t' = free_span_list_ t ->
  last_active_span_ t' = last_active_span_ t -> free_tag_list_ t' = free_tag_list_ t ->
  log_buf_ t' = log_buf_ t -> log_buf_offset_ t' = log_buf_offset_ t ->
  show_trace_buf_ t' = show_trace_buf_ t -> show_trace_buf_offset_ t' = show_trace_buf_offset_ t ->
  flt_serialize_buf_ t' = flt_serialize_buf_ t ->
  inv w t cur free ft ct -> inv w t' cur free ft ct.
Proof.
  intros E1 E2 E3 E4 E5 E6 E7 E8 E9 ((Hl1 & Hl2 & Hp) & Hsp & Hla & (Hft & Hct & Hnd & Hsub) & Hb).
  split_and!; [|done|by rewrite E3| |by apply (bufs_ok_ext t)].
  - split_and!; by rewrite ?E1, ?E2.
  - split_and!; by rewrite ?E4.
Qed.

Lemma begin_trace_ok w : wf w -> exists w', begin_trace now w = Ret w' /\ wf w' /\ the_flt w' = the_flt w.
Proof.
  intros (t & cur & free & ft & ct & Ht & Hinv). unfold begin_trace. rewrite Ht.
  set (t1 := match the_flt w with None => _ | Some flt => _ end).
  assert (inv w t1 cur free ft ct) as Hinv1.
  { unfold t1. eapply inv_trace, Hinv; repeat case_match; done. }
  destruct (tr_enable t1) eqn:Een.
  2: { eexists. split; [done|]. split; [|done]. eexists _, cur, free, ft, ct. split; [done|].
       by eapply inv_trace, Hinv1. }
  destruct (the_flt w) as [flt|] eqn:Hflt; [|by unfold t1 in Een].
  unfold get_current_time_us. destruct (uuid4_generate _ _) as [id s].
  eexists. split; [done|]. split; [|done]. eexists _, cur, free, ft, ct. split; [done|].
  eapply (inv_trace (set_ticks w (S (ticks w)))), Hinv1; repeat case_match; done.
Qed.

(** [p] is the span of a node in the current list. *)
Definition current_span (w : World) (p : loc) : Prop :=
  exists t cur a, the_trace w = Some t /\ dll (nodes w) (current_span_list_ t) cur /\
    (a, Z.of_nat p) ∈ cur.

Lemma current_span_inv w t cur free ft ct p :
  the_trace w = Some t -> inv w t cur free ft ct -> current_span w p ->
  exists s, spans w !! p = Some s /\ span_ptr (source_span_ s).
Proof.
  intros Ht ((Hd & _) & _ & _ & (_ & Hct & _) & _) (t' & cur' & a & Ht' & Hd' & Hin). simplify_eq.
  rewrite <- (dll_inj _ _ _ _ Hd Hd') in Hin. clear Hd Hd'.
  induction Hct as [|x l cur ct (s & Hs & _ & _ & Hsrc) _ IH]; [by apply elem_of_nil in Hin|].
  apply elem_of_cons in Hin as [<-|Hin]; [|by apply IH]. exists s. simpl in Hs.
  by rewrite Nat2Z.id in Hs.
Qed.

Lemma end_span_ok w p :
  wf w -> p = NULL \/ current_span w p ->
  exists w', end_span now w p = Ret w' /\ wf w' /\ the_flt w' = the_flt w.
Proof.
  intros Hwf Hp. pose proof Hwf as (t & cur & free & ft & ct & Ht & Hinv). unfold end_span. rewrite Ht.
  destruct (the_flt w) as [flt|] eqn:Hflt; [|by eauto].
  destruct Hp as [->|Hp]; [by eauto|]. destruct (is_null p); [by eauto|].
  destruct (current_span_inv _ _ _ _ _ _ _ Ht Hinv Hp) as (s & Hs & Hsrc).
  rewrite (get_span_some _ _ _ Hs), bind_ret. case_match; [by eauto|].
  unfold get_current_time_us. eexists. split; [done|]. split; [|done].
  eexists _, cur, free, ft, ct. split; [done|].
  apply (inv_upd_span (set_ticks w (S (ticks w))) _ cur free ft ct p s); [|done..].
  assert (inv w (set_last_active_span_ t (source_span_ s)) cur free ft ct) as Hinv'.
  { destruct Hinv as (? & ? & ? & ? & [? ? ? ? ? ? ?]). split_and!; done. }
  case_match; by eapply inv_trace, Hinv'.
Qed.

Lemma begin_span_ok fuel tag_fuel w typ level fol :
  wf w -> (16 <= tag_fuel)%nat -> (1025 <= fuel)%nat -> is_Some (the_flt w) ->
  exists w' p, begin_span now fuel tag_fuel w typ level fol = Ret (w', p) /\ wf w' /\
    the_flt w' = the_flt w /\ (p <> NULL -> current_span w' p).
Proof.
  intros Hwf Htf Hf [flt Hflt]. pose proof Hwf as (t0 & cur0 & free0 & ft0 & ct0 & Ht0 & Hinv0).
  unfold begin_span. rewrite Ht0.
  destruct (uuid_is_zero (tr_id t0)); [exists w, NULL; by split_and!|].
  destruct (level >? tr_level t0); [exists w, NULL; by split_and!|]. rewrite Hflt.
  assert (exists w1, (if is_null (free_span_list_ t0) then flush_trace fuel tag_fuel w else Ret w) = Ret w1 /\
    wf w1 /\ the_flt w1 = the_flt w) as (w1 & -> & Hwf1 & Hflt1).
  { destruct (is_null (free_span_list_ t0)); [by apply flush_trace_ok|by eauto]. }
  rewrite bind_ret, <- Hflt, <- Hflt1. clear Hinv0 Ht0 Hwf.
  destruct Hwf1 as (t & cur & free & ft & ct & Ht & Hinv). rewrite Ht. simpl of_option. rewrite bind_ret.
  destruct (is_null (free_span_list_ t)) eqn:Hnull.
  { eexists _, NULL. split_and!; [done|by eexists _, _, _, _, _|done|done]. }
  pose proof Hinv as (Hl & Hsp & Hla & (Hft & Hct & Hnd & Hsub) & Hb).
  pose proof Hl as (Hdc & Hdf & Hperm).
  destruct free as [|[e d] free].
  { destruct Hdf as [_ (last & Hz & _)]. by rewrite Hz in Hnull. }
  assert ((e, d) ∈ cache) as Hin by (rewrite <- Hperm; set_solver).
  destruct (cache_span_loc _ Hin) as [Hloc Hnn]. simpl in Hloc, Hnn.
  pose proof Hdf as [_ (last & He & Hene & n & Hn & _)].
  destruct (Hsp _ Hloc) as [s0 Hs0]. cbv zeta. unfold node_span. rewrite He, (get_Some _ _ _ Hn).
  rewrite !bind_ret. simpl data. rewrite (get_span_some _ _ _ Hs0), bind_ret.
  unfold get_current_time_us. cbv zeta. simpl nodes. simpl free_span_list_. rewrite He.
  rewrite He in Hdf. apply lists_nodup in Hl as [Hnd1 Hnd2].
  assert (cur ++ (e, d) :: free ≡ₚ (e, d) :: cur ++ free) as Hmid by (symmetry; apply Permutation_middle).
  destruct (list_move_spec (nodes w1) e [] e d free (current_span_list_ t) cur)
    as (h1 & h2 & E1 & E2 & D1 & D2 & _); [done|done| |].
  { rewrite fmap_app in Hnd1. apply NoDup_app in Hnd1 as (_ & Hd & _). intros a Ha Ha'. by apply (Hd a). }
  rewrite E1, bind_ret. simpl current_span_list_. rewrite E2, bind_ret.
  eexists _, _. split; [done|]. split_and!; [|done|].
  2: { intros _. eexists _, ((e, d) :: cur), e. split_and!; [done|done|].
       rewrite Z2Nat.id; [by left|]. lia. }
  eexists _, ((e, d) :: cur), free, ft, ([] :: ct). split; [done|].
  split_and!; [| | | |by apply (bufs_ok_ext t)].
  - split_and!; [done|done|]. by rewrite <- Hperm, Hmid.
  - intros q Hq. simpl. destruct (decide (Z.to_nat d = q)) as [<-|];
      [by rewrite lookup_insert_eq|rewrite lookup_insert_ne by done; by apply Hsp].
  - by right.
  - split_and!; [done| |done|done]. simpl. constructor.
    + eexists. simpl. rewrite lookup_insert_eq. by split_and!.
    + eapply all_span_tags_ext, Hct; [|done]. intros x Hx. apply lookup_insert_ne. intros Heq.
      rewrite Hmid, map_cons in Hnd2. apply NoDup_cons in Hnd2 as [Hni _]. apply Hni.
      cbn [snd]. rewrite Heq. apply list_elem_of_fmap. exists x. split; [done|].
      apply elem_of_app. by left.
Qed.


End ops.

(** ** Initialization establishes the invariant *)

Definition junk_ok (j : Junk) : Prop :=
  length (junk_log j) = Z.to_nat MAX_TRACE_LOG_SIZE /\ length (junk_show j) = Z.to_nat MAX_TRACE_LOG_SIZE /\
  length (junk_flt j) = Z.to_nat MAX_FLT_SERIALIZE_SIZE.

Lemma tag_addr_val k : tag_addr k = Z.to_nat (4096 + k * 24).
Proof. reflexivity. Qed.
Lemma node_addr_val k : node_addr k = Z.to_nat (4480 + k * 88).
Proof. reflexivity. Qed.

Lemma init_tags_chain j count : forall ts p l index,
  tchain ts p l -> 0 <= index ->
  (forall k, index <= k < index + Z.of_nat count -> tag_addr k ∉ l) ->
  exists ts' p' l', init_tags j ts p index count = (ts', p') /\ tchain ts' p' l' /\
    l' = rev (map (fun i => tag_addr (index + Z.of_nat i)) (seq 0 count)) ++ l.
Proof.
  induction count as [|count IH]; intros ts p l index Hc Hi Hni; [by eexists _, _, _|].
  cbn [init_tags]. cbv zeta.
  destruct (IH (<[tag_addr index := Tag p (tag_type_ (junk_tag j)) (data_ (junk_tag j))]> ts)
    (tag_addr index) (tag_addr index :: l) (index + 1)) as (ts' & p' & l' & E & Hc' & ->).
  - simpl. split_and!; [done|rewrite tag_addr_val; lia|].
    eexists. rewrite lookup_insert_eq. split; [done|]. apply tchain_insert; [|done]. apply Hni. lia.
  - lia.
  - intros k Hk. apply not_elem_of_cons. split; [|apply Hni; lia].
    rewrite !tag_addr_val. lia.
  - exists ts', p'. eexists. split_and!; [exact E|exact Hc'|].
    rewrite <- cons_seq, <- seq_shift, map_cons, map_map. simpl rev. rewrite <- app_assoc.
    rewrite Z.add_0_r. f_equal. f_equal. apply map_ext. intros. f_equal. lia.
Qed.

(** One round of the span loop. *)
Lemma init_spans_step j h sp p index count l :
  dll h p l -> node_addr index <> NULL -> node_addr index ∉ l.*1 ->
  exists h', dll h' (node_addr index) ((node_addr index, Z.of_nat (span_addr index)) :: l) /\
    init_spans j h sp p index (S count) =
    init_spans j h' (<[span_addr index := junk_span j]> sp) (node_addr index) (index + 1) count.
Proof.
  intros Hd Hn Hni. cbn [init_spans]. cbv zeta. set (n := Node _ _ _).
  destruct (list_add_head (<[node_addr index := n]> h) p l (node_addr index) n) as (h' & E & D & _);
    [|apply lookup_insert_eq|done|done|].
  { eapply dll_frame, Hd. intros a Ha. apply lookup_insert_ne. by intros <-. }
  exists h'. split; [exact D|]. by rewrite E, bind_ret.
Qed.

Lemma init_spans_ok j :
  exists h sp p, init_spans j ∅ ∅ NULL 0 4 = Ret (h, sp, p) /\ dll h p cache /\ spans_ok sp.
Proof.
  pose proof (dll_nil ∅) as D0.
  assert (forall i, 0 <= i -> node_addr i <> NULL) as Hnn
    by (intros; rewrite node_addr_val; lia).
  destruct (init_spans_step j ∅ ∅ NULL 0 3 [] D0) as (h1 & D1 & ->); [by apply Hnn|set_solver|].
  destruct (init_spans_step j h1 (<[span_addr 0 := junk_span j]> ∅) _ (0 + 1) 2 _ D1) as (h2 & D2 & ->);
    [by apply Hnn|by apply (bool_decide_unpack _); vm_compute|].
  destruct (init_spans_step j h2 (<[span_addr (0 + 1) := junk_span j]> (<[span_addr 0 := junk_span j]> ∅))
    _ (0 + 1 + 1) 1 _ D2) as (h3 & D3 & ->); [by apply Hnn|by apply (bool_decide_unpack _); vm_compute|].
  destruct (init_spans_step j h3 (<[span_addr (0 + 1 + 1) := junk_span j]>
    (<[span_addr (0 + 1) := junk_span j]> (<[span_addr 0 := junk_span j]> ∅)))
    _ (0 + 1 + 1 + 1) 0 _ D3) as (h4 & D4 & ->); [by apply Hnn|by apply (bool_decide_unpack _); vm_compute|].
  eexists _, _, _. split_and!; [done|exact D4|].
  intros q Hq. unfold span_locs in Hq. simpl map in Hq. rewrite !elem_of_cons, elem_of_nil in Hq.
  change (0 + 1 + 1 + 1) with 3. change (0 + 1 + 1) with 2. change (0 + 1) with 1.
  rewrite !lookup_insert_is_Some'. destruct Hq as [->|[->|[->|[->|[]]]]]; auto 10.
Qed.

Lemma trace_init_ok j urandom f :
  junk_ok j ->
  exists w, trace_init (Some j) urandom (Some f) =
    Ret (match urandom with Some _ => OB_SUCCESS | None => OB_ERROR end, w) /\ wf w /\ the_flt w = Some f.
Proof.
  intros (H1 & H2 & H3). unfold MAX_TRACE_LOG_SIZE in *. unfold trace_init.
  rewrite store_in, bind_ret by lia.
  destruct (init_tags_chain j 16 ∅ NULL [] 0) as (ts & p & l & E & Hc & Hl); [done|lia|set_solver|].
  change (Z.to_nat TAG_CACHE_COUNT) with 16%nat. rewrite E.
  destruct (init_spans_ok j) as (h & sp & q & E2 & D & Hsp).
  change (Z.to_nat SPAN_CACHE_COUNT) with 4%nat. rewrite E2, bind_ret.
  assert (exists sd, uuid4_init urandom (0, 0) =
    (match urandom with Some _ => OB_SUCCESS | None => OB_ERROR end, sd)) as [sd ->]
    by (destruct urandom; by eexists).
  eexists. split; [done|]. split; [|done]. rewrite app_nil_r in Hl.
  eexists _, [], cache, l, []. split; [reflexivity|].
  split; [|split; [exact Hsp|split; [by left|split]]].
  - split; [exact (dll_nil h)|]. split; [exact D|apply Permutation_refl].
  - split; [exact Hc|]. split; [constructor|]. simpl concat. rewrite app_nil_r. clear Hc E. subst l.
    split; [apply (bool_decide_unpack _); vm_compute; exact I|].
    intros x Hx. apply list_elem_of_In in Hx. apply in_rev in Hx. by apply list_elem_of_In.
  - split; cbn; rewrite ?length_insert; try assumption; try (unfold MAX_TRACE_LOG_SIZE; lia).
    + split; [constructor|lia].
    + split; [|lia]. destruct (junk_show j); [done|]. repeat constructor; lia.
Qed.

(** * Histories of a connection *)

(** Rounds that are enough for the loops: a flush adds at least one byte to the log
    buffer per round, there are four spans and sixteen tags. *)
Definition flush_fuel : nat := 1025.
Definition tag_fuel : nat := 16.
Definition span_fuel : nat := 4.

(** What the driver does with a trace, in any order: the operations of the FLT_*
    macros, and control information arriving from the server. *)
Inductive step (now : nat -> Z) : World -> World -> Prop :=
| step_begin_trace w w' : begin_trace now w = Ret w' -> step now w w'
| step_end_trace w w' : end_trace now span_fuel w = Ret w' -> step now w w'
| step_begin_span w w' p typ level fol :
    begin_span now flush_fuel tag_fuel w typ level fol = Ret (w', p) -> step now w w'
| step_end_span w w' p :
    p = NULL \/ current_span w p -> end_span now w p = Ret w' -> step now w w'
| step_reset_span w w' : reset_span span_fuel w = Ret w' -> step now w w'
| step_append_tag w w' p typ s :
    p ∈ span_locs -> typ = 0 \/ typ = 1 -> (exists chars, is_cstr s chars) ->
    append_tag w p typ s = Ret w' -> step now w w'
| step_flush_trace w w' : flush_trace flush_fuel tag_fuel w = Ret w' -> step now w w'
| step_flush_first_span w w' :
    first_span_tagged w -> flush_first_span tag_fuel w = Ret w' -> step now w w'
| step_control w f : step now w (set_the_flt w (Some f)).

Definition good (w : World) : Prop := wf w /\ is_Some (the_flt w).

Lemma good_of w w' : is_Some (the_flt w) -> wf w' -> the_flt w' = the_flt w -> good w'.
Proof. intros H ? Heq. split; [done|by rewrite Heq]. Qed.

(** Two equations for the same computation. *)
Ltac same_result :=
  match goal with H1 : ?m = Ret _, H2 : ?m = Ret _ |- _ => rewrite H1 in H2; simplify_eq end.

Lemma step_good now w w' : step now w w' -> good w -> good w'.
Proof.
  intros Hs [Hwf Hf]. destruct Hs.
  - destruct (begin_trace_ok now w Hwf) as (x & ? & ? & ?). same_result. by apply (good_of w).
  - destruct (end_trace_ok now span_fuel w Hwf) as (x & ? & ? & ?); [done|]. same_result. by apply (good_of w).
  - destruct (begin_span_ok now flush_fuel tag_fuel w typ level fol Hwf) as (x & q & ? & ? & ? & ?);
      [apply Nat.leb_le; reflexivity|apply Nat.leb_le; reflexivity|done|]. same_result. by apply (good_of w).
  - destruct (end_span_ok now w p Hwf) as (x & ? & ? & ?); [done|]. same_result. by apply (good_of w).
  - destruct (reset_span_ok span_fuel w Hwf) as (x & ? & ? & ?); [done|]. same_result. by apply (good_of w).
  - destruct (append_tag_ok now w p typ s Hwf) as (x & ? & ? & ?); [done..|]. same_result. by apply (good_of w).
  - destruct (flush_trace_ok flush_fuel tag_fuel w Hwf) as (x & ? & ? & ?);
      [apply Nat.leb_le; reflexivity|apply Nat.leb_le; reflexivity|]. same_result. by apply (good_of w).
  - destruct (flush_first_span_ok tag_fuel w Hwf) as (x & ? & ? & ?);
      [apply Nat.leb_le; reflexivity|done|]. same_result. by apply (good_of w).
  - split; [exact Hwf|by eexists].
Qed.

Lemma reachable_good now w w' : rtc (step now) w w' -> good w -> good w'.
Proof. induction 1; eauto using step_good. Qed.

(** C10: from initialization on, whatever the driver does with the trace and in whatever
    order, each of the four cached spans is in exactly one of the two doubly linked
    span lists, every current span has its own chain of printable tags disjoint from
    the chain of free tags, the parents of current spans are spans of the cache, and
    both text buffers have room left. *)
Theorem trace_invariant now j sd f w0 w ret :
  junk_ok j -> trace_init (Some j) sd (Some f) = Ret (ret, w0) -> rtc (step now) w0 w ->
  exists t cur free ft ct, the_trace w = Some t /\
    dll (nodes w) (current_span_list_ t) cur /\ dll (nodes w) (free_span_list_ t) free /\
    cur ++ free ≡ₚ cache /\
    tchain (tags w) (free_tag_list_ t) ft /\
    Forall2 (fun x l => exists s, spans w !! Z.to_nat x.2 = Some s /\ tchain (tags w) (tags_ s) l /\
      Forall (printable_at (tags w)) l /\ span_ptr (source_span_ s)) cur ct /\
    NoDup (ft ++ concat ct) /\
    length (log_buf_ t) = 1024%nat /\ 0 <= log_buf_offset_ t < 1024 /\
    length (show_trace_buf_ t) = 1024%nat /\ 0 <= show_trace_buf_offset_ t < 1024.
Proof.
  intros Hj Hi Hr. destruct (trace_init_ok j sd f Hj) as (w1 & E & Hwf & Hflt). rewrite E in Hi.
  injection Hi as _ <-.
  assert (good w) as [(t & cur & free & ft & ct & Ht & Hinv) _].
  { eapply reachable_good; [exact Hr|]. split; [done|by rewrite Hflt]. }
  destruct Hinv as ((Hd1 & Hd2 & Hp) & _ & _ & (Hft & Hct & Hnd & _) & [Hb1 Hb2 Hb3 Hb4]).
  unfold MAX_TRACE_LOG_SIZE in *. exists t, cur, free, ft, ct.
  repeat (split; [first [assumption|lia]|]). lia.
Qed.

(** C11: in every state that invariant describes, each operation returns: no access
    outside an object, no unbounded loop; flush_first_span when the first current span
    has a tag (without one it reads an uninitialized variable), end_span for NULL or a
    current span, append_tag for a span of the trace and one of the two tag types.  The number of rounds is at most four for
    the loops over spans, sixteen for tags and 1025 for a flush; the last bound is
    needed because a span that has not ended stays in the list and is logged again
    until the buffer is full. *)
Theorem trace_operations_return now w typ level fol p tagtyp s :
  good w -> p ∈ span_locs -> tagtyp = 0 \/ tagtyp = 1 -> (exists chars, is_cstr s chars) ->
  returns (begin_trace now w) /\ returns (end_trace now span_fuel w) /\
  returns (begin_span now flush_fuel tag_fuel w typ level fol) /\ returns (reset_span span_fuel w) /\
  returns (append_tag w p tagtyp s) /\ returns (flush_trace flush_fuel tag_fuel w) /\
  (first_span_tagged w -> returns (flush_first_span tag_fuel w)) /\
  (forall q, q = NULL \/ current_span w q -> returns (end_span now w q)).
Proof.
  intros [Hwf Hf] Hp Ht Hs.
  assert (16 <= tag_fuel)%nat by (apply Nat.leb_le; reflexivity).
  assert (1025 <= flush_fuel)%nat by (apply Nat.leb_le; reflexivity).
  split_and!.
  - destruct (begin_trace_ok now w Hwf) as (x & -> & _). by exists x.
  - destruct (end_trace_ok now span_fuel w Hwf) as (x & -> & _); [done|]. by exists x.
  - destruct (begin_span_ok now flush_fuel tag_fuel w typ level fol Hwf) as (x & q & -> & _); [done..|].
    by eexists.
  - destruct (reset_span_ok span_fuel w Hwf) as (x & -> & _); [done|]. by exists x.
  - destruct (append_tag_ok now w p tagtyp s Hwf) as (x & -> & _); [done..|]. by exists x.
  - destruct (flush_trace_ok flush_fuel tag_fuel w Hwf) as (x & -> & _); [done..|]. by exists x.
  - intros Hfirst. destruct (flush_first_span_ok tag_fuel w Hwf) as (x & -> & _); [done..|]. by exists x.
  - intros q Hq. destruct (end_span_ok now w q Hwf) as (x & -> & _); [done..|]. by exists x.
Qed.

(** ** A concrete connection *)

Definition demo_junk : Junk :=
  {| junk_tag := Tag 0 7 None; junk_node := Node 5 6 0;
     junk_span := Span 9 (UUID 1 1) 77 true 3 4 55;
     junk_log := repeat 170 1024; junk_show := repeat 170 1024; junk_flt := repeat 170 2048 |}.

Definition demo_flt : FLTInfo :=
  {| show_trace_span_ := {| sts_type_ := FLT_TYPE_SHOW_TRACE_SPAN; client_span_json_ := None |};
     flt_client_span := {| drv_type_ := FLT_DRIVER_SPAN_INFO; client_span_ := None |};
     control_info_ := {| ctl_type_ := FLT_CONTROL_INFO; level_ := 1; sample_pct_ := 0x3ff0000000000000;
                         rp_ := RP_ALL; print_sample_pct_ := 0x3ff0000000000000;
                         slow_query_threshold_ := -1; flt_show_trace_enable_ := 0 |};
     app_info_ := {| app_type_ := FLT_APP_INFO; identifier_ := None; module_ := None;
                     action_ := None; client_info_ := None |};
     query_info_ := {| qry_type_ := FLT_QUERY_INFO; query_start_timestamp_ := 0;
                       query_end_timestamp_ := 0 |};
     span_info_ := {| spn_type_ := FLT_SPAN_INFO; trace_enable_ := 0; force_print_ := 0;
                      trace_id_ := None; ref_type_ := 0; span_id_ := None |};
     value_data_ := None; value_length := 0; in_trans_ := false;
     flt_trace_id := repeat 0 16; flt_span_id := repeat 0 16 |}.

Definition demo_now (k : nat) : Z := 1000 + Z.of_nat k.

Lemma demo_junk_ok : junk_ok demo_junk.
Proof. split_and!; reflexivity. Qed.

Lemma trace_invariant_witness :
  exists w0 w t, trace_init (Some demo_junk) (Some (1, 2)) (Some demo_flt) = Ret (OB_SUCCESS, w0) /\
    begin_trace demo_now w0 = Ret w /\ the_trace w = Some t.
Proof.
  destruct (trace_init_ok demo_junk (Some (1, 2)) demo_flt demo_junk_ok) as (w0 & E & Hwf & _).
  destruct (begin_trace_ok demo_now w0 Hwf) as (w & Eb & _).
  destruct (trace_invariant demo_now demo_junk (Some (1, 2)) demo_flt w0 w OB_SUCCESS)
    as (t & cur & free & ft & ct & Ht & _); [exact demo_junk_ok|exact E| |].
  - eapply rtc_once, step_begin_trace. exact Eb.
  - exists w0, w, t. split; [exact E|]. split; [exact Eb|exact Ht].
Defined.

Lemma trace_operations_return_witness :
  exists w, trace_init (Some demo_junk) None (Some demo_flt) = Ret (OB_ERROR, w) /\
    returns (flush_trace flush_fuel tag_fuel w).
Proof.
  destruct (trace_init_ok demo_junk None demo_flt demo_junk_ok) as (w & E & Hwf & Hf).
  exists w. split; [exact E|].
  apply (trace_operations_return demo_now w 1 1 false (span_addr 0) 0 (Some [65; 0])).
  - split; [exact Hwf|rewrite Hf; eexists; reflexivity].
  - apply (bool_decide_unpack _). vm_compute. exact I.
  - left. reflexivity.
  - exists [65], []. split; [reflexivity|]. repeat constructor.
Defined.

(** * What the code gets wrong *)

(** [end_trace] puts all current spans back but not their tags: the chain of free
    tags is the one it found, and the tags of the spans that were current are in no
    chain any more.  [flush_trace] is the only operation that returns tags. *)
Theorem end_trace_loses_tags now w t cur free ft ct :
  the_trace w = Some t -> inv w t cur free ft ct ->
  exists w' t' free', end_trace now span_fuel w = Ret w' /\ the_trace w' = Some t' /\
    inv w' t' [] free' ft [] /\ length free' = 4%nat.
Proof.
  intros Ht Hinv. unfold end_trace. rewrite Ht. pose proof (cur_length _ _ _ _ _ _ Hinv).
  destruct (end_trace_loop_ok now span_fuel w t cur free ft ct Hinv) as (w' & t' & free' & -> & Hinv' & _);
    [done|].
  rewrite bind_ret. eexists _, _, free'. split_and!; [done|done| |].
  - destruct Hinv' as (? & ? & _ & ? & [? ? ? ? ? ? ?]). split_and!; try done. by left.
  - destruct Hinv' as ((_ & _ & Hp) & _). apply Permutation_length in Hp. done.
Qed.

(** The free tags of a world. *)
Fixpoint count_tags (fuel : nat) (ts : gmap loc ObTagCtx) (p : loc) : nat :=
  match fuel with
  | O => 0
  | S fuel' => match ts !! p with Some t => S (count_tags fuel' ts (tag_next t)) | None => 0 end
  end.

Definition free_tags (w : World) : nat :=
  match the_trace w with Some t => count_tags 17 (tags w) (free_tag_list_ t) | None => 0 end.

(** One traced command: begin a trace and a span and tag it. *)
Definition demo_command (w : World) : cres (World * loc) :=
  w ← begin_trace demo_now w;
  '(w, p) ← begin_span demo_now flush_fuel tag_fuel w 1 1 false;
  w ← append_tag w p 0 (Some (str "x" ++ [0]));
  Ret (w, p).

Definition demo_world : cres World :=
  '(_, w) ← trace_init (Some demo_junk) (Some (1, 2)) (Some demo_flt); Ret w.

Lemma end_trace_loses_tags_witness :
  exists w t, demo_world = Ret w /\ the_trace w = Some t /\
    exists w', end_trace demo_now span_fuel w = Ret w' /\ is_Some (the_trace w').
Proof.
  destruct (trace_init_ok demo_junk (Some (1, 2)) demo_flt demo_junk_ok)
    as (w & E & (t & cur & free & ft & ct & Ht & Hinv) & _).
  exists w, t. split; [unfold demo_world; rewrite E; reflexivity|]. split; [exact Ht|].
  destruct (end_trace_loses_tags demo_now w t cur free ft ct Ht Hinv) as (w' & t' & free' & E' & Ht' & _).
  exists w'. split; [exact E'|]. rewrite Ht'. eexists; reflexivity.
Defined.

(** A command whose trace is closed with [end_trace] costs one of the sixteen tags
    for good; flushed instead, it costs none. *)
Theorem tag_leak_run :
  (w ← demo_world; '(w, p) ← demo_command w; w ← end_span demo_now w p;
   w ← end_trace demo_now span_fuel w; Ret (free_tags w)) = Ret 15%nat /\
  (w ← demo_world; '(w, p) ← demo_command w; w ← end_span demo_now w p;
   w ← flush_trace flush_fuel tag_fuel w; Ret (free_tags w)) = Ret 16%nat.
Proof. split; vm_compute; reflexivity. Qed.

(** [flush_first_span] prints its local buffer with [%s] although nothing was
    written to it when the span has no tag, which happens once the tags are used up. *)
Theorem flush_first_span_uninitialized :
  (w ← demo_world; w ← begin_trace demo_now w;
   '(w, p) ← begin_span demo_now flush_fuel tag_fuel w 1 1 false;
   w ← end_span demo_now w p; flush_first_span tag_fuel w) = Fault.
Proof. vm_compute. reflexivity. Qed.

(** Flushing while a span is still open logs the same line again and again until
    the 1024-byte buffer is full: here four identical copies of a 237-byte line. *)
Theorem flush_repeats_open_span :
  exists w t, (w ← demo_world; '(w, _) ← demo_command w; flush_trace flush_fuel tag_fuel w) = Ret w /\
    the_trace w = Some t /\ log_buf_offset_ t = 4 * 237 /\
    (forall k, (k < 4)%nat -> load_bytes (log_buf_ t) (237 * Z.of_nat k) 237 =
                             load_bytes (log_buf_ t) 0 237).
Proof.
  eexists _, _. split; [vm_compute; reflexivity|]. split; [reflexivity|]. split; [vm_compute; reflexivity|].
  intros k Hk. do 4 (destruct k as [|k]; [vm_compute; reflexivity|]). lia.
Qed.

End TraceInv.
