(* ===== verification/Protocol20.v ===== *)
(** libmariadb/ob_protocol20.c: the OceanBase 2.0 packet header with its checksum and
    request counter, and the extra-information items that travel between header and
    payload.

    The list of items is a [LIST] of ma_list.c; node and item are one allocation, so
    the item dies with its node.  [vals] holds the FLTValueData objects that the items
    point to.  A pointer into a packet is its offset. *)

From stdpp Require Import tactics gmap.
From S2P Require Import Prelude IntStore Serialize MaList FltCodec CrcBits Crc16 Uuid Trace.
Import Serialize MaList FltCodec Crc16 Trace.

Module Protocol20.

Definition UINT24_MAX : Z := 16777215.
Definition EXTRA_TYPE_LENGTH : Z := 2.
Definition EXTRA_LEN_LENGTH : Z := 4.
Definition NET_HEADER_SIZE : Z := 4.
Definition COMP_HEADER_SIZE : Z := 3.
Definition OB20_PROTOCOL_MAGIC_NUM : Z := 0x20AB.
Definition OB20_PROTOCOL_VERSION_VALUE : Z := 20.

(** ExtraInfoKeyType *)
Definition FULL_TRC : Z := 2003.
Definition OB20_SVR_END : Z := 2004.

Record Ob20ProtocolHeader : Type := {
  magic_num : Z; version : Z; connection_id : Z; request_id : Z; pkt_seq : Z; payload_len : Z;
  flags : Z; reserved : Z; header_checksum : Z }.

Record Ob20ProtocolExtraInfo : Type := { key : Z; value : loc }.

Record Ob20Protocol : Type := {
  header : Ob20ProtocolHeader; extra_list : loc; extra_current : loc; checksum : Z;
  real_write_buffer : ptr; real_write_buffer_length : Z; flt : option FLTInfo;
  update_request_id_flag : bool }.

(** The protocol object and the objects it points to. *)
Record PState : Type := {
  prot : Ob20Protocol; pnodes : heap; items : gmap loc Ob20ProtocolExtraInfo;
  vals : gmap loc (ptr * Z) }.

Definition set_header (p : Ob20Protocol) (h : Ob20ProtocolHeader) : Ob20Protocol :=
  Build_Ob20Protocol h (extra_list p) (extra_current p) (checksum p) (real_write_buffer p)
    (real_write_buffer_length p) (flt p) (update_request_id_flag p).
Definition set_extra (p : Ob20Protocol) (l c : loc) : Ob20Protocol :=
  Build_Ob20Protocol (header p) l c (checksum p) (real_write_buffer p)
    (real_write_buffer_length p) (flt p) (update_request_id_flag p).
Definition set_flt (p : Ob20Protocol) (f : option FLTInfo) : Ob20Protocol :=
  Build_Ob20Protocol (header p) (extra_list p) (extra_current p) (checksum p) (real_write_buffer p)
    (real_write_buffer_length p) f (update_request_id_flag p).
Definition set_prot (s : PState) (p : Ob20Protocol) : PState :=
  Build_PState p (pnodes s) (items s) (vals s).

(** * Request numbers *)

Definition update_request_id (request_id : Z) : Z :=
  let request_id := u32 (request_id + 1) in
  if request_id >? UINT24_MAX then 0 else request_id.

(** * Life cycle *)

(** [rand] is the result of rand(); [flt_mem] is [None] when use_flt is off, otherwise
    what malloc and flt_init gave: the FLTInfo and the return code. *)
Definition ob20_init (conid rand : Z) (flt_mem : option (option FLTInfo * Z)) : Z * PState :=
  let '(f, ret) := match flt_mem with
                   | None => (None, OB_SUCCESS)
                   | Some (None, _) => (None, OB_ERROR)
                   | Some (Some f, r) => (Some f, r)
                   end in
  (ret,
   {| prot :=
        {| header := {| magic_num := OB20_PROTOCOL_MAGIC_NUM; version := OB20_PROTOCOL_VERSION_VALUE;
                        connection_id := u32 conid; request_id := u32 (Z.rem rand 0x00FFFFFF);
                        pkt_seq := 0; payload_len := 0; flags := 0; reserved := 0; header_checksum := 0 |};
           extra_list := NULL; extra_current := NULL; checksum := 0; real_write_buffer := None;
           real_write_buffer_length := 0; flt := f; update_request_id_flag := true |};
      pnodes := ∅; items := ∅; vals := ∅ |}).

(** The loop of clear_extra_info; [list_free] frees the whole chain from its argument. *)
Fixpoint clear_loop (fuel : nat) (h : heap) (list current : loc) : cres heap :=
  if is_null list then Ret h
  else match fuel with
  | O => OutOfFuel
  | S fuel' =>
      n ← get h list;
      let list := next n in
      h ← list_free fuel h current;
      clear_loop fuel' h list list
  end.

Definition clear_extra_info (fuel : nat) (s : PState) : cres PState :=
  let l := extra_list (prot s) in
  h ← clear_loop fuel (pnodes s) l l;
  Ret (Build_PState (set_extra (prot s) NULL NULL) h (items s) (vals s)).

Definition ob20_end (fuel : nat) (s : PState) : cres PState :=
  s ← clear_extra_info fuel s;
  let p := prot s in
  Ret (set_prot s (Build_Ob20Protocol (header p) (extra_list p) (extra_current p) (checksum p) None
    (match real_write_buffer p with None => real_write_buffer_length p | Some _ => 0 end)
    None (update_request_id_flag p))).

(** * Packet header *)

(** The three stores to the MySQL headers. *)
Definition fill_net_headers (len pkt_nr complen : Z) (buffer : bytes) : cres bytes :=
  b ← int3store buffer NET_HEADER_SIZE complen;
  b ← int3store b 0 len;
  store b 3 pkt_nr.

(** Returns the protocol, the buffer and the position after the header. *)
Definition fill_protocol20_header (p : Ob20Protocol) (len pkt_nr complen : Z) (buffer : bytes)
    : cres (Ob20Protocol * bytes * Z) :=
  let h := header p in
  b ← fill_net_headers len pkt_nr complen buffer;
  let pos := 0 + (NET_HEADER_SIZE + COMP_HEADER_SIZE) in
  b ← int2store b pos (magic_num h);
  let pos := pos + 2 in
  b ← int2store b pos (version h);
  let pos := pos + 2 in
  b ← int4store b pos (connection_id h);
  let pos := pos + 4 in
  b ← int3store b pos (request_id h);
  let pos := pos + 3 in
  let seq := u8 pkt_nr in
  b ← int1store b pos seq;
  let pos := pos + 1 in
  b ← int4store b pos (payload_len h);
  let pos := pos + 4 in
  b ← int4store b pos (flags h);
  let pos := pos + 4 in
  b ← int2store b pos (reserved h);
  let pos := pos + 2 in
  crc ← ob_crc16 0 b 0 pos;
  b ← int2store b pos crc;
  let pos := pos + 2 in
  Ret (set_header p (Build_Ob20ProtocolHeader (magic_num h) (version h) (connection_id h) (request_id h)
         seq (payload_len h) (flags h) (reserved h) crc), b, pos).

(** [buffer] starts after the two MySQL headers. *)
Definition decode_protocol20_header (p : Ob20Protocol) (buffer : bytes) (pkt_len pkt_nr complen : Z)
    : cres (Z * Ob20Protocol) :=
  let h := header p in
  magic ← uint2korr buffer 0;
  ver ← uint2korr buffer 2;
  conn ← uint4korr buffer 4;
  req ← uint3korr buffer 8;
  seq ← uint1korr buffer 11;
  plen ← uint4korr buffer 12;
  flag ← uint4korr buffer 16;
  resv ← uint2korr buffer 20;
  hcrc ← uint2korr buffer 22;
  crc16 ←
    (if negb (0 =? hcrc) then
       hb ← int3store (repeat 0 7) 0 pkt_len;
       hb ← store hb 3 pkt_nr;
       hb ← int3store hb NET_HEADER_SIZE complen;
       c ← ob_crc16 0 hb 0 (NET_HEADER_SIZE + COMP_HEADER_SIZE);
       ob_crc16 c buffer 0 22
     else Ret 0);
  if negb (crc16 =? hcrc) then Ret (1, p)
  else if negb (magic =? magic_num h) then Ret (1, p)
  else if negb (ver =? version h) then Ret (1, p)
  else if negb (conn =? connection_id h) then Ret (1, p)
  else if negb (req =? request_id h) then Ret (1, p)
  else
    let next_seq := u8 (pkt_seq h + 1) in
    if negb (seq =? next_seq) then
      Ret (1, set_header p (Build_Ob20ProtocolHeader (magic_num h) (version h) (connection_id h)
                (request_id h) next_seq (payload_len h) (flags h) (reserved h) (header_checksum h)))
    else
      Ret (0, set_header p (Build_Ob20ProtocolHeader (magic_num h) (version h) (connection_id h)
                (request_id h) seq plen flag resv hcrc)).

(** * Extra information *)

(** Writes to [mem + base + pos]; returns (ret, mem, *ppos). *)
Definition extrainfo_serialize_flt (mem : bytes) (base len ppos : Z) (flt_data : ptr * Z)
    : cres (Z * bytes * Z) :=
  let pos := ppos in
  let v_len := s64 flt_data.2 in
  if len <? pos + EXTRA_TYPE_LENGTH + EXTRA_LEN_LENGTH + v_len then Ret (OB_ERROR, mem, ppos)
  else
    mem ← int2store mem (base + pos) FULL_TRC;
    let pos := pos + 2 in
    mem ← int4store mem (base + pos) v_len;
    let pos := pos + 4 in
    src ← deref flt_data.1;
    data ← (if v_len <? 0 then Fault else load_bytes src 0 (Z.to_nat v_len));
    mem ← store_bytes mem (base + pos) data;
    Ret (OB_SUCCESS, mem, pos + v_len).

Definition extrainfo_get_serialize_size_flt (data : option (ptr * Z)) : Z :=
  match data with
  | None => 0
  | Some d => s64 (EXTRA_TYPE_LENGTH + EXTRA_LEN_LENGTH + d.2)
  end.

(** Which record of the FLTInfo a type selects, and putting it back.  A span record is
    read into the control record. *)
Definition flt_select (type : Z) (f : FLTInfo) : option (flt_obj * (flt_obj -> FLTInfo)) :=
  let put_control o := match o with
    | ControlInfo c => Flt (show_trace_span_ f) (flt_client_span f) c (app_info_ f) (query_info_ f)
                         (span_info_ f) (value_data_ f) (value_length f) (in_trans_ f)
                         (flt_trace_id f) (flt_span_id f)
    | _ => f end in
  let c := control_info_ f in
  if type =? FLT_CONTROL_INFO then
    Some (ControlInfo (Build_FLTControlInfo type (level_ c) (sample_pct_ c) (rp_ c) (print_sample_pct_ c)
            (slow_query_threshold_ c) (flt_show_trace_enable_ c)), put_control)
  else if type =? FLT_APP_INFO then
    let a := app_info_ f in
    Some (AppInfo (Build_FLTAppInfo type (identifier_ a) (module_ a) (action_ a) (client_info_ a)),
      fun o => match o with
        | AppInfo a => Flt (show_trace_span_ f) (flt_client_span f) c a (query_info_ f) (span_info_ f)
                         (value_data_ f) (value_length f) (in_trans_ f) (flt_trace_id f) (flt_span_id f)
        | _ => f end)
  else if type =? FLT_QUERY_INFO then
    let q := query_info_ f in
    Some (QueryInfo (Build_FLTQueryInfo type (query_start_timestamp_ q) (query_end_timestamp_ q)),
      fun o => match o with
        | QueryInfo q => Flt (show_trace_span_ f) (flt_client_span f) c (app_info_ f) q (span_info_ f)
                           (value_data_ f) (value_length f) (in_trans_ f) (flt_trace_id f) (flt_span_id f)
        | _ => f end)
  else if type =? FLT_SPAN_INFO then
    Some (ControlInfo (Build_FLTControlInfo type (level_ c) (sample_pct_ c) (rp_ c) (print_sample_pct_ c)
            (slow_query_threshold_ c) (flt_show_trace_enable_ c)), put_control)
  else None.

(** The loop of extrainfo_deserialize_flt over [mem + base], in offsets from [base].
    Returns (ret, pos, flt). *)
Fixpoint deserialize_flt_loop (fuel : nat) (mem : bytes) (base len pos : Z) (f : option FLTInfo)
    : cres (Z * Z * option FLTInfo) :=
  if pos <? len then
    match fuel with
    | O => OutOfFuel
    | S fuel' =>
        '(ret, apos, type, tmp_v_len) ←
          flt_resolve_type_and_len (Some mem) (base + len) (base + pos) 2052 0;
        if negb (ret =? OB_SUCCESS) then Ret (OB_ERROR, pos, f)
        else
          let pos := apos - base in
          if (type =? FLT_CONTROL_INFO) || (type =? FLT_APP_INFO) || (type =? FLT_QUERY_INFO) ||
             (type =? FLT_SPAN_INFO) then
            fi ← of_option f;
            '(o, put) ← of_option (flt_select type fi);
            if apos <? 0 then Fault
            else
              '(ret, _, o) ← flt_deserialize_extra_info fuel' (Some (drop (Z.to_nat apos) mem)) tmp_v_len 0
                               type o;
              let f := Some (put o) in
              if negb (ret =? OB_SUCCESS) then Ret (OB_ERROR, pos, f)
              else deserialize_flt_loop fuel' mem base len (pos + tmp_v_len) f
          else deserialize_flt_loop fuel' mem base len (pos + tmp_v_len) f
    end
  else Ret (OB_SUCCESS, pos, f).

Definition extrainfo_deserialize_flt (fuel : nat) (mem : bytes) (base len ppos : Z) (p : Ob20Protocol)
    : cres (Z * Z * Ob20Protocol) :=
  '(ret, pos, f) ← deserialize_flt_loop fuel mem base len ppos (flt p);
  Ret (ret, if ret =? OB_SUCCESS then pos else ppos, set_flt p f).

(** The table extra_serialize_funcs after OB20_SERIALIZE_FUNC_INIT: the functions of
    FULL_TRC, NULL elsewhere, nothing behind its end. *)
Definition has_funcs (key : Z) : cres bool :=
  if (key <? 0) || (OB20_SVR_END + 1 <=? key) then Fault else Ret (key =? FULL_TRC).

Definition get_item (s : PState) (node : loc) : cres Ob20ProtocolExtraInfo :=
  n ← get (pnodes s) node; of_option (items s !! Z.to_nat (data n)).

(** The loop of fill_protocol20_extra_info: the function is called whether or not the
    test for NULL succeeded, and with [packet + pos] and [&pos] both. *)
Fixpoint fill_loop (fuel : nat) (s : PState) (mem : bytes) (base buffer_len pos : Z) (current : loc)
    : cres (Z * bytes * Z * loc) :=
  if is_null current then Ret (OB_SUCCESS, mem, pos, current)
  else match fuel with
  | O => OutOfFuel
  | S fuel' =>
      n ← get (pnodes s) current;
      item ← get_item s current;
      f ← has_funcs (key item);
      if negb f then Fault
      else
        v ← of_option (vals s !! value item);
        '(ret, mem, pos) ← extrainfo_serialize_flt mem (base + pos) buffer_len pos v;
        if negb (ret =? OB_SUCCESS) then Ret (ret, mem, pos, current)
        else fill_loop fuel' s mem base buffer_len pos (next n)
  end.

(** Returns the buffer and the offset of the returned pointer. *)
Definition fill_protocol20_extra_info (fuel : nat) (s : PState) (mem : bytes) (base buffer_len : Z)
    : cres (PState * bytes * Z) :=
  if is_null (extra_list (prot s)) then Ret (s, mem, base)
  else
    '(ret, mem, pos, current) ← fill_loop fuel s mem base buffer_len 0 (extra_list (prot s));
    Ret (set_prot s (set_extra (prot s) (extra_list (prot s)) current), mem,
         if ret =? OB_SUCCESS then base + pos else base).

Fixpoint length_loop (fuel : nat) (s : PState) (ret : Z) (current : loc) : cres Z :=
  if is_null current then Ret ret
  else match fuel with
  | O => OutOfFuel
  | S fuel' =>
      n ← get (pnodes s) current;
      item ← get_item s current;
      f ← has_funcs (key item);
      item_size ← (if f : bool then
                     v ← of_option (vals s !! value item); Ret (extrainfo_get_serialize_size_flt (Some v))
                   else Ret 0);
      length_loop fuel' s (u64 (ret + item_size)) (next n)
  end.

(** [extra_info_list.current] ends as NULL. *)
Definition get_protocol20_extra_info_length (fuel : nat) (s : PState) : cres (Z * PState) :=
  ret ← length_loop fuel s 0 (extra_list (prot s));
  Ret (ret, set_prot s (set_extra (prot s) (extra_list (prot s)) NULL)).

(** The loop of decode_protocol20_extra_info over [row = buffer + 4]. *)
Fixpoint decode_loop (fuel : nat) (mem : bytes) (extra_info_len pos : Z) (p : Ob20Protocol)
    : cres (Z * Ob20Protocol) :=
  if pos <? extra_info_len then
    match fuel with
    | O => OutOfFuel
    | S fuel' =>
        key_type ← uint2korr mem (4 + pos);
        value_len ← uint4korr mem (4 + pos + 2);
        let pos := pos + 6 in
        f ← has_funcs key_type;
        if negb f then decode_loop fuel' mem extra_info_len (pos + value_len) p
        else
          '(ret, npos, p) ← extrainfo_deserialize_flt fuel' mem 4 extra_info_len pos p;
          if negb (ret =? OB_SUCCESS) then Ret (ret, p)
          else if negb (npos =? pos + value_len) then Ret (OB_ERROR, p)
          else decode_loop fuel' mem extra_info_len npos p
    end
  else Ret (OB_SUCCESS, p).

Definition decode_protocol20_extra_info (fuel : nat) (p : Ob20Protocol) (mem : bytes)
    : cres (Z * Ob20Protocol) :=
  extra_info_len ← uint4korr mem 0;
  decode_loop fuel mem extra_info_len 0 p.

(** [fresh] is the address of the block ma_multi_malloc returned, NULL when it failed. *)
Definition ob20_set_extra_info (s : PState) (fresh : loc) (k : Z) (v : loc) : cres (Z * PState) :=
  if is_null fresh then Ret (OB_ERROR, s)
  else
    let item := (fresh + 24)%nat in
    let h := <[fresh := Node NULL NULL (Z.of_nat item)]> (pnodes s) in
    '(h, l) ← list_add h (extra_list (prot s)) fresh;
    Ret (OB_SUCCESS,
         Build_PState (set_extra (prot s) l (extra_current (prot s))) h
           (<[item := Build_Ob20ProtocolExtraInfo k v]> (items s)) (vals s)).

(** * The header *)

(** A store just behind what was already written. *)
Lemma store_next mem a st n v :
  (forall buf t, room buf t n -> st buf t = Ret (splice t (le_bytes n v) buf)) ->
  (length a + n <= length mem)%nat ->
  st (splice 0 a mem) (Z.of_nat (length a)) = Ret (splice 0 (a ++ le_bytes n v) mem).
Proof.
  intros Hst Hl. rewrite Hst.
  - f_equal. apply (splice_app 0 a (le_bytes n v) mem). split; [lia|]. rewrite length_app, length_le_bytes. lia.
  - split; [lia|]. rewrite length_splice by (split; lia). lia.
Qed.

(** The two MySQL headers, the fields of the 2.0 header, and the checksum. *)
Definition net_image (len pkt_nr complen : Z) : bytes :=
  le_bytes 3 len ++ le_bytes 1 pkt_nr ++ le_bytes 3 complen.
Definition fields_image (h : Ob20ProtocolHeader) (seq : Z) : bytes :=
  le_bytes 2 (magic_num h) ++ le_bytes 2 (version h) ++ le_bytes 4 (connection_id h) ++
  le_bytes 3 (request_id h) ++ le_bytes 1 seq ++ le_bytes 4 (payload_len h) ++
  le_bytes 4 (flags h) ++ le_bytes 2 (reserved h).
Definition wire_crc (len pkt_nr complen : Z) (body : bytes) : Z :=
  crc_ref 0 (net_image len pkt_nr complen ++ body).
Definition header_crc (len pkt_nr complen : Z) (h : Ob20ProtocolHeader) : Z :=
  wire_crc len pkt_nr complen (fields_image h pkt_nr).
Definition header_image (len pkt_nr complen : Z) (h : Ob20ProtocolHeader) : bytes :=
  (net_image len pkt_nr complen ++ fields_image h pkt_nr) ++
  le_bytes 2 (header_crc len pkt_nr complen h).

(** Conversion compares checksums as they stand before it computes them. *)
Strategy 1000 [wire_crc CrcBits.crc_ref].

Lemma store_byte_splice buf t v : room buf t 1 -> store buf t v = Ret (splice t (le_bytes 1 v) buf).
Proof. apply int1store_splice. Qed.

Lemma length_net_image len pkt_nr complen : length (net_image len pkt_nr complen) = 7%nat.
Proof. reflexivity. Qed.
Lemma length_fields_image h seq : length (fields_image h seq) = 22%nat.
Proof. reflexivity. Qed.
Lemma length_header_image len pkt_nr complen h : length (header_image len pkt_nr complen h) = 31%nat.
Proof. reflexivity. Qed.

Lemma net_image_bytes len pkt_nr complen : all_bytes (net_image len pkt_nr complen).
Proof. unfold net_image. rewrite !Forall_app. split_and!; apply le_bytes_bytes. Qed.
Lemma fields_image_bytes h seq : all_bytes (fields_image h seq).
Proof. unfold fields_image. rewrite !Forall_app. split_and!; apply le_bytes_bytes. Qed.

(** The net headers are stored out of order. *)
Lemma net_stores mem len pkt_nr complen :
  (7 <= length mem)%nat ->
  fill_net_headers len pkt_nr complen mem =
  Ret (splice 0 (net_image len pkt_nr complen) mem).
Proof.
  intros Hl. unfold fill_net_headers, NET_HEADER_SIZE. rewrite int3store_splice, bind_ret by (split; lia).
  assert (length (splice 4 (le_bytes 3 complen) mem) = length mem) as L1
    by (apply length_splice; split; rewrite ?length_le_bytes; lia).
  rewrite int3store_splice, bind_ret by (split; lia).
  pose proof (store_next (splice 4 (le_bytes 3 complen) mem) (le_bytes 3 len) (fun b t => store b t pkt_nr) 1
    pkt_nr) as Hn. change (Z.of_nat (length (le_bytes 3 len))) with 3 in Hn. rewrite Hn;
    [|intros; by apply store_byte_splice|rewrite L1, length_le_bytes; lia].
  f_equal. unfold net_image. rewrite app_assoc.
  apply (splice_app_before 0 (le_bytes 3 len ++ le_bytes 1 pkt_nr) (le_bytes 3 complen) mem).
  split; [lia|]. simpl. lia.
Qed.

Section next.
Context (mem a : bytes) (v pos : Z) (Hpos : pos = Z.of_nat (length a)).

Lemma next1 : (length a + 1 <= length mem)%nat ->
  int1store (splice 0 a mem) pos v = Ret (splice 0 (a ++ le_bytes 1 v) mem).
Proof. subst pos. apply (store_next mem a (fun b t => int1store b t v)). intros. by apply int1store_splice. Qed.

Lemma next2 : (length a + 2 <= length mem)%nat ->
  int2store (splice 0 a mem) pos v = Ret (splice 0 (a ++ le_bytes 2 v) mem).
Proof. subst pos. apply (store_next mem a (fun b t => int2store b t v)). intros. by apply int2store_splice. Qed.

Lemma next3 : (length a + 3 <= length mem)%nat ->
  int3store (splice 0 a mem) pos v = Ret (splice 0 (a ++ le_bytes 3 v) mem).
Proof. subst pos. apply (store_next mem a (fun b t => int3store b t v)). intros. by apply int3store_splice. Qed.

Lemma next4 : (length a + 4 <= length mem)%nat ->
  int4store (splice 0 a mem) pos v = Ret (splice 0 (a ++ le_bytes 4 v) mem).
Proof. subst pos. apply (store_next mem a (fun b t => int4store b t v)). intros. by apply int4store_splice. Qed.
End next.

Lemma fill_header_ok p len pkt_nr complen mem :
  (31 <= length mem)%nat ->
  fill_protocol20_header p len pkt_nr complen mem =
  Ret (set_header p (Build_Ob20ProtocolHeader (magic_num (header p)) (version (header p))
         (connection_id (header p)) (request_id (header p)) (u8 pkt_nr) (payload_len (header p))
         (flags (header p)) (reserved (header p)) (header_crc len pkt_nr complen (header p))),
       splice 0 (header_image len pkt_nr complen (header p)) mem, 31).
Proof.
  intros Hl. unfold fill_protocol20_header, NET_HEADER_SIZE, COMP_HEADER_SIZE. cbv zeta. simpl Z.add.
  rewrite net_stores, bind_ret by lia.
  do 8 (first [erewrite next1|erewrite next2|erewrite next3|erewrite next4];
    [rewrite bind_ret|reflexivity|simpl; lia]).
  set (img := _ ++ le_bytes 2 (reserved (header p))).
  assert (img = net_image len pkt_nr complen ++ fields_image (header p) pkt_nr) as Himg.
  { unfold img, fields_image. rewrite <- !app_assoc. do 5 f_equal. f_equal. unfold le_bytes. by rewrite wrap_wrap by lia. }
  assert (length img = 29%nat) as Limg by (by rewrite Himg).
  assert (room mem 0 (length img)) as Hr by (split; lia).
  rewrite (ob_crc16_range 0 (splice 0 img mem) 0 _ img);
    [|split; simpl; lia| |by rewrite Limg|by apply load_bytes_splice].
  2: { rewrite Himg. apply Forall_app. split; [apply net_image_bytes|apply fields_image_bytes]. }
  rewrite bind_ret. erewrite next2; [rewrite bind_ret|by rewrite Limg|lia].
  unfold header_image, header_crc, wire_crc. by rewrite Himg.
Qed.

(** What the receiver reads from a buffer that starts with the fields and a checksum. *)
Lemma decode_reads buffer h seq crc :
  load_bytes buffer 0 (length (fields_image h seq ++ le_bytes 2 crc)) =
    Ret (fields_image h seq ++ le_bytes 2 crc) ->
  uint2korr buffer 0 = Ret (u16 (magic_num h)) /\ uint2korr buffer 2 = Ret (u16 (version h)) /\
  uint4korr buffer 4 = Ret (u32 (connection_id h)) /\ uint3korr buffer 8 = Ret (wrap 24 (request_id h)) /\
  uint1korr buffer 11 = Ret (u8 seq) /\ uint4korr buffer 12 = Ret (u32 (payload_len h)) /\
  uint4korr buffer 16 = Ret (u32 (flags h)) /\ uint2korr buffer 20 = Ret (u16 (reserved h)) /\
  uint2korr buffer 22 = Ret (u16 crc) /\
  load_bytes buffer 0 (length (fields_image h seq)) = Ret (fields_image h seq).
Proof.
  intros Hb. apply load_bytes_app in Hb as [Hf Hc]. pose proof Hf as Hf0. unfold fields_image in Hf.
  do 7 (apply load_bytes_app in Hf as [?H Hf]). rewrite ?length_le_bytes in *.
  repeat match goal with H : load_bytes _ _ _ = Ret (le_bytes ?n ?v) |- _ =>
    first [apply (uint1korr_load _ _ _ (le_bytes_bytes n v)) in H
          |apply (uint2korr_load _ _ _ (le_bytes_bytes n v)) in H
          |apply (uint3korr_load _ _ _ (le_bytes_bytes n v)) in H
          |apply (uint4korr_load _ _ _ (le_bytes_bytes n v)) in H];
    rewrite le_val_le_bytes in H end.
  split_and!; done.
Qed.

(** The checksum the receiver computes over the two MySQL headers and the fields. *)
Lemma decode_crc buffer body len pkt_nr complen :
  all_bytes body -> length body = 22%nat -> load_bytes buffer 0 22 = Ret body ->
  (hb ← int3store (repeat 0 7) 0 len;
   hb ← store hb 3 pkt_nr;
   hb ← int3store hb NET_HEADER_SIZE complen;
   c ← ob_crc16 0 hb 0 (NET_HEADER_SIZE + COMP_HEADER_SIZE);
   ob_crc16 c buffer 0 22) = Ret (wire_crc len pkt_nr complen body).
Proof.
  intros Hb Hl Hload. unfold NET_HEADER_SIZE, COMP_HEADER_SIZE.
  rewrite int3store_splice, bind_ret by (split; simpl; lia).
  pose proof (store_next (repeat 0 7) (le_bytes 3 len) (fun b t => store b t pkt_nr) 1 pkt_nr) as Hn.
  change (Z.of_nat (length (le_bytes 3 len))) with 3 in Hn.
  rewrite Hn, bind_ret; [|intros; by apply store_byte_splice|simpl; lia].
  erewrite next3; [rewrite bind_ret|reflexivity|simpl; lia].
  assert (0 + Z.of_nat 7 <= Z.of_nat (length (repeat 0 7))) by (simpl; lia).
  set (img := _ ++ le_bytes 3 complen).
  assert (img = net_image len pkt_nr complen) as Himg by (unfold img, net_image; by rewrite <- app_assoc).
  rewrite (ob_crc16_range 0 (splice 0 img (repeat 0 7)) 0 (4 + 3) img), bind_ret;
    [|split; simpl; lia|rewrite Himg; apply net_image_bytes|reflexivity|].
  2: { apply load_bytes_splice. split; [lia|reflexivity]. }
  rewrite (ob_crc16_range _ buffer 0 22 body);
    [|apply crc16_ref_uint; [split; simpl; lia|rewrite Himg; apply net_image_bytes]|done|by rewrite Hl|
     by rewrite Hl].
  unfold wire_crc. by rewrite CrcBits.crc_ref_app, Himg.
Qed.

(** Field ranges of a header object. *)
Definition header_ok (h : Ob20ProtocolHeader) : Prop :=
  uint 16 (magic_num h) /\ uint 16 (version h) /\ uint 32 (connection_id h) /\ uint 24 (request_id h) /\
  uint 32 (payload_len h) /\ uint 32 (flags h) /\ uint 16 (reserved h).

(** The receiver's tests, in order. *)
Lemma decode_unfold q buffer h seq crc len pkt_nr complen :
  header_ok h -> uint 16 crc ->
  load_bytes buffer 0 24 = Ret (fields_image h seq ++ le_bytes 2 crc) ->
  decode_protocol20_header q buffer len pkt_nr complen =
  (if negb ((if 0 =? crc then 0 else wire_crc len pkt_nr complen (fields_image h seq)) =? crc)
   then Ret (1, q)
   else if negb (magic_num h =? magic_num (header q)) then Ret (1, q)
   else if negb (version h =? version (header q)) then Ret (1, q)
   else if negb (connection_id h =? connection_id (header q)) then Ret (1, q)
   else if negb (request_id h =? request_id (header q)) then Ret (1, q)
   else
     let next_seq := u8 (pkt_seq (header q) + 1) in
     let hq := header q in
     if negb (u8 seq =? next_seq) then
       Ret (1, set_header q (Build_Ob20ProtocolHeader (magic_num hq) (version hq) (connection_id hq)
                 (request_id hq) next_seq (payload_len hq) (flags hq) (reserved hq) (header_checksum hq)))
     else
       Ret (0, set_header q (Build_Ob20ProtocolHeader (magic_num hq) (version hq) (connection_id hq)
                 (request_id hq) (u8 seq) (payload_len h) (flags h) (reserved h) crc))).
Proof.
  intros (H1 & H2 & H3 & H4 & H5 & H6 & H7) Hc Hb.
  destruct (decode_reads buffer h seq crc Hb) as (R1 & R2 & R3 & R4 & R5 & R6 & R7 & R8 & R9 & Rf).
  rewrite (wrap_small 16) in R1, R2, R8, R9 by assumption.
  rewrite (wrap_small 32) in R3, R6, R7 by assumption. rewrite (wrap_small 24) in R4 by assumption.
  unfold decode_protocol20_header. rewrite R1, R2, R3, R4, R5, R6, R7, R8, R9, !bind_ret.
  rewrite length_fields_image in Rf.
  rewrite (decode_crc buffer (fields_image h seq) len pkt_nr complen (fields_image_bytes h seq) eq_refl Rf).
  destruct (0 =? crc); reflexivity.
Qed.

(** A header written by [fill_protocol20_header], seen behind the MySQL headers. *)
Lemma header_behind_net len pkt_nr complen h mem :
  (31 <= length mem)%nat ->
  load_bytes (drop 7 (splice 0 (header_image len pkt_nr complen h) mem)) 0 24 =
  Ret (fields_image h pkt_nr ++ le_bytes 2 (header_crc len pkt_nr complen h)).
Proof.
  intros Hl. rewrite load_bytes_drop by lia.
  assert (room mem 0 (length (header_image len pkt_nr complen h))) as Hr
    by (rewrite length_header_image; split; lia).
  apply load_bytes_splice in Hr. unfold header_image in *. rewrite <- app_assoc in *.
  by apply load_bytes_app in Hr as [_ Hr].
Qed.

Lemma header_crc_uint len pkt_nr complen h : uint 16 (header_crc len pkt_nr complen h).
Proof.
  apply crc16_ref_uint; [split; simpl; lia|]. apply Forall_app.
  split; [apply net_image_bytes|apply fields_image_bytes].
Qed.

(** What the two ends of a connection agree on before a packet. *)
Definition agree (p q : Ob20Protocol) : Prop :=
  magic_num (header q) = magic_num (header p) /\ version (header q) = version (header p) /\
  connection_id (header q) = connection_id (header p) /\ request_id (header q) = request_id (header p).

(** C13: a header written into any buffer of at least 31 bytes changes no byte behind it
    and is accepted by a receiver that expects this connection, request and packet
    number; the receiver then holds exactly the sender's header object. *)
Theorem header_roundtrip p q len pkt_nr complen mem :
  (31 <= length mem)%nat -> header_ok (header p) -> agree p q ->
  u8 (pkt_seq (header q) + 1) = u8 pkt_nr ->
  exists p' mem',
    fill_protocol20_header p len pkt_nr complen mem = Ret (p', mem', 31) /\
    length mem' = length mem /\ drop 31 mem' = drop 31 mem /\
    decode_protocol20_header q (drop 7 mem') len pkt_nr complen = Ret (0, set_header q (header p')).
Proof.
  intros Hl Hok (E1 & E2 & E3 & E4) Hseq. eexists _, _. split; [by apply fill_header_ok|].
  pose proof (length_header_image len pkt_nr complen (header p)) as Hi.
  split; [apply length_splice; rewrite Hi; split; lia|].
  split; [by rewrite splice_0, Hi, drop_app_length'|].
  rewrite (decode_unfold q _ (header p) pkt_nr _ len pkt_nr complen Hok
    (header_crc_uint len pkt_nr complen (header p)) (header_behind_net _ _ _ _ _ Hl)).
  unfold header_crc. generalize (wire_crc len pkt_nr complen (fields_image (header p) pkt_nr)). intros c.
  rewrite E1, E2, E3, E4, Hseq, !Z.eqb_refl.
  replace ((if 0 =? c then 0 else c) =? c) with true by (destruct (Z.eqb_spec 0 c); lia). reflexivity.
Qed.

Lemma header_roundtrip_witness :
  let p := prot (ob20_init 7 5 None).2 in
  exists p' mem',
    fill_protocol20_header p 40 0 33 (repeat 9 40) = Ret (p', mem', 31) /\
    decode_protocol20_header (set_header p (Build_Ob20ProtocolHeader 0x20AB 20 7 5 255 0 0 0 0))
      (drop 7 mem') 40 0 33 =
    Ret (0, set_header (set_header p (Build_Ob20ProtocolHeader 0x20AB 20 7 5 255 0 0 0 0)) (header p')).
Proof.
  intros p.
  destruct (header_roundtrip p (set_header p (Build_Ob20ProtocolHeader 0x20AB 20 7 5 255 0 0 0 0))
    40 0 33 (repeat 9 40)) as (p' & mem' & H1 & _ & _ & H2).
  - simpl. lia.
  - vm_compute. intuition discriminate.
  - vm_compute. tauto.
  - reflexivity.
  - exists p', mem'. split; [exact H1|exact H2].
Defined.

(** The reads of a header that lies inside its buffer. *)
Lemma load_at buf n k : (n <= length buf)%nat -> 0 <= k < Z.of_nat n -> exists b, load buf k = Ret b.
Proof. intros Hn Hk. destruct (load_in buf k) as (b & Hb & _); [lia|eauto]. Qed.

(** A receiver that finds a checksum other than the one it computes answers 1 and
    leaves its state alone. *)
Lemma decode_bad_crc q buffer body crc len pkt_nr complen :
  (24 <= length buffer)%nat -> all_bytes body -> length body = 22%nat ->
  load_bytes buffer 0 22 = Ret body -> uint2korr buffer 22 = Ret crc -> crc <> 0 ->
  wire_crc len pkt_nr complen body <> crc ->
  decode_protocol20_header q buffer len pkt_nr complen = Ret (1, q).
Proof.
  intros Hl Hb Hn Hload Hcrc H0 Hne. unfold decode_protocol20_header. rewrite Hcrc.
  assert (forall k, 0 <= k < 24 -> exists b, load buffer k = Ret b) as Hat
    by (intros; apply (load_at buffer 24); lia).
  unfold uint1korr, uint2korr, uint3korr, uint4korr. simpl Z.add.
  repeat match goal with |- context [load buffer ?k] =>
    destruct (Hat k ltac:(lia)) as [? ->]; rewrite !bind_ret end.
  rewrite (decode_crc buffer body len pkt_nr complen Hb Hn Hload).
  rewrite (proj2 (Z.eqb_neq 0 crc)) by congruence. simpl negb. cbv iota. rewrite bind_ret.
  by rewrite (proj2 (Z.eqb_neq _ _) Hne).
Qed.

Lemma decode_corrupted q a x0 y0 x y b rest len pkt_nr complen :
  all_bytes (a ++ [x0; y0] ++ b) -> length (a ++ [x0; y0] ++ b) = 22%nat -> is_byte x -> is_byte y ->
  [x0; y0] <> [x; y] -> uint 16 (wire_crc len pkt_nr complen (a ++ [x0; y0] ++ b)) ->
  wire_crc len pkt_nr complen (a ++ [x0; y0] ++ b) <> 0 ->
  decode_protocol20_header q
    ((a ++ [x; y] ++ b) ++ le_bytes 2 (wire_crc len pkt_nr complen (a ++ [x0; y0] ++ b)) ++ rest)
    len pkt_nr complen = Ret (1, q).
Proof.
  intros Hall Hlen Hx Hy Hne HC H0. set (C := wire_crc _ _ _ _) in *.
  assert (all_bytes (a ++ [x; y] ++ b)) as Hall' by (by decompose_Forall_hyps; rewrite !Forall_app, !Forall_cons).
  assert (length (a ++ [x; y] ++ b) = 22%nat) as Hlen' by (rewrite !length_app in *; simpl in *; lia).
  apply (decode_bad_crc q _ (a ++ [x; y] ++ b) C); [| |done| | |done|].
  - rewrite !length_app, length_le_bytes, <- !length_app. lia.
  - done.
  - rewrite load_bytes_in; [by rewrite drop_0, take_app_length'|]. split; [lia|]. rewrite length_app. lia.
  - rewrite (uint2korr_load _ _ (le_bytes 2 C) (le_bytes_bytes 2 C)).
    + rewrite le_val_le_bytes, wrap_small; done.
    + rewrite load_bytes_in by (split; [lia|]; rewrite !length_app, length_le_bytes, <- !length_app; lia).
      f_equal. change (Z.to_nat 22) with 22%nat. rewrite drop_app_length' by done.
      apply take_app_length'. by rewrite length_le_bytes.
  - unfold C, wire_crc. intros E. rewrite !(app_assoc (net_image _ _ _) a) in E. symmetry in E. revert E.
    apply crc16_ref_burst; [split; simpl; lia| |by rewrite !Forall_cons|done].
    rewrite <- app_assoc. apply Forall_app. split; [apply net_image_bytes|done].
Qed.

Lemma decode_corrupted_at q body rest k x y len pkt_nr complen :
  all_bytes body -> length body = 22%nat -> is_byte x -> is_byte y ->
  uint 16 (wire_crc len pkt_nr complen body) -> wire_crc len pkt_nr complen body <> 0 -> 7 <= k <= 27 ->
  let m := ((net_image len pkt_nr complen ++ body) ++ le_bytes 2 (wire_crc len pkt_nr complen body)) ++ rest in
  splice k [x; y] m <> m ->
  decode_protocol20_header q (drop 7 (splice k [x; y] m)) len pkt_nr complen = Ret (1, q).
Proof.
  intros HF LF Hx Hy HC Hnz Hk m Hne. subst m.
  destruct (split_two body (Z.to_nat (k - 7))) as (a & x0 & y0 & b & -> & La); [lia|].
  set (net := net_image len pkt_nr complen) in *.
  assert (length net = 7%nat) as Ln by apply (length_net_image len pkt_nr complen).
  assert (k = Z.of_nat (length (net ++ a))) as -> by (rewrite length_app, La, Ln; lia).
  set (C := le_bytes 2 _) in *.
  replace (((net ++ a ++ [x0; y0] ++ b) ++ C) ++ rest) with ((net ++ a) ++ [x0; y0] ++ b ++ C ++ rest) in *
    by by rewrite <- !app_assoc.
  rewrite splice_middle in * by done. rewrite <- (app_assoc net a), drop_app_length' by done.
  rewrite (app_assoc [x; y] b), (app_assoc a). apply decode_corrupted; try assumption.
  intros [= -> ->]. by apply Hne.
Qed.

Lemma fill_header_inv p len pkt_nr complen mem p' mem' n :
  (31 <= length mem)%nat -> fill_protocol20_header p len pkt_nr complen mem = Ret (p', mem', n) ->
  header_checksum (header p') = header_crc len pkt_nr complen (header p) /\
  mem' = ((net_image len pkt_nr complen ++ fields_image (header p) pkt_nr) ++
          le_bytes 2 (header_crc len pkt_nr complen (header p))) ++ drop 31 mem.
Proof.
  intros Hl Hfill. rewrite fill_header_ok in Hfill by done. unfold header_image in Hfill.
  generalize dependent (header_crc len pkt_nr complen (header p)). intros crc Hfill.
  by injection Hfill as <- <- _.
Qed.

(** C14: changing two adjacent bytes of the header fields of a packet, in any way, makes
    every receiver reject it without a change of state, unless the checksum happens to
    be 0, the value that switches the test off. *)
Theorem header_corruption_detected p q len pkt_nr complen mem p' mem' k x y :
  (31 <= length mem)%nat ->
  fill_protocol20_header p len pkt_nr complen mem = Ret (p', mem', 31) ->
  header_checksum (header p') <> 0 ->
  7 <= k <= 27 -> is_byte x -> is_byte y -> splice k [x; y] mem' <> mem' ->
  decode_protocol20_header q (drop 7 (splice k [x; y] mem')) len pkt_nr complen = Ret (1, q).
Proof.
  intros Hl Hfill Hnz Hk Hx Hy Hne.
  pose proof (header_crc_uint len pkt_nr complen (header p)) as HC. unfold header_crc in HC.
  destruct (fill_header_inv _ _ _ _ _ _ _ _ Hl Hfill) as [E ->]. rewrite E in Hnz.
  unfold header_crc in Hnz, Hne |- *.
  apply decode_corrupted_at; [apply fields_image_bytes|apply length_fields_image|exact Hx|exact Hy|exact HC|
    exact Hnz|exact Hk|exact Hne].
Qed.

Lemma header_corruption_detected_witness :
  let p := prot (ob20_init 7 5 None).2 in
  exists p' mem', fill_protocol20_header p 40 0 33 (repeat 9 40) = Ret (p', mem', 31) /\
    decode_protocol20_header p (drop 7 (splice 12 [1; 2] mem')) 40 0 33 = Ret (1, p).
Proof.
  eexists _, _. split; [vm_compute; reflexivity|].
  eapply (header_corruption_detected (prot (ob20_init 7 5 None).2) _ 40 0 33 (repeat 9 40));
    [simpl; lia|vm_compute; reflexivity|vm_compute; discriminate|lia|split; simpl; lia|split; simpl; lia|
     vm_compute; discriminate].
Defined.

(** ** Request numbers *)

Lemma update_request_id_wrap r : uint 24 r -> update_request_id r = wrap 24 (r + 1).
Proof.
  unfold uint, update_request_id, UINT24_MAX. intros Hr. rewrite (wrap_small 32) by (unfold uint; lia).
  destruct (Z.gtb_spec (r + 1) 16777215).
  - replace (r + 1) with (2 ^ 24) by lia. reflexivity.
  - symmetry. apply wrap_small. unfold uint. lia.
Qed.

Lemma request_iter n r : uint 24 r -> Nat.iter n update_request_id r = wrap 24 (r + Z.of_nat n).
Proof.
  intros Hr. induction n as [|n IH]; [by rewrite Z.add_0_r, wrap_small|].
  rewrite Nat.iter_succ, IH, update_request_id_wrap by by apply wrap_uint.
  unfold wrap. rewrite Zplus_mod_idemp_l. f_equal. lia.
Qed.

(** From the number ob20_init draws, the request counter runs through all 2^24
    values of its three bytes before it repeats one: two of any 2^24 consecutive
    requests never carry the same number, so the receiver's test on the number tells
    them apart. *)
Theorem request_ids_distinct conid rand i j :
  0 <= rand -> (i < j)%nat -> Z.of_nat j - Z.of_nat i < 2 ^ 24 ->
  let r := request_id (header (prot (ob20_init conid rand None).2)) in
  uint 24 (Nat.iter i update_request_id r) /\
  Nat.iter i update_request_id r <> Nat.iter j update_request_id r /\
  Nat.iter (Z.to_nat (2 ^ 24)) update_request_id r = r.
Proof.
  intros Hrand Hij Hd r.
  assert (uint 24 r) as Hr.
  { change r with (u32 (Z.rem rand 0x00FFFFFF)). pose proof (Z.rem_bound_pos rand 0x00FFFFFF Hrand ltac:(lia)).
    rewrite wrap_small; unfold uint in *; lia. }
  clearbody r. rewrite !request_iter by done. split_and!.
  - by apply wrap_uint.
  - unfold wrap. intros E. pose proof (Z.div_mod (r + Z.of_nat i) (2 ^ 24)). pose proof (Z.div_mod (r + Z.of_nat j) (2 ^ 24)). nia.
  - rewrite Z2Nat.id by lia. unfold wrap. rewrite <- (Z.mul_1_l (2 ^ 24)) at 1. rewrite Z_mod_plus_full.
    by apply Z.mod_small.
Qed.

Lemma request_ids_distinct_witness :
  let r := request_id (header (prot (ob20_init 1 16777213 None).2)) in
  Nat.iter 1 update_request_id r <> Nat.iter 5 update_request_id r.
Proof. apply (request_ids_distinct 1 16777213 1 5); lia. Defined.


End Protocol20.
