(* ===== verification/ExtraInfo.v ===== *)
(** The extra information of a 2.0 packet (libmariadb/ob_protocol20.c): what the
    receiver makes of the server's control message, what the sender writes for one
    trace item, and what happens when a message carries more. *)

From stdpp Require Import tactics gmap.
From S2P Require Import Prelude IntStore Serialize MaList FltCodec Trace Protocol20.
Import Serialize MaList FltCodec Trace Protocol20.

Module ExtraInfo.

(** * The control message *)

(** One complete field whose function succeeds. *)
Lemma field_step fuel mem len pos type o id data o' :
  load_bytes mem pos (length (tlv id data)) = Ret (tlv id data) ->
  pos + Z.of_nat (length (tlv id data)) <= len -> sint 16 id -> Z.of_nat (length data) < 2 ^ 31 ->
  (load_bytes mem (pos + 6) (length data) = Ret data ->
   deserialize_field_func type id (Z.of_nat (length data)) (Some mem) len (pos + 6) o =
   Ret (OB_SUCCESS, pos + 6 + Z.of_nat (length data), o')) ->
  flt_deserialize_extra_info (S fuel) (Some mem) len pos type o =
  flt_deserialize_extra_info fuel (Some mem) len (pos + Z.of_nat (length (tlv id data))) type o'.
Proof.
  intros Hb Hl Hid Hn Hf. destruct (resolve_tlv mem len pos id data 0 0) as [_ Hd]; try done.
  rewrite (deserialize_step _ _ _ _ _ _ id data), Hf by done. rewrite bind_ret, length_tlv.
  simpl negb. cbv iota. f_equal. lia.
Qed.

Lemma flt_get_double_ok mem len pos v v0 :
  load_bytes mem pos 8 = Ret (le_bytes 8 v) -> pos + 8 <= len -> uint 64 v ->
  flt_get_double (Some mem) len pos 8 v0 = Ret (OB_SUCCESS, pos + 8, v).
Proof.
  intros Hb Hl Hv. unfold flt_get_double, flt_get_fp. rewrite Z.gtb_ltb.
  destruct (Z.ltb_spec len (pos + 8)); [lia|]. change (negb (DBL_SIZE =? u64 8)) with false. simpl orb.
  cbv iota. change (Z.to_nat DBL_SIZE) with 8%nat. rewrite Hb, bind_ret, le_val_le_bytes.
  by rewrite wrap_small.
Qed.

Lemma flt_get_int8_ok mem len pos v v0 :
  load_bytes mem pos 8 = Ret (le_bytes 8 v) -> pos + 8 <= len -> sint 64 v ->
  flt_get_int8 (Some mem) len pos 8 v0 = Ret (OB_SUCCESS, pos + 8, v).
Proof.
  intros Hb Hl Hv. unfold flt_get_int8, flt_get_intN, flt_get_int. simpl negb. cbv iota. rewrite Z.gtb_ltb.
  destruct (Z.ltb_spec len (pos + 8)); [lia|]. simpl Z.eqb. cbv iota.
  rewrite (sint8korr_load _ _ _ (le_bytes_bytes _ _) Hb), bind_ret, le_val_le_bytes.
  change (8 * Z.of_nat 8) with 64. by rewrite swrap_wrap, swrap_small by (done || lia).
Qed.

(** The payload the server sends for a control record. *)
Definition control_payload (i : FLTControlInfo) : bytes :=
  tlv FLT_LEVEL (le_bytes 1 (level_ i)) ++ tlv FLT_SAMPLE_PERCENTAGE (le_bytes 8 (sample_pct_ i)) ++
  tlv FLT_RECORD_POLICY (le_bytes 1 (rp_ i)) ++ tlv FLT_PRINT_SAMPLE_PCT (le_bytes 8 (print_sample_pct_ i)) ++
  tlv FLT_SLOW_QUERY_THRES (le_bytes 8 (slow_query_threshold_ i)) ++
  tlv FLT_SHOW_TRACE_ENABLE (le_bytes 1 (flt_show_trace_enable_ i)).

Definition control_ok (i : FLTControlInfo) : Prop :=
  ctl_type_ i = FLT_CONTROL_INFO /\ sint 8 (level_ i) /\ uint 64 (sample_pct_ i) /\ 0 <= rp_ i < 128 /\
  uint 64 (print_sample_pct_ i) /\ sint 64 (slow_query_threshold_ i) /\ sint 8 (flt_show_trace_enable_ i).

Lemma length_control_payload i : length (control_payload i) = 63%nat.
Proof. reflexivity. Qed.

(** [control_field] evaluates the field function on one field of the payload. *)
Ltac control_field H get_ok :=
  erewrite (field_step _ _ _ _ _ _ _ _ _ H);
    [|rewrite length_tlv, length_le_bytes; simpl; lia|done|done|
     intros ?Hd; unfold deserialize_field_func, flt_deserialize_field_controlinfo; simpl Z.eqb; cbv iota;
     erewrite fld_case_some; [reflexivity|reflexivity|apply get_ok; [exact Hd|simpl; lia|assumption..]]].

Lemma record_policy_field mem len pos i v :
  load_bytes mem pos 1 = Ret (le_bytes 1 v) -> pos + 1 <= len -> 0 <= v < 128 ->
  deserialize_field_func FLT_CONTROL_INFO FLT_RECORD_POLICY 1 (Some mem) len pos (ControlInfo i) =
  Ret (OB_SUCCESS, pos + 1, ControlInfo (set_rp_ i v)).
Proof.
  intros Hb Hl Hv. unfold deserialize_field_func, flt_deserialize_field_controlinfo. simpl Z.eqb. cbv iota.
  rewrite (flt_get_int1_ok _ _ _ v) by done. rewrite bind_ret. simpl Z.eqb. cbv iota.
  rewrite swrap_small by (unfold sint; simpl; lia). rewrite wrap_small; [done|unfold uint; lia].
Qed.

Lemma int1_value mem len pos v v0 :
  load_bytes mem pos 1 = Ret (le_bytes 1 v) -> pos + 1 <= len -> sint 8 v ->
  flt_get_int1 (Some mem) len pos 1 v0 = Ret (OB_SUCCESS, pos + 1, v).
Proof. intros Hb Hl Hv. rewrite (flt_get_int1_ok _ _ _ v), swrap_small by (done || lia). done. Qed.

Lemma control_payload_read fuel mem p i0 i :
  control_ok i -> (6 <= fuel)%nat ->
  load_bytes mem p (length (control_payload i)) = Ret (control_payload i) ->
  flt_deserialize_extra_info fuel (Some mem) (p + 63) p FLT_CONTROL_INFO (ControlInfo i0) =
  Ret (OB_SUCCESS, p + 63,
    ControlInfo (Build_FLTControlInfo (ctl_type_ i0) (level_ i) (sample_pct_ i) (rp_ i)
      (print_sample_pct_ i) (slow_query_threshold_ i) (flt_show_trace_enable_ i))).
Proof.
  intros (_ & O1 & O2 & O3 & O4 & O5 & O6) Hf Hpl. unfold control_payload in Hpl.
  apply load_bytes_app in Hpl as [H1 Hpl]. apply load_bytes_app in Hpl as [H2 Hpl].
  apply load_bytes_app in Hpl as [H3 Hpl]. apply load_bytes_app in Hpl as [H4 Hpl].
  apply load_bytes_app in Hpl as [H5 H6].
  destruct fuel as [|[|[|[|[|[|fuel]]]]]]; try lia.
  control_field H1 int1_value. control_field H2 flt_get_double_ok.
  erewrite (field_step _ _ _ _ _ _ _ _ _ H3);
    [|rewrite !length_tlv, !length_le_bytes; simpl; lia|done|done|
     intros Hd; apply record_policy_field; [exact Hd|rewrite !length_tlv; simpl; lia|assumption]].
  control_field H4 flt_get_double_ok. control_field H5 flt_get_int8_ok. control_field H6 int1_value.
  rewrite !length_tlv, !length_le_bytes. simpl Z.of_nat.
  replace (p + _ + _ + _ + _ + _ + _) with (p + 63) by lia. apply deserialize_done.
Qed.

Definition set_control (f : FLTInfo) (i : FLTControlInfo) : FLTInfo :=
  Flt (show_trace_span_ f) (flt_client_span f) i (app_info_ f) (query_info_ f) (span_info_ f)
    (value_data_ f) (value_length f) (in_trans_ f) (flt_trace_id f) (flt_span_id f).

Definition control_message (i : FLTControlInfo) : bytes :=
  le_bytes 4 75 ++ tlv FULL_TRC (tlv FLT_CONTROL_INFO (control_payload i)).

(** The record inside the item. *)
Lemma control_record_read fuel mem f i :
  control_ok i -> (7 <= fuel)%nat ->
  load_bytes mem 10 69 = Ret (tlv FLT_CONTROL_INFO (control_payload i)) ->
  deserialize_flt_loop fuel mem 4 75 6 (Some f) = Ret (OB_SUCCESS, 75, Some (set_control f i)).
Proof.
  intros Hok Hf Hload. destruct fuel as [|fuel]; [lia|]. cbn [deserialize_flt_loop].
  change (6 <? 75) with true. cbv iota. change (4 + 75) with 79. change (4 + 6) with 10.
  destruct (resolve_tlv mem 79 10 FLT_CONTROL_INFO (control_payload i) 2052 0) as [Hr Hd];
    [exact Hload|rewrite length_tlv, length_control_payload; lia|done|by rewrite length_control_payload|].
  rewrite Hr, bind_ret, length_control_payload. change (10 + 6 - 4) with 12. change (10 + 6) with 16 in *.
  simpl. rewrite (control_payload_read fuel (drop 16 mem) 0 _ i Hok); [|lia|].
  2: { rewrite load_bytes_drop by lia. exact Hd. }
  rewrite bind_ret. simpl. destruct fuel; simpl; destruct Hok as [Ht _]; destruct i; simpl in *; by subst.
Qed.

(** The server's control message, wherever it ends in the packet, is taken over field
    by field into the control record of the trace object and leaves the rest of the
    protocol state alone. *)
Theorem control_message_decoded p f i rest fuel :
  control_ok i -> flt p = Some f -> (8 <= fuel)%nat ->
  decode_protocol20_extra_info fuel p (control_message i ++ rest) =
  Ret (OB_SUCCESS, set_flt p (Some (set_control f i))).
Proof.
  intros Hok Hp Hf. set (mem := control_message i ++ rest).
  assert (load_bytes mem 0 (length (control_message i)) = Ret (control_message i)) as Hm.
  { unfold mem. rewrite load_bytes_in by (split; [lia|rewrite length_app; lia]).
    by rewrite drop_0, take_app_length. }
  clearbody mem. apply load_bytes_app in Hm as [Hlen Hitem].
  pose proof Hitem as Hitem0. apply load_bytes_app in Hitem as [Hhead Hrec].
  apply load_bytes_app in Hhead as [Hkey Hvl]. rewrite ?length_le_bytes, ?length_tlv_head in *.
  unfold decode_protocol20_extra_info.
  rewrite (uint4korr_load _ _ _ (le_bytes_bytes _ _) Hlen), bind_ret, le_val_le_bytes.
  change (wrap (8 * Z.of_nat 4) 75) with 75. destruct fuel as [|fuel]; [lia|]. cbn [decode_loop].
  change (0 <? 75) with true. cbv iota.
  change (0 + Z.of_nat 4) with (4 + 0) in *. change (4 + 0 + Z.of_nat 2) with (4 + 0 + 2) in *.
  rewrite (uint2korr_load _ _ _ (le_bytes_bytes _ _) Hkey), bind_ret, le_val_le_bytes.
  rewrite (uint4korr_load _ _ _ (le_bytes_bytes _ _) Hvl), bind_ret, le_val_le_bytes.
  change (wrap (8 * Z.of_nat 2) FULL_TRC) with FULL_TRC. change (has_funcs FULL_TRC) with (Ret true).
  rewrite bind_ret. simpl negb. cbv iota. unfold extrainfo_deserialize_flt. rewrite Hp. change (0 + 6) with 6.
  rewrite (control_record_read fuel mem f i Hok), !bind_ret by (lia || exact Hrec). simpl.
  by destruct fuel.
Qed.

Definition control_example : FLTControlInfo :=
  Build_FLTControlInfo FLT_CONTROL_INFO 5 4607182418800017408 1 4602678819172646912 250000 1.
Definition flt_example : FLTInfo :=
  Flt (Build_FLTShowTraceSpan FLT_TYPE_SHOW_TRACE_SPAN None) (Build_FLTDriverSpanInfo FLT_DRIVER_SPAN_INFO None)
    (Build_FLTControlInfo FLT_CONTROL_INFO 0 0 0 0 0 0) (Build_FLTAppInfo FLT_APP_INFO None None None None)
    (Build_FLTQueryInfo FLT_QUERY_INFO 0 0) (Build_FLTSpanInfo FLT_SPAN_INFO 0 0 None 0 None)
    None 0 false (repeat 0 16) (repeat 0 16).
Definition protocol_example : Ob20Protocol := prot (ob20_init 7 5 (Some (Some flt_example, OB_SUCCESS))).2.

Lemma control_example_ok : control_ok control_example.
Proof. unfold control_ok, sint, uint. simpl. lia. Qed.

Lemma control_message_decoded_witness :
  decode_protocol20_extra_info 8 protocol_example (control_message control_example ++ [1; 2; 3]) =
  Ret (OB_SUCCESS, set_flt protocol_example (Some (set_control flt_example control_example))).
Proof. apply control_message_decoded; [exact control_example_ok|reflexivity|lia]. Defined.

(** * Malformed messages *)

Lemma load_first mem a rest : mem = a ++ rest -> load_bytes mem 0 (length a) = Ret a.
Proof.
  intros ->. rewrite load_bytes_in by (split; [lia|rewrite length_app; lia]). by rewrite drop_0, take_app_length.
Qed.

(** The key of an item is used as an index without a test: every non-empty message
    that starts with a key of 2005 or more makes the decoder read behind the end of its
    function table, whatever follows. *)
Theorem key_outside_table p fuel len k n rest :
  0 < len < 2 ^ 32 -> 2005 <= k < 2 ^ 16 ->
  decode_protocol20_extra_info (S fuel) p (le_bytes 4 len ++ le_bytes 2 k ++ le_bytes 4 n ++ rest) = Fault.
Proof.
  intros Hlen Hk. unfold decode_protocol20_extra_info.
  assert (load_bytes (le_bytes 4 len ++ le_bytes 2 k ++ le_bytes 4 n ++ rest) 0
            (length (le_bytes 4 len ++ le_bytes 2 k ++ le_bytes 4 n)) =
          Ret (le_bytes 4 len ++ le_bytes 2 k ++ le_bytes 4 n)) as Hm
    by (apply (load_first _ _ rest); by rewrite <- !app_assoc).
  set (mem := _ ++ _ ++ _ ++ rest) in *. clearbody mem.
  apply load_bytes_app in Hm as [H1 Hm]. apply load_bytes_app in Hm as [H2 H3].
  rewrite ?length_le_bytes in *. change (0 + Z.of_nat 4) with (4 + 0) in *.
  change (4 + 0 + Z.of_nat 2) with (4 + 0 + 2) in *.
  rewrite (uint4korr_load _ _ _ (le_bytes_bytes _ _) H1), bind_ret, le_val_le_bytes.
  change (8 * Z.of_nat 4) with 32. rewrite (wrap_small 32 len) by (unfold uint; lia). cbn [decode_loop].
  destruct (Z.ltb_spec 0 len); [|lia].
  rewrite (uint2korr_load _ _ _ (le_bytes_bytes _ _) H2), bind_ret, le_val_le_bytes.
  rewrite (uint4korr_load _ _ _ (le_bytes_bytes _ _) H3), bind_ret.
  change (8 * Z.of_nat 2) with 16. rewrite (wrap_small 16 k) by (unfold uint; lia).
  unfold has_funcs, OB20_SVR_END. destruct (Z.ltb_spec k 0), (Z.leb_spec (2004 + 1) k); done || lia.
Qed.

Lemma key_outside_table_witness :
  decode_protocol20_extra_info 1 protocol_example (le_bytes 4 6 ++ le_bytes 2 2005 ++ le_bytes 4 0 ++ []) = Fault.
Proof. apply (key_outside_table protocol_example 0 6 2005 0 []); lia. Defined.

(** A span record is read into the control record: its first field is stored through
    the wrong type. *)
Lemma span_record_confused :
  decode_protocol20_extra_info 9 protocol_example
    (le_bytes 4 19 ++ tlv FULL_TRC (tlv FLT_SPAN_INFO (tlv FLT_TRACE_ENABLE [1]))) = Fault.
Proof. reflexivity. Qed.

(** A second item behind a FULL_TRC item is taken for a record of the first, so a
    message with an application record in each of two items is refused. *)
Lemma second_item_refused : exists q,
  decode_protocol20_extra_info 20 protocol_example
    (le_bytes 4 24 ++ tlv FULL_TRC (tlv FLT_APP_INFO []) ++ tlv FULL_TRC (tlv FLT_APP_INFO [])) =
  Ret (OB_ERROR, q).
Proof. eexists. reflexivity. Qed.

(** * Releasing the items *)

Lemma clear_loop_null fuel h : clear_loop fuel h NULL NULL = Ret h.
Proof. by destruct fuel. Qed.

(** [clear_extra_info] walks the list and hands each node to [list_free], which
    releases the whole rest of the list: with at most one item exactly that item is
    released and the list is empty afterwards; from two items on the loop reads a
    released node. *)
Theorem clear_extra_info_items fuel s l :
  dll (pnodes s) (extra_list (prot s)) l -> (length l <= fuel)%nat ->
  match l with
  | [] | [_] => exists s', clear_extra_info fuel s = Ret s' /\
      extra_list (prot s') = NULL /\ extra_current (prot s') = NULL /\
      header (prot s') = header (prot s) /\ flt (prot s') = flt (prot s) /\
      forall a, pnodes s' !! a = if decide (a ∈ l.*1) then None else pnodes s !! a
  | _ => clear_extra_info fuel s = Fault
  end.
Proof.
  intros [Hnd (last & Hl)] Hf. unfold clear_extra_info. set (root := extra_list (prot s)) in *.
  destruct l as [|[a d] [|[b e] l]].
  - destruct Hl as [-> _]. rewrite clear_loop_null, bind_ret. eexists. split; [done|].
    split; [done|]. split; [done|]. split; [done|]. split; [done|].
    intros a. by rewrite decide_False by set_solver.
  - destruct fuel as [|fuel]; [simpl in Hf; lia|]. pose proof Hl as Hl'. destruct Hl as (-> & Ha & n & Hn & -> & ->).
    destruct (list_free_spec _ (S fuel) _ _ _ _ Hnd Hl' Hf) as (h' & Hfree & Hh').
    cbn [clear_loop]. rewrite is_null_false, (get_Some _ _ _ Hn), bind_ret, Hfree, bind_ret by done.
    simpl next. rewrite clear_loop_null, bind_ret. eexists. split; [done|].
    split; [done|]. split; [done|]. split; [done|]. split; [done|exact Hh'].
  - destruct fuel as [|[|fuel]]; [simpl in Hf; lia..|]. pose proof Hl as Hl'.
    destruct Hl as (-> & Ha & n & Hn & -> & Hb & m & Hm & Hl).
    destruct (list_free_spec _ _ _ _ _ _ Hnd Hl' Hf) as (h' & Hfree & Hh').
    cbn [clear_loop]. rewrite is_null_false, (get_Some _ _ _ Hn), bind_ret, Hfree, bind_ret by done.
    simpl next. rewrite is_null_false by done. unfold get.
    by rewrite Hh', decide_True by (apply list_elem_of_further, list_elem_of_here).
Qed.

Lemma clear_extra_info_items_witness :
  clear_extra_info 2 (Build_PState (set_extra protocol_example 1 NULL) demo_heap ∅ ∅) = Fault.
Proof.
  apply (clear_extra_info_items 2 (Build_PState (set_extra protocol_example 1 NULL) demo_heap ∅ ∅) _ demo_dll).
  simpl. lia.
Defined.

(** * Writing the items *)

(** The wire form of one trace item. *)
Lemma serialize_item mem base len pos data rest :
  all_bytes data -> Z.of_nat (length data) < 2 ^ 31 -> 0 <= pos -> 0 <= base ->
  pos + Z.of_nat (length (tlv FULL_TRC data)) <= len ->
  room mem (base + pos) (length (tlv FULL_TRC data)) ->
  extrainfo_serialize_flt mem base len pos (Some (data ++ rest), Z.of_nat (length data)) =
  Ret (OB_SUCCESS, splice (base + pos) (tlv FULL_TRC data) mem, pos + Z.of_nat (length (tlv FULL_TRC data))).
Proof.
  intros Hd Hn Hp Hb Hl [Hr1 Hr2]. rewrite length_tlv in *. unfold extrainfo_serialize_flt. simpl fst. simpl snd.
  rewrite swrap_small by (lia || (unfold sint; simpl; lia)). unfold EXTRA_TYPE_LENGTH, EXTRA_LEN_LENGTH.
  destruct (Z.ltb_spec len (pos + 2 + 4 + Z.of_nat (length data))); [lia|].
  rewrite int2store_splice, bind_ret by (split; lia). set (m1 := splice _ _ mem).
  assert (length m1 = length mem) as L1 by (apply length_splice; rewrite length_le_bytes; split; lia).
  rewrite int4store_splice, bind_ret by (split; lia). unfold m1.
  replace (base + (pos + 2)) with (base + pos + Z.of_nat (length (le_bytes 2 FULL_TRC))) by (rewrite length_le_bytes; lia).
  rewrite splice_app by (rewrite length_app, !length_le_bytes; split; lia). fold (tlv_head FULL_TRC (Z.of_nat (length data))).
  cbn [deref of_option]. rewrite bind_ret. destruct (Z.ltb_spec (Z.of_nat (length data)) 0); [lia|].
  rewrite Nat2Z.id, (load_first _ data rest eq_refl), bind_ret.
  set (m2 := splice _ _ mem).
  assert (length m2 = length mem) as L2 by (apply length_splice; rewrite length_tlv_head; split; lia).
  rewrite store_bytes_splice, bind_ret by (split; lia).
  rewrite (map_u8_bytes data Hd). unfold m2.
  replace (base + (pos + 2 + 4)) with (base + pos + Z.of_nat (length (tlv_head FULL_TRC (Z.of_nat (length data)))))
    by (rewrite length_tlv_head; lia).
  rewrite splice_app by (rewrite length_app, length_tlv_head; split; lia).
  unfold tlv. do 2 f_equal. lia.
Qed.

(** A node of the list that carries a trace item. *)
Definition carries (s : PState) (d : Z) (data : bytes) : Prop :=
  exists v rest, items s !! Z.to_nat d = Some (Build_Ob20ProtocolExtraInfo FULL_TRC v) /\
    vals s !! v = Some (Some (data ++ rest), Z.of_nat (length data)) /\
    all_bytes data /\ Z.of_nat (length data) < 2 ^ 31.

(** One round of the loop that writes the items: [base + pos] is used as the buffer and
    [pos] again as the offset in it. *)
Lemma fill_round fuel s mem base len pos a n data :
  a <> NULL -> pnodes s !! a = Some n -> carries s (MaList.data n) data -> 0 <= pos -> 0 <= base ->
  pos + Z.of_nat (length (tlv FULL_TRC data)) <= len ->
  room mem (base + pos + pos) (length (tlv FULL_TRC data)) ->
  fill_loop (S fuel) s mem base len pos a =
  fill_loop fuel s (splice (base + pos + pos) (tlv FULL_TRC data) mem) base len
    (pos + Z.of_nat (length (tlv FULL_TRC data))) (next n).
Proof.
  intros Ha Hn (v & rest & Hi & Hv & Hb & Hd) Hp Hbase Hl Hr. cbn [fill_loop].
  rewrite is_null_false, (get_Some _ _ _ Hn), bind_ret by done. unfold get_item.
  rewrite (get_Some _ _ _ Hn), bind_ret, Hi. cbn [of_option]. rewrite bind_ret.
  change (has_funcs (key _)) with (Ret true). rewrite bind_ret. simpl negb. cbv iota. cbn [value].
  rewrite Hv. cbn [of_option]. rewrite bind_ret, serialize_item by (done || lia). rewrite bind_ret. done.
Qed.

Lemma length_round fuel s ret a n data :
  a <> NULL -> pnodes s !! a = Some n -> carries s (MaList.data n) data ->
  0 <= ret -> ret + Z.of_nat (length (tlv FULL_TRC data)) < 2 ^ 64 ->
  length_loop (S fuel) s ret a = length_loop fuel s (ret + Z.of_nat (length (tlv FULL_TRC data))) (next n).
Proof.
  intros Ha Hn (v & rest & Hi & Hv & Hb & Hd) Hr Hl. cbn [length_loop].
  rewrite is_null_false, (get_Some _ _ _ Hn), bind_ret by done. unfold get_item.
  rewrite (get_Some _ _ _ Hn), bind_ret, Hi. cbn [of_option]. rewrite bind_ret.
  change (has_funcs (key _)) with (Ret true). rewrite !bind_ret. cbn [value]. rewrite Hv.
  cbn [of_option]. rewrite !bind_ret. f_equal. rewrite length_tlv in *.
  unfold extrainfo_get_serialize_size_flt, EXTRA_TYPE_LENGTH, EXTRA_LEN_LENGTH. simpl snd.
  rewrite swrap_small by (lia || (unfold sint; simpl; lia)). rewrite wrap_small; [lia|unfold uint; lia].
Qed.

(** For a request with one trace item the length the packet reserves is the length
    of the item on the wire, and exactly those bytes of the packet are written, with
    the item in its type-length-value form. *)
Theorem one_item_written fuel s a d data mem base :
  dll (pnodes s) (extra_list (prot s)) [(a, d)] -> carries s d data -> (1 <= fuel)%nat ->
  room mem base (length (tlv FULL_TRC data)) ->
  let n := Z.of_nat (length (tlv FULL_TRC data)) in
  let s' := set_prot s (set_extra (prot s) (extra_list (prot s)) NULL) in
  get_protocol20_extra_info_length fuel s = Ret (n, s') /\
  fill_protocol20_extra_info fuel s mem base n = Ret (s', splice base (tlv FULL_TRC data) mem, base + n).
Proof.
  intros [_ (last & Hl)] Hc Hf [Hr1 Hr2] n s'. destruct Hl as (Ea & Ha & nx & Hn & -> & ->).
  destruct fuel as [|fuel]; [lia|].
  assert (Z.of_nat (length data) < 2 ^ 31) as Hd by by destruct Hc as (? & ? & _ & _ & _ & ?).
  assert (n = 6 + Z.of_nat (length data)) as En by (unfold n; rewrite length_tlv; lia). split.
  - unfold get_protocol20_extra_info_length.
    rewrite (length_round fuel s 0 _ (Node NULL NULL d) data) by (done || lia || (subst; done)).
    fold n. rewrite Z.add_0_l. simpl next. by destruct fuel.
  - unfold fill_protocol20_extra_info. rewrite is_null_false by congruence.
    rewrite (fill_round fuel s mem base n 0 _ (Node NULL NULL d) data); [|done || lia || (subst; done)..|].
    2: { rewrite !Z.add_0_r. by split. }
    fold n. rewrite !Z.add_0_r, Z.add_0_l. simpl next. by destruct fuel.
Qed.

(** A request with the trace item [7; 8]. *)
Definition one_item : PState :=
  Build_PState (set_extra protocol_example 1 NULL) {[ 1%nat := Node NULL NULL 25 ]}
    {[ 25%nat := Build_Ob20ProtocolExtraInfo FULL_TRC 2 ]} {[ 2%nat := (Some [7; 8; 0], 2) ]}.

Lemma one_item_dll : dll (pnodes one_item) (extra_list (prot one_item)) [(1%nat, 25)].
Proof. split; [repeat constructor; set_solver|]. exists 1%nat. repeat (split || eexists || done). Qed.

Lemma one_item_carries : carries one_item 25 [7; 8].
Proof.
  exists 2%nat, [0]. split; [done|]. split; [done|]. split; [|done].
  repeat constructor; unfold is_byte, uint; simpl; lia.
Qed.

Lemma one_item_written_witness : exists s',
  get_protocol20_extra_info_length 1 one_item = Ret (8, s') /\
  fill_protocol20_extra_info 1 one_item (repeat 0 12) 3 8 =
  Ret (s', splice 3 (tlv FULL_TRC [7; 8]) (repeat 0 12), 3 + 8).
Proof.
  eexists. apply (one_item_written 1 one_item 1 25 [7; 8] (repeat 0 12) 3 one_item_dll one_item_carries);
    [lia|split; simpl; lia].
Defined.

(** With two items the second one lands [length (tlv FULL_TRC data1)] bytes too far: a gap
    stays unwritten and the write ends behind the reserved length. *)
Lemma second_item_misplaced fuel s a d b e data1 data2 mem base :
  dll (pnodes s) (extra_list (prot s)) [(a, d); (b, e)] -> carries s d data1 -> carries s e data2 ->
  (2 <= fuel)%nat -> 0 <= base ->
  let n1 := Z.of_nat (length (tlv FULL_TRC data1)) in
  let n2 := Z.of_nat (length (tlv FULL_TRC data2)) in
  base + n1 + n1 + n2 <= Z.of_nat (length mem) ->
  exists s', fill_protocol20_extra_info fuel s mem base (n1 + n2) =
    Ret (s', splice (base + n1 + n1) (tlv FULL_TRC data2) (splice base (tlv FULL_TRC data1) mem),
         base + (n1 + n2)).
Proof.
  intros [_ (last & Hl)] Hc1 Hc2 Hf Hb n1 n2 Hlen.
  destruct Hl as (Ea & Ha & nx & Hn1 & Eb & Hb' & ny & Hn2 & -> & ->).
  destruct fuel as [|[|fuel]]; [lia..|]. unfold fill_protocol20_extra_info. rewrite Ea, is_null_false by done.
  rewrite (fill_round _ s mem base _ 0 _ _ data1 Ha Hn1 Hc1); [|lia..|rewrite !Z.add_0_r; split; lia].
  rewrite Z.add_0_l, !Z.add_0_r. fold n1. simpl next.
  assert (length (splice base (tlv FULL_TRC data1) mem) = length mem) as Lm by (apply length_splice; split; lia).
  rewrite Eb, (fill_round _ s _ base _ n1 _ _ data2 Hb' Hn2 Hc2); [|lia..|unfold room; rewrite Lm; lia].
  fold n2. simpl next. eexists. by destruct fuel.
Qed.

(** Where the packet ends with the reserved length, two items are written behind it. *)
Lemma second_item_overruns :
  fill_protocol20_extra_info 2
    (Build_PState (set_extra protocol_example 1 NULL) demo_heap
       {[ 10%nat := Build_Ob20ProtocolExtraInfo FULL_TRC 2; 20%nat := Build_Ob20ProtocolExtraInfo FULL_TRC 2 ]}
       {[ 2%nat := (Some [7; 8], 2) ]}) (repeat 0 16) 0 16 = Fault.
Proof. reflexivity. Qed.

End ExtraInfo.
