(* ===== verification/FltRequest.v ===== *)
(** libmariadb/ob_full_link_trace.c: flt_build_request, which gathers the span ids, the
    logs and the application information of a connection into the one trace item of
    the next request, and the accessors flt_set_* and flt_get_control_*.

    [w] is the trace of the connection, [s] its protocol object; [vdata] is the address
    of [flt->flt_value_data_], so that the item queued in [s] points to the value the
    trace object holds.

    [span_image], [log_image] and [show_image] are what the trace has to say, [logged] the
    trace whose logs are sent; [request_carries] shows that the call queues exactly these
    bytes, or nothing. *)

From stdpp Require Import tactics gmap.
From S2P Require Import Prelude IntStore Serialize MaList FltCodec Uuid TraceText Trace TraceInv Protocol20 ExtraInfo.
Import Serialize MaList FltCodec Uuid TraceText Trace TraceInv Protocol20 ExtraInfo.

Module FltRequest.

Definition set_show_json (f : FLTInfo) (v : ptr) : FLTInfo :=
  Flt (Build_FLTShowTraceSpan (sts_type_ (show_trace_span_ f)) v) (flt_client_span f) (control_info_ f)
    (app_info_ f) (query_info_ f) (span_info_ f) (value_data_ f) (value_length f) (in_trans_ f)
    (flt_trace_id f) (flt_span_id f).
Definition set_client_span (f : FLTInfo) (v : ptr) : FLTInfo :=
  Flt (show_trace_span_ f) (Build_FLTDriverSpanInfo (drv_type_ (flt_client_span f)) v) (control_info_ f)
    (app_info_ f) (query_info_ f) (span_info_ f) (value_data_ f) (value_length f) (in_trans_ f)
    (flt_trace_id f) (flt_span_id f).
Definition set_app_info (f : FLTInfo) (v : FLTAppInfo) : FLTInfo :=
  Flt (show_trace_span_ f) (flt_client_span f) (control_info_ f) v (query_info_ f) (span_info_ f)
    (value_data_ f) (value_length f) (in_trans_ f) (flt_trace_id f) (flt_span_id f).
Definition set_span_info (f : FLTInfo) (v : FLTSpanInfo) : FLTInfo :=
  Flt (show_trace_span_ f) (flt_client_span f) (control_info_ f) (app_info_ f) (query_info_ f) v
    (value_data_ f) (value_length f) (in_trans_ f) (flt_trace_id f) (flt_span_id f).
Definition set_value_data (f : FLTInfo) (v : ptr) (n : Z) : FLTInfo :=
  Flt (show_trace_span_ f) (flt_client_span f) (control_info_ f) (app_info_ f) (query_info_ f)
    (span_info_ f) v n (in_trans_ f) (flt_trace_id f) (flt_span_id f).
Definition set_ids (f : FLTInfo) (t sp : bytes) : FLTInfo :=
  Flt (show_trace_span_ f) (flt_client_span f) (control_info_ f) (app_info_ f) (query_info_ f)
    (span_info_ f) (value_data_ f) (value_length f) (in_trans_ f) t sp.

Definition empty_app : FLTAppInfo := Build_FLTAppInfo FLT_APP_INFO None None None None.

Definition b2z (b : bool) : Z := if b then 1 else 0.

(** ** The span record *)

(** The first part: give the active span its id, put the ids into the span record, and
    flush the trace when its log is to be printed.  Returns (ret, world). *)
Definition build_ids (fuel tag_fuel : nat) (w : World) (trace : ObTrace) (f : FLTInfo)
    : cres (Z * World) :=
  let span := last_active_span_ trace in
  if tr_enable trace && negb (is_null span) then
    '(w, trace) ← init_span w trace span;
    let w := put_trace w trace in
    sp ← get_span w span;
    '(ret, tid, _) ← serialize_UUID (Some (flt_trace_id f)) UUID4_SERIALIZE_LEN 0 (tr_id trace);
    tid ← of_option tid;
    let f := set_ids f tid (flt_span_id f) in
    if negb (ret =? OB_SUCCESS) then Ret (ret, set_the_flt w (Some f))
    else
      '(ret, sid, _) ← serialize_UUID (Some (flt_span_id f)) UUID4_SERIALIZE_LEN 0 (span_uuid sp);
      sid ← of_option sid;
      let f := set_ids f tid sid in
      if negb (ret =? OB_SUCCESS) then Ret (ret, set_the_flt w (Some f))
      else
        let i := span_info_ f in
        let f := set_span_info f (Build_FLTSpanInfo FLT_SPAN_INFO (b2z (tr_enable trace))
                   (b2z (tr_force_print trace)) (Some tid) (ref_type_ i) (Some sid)) in
        let w := set_the_flt w (Some f) in
        if tr_force_print trace then w ← flush_trace fuel tag_fuel w; Ret (OB_SUCCESS, w)
        else Ret (OB_SUCCESS, w)
  else
    let i := span_info_ f in
    Ret (OB_SUCCESS, set_the_flt w (Some (set_span_info f (Build_FLTSpanInfo (spn_type_ i) 0 (force_print_ i)
      (trace_id_ i) (ref_type_ i) (span_id_ i))))).

(** ** The logs *)

(** Where the log records of [flt] point to; closes the show-trace array. *)
Definition build_logs (trace : ObTrace) (f : FLTInfo) : cres (ObTrace * FLTInfo) :=
  let f := set_client_span f (if negb (0 =? log_buf_offset_ trace) then Some (log_buf_ trace) else None) in
  if (1 <? show_trace_buf_offset_ trace) && show_trace_enable_ trace then
    mem ← store (show_trace_buf_ trace) (show_trace_buf_offset_ trace - 1) 93;
    let trace := set_show_trace_buf_ trace mem in
    Ret (trace, set_show_json f (Some mem))
  else Ret (trace, set_show_json f None).

(** ** The item *)

(** One rung of the ladder: serialize when the size is not 0, then compare the position. *)
Definition put_record (size : Z) (o : flt_obj) (expected : Z) (r : Z * ptr * Z) (serialize_size : Z)
    : cres (Z * ptr * Z) :=
  let '(ret, buf, pos) := r in
  if negb (ret =? OB_SUCCESS) then Ret r
  else
    '(ret, buf, pos) ← (if negb (0 =? size) then flt_serialize_extra_info buf serialize_size pos o
                        else Ret (OB_SUCCESS, buf, pos));
    if negb (ret =? OB_SUCCESS) then Ret (ret, buf, pos)
    else if negb (pos =? expected) then Ret (OB_ERROR, buf, pos) else Ret (OB_SUCCESS, buf, pos).

(** The records go into the buffer in the order span, log, show trace, application. *)
Definition build_records (f : FLTInfo) (buf : ptr) (span log show app total : Z) : cres (Z * ptr * Z) :=
  '(ret, buf, pos) ← flt_serialize_extra_info buf total 0 (SpanInfo (span_info_ f));
  let r := if negb (ret =? OB_SUCCESS) then (ret, buf, pos)
           else if negb (pos =? span) then (OB_ERROR, buf, pos) else (OB_SUCCESS, buf, pos) in
  r ← put_record log (DriverSpanInfo (flt_client_span f)) (span + log) r total;
  r ← put_record show (ShowTraceSpan (show_trace_span_ f)) (span + log + show) r total;
  put_record app (AppInfo (app_info_ f)) total r total.

(** Clears what has been written; the logs start again. *)
Definition clear_sent (trace : ObTrace) (f : FLTInfo) (app : Z) : cres (ObTrace * FLTInfo) :=
  let f := if negb (0 =? app) then set_app_info f empty_app else f in
  let trace := set_log_buf_offset_ trace 0 in
  let f := set_client_span f None in
  show ← store (show_trace_buf_ trace) 0 91;
  let trace := set_show_trace_buf_offset_ (set_show_trace_buf_ trace show) 1 in
  Ret (trace, set_show_json f None).

(** The second part, from the sizes to the queued item.  [fresh] is the block that
    ob20_set_extra_info allocates. *)
Definition build_item (w : World) (trace : ObTrace) (f : FLTInfo) (s : PState) (fresh vdata : loc)
    : cres (Z * World * PState) :=
  '(trace, f) ← build_logs trace f;
  app ← flt_get_serialize_size_extra_info (AppInfo (app_info_ f));
  log ← flt_get_serialize_size_extra_info (DriverSpanInfo (flt_client_span f));
  span ← flt_get_serialize_size_extra_info (SpanInfo (span_info_ f));
  show ← flt_get_serialize_size_extra_info (ShowTraceSpan (show_trace_span_ f));
  let total := s32 (app + log + span + show) in
  if 0 =? total then Ret (OB_SUCCESS, set_the_flt (put_trace w trace) (Some f), s)
  else if MAX_FLT_SERIALIZE_SIZE <? total then
    Ret (OB_ERROR, set_the_flt (put_trace w trace) (Some f), s)
  else
    '(ret, buf, _) ← build_records f (Some (flt_serialize_buf_ trace)) span log show app total;
    mem ← of_option buf;
    let trace := set_flt_serialize_buf_ trace mem in
    let f := set_value_data f buf total in
    let s := Build_PState (prot s) (pnodes s) (items s) (<[vdata := (buf, total)]> (vals s)) in
    if negb (ret =? OB_SUCCESS) then Ret (ret, set_the_flt (put_trace w trace) (Some f), s)
    else
      '(trace, f) ← clear_sent trace f app;
      let w := set_the_flt (put_trace w trace) (Some f) in
      '(ret, s) ← ob20_set_extra_info s fresh FULL_TRC vdata;
      Ret (ret, w, s).

Definition flt_build_request (fuel tag_fuel : nat) (w : World) (s : PState)
    (fresh vdata : loc) : cres (Z * World * PState) :=
  match the_flt w with
  | None => Fault
  | Some f =>
      match the_trace w with
      | None => Ret (OB_ERROR, w, s)
      | Some trace =>
          '(ret, w) ← build_ids fuel tag_fuel w trace f;
          if negb (ret =? OB_SUCCESS) then Ret (ret, w, s)
          else
            trace ← of_option (the_trace w);
            f ← of_option (the_flt w);
            build_item w trace f s fresh vdata
      end
  end.

(** * Accessors

    [use_flt] is get_use_full_link_trace(mysql) of a non-NULL handle, [p] its protocol
    object, [None] when there is none. *)

Definition flt_set_app (upd : FLTAppInfo -> ptr -> FLTAppInfo) (use_flt : bool) (p : option Ob20Protocol)
    (v : ptr) : Z * option Ob20Protocol :=
  if negb use_flt then (1, p)
  else match p with
  | None => (1, p)
  | Some q => match flt q with
              | None => (1, p)
              | Some f => (0, Some (set_flt q (Some (set_app_info f (upd (app_info_ f) v)))))
              end
  end.

Definition flt_set_module := flt_set_app set_module_.
Definition flt_set_action := flt_set_app set_action_.
Definition flt_set_client_info := flt_set_app set_client_info_.
Definition flt_set_identifier := flt_set_app set_identifier_.

(** [out] is the caller's variable. *)
Definition flt_get_control (rd : FLTControlInfo -> Z) (use_flt : bool) (p : option Ob20Protocol) (out : Z)
    : Z * Z :=
  if negb use_flt then (1, out)
  else match p with
  | None => (1, out)
  | Some q => match flt q with None => (1, out) | Some f => (0, rd (control_info_ f)) end
  end.

Definition flt_get_control_level := flt_get_control level_.
Definition flt_get_control_sample_pct := flt_get_control sample_pct_.
Definition flt_get_control_record_policy := flt_get_control (fun c => s32 (rp_ c)).
Definition flt_get_control_print_spct := flt_get_control print_sample_pct_.
Definition flt_get_control_slow_threshold := flt_get_control slow_query_threshold_.

(** flt_set_send_trans_flag of a non-NULL FLTInfo *)
Definition flt_set_send_trans_flag (f : FLTInfo) (flag : bool) : FLTInfo :=
  Flt (show_trace_span_ f) (flt_client_span f) (control_info_ f) (app_info_ f) (query_info_ f) (span_info_ f)
    (value_data_ f) (value_length f) flag (flt_trace_id f) (flt_span_id f).

(** * What a request carries *)

(** The wire image of a record that may be left out. *)
Definition present (o : flt_obj) (bs : bytes) : Prop :=
  (bs = [] /\ flt_get_serialize_size_extra_info o = Ret 0) \/ (bs <> [] /\ encodes o bs).

Lemma present_size o bs :
  present o bs -> Z.of_nat (length bs) < 2 ^ 31 ->
  flt_get_serialize_size_extra_info o = Ret (Z.of_nat (length bs)).
Proof. intros [[-> H]|[_ H]] Hl; [done|]. by apply serialize_size. Qed.

Lemma tlv_bytes id data : all_bytes data -> all_bytes (tlv id data).
Proof. intros Hd. unfold tlv, tlv_head. rewrite !Forall_app. auto using le_bytes_bytes. Qed.

Lemma opt_field_bytes s id bs : opt_field s id bs -> all_bytes bs.
Proof. intros [[_ ->]|(d & (r & _ & Hd) & ->)]; [constructor|]. by apply tlv_bytes, cstr_bytes. Qed.

Lemma nul_bytes d : Forall (fun c => 0 < c < 256) d -> all_bytes (d ++ [0]).
Proof.
  intros Hd. apply Forall_app. split; [by apply cstr_bytes|].
  repeat constructor; unfold is_byte, uint; simpl; lia.
Qed.

Lemma encodes_bytes o bs : encodes o bs -> all_bytes bs.
Proof.
  destruct 1 as [| |i b1 b2 b3 b4 _ H1 H2 H3 H4 _|i d _ (r & _ & Hd)|i d _ (r & _ & Hd)].
  - constructor.
  - apply tlv_bytes. rewrite !Forall_app. auto 6 using tlv_bytes, le_bytes_bytes.
  - apply opt_field_bytes in H1, H2, H3, H4. apply tlv_bytes. rewrite !Forall_app. auto.
  - auto using tlv_bytes, nul_bytes.
  - auto using tlv_bytes, nul_bytes.
Qed.

Lemma present_bytes o bs : present o bs -> all_bytes bs.
Proof. intros [[-> _]|[_ H]]; [constructor|by eapply encodes_bytes]. Qed.

(** A rung of the ladder appends the image of its record. *)
Lemma put_record_ok mem a o bs total :
  present o bs -> Z.of_nat (length (a ++ bs)) <= total -> total <= Z.of_nat (length mem) -> total < 2 ^ 31 ->
  put_record (Z.of_nat (length bs)) o (Z.of_nat (length (a ++ bs)))
    (OB_SUCCESS, Some (splice 0 a mem), Z.of_nat (length a)) total =
  Ret (OB_SUCCESS, Some (splice 0 (a ++ bs) mem), Z.of_nat (length (a ++ bs))).
Proof.
  intros Hp Ht Hm Hs. unfold put_record. simpl (negb (OB_SUCCESS =? _)). cbv iota.
  rewrite length_app in *. destruct Hp as [[-> _]|[Hne He]].
  - simpl. rewrite !app_nil_r, Nat.add_0_r, Z.eqb_refl. done.
  - assert (length bs <> 0)%nat by (by destruct bs).
    destruct (Z.eqb_spec 0 (Z.of_nat (length bs))); [lia|]. simpl negb. cbv iota.
    assert (length (splice 0 a mem) = length mem) as Lm by (apply length_splice; split; lia).
    rewrite (serialize_record o bs _ total _ He) by lia.
    rewrite bind_ret. simpl (negb (OB_SUCCESS =? _)). cbv iota.
    replace (Z.of_nat (length a) + Z.of_nat (length bs)) with (Z.of_nat (length a + length bs)) by lia.
    rewrite Z.eqb_refl. simpl negb. cbv iota. do 3 f_equal. f_equal.
    rewrite <- (splice_app 0 a bs mem) by (rewrite length_app; split; lia). by rewrite Z.add_0_l.
Qed.

Lemma build_records_ok f mem b1 b2 b3 b4 :
  encodes (SpanInfo (span_info_ f)) b1 -> present (DriverSpanInfo (flt_client_span f)) b2 ->
  present (ShowTraceSpan (show_trace_span_ f)) b3 -> present (AppInfo (app_info_ f)) b4 ->
  let total := Z.of_nat (length (((b1 ++ b2) ++ b3) ++ b4)) in
  total <= Z.of_nat (length mem) -> total < 2 ^ 31 ->
  build_records f (Some mem) (Z.of_nat (length b1)) (Z.of_nat (length b2)) (Z.of_nat (length b3))
    (Z.of_nat (length b4)) total =
  Ret (OB_SUCCESS, Some (splice 0 (((b1 ++ b2) ++ b3) ++ b4) mem), total).
Proof.
  intros H1 H2 H3 H4 total Hm Ht. unfold build_records.
  assert (Z.of_nat (length b1) <= total /\ Z.of_nat (length (b1 ++ b2)) <= total /\
    Z.of_nat (length ((b1 ++ b2) ++ b3)) <= total) as (L1 & L2 & L3)
    by (unfold total; rewrite !length_app; lia).
  rewrite (serialize_record _ b1 mem total 0 H1), bind_ret by lia. simpl (negb (OB_SUCCESS =? _)). cbv iota.
  rewrite Z.add_0_l, Z.eqb_refl. simpl (negb true). cbv iota zeta.
  replace (Z.of_nat (length b1) + Z.of_nat (length b2)) with (Z.of_nat (length (b1 ++ b2)))
    by (rewrite length_app; lia).
  rewrite put_record_ok, bind_ret by (done || lia).
  replace (Z.of_nat (length (b1 ++ b2)) + Z.of_nat (length b3)) with (Z.of_nat (length ((b1 ++ b2) ++ b3)))
    by (rewrite (length_app _ b3); lia).
  rewrite put_record_ok, bind_ret by (done || lia). by apply put_record_ok.
Qed.

(** ** What the span record says *)

Definition active (t : ObTrace) : bool := tr_enable t && negb (is_null (last_active_span_ t)).

(** The identity of the active span: the one it has, or else its start time and the
    next random number. *)
Definition span_identity (w : World) (t : ObTrace) : OBCLIENT_UUID :=
  match spans w !! last_active_span_ t with
  | Some sp => if high_ (span_uuid sp) =? 0
               then UUID (xorshift128plus (uuid_random_seed t)).1 (u64 (start_ts_ sp)) else span_uuid sp
  | None => zero_uuid
  end.

(** Sixteen bytes, the high half first, each half with its highest byte first. *)
Definition uuid_image (u : OBCLIENT_UUID) : bytes := be8 (s64 (high_ u)) ++ be8 (s64 (low_ u)).

Definition span_image (w : World) (t : ObTrace) (f : FLTInfo) : bytes :=
  if active t then
    tlv FLT_SPAN_INFO
      (tlv FLT_TRACE_ENABLE [1] ++ tlv FLT_FORCE_PRINT [b2z (tr_force_print t)] ++
       tlv FLT_TRACE_ID (uuid_image (tr_id t)) ++ tlv FLT_REF_TYPE (le_bytes 1 (ref_type_ (span_info_ f))) ++
       tlv FLT_SPAN_ID (uuid_image (span_identity w t)))
  else [].

(** The span record of the trace object afterwards. *)
Definition with_span (w : World) (t : ObTrace) (f : FLTInfo) : FLTInfo :=
  let i := span_info_ f in
  let tid := uuid_image (tr_id t) in
  let sid := uuid_image (span_identity w t) in
  if active t then set_span_info (set_ids f tid sid)
    (Build_FLTSpanInfo FLT_SPAN_INFO 1 (b2z (tr_force_print t)) (Some tid) (ref_type_ i) (Some sid))
  else set_span_info f (Build_FLTSpanInfo (spn_type_ i) 0 (force_print_ i) (trace_id_ i) (ref_type_ i) (span_id_ i)).

(** The active span keeps the identity it is sent with. *)
Definition identified (w : World) (t : ObTrace) : World :=
  match spans w !! last_active_span_ t with
  | Some sp => if active t && (high_ (span_uuid sp) =? 0)
               then put_trace (put_span w (last_active_span_ t) (set_span_uuid sp (span_identity w t)))
                      (set_uuid_random_seed t (xorshift128plus (uuid_random_seed t)).2)
               else w
  | None => w
  end.

(** The trace whose logs are sent: flushed first when the active trace is to be printed. *)
Definition logged (fuel tag_fuel : nat) (w : World) (t : ObTrace) (f : FLTInfo) : cres World :=
  let w1 := set_the_flt (identified w t) (Some (with_span w t f)) in
  if active t && tr_force_print t then flush_trace fuel tag_fuel w1 else Ret w1.

Lemma be8_bytes v : all_bytes (be8 v).
Proof. unfold be8. apply Forall_map. apply Forall_true. intros. unfold is_byte. apply wrap_uint. lia. Qed.

Lemma uuid_image_bytes u : all_bytes (uuid_image u).
Proof. apply Forall_app. split; apply be8_bytes. Qed.

Lemma serialize_UUID_image mem u : length mem = 16%nat ->
  serialize_UUID (Some mem) UUID4_SERIALIZE_LEN 0 u = Ret (OB_SUCCESS, Some (uuid_image u), 16).
Proof.
  intros Hm. unfold serialize_UUID, UUID4_SERIALIZE_LEN. rewrite encode_i64_ok, bind_ret by lia.
  change (negb (OB_SUCCESS =? OB_SUCCESS)) with false. cbv iota.
  rewrite encode_i64_ok; [|lia|rewrite length_splice by (split; simpl; lia); lia|lia].
  do 3 f_equal. f_equal. rewrite (splice_app 0 (be8 _) (be8 _) mem) by (split; simpl; lia).
  rewrite splice_0, drop_ge, app_nil_r by (simpl; lia). done.
Qed.

Lemma span_image_encodes w t f :
  spn_type_ (span_info_ f) = FLT_SPAN_INFO -> encodes (SpanInfo (span_info_ (with_span w t f))) (span_image w t f).
Proof.
  intros Ht. unfold with_span, span_image. destruct (active t); [|by apply enc_span_off].
  assert ([b2z (tr_force_print t)] = le_bytes 1 (b2z (tr_force_print t))) as -> by (by destruct (tr_force_print t)).
  assert ([1] = le_bytes 1 1) as -> by reflexivity.
  set (i := Build_FLTSpanInfo _ _ _ _ _ _).
  apply (enc_span i (uuid_image (tr_id t)) (uuid_image (span_identity w t)) [] []);
    rewrite ?app_nil_r; first [reflexivity|apply uuid_image_bytes].
Qed.

Lemma put_trace_id w t : the_trace w = Some t -> put_trace w t = w.
Proof. destruct w. simpl. by intros ->. Qed.

(** What flt_init sets up and nothing changes: the arrays of the two identifiers and
    the types of the records. *)
Definition flt_ok (f : FLTInfo) : Prop :=
  length (flt_trace_id f) = 16%nat /\ length (flt_span_id f) = 16%nat /\
  spn_type_ (span_info_ f) = FLT_SPAN_INFO /\ drv_type_ (flt_client_span f) = FLT_DRIVER_SPAN_INFO /\
  sts_type_ (show_trace_span_ f) = FLT_TYPE_SHOW_TRACE_SPAN.

Lemma inv_same w t sp sd cur free ft ct :
  inv w t cur free ft ct -> same_but_uuid (spans w) sp ->
  inv (set_spans w sp) (set_uuid_random_seed t sd) cur free ft ct.
Proof.
  intros (Hl & Hsp & Hla & Htags & Hb) Hs.
  split_and!; [done|by eapply same_spans_ok|done|by apply same_tags_ok|by apply (bufs_ok_ext t)].
Qed.

Lemma identified_wf w t f : wf w -> the_trace w = Some t -> wf (set_the_flt (identified w t) f).
Proof.
  intros (t0 & cur & free & ft & ct & Ht0 & Hinv) Ht. rewrite Ht in Ht0. injection Ht0 as <-. unfold identified.
  destruct (spans w !! last_active_span_ t) as [sp|] eqn:Hsp; [|by exists t, cur, free, ft, ct].
  destruct (_ && _); [|by exists t, cur, free, ft, ct].
  eexists _, cur, free, ft, ct. split; [reflexivity|]. eapply (inv_same w), same_insert; done.
Qed.

(** The first part builds the span record and leaves the trace to be sent. *)
Lemma build_ids_logged fuel tag_fuel w t f :
  wf w -> the_trace w = Some t -> flt_ok f ->
  build_ids fuel tag_fuel w t f = (w1 ← logged fuel tag_fuel w t f; Ret (OB_SUCCESS, w1)).
Proof.
  intros (t0 & cur & free & ft & ct & Ht0 & _ & Hsp & Hla & _) Ht (L1 & L2 & _).
  rewrite Ht in Ht0. injection Ht0 as <-.
  unfold build_ids, logged, identified, with_span. destruct (active t) eqn:Hact; unfold active in Hact; rewrite Hact.
  2: { by destruct (spans w !! _). }
  apply andb_true_iff in Hact as [Hen Hnn]. apply negb_true_iff in Hnn.
  destruct Hla as [Hla|Hla]; [by rewrite Hla in Hnn|]. destruct (Hsp _ Hla) as [sp Es].
  unfold init_span, get_span, span_identity. rewrite Hnn, Es. cbn [of_option]. rewrite bind_ret.
  destruct (high_ (span_uuid sp) =? 0) eqn:Eh.
  - destruct (xorshift128plus (uuid_random_seed t)) as [low sd]. rewrite bind_ret. simpl spans.
    rewrite lookup_insert_eq. cbn [of_option]. rewrite bind_ret, serialize_UUID_image, bind_ret by done.
    cbn [of_option]. rewrite bind_ret. simpl (negb (OB_SUCCESS =? _)). cbv iota.
    rewrite serialize_UUID_image, bind_ret by done. cbn [of_option]. rewrite bind_ret. simpl andb. cbv iota zeta.
    change (tr_force_print (set_uuid_random_seed t sd)) with (tr_force_print t).
    change (tr_enable (set_uuid_random_seed t sd)) with (tr_enable t). rewrite Hen.
    destruct (tr_force_print t); [done|by rewrite bind_ret].
  - rewrite bind_ret, put_trace_id, Es by done. cbn [of_option].
    rewrite bind_ret, serialize_UUID_image, bind_ret by done.
    cbn [of_option]. rewrite bind_ret. simpl (negb (OB_SUCCESS =? _)). cbv iota.
    rewrite serialize_UUID_image, bind_ret by done. cbn [of_option]. rewrite bind_ret. simpl andb. cbv iota zeta. rewrite Hen.
    destruct (tr_force_print t); [done|by rewrite bind_ret].
Qed.

Lemma logged_ok fuel tag_fuel w t f :
  wf w -> the_trace w = Some t -> (16 <= tag_fuel)%nat -> (1025 <= fuel)%nat ->
  exists w1, logged fuel tag_fuel w t f = Ret w1 /\ wf w1 /\ the_flt w1 = Some (with_span w t f).
Proof.
  intros Hwf Ht H1 H2. unfold logged. pose proof (identified_wf w t (Some (with_span w t f)) Hwf Ht) as Hid.
  destruct (_ && _); [|by eauto]. destruct (flush_trace_ok fuel tag_fuel _ Hid H1 H2) as (w1 & -> & Hw & Hf).
  by exists w1.
Qed.

(** ** What the log records say *)

Fixpoint upto_nul (m : bytes) : bytes :=
  match m with [] => [] | c :: m => if c =? 0 then [] else c :: upto_nul m end.

Definition shows (t : ObTrace) : bool := (1 <? show_trace_buf_offset_ t) && show_trace_enable_ t.

(** The array of show-trace lines, its last comma replaced by the bracket. *)
Definition closed (t : ObTrace) : ObTrace :=
  if shows t
  then set_show_trace_buf_ t (<[Z.to_nat (show_trace_buf_offset_ t - 1) := 93]> (show_trace_buf_ t)) else t.

Definition log_image (t : ObTrace) : bytes :=
  if log_buf_offset_ t =? 0 then []
  else tlv FLT_DRIVER_SPAN_INFO (tlv FLT_DRIVER_SPAN (upto_nul (log_buf_ t) ++ [0])).

Definition show_image (t : ObTrace) : bytes :=
  if shows t
  then tlv FLT_TYPE_SHOW_TRACE_SPAN (tlv FLT_DRV_SHOW_TRACE_SPAN (upto_nul (show_trace_buf_ (closed t)) ++ [0]))
  else [].

Definition with_logs (t : ObTrace) (f : FLTInfo) : FLTInfo :=
  set_show_json (set_client_span f (if log_buf_offset_ t =? 0 then None else Some (log_buf_ t)))
    (if shows t then Some (show_trace_buf_ (closed t)) else None).

Lemma upto_nul_text first m off : holds_text first m off -> first < off -> is_cstr (Some m) (upto_nul m).
Proof.
  intros [_ H] Ho. destruct (H Ho) as (d & r & -> & Hd & _). exists r.
  assert (upto_nul (d ++ 0 :: r) = d) as ->; [|done].
  clear H. induction Hd as [|c d Hc _ IH]; [done|]. simpl. destruct (Z.eqb_spec c 0); [lia|]. by rewrite IH.
Qed.

Lemma upto_nul_length m : (length (upto_nul m) <= length m)%nat.
Proof. induction m as [|c m IH]; simpl; [lia|]. destruct (c =? 0); simpl; lia. Qed.

(** A character of the text may be replaced by another. *)
Lemma holds_text_insert first m off i c :
  holds_text first m off -> first < off -> 0 <= Z.of_nat i < off -> 0 < c < 256 -> holds_text first (<[i := c]> m) off.
Proof.
  intros [_ H] Ho Hi Hc. destruct (H Ho) as (d & r & -> & Hd & Hl). rewrite insert_app_l by lia.
  apply holds_data; [by apply Forall_insert|]. rewrite length_insert. lia.
Qed.

Lemma closed_bufs t : bufs_ok t -> bufs_ok (closed t).
Proof.
  intros Hb. unfold closed, shows. destruct (Z.ltb_spec 1 (show_trace_buf_offset_ t)); [|done].
  destruct (show_trace_enable_ t); [|done]. destruct Hb as [H1 H2 H3 H4 H5 H6 H7].
  split; cbn; rewrite ?length_insert; try done. apply holds_text_insert; [done|lia..].
Qed.

Lemma build_logs_ok t f : bufs_ok t -> build_logs t f = Ret (closed t, with_logs t f).
Proof.
  intros [H1 H2 H3 H4 H5 H6 H7]. unfold build_logs, closed, with_logs, closed, shows. rewrite (Z.eqb_sym 0).
  assert ((if negb (log_buf_offset_ t =? 0) then Some (log_buf_ t) else None) =
    (if log_buf_offset_ t =? 0 then None else Some (log_buf_ t))) as -> by (by destruct (_ =? 0)).
  destruct (Z.ltb_spec 1 (show_trace_buf_offset_ t)); simpl andb; cbv iota; [|done].
  destruct (show_trace_enable_ t); [|done].
  rewrite store_in, bind_ret; [done|]. rewrite H3. unfold MAX_TRACE_LOG_SIZE in *. simpl. lia.
Qed.

Lemma tlv_not_nil id d : tlv id d <> [].
Proof. intros H%(f_equal length). rewrite length_tlv in H. simpl in H. lia. Qed.

Lemma log_present t f :
  bufs_ok t -> drv_type_ (flt_client_span f) = FLT_DRIVER_SPAN_INFO ->
  present (DriverSpanInfo (flt_client_span (with_logs t f))) (log_image t).
Proof.
  intros [H1 H2 H3 H4 H5 H6 H7] Hty. unfold with_logs, log_image.
  destruct (Z.eqb_spec (log_buf_offset_ t) 0) as [E|E].
  - left. split; [done|]. unfold flt_get_serialize_size_extra_info, base_type. cbn. by rewrite Hty.
  - right. split; [apply tlv_not_nil|]. apply enc_driver; [done|]. cbn. eapply upto_nul_text; [done|lia].
Qed.

Lemma show_present t f :
  bufs_ok t -> sts_type_ (show_trace_span_ f) = FLT_TYPE_SHOW_TRACE_SPAN ->
  present (ShowTraceSpan (show_trace_span_ (with_logs t f))) (show_image t).
Proof.
  intros Hb Hty. unfold with_logs, show_image. destruct (shows t) eqn:Hs.
  - right. split; [apply tlv_not_nil|]. apply enc_showtrace; [done|]. cbn.
    pose proof (closed_bufs t Hb) as [_ _ _ _ _ _ Ht]. eapply upto_nul_text; [exact Ht|].
    unfold closed. rewrite Hs. cbn. apply andb_true_iff in Hs as [Hs _]. lia.
  - left. split; [done|]. unfold flt_get_serialize_size_extra_info, base_type. cbn. by rewrite Hty.
Qed.

Lemma images_short w t f t1 : bufs_ok t1 ->
  Z.of_nat (length (span_image w t f)) + Z.of_nat (length (log_image t1)) + Z.of_nat (length (show_image t1)) < 2 ^ 16.
Proof.
  intros Hb. pose proof (closed_bufs t1 Hb) as [_ _ Hc _ _ _ _]. destruct Hb as [H1 _ _ _ _ _ _].
  pose proof (upto_nul_length (log_buf_ t1)). pose proof (upto_nul_length (show_trace_buf_ (closed t1))).
  assert (Z.of_nat (length (span_image w t f)) <= 128) as Hs.
  { unfold span_image. destruct (active t); [|simpl; lia]. rewrite !length_tlv, !length_app, !length_tlv.
    rewrite length_le_bytes. simpl. lia. }
  unfold log_image, show_image. unfold MAX_TRACE_LOG_SIZE in *. simpl in H1, Hc.
  destruct (_ =? 0), (shows t1); rewrite ?length_tlv, ?length_app; simpl length; lia.
Qed.

(** ** The request *)

(** One more item in front of those already queued: it points to the value [v], which
    holds the data. *)
Definition queued (s s' : PState) (l : list (loc * Z)) (fresh v : loc) (data : bytes) : Prop :=
  dll (pnodes s') (extra_list (prot s')) ((fresh, Z.of_nat (fresh + 24)) :: l) /\
  items s' = <[(fresh + 24)%nat := Build_Ob20ProtocolExtraInfo FULL_TRC v]> (items s) /\
  (exists rest, vals s' = <[v := (Some (data ++ rest), Z.of_nat (length data))]> (vals s)) /\
  carries s' (Z.of_nat (fresh + 24)) data /\ header (prot s') = header (prot s).

Lemma queue_item p h its vs l fresh v data rest :
  fresh <> NULL -> dll h (extra_list p) l -> fresh ∉ l.*1 -> all_bytes data -> Z.of_nat (length data) < 2 ^ 31 ->
  exists s', ob20_set_extra_info (Build_PState p h its (<[v := (Some (data ++ rest), Z.of_nat (length data))]> vs))
      fresh FULL_TRC v = Ret (OB_SUCCESS, s') /\
    queued (Build_PState p h its vs) s' l fresh v data.
Proof.
  intros Hf Hd Hni Hb Hn. unfold ob20_set_extra_info. rewrite is_null_false by done. cbn [prot pnodes items vals].
  edestruct (list_add_head (<[fresh := Node NULL NULL (Z.of_nat (fresh + 24))]> h) (extra_list p) l fresh)
    as (h' & -> & Hd' & _); [|apply lookup_insert_eq|done|done|].
  { eapply dll_frame, Hd. intros a Ha. apply lookup_insert_ne. by intros <-. }
  rewrite bind_ret. eexists. split; [done|]. split; [exact Hd'|]. split; [done|]. split; [by exists rest|].
  split; [|done]. exists v, rest. rewrite Nat2Z.id. split; [apply lookup_insert_eq|]. split; [apply lookup_insert_eq|done].
Qed.

(** Nothing was sent: the logs and the application information wait for the next request. *)
Definition kept (w' : World) (t1 : ObTrace) (f : FLTInfo) : Prop :=
  the_trace w' = Some (closed t1) /\ exists f', the_flt w' = Some f' /\ app_info_ f' = app_info_ f.

(** What was sent is cleared. *)
Definition cleared (w' : World) (f : FLTInfo) (app : bytes) : Prop :=
  exists t' f', the_trace w' = Some t' /\ log_buf_offset_ t' = 0 /\ show_trace_buf_offset_ t' = 1 /\
    show_trace_buf_ t' !! 0%nat = Some 91 /\
    the_flt w' = Some f' /\ client_span_ (flt_client_span f') = None /\
    client_span_json_ (show_trace_span_ f') = None /\
    app_info_ f' = (if decide (app = []) then app_info_ f else empty_app).

Lemma wf_bufs w t t' f :
  wf w -> the_trace w = Some t -> bufs_ok t' ->
  current_span_list_ t' = current_span_list_ t -> free_span_list_ t' = free_span_list_ t ->
  last_active_span_ t' = last_active_span_ t -> free_tag_list_ t' = free_tag_list_ t ->
  wf (set_the_flt (put_trace w t') f).
Proof.
  intros (t0 & cur & free & ft & ct & Ht0 & Hinv) Ht Hb E1 E2 E3 E4. rewrite Ht in Ht0. injection Ht0 as <-.
  destruct Hinv as ((Hl1 & Hl2 & Hp) & Hsp & Hla & (Hft & Hct & Hnd & Hsub) & _).
  exists t', cur, free, ft, ct. split; [done|]. split_and!; [|done|by rewrite E3| |done].
  - split_and!; by rewrite ?E1, ?E2.
  - split_and!; by rewrite ?E4.
Qed.

Lemma clear_sent_ok t f b4 :
  bufs_ok t ->
  exists t' f', clear_sent t f (Z.of_nat (length b4)) = Ret (t', f') /\ bufs_ok t' /\
    current_span_list_ t' = current_span_list_ t /\ free_span_list_ t' = free_span_list_ t /\
    last_active_span_ t' = last_active_span_ t /\ free_tag_list_ t' = free_tag_list_ t /\
    forall w, cleared (set_the_flt (put_trace w t') (Some f')) f b4.
Proof.
  intros [H1 H2 H3 H4 H5 H6 H7]. unfold clear_sent, MAX_TRACE_LOG_SIZE in *.
  change (show_trace_buf_ (set_log_buf_offset_ t 0)) with (show_trace_buf_ t).
  rewrite store_in, bind_ret by (rewrite H3; simpl; lia).
  destruct (show_trace_buf_ t) as [|c m] eqn:Em; [done|].
  eexists _, _. split; [reflexivity|]. split; [|do 4 (split; [reflexivity|])].
  - split; [exact H1|done|exact H3|done|exact H5| |].
    + split; [constructor|cbn; lia].
    + split; [|cbn; lia]. repeat constructor; lia.
  - intros w. eexists _, _. do 7 (split; [reflexivity|]). destruct b4 as [|x b4]; [done|]. by rewrite decide_False.
Qed.

(** The outcome of a request that has [bs] to send. *)
Definition outcome (ret : Z) (w' : World) (s s' : PState) (t1 : ObTrace) (f : FLTInfo) (l : list (loc * Z))
    (fresh v : loc) (bs app : bytes) : Prop :=
  (bs = [] /\ ret = OB_SUCCESS /\ s' = s /\ kept w' t1 f) \/
  (2048 < Z.of_nat (length bs) /\ ret = OB_ERROR /\ s' = s /\ kept w' t1 f) \/
  (0 < Z.of_nat (length bs) <= 2048 /\ ret = OB_SUCCESS /\ queued s s' l fresh v bs /\ cleared w' f app).

Lemma build_item_ok w t f s fresh v l b1 b4 :
  wf w -> the_trace w = Some t -> bufs_ok t ->
  encodes (SpanInfo (span_info_ f)) b1 -> drv_type_ (flt_client_span f) = FLT_DRIVER_SPAN_INFO ->
  sts_type_ (show_trace_span_ f) = FLT_TYPE_SHOW_TRACE_SPAN -> present (AppInfo (app_info_ f)) b4 ->
  Z.of_nat (length b1) + Z.of_nat (length (log_image t)) + Z.of_nat (length (show_image t)) < 2 ^ 16 ->
  Z.of_nat (length b4) < 2 ^ 30 -> fresh <> NULL -> dll (pnodes s) (extra_list (prot s)) l -> fresh ∉ l.*1 ->
  exists ret w' s', build_item w t f s fresh v = Ret (ret, w', s') /\ wf w' /\
    outcome ret w' s s' t f l fresh v (((b1 ++ log_image t) ++ show_image t) ++ b4) b4.
Proof.
  intros Hwf Ht Hb E1 Hd Hs H4 Hl1 Hl4 Hfr Hlist Hni.
  pose proof (log_present t f Hb Hd) as H2. pose proof (show_present t f Hb Hs) as H3.
  set (b2 := log_image t) in *. set (b3 := show_image t) in *. set (bs := ((b1 ++ b2) ++ b3) ++ b4).
  assert (length bs = length b1 + length b2 + length b3 + length b4)%nat as Lbs
    by (unfold bs; rewrite !length_app; lia).
  unfold build_item, MAX_FLT_SERIALIZE_SIZE. rewrite build_logs_ok, bind_ret by done.
  assert (wf (set_the_flt (put_trace w (closed t)) (Some (with_logs t f)))) as Hwf'
    by (apply (wf_bufs w t); [done|done|by apply closed_bufs|unfold closed; by destruct (shows t)..]).
  assert (app_info_ (with_logs t f) = app_info_ f) as Ea by reflexivity.
  assert (span_info_ (with_logs t f) = span_info_ f) as Es by reflexivity.
  rewrite Ea, Es, (present_size _ b4 H4), bind_ret by lia. rewrite (present_size _ b2 H2), bind_ret by lia.
  rewrite (serialize_size _ b1 E1), bind_ret by lia. rewrite (present_size _ b3 H3), bind_ret by lia. cbv zeta.
  replace (Z.of_nat (length b4) + Z.of_nat (length b2) + Z.of_nat (length b1) + Z.of_nat (length b3))
    with (Z.of_nat (length bs)) by lia.
  rewrite swrap_small by (lia || (unfold sint; simpl; lia)).
  destruct (Z.eqb_spec 0 (Z.of_nat (length bs))) as [E0|E0].
  { eexists _, _, _. split; [reflexivity|]. split; [done|]. left.
    split_and!; [by destruct bs|done|done|by split; [|eexists]]. }
  destruct (Z.ltb_spec 2048 (Z.of_nat (length bs))) as [Eb|Eb].
  { eexists _, _, _. split; [reflexivity|]. split; [done|]. right. left. split_and!; [done..|by split; [|eexists]]. }
  pose proof (closed_bufs t Hb) as Hb'. pose proof (bufs_request _ Hb') as Hreq.
  unfold MAX_FLT_SERIALIZE_SIZE in Hreq. unfold bs. rewrite build_records_ok, bind_ret
    by first [done|by rewrite Es|fold bs; lia]. fold bs.
  cbn [of_option]. rewrite bind_ret. simpl (negb (OB_SUCCESS =? _)). cbv iota.
  set (buf := splice 0 bs _).
  assert (bufs_ok (set_flt_serialize_buf_ (closed t) buf)) as Hb2.
  { destruct Hb'. split; try done. cbn. unfold buf. rewrite length_splice; [done|]. split; simpl; lia. }
  destruct (clear_sent_ok _ (set_value_data (with_logs t f) (Some buf) (Z.of_nat (length bs))) b4 Hb2)
    as (t' & f' & -> & Hb3 & F1 & F2 & F3 & F4 & Hclr).
  rewrite bind_ret. destruct s as [p h its vs]. cbn [prot pnodes items vals] in *. unfold buf at 1. rewrite splice_0.
  edestruct (queue_item p h its vs l fresh v bs) as (s' & -> & Hq); [done..| |lia|].
  { unfold bs. rewrite !Forall_app. repeat split;
      first [eapply encodes_bytes; eassumption|eapply present_bytes; eassumption]. }
  rewrite bind_ret. eexists _, _, s'. split; [reflexivity|]. split.
  - apply (wf_bufs w t); [done|done|done|..]; etransitivity; try eassumption; unfold closed; by destruct (shows t).
  - right. right. split_and!; [lia|lia|done|exact Hq|]. apply Hclr.
Qed.

(** C12: in every state of the trace that its invariant describes, with memory for
    the item and whatever is queued already, flt_build_request returns.  The active span of an enabled trace gets its
    identity (start time and next random number) unless it has one; a trace that is to be
    printed is flushed; the bytes to send are the records of the trace and span identifiers
    (none without an active span), of the log text up to its NUL when the log is not
    empty, of the show-trace array closed by a bracket when it is switched on and has a
    line, and of the application information, in this order.  When there are none the
    call succeeds and queues nothing; when there are more than 2048 it fails, queues
    nothing and everything waits for the next request; otherwise exactly one item with
    these bytes is queued in front of the others, both logs start again and application
    information that was sent is reset.  The invariant holds afterwards. *)
Theorem request_carries fuel tag_fuel w t f s fresh v l b4 :
  wf w -> the_trace w = Some t -> the_flt w = Some f -> flt_ok f ->
  (16 <= tag_fuel)%nat -> (1025 <= fuel)%nat ->
  present (AppInfo (app_info_ f)) b4 -> Z.of_nat (length b4) < 2 ^ 30 ->
  fresh <> NULL -> dll (pnodes s) (extra_list (prot s)) l -> fresh ∉ l.*1 ->
  exists w1 t1 ret w' s', logged fuel tag_fuel w t f = Ret w1 /\ the_trace w1 = Some t1 /\
    flt_build_request fuel tag_fuel w s fresh v = Ret (ret, w', s') /\ wf w' /\
    outcome ret w' s s' t1 f l fresh v (((span_image w t f ++ log_image t1) ++ show_image t1) ++ b4) b4.
Proof.
  intros Hwf Ht Hf Hok Htf Hfu H4 Hl4 Hfr Hlist Hni. pose proof Hok as (_ & _ & Hspn & Hdrv & Hsts).
  destruct (logged_ok fuel tag_fuel w t f Hwf Ht Htf Hfu) as (w1 & E1 & Hwf1 & Hf1).
  pose proof Hwf1 as (t1 & cur & free & ft & ct & Ht1 & _ & _ & _ & _ & Hb).
  destruct (build_item_ok w1 t1 (with_span w t f) s fresh v l (span_image w t f) b4)
    as (ret & w' & s' & E & Hwf' & Hout); try done.
  - by apply span_image_encodes.
  - unfold with_span. by destruct (active t).
  - unfold with_span. by destruct (active t).
  - unfold with_span. by destruct (active t).
  - by apply images_short.
  - exists w1, t1, ret, w', s'. split; [exact E1|]. split; [exact Ht1|]. split; [|split; [exact Hwf'|]].
    + unfold flt_build_request. rewrite Hf, Ht, build_ids_logged, E1, !bind_ret by done.
      simpl (negb (OB_SUCCESS =? _)). cbv iota. rewrite Ht1, Hf1. cbn [of_option]. by rewrite !bind_ret.
    + by unfold outcome, kept, cleared, with_span in *; destruct (active t).
Qed.

(** A connection with a module name whose trace has an ended span below an open one. *)
Definition busy_flt : FLTInfo :=
  {| show_trace_span_ := show_trace_span_ demo_flt; flt_client_span := flt_client_span demo_flt;
     control_info_ := {| ctl_type_ := FLT_CONTROL_INFO; level_ := 1; sample_pct_ := 0x3ff0000000000000;
                         rp_ := RP_ALL; print_sample_pct_ := 0x3ff0000000000000;
                         slow_query_threshold_ := -1; flt_show_trace_enable_ := 1 |};
     app_info_ := set_module_ empty_app (Some [103; 111; 0]);
     query_info_ := query_info_ demo_flt; span_info_ := span_info_ demo_flt;
     value_data_ := None; value_length := 0; in_trans_ := false;
     flt_trace_id := repeat 0 16; flt_span_id := repeat 0 16 |}.

Definition busy_world : cres World :=
  '(_, w) ← trace_init (Some demo_junk) (Some (1, 2)) (Some busy_flt);
  w ← begin_trace demo_now w;
  '(w, _) ← begin_span demo_now flush_fuel tag_fuel w 1 1 false;
  '(w, p) ← begin_span demo_now flush_fuel tag_fuel w 2 1 false;
  end_span demo_now w p.

Lemma busy_wf : exists w t, busy_world = Ret w /\ wf w /\ the_trace w = Some t /\ the_flt w = Some busy_flt.
Proof.
  assert (16 <= tag_fuel)%nat by (apply Nat.leb_le; reflexivity).
  assert (1025 <= flush_fuel)%nat by (apply Nat.leb_le; reflexivity). unfold busy_world.
  destruct (trace_init_ok demo_junk (Some (1, 2)) busy_flt demo_junk_ok) as (w0 & -> & W0 & F0). rewrite bind_ret.
  destruct (begin_trace_ok demo_now w0 W0) as (w1 & -> & W1 & F1). rewrite bind_ret.
  destruct (begin_span_ok demo_now flush_fuel tag_fuel w1 1 1 false W1) as (w2 & p & -> & W2 & F2 & _);
    [done|done|by rewrite F1, F0|]. rewrite bind_ret.
  destruct (begin_span_ok demo_now flush_fuel tag_fuel w2 2 1 false W2) as (w3 & q & -> & W3 & F3 & Hq);
    [done|done|by rewrite F2, F1, F0|]. rewrite bind_ret.
  destruct (end_span_ok demo_now w3 q W3) as (w4 & -> & W4 & F4);
    [destruct (decide (q = NULL)); auto|].
  pose proof W4 as (t & _ & _ & _ & _ & Ht & _). exists w4, t. split_and!; try done. by rewrite F4, F3, F2, F1.
Qed.

Definition module_item : bytes := tlv FLT_APP_INFO (tlv FLT_MODULE [103; 111]).

Lemma module_present : present (AppInfo (app_info_ busy_flt)) module_item.
Proof.
  right. split; [discriminate|].
  apply (enc_app _ [] (tlv FLT_MODULE [103; 111]) [] []); try done; try (by left).
  right. exists [103; 111]. split; [|done]. exists []. split; [done|]. repeat constructor; lia.
Qed.

(** The sizes of the first three records, the length of the log text and its offset. *)
Definition busy_sizes : cres (list nat) :=
  w ← busy_world; t ← of_option (the_trace w); w1 ← logged flush_fuel tag_fuel w t busy_flt;
  t1 ← of_option (the_trace w1);
  Ret [length (span_image w t busy_flt); length (log_image t1); length (show_image t1);
       length (upto_nul (log_buf_ t1)); Z.to_nat (log_buf_offset_ t1)].

Lemma busy_sizes_run : busy_sizes = Ret [71; 1036; 227; 1023; 839]%nat.
Proof. vm_compute. reflexivity. Qed.

Lemma busy_measured w t w1 t1 :
  busy_world = Ret w -> the_trace w = Some t -> logged flush_fuel tag_fuel w t busy_flt = Ret w1 ->
  the_trace w1 = Some t1 ->
  length (span_image w t busy_flt) = 71%nat /\ length (log_image t1) = 1036%nat /\
  length (show_image t1) = 227%nat /\ length (upto_nul (log_buf_ t1)) = 1023%nat /\
  Z.to_nat (log_buf_offset_ t1) = 839%nat.
Proof.
  intros Ew Ht E1 Ht1. pose proof busy_sizes_run as Hs. unfold busy_sizes in Hs.
  rewrite Ew, bind_ret, Ht in Hs. cbn [of_option] in Hs. rewrite bind_ret, E1, bind_ret, Ht1 in Hs.
  cbn [of_option] in Hs. rewrite bind_ret in Hs. injection Hs as L1 L2 L3 L4 L5. auto.
Qed.

Lemma request_carries_witness : exists w w' s' b1 b2 b3,
  busy_world = Ret w /\ length b1 = 71%nat /\ length b2 = 1036%nat /\ length b3 = 227%nat /\
  flt_build_request flush_fuel tag_fuel w (ob20_init 7 5 None).2 1 2 = Ret (OB_SUCCESS, w', s') /\
  queued (ob20_init 7 5 None).2 s' [] 1 2 (((b1 ++ b2) ++ b3) ++ module_item) /\ cleared w' busy_flt module_item.
Proof.
  destruct busy_wf as (w & t & Ew & Hwf & Ht & Hf).
  destruct (request_carries flush_fuel tag_fuel w t busy_flt (ob20_init 7 5 None).2 1 2 [] module_item)
    as (w1 & t1 & ret & w' & s' & E1 & Ht1 & E & _ & Hout); try assumption.
  - split_and!; reflexivity.
  - apply Nat.leb_le. reflexivity.
  - apply Nat.leb_le. reflexivity.
  - exact module_present.
  - simpl. lia.
  - discriminate.
  - apply dll_nil.
  - apply not_elem_of_nil.
  - destruct (busy_measured w t w1 t1 Ew Ht E1 Ht1) as (L1 & L2 & L3 & _).
    assert (length (((span_image w t busy_flt ++ log_image t1) ++ show_image t1) ++ module_item) = 1348%nat) as L.
    { rewrite !length_app, L1, L2, L3. reflexivity. }
    exists w, w', s', (span_image w t busy_flt), (log_image t1), (show_image t1).
    destruct Hout as [(Hn & _)|[(Hn & _)|(_ & -> & Hq & Hc)]].
    + rewrite Hn in L. discriminate.
    + rewrite L in Hn. lia.
    + auto 10.
Defined.

(** The log is sent up to its NUL and not up to its offset: here 839 characters of whole
    lines are followed by 184 of a line that did not fit. *)
Theorem cut_line_sent : exists w w1 t1,
  busy_world = Ret w /\ (exists t, the_trace w = Some t /\ logged flush_fuel tag_fuel w t busy_flt = Ret w1) /\
  the_trace w1 = Some t1 /\ log_buf_offset_ t1 = 839 /\ length (upto_nul (log_buf_ t1)) = 1023%nat.
Proof.
  destruct busy_wf as (w & t & Ew & Hwf & Ht & Hf).
  destruct (logged_ok flush_fuel tag_fuel w t busy_flt Hwf Ht) as (w1 & E1 & (t1 & _ & _ & _ & _ & Ht1 & _) & _);
    [apply Nat.leb_le; reflexivity..|].
  destruct (busy_measured w t w1 t1 Ew Ht E1 Ht1) as (_ & _ & _ & L4 & L5).
  exists w, w1, t1. split; [exact Ew|]. split; [exists t; exact (conj Ht E1)|]. split; [exact Ht1|].
  split; [lia|exact L4].
Qed.

(** The accessors refuse a connection without tracing and touch nothing then; a setter
    changes only its own field. *)
Lemma accessors_refuse p v out :
  flt_set_module false p v = (1, p) /\ flt_set_module true None v = (1, None) /\
  flt_get_control_level false p out = (1, out) /\ flt_get_control_level true None out = (1, out).
Proof. repeat split. Qed.

End FltRequest.
