(* ===== verification/DynArray.v ===== *)
(** libmariadb/ma_array.c: arrays of fixed-size elements that grow.

    The counts are [uint]: sizes in bytes are 32-bit products.  [ok] is the outcome of an
    allocation and [junk] the byte that new memory holds. *)

From stdpp Require Import tactics.
From S2P Require Import Prelude.

Module DynArray.

Definition MALLOC_OVERHEAD : Z := 8.

Record DYNAMIC_ARRAY : Type := Array {
  buffer : option bytes; elements : Z; max_element : Z; alloc_increment : Z; size_of_element : Z }.

(** A pointer into the buffer, as the buffer and an offset; NULL + 0 is allowed only
    where nothing is accessed. *)
Definition mem (a : DYNAMIC_ARRAY) : cres bytes := of_option (buffer a).

(** Returns (failed, array). *)
Definition ma_init_dynamic_array (ok : bool) (junk element_size init_alloc alloc_increment : Z)
    : cres (bool * DYNAMIC_ARRAY) :=
  alloc_increment ←
    (if alloc_increment =? 0 then
       if element_size =? 0 then Fault
       else
         let inc := Z.max ((8192 - MALLOC_OVERHEAD) / element_size) 16 in
         Ret (if (init_alloc >? 8) && (inc >? u32 (init_alloc * 2)) then u32 (init_alloc * 2) else inc)
     else Ret alloc_increment);
  let init_alloc := if init_alloc =? 0 then alloc_increment else init_alloc in
  if ok then
    Ret (false, Array (Some (repeat junk (Z.to_nat (u32 (element_size * init_alloc))))) 0 init_alloc
                  alloc_increment element_size)
  else Ret (true, Array None 0 0 alloc_increment element_size).

(** Returns the offset of the new element, or [None], and the array. *)
Definition ma_alloc_dynamic (ok : bool) (junk : Z) (a : DYNAMIC_ARRAY) : option Z * DYNAMIC_ARRAY :=
  let next a := (Some (u32 (elements a * size_of_element a)),
                 Array (buffer a) (u32 (elements a + 1)) (max_element a) (alloc_increment a) (size_of_element a)) in
  if elements a =? max_element a then
    if ok then
      let max := u32 (max_element a + alloc_increment a) in
      let size := u32 (u32 (max_element a + alloc_increment a) * size_of_element a) in
      next (Array (Some (resize junk size (default [] (buffer a)))) (elements a) max (alloc_increment a)
              (size_of_element a))
    else (None, a)
  else next a.

Definition ma_insert_dynamic (ok : bool) (junk : Z) (a : DYNAMIC_ARRAY) (element : bytes)
    : cres (bool * DYNAMIC_ARRAY) :=
  let '(p, a) :=
    if elements a =? max_element a then ma_alloc_dynamic ok junk a
    else (Some (u32 (elements a * size_of_element a)),
          Array (buffer a) (u32 (elements a + 1)) (max_element a) (alloc_increment a) (size_of_element a)) in
  match p with
  | None => Ret (true, a)
  | Some off =>
      b ← mem a;
      e ← load_bytes element 0 (Z.to_nat (size_of_element a));
      b ← store_bytes b off e;
      Ret (false, Array (Some b) (elements a) (max_element a) (alloc_increment a) (size_of_element a))
  end.

(** Returns the offset of the removed element. *)
Definition ma_pop_dynamic (a : DYNAMIC_ARRAY) : option Z * DYNAMIC_ARRAY :=
  if negb (elements a =? 0) then
    (Some (u32 (u32 (elements a - 1) * size_of_element a)),
     Array (buffer a) (u32 (elements a - 1)) (max_element a) (alloc_increment a) (size_of_element a))
  else (None, a).

(** The part of ma_set_dynamic behind [idx >= array->max_element]. *)
Definition set_grow (ok : bool) (junk : Z) (a : DYNAMIC_ARRAY) (idx : Z) : cres (bool * DYNAMIC_ARRAY) :=
  if idx >=? max_element a then
    if alloc_increment a =? 0 then Fault
    else
      let size := u32 (u32 (idx + alloc_increment a) / alloc_increment a * alloc_increment a) in
      if ok then
        Ret (true, Array (Some (resize junk (u32 (size * size_of_element a)) (default [] (buffer a))))
                     (elements a) size (alloc_increment a) (size_of_element a))
      else Ret (false, a)
  else Ret (true, a).

Definition ma_set_dynamic (ok : bool) (junk : Z) (a : DYNAMIC_ARRAY) (element : bytes) (idx : Z)
    : cres (bool * DYNAMIC_ARRAY) :=
  '(success, a) ←
    (if idx >=? elements a then
       '(success, a) ← set_grow ok junk a idx;
       if negb success then Ret (false, a)
       else
         b ← mem a;
         b ← store_bytes b (u32 (elements a * size_of_element a))
               (repeat 0 (Z.to_nat (u32 (u32 (idx - elements a) * size_of_element a))));
         Ret (true, Array (Some b) (u32 (idx + 1)) (max_element a) (alloc_increment a) (size_of_element a))
     else Ret (true, a));
  if negb success then Ret (true, a)
  else
    b ← mem a;
    e ← load_bytes element 0 (Z.to_nat (size_of_element a));
    b ← store_bytes b (u32 (idx * size_of_element a)) e;
    Ret (false, Array (Some b) (elements a) (max_element a) (alloc_increment a) (size_of_element a)).

(** What is copied to [element]. *)
Definition ma_get_dynamic (a : DYNAMIC_ARRAY) (idx : Z) : cres bytes :=
  if idx >=? elements a then Ret (repeat 0 (Z.to_nat (size_of_element a)))
  else b ← mem a; load_bytes b (u32 (idx * size_of_element a)) (Z.to_nat (size_of_element a)).

Definition ma_delete_dynamic (a : DYNAMIC_ARRAY) : DYNAMIC_ARRAY :=
  match buffer a with
  | Some _ => Array None 0 0 (alloc_increment a) (size_of_element a)
  | None => a
  end.

Definition ma_delete_dynamic_element (a : DYNAMIC_ARRAY) (idx : Z) : cres DYNAMIC_ARRAY :=
  let ptr := u32 (size_of_element a * idx) in
  let n := u32 (elements a - 1) in
  b ← mem a;
  d ← load_bytes b (ptr + size_of_element a) (Z.to_nat (u32 (u32 (n - idx) * size_of_element a)));
  b ← store_bytes b ptr d;
  Ret (Array (Some b) n (max_element a) (alloc_increment a) (size_of_element a)).

Definition ma_freeze_size (ok : bool) (junk : Z) (a : DYNAMIC_ARRAY) : DYNAMIC_ARRAY :=
  let n := Z.max (elements a) 1 in
  match buffer a with
  | Some b =>
      if negb (max_element a =? n) then
        Array (if ok then Some (resize junk (u32 (n * size_of_element a)) b) else None) (elements a) n
          (alloc_increment a) (size_of_element a)
      else a
  | None => a
  end.

(** * The list an array stands for *)

(** Elements [l] of the same size at the front of the buffer; no size wraps. *)
Record rep (a : DYNAMIC_ARRAY) (l : list bytes) : Prop := {
  rep_buffer : exists rest, buffer a = Some (concat l ++ rest) /\
    Z.of_nat (length (concat l ++ rest)) = max_element a * size_of_element a;
  rep_small : max_element a * size_of_element a < 2 ^ 32;
  rep_size : 0 < size_of_element a;
  rep_inc : 0 < alloc_increment a;
  rep_elements : elements a = Z.of_nat (length l);
  rep_each : Forall (fun x => Z.of_nat (length x) = size_of_element a) l }.

Lemma length_concat_each (l : list bytes) n :
  Forall (fun x => Z.of_nat (length x) = n) l -> Z.of_nat (length (concat l)) = Z.of_nat (length l) * n.
Proof.
  induction 1 as [|x l Hx _ IH]; [done|]. cbn [concat length]. rewrite length_app, Nat2Z.inj_add, IH, Hx. lia.
Qed.

Lemma rep_bounds a l : rep a l ->
  Z.of_nat (length l) <= max_element a < 2 ^ 32 /\
  Z.of_nat (length (concat l)) = Z.of_nat (length l) * size_of_element a.
Proof.
  intros [(rest & _ & Hl) Hs Hz _ He Hf]. apply length_concat_each in Hf. rewrite length_app in Hl.
  assert (Z.of_nat (length l) <= max_element a) by (apply (Z.mul_le_mono_pos_r _ _ _ Hz); lia).
  split; [|done]. nia.
Qed.

Lemma rep_write a l e :
  rep a l -> all_bytes e -> Z.of_nat (length e) = size_of_element a -> elements a < max_element a ->
  exists b, (b ← mem a; d ← load_bytes e 0 (Z.to_nat (size_of_element a));
             store_bytes b (u32 (elements a * size_of_element a)) d) = Ret b /\
    rep (Array (Some b) (u32 (elements a + 1)) (max_element a) (alloc_increment a) (size_of_element a)) (l ++ [e]).
Proof.
  intros Hr Hb Hl Hm. pose proof (rep_bounds _ _ Hr) as (Hle & Hc). destruct Hr as [(rest & Eb & Hlen) Hs Hz Hi He Hf].
  unfold mem. rewrite Eb. cbn [of_option]. rewrite bind_ret.
  replace (Z.to_nat (size_of_element a)) with (length e) by lia.
  rewrite load_bytes_in, bind_ret by (split; lia). change (drop (Z.to_nat 0) e) with e. rewrite take_ge by lia.
  assert (Z.of_nat (length rest) >= size_of_element a) as Hroom by (rewrite length_app in Hlen; nia).
  assert (u32 (elements a * size_of_element a) = Z.of_nat (length (concat l))) as ->.
  { rewrite wrap_small by (unfold uint; nia). nia. }
  rewrite store_bytes_splice, map_u8_bytes by (done || (split; rewrite ?length_app; lia)).
  rewrite splice_front by lia. eexists. split; [reflexivity|]. split; cbn [buffer elements max_element size_of_element alloc_increment]; try lia.
  - exists (drop (length e) rest). rewrite concat_app. cbn [concat]. rewrite app_nil_r, <- app_assoc. split; [done|].
    rewrite <- Hlen, !length_app, length_drop. lia.
  - rewrite He, length_app. cbn [length]. rewrite wrap_small by (unfold uint; lia). lia.
  - apply Forall_app. split; [done|]. by constructor.
Qed.

Lemma count_small n size : 0 <= n -> 0 < size -> n * size < 2 ^ 32 -> uint 32 n.
Proof. intros. pose proof (Z.mul_le_mono_nonneg_l 1 size n). unfold uint. lia. Qed.

Lemma rep_grow junk a l n :
  rep a l -> max_element a <= n -> n * size_of_element a < 2 ^ 32 ->
  rep (Array (Some (resize junk (u32 (n * size_of_element a)) (default [] (buffer a)))) (elements a) n
         (alloc_increment a) (size_of_element a)) l.
Proof.
  intros Hr Hn Hs. pose proof (rep_bounds _ _ Hr) as [Hle _]. destruct Hr as [(rest & Eb & Hlen) Hs0 Hz Hi He Hf].
  assert (max_element a * size_of_element a <= n * size_of_element a) by (apply Z.mul_le_mono_nonneg_r; lia).
  rewrite Eb. cbn [default from_option id]. rewrite wrap_small by (unfold uint; lia).
  split; cbn [buffer elements max_element size_of_element alloc_increment]; try done.
  rewrite resize_grow by lia. eexists. rewrite <- app_assoc. split; [reflexivity|].
  rewrite app_assoc, length_app, repeat_length. lia.
Qed.

(** The end of ma_insert_dynamic. *)
Lemma insert_at a l e :
  rep a l -> all_bytes e -> Z.of_nat (length e) = size_of_element a -> elements a < max_element a ->
  let a1 := Array (buffer a) (u32 (elements a + 1)) (max_element a) (alloc_increment a) (size_of_element a) in
  exists a', (b ← mem a1; d ← load_bytes e 0 (Z.to_nat (size_of_element a1));
              b ← store_bytes b (u32 (elements a * size_of_element a)) d;
              Ret (false, Array (Some b) (elements a1) (max_element a1) (alloc_increment a1) (size_of_element a1))) =
    Ret (false, a') /\ rep a' (l ++ [e]).
Proof.
  intros Hr Hb Hl Hm a1. destruct (rep_write a l e Hr Hb Hl Hm) as (b & Ew & Hrep).
  apply bind_Ret_inv in Ew as (b0 & Eb & Ew). apply bind_Ret_inv in Ew as (d & Ed & Es).
  change (mem a1) with (mem a). rewrite Eb, bind_ret.
  change (size_of_element a1) with (size_of_element a). rewrite Ed, bind_ret, Es, bind_ret. by eexists.
Qed.

Lemma insert_ok ok junk a l e :
  rep a l -> all_bytes e -> Z.of_nat (length e) = size_of_element a ->
  (elements a = max_element a -> (max_element a + alloc_increment a) * size_of_element a < 2 ^ 32) ->
  exists failed a', ma_insert_dynamic ok junk a e = Ret (failed, a') /\
    rep a' (if failed : bool then l else l ++ [e]) /\ (failed = true -> ok = false).
Proof.
  intros Hr Hb Hl Hg. unfold ma_insert_dynamic, ma_alloc_dynamic. pose proof (rep_bounds _ _ Hr) as [Hle _].
  destruct (Z.eqb_spec (elements a) (max_element a)) as [E|E].
  - destruct ok; [|by exists true, a]. specialize (Hg E).
    assert (u32 (max_element a + alloc_increment a) = max_element a + alloc_increment a) as ->.
    { apply wrap_small. destruct Hr. apply (count_small _ (size_of_element a)); lia. }
    pose proof (rep_grow junk a l (max_element a + alloc_increment a) Hr ltac:(destruct Hr; lia) Hg) as Hr'.
    destruct (insert_at _ l e Hr' Hb Hl) as (a' & Ei & Hrep); [simpl; destruct Hr; lia|].
    exists false, a'. split; [exact Ei|done].
  - destruct (insert_at a l e Hr Hb Hl) as (a' & Ei & Hrep); [destruct Hr; lia|].
    exists false, a'. split; [exact Ei|done].
Qed.

Lemma rep_split a l i :
  rep a l -> 0 <= i < Z.of_nat (length l) ->
  exists l1 x l2 rest, l = l1 ++ x :: l2 /\ Z.of_nat (length l1) = i /\
    buffer a = Some (concat l1 ++ x ++ concat l2 ++ rest) /\ Z.of_nat (length x) = size_of_element a /\
    Z.of_nat (length (concat l1)) = i * size_of_element a /\
    Z.of_nat (length (concat l2)) = (Z.of_nat (length l) - 1 - i) * size_of_element a /\
    u32 (i * size_of_element a) = i * size_of_element a /\
    Z.of_nat (length (concat l1 ++ x ++ concat l2 ++ rest)) = max_element a * size_of_element a.
Proof.
  intros Hr Hi. pose proof (rep_bounds _ _ Hr) as [Hle _]. destruct Hr as [(rest & Eb & Hlen) Hs Hz Hinc He Hf].
  destruct (lookup_lt_is_Some_2 l (Z.to_nat i)) as [x Hx]; [lia|].
  pose proof (take_drop_middle l (Z.to_nat i) x Hx) as El. set (l1 := take (Z.to_nat i) l) in *.
  set (l2 := drop (S (Z.to_nat i)) l) in *. rewrite <- El in Eb, Hlen, Hf.
  assert (Z.of_nat (length l1) = i) as L1 by (unfold l1; rewrite length_take; lia).
  assert (Z.of_nat (length l2) = Z.of_nat (length l) - 1 - i) as L2 by (unfold l2; rewrite length_drop; lia).
  rewrite concat_app, <- app_assoc in Eb, Hlen. cbn [concat] in Eb, Hlen. rewrite <- app_assoc in Eb, Hlen.
  apply Forall_app in Hf as [Hf1 [Hfx Hf2]%Forall_cons]. apply length_concat_each in Hf1, Hf2.
  rewrite L1 in Hf1. rewrite L2 in Hf2. exists l1, x, l2, rest. split; [done|]. split; [done|]. split; [done|].
  split; [done|]. split; [done|]. split; [done|]. split; [|done]. apply wrap_small. unfold uint. nia.
Qed.

Lemma get_ok a l i : rep a l -> 0 <= i ->
  ma_get_dynamic a i = Ret (default (repeat 0 (Z.to_nat (size_of_element a))) (l !! Z.to_nat i)).
Proof.
  intros Hr Hi. unfold ma_get_dynamic. rewrite (rep_elements _ _ Hr).
  destruct (Z.geb_spec i (Z.of_nat (length l))).
  { by rewrite lookup_ge_None_2 by lia. }
  destruct (rep_split a l i Hr) as (l1 & x & l2 & rest & -> & L1 & Eb & Lx & C1 & C2 & -> & Hlen); [lia|].
  unfold mem. rewrite Eb. cbn [of_option]. rewrite bind_ret, <- C1.
  rewrite load_bytes_in by (split; rewrite ?length_app; lia).
  rewrite Nat2Z.id, drop_app_length, <- Lx, Nat2Z.id, take_app_length.
  rewrite lookup_app_r by lia. replace (Z.to_nat i - length l1)%nat with 0%nat by lia. done.
Qed.

Lemma load_element e size : Z.of_nat (length e) = size -> load_bytes e 0 (Z.to_nat size) = Ret e.
Proof.
  intros <-. rewrite Nat2Z.id, load_bytes_in by (split; lia). change (drop (Z.to_nat 0) e) with e. by rewrite take_ge by lia.
Qed.

(** Overwriting an element. *)
Lemma set_at a l e i :
  rep a l -> all_bytes e -> Z.of_nat (length e) = size_of_element a -> 0 <= i < Z.of_nat (length l) ->
  exists a', (b ← mem a; d ← load_bytes e 0 (Z.to_nat (size_of_element a));
              b ← store_bytes b (u32 (i * size_of_element a)) d;
              Ret (false, Array (Some b) (elements a) (max_element a) (alloc_increment a) (size_of_element a))) =
    Ret (false, a') /\ rep a' (<[Z.to_nat i := e]> l).
Proof.
  intros Hr Hb Hl Hi.
  destruct (rep_split a l i Hr Hi) as (l1 & x & l2 & rest & -> & L1 & Eb & Lx & C1 & C2 & -> & Hlen).
  destruct Hr as [_ Hs Hz Hinc He Hf]. unfold mem. rewrite Eb. cbn [of_option].
  rewrite bind_ret, load_element, bind_ret, <- C1 by done.
  rewrite store_bytes_splice, map_u8_bytes, bind_ret by (done || (split; rewrite ?length_app; lia)).
  rewrite splice_middle by lia. eexists. split; [reflexivity|].
  replace (Z.to_nat i) with (length l1 + 0)%nat by lia. rewrite insert_app_r. cbn [insert list_insert].
  split; cbn [buffer elements max_element size_of_element alloc_increment]; try done.
  - exists rest. rewrite concat_app. cbn [concat]. rewrite <- !app_assoc. split; [done|].
    rewrite <- Hlen, !length_app. lia.
  - rewrite He, !length_app. done.
  - apply Forall_app in Hf as [Hf1 [_ Hf2]%Forall_cons]. apply Forall_app. split; [done|by constructor].
Qed.

(** Zeroed elements behind the last one. *)
Lemma fill_zero a l n :
  rep a l -> 0 <= n -> (Z.of_nat (length l) + n) * size_of_element a <= max_element a * size_of_element a ->
  exists b, (b ← mem a; store_bytes b (u32 (elements a * size_of_element a))
               (repeat 0 (Z.to_nat (u32 (n * size_of_element a))))) = Ret b /\
    rep (Array (Some b) (elements a + n) (max_element a) (alloc_increment a) (size_of_element a))
      (l ++ repeat (repeat 0 (Z.to_nat (size_of_element a))) (Z.to_nat n)).
Proof.
  intros Hr Hn Hroom. pose proof (rep_bounds _ _ Hr) as [Hle Hc].
  destruct Hr as [(rest & Eb & Hlen) Hs Hz Hi He Hf]. unfold mem. rewrite Eb. cbn [of_option]. rewrite bind_ret.
  assert (0 <= n * size_of_element a) by nia.
  rewrite He, !wrap_small by (unfold uint; nia). rewrite <- Hc.
  set (zs := repeat 0 (Z.to_nat (n * size_of_element a))).
  assert (length zs = Z.to_nat (n * size_of_element a)) as Lz by apply repeat_length.
  assert (length zs <= length rest)%nat as Hzr by (rewrite length_app in Hlen; lia).
  assert (all_bytes zs) as Hzb.
  { apply Forall_forall. intros x Hx%list_elem_of_In%repeat_spec. subst x. split; simpl; lia. }
  rewrite store_bytes_splice, map_u8_bytes by (done || (split; rewrite ?length_app; lia)).
  rewrite splice_front by done. eexists. split; [reflexivity|].
  assert (concat (repeat (repeat 0 (Z.to_nat (size_of_element a))) (Z.to_nat n)) = zs) as Ezs.
  { unfold zs. rewrite <- (Z2Nat.id n) at 2 by lia. generalize (Z.to_nat n). intros k.
    induction k as [|k IH]; [done|]. cbn [repeat concat]. rewrite IH, <- repeat_app. f_equal. lia. }
  split; cbn [buffer elements max_element size_of_element alloc_increment]; try done.
  - exists (drop (length zs) rest). rewrite concat_app, Ezs, <- app_assoc. split; [done|].
    rewrite <- Hlen, !length_app, length_drop. lia.
  - rewrite length_app, repeat_length. lia.
  - apply Forall_app. split; [done|]. apply Forall_forall. intros x Hx%list_elem_of_In%repeat_spec. subst x.
    rewrite repeat_length. lia.
Qed.

Lemma set_grow_ok ok junk a l i :
  rep a l -> 0 <= i -> (max_element a <= i -> (i + alloc_increment a) * size_of_element a < 2 ^ 32) ->
  exists success a', set_grow ok junk a i = Ret (success, a') /\ rep a' l /\ size_of_element a' = size_of_element a /\
    elements a' = elements a /\ (if success : bool then i < max_element a' else a' = a /\ ok = false).
Proof.
  intros Hr Hi Hg. unfold set_grow. destruct (Z.geb_spec i (max_element a)) as [H|H]; [|by exists true, a].
  pose proof (rep_inc _ _ Hr) as Hinc. destruct (Z.eqb_spec (alloc_increment a) 0) as [|_]; [lia|].
  destruct ok; [|by exists false, a]. specialize (Hg H). pose proof (rep_size _ _ Hr) as Hz.
  pose proof (count_small (i + alloc_increment a) (size_of_element a) ltac:(lia) Hz Hg) as Hu.
  rewrite (wrap_small 32 (i + alloc_increment a)) by done.
  set (n := (i + alloc_increment a) / alloc_increment a * alloc_increment a).
  assert (i < n <= i + alloc_increment a) as Hn.
  { unfold n. pose proof (Z.div_mod (i + alloc_increment a) (alloc_increment a) ltac:(lia)).
    pose proof (Z.mod_pos_bound (i + alloc_increment a) (alloc_increment a) Hinc). lia. }
  rewrite (wrap_small 32 n) by (unfold uint in *; lia). exists true. eexists. split; [reflexivity|].
  split; [apply rep_grow; [done|lia|]|].
  - apply Z.le_lt_trans with ((i + alloc_increment a) * size_of_element a); [|done]. apply Z.mul_le_mono_nonneg_r; lia.
  - simpl. split_and!; (done || lia).
Qed.

(** The list after ma_set_dynamic. *)
Definition set_spec (size : Z) (l : list bytes) (e : bytes) (i : Z) : list bytes :=
  if i <? Z.of_nat (length l) then <[Z.to_nat i := e]> l
  else (l ++ repeat (repeat 0 (Z.to_nat size)) (Z.to_nat (i - Z.of_nat (length l)))) ++ [e].

Lemma set_ok ok junk a l e i :
  rep a l -> all_bytes e -> Z.of_nat (length e) = size_of_element a -> 0 <= i ->
  (max_element a <= i -> (i + alloc_increment a) * size_of_element a < 2 ^ 32) ->
  exists failed a', ma_set_dynamic ok junk a e i = Ret (failed, a') /\
    rep a' (if failed : bool then l else set_spec (size_of_element a) l e i) /\ (failed = true -> ok = false).
Proof.
  intros Hr Hb Hl Hi Hg. unfold ma_set_dynamic, set_spec. rewrite (rep_elements _ _ Hr).
  destruct (Z.geb_spec i (Z.of_nat (length l))) as [H|H].
  - destruct (Z.ltb_spec i (Z.of_nat (length l))); [lia|].
    destruct (set_grow_ok ok junk a l i Hr Hi Hg) as (success & a1 & -> & Hr1 & Es & Ee & Hsucc). rewrite bind_ret.
    destruct success; cbn [negb]; [|destruct Hsucc as [-> ->]; rewrite bind_ret; by exists true, a].
    rewrite Ee, (rep_elements _ _ Hr). pose proof (rep_bounds _ _ Hr1) as [Hle _].
    pose proof (rep_size _ _ Hr) as Hz.
    destruct (fill_zero a1 l (i - Z.of_nat (length l)) Hr1) as (b & Ef & Hr2); [lia|apply Z.mul_le_mono_nonneg_r; lia|].
    apply bind_Ret_inv in Ef as (b0 & Eb & Ef). rewrite Eb, bind_ret. rewrite (rep_elements _ _ Hr1) in Ef, Hr2.
    rewrite (wrap_small 32 (i - Z.of_nat (length l))) by (unfold uint; lia). rewrite Ef, !bind_ret. cbn [negb].
    replace (Z.of_nat (length l) + (i - Z.of_nat (length l))) with i in Hr2 by lia.
    destruct (insert_at _ _ e Hr2 Hb) as (a' & Ei & Hrep); [simpl; congruence|simpl; lia|].
    exists false, a'. split; [exact Ei|]. split; [|done]. rewrite Es in Hrep. exact Hrep.
  - destruct (Z.ltb_spec i (Z.of_nat (length l))); [|lia]. rewrite bind_ret. cbn [negb].
    destruct (set_at a l e i Hr Hb Hl) as (a' & Ei & Hrep); [lia|]. exists false, a'. split; [exact Ei|done].
Qed.

Lemma delete_ok a l i :
  rep a l -> Forall all_bytes l -> 0 <= i < Z.of_nat (length l) ->
  exists a', ma_delete_dynamic_element a i = Ret a' /\ rep a' (delete (Z.to_nat i) l).
Proof.
  intros Hr Hb Hi. pose proof (rep_bounds _ _ Hr) as [Hle _].
  destruct (rep_split a l i Hr Hi) as (l1 & x & l2 & rest & -> & L1 & Eb & Lx & C1 & C2 & Eu & Hlen).
  destruct Hr as [_ Hs Hz Hinc He Hf]. unfold ma_delete_dynamic_element, mem. rewrite Eb. cbn [of_option].
  rewrite bind_ret, (Z.mul_comm (size_of_element a)), Eu, He.
  rewrite !length_app in *. cbn [length] in *.
  rewrite (wrap_small 32 (_ - 1)) by (unfold uint; lia). rewrite (wrap_small 32 (_ - i)) by (unfold uint; lia).
  set (n := Z.of_nat (length l1 + S (length l2)) - 1) in *.
  assert (u32 ((n - i) * size_of_element a) = Z.of_nat (length (concat l2))) as ->.
  { rewrite wrap_small; [done|]. rewrite <- C2. unfold uint. rewrite <- Hlen in Hs. lia. }
  rewrite Nat2Z.id.
  assert (load_bytes (concat l1 ++ x ++ concat l2 ++ rest) (i * size_of_element a + size_of_element a)
    (length (concat l2)) = Ret (concat l2)) as ->.
  { rewrite load_bytes_in by (split; rewrite ?length_app; lia). f_equal. rewrite app_assoc.
    rewrite drop_app_length' by (rewrite length_app; lia). apply take_app_length. }
  assert (all_bytes (concat l2)) as Hb2.
  { apply Forall_app in Hb as [_ [_ Hb2]%Forall_cons]. clear -Hb2. induction Hb2; [constructor|]. by apply Forall_app. }
  rewrite bind_ret, store_bytes_splice, map_u8_bytes, bind_ret by (done || (split; rewrite ?length_app; lia)).
  eexists. split; [reflexivity|]. replace (Z.to_nat i) with (length l1) by lia. rewrite delete_middle. rewrite <- C1.
  rewrite splice_front by (rewrite !length_app; lia).
  split; cbn [buffer elements max_element size_of_element alloc_increment]; try done.
  - eexists. rewrite concat_app, <- app_assoc. split; [reflexivity|]. rewrite !length_app, length_drop, !length_app. lia.
  - rewrite length_app. unfold n. lia.
  - apply Forall_app in Hf as [Hf1 [_ Hf2]%Forall_cons]. by apply Forall_app.
Qed.

Lemma pop_ok a l :
  rep a l -> rep (ma_pop_dynamic a).2 (removelast l) /\
  (ma_pop_dynamic a).1 = if decide (l = []) then None else Some ((Z.of_nat (length l) - 1) * size_of_element a).
Proof.
  intros Hr. pose proof (rep_bounds _ _ Hr) as [Hle _]. unfold ma_pop_dynamic. rewrite (rep_elements _ _ Hr).
  destruct l as [|x l' _] using rev_ind; [by destruct a|]. rewrite removelast_last.
  destruct Hr as [(rest & Eb & Hlen) Hs Hz Hi He Hf]. rewrite length_app in He, Hle |- *.
  cbn [length] in He, Hle |- *. destruct (Z.eqb_spec (Z.of_nat (length l' + 1)) 0); [lia|]. cbn [negb fst snd].
  destruct (decide (l' ++ [x] = [])) as [E|_]; [by destruct l'|].
  apply Forall_app in Hf as [Hf [Hx _]%Forall_cons]. pose proof (length_concat_each _ _ Hf) as Hc.
  rewrite concat_app in Eb, Hlen. cbn [concat] in Eb, Hlen. rewrite app_nil_r, <- app_assoc in Eb, Hlen.
  rewrite !(wrap_small 32 (_ - 1)) by (unfold uint; lia). split.
  - split; cbn [buffer elements max_element size_of_element alloc_increment]; try done; [by exists (x ++ rest)|lia].
  - f_equal. apply wrap_small. rewrite length_app in Hlen. unfold uint. nia.
Qed.

Lemma freeze_ok junk a l : rep a l -> size_of_element a < 2 ^ 32 -> rep (ma_freeze_size true junk a) l.
Proof.
  intros Hr Hz32. pose proof (rep_bounds _ _ Hr) as [Hle Hc]. unfold ma_freeze_size.
  pose proof Hr as [(rest & Eb & Hlen) Hs Hz Hi He Hf]. rewrite Eb.
  destruct (Z.eqb_spec (max_element a) (Z.max (elements a) 1)) as [|Hne]; cbn [negb]; [done|].
  set (n := Z.max (elements a) 1). assert (n * size_of_element a < 2 ^ 32) as Hn32.
  { unfold n. destruct (Z.max_spec (elements a) 1) as [[? ->]|[? ->]]; nia. }
  assert (Z.of_nat (length (concat l)) <= n * size_of_element a) as Hcn by (rewrite Hc, He in *; unfold n; nia).
  rewrite wrap_small by (unfold uint; lia).
  split; cbn [buffer elements max_element size_of_element alloc_increment]; try done.
  unfold resize. rewrite take_app_ge by lia. eexists. rewrite <- app_assoc. split; [reflexivity|].
  rewrite !length_app, repeat_length, length_take. lia.
Qed.

(** ** Refinement *)

Inductive op : Type := Insert (e : bytes) | Pop | Set_ (e : bytes) (i : Z) | Delete (i : Z) | Freeze.

(** Returns (failed, the pointer of Pop as an offset, array). *)
Definition run (ok : bool) (junk : Z) (a : DYNAMIC_ARRAY) (o : op) : cres (bool * option Z * DYNAMIC_ARRAY) :=
  match o with
  | Insert e => '(failed, a) ← ma_insert_dynamic ok junk a e; Ret (failed, None, a)
  | Pop => let '(p, a) := ma_pop_dynamic a in Ret (false, p, a)
  | Set_ e i => '(failed, a) ← ma_set_dynamic ok junk a e i; Ret (failed, None, a)
  | Delete i => a ← ma_delete_dynamic_element a i; Ret (false, None, a)
  | Freeze => Ret (false, None, ma_freeze_size ok junk a)
  end.

Definition spec (size : Z) (l : list bytes) (o : op) : list bytes :=
  match o with
  | Insert e => l ++ [e]
  | Pop => removelast l
  | Set_ e i => set_spec size l e i
  | Delete i => delete (Z.to_nat i) l
  | Freeze => l
  end.

(** Elements have the right size, deleted indices exist, and byte counts stay below 2^32. *)
Definition allowed (a : DYNAMIC_ARRAY) (l : list bytes) (o : op) : Prop :=
  match o with
  | Insert e => all_bytes e /\ Z.of_nat (length e) = size_of_element a /\
      (elements a = max_element a -> (max_element a + alloc_increment a) * size_of_element a < 2 ^ 32)
  | Set_ e i => all_bytes e /\ Z.of_nat (length e) = size_of_element a /\ 0 <= i /\
      (max_element a <= i -> (i + alloc_increment a) * size_of_element a < 2 ^ 32)
  | Delete i => 0 <= i < Z.of_nat (length l)
  | Pop => True
  | Freeze => size_of_element a < 2 ^ 32
  end.

(** ma_freeze_size overwrites the pointer with the result of realloc: when that fails the elements
    are gone while their number stays. *)
Definition loses (ok : bool) (a : DYNAMIC_ARRAY) (o : op) : bool :=
  match o with Freeze => negb ok && negb (max_element a =? Z.max (elements a) 1) | _ => false end.

(** The pointer that Pop returns is that of the last element, which is still in the buffer. *)
Definition popped (a a' : DYNAMIC_ARRAY) (l : list bytes) (o : op) (p : option Z) : Prop :=
  match o, last l with
  | Pop, Some x => exists b, p = Some ((Z.of_nat (length l) - 1) * size_of_element a) /\ buffer a' = Some b /\
      load_bytes b ((Z.of_nat (length l) - 1) * size_of_element a) (Z.to_nat (size_of_element a)) = Ret x
  | _, _ => p = None
  end.

Lemma pop_points a l : rep a l -> popped a (ma_pop_dynamic a).2 l Pop (ma_pop_dynamic a).1.
Proof.
  intros Hr. destruct (pop_ok a l Hr) as [_ Hp]. unfold popped. rewrite Hp.
  destruct l as [|x l _] using rev_ind; [done|]. rewrite last_snoc. destruct (decide (l ++ [x] = [])) as [E|_]; [by destruct l|].
  destruct (rep_split a (l ++ [x]) (Z.of_nat (length l)) Hr) as (l1 & y & l2 & rest & El & L1 & Eb & Lx & C1 & _ & _ & Hlen);
    [rewrite length_app; simpl; lia|].
  apply app_inj_1 in El as [-> [= <- <-]]; [|lia]. rewrite length_app. cbn [length].
  replace (Z.of_nat (length l1 + 1) - 1) with (Z.of_nat (length l1)) by lia.
  eexists. split; [done|]. split; [unfold ma_pop_dynamic; destruct (negb _); exact Eb|].
  rewrite <- C1, load_bytes_in by (split; rewrite ?length_app in *; lia). rewrite Nat2Z.id, drop_app_length, <- Lx, Nat2Z.id, take_app_length. done.
Qed.

Lemma freeze_fails junk a l i : rep a l -> loses false a Freeze = true -> 0 <= i < Z.of_nat (length l) ->
  ma_get_dynamic (ma_freeze_size false junk a) i = Fault.
Proof.
  intros Hr Hlose Hi. cbn [loses negb andb] in Hlose. destruct (rep_buffer _ _ Hr) as (rest & Eb & _).
  unfold ma_get_dynamic, ma_freeze_size. rewrite Eb, Hlose. cbn [elements]. rewrite (rep_elements _ _ Hr).
  destruct (Z.geb_spec i (Z.of_nat (length l))); [lia|done].
Qed.

Lemma freeze_keeps ok junk a l : rep a l -> size_of_element a < 2 ^ 32 -> loses ok a Freeze = false -> rep (ma_freeze_size ok junk a) l.
Proof.
  intros Hr Hs Hlose. destruct ok; [by apply freeze_ok|]. cbn [loses negb andb] in Hlose.
  unfold ma_freeze_size. destruct (rep_buffer _ _ Hr) as (rest & Eb & _). by rewrite Eb, Hlose.
Qed.

(** C35: inserting, popping, setting, deleting an element and freezing the size of a dynamic array
    that stands for a list returns, stays in the buffer, and leaves an array that stands
    for the list the operation describes: appended, shortened, overwritten, extended with
    zeroed elements up to the index, or with an element removed.  Pop returns the pointer
    of the last element, which is still there, or NULL.  When an allocation fails the
    operation says so and the array stands for the same list as before; reading any index
    then gives the element or zeros.  The exception is ma_freeze_size: when its realloc
    fails it says nothing, the buffer is lost and every element faults. *)
Theorem array_refines ok junk a l o :
  rep a l -> Forall all_bytes l -> allowed a l o ->
  exists failed p a', run ok junk a o = Ret (failed, p, a') /\ (failed = true -> ok = false) /\ popped a a' l o p /\
    if loses ok a o then failed = false /\ buffer a' = None /\ forall i, 0 <= i < Z.of_nat (length l) -> ma_get_dynamic a' i = Fault
    else
      let l' := if failed : bool then l else spec (size_of_element a) l o in
      rep a' l' /\ forall i, 0 <= i ->
        ma_get_dynamic a' i = Ret (default (repeat 0 (Z.to_nat (size_of_element a'))) (l' !! Z.to_nat i)).
Proof.
  intros Hr Hb Ho. assert (exists failed p a', run ok junk a o = Ret (failed, p, a') /\ (failed = true -> ok = false) /\ popped a a' l o p /\
    if loses ok a o then failed = false /\ buffer a' = None /\ forall i, 0 <= i < Z.of_nat (length l) -> ma_get_dynamic a' i = Fault
    else rep a' (if failed : bool then l else spec (size_of_element a) l o)) as (failed & p & a' & E & Hf & Hp & Hr').
  - destruct o as [e| |e i|i|]; cbn [run spec allowed loses] in *.
    + destruct Ho as (? & ? & ?). destruct (insert_ok ok junk a l e) as (f & a' & -> & ? & ?); try done. rewrite bind_ret. by exists f, None, a'.
    + pose proof (pop_points a l Hr) as Hp. destruct (pop_ok a l Hr) as [Hr' _]. destruct (ma_pop_dynamic a) as [p a']. by exists false, p, a'.
    + destruct Ho as (? & ? & ? & ?). destruct (set_ok ok junk a l e i) as (f & a' & -> & ? & ?); try done. rewrite bind_ret. by exists f, None, a'.
    + destruct (delete_ok a l i Hr Hb Ho) as (a' & -> & ?). rewrite bind_ret. by exists false, None, a'.
    + exists false, None. eexists. split; [reflexivity|]. split; [done|]. split; [done|]. fold (loses ok a Freeze).
      destruct (loses ok a Freeze) eqn:Hl; [|by apply freeze_keeps]. destruct ok; [done|]. cbn [loses negb andb] in Hl.
      split; [done|]. split; [|intros i; by apply (freeze_fails junk a l i)].
      unfold ma_freeze_size. destruct (rep_buffer _ _ Hr) as (rest & -> & _). by rewrite Hl.
  - exists failed, p, a'. split; [done|]. split; [done|]. split; [done|]. destruct (loses ok a o); [done|]. split; [done|]. intros i Hi. by apply get_ok.
Qed.

Definition pair_array : DYNAMIC_ARRAY := Array (Some [1; 2; 3; 4]) 2 2 3 2.

Lemma array_refines_witness : exists a',
  run true 7 pair_array (Set_ [8; 9] 4) = Ret (false, None, a') /\
  ma_get_dynamic a' 3 = Ret [0; 0] /\ ma_get_dynamic a' 4 = Ret [8; 9].
Proof.
  destruct (array_refines true 7 pair_array [[1; 2]; [3; 4]] (Set_ [8; 9] 4)) as (f & p & a' & E & Hf & Hp & Hr & Hg).
  - split; simpl; try done; [by exists []|repeat constructor].
  - repeat constructor; simpl; lia.
  - simpl. split_and!; try done; repeat constructor; simpl; lia.
  - destruct f; [specialize (Hf eq_refl); done|]. simpl in Hp. subst p. exists a'. split; [exact E|].
    split; [apply (Hg 3); lia|apply (Hg 4); lia].
Defined.

End DynArray.
