(* ===== verification/DynString.v ===== *)
(** libmariadb/ma_string.c: strings that grow.

    [str] is the allocation, NULL after a failed realloc; the sizes are [size_t].  [ok] is
    the outcome of an allocation, [oks] the outcomes of several (success when the list is
    used up), and [junk] the byte that new memory holds.  C strings are allocations that
    contain a NUL. *)

From stdpp Require Import tactics.
From S2P Require Import Prelude Serialize FltCodec.
Import Serialize.

Module DynString.

Record DYNAMIC_STRING : Type := Dyn {
  str : option bytes; len : Z; max_length : Z; alloc_increment : Z }.

(** memcpy from the start of [src] to offset [off] *)
Definition copy (s : DYNAMIC_STRING) (off : Z) (src : bytes) (n : Z) : cres DYNAMIC_STRING :=
  b ← of_option (str s);
  d ← load_bytes src 0 (Z.to_nat n);
  b ← store_bytes b off d;
  Ret (Dyn (Some b) (len s) (max_length s) (alloc_increment s)).

(** Returns (failed, string); [junk_str] are the fields before the call. *)
Definition ma_init_dynamic_string (ok : bool) (junk : Z) (s : DYNAMIC_STRING) (init_str : option bytes)
    (init_alloc alloc_increment : Z) : cres (bool * DYNAMIC_STRING) :=
  let alloc_increment := if alloc_increment =? 0 then 128 else alloc_increment in
  '(length, init_alloc) ←
    match init_str with
    | None => Ret (1, init_alloc)
    | Some i =>
        n ← strlen i;
        let length := u32 (n + 1) in
        Ret (length, if length <? init_alloc
                     then u64 (u64 (length + alloc_increment - 1) / alloc_increment * alloc_increment)
                     else init_alloc)
    end;
  let init_alloc := if init_alloc =? 0 then alloc_increment else init_alloc in
  if negb ok then Ret (true, Dyn None (len s) (max_length s) (DynString.alloc_increment s))
  else
    let s := Dyn (Some (repeat junk (Z.to_nat init_alloc))) (u32 (length - 1)) (max_length s)
               (DynString.alloc_increment s) in
    s ← match init_str with None => Ret s | Some i => copy s 0 i length end;
    Ret (false, Dyn (str s) (len s) init_alloc alloc_increment).

(** [realloc(str->str, n)], assigned before it is tested *)
Definition realloc_str (ok : bool) (junk : Z) (s : DYNAMIC_STRING) (n : Z) : bool * DYNAMIC_STRING :=
  if ok then (false, Dyn (Some (resize junk n (default [] (str s)))) (len s) n (alloc_increment s))
  else (true, Dyn None (len s) n (alloc_increment s)).

Definition ma_dynstr_set (ok : bool) (junk : Z) (s : DYNAMIC_STRING) (init_str : option bytes)
    : cres (bool * DYNAMIC_STRING) :=
  match init_str with
  | None => Ret (false, Dyn (str s) 0 (max_length s) (alloc_increment s))
  | Some i =>
      n ← strlen i;
      let length := u32 (n + 1) in
      '(failed, s) ←
        (if length >? max_length s then
           if alloc_increment s =? 0 then Fault
           else
             let max := u64 (u64 (length + alloc_increment s - 1) / alloc_increment s * alloc_increment s) in
             Ret (realloc_str ok junk s (if max =? 0 then alloc_increment s else max))
         else Ret (false, s));
      if failed : bool then Ret (true, s)
      else
        s ← copy (Dyn (str s) (u32 (length - 1)) (max_length s) (alloc_increment s)) 0 i length;
        Ret (false, s)
  end.

Definition ma_dynstr_realloc (ok : bool) (junk : Z) (s : DYNAMIC_STRING) (additional_size : Z)
    : cres (bool * DYNAMIC_STRING) :=
  if additional_size =? 0 then Ret (false, s)
  else if u64 (len s + additional_size) >? max_length s then
    if alloc_increment s =? 0 then Fault
    else
      Ret (realloc_str ok junk s
             (u64 (u64 (len s + additional_size + alloc_increment s - 1) / alloc_increment s * alloc_increment s)))
  else Ret (false, s).

(** More room in ma_dynstr_append_mem.  Returns (failed, string). *)
Definition append_grow (ok : bool) (junk : Z) (s : DYNAMIC_STRING) (length : Z) : cres (bool * DYNAMIC_STRING) :=
  if u64 (len s + length) >=? max_length s then
    if alloc_increment s =? 0 then Fault
    else
      let new_length := u64 (u64 (len s + length + alloc_increment s) / alloc_increment s * alloc_increment s) in
      if ok then
        Ret (false, Dyn (Some (resize junk new_length (default [] (str s)))) (len s) new_length (alloc_increment s))
      else Ret (true, s)
  else Ret (false, s).

Definition ma_dynstr_append_mem (ok : bool) (junk : Z) (s : DYNAMIC_STRING) (append : bytes) (length : Z)
    : cres (bool * DYNAMIC_STRING) :=
  '(failed, s) ← append_grow ok junk s length;
  if failed : bool then Ret (true, s)
  else
    s ← copy s (len s) append length;
    b ← of_option (str s);
    let l := u64 (len s + length) in
    b ← store b l 0;
    Ret (false, Dyn (Some b) l (max_length s) (alloc_increment s)).

Definition ma_dynstr_append (ok : bool) (junk : Z) (s : DYNAMIC_STRING) (append : bytes)
    : cres (bool * DYNAMIC_STRING) :=
  n ← strlen append; ma_dynstr_append_mem ok junk s append n.

(** [str->str[str->length++] = c] *)
Definition put (s : DYNAMIC_STRING) (c : Z) : cres DYNAMIC_STRING :=
  b ← of_option (str s);
  b ← store b (len s) c;
  Ret (Dyn (Some b) (u64 (len s + 1)) (max_length s) (alloc_increment s)).

Definition next_ok (oks : list bool) : bool * list bool :=
  match oks with [] => (true, []) | o :: oks => (o, oks) end.

(** The loop of ma_dynstr_append_quoted; fewer than 2^32 characters.  Returns (failed,
    string). *)
Fixpoint quote_loop (oks : list bool) (junk : Z) (s : DYNAMIC_STRING) (additional lim quote : Z) (append : bytes)
    : cres (bool * DYNAMIC_STRING) :=
  match append with
  | [] => Ret (false, s)
  | c :: cs =>
      if (c =? quote) || (c =? 92) then
        let '(ok, oks') := next_ok oks in
        '(failed, s, lim, oks) ←
          (if lim =? 0 then
             '(failed, s) ← ma_dynstr_realloc ok junk s additional;
             Ret (failed, s, additional, oks')
           else Ret (false, s, lim, oks));
        if failed : bool then Ret (true, s)
        else
          s ← put s 92;
          s ← put s c;
          quote_loop oks junk s additional (u64 (lim - 1)) quote cs
      else
        s ← put s c;
        quote_loop oks junk s additional lim quote cs
  end.

Definition ma_dynstr_append_quoted (oks : list bool) (junk : Z) (s : DYNAMIC_STRING) (append : bytes) (n quote : Z)
    : cres (bool * DYNAMIC_STRING) :=
  let additional := alloc_increment s in
  let '(ok, oks) := next_ok oks in
  '(failed, s) ← ma_dynstr_realloc ok junk s (u64 (n + additional + 2));
  if failed : bool then Ret (true, s)
  else
    s ← put s quote;
    a ← load_bytes append 0 (Z.to_nat n);
    '(failed, s) ← quote_loop oks junk s additional additional quote a;
    if failed : bool then Ret (true, s)
    else s ← put s quote; Ret (false, s).

Definition ma_dynstr_free (s : DYNAMIC_STRING) : DYNAMIC_STRING :=
  match str s with
  | Some _ => Dyn None (len s) (max_length s) (alloc_increment s)
  | None => s
  end.

(** Copies to [dst + d] from [src + i]; returns the buffer and the end offset. *)
Fixpoint ma_strmake (dst : bytes) (d : Z) (src : bytes) (i : Z) (length : nat) : cres (bytes * Z) :=
  match length with
  | O => dst ← store dst d 0; Ret (dst, d)
  | S length =>
      c ← load src i;
      dst ← store dst d c;
      if c =? 0 then Ret (dst, d) else ma_strmake dst (d + 1) src (i + 1) length
  end.

(** * The text a string stands for *)

Record rep (s : DYNAMIC_STRING) (c : bytes) : Prop := {
  rep_str : exists rest, str s = Some (c ++ rest) /\ Z.of_nat (length (c ++ rest)) = max_length s;
  rep_len : len s = Z.of_nat (length c);
  rep_max : max_length s < 2 ^ 62;
  rep_inc : 0 < alloc_increment s < 2 ^ 62 }.

Lemma text_bounds s c : rep s c -> 0 <= len s <= max_length s.
Proof. intros [(rest & _ & Hl) -> _ _]. rewrite length_app in Hl. lia. Qed.

(** Rounded up to the increment. *)
Lemma round_inc n inc : 0 < inc -> 0 <= n -> n < (n + inc) / inc * inc <= n + inc.
Proof.
  intros Hi Hn. pose proof (Z.div_mod (n + inc) inc ltac:(lia)). pose proof (Z.mod_pos_bound (n + inc) inc Hi). lia.
Qed.

Lemma text_grow junk s c n :
  rep s c -> max_length s <= n -> n < 2 ^ 62 ->
  rep (Dyn (Some (resize junk n (default [] (str s)))) (len s) n (alloc_increment s)) c.
Proof.
  intros [(rest & Es & Hl) El Hm Hi] Hn Hs. rewrite Es. cbn [default from_option id].
  split; cbn [str len max_length alloc_increment]; try done. rewrite resize_grow by lia.
  eexists. rewrite <- app_assoc. split; [reflexivity|]. rewrite app_assoc, length_app, repeat_length. lia.
Qed.

(** One more character. *)
Lemma put_ok s c x : rep s c -> is_byte x -> len s < max_length s ->
  exists s', put s x = Ret s' /\ rep s' (c ++ [x]) /\ max_length s' = max_length s /\ alloc_increment s' = alloc_increment s.
Proof.
  intros Hr Hx Hlt. pose proof (text_bounds _ _ Hr) as Hb. destruct Hr as [(rest & Es & Hl) El Hm Hi].
  unfold put. rewrite Es. cbn [of_option]. rewrite bind_ret.
  destruct rest as [|y rest]; [rewrite app_nil_r in Hl; lia|].
  rewrite store_splice1 by (done || (split; rewrite ?length_app; simpl; lia)). rewrite bind_ret, El.
  change (c ++ y :: rest) with (c ++ [y] ++ rest). rewrite splice_middle by done. eexists. split; [reflexivity|].
  split; [|done]. split; cbn [str len max_length alloc_increment]; try done.
  - exists rest. rewrite <- app_assoc. split; [done|]. rewrite <- Hl, !length_app. done.
  - rewrite wrap_small by (unfold uint; lia). rewrite length_app. simpl. lia.
Qed.

Lemma append_grow_ok ok junk s c n :
  rep s c -> 0 <= n -> len s + n + alloc_increment s < 2 ^ 62 ->
  exists failed s', append_grow ok junk s n = Ret (failed, s') /\ (failed = true -> ok = false /\ s' = s) /\
    rep s' c /\ (failed = false -> len s + n < max_length s').
Proof.
  intros Hr Hn Hs. pose proof (text_bounds _ _ Hr) as Hb. pose proof (rep_inc _ _ Hr) as Hi. unfold append_grow.
  rewrite (wrap_small 64 (len s + n)) by (unfold uint; lia).
  destruct (Z.geb_spec (len s + n) (max_length s)) as [H|H]; [|by exists false, s].
  destruct (Z.eqb_spec (alloc_increment s) 0); [lia|].
  destruct ok; [|by exists true, s]. cbv zeta. rewrite (wrap_small 64 (_ + alloc_increment s)) by (unfold uint; lia).
  pose proof (round_inc (len s + n) (alloc_increment s) ltac:(lia) ltac:(lia)) as Hr0.
  rewrite wrap_small by (unfold uint; lia). exists false. eexists. split; [reflexivity|]. split; [done|].
  split; [apply text_grow; [done|lia|lia]|simpl; lia].
Qed.

Lemma append_ok ok junk s c d n :
  rep s c -> all_bytes d -> n = Z.of_nat (length d) -> len s + n + alloc_increment s < 2 ^ 62 ->
  exists failed s', ma_dynstr_append_mem ok junk s d n = Ret (failed, s') /\ (failed = true -> ok = false) /\
    rep s' (if failed : bool then c else c ++ d) /\
    (failed = false -> (b ← of_option (str s'); load b (len s')) = Ret 0).
Proof.
  intros Hr Hd -> Hs. pose proof (text_bounds _ _ Hr) as Hb. pose proof (rep_inc _ _ Hr) as Hi0.
  unfold ma_dynstr_append_mem.
  destruct (append_grow_ok ok junk s c (Z.of_nat (length d)) Hr) as (failed & s1 & -> & Hf & Hr1 & Hroom); [lia|done|].
  rewrite bind_ret. destruct failed.
  { destruct (Hf eq_refl) as [-> ->]. exists true, s. done. }
  specialize (Hroom eq_refl). destruct Hr1 as [(rest & Es & Hl) El Hm Hi]. unfold copy. rewrite Es. cbn [of_option].
  rewrite bind_ret, Nat2Z.id, load_bytes_in, bind_ret by (split; lia). change (drop (Z.to_nat 0) d) with d.
  rewrite take_ge by lia. destruct Hr as [_ El0 _ _]. rewrite El0 in Hroom.
  assert (S (length d) <= length rest)%nat as Hlr by (rewrite length_app in Hl; lia).
  rewrite store_bytes_splice, map_u8_bytes, !bind_ret by (done || (split; rewrite ?length_app; lia)).
  rewrite El, splice_front by lia. cbn [str len of_option]. rewrite bind_ret.
  rewrite wrap_small by (unfold uint; lia).
  destruct (drop (length d) rest) as [|y r] eqn:Ed; [apply (f_equal length) in Ed; rewrite length_drop in Ed; simpl in Ed; lia|].
  assert (length r = length rest - length d - 1)%nat as Lr by (apply (f_equal length) in Ed; rewrite length_drop in Ed; simpl in Ed; lia).
  assert (Z.of_nat (length c) + Z.of_nat (length d) = Z.of_nat (length (c ++ d))) as -> by (rewrite length_app; lia).
  rewrite (app_assoc c d). rewrite store_splice1, bind_ret by ((split; simpl; lia) || (split; rewrite ?length_app; simpl; lia)).
  change ((c ++ d) ++ y :: r) with ((c ++ d) ++ [y] ++ r). rewrite splice_middle by done. exists false. eexists. split; [reflexivity|]. split; [done|].
  split.
  - split; cbn [str len max_length alloc_increment]; try done. exists ([0] ++ r). split; [done|].
    rewrite <- Hl, !length_app. simpl. lia.
  - intros _. cbn [str len of_option]. rewrite bind_ret. apply load_lookup; [lia|].
    rewrite Nat2Z.id, lookup_app_r, Nat.sub_diag by lia. done.
Qed.

Lemma realloc_ok junk s c n :
  rep s c -> 0 <= n -> len s + n + alloc_increment s < 2 ^ 62 ->
  exists s', ma_dynstr_realloc true junk s n = Ret (false, s') /\ rep s' c /\ len s + n <= max_length s' /\
    alloc_increment s' = alloc_increment s.
Proof.
  intros Hr Hn Hs. pose proof (text_bounds _ _ Hr) as Hb. pose proof (rep_inc _ _ Hr) as Hi. unfold ma_dynstr_realloc.
  destruct (Z.eqb_spec n 0) as [->|]; [exists s; split_and!; (done || lia)|].
  rewrite (wrap_small 64 (len s + n)) by (unfold uint; lia). rewrite Z.gtb_ltb.
  destruct (Z.ltb_spec (max_length s) (len s + n)); [|exists s; split_and!; (done || lia)].
  destruct (Z.eqb_spec (alloc_increment s) 0); [lia|].
  replace (len s + n + alloc_increment s - 1) with (len s + n - 1 + alloc_increment s) by lia.
  rewrite (wrap_small 64 (_ + alloc_increment s)) by (unfold uint; lia).
  pose proof (round_inc (len s + n - 1) (alloc_increment s) ltac:(lia) ltac:(lia)) as Hr0.
  rewrite wrap_small by (unfold uint; lia). unfold realloc_str. eexists. split; [reflexivity|].
  split; [apply text_grow; [done|lia|lia]|]. simpl. split; [lia|done].
Qed.

(** Only the first [n] bytes of the source matter. *)
Lemma append_mem_prefix ok junk s t more :
  ma_dynstr_append_mem ok junk s (t ++ more) (Z.of_nat (length t)) = ma_dynstr_append_mem ok junk s t (Z.of_nat (length t)).
Proof.
  unfold ma_dynstr_append_mem, copy. rewrite Nat2Z.id.
  rewrite !load_bytes_in by (split; rewrite ?length_app; lia). change (drop (Z.to_nat 0) ?x) with x.
  by rewrite take_app_length, take_ge by lia.
Qed.

(** A C string with text [t]. *)
Definition cstring (t i : bytes) : Prop := Forall (fun c => 0 < c < 256) t /\ exists more, i = t ++ 0 :: more.

Lemma text_bytes t : Forall (fun c => 0 < c < 256) t -> all_bytes t.
Proof. intros H. eapply Forall_impl; [exact H|]. intros c Hc. simpl in Hc. unfold is_byte, uint. lia. Qed.

(** Room for [n] bytes in ma_dynstr_set. *)
Lemma set_room ok junk s c n :
  rep s c -> 0 < n -> n + alloc_increment s < 2 ^ 62 ->
  exists failed s', (if n >? max_length s then
       if alloc_increment s =? 0 then Fault
       else
         let max := u64 (u64 (n + alloc_increment s - 1) / alloc_increment s * alloc_increment s) in
         Ret (realloc_str ok junk s (if max =? 0 then alloc_increment s else max))
     else Ret (false, s)) = Ret (failed, s') /\ (failed = true -> ok = false) /\
    (failed = false -> rep s' c /\ n <= max_length s').
Proof.
  intros Hr Hn Hs. pose proof (rep_inc _ _ Hr) as Hi. rewrite Z.gtb_ltb.
  destruct (Z.ltb_spec (max_length s) n); [|by exists false, s].
  destruct (Z.eqb_spec (alloc_increment s) 0); [lia|]. cbv zeta.
  replace (n + alloc_increment s - 1) with (n - 1 + alloc_increment s) by lia.
  rewrite (wrap_small 64 (_ + alloc_increment s)) by (unfold uint; lia).
  pose proof (round_inc (n - 1) (alloc_increment s) ltac:(lia) ltac:(lia)) as Hr0.
  rewrite wrap_small by (unfold uint; lia). set (m := _ / _ * _) in *. destruct (Z.eqb_spec m 0); [lia|].
  unfold realloc_str. destruct ok; eexists _, _; (split; [reflexivity|]); [|done]. split; [done|]. intros _.
  split; [apply text_grow; [done|lia|lia]|simpl; lia].
Qed.

Lemma dynstr_set_ok ok junk s c t i :
  rep s c -> cstring t i -> Z.of_nat (length t) < 2 ^ 32 - 1 -> alloc_increment s < 2 ^ 61 ->
  exists failed s', ma_dynstr_set ok junk s (Some i) = Ret (failed, s') /\ (failed = true -> ok = false) /\
    (failed = false -> rep s' t).
Proof.
  intros Hr (Ht & more & ->) Hl Hinc. unfold ma_dynstr_set. rewrite strlen_cstr, bind_ret by done. cbv zeta.
  rewrite (wrap_small 32 (Z.of_nat (length t) + 1)) by (unfold uint; lia). set (n := Z.of_nat (length t) + 1).
  destruct (set_room ok junk s c n Hr) as (failed & s1 & E & Hf & Hs1); [lia|lia|]. cbv zeta in E. rewrite E, bind_ret.
  destruct failed; [by exists true, s1|]. destruct (Hs1 eq_refl) as [[(rest & Es & Hls) _ Hm Hi] Hn].
  unfold copy. cbn [str len max_length alloc_increment]. rewrite Es. cbn [of_option]. rewrite bind_ret.
  assert (load_bytes (t ++ 0 :: more) 0 (Z.to_nat n) = Ret (t ++ [0])) as ->.
  { rewrite load_bytes_in by (split; rewrite ?length_app; simpl; lia). f_equal. change (drop (Z.to_nat 0) ?x) with x.
    change (0 :: more) with ([0] ++ more). rewrite app_assoc. apply take_app_length'. rewrite length_app. simpl. lia. }
  assert (all_bytes (t ++ [0])) as Hb.
  { apply Forall_app. split; [by apply text_bytes|]. repeat constructor; simpl; lia. }
  assert (length (t ++ [0]) = Z.to_nat n) as Lt by (rewrite length_app; simpl; lia).
  rewrite bind_ret, store_bytes_splice, map_u8_bytes, !bind_ret by (done || (split; lia)). rewrite splice_0.
  exists false. eexists. split; [reflexivity|]. split; [done|]. intros _.
  split; cbn [str len max_length alloc_increment]; try done.
  - exists ([0] ++ drop (length (t ++ [0])) (c ++ rest)). rewrite <- app_assoc. split; [done|].
    rewrite app_assoc, length_app, length_drop. lia.
  - rewrite wrap_small by (unfold uint; lia). lia.
Qed.

(** ** Refinement *)

Inductive op : Type := AppendMem (d : bytes) | Append (t i : bytes) | Set_ (t i : bytes).

Definition run (ok : bool) (junk : Z) (s : DYNAMIC_STRING) (o : op) : cres (bool * DYNAMIC_STRING) :=
  match o with
  | AppendMem d => ma_dynstr_append_mem ok junk s d (Z.of_nat (length d))
  | Append _ i => ma_dynstr_append ok junk s i
  | Set_ _ i => ma_dynstr_set ok junk s (Some i)
  end.

Definition spec (c : bytes) (o : op) : bytes :=
  match o with AppendMem d => c ++ d | Append t _ => c ++ t | Set_ t _ => t end.

Definition allowed (s : DYNAMIC_STRING) (o : op) : Prop :=
  match o with
  | AppendMem d => all_bytes d /\ len s + Z.of_nat (length d) + alloc_increment s < 2 ^ 62
  | Append t i => cstring t i /\ len s + Z.of_nat (length t) + alloc_increment s < 2 ^ 62
  | Set_ t i => cstring t i /\ Z.of_nat (length t) < 2 ^ 32 - 1 /\ alloc_increment s < 2 ^ 61
  end.

(** C36: with memory, every operation of a dynamic string that stands for a text returns,
    stays in the buffer and leaves a string that stands for the text the operation
    describes; without, it reports the failure, and a string that was to be appended to
    still stands for the text it had. *)
Theorem dynstr_refines ok junk s c o :
  rep s c -> allowed s o ->
  exists failed s', run ok junk s o = Ret (failed, s') /\ (failed = true -> ok = false) /\
    (failed = false -> rep s' (spec c o)) /\
    (failed = true -> match o with Set_ _ _ => True | _ => rep s' c end).
Proof.
  intros Hr Ho. destruct o as [d|t i|t i]; cbn [run spec allowed] in *.
  - destruct Ho as [Hd Hs]. destruct (append_ok ok junk s c d _ Hr Hd eq_refl Hs) as (f & s' & E & Hf & Hr' & _).
    exists f, s'. destruct f; done.
  - destruct Ho as [(Ht & more & ->) Hs]. unfold ma_dynstr_append. rewrite strlen_cstr, bind_ret by done.
    destruct (append_ok ok junk s c t _ Hr (text_bytes t Ht) eq_refl Hs) as (f & s' & E & Hf & Hr' & _).
    exists f, s'. rewrite (append_mem_prefix ok junk s t (0 :: more)). destruct f; done.
  - destruct Ho as (Hc & Hl & Hi). destruct (dynstr_set_ok ok junk s c t i Hr Hc Hl Hi) as (f & s' & E & Hf & Hr').
    exists f, s'. by destruct f.
Qed.

Lemma dynstr_refines_witness : exists s',
  run true 7 (Dyn (Some [104; 0]) 1 2 4) (Append [105; 33] [105; 33; 0]) = Ret (false, s') /\ rep s' [104; 105; 33].
Proof.
  destruct (dynstr_refines true 7 (Dyn (Some [104; 0]) 1 2 4) [104] (Append [105; 33] [105; 33; 0]))
    as (f & s' & E & Hf & Hr & _).
  - split; [by exists [0]|done|done|done].
  - split; [|done]. split; [repeat constructor; lia|by exists []].
  - destruct f; [specialize (Hf eq_refl); done|]. exists s'. split; [exact E|exact (Hr eq_refl)].
Defined.

(** ** Quoting *)

Definition special (q c : Z) : bool := (c =? q) || (c =? 92).
Definition escape (q : Z) (cs : bytes) : bytes := flat_map (fun c => if special q c then [92; c] else [c]) cs.

(** How many characters need a backslash. *)
Definition escapes (q : Z) (cs : bytes) : nat := length (List.filter (special q) cs).

Lemma length_escape q cs : length (escape q cs) = (length cs + escapes q cs)%nat.
Proof.
  unfold escapes. induction cs as [|c cs IH]; [done|]. simpl. rewrite length_app, IH. destruct (special q c); simpl; lia.
Qed.

(** Removing the backslashes. *)
Fixpoint unescape (cs : bytes) : bytes :=
  match cs with
  | [] => []
  | c :: r => if c =? 92 then match r with [] => [c] | d :: r => d :: unescape r end else c :: unescape r
  end.

Lemma unescape_escape q cs : unescape (escape q cs) = cs.
Proof.
  induction cs as [|c cs IH]; [done|]. simpl. destruct (special q c) eqn:E; simpl; [by rewrite IH|].
  unfold special in E. apply orb_false_iff in E as [_ E]. by rewrite E, IH.
Qed.

Lemma quote_loop_ok junk q : is_byte q -> forall cs oks s c lim additional,
  rep s c -> all_bytes cs -> Z.of_nat (escapes q cs) <= lim < 2 ^ 62 ->
  len s + Z.of_nat (length (escape q cs)) <= max_length s ->
  exists s', quote_loop oks junk s additional lim q cs = Ret (false, s') /\ rep s' (c ++ escape q cs) /\
    max_length s' = max_length s.
Proof.
  intros Hq. induction cs as [|x cs IH]; intros oks s c lim additional Hr Hb Hlim Hroom.
  { exists s. split; [done|]. by rewrite app_nil_r. }
  apply Forall_cons in Hb as [Hx Hb]. cbn [quote_loop]. change ((x =? q) || (x =? 92)) with (special q x).
  unfold escapes in *. cbn [List.filter escape flat_map] in *. fold (escape q cs) in *.
  destruct (special q x); cbn [length app] in *.
  - destruct (next_ok oks) as [ok oks']. destruct (Z.eqb_spec lim 0); [lia|]. rewrite bind_ret.
    destruct (put_ok s c 92 Hr) as (s1 & -> & Hr1 & M1 & _); [split; simpl; lia|lia|]. rewrite bind_ret.
    pose proof (rep_len _ _ Hr1) as E1. rewrite length_app in E1. pose proof (rep_len _ _ Hr) as E0. simpl in E1.
    destruct (put_ok s1 _ x Hr1 Hx) as (s2 & -> & Hr2 & M2 & _); [lia|]. rewrite bind_ret.
    rewrite wrap_small by (unfold uint; lia).
    pose proof (rep_len _ _ Hr2) as E2. rewrite !length_app in E2. simpl in E2.
    destruct (IH oks s2 _ (lim - 1) additional Hr2 Hb) as (s3 & -> & Hr3 & M3); [lia|lia|].
    exists s3. split; [done|]. split; [|congruence]. by rewrite <- !app_assoc in Hr3.
  - destruct (put_ok s c x Hr Hx) as (s1 & -> & Hr1 & M1 & _); [lia|]. rewrite bind_ret.
    pose proof (rep_len _ _ Hr1) as E1. rewrite length_app in E1. pose proof (rep_len _ _ Hr) as E0. simpl in E1.
    destruct (IH oks s1 _ lim additional Hr1 Hb) as (s3 & -> & Hr3 & M3); [lia|lia|].
    exists s3. split; [done|]. split; [|congruence]. by rewrite <- app_assoc in Hr3.
Qed.

(** A text with at most alloc_increment characters that need a backslash is appended in
    quotes, with a backslash before every quote and backslash in it and nothing else
    changed, so that removing the backslashes gives the text back; the writes stay in the
    buffer. *)
Theorem quoted_escapes oks junk s c a q :
  rep s c -> all_bytes a -> is_byte q -> (next_ok oks).1 = true -> Z.of_nat (escapes q a) <= alloc_increment s ->
  len s + Z.of_nat (length a) + 2 * alloc_increment s + 2 < 2 ^ 62 ->
  exists s', ma_dynstr_append_quoted oks junk s a (Z.of_nat (length a)) q = Ret (false, s') /\
    rep s' (c ++ [q] ++ escape q a ++ [q]) /\ unescape (escape q a) = a.
Proof.
  intros Hr Hb Hq Hok Hesc Hs. pose proof (text_bounds _ _ Hr) as Hbd. pose proof (rep_inc _ _ Hr) as Hi.
  unfold ma_dynstr_append_quoted. destruct (next_ok oks) as [ok oks']. simpl in Hok. subst ok.
  rewrite (wrap_small 64 (Z.of_nat (length a) + alloc_increment s + 2)) by (unfold uint; lia).
  destruct (realloc_ok junk s c (Z.of_nat (length a) + alloc_increment s + 2) Hr) as (s1 & -> & Hr1 & Hroom & Ei); [lia|lia|].
  rewrite bind_ret. pose proof (rep_len _ _ Hr) as E0. pose proof (rep_len _ _ Hr1) as E1.
  destruct (put_ok s1 c q Hr1 Hq) as (s2 & -> & Hr2 & M2 & _); [lia|]. rewrite bind_ret, Nat2Z.id.
  rewrite load_bytes_in, bind_ret by (split; lia). change (drop (Z.to_nat 0) a) with a. rewrite take_ge by lia.
  pose proof (rep_len _ _ Hr2) as E2. rewrite length_app in E2. simpl in E2. pose proof (length_escape q a) as Le.
  destruct (quote_loop_ok junk q Hq a oks' s2 _ (alloc_increment s) (alloc_increment s) Hr2 Hb) as (s3 & -> & Hr3 & M3); [lia|lia|].
  rewrite bind_ret. pose proof (rep_len _ _ Hr3) as E3. rewrite !length_app in E3. simpl in E3.
  destruct (put_ok s3 _ q Hr3 Hq) as (s4 & -> & Hr4 & _); [lia|]. rewrite bind_ret. exists s4. split; [done|].
  split; [by rewrite <- !app_assoc in Hr4|apply unescape_escape].
Qed.

Definition empty_dyn : DYNAMIC_STRING := Dyn (Some []) 0 0 8.

Lemma quoted_escapes_witness : exists s',
  ma_dynstr_append_quoted [] 7 empty_dyn [97; 34; 98] 3 34 = Ret (false, s') /\ rep s' [34; 97; 92; 34; 98; 34].
Proof.
  assert (rep empty_dyn []) as H0 by (split; [by exists []|done|done|done]).
  assert (all_bytes [97; 34; 98]) as Hb by (rewrite !Forall_cons; unfold is_byte, uint; simpl; split_and!; try lia; constructor).
  destruct (quoted_escapes [] 7 empty_dyn [] [97; 34; 98] 34 H0 Hb) as (s' & E & Hr & _);
    [split; simpl; lia|done|by apply Z.leb_le|by apply Z.ltb_lt|].
  exists s'. split; [exact E|exact Hr].
Defined.

(** With more characters to escape, the room that is asked for when the reserve is used up
    does not count the characters still to come: four quotes at an increment of 1 are
    written past the end. *)
Theorem quoted_overflow : ma_dynstr_append_quoted [] 7 (Dyn (Some []) 0 0 1) [34; 34; 34; 34] 4 34 = Fault.
Proof. reflexivity. Qed.

(** An initial text at least as long as the requested size is copied into a buffer of the
    requested size. *)
Theorem init_overflow s : ma_init_dynamic_string true 7 s (Some [104; 105; 0]) 2 0 = Fault.
Proof. reflexivity. Qed.

End DynString.
