(* ===== verification/Bitmap.v ===== *)
(** libmariadb/ob_bitmap.c: sets of small numbers, one bit each. *)

From stdpp Require Import tactics.
From S2P Require Import Prelude.

Module Bitmap.

Record OB_BITMAP : Type := Map { bitmap : option bytes; n_bits : Z }.

Definition n_bytes_in_map (map : OB_BITMAP) : Z := u32 (n_bits map + 7) / 8.

(** memset of the whole map *)
Definition fill (map : OB_BITMAP) (v : Z) : cres OB_BITMAP :=
  b ← of_option (bitmap map);
  b ← store_bytes b 0 (repeat v (Z.to_nat (n_bytes_in_map map)));
  Ret (Map (Some b) (n_bits map)).

Definition ob_bitmap_clear_all (map : OB_BITMAP) : cres OB_BITMAP := fill map 0.
Definition ob_bitmap_set_all (map : OB_BITMAP) : cres OB_BITMAP := fill map 0xFF.

(** [ok] is the outcome of malloc.  Returns (failed, map). *)
Definition ob_bitmap_init (ok : bool) (junk n_bits : Z) : cres (bool * OB_BITMAP) :=
  if ok then
    map ← ob_bitmap_clear_all
            (Map (Some (repeat junk (Z.to_nat (n_bytes_in_map (Map None n_bits))))) n_bits);
    Ret (false, map)
  else Ret (true, Map None n_bits).

(** [((uchar* )map->bitmap)[bit / 8] = f(...)] *)
Definition update (map : OB_BITMAP) (bit : Z) (f : Z -> Z) : cres OB_BITMAP :=
  b ← of_option (bitmap map);
  v ← load b (bit / 8);
  b ← store b (bit / 8) (f v);
  Ret (Map (Some b) (n_bits map)).

Definition ob_bitmap_set_bit (map : OB_BITMAP) (bit : Z) : cres OB_BITMAP :=
  if bit <? n_bits map then update map bit (fun v => Z.lor v (Z.shiftl 1 (Z.land bit 7))) else Ret map.

Definition ob_bitmap_clear_bit (map : OB_BITMAP) (bit : Z) : cres OB_BITMAP :=
  if bit <? n_bits map then update map bit (fun v => Z.land v (Z.lnot (Z.shiftl 1 (Z.land bit 7)))) else Ret map.

(** The result is a [my_bool], a character that is not 0 for true. *)
Definition ob_bitmap_is_set (map : OB_BITMAP) (bit : Z) : cres Z :=
  if bit <? n_bits map then
    b ← of_option (bitmap map);
    v ← load b (bit / 8);
    Ret (s8 (Z.land v (Z.shiftl 1 (Z.land bit 7))))
  else Ret 0.

Definition ob_bitmap_free (map : OB_BITMAP) : OB_BITMAP := Map None 0.

(** * The set a map stands for *)

Definition bits (b : bytes) (i : Z) : bool := Z.testbit (nth (Z.to_nat (i / 8)) b 0) (i mod 8).

(** [f] is the set: the bits below [n_bits]; the byte count does not wrap. *)
Definition rep (map : OB_BITMAP) (f : Z -> bool) : Prop :=
  exists b, bitmap map = Some b /\ Z.of_nat (length b) = (n_bits map + 7) / 8 /\
    0 <= n_bits map <= 2 ^ 32 - 8 /\ all_bytes b /\ forall i, 0 <= i -> f i = (i <? n_bits map) && bits b i.

Lemma low_bits i : Z.land i 7 = i mod 8.
Proof. change 7 with (Z.ones 3). rewrite Z.land_ones by lia. done. Qed.

Lemma rep_index map (b : bytes) i :
  Z.of_nat (length b) = (n_bits map + 7) / 8 -> 0 <= i < n_bits map -> 0 <= i / 8 < Z.of_nat (length b).
Proof.
  intros -> Hi. split; [apply Z.div_pos; lia|]. apply Z.div_lt_upper_bound; [lia|].
  pose proof (Z.div_mod (n_bits map + 7) 8 ltac:(lia)). pose proof (Z.mod_pos_bound (n_bits map + 7) 8 ltac:(lia)). lia.
Qed.

Lemma load_nth b i : 0 <= i < Z.of_nat (length b) -> load b i = Ret (nth (Z.to_nat i) b 0).
Proof.
  intros Hi. destruct (load_in b i Hi) as (v & -> & Hv). f_equal. symmetry. by apply nth_lookup_Some.
Qed.

Lemma is_set_ok map f i : rep map f -> 0 <= i ->
  exists v, ob_bitmap_is_set map i = Ret v /\ (v <> 0 <-> f i = true).
Proof.
  intros (b & Eb & Hl & Hn & Hb & Hf) Hi. unfold ob_bitmap_is_set. rewrite (Hf i Hi).
  destruct (Z.ltb_spec i (n_bits map)) as [H|H]; [|by exists 0]. rewrite Eb. cbn [of_option andb]. rewrite bind_ret.
  rewrite (load_nth b (i / 8)), bind_ret by (by apply (rep_index map)). eexists. split; [reflexivity|].
  unfold bits. rewrite low_bits. pose proof (Z.mod_pos_bound i 8 ltac:(lia)) as Hm. set (v := nth _ b 0).
  assert (Z.land v (Z.shiftl 1 (i mod 8)) = if Z.testbit v (i mod 8) then Z.shiftl 1 (i mod 8) else 0) as ->.
  { apply Z.bits_inj'. intros k Hk. rewrite Z.land_spec. rewrite Z.shiftl_1_l, Z.pow2_bits_eqb by lia.
    destruct (Z.eqb_spec (i mod 8) k) as [->|Hne].
    - rewrite andb_true_r. destruct (Z.testbit v k); [by rewrite Z.pow2_bits_true|by rewrite Z.bits_0].
    - rewrite andb_false_r. destruct (Z.testbit v (i mod 8)); [by rewrite Z.pow2_bits_false by lia|by rewrite Z.bits_0]. }
  destruct (Z.testbit v (i mod 8)); [|done]. split; [done|]. intros _.
  assert (i mod 8 = 0 \/ i mod 8 = 1 \/ i mod 8 = 2 \/ i mod 8 = 3 \/ i mod 8 = 4 \/ i mod 8 = 5 \/ i mod 8 = 6 \/ i mod 8 = 7)
    as Hc by lia. by repeat destruct Hc as [->|Hc]; [done..|rewrite Hc].
Qed.

(** Replacing the byte of [bit] changes [g] of that byte only. *)
Lemma update_ok map f bit g h :
  rep map f -> 0 <= bit < n_bits map ->
  (forall v k, is_byte v -> 0 <= k < 8 -> Z.testbit (g v) k = h (k =? bit mod 8) (Z.testbit v k)) ->
  (forall c, h false c = c) ->
  exists map', update map bit g = Ret map' /\ rep map' (fun i => h (i =? bit) (f i)) /\ n_bits map' = n_bits map.
Proof.
  intros (b & Eb & Hl & Hn & Hb & Hf) Hi Hg Hh. unfold update. rewrite Eb. cbn [of_option]. rewrite bind_ret.
  pose proof (rep_index map b bit Hl Hi) as Hj. set (j := bit / 8) in *.
  rewrite (load_nth b j), bind_ret by done. set (v := nth (Z.to_nat j) b 0).
  assert (is_byte v) as Hv.
  { destruct (load_in b j Hj) as (v' & Ev & Hv'). rewrite (load_nth b j Hj) in Ev. injection Ev as Ev. fold v in Ev. subst v'.
    rewrite Forall_lookup in Hb. by apply (Hb (Z.to_nat j)). }
  unfold store. destruct (Z.ltb_spec j 0), (Z.leb_spec (Z.of_nat (length b)) j); [lia..|]. cbn [orb]. rewrite bind_ret.
  eexists. split; [reflexivity|]. split; [|done]. exists (<[Z.to_nat j := u8 (g v)]> b). cbn [bitmap n_bits].
  split; [done|]. split; [by rewrite length_insert|]. split; [done|].
  split; [apply Forall_insert; [done|apply wrap_uint; lia]|]. intros i Hi0. rewrite (Hf i Hi0). unfold bits.
  destruct (Z.eqb_spec i bit) as [->|Hne].
  - fold j. rewrite (nth_lookup (<[_ := _]> b)), list_lookup_insert_eq by lia. cbn [default from_option id]. rewrite testbit_wrap by (pose proof (Z.mod_pos_bound bit 8); lia).
    pose proof (Z.mod_pos_bound bit 8 ltac:(lia)) as Hm. destruct (Z.ltb_spec (bit mod 8) 8); [|lia].
    rewrite Hg, Z.eqb_refl by done. destruct (Z.ltb_spec bit (n_bits map)); [|lia]. done.
  - rewrite Hh. destruct (i <? n_bits map); [|done]. cbn [andb].
    destruct (Z.eq_dec (i / 8) j) as [Ej|Ej].
    + rewrite Ej, (nth_lookup (<[_ := _]> b)), list_lookup_insert_eq by lia. cbn [default from_option id]. rewrite testbit_wrap by (pose proof (Z.mod_pos_bound i 8); lia).
      pose proof (Z.mod_pos_bound i 8 ltac:(lia)) as Hm. destruct (Z.ltb_spec (i mod 8) 8); [|lia].
      rewrite Hg by done. destruct (Z.eqb_spec (i mod 8) (bit mod 8)) as [Em|_]; [|by rewrite Hh].
      exfalso. apply Hne. rewrite (Z.div_mod i 8), (Z.div_mod bit 8) by lia. fold j. by rewrite Ej, Em.
    + rewrite !nth_lookup, list_lookup_insert_ne; [done|]. intros E. apply Ej. apply Z2Nat.inj in E; [done|lia|apply Z.div_pos; lia].
Qed.

Lemma nbytes map : 0 <= n_bits map <= 2 ^ 32 - 8 -> n_bytes_in_map map = (n_bits map + 7) / 8.
Proof. intros Hn. unfold n_bytes_in_map. rewrite wrap_small; [done|]. unfold uint. lia. Qed.

(** memset with 0 or 0xFF makes the set empty or full. *)
Lemma fill_ok n (b : bytes) v c :
  0 <= n <= 2 ^ 32 - 8 -> Z.of_nat (length b) = (n + 7) / 8 -> is_byte v ->
  (forall k, 0 <= k < 8 -> Z.testbit v k = c) ->
  exists map', fill (Map (Some b) n) v = Ret map' /\ rep map' (fun i => (i <? n) && c) /\ n_bits map' = n.
Proof.
  intros Hn Hl Hv Hc. unfold fill. rewrite (nbytes (Map (Some b) n) Hn). cbn [bitmap n_bits of_option]. rewrite bind_ret.
  set (d := repeat v (Z.to_nat ((n + 7) / 8))). assert (0 <= (n + 7) / 8) by (apply Z.div_pos; lia).
  assert (length d = length b) as Ld by (unfold d; rewrite repeat_length; lia).
  assert (all_bytes d) as Hd by (apply Forall_forall; intros x Hx%list_elem_of_In%repeat_spec; by subst x).
  rewrite store_bytes_splice, map_u8_bytes, bind_ret by (done || (split; lia)). rewrite splice_0, drop_ge, app_nil_r by lia.
  eexists. split; [reflexivity|]. split; [|done]. exists d. cbn [bitmap n_bits]. split; [done|]. split; [lia|].
  split; [done|]. split; [done|]. intros i Hi. destruct (Z.ltb_spec i n); [|done]. cbn [andb]. unfold bits.
  pose proof (rep_index (Map (Some b) n) d i ltac:(simpl; lia) ltac:(simpl; lia)) as Hj.
  unfold d in Hj |- *. rewrite repeat_length in Hj. rewrite nth_repeat_lt by lia. symmetry. apply Hc. apply Z.mod_pos_bound. lia.
Qed.

Inductive op : Type := SetBit (i : Z) | ClearBit (i : Z) | SetAll | ClearAll.

Definition run (map : OB_BITMAP) (o : op) : cres OB_BITMAP :=
  match o with
  | SetBit i => ob_bitmap_set_bit map i
  | ClearBit i => ob_bitmap_clear_bit map i
  | SetAll => ob_bitmap_set_all map
  | ClearAll => ob_bitmap_clear_all map
  end.

(** The sets of numbers below [n]. *)
Definition spec (n : Z) (f : Z -> bool) (o : op) : Z -> bool :=
  match o with
  | SetBit k => fun i => f i || ((i =? k) && (k <? n))
  | ClearBit k => fun i => f i && negb (i =? k)
  | SetAll => fun i => i <? n
  | ClearAll => fun _ => false
  end.

Lemma rep_ext map f g : (forall i, 0 <= i -> g i = f i) -> rep map f -> rep map g.
Proof. intros E (b & Eb & Hl & Hn & Hb & Hf). exists b. do 4 (split; [done|]). intros i Hi. by rewrite E, Hf. Qed.

Lemma run_ok map f o :
  rep map f -> match o with SetBit i | ClearBit i => 0 <= i | _ => True end ->
  exists map', run map o = Ret map' /\ rep map' (spec (n_bits map) f o) /\ n_bits map' = n_bits map.
Proof.
  intros Hr Ho. pose proof Hr as (b & Eb & Hl & Hn & Hb & Hf). destruct o as [k|k| |]; cbn [run spec].
  - unfold ob_bitmap_set_bit. destruct (Z.ltb_spec k (n_bits map)) as [H|H].
    + destruct (update_ok map f k (fun v => Z.lor v (Z.shiftl 1 (Z.land k 7))) (fun e c => c || e) Hr) as (m & E & Hm & Em);
        [lia| |by intros []|].
      { intros v j _ Hj. rewrite Z.lor_spec, low_bits, Z.shiftl_1_l, Z.pow2_bits_eqb by (apply Z.mod_pos_bound; lia).
        by rewrite Z.eqb_sym. }
      exists m. split; [done|]. split; [|done]. eapply rep_ext, Hm. intros i _. cbn beta. by rewrite ?andb_true_r.
    + exists map. split; [done|]. split; [|done]. eapply rep_ext, Hr. intros i _. by rewrite andb_false_r, orb_false_r.
  - unfold ob_bitmap_clear_bit. destruct (Z.ltb_spec k (n_bits map)) as [H|H].
    + destruct (update_ok map f k (fun v => Z.land v (Z.lnot (Z.shiftl 1 (Z.land k 7)))) (fun e c => c && negb e) Hr)
        as (m & E & Hm & Em); [lia| |by intros []|by exists m].
      intros v j _ Hj. rewrite Z.land_spec, Z.lnot_spec, low_bits, Z.shiftl_1_l, Z.pow2_bits_eqb by (try apply Z.mod_pos_bound; lia).
      by rewrite Z.eqb_sym.
    + exists map. split; [done|]. split; [|done]. eapply rep_ext, Hr. intros i Hi. rewrite (Hf i Hi).
      destruct (Z.ltb_spec i (n_bits map)); [|done]. destruct (Z.eqb_spec i k); [lia|]. by rewrite andb_true_r.
  - destruct (fill_ok (n_bits map) b 0xFF true Hn Hl) as (m & E & Hm & Em); [split; simpl; lia| |].
    { intros k Hk. change 0xFF with (Z.ones 8). by apply Z.ones_spec_low. }
    exists m. unfold ob_bitmap_set_all. destruct map as [bm nb]. cbn [bitmap n_bits] in *. subst bm. split; [done|].
    split; [|done]. eapply rep_ext, Hm. intros i _. cbn beta. by rewrite ?andb_true_r.
  - destruct (fill_ok (n_bits map) b 0 false Hn Hl) as (m & E & Hm & Em); [split; simpl; lia|intros; apply Z.bits_0|].
    exists m. unfold ob_bitmap_clear_all. destruct map as [bm nb]. cbn [bitmap n_bits] in *. subst bm. split; [done|].
    split; [|done]. eapply rep_ext, Hm. intros i _. cbn beta. by rewrite ?andb_false_r.
Qed.

Fixpoint run_all (map : OB_BITMAP) (os : list op) : cres OB_BITMAP :=
  match os with [] => Ret map | o :: os => map ← run map o; run_all map os end.

(** C37: a map created for [n] bits, after any sequence of setting, clearing, setting all and
    clearing all, answers exactly the membership of the set that the sequence describes,
    for every bit number, with numbers from [n] on never members; nothing is accessed
    outside the map. *)
Theorem bitmap_refines junk n os :
  0 <= n <= 2 ^ 32 - 8 -> Forall (fun o => match o with SetBit i | ClearBit i => 0 <= i | _ => True end) os ->
  exists map map', ob_bitmap_init true junk n = Ret (false, map) /\ run_all map os = Ret map' /\
    forall i, 0 <= i -> exists v, ob_bitmap_is_set map' i = Ret v /\
      (v <> 0 <-> fold_left (spec n) os (fun _ => false) i = true).
Proof.
  intros Hn Hos.
  assert (forall map f, rep map f -> n_bits map = n -> exists map', run_all map os = Ret map' /\
    rep map' (fold_left (spec n) os f)) as Hrun.
  { clear -Hos. induction Hos as [|o os Ho _ IH]; intros map f Hr En; [by exists map|]. cbn [run_all fold_left].
    destruct (run_ok map f o Hr Ho) as (m & -> & Hm & Em). rewrite bind_ret. rewrite En in Hm. apply IH; [done|congruence]. }
  unfold ob_bitmap_init, ob_bitmap_clear_all. rewrite (nbytes (Map None n) Hn). cbn [n_bits].
  assert (0 <= (n + 7) / 8) by (apply Z.div_pos; lia).
  destruct (fill_ok n (repeat junk (Z.to_nat ((n + 7) / 8))) 0 false Hn) as (m & -> & Hm & Em);
    [rewrite repeat_length; lia|split; simpl; lia|intros; apply Z.bits_0|].
  rewrite bind_ret. destruct (Hrun m (fun _ => false)) as (m' & E & Hr'); [|done|].
  - eapply rep_ext, Hm. intros i _. cbn beta. by rewrite ?andb_false_r.
  - exists m, m'. split; [done|]. split; [done|]. intros i Hi. by apply is_set_ok.
Qed.

Lemma bitmap_refines_witness : exists map map',
  ob_bitmap_init true 9 10 = Ret (false, map) /\ run_all map [SetAll; ClearBit 3; SetBit 40] = Ret map' /\
  exists v, ob_bitmap_is_set map' 3 = Ret v /\ ~ v <> 0.
Proof.
  destruct (bitmap_refines 9 10 [SetAll; ClearBit 3; SetBit 40]) as (m & m' & E1 & E2 & H); [lia|repeat constructor; lia|].
  exists m, m'. split; [exact E1|]. split; [exact E2|]. destruct (H 3 ltac:(lia)) as (v & Ev & Hv).
  exists v. split; [exact Ev|]. rewrite Hv. vm_compute. discriminate.
Defined.

End Bitmap.
