(* ===== verification/Hash.v ===== *)
(** libmariadb/ma_hash.c: a hash table by linear hashing.

    The links live in a dynamic array (DynArray.v), 16 bytes each: the index of the next
    link, padding, and the record pointer.  A pointer [data + i] is the index [i]; NULL is
    -1.  [heap record] are the bytes that can be read from a record pointer.  The key
    function of the client returns the bytes that can be read from the key and its length.
    A call of the free function appears as the list of the records it was called with. *)

From stdpp Require Import tactics.
From S2P Require Import Prelude IntStore DynArray.

Module Hash.
Import DynArray.

Definition NO_RECORD : Z := u32 (-1).
Definition LOWFIND : Z := 1.
Definition LOWUSED : Z := 2.
Definition HIGHFIND : Z := 4.
Definition HIGHUSED : Z := 8.
Definition HASH_CASE_INSENSITIVE : Z := 1.

(** ** OB_HASH_LINK in memory *)

Definition SIZEOF_LINK : Z := 16.

Definition link_next (d : bytes) (i : Z) : cres Z := bs ← load_bytes d (SIZEOF_LINK * i) 4; Ret (le_val bs).
Definition link_data (d : bytes) (i : Z) : cres Z := bs ← load_bytes d (SIZEOF_LINK * i + 8) 8; Ret (le_val bs).
Definition set_next (d : bytes) (i v : Z) : cres bytes := store_bytes d (SIZEOF_LINK * i) (le_bytes 4 v).
Definition set_data (d : bytes) (i v : Z) : cres bytes := store_bytes d (SIZEOF_LINK * i + 8) (le_bytes 8 v).

(** [to->data = r; to->next = n] and [to[0] = from[0]]. *)
Definition set_link (d : bytes) (i r n : Z) : cres bytes := d ← set_data d i r; set_next d i n.
Definition copy_link (d : bytes) (to from : Z) : cres bytes :=
  bs ← load_bytes d (SIZEOF_LINK * from) (Z.to_nat SIZEOF_LINK); store_bytes d (SIZEOF_LINK * to) bs.

(** ** The table *)

(** The hash function is chosen by [flags] in _hash_init; [calc_caseup] says which. *)
Record OB_HASH : Type := Table {
  key_offset : Z; key_length : Z; records : Z; blength : Z; current_record : Z; flags : Z;
  array : DYNAMIC_ARRAY; get_key : option (Z -> bytes * Z); free : bool; calc_caseup : bool }.

Definition with_array (h : OB_HASH) (n b c : Z) (a : DYNAMIC_ARRAY) : OB_HASH :=
  Table (key_offset h) (key_length h) n b c (flags h) a (get_key h) (free h) (calc_caseup h).

Definition with_current (h : OB_HASH) (c : Z) : OB_HASH := with_array h (records h) (blength h) c (array h).

Definition with_buffer (a : DYNAMIC_ARRAY) (d : bytes) : DYNAMIC_ARRAY :=
  Array (Some d) (elements a) (max_element a) (alloc_increment a) (size_of_element a).

(** Returns (failed, table); [old] is the memory the table is built in. *)
Definition hash_init (ok : bool) (junk : Z) (old : OB_HASH) (size offset length : Z)
    (key : option (Z -> bytes * Z)) (free_element : bool) (fl : Z) : cres (bool * OB_HASH) :=
  '(failed, a) ← ma_init_dynamic_array ok junk SIZEOF_LINK size 0;
  if failed : bool then
    Ret (true, Table (key_offset old) (key_length old) 0 (blength old) (current_record old) (flags old) a
                 (get_key old) false (calc_caseup old))
  else
    Ret (false, Table offset length 0 1 NO_RECORD fl a key free_element (negb (Z.land fl HASH_CASE_INSENSITIVE =? 0))).

Fixpoint free_loop (d : bytes) (i : Z) (n : nat) : cres (list Z) :=
  match n with
  | O => Ret []
  | S n' => r ← link_data d i; rs ← free_loop d (i + 1) n'; Ret (r :: rs)
  end.

(** Returns the records given to the free function and the table. *)
Definition hash_free (h : OB_HASH) : cres (list Z * OB_HASH) :=
  freed ← (if free h then
             match buffer (array h) with
             | Some d => free_loop d 0 (Z.to_nat (records h))
             | None => if records h =? 0 then Ret [] else Fault
             end
           else Ret []);
  Ret (freed, Table (key_offset h) (key_length h) 0 (blength h) (current_record h) (flags h)
                (ma_delete_dynamic (array h)) (get_key h) false (calc_caseup h)).

(** ** Keys and hash values *)

Section Operations.
Context (heap : Z -> bytes).

Definition hash_key (h : OB_HASH) (record : Z) : bytes * Z :=
  match get_key h with
  | Some f => f record
  | None => (drop (Z.to_nat (key_offset h)) (heap record), key_length h)
  end.

Definition hash_mask (hashnr buffmax maxlength : Z) : Z :=
  if Z.land hashnr (u32 (buffmax - 1)) <? maxlength then Z.land hashnr (u32 (buffmax - 1))
  else Z.land hashnr (u32 (Z.shiftr buffmax 1 - 1)).

(** toupper of the C locale. *)
Definition toupper (c : Z) : Z := if (97 <=? c) && (c <=? 122) then c - 32 else c.

Definition hashnr_step (nr nr2 c : Z) : Z :=
  Z.lxor nr (u32 (u32 ((Z.land nr 63 + nr2) * c) + u32 (Z.shiftl nr 8))).

Fixpoint hashnr_loop (fold : Z -> Z) (key : bytes) (i : Z) (length : nat) (nr nr2 : Z) : cres Z :=
  match length with
  | O => Ret nr
  | S length' => c ← load key i; hashnr_loop fold key (i + 1) length' (hashnr_step nr nr2 (fold c)) (u32 (nr2 + 3))
  end.

Definition calc_hashnr (key : bytes) (length : Z) : cres Z := hashnr_loop (fun c => c) key 0 (Z.to_nat length) 1 4.
Definition calc_hashnr_caseup (key : bytes) (length : Z) : cres Z := hashnr_loop toupper key 0 (Z.to_nat length) 1 4.

(** The call through [hash->calc_hashnr]. *)
Definition call_hashnr (h : OB_HASH) (key : bytes) (length : Z) : cres Z :=
  if calc_caseup h then calc_hashnr_caseup key length else calc_hashnr key length.

Definition rec_hashnr (h : OB_HASH) (record : Z) : cres Z :=
  let '(key, length) := hash_key h record in call_hashnr h key length.

Definition hash_rec_mask (h : OB_HASH) (d : bytes) (pos buffmax maxlength : Z) : cres Z :=
  r ← link_data d pos;
  let '(key, length) := hash_key h r in
  nr ← call_hashnr h key length;
  Ret (hash_mask nr buffmax maxlength).

(** Is the key of the record at [pos] different from [key]? *)
Definition hashcmp (h : OB_HASH) (d : bytes) (pos : Z) (key : bytes) (length : Z) : cres bool :=
  r ← link_data d pos;
  let '(rec_key, rec_keylength) := hash_key h r in
  if negb (length =? 0) && negb (length =? rec_keylength) then Ret true
  else
    a ← load_bytes rec_key 0 (Z.to_nat rec_keylength);
    b ← load_bytes key 0 (Z.to_nat rec_keylength);
    Ret (negb (bool_decide (a = b))).

(** ** Searching *)

(** Returns the index and the record found. *)
Fixpoint search_loop (fuel : nat) (h : OB_HASH) (d key : bytes) (length : Z) (flag : bool) (idx : Z)
    : cres (option (Z * Z)) :=
  match fuel with
  | O => OutOfFuel
  | S fuel' =>
      differs ← hashcmp h d idx key length;
      if negb differs then r ← link_data d idx; Ret (Some (idx, r))
      else
        wrong ← (if flag then m ← hash_rec_mask h d idx (blength h) (records h); Ret (negb (m =? idx)) else Ret false);
        if wrong : bool then Ret None
        else
          next ← link_next d idx;
          if next =? NO_RECORD then Ret None else search_loop fuel' h d key length false next
  end.

Definition hash_search (h : OB_HASH) (key : bytes) (length : Z) : cres (option Z * OB_HASH) :=
  if negb (records h =? 0) then
    nr ← call_hashnr h key (if length =? 0 then key_length h else length);
    d ← mem (array h);
    found ← search_loop (Z.to_nat (records h)) h d key length true (hash_mask nr (blength h) (records h));
    match found with
    | Some (idx, r) => Ret (Some r, with_current h idx)
    | None => Ret (None, with_current h NO_RECORD)
    end
  else Ret (None, with_current h NO_RECORD).

Fixpoint next_loop (fuel : nat) (h : OB_HASH) (d key : bytes) (length idx : Z) : cres (option (Z * Z)) :=
  if idx =? NO_RECORD then Ret None
  else
    match fuel with
    | O => OutOfFuel
    | S fuel' =>
        differs ← hashcmp h d idx key length;
        if negb differs then r ← link_data d idx; Ret (Some (idx, r))
        else next ← link_next d idx; next_loop fuel' h d key length next
    end.

Definition hash_next (h : OB_HASH) (key : bytes) (length : Z) : cres (option Z * OB_HASH) :=
  if negb (current_record h =? NO_RECORD) then
    d ← mem (array h);
    idx ← link_next d (current_record h);
    found ← next_loop (Z.to_nat (records h)) h d key length idx;
    match found with
    | Some (idx, r) => Ret (Some r, with_current h idx)
    | None => Ret (None, with_current h NO_RECORD)
    end
  else Ret (None, h).

Definition hash_element (h : OB_HASH) (idx : Z) : cres (option Z) :=
  if idx <? records h then d ← mem (array h); r ← link_data d idx; Ret (Some r) else Ret None.

(** Follow the links from [next_link] to the one that leads to [find] and redirect it. *)
Fixpoint movelink (fuel : nat) (d : bytes) (find next_link newlink : Z) : cres bytes :=
  match fuel with
  | O => OutOfFuel
  | S fuel' =>
      next ← link_next d next_link;
      if next =? find then set_next d next_link newlink else movelink fuel' d find next newlink
  end.

(** ** Inserting *)

(** The local variables of the loop in hash_insert. *)
Record Split : Type := Split_ {
  flag : Z; empty : Z; gpos : Z; ptr_to_rec : Z; gpos2 : Z; ptr_to_rec2 : Z }.

(** The branch for a key that does not move. *)
Definition split_low (d : bytes) (s : Split) (pos r : Z) : cres (bytes * Split) :=
  if Z.land (flag s) LOWFIND =? 0 then
    if negb (Z.land (flag s) HIGHFIND =? 0) then
      Ret (d, Split_ (Z.lor LOWFIND HIGHFIND) pos (empty s) r (gpos2 s) (ptr_to_rec2 s))
    else Ret (d, Split_ (Z.lor LOWFIND LOWUSED) (empty s) pos r (gpos2 s) (ptr_to_rec2 s))
  else
    '(d, fl) ← (if Z.land (flag s) LOWUSED =? 0 then
                  d ← set_link d (gpos s) (ptr_to_rec s) pos;
                  Ret (d, Z.lor (Z.land (flag s) HIGHFIND) (Z.lor LOWFIND LOWUSED))
                else Ret (d, flag s));
    Ret (d, Split_ fl (empty s) pos r (gpos2 s) (ptr_to_rec2 s)).

(** The branch for a key that moves to the new half. *)
Definition split_high (d : bytes) (s : Split) (pos r : Z) : cres (bytes * Split) :=
  if Z.land (flag s) HIGHFIND =? 0 then
    Ret (d, Split_ (Z.lor (Z.land (flag s) LOWFIND) HIGHFIND) pos (gpos s) (ptr_to_rec s) (empty s) r)
  else
    '(d, fl) ← (if Z.land (flag s) HIGHUSED =? 0 then
                  d ← set_link d (gpos2 s) (ptr_to_rec2 s) pos;
                  Ret (d, Z.lor (Z.land (flag s) LOWFIND) (Z.lor HIGHFIND HIGHUSED))
                else Ret (d, flag s));
    Ret (d, Split_ fl (empty s) (gpos s) (ptr_to_rec s) pos r).

Fixpoint split_loop (fuel : nat) (h : OB_HASH) (halfbuff first_index : Z) (d : bytes) (s : Split) (idx : Z)
    : cres (bytes * Split) :=
  match fuel with
  | O => OutOfFuel
  | S fuel' =>
      r ← link_data d idx;
      hash_nr ← rec_hashnr h r;
      if (flag s =? 0) && negb (hash_mask hash_nr (blength h) (records h) =? first_index) then Ret (d, s)
      else
        '(d, s) ← (if Z.land hash_nr halfbuff =? 0 then split_low d s idx r else split_high d s idx r);
        next ← link_next d idx;
        if next =? NO_RECORD then Ret (d, s) else split_loop fuel' h halfbuff first_index d s next
  end.

(** The two writes behind the loop. *)
Definition split_end (d : bytes) (s : Split) : cres bytes :=
  d ← (if Z.land (flag s) (Z.lor LOWFIND LOWUSED) =? LOWFIND
       then set_link d (gpos s) (ptr_to_rec s) NO_RECORD else Ret d);
  if Z.land (flag s) (Z.lor HIGHFIND HIGHUSED) =? HIGHFIND
  then set_link d (gpos2 s) (ptr_to_rec2 s) NO_RECORD else Ret d.

(** Divide the chain that the new link splits; returns the link left free. *)
Definition split (h : OB_HASH) (d : bytes) (empty0 : Z) : cres (bytes * Z) :=
  let halfbuff := Z.shiftr (blength h) 1 in
  let first_index := u32 (records h - halfbuff) in
  if negb (first_index =? records h) then
    '(d, s) ← split_loop (Z.to_nat (records h)) h halfbuff first_index d (Split_ 0 empty0 (-1) (-1) (-1) (-1)) first_index;
    d ← split_end d s;
    Ret (d, empty s)
  else Ret (d, empty0).

(** Put the record in its place, moving the link that is there to the free one. *)
Definition place (h : OB_HASH) (d : bytes) (empty record : Z) : cres bytes :=
  nr ← rec_hashnr h record;
  let pos := hash_mask nr (blength h) (u32 (records h + 1)) in
  if pos =? empty then set_link d pos record NO_RECORD
  else
    d ← copy_link d empty pos;
    gpos ← hash_rec_mask h d pos (blength h) (u32 (records h + 1));
    if pos =? gpos then set_link d pos record empty
    else
      d ← set_link d pos record NO_RECORD;
      movelink (Z.to_nat (records h)) d pos gpos empty.

(** Returns (failed, table). *)
Definition hash_insert (ok : bool) (junk : Z) (h : OB_HASH) (record : Z) : cres (bool * OB_HASH) :=
  match ma_alloc_dynamic ok junk (array h) with
  | (None, _) => Ret (true, h)
  | (Some off, a) =>
      d ← mem a;
      '(d, empty) ← split h d (off / SIZEOF_LINK);
      d ← place h d empty record;
      let n := u32 (records h + 1) in
      Ret (false, with_array h n (if n =? blength h then u32 (blength h + blength h) else blength h)
                    NO_RECORD (with_buffer a d))
  end.

(** ** Deleting *)

(** Returns (gpos, pos), or nothing when the record is not in the chain. *)
Fixpoint delete_search (fuel : nat) (d : bytes) (record gpos pos : Z) : cres (option (Z * Z)) :=
  match fuel with
  | O => OutOfFuel
  | S fuel' =>
      r ← link_data d pos;
      if r =? record then Ret (Some (gpos, pos))
      else
        next ← link_next d pos;
        if next =? NO_RECORD then Ret None else delete_search fuel' d record pos next
  end.

(** Take the record out of its chain; returns the free link. *)
Definition unlink (d : bytes) (gpos pos : Z) : cres (bytes * Z) :=
  next ← link_next d pos;
  if negb (gpos =? -1) then d ← set_next d gpos next; Ret (d, pos)
  else if negb (next =? NO_RECORD) then
    r ← link_data d next;
    d ← set_data d pos r;
    nn ← link_next d next;
    d ← set_next d pos nn;
    Ret (d, next)
  else Ret (d, pos).

(** Move the last link to the free one; [b0] and [b] are the old and the new blength, [n]
    is the new number of records. *)
Definition move_last (fuel : nat) (h : OB_HASH) (b0 b n : Z) (d : bytes) (empty : Z) : cres bytes :=
  let lastpos := n in
  if empty =? lastpos then Ret d
  else
    last ← link_data d lastpos;
    lastpos_hashnr ← rec_hashnr h last;
    let pos := hash_mask lastpos_hashnr b n in
    if pos =? empty then copy_link d empty lastpos
    else
      r ← link_data d pos;
      pos_hashnr ← rec_hashnr h r;
      let pos3 := hash_mask pos_hashnr b n in
      if negb (pos =? pos3) then
        d ← copy_link d empty pos;
        d ← copy_link d pos lastpos;
        movelink fuel d pos pos3 empty
      else
        let pos2 := hash_mask lastpos_hashnr b0 (u32 (n + 1)) in
        let same := pos2 =? hash_mask pos_hashnr b0 (u32 (n + 1)) in
        if same && negb (pos2 =? n) then
          d ← copy_link d empty lastpos;
          movelink fuel d lastpos pos empty
        else
          let idx := if same then pos else NO_RECORD in
          d ← copy_link d empty lastpos;
          next ← link_next d pos;
          d ← movelink fuel d idx empty next;
          set_next d pos empty.

(** Returns (not found, records freed, table). *)
Definition hash_delete (h : OB_HASH) (record : Z) : cres (bool * list Z * OB_HASH) :=
  if records h =? 0 then Ret (true, [], h)
  else
    d ← mem (array h);
    nr ← rec_hashnr h record;
    let fuel := Z.to_nat (records h) in
    found ← delete_search fuel d record (-1) (hash_mask nr (blength h) (records h));
    match found with
    | None => Ret (true, [], h)
    | Some (gpos, pos) =>
        let n := records h - 1 in
        let b := if n <? Z.shiftr (blength h) 1 then Z.shiftr (blength h) 1 else blength h in
        '(d, empty) ← unlink d gpos pos;
        d ← move_last fuel h (blength h) b n d empty;
        Ret (false, if free h then [record] else [],
             with_array h n b NO_RECORD (ma_pop_dynamic (with_buffer (array h) d)).2)
    end.

(** ** Updating *)

(** Returns (previous, pos), or nothing when the record is not in the chain. *)
Definition update_search : nat -> bytes -> Z -> Z -> Z -> cres (option (Z * Z)) := delete_search.

Definition update_unlink (d : bytes) (previous pos : Z) : cres (bytes * Z) :=
  next ← link_next d pos;
  if previous =? -1 then
    if negb (next =? NO_RECORD) then d ← copy_link d pos next; Ret (d, next)
    else Ret (d, pos)
  else d ← set_next d previous next; Ret (d, pos).

(** Returns (not found, table); [record] has its new key in the heap. *)
Definition hash_update (h : OB_HASH) (record : Z) (old_key : bytes) (old_key_length : Z) : cres (bool * OB_HASH) :=
  d ← mem (array h);
  onr ← call_hashnr h old_key (if negb (old_key_length =? 0) then old_key_length else key_length h);
  let idx := hash_mask onr (blength h) (records h) in
  nr ← rec_hashnr h record;
  let new_index := hash_mask nr (blength h) (records h) in
  if idx =? new_index then Ret (false, h)
  else
    let fuel := S (Z.to_nat (records h)) in
    found ← update_search fuel d record (-1) idx;
    match found with
    | None => Ret (true, h)
    | Some (previous, pos) =>
        org ← link_data d pos;
        '(d, empty) ← update_unlink d previous pos;
        new_pos_index ← hash_rec_mask h d new_index (blength h) (records h);
        d ← (if negb (new_index =? new_pos_index) then
               d ← copy_link d empty new_index;
               d ← movelink fuel d new_index new_pos_index empty;
               set_link d new_index org NO_RECORD
             else
               next ← link_next d new_index;
               d ← set_link d empty org next;
               set_next d new_index empty);
        Ret (false, with_array h (records h) (blength h) NO_RECORD (with_buffer (array h) d))
    end.

End Operations.
End Hash.
