(* ===== verification/HashInv.v ===== *)
(** The shape of a hash table: links in memory, chains of links, and the invariant that
    every chain begins at the place its keys hash to. *)

From stdpp Require Import tactics sorting.
From S2P Require Import Prelude IntStore DynArray Hash.

Module HashInv.
Import DynArray Hash.

(** ** One link *)

Definition fits (d : bytes) (i : Z) : Prop := 0 <= i /\ SIZEOF_LINK * i + SIZEOF_LINK <= Z.of_nat (length d).

Definition holds (d : bytes) (i nx r : Z) : Prop := link_next d i = Ret nx /\ link_data d i = Ret r.

(** [d'] is [d] with the link [i] overwritten. *)
Record upd (d : bytes) (i nx r : Z) (d' : bytes) : Prop := {
  upd_len : length d' = length d;
  upd_bytes : all_bytes d';
  upd_at : holds d' i nx r;
  upd_out : forall j n q, j <> i -> holds d j n q -> holds d' j n q }.

Lemma link_next_Ret d i nx : link_next d i = Ret nx ->
  exists bs, load_bytes d (SIZEOF_LINK * i) 4 = Ret bs /\ nx = le_val bs.
Proof. intros (bs & E & [= <-])%bind_Ret_inv. eauto. Qed.

Lemma link_data_Ret d i r : link_data d i = Ret r ->
  exists bs, load_bytes d (SIZEOF_LINK * i + 8) 8 = Ret bs /\ r = le_val bs.
Proof. intros (bs & E & [= <-])%bind_Ret_inv. eauto. Qed.

Lemma link_data_fits d i r : link_data d i = Ret r -> fits d i \/ i = -1.
Proof.
  intros (bs & E & _)%link_data_Ret. apply load_bytes_room in E as [? ?]; [|lia].
  unfold fits, SIZEOF_LINK in *. lia.
Qed.

Lemma holds_fits d i nx r : holds d i nx r -> fits d i.
Proof.
  intros [(bs & E & _)%link_next_Ret [|]%link_data_fits]; [done|].
  apply load_bytes_room in E as [? ?]; [|lia]. unfold SIZEOF_LINK in *. lia.
Qed.

Lemma holds_fun d i nx r nx' r' : holds d i nx r -> holds d i nx' r' -> nx' = nx /\ r' = r.
Proof. intros [E1 E2] [E3 E4]. split; congruence. Qed.

Lemma load_bytes_all d i n bs : all_bytes d -> load_bytes d i n = Ret bs -> all_bytes bs.
Proof.
  intros Hd. revert i bs. induction n as [|n IH]; intros i bs; simpl; [by intros [= <-]|].
  intros (b & Hb & (bs' & Hbs & [= <-])%bind_Ret_inv)%bind_Ret_inv. constructor; [|eauto].
  apply load_Ret in Hb as [_ Hb]. by eapply Forall_lookup_1 in Hb.
Qed.

Lemma holds_uint d i nx r : all_bytes d -> holds d i nx r -> uint 32 nx /\ uint 64 r.
Proof.
  intros Hd [(b1 & E1 & ->)%link_next_Ret (b2 & E2 & ->)%link_data_Ret].
  pose proof (le_val_bound _ (load_bytes_all _ _ _ _ Hd E1)) as B1.
  pose proof (le_val_bound _ (load_bytes_all _ _ _ _ Hd E2)) as B2.
  apply load_bytes_length in E1, E2. rewrite E1 in B1. rewrite E2 in B2. split; [exact B1|exact B2].
Qed.

(** Every link of an allocation holds something. *)
Lemma fits_holds d i : fits d i -> exists nx r, holds d i nx r.
Proof.
  intros [H1 H2]. unfold holds, link_next, link_data, SIZEOF_LINK in *.
  rewrite !load_bytes_in by (split; lia). simpl. eauto.
Qed.

(** A block write inside one link leaves the others as they are. *)
Lemma splice_link d i k bs :
  fits d i -> 0 <= k -> k + Z.of_nat (length bs) <= SIZEOF_LINK -> all_bytes d -> all_bytes bs ->
  exists d', store_bytes d (SIZEOF_LINK * i + k) bs = Ret d' /\ d' = splice (SIZEOF_LINK * i + k) bs d /\
    length d' = length d /\ all_bytes d' /\ (forall j n q, j <> i -> holds d j n q -> holds d' j n q).
Proof.
  intros [Hi Hl] Hk Hb Hd Hbs. assert (room d (SIZEOF_LINK * i + k) (length bs)) as Hr by (unfold SIZEOF_LINK in *; split; lia).
  exists (splice (SIZEOF_LINK * i + k) bs d).
  rewrite store_bytes_splice, map_u8_bytes by done. split; [done|]. split; [done|]. split; [by apply length_splice|].
  split; [unfold splice; repeat apply Forall_app_2; try done; [by apply Forall_take|by apply Forall_drop]|].
  intros j n q Hj [Hn Hq]. unfold holds, link_next, link_data in *. unfold SIZEOF_LINK in *.
  rewrite !load_bytes_splice_out by (done || lia). done.
Qed.

Lemma splice_field d i k bs o n :
  room d (SIZEOF_LINK * i + k) (length bs) -> o + Z.of_nat n <= k \/ k + Z.of_nat (length bs) <= o ->
  load_bytes (splice (SIZEOF_LINK * i + k) bs d) (SIZEOF_LINK * i + o) n = load_bytes d (SIZEOF_LINK * i + o) n.
Proof. intros Hr Ho. apply load_bytes_splice_out; [done|lia]. Qed.

Lemma link_next_0 d i : link_next d i = (bs ← load_bytes d (SIZEOF_LINK * i + 0) 4; Ret (le_val bs)).
Proof. unfold link_next. by rewrite Z.add_0_r. Qed.

Lemma set_next_upd d i v r :
  all_bytes d -> fits d i -> uint 32 v -> link_data d i = Ret r ->
  exists d', set_next d i v = Ret d' /\ upd d i v r d'.
Proof.
  intros Hd Hf Hv Hr.
  destruct (splice_link d i 0 (le_bytes 4 v) Hf) as (d' & E & -> & Hl & Hb & Ho);
    [lia|rewrite length_le_bytes; unfold SIZEOF_LINK; lia|done|apply le_bytes_bytes|].
  unfold set_next. rewrite <- (Z.add_0_r (SIZEOF_LINK * i)), E. eexists. split; [done|].
  assert (room d (SIZEOF_LINK * i + 0) (length (le_bytes 4 v))) as Hroom.
  { destruct Hf. rewrite length_le_bytes. unfold SIZEOF_LINK in *. split; lia. }
  split; [done|done| |done]. split.
  - rewrite link_next_0. rewrite <- (length_le_bytes 4 v) at 2. rewrite load_bytes_splice, bind_ret by done.
    rewrite le_val_le_bytes, wrap_small; [done|exact Hv].
  - unfold link_data. rewrite splice_field; [exact Hr|done|rewrite length_le_bytes; lia].
Qed.

Lemma set_data_upd d i r nx :
  all_bytes d -> fits d i -> uint 64 r -> link_next d i = Ret nx ->
  exists d', set_data d i r = Ret d' /\ upd d i nx r d'.
Proof.
  intros Hd Hf Hv Hr.
  destruct (splice_link d i 8 (le_bytes 8 r) Hf) as (d' & E & -> & Hl & Hb & Ho);
    [lia|rewrite length_le_bytes; unfold SIZEOF_LINK; lia|done|apply le_bytes_bytes|].
  unfold set_data. rewrite E. eexists. split; [done|].
  assert (room d (SIZEOF_LINK * i + 8) (length (le_bytes 8 r))) as Hroom.
  { destruct Hf. rewrite length_le_bytes. unfold SIZEOF_LINK in *. split; lia. }
  split; [done|done| |done]. split.
  - rewrite link_next_0, splice_field; [by rewrite <- link_next_0|done|lia].
  - unfold link_data. rewrite <- (length_le_bytes 8 r) at 2. rewrite load_bytes_splice, bind_ret by done.
    rewrite le_val_le_bytes, wrap_small; [done|exact Hv].
Qed.

Lemma upd_trans d i n1 r1 d1 n2 r2 d2 : upd d i n1 r1 d1 -> upd d1 i n2 r2 d2 -> upd d i n2 r2 d2.
Proof. intros [] []. split; try done; [congruence|]. intros j n q Hj Hh. auto. Qed.

Lemma set_link_upd d i r n :
  all_bytes d -> fits d i -> uint 64 r -> uint 32 n -> exists d', set_link d i r n = Ret d' /\ upd d i n r d'.
Proof.
  intros Hd Hf Hr Hn. unfold set_link. destruct (fits_holds d i Hf) as (nx & r0 & Hx & _).
  destruct (set_data_upd d i r nx Hd Hf Hr Hx) as (d1 & -> & U1). rewrite bind_ret.
  destruct (set_next_upd d1 i n r) as (d2 & -> & U2); [by eapply upd_bytes| |done|by apply U1|].
  { unfold fits. by rewrite (upd_len _ _ _ _ _ U1). }
  eexists. split; [done|]. by eapply upd_trans.
Qed.

Lemma copy_link_upd d to from n r :
  all_bytes d -> fits d to -> holds d from n r -> exists d', copy_link d to from = Ret d' /\ upd d to n r d'.
Proof.
  intros Hd Hf Hh. pose proof (holds_fits _ _ _ _ Hh) as [Hi Hl]. unfold copy_link.
  assert (exists bs, load_bytes d (SIZEOF_LINK * from) (Z.to_nat SIZEOF_LINK) = Ret bs) as [bs Ebs].
  { rewrite load_bytes_in; [eauto|]. unfold SIZEOF_LINK in *. split; lia. }
  rewrite Ebs, bind_ret. pose proof (load_bytes_all _ _ _ _ Hd Ebs) as Hbs.
  pose proof (load_bytes_length _ _ _ _ Ebs) as Lbs. change (Z.to_nat SIZEOF_LINK) with 16%nat in Lbs.
  destruct (splice_link d to 0 bs Hf) as (d' & E & -> & Hlen & Hb & Ho);
    [lia|rewrite Lbs; unfold SIZEOF_LINK; lia|done|done|].
  rewrite Z.add_0_r in *. rewrite E. eexists. split; [done|]. split; [done|done| |done].
  assert (room d (SIZEOF_LINK * to) (length bs)) as Hroom.
  { destruct Hf. rewrite Lbs. unfold SIZEOF_LINK in *. split; lia. }
  pose proof (load_bytes_splice _ _ _ Hroom) as Ls. rewrite Lbs in Ls. change (Z.to_nat SIZEOF_LINK) with 16%nat in Ebs.
  destruct Hh as [(b1 & E1 & ->)%link_next_Ret (b2 & E2 & ->)%link_data_Ret].
  assert (forall o k, (o + k <= 16)%nat ->
    load_bytes (splice (SIZEOF_LINK * to) bs d) (SIZEOF_LINK * to + Z.of_nat o) k =
    load_bytes d (SIZEOF_LINK * from + Z.of_nat o) k) as Hsub.
  { intros o k Hok. unfold fits, SIZEOF_LINK in *. destruct Hf.
    rewrite load_bytes_in in Ls by (split; rewrite ?Hlen; lia). rewrite load_bytes_in in Ebs by (split; lia).
    pose proof Hi. rewrite !load_bytes_in by (split; rewrite ?Hlen; lia). f_equal. injection Ls as Ls. injection Ebs as Ebs.
    assert (forall (l : bytes) m, take k (drop (m + o) l) = take k (drop o (take 16 (drop m l)))) as Hgen.
    { intros l m. rewrite <- drop_drop, skipn_firstn_comm, take_take. f_equal. lia. }
    replace (Z.to_nat (16 * to + Z.of_nat o)) with (Z.to_nat (16 * to) + o)%nat by lia.
    replace (Z.to_nat (16 * from + Z.of_nat o)) with (Z.to_nat (16 * from) + o)%nat by lia.
    by rewrite !Hgen, Ls, Ebs. }
  split.
  - rewrite link_next_0. change 0 with (Z.of_nat 0). rewrite Hsub by lia. change (Z.of_nat 0) with 0.
    by rewrite Z.add_0_r, E1.
  - unfold link_data. change 8 with (Z.of_nat 8) at 1. rewrite Hsub by lia. change (Z.of_nat 8) with 8. by rewrite E2.
Qed.

(** Take the facts [i ∉ l] and [i <> j] out of [NoDup]. *)
Ltac distinct :=
  repeat match goal with
  | H : NoDup (_ :: _) |- _ => apply NoDup_cons in H as [? H]
  | H : _ ∉ _ ++ _ |- _ => apply not_elem_of_app in H as [? ?]
  | H : _ ∉ _ :: _ |- _ => apply not_elem_of_cons in H as [? ?]
  end.

(** Prove [i ∉ l] from such facts. *)
Ltac outside :=
  rewrite ?fmap_app, ?fmap_cons, ?not_elem_of_app, ?not_elem_of_cons, ?not_elem_of_app, ?not_elem_of_nil; cbn [fst];
  repeat split; (done || (apply not_eq_sym; done) || apply not_elem_of_nil).

(** ** Chains *)

(** A chain is the list of its links, each with its index and its record. *)
Abbreviation chain := (list (Z * Z)).

Definition head (c : chain) (e : Z) : Z := match c with [] => e | (i, _) :: _ => i end.

(** The links of [c] are in memory, each leading to the next and the last to [e]. *)
Fixpoint seg (d : bytes) (c : chain) (e : Z) : Prop :=
  match c with [] => True | (i, r) :: t => holds d i (head t e) r /\ seg d t e end.

Lemma head_app a b e : head (a ++ b) e = head a (head b e).
Proof. destruct a as [|[] ?]; done. Qed.

Lemma seg_app d a b e : seg d (a ++ b) e <-> seg d a (head b e) /\ seg d b e.
Proof. induction a as [|[i r] a IH]; simpl; [tauto|]. rewrite IH, head_app. tauto. Qed.

Lemma seg_upd d i n r d' c e : upd d i n r d' -> i ∉ c.*1 -> seg d c e -> seg d' c e.
Proof.
  intros U. induction c as [|[j q] c IH]; simpl; [done|]. intros Hi [Hh Hs].
  apply not_elem_of_cons in Hi as [Hij Hi]. split; [|by apply IH]. by apply (upd_out _ _ _ _ _ U).
Qed.

(** The last link of a chain redirected. *)
Lemma seg_last d a p r e n d' :
  seg d (a ++ [(p, r)]) e -> p ∉ a.*1 -> upd d p n r d' -> seg d' (a ++ [(p, r)]) n.
Proof.
  intros [Ha _]%seg_app Hp U. apply seg_app. split; [by eapply seg_upd|]. simpl. split; [apply U|done].
Qed.

Lemma seg_fits d c e i : seg d c e -> i ∈ c.*1 -> fits d i.
Proof.
  induction c as [|[j q] c IH]; simpl; [by intros _ ?%elem_of_nil|].
  intros [Hh Hs] [->|]%elem_of_cons; [by eapply holds_fits|auto].
Qed.

Lemma movelink_ok fuel d a p r find new :
  seg d (a ++ [(p, r)]) find -> find ∉ (a ++ [(p, r)]).*1 -> all_bytes d -> uint 32 new -> (length a < fuel)%nat ->
  exists d', movelink fuel d find (head (a ++ [(p, r)]) find) new = Ret d' /\ upd d p new r d'.
Proof.
  revert fuel. induction a as [|[i q] a IH]; intros fuel; cbn [app head].
  - intros [Hh _] _ Hd Hn Hf. destruct fuel; [lia|]. simpl in *. rewrite (proj1 Hh), bind_ret, Z.eqb_refl.
    apply set_next_upd; [done|by eapply holds_fits|done|apply Hh].
  - intros [Hh Hs] Hfind Hd Hn Hf. destruct fuel as [|fuel]; [simpl in Hf; lia|]. cbn [movelink].
    rewrite fmap_cons in Hfind. apply not_elem_of_cons in Hfind as [_ Hfind].
    rewrite (proj1 Hh), bind_ret. destruct (Z.eqb_spec (head (a ++ [(p, r)]) find) find) as [E|_].
    + exfalso. apply Hfind. rewrite <- E at 1. destruct a as [|[j ?] ?]; simpl; left.
    + apply IH; try done. simpl in Hf. lia.
Qed.

(** movelink on a chain with distinct links. *)
Lemma movelink_seg fuel d a p r find new :
  seg d (a ++ [(p, r)]) find -> find ∉ (a ++ [(p, r)]).*1 -> NoDup (a ++ [(p, r)]).*1 ->
  all_bytes d -> uint 32 new -> (length a < fuel)%nat ->
  exists d', movelink fuel d find (head (a ++ [(p, r)]) find) new = Ret d' /\ upd d p new r d' /\
    seg d' (a ++ [(p, r)]) new.
Proof.
  intros Hs Hfind Hnd Hd Hn Hf. destruct (movelink_ok fuel d a p r find new) as (d' & E & U); try done.
  exists d'. split; [done|]. split; [done|]. eapply seg_last; [done| |done].
  rewrite fmap_app in Hnd. apply NoDup_app in Hnd as (_ & Hnd & _). intros Hp. apply (Hnd _ Hp). left.
Qed.

(** ** The chains of a table *)

(** The links [0 .. n - 1] are divided between the chains [cs] and the [holes]. *)
Record Rep (d : bytes) (n : Z) (cs : list chain) (holes : list Z) : Prop := {
  rep_slots : (concat cs).*1 ++ holes ≡ₚ seqZ 0 n;
  rep_segs : Forall (fun c => seg d c NO_RECORD) cs;
  rep_bytes : all_bytes d;
  rep_room : SIZEOF_LINK * n <= Z.of_nat (length d);
  rep_width : n < NO_RECORD }.

(** Every chain begins at the place [f] of all its records. *)
Definition homed (f : Z -> Z) (c : chain) : Prop :=
  exists s r t, c = (s, r) :: t /\ Forall (fun p => f p.2 = s) c.
Abbreviation Homed f := (Forall (homed f)).

#[export] Instance Rep_proper : Proper ((=) ==> (=) ==> (≡ₚ) ==> (≡ₚ) ==> (↔)) Rep.
Proof.
  assert (forall d n cs cs' hs hs', cs ≡ₚ cs' -> hs ≡ₚ hs' -> Rep d n cs hs -> Rep d n cs' hs') as H.
  { intros d n cs cs' hs hs' Hcs Hhs [H1 H2 H3 H4 H5]. split; try done; [by rewrite <- Hcs, <- Hhs|by rewrite <- Hcs]. }
  intros d ? <- n ? <- cs cs' Hcs hs hs' Hhs. split; [by apply H|by apply H; symmetry].
Qed.

Lemma Rep_NoDup d n cs hs : Rep d n cs hs -> NoDup ((concat cs).*1 ++ hs).
Proof. intros [H _ _ _ _]. rewrite H. apply NoDup_seqZ. Qed.

Lemma Rep_range d n cs hs i : Rep d n cs hs -> i ∈ (concat cs).*1 ++ hs <-> 0 <= i < n.
Proof. intros [H _ _ _ _]. rewrite H, elem_of_seqZ. lia. Qed.

Lemma Rep_fits d n cs hs i : Rep d n cs hs -> 0 <= i < n -> fits d i.
Proof. intros [_ _ _ H _] Hi. unfold fits, SIZEOF_LINK in *. lia. Qed.

(** Sizes: as many links as records and holes. *)
Lemma Rep_length d n cs hs : Rep d n cs hs -> 0 <= n -> Z.of_nat (length (concat cs) + length hs) = n.
Proof. intros [H _ _ _ _] Hn. apply Permutation_length in H. rewrite length_app, length_fmap, length_seqZ in H. lia. Qed.

(** The chain of a link that is not free. *)
Lemma Rep_chain d n cs hs i : Rep d n cs hs -> 0 <= i < n -> i ∉ hs ->
  exists a r b cs', cs ≡ₚ (a ++ (i, r) :: b) :: cs'.
Proof.
  intros H Hi Hh. apply (Rep_range _ _ _ _ i H) in Hi as Hin. apply elem_of_app in Hin as [Hin|]; [|done].
  apply list_elem_of_fmap in Hin as ([j r] & -> & Hin). apply list_elem_of_In, in_concat in Hin as (c & Hc & Hin).
  apply list_elem_of_In, list_elem_of_split in Hc as (c1 & c2 & ->).
  apply list_elem_of_In, list_elem_of_split in Hin as (a & b & ->). exists a, r, b, (c1 ++ c2). solve_Permutation.
Qed.

(** The chain of a record. *)
Lemma Homed_chain f (cs : list chain) r : Homed f cs -> r ∈ (concat cs).*2 ->
  exists q t cs', cs ≡ₚ ((f r, q) :: t) :: cs' /\ Forall (fun p => f p.2 = f r) ((f r, q) :: t) /\ r ∈ ((f r, q) :: t).*2.
Proof.
  intros Hf Hr. apply list_elem_of_fmap in Hr as ([j r'] & -> & Hin).
  apply list_elem_of_In, in_concat in Hin as (c & Hc & Hin). apply list_elem_of_In in Hin, Hc.
  assert (homed f c) as (s & q & t & -> & Hall) by (eapply Forall_forall in Hf; done).
  apply list_elem_of_split in Hc as (c1 & c2 & ->).
  assert (f r' = s) as <- by (eapply Forall_forall in Hall; [|done]; done).
  exists q, t, (c1 ++ c2). split; [solve_Permutation|]. split; [done|]. change r' with ((j, r').2). by apply list_elem_of_fmap_2.
Qed.

(** ** Places of keys *)

(** [b] is a power of two and [n] records use between half of it and all but one. *)
Definition geom (b n : Z) : Prop := exists k, 0 <= k <= 31 /\ b = 2 ^ k /\ Z.shiftr b 1 <= n < b.

Lemma land_ones_mod h k : 0 <= k <= 32 -> Z.land h (u32 (2 ^ k - 1)) = h mod 2 ^ k.
Proof.
  intros Hk. assert (2 ^ k <= 2 ^ 32) by (apply Z.pow_le_mono_r; lia).
  rewrite wrap_small by (unfold uint; lia). replace (2 ^ k - 1) with (Z.ones k) by (rewrite Z.ones_equiv; lia).
  apply Z.land_ones. lia.
Qed.

Lemma half_pow k : 0 <= k -> Z.shiftr (2 ^ (k + 1)) 1 = 2 ^ k.
Proof. intros. rewrite Z.shiftr_div_pow2, Z.pow_add_r by lia. apply Z.div_mul. lia. Qed.

Lemma geom_pow b n : geom b n -> 0 < n -> exists k, 0 <= k <= 30 /\ b = 2 ^ (k + 1) /\ 2 ^ k <= n < 2 ^ (k + 1) /\ Z.shiftr b 1 = 2 ^ k.
Proof.
  intros (k & Hk & -> & Hn) Hpos. destruct (decide (k = 0)) as [->|]; [simpl in Hn; lia|].
  exists (k - 1). replace (k - 1 + 1) with k by lia. assert (Z.shiftr (2 ^ k) 1 = 2 ^ (k - 1)) as E.
  { rewrite <- (half_pow (k - 1)) by lia. do 2 f_equal. lia. }
  rewrite E in *. lia.
Qed.

Lemma mask_pow h k n : 0 <= k <= 31 ->
  hash_mask h (2 ^ (k + 1)) n = if h mod 2 ^ (k + 1) <? n then h mod 2 ^ (k + 1) else h mod 2 ^ k.
Proof. intros. unfold hash_mask. by rewrite half_pow, !land_ones_mod by lia. Qed.

Lemma land_bit h k : 0 <= k -> (Z.land h (2 ^ k) =? 0) = negb (Z.testbit h k).
Proof.
  intros Hk. destruct (Z.testbit h k) eqn:E; simpl.
  - apply Z.eqb_neq. intros H0. apply (f_equal (fun z => Z.testbit z k)) in H0.
    by rewrite Z.land_spec, E, Z.pow2_bits_true, Z.bits_0 in H0 by lia.
  - apply Z.eqb_eq, Z.bits_inj'. intros i Hi. rewrite Z.land_spec, Z.bits_0, Z.pow2_bits_eqb by lia.
    destruct (Z.eqb_spec k i) as [<-|]; [by rewrite E|apply andb_false_r].
Qed.

Lemma mod_bit h k : 0 <= k -> h mod 2 ^ (k + 1) = (if Z.testbit h k then 2 ^ k else 0) + h mod 2 ^ k.
Proof.
  intros Hk. rewrite Z.pow_add_r, Z.rem_mul_r by lia. change (2 ^ 1) with 2.
  pose proof (Z.testbit_spec' h k Hk) as Hs. rewrite <- Hs.
  destruct (Z.testbit h k); simpl; lia.
Qed.

Lemma mask_range b n h : geom b n -> 0 < n -> 0 <= hash_mask h b n < n.
Proof.
  intros Hg Hpos. destruct (geom_pow b n Hg Hpos) as (k & Hk & -> & Hn & _). rewrite mask_pow by lia.
  pose proof (Z.mod_pos_bound h (2 ^ k) ltac:(lia)). pose proof (Z.mod_pos_bound h (2 ^ (k + 1)) ltac:(lia)).
  destruct (Z.ltb_spec (h mod 2 ^ (k + 1)) n); lia.
Qed.

(** One more link takes the keys of one place whose next bit is set. *)
Lemma mask_split b n h : geom b n -> 0 < n ->
  hash_mask h b (n + 1) =
  if negb (Z.land h (Z.shiftr b 1) =? 0) && (hash_mask h b n =? n - Z.shiftr b 1) then n else hash_mask h b n.
Proof.
  intros Hg Hpos. destruct (geom_pow b n Hg Hpos) as (k & Hk & -> & Hn & Es). rewrite Es, land_bit, !mask_pow, mod_bit, negb_involutive by lia.
  pose proof (Z.mod_pos_bound h (2 ^ k) ltac:(lia)) as Hm. rewrite Z.pow_add_r in Hn by lia.
  destruct (Z.testbit h k); cbn [andb];
    repeat match goal with |- context [?x <? ?y] => destruct (Z.ltb_spec x y) | |- context [?x =? ?y] => destruct (Z.eqb_spec x y) end; lia.
Qed.

(** Doubling blength changes nothing when all links are used. *)
Lemma mask_double h k : 0 <= k <= 30 -> hash_mask h (2 ^ (k + 1)) (2 ^ k) = hash_mask h (2 ^ k) (2 ^ k).
Proof.
  intros Hk. rewrite mask_pow, mod_bit by lia. unfold hash_mask. rewrite land_ones_mod by lia.
  pose proof (Z.mod_pos_bound h (2 ^ k) ltac:(lia)). destruct (Z.ltb_spec (h mod 2 ^ k) (2 ^ k)); [|lia].
  destruct (Z.testbit h k);
    repeat match goal with |- context [?x <? ?y] => destruct (Z.ltb_spec x y) end; lia.
Qed.

(** blength after inserting one record. *)
Lemma geom_grow b n : geom b n -> n < 2 ^ 30 ->
  let b' := if n + 1 =? b then u32 (b + b) else b in
  geom b' (n + 1) /\ forall h, hash_mask h b' (n + 1) = hash_mask h b (n + 1).
Proof.
  intros (k & Hk & -> & Hn) Hs b'. subst b'. destruct (Z.eqb_spec (n + 1) (2 ^ k)) as [E|E].
  - assert (k <= 30). { apply (Z.pow_le_mono_r_iff 2); lia. }
    assert (2 ^ k <= 2 ^ 30) by (apply Z.pow_le_mono_r; lia).
    assert (u32 (2 ^ k + 2 ^ k) = 2 ^ (k + 1)) as ->.
    { rewrite Z.pow_add_r by lia. rewrite wrap_small by (unfold uint; lia). lia. }
    split; [|intros h; rewrite E; apply mask_double; lia].
    exists (k + 1). rewrite half_pow, Z.pow_add_r by lia. lia.
  - split; [|done]. exists k. lia.
Qed.

(** blength after deleting one. *)
Lemma geom_shrink b n : geom b (n + 1) -> 0 <= n ->
  let b' := if n <? Z.shiftr b 1 then Z.shiftr b 1 else b in
  geom b' n /\ forall h, hash_mask h b (n + 1) = hash_mask h b' (n + 1).
Proof.
  intros Hg Hpos b'. destruct (geom_pow b (n + 1) Hg ltac:(lia)) as (k & Hk & -> & Hn & Es). subst b'. rewrite Es.
  destruct (Z.ltb_spec n (2 ^ k)).
  - assert (n + 1 = 2 ^ k) as E by lia. split; [|intros h; rewrite E; apply mask_double; lia].
    exists k. split; [lia|]. split; [done|]. split; [|lia].
    destruct (decide (k = 0)) as [->|]; [change (Z.shiftr (2 ^ 0) 1) with 0; lia|].
    replace k with (k - 1 + 1) at 1 by lia. rewrite half_pow by lia.
    assert (2 ^ k = 2 * 2 ^ (k - 1)) by (rewrite <- Z.pow_succ_r by lia; f_equal; lia). lia.
  - split; [|done]. exists (k + 1). rewrite half_pow by lia. lia.
Qed.

(** ** The invariant of a table *)

Section Invariant.
Context (heap : Z -> bytes).

Fixpoint hash_fold (fold : Z -> Z) (k : bytes) (nr nr2 : Z) : Z :=
  match k with [] => nr | c :: k' => hash_fold fold k' (hashnr_step nr nr2 (fold c)) (u32 (nr2 + 3)) end.

(** The hash value of a key. *)
Definition hashval (h : OB_HASH) (k : bytes) : Z := hash_fold (if calc_caseup h then toupper else fun c => c) k 1 4.

Lemma hashnr_loop_fold fold key i n nr nr2 : room key i n ->
  hashnr_loop fold key i n nr nr2 = Ret (hash_fold fold (take n (drop (Z.to_nat i) key)) nr nr2).
Proof.
  revert i nr nr2. induction n as [|n IH]; intros i nr nr2 [Hi Hn]; [done|].
  destruct (load_in key i) as (c & Hc & Hl); [lia|]. cbn [hashnr_loop]. rewrite Hc, bind_ret, IH by (split; lia).
  rewrite (drop_S key c (Z.to_nat i)) by done. simpl. do 4 f_equal. lia.
Qed.

Lemma call_hashnr_val h key len : 0 <= len <= Z.of_nat (length key) ->
  call_hashnr h key len = Ret (hashval h (take (Z.to_nat len) key)).
Proof.
  intros Hl. unfold call_hashnr, hashval, calc_hashnr, calc_hashnr_caseup.
  destruct (calc_caseup h); by rewrite hashnr_loop_fold by (split; lia).
Qed.

Definition key_of (h : OB_HASH) (r : Z) : bytes :=
  let '(k, l) := hash_key heap h r in take (Z.to_nat l) k.

(** The key of a record can be read. *)
Definition keyed (h : OB_HASH) (r : Z) : Prop :=
  uint 64 r /\ let '(k, l) := hash_key heap h r in 0 <= l <= Z.of_nat (length k).

Lemma rec_hashnr_val h r : keyed h r -> rec_hashnr heap h r = Ret (hashval h (key_of h r)).
Proof.
  intros [_ Hk]. unfold rec_hashnr, key_of in *. destruct (hash_key heap h r) as [k l]. by apply call_hashnr_val.
Qed.

(** Where the chain of a record begins. *)
Definition home (h : OB_HASH) (b n r : Z) : Z := hash_mask (hashval h (key_of h r)) b n.

Lemma hash_rec_mask_home h d pos nx r b n : holds d pos nx r -> keyed h r ->
  hash_rec_mask heap h d pos b n = Ret (home h b n r).
Proof.
  intros [_ Hr] Hk. unfold hash_rec_mask. rewrite Hr, bind_ret. pose proof (rec_hashnr_val h r Hk) as E.
  unfold rec_hashnr in E. destruct (hash_key heap h r) as [k l]. by rewrite E, bind_ret.
Qed.

(** The table [h] holds the records [recs]. *)
Record Inv (h : OB_HASH) (recs : list Z) : Prop := {
  inv_chains : exists d cs, buffer (array h) = Some d /\ Rep d (records h) cs [] /\
    Homed (home h (blength h) (records h)) cs /\ (concat cs).*2 ≡ₚ recs /\
    Z.of_nat (length d) = max_element (array h) * SIZEOF_LINK;
  inv_geom : geom (blength h) (records h);
  inv_elements : elements (array h) = records h;
  inv_size : size_of_element (array h) = SIZEOF_LINK;
  inv_bytes : max_element (array h) * SIZEOF_LINK < 2 ^ 32;
  inv_inc : 0 < alloc_increment (array h) <= 8192;
  inv_keys : Forall (keyed h) recs }.

Lemma Inv_perm h recs recs' : recs ≡ₚ recs' -> Inv h recs -> Inv h recs'.
Proof.
  intros Hp [(d & cs & H1 & H2 & H3 & H4 & H5)]. split; try done; [|by rewrite <- Hp].
  exists d, cs. by rewrite <- Hp.
Qed.

Lemma Inv_current h c recs : Inv h recs -> Inv (with_current h c) recs.
Proof. intros []. by split. Qed.

Lemma records_nonneg h recs : Inv h recs -> 0 <= records h.
Proof.
  intros H. destruct (inv_geom _ _ H) as (k & Hk & E & Hn & _).
  pose proof (Z.shiftr_nonneg (blength h) 1) as [_ Hp]. lia.
Qed.

Lemma Inv_length h recs : Inv h recs -> records h = Z.of_nat (length recs).
Proof.
  intros H. pose proof (records_nonneg _ _ H). destruct (inv_chains _ _ H) as (d & cs & _ & HR & _ & Hp & _).
  rewrite <- (Rep_length _ _ _ _ HR) by done. apply Permutation_length in Hp. rewrite length_fmap in Hp. simpl. lia.
Qed.

Lemma hashcmp_ok h d pos nx r key : holds d pos nx r -> keyed h r -> key <> [] ->
  hashcmp heap h d pos key (Z.of_nat (length key)) = Ret (negb (bool_decide (key_of h r = key))).
Proof.
  intros [_ Hr] [_ Hk] Hne. unfold hashcmp, key_of. rewrite Hr, bind_ret. destruct (hash_key heap h r) as [k l].
  assert (Z.of_nat (length key) <> 0) by (destruct key; simpl; done || lia).
  destruct (Z.eqb_spec (Z.of_nat (length key)) 0); [done|]. cbn [negb andb].
  destruct (Z.eqb_spec (Z.of_nat (length key)) l) as [<-|Hl]; cbn [negb].
  - rewrite Nat2Z.id, !load_bytes_in by (split; lia). cbn [mbind cres_bind]. rewrite !drop_0.
    do 2 f_equal. apply bool_decide_ext. rewrite (take_ge key) by lia. done.
  - rewrite bool_decide_eq_false_2; [done|]. intros <-. rewrite length_take in Hl. lia.
Qed.

End Invariant.

End HashInv.
