(* ===== verification/HashSearch.v ===== *)
(** Searching a hash table: hash_search and hash_next find the records with a key. *)

From stdpp Require Import tactics sets.
From S2P Require Import Prelude IntStore DynArray Hash HashInv.

Module HashSearch.
Import DynArray Hash HashInv.

(** ** Chains and places *)

Lemma Rep_perm_chain d n cs cs' hs : cs ≡ₚ cs' -> Rep d n cs hs -> Rep d n cs' hs.
Proof. by intros ->. Qed.

(** A record at its own place begins its chain. *)
Lemma home_first f d n a i r b cs hs :
  Rep d n ((a ++ (i, r) :: b) :: cs) hs -> homed f (a ++ (i, r) :: b) -> f r = i -> a = [].
Proof.
  intros HR (s & q & t & E & Hall) Hf. destruct a as [|[j q'] a]; [done|exfalso].
  injection E as -> -> <-. apply Rep_NoDup in HR. simpl in HR. rewrite Forall_forall in Hall.
  assert (f r = s) as Hs by (apply (Hall (i, r)); set_solver). rewrite <- Hf, Hs in HR. simpl in HR.
  apply NoDup_cons in HR as [HR _]. apply HR. rewrite !fmap_app. simpl. set_solver.
Qed.

(** All records of a place are in the chain that begins there. *)
Lemma home_all f d n s q t cs hs r :
  Rep d n (((s, q) :: t) :: cs) hs -> Homed f cs -> r ∈ (concat cs).*2 -> f r <> s.
Proof.
  intros HR Hf Hr <-. destruct (Homed_chain f cs r Hf Hr) as (q' & t' & cs' & Hp & _ & _).
  rewrite Hp in HR. apply Rep_NoDup in HR. simpl in HR. apply NoDup_cons in HR as [HR _]. apply HR.
  rewrite !fmap_app. simpl. set_solver.
Qed.

Lemma NO_RECORD_out d n c cs hs : Rep d n (c :: cs) hs -> NO_RECORD ∉ c.*1.
Proof.
  intros HR Hin. pose proof (rep_width _ _ _ _ HR). assert (0 <= NO_RECORD < n); [|lia].
  apply (Rep_range _ _ _ _ _ HR). simpl. rewrite fmap_app. set_solver.
Qed.

Section Search.
Context (heap : Z -> bytes).
Abbreviation key_of := (key_of heap).
Abbreviation keyed := (keyed heap).
Abbreviation home := (home heap).
Abbreviation Inv := (Inv heap).

(** The first link with the key. *)
Fixpoint first (h : OB_HASH) (key : bytes) (c : chain) : option (Z * Z) :=
  match c with [] => None | p :: t => if bool_decide (key_of h p.2 = key) then Some p else first h key t end.

Abbreviation matching h key := (filter (fun r => key_of h r = key)).

Lemma matching_nil h key l : (forall r, r ∈ l -> key_of h r <> key) -> matching h key l = [].
Proof.
  induction l as [|r l IH]; intros Hl; [done|]. rewrite filter_cons_False by (apply Hl; left).
  apply IH. intros q Hq. apply Hl. by right.
Qed.

Lemma first_matching h key c :
  match first h key c with
  | Some (i, r) => exists a b, c = a ++ (i, r) :: b /\ matching h key c.*2 = r :: matching h key b.*2
  | None => matching h key c.*2 = []
  end.
Proof.
  induction c as [|[i r] c IH]; [done|]. simpl. case_bool_decide as E.
  - exists [], c. split; [done|]. by rewrite filter_cons_True.
  - destruct (first h key c) as [[j q]|].
    + destruct IH as (a & b & -> & IH). exists ((i, r) :: a), b. split; [done|]. by rewrite filter_cons_False.
    + by rewrite filter_cons_False.
Qed.

Lemma next_loop_first fuel h d key c :
  seg d c NO_RECORD -> NO_RECORD ∉ c.*1 -> Forall (keyed h) c.*2 -> key <> [] -> (length c <= fuel)%nat ->
  next_loop heap fuel h d key (Z.of_nat (length key)) (head c NO_RECORD) = Ret (first h key c).
Proof.
  revert fuel. induction c as [|[i r] c IH]; intros fuel Hs Hno Hk Hkey Hf; cbn [HashInv.head].
  { by destruct fuel. }
  destruct fuel as [|fuel]; [simpl in Hf; lia|]. cbn [next_loop first snd]. destruct Hs as [Hh Hs].
  apply not_elem_of_cons in Hno as [Hi Hno]. apply Forall_cons in Hk as [Hr Hk].
  destruct (Z.eqb_spec i NO_RECORD); [done|].
  erewrite hashcmp_ok by done. rewrite bind_ret. destruct (bool_decide _); cbn [negb].
  - by rewrite (proj2 Hh).
  - rewrite (proj1 Hh), bind_ret. apply IH; try done. simpl in Hf. lia.
Qed.

(** Behind the first link the search goes on in the same way. *)
Lemma search_loop_first fuel h d key c :
  seg d c NO_RECORD -> NO_RECORD ∉ c.*1 -> Forall (keyed h) c.*2 -> key <> [] -> (length c <= fuel)%nat -> c <> [] ->
  search_loop heap fuel h d key (Z.of_nat (length key)) false (head c NO_RECORD) = Ret (first h key c).
Proof.
  revert fuel. induction c as [|[i r] c IH]; intros fuel Hs Hno Hk Hkey Hf Hc; cbn [HashInv.head]; [done|].
  destruct fuel as [|fuel]; [simpl in Hf; lia|]. cbn [search_loop first snd]. destruct Hs as [Hh Hs].
  apply not_elem_of_cons in Hno as [Hi Hno]. apply Forall_cons in Hk as [Hr Hk].
  erewrite hashcmp_ok by done. rewrite bind_ret. destruct (bool_decide _); cbn [negb].
  { by rewrite (proj2 Hh). }
  rewrite bind_ret, (proj1 Hh), bind_ret. destruct c as [|[j q] c]; [done|]. cbn [HashInv.head].
  apply not_elem_of_cons in Hno as [Hj Hno]. destruct (Z.eqb_spec j NO_RECORD); [done|].
  apply (IH fuel); try done; [by apply not_elem_of_cons|simpl in *; lia].
Qed.

Lemma matching_none h b n s q t cs hs key d :
  Rep d n (((s, q) :: t) :: cs) hs -> Homed (home h b n) cs -> hash_mask (hashval h key) b n = s ->
  matching h key (concat cs).*2 = [].
Proof.
  intros HR Hf Hs. apply matching_nil. intros r Hr Hkey.
  apply (home_all _ _ _ _ _ _ _ _ r HR Hf Hr). unfold HashInv.home. by rewrite Hkey.
Qed.

(** What a search leaves: the link found and, behind it, the records still to be found. *)
Definition found_in (h : OB_HASH) (key : bytes) (recs : list Z) (cs : list chain) (found : option (Z * Z)) : Prop :=
  match found with
  | Some (i, r) => exists a b cs', cs ≡ₚ (a ++ (i, r) :: b) :: cs' /\ matching h key recs ≡ₚ r :: matching h key b.*2
  | None => matching h key recs = []
  end.

Lemma found_first h key recs c cs cs' :
  cs ≡ₚ c :: cs' -> matching h key recs ≡ₚ matching h key c.*2 -> found_in h key recs cs (first h key c).
Proof.
  intros Hp Hm. pose proof (first_matching h key c) as H. destruct (first h key c) as [[i r]|]; simpl.
  - destruct H as (a & b & -> & H). exists a, b, cs'. by rewrite Hm, H.
  - rewrite H in Hm. by apply Permutation_nil_r in Hm.
Qed.

Lemma search_ok h recs d cs key :
  Inv h recs -> Rep d (records h) cs [] -> Homed (home h (blength h) (records h)) cs ->
  (concat cs).*2 ≡ₚ recs -> recs <> [] -> key <> [] ->
  exists found, search_loop heap (Z.to_nat (records h)) h d key (Z.of_nat (length key)) true
      (hash_mask (hashval h key) (blength h) (records h)) = Ret found /\ found_in h key recs cs found.
Proof.
  intros HI HR Hf Hrecs Hne Hkey. pose proof (Inv_length _ _ _ HI) as Hn.
  assert (0 < records h) as Hpos by (rewrite Hn; destruct recs; simpl; done || lia).
  set (s := hash_mask (hashval h key) (blength h) (records h)).
  pose proof (mask_range _ _ (hashval h key) (inv_geom _ _ _ HI) Hpos) as Hs. fold s in Hs.
  destruct (Rep_chain _ _ _ _ s HR Hs) as (a & r & b & cs' & Hp); [set_solver|].
  rewrite Hp in HR, Hf. apply Forall_cons in Hf as [Hc Hf].
  assert (Forall (keyed h) (concat cs).*2) as Hall by (rewrite Hrecs; apply HI).
  rewrite Hp in Hall. simpl in Hall. rewrite fmap_app in Hall. apply Forall_app in Hall as [Hall _].
  pose proof (rep_segs _ _ _ _ HR) as [Hseg _]%Forall_cons. pose proof (NO_RECORD_out _ _ _ _ _ HR) as Hno.
  pose proof (Rep_length _ _ _ _ HR ltac:(lia)) as Hlen. simpl in Hlen. rewrite length_app in Hlen.
  destruct (Z.to_nat (records h)) as [|fuel] eqn:Ef; [lia|].
  apply seg_app in Hseg as [_ Hseg]. pose proof Hseg as [Hh _].
  assert (keyed h r) as Hkr by (rewrite fmap_app in Hall; by apply Forall_app in Hall as [_ [Hkr _]%Forall_cons]).
  destruct (decide (home h (blength h) (records h) r = s)) as [Hr|Hr].
  - assert (a = []) as -> by (by eapply home_first). exists (first h key ((s, r) :: b)). split.
    2: { apply found_first with cs'; [done|]. rewrite <- Hrecs, Hp.
      change (concat (([] ++ (s, r) :: b) :: cs')) with (((s, r) :: b) ++ concat cs'). rewrite fmap_app, filter_app.
      rewrite (matching_none h (blength h) (records h) s r b cs' [] key d) by done. by rewrite app_nil_r. }
    + cbn [search_loop first snd]. erewrite hashcmp_ok by done. rewrite bind_ret. destruct (bool_decide _); cbn [negb].
      { by rewrite (proj2 Hh). }
      erewrite hash_rec_mask_home by done. rewrite !bind_ret, Hr, Z.eqb_refl. cbn [negb].
      rewrite (proj1 Hh), bind_ret. destruct b as [|[j q] b]; [done|]. cbn [HashInv.head]. simpl in Hno, Hlen.
      destruct (Z.eqb_spec j NO_RECORD); [subst; set_solver|].
      apply (search_loop_first fuel h d key ((j, q) :: b)); try done; [apply Hseg|set_solver|by inv Hall|simpl; lia].
  - assert (matching h key recs = []) as Hnil.
    { apply matching_nil. intros r' Hr' Hk'. apply Hr.
      rewrite <- Hrecs, Hp in Hr'. destruct (Homed_chain (home h (blength h) (records h)) (( a ++ (s, r) :: b) :: cs') r')
        as (q & t & cs2 & Hp2 & Hall2 & _); [by constructor|done|].
      assert (home h (blength h) (records h) r' = s) as E by (unfold HashInv.home; by rewrite Hk'). rewrite E in *.
      rewrite Forall_forall in Hall2. apply (Hall2 (s, r)).
      assert ((s, r) ∈ concat (((s, q) :: t) :: cs2)) as Hin.
      { rewrite <- Hp2. simpl. set_solver. }
      simpl in Hin. apply elem_of_cons in Hin as [Hin|Hin]; [by rewrite Hin; left|].
      rewrite Hp2 in HR. apply Rep_NoDup in HR. simpl in HR. apply NoDup_cons in HR as [HR _].
      destruct HR. apply elem_of_app. left. by apply (list_elem_of_fmap_2 fst _ (s, r)). }
    exists None. split; [|done]. cbn [search_loop]. erewrite hashcmp_ok by done. rewrite bind_ret.
    rewrite bool_decide_eq_false_2 by (intros Hk; apply Hr; unfold HashInv.home; by rewrite Hk). cbn [negb].
    erewrite hash_rec_mask_home by done. rewrite !bind_ret. by destruct (Z.eqb_spec (home h (blength h) (records h) r) s).
Qed.
(** ** Finding all records of a key *)

(** The table remembers a link behind which [rest] is still to be found. *)
Definition cursor (h : OB_HASH) (recs : list Z) (key : bytes) (rest : list Z) : Prop :=
  (current_record h = NO_RECORD /\ rest = []) \/
  exists d cs a r b cs', buffer (array h) = Some d /\ Rep d (records h) cs [] /\ (concat cs).*2 ≡ₚ recs /\
    cs ≡ₚ (a ++ (current_record h, r) :: b) :: cs' /\ rest = matching h key b.*2.

Definition cons_opt (o : option Z) (l : list Z) : list Z := match o with Some r => r :: l | None => [] end.

Lemma hash_search_cursor h recs key :
  Inv h recs -> key <> [] ->
  exists o c rest, hash_search heap h key (Z.of_nat (length key)) = Ret (o, with_current h c) /\
    cursor (with_current h c) recs key rest /\ matching h key recs ≡ₚ cons_opt o rest.
Proof.
  intros HI Hkey. unfold hash_search. pose proof (Inv_length _ _ _ HI) as Hn.
  destruct (Z.eqb_spec (records h) 0) as [E|E]; cbn [negb].
  { destruct recs; [|simpl in Hn; lia]. exists None, NO_RECORD, []. split; [done|]. split; [by left|done]. }
  destruct (inv_chains _ _ _ HI) as (d & cs & Hd & HR & Hf & Hp & _).
  destruct (Z.eqb_spec (Z.of_nat (length key)) 0); [destruct key; simpl in *; done || lia|].
  rewrite call_hashnr_val, bind_ret by lia. rewrite Nat2Z.id, take_ge by lia.
  unfold mem. rewrite Hd. cbn [of_option]. rewrite bind_ret.
  destruct (search_ok h recs d cs key) as (found & -> & Hfound); try done; [by intros ->|].
  rewrite bind_ret. destruct found as [[i r]|]; simpl in Hfound.
  - destruct Hfound as (a & b & cs' & Hc & Hm). exists (Some r), i, (matching h key b.*2). split; [done|].
    split; [|done]. right. by exists d, cs, a, r, b, cs'.
  - exists None, NO_RECORD, []. split; [done|]. split; [by left|by rewrite Hfound].
Qed.

Lemma hash_next_cursor h recs key rest :
  Inv h recs -> key <> [] -> cursor h recs key rest ->
  exists o c rest', hash_next heap h key (Z.of_nat (length key)) = Ret (o, with_current h c) /\
    cursor (with_current h c) recs key rest' /\ rest = cons_opt o rest'.
Proof.
  intros HI Hkey [[E ->]|(d & cs & a & r & b & cs' & Hd & HR & Hp & Hc & ->)].
  { exists None, NO_RECORD, []. unfold hash_next. rewrite E. split; [|split; [by left|done]]. cbn. do 2 f_equal.
    rewrite <- E. by destruct h. }
  pose proof HR as HR0. rewrite Hc in HR. unfold hash_next. pose proof (NO_RECORD_out _ _ _ _ _ HR) as Hno.
  rewrite fmap_app in Hno. simpl in Hno.
  destruct (Z.eqb_spec (current_record h) NO_RECORD) as [E|_]; [rewrite E in Hno; set_solver|]. cbn [negb].
  unfold mem. rewrite Hd. cbn [of_option]. rewrite bind_ret.
  pose proof (rep_segs _ _ _ _ HR) as [Hseg _]%Forall_cons. apply seg_app in Hseg as [_ [Hh Hseg]].
  rewrite (proj1 Hh), bind_ret. pose proof (Rep_length _ _ _ _ HR (records_nonneg _ _ _ HI)) as Hlen.
  simpl in Hlen. rewrite !length_app in Hlen. simpl in Hlen.
  assert (Forall (keyed h) b.*2) as Hb.
  { assert (Forall (keyed h) (concat cs).*2) as Hall by (rewrite Hp; apply HI). rewrite Hc in Hall.
    simpl in Hall. rewrite !fmap_app in Hall. simpl in Hall. rewrite !Forall_app, Forall_cons in Hall. tauto. }
  rewrite next_loop_first by (done || set_solver || lia). rewrite bind_ret.
  pose proof (first_matching h key b) as Hm. destruct (first h key b) as [[i q]|].
  - destruct Hm as (b1 & b2 & -> & Hm). exists (Some q), i, (matching h key b2.*2). split; [done|].
    split; [|done]. right. exists d, cs, (a ++ (current_record h, r) :: b1), q, b2, cs'.
    split; [done|]. split; [done|]. split; [done|]. split; [|done]. by rewrite <- app_assoc.
  - exists None, NO_RECORD, []. split; [done|]. split; [by left|done].
Qed.

(** The client's loop: hash_search, then hash_next until nothing more is found. *)
Fixpoint next_all (fuel : nat) (h : OB_HASH) (key : bytes) : cres (list Z * OB_HASH) :=
  match fuel with
  | O => OutOfFuel
  | S fuel' =>
      '(o, h) ← hash_next heap h key (Z.of_nat (length key));
      match o with None => Ret ([], h) | Some r => '(l, h) ← next_all fuel' h key; Ret (r :: l, h) end
  end.

Definition find_all (fuel : nat) (h : OB_HASH) (key : bytes) : cres (list Z * OB_HASH) :=
  '(o, h) ← hash_search heap h key (Z.of_nat (length key));
  match o with None => Ret ([], h) | Some r => '(l, h) ← next_all fuel h key; Ret (r :: l, h) end.

Lemma next_all_rest fuel h recs key rest :
  Inv h recs -> key <> [] -> cursor h recs key rest -> (length rest < fuel)%nat ->
  exists c, next_all fuel h key = Ret (rest, with_current h c).
Proof.
  revert h rest. induction fuel as [|fuel IH]; intros h rest HI Hkey Hc Hf; [lia|]. cbn [next_all].
  destruct (hash_next_cursor h recs key rest HI Hkey Hc) as (o & c & rest' & -> & Hc' & ->). rewrite bind_ret.
  destruct o as [r|]; simpl in *; [|by exists c].
  destruct (IH (with_current h c) rest') as (c' & E); [by apply Inv_current|done|done|lia|].
  rewrite E, bind_ret. by exists c'.
Qed.

End Search.
End HashSearch.
