(* ===== verification/HashInsert.v ===== *)
(** Inserting into a hash table: the chain that the new link splits is divided in place,
    and the record is put where its key belongs. *)

From stdpp Require Import tactics sets.
From S2P Require Import Prelude IntStore DynArray Hash HashInv HashSearch.

Module HashInsert.
Import DynArray Hash HashInv HashSearch.

(** ** The flags of the loop *)

Definition flag_of (lf lu hf hu : bool) : Z :=
  Z.lor (Z.lor (if lf then LOWFIND else 0) (if lu then LOWUSED else 0))
        (Z.lor (if hf then HIGHFIND else 0) (if hu then HIGHUSED else 0)).

Section Flags.
Context (lf lu hf hu : bool).
Abbreviation fl := (flag_of lf lu hf hu).

Lemma flag_low : (Z.land fl LOWFIND =? 0) = negb lf.
Proof. by destruct lf, lu, hf, hu. Qed.
Lemma flag_lowused : (Z.land fl LOWUSED =? 0) = negb lu.
Proof. by destruct lf, lu, hf, hu. Qed.
Lemma flag_high : (Z.land fl HIGHFIND =? 0) = negb hf.
Proof. by destruct lf, lu, hf, hu. Qed.
Lemma flag_highused : (Z.land fl HIGHUSED =? 0) = negb hu.
Proof. by destruct lf, lu, hf, hu. Qed.
Lemma flag_set_low : Z.lor (Z.land fl HIGHFIND) (Z.lor LOWFIND LOWUSED) = flag_of true true hf false.
Proof. by destruct lf, lu, hf, hu. Qed.
Lemma flag_set_high : Z.lor (Z.land fl LOWFIND) (Z.lor HIGHFIND HIGHUSED) = flag_of lf false true true.
Proof. by destruct lf, lu, hf, hu. Qed.
Lemma flag_new_high : Z.lor (Z.land fl LOWFIND) HIGHFIND = flag_of lf false true false.
Proof. by destruct lf, lu, hf, hu. Qed.
Lemma flag_low_open : (Z.land fl (Z.lor LOWFIND LOWUSED) =? LOWFIND) = lf && negb lu.
Proof. by destruct lf, lu, hf, hu. Qed.
Lemma flag_high_open : (Z.land fl (Z.lor HIGHFIND HIGHUSED) =? HIGHFIND) = hf && negb hu.
Proof. by destruct lf, lu, hf, hu. Qed.
Lemma flag_zero : (fl =? 0) = negb (lf || lu || hf || hu).
Proof. by destruct lf, lu, hf, hu. Qed.
End Flags.

(** ** Dividing a chain *)

(** One of the two new chains: all but its last link [g] are written; the last one is
    still to be written with record [p] unless it is [used], that is, already leads to
    [nx], the next link of the old chain. *)
Definition side (d : bytes) (found used : bool) (g p : Z) (l : chain) (nx : Z) : Prop :=
  if found then exists l0, l = l0 ++ [(g, p)] /\ seg d l0 g /\ (used = true -> holds d g nx p) /\ uint 64 p
  else l = [] /\ used = false.

Lemma side_upd d i n r d' found used g p l nx :
  upd d i n r d' -> i ∉ l.*1 -> side d found used g p l nx -> side d' found used g p l nx.
Proof.
  intros U Hi. unfold side. destruct found; [|done]. intros (l0 & -> & Hs & Hu & Hp). exists l0. split; [done|].
  rewrite fmap_app in Hi. simpl in Hi. split; [eapply seg_upd; [done| |done]; set_solver|]. split; [|done].
  intros E. apply (upd_out _ _ _ _ _ U); [set_solver|auto].
Qed.

(** A link that is not used may lead anywhere. *)
Lemma side_unused d found used g p l nx nx' : side d found used g p l nx -> side d found false g p l nx'.
Proof.
  unfold side. destruct found; [|by intros [-> _]]. intros (l0 & -> & Hs & _ & Hp). exists l0. done.
Qed.

(** The state of the loop: [L] and [H] are the chains built so far, [todo] the rest of the
    old chain, [cs] the other chains. *)
Record Splitting (fi n : Z) (cs : list chain) (d : bytes) (s : Split) (lf lu hf hu : bool) (L H todo : chain) : Prop := {
  sp_flag : flag s = flag_of lf lu hf hu;
  sp_low : side d lf lu (gpos s) (ptr_to_rec s) L (head todo NO_RECORD);
  sp_high : side d hf hu (gpos2 s) (ptr_to_rec2 s) H (head todo NO_RECORD);
  sp_todo : seg d todo NO_RECORD;
  sp_out : Forall (fun c => seg d c NO_RECORD) cs;
  sp_slots : L.*1 ++ H.*1 ++ empty s :: todo.*1 ++ (concat cs).*1 ≡ₚ seqZ 0 (n + 1);
  sp_bytes : all_bytes d;
  sp_room : SIZEOF_LINK * (n + 1) <= Z.of_nat (length d);
  sp_width : n + 1 < NO_RECORD;
  sp_head_low : lf = true -> head L 0 = fi;
  sp_head_high : hf = true -> head H 0 = n;
  sp_empty : if hf then lf = true \/ empty s = fi else empty s = n;
  sp_first : lf || hf = true \/ head todo 0 = fi;
  sp_used : lu && hu = false }.

Lemma Splitting_NoDup fi n cs d s lf lu hf hu L H todo :
  Splitting fi n cs d s lf lu hf hu L H todo -> NoDup (L.*1 ++ H.*1 ++ empty s :: todo.*1 ++ (concat cs).*1).
Proof. intros []. rewrite sp_slots0. apply NoDup_seqZ. Qed.

Lemma Splitting_range fi n cs d s lf lu hf hu L H todo i :
  Splitting fi n cs d s lf lu hf hu L H todo ->
  i ∈ L.*1 ++ H.*1 ++ empty s :: todo.*1 ++ (concat cs).*1 -> 0 <= i <= n.
Proof. intros []. rewrite sp_slots0, elem_of_seqZ. lia. Qed.

Lemma segs_upd d i n r d' cs :
  upd d i n r d' -> i ∉ (concat cs).*1 -> Forall (fun c => seg d c NO_RECORD) cs -> Forall (fun c => seg d' c NO_RECORD) cs.
Proof.
  intros U Hi. rewrite !Forall_forall. intros Hs c Hc. eapply seg_upd; [done| |by apply Hs].
  intros Hin. apply Hi. apply list_elem_of_fmap in Hin as (p & -> & Hp). apply list_elem_of_fmap_2.
  apply list_elem_of_In, in_concat. exists c. rewrite <- !list_elem_of_In. done.
Qed.

(** Writing the open link at the end of the low chain. *)
Lemma close_low fi n cs d s lu hf hu L H todo nx :
  Splitting fi n cs d s true lu hf hu L H todo -> uint 32 nx ->
  exists d', set_link d (gpos s) (ptr_to_rec s) nx = Ret d' /\ upd d (gpos s) nx (ptr_to_rec s) d' /\ seg d' L nx /\
    gpos s ∉ H.*1 ++ empty s :: todo.*1 ++ (concat cs).*1.
Proof.
  intros HS Hnx. pose proof (Splitting_NoDup _ _ _ _ _ _ _ _ _ _ _ _ HS) as Hnd.
  pose proof (fun i => Splitting_range _ _ _ _ _ _ _ _ _ _ _ _ i HS) as Hrange.
  destruct HS as [_ (l0 & -> & Hs & _ & Hp) _ _ _ _ Hb Hroom _ _ _ _ _ _].
  rewrite fmap_app in Hnd, Hrange. simpl in Hnd, Hrange. rewrite <- app_assoc in Hnd.
  apply NoDup_app in Hnd as (_ & Hout & [Hg _]%NoDup_cons).
  assert (fits d (gpos s)) as Hfit.
  { specialize (Hrange (gpos s) ltac:(set_solver)). unfold fits, SIZEOF_LINK in *. lia. }
  destruct (set_link_upd d (gpos s) (ptr_to_rec s) nx Hb Hfit Hp Hnx) as (d' & E & U).
  exists d'. split; [done|]. split; [done|]. split; [|done].
  apply seg_app. split; [|split; [apply U|done]]. eapply seg_upd; [done| |done]. intros Hin. apply (Hout _ Hin). left.
Qed.

Lemma close_high fi n cs d s lf lu hu L H todo nx :
  Splitting fi n cs d s lf lu true hu L H todo -> uint 32 nx ->
  exists d', set_link d (gpos2 s) (ptr_to_rec2 s) nx = Ret d' /\ upd d (gpos2 s) nx (ptr_to_rec2 s) d' /\ seg d' H nx /\
    gpos2 s ∉ L.*1 ++ empty s :: todo.*1 ++ (concat cs).*1.
Proof.
  intros HS Hnx. pose proof (Splitting_NoDup _ _ _ _ _ _ _ _ _ _ _ _ HS) as Hnd.
  pose proof (fun i => Splitting_range _ _ _ _ _ _ _ _ _ _ _ _ i HS) as Hrange.
  destruct HS as [_ _ (l0 & -> & Hs & _ & Hp) _ _ _ Hb Hroom _ _ _ _ _ _].
  rewrite fmap_app in Hnd, Hrange. simpl in Hnd, Hrange. rewrite <- app_assoc in Hnd.
  apply NoDup_app in Hnd as (_ & HL & Hnd). apply NoDup_app in Hnd as (_ & Hout & [Hg _]%NoDup_cons).
  assert (fits d (gpos2 s)) as Hfit.
  { specialize (Hrange (gpos2 s) ltac:(set_solver)). unfold fits, SIZEOF_LINK in *. lia. }
  destruct (set_link_upd d (gpos2 s) (ptr_to_rec2 s) nx Hb Hfit Hp Hnx) as (d' & E & U).
  exists d'. split; [done|]. split; [done|]. split; [|set_solver].
  apply seg_app. split; [|split; [apply U|done]]. eapply seg_upd; [done| |done]. intros Hin. apply (Hout _ Hin). left.
Qed.

(** A chain whose last link is used is written completely. *)
Lemma side_used_seg d g p l nx : side d true true g p l nx -> seg d l nx.
Proof. intros (l0 & -> & Hs & Hu & _). apply seg_app. split; [done|]. split; [by apply Hu|done]. Qed.

(** The next link of the old chain becomes the last one of a new chain. *)
Lemma side_extend d l i r nx : seg d l i -> holds d i nx r -> uint 64 r -> side d true true i r (l ++ [(i, r)]) nx.
Proof. intros Hs Hh Hr. by exists l. Qed.

Lemma side_start d g p nx : uint 64 p -> side d true false g p [(g, p)] nx.
Proof. intros Hp. by exists []. Qed.

Lemma head_snoc l i r : l <> [] -> head (l ++ [(i, r)]) 0 = head l 0.
Proof. by destruct l as [|[]]. Qed.

Lemma side_nonempty d u g p l nx : side d true u g p l nx -> l <> [].
Proof. intros (l0 & -> & _). by destruct l0. Qed.

Lemma small_uint n i : n + 1 < NO_RECORD -> 0 <= i <= n -> uint 32 i.
Proof. change NO_RECORD with 4294967295. unfold uint. lia. Qed.

Section Step.
Context (fi n : Z) (cs : list chain) (d : bytes) (s : Split) (lf lu hf hu : bool) (L H : chain) (i r : Z) (todo : chain).
Hypothesis HS : Splitting fi n cs d s lf lu hf hu L H ((i, r) :: todo).
Hypothesis Hr : uint 64 r.

Lemma step_low :
  exists d' s' lf' lu' hf' hu' L', split_low d s i r = Ret (d', s') /\
    Splitting fi n cs d' s' lf' lu' hf' hu' L' H todo /\ L'.*2 = L.*2 ++ [r] /\
    (link_next d' i = Ret (head todo NO_RECORD) /\ length d' = length d) /\ lf' = true.
Proof.
  pose proof (Splitting_range _ _ _ _ _ _ _ _ _ _ _ _ i HS ltac:(simpl; set_solver)) as Hi.
  pose proof (small_uint _ _ (sp_width _ _ _ _ _ _ _ _ _ _ _ _ HS) Hi) as Hi32.
  pose proof HS as [Ef Hlow Hhigh [Hh Htodo] Hout Hsl Hb Hroom Hw HhL HhH He Hfirst Hu]. cbn [HashInv.head fmap list_fmap fst] in *.
  unfold split_low. rewrite Ef, flag_low, flag_high, flag_lowused. destruct lf; cbn [negb].
  - destruct lu; cbn [negb].
    + rewrite bind_ret. exists d, (Split_ (flag_of true true hf hu) (empty s) i r (gpos2 s) (ptr_to_rec2 s)), true, true, hf, hu, (L ++ [(i, r)]). split; [reflexivity|]. split; [|split; [by rewrite fmap_app|split; [split; [apply Hh|done]|done]]].
      split; cbn [flag empty gpos ptr_to_rec gpos2 ptr_to_rec2]; try done.
      * apply side_extend; [by eapply side_used_seg|done|done].
      * destruct hu; [done|]. by eapply side_unused.
      * rewrite <- Hsl, fmap_app. simpl. solve_Permutation.
      * intros _. rewrite head_snoc; [auto|by eapply side_nonempty].
      * by left.
    + destruct (close_low _ _ _ _ _ _ _ _ _ _ _ i HS Hi32) as (d' & -> & U & HsL & Hg). rewrite !bind_ret, flag_set_low.
      simpl in Hg. assert (holds d' i (head todo NO_RECORD) r) as Hh' by (apply (upd_out _ _ _ _ _ U); [set_solver|done]).
      exists d', (Split_ (flag_of true true hf false) (empty s) i r (gpos2 s) (ptr_to_rec2 s)), true, true, hf, false, (L ++ [(i, r)]). split; [reflexivity|]. split; [|split; [by rewrite fmap_app|split; [split; [apply Hh'|apply U]|done]]].
      split; cbn [flag empty gpos ptr_to_rec gpos2 ptr_to_rec2]; try done.
      * by apply side_extend.
      * eapply side_unused, side_upd; [done|set_solver|done].
      * eapply seg_upd; [done|set_solver|done].
      * eapply segs_upd; [done|set_solver|done].
      * rewrite <- Hsl, fmap_app. simpl. solve_Permutation.
      * by eapply upd_bytes.
      * by rewrite (upd_len _ _ _ _ _ U).
      * intros _. rewrite head_snoc; [auto|by eapply side_nonempty].
      * by left.
  - destruct Hlow as [-> ->]. destruct hf; cbn [negb].
    + exists d, (Split_ (flag_of true false true false) i (empty s) r (gpos2 s) (ptr_to_rec2 s)), true, false, true, false, [(empty s, r)]. split; [reflexivity|]. split; [|split; [done|split; [split; [apply Hh|done]|done]]].
      split; cbn [flag empty gpos ptr_to_rec gpos2 ptr_to_rec2]; try done.
      * by apply side_start.
      * by eapply side_unused.
      * rewrite <- Hsl. simpl. solve_Permutation.
      * intros _. destruct He; done.
      * by left.
    + destruct Hhigh as [-> ->]. exists d, (Split_ (flag_of true true false false) (empty s) i r (gpos2 s) (ptr_to_rec2 s)), true, true, false, false, [(i, r)]. split; [reflexivity|]. split; [|split; [done|split; [split; [apply Hh|done]|done]]].
      split; cbn [flag empty gpos ptr_to_rec gpos2 ptr_to_rec2]; try done.
      * apply (side_extend d [] i r); [done|done|done].
      * rewrite <- Hsl. simpl. solve_Permutation.
      * intros _. destruct Hfirst; done.
      * by left.
Qed.

Lemma step_high :
  exists d' s' lf' lu' hf' hu' H', split_high d s i r = Ret (d', s') /\
    Splitting fi n cs d' s' lf' lu' hf' hu' L H' todo /\ H'.*2 = H.*2 ++ [r] /\
    (link_next d' i = Ret (head todo NO_RECORD) /\ length d' = length d) /\ hf' = true.
Proof.
  pose proof (Splitting_range _ _ _ _ _ _ _ _ _ _ _ _ i HS ltac:(simpl; set_solver)) as Hi.
  pose proof (small_uint _ _ (sp_width _ _ _ _ _ _ _ _ _ _ _ _ HS) Hi) as Hi32.
  pose proof HS as [Ef Hlow Hhigh [Hh Htodo] Hout Hsl Hb Hroom Hw HhL HhH He Hfirst Hu]. cbn [HashInv.head fmap list_fmap fst] in *.
  unfold split_high. rewrite Ef, flag_high, flag_highused. destruct hf; cbn [negb].
  - destruct hu; cbn [negb].
    + exists d, (Split_ (flag_of lf lu true true) (empty s) (gpos s) (ptr_to_rec s) i r), lf, lu, true, true, (H ++ [(i, r)]).
      split; [reflexivity|]. split; [|split; [by rewrite fmap_app|split; [split; [apply Hh|done]|done]]].
      split; cbn [flag empty gpos ptr_to_rec gpos2 ptr_to_rec2]; try done.
      * destruct lu; [done|]. by eapply side_unused.
      * apply side_extend; [by eapply side_used_seg|done|done].
      * rewrite <- Hsl, fmap_app. simpl. solve_Permutation.
      * intros _. rewrite head_snoc; [auto|by eapply side_nonempty].
      * left. apply orb_true_r.
    + destruct (close_high _ _ _ _ _ _ _ _ _ _ _ i HS Hi32) as (d' & -> & U & HsH & Hg). rewrite !bind_ret, flag_set_high.
      simpl in Hg. assert (holds d' i (head todo NO_RECORD) r) as Hh' by (apply (upd_out _ _ _ _ _ U); [set_solver|done]).
      exists d', (Split_ (flag_of lf false true true) (empty s) (gpos s) (ptr_to_rec s) i r), lf, false, true, true, (H ++ [(i, r)]).
      split; [reflexivity|]. split; [|split; [by rewrite fmap_app|split; [split; [apply Hh'|apply U]|done]]].
      split; cbn [flag empty gpos ptr_to_rec gpos2 ptr_to_rec2]; try done.
      * eapply side_unused, side_upd; [done|set_solver|done].
      * by apply side_extend.
      * eapply seg_upd; [done|set_solver|done].
      * eapply segs_upd; [done|set_solver|done].
      * rewrite <- Hsl, fmap_app. simpl. solve_Permutation.
      * by eapply upd_bytes.
      * by rewrite (upd_len _ _ _ _ _ U).
      * intros _. rewrite head_snoc; [auto|by eapply side_nonempty].
      * left. apply orb_true_r.
  - destruct Hhigh as [-> ->]. rewrite flag_new_high.
    exists d, (Split_ (flag_of lf false true false) i (gpos s) (ptr_to_rec s) (empty s) r), lf, false, true, false, [(empty s, r)].
    split; [reflexivity|]. split; [|split; [done|split; [split; [apply Hh|done]|done]]].
    split; cbn [flag empty gpos ptr_to_rec gpos2 ptr_to_rec2]; try done.
    + by eapply side_unused.
    + by apply side_start.
    + destruct lf; [by left|]. right. by destruct Hfirst.
    + left. apply orb_true_r.
Qed.

End Step.

Lemma end_low fi n cs d s lf lu hf hu L H :
  Splitting fi n cs d s lf lu hf hu L H [] ->
  exists d', (if lf && negb lu then set_link d (gpos s) (ptr_to_rec s) NO_RECORD else Ret d) = Ret d' /\
    seg d' L NO_RECORD /\ length d' = length d /\ Splitting fi n cs d' s lf lu hf hu L H [].
Proof.
  intros HS. destruct lf; cbn [andb]; [|exists d; split; [done|]; by destruct (sp_low _ _ _ _ _ _ _ _ _ _ _ _ HS) as [-> _]].
  destruct lu; cbn [negb].
  { exists d. split; [done|]. split; [|done]. eapply side_used_seg, (sp_low _ _ _ _ _ _ _ _ _ _ _ _ HS). }
  destruct (close_low _ _ _ _ _ _ _ _ _ _ _ NO_RECORD HS) as (d' & -> & U & Hs & Hg); [by apply wrap_uint|].
  exists d'. split; [done|]. split; [done|]. split; [by rewrite (upd_len _ _ _ _ _ U)|]. simpl in Hg.
  destruct HS as [Ef (l0 & -> & Hl & _ & Hp) Hhigh Htodo Hout Hsl Hb Hroom Hw HhL HhH He Hfirst Hu]. split; try done.
  - apply seg_app in Hs as [Hs _]. by exists l0.
  - eapply side_upd; [done|set_solver|done].
  - eapply segs_upd; [done|set_solver|done].
  - by eapply upd_bytes.
  - by rewrite (upd_len _ _ _ _ _ U).
Qed.

(** Both new chains are complete behind the loop. *)
Lemma end_ok fi n cs d s lf lu hf hu L H :
  Splitting fi n cs d s lf lu hf hu L H [] ->
  exists d', split_end d s = Ret d' /\ Forall (fun c => seg d' c NO_RECORD) (L :: H :: cs) /\ all_bytes d' /\
    length d' = length d.
Proof.
  intros HS. unfold split_end. rewrite (sp_flag _ _ _ _ _ _ _ _ _ _ _ _ HS), flag_low_open, flag_high_open.
  destruct (end_low _ _ _ _ _ _ _ _ _ _ _ HS) as (d1 & -> & HL & Hl1 & HS1). rewrite bind_ret.
  destruct hf; cbn [andb].
  2: { destruct (sp_high _ _ _ _ _ _ _ _ _ _ _ _ HS1) as [-> _]. exists d1. split; [done|]. split; [|split; [apply HS1|done]].
       constructor; [done|]. constructor; [done|apply HS1]. }
  destruct hu; cbn [negb].
  { exists d1. split; [done|]. split; [|split; [apply HS1|done]]. constructor; [done|].
    constructor; [|apply HS1]. eapply side_used_seg, (sp_high _ _ _ _ _ _ _ _ _ _ _ _ HS1). }
  destruct (close_high _ _ _ _ _ _ _ _ _ _ _ NO_RECORD HS1) as (d2 & -> & U & Hs & Hg); [by apply wrap_uint|].
  exists d2. split; [done|]. simpl in Hg. split; [|split; [by eapply upd_bytes|by rewrite (upd_len _ _ _ _ _ U)]].
  constructor; [eapply seg_upd; [done|set_solver|done]|]. constructor; [done|].
  eapply segs_upd; [done|set_solver|apply HS1].
Qed.

Section Insert.
Context (heap : Z -> bytes).
Abbreviation key_of := (key_of heap).
Abbreviation keyed := (keyed heap).
Abbreviation home := (home heap).
Abbreviation Inv := (Inv heap).

(** Does the record move to the new link? *)
Definition high (h : OB_HASH) (half r : Z) : bool := negb (Z.land (hashval h (key_of h r)) half =? 0).

Abbreviation highs h half := (filter (fun r => high h half r = true)).
Abbreviation lows h half := (filter (fun r => high h half r = false)).

Lemma split_loop_ok fuel h half fi cs d s lf lu hf hu L H todo :
  Splitting fi (records h) cs d s lf lu hf hu L H todo -> todo <> [] -> Forall (keyed h) todo.*2 ->
  (length todo <= fuel)%nat ->
  (lf || hf = true \/ forall r, hd_error todo.*2 = Some r -> home h (blength h) (records h) r = fi) ->
  exists d' s' lf' lu' hf' hu' L' H',
    split_loop heap fuel h half fi d s (head todo NO_RECORD) = Ret (d', s') /\
    Splitting fi (records h) cs d' s' lf' lu' hf' hu' L' H' [] /\
    L'.*2 = L.*2 ++ lows h half todo.*2 /\ H'.*2 = H.*2 ++ highs h half todo.*2 /\ length d' = length d.
Proof.
  revert fuel d s lf lu hf hu L H. induction todo as [|[i r] todo IH]; intros fuel d s lf lu hf hu L H HS Hne Hk Hf Hfirst; [done|].
  apply Forall_cons in Hk as [Hr Hk]. destruct fuel as [|fuel]; [simpl in Hf; lia|]. cbn [HashInv.head split_loop fmap list_fmap snd].
  pose proof (sp_todo _ _ _ _ _ _ _ _ _ _ _ _ HS) as [Hh _]. simpl snd in Hr. rewrite (proj2 Hh), bind_ret, rec_hashnr_val, bind_ret by done.
  assert ((flag s =? 0) && negb (hash_mask (hashval h (key_of h r)) (blength h) (records h) =? fi) = false) as ->.
  { rewrite (sp_flag _ _ _ _ _ _ _ _ _ _ _ _ HS), flag_zero. destruct Hfirst as [E|E].
    - by destruct lf, lu, hf, hu.
    - specialize (E r eq_refl). unfold HashInv.home in E. rewrite E, Z.eqb_refl. apply andb_false_r. }
  assert (exists d1 s1 lf1 lu1 hf1 hu1 L1 H1,
    (if Z.land (hashval h (key_of h r)) half =? 0 then split_low d s i r else split_high d s i r) = Ret (d1, s1) /\
    Splitting fi (records h) cs d1 s1 lf1 lu1 hf1 hu1 L1 H1 todo /\ lf1 || hf1 = true /\
    L1.*2 = L.*2 ++ lows h half [r] /\ H1.*2 = H.*2 ++ highs h half [r] /\ link_next d1 i = Ret (head todo NO_RECORD) /\ length d1 = length d)
    as (d1 & s1 & lf1 & lu1 & hf1 & hu1 & L1 & H1 & -> & HS1 & Hfl & EL & EH & En & El1).
  { assert (high h half r = negb (Z.land (hashval h (key_of h r)) half =? 0)) as Ehi by done.
    destruct (Z.land (hashval h (key_of h r)) half =? 0); cbn [negb] in Ehi.
    - destruct (step_low _ _ _ _ _ _ _ _ _ _ _ _ _ _ HS (proj1 Hr)) as (d1 & s1 & lf1 & lu1 & hf1 & hu1 & L1 & E & HS1 & EL & En & ->).
      do 8 eexists. split; [exact E|]. split; [exact HS1|]. split; [done|].
      rewrite filter_cons_True, filter_cons_False by (rewrite Ehi; done). simpl. by rewrite app_nil_r.
    - destruct (step_high _ _ _ _ _ _ _ _ _ _ _ _ _ _ HS (proj1 Hr)) as (d1 & s1 & lf1 & lu1 & hf1 & hu1 & H1 & E & HS1 & EL & En & ->).
      do 8 eexists. split; [exact E|]. split; [exact HS1|]. split; [by rewrite orb_true_r|].
      rewrite filter_cons_False, filter_cons_True by (rewrite Ehi; done). simpl. by rewrite app_nil_r. }
  rewrite bind_ret, En, bind_ret. change (r :: todo.*2) with ([r] ++ todo.*2). rewrite !filter_app, !app_assoc, <- EL, <- EH.
  destruct todo as [|[j q] todo].
  { cbn [HashInv.head]. rewrite Z.eqb_refl. do 8 eexists. split; [reflexivity|]. split; [exact HS1|]. simpl. by rewrite !app_nil_r. }
  assert (0 <= j <= records h) as Hj by (apply (Splitting_range _ _ _ _ _ _ _ _ _ _ _ _ j HS1); simpl; set_solver).
  cbn [HashInv.head]. destruct (Z.eqb_spec j NO_RECORD) as [E|_]; [pose proof (sp_width _ _ _ _ _ _ _ _ _ _ _ _ HS1); lia|].
  rewrite <- El1. apply (IH fuel d1 s1 lf1 lu1 hf1 hu1 L1 H1); try done; [simpl in *; lia|by left].
Qed.

(** ** The table behind the split *)

(** The places of records that the new link does not concern. *)
Lemma home_other h b n r : geom b n -> 0 < n -> home h b n r <> n - Z.shiftr b 1 -> home h b (n + 1) r = home h b n r.
Proof.
  intros Hg Hn Hr. unfold HashInv.home in *. rewrite mask_split by done.
  destruct (Z.eqb_spec (hash_mask (hashval h (key_of h r)) b n) (n - Z.shiftr b 1)); [done|]. by rewrite andb_false_r.
Qed.

Lemma home_moved h b n r : geom b n -> 0 < n -> home h b n r = n - Z.shiftr b 1 ->
  home h b (n + 1) r = if high h (Z.shiftr b 1) r then n else n - Z.shiftr b 1.
Proof.
  intros Hg Hn Hr. unfold HashInv.home, high in *. rewrite mask_split by done. rewrite Hr, Z.eqb_refl, andb_true_r. done.
Qed.

Lemma homed_other h b n c : geom b n -> 0 < n -> homed (home h b n) c -> head c 0 <> n - Z.shiftr b 1 -> homed (home h b (n + 1)) c.
Proof.
  intros Hg Hn (s & r & t & -> & Hall) Hs. exists s, r, t. split; [done|].
  eapply Forall_impl; [exact Hall|]. intros p Hp. simpl in *. rewrite home_other; [done..|congruence].
Qed.

(** Chains other than one that holds a link do not begin there. *)
Lemma heads_ne f d n c cs hs i : Rep d n (c :: cs) hs -> i ∈ c.*1 -> Homed f cs -> Forall (fun c => head c 0 <> i) cs.
Proof.
  intros HR Hi Hf. apply Forall_forall. intros c' Hc' E. rewrite Forall_forall in Hf.
  destruct (Hf c' Hc') as (s & r & t & -> & _). simpl in E. subst s.
  apply Rep_NoDup in HR. simpl in HR. rewrite fmap_app, <- app_assoc in HR. apply NoDup_app in HR as (_ & HR & _).
  apply (HR i Hi). apply elem_of_app. left. apply (list_elem_of_fmap_2 fst _ (i, r)). apply list_elem_of_In, in_concat.
  exists ((i, r) :: t). rewrite <- !list_elem_of_In. split; [done|left].
Qed.

Definition nonempty (c : chain) : bool := match c with [] => false | _ => true end.

Lemma concat_nonempty (cs : list chain) : concat (filter nonempty cs) = concat cs.
Proof. induction cs as [|[|p c] cs IH]; simpl; [done|done|]. by rewrite IH. Qed.

(** The chains that the divided chain leaves are at their places. *)
Lemma side_homed f (P : Z -> Prop) `{!forall r, Decision (P r)} s0 (l : chain) recs :
  l.*2 = filter P recs -> (forall r, r ∈ recs -> P r -> f r = s0) -> l <> [] -> head l 0 = s0 -> homed f l.
Proof.
  intros El HP Hne Hh. destruct l as [|[i r] t]; [done|]. simpl in Hh. subst i. exists s0, r, t. split; [done|].
  apply Forall_forall. intros p Hp. apply (list_elem_of_fmap_2 snd) in Hp. rewrite El in Hp.
  apply list_elem_of_filter in Hp as [??]. auto.
Qed.

Lemma divided_homed h b n s lf lu hf hu d cs L H recs :
  geom b n -> 0 < n -> let half := Z.shiftr b 1 in let fi := n - half in
  Splitting fi n cs d s lf lu hf hu L H [] -> Forall (fun r => home h b n r = fi) recs ->
  L.*2 = lows h half recs -> H.*2 = highs h half recs ->
  Homed (home h b (n + 1)) (filter nonempty [L; H]).
Proof.
  intros Hg Hn half fi HS Hall EL EH. rewrite Forall_forall in Hall.
  assert (forall r, r ∈ recs -> home h b (n + 1) r = if high h half r then n else fi) as Hhome.
  { intros r Hr. apply home_moved; [done..|by apply Hall]. }
  assert (L <> [] -> homed (home h b (n + 1)) L) as HL.
  { intros Hne. apply (side_homed _ _ fi L recs EL); [|done|].
    - intros r Hr E. by rewrite Hhome, E.
    - apply HS. pose proof (sp_low _ _ _ _ _ _ _ _ _ _ _ _ HS) as Hs. destruct lf; [done|]. by destruct Hs as [-> _]. }
  assert (H <> [] -> homed (home h b (n + 1)) H) as HH.
  { intros Hne. apply (side_homed _ _ n H recs EH); [|done|].
    - intros r Hr E. by rewrite Hhome, E.
    - apply HS. pose proof (sp_high _ _ _ _ _ _ _ _ _ _ _ _ HS) as Hs. destruct hf; [done|]. by destruct Hs as [-> _]. }
  destruct L, H; cbn; repeat constructor; auto.
Qed.

Lemma filter_split_perm (P : Z -> bool) l :
  filter (fun r => P r = false) l ++ filter (fun r => P r = true) l ≡ₚ l.
Proof.
  induction l as [|x l IH]; [done|]. destruct (P x) eqn:E.
  - rewrite filter_cons_False, filter_cons_True by (rewrite E; done). rewrite <- Permutation_middle. by rewrite IH.
  - rewrite filter_cons_True, filter_cons_False by (rewrite E; done). simpl. by rewrite IH.
Qed.

Lemma split_ok h d cs :
  Rep d (records h + 1) cs [records h] -> Homed (home h (blength h) (records h)) cs ->
  geom (blength h) (records h) -> 0 <= records h -> Forall (keyed h) (concat cs).*2 ->
  exists d' empty cs', split heap h d (records h) = Ret (d', empty) /\ length d' = length d /\
    Rep d' (records h + 1) cs' [empty] /\ Homed (home h (blength h) (records h + 1)) cs' /\
    (concat cs').*2 ≡ₚ (concat cs).*2.
Proof.
  intros HR Hf Hg Hn Hk. unfold split. set (n := records h) in *. set (b := blength h) in *.
  pose proof (rep_width _ _ _ _ HR) as Hw. change NO_RECORD with 4294967295 in Hw.
  assert (0 <= Z.shiftr b 1 <= n) as Hhalf.
  { destruct Hg as (k & Hk0 & E & Hs & _). split; [|done]. apply Z.shiftr_nonneg. lia. }
  rewrite wrap_small by (unfold uint; lia). destruct (Z.eqb_spec (n - Z.shiftr b 1) n) as [E|E]; cbn [negb].
  { assert (n = 0) as E0. { destruct (decide (0 < n)) as [Hp|]; [|lia]. destruct (geom_pow b n Hg Hp) as (k & ? & _ & _ & ?). lia. }
    exists d, n, cs. split; [done|]. split; [done|]. split; [done|]. split; [|done].
    pose proof (Rep_length _ _ _ _ HR ltac:(lia)) as Hl. simpl in Hl. rewrite Forall_forall. intros c Hc.
    rewrite Forall_forall in Hf. destruct (Hf c Hc) as (s & r & t & -> & _). exfalso.
    assert ((s, r) ∈ concat cs) as Hin. { apply list_elem_of_In, in_concat. exists ((s, r) :: t). rewrite <- !list_elem_of_In. split; [done|left]. }
    destruct (concat cs); [by apply elem_of_nil in Hin|simpl in Hl; lia]. }
  assert (0 < n) as Hpos by lia. set (fi := n - Z.shiftr b 1) in *.
  assert (0 < Z.shiftr b 1) as Hhpos by lia.
  destruct (Rep_chain _ _ _ _ fi HR) as (a & r & t & cs' & Hp); [lia|set_solver by lia|].
  rewrite Hp in HR, Hf, Hk. apply Forall_cons in Hf as [Hc Hf].
  pose proof (heads_ne _ _ _ _ _ _ fi HR ltac:(rewrite fmap_app; simpl; set_solver) Hf) as Hne.
  assert (Homed (home h b (n + 1)) cs') as Hf'.
  { rewrite Forall_forall in *. intros c Hin. apply homed_other; auto. }
  pose proof (rep_segs _ _ _ _ HR) as [Hseg Hsegs]%Forall_cons. simpl in Hk. rewrite fmap_app, Forall_app in Hk.
  destruct Hk as [Hk _]. pose proof (Rep_length _ _ _ _ HR ltac:(lia)) as Hlen. simpl in Hlen. rewrite !length_app in Hlen. simpl in Hlen.
  destruct (decide (home h b n r = fi)) as [Hr|Hr].
  - assert (a = []) as -> by (by eapply home_first). simpl app in *.
    assert (Splitting fi n cs' d (Split_ 0 n (-1) (-1) (-1) (-1)) false false false false [] [] ((fi, r) :: t)) as HS.
    { destruct HR as [Hsl _ Hb Hroom _]. split; try done; [|by right].
      rewrite <- Hsl. simpl. rewrite fmap_app. solve_Permutation. }
    destruct Hc as (s0 & r0 & t0 & [= <- <- <-] & Hall).
    destruct (split_loop_ok (Z.to_nat n) h (Z.shiftr b 1) fi _ _ _ _ _ _ _ _ _ _ HS) as
      (d1 & s1 & lf & lu & hf & hu & L & H & E1 & HS1 & EL & EH & El1); [done|done|simpl; lia|right; by intros ? [= <-]|].
    cbn [HashInv.head] in E1. fold n in E1, HS1. rewrite E1, bind_ret. 
    destruct (end_ok _ _ _ _ _ _ _ _ _ _ _ HS1) as (d2 & -> & Hs2 & Hb2 & Hl2). rewrite bind_ret.
    exists d2, (empty s1), (filter nonempty [L; H] ++ cs'). split; [done|]. split; [congruence|].
    assert ((concat (filter nonempty [L; H] ++ cs')) = L ++ H ++ concat cs') as Ec.
    { rewrite concat_app, concat_nonempty. simpl. by rewrite app_nil_r, app_assoc. }
    rewrite Ec. split; [|split].
    + destruct HS1 as [_ _ _ _ _ Hsl _ Hroom Hw1 _ _ _ _ _]. split; try done.
      * rewrite Ec, <- Hsl, !fmap_app. simpl. solve_Permutation.
      * apply Forall_cons in Hs2 as [? [? ?]%Forall_cons]. apply Forall_app_2; [|done]. destruct L, H; cbn; repeat constructor; done.
      * by rewrite Hl2.
    + apply Forall_app_2; [|done]. apply (divided_homed h b n s1 lf lu hf hu d1 cs' L H ((fi, r) :: t).*2 Hg Hpos HS1); [|exact EL|exact EH].
      apply Forall_fmap. exact Hall.
    + rewrite Hp. change (concat (((fi, r) :: t) :: cs')) with (((fi, r) :: t) ++ concat cs').
      rewrite !fmap_app, EL, EH. simpl app. rewrite app_assoc. by rewrite (filter_split_perm (high h (Z.shiftr b 1))).
  - destruct (Z.to_nat n) as [|fuel] eqn:Ef; [lia|]. cbn [split_loop flag].
    apply seg_app in Hseg as [_ [Hh _]]. rewrite (proj2 Hh), bind_ret.
    assert (keyed h r) as Hkr by (rewrite fmap_app in Hk; by apply Forall_app in Hk as [_ [Hkr _]%Forall_cons]).
    rewrite rec_hashnr_val, bind_ret by done. fold b n. unfold HashInv.home in Hr.
    destruct (Z.eqb_spec (hash_mask (hashval h (key_of h r)) b n) fi); [done|]. cbn [negb andb]. rewrite Z.eqb_refl. cbn [andb].
    rewrite bind_ret. exists d, n, ((a ++ (fi, r) :: t) :: cs'). split; [done|]. split; [done|]. split; [done|]. split; [|by rewrite Hp].
    constructor; [|done]. apply homed_other; [done..|]. intros E'. destruct a as [|[j q] a].
    + destruct Hc as (s0 & r0 & t0 & [= <- <- <-] & [Hr0 _]%Forall_cons). done.
    + simpl in E'. subst j. apply Rep_NoDup in HR. simpl in HR. apply NoDup_cons in HR as [HR _]. apply HR.
      rewrite !fmap_app. simpl. set_solver.
Qed.

End Insert.

(** ** Putting the record in its place *)

(** The first link of a chain at its place. *)
Lemma homed_head f c : homed f c -> forall i r, (i, r) ∈ c -> head c 0 = f r.
Proof. intros (s & q & t & -> & Hall) i r Hin. rewrite Forall_forall in Hall. exact (eq_sym (Hall _ Hin)). Qed.

(** Another chain in place of one that used the same links. *)
Lemma Rep_cons d d' n c cs holes cs1 holes' :
  Rep d n (c :: cs) holes -> c.*1 ++ holes ≡ₚ (concat cs1).*1 ++ holes' -> length d' = length d -> all_bytes d' ->
  Forall (fun c => seg d' c NO_RECORD) (cs1 ++ cs) -> Rep d' n (cs1 ++ cs) holes'.
Proof.
  intros [Hsl Hs Hb Hr Hw] Hp Hl Hb' Hcs. split; try done; [|by rewrite Hl].
  rewrite <- Hsl, concat_app. simpl. rewrite !fmap_app, <- !app_assoc.
  rewrite (Permutation_app_comm _ holes'), (Permutation_app_comm _ holes), !app_assoc. by rewrite <- Hp.
Qed.

(** A link, the rest of its chain, the other chains and a hole are disjoint. *)
Lemma Rep_disjoint d n a i r t cs e :
  Rep d n ((a ++ (i, r) :: t) :: cs) [e] ->
  i <> e /\ (e ∉ a.*1 ++ t.*1 ++ (concat cs).*1) /\ (i ∉ a.*1 ++ t.*1 ++ (concat cs).*1) /\ NoDup a.*1 /\
  (forall p, p ∈ a.*1 -> p ∉ t.*1 ++ (concat cs).*1).
Proof.
  intros HR%Rep_NoDup.
  assert ((concat ((a ++ (i, r) :: t) :: cs)).*1 ++ [e] ≡ₚ i :: e :: a.*1 ++ t.*1 ++ (concat cs).*1) as Hp.
  { simpl. rewrite !fmap_app. simpl. solve_Permutation. }
  rewrite Hp in HR. apply NoDup_cons in HR as [H1 [H2 H3]%NoDup_cons]. apply NoDup_app in H3 as (H3 & H4 & _).
  split_and!; (done || set_solver).
Qed.

Lemma copy_to_hole d n a i r t cs e :
  Rep d n ((a ++ (i, r) :: t) :: cs) [e] ->
  exists d', copy_link d e i = Ret d' /\ upd d e (head t NO_RECORD) r d' /\ holds d' i (head t NO_RECORD) r /\
    seg d' a i /\ seg d' t NO_RECORD /\ Forall (fun c => seg d' c NO_RECORD) cs.
Proof.
  intros HR. destruct (Rep_disjoint _ _ _ _ _ _ _ _ HR) as (Hie & He & Hi & Ha & _).
  pose proof (rep_segs _ _ _ _ HR) as [[Hsa [Hh Ht]]%seg_app Hsegs]%Forall_cons.
  destruct (copy_link_upd d e i (head t NO_RECORD) r (rep_bytes _ _ _ _ HR)) as (d1 & E & U); [|done|].
  { eapply Rep_fits, Rep_range; [done|done|]. set_solver. }
  exists d1. split; [done|]. split; [done|]. split; [by apply (upd_out _ _ _ _ _ U)|].
  split; [eapply seg_upd; [done|set_solver|done]|]. split; [eapply seg_upd; [done|set_solver|done]|].
  eapply segs_upd; [done|set_solver|done].
Qed.

Lemma hole_uint d n cs e : Rep d n cs [e] -> uint 32 e.
Proof.
  intros HR. apply (small_uint (n - 1)); [pose proof (rep_width _ _ _ _ HR); lia|].
  assert (0 <= e < n); [|lia]. apply (Rep_range _ _ _ _ e HR). set_solver.
Qed.

Section Place.
Context (f : Z -> Z) (d : bytes) (n : Z) (cs : list chain) (e record : Z).
Hypothesis Hrec : uint 64 record.

Lemma place_hole :
  Rep d n cs [e] -> Homed f cs -> f record = e ->
  exists d' cs', set_link d e record NO_RECORD = Ret d' /\ length d' = length d /\ Rep d' n cs' [] /\ Homed f cs' /\
    (concat cs').*2 ≡ₚ record :: (concat cs).*2.
Proof.
  intros HR Hf He. assert (e ∉ (concat cs).*1) as Hout.
  { apply Rep_NoDup, NoDup_app in HR as (_ & HR & _). intros Hin. apply (HR _ Hin). left. }
  destruct (set_link_upd d e record NO_RECORD) as (d' & -> & U); [apply HR| |done|by apply wrap_uint|].
  { eapply Rep_fits, Rep_range; [done|done|]. set_solver. }
  exists d', ([(e, record)] :: cs). split; [done|]. split; [apply U|]. split; [|split; [|done]].
  - destruct HR as [Hsl Hs _ Hroom Hw]. split; try done; [|constructor|apply U|by rewrite (upd_len _ _ _ _ _ U)].
    + rewrite <- Hsl. simpl. solve_Permutation.
    + split; [apply U|done].
    + by eapply segs_upd.
  - constructor; [|done]. exists e, record, []. split; [done|]. by constructor.
Qed.

Context (a t : chain) (pos r : Z).
Hypothesis HR : Rep d n ((a ++ (pos, r) :: t) :: cs) [e].
Hypothesis Hc : homed f (a ++ (pos, r) :: t).
Hypothesis Hf : Homed f cs.
Hypothesis Hpos : f record = pos.

(** The record takes the first link of its chain. *)
Lemma place_head d1 :
  f r = pos -> copy_link d e pos = Ret d1 ->
  exists d' cs', set_link d1 pos record e = Ret d' /\ length d' = length d /\ Rep d' n cs' [] /\ Homed f cs' /\
    (concat cs').*2 ≡ₚ record :: (concat ((a ++ (pos, r) :: t) :: cs)).*2.
Proof.
  intros Hr E1. destruct (Rep_disjoint _ _ _ _ _ _ _ _ HR) as (Hie & He & Hi & Ha & _).
  destruct (copy_to_hole _ _ _ _ _ _ _ _ HR) as (d1' & E1' & U1 & Hh & _ & Ht & Hsegs). rewrite E1 in E1'. injection E1' as <-.
  assert (a = []) as Ea by (by eapply home_first). subst a. simpl app in *.
  destruct (set_link_upd d1 pos record e) as (d2 & -> & U2); [apply U1|by eapply holds_fits|done|eapply hole_uint, HR|].
  assert (length d2 = length d) as Hl by (by rewrite (upd_len _ _ _ _ _ U2), (upd_len _ _ _ _ _ U1)).
  exists d2, ([(pos, record) :: (e, r) :: t] ++ cs). split; [done|]. split; [done|]. split; [|split].
  - eapply Rep_cons; [exact HR| |done|apply U2|].
    + simpl. rewrite !app_nil_r. solve_Permutation.
    + constructor; [|eapply segs_upd; [exact U2|set_solver|done]].
      split; [apply U2|]. split; [apply (upd_out _ _ _ _ _ U2); [done|apply U1]|]. eapply seg_upd; [exact U2|set_solver|done].
  - constructor; [|done]. exists pos, record, ((e, r) :: t). split; [done|].
    destruct Hc as (s & q & t0 & [= <- <- <-] & [H1 H2]%Forall_cons). by repeat constructor.
  - simpl. solve_Permutation.
Qed.

(** The record starts a chain where another chain had a link: the memory behind it. *)
Lemma place_other_rep d' :
  f r <> pos -> length d' = length d -> all_bytes d' -> seg d' a e -> holds d' e (head t NO_RECORD) r -> seg d' t NO_RECORD ->
  holds d' pos NO_RECORD record -> Forall (fun c => seg d' c NO_RECORD) cs ->
  let cs' := [a ++ (e, r) :: t; [(pos, record)]] ++ cs in
  Rep d' n cs' [] /\ Homed f cs' /\ (concat cs').*2 ≡ₚ record :: (concat ((a ++ (pos, r) :: t) :: cs)).*2.
Proof.
  intros Hr Hl Hb Ha He Ht Hp Hcs cs'. pose proof (homed_head _ _ Hc pos r ltac:(set_solver)) as Ehead. split; [|split].
  - eapply Rep_cons; [exact HR| |done|done|].
    + simpl. rewrite !fmap_app. simpl. rewrite !app_nil_r. solve_Permutation.
    + constructor; [by apply seg_app|]. constructor; [done|done].
  - constructor; [|constructor; [|done]]; [|exists pos, record, []; split; [done|by constructor]].
    destruct Hc as (s & q0 & t0 & E & Hall). destruct a as [|x a']; [simpl in Ehead; congruence|].
    cbn [app] in E, Hall |- *. injection E as -> <-. eexists _, _, _. split; [reflexivity|].
    rewrite Forall_cons, Forall_app, Forall_cons in Hall |- *. done.
  - simpl. rewrite !fmap_app. simpl. solve_Permutation.
Qed.

Lemma place_other d1 fuel :
  f r <> pos -> copy_link d e pos = Ret d1 -> (length a <= fuel)%nat ->
  exists d' cs', (d2 ← set_link d1 pos record NO_RECORD; movelink fuel d2 pos (f r) e) = Ret d' /\
    length d' = length d /\ Rep d' n cs' [] /\ Homed f cs' /\
    (concat cs').*2 ≡ₚ record :: (concat ((a ++ (pos, r) :: t) :: cs)).*2.
Proof.
  intros Hr E1 Hfuel. destruct (Rep_disjoint _ _ _ _ _ _ _ _ HR) as (Hie & He & Hi & Ha & Hat).
  destruct (copy_to_hole _ _ _ _ _ _ _ _ HR) as (d1' & E1' & U1 & Hh & Hsa & Ht & Hsegs). rewrite E1 in E1'. injection E1' as <-.
  pose proof (homed_head _ _ Hc pos r ltac:(set_solver)) as Ehead.
  destruct (set_link_upd d1 pos record NO_RECORD) as (d2 & -> & U2); [apply U1|by eapply holds_fits|done|by apply wrap_uint|].
  rewrite bind_ret. assert (seg d2 a pos) as Ha2 by (eapply seg_upd; [exact U2|set_solver|done]).
  assert (a <> []) as Hane by (intros E; rewrite E in Ehead; simpl in Ehead; congruence).
  destruct (exists_last Hane) as (a0 & [p q] & Ea0).
  assert (f r = head a pos) as -> by (rewrite <- Ehead, head_app; by destruct (exists_last Hane) as ([|[]] & [] & ->)).
  rewrite Ea0 in Ha2. replace (head a pos) with (head (a0 ++ [(p, q)]) pos) by (by rewrite <- Ea0).
  destruct (movelink_seg fuel d2 a0 p q pos e) as (d3 & -> & U3 & Ha3);
    [done|rewrite <- Ea0; by apply not_elem_of_app in Hi as [? _]|by rewrite <- Ea0|apply U2|eapply hole_uint, HR|rewrite Ea0, length_app in Hfuel; simpl in Hfuel; lia|].
  rewrite <- Ea0 in Ha3. assert (p ∈ a.*1) as Hpa by (rewrite Ea0, fmap_app; simpl; set_solver).
  specialize (Hat p Hpa). assert (p <> pos /\ p <> e) as [Hpp Hpe].
  { split; intros ->; [apply Hi|apply He]; apply elem_of_app; by left. }
  distinct.
  exists d3, ([a ++ (e, r) :: t; [(pos, record)]] ++ cs). split; [done|].
  assert (length d3 = length d) as Hl by (by rewrite (upd_len _ _ _ _ _ U3), (upd_len _ _ _ _ _ U2), (upd_len _ _ _ _ _ U1)).
  split; [done|]. apply place_other_rep; try done; [apply U3|..].
  - apply (upd_out _ _ _ _ _ U3); [done|]. apply (upd_out _ _ _ _ _ U2); [done|apply U1].
  - eapply seg_upd; [exact U3|done|]. by eapply seg_upd.
  - apply (upd_out _ _ _ _ _ U3); [done|apply U2].
  - eapply segs_upd; [exact U3|done|]. by eapply segs_upd.
Qed.

End Place.

Section Insertion.
Context (heap : Z -> bytes).
Abbreviation key_of := (key_of heap).
Abbreviation keyed := (keyed heap).
Abbreviation home := (home heap).
Abbreviation Inv := (Inv heap).

Lemma place_ok h d n cs empty record :
  Rep d n cs [empty] -> let f := home h (blength h) n in Homed f cs -> n = u32 (records h + 1) -> n <= records h + 1 ->
  Forall (keyed h) (concat cs).*2 -> keyed h record -> 0 <= f record < n ->
  exists d' cs', place heap h d empty record = Ret d' /\ length d' = length d /\ Rep d' n cs' [] /\ Homed f cs' /\
    (concat cs').*2 ≡ₚ record :: (concat cs).*2.
Proof.
  intros HR f Hf Hn Hn1 Hk Hrec Hpos. unfold place. rewrite rec_hashnr_val, bind_ret by done. rewrite <- Hn.
  change (hash_mask (hashval h (key_of h record)) (blength h) n) with (f record).
  destruct (Z.eqb_spec (f record) empty) as [E|E]; [rewrite E; apply place_hole; (done || apply Hrec)|].
  destruct (Rep_chain _ _ _ _ (f record) HR) as (a & r & t & cs0 & Hp); [done|set_solver|].
  rewrite Hp in HR, Hf, Hk. apply Forall_cons in Hf as [Hc Hf].
  assert (keyed h r) as Hkr.
  { simpl in Hk. rewrite !fmap_app in Hk. simpl in Hk. rewrite !Forall_app, Forall_cons in Hk. tauto. }
  destruct (copy_to_hole _ _ _ _ _ _ _ _ HR) as (d1 & E1 & _ & Hh & _). rewrite E1, bind_ret.
  erewrite hash_rec_mask_home by done. rewrite bind_ret. change (home h (blength h) n r) with (f r).
  assert (exists d' cs', (if f record =? f r then set_link d1 (f record) record empty
    else d2 ← set_link d1 (f record) record NO_RECORD; movelink (Z.to_nat (records h)) d2 (f record) (f r) empty) = Ret d' /\
    length d' = length d /\ Rep d' n cs' [] /\ Homed f cs' /\
    (concat cs').*2 ≡ₚ record :: (concat ((a ++ (f record, r) :: t) :: cs0)).*2) as (d' & cs' & -> & Hl & HR' & Hf' & Hp').
  { destruct (Z.eqb_spec (f record) (f r)) as [Er|Er].
    - apply place_head; try done. apply Hrec.
    - apply place_other; try done; [apply Hrec|]. pose proof (Rep_length _ _ _ _ HR ltac:(lia)) as Hlen.
      simpl in Hlen. rewrite !length_app in Hlen. simpl in Hlen. lia. }
  exists d', cs'. rewrite Hp. done.
Qed.

(** ** hash_insert *)

(** More memory behind the links. *)
Lemma seg_grow d x c e : seg d c e -> seg (d ++ x) c e.
Proof.
  induction c as [|[i r] c IH]; [done|]. intros [Hh Hs]. split; [|by apply IH].
  pose proof (holds_fits _ _ _ _ Hh) as [Hi Hl]. destruct Hh as [H1 H2]. unfold holds, link_next, link_data, SIZEOF_LINK in *.
  assert (forall o k, 0 <= o -> o + Z.of_nat k <= Z.of_nat (length d) -> load_bytes (d ++ x) o k = load_bytes d o k) as E.
  { intros o k Ho Hk. apply load_bytes_ext. intros j Hj. unfold load. destruct (j <? 0); [done|].
    by rewrite lookup_app_l by lia. }
  rewrite !E by lia. done.
Qed.

(** The array with one more link, which is free. *)
Lemma alloc_link_ok ok junk h recs d cs :
  Inv h recs -> is_byte junk -> buffer (array h) = Some d -> Rep d (records h) cs [] ->
  Z.of_nat (length d) = max_element (array h) * SIZEOF_LINK ->
  (records h = max_element (array h) -> (max_element (array h) + alloc_increment (array h)) * SIZEOF_LINK < 2 ^ 32) ->
  match ma_alloc_dynamic ok junk (array h) with
  | (None, a) => ok = false
  | (Some off, a) => off / SIZEOF_LINK = records h /\ elements a = records h + 1 /\ size_of_element a = SIZEOF_LINK /\
      0 < alloc_increment a <= 8192 /\ max_element a * SIZEOF_LINK < 2 ^ 32 /\
      exists d', buffer a = Some d' /\ Rep d' (records h + 1) cs [records h] /\
        Z.of_nat (length d') = max_element a * SIZEOF_LINK
  end.
Proof.
  intros HI Hj Hd HR Hl Hmax. pose proof (records_nonneg _ _ _ HI) as Hn. pose proof (rep_room _ _ _ _ HR) as Hroom.
  destruct HI as [_ _ He Hs Hb Hinc _]. unfold ma_alloc_dynamic. rewrite He, Hs in *. unfold SIZEOF_LINK in *.
  assert (records h * 16 < 2 ^ 32) as Hsmall by lia.
  assert (u32 (records h * 16) / 16 = records h) as Hoff by (rewrite wrap_small by (unfold uint; lia); apply Z.div_mul; lia).
  assert (forall x, all_bytes x -> 16 * (records h + 1) <= Z.of_nat (length (d ++ x)) -> Rep (d ++ x) (records h + 1) cs [records h]) as Hgrow.
  { intros x Hx Hlx. destruct HR as [Hsl Hsegs Hbd _ _]. split; [|by eapply Forall_impl; [|intros c; apply seg_grow]|by apply Forall_app|done|].
    - rewrite seqZ_app, <- Hsl by lia. rewrite app_nil_r, (seqZ_cons (0 + records h)) by lia. simpl. done.
    - change NO_RECORD with 4294967295. lia. }
  destruct (Z.eqb_spec (records h) (max_element (array h))) as [E|E].
  - destruct ok; [|done]. specialize (Hmax E). cbn [elements max_element size_of_element alloc_increment buffer].
    rewrite (wrap_small 32 (max_element (array h) + _)) by (unfold uint; lia).
    rewrite (wrap_small 32 ((max_element (array h) + _) * 16)) by (unfold uint; lia).
    rewrite (wrap_small 32 (records h + 1)) by (unfold uint; lia). split_and!; try done; try lia.
    exists (d ++ repeat junk (Z.to_nat ((max_element (array h) + alloc_increment (array h)) * 16) - length d)).
    rewrite Hd. cbn [default from_option id]. rewrite resize_grow by lia. split; [done|].
    assert (Z.of_nat (length (d ++ repeat junk (Z.to_nat ((max_element (array h) + alloc_increment (array h)) * 16) - length d))) =
      (max_element (array h) + alloc_increment (array h)) * 16) as Hlen by (rewrite length_app, repeat_length; lia).
    split; [|done]. apply Hgrow; [|lia]. apply Forall_forall. intros y Hy%list_elem_of_In%repeat_spec. by subst.
  - cbn [elements max_element size_of_element alloc_increment buffer].
    rewrite (wrap_small 32 (records h + 1)) by (unfold uint; lia). split_and!; try done; try lia.
    exists d. split; [done|]. split; [|lia]. rewrite <- (app_nil_r d). apply Hgrow; [constructor|]. rewrite app_nil_r. lia.
Qed.

(** On success the table holds one more record; otherwise an allocation failed and the table
    is unchanged. *)
Lemma insert_adds ok junk h recs record :
  Inv h recs -> keyed h record -> is_byte junk -> records h + 1 < 2 ^ 27 ->
  exists failed h', hash_insert heap ok junk h record = Ret (failed, h') /\
    if failed : bool then ok = false /\ h' = h
    else Inv h' (record :: recs) /\ exists n b c a, h' = with_array h n b c a.
Proof.
  intros HI Hrec Hj Hsmall. pose proof (records_nonneg _ _ _ HI) as Hn. unfold hash_insert.
  assert (records h = max_element (array h) -> (max_element (array h) + alloc_increment (array h)) * SIZEOF_LINK < 2 ^ 32) as Hmax.
  { pose proof (inv_inc _ _ _ HI). unfold SIZEOF_LINK. lia. }
  destruct (inv_chains _ _ _ HI) as (d & cs & Hd & HR & Hf & Hp & Hl).
  pose proof (alloc_link_ok ok junk h recs d cs HI Hj Hd HR Hl Hmax) as Ha.
  destruct (ma_alloc_dynamic ok junk (array h)) as [[off|] a]; [|by exists true, h].
  destruct Ha as (-> & He & Hsz & Hinc & Hb & d0 & Hd0 & HR0 & Hl0). unfold mem. rewrite Hd0. cbn [of_option]. rewrite bind_ret.
  pose proof (inv_geom _ _ _ HI) as Hg. pose proof (inv_keys _ _ _ HI) as Hk.
  assert (Forall (keyed h) (concat cs).*2) as Hkc by (by rewrite Hp).
  destruct (split_ok heap h d0 cs HR0 Hf Hg Hn Hkc) as (d1 & e & cs1 & -> & Hl1 & HR1 & Hf1 & Hp1). rewrite bind_ret.
  assert (u32 (records h + 1) = records h + 1) as Eu by (apply wrap_small; unfold uint; lia).
  destruct (geom_grow (blength h) (records h) Hg ltac:(lia)) as [Hg' Hmask].
  destruct (place_ok h d1 (records h + 1) cs1 e record) as (d2 & cs2 & -> & Hl2 & HR2 & Hf2 & Hp2); try done; try lia.
  { by rewrite Hp1. }
  { unfold HashInv.home. rewrite <- Hmask. apply mask_range; [done|lia]. }
  rewrite bind_ret, Eu. exists false. eexists. split; [reflexivity|]. split; [|by do 4 eexists].
  split; cbn [records blength array with_array with_buffer buffer elements size_of_element max_element alloc_increment]; try done.
  - exists d2, cs2. split; [done|]. split; [done|]. split; [|split; [|lia]].
    + eapply Forall_impl; [exact Hf2|]. intros c (s & r & t & -> & Hall). exists s, r, t. split; [done|].
      eapply Forall_impl; [exact Hall|]. intros p <-. apply Hmask.
    + by rewrite Hp2, Hp1, Hp.
  - by constructor.
Qed.

End Insertion.

End HashInsert.
