(* ===== verification/HashDelete.v ===== *)
(** Deleting from a hash table: the record is taken out of its chain, and the last link,
    whose place disappears, moves to the link that became free. *)

From stdpp Require Import tactics sets.
From S2P Require Import Prelude IntStore DynArray Hash HashInv HashSearch HashInsert.

Module HashDelete.
Import DynArray Hash HashInv HashSearch HashInsert.

(** ** Distinct links *)

(** The links of a table, in any order, are distinct. *)
Lemma Rep_distinct d n cs hs l : Rep d n cs hs -> (concat cs).*1 ++ hs ≡ₚ l -> NoDup l.
Proof. intros HR Hp. rewrite <- Hp. by eapply Rep_NoDup. Qed.

(** Two lists of chains have the same links, or the same records. *)
Ltac links := repeat (progress (simpl; rewrite ?fmap_app)); solve_Permutation.

(** The same links divided differently. *)
Lemma Rep_swap d d' n cs cs' hs hs' :
  Rep d n cs hs -> (concat cs).*1 ++ hs ≡ₚ (concat cs').*1 ++ hs' -> length d' = length d -> all_bytes d' ->
  Forall (fun c => seg d' c NO_RECORD) cs' -> Rep d' n cs' hs'.
Proof. intros [Hsl Hs Hb Hr Hw] Hp Hl Hb' Hcs. split; try done; [by rewrite <- Hp|by rewrite Hl]. Qed.

(** Giving up the last link when it is free. *)
Lemma Rep_shrink d n cs : Rep d (n + 1) cs [n] -> 0 <= n -> Rep d n cs [].
Proof.
  intros [Hsl Hs Hb Hr Hw] Hn. split; try done; [|unfold SIZEOF_LINK in *; lia|lia].
  rewrite seqZ_app, (seqZ_cons (0 + n)) in Hsl by lia. simpl in Hsl. rewrite app_nil_r. by apply Permutation_app_inv_r in Hsl.
Qed.

(** ** Finding the record *)

Definition last_slot (a : chain) (g : Z) : Z := match last a with Some (i, _) => i | None => g end.

Lemma last_slot_cons p a g : last_slot (p :: a) g = last_slot a p.1.
Proof. unfold last_slot. rewrite last_cons. by destruct (last a) as [[]|], p. Qed.

Lemma last_slot_snoc a p q g : last_slot (a ++ [(p, q)]) g = p.
Proof. unfold last_slot. by rewrite last_snoc. Qed.

Lemma delete_search_ok fuel d record g c :
  seg d c NO_RECORD -> NO_RECORD ∉ c.*1 -> (length c <= fuel)%nat -> c <> [] ->
  ((record ∉ c.*2) /\ delete_search fuel d record g (head c NO_RECORD) = Ret None) \/
  exists a i t, c = a ++ (i, record) :: t /\ delete_search fuel d record g (head c NO_RECORD) = Ret (Some (last_slot a g, i)).
Proof.
  revert fuel g. induction c as [|[i r] c IH]; intros fuel g Hs Hno Hf Hc; [done|]. cbn [HashInv.head].
  destruct fuel as [|fuel]; [simpl in Hf; lia|]. destruct Hs as [Hh Hs]. cbn [delete_search].
  rewrite (proj2 Hh), bind_ret. destruct (Z.eqb_spec r record) as [->|Hr]; [right; by exists [], i, c|].
  rewrite (proj1 Hh), bind_ret. apply not_elem_of_cons in Hno as [_ Hno].
  destruct c as [|[j q] c]; cbn [HashInv.head].
  { left. rewrite Z.eqb_refl. split; [|done]. simpl. apply not_elem_of_cons. split; [done|apply not_elem_of_nil]. }
  destruct (Z.eqb_spec j NO_RECORD) as [->|_]; [destruct Hno; left|].
  destruct (IH fuel i Hs Hno) as [[Hn E]|(a & k & t & E1 & E)]; [simpl in *; lia|done| |].
  - left. split; [|exact E]. simpl. apply not_elem_of_cons. split; [done|exact Hn].
  - right. exists ((i, r) :: a), k, t. rewrite E1. split; [done|]. rewrite last_slot_cons. exact E.
Qed.

(** ** Taking the record out of its chain *)

(** The chains without the record at [i], in the memory where its neighbour was changed. *)
Definition unlinked (f : Z -> Z) (d : bytes) (n : Z) (c : chain) (cs : list chain) (record : Z) (d' : bytes) (e : Z) : Prop :=
  length d' = length d /\ exists cs', Rep d' n cs' [e] /\ Homed f cs' /\ (concat (c :: cs)).*2 ≡ₚ record :: (concat cs').*2.

Section Unlink.
Context (f : Z -> Z) (d : bytes) (n i record : Z) (cs : list chain).
Hypothesis Hf : Homed f cs.

Lemma unlink_only : Rep d n ([(i, record)] :: cs) [] -> unlinked f d n [(i, record)] cs record d i.
Proof.
  intros HR. split; [done|]. exists cs. split; [|by split]. pose proof (rep_segs _ _ _ _ HR) as [_ Hs]%Forall_cons.
  eapply Rep_swap; [exact HR|links|done|apply HR|done].
Qed.

Lemma unlink_first j q t d' :
  let c := (i, record) :: (j, q) :: t in
  Rep d n (c :: cs) [] -> homed f c -> upd d i (head t NO_RECORD) q d' -> unlinked f d n c cs record d' j.
Proof.
  intros c HR Hc U. unfold c in *. clear c. split; [apply U|]. exists (((i, q) :: t) :: cs).
  pose proof (rep_segs _ _ _ _ HR) as [[_ [_ Ht]] Hsegs]%Forall_cons.
  assert (NoDup (i :: j :: t.*1 ++ (concat cs).*1)) as Hnd by (eapply Rep_distinct; [exact HR|links]). distinct. split; [|split].
  - eapply Rep_swap; [exact HR|links|apply U|apply U|].
    constructor; [|by eapply segs_upd]. split; [apply U|by eapply seg_upd].
  - constructor; [|done]. destruct Hc as (s & q0 & t0 & [= <- <- <-] & Hall). rewrite !Forall_cons in Hall.
    exists i, q, t. split; [done|]. rewrite Forall_cons. tauto.
  - links.
Qed.

Lemma unlink_inner a p q t d' :
  let c := (a ++ [(p, q)]) ++ (i, record) :: t in
  Rep d n (c :: cs) [] -> homed f c -> upd d p (head t NO_RECORD) q d' -> unlinked f d n c cs record d' i.
Proof.
  intros c HR Hc U. split; [apply U|]. exists ((a ++ (p, q) :: t) :: cs). unfold c in *. clear c. rewrite <- app_assoc in HR, Hc |- *.
  cbn [app] in HR, Hc |- *. pose proof (rep_segs _ _ _ _ HR) as [[Ha [_ [_ Ht]]]%seg_app Hsegs]%Forall_cons.
  assert (NoDup (p :: i :: a.*1 ++ t.*1 ++ (concat cs).*1)) as Hnd by (eapply Rep_distinct; [exact HR|links]). distinct. split; [|split].
  - eapply Rep_swap; [exact HR|links|apply U|apply U|]. constructor; [|by eapply segs_upd].
    apply seg_app. split; [by eapply seg_upd|]. split; [apply U|by eapply seg_upd].
  - constructor; [|done]. destruct Hc as (s & q0 & t0 & E & Hall). exists s, q0. rewrite Forall_app, !Forall_cons in Hall.
    destruct a as [|x a]; cbn [app] in *.
    + injection E as -> -> <-. exists t. split; [done|]. rewrite Forall_cons. tauto.
    + injection E as -> <-. exists (a ++ (p, q) :: t). split; [done|].
      rewrite Forall_cons in Hall. rewrite Forall_cons, Forall_app, Forall_cons. tauto.
  - links.
Qed.

End Unlink.

(** The links of the table are not NULL, and not NO_RECORD. *)
Lemma slot_valid d n cs hs i r : Rep d n cs hs -> (i, r) ∈ concat cs -> i <> -1 /\ i <> NO_RECORD.
Proof.
  intros HR Hin. assert (0 <= i < n) as Hi.
  { apply (Rep_range _ _ _ _ i HR). apply elem_of_app. left. by apply (list_elem_of_fmap_2 fst _ (i, r)). }
  pose proof (rep_width _ _ _ _ HR). lia.
Qed.

Lemma unlink_ok f d n a i record t cs :
  let c := a ++ (i, record) :: t in
  Rep d n (c :: cs) [] -> homed f c -> Homed f cs ->
  exists d' e, unlink d (last_slot a (-1)) i = Ret (d', e) /\ unlinked f d n c cs record d' e.
Proof.
  intros c HR Hc Hf. unfold c in *. clear c. pose proof (rep_segs _ _ _ _ HR) as [[Hsa [Hh Ht]]%seg_app Hsegs]%Forall_cons.
  pose proof (rep_bytes _ _ _ _ HR) as Hb. unfold unlink. rewrite (proj1 Hh), bind_ret.
  destruct (holds_uint _ _ _ _ Hb Hh) as [Hu32 _].
  destruct a as [|[p q] a _] using rev_ind.
  - cbn [last_slot last]. simpl app in *. change (-1 =? -1) with true. cbn [negb]. destruct t as [|[j q] t]; cbn [HashInv.head].
    + change (NO_RECORD =? NO_RECORD) with true. cbn [negb]. exists d, i. split; [done|]. by apply unlink_only.
    + destruct (slot_valid _ _ _ _ j q HR) as [_ Hj]; [simpl; set_solver|]. destruct (Z.eqb_spec j NO_RECORD) as [|_]; [done|].
      cbn [negb]. destruct Ht as [Hhj Ht]. rewrite (proj2 Hhj), bind_ret. destruct (holds_uint _ _ _ _ Hb Hhj) as [Hj32 Hq64].
      assert (NoDup (i :: j :: t.*1 ++ (concat cs).*1)) as Hnd by (eapply Rep_distinct; [exact HR|links]). distinct.
      destruct (set_data_upd d i q j Hb) as (d1 & -> & U1); [by eapply holds_fits|done|apply Hh|]. rewrite bind_ret.
      assert (holds d1 j (head t NO_RECORD) q) as Hj1 by (apply (upd_out _ _ _ _ _ U1); [by apply not_eq_sym|done]).
      rewrite (proj1 Hj1), bind_ret.
      destruct (set_next_upd d1 i (head t NO_RECORD) q) as (d2 & -> & U2); [apply U1|eapply holds_fits, U1|done|apply U1|].
      rewrite bind_ret. exists d2, j. split; [done|]. apply unlink_first; try done. by eapply upd_trans.
  - rewrite last_slot_snoc. destruct (slot_valid _ _ _ _ p q HR) as [Hp1 _]; [simpl; set_solver|].
    destruct (Z.eqb_spec p (-1)); [done|]. cbn [negb]. apply seg_app in Hsa as [Ha0 [Hp _]].
    destruct (set_next_upd d p (head t NO_RECORD) q Hb) as (d' & -> & U); [by eapply holds_fits|done|apply Hp|]. rewrite bind_ret.
    exists d', i. split; [done|]. by apply unlink_inner.
Qed.

(** ** Moving the last link *)

(** Link [m] is put in front of a chain, which is continued by what followed [m]. *)
Lemma relink fuel d idx e L u m P v cs :
  all_bytes d -> seg d ((e, L) :: u) idx -> holds d m (head v NO_RECORD) P -> seg d v NO_RECORD ->
  Forall (fun c => seg d c NO_RECORD) cs -> NoDup (m :: e :: u.*1 ++ v.*1 ++ (concat cs).*1) ->
  idx ∉ e :: u.*1 -> uint 32 e -> (length u < fuel)%nat ->
  exists d', (next ← link_next d m; d1 ← movelink fuel d idx e next; set_next d1 m e) = Ret d' /\ length d' = length d /\
    all_bytes d' /\ seg d' ((m, P) :: (e, L) :: u ++ v) NO_RECORD /\ Forall (fun c => seg d' c NO_RECORD) cs.
Proof.
  intros Hb Hu Hm Hv Hcs Hnd Hidx He Hfuel. rewrite (proj1 Hm), bind_ret.
  destruct (exists_last (l := (e, L) :: u) ltac:(done)) as (x & [p q] & Ex).
  assert (NoDup (p :: m :: x.*1 ++ v.*1 ++ (concat cs).*1)) as Hnd'.
  { assert (m :: e :: u.*1 ++ v.*1 ++ (concat cs).*1 ≡ₚ p :: m :: x.*1 ++ v.*1 ++ (concat cs).*1) as <-; [|done].
    change (e :: u.*1 ++ v.*1 ++ (concat cs).*1) with (((e, L) :: u).*1 ++ v.*1 ++ (concat cs).*1). rewrite Ex. links. }
  assert (NoDup ((e, L) :: u).*1) as Hndu.
  { simpl. apply NoDup_cons in Hnd as [_ Hnd]. rewrite app_comm_cons in Hnd. by apply NoDup_app in Hnd as [? _]. }
  change (e :: u.*1) with (((e, L) :: u).*1) in Hidx. rewrite Ex in Hu, Hndu, Hidx. clear Hnd. distinct.
  assert (length x = length u) as Hlen by (apply (f_equal length) in Ex; rewrite length_app in Ex; simpl in Ex; lia).
  destruct (movelink_seg fuel d x p q idx (head v NO_RECORD)) as (d1 & E1 & U1 & Hu1); try done; [by eapply holds_uint|lia|].
  rewrite <- Ex in E1. cbn [HashInv.head] in E1. rewrite E1, bind_ret.
  assert (holds d1 m (head v NO_RECORD) P) as Hm1 by (apply (upd_out _ _ _ _ _ U1); [by apply not_eq_sym|done]).
  destruct (set_next_upd d1 m e P) as (d2 & -> & U2); [apply U1|by eapply holds_fits|done|apply Hm1|].
  exists d2. split; [done|]. split; [by rewrite (upd_len _ _ _ _ _ U2), (upd_len _ _ _ _ _ U1)|]. split; [apply U2|]. split.
  - split; [apply U2|]. change ((e, L) :: u ++ v) with (((e, L) :: u) ++ v). rewrite Ex. apply seg_app. split.
    + eapply seg_upd; [exact U2|outside|done].
    + do 2 (eapply seg_upd; [done..|]). done.
  - do 2 (eapply segs_upd; [done..|]). done.
Qed.

Section Move.
Context (f0 f1 : Z -> Z) (n m : Z).
Hypothesis Hm : 0 <= m < n.
Hypothesis Hkeep : forall r, f0 r <> n -> f1 r = f0 r.
Hypothesis Hmove : forall r, f0 r = n -> f1 r = m.

(** The table behind a move: the last link is free and the places are the new ones. *)
Definition moved (d : bytes) (cs : list chain) (d' : bytes) : Prop :=
  length d' = length d /\ exists cs', Rep d' (n + 1) cs' [n] /\ Homed f1 cs' /\ (concat cs').*2 ≡ₚ (concat cs).*2.

Lemma homed_keep c : homed f0 c -> head c 0 <> n -> homed f1 c.
Proof.
  intros (s & r & t & -> & Hall) Hs. exists s, r, t. split; [done|]. eapply Forall_impl; [exact Hall|].
  intros p Hp. simpl in *. rewrite Hkeep; congruence.
Qed.

Lemma Homed_keep d c cs hs : Rep d (n + 1) (c :: cs) hs -> n ∈ c.*1 -> Homed f0 cs -> Homed f1 cs.
Proof.
  intros HR Hin Hf. pose proof (heads_ne _ _ _ _ _ _ n HR Hin Hf) as Hne. rewrite Forall_forall in *.
  intros c' Hc'. apply homed_keep; auto.
Qed.

Context (d : bytes) (e L : Z) (t : chain) (cs : list chain) (fuel : nat).

(** The free link is the new place of the last chain. *)
Lemma move_to_place :
  Rep d (n + 1) (((n, L) :: t) :: cs) [e] -> homed f0 ((n, L) :: t) -> Homed f0 cs -> e = m ->
  exists d', copy_link d e n = Ret d' /\ moved d (((n, L) :: t) :: cs) d'.
Proof.
  intros HR Hc Hf ->. destruct (copy_to_hole d (n + 1) [] n L t cs m HR) as (d' & -> & U & _ & _ & Ht & Hsegs).
  exists d'. split; [done|]. split; [apply U|]. exists (((m, L) :: t) :: cs). split; [|split].
  - eapply Rep_swap; [exact HR|links|apply U|apply U|]. constructor; [|done]. split; [apply U|done].
  - constructor; [|eapply Homed_keep; [exact HR|left|done]]. destruct Hc as (s & q & t0 & [= <- <- <-] & Hall).
    exists m, L, t. split; [done|]. rewrite Forall_cons in Hall |- *. destruct Hall as [H1 H2]. split; [by apply Hmove|].
    eapply Forall_impl; [exact H2|]. intros p. apply Hmove.
  - links.
Qed.

(** The last link belongs to a chain that begins elsewhere. *)
Lemma move_in_chain a :
  Rep d (n + 1) ((a ++ (n, L) :: t) :: cs) [e] -> homed f0 (a ++ (n, L) :: t) -> Homed f0 cs -> f0 L <> n ->
  (length a <= fuel)%nat ->
  exists d', (d1 ← copy_link d e n; movelink fuel d1 n (f0 L) e) = Ret d' /\ moved d ((a ++ (n, L) :: t) :: cs) d'.
Proof.
  intros HR Hc Hf HL Hfuel. pose proof (homed_head _ _ Hc n L ltac:(set_solver)) as Ehead.
  destruct (copy_to_hole _ _ _ _ _ _ _ _ HR) as (d1 & -> & U1 & _ & Ha & Ht & Hsegs). rewrite bind_ret.
  destruct a as [|x a0 _] using rev_ind; [simpl in Ehead; congruence|]. destruct x as [p q].
  assert (NoDup (p :: n :: e :: a0.*1 ++ t.*1 ++ (concat cs).*1)) as Hnd by (eapply Rep_distinct; [exact HR|links]).
  assert (NoDup (a0 ++ [(p, q)]).*1) as Hnda.
  { apply Rep_NoDup in HR. simpl in HR. rewrite !fmap_app in HR. rewrite fmap_app.
    rewrite <- !app_assoc in HR. rewrite app_assoc in HR. by apply NoDup_app in HR as [? _]. }
  distinct. assert (f0 L = head (a0 ++ [(p, q)]) n) as -> by (rewrite <- Ehead, <- app_assoc; by destruct a0 as [|[]]).
  destruct (movelink_seg fuel d1 a0 p q n e) as (d2 & -> & U2 & Ha2);
    [done|outside|done|apply U1|eapply hole_uint, HR|rewrite length_app in Hfuel; simpl in Hfuel; lia|].
  exists d2. split; [done|]. assert (length d2 = length d) as Hl by (by rewrite (upd_len _ _ _ _ _ U2), (upd_len _ _ _ _ _ U1)).
  split; [done|]. exists (((a0 ++ [(p, q)]) ++ (e, L) :: t) :: cs). split; [|split].
  - eapply Rep_swap; [exact HR|links|done|apply U2|]. constructor; [|by eapply segs_upd]. apply seg_app. split; [done|].
    split; [apply (upd_out _ _ _ _ _ U2); [by apply not_eq_sym|apply U1]|by eapply seg_upd].
  - constructor; [|eapply Homed_keep; [exact HR|rewrite fmap_app; set_solver|done]].
    destruct (homed_keep _ Hc) as (s & q0 & t0 & E & Hall); [congruence|]. exists s, q0.
    rewrite Forall_app, Forall_cons in Hall. destruct (a0 ++ [(p, q)]) as [|y a1] eqn:Ea; [by destruct a0|].
    injection E as -> <-. exists (a1 ++ (e, L) :: t). split; [done|]. rewrite Forall_cons in Hall. cbn [app].
    rewrite Forall_cons, Forall_app, Forall_cons. tauto.
  - links.
Qed.

(** The new place of the last chain is one of its own links. *)
Lemma move_inner t1 P t2 :
  t = t1 ++ (m, P) :: t2 ->
  Rep d (n + 1) (((n, L) :: t) :: cs) [e] -> homed f0 ((n, L) :: t) -> Homed f0 cs -> (length t1 < fuel)%nat ->
  exists d', (d1 ← copy_link d e n; next ← link_next d1 m; d2 ← movelink fuel d1 m e next; set_next d2 m e) = Ret d' /\
    moved d (((n, L) :: t) :: cs) d'.
Proof.
  intros -> HR Hc Hf Hfuel. destruct (copy_to_hole d (n + 1) [] _ _ _ _ _ HR) as (d1 & -> & U1 & _ & _ & Ht & Hsegs).
  rewrite bind_ret. assert (NoDup (m :: e :: t1.*1 ++ t2.*1 ++ (concat cs).*1)) as Hnd.
  { assert (NoDup (n :: m :: e :: t1.*1 ++ t2.*1 ++ (concat cs).*1)) as H by (eapply Rep_distinct; [exact HR|links]). by inversion H. }
  apply seg_app in Ht as [Ht1 [Hm1 Ht2]].
  destruct (relink fuel d1 m e L t1 m P t2 cs) as (d2 & -> & Hl & Hb & Hs & Hcs); try done; [apply U1| | |eapply hole_uint, HR|].
  { split; [|done]. destruct (upd_at _ _ _ _ _ U1) as [H1 H2]. split; [|done]. rewrite H1, head_app. done. }
  { distinct. outside. }
  exists d2. split; [done|]. split; [rewrite Hl; apply U1|]. exists (((m, P) :: (e, L) :: t1 ++ t2) :: cs). split; [|split].
  - eapply Rep_swap; [exact HR|links|rewrite Hl; apply U1|done|by constructor].
  - constructor; [|eapply Homed_keep; [exact HR|left|done]]. destruct Hc as (s & q & t0 & [= <- <- <-] & Hall).
    exists m, P, ((e, L) :: t1 ++ t2). split; [done|].
    rewrite Forall_cons, Forall_app, Forall_cons in Hall. rewrite !Forall_cons, Forall_app. destruct Hall as (H1 & H2 & H3 & H4).
    split_and!; try (by apply Hmove); (eapply Forall_impl; [eassumption|]; intros p; apply Hmove).
  - links.
Qed.

(** The new place holds a link of a chain that begins elsewhere. *)
Lemma move_out a P u cs1 :
  cs = (a ++ (m, P) :: u) :: cs1 ->
  Rep d (n + 1) (((n, L) :: t) :: cs) [e] -> homed f0 ((n, L) :: t) -> Homed f0 cs -> f0 P <> m ->
  (length a <= fuel)%nat ->
  exists d', (d1 ← copy_link d e m; d2 ← copy_link d1 m n; movelink fuel d2 m (f0 P) e) = Ret d' /\
    moved d (((n, L) :: t) :: cs) d'.
Proof.
  intros -> HR Hc Hf HP Hfuel. pose proof (Homed_keep _ _ _ _ HR ltac:(left) Hf) as Hf1.
  apply Forall_cons in Hf as [Hca Hf]. apply Forall_cons in Hf1 as [Hca1 Hf1].
  pose proof (homed_head _ _ Hca m P ltac:(set_solver)) as Ehead.
  destruct a as [|x a0 _] using rev_ind; [simpl in Ehead; congruence|]. destruct x as [p q].
  assert (NoDup (p :: m :: n :: e :: a0.*1 ++ u.*1 ++ t.*1 ++ (concat cs1).*1)) as Hnd by (eapply Rep_distinct; [exact HR|links]).
  assert (NoDup (a0 ++ [(p, q)]).*1) as Hnda.
  { eapply (NoDup_app _ (m :: n :: e :: u.*1 ++ t.*1 ++ (concat cs1).*1)), Rep_distinct; [exact HR|links]. }
  distinct. rewrite Permutation_swap in HR.
  destruct (copy_to_hole _ _ _ _ _ _ _ _ HR) as (d1 & -> & U1 & Hm1 & Ha & Hu & [[Hn Ht] Hsegs]%Forall_cons). rewrite bind_ret.
  destruct (copy_link_upd d1 m n (head t NO_RECORD) L) as (d2 & -> & U2); [apply U1|by eapply holds_fits|done|]. rewrite bind_ret.
  assert (f0 P = head (a0 ++ [(p, q)]) m) as -> by (rewrite <- Ehead, <- app_assoc; by destruct a0 as [|[]]).
  destruct (movelink_seg fuel d2 a0 p q m e) as (d3 & -> & U3 & Ha3);
    [eapply seg_upd; [exact U2|outside|done]|outside|done|apply U2|eapply hole_uint, HR|rewrite length_app in Hfuel; simpl in Hfuel; lia|].
  exists d3. split; [done|].
  assert (length d3 = length d) as Hl by (by rewrite (upd_len _ _ _ _ _ U3), (upd_len _ _ _ _ _ U2), (upd_len _ _ _ _ _ U1)).
  split; [done|]. exists (((m, L) :: t) :: ((a0 ++ [(p, q)]) ++ (e, P) :: u) :: cs1). split; [|split].
  - eapply Rep_swap; [exact HR|links|done|apply U3|]. constructor; [|constructor].
    + split; [apply (upd_out _ _ _ _ _ U3); [by apply not_eq_sym|apply U2]|]. do 2 (eapply seg_upd; [done..|]). done.
    + apply seg_app. split; [done|]. split; [|do 2 (eapply seg_upd; [done..|]); done].
      apply (upd_out _ _ _ _ _ U3); [by apply not_eq_sym|]. apply (upd_out _ _ _ _ _ U2); [by apply not_eq_sym|apply U1].
    + do 2 (eapply segs_upd; [done..|]). done.
  - constructor; [|constructor; [|done]].
    + destruct Hc as (s & q0 & t0 & [= <- <- <-] & Hall). exists m, L, t. split; [done|].
      rewrite Forall_cons in Hall |- *. destruct Hall as [H1' H2']. split; [by apply Hmove|].
      eapply Forall_impl; [exact H2'|]. intros y. apply Hmove.
    + destruct Hca1 as (s & q0 & t0 & E & Hall). exists s, q0. rewrite Forall_app, Forall_cons in Hall.
      destruct (a0 ++ [(p, q)]) as [|y a1] eqn:Ea; [by destruct a0|]. injection E as -> <-.
      exists (a1 ++ (e, P) :: u). split; [done|]. rewrite Forall_cons in Hall. cbn [app].
      rewrite Forall_cons, Forall_app, Forall_cons. tauto.
  - links.
Qed.

(** The last chain joins the one that begins at its new place. *)
Lemma merge P u cs1 :
  cs = ((m, P) :: u) :: cs1 ->
  Rep d (n + 1) (((n, L) :: t) :: cs) [e] -> homed f0 ((n, L) :: t) -> Homed f0 cs -> (length t < fuel)%nat ->
  exists d', (d1 ← copy_link d e n; next ← link_next d1 m; d2 ← movelink fuel d1 NO_RECORD e next; set_next d2 m e) = Ret d' /\
    moved d (((n, L) :: t) :: cs) d'.
Proof.
  intros -> HR Hc Hf Hfuel. pose proof (Homed_keep _ _ _ _ HR ltac:(left) Hf) as Hf1.
  apply Forall_cons in Hf as [Hca Hf]. apply Forall_cons in Hf1 as [Hca1 Hf1].
  assert (NO_RECORD ∉ e :: t.*1) as Hno.
  { apply not_elem_of_cons. split; [|pose proof (NO_RECORD_out _ _ _ _ _ HR) as Hno; simpl in Hno; distinct; done].
    pose proof (rep_width _ _ _ _ HR). assert (0 <= e < n + 1); [|lia]. apply (Rep_range _ _ _ _ e HR). set_solver. }
  assert (NoDup (m :: e :: t.*1 ++ u.*1 ++ (concat cs1).*1)) as Hnd.
  { assert (NoDup (n :: m :: e :: t.*1 ++ u.*1 ++ (concat cs1).*1)) as H by (eapply Rep_distinct; [exact HR|links]). by inversion H. }
  destruct (copy_to_hole d (n + 1) [] _ _ _ _ _ HR) as (d1 & -> & U1 & _ & _ & Ht & [[Hmh Hu] Hsegs]%Forall_cons).
  rewrite bind_ret.
  destruct (relink fuel d1 NO_RECORD e L t m P u cs1) as (d2 & -> & Hl & Hb & Hs & Hcs); try done; [apply U1| |eapply hole_uint, HR|].
  { split; [apply U1|done]. }
  exists d2. split; [done|]. split; [rewrite Hl; apply U1|]. exists (((m, P) :: (e, L) :: t ++ u) :: cs1). split; [|split].
  - eapply Rep_swap; [exact HR|links|rewrite Hl; apply U1|done|by constructor].
  - constructor; [|done]. destruct Hc as (s & q & t0 & [= <- <- <-] & Hall).
    destruct Hca1 as (s1 & q1 & t1 & [= <- <- <-] & Hall1). exists m, P, ((e, L) :: t ++ u). split; [done|].
    rewrite Forall_cons in Hall, Hall1. rewrite !Forall_cons, Forall_app. destruct Hall as [H1 H2], Hall1 as [H3 H4].
    split_and!; try done; [by apply Hmove|]. eapply Forall_impl; [exact H2|]. intros p. apply Hmove.
  - links.
Qed.

End Move.

Section Delete.
Context (heap : Z -> bytes).
Abbreviation key_of := (key_of heap).
Abbreviation keyed := (keyed heap).
Abbreviation home := (home heap).
Abbreviation Inv := (Inv heap).

(** The places of records in a table of one link less. *)
Lemma home_before h b0 b n r :
  geom b n -> 0 < n -> (forall v, hash_mask v b0 (n + 1) = hash_mask v b (n + 1)) ->
  let half := Z.shiftr b 1 in
  (home h b0 (n + 1) r <> n -> home h b n r = home h b0 (n + 1) r) /\
  (home h b0 (n + 1) r = n -> home h b n r = n - half).
Proof.
  intros Hg Hn Hm half. unfold HashInv.home. rewrite Hm, mask_split by done.
  destruct (negb (Z.land (hashval h (key_of h r)) (Z.shiftr b 1) =? 0)); cbn [andb].
  - destruct (Z.eqb_spec (hash_mask (hashval h (key_of h r)) b n) (n - Z.shiftr b 1)); [done|].
    split; [done|]. pose proof (mask_range b n (hashval h (key_of h r)) Hg Hn). lia.
  - split; [done|]. pose proof (mask_range b n (hashval h (key_of h r)) Hg Hn). lia.
Qed.

(** A record in place of its hash value. *)
Lemma place_home h b n r : hash_mask (hashval h (key_of h r)) b n = home h b n r.
Proof. done. Qed.

Lemma in_chain (cs : list chain) i : i ∈ (concat cs).*1 -> exists a r b cs', cs ≡ₚ (a ++ (i, r) :: b) :: cs'.
Proof.
  intros Hin. apply list_elem_of_fmap in Hin as ([j r] & -> & Hin). apply list_elem_of_In, in_concat in Hin as (c & Hc & Hin).
  apply list_elem_of_In, list_elem_of_split in Hc as (c1 & c2 & ->).
  apply list_elem_of_In, list_elem_of_split in Hin as (a & b & ->). exists a, r, b, (c1 ++ c2). solve_Permutation.
Qed.

Lemma keyed_in h (cs : list chain) a i r t : Forall (keyed h) (concat ((a ++ (i, r) :: t) :: cs)).*2 -> keyed h r.
Proof. simpl. rewrite !fmap_app. simpl. rewrite !Forall_app, Forall_cons. tauto. Qed.

Section MoveLast.
Context (h : OB_HASH) (b0 b n : Z) (d : bytes) (e : Z).
Abbreviation f0 := (home h b0 (n + 1)).
Abbreviation f1 := (home h b n).
Context (m : Z).
Hypothesis Hm : 0 <= m < n.
Hypothesis Hkeep : forall r, f0 r <> n -> f1 r = f0 r.
Hypothesis Hmove : forall r, f0 r = n -> f1 r = m.
Hypothesis Hu : u32 (n + 1) = n + 1.
Hypothesis Hen : e <> n.

(** The last link is not the first of its chain. *)
Lemma move_last_in_chain a L t cs :
  Rep d (n + 1) ((a ++ (n, L) :: t) :: cs) [e] -> Homed f0 ((a ++ (n, L) :: t) :: cs) ->
  Forall (keyed h) (concat ((a ++ (n, L) :: t) :: cs)).*2 -> f0 L <> n ->
  exists d', move_last heap (Z.to_nat (n + 1)) h b0 b n d e = Ret d' /\ moved f1 n d ((a ++ (n, L) :: t) :: cs) d'.
Proof.
  intros HR [Hc Hf]%Forall_cons Hk HL. pose proof (homed_head _ _ Hc n L ltac:(set_solver)) as Ehead.
  destruct a as [|[s P] a]; [simpl in Ehead; congruence|]. simpl in Ehead. subst s.
  pose proof (rep_segs _ _ _ _ HR) as [Hs Hsegs]%Forall_cons. pose proof Hs as [HhP [_ [HhL _]]%seg_app].
  assert (f0 P = f0 L) as EP. { destruct Hc as (s & q & t0 & [= <- <- <-] & [H _]%Forall_cons). done. }
  assert (f0 L <> e). { destruct (Rep_disjoint _ _ _ _ _ _ _ _ HR) as (_ & H & _ & _). simpl in H. distinct. done. }
  unfold move_last. destruct (Z.eqb_spec e n); [done|]. rewrite (proj2 HhL), bind_ret, rec_hashnr_val, bind_ret by (by eapply keyed_in).
  rewrite place_home, Hkeep by done. destruct (Z.eqb_spec (f0 L) e); [done|].
  rewrite (proj2 HhP), bind_ret, rec_hashnr_val, bind_ret by (eapply (keyed_in h cs []); exact Hk).
  rewrite Hu, !place_home, EP, (Hkeep P), EP, !Z.eqb_refl by congruence. cbn [negb andb].
  destruct (Z.eqb_spec (f0 L) n); [done|]. cbn [negb].
  apply (move_in_chain f0 f1 n m); try done.
  pose proof (Rep_length _ _ _ _ HR ltac:(lia)) as Hl. simpl in Hl |- *. rewrite !length_app in Hl. simpl in Hl. lia.
Qed.

Lemma moved_perm cs cs' d' : cs ≡ₚ cs' -> moved f1 n d cs d' -> moved f1 n d cs' d'.
Proof. intros Hp (Hl & cs1 & H1 & H2 & H3). split; [done|]. exists cs1. by rewrite <- Hp. Qed.

(** The new place of the last chain belongs to another chain. *)
Lemma move_last_other L t a P u cs :
  Rep d (n + 1) (((n, L) :: t) :: (a ++ (m, P) :: u) :: cs) [e] -> Homed f0 (((n, L) :: t) :: (a ++ (m, P) :: u) :: cs) ->
  Forall (keyed h) (concat (((n, L) :: t) :: (a ++ (m, P) :: u) :: cs)).*2 -> f0 L = n -> m <> e ->
  exists d', move_last heap (Z.to_nat (n + 1)) h b0 b n d e = Ret d' /\
    moved f1 n d (((n, L) :: t) :: (a ++ (m, P) :: u) :: cs) d'.
Proof.
  intros HR [Hc Hf]%Forall_cons Hk HL Hme. pose proof (rep_segs _ _ _ _ HR) as [[HhL _] [Hsa _]%Forall_cons]%Forall_cons.
  pose proof (Rep_length _ _ _ _ HR ltac:(lia)) as Hl. simpl in Hl. rewrite !length_app in Hl. simpl in Hl.
  apply seg_app in Hsa as [_ [HhP _]].
  assert (f0 P <> n) as HP.
  { pose proof (heads_ne _ _ _ _ _ _ n HR ltac:(left) Hf) as [Hne _]%Forall_cons. apply Forall_cons in Hf as [Hca _].
    by rewrite <- (homed_head _ _ Hca m P ltac:(set_solver)). }
  unfold move_last. destruct (Z.eqb_spec e n); [done|].
  rewrite (proj2 HhL), bind_ret, rec_hashnr_val, bind_ret by (eapply (keyed_in h _ []); exact Hk).
  rewrite place_home, (Hmove L) by done. destruct (Z.eqb_spec m e); [done|].
  rewrite (proj2 HhP), bind_ret, rec_hashnr_val, bind_ret.
  2: { change (concat (((n, L) :: t) :: (a ++ (m, P) :: u) :: cs)) with (((n, L) :: t) ++ concat ((a ++ (m, P) :: u) :: cs)) in Hk.
       rewrite fmap_app, Forall_app in Hk. eapply keyed_in, Hk. }
  rewrite Hu, !place_home, (Hkeep P), HL by done.
  destruct (Z.eqb_spec m (f0 P)) as [EP|EP]; cbn [negb].
  - destruct (Z.eqb_spec n (f0 P)); [lia|]. cbn [andb].
    assert (a = []) as ->.
    { apply Forall_cons in Hf as [Hca _]. rewrite Permutation_swap in HR. by eapply home_first. }
    eapply (merge f0 f1 n m); try done. lia.
  - eapply (move_out f0 f1 n m); try done; lia.
Qed.

(** The last link is the first of its chain, whose place disappears. *)
Lemma move_last_head L t cs :
  Rep d (n + 1) (((n, L) :: t) :: cs) [e] -> Homed f0 (((n, L) :: t) :: cs) ->
  Forall (keyed h) (concat (((n, L) :: t) :: cs)).*2 -> f0 L = n ->
  exists d', move_last heap (Z.to_nat (n + 1)) h b0 b n d e = Ret d' /\ moved f1 n d (((n, L) :: t) :: cs) d'.
Proof.
  intros HR [Hc Hf]%Forall_cons Hk HL. pose proof (rep_segs _ _ _ _ HR) as [[HhL Ht] Hsegs]%Forall_cons.
  pose proof (Rep_length _ _ _ _ HR ltac:(lia)) as Hl. simpl in Hl. rewrite !length_app in Hl.
  unfold move_last. destruct (Z.eqb_spec e n); [done|]. rewrite (proj2 HhL), bind_ret, rec_hashnr_val, bind_ret by (eapply (keyed_in h cs []); exact Hk).
  rewrite place_home, (Hmove L) by done. destruct (Z.eqb_spec m e) as [Eme|Eme].
  { apply (move_to_place f0 f1 n m); done. }
  assert (m ∈ t.*1 \/ m ∈ (concat cs).*1) as [Hin|Hin].
  { assert (m ∈ (concat (((n, L) :: t) :: cs)).*1 ++ [e]) as Hin by (apply (Rep_range _ _ _ _ m HR); lia).
    simpl in Hin. rewrite fmap_app in Hin. apply elem_of_cons in Hin as [?|Hin]; [lia|]. set_solver. }
  - apply list_elem_of_fmap in Hin as ([i P] & E & Hin). simpl in E. subst i. apply list_elem_of_split in Hin as (t1 & t2 & ->).
    assert (f0 P = n) as HP.
    { destruct Hc as (s & q & t0 & [= <- <- <-] & Hall). rewrite Forall_cons, Forall_app, Forall_cons in Hall. apply Hall. }
    apply seg_app in Ht as [_ [HhP _]]. rewrite (proj2 HhP), bind_ret, rec_hashnr_val, bind_ret.
    2: { eapply (keyed_in h cs ((n, L) :: t1)); exact Hk. }
    rewrite Hu, !place_home, (Hmove P), HL, HP, !Z.eqb_refl by done. cbn [negb andb].
    eapply (move_inner f0 f1 n m); try done. rewrite length_app in Hl. simpl in Hl. lia.
  - apply in_chain in Hin as (a & P & u & cs2 & Hp). rewrite Hp in HR, Hf, Hk, Hsegs, Hl.
    destruct (move_last_other L t a P u cs2) as (d' & E & Hmoved); try done; [by constructor|].
    exists d'. split; [|by eapply moved_perm; [rewrite Hp|]]. rewrite <- E. unfold move_last.
    destruct (Z.eqb_spec e n); [done|]. rewrite (proj2 HhL), bind_ret, rec_hashnr_val, bind_ret by (eapply (keyed_in h _ []); exact Hk).
    rewrite (place_home h b n L), (Hmove L) by done. by destruct (Z.eqb_spec m e).
Qed.

End MoveLast.

(** The link that became free is the last one. *)
Lemma move_last_free h b0 b n d cs :
  Rep d (n + 1) cs [n] -> Homed (home h b0 (n + 1)) cs -> geom b n -> 0 <= n ->
  (forall v, hash_mask v b0 (n + 1) = hash_mask v b (n + 1)) -> Homed (home h b n) cs.
Proof.
  intros HR Hf Hg Hn Hmask. rewrite Forall_forall in Hf |- *. intros c Hc. pose proof (Hf c Hc) as (s & r & t & -> & _).
  assert (s <> n) as Hs.
  { apply list_elem_of_split in Hc as (c1 & c2 & ->). apply Rep_NoDup, NoDup_app in HR as (_ & HR & _). intros ->.
    apply (HR n); [|left]. rewrite concat_app, fmap_app. simpl. set_solver. }
  destruct (decide (n = 0)) as [->|Hn0].
  - assert (0 <= s < 0 + 1); [|lia]. apply (Rep_range _ _ _ _ s HR). apply list_elem_of_split in Hc as (c1 & c2 & ->).
    rewrite concat_app, fmap_app. simpl. set_solver.
  - apply (homed_keep (home h b0 (n + 1)) (home h b n) n); [|by apply Hf|done].
    intros q. apply (home_before h b0 b n q Hg ltac:(lia) Hmask).
Qed.

Lemma move_last_ok h b0 b n d e cs :
  Rep d (n + 1) cs [e] -> Homed (home h b0 (n + 1)) cs -> Forall (keyed h) (concat cs).*2 ->
  geom b n -> 0 <= n -> (forall v, hash_mask v b0 (n + 1) = hash_mask v b (n + 1)) ->
  exists d', move_last heap (Z.to_nat (n + 1)) h b0 b n d e = Ret d' /\ length d' = length d /\
    exists cs', Rep d' n cs' [] /\ Homed (home h b n) cs' /\ (concat cs').*2 ≡ₚ (concat cs).*2.
Proof.
  intros HR Hf Hk Hg Hn Hmask. destruct (decide (e = n)) as [->|Hen].
  { exists d. unfold move_last. rewrite Z.eqb_refl. split; [done|]. split; [done|]. exists cs.
    split; [by apply Rep_shrink|]. split; [by eapply move_last_free|done]. }
  assert (0 <= e < n + 1) as He by (apply (Rep_range _ _ _ _ e HR); set_solver).
  assert (0 < n) as Hpos by lia. set (m := n - Z.shiftr b 1).
  assert (0 <= m < n) as Hm. { destruct (geom_pow b n Hg Hpos) as (k & Hk0 & _ & Hkn & Hs). unfold m. lia. }
  assert (u32 (n + 1) = n + 1) as Hu.
  { pose proof (rep_width _ _ _ _ HR) as Hw. change NO_RECORD with 4294967295 in Hw. apply wrap_small. unfold uint. lia. }
  pose proof (fun r => proj1 (home_before h b0 b n r Hg Hpos Hmask)) as Hkeep.
  pose proof (fun r => proj2 (home_before h b0 b n r Hg Hpos Hmask)) as Hmove.
  destruct (Rep_chain _ _ _ _ n HR) as (a & L & t & cs1 & Hp); [lia|set_solver|]. rewrite Hp in HR, Hf, Hk.
  assert (exists d', move_last heap (Z.to_nat (n + 1)) h b0 b n d e = Ret d' /\
    moved (home h b n) n d ((a ++ (n, L) :: t) :: cs1) d') as (d' & E & Hl & cs' & HR' & Hf' & Hp').
  { destruct (decide (home h b0 (n + 1) L = n)) as [HL|HL].
    - apply Forall_cons in Hf as [Hc Hf]. assert (a = []) as -> by (by eapply home_first).
      apply (move_last_head h b0 b n d e m); try done. by constructor.
    - by apply (move_last_in_chain h b0 b n d e m). }
  exists d'. split; [done|]. split; [done|]. exists cs'. split; [by apply Rep_shrink|]. split; [done|]. by rewrite Hp', Hp.
Qed.

(** ** hash_delete *)

(** A search for a record of the table ends at it. *)
Lemma delete_search_found h recs d cs record :
  Inv h recs -> Rep d (records h) cs [] -> Homed (home h (blength h) (records h)) cs -> (concat cs).*2 ≡ₚ recs ->
  0 < records h ->
  let found := delete_search (Z.to_nat (records h)) d record (-1) (home h (blength h) (records h) record) in
  (record ∉ recs -> found = Ret None) /\
  (record ∈ recs -> exists a i t cs', cs ≡ₚ (a ++ (i, record) :: t) :: cs' /\ found = Ret (Some (last_slot a (-1), i))).
Proof.
  intros HI HR Hf Hp Hpos found. split; intros Hrec.
  - pose proof (mask_range _ _ (hashval h (key_of h record)) (inv_geom _ _ _ HI) Hpos) as Hs.
    destruct (Rep_chain _ _ _ _ _ HR Hs) as (a & r & b & cs' & Hc); [set_solver|]. rewrite Hc in HR.
    pose proof (rep_segs _ _ _ _ HR) as [[_ Hseg]%seg_app _]%Forall_cons. pose proof (NO_RECORD_out _ _ _ _ _ HR) as Hno.
    pose proof (Rep_length _ _ _ _ HR ltac:(lia)) as Hlen. simpl in Hlen. rewrite !length_app in Hlen. simpl in Hlen.
    rewrite fmap_app in Hno.
    destruct (delete_search_ok (Z.to_nat (records h)) d record (-1) _ Hseg) as [[_ E]|(a1 & i & t & E1 & _)];
      [set_solver|simpl; lia|done|exact E|].
    destruct Hrec. rewrite <- Hp, Hc, E1. repeat (progress (simpl; rewrite ?fmap_app)). set_solver.
  - rewrite <- Hp in Hrec. destruct (Homed_chain _ _ _ Hf Hrec) as (q & t & cs' & Hc & _ & Hin). rewrite Hc in HR.
    pose proof (rep_segs _ _ _ _ HR) as [Hseg _]%Forall_cons. pose proof (NO_RECORD_out _ _ _ _ _ HR) as Hno.
    pose proof (Rep_length _ _ _ _ HR ltac:(lia)) as Hlen. simpl in Hlen. rewrite !length_app in Hlen.
    destruct (delete_search_ok (Z.to_nat (records h)) d record (-1) _ Hseg Hno) as [[Hn _]|(a1 & i & t1 & E1 & E)];
      [simpl; lia|done|done|]. exists a1, i, t1, cs'. rewrite <- E1. split; [done|exact E].
Qed.

(** hash_delete of a record that is in the table removes one occurrence of it, gives it
    to the free function when there is one, and keeps all other records; for a record that
    is not in the table it says so and changes nothing. *)
Lemma delete_removes h recs record :
  Inv h recs -> keyed h record ->
  exists notfound freed h', hash_delete heap h record = Ret (notfound, freed, h') /\
    if notfound : bool then (record ∉ recs) /\ h' = h /\ freed = []
    else freed = (if free h then [record] else []) /\ exists recs', recs ≡ₚ record :: recs' /\ Inv h' recs' /\
      exists n b c a, h' = with_array h n b c a.
Proof.
  intros HI Hrec. unfold hash_delete. pose proof (Inv_length _ _ _ HI) as Hlen. pose proof (records_nonneg _ _ _ HI) as Hn.
  destruct (Z.eqb_spec (records h) 0) as [E|E].
  { exists true, [], h. split; [done|]. split; [|done]. destruct recs; [apply not_elem_of_nil|simpl in Hlen; lia]. }
  destruct (inv_chains _ _ _ HI) as (d & cs & Hd & HR & Hf & Hp & Hl). unfold mem. rewrite Hd. cbn [of_option]. rewrite bind_ret.
  rewrite rec_hashnr_val, bind_ret, place_home by done.
  destruct (delete_search_found h recs d cs record HI HR Hf Hp ltac:(lia)) as [Hout Hin].
  destruct (decide (record ∈ recs)) as [Hr|Hr]; [|rewrite Hout, bind_ret by done; by exists true, [], h].
  destruct (Hin Hr) as (a & i & t & cs' & Hc & ->). rewrite bind_ret. rewrite Hc in HR, Hf. apply Forall_cons in Hf as [Hca Hf].
  destruct (unlink_ok _ _ _ _ _ _ _ _ HR Hca Hf) as (d1 & e & -> & Hl1 & cs1 & HR1 & Hf1 & Hp1). rewrite bind_ret.
  set (n := records h - 1). assert (records h = n + 1) as En by lia. rewrite <- Hc, Hp in Hp1.
  destruct (geom_shrink (blength h) n) as [Hg Hmask]; [rewrite <- En; apply HI|lia|].
  set (b := if n <? Z.shiftr (blength h) 1 then Z.shiftr (blength h) 1 else blength h) in *. rewrite En in HR1, Hf1.
  pose proof (inv_keys _ _ _ HI) as Hk. rewrite Hp1 in Hk. apply Forall_cons in Hk as [_ Hk].
  destruct (move_last_ok h (blength h) b n d1 e cs1 HR1 Hf1 Hk Hg ltac:(lia) Hmask) as (d2 & E2 & Hl2 & cs2 & HR2 & Hf2 & Hp2).
  rewrite En, E2, bind_ret. exists false. do 2 eexists. split; [reflexivity|]. split; [done|].
  exists (concat cs1).*2. split; [done|]. split; [|by do 4 eexists]. destruct HI as [_ _ He Hs Hb Hinc _]. unfold ma_pop_dynamic.
  cbn [elements with_buffer]. rewrite He, (proj2 (Z.eqb_neq _ _) E). cbn [negb snd].
  assert (u32 (records h - 1) = n) as Eu by (pose proof (rep_width _ _ _ _ HR); apply wrap_small; change NO_RECORD with 4294967295 in *; unfold uint; lia).
  split; cbn [records blength array with_array with_buffer buffer elements size_of_element max_element alloc_increment]; try done.
  exists d2, cs2. split_and!; try done. lia.
Qed.

End Delete.
End HashDelete.
