(* ===== verification/HashUpdate.v ===== *)
(** hash_update: a record whose key has changed moves to the chain of its new key, unless
    the link it leaves is the place of that chain; then the table is damaged. *)

From stdpp Require Import tactics sets.
From S2P Require Import Prelude IntStore DynArray Hash HashInv HashSearch HashInsert HashDelete HashTable.

Module HashUpdate.
Import DynArray Hash HashInv HashSearch HashInsert HashDelete.

Lemma update_unlink_ok f d n a i record t cs :
  let c := a ++ (i, record) :: t in
  Rep d n (c :: cs) [] -> homed f c -> Homed f cs ->
  exists d' e, update_unlink d (last_slot a (-1)) i = Ret (d', e) /\ unlinked f d n c cs record d' e.
Proof.
  intros c HR Hc Hf. unfold c in *. clear c. pose proof (rep_segs _ _ _ _ HR) as [[Hsa [Hh Ht]]%seg_app Hsegs]%Forall_cons.
  pose proof (rep_bytes _ _ _ _ HR) as Hb. unfold update_unlink. rewrite (proj1 Hh), bind_ret.
  destruct (holds_uint _ _ _ _ Hb Hh) as [Hu32 _]. destruct a as [|[p q] a _] using rev_ind.
  - cbn [last_slot last]. simpl app in *. change (-1 =? -1) with true. destruct t as [|[j q] t]; cbn [HashInv.head].
    + change (NO_RECORD =? NO_RECORD) with true. cbn [negb]. exists d, i. split; [done|]. by apply unlink_only.
    + destruct (slot_valid _ _ _ _ j q HR) as [_ Hj]; [simpl; set_solver|]. destruct (Z.eqb_spec j NO_RECORD) as [|_]; [done|].
      cbn [negb]. destruct Ht as [Hhj Ht].
      destruct (copy_link_upd d i j (head t NO_RECORD) q Hb) as (d' & -> & U); [by eapply holds_fits|done|]. rewrite bind_ret.
      exists d', j. split; [done|]. by apply unlink_first.
  - rewrite last_slot_snoc. destruct (slot_valid _ _ _ _ p q HR) as [Hp1 _]; [simpl; set_solver|].
    destruct (Z.eqb_spec p (-1)); [done|]. apply seg_app in Hsa as [Ha0 [Hp _]].
    destruct (set_next_upd d p (head t NO_RECORD) q Hb) as (d' & -> & U); [by eapply holds_fits|done|apply Hp|]. rewrite bind_ret.
    exists d', i. split; [done|]. by apply unlink_inner.
Qed.

(** The record at the free link, behind the first link of its chain. *)
Lemma relink_head f d n r t cs e record pos :
  Rep d n (((pos, r) :: t) :: cs) [e] -> homed f ((pos, r) :: t) -> Homed f cs -> f record = pos -> uint 64 record ->
  exists d' cs', (next ← link_next d pos; d1 ← set_link d e record next; set_next d1 pos e) = Ret d' /\
    length d' = length d /\ Rep d' n cs' [] /\ Homed f cs' /\
    (concat cs').*2 ≡ₚ record :: (concat (((pos, r) :: t) :: cs)).*2.
Proof.
  intros HR Hc Hf Hpos Hrec. pose proof (rep_segs _ _ _ _ HR) as [[Hh Ht] Hsegs]%Forall_cons. pose proof (rep_bytes _ _ _ _ HR) as Hb.
  destruct (holds_uint _ _ _ _ Hb Hh) as [Hu32 _]. rewrite (proj1 Hh), bind_ret.
  assert (NoDup (pos :: e :: t.*1 ++ (concat cs).*1)) as Hnd by (eapply Rep_distinct; [exact HR|links]). distinct.
  assert (fits d e) as Hfit by (eapply Rep_fits, Rep_range; [exact HR|exact HR|set_solver]).
  destruct (set_link_upd d e record (head t NO_RECORD) Hb Hfit Hrec Hu32) as (d1 & -> & U1). rewrite bind_ret.
  assert (holds d1 pos (head t NO_RECORD) r) as Hh1 by (by apply (upd_out _ _ _ _ _ U1)).
  destruct (set_next_upd d1 pos e r) as (d2 & -> & U2); [apply U1|by eapply holds_fits|eapply hole_uint, HR|apply Hh1|].
  assert (length d2 = length d) as Hl by (by rewrite (upd_len _ _ _ _ _ U2), (upd_len _ _ _ _ _ U1)).
  exists d2, (((pos, r) :: (e, record) :: t) :: cs). split; [done|]. split; [done|]. split; [|split].
  - eapply Rep_swap; [exact HR|links|done|apply U2|]. constructor; [|do 2 (eapply segs_upd; [done..|]); done].
    split; [apply U2|]. split; [apply (upd_out _ _ _ _ _ U2); [by apply not_eq_sym|apply U1]|].
    do 2 (eapply seg_upd; [done..|]). done.
  - constructor; [|done]. destruct Hc as (s & q & t0 & [= <- <- <-] & Hall). exists pos, r, ((e, record) :: t). split; [done|].
    rewrite !Forall_cons in Hall |- *. destruct Hall as [? ?]. split; [done|]. by constructor.
  - links.
Qed.

(** The record starts a chain where another chain had a link, which moves to the free one. *)
Lemma relink_other f d n a r t cs e record pos fuel :
  Rep d n ((a ++ (pos, r) :: t) :: cs) [e] -> homed f (a ++ (pos, r) :: t) -> Homed f cs -> f record = pos -> uint 64 record ->
  f r <> pos -> (length a <= fuel)%nat ->
  exists d' cs', (d1 ← copy_link d e pos; d2 ← movelink fuel d1 pos (f r) e; set_link d2 pos record NO_RECORD) = Ret d' /\
    length d' = length d /\ Rep d' n cs' [] /\ Homed f cs' /\
    (concat cs').*2 ≡ₚ record :: (concat ((a ++ (pos, r) :: t) :: cs)).*2.
Proof.
  intros HR Hc Hf Hpos Hrec Hr Hfuel. destruct (copy_to_hole _ _ _ _ _ _ _ _ HR) as (d1 & -> & U1 & Hh & Hsa & Ht & Hsegs).
  rewrite bind_ret. pose proof (homed_head _ _ Hc pos r ltac:(set_solver)) as Ehead.
  destruct a as [|x a0 _] using rev_ind; [simpl in Ehead; congruence|]. destruct x as [p q].
  destruct (Rep_disjoint _ _ _ _ _ _ _ _ HR) as (Hie & He & Hi & Hnda & _).
  assert (NoDup (p :: pos :: e :: a0.*1 ++ t.*1 ++ (concat cs).*1)) as Hnd by (eapply Rep_distinct; [exact HR|links]).
  assert (f r = head (a0 ++ [(p, q)]) pos) as E by (rewrite <- Ehead, <- app_assoc; by destruct a0 as [|[]]). rewrite E. distinct.
  destruct (movelink_seg fuel d1 a0 p q pos e) as (d2 & -> & U2 & Ha2);
    [done|outside|done|apply U1|eapply hole_uint, HR|rewrite length_app in Hfuel; simpl in Hfuel; lia|].
  rewrite bind_ret. assert (holds d2 pos (head t NO_RECORD) r) as Hh2 by (apply (upd_out _ _ _ _ _ U2); [by apply not_eq_sym|done]).
  destruct (set_link_upd d2 pos record NO_RECORD) as (d3 & -> & U3); [apply U2|by eapply holds_fits|done|by apply wrap_uint|].
  assert (length d3 = length d) as Hl by (by rewrite (upd_len _ _ _ _ _ U3), (upd_len _ _ _ _ _ U2), (upd_len _ _ _ _ _ U1)).
  exists d3. eexists. split; [done|]. split; [done|].
  apply (place_other_rep f d n cs e record Hrec (a0 ++ [(p, q)]) t pos r HR Hc Hf Hpos); try done; [apply U3|..].
  - eapply seg_upd; [exact U3|outside|done].
  - apply (upd_out _ _ _ _ _ U3); [by apply not_eq_sym|]. apply (upd_out _ _ _ _ _ U2); [by apply not_eq_sym|apply U1].
  - do 2 (eapply seg_upd; [done..|]). done.
  - apply U3.
  - do 2 (eapply segs_upd; [done..|]). done.
Qed.

Lemma Homed_ext f g (cs : list chain) : (forall r, r ∈ (concat cs).*2 -> f r = g r) -> Homed f cs -> Homed g cs.
Proof.
  intros He. rewrite !Forall_forall. intros Hf c Hc. destruct (Hf c Hc) as (s & r & t & -> & Hall). exists s, r, t. split; [done|].
  rewrite Forall_forall in Hall |- *. intros p Hp. rewrite <- He; [by apply Hall|]. apply list_elem_of_fmap_2.
  apply list_elem_of_In, in_concat. exists ((s, r) :: t). by rewrite <- !list_elem_of_In.
Qed.

(** The link that hash_update takes the record from. *)
Definition freed_link (h : OB_HASH) (record : Z) (old_key : bytes) : cres Z :=
  d ← mem (array h);
  onr ← call_hashnr h old_key (Z.of_nat (length old_key));
  found ← update_search (S (Z.to_nat (records h))) d record (-1) (hash_mask onr (blength h) (records h));
  match found with Some (previous, pos) => '(_, e) ← update_unlink d previous pos; Ret e | None => Fault end.

(** ** The record moves *)

(** The table with other keys. *)
Lemma Inv_change heap0 heap h recs d cs :
  Inv heap0 h recs -> Forall (keyed heap h) recs ->
  buffer (array h) = Some d -> Rep d (records h) cs [] -> Homed (home heap h (blength h) (records h)) cs -> (concat cs).*2 ≡ₚ recs ->
  Z.of_nat (length d) = max_element (array h) * SIZEOF_LINK -> Inv heap h recs.
Proof. intros []. split; try done. by exists d, cs. Qed.

Section Relink.
Context (heap : Z -> bytes) (h : OB_HASH) (record : Z).
Abbreviation f1 := (home heap h (blength h) (records h)).

Lemma relink_ok fuel d e cs :
  Rep d (records h) cs [e] -> Homed f1 cs -> Forall (keyed heap h) (concat cs).*2 -> keyed heap h record -> f1 record <> e ->
  0 <= f1 record < records h -> (Z.to_nat (records h) <= fuel)%nat ->
  exists d' cs', (new_pos_index ← hash_rec_mask heap h d (f1 record) (blength h) (records h);
      if negb (f1 record =? new_pos_index) then
        d1 ← copy_link d e (f1 record); d2 ← movelink fuel d1 (f1 record) new_pos_index e; set_link d2 (f1 record) record NO_RECORD
      else next ← link_next d (f1 record); d1 ← set_link d e record next; set_next d1 (f1 record) e) = Ret d' /\
    length d' = length d /\ Rep d' (records h) cs' [] /\ Homed f1 cs' /\ (concat cs').*2 ≡ₚ record :: (concat cs).*2.
Proof.
  intros HR Hf Hkc [Hrec _] Hne Hrange Hfuel.
  destruct (Rep_chain _ _ _ _ (f1 record) HR) as (a & r & t & cs0 & Hp); [done|set_solver|].
  rewrite Hp in HR, Hf, Hkc. apply Forall_cons in Hf as [Hc Hf].
  assert (keyed heap h r) as Hkr by (by eapply keyed_in).
  pose proof (rep_segs _ _ _ _ HR) as [[_ [Hh _]]%seg_app _]%Forall_cons.
  pose proof (Rep_length _ _ _ _ HR ltac:(lia)) as Hlen. simpl in Hlen. rewrite !length_app in Hlen. simpl in Hlen.
  erewrite hash_rec_mask_home by done. rewrite bind_ret. destruct (Z.eqb_spec (f1 record) (f1 r)) as [E|E]; cbn [negb].
  - assert (a = []) as -> by (by eapply home_first).
    destruct (relink_head f1 d (records h) r t cs0 e record (f1 record)) as (d' & cs' & H1 & H2 & H3 & H4 & H5); try done.
    exists d', cs'. by rewrite Hp.
  - destruct (relink_other f1 d (records h) a r t cs0 e record (f1 record) fuel) as (d' & cs' & H1 & H2 & H3 & H4 & H5); try done; [lia|].
    exists d', cs'. by rewrite Hp.
Qed.

End Relink.

(** The search in the chain of the old key ends at the record. *)
Lemma update_found heap0 h recs d cs record :
  Inv heap0 h recs -> Rep d (records h) cs [] -> Homed (home heap0 h (blength h) (records h)) cs -> (concat cs).*2 ≡ₚ recs ->
  record ∈ recs ->
  exists a i t cs', cs ≡ₚ (a ++ (i, record) :: t) :: cs' /\
    delete_search (S (Z.to_nat (records h))) d record (-1) (home heap0 h (blength h) (records h) record) = Ret (Some (last_slot a (-1), i)).
Proof.
  intros HI HR Hf Hp Hrec. rewrite <- Hp in Hrec. destruct (Homed_chain _ _ _ Hf Hrec) as (q & t & cs' & Hc & _ & Hin). rewrite Hc in HR.
  pose proof (rep_segs _ _ _ _ HR) as [Hseg _]%Forall_cons. pose proof (NO_RECORD_out _ _ _ _ _ HR) as Hno.
  pose proof (Rep_length _ _ _ _ HR (records_nonneg _ _ _ HI)) as Hlen. simpl in Hlen. rewrite !length_app in Hlen.
  destruct (delete_search_ok (S (Z.to_nat (records h))) d record (-1) _ Hseg Hno) as [[Hn _]|(a1 & i & t1 & E1 & E)];
    [simpl; lia|done|done|]. exists a1, i, t1, cs'. rewrite <- E1. split; [done|exact E].
Qed.

(** After the key of one record of a table changed, hash_update with its old key leaves a
    table that holds the same records at the places of their present keys, provided the
    link that the record leaves is not the place of its new key. *)
Theorem update_moves heap0 heap h recs record :
  Inv heap0 h recs -> NoDup recs -> record ∈ recs -> Forall (keyed heap h) recs ->
  (forall r, r ∈ recs -> r <> record -> key_of heap h r = key_of heap0 h r) ->
  key_of heap0 h record <> [] ->
  freed_link h record (key_of heap0 h record) <> Ret (home heap h (blength h) (records h) record) ->
  exists h', hash_update heap h record (key_of heap0 h record) (Z.of_nat (length (key_of heap0 h record))) = Ret (false, h') /\
    Inv heap h' recs.
Proof.
  intros HI Hnd Hin Hk Hother Hkey Hfreed. set (old := key_of heap0 h record) in *.
  destruct (inv_chains _ _ _ HI) as (d & cs & Hd & HR & Hf & Hp & Hl). pose proof (Inv_length _ _ _ HI) as Hn.
  assert (0 < records h) as Hpos by (rewrite Hn; destruct recs; [by apply elem_of_nil in Hin|simpl; lia]).
  assert (keyed heap h record) as Hkr by (eapply Forall_forall in Hk; done).
  assert (forall r, r ∈ recs -> r <> record -> home heap0 h (blength h) (records h) r = home heap h (blength h) (records h) r) as Hhome.
  { intros r Hr Hne. unfold home. by rewrite Hother. }
  unfold hash_update, freed_link, mem in *. rewrite Hd in Hfreed |- *. cbn [of_option] in Hfreed |- *. rewrite bind_ret in Hfreed. rewrite bind_ret.
  assert (Z.of_nat (length old) <> 0) as Hol by (destruct old; simpl; done || lia).
  destruct (Z.eqb_spec (Z.of_nat (length old)) 0); [done|]. cbn [negb].
  rewrite call_hashnr_val, bind_ret in Hfreed by lia. rewrite call_hashnr_val, bind_ret by lia.
  rewrite Nat2Z.id, (take_ge old) in Hfreed |- * by lia. rewrite rec_hashnr_val, bind_ret by done.
  change (hash_mask (hashval h old) (blength h) (records h)) with (home heap0 h (blength h) (records h) record) in *.
  rewrite !place_home. destruct (Z.eqb_spec (home heap0 h (blength h) (records h) record) (home heap h (blength h) (records h) record)) as [E|E].
  { exists h. split; [done|]. eapply Inv_change; try done. eapply Homed_ext; [|exact Hf]. intros r Hr. rewrite Hp in Hr.
    destruct (decide (r = record)) as [->|]; [done|]. by apply Hhome. }
  destruct (update_found heap0 h recs d cs record HI HR Hf Hp Hin) as (a & i & t & cs' & Hc & Efound).
  unfold update_search in *. rewrite Efound, bind_ret in Hfreed. rewrite Efound, bind_ret. rewrite Hc in HR, Hf. apply Forall_cons in Hf as [Hca Hf].
  pose proof (rep_segs _ _ _ _ HR) as [[_ [Hhi _]]%seg_app _]%Forall_cons. rewrite (proj2 Hhi), bind_ret.
  destruct (update_unlink_ok _ _ _ _ _ _ _ _ HR Hca Hf) as (d1 & e & E1 & Hl1 & cs1 & HR1 & Hf1 & Hp1).
  rewrite E1, bind_ret in Hfreed. rewrite E1, bind_ret. rewrite <- Hc, Hp in Hp1.
  assert (record ∉ (concat cs1).*2) as Hout by (rewrite Hp1 in Hnd; by apply NoDup_cons in Hnd as [? _]).
  assert (Homed (home heap h (blength h) (records h)) cs1) as Hf2.
  { eapply Homed_ext; [|exact Hf1]. intros r Hr. apply Hhome; [rewrite Hp1; by right|by intros ->]. }
  destruct (relink_ok heap h record (S (Z.to_nat (records h))) d1 e cs1) as (d2 & cs2 & E2 & Hl2 & HR2 & Hf3 & Hp2); try done.
  { rewrite Hp1 in Hk. by apply Forall_cons in Hk as [_ ?]. }
  { congruence. }
  { apply mask_range; [apply HI|done]. }
  { lia. }
  apply bind_Ret_inv in E2 as (np & -> & E2). rewrite bind_ret, E2, bind_ret. eexists. split; [reflexivity|].
  destruct HI as [_ Hg He Hs Hb Hinc _].
  split; cbn [records blength array with_array with_buffer buffer elements size_of_element max_element alloc_increment]; try done.
  exists d2, cs2. split_and!; try done; [by rewrite Hp2, Hp1|lia].
Qed.

(** ** Examples *)

(** A table with the records 0 to 3, whose keys are the bytes [ks]. *)
Definition keys_heap (ks : bytes) (r : Z) : bytes := [default 0 (ks !! Z.to_nat r)].

Definition build (ks : bytes) : cres OB_HASH :=
  '(_, h) ← hash_init true 0 HashTable.no_table 4 0 1 None true 0;
  '(_, h) ← HashTable.run (keys_heap ks) 0 h (map (HashTable.Insert true) [0; 1; 2; 3]);
  Ret h.

Lemma update_moves_witness : exists h h' recs,
  build [1; 9; 17; 2] = Ret h /\ hash_update (keys_heap [1; 30; 17; 2]) h 1 [9] 1 = Ret (false, h') /\
  HashInv.Inv (keys_heap [1; 30; 17; 2]) h' recs.
Proof.
  destruct (HashTable.init_empty (keys_heap [1; 9; 17; 2]) true 0 HashTable.no_table 4 0 1 None true 0) as (failed & h0 & E0 & H0); [done|lia|].
  injection E0 as <- <-.
  destruct (insert_adds (keys_heap [1; 9; 17; 2]) true 0 _ [] 0 H0) as (f1 & h1 & E1 & H1); [split; [done|simpl; lia]|done|simpl; lia|].
  vm_compute in E1. injection E1 as <- <-. destruct H1 as [H1 _].
  destruct (insert_adds (keys_heap [1; 9; 17; 2]) true 0 _ _ 1 H1) as (f2 & h2 & E2 & H2); [split; [done|simpl; lia]|done|simpl; lia|].
  vm_compute in E2. injection E2 as <- <-. destruct H2 as [H2 _].
  destruct (insert_adds (keys_heap [1; 9; 17; 2]) true 0 _ _ 2 H2) as (f3 & h3 & E3 & H3); [split; [done|simpl; lia]|done|simpl; lia|].
  vm_compute in E3. injection E3 as <- <-. destruct H3 as [H3 _].
  destruct (insert_adds (keys_heap [1; 9; 17; 2]) true 0 _ _ 3 H3) as (f4 & h4 & E4 & H4); [split; [done|simpl; lia]|done|simpl; lia|].
  vm_compute in E4. injection E4 as <- <-. destruct H4 as [H4 _].
  destruct (update_moves (keys_heap [1; 9; 17; 2]) (keys_heap [1; 30; 17; 2]) _ [3; 2; 1; 0] 1 H4) as (h' & E & HI).
  - apply (bool_decide_eq_true_1 _). vm_compute. reflexivity.
  - apply (bool_decide_eq_true_1 _). vm_compute. reflexivity.
  - repeat constructor; simpl; lia.
  - intros r Hr Hne. repeat (apply elem_of_cons in Hr as [->|Hr]; [try done; vm_compute; reflexivity|]). by apply elem_of_nil in Hr.
  - vm_compute. discriminate.
  - vm_compute. discriminate.
  - eexists _, h', _. split; [vm_compute; reflexivity|]. split; [exact E|exact HI].
Defined.

(** ** Damage *)

(** A link that leads to itself makes every search behind it endless. *)
Lemma search_endless heap h d key len idx :
  hashcmp heap h d idx key len = Ret true -> link_next d idx = Ret idx -> idx <> NO_RECORD ->
  forall fuel, search_loop heap fuel h d key len false idx = OutOfFuel.
Proof.
  intros Hc Hn Hi fuel. induction fuel as [|fuel IH]; [done|]. cbn [search_loop]. rewrite Hc, bind_ret. cbn [negb].
  rewrite bind_ret, Hn, bind_ret. by destruct (Z.eqb_spec idx NO_RECORD).
Qed.

(** When the link that the record leaves is the place of its new key, hash_update makes it
    lead to itself: the key of record 1 changes from 9 to 31, and a search for the key 35,
    which belongs to the same place, does not end. *)
Theorem update_self_loop : exists h h' d,
  build [1; 9; 17; 2] = Ret h /\ hash_update (keys_heap [1; 31; 17; 2]) h 1 [9] 1 = Ret (false, h') /\ mem (array h') = Ret d /\
  forall fuel, search_loop (keys_heap [1; 31; 17; 2]) (S fuel) h' d [35] 1 true
    (hash_mask (hashval h' [35]) (blength h') (records h')) = OutOfFuel.
Proof.
  eexists _, _, _. split; [vm_compute; reflexivity|]. split; [vm_compute; reflexivity|]. split; [reflexivity|].
  intros fuel.
  match goal with |- search_loop ?heap _ ?h ?d ?k _ _ _ = _ =>
    change (search_loop heap (S fuel) h d k 1 true 2 = OutOfFuel); pose proof (search_endless heap h d k 1 2) as He end.
  cbn [search_loop].
  match goal with |- (?m ≫= _) = _ => replace m with (Ret true) by (vm_compute; reflexivity) end. rewrite bind_ret. cbn [negb].
  match goal with |- (?m ≫= _) = _ => replace m with (Ret false) by (vm_compute; reflexivity) end. rewrite bind_ret.
  match goal with |- (?m ≫= _) = _ => replace m with (Ret 2) by (vm_compute; reflexivity) end. rewrite bind_ret.
  change (2 =? NO_RECORD) with false. cbv iota. apply He; [vm_compute; reflexivity|vm_compute; reflexivity|done].
Qed.

End HashUpdate.
