(* ===== verification/NumText.v ===== *)
(** Numbers as text: ma_ll2str of libmariadb/ma_ll2str.c, which prints a 64-bit integer in
    a radix from 2 to 36, and the readers my_strtoull, my_strtoll, my_atoll, my_atoull and
    my_strtoui of libmariadb/ma_stmt_codec.c.

    The readers get a text by its start and its length, without a NUL, so their loops are
    bounded by the bytes that are left.  [radix_value] is the reference value of a digit string
    and [numeral] the texts the readers accept. *)

From stdpp Require Import tactics.
From S2P Require Import Prelude IntStore.

Module NumText.

Definition ERANGE : Z := 34.
Definition UINT_MAX : Z := 4294967295.
Definition ULONGLONG_MAX : Z := 18446744073709551615.
Definition LONGLONG_MAX : Z := 9223372036854775807.
Definition LONGLONG_MIN : Z := -9223372036854775808.
Definition LONG_MAX : Z := 9223372036854775807.

(** * Printing *)

Definition _dig_vec : list Z :=
  [48; 49; 50; 51; 52; 53; 54; 55; 56; 57; 65; 66; 67; 68; 69; 70; 71; 72; 73; 74; 75; 76;
   77; 78; 79; 80; 81; 82; 83; 84; 85; 86; 87; 88; 89; 90; 0].

(** The loop over values that do not fit into a [long]. *)
Fixpoint ulonglong_loop (fuel : nat) (buffer : bytes) (p val radix : Z) : cres (bytes * Z * Z) :=
  match fuel with
  | O => OutOfFuel
  | S fuel =>
    if u64 val >? LONG_MAX then
      let quo := u64 val / u32 radix in
      let rem := u32 (val - quo * u32 radix) in
      d ← load _dig_vec rem;
      buffer ← store buffer (p - 1) d;
      ulonglong_loop fuel buffer (p - 1) (s64 quo) radix
    else Ret (buffer, p, val)
  end.

Fixpoint long_loop (fuel : nat) (buffer : bytes) (p long_val radix : Z) : cres (bytes * Z) :=
  match fuel with
  | O => OutOfFuel
  | S fuel =>
    if negb (long_val =? 0) then
      let quo := Z.quot long_val radix in
      d ← load _dig_vec (u8 (long_val - quo * radix));
      buffer ← store buffer (p - 1) d;
      long_loop fuel buffer (p - 1) quo radix
    else Ret (buffer, p)
  end.

(** Copies up to and including the NUL; returns the position behind it. *)
Fixpoint copy_loop (fuel : nat) (mem : bytes) (dst : Z) (buffer : bytes) (p : Z) : cres (bytes * Z) :=
  match fuel with
  | O => OutOfFuel
  | S fuel =>
    c ← load buffer p;
    mem ← store mem dst c;
    if negb (c =? 0) then copy_loop fuel mem (dst + 1) buffer (p + 1) else Ret (mem, dst + 1)
  end.

(** The part of the function behind the sign; [junk] is what the local array holds. *)
Definition ll2str_digits (junk val : Z) (mem : bytes) (dst radix : Z) : cres (option Z * bytes) :=
  if val =? 0 then
    mem ← store mem dst 48;
    mem ← store mem (dst + 1) 0;
    Ret (Some (dst + 1), mem)
  else
    let buffer := repeat junk 65 in
    let p := 65 - 1 in
    buffer ← store buffer p 0;
    '(buffer, p, val) ← ulonglong_loop 2 buffer p val radix;
    '(buffer, p) ← long_loop 65 buffer p val radix;
    '(mem, dst) ← copy_loop 66 mem dst buffer p;
    Ret (Some (dst - 1), mem).

(** The result is the position of the NUL, or None for NULL. *)
Definition ma_ll2str (junk val : Z) (mem : bytes) (dst radix : Z) : cres (option Z * bytes) :=
  if radix <? 0 then
    if (radix <? -36) || (radix >? -2) then Ret (None, mem)
    else
      '(mem, dst, val) ←
        (if val <? 0 then mem ← store mem dst 45; Ret (mem, dst + 1, s64 (u64 (0 - val)))
         else Ret (mem, dst, val));
      ll2str_digits junk val mem dst (- radix)
  else if (radix >? 36) || (radix <? 2) then Ret (None, mem)
  else ll2str_digits junk val mem dst radix.

(** * Reading *)

(** [n] is the number of bytes between [p] and the end of the text. *)
Fixpoint strtoull_loop (mem : bytes) (p : Z) (n : nat) (val err : Z) : cres (Z * Z * Z) :=
  match n with
  | O => Ret (val, p, err)
  | S n =>
    c ← load mem p;
    if (s8 c <? 48) || (s8 c >? 57) then Ret (val, p, err)
    else if (val >? ULONGLONG_MAX / 10) || (u64 (val * 10) >? ULONGLONG_MAX - (s8 c - 48))
    then Ret (val, p, ERANGE)
    else strtoull_loop mem (p + 1) n (u64 (val * 10 + s8 c - 48)) err
  end.

(** Value, end and error. *)
Definition my_strtoull (mem : bytes) (str len err : Z) : cres (Z * Z * Z) :=
  '(val, p, err) ← strtoull_loop mem str (Z.to_nat len) 0 err;
  Ret (val, p, if p =? str then ERANGE else err).

(** isspace() of the C locale. *)
Definition isspace (c : Z) : bool := (c =? 32) || ((9 <=? c) && (c <=? 13)).

Fixpoint skip_space (mem : bytes) (p : Z) (n : nat) : cres Z :=
  match n with
  | O => Ret p
  | S n => c ← load mem p; if isspace c then skip_space mem (p + 1) n else Ret p
  end.

Definition my_strtoll (mem : bytes) (str len err : Z) : cres (Z * Z * Z) :=
  let end_str := str + len in
  p ← skip_space mem str (Z.to_nat len);
  if p =? end_str then Ret (0, p, ERANGE)
  else
    c ← load mem p;
    let neg := c =? 45 in
    let p := if neg then p + 1 else p in
    '(uval, p, err) ← my_strtoull mem p (end_str - p) err;
    if negb (err =? 0) then Ret (s64 uval, p, err)
    else if negb neg then
      if uval >? LONGLONG_MAX then Ret (LONGLONG_MAX, p - 1, ERANGE) else Ret (s64 uval, p, err)
    else if uval =? u64 LONGLONG_MIN then Ret (LONGLONG_MIN, p, err)
    else if uval >? LONGLONG_MAX then Ret (s64 (u64 (-1 * u64 LONGLONG_MIN)), p - 1, ERANGE)
    else Ret (s64 (u64 (-1 * uval)), p, err).

(** The readers of a whole text: value and error. *)
Definition my_atoll (mem : bytes) (str end_str error : Z) : cres (Z * Z) :=
  p ← skip_space mem str (Z.to_nat (end_str - str));
  '(ret, e, error) ← my_strtoll mem p (end_str - p) error;
  e ← skip_space mem e (Z.to_nat (end_str - e));
  Ret (ret, if negb (e =? end_str) then 1 else error).

Definition my_atoull (mem : bytes) (str end_str error : Z) : cres (Z * Z) :=
  p ← skip_space mem str (Z.to_nat (end_str - str));
  '(ret, e, error) ← my_strtoull mem p (end_str - p) error;
  e ← skip_space mem e (Z.to_nat (end_str - e));
  Ret (ret, if negb (e =? end_str) then 1 else error).

Definition my_strtoui (mem : bytes) (str len err : Z) : cres (Z * Z * Z) :=
  '(ull, p, err) ← my_strtoull mem str len err;
  Ret (u32 ull, p, if ull >? UINT_MAX then ERANGE else err).

(** * Reference *)

Definition digit (c : Z) : Prop := 48 <= c <= 57.

(** Value of digits in a radix, most significant first, behind a value [a]. *)
Definition digit_val (c : Z) : Z := if c <=? 57 then c - 48 else c - 55.
Definition radix_from (r a : Z) (ds : bytes) : Z := fold_left (fun a c => a * r + digit_val c) ds a.
Definition radix_value (r : Z) (ds : bytes) : Z := radix_from r 0 ds.
Abbreviation decimal := (radix_value 10).

Definition digit_of (r c : Z) : Prop := (48 <= c <= 57 \/ 65 <= c <= 90) /\ digit_val c < r.

(** Digits without superfluous zeros in front. *)
Definition canonical (ds : bytes) : Prop := ds = [48] \/ head ds <> Some 48 /\ ds <> [].

(** * Printing is correct *)

Lemma radix_from_app r a ds es : radix_from r a (ds ++ es) = radix_from r (radix_from r a ds) es.
Proof. apply fold_left_app. Qed.

Lemma radix_from_shift r a ds :
  radix_from r a ds = a * r ^ Z.of_nat (length ds) + radix_value r ds.
Proof.
  unfold radix_value. revert a. induction ds as [|c ds IH]; intros a; simpl; [lia|].
  rewrite IH, (IH (0 * r + digit_val c)), Nat2Z.inj_succ, Z.pow_succ_r by lia. lia.
Qed.

Lemma dig_vec_spec d : 0 <= d < 36 ->
  exists c, load _dig_vec d = Ret c /\ (48 <= c <= 57 \/ 65 <= c <= 90) /\ digit_val c = d.
Proof.
  intros H. destruct (load_in _dig_vec d) as (c & Hl & Hc); [simpl; lia|]. exists c. split; [done|].
  assert (forall i, (i < 36)%nat -> exists c, _dig_vec !! i = Some c
    /\ (48 <= c <= 57 \/ 65 <= c <= 90) /\ digit_val c = Z.of_nat i) as Hall.
  { intros i Hi. do 36 (destruct i as [|i]; [eexists; split; [done|]; split; [lia|done]|]). lia. }
  destruct (Hall (Z.to_nat d)) as (c' & Hc' & Hr & Hv); [lia|]. rewrite Hc in Hc'. injection Hc' as <-.
  split; [done|lia].
Qed.

(** Writing in front of what is there. *)
Lemma store_before pre x suf c :
  is_byte c -> store ((pre ++ [x]) ++ suf) (Z.of_nat (length (pre ++ [x])) - 1) c = Ret (pre ++ c :: suf).
Proof.
  intros Hc. rewrite store_in by (rewrite !length_app; simpl; lia). f_equal.
  rewrite length_app. simpl. replace (Z.to_nat _) with (length pre + 0)%nat by lia.
  rewrite <- app_assoc, insert_app_r. simpl. by rewrite wrap_small.
Qed.

(** One digit: what both loops do. *)
Lemma digit_step pre suf r v :
  2 <= r <= 36 -> 0 <= v -> pre <> [] ->
  exists pre' c, digit_of r c /\ digit_val c = v mod r
    /\ length pre = S (length pre')
    /\ load _dig_vec (v mod r) = Ret c
    /\ store (pre ++ suf) (Z.of_nat (length pre) - 1) c = Ret (pre' ++ c :: suf).
Proof.
  intros Hr Hv Hpre. pose proof (Z.mod_pos_bound v r ltac:(lia)).
  destruct (dig_vec_spec (v mod r)) as (c & Hl & Hc & Hd); [lia|].
  destruct (exists_last Hpre) as (pre' & x & ->). exists pre', c.
  split_and!; [split; [done|lia]|done|rewrite length_app; simpl; lia|done|].
  apply store_before. unfold is_byte, uint. lia.
Qed.

(** The digits of a value below [2 ^ k], written in front of [suf]. *)
Definition printed (r v k : Z) (pre suf out : bytes) (p : Z) : Prop :=
  exists pre' ds, out = pre' ++ ds ++ suf /\ p = Z.of_nat (length pre')
    /\ length pre = (length pre' + length ds)%nat /\ Z.of_nat (length ds) <= k
    /\ Forall (digit_of r) ds /\ radix_value r ds = v
    /\ (v = 0 -> ds = []) /\ (0 < v -> canonical ds).

Lemma printed_cons r v k pre pre' suf out c p :
  2 <= r -> 0 < v -> digit_val c = v mod r -> digit_of r c -> length pre = S (length pre') ->
  printed r (v / r) k pre' (c :: suf) out p ->
  printed r v (k + 1) pre suf out p.
Proof.
  intros Hr Hv Hd Hc Hl (q & ds & -> & -> & Hlen & Hk & Hds & Hval & Hz & Hcan).
  exists q, (ds ++ [c]). rewrite length_app, Forall_app, <- !app_assoc. simpl.
  split_and!; [done|done|lia|lia|done|by constructor| |lia|].
  - unfold radix_value. rewrite radix_from_app. fold (radix_value r ds). rewrite Hval. simpl.
    rewrite Hd. pose proof (Z.div_mod v r ltac:(lia)). lia.
  - intros _. right. split; [|by destruct ds].
    assert (0 <= v / r) by (apply Z.div_pos; lia).
    destruct (decide (v / r = 0)) as [E|E].
    + rewrite (Hz E).
      simpl. intros [= ->]. unfold digit_val in Hd. simpl in Hd.
      apply Z.div_small_iff in E; [|lia]. rewrite Z.mod_small in Hd by lia. lia.
    + destruct Hcan as [->|[Hh Hne]]; [lia|..].
      * unfold radix_value in Hval. simpl in Hval. unfold digit_val in Hval. simpl in Hval. lia.
      * by destruct ds.
Qed.

Lemma long_loop_prints r k : 2 <= r <= 36 -> forall fuel v pre suf,
  0 <= v < 2 ^ Z.of_nat k -> (k <= length pre)%nat -> (k < fuel)%nat -> v <= LONG_MAX ->
  exists out p, long_loop fuel (pre ++ suf) (Z.of_nat (length pre)) v r = Ret (out, p)
    /\ printed r v (Z.of_nat k) pre suf out p.
Proof.
  intros Hr. induction k as [|k IH]; intros [|fuel] v pre suf Hv Hk Hf Hm; try lia; simpl.
  - change (2 ^ Z.of_nat 0) with 1 in Hv. assert (v = 0) as -> by lia. simpl. eexists _, _. split; [done|].
    exists pre, []. split_and!; [done|done|simpl; lia|done|done|done|done|lia].
  - destruct (Z.eqb_spec v 0) as [->|Hz]; simpl.
    + eexists _, _. split; [done|].
      exists pre, []. split_and!; [done|done|simpl; lia|simpl; lia|done|done|done|lia].
    + destruct (digit_step pre suf r v) as (pre' & c & Hc & Hd & Hl & Hload & Hst);
        [done|lia|destruct pre; [simpl in *; lia|done]|].
      rewrite Z.quot_div_nonneg by lia.
      replace (v - v / r * r) with (v mod r) by (rewrite Z.mod_eq by lia; lia).
      pose proof (Z.mod_pos_bound v r ltac:(lia)).
      rewrite wrap_small by (unfold uint; lia). rewrite Hload, bind_ret, Hst, bind_ret.
      replace (Z.of_nat (length pre) - 1) with (Z.of_nat (length pre')) by lia.
      assert (v / r <= v / 2) by (apply Z.div_le_compat_l; lia).
      assert (0 <= v / r) by (apply Z.div_pos; lia).
      assert (v / 2 < 2 ^ Z.of_nat k).
      { apply Z.div_lt_upper_bound; [lia|]. rewrite <- Z.pow_succ_r by lia.
        replace (Z.succ (Z.of_nat k)) with (Z.of_nat (S k)) by lia. lia. }
      destruct (IH fuel (v / r) pre' (c :: suf)) as (out & p & -> & Hp); [lia|lia|lia|dlia|].
      eexists _, _. split; [done|].
      replace (Z.of_nat (S k)) with (Z.of_nat k + 1) by lia.
      apply printed_cons with pre' c; try done; lia.
Qed.

(** A value that is not a [long] takes one round of the first loop. *)
Lemma loops_print r v pre : 2 <= r <= 36 -> uint 64 v -> v <> 0 -> length pre = 64%nat ->
  exists out p, ('(buffer, p, val) ← ulonglong_loop 2 (pre ++ [0]) (Z.of_nat (length pre)) (s64 v) r;
                 long_loop 65 buffer p val r) = Ret (out, p)
    /\ printed r v 64 pre [0] out p.
Proof.
  intros Hr Hv Hnz Hpre. unfold uint in Hv. cbn [ulonglong_loop].
  rewrite wrap_swrap, wrap_small by (unfold uint; lia).
  unfold LONG_MAX. destruct (Z.gtb_spec v 9223372036854775807) as [Hbig|Hsmall].
  - rewrite (wrap_small 32 r) by (unfold uint; lia).
    destruct (digit_step pre [0] r v) as (pre' & c & Hc & Hd & Hl & Hload & Hst); [done|lia|by destruct pre|].
    assert (v / r <= v / 2) by (apply Z.div_le_compat_l; lia).
    assert (0 < v / r) by (apply Z.div_str_pos; lia).
    pose proof (Z.mod_pos_bound v r ltac:(lia)).
    replace (u32 (s64 v - v / r * r)) with (v mod r).
    2: { assert (s64 v = v - 2 ^ 64) as ->.
         { rewrite <- (swrap_period 64 v (-1)), swrap_small by (unfold sint; lia). lia. }
         rewrite <- (wrap_small 32 (v mod r)) by (unfold uint; lia). unfold wrap.
         rewrite <- (Z.mod_add (v mod r) (- (2 ^ 32)) (2 ^ 32)) by lia. f_equal.
         rewrite Z.mod_eq by lia. lia. }
    rewrite Hload, bind_ret, Hst, bind_ret.
    rewrite wrap_swrap, (wrap_small 64 (v / r)) by (unfold uint; dlia).
    rewrite (swrap_small 64 (v / r)) by (unfold sint; dlia).
    destruct (Z.gtb_spec (v / r) 9223372036854775807); [dlia|]. rewrite bind_ret.
    replace (Z.of_nat (length pre) - 1) with (Z.of_nat (length pre')) by lia.
    destruct (long_loop_prints r 63 Hr 65 (v / r) pre' [c; 0]) as (out & p & -> & Hp);
      [dlia|lia|lia|unfold LONG_MAX; dlia|].
    eexists _, _. split; [done|]. change 64 with (63 + 1). apply printed_cons with pre' c; try done; lia.
  - rewrite bind_ret, swrap_small by (unfold sint; lia).
    destruct (long_loop_prints r 63 Hr 65 v pre [0]) as (out & p & -> & Hp); [lia|lia|lia|unfold LONG_MAX; lia|].
    eexists _, _. split; [done|]. destruct Hp as (q & ds & Hp1 & Hp2 & Hp3 & Hp4 & Hp5). exists q, ds. split_and!; first [done|lia|apply Hp5].
Qed.

Lemma copy_loop_copies ds : Forall (fun c => is_byte c /\ c <> 0) ds -> forall fuel mem dst pre,
  (length ds < fuel)%nat -> room mem dst (length ds + 1) ->
  copy_loop fuel mem dst (pre ++ ds ++ [0]) (Z.of_nat (length pre))
  = Ret (splice dst (ds ++ [0]) mem, dst + Z.of_nat (length ds) + 1).
Proof.
  induction 1 as [|c ds [Hb Hc] Hds IH]; intros [|fuel] mem dst pre Hf Hroom; simpl in *; try lia.
  - rewrite (load_lookup _ _ 0) by (lia || (rewrite Nat2Z.id, lookup_app_r, Nat.sub_diag by lia; done)).
    rewrite bind_ret, store_splice1 by (done || lia). simpl. do 2 f_equal. lia.
  - rewrite (load_lookup _ _ c) by (lia || (rewrite Nat2Z.id, lookup_app_r, Nat.sub_diag by lia; done)).
    unfold room in *. rewrite bind_ret, store_splice1 by (done || (unfold room; lia)). rewrite bind_ret.
    destruct (Z.eqb_spec c 0); [done|]. simpl.
    assert (room mem dst 1) by (unfold room; lia).
    replace (pre ++ c :: ds ++ [0]) with ((pre ++ [c]) ++ ds ++ [0]) by (by rewrite <- app_assoc).
    replace (Z.of_nat (length pre) + 1) with (Z.of_nat (length (pre ++ [c]))) by (rewrite length_app; simpl; lia).
    rewrite IH by (try (unfold room; rewrite length_splice by done); lia).
    f_equal. f_equal; [|lia].
    apply (splice_app dst [c] (ds ++ [0])). unfold room. rewrite !length_app. simpl. lia.
Qed.

Lemma digit_of_char r c : digit_of r c -> is_byte c /\ c <> 0.
Proof. intros [H _]. unfold is_byte, uint. lia. Qed.

(** The digits of [v] behind a sign that was already written. *)
Lemma ll2str_digits_prints junk r v mem dst :
  2 <= r <= 36 -> uint 64 v -> room mem dst 65 ->
  exists ds, ll2str_digits junk (s64 v) mem dst r
             = Ret (Some (dst + Z.of_nat (length ds)), splice dst (ds ++ [0]) mem)
    /\ Forall (digit_of r) ds /\ radix_value r ds = v /\ canonical ds /\ (length ds <= 64)%nat.
Proof.
  intros Hr Hv Hroom. unfold ll2str_digits.
  assert (s64 v = 0 <-> v = 0) as Hz.
  { split; [|by intros ->]. intros E. apply (f_equal (wrap 64)) in E.
    by rewrite wrap_swrap, wrap_small in E by (done || lia). }
  destruct (Z.eqb_spec (s64 v) 0) as [E|E].
  - apply Hz in E as ->. exists [48]. unfold room in Hroom.
    rewrite store_splice1, bind_ret by (unfold is_byte, uint, room; lia).
    assert (room mem dst 1) by (unfold room; lia).
    rewrite store_splice1, bind_ret by (unfold is_byte, uint, room; rewrite ?length_splice by done; lia).
    change (dst + 1) with (dst + Z.of_nat (length [48])). rewrite splice_app by (unfold room; simpl; lia).
    split_and!; [done| |done|by left|simpl; lia]. apply Forall_singleton. unfold digit_of, digit_val. simpl. lia.
  - change (repeat junk 65) with ((repeat junk 64 ++ [junk]) ++ []).
    change (65 - 1) with (Z.of_nat (length (repeat junk 64 ++ [junk])) - 1).
    rewrite store_before, bind_ret by done.
    change (Z.of_nat (length (repeat junk 64 ++ [junk])) - 1) with (Z.of_nat (length (repeat junk 64))).
    destruct (loops_print r v (repeat junk 64)) as (out & p & Hl & Hp); [done|done|tauto|done|].
    destruct (ulonglong_loop 2 _ _ _ _) as [[[b q] w]| |]; try discriminate. rewrite bind_ret in Hl.
    rewrite bind_ret, Hl, bind_ret.
    destruct Hp as (pre & ds & -> & -> & Hlen & Hk & Hds & Hval & _ & Hcan).
    rewrite repeat_length in Hlen.
    rewrite copy_loop_copies; [|by eapply Forall_impl; [|apply digit_of_char]|lia|unfold room in *; lia].
    rewrite bind_ret. exists ds. split_and!; [|done|done|unfold uint in Hv; apply Hcan; lia|lia].
    do 2 f_equal. f_equal. lia.
Qed.

(** The text of a number in a radix: a sign and canonical digits. *)
Definition number_text (r : Z) (negative : bool) (v : Z) (t : bytes) : Prop :=
  exists ds, t = (if negative then [45] else []) ++ ds /\ Forall (digit_of r) ds /\ canonical ds
    /\ (length ds <= 64)%nat /\ radix_value r ds = v.

Lemma ll2str_signed junk val mem dst r :
  sint 64 val -> room mem dst 66 -> 2 <= r <= 36 ->
  exists t, ma_ll2str junk val mem dst (- r) = Ret (Some (dst + Z.of_nat (length t)), splice dst (t ++ [0]) mem)
    /\ number_text r (val <? 0) (Z.abs val) t.
Proof.
  intros Hval Hroom Hr. pose proof Hval as [Hval1 Hval2]. change (2 ^ (64 - 1)) with 9223372036854775808 in *.
  unfold ma_ll2str. destruct (Z.ltb_spec (- r) 0); [|lia]. destruct (Z.ltb_spec (- r) (-36)); [lia|].
  rewrite Z.gtb_ltb. destruct (Z.ltb_spec (-2) (- r)); [lia|]. simpl. rewrite Z.opp_involutive.
  destruct (Z.ltb_spec val 0).
  - rewrite store_splice1, !bind_ret by (unfold is_byte, uint, room in *; lia).
    assert (room mem dst 1) by (unfold room in *; lia).
    rewrite (wrap_small 64 (0 - val)) by (unfold uint; lia).
    destruct (ll2str_digits_prints junk r (0 - val) (splice dst [45] mem) (dst + 1))
      as (ds & -> & Hds & Hv & Hcan & Hlen); [lia|unfold uint; lia|unfold room in *; rewrite length_splice by done; lia|].
    exists ([45] ++ ds). split; [|exists ds; split_and!; try done; lia].
    change (dst + 1) with (dst + Z.of_nat (length [45])) at 2.
    rewrite splice_app by (unfold room in *; rewrite !length_app; simpl; lia). simpl. do 2 f_equal. f_equal. lia.
  - rewrite bind_ret.
    destruct (ll2str_digits_prints junk r val mem dst) as (ds & Heq & Hds & Hv & Hcan & Hlen);
      [lia|unfold uint; lia|unfold room in *; lia|].
    rewrite swrap_small in Heq by (unfold sint; lia). exists ds. split; [done|]. exists ds. split_and!; try done. lia.
Qed.

Lemma ll2str_unsigned junk val mem dst r :
  sint 64 val -> room mem dst 66 -> 2 <= r <= 36 ->
  exists t, ma_ll2str junk val mem dst r = Ret (Some (dst + Z.of_nat (length t)), splice dst (t ++ [0]) mem)
    /\ number_text r false (u64 val) t.
Proof.
  intros Hval Hroom Hr. unfold ma_ll2str. destruct (Z.ltb_spec r 0); [lia|].
  rewrite Z.gtb_ltb. destruct (Z.ltb_spec 36 r); [lia|]. destruct (Z.ltb_spec r 2); [lia|]. simpl.
  destruct (ll2str_digits_prints junk r (u64 val) mem dst) as (ds & Heq & Hds & Hv & Hcan & Hlen);
    [lia|apply wrap_uint; lia|unfold room in *; lia|].
  rewrite swrap_wrap, swrap_small in Heq by (done || lia). exists ds. split; [done|]. by exists ds.
Qed.

Lemma ll2str_radix_error junk val mem dst radix :
  ~ 2 <= Z.abs radix <= 36 -> ma_ll2str junk val mem dst radix = Ret (None, mem).
Proof.
  intros Hr. unfold ma_ll2str. rewrite !Z.gtb_ltb. destruct (Z.ltb_spec radix 0).
  - destruct (Z.ltb_spec radix (-36)); [done|]. destruct (Z.ltb_spec (-2) radix); [done|lia].
  - destruct (Z.ltb_spec 36 radix); [done|]. destruct (Z.ltb_spec radix 2); [done|lia].
Qed.

(** C33: ma_ll2str writes the sign (for a negative radix) and the digits of the value in the
    radix, without superfluous zeros, and a NUL, and returns the position of the NUL; with
    a positive radix the value counts as unsigned.  At most 64 digits are written, so its
    local array of 65 bytes and a destination of 66 bytes are always large enough; a radix
    out of range gives NULL and writes nothing. *)
Theorem ll2str_prints junk val mem dst radix :
  sint 64 val -> room mem dst 66 ->
  if decide (2 <= Z.abs radix <= 36) then
    exists t,
      ma_ll2str junk val mem dst radix = Ret (Some (dst + Z.of_nat (length t)), splice dst (t ++ [0]) mem)
      /\ number_text (Z.abs radix) ((radix <? 0) && (val <? 0)) (if radix <? 0 then Z.abs val else u64 val) t
      /\ (length t <= 65)%nat
  else ma_ll2str junk val mem dst radix = Ret (None, mem).
Proof.
  intros Hval Hroom. case_decide as Hr; [|by apply ll2str_radix_error].
  assert (exists t, ma_ll2str junk val mem dst radix = Ret (Some (dst + Z.of_nat (length t)), splice dst (t ++ [0]) mem)
    /\ number_text (Z.abs radix) ((radix <? 0) && (val <? 0)) (if radix <? 0 then Z.abs val else u64 val) t) as (t & Ht & Hn).
  { destruct (Z.ltb_spec radix 0).
    - pose proof (ll2str_signed junk val mem dst (- radix) Hval Hroom ltac:(lia)) as H'.
      by rewrite Z.opp_involutive, <- Z.abs_neq in H' by lia.
    - rewrite Z.abs_eq by lia. apply ll2str_unsigned; [done|done|lia]. }
  exists t. split_and!; [done|done|]. destruct Hn as (ds & -> & _ & _ & Hl & _). rewrite length_app.
  destruct (_ && _); simpl; lia.
Qed.

Lemma ll2str_prints_witness :
  exists t, ma_ll2str 7 (-9223372036854775808) (repeat 1 70) 2 (-2)
    = Ret (Some (2 + Z.of_nat (length t)), splice 2 (t ++ [0]) (repeat 1 70))
    /\ number_text 2 true 9223372036854775808 t /\ (length t <= 65)%nat.
Proof.
  apply (ll2str_prints 7 (-9223372036854775808) (repeat 1 70) 2 (-2)); [unfold sint; lia|unfold room; simpl; lia].
Defined.

(** * Reading is correct *)

(** The bytes [t] are in memory from [p] on. *)
Definition text_at (mem : bytes) (p : Z) (t : bytes) : Prop := load_bytes mem p (length t) = Ret t.

Lemma text_at_app mem p a b :
  text_at mem p (a ++ b) <-> text_at mem p a /\ text_at mem (p + Z.of_nat (length a)) b.
Proof. apply load_bytes_app. Qed.

Lemma text_at_cons mem p c t : text_at mem p (c :: t) <-> load mem p = Ret c /\ text_at mem (p + 1) t.
Proof.
  change (c :: t) with ([c] ++ t). rewrite text_at_app. unfold text_at at 1. simpl.
  destruct (load mem p); simpl; naive_solver.
Qed.

Definition spaces (ws : bytes) : Prop := Forall (fun c => isspace c = true) ws.
Definition heads (P : Z -> Prop) (t : bytes) : Prop := match t with [] => True | c :: _ => P c end.

#[export] Instance digit_dec c : Decision (digit c).
Proof. unfold digit. apply _. Defined.
#[export] Instance heads_dec P t `{!forall c, Decision (P c)} : Decision (heads P t).
Proof. destruct t; apply _. Defined.

Lemma skip_space_run mem ws t : spaces ws -> heads (fun c => isspace c = false) t -> forall p n,
  text_at mem p (ws ++ t) -> n = length (ws ++ t) -> skip_space mem p n = Ret (p + Z.of_nat (length ws)).
Proof.
  intros Hws Ht. induction Hws as [|c ws Hc Hws IH]; intros p n Hmem ->; simpl in *.
  - rewrite Z.add_0_r. destruct t as [|c t]; [done|]. simpl in *.
    apply text_at_cons in Hmem as [-> _]. rewrite bind_ret, Ht. done.
  - apply text_at_cons in Hmem as [-> Hmem]. rewrite bind_ret, Hc, IH by done. f_equal. lia.
Qed.

Lemma space_split t : exists ws t', t = ws ++ t' /\ spaces ws /\ heads (fun c => isspace c = false) t'.
Proof.
  induction t as [|c t (ws & t' & -> & Hws & Ht)].
  { exists [], []. by repeat split; first [done|apply Forall_nil]. }
  destruct (isspace c) eqn:E; [exists (c :: ws), t'; split; [done|split; [by apply Forall_cons|done]]|].
  exists [], (c :: ws ++ t'). split; [done|]. split; [by apply Forall_nil|done].
Qed.

(** The digits that fit, and what stops the loop behind them. *)
Definition fits (a : Z) (ds : bytes) : Prop := Forall digit ds /\ radix_from 10 a ds <= ULONGLONG_MAX.

Lemma radix_from_ge a ds : Forall digit ds -> 0 <= a -> a <= radix_from 10 a ds.
Proof.
  intros H. revert a. induction H as [|c ds Hc Hds IH]; intros a Ha; simpl; [lia|].
  assert (0 <= digit_val c) by (unfold digit, digit_val in *; destruct (Z.leb_spec c 57); lia).
  specialize (IH (a * 10 + digit_val c)). lia.
Qed.

Lemma digit_val_digit c : digit c -> digit_val c = c - 48.
Proof. unfold digit, digit_val. intros. destruct (Z.leb_spec c 57); lia. Qed.

Lemma digit_test c : is_byte c -> (s8 c <? 48) || (s8 c >? 57) = false <-> digit c.
Proof.
  intros Hb. unfold digit. rewrite orb_false_iff, Z.ltb_ge, Z.gtb_ltb, Z.ltb_ge.
  unfold is_byte, uint in Hb. destruct (decide (c < 128)).
  - rewrite swrap_small by (unfold sint; lia). lia.
  - rewrite <- (swrap_period 8 c (-1)), swrap_small by (unfold sint; lia). lia.
Qed.

Lemma digit_s8 c : digit c -> s8 c = c.
Proof. unfold digit. intros. apply swrap_small; [lia|unfold sint; lia]. Qed.

(** The overflow test, written without overflow, is exact. *)
Lemma overflow_test val d : 0 <= val <= ULONGLONG_MAX -> 0 <= d <= 9 ->
  (val >? ULONGLONG_MAX / 10) || (u64 (val * 10) >? ULONGLONG_MAX - d) = (val * 10 + d >? ULONGLONG_MAX).
Proof.
  unfold ULONGLONG_MAX. intros Hv Hd. rewrite !Z.gtb_ltb. change (18446744073709551615 / 10) with 1844674407370955161.
  destruct (Z.ltb_spec 1844674407370955161 val); simpl; [symmetry; apply Z.ltb_lt; lia|].
  rewrite wrap_small by (unfold uint; lia).
  destruct (Z.ltb_spec (18446744073709551615 - d) (val * 10)); symmetry; [apply Z.ltb_lt|apply Z.ltb_ge]; lia.
Qed.

Lemma strtoull_loop_run mem ds : forall t p n val err,
  fits val ds -> 0 <= val -> text_at mem p (ds ++ t) -> n = length (ds ++ t) -> all_bytes t ->
  heads (fun c => digit c -> radix_from 10 val (ds ++ [c]) > ULONGLONG_MAX) t ->
  strtoull_loop mem p n val err
  = Ret (radix_from 10 val ds, p + Z.of_nat (length ds),
         match t with c :: _ => if decide (digit c) then ERANGE else err | [] => err end).
Proof.
  induction ds as [|d ds IH]; intros t p n val err [Hds Hfit] Hval Hmem -> Hb Hstop; simpl in *.
  - rewrite Z.add_0_r. destruct t as [|c t]; [done|]. simpl in *.
    apply text_at_cons in Hmem as [-> _]. rewrite bind_ret. apply Forall_cons in Hb as [Hb _].
    case_decide as Hd.
    + rewrite (proj2 (digit_test c Hb) Hd), digit_s8 by done. specialize (Hstop Hd).
      rewrite digit_val_digit in Hstop by done. unfold digit in Hd.
      rewrite overflow_test by lia. by rewrite (proj2 (Z.gtb_lt _ _)) by lia.
    + destruct ((s8 c <? 48) || (s8 c >? 57)) eqn:E; [done|]. by apply digit_test in E.
  - apply Forall_cons in Hds as [Hd Hds]. apply text_at_cons in Hmem as [-> Hmem]. rewrite bind_ret.
    rewrite (proj2 (digit_test d ltac:(unfold is_byte, uint, digit in *; lia)) Hd), digit_s8 by done.
    rewrite digit_val_digit in * by done.
    assert (val * 10 + (d - 48) <= ULONGLONG_MAX).
    { etrans; [|exact Hfit]. apply radix_from_ge; [done|]. unfold digit in Hd. lia. }
    rewrite overflow_test by (unfold digit in Hd; lia). rewrite Z.gtb_ltb, (proj2 (Z.ltb_ge _ _)) by lia.
    replace (val * 10 + d - 48) with (val * 10 + (d - 48)) by lia.
    unfold ULONGLONG_MAX in *. rewrite wrap_small by (unfold uint, digit in *; lia).
    rewrite (IH t); [f_equal; f_equal; f_equal; lia|split; done|unfold digit in *; lia|done|done|done|].
    destruct t as [|c t]; [done|]. simpl in *. done.
Qed.

Lemma digits_split t : forall a, 0 <= a <= ULONGLONG_MAX ->
  exists ds t', t = ds ++ t' /\ fits a ds
    /\ heads (fun c => digit c -> radix_from 10 a (ds ++ [c]) > ULONGLONG_MAX) t'.
Proof.
  induction t as [|c t IH]; intros a Ha.
  { exists [], []. split; [done|]. split; [split; [by apply Forall_nil|simpl; lia]|done]. }
  destruct (decide (digit c)) as [Hd|Hd];
    [destruct (decide (a * 10 + digit_val c <= ULONGLONG_MAX)) as [Ho|Ho]|].
  - destruct (IH (a * 10 + digit_val c)) as (ds & t' & -> & [Hds Hfit] & Hstop).
    { rewrite digit_val_digit in * by done. unfold digit in Hd. lia. }
    exists (c :: ds), t'. split_and!; [done|split; [by constructor|done]|done].
  - exists [], (c :: t). split; [done|]. split; [split; [by apply Forall_nil|simpl; lia]|simpl; lia].
  - exists [], (c :: t). split; [done|]. split; [split; [by apply Forall_nil|simpl; lia]|simpl; tauto].
Qed.

(** What my_strtoull does on any text: the longest run of digits whose value fits is read,
    and there is an error when it is empty or another digit follows. *)
Lemma strtoull_run mem p ds t n err :
  fits 0 ds -> text_at mem p (ds ++ t) -> n = Z.of_nat (length (ds ++ t)) -> all_bytes t ->
  heads (fun c => digit c -> decimal (ds ++ [c]) > ULONGLONG_MAX) t ->
  my_strtoull mem p n err
  = Ret (decimal ds, p + Z.of_nat (length ds),
         if decide (ds = []) then ERANGE
         else match t with c :: _ => if decide (digit c) then ERANGE else err | [] => err end).
Proof.
  intros Hds Hmem -> Hb Hstop. unfold my_strtoull. rewrite (strtoull_loop_run mem ds t); try done || lia.
  rewrite bind_ret. do 3 f_equal. destruct ds; case_decide; try done; simpl.
  - by rewrite Z.add_0_r, Z.eqb_refl.
  - destruct (Z.eqb_spec (p + Z.of_nat (S (length ds))) p); [lia|done].
Qed.

Definition sign_of (sign : bytes) (v u : Z) : Prop := sign = [] /\ v = u \/ sign = [45] /\ v = - u.

(** The texts that denote a number: white space, a sign, digits, white space. *)
Definition numeral (t : bytes) (v : Z) : Prop :=
  exists ws sign ds ws', t = ws ++ sign ++ ds ++ ws' /\ spaces ws /\ spaces ws'
    /\ ds <> [] /\ Forall digit ds /\ sign_of sign v (decimal ds).

Definition unsigned_numeral (t : bytes) (v : Z) : Prop :=
  exists ws ds ws', t = ws ++ ds ++ ws' /\ spaces ws /\ spaces ws'
    /\ ds <> [] /\ Forall digit ds /\ v = decimal ds.

Lemma decimal_nonneg ds : Forall digit ds -> 0 <= decimal ds.
Proof. intros. by apply (radix_from_ge 0). Qed.

Lemma digit_not_space c : digit c -> isspace c = false.
Proof.
  unfold digit, isspace. intros. destruct (Z.eqb_spec c 32), (Z.leb_spec 9 c), (Z.leb_spec c 13); simpl; lia.
Qed.

Lemma spaces_not_digit ws P : spaces ws -> heads (fun c => digit c -> P c) ws.
Proof.
  destruct 1 as [|c ws Hc _]; [done|]. simpl. intros Hd. by rewrite digit_not_space in Hc.
Qed.

Lemma spaces_stop mem p ws n : spaces ws -> text_at mem p ws -> n = Z.of_nat (length ws) ->
  skip_space mem p (Z.to_nat n) = Ret (p + Z.of_nat (length ws)).
Proof.
  intros Hs Hm ->. rewrite (skip_space_run mem ws []); rewrite ?app_nil_r; done || lia.
Qed.

Lemma no_space mem p c t n : isspace c = false -> text_at mem p (c :: t) -> n = Z.of_nat (S (length t)) ->
  skip_space mem p (Z.to_nat n) = Ret p.
Proof.
  intros Hs Hm ->. rewrite (skip_space_run mem [] (c :: t)); simpl; try done || lia.
  f_equal. lia.
  by apply Forall_nil.
Qed.

(** my_strtoll on the digits behind an optional sign: the value, unless it is out of range. *)
Lemma strtoll_run mem p sign ds t n :
  sign = [] \/ sign = [45] -> ds <> [] -> fits 0 ds -> all_bytes t ->
  heads (fun c => ~ digit c) t -> text_at mem p (sign ++ ds ++ t) ->
  n = Z.of_nat (length (sign ++ ds ++ t)) ->
  exists v e err, my_strtoll mem p n 0 = Ret (v, e, err)
    /\ let w := if decide (sign = []) then decimal ds else - decimal ds in
       (sint 64 w -> v = w /\ e = p + Z.of_nat (length (sign ++ ds)) /\ err = 0)
       /\ (~ sint 64 w -> err = ERANGE /\ e = p + Z.of_nat (length (sign ++ ds)) - 1).
Proof.
  intros Hsign Hne Hfit Hb Hstop Hmem ->. unfold my_strtoll.
  assert (exists c r, sign ++ ds ++ t = c :: r /\ isspace c = false /\ (c =? 45) = bool_decide (sign <> [])) as (c & r & E & Hc & Hneg).
  { destruct Hsign as [->| ->]; [|by eexists _, _]. destruct ds as [|d ds]; [done|]. eexists _, _. split; [done|].
    destruct Hfit as [[Hd _]%Forall_cons _]. split; [by apply digit_not_space|]. unfold digit in Hd.
    destruct (Z.eqb_spec d 45); [lia|done]. }
  rewrite E in Hmem. rewrite E, (no_space mem p c r) by (done || (simpl; lia)). rewrite bind_ret.
  destruct (Z.eqb_spec p (p + Z.of_nat (length (c :: r)))); [simpl in *; lia|].
  pose proof (proj1 (proj1 (text_at_cons _ _ _ _) Hmem)) as Hload. rewrite Hload, bind_ret, Hneg. rewrite <- E in Hmem.
  apply text_at_app in Hmem as [_ Hmem].
  replace (if bool_decide (sign <> []) then p + 1 else p) with (p + Z.of_nat (length sign))
    by (destruct Hsign as [->| ->]; simpl; lia).
  rewrite (strtoull_run _ _ ds t) by first [done | rewrite <- E, !length_app; lia
    | destruct t; [done|]; simpl in *; tauto].
  rewrite bind_ret, decide_False by done.
  replace (match t with c :: _ => _ | [] => 0 end) with 0 by (destruct t; [done|]; simpl in Hstop; by rewrite decide_False).
  destruct Hfit as [Hds Hmax]. fold (decimal ds) in Hmax. pose proof (decimal_nonneg ds Hds).
  change (u64 LONGLONG_MIN) with 9223372036854775808.
  unfold sint, LONGLONG_MAX, LONGLONG_MIN, ULONGLONG_MAX in *. change (2 ^ (64 - 1)) with 9223372036854775808.
  rewrite Z.gtb_ltb, length_app. simpl.
  destruct Hsign as [->| ->]; [rewrite decide_True by done|rewrite decide_False by done]; simpl.
  - destruct (Z.ltb_spec 9223372036854775807 (decimal ds)); eexists _, _, _; (split; [done|]); split; intros;
      try lia; split_and!; first [lia | apply swrap_small; [lia|unfold sint; lia] | done].
  - destruct (Z.eqb_spec (decimal ds) 9223372036854775808) as [Hm|Hm];
      [|destruct (Z.ltb_spec 9223372036854775807 (decimal ds))]; eexists _, _, _; (split; [done|]); split; intros;
      try lia; split_and!; first [lia | done |
        rewrite swrap_wrap by lia; rewrite swrap_small by (unfold sint; lia); lia].
Qed.

Lemma skip_space_returns mem p t e : text_at mem p t -> p <= e <= p + Z.of_nat (length t) ->
  returns (skip_space mem e (Z.to_nat (p + Z.of_nat (length t) - e))).
Proof.
  intros Hm He. rewrite <- (take_drop (Z.to_nat (e - p)) t) in Hm. apply text_at_app in Hm as [_ Hm].
  rewrite length_take_le in Hm by lia. replace (p + _) with e in Hm by lia.
  destruct (space_split (drop (Z.to_nat (e - p)) t)) as (ws & t' & E & Hws & Ht).
  rewrite E in Hm. apply (f_equal length) in E. rewrite length_drop in E.
  eexists. apply (skip_space_run mem ws t'); try done. lia.
Qed.

(** Trailing white space decides whether the whole text was read. *)
Lemma trailing mem p t e err : text_at mem p t -> p <= e <= p + Z.of_nat (length t) -> err <> 0 ->
  exists e', skip_space mem e (Z.to_nat (p + Z.of_nat (length t) - e)) = Ret e'
    /\ (if negb (e' =? p + Z.of_nat (length t)) then 1 else err) <> 0.
Proof.
  intros Hm He Herr. destruct (skip_space_returns mem p t e Hm He) as [e' ->].
  exists e'. split; [done|]. by destruct (negb _).
Qed.

(** my_strtoll when the digits are missing or too many. *)
Lemma strtoll_error mem p sign ds t n :
  sign = [] /\ head (ds ++ t) <> Some 45 \/ sign = [45] -> sign ++ ds ++ t <> [] ->
  heads (fun c => isspace c = false) (sign ++ ds ++ t) ->
  fits 0 ds -> all_bytes t ->
  heads (fun c => digit c -> decimal (ds ++ [c]) > ULONGLONG_MAX) t ->
  ds = [] \/ ~ heads (fun c => ~ digit c) t -> text_at mem p (sign ++ ds ++ t) ->
  n = Z.of_nat (length (sign ++ ds ++ t)) ->
  exists v, my_strtoll mem p n 0 = Ret (v, p + Z.of_nat (length (sign ++ ds)), ERANGE).
Proof.
  intros Hsign Hne Hsp Hfit Hb Hstop Hbad Hmem ->. unfold my_strtoll.
  destruct (sign ++ ds ++ t) as [|c r] eqn:E; [done|]. simpl in Hsp.
  rewrite (no_space mem p c r) by (done || (simpl; lia)). rewrite bind_ret.
  destruct (Z.eqb_spec p (p + Z.of_nat (length (c :: r)))); [simpl in *; lia|].
  pose proof (proj1 (proj1 (text_at_cons _ _ _ _) Hmem)) as Hload. rewrite Hload, bind_ret. rewrite <- E in Hmem.
  apply text_at_app in Hmem as [_ Hmem].
  replace (if c =? 45 then p + 1 else p) with (p + Z.of_nat (length sign)).
  2: { destruct Hsign as [[-> Hh]| ->]; simpl in *.
       - rewrite E in Hh. simpl in Hh. destruct (Z.eqb_spec c 45); [by subst|lia].
       - by injection E as <- <-. }
  rewrite (strtoull_run _ _ ds t) by first [done | rewrite <- E, !length_app; lia].
  rewrite bind_ret.
  replace (if decide (ds = []) then _ else _) with ERANGE.
  2: { case_decide; [done|]. destruct Hbad as [|Hbad]; [done|]. destruct t as [|d t]; simpl in Hbad; [done|].
       case_decide; tauto. }
  eexists. simpl. rewrite length_app. do 3 f_equal. lia.
Qed.

Lemma text_parts t : all_bytes t -> exists ws sign ds t',
  t = ws ++ sign ++ ds ++ t' /\ spaces ws /\ (sign = [] /\ head (ds ++ t') <> Some 45 \/ sign = [45])
  /\ heads (fun c => isspace c = false) (sign ++ ds ++ t') /\ fits 0 ds /\ all_bytes t'
  /\ heads (fun c => digit c -> decimal (ds ++ [c]) > ULONGLONG_MAX) t'.
Proof.
  intros Hb. destruct (space_split t) as (ws & t1 & -> & Hws & Ht1). exists ws.
  apply Forall_app in Hb as [_ Hb].
  assert (exists sign t2, t1 = sign ++ t2 /\ (sign = [] /\ head t2 <> Some 45 \/ sign = [45])) as (sign & t2 & -> & Hs).
  { destruct t1 as [|c t1]; [by exists [], []; auto|]. destruct (decide (c = 45)) as [->|Hc].
    - exists [45], t1. auto.
    - exists [], (c :: t1). split; [done|]. left. split; [done|]. simpl. congruence. }
  destruct (digits_split t2 0) as (ds & t' & -> & Hfit & Hstop); [unfold ULONGLONG_MAX; lia|].
  exists sign, ds, t'. apply Forall_app in Hb as [_ [_ Hb]%Forall_app]. done.
Qed.

(** Texts of a number have one value: the sign and the digits are determined. *)
Lemma atoll_accepts mem str t w : text_at mem str t -> all_bytes t -> numeral t w -> sint 64 w ->
  my_atoll mem str (str + Z.of_nat (length t)) 0 = Ret (w, 0).
Proof.
  intros Hmem Hb (ws & sign & ds & ws' & -> & Hws & Hws' & Hne & Hds & Hsign) Hw. unfold my_atoll.
  assert (sign = [] \/ sign = [45]) as Hs by (destruct Hsign as [[-> _]|[-> _]]; auto).
  assert (heads (fun c => isspace c = false) (sign ++ ds ++ ws')) as Hsp.
  { destruct Hs as [->| ->]; [|done]. destruct Hds; [done|]. by apply digit_not_space. }
  assert (fits 0 ds) as Hfit.
  { split; [done|]. fold (decimal ds). pose proof (decimal_nonneg ds Hds). unfold sint, ULONGLONG_MAX in *.
    destruct Hsign as [[_ ->]|[_ ->]]; lia. }
  rewrite (skip_space_run mem ws (sign ++ ds ++ ws')) by (done || lia). rewrite bind_ret.
  apply text_at_app in Hmem as [_ Hmem]. rewrite !Forall_app in Hb.
  destruct (strtoll_run mem (str + Z.of_nat (length ws)) sign ds ws'
    (str + Z.of_nat (length (ws ++ sign ++ ds ++ ws')) - (str + Z.of_nat (length ws))))
    as (v & e & err & -> & Hin & _); try tauto; [by apply (spaces_not_digit _ (fun _ => False))|rewrite !length_app; lia|].
  simpl in Hin. replace (if decide (sign = []) then decimal ds else - decimal ds) with w in Hin
    by (destruct Hsign as [[-> ->]|[-> ->]]; [by rewrite decide_True|by rewrite decide_False]).
  destruct (Hin Hw) as (-> & -> & ->). rewrite bind_ret.
  rewrite app_assoc in Hmem. apply text_at_app in Hmem as [_ Hmem].
  rewrite (spaces_stop mem _ ws') by (done || (rewrite !length_app; lia)). rewrite bind_ret.
  do 2 f_equal. rewrite !length_app. by rewrite (proj2 (Z.eqb_eq _ _)) by lia.
Qed.

(** My_atoll reads any text: it returns, and without an error exactly when the text is a
    number of the range of a 64-bit signed integer between white space, whose value it then
    returns. *)
Theorem atoll_reads mem str t :
  text_at mem str t -> all_bytes t ->
  exists v e, my_atoll mem str (str + Z.of_nat (length t)) 0 = Ret (v, e)
    /\ forall w, e = 0 /\ v = w <-> numeral t w /\ sint 64 w.
Proof.
  intros Hmem Hb.
  cut (exists v e, my_atoll mem str (str + Z.of_nat (length t)) 0 = Ret (v, e)
    /\ (e = 0 -> numeral t v /\ sint 64 v)).
  { intros (v & e & He & H). exists v, e. split; [done|]. intros w. split; [intros [-> <-]; auto|].
    intros [Hn Hw]. rewrite (atoll_accepts mem str t w) in He by done. by injection He as <- <-. }
  destruct (text_parts t Hb) as (ws & sign & ds & t' & -> & Hws & Hs & Hsp & Hfit & Hb' & Hstop).
  assert (sign = [] \/ sign = [45]) as Hsign by tauto.
  unfold my_atoll. rewrite (skip_space_run mem ws (sign ++ ds ++ t')) by (done || lia). rewrite bind_ret.
  pose proof (proj2 (proj1 (text_at_app _ _ _ _) Hmem)) as Hmem1.
  replace (str + Z.of_nat (length (ws ++ sign ++ ds ++ t')))
    with (str + Z.of_nat (length ws) + Z.of_nat (length (sign ++ ds ++ t'))) by (rewrite !length_app; lia).
  set (p := str + Z.of_nat (length ws)) in *.
  destruct (decide (sign ++ ds ++ t' = [])) as [E|E].
  { rewrite E. change (Z.of_nat (length [])) with 0. unfold my_strtoll. rewrite Z.add_0_r, Z.sub_diag.
    simpl. rewrite Z.add_0_r, Z.eqb_refl, bind_ret, Z.sub_diag. simpl. rewrite Z.eqb_refl.
    by eexists _, _. }
  replace (p + Z.of_nat (length (sign ++ ds ++ t')) - p) with (Z.of_nat (length (sign ++ ds ++ t'))) by lia.
  destruct (decide (ds = [] \/ ~ heads (fun c => ~ digit c) t')) as [Hbad|Hgood].
  { destruct (strtoll_error mem p sign ds t' (Z.of_nat (length (sign ++ ds ++ t')))) as [v ->]; try done.
    rewrite bind_ret. edestruct (trailing mem p (sign ++ ds ++ t') (p + Z.of_nat (length (sign ++ ds))) ERANGE) as (e' & -> & Herr); [done| |done|].
    { rewrite !length_app. lia. }
    rewrite bind_ret. eexists _, _. split; [done|]. intros He. by rewrite He in Herr. }
  assert (ds <> [] /\ heads (fun c => ~ digit c) t') as [Hne Hnd].
  { split; [tauto|]. destruct (decide (heads (fun c => ~ digit c) t')); tauto. }
  destruct (strtoll_run mem p sign ds t' (Z.of_nat (length (sign ++ ds ++ t')))) as (v & e & err & -> & Hin & Hout); try done.
  rewrite bind_ret. simpl in Hin, Hout. set (w := if decide (sign = []) then _ else _) in *.
  destruct (decide (sint 64 w)) as [Hw|Hw].
  - destruct (Hin Hw) as (-> & -> & ->). rewrite app_assoc in Hmem1. apply text_at_app in Hmem1 as [_ Hmem1].
    destruct (space_split t') as (ws' & t3 & -> & Hws' & Ht3).
    rewrite (skip_space_run mem ws' t3) by (done || (rewrite !length_app; lia)). rewrite bind_ret.
    eexists _, _. split; [done|]. rewrite !length_app in *. destruct (Z.eqb_spec (p + Z.of_nat (length sign + length ds) + Z.of_nat (length ws'))
      (p + Z.of_nat (length sign + (length ds + (length ws' + length t3))))) as [Hend|Hend]; [|done].
    destruct t3; [|simpl in *; lia]. intros _. split; [|done]. exists ws, sign, ds, ws'. rewrite app_nil_r.
    destruct Hfit as [Hds _]. split_and!; try done. unfold sign_of, w.
    destruct Hsign as [->| ->]; [left; by rewrite decide_True|right; by rewrite decide_False].
  - destruct (Hout Hw) as (-> & ->).
    edestruct (trailing mem p (sign ++ ds ++ t') (p + Z.of_nat (length (sign ++ ds)) - 1) ERANGE)
      as (e' & -> & Herr); [done| |done|].
    { rewrite !length_app. destruct ds; [done|]. simpl. lia. }
    rewrite bind_ret. eexists _, _. split; [done|]. intros He. by rewrite He in Herr.
Qed.

Lemma atoll_reads_witness :
  exists v e, my_atoll [32; 45; 49; 50; 32] 0 (0 + Z.of_nat 5) 0 = Ret (v, e)
    /\ forall w, e = 0 /\ v = w <-> numeral [32; 45; 49; 50; 32] w /\ sint 64 w.
Proof.
  apply (atoll_reads [32; 45; 49; 50; 32] 0 [32; 45; 49; 50; 32]); [done|].
  repeat (apply Forall_cons; split; [unfold is_byte, uint; lia|]). apply Forall_nil. done.
Defined.

(** my_atoull takes no sign. *)
Lemma atoull_accepts mem str t w : text_at mem str t -> all_bytes t -> unsigned_numeral t w -> uint 64 w ->
  my_atoull mem str (str + Z.of_nat (length t)) 0 = Ret (w, 0).
Proof.
  intros Hmem Hb (ws & ds & ws' & -> & Hws & Hws' & Hne & Hds & ->) Hw. unfold my_atoull.
  assert (heads (fun c => isspace c = false) (ds ++ ws')) as Hsp.
  { destruct Hds; [done|]. by apply digit_not_space. }
  assert (fits 0 ds) as Hfit.
  { split; [done|]. fold (decimal ds). unfold uint, ULONGLONG_MAX in *. lia. }
  rewrite (skip_space_run mem ws (ds ++ ws')) by (done || lia). rewrite bind_ret.
  apply text_at_app in Hmem as [_ Hmem]. rewrite !Forall_app in Hb.
  rewrite (strtoull_run _ _ ds ws') by first [done | tauto | rewrite !length_app; lia
    | by apply (spaces_not_digit _ (fun c => decimal (ds ++ [c]) > ULONGLONG_MAX))].
  rewrite bind_ret, decide_False by done.
  replace (match ws' with c :: _ => _ | [] => 0 end) with 0.
  2: { destruct ws' as [|c ws']; [done|]. by rewrite decide_False by (apply (spaces_not_digit (c :: ws') (fun _ => False) Hws')). }
  apply text_at_app in Hmem as [_ Hmem].
  rewrite (spaces_stop mem _ ws') by (done || (rewrite !length_app; lia)). rewrite bind_ret.
  do 2 f_equal. rewrite !length_app. by rewrite (proj2 (Z.eqb_eq _ _)) by lia.
Qed.

Lemma number_text_numeral negative v t : number_text 10 negative v t ->
  all_bytes t /\ numeral t (if negative then - v else v) /\ (negative = false -> unsigned_numeral t v).
Proof.
  intros (ds & -> & Hds & Hcan & _ & Hv).
  assert (Forall digit ds) as Hd.
  { eapply Forall_impl; [exact Hds|]. intros c [Hc Hval]. unfold digit, digit_val in *.
    destruct (Z.leb_spec c 57); lia. }
  assert (ds <> []) as Hne by (destruct Hcan as [->|[_ ?]]; done).
  split; [|split].
  - apply Forall_app. split; [destruct negative; repeat constructor; done|].
    eapply Forall_impl; [exact Hd|]. unfold digit, is_byte, uint. lia.
  - exists [], (if negative then [45] else []), ds, []. rewrite app_nil_r. split_and!; try done; try apply Forall_nil; try done.
    unfold sign_of. rewrite Hv. destruct negative; auto.
  - intros ->. exists [], ds, []. rewrite app_nil_r. split_and!; try done; by apply Forall_nil.
Qed.

(** What ma_ll2str prints in decimal is read back: my_atoll gives the signed value of
    radix -10 and my_atoull the unsigned value of radix 10, without an error, for every
    64-bit value, the smallest one included. *)
Theorem decimal_roundtrip junk val mem dst :
  sint 64 val -> room mem dst 66 ->
  (exists n m, ma_ll2str junk val mem dst (-10) = Ret (Some n, m) /\ my_atoll m dst n 0 = Ret (val, 0))
  /\ (exists n m, ma_ll2str junk val mem dst 10 = Ret (Some n, m) /\ my_atoull m dst n 0 = Ret (u64 val, 0)).
Proof.
  intros Hval Hroom.
  assert (forall t r v, number_text 10 r v t -> text_at (splice dst (t ++ [0]) mem) dst t) as Htext.
  { intros t r v (ds & -> & _ & _ & Hl & _). set (t := _ ++ ds). apply (proj1 (proj1 (text_at_app _ _ t [0]) (load_bytes_splice dst (t ++ [0]) mem ltac:(
      unfold room, t in *; rewrite !length_app; destruct r; simpl; lia)))). }
  split.
  - destruct (ll2str_signed junk val mem dst 10) as (t & Ht & Hn); [done|done|lia|].
    eexists _, _. split; [exact Ht|]. destruct (number_text_numeral _ _ _ Hn) as (Hb & Hnum & _).
    apply atoll_accepts; [by eapply Htext|done| |done].
    destruct (Z.ltb_spec val 0); [rewrite Z.abs_neq, Z.opp_involutive in Hnum by lia|rewrite Z.abs_eq in Hnum by lia]; done.
  - destruct (ll2str_unsigned junk val mem dst 10) as (t & Ht & Hn); [done|done|lia|].
    eexists _, _. split; [exact Ht|]. destruct (number_text_numeral _ _ _ Hn) as (Hb & _ & Hu).
    apply atoull_accepts; [by eapply Htext|done|auto|apply wrap_uint; lia].
Qed.

Lemma decimal_roundtrip_witness :
  (exists n m, ma_ll2str 7 (-9223372036854775808) (repeat 1 70) 2 (-10) = Ret (Some n, m)
     /\ my_atoll m 2 n 0 = Ret (-9223372036854775808, 0))
  /\ (exists n m, ma_ll2str 7 (-9223372036854775808) (repeat 1 70) 2 10 = Ret (Some n, m)
     /\ my_atoull m 2 n 0 = Ret (9223372036854775808, 0)).
Proof.
  apply (decimal_roundtrip 7 (-9223372036854775808) (repeat 1 70) 2); [unfold sint; lia|unfold room; simpl; lia].
Defined.

Example ll2str_example : ma_ll2str 7 (-255) (repeat 1 6) 1 (-16) = Ret (Some 4, [1; 45; 70; 70; 0; 1]).
Proof. reflexivity. Qed.

Example atoll_example : my_atoll [32; 45; 49; 50; 32] 0 5 0 = Ret (-12, 0).
Proof. reflexivity. Qed.

End NumText.
