(* ===== verification/LenEnc.v ===== *)
(** Length-encoded integers: mysql_net_store_length and mysql_store_length_size of
    libmariadb/mariadb_stmt.c, and net_field_length, net_field_length_ll and
    get_store_length of libmariadb/mariadb_lib.c.

    [lenenc] is the reference encoding: one byte below 251, otherwise a marker and two,
    three or eight bytes. *)

From stdpp Require Import tactics.
From S2P Require Import Prelude IntStore NumText.
Export NumText(text_at, text_at_app, text_at_cons).

Module LenEnc.

Definition NULL_LENGTH : Z := 18446744073709551615.
Definition MAX_STORE_SIZE : Z := 9.

Definition mysql_store_length_size (num : Z) : Z :=
  if num <? 251 then 1
  else if num <? 65536 then 3
  else if num <? 16777216 then 4
  else 9.

(** Memory and the position behind the number. *)
Definition mysql_net_store_length (mem : bytes) (packet length : Z) : cres (bytes * Z) :=
  if length <? 251 then
    mem ← store mem packet length;
    Ret (mem, packet + 1)
  else if length <? 65536 then
    mem ← store mem packet 252;
    mem ← int2store mem (packet + 1) (u32 length);
    Ret (mem, packet + 1 + 2)
  else if length <? 16777216 then
    mem ← store mem packet 253;
    mem ← int3store mem (packet + 1) length;
    Ret (mem, packet + 1 + 3)
  else
    mem ← store mem packet 254;
    mem ← int8store mem (packet + 1) length;
    Ret (mem, packet + 1 + 8).

(** The value and the position behind it. *)
Definition net_field_length (mem : bytes) (packet : Z) : cres (Z * Z) :=
  c ← load mem packet;
  if c <? 251 then Ret (c, packet + 1)
  else if c =? 251 then Ret (NULL_LENGTH, packet + 1)
  else if c =? 252 then v ← uint2korr mem (packet + 1); Ret (v, packet + 3)
  else if c =? 253 then v ← uint3korr mem (packet + 1); Ret (v, packet + 4)
  else v ← uint4korr mem (packet + 1); Ret (v, packet + 9).

Definition net_field_length_ll (mem : bytes) (packet : Z) : cres (Z * Z) :=
  c ← load mem packet;
  if c <? 251 then Ret (c, packet + 1)
  else if c =? 251 then Ret (NULL_LENGTH, packet + 1)
  else if c =? 252 then v ← uint2korr mem (packet + 1); Ret (v, packet + 3)
  else if c =? 253 then v ← uint3korr mem (packet + 1); Ret (v, packet + 4)
  else v ← uint8korr mem (packet + 1); Ret (v, packet + 9).

(** Stores into a local array, which holds [junk], and takes the difference. *)
Definition get_store_length (junk length : Z) : cres Z :=
  '(_, p) ← mysql_net_store_length (repeat junk (Z.to_nat MAX_STORE_SIZE)) 0 length;
  Ret (p - 0).

(** * Reference *)

Definition lenenc (n : Z) : bytes :=
  if n <? 251 then [n]
  else if n <? 65536 then 252 :: le_bytes 2 n
  else if n <? 16777216 then 253 :: le_bytes 3 n
  else 254 :: le_bytes 8 n.

Ltac cases n :=
  unfold lenenc, mysql_store_length_size, mysql_net_store_length;
  destruct (Z.ltb_spec n 251); [|destruct (Z.ltb_spec n 65536); [|destruct (Z.ltb_spec n 16777216)]].

Lemma length_lenenc n : Z.of_nat (length (lenenc n)) = mysql_store_length_size n.
Proof. cases n; simpl; rewrite ?length_le_bytes; lia. Qed.

Lemma lenenc_short n : (1 <= length (lenenc n) <= 9)%nat.
Proof. cases n; simpl; lia. Qed.

Lemma lenenc_bytes n : uint 64 n -> all_bytes (lenenc n).
Proof.
  unfold uint. intros Hn. cases n; (apply Forall_cons; split; [unfold is_byte, uint; lia|]);
    first [by apply Forall_nil | apply le_bytes_bytes].
Qed.

(** Writing a marker and then a block. *)
Lemma store_then mem p c bs (f : bytes -> cres bytes) :
  is_byte c -> room mem p (S (length bs)) ->
  (forall m, room m (p + 1) (length bs) -> f m = Ret (splice (p + 1) bs m)) ->
  (m ← store mem p c; f m) = Ret (splice p (c :: bs) mem).
Proof.
  intros Hc Hr Hf. assert (room mem p 1) by (unfold room in *; lia).
  rewrite store_splice1, bind_ret by done. rewrite Hf by (unfold room in *; rewrite length_splice by done; lia).
  f_equal. apply (splice_app p [c] bs). done.
Qed.

Lemma store_length_writes mem p n :
  uint 64 n -> room mem p (length (lenenc n)) ->
  mysql_net_store_length mem p n = Ret (splice p (lenenc n) mem, p + Z.of_nat (length (lenenc n))).
Proof.
  unfold uint. intros Hn. cases n; intros Hr; [by rewrite store_splice1 by (done || (unfold is_byte, uint; lia))|..];
    rewrite <- bind_assoc.
  - rewrite (store_then _ _ _ (le_bytes 2 n)); [simpl; do 2 f_equal; lia|done|done|].
    intros m Hm. rewrite int2store_splice, le_bytes_wrap by (done || lia). done.
  - rewrite (store_then _ _ _ (le_bytes 3 n)); [simpl; do 2 f_equal; lia|done|done|].
    intros m Hm. by apply int3store_splice.
  - rewrite (store_then _ _ _ (le_bytes 8 n)); [simpl; do 2 f_equal; lia|done|done|].
    intros m Hm. by apply int8store_splice.
Qed.

(** Reading what is there. *)
Lemma field_length_reads mem p n :
  uint 64 n -> text_at mem p (lenenc n) ->
  net_field_length mem p = Ret (u32 n, p + Z.of_nat (length (lenenc n)))
  /\ net_field_length_ll mem p = Ret (n, p + Z.of_nat (length (lenenc n))).
Proof.
  unfold uint, net_field_length, net_field_length_ll. intros Hn.
  cases n; intros Hm; apply text_at_cons in Hm as [-> Hm]; rewrite !bind_ret; cbn [Z.ltb Z.compare Z.eqb Pos.compare Pos.compare_cont Pos.eqb].
  - destruct (Z.ltb_spec n 251); [|lia]. rewrite (wrap_small 32) by (unfold uint; lia). done.
  - rewrite (uint2korr_load _ _ (le_bytes 2 n)) by (apply le_bytes_bytes || done).
    rewrite le_val_le_bytes. change (8 * Z.of_nat 2) with 16. by rewrite !wrap_small by (unfold uint; lia).
  - rewrite (uint3korr_load _ _ (le_bytes 3 n)) by (apply le_bytes_bytes || done).
    rewrite le_val_le_bytes. change (8 * Z.of_nat 3) with 24. by rewrite !wrap_small by (unfold uint; lia).
  - rewrite (uint8korr_load _ _ (le_bytes 8 n)) by (apply le_bytes_bytes || done).
    rewrite le_val_le_bytes. change (8 * Z.of_nat 8) with 64. rewrite (wrap_small 64 n) by done.
    change (le_bytes 8 n) with (le_bytes 4 n ++ le_bytes 4 (Z.shiftr (Z.shiftr (Z.shiftr (Z.shiftr n 8) 8) 8) 8)) in Hm.
    apply text_at_app in Hm as [Hm _].
    rewrite (uint4korr_load _ _ (le_bytes 4 n)) by (apply le_bytes_bytes || done).
    rewrite le_val_le_bytes. done.
Qed.

(** A length-encoded integer that mysql_net_store_length wrote occupies the bytes that
    mysql_store_length_size and get_store_length announce, and is read back by
    net_field_length_ll; net_field_length gives its low 32 bits, so a length below four
    gigabytes is read back by both. *)
Theorem length_roundtrip junk mem p n :
  uint 64 n -> room mem p (Z.to_nat (mysql_store_length_size n)) ->
  exists m, mysql_net_store_length mem p n = Ret (m, p + mysql_store_length_size n)
    /\ get_store_length junk n = Ret (mysql_store_length_size n)
    /\ net_field_length_ll m p = Ret (n, p + mysql_store_length_size n)
    /\ net_field_length m p = Ret (u32 n, p + mysql_store_length_size n)
    /\ forall i k, i + Z.of_nat k <= p \/ p + mysql_store_length_size n <= i -> load_bytes m i k = load_bytes mem i k.
Proof.
  rewrite <- length_lenenc, Nat2Z.id. intros Hn Hr. pose proof (lenenc_short n) as Hl.
  exists (splice p (lenenc n) mem).
  destruct (field_length_reads (splice p (lenenc n) mem) p n Hn) as [H1 H2]; [by apply load_bytes_splice|].
  split_and!; [by apply store_length_writes| |done|done|by intros; apply load_bytes_splice_out].
  unfold get_store_length. rewrite store_length_writes by (done || (unfold room; rewrite repeat_length; change (Z.to_nat MAX_STORE_SIZE) with 9%nat; lia)).
  rewrite bind_ret. f_equal. lia.
Qed.

Lemma length_roundtrip_witness :
  exists m, mysql_net_store_length (repeat 7 12) 2 70000 = Ret (m, 2 + mysql_store_length_size 70000)
    /\ get_store_length 1 70000 = Ret (mysql_store_length_size 70000)
    /\ net_field_length_ll m 2 = Ret (70000, 2 + mysql_store_length_size 70000)
    /\ net_field_length m 2 = Ret (u32 70000, 2 + mysql_store_length_size 70000)
    /\ forall i k, i + Z.of_nat k <= 2 \/ 2 + mysql_store_length_size 70000 <= i ->
       load_bytes m i k = load_bytes (repeat 7 12) i k.
Proof. apply (length_roundtrip 1 (repeat 7 12) 2 70000); [unfold uint; lia|split; vm_compute; discriminate]. Defined.

(** A length of four gigabytes is written in full and read as zero, although the caller
    keeps it in an [unsigned long]. *)
Lemma field_length_truncates :
  exists m, mysql_net_store_length (repeat 7 9) 0 4294967296 = Ret (m, 9)
    /\ net_field_length m 0 = Ret (0, 9) /\ net_field_length_ll m 0 = Ret (4294967296, 9).
Proof. eexists. repeat split. Qed.

End LenEnc.
