(* ===== verification/StmtTime.v ===== *)
(** Dates and times of prepared statements.

    The binary form: net_store_datetime, the store_param family for TIME, DATE and DATETIME
    of libmariadb/mariadb_stmt.c, and convert_to_datetime and read_binary_datetime of
    libmariadb/ma_stmt_codec.c.

    [datetime_bytes] and [time_bytes] are the reference encodings of the protocol: a length
    byte and as many fields as the value needs. *)

From stdpp Require Import tactics.
From S2P Require Import Prelude IntStore NumText LenEnc.
Import NumText LenEnc.

Module StmtTime.

Definition MYSQL_TIMESTAMP_ERROR : Z := -1.
Definition MYSQL_TIMESTAMP_DATE : Z := 0.
Definition MYSQL_TIMESTAMP_DATETIME : Z := 1.
Definition MYSQL_TIMESTAMP_TIME : Z := 2.

Definition MAX_TIME_REP_LENGTH : Z := 13.
Definition MAX_TIME_STR_LEN : Z := 13.
Definition MAX_DATETIME_STR_LEN : Z := 12.

Definition MYSQL_TYPE_TIMESTAMP : Z := 7.
Definition MYSQL_TYPE_DATE : Z := 10.
Definition MYSQL_TYPE_TIME : Z := 11.
Definition MYSQL_TYPE_DATETIME : Z := 12.

Record MYSQL_TIME := mk_time {
  year : Z; month : Z; day : Z; hour : Z; minute : Z; second : Z;
  second_part : Z; neg : Z; time_type : Z }.

Definition zero_time : MYSQL_TIME := mk_time 0 0 0 0 0 0 0 0 0.

Definition set_year (t : MYSQL_TIME) (v : Z) := mk_time v (month t) (day t) (hour t) (minute t) (second t) (second_part t) (neg t) (time_type t).
Definition set_month (t : MYSQL_TIME) (v : Z) := mk_time (year t) v (day t) (hour t) (minute t) (second t) (second_part t) (neg t) (time_type t).
Definition set_day (t : MYSQL_TIME) (v : Z) := mk_time (year t) (month t) v (hour t) (minute t) (second t) (second_part t) (neg t) (time_type t).
Definition set_hour (t : MYSQL_TIME) (v : Z) := mk_time (year t) (month t) (day t) v (minute t) (second t) (second_part t) (neg t) (time_type t).
Definition set_minute (t : MYSQL_TIME) (v : Z) := mk_time (year t) (month t) (day t) (hour t) v (second t) (second_part t) (neg t) (time_type t).
Definition set_second (t : MYSQL_TIME) (v : Z) := mk_time (year t) (month t) (day t) (hour t) (minute t) v (second_part t) (neg t) (time_type t).
Definition set_second_part (t : MYSQL_TIME) (v : Z) := mk_time (year t) (month t) (day t) (hour t) (minute t) (second t) v (neg t) (time_type t).
Definition set_neg (t : MYSQL_TIME) (v : Z) := mk_time (year t) (month t) (day t) (hour t) (minute t) (second t) (second_part t) v (time_type t).
Definition set_time_type (t : MYSQL_TIME) (v : Z) := mk_time (year t) (month t) (day t) (hour t) (minute t) (second t) (second_part t) (neg t) v.

(** * Storing

    The local array [t_buffer] holds [junk] before it is filled. *)

Definition nonzero (z : Z) : bool := negb (z =? 0).

(** memcpy of the first [len] bytes of a local array. *)
Definition copy_out (mem : bytes) (pos : Z) (t_buffer : bytes) (len : Z) : cres (bytes * Z) :=
  bs ← load_bytes t_buffer 0 (Z.to_nat len);
  mem ← store_bytes mem pos bs;
  Ret (mem, pos + len).

Definition net_store_datetime (junk : Z) (mem : bytes) (pos : Z) (t : MYSQL_TIME) : cres (bytes * Z) :=
  let t_buffer := repeat junk (Z.to_nat MAX_DATETIME_STR_LEN) in
  t_buffer ← int2store t_buffer 1 (year t);
  t_buffer ← store t_buffer 3 (month t);
  t_buffer ← store t_buffer 4 (day t);
  t_buffer ← store t_buffer 5 (hour t);
  t_buffer ← store t_buffer 6 (minute t);
  t_buffer ← store t_buffer 7 (second t);
  '(t_buffer, len) ←
    (if nonzero (second_part t) then
       t_buffer ← int4store t_buffer 8 (second_part t); Ret (t_buffer, 11)
     else if nonzero (hour t) || nonzero (minute t) || nonzero (second t) then Ret (t_buffer, 7)
     else if nonzero (year t) || nonzero (month t) || nonzero (day t) then Ret (t_buffer, 4)
     else Ret (t_buffer, 0));
  t_buffer ← store t_buffer 0 len;
  copy_out mem pos t_buffer (len + 1).

Definition store_param_datetime_complex (junk : Z) (mem : bytes) (pos : Z) (tm : MYSQL_TIME) : cres (bytes * Z) :=
  net_store_datetime junk mem pos tm.

Definition store_param_date_complex (junk : Z) (mem : bytes) (pos : Z) (tm : MYSQL_TIME) : cres (bytes * Z) :=
  net_store_datetime junk mem pos (set_hour (set_minute (set_second (set_second_part tm 0) 0) 0) 0).

(** The fraction is always written here. *)
Definition store_param_time_complex (junk : Z) (mem : bytes) (pos : Z) (tm : MYSQL_TIME) : cres (bytes * Z) :=
  let buff := repeat junk (Z.to_nat MAX_TIME_REP_LENGTH) in
  buff ← store buff 1 (if nonzero (neg tm) then 1 else 0);
  buff ← int4store buff 2 (day tm);
  buff ← store buff 6 (hour tm);
  buff ← store buff 7 (minute tm);
  buff ← store buff 8 (second tm);
  buff ← int4store buff 9 (second_part tm);
  let length :=
    if nonzero (second_part tm) then 12
    else if nonzero (hour tm) || nonzero (minute tm) || nonzero (second tm) || nonzero (day tm) then 8
    else 0 in
  buff ← store buff 0 length;
  copy_out mem pos buff (length + 1).

(** The cases of store_param. *)
Definition store_time (junk : Z) (mem : bytes) (pos : Z) (t : MYSQL_TIME) : cres (bytes * Z) :=
  let t_buffer := repeat junk (Z.to_nat MAX_TIME_STR_LEN) in
  t_buffer ← store t_buffer 1 (if nonzero (neg t) then 1 else 0);
  t_buffer ← int4store t_buffer 2 (day t);
  t_buffer ← store t_buffer 6 (hour t);
  t_buffer ← store t_buffer 7 (minute t);
  t_buffer ← store t_buffer 8 (second t);
  '(t_buffer, len) ←
    (if nonzero (second_part t) then
       t_buffer ← int4store t_buffer 9 (second_part t); Ret (t_buffer, 12)
     else if nonzero (day t) || nonzero (hour t) || nonzero (minute t) || nonzero (second t) then Ret (t_buffer, 8)
     else Ret (t_buffer, 0));
  t_buffer ← store t_buffer 0 len;
  copy_out mem pos t_buffer (len + 1).

Definition store_datetime (junk : Z) (mem : bytes) (pos : Z) (t : MYSQL_TIME) : cres (bytes * Z) :=
  let t_buffer := repeat junk (Z.to_nat MAX_DATETIME_STR_LEN) in
  t_buffer ← int2store t_buffer 1 (year t);
  t_buffer ← store t_buffer 3 (month t);
  t_buffer ← store t_buffer 4 (day t);
  t_buffer ← store t_buffer 5 (hour t);
  t_buffer ← store t_buffer 6 (minute t);
  t_buffer ← store t_buffer 7 (second t);
  '(t_buffer, len) ←
    (if nonzero (second_part t) then
       t_buffer ← int4store t_buffer 8 (second_part t); Ret (t_buffer, 11)
     else if nonzero (hour t) || nonzero (minute t) || nonzero (second t) then Ret (t_buffer, 7)
     else if nonzero (year t) || nonzero (month t) || nonzero (day t) then Ret (t_buffer, 4)
     else Ret (t_buffer, 0));
  t_buffer ← store t_buffer 0 len;
  copy_out mem pos t_buffer (len + 1).

(** * Reading *)

(** The fields that both kinds have: hour, minute and second, then the fraction. *)
Definition convert_clock (mem : bytes) (to len offset type : Z) (has_date : bool) (t : MYSQL_TIME) : cres MYSQL_TIME :=
  t ← (if len >? 4 then
         h ← load mem (to + 4);
         let t := set_hour t h in
         let t := if type =? MYSQL_TYPE_TIME then set_hour t (u32 (hour t + u32 (day t * 24))) else t in
         m ← load mem (to + 5);
         s ← load mem (to + 6);
         let t := set_second (set_minute t m) s in
         Ret (if has_date then set_time_type t MYSQL_TIMESTAMP_DATETIME else t)
       else Ret t);
  if len >? offset then
    v ← sint4korr mem (to + 7);
    Ret (set_second_part t (u64 v))
  else Ret t.

Definition convert_to_datetime (mem : bytes) (row len type : Z) : cres MYSQL_TIME :=
  let t := zero_time in
  if len =? 0 then Ret t
  else if type =? MYSQL_TYPE_TIME then
    n ← load mem row;
    d ← sint4korr mem (row + 1);
    let t := set_time_type (set_day (set_neg t n) (u32 (u64 d))) MYSQL_TIMESTAMP_TIME in
    convert_clock mem (row + 1) len 8 type false t
  else
    y ← sint2korr mem row;
    m ← load mem (row + 2);
    d ← load mem (row + 3);
    let t := set_time_type (set_day (set_month (set_year t (u32 y)) m) d) MYSQL_TIMESTAMP_DATE in
    if type =? MYSQL_TYPE_DATE then Ret t
    else convert_clock mem row len 7 type true t.

(** The struct and the position behind the value; [tm] is what the struct held before. *)
Definition read_binary_datetime (mem : bytes) (pos : Z) (tm : MYSQL_TIME) : cres (MYSQL_TIME * Z) :=
  '(length, to) ← net_field_length mem pos;
  let length := u32 length in
  if nonzero length then
    y ← sint2korr mem to;
    m ← load mem (to + 2);
    d ← load mem (to + 3);
    let tm := set_day (set_month (set_year (set_neg tm 0) (u32 y)) m) d in
    tm ← (if length >? 4 then
            h ← load mem (to + 4);
            mi ← load mem (to + 5);
            s ← load mem (to + 6);
            Ret (set_second (set_minute (set_hour tm h) mi) s)
          else Ret (set_second (set_minute (set_hour tm 0) 0) 0));
    sp ← (if length >? 7 then v ← sint4korr mem (to + 7); Ret (u64 v) else Ret 0);
    Ret (set_time_type (set_second_part tm sp) MYSQL_TIMESTAMP_DATETIME, to + length)
  else Ret (set_time_type zero_time MYSQL_TIMESTAMP_DATETIME, to).

(** * Reference encodings *)

Definition datetime_bytes (t : MYSQL_TIME) : bytes :=
  let date := le_bytes 2 (year t) ++ [u8 (month t); u8 (day t)] in
  let clock := [u8 (hour t); u8 (minute t); u8 (second t)] in
  if nonzero (second_part t) then 11 :: date ++ clock ++ le_bytes 4 (second_part t)
  else if nonzero (hour t) || nonzero (minute t) || nonzero (second t) then 7 :: date ++ clock
  else if nonzero (year t) || nonzero (month t) || nonzero (day t) then 4 :: date
  else [0].

Definition time_bytes (t : MYSQL_TIME) : bytes :=
  let clock := (if nonzero (neg t) then 1 else 0) :: le_bytes 4 (day t)
                 ++ [u8 (hour t); u8 (minute t); u8 (second t)] in
  if nonzero (second_part t) then 12 :: clock ++ le_bytes 4 (second_part t)
  else if nonzero (day t) || nonzero (hour t) || nonzero (minute t) || nonzero (second t) then 8 :: clock
  else [0].

(** * Storing writes the reference encoding *)

(** Stores into a local array of known size compute. *)
Ltac local_array := cbv [store int2store int4store repeat Z.to_nat Pos.to_nat Pos.iter_op Nat.add length
  insert list_insert MAX_DATETIME_STR_LEN MAX_TIME_STR_LEN MAX_TIME_REP_LENGTH Z.ltb Z.leb Z.compare Pos.compare
  Pos.compare_cont Z.of_nat Pos.of_succ_nat Pos.succ orb Z.add Pos.add mbind cres_bind].

Lemma copy_out_writes mem pos bs rest len :
  all_bytes bs -> len = Z.of_nat (length bs) -> room mem pos (length bs) ->
  copy_out mem pos (bs ++ rest) len = Ret (splice pos bs mem, pos + len).
Proof.
  intros Hb -> Hr. unfold copy_out. rewrite Nat2Z.id, load_bytes_in by (split; [lia|rewrite length_app; lia]).
  change (Z.to_nat 0) with 0%nat. rewrite drop_0, take_app_length, bind_ret.
  by rewrite store_bytes_splice, map_u8_bytes by done.
Qed.

(** The stores of a date and time into the local array, up to the length. *)
Ltac fill_array :=
  match goal with |- _ = ?r => let R := fresh "R" in set (R := r) end;
  match goal with |- context [copy_out ?mem ?pos] => let k := fresh "k" in set (k := copy_out mem pos) end;
  local_array.

Lemma u8_u32 a : u8 (u32 a) = u8 a.
Proof. apply wrap_wrap_le. lia. Qed.

Lemma u8_u32_shift a : u8 (Z.shiftr (u32 a) 8) = u8 (Z.shiftr a 8).
Proof. apply u8_shiftr_wrap; lia. Qed.

Ltac bytes_done := repeat (apply Forall_cons; split; [first [apply wrap_uint; lia | unfold is_byte, uint; lia]|]);
  apply Forall_nil; exact I.

Ltac array_done := match goal with R := _, k := _ |- _ => subst R k end;
  rewrite ?u8_u32, ?u8_u32_shift; cbn [le_bytes app]; rewrite ?Z.shiftr_shiftr by lia; cbn [Z.add Pos.add Pos.succ];
  match goal with |- copy_out ?mem ?pos ?l ?n = Ret (splice _ ?e _, _) =>
    let r := eval cbv [drop Z.to_nat Pos.to_nat Pos.iter_op Nat.add] in (drop (Z.to_nat n) l) in
    change l with (e ++ r); rewrite (copy_out_writes mem pos e r n);
    [reflexivity|bytes_done|reflexivity|unfold room in *; simpl; lia]
  end.

Lemma store_datetime_writes junk mem pos t : room mem pos 12 ->
  store_datetime junk mem pos t = Ret (splice pos (datetime_bytes t) mem, pos + Z.of_nat (length (datetime_bytes t))).
Proof.
  intros Hr. unfold store_datetime, datetime_bytes.
  destruct (nonzero (second_part t)); [|destruct (_ || _); [|destruct (_ || _)]]; fill_array; array_done.
Qed.

(** net_store_datetime has the same body. *)
Lemma net_store_datetime_eq : net_store_datetime = store_datetime.
Proof. reflexivity. Qed.

Lemma store_time_writes junk mem pos t : room mem pos 13 ->
  store_time junk mem pos t = Ret (splice pos (time_bytes t) mem, pos + Z.of_nat (length (time_bytes t))).
Proof.
  intros Hr. unfold store_time, time_bytes.
  destruct (nonzero (neg t)), (nonzero (second_part t)); [|destruct (_ || _)| |destruct (_ || _)]; fill_array; array_done.
Qed.

(** The variant for elements of complex types writes the same bytes. *)
Lemma store_param_time_writes junk mem pos t : room mem pos 13 ->
  store_param_time_complex junk mem pos t = Ret (splice pos (time_bytes t) mem, pos + Z.of_nat (length (time_bytes t))).
Proof.
  intros Hr. unfold store_param_time_complex, time_bytes.
  replace (nonzero (hour t) || nonzero (minute t) || nonzero (second t) || nonzero (day t))
    with (nonzero (day t) || nonzero (hour t) || nonzero (minute t) || nonzero (second t))
    by (destruct (nonzero (day t)), (nonzero (hour t)), (nonzero (minute t)), (nonzero (second t)); done).
  destruct (nonzero (neg t)), (nonzero (second_part t)); [|destruct (_ || _)| |destruct (_ || _)]; fill_array; array_done.
Qed.

(** * Reading gives the value back *)

(** The values the fields can carry: a year below 2^15, bytes, and a fraction (and a number of days)
    below 2^31, since these are read as signed numbers. *)
Definition datetime_ok (t : MYSQL_TIME) : Prop :=
  0 <= year t < 32768 /\ is_byte (month t) /\ is_byte (day t) /\ is_byte (hour t)
  /\ is_byte (minute t) /\ is_byte (second t) /\ 0 <= second_part t < 2147483648.

Definition time_ok (t : MYSQL_TIME) : Prop :=
  0 <= day t < 2147483648 /\ is_byte (hour t) /\ is_byte (minute t) /\ is_byte (second t)
  /\ 0 <= second_part t < 2147483648.

Lemma nonzero_false z : nonzero z = false <-> z = 0.
Proof. unfold nonzero. rewrite negb_false_iff. apply Z.eqb_eq. Qed.

Lemma sint2_reads mem p v rest : 0 <= v < 32768 -> text_at mem p (le_bytes 2 v ++ rest) -> sint2korr mem p = Ret v.
Proof.
  intros Hv [Hm _]%text_at_app. rewrite (sint2korr_load _ _ (le_bytes 2 v)) by (apply le_bytes_bytes || done).
  rewrite le_val_le_bytes. change (8 * Z.of_nat 2) with 16. rewrite swrap_wrap, swrap_small by (unfold sint; lia). done.
Qed.

Lemma sint4_reads mem p v rest : 0 <= v < 2147483648 -> text_at mem p (le_bytes 4 v ++ rest) -> sint4korr mem p = Ret v.
Proof.
  intros Hv [Hm _]%text_at_app. rewrite (sint4korr_load _ _ (le_bytes 4 v)) by (apply le_bytes_bytes || done).
  rewrite le_val_le_bytes. change (8 * Z.of_nat 4) with 32. rewrite swrap_wrap, swrap_small by (unfold sint; lia). done.
Qed.

Lemma load_reads mem p pre c rest i : text_at mem p (pre ++ c :: rest) -> i = p + Z.of_nat (length pre) -> load mem i = Ret c.
Proof. intros [_ [Hm _]%text_at_cons]%text_at_app ->. done. Qed.

(** Hours, minutes and seconds from [to + 4] on, and a fraction at [to + 7]. *)
Lemma clock_reads mem to len offset type has_date t h m s frac :
  is_byte h -> is_byte m -> is_byte s -> 0 <= frac < 2147483648 -> 4 < len ->
  text_at mem (to + 4) (h :: m :: s :: (if len >? offset then le_bytes 4 frac else [])) ->
  convert_clock mem to len offset type has_date t
  = Ret (mk_time (year t) (month t) (day t)
           (if type =? MYSQL_TYPE_TIME then u32 (h + u32 (day t * 24)) else h) m s
           (if len >? offset then frac else second_part t) (neg t)
           (if has_date then MYSQL_TIMESTAMP_DATETIME else time_type t)).
Proof.
  intros Hh Hmi Hs Hf Hlen Hm. unfold convert_clock. rewrite (proj2 (Z.gtb_lt len 4)) by lia.
  apply text_at_cons in Hm as [-> Hm]. apply text_at_cons in Hm as [Hl1 Hm]. apply text_at_cons in Hm as [Hl2 Hm].
  replace (to + 4 + 1) with (to + 5) in * by lia. replace (to + 5 + 1) with (to + 6) in * by lia.
  replace (to + 6 + 1) with (to + 7) in * by lia. rewrite bind_ret, Hl1, bind_ret, Hl2, !bind_ret.
  destruct (len >? offset).
  - rewrite (sint4_reads _ _ frac []) by (rewrite ?app_nil_r; done). rewrite bind_ret, (wrap_small 64 frac) by (unfold uint; lia).
    by destruct (type =? MYSQL_TYPE_TIME), has_date.
  - by destruct (type =? MYSQL_TYPE_TIME), has_date.
Qed.

Definition date_head (t : MYSQL_TIME) : bytes := le_bytes 2 (year t) ++ [u8 (month t); u8 (day t)].

(** The length byte and the rest of an encoding. *)
Definition datetime_len (t : MYSQL_TIME) : Z :=
  if nonzero (second_part t) then 11
  else if nonzero (hour t) || nonzero (minute t) || nonzero (second t) then 7
  else if nonzero (year t) || nonzero (month t) || nonzero (day t) then 4 else 0.

Definition time_len (t : MYSQL_TIME) : Z :=
  if nonzero (second_part t) then 12
  else if nonzero (day t) || nonzero (hour t) || nonzero (minute t) || nonzero (second t) then 8 else 0.

(** What a reader makes of the value. *)
Definition datetime_read (t : MYSQL_TIME) : MYSQL_TIME :=
  mk_time (year t) (month t) (day t) (hour t) (minute t) (second t) (second_part t) 0
    (if datetime_len t >? 4 then MYSQL_TIMESTAMP_DATETIME else MYSQL_TIMESTAMP_DATE).

Definition date_read (t : MYSQL_TIME) : MYSQL_TIME :=
  mk_time (year t) (month t) (day t) 0 0 0 0 0 MYSQL_TIMESTAMP_DATE.

Definition time_read (t : MYSQL_TIME) : MYSQL_TIME :=
  mk_time 0 0 (day t) (u32 (hour t + u32 (day t * 24))) (minute t) (second t) (second_part t)
    (if time_len t =? 0 then 0 else if nonzero (neg t) then 1 else 0)
    (if time_len t =? 0 then MYSQL_TIMESTAMP_DATE else MYSQL_TIMESTAMP_TIME).

Lemma datetime_bytes_head t : exists rest, datetime_bytes t = datetime_len t :: rest
  /\ Z.of_nat (length rest) = datetime_len t
  /\ (datetime_len t <> 0 -> exists tl, rest = date_head t ++ tl
      /\ (if datetime_len t >? 4 then tl = u8 (hour t) :: u8 (minute t) :: u8 (second t)
            :: (if datetime_len t >? 7 then le_bytes 4 (second_part t) else []) else tl = [])).
Proof.
  unfold datetime_bytes, datetime_len, date_head.
  destruct (nonzero (second_part t)); [|destruct (_ || _); [|destruct (_ || _)]]; eexists; (split; [done|]); (split; [done|]);
    intros Hn; [eexists; by split..|exists []; by rewrite app_nil_r|done].
Qed.

(** The first alternative of a disjunction that holds by computation. *)
Ltac first_case := solve [by split_and! | left; by split_and! | right; first_case].

(** Which fields are left out, and that they are zero then. *)
Lemma datetime_len_cases t :
  datetime_len t = 11
  \/ datetime_len t = 7 /\ second_part t = 0
  \/ datetime_len t = 4 /\ second_part t = 0 /\ hour t = 0 /\ minute t = 0 /\ second t = 0
  \/ datetime_len t = 0 /\ second_part t = 0 /\ hour t = 0 /\ minute t = 0 /\ second t = 0
     /\ year t = 0 /\ month t = 0 /\ day t = 0.
Proof.
  unfold datetime_len. rewrite <- !nonzero_false. destruct (nonzero (second_part t)); [auto|].
  destruct (nonzero (hour t)), (nonzero (minute t)), (nonzero (second t)), (nonzero (year t)), (nonzero (month t)),
    (nonzero (day t)); simpl; first_case.
Qed.

Lemma time_len_cases t :
  time_len t = 12 \/ time_len t = 8 /\ second_part t = 0
  \/ time_len t = 0 /\ second_part t = 0 /\ day t = 0 /\ hour t = 0 /\ minute t = 0 /\ second t = 0.
Proof.
  unfold time_len. rewrite <- !nonzero_false. destruct (nonzero (second_part t)); [auto|].
  destruct (nonzero (hour t)), (nonzero (minute t)), (nonzero (second t)), (nonzero (day t)); simpl; first_case.
Qed.

Lemma date_head_reads mem row t tl : datetime_ok t -> text_at mem row (date_head t ++ tl) ->
  sint2korr mem row = Ret (year t) /\ load mem (row + 2) = Ret (month t) /\ load mem (row + 3) = Ret (day t)
  /\ text_at mem (row + 4) tl.
Proof.
  intros (Hy & Hmo & Hd & _) Hm. unfold date_head in Hm. rewrite !wrap_small in Hm by done.
  split_and!.
  - rewrite <- app_assoc in Hm. by eapply sint2_reads.
  - rewrite <- app_assoc in Hm. by eapply load_reads; [exact Hm|].
  - change (le_bytes 2 (year t) ++ [month t; day t]) with ((le_bytes 2 (year t) ++ [month t]) ++ [day t]) in Hm.
    rewrite <- app_assoc in Hm. by eapply load_reads; [exact Hm|].
  - by apply text_at_app in Hm as [_ Hm].
Qed.

Lemma convert_datetime_reads mem row t rest :
  datetime_ok t -> datetime_bytes t = datetime_len t :: rest -> text_at mem row rest ->
  convert_to_datetime mem row (datetime_len t) MYSQL_TYPE_DATETIME = Ret (datetime_read t)
  /\ convert_to_datetime mem row (datetime_len t) MYSQL_TYPE_DATE = Ret (date_read t).
Proof.
  intros Hok Hb Hm. destruct (datetime_bytes_head t) as (rest' & Hb' & _ & Hparts).
  rewrite Hb in Hb'. injection Hb' as <-. pose proof Hok as (Hy & Hmo & Hd & Hh & Hmi & Hs & Hsp).
  unfold convert_to_datetime. change (MYSQL_TYPE_DATETIME =? MYSQL_TYPE_TIME) with false.
  change (MYSQL_TYPE_DATE =? MYSQL_TYPE_TIME) with false. change (MYSQL_TYPE_DATETIME =? MYSQL_TYPE_DATE) with false.
  change (MYSQL_TYPE_DATE =? MYSQL_TYPE_DATE) with true. cbv iota. unfold datetime_read, date_read.
  destruct (datetime_len_cases t) as [E|[(E & Z1)|[(E & Z1 & Z2 & Z3 & Z4)|(E & Z1 & Z2 & Z3 & Z4 & Z5 & Z6 & Z7)]]];
    rewrite E in *; [..|by rewrite Z1, Z2, Z3, Z4, Z5, Z6, Z7];
    destruct Hparts as (tl & -> & ->); try done;
    destruct (date_head_reads _ _ _ _ Hok Hm) as (-> & -> & -> & Hm'); rewrite !bind_ret, (wrap_small 32) by (unfold uint; lia);
    (split; [|done]); [| |by rewrite Z1, Z2, Z3, Z4];
    rewrite (clock_reads _ _ _ _ _ _ _ (u8 (hour t)) (u8 (minute t)) (u8 (second t)) (second_part t))
      by first [apply wrap_uint; lia | lia | done]; rewrite !(wrap_small 8) by done; simpl; by rewrite ?Z1.
Qed.

Lemma convert_time_reads mem row t rest :
  time_ok t -> time_bytes t = time_len t :: rest -> text_at mem row rest ->
  convert_to_datetime mem row (time_len t) MYSQL_TYPE_TIME = Ret (time_read t).
Proof.
  intros (Hd & Hh & Hmi & Hs & Hsp) Hb Hm. unfold convert_to_datetime, time_read.
  change (MYSQL_TYPE_TIME =? MYSQL_TYPE_TIME) with true. cbv iota.
  set (sg := if nonzero (neg t) then 1 else 0) in *.
  assert (time_len t <> 0 -> exists tl, rest = sg :: le_bytes 4 (day t) ++ tl /\ tl = u8 (hour t) :: u8 (minute t)
    :: u8 (second t) :: (if time_len t >? 8 then le_bytes 4 (second_part t) else [])) as Hparts.
  { clear Hm. unfold time_bytes, time_len in *. destruct (nonzero (second_part t)); [|destruct (_ || _ || _ || _)];
      injection Hb as <-; intros Hn; try done; eexists; (split; [|done]); cbn [app le_bytes]; done. }
  destruct (time_len_cases t) as [E|[(E & Z1)|(E & Z1 & Z2 & Z3 & Z4 & Z5)]]; rewrite E in *;
    [..|by rewrite Z1, Z2, Z3, Z4, Z5]; destruct Hparts as (tl & -> & ->); try done;
    apply text_at_cons in Hm as [-> Hm]; rewrite bind_ret, (sint4_reads _ _ _ _ Hd Hm), bind_ret;
    apply text_at_app in Hm as [_ Hm]; rewrite length_le_bytes in Hm;
    rewrite (clock_reads _ _ _ _ _ _ _ (u8 (hour t)) (u8 (minute t)) (u8 (second t)) (second_part t))
      by first [apply wrap_uint; lia | lia | done]; rewrite !(wrap_small 8) by done;
    change (MYSQL_TYPE_TIME =? MYSQL_TYPE_TIME) with true; simpl;
    rewrite (wrap_small 64 (day t)), (wrap_small 32 (day t)) by (unfold uint; lia); by rewrite ?Z1.
Qed.

Lemma read_binary_reads mem pos t old :
  datetime_ok t -> text_at mem pos (datetime_bytes t) ->
  read_binary_datetime mem pos old
  = Ret (set_time_type (datetime_read t) MYSQL_TIMESTAMP_DATETIME, pos + Z.of_nat (length (datetime_bytes t))).
Proof.
  intros Hok Hm. destruct (datetime_bytes_head t) as (rest & Hb & Hlen & Hparts). rewrite Hb in *.
  pose proof Hok as (Hy & Hmo & Hd & Hh & Hmi & Hs & Hsp).
  apply text_at_cons in Hm as [Hl Hm]. unfold read_binary_datetime, net_field_length. rewrite Hl, bind_ret.
  replace (pos + Z.of_nat (length (datetime_len t :: rest))) with (pos + 1 + datetime_len t) by (simpl; lia).
  destruct (datetime_len_cases t) as [E|[(E & Z1)|[(E & Z1 & Z2 & Z3 & Z4)|(E & Z1 & Z2 & Z3 & Z4 & Z5 & Z6 & Z7)]]];
    rewrite E in *; unfold datetime_read; rewrite ?E; cbn [Z.ltb Z.compare Pos.compare Pos.compare_cont]; rewrite bind_ret;
    rewrite wrap_small by (unfold uint; lia); change (nonzero 0) with false; change (nonzero 4) with true;
    change (nonzero 7) with true; change (nonzero 11) with true; cbv iota;
    [..|by rewrite Z1, Z2, Z3, Z4, Z5, Z6, Z7, Z.add_0_r];
    destruct Hparts as (tl & -> & ->); try done;
    destruct (date_head_reads _ _ _ _ Hok Hm) as (-> & -> & -> & Hm'); rewrite !bind_ret, (wrap_small 32) by (unfold uint; lia);
    [| |by rewrite Z1, Z2, Z3, Z4];
    rewrite !(wrap_small 8) in Hm' by done;
    rewrite (load_reads _ _ [] _ _ (pos + 1 + 4) Hm') by (simpl; lia);
    rewrite (load_reads _ _ [hour t] _ _ (pos + 1 + 5) Hm') by (simpl; lia);
    rewrite (load_reads _ _ [hour t; minute t] _ _ (pos + 1 + 6) Hm') by (simpl; lia); rewrite !bind_ret.
  - simpl. change (hour t :: minute t :: second t :: ?l) with ([hour t; minute t; second t] ++ l) in Hm'.
    apply text_at_app in Hm' as [_ Hm']. rewrite (sint4_reads _ (pos + 1 + 7) (second_part t) []); [|done|].
    + by rewrite !bind_ret, wrap_small by (unfold uint; lia).
    + rewrite app_nil_r. replace (pos + 1 + 7) with (pos + 1 + 4 + 3) by lia. done.
  - simpl. by rewrite Z1.
Qed.

Lemma time_bytes_head t : exists rest, time_bytes t = time_len t :: rest /\ Z.of_nat (length rest) = time_len t.
Proof.
  unfold time_bytes, time_len. destruct (nonzero (second_part t)); [|destruct (_ || _ || _ || _)]; by eexists.
Qed.

Lemma len_byte_reads mem pos n rest : 0 <= n < 251 -> text_at mem pos (n :: rest) ->
  net_field_length mem pos = Ret (n, pos + 1) /\ text_at mem (pos + 1) rest.
Proof.
  intros Hn [Hl Hm]%text_at_cons. unfold net_field_length. rewrite Hl, bind_ret.
  destruct (Z.ltb_spec n 251); [done|lia].
Qed.

(** The values of the two forms without the type, which depends on the length. *)
Definition fields (t : MYSQL_TIME) : MYSQL_TIME := set_time_type t 0.

(** What a short form cannot hold. *)
Lemma clock_short mem to len offset type b t r : convert_clock mem to len offset type b t = Ret r ->
  (len <= offset -> second_part r = second_part t) /\ (len <= 4 -> len <= offset -> r = t).
Proof.
  unfold convert_clock. intros (t1 & H1 & H2)%bind_Ret_inv. rewrite !Z.gtb_ltb in *.
  destruct (Z.ltb_spec 4 len).
  - apply bind_Ret_inv in H1 as (h & _ & (m & _ & (s & _ & [= <-])%bind_Ret_inv)%bind_Ret_inv).
    destruct (Z.ltb_spec offset len); [lia|]. injection H2 as <-. split; [|lia]. intros _. by destruct b, (type =? MYSQL_TYPE_TIME).
  - injection H1 as <-. destruct (Z.ltb_spec offset len); [lia|]. by injection H2 as <-.
Qed.

Lemma datetime_short mem row len t r : datetime_ok t -> In len [0; 4; 7] -> len < datetime_len t ->
  convert_to_datetime mem row len MYSQL_TYPE_DATETIME = Ret r -> fields r <> fields (datetime_read t).
Proof.
  intros Hok Hlen Hlt H E. assert (second_part r = second_part t /\ hour r = hour t /\ minute r = minute t /\ second r = second t
    /\ year r = year t /\ month r = month t /\ day r = day t) as (E1 & E2 & E3 & E4 & E5 & E6 & E7)
    by (unfold fields, datetime_read in E; destruct r; simpl in *; by injection E).
  unfold convert_to_datetime in H. destruct (Z.eqb_spec len 0) as [->|Hn].
  - injection H as <-. simpl in *. unfold datetime_len in Hlt. by rewrite <- E1, <- E2, <- E3, <- E4, <- E5, <- E6, <- E7 in Hlt.
  - cbn [Z.eqb MYSQL_TYPE_TIME MYSQL_TYPE_DATETIME MYSQL_TYPE_DATE Pos.eqb] in H.
    apply bind_Ret_inv in H as (y & _ & (m & _ & (d & _ & H)%bind_Ret_inv)%bind_Ret_inv). apply clock_short in H as [H1 H2].
    assert (len = 4 \/ len = 7) as [->| ->] by (destruct Hlen as [|[|[|[]]]]; lia).
    + rewrite H2 in E1, E2, E3, E4 by lia. simpl in *. unfold datetime_len in Hlt. rewrite <- E1, <- E2, <- E3, <- E4 in Hlt.
      cbn [nonzero Z.eqb negb orb] in Hlt. destruct (_ || _ || _); lia.
    + rewrite H1 in E1 by lia. simpl in E1. unfold datetime_len in Hlt. rewrite <- E1 in Hlt. cbn [nonzero Z.eqb negb] in Hlt.
      repeat destruct (_ || _ || _); lia.
Qed.

Lemma time_short mem row len t r : time_ok t -> In len [0; 8] -> len < time_len t ->
  convert_to_datetime mem row len MYSQL_TYPE_TIME = Ret r -> fields r <> fields (time_read t).
Proof.
  intros (_ & Hh & _) Hlen Hlt H E. assert (second_part r = second_part t /\ hour r = u32 (hour t + u32 (day t * 24)) /\ minute r = minute t
    /\ second r = second t /\ day r = day t) as (E1 & E2 & E3 & E4 & E5)
    by (unfold fields, time_read in E; destruct r; simpl in *; by injection E).
  unfold convert_to_datetime in H. destruct (Z.eqb_spec len 0) as [->|Hn].
  - injection H as <-. simpl in *. rewrite <- E5 in E2. rewrite Z.add_0_r, wrap_small in E2 by (unfold is_byte, uint in *; simpl; lia).
    unfold time_len in Hlt. by rewrite <- E1, <- E2, <- E3, <- E4, <- E5 in Hlt.
  - cbn [Z.eqb MYSQL_TYPE_TIME Pos.eqb] in H. apply bind_Ret_inv in H as (n & _ & (d & _ & H)%bind_Ret_inv). apply clock_short in H as [H1 _].
    assert (len = 8) as -> by (destruct Hlen as [|[|[]]]; lia).
    rewrite H1 in E1 by lia. simpl in E1. unfold time_len in Hlt. rewrite <- E1 in Hlt. cbn [nonzero Z.eqb negb] in Hlt. destruct (_ || _ || _ || _); lia.
Qed.

(** C38: a date and time, or a time, that was stored as a parameter is what the reader of results
    makes of the same bytes: the fields that are left out because they are zero come back as zero, a time
    comes back with its days added to the hours, a DATE reader takes the date only, and the position behind
    the value is the same for writer and reader.  The elements of complex types are written and read in the
    same form.  The form is the shortest of the protocol (0, 4, 7 or 11 bytes, or 0, 8 or 12 bytes for a time):
    its length is the one the zero fields determine, and no bytes in a shorter form are read as the same
    value.  Hours, minutes and seconds are bytes: the hours of a TIME go up to 255. *)
Theorem times_roundtrip junk mem pos t old :
  room mem pos 13 ->
  (datetime_ok t ->
   exists m e, store_datetime junk mem pos t = Ret (m, e)
     /\ net_store_datetime junk mem pos t = Ret (m, e)
     /\ net_field_length m pos = Ret (datetime_len t, pos + 1) /\ e = pos + 1 + datetime_len t
     /\ convert_to_datetime m (pos + 1) (datetime_len t) MYSQL_TYPE_DATETIME = Ret (datetime_read t)
     /\ convert_to_datetime m (pos + 1) (datetime_len t) MYSQL_TYPE_DATE = Ret (date_read t)
     /\ read_binary_datetime m pos old = Ret (set_time_type (datetime_read t) MYSQL_TIMESTAMP_DATETIME, e)
     /\ forall m' row len r, In len [0; 4; 7] -> len < datetime_len t ->
          convert_to_datetime m' row len MYSQL_TYPE_DATETIME = Ret r -> fields r <> fields (datetime_read t))
  /\ (time_ok t ->
   exists m e, store_time junk mem pos t = Ret (m, e)
     /\ store_param_time_complex junk mem pos t = Ret (m, e)
     /\ net_field_length m pos = Ret (time_len t, pos + 1) /\ e = pos + 1 + time_len t
     /\ convert_to_datetime m (pos + 1) (time_len t) MYSQL_TYPE_TIME = Ret (time_read t)
     /\ forall m' row len r, In len [0; 8] -> len < time_len t ->
          convert_to_datetime m' row len MYSQL_TYPE_TIME = Ret r -> fields r <> fields (time_read t)).
Proof.
  intros Hr. split; intros Hok.
  - destruct (datetime_bytes_head t) as (rest & Hb & Hlen & _).
    assert (0 <= datetime_len t <= 11) as Hl by (destruct (datetime_len_cases t) as [|[[]|[[]|[]]]]; lia).
    assert (text_at (splice pos (datetime_bytes t) mem) pos (datetime_bytes t)) as Hm.
    { apply load_bytes_splice. rewrite Hb. unfold room in *. simpl. lia. }
    destruct (len_byte_reads _ pos (datetime_len t) rest ltac:(lia) ltac:(by rewrite <- Hb)) as [Hf Hm'].
    destruct (convert_datetime_reads _ _ t rest Hok Hb Hm') as [H1 H2].
    eexists _, _. split_and!; [..|by apply read_binary_reads|intros; by eapply datetime_short]; try done.
    + apply store_datetime_writes. unfold room in *. lia.
    + rewrite net_store_datetime_eq. apply store_datetime_writes. unfold room in *. lia.
    + rewrite Hb. simpl. lia.
  - destruct (time_bytes_head t) as (rest & Hb & Hlen).
    assert (0 <= time_len t <= 12) as Hl by (destruct (time_len_cases t) as [|[[]|[]]]; lia).
    assert (text_at (splice pos (time_bytes t) mem) pos (time_bytes t)) as Hm.
    { apply load_bytes_splice. rewrite Hb. unfold room in *. simpl. lia. }
    destruct (len_byte_reads _ pos (time_len t) rest ltac:(lia) ltac:(by rewrite <- Hb)) as [Hf Hm'].
    eexists _, _. split_and!; [by apply store_time_writes|by apply store_param_time_writes|done| |
      by apply (convert_time_reads _ _ t rest)|intros; by eapply time_short].
    rewrite Hb. simpl. lia.
Qed.

Lemma times_roundtrip_witness :
  exists m e, store_datetime 9 (repeat 1 20) 3 (mk_time 2024 2 29 23 59 58 0 0 1) = Ret (m, e)
    /\ net_store_datetime 9 (repeat 1 20) 3 (mk_time 2024 2 29 23 59 58 0 0 1) = Ret (m, e)
    /\ net_field_length m 3 = Ret (7, 4) /\ e = 11
    /\ convert_to_datetime m 4 7 MYSQL_TYPE_DATETIME = Ret (mk_time 2024 2 29 23 59 58 0 0 1)
    /\ convert_to_datetime m 4 7 MYSQL_TYPE_DATE = Ret (mk_time 2024 2 29 0 0 0 0 0 0)
    /\ read_binary_datetime m 3 zero_time = Ret (mk_time 2024 2 29 23 59 58 0 0 1, e).
Proof.
  destruct (proj1 (times_roundtrip 9 (repeat 1 20) 3 (mk_time 2024 2 29 23 59 58 0 0 1) zero_time
    ltac:(unfold room; simpl; lia))) as (m & e & H1 & H2 & H3 & H4 & H5 & H6 & H7 & _).
  - unfold datetime_ok, is_byte, uint. simpl. lia.
  - exists m, e. exact (conj H1 (conj H2 (conj H3 (conj H4 (conj H5 (conj H6 H7)))))).
Defined.

(** A TIME result bound as TIME has its days in the hours (and a zero day): 300 hours bound as a
    parameter again become 44, since the hour is stored in one byte. *)
Lemma time_parameter_loses_hours :
  exists m, store_time 9 (repeat 1 20) 0 (mk_time 0 0 0 300 0 0 0 0 MYSQL_TIMESTAMP_TIME) = Ret (m, 9)
    /\ convert_to_datetime m 1 8 MYSQL_TYPE_TIME = Ret (mk_time 0 0 0 44 0 0 0 0 MYSQL_TIMESTAMP_TIME).
Proof. eexists. split; reflexivity. Qed.

Example store_datetime_example :
  store_datetime 9 (repeat 1 13) 1 (mk_time 2024 2 29 0 0 0 0 0 0)
  = Ret ([1; 4; 232; 7; 2; 29; 1; 1; 1; 1; 1; 1; 1], 6).
Proof. reflexivity. Qed.

End StmtTime.
