(* ===== verification/TimeText.v ===== *)
(** Dates and times as text: parse_time, parse_date and str_to_TIME of
    libmariadb/ma_stmt_codec.c, and the formatting of a binary date or time for a string
    buffer, which is the default case of ps_fetch_datetime in the same file. *)

From stdpp Require Import tactics.
From S2P Require Import Prelude IntStore NumText LenEnc StmtTime.
Import NumText LenEnc StmtTime.

Module TimeText.

(** * Parsing *)

Definition frac_mul : list Z := [1000000; 100000; 10000; 1000; 100; 10].

(** Digits up to [end_ptr]; [n] is the number of bytes before it. *)
Fixpoint skip_digits (mem : bytes) (p : Z) (n : nat) : cres Z :=
  match n with
  | O => Ret p
  | S n => c ← load mem p;
           if (s8 c <? 48) || (s8 c >? 57) then Ret p else skip_digits mem (p + 1) n
  end.

(** The character at [p], or nothing at the end: the tests `p == end || *p != c`. *)
Definition not_at (mem : bytes) (p e c : Z) : cres bool :=
  if p =? e then Ret true else d ← load mem p; Ret (negb (d =? c)).

(** The fractional part, from behind the dot.  [end_ptr] is what the caller's pointer holds. *)
Definition parse_frac (mem : bytes) (p e end_ptr : Z) (tm : MYSQL_TIME) : cres (Z * Z * MYSQL_TIME) :=
  let frac_len := Z.min 6 (e - p) in
  '(v, p, err) ← my_strtoui mem p frac_len 0;
  let tm := set_second_part tm v in
  if nonzero err then Ret (0, p, tm)
  else
    tm ← (if frac_len <? 6 then m ← load frac_mul frac_len; Ret (set_second_part tm (u64 (second_part tm * m)))
          else Ret tm);
    let p := p + frac_len in
    p ← skip_digits mem p (Z.to_nat (end_ptr - p));
    Ret (0, p, tm).

(** Result, new value of the caller's pointer, and the struct. *)
Definition parse_time (mem : bytes) (str length end_ptr : Z) (tm : MYSQL_TIME) : cres (Z * Z * MYSQL_TIME) :=
  let e := str + length in
  '(v, p, err) ← my_strtoui mem str (e - str) 0;
  let tm := set_hour tm v in
  stop ← (if nonzero err || (hour tm >? 838) then Ret true else not_at mem p e 58);
  if (stop : bool) then Ret (1, p, tm)
  else
    let p := p + 1 in
    '(v, p, err) ← my_strtoui mem p (e - p) err;
    let tm := set_minute tm v in
    stop ← (if nonzero err || (minute tm >? 59) then Ret true else not_at mem p e 58);
    if (stop : bool) then Ret (1, p, tm)
    else
      let p := p + 1 in
      '(v, p, err) ← my_strtoui mem p (e - p) err;
      let tm := set_second tm v in
      if nonzero err || (second tm >? 59) then Ret (1, p, tm)
      else
        let tm := set_second_part tm 0 in
        stop ← not_at mem p e 46;
        if (stop : bool) then Ret (0, p, tm)
        else parse_frac mem (p + 1) e end_ptr tm.

Definition parse_date (mem : bytes) (str length : Z) (tm : MYSQL_TIME) : cres (Z * Z * MYSQL_TIME) :=
  let e := str + length in
  '(v, p, err) ← my_strtoui mem str (e - str) 0;
  let tm := set_year tm v in
  stop ← (if nonzero err || (year tm >? 9999) then Ret true else not_at mem p e 45);
  if (stop : bool) then Ret (1, p, tm)
  else
    let tm := if p - str =? 2 then set_year tm (u32 (year tm + (if 70 <=? year tm then 1900 else 2000))) else tm in
    let p := p + 1 in
    '(v, p, err) ← my_strtoui mem p (e - p) err;
    let tm := set_month tm v in
    stop ← (if nonzero err || (month tm >? 12) then Ret true else not_at mem p e 45);
    if (stop : bool) then Ret (1, p, tm)
    else
      let p := p + 1 in
      '(v, p, err) ← my_strtoui mem p (e - p) err;
      let tm := set_day tm v in
      if nonzero err || (day tm >? 31) then Ret (1, p, tm) else Ret (0, p, tm).

(** White space in front of the end. *)
Fixpoint trim_end (mem : bytes) (p e : Z) (n : nat) : cres Z :=
  match n with
  | O => Ret e
  | S n => c ← load mem (e - 1); if isspace c then trim_end mem p (e - 1) n else Ret e
  end.

(** The first of `-` and `:`; [n] is the number of bytes left. *)
Fixpoint scan_time (mem : bytes) (q : Z) (n : nat) : cres bool :=
  match n with
  | O => Ret false
  | S n => c ← load mem q;
           if (c =? 45) || (c =? 58) then Ret (c =? 58) else scan_time mem (q + 1) n
  end.

Definition time_error : MYSQL_TIME := set_time_type zero_time MYSQL_TIMESTAMP_ERROR.

(** Behind the trimming: [p] to [e] is the text. *)
Definition parse_datetime (mem : bytes) (p e : Z) (tm : MYSQL_TIME) : cres (Z * MYSQL_TIME) :=
  '(ret, p, tm) ← parse_date mem p (e - p) tm;
  if nonzero ret then Ret (1, time_error)
  else
    stop ← not_at mem p e 32;
    if (stop : bool) then
      Ret (0, set_time_type (set_hour (set_minute (set_second (set_second_part tm 0) 0) 0) 0) MYSQL_TIMESTAMP_DATE)
    else
      let p := p + 1 in
      '(ret, p, tm) ← parse_time mem p (e - p) p tm;
      if nonzero ret then Ret (1, time_error)
      else if hour tm >? 23 then Ret (1, time_error)
      else Ret (0, set_time_type tm MYSQL_TIMESTAMP_DATETIME).

Definition str_to_TIME (mem : ptr) (str length : Z) (tm : MYSQL_TIME) : cres (Z * MYSQL_TIME) :=
  match mem with
  | None => Ret (1, time_error)
  | Some mem =>
    let e := str + length in
    p ← skip_space mem str (Z.to_nat (e - str));
    e ← trim_end mem p e (Z.to_nat (e - p));
    if e - p <? 5 then Ret (1, time_error)
    else
      c ← load mem p;
      '(is_time, p, tm) ←
        (if c =? 45 then Ret (true, p + 1, set_neg tm 1)
         else b ← scan_time mem (p + 1) (Z.to_nat (e - (p + 1))); Ret (b, p, set_neg tm 0));
      if (is_time : bool) then
        '(ret, p, tm) ← parse_time mem p (e - p) p tm;
        if nonzero ret then Ret (1, time_error)
        else Ret (0, set_time_type (set_year (set_month (set_day tm 0) 0) 0) MYSQL_TIMESTAMP_TIME)
      else parse_datetime mem p e tm
  end.

(** * Formatting *)

(** Decimal digits of printf: [fixed k n] are the last [k] of them. *)
Fixpoint fixed (k : nat) (n : Z) : bytes :=
  match k with O => [] | S k => fixed k (n / 10) ++ [48 + n mod 10] end.

Fixpoint ndigits (fuel : nat) (n : Z) : nat :=
  match fuel with
  | O => 1
  | S fuel => if n <? 10 then 1 else S (ndigits fuel (n / 10))
  end.

(** The conversion %0wu of an unsigned number (of at most 20 digits). *)
Definition print_u (w : nat) (n : Z) : bytes := fixed (max w (ndigits 20 n)) n.

(** sprintf and strcat into an array. *)
Definition sprintf (buf : bytes) (off : Z) (text : bytes) : cres bytes := store_bytes buf off (text ++ [0]).

(** The characters in front of the NUL. *)
Fixpoint cstr (m : bytes) : cres bytes :=
  match m with
  | [] => Fault
  | c :: m => if c =? 0 then Ret [] else s ← cstr m; Ret (c :: s)
  end.

(** The fraction is printed with six digits into [ms] and cut. *)
Definition append_fraction (junk decimals : Z) (tm : MYSQL_TIME) (dtbuffer : bytes) (length : Z) : cres (bytes * Z) :=
  if nonzero decimals && (decimals <=? 6) then
    ms ← sprintf (repeat junk 8) 0 (46 :: print_u 6 (second_part tm));
    ms ← (if decimals <? 6 then store ms (decimals + 1) 0 else Ret ms);
    s ← cstr ms;
    dtbuffer ← sprintf dtbuffer length s;
    Ret (dtbuffer, length + Z.of_nat (List.length s))
  else Ret (dtbuffer, length).

Definition date_text (tm : MYSQL_TIME) : bytes :=
  print_u 4 (year tm) ++ 45 :: print_u 2 (month tm) ++ 45 :: print_u 2 (day tm).

Definition clock_text (tm : MYSQL_TIME) : bytes :=
  print_u 2 (hour tm) ++ 58 :: print_u 2 (minute tm) ++ 58 :: print_u 2 (second tm).

Definition format_time (junk type decimals : Z) (tm : MYSQL_TIME) : cres (bytes * Z) :=
  let dtbuffer := repeat junk 60 in
  if type =? MYSQL_TYPE_DATE then
    dtbuffer ← sprintf dtbuffer 0 (date_text tm);
    Ret (dtbuffer, Z.of_nat (length (date_text tm)))
  else if type =? MYSQL_TYPE_TIME then
    let text := (if nonzero (neg tm) then [45] else []) ++ clock_text tm in
    dtbuffer ← sprintf dtbuffer 0 text;
    append_fraction junk decimals tm dtbuffer (Z.of_nat (length text))
  else if (type =? MYSQL_TYPE_DATETIME) || (type =? MYSQL_TYPE_TIMESTAMP) then
    let text := date_text tm ++ 32 :: clock_text tm in
    dtbuffer ← sprintf dtbuffer 0 text;
    append_fraction junk decimals tm dtbuffer (Z.of_nat (length text))
  else
    dtbuffer ← store dtbuffer 0 0;
    Ret (dtbuffer, 0).

(** * Digits of printf *)

Lemma length_fixed k n : length (fixed k n) = k.
Proof. revert n. induction k; intros n; simpl; [done|]. rewrite length_app, IHk. simpl. lia. Qed.

Lemma fixed_digit k n : Forall digit (fixed k n).
Proof.
  revert n. induction k; intros n; simpl; [by apply Forall_nil|]. apply Forall_app. split; [done|].
  apply Forall_singleton. pose proof (Z.mod_pos_bound n 10 ltac:(lia)). unfold digit. lia.
Qed.

Lemma decimal_fixed k n : decimal (fixed k n) = n mod 10 ^ Z.of_nat k.
Proof.
  revert n. induction k as [|k IH]; intros n.
  { change (10 ^ Z.of_nat 0) with 1. by rewrite Z.mod_1_r. }
  cbn [fixed]. unfold radix_value. rewrite radix_from_app. fold (decimal (fixed k (n / 10))). rewrite IH. cbn [radix_from fold_left].
  pose proof (Z.mod_pos_bound n 10 ltac:(lia)).
  rewrite digit_val_digit by (unfold digit; lia).
  rewrite Nat2Z.inj_succ, Z.pow_succ_r, Z.rem_mul_r by lia. lia.
Qed.

Lemma fixed_app a b n : fixed (a + b) n = fixed a (n / 10 ^ Z.of_nat b) ++ fixed b n.
Proof.
  revert n. induction b as [|b IH]; intros n.
  - simpl. by rewrite Nat.add_0_r, app_nil_r, Z.div_1_r.
  - rewrite Nat.add_succ_r. cbn [fixed]. rewrite IH, app_assoc. do 3 f_equal.
    rewrite Nat2Z.inj_succ, Z.pow_succ_r, Zdiv_Zdiv by lia. done.
Qed.

Lemma ndigits_bound fuel n : 0 <= n < 10 ^ Z.of_nat (S fuel) -> n < 10 ^ Z.of_nat (ndigits fuel n).
Proof.
  revert n. induction fuel as [|fuel IH]; intros n Hn; cbn [ndigits]; [apply Hn|].
  destruct (Z.ltb_spec n 10); [simpl; lia|].
  rewrite Nat2Z.inj_succ, Z.pow_succ_r in Hn |- * by lia.
  assert (n / 10 < 10 ^ Z.of_nat (ndigits fuel (n / 10))); [|dlia].
  apply IH. split; [apply Z.div_pos; lia|]. apply Z.div_lt_upper_bound; lia.
Qed.

Lemma ndigits_pos fuel n : (0 < ndigits fuel n)%nat.
Proof. destruct fuel; simpl; [lia|]. destruct (n <? 10); lia. Qed.

Lemma ndigits_small k fuel n : n < 10 ^ Z.of_nat (S k) -> (ndigits fuel n <= S k)%nat.
Proof.
  revert fuel n. induction k as [|k IH]; intros [|fuel] n Hn; cbn [ndigits]; try lia.
  - destruct (Z.ltb_spec n 10); [lia|]. simpl in Hn. lia.
  - destruct (Z.ltb_spec n 10); [lia|]. apply le_n_S. apply IH.
    apply Z.div_lt_upper_bound; [lia|]. rewrite <- Z.pow_succ_r by lia.
    by replace (Z.succ (Z.of_nat (S k))) with (Z.of_nat (S (S k))) by lia.
Qed.

(** A number of at most [w] digits takes exactly [w] characters. *)
Lemma print_u_fixed w n : (0 < w)%nat -> n < 10 ^ Z.of_nat w -> print_u w n = fixed w n.
Proof.
  intros Hw Hn. unfold print_u. destruct w as [|w]; [lia|]. f_equal. pose proof (ndigits_small w 20 n Hn). lia.
Qed.

Lemma print_u_spec w n : 0 <= n <= UINT_MAX ->
  Forall digit (print_u w n) /\ decimal (print_u w n) = n /\ print_u w n <> [] /\ (w <= length (print_u w n))%nat
  /\ (length (print_u w n) <= max w 10)%nat.
Proof.
  unfold UINT_MAX. intros Hn. unfold print_u. pose proof (ndigits_pos 20 n).
  split_and!; [apply fixed_digit| | |rewrite length_fixed; lia|].
  - rewrite decimal_fixed, Z.mod_small; [done|]. split; [lia|].
    eapply Z.lt_le_trans; [apply (ndigits_bound 20 n); change (10 ^ Z.of_nat 21) with 1000000000000000000000; lia|]. apply Z.pow_le_mono_r; lia.
  - intros E. apply (f_equal length) in E. rewrite length_fixed in E. change (length []) with 0%nat in E. lia.
  - rewrite length_fixed. pose proof (ndigits_small 9 20 n ltac:(change (10 ^ Z.of_nat 10) with 10000000000; lia)). lia.
Qed.

(** * Parsing what was printed *)

Lemma strtoui_run mem p ds t n err :
  ds <> [] -> Forall digit ds -> decimal ds <= UINT_MAX -> all_bytes t -> heads (fun c => ~ digit c) t ->
  text_at mem p (ds ++ t) -> n = Z.of_nat (length (ds ++ t)) ->
  my_strtoui mem p n err = Ret (decimal ds, p + Z.of_nat (length ds), err).
Proof.
  intros Hne Hds Hmax Hb Hstop Hm ->. unfold my_strtoui. pose proof (decimal_nonneg ds Hds). unfold UINT_MAX in *.
  rewrite (strtoull_run mem p ds t); try done.
  - rewrite bind_ret, decide_False by done. rewrite Z.gtb_ltb, (proj2 (Z.ltb_ge _ _)) by lia.
    rewrite wrap_small by (unfold uint; lia). do 3 f_equal. destruct t; [done|]. by rewrite decide_False.
  - split; [done|]. fold (decimal ds). unfold ULONGLONG_MAX. lia.
  - destruct t; [done|]. simpl in *. tauto.
Qed.

Lemma not_at_char mem p e c : load mem p = Ret c -> p <> e -> not_at mem p e c = Ret false.
Proof. intros Hl Hp. unfold not_at. destruct (Z.eqb_spec p e); [done|]. by rewrite Hl, bind_ret, Z.eqb_refl. Qed.

Lemma not_at_end mem p c : not_at mem p p c = Ret true.
Proof. unfold not_at. by rewrite Z.eqb_refl. Qed.

(** A field of digits that is followed by another character. *)
Lemma field_run mem p ds c t n err :
  ds <> [] -> Forall digit ds -> decimal ds <= UINT_MAX -> all_bytes (c :: t) -> ~ digit c ->
  text_at mem p (ds ++ c :: t) -> n = Z.of_nat (length (ds ++ c :: t)) ->
  my_strtoui mem p n err = Ret (decimal ds, p + Z.of_nat (length ds), err)
  /\ not_at mem (p + Z.of_nat (length ds)) (p + n) c = Ret false
  /\ text_at mem (p + Z.of_nat (length ds) + 1) t.
Proof.
  intros. split; [by apply (strtoui_run mem p ds (c :: t))|].
  pose proof (proj2 (proj1 (text_at_app _ _ _ _) H4)) as [Hl Ht]%text_at_cons. split; [|done].
  apply not_at_char; [done|]. subst n. rewrite length_app. simpl. lia.
Qed.

(** The text of a fraction: nothing, or a dot and up to six digits. *)
Definition fraction (ft : bytes) (v : Z) : Prop :=
  ft = [] /\ v = 0
  \/ exists ds, ft = 46 :: ds /\ Forall digit ds /\ (1 <= length ds <= 6)%nat
       /\ v = decimal ds * 10 ^ (6 - Z.of_nat (length ds)).

Lemma decimal_bound ds : Forall digit ds -> 0 <= decimal ds < 10 ^ Z.of_nat (length ds).
Proof.
  intros H. split; [by apply decimal_nonneg|]. induction H as [|c ds Hc Hds IH]; [done|].
  unfold radix_value. cbn [radix_from fold_left length]. fold (radix_from 10 (0 * 10 + digit_val c) ds).
  rewrite radix_from_shift, digit_val_digit by done. unfold digit in Hc.
  rewrite Nat2Z.inj_succ, Z.pow_succ_r by lia. nia.
Qed.

Lemma digits_bytes ds : Forall digit ds -> all_bytes ds.
Proof. intros H. eapply Forall_impl; [exact H|]. unfold digit, is_byte, uint. lia. Qed.

Lemma frac_run mem p ds end_ptr tm :
  end_ptr <= p -> Forall digit ds -> (1 <= length ds <= 6)%nat -> text_at mem p ds ->
  exists q, parse_frac mem p (p + Z.of_nat (length ds)) end_ptr tm
    = Ret (0, q, set_second_part tm (decimal ds * 10 ^ (6 - Z.of_nat (length ds)))).
Proof.
  intros Hend Hds Hlen Hm. unfold parse_frac. pose proof (decimal_bound ds Hds) as [Hd1 Hd2].
  assert (10 ^ Z.of_nat (length ds) <= 10 ^ 6) by (apply Z.pow_le_mono_r; lia).
  rewrite (strtoui_run mem p ds []); rewrite ?app_nil_r; try done; [|by destruct ds; simpl in *; [lia|]
    |unfold UINT_MAX; lia|lia].
  rewrite bind_ret. change (nonzero 0) with false. cbv iota.
  replace (Z.min 6 (p + Z.of_nat (length ds) - p)) with (Z.of_nat (length ds)) by lia.
  replace (Z.to_nat (end_ptr - _)) with 0%nat by lia.
  destruct (Z.ltb_spec (Z.of_nat (length ds)) 6) as [Hlt|Hge].
  - assert (load frac_mul (Z.of_nat (length ds)) = Ret (10 ^ (6 - Z.of_nat (length ds)))) as ->.
    { destruct (length ds) as [|[|[|[|[|[|n]]]]]]; try lia; done. }
    rewrite !bind_ret. eexists. simpl. f_equal. f_equal. unfold set_second_part at 1. simpl.
    rewrite wrap_small; [done|]. unfold uint. split; [nia|].
    assert (10 ^ (6 - Z.of_nat (length ds)) <= 10 ^ 6) by (apply Z.pow_le_mono_r; lia). nia.
  - rewrite bind_ret. eexists. simpl. replace (6 - Z.of_nat (length ds)) with 0 by lia. by rewrite Z.mul_1_r.
Qed.

Lemma fraction_bytes ft v : fraction ft v -> all_bytes ft /\ heads (fun c => ~ digit c) ft.
Proof.
  intros [[-> _]|(ds & -> & Hds & _)]; [split; [by apply Forall_nil|done]|].
  split; [apply Forall_cons; split; [unfold is_byte, uint; lia|by apply digits_bytes]|]. simpl. unfold digit. lia.
Qed.

(** A number of a field: digits whose value is in range. *)
Definition field (ds : bytes) (v max : Z) : Prop := Forall digit ds /\ ds <> [] /\ decimal ds = v /\ v <= max <= UINT_MAX.

Lemma print_u_field w v max : 0 <= v <= max -> max <= UINT_MAX -> field (print_u w v) v max.
Proof. intros Hv Hm. destruct (print_u_spec w v) as (? & ? & ? & _); [lia|]. split_and!; done || lia. Qed.

Ltac field_bytes := repeat first [apply Forall_app; split | apply Forall_cons; split; [unfold is_byte, uint; lia|]];
  first [by apply digits_bytes | done].

Lemma clock_run mem p n h m s ft vh vm vs v tm :
  field h vh 838 -> field m vm 59 -> field s vs 59 -> fraction ft v ->
  text_at mem p (h ++ 58 :: m ++ 58 :: s ++ ft) -> n = Z.of_nat (length (h ++ 58 :: m ++ 58 :: s ++ ft)) ->
  exists q, parse_time mem p n p tm
    = Ret (0, q, set_second_part (set_second (set_minute (set_hour tm vh) vm) vs) v).
Proof.
  intros (Hh & Hh1 & Hh2 & Hh3) (Hmi & Hm1 & Hm2 & Hm3) (Hs & Hs1 & Hs2 & Hs3) Hf Hm ->. unfold parse_time.
  destruct (fraction_bytes ft v Hf) as [Hfb Hfs]. unfold UINT_MAX in *.
  set (e := p + Z.of_nat (length (h ++ 58 :: m ++ 58 :: s ++ ft))).
  destruct (field_run mem p h 58 (m ++ 58 :: s ++ ft) (e - p) 0) as (-> & Hat & Hm'); try done;
    [unfold UINT_MAX; lia|field_bytes|unfold digit; lia|unfold e; lia|].
  replace (p + (e - p)) with e in Hat by lia. rewrite bind_ret, Hh2. change (nonzero 0) with false. cbn [hour set_hour].
  rewrite (Z.gtb_ltb vh), (proj2 (Z.ltb_ge 838 vh)) by lia. simpl orb. cbv iota. rewrite Hat, bind_ret. cbv iota.
  set (p1 := p + Z.of_nat (length h) + 1) in *.
  destruct (field_run mem p1 m 58 (s ++ ft) (e - p1) 0) as (-> & Hat1 & Hm''); try done;
    [unfold UINT_MAX; lia|field_bytes|unfold digit; lia|unfold e, p1; rewrite !length_app; simpl; rewrite !length_app; simpl; rewrite !length_app; lia|].
  replace (p1 + (e - p1)) with e in Hat1 by lia. rewrite bind_ret, Hm2. cbn [minute set_minute].
  rewrite (Z.gtb_ltb vm), (proj2 (Z.ltb_ge 59 vm)) by lia. change (nonzero 0) with false. simpl orb. cbv iota.
  rewrite Hat1, bind_ret. cbv iota. set (p2 := p1 + Z.of_nat (length m) + 1) in *.
  assert (e = p2 + Z.of_nat (length (s ++ ft))) as He.
  { unfold e, p2, p1. rewrite !length_app. simpl. rewrite !length_app. simpl. rewrite !length_app. lia. }
  rewrite (strtoui_run mem p2 s ft) by (done || (unfold UINT_MAX; lia)). rewrite bind_ret, Hs2. cbn [second set_second].
  rewrite (Z.gtb_ltb vs), (proj2 (Z.ltb_ge 59 vs)) by lia. change (nonzero 0) with false. simpl orb. cbv iota.
  destruct Hf as [[-> ->]|(ds & -> & Hds & Hlen & ->)].
  - rewrite app_nil_r in He. rewrite <- He, not_at_end, bind_ret. by eexists.
  - apply text_at_app in Hm'' as [_ [Hl Hm3']%text_at_cons].
    rewrite (not_at_char _ _ _ _ Hl) by (rewrite He, length_app; simpl; lia). rewrite bind_ret. cbv iota.
    replace e with (p2 + Z.of_nat (length s) + 1 + Z.of_nat (length ds)) by (rewrite He, length_app; simpl; lia).
    destruct (frac_run mem (p2 + Z.of_nat (length s) + 1) ds p
      (set_second_part (set_second (set_minute (set_hour tm vh) vm) vs) 0)) as [q ->]; try done;
      [unfold p2, p1; lia|]. by eexists.
Qed.

Lemma date_run mem p n y mo d t vy vmo vd tm :
  field y vy 9999 -> field mo vmo 12 -> field d vd 31 -> length y <> 2%nat -> all_bytes t -> heads (fun c => ~ digit c) t ->
  text_at mem p (y ++ 45 :: mo ++ 45 :: d ++ t) -> n = Z.of_nat (length (y ++ 45 :: mo ++ 45 :: d ++ t)) ->
  parse_date mem p n tm
  = Ret (0, p + Z.of_nat (length (y ++ 45 :: mo ++ 45 :: d)), set_day (set_month (set_year tm vy) vmo) vd).
Proof.
  intros (Hy & Hy1 & Hy2 & Hy3) (Hmo & Hm1 & Hm2 & Hm3) (Hd & Hd1 & Hd2 & Hd3) Hlen Hb Hstop Hm ->. unfold parse_date.
  unfold UINT_MAX in *. set (e := p + Z.of_nat (length (y ++ 45 :: mo ++ 45 :: d ++ t))).
  destruct (field_run mem p y 45 (mo ++ 45 :: d ++ t) (e - p) 0) as (-> & Hat & Hm'); try done;
    [unfold UINT_MAX; lia|field_bytes|unfold digit; lia|unfold e; lia|].
  replace (p + (e - p)) with e in Hat by lia. rewrite bind_ret, Hy2. change (nonzero 0) with false. cbn [year set_year].
  rewrite (Z.gtb_ltb vy), (proj2 (Z.ltb_ge 9999 vy)) by lia. simpl orb. cbv iota. rewrite Hat, bind_ret. cbv iota.
  destruct (Z.eqb_spec (p + Z.of_nat (length y) - p) 2); [lia|].
  set (p1 := p + Z.of_nat (length y) + 1) in *.
  destruct (field_run mem p1 mo 45 (d ++ t) (e - p1) 0) as (-> & Hat1 & Hm''); try done;
    [unfold UINT_MAX; lia|field_bytes|unfold digit; lia|unfold e, p1; rewrite !length_app; simpl; rewrite !length_app; simpl; rewrite !length_app; lia|].
  replace (p1 + (e - p1)) with e in Hat1 by lia. rewrite bind_ret, Hm2. cbn [month set_month].
  rewrite (Z.gtb_ltb vmo), (proj2 (Z.ltb_ge 12 vmo)) by lia. change (nonzero 0) with false. simpl orb. cbv iota.
  rewrite Hat1, bind_ret. cbv iota. set (p2 := p1 + Z.of_nat (length mo) + 1) in *.
  assert (e = p2 + Z.of_nat (length (d ++ t))) as He.
  { unfold e, p2, p1. rewrite !length_app. simpl. rewrite !length_app. simpl. rewrite !length_app. lia. }
  rewrite (strtoui_run mem p2 d t) by (done || (unfold UINT_MAX; lia)). rewrite bind_ret, Hd2. cbn [day set_day].
  rewrite (Z.gtb_ltb vd), (proj2 (Z.ltb_ge 31 vd)) by lia. change (nonzero 0) with false. simpl orb. cbv iota.
  do 3 f_equal. unfold p2, p1. rewrite !length_app. simpl. rewrite !length_app. simpl. lia.
Qed.

(** Text that neither starts nor ends with white space is taken as it is. *)
Lemma str_start mem p c t z :
  isspace c = false -> isspace z = false -> text_at mem p (c :: t) -> last (c :: t) = Some z ->
  let n := Z.of_nat (length (c :: t)) in
  skip_space mem p (Z.to_nat (p + n - p)) = Ret p
  /\ trim_end mem p (p + n) (Z.to_nat (p + n - p)) = Ret (p + n)
  /\ load mem p = Ret c.
Proof.
  intros Hc Hz Hm Hlast n. split_and!.
  - apply (no_space mem p c t); [done|done|unfold n; simpl; lia].
  - apply last_Some in Hlast as [l' E]. replace (Z.to_nat (p + n - p)) with (S (length t)) by (unfold n; simpl; lia).
    simpl. pose proof Hm as Hm'. rewrite E in Hm'. apply text_at_app in Hm' as [_ [Hl _]%text_at_cons].
    apply (f_equal length) in E. rewrite length_app in E. simpl in E.
    replace (p + n - 1) with (p + Z.of_nat (length l')) by (unfold n; simpl; lia). by rewrite Hl, bind_ret, Hz.
  - by apply text_at_cons in Hm as [? _].
Qed.

(** A text that starts and ends with something else than white space. *)
Definition solid (t : bytes) : Prop :=
  exists c u z, t = c :: u /\ last t = Some z /\ isspace c = false /\ isspace z = false.

(** The text [t] between white space is read as the value [r], wherever it is in memory. *)
Definition read_as (t : bytes) (old r : MYSQL_TIME) : Prop := forall mem p before after,
  spaces before -> spaces after -> text_at mem p (before ++ t ++ after) ->
  str_to_TIME (Some mem) p (Z.of_nat (length (before ++ t ++ after))) old = Ret (0, r).

Lemma trim_end_run mem p z ws : spaces ws -> isspace z = false -> forall t q n,
  text_at mem q (t ++ z :: ws) -> (length ws < n)%nat ->
  trim_end mem p (q + Z.of_nat (length (t ++ z :: ws))) n = Ret (q + Z.of_nat (length t) + 1).
Proof.
  intros Hws Hz. induction ws as [|c ws IH] using rev_ind; intros t q n Hm Hn; (destruct n as [|n]; [simpl in Hn; lia|]); cbn [trim_end];
    rewrite length_app.
  - apply text_at_app in Hm as [_ [Hl _]%text_at_cons]. simpl. replace (q + Z.of_nat (length t + 1) - 1) with (q + Z.of_nat (length t)) by lia.
    rewrite Hl, bind_ret, Hz. f_equal. lia.
  - apply Forall_app in Hws as [Hws [Hc _]%Forall_cons]. rewrite app_comm_cons, app_assoc in Hm. apply text_at_app in Hm as [Hm [Hl _]%text_at_cons].
    rewrite length_app in Hl. cbn [length] in *. rewrite length_app in *. cbn [length] in *.
    replace (q + Z.of_nat (length t + S (length ws + 1)) - 1) with (q + Z.of_nat (length t + S (length ws))) by lia.
    rewrite Hl, bind_ret, Hc. specialize (IH Hws t q n Hm ltac:(lia)). rewrite length_app in IH. exact IH.
Qed.

Lemma padded t old r : solid t -> (forall mem p, text_at mem p t -> str_to_TIME (Some mem) p (Z.of_nat (length t)) old = Ret (0, r)) -> read_as t old r.
Proof.
  intros (c & u & z & E & Hlast & Hc & Hz) Hread mem p before after Hb Ha Hm.
  assert (text_at mem (p + Z.of_nat (length before)) t) as Hmt by (apply text_at_app in Hm as [_ Hm]; by apply text_at_app in Hm as [Hm _]).
  rewrite <- (Hread mem (p + Z.of_nat (length before)) Hmt). set (q := p + Z.of_nat (length before)) in *.
  unfold str_to_TIME. destruct (str_start mem q c u z Hc Hz) as (Hsk & Htrim & _); [by rewrite <- E|by rewrite <- E|]. rewrite <- E in Hsk, Htrim.
  rewrite Hsk, bind_ret, Htrim, bind_ret.
  rewrite (skip_space_run mem before (t ++ after) Hb); [|by rewrite E|done|rewrite Z.add_simpl_l; apply Nat2Z.id]. rewrite bind_ret. fold q.
  apply last_Some in Hlast as [l' El].
  assert (trim_end mem q (p + Z.of_nat (length (before ++ t ++ after))) (Z.to_nat (p + Z.of_nat (length (before ++ t ++ after)) - q)) = Ret (q + Z.of_nat (length t))) as ->; [|by rewrite bind_ret].
  replace (p + Z.of_nat (length (before ++ t ++ after))) with (q + Z.of_nat (length (l' ++ z :: after)))
    by (unfold q; rewrite El, !length_app; cbn [length]; lia).
  rewrite (trim_end_run mem q z after Ha Hz l' q).
  - f_equal. rewrite El, length_app. cbn [length]. lia.
  - apply text_at_app in Hm as [_ Hm]. fold q in Hm. by rewrite El, <- app_assoc in Hm.
  - rewrite length_app. cbn [length]. lia.
Qed.

Lemma scan_run mem ds c t : Forall digit ds -> c = 45 \/ c = 58 -> forall q n,
  text_at mem q (ds ++ c :: t) -> n = length (ds ++ c :: t) -> scan_time mem q n = Ret (c =? 58).
Proof.
  intros Hds Hc. induction Hds as [|d ds Hd Hds IH]; intros q n Hm ->; simpl; apply text_at_cons in Hm as [-> Hm];
    rewrite bind_ret.
  - by destruct Hc as [->| ->].
  - unfold digit in Hd. destruct (Z.eqb_spec d 45), (Z.eqb_spec d 58); try lia. simpl. by apply IH.
Qed.

Lemma digit_last ds : Forall digit ds -> ds <> [] -> exists z, last ds = Some z /\ isspace z = false.
Proof.
  intros Hds Hne. destruct (exists_last Hne) as (l & z & ->). rewrite last_snoc. exists z. split; [done|].
  apply Forall_app in Hds as [_ [Hz _]%Forall_cons]. by apply digit_not_space.
Qed.

Lemma last_app_r (a b : bytes) : b <> [] -> last (a ++ b) = last b.
Proof. intros H. destruct (exists_last H) as (l & z & ->). by rewrite app_assoc, !last_snoc. Qed.

Lemma clock_last h m s ft v pre : Forall digit s -> s <> [] -> fraction ft v ->
  exists z, last (pre ++ h ++ 58 :: m ++ 58 :: s ++ ft) = Some z /\ isspace z = false.
Proof.
  intros Hs Hne Hf.
  replace (pre ++ h ++ 58 :: m ++ 58 :: s ++ ft) with ((pre ++ h ++ 58 :: m ++ [58]) ++ s ++ ft)
    by (rewrite <- !app_assoc; simpl; by rewrite <- !app_assoc).
  rewrite last_app_r by (by destruct s). destruct Hf as [[-> _]|(ds & -> & Hds & Hlen & _)].
  - rewrite app_nil_r. by apply digit_last.
  - change (46 :: ds) with ([46] ++ ds). rewrite app_assoc, last_app_r by (destruct ds; simpl in *; [lia|done]).
    apply digit_last; [done|destruct ds; simpl in *; [lia|done]].
Qed.

Lemma time_parses mem p sg h m s ft vh vm vs v tm :
  field h vh 838 -> field m vm 59 -> field s vs 59 -> fraction ft v -> (3 <= length h + length m + length s)%nat ->
  let t := (if (sg : bool) then [45] else []) ++ h ++ 58 :: m ++ 58 :: s ++ ft in
  text_at mem p t ->
  str_to_TIME (Some mem) p (Z.of_nat (length t)) tm
  = Ret (0, mk_time 0 0 0 vh vm vs v (if sg then 1 else 0) MYSQL_TIMESTAMP_TIME).
Proof.
  intros Hh Hmi Hs Hf Hlen t Hm. pose proof Hh as (Hh1 & Hh2 & _). pose proof Hs as (Hs1 & Hs2 & _).
  destruct (clock_last h m s ft v (if sg then [45] else [])) as (z & Hz & Hzs); [done|done|done|]. fold t in Hz.
  assert (exists c t', t = c :: t' /\ isspace c = false /\ (c =? 45) = sg) as (c & t' & E & Hc & Hsg).
  { unfold t. destruct sg; [by eexists _, _|]. destruct Hh1 as [|c h Hc]; [done|]. eexists _, _. split; [done|].
    split; [by apply digit_not_space|]. unfold digit in Hc. apply Z.eqb_neq. lia. }
  unfold str_to_TIME. rewrite E in *.
  destruct (str_start mem p c t' z) as (-> & Htrim & Hl); [done|done|done|done|].
  rewrite bind_ret, Htrim, bind_ret, <- E in *.
  replace (p + Z.of_nat (length t) - p) with (Z.of_nat (length t)) by lia.
  assert (Z.of_nat (length t) = (if sg then 1 else 0) + Z.of_nat (length (h ++ 58 :: m ++ 58 :: s ++ ft))) as Ht.
  { unfold t. rewrite length_app. destruct sg; simpl; lia. }
  destruct (Z.ltb_spec (Z.of_nat (length t)) 5) as [Hs5|_].
  { rewrite !length_app in *. simpl in *. rewrite !length_app in *. simpl in *. rewrite !length_app in *. destruct sg; lia. }
  rewrite Hl, bind_ret, Hsg.
  assert ((if sg then Ret (true, p + 1, set_neg tm 1)
           else b ← scan_time mem (p + 1) (Z.to_nat (p + Z.of_nat (length t) - (p + 1))); Ret (b, p, set_neg tm 0))
          = Ret (true, p + (if sg then 1 else 0), set_neg tm (if sg then 1 else 0))) as ->.
  { destruct sg; [done|]. unfold t in *. simpl in *. destruct Hh1 as [|d h Hd Hh1]; [done|]. simpl in *.
    injection E as -> <-. apply text_at_cons in Hm as [_ Hm].
    rewrite (scan_run mem h 58 (m ++ 58 :: s ++ ft)) by (done || auto || lia). rewrite bind_ret, Z.add_0_r. done. }
  rewrite bind_ret. cbv iota.
  assert (text_at mem (p + (if sg then 1 else 0)) (h ++ 58 :: m ++ 58 :: s ++ ft)) as Hm'.
  { unfold t in Hm. apply text_at_app in Hm as [_ Hm]. by destruct sg. }
  destruct (clock_run mem (p + (if sg then 1 else 0)) (p + Z.of_nat (length t) - (p + (if sg then 1 else 0)))
    h m s ft vh vm vs v (set_neg tm (if sg then 1 else 0))) as [q ->]; try done; lia.
Qed.

Lemma time_solid sg h m s ft vh vs v : field h vh 838 -> field s vs 59 -> fraction ft v ->
  solid ((if (sg : bool) then [45] else []) ++ h ++ 58 :: m ++ 58 :: s ++ ft).
Proof.
  intros (Hh1 & Hh2 & _) (Hs1 & Hs2 & _) Hf. destruct (clock_last h m s ft v (if sg then [45] else [])) as (z & Hz & Hzs); [done|done|done|].
  destruct sg; [by eexists _, _, z|]. destruct Hh1 as [|c h Hc]; [done|]. eexists _, _, z. split; [done|]. split; [done|].
  split; [by apply digit_not_space|done].
Qed.

(** A date, or a date and a time. *)
Lemma date_prefix mem p y mo d t z tm :
  Forall digit y -> (2 <= length y)%nat -> last (y ++ 45 :: mo ++ 45 :: d ++ t) = Some z -> isspace z = false ->
  5 <= Z.of_nat (length (y ++ 45 :: mo ++ 45 :: d ++ t)) ->
  text_at mem p (y ++ 45 :: mo ++ 45 :: d ++ t) ->
  let n := Z.of_nat (length (y ++ 45 :: mo ++ 45 :: d ++ t)) in
  str_to_TIME (Some mem) p n tm = parse_datetime mem p (p + n) (set_neg tm 0).
Proof.
  intros Hy Hlen Hlast Hz Hn Hm n. destruct Hy as [|c y Hc Hy]; [simpl in *; lia|]. unfold str_to_TIME.
  destruct (str_start mem p c (y ++ 45 :: mo ++ 45 :: d ++ t) z) as (Hsk & Htrim & Hl);
    [by apply digit_not_space|done|done|done|].
  change (c :: y ++ 45 :: mo ++ 45 :: d ++ t) with ((c :: y) ++ 45 :: mo ++ 45 :: d ++ t) in *. fold n in Hsk, Htrim.
  rewrite Hsk, bind_ret, Htrim, bind_ret. destruct (Z.ltb_spec (p + n - p) 5); [lia|].
  rewrite Hl, bind_ret. unfold digit in Hc. destruct (Z.eqb_spec c 45); [lia|].
  apply text_at_cons in Hm as [_ Hm]. rewrite (scan_run mem y 45 (mo ++ 45 :: d ++ t)); [done|done|auto|done|].
  unfold n. simpl. lia.
Qed.

Lemma datetime_parses mem p y mo d h m s ft vy vmo vd vh vm vs v tm :
  field y vy 9999 -> (4 <= length y)%nat -> field mo vmo 12 -> field d vd 31 ->
  field h vh 23 -> field m vm 59 -> field s vs 59 -> fraction ft v ->
  let t := y ++ 45 :: mo ++ 45 :: d ++ 32 :: h ++ 58 :: m ++ 58 :: s ++ ft in
  text_at mem p t ->
  str_to_TIME (Some mem) p (Z.of_nat (length t)) tm = Ret (0, mk_time vy vmo vd vh vm vs v 0 MYSQL_TIMESTAMP_DATETIME).
Proof.
  intros Hy Hy4 Hmo Hd Hh Hmi Hs Hf t Hm. pose proof Hy as (Hy1 & _). pose proof Hs as (Hs1 & Hs2 & _).
  destruct (fraction_bytes ft v Hf) as [Hfb _].
  destruct (clock_last h m s ft v (y ++ 45 :: mo ++ 45 :: d ++ [32])) as (z & Hz & Hzs); [done|done|done|].
  replace ((y ++ 45 :: mo ++ 45 :: d ++ [32]) ++ h ++ 58 :: m ++ 58 :: s ++ ft) with t in Hz
    by (unfold t; rewrite <- !app_assoc; simpl; rewrite <- !app_assoc; simpl; by rewrite <- !app_assoc).
  unfold t in *. rewrite (date_prefix mem p y mo d _ z) by (done || lia || (rewrite !length_app; simpl; lia)).
  unfold parse_datetime. fold t in Hm |- *.
  rewrite (date_run mem p _ y mo d (32 :: h ++ 58 :: m ++ 58 :: s ++ ft) vy vmo vd); try done; [|lia| |unfold digit; simpl; lia|unfold t; lia].
  2: { destruct Hh as (? & _), Hmi as (? & _). field_bytes. }
  rewrite bind_ret. change (nonzero 0) with false. cbv iota.
  replace t with ((y ++ 45 :: mo ++ 45 :: d) ++ 32 :: h ++ 58 :: m ++ 58 :: s ++ ft) in Hm
    by (unfold t; rewrite <- !app_assoc; simpl; by rewrite <- !app_assoc).
  assert (Z.of_nat (length t)
    = Z.of_nat (length (y ++ 45 :: mo ++ 45 :: d)) + 1 + Z.of_nat (length (h ++ 58 :: m ++ 58 :: s ++ ft))) as Hlen.
  { unfold t. repeat first [rewrite length_app | rewrite length_cons]. lia. }
  apply text_at_app in Hm as [_ [Hl Hm]%text_at_cons]. rewrite (not_at_char _ _ _ _ Hl) by (unfold t in *; lia).
  rewrite bind_ret. cbv iota.
  destruct (clock_run mem (p + Z.of_nat (length (y ++ 45 :: mo ++ 45 :: d)) + 1)
    (p + Z.of_nat (length t) - (p + Z.of_nat (length (y ++ 45 :: mo ++ 45 :: d)) + 1)) h m s ft vh vm vs v
    (set_day (set_month (set_year (set_neg tm 0) vy) vmo) vd)) as [q Hq]; try done; [|lia|rewrite Hq].
  { destruct Hh as (? & ? & ? & ?). split_and!; done || (unfold UINT_MAX in *; lia). }
  rewrite bind_ret. change (nonzero 0) with false. cbn [hour set_second_part set_second set_minute set_hour].
  destruct Hh as (_ & _ & _ & Hh). by rewrite Z.gtb_ltb, (proj2 (Z.ltb_ge 23 vh)) by lia.
Qed.

Lemma date_parses mem p y mo d vy vmo vd tm :
  field y vy 9999 -> (4 <= length y)%nat -> field mo vmo 12 -> field d vd 31 ->
  let t := y ++ 45 :: mo ++ 45 :: d in
  text_at mem p t ->
  str_to_TIME (Some mem) p (Z.of_nat (length t)) tm = Ret (0, mk_time vy vmo vd 0 0 0 0 0 MYSQL_TIMESTAMP_DATE).
Proof.
  intros Hy Hy4 Hmo Hd t Hm. pose proof Hy as (Hy1 & _). pose proof Hd as (Hd1 & Hd2 & _).
  destruct (digit_last d Hd1 Hd2) as (z & Hz & Hzs).
  assert (t = y ++ 45 :: mo ++ 45 :: d ++ []) as E by (by rewrite app_nil_r). unfold t in *. rewrite E in *.
  rewrite (date_prefix mem p y mo d [] z); try done; try (rewrite ?length_app; simpl; lia).
  2: { rewrite app_nil_r. replace (y ++ 45 :: mo ++ 45 :: d) with ((y ++ 45 :: mo ++ [45]) ++ d)
         by (rewrite <- !app_assoc; simpl; by rewrite <- !app_assoc). by rewrite last_app_r. }
  unfold parse_datetime.
  rewrite (date_run mem p _ y mo d [] vy vmo vd); try done; try lia.
  rewrite bind_ret, app_nil_r. change (nonzero 0) with false. cbv iota. by rewrite not_at_end.
Qed.

Lemma date_solid y mo d t vy z : field y vy 9999 -> last (y ++ 45 :: mo ++ 45 :: d ++ t) = Some z -> isspace z = false ->
  solid (y ++ 45 :: mo ++ 45 :: d ++ t).
Proof.
  intros (Hy1 & Hy2 & _) Hz Hzs. destruct Hy1 as [|c y Hc]; [done|]. eexists _, _, z. split; [done|]. split; [done|].
  split; [by apply digit_not_space|done].
Qed.

(** * Formatting *)

Lemma cstr_run s rest : Forall (fun c => c <> 0) s -> cstr (s ++ 0 :: rest) = Ret s.
Proof.
  induction 1 as [|c s Hc Hs IH]; simpl; [done|]. destruct (Z.eqb_spec c 0); [done|]. by rewrite IH.
Qed.

Lemma digits_nonzero ds : Forall digit ds -> Forall (fun c => c <> 0) ds.
Proof. intros H. eapply Forall_impl; [exact H|]. unfold digit. lia. Qed.

Lemma sprintf_writes buf off text :
  all_bytes text -> room buf off (length text + 1) -> sprintf buf off text = Ret (splice off (text ++ [0]) buf).
Proof.
  intros Hb Hr. unfold sprintf. rewrite store_bytes_splice by (rewrite length_app; done).
  rewrite map_app, map_u8_bytes by done. done.
Qed.

(** The fraction that [decimals] digits show. *)
Definition cut (decimals sp : Z) : Z :=
  if nonzero decimals && (decimals <=? 6) then sp / 10 ^ (6 - decimals) * 10 ^ (6 - decimals) else 0.

(** The text in [ms]: a dot and the first digits. *)
Lemma ms_text junk decimals sp : 1 <= decimals <= 6 -> 0 <= sp < 1000000 ->
  (ms ← sprintf (repeat junk 8) 0 (46 :: print_u 6 sp);
   ms ← (if decimals <? 6 then store ms (decimals + 1) 0 else Ret ms);
   cstr ms) = Ret (46 :: fixed (Z.to_nat decimals) (sp / 10 ^ (6 - decimals))).
Proof.
  intros Hd Hsp. rewrite print_u_fixed by (simpl; lia).
  rewrite sprintf_writes.
  2: { apply Forall_cons. split; [unfold is_byte, uint; lia|apply digits_bytes, fixed_digit]. }
  2: { unfold room. simpl. lia. }
  rewrite splice_0, bind_ret.
  replace (drop _ _) with (@nil Z) by (symmetry; apply drop_ge; rewrite length_app; cbn [length]; rewrite length_fixed; simpl; lia).
  rewrite app_nil_r. replace 6%nat with (Z.to_nat decimals + Z.to_nat (6 - decimals))%nat by lia.
  rewrite fixed_app, Z2Nat.id by lia. set (A := fixed (Z.to_nat decimals) _).
  assert (Forall (fun c => c <> 0) (46 :: A)) as HA by (apply Forall_cons; split; [lia|apply digits_nonzero, fixed_digit]).
  destruct (Z.ltb_spec decimals 6) as [Hlt|Hge].
  - destruct (Z.to_nat (6 - decimals)) as [|k] eqn:Ek; [lia|]. clear Ek.
    destruct (fixed (S k) sp) as [|x B] eqn:EB; [apply (f_equal length) in EB; rewrite length_fixed in EB; done|].
    replace ((46 :: A ++ x :: B) ++ [0]) with ((46 :: A) ++ x :: (B ++ [0])) by (simpl; by rewrite <- app_assoc).
    rewrite store_in by (rewrite length_app; cbn [length]; unfold A; rewrite length_fixed; lia). rewrite bind_ret.
    replace (Z.to_nat (decimals + 1)) with (Nat.add (length (46 :: A)) 0) by (cbn [length]; unfold A; rewrite length_fixed; lia).
    rewrite insert_app_r. simpl insert. by apply cstr_run.
  - replace (Z.to_nat (6 - decimals)) with 0%nat by lia. simpl fixed. rewrite app_nil_r, bind_ret. by apply cstr_run.
Qed.

Lemma fixed_fraction decimals sp : 1 <= decimals <= 6 -> 0 <= sp < 1000000 ->
  fraction (46 :: fixed (Z.to_nat decimals) (sp / 10 ^ (6 - decimals))) (sp / 10 ^ (6 - decimals) * 10 ^ (6 - decimals)).
Proof.
  intros Hd Hsp. right. eexists. split; [done|]. split; [apply fixed_digit|]. rewrite length_fixed.
  split; [lia|]. rewrite decimal_fixed, Z2Nat.id, Z.mod_small by (lia || (split; [apply Z.div_pos; lia|]; apply Z.div_lt_upper_bound; [lia|];
    rewrite <- Z.pow_add_r by lia; replace (6 - decimals + decimals) with 6 by lia; lia)). done.
Qed.

Lemma append_fraction_text junk decimals tm text :
  0 <= second_part tm < 1000000 -> 0 <= decimals -> all_bytes text -> (length text <= 50)%nat ->
  exists ft b, fraction ft (cut decimals (second_part tm))
    /\ (dtbuffer ← sprintf (repeat junk 60) 0 text;
        append_fraction junk decimals tm dtbuffer (Z.of_nat (length text)))
       = Ret (b, Z.of_nat (length (text ++ ft)))
    /\ text_at b 0 (text ++ ft).
Proof.
  intros Hsp Hdec Hb Hlen. unfold cut, append_fraction.
  assert (room (repeat junk 60) 0 (length text + 1)) as Hr by (unfold room; rewrite repeat_length; lia).
  rewrite (sprintf_writes (repeat junk 60) 0 text), bind_ret by done.
  destruct (Z.eqb_spec decimals 0) as [->|Hz]; [|destruct (Z.leb_spec decimals 6) as [H6|H6]].
  1, 3: exists [], (splice 0 (text ++ [0]) (repeat junk 60)); unfold nonzero; rewrite ?(proj2 (Z.eqb_neq decimals 0)) by done; simpl;
    rewrite app_nil_r; split; [by left|]; split; [done|]; apply (text_at_app _ _ text [0]), load_bytes_splice; by rewrite length_app.
  unfold nonzero. rewrite (proj2 (Z.eqb_neq decimals 0)) by done. cbn [negb andb].
  set (A := fixed (Z.to_nat decimals) (second_part tm / 10 ^ (6 - decimals))).
  assert (length A <= 6)%nat as HA by (unfold A; rewrite length_fixed; lia).
  pose proof (ms_text junk decimals (second_part tm) ltac:(lia) Hsp) as Hms.
  destruct (sprintf (repeat junk 8) 0 _) as [ms| |] in Hms |- *; try discriminate. cbn [mbind cres_bind] in Hms |- *.
  destruct (if decimals <? 6 then _ else _) as [ms'| |] in Hms |- *; try discriminate. cbn [mbind cres_bind] in Hms |- *.
  rewrite Hms. cbn [mbind cres_bind]. fold A. set (base := splice 0 (text ++ [0]) (repeat junk 60)).
  assert (length base = 60%nat) as Hbase.
  { unfold base. rewrite length_splice; [by rewrite repeat_length|]. by rewrite length_app. }
  assert (all_bytes (46 :: A)) as HAb by (apply Forall_cons; split; [unfold is_byte, uint; lia|apply digits_bytes, fixed_digit]).
  assert (room base (Z.of_nat (length text)) (Nat.add (length (46 :: A)) 1)) as Hr2 by (unfold room; rewrite Hbase; simpl; lia).
  rewrite sprintf_writes by done.
  exists (46 :: A), (splice (Z.of_nat (length text)) ((46 :: A) ++ [0]) base). split_and!.
  - apply fixed_fraction; [lia|done].
  - rewrite length_app, Nat2Z.inj_add. reflexivity.
  - apply text_at_app. split.
    + unfold text_at. rewrite load_bytes_splice_out by (rewrite ?length_app; done || lia).
      apply (text_at_app _ _ text [0]), load_bytes_splice. by rewrite length_app.
    + apply (text_at_app _ _ (46 :: A) [0]), load_bytes_splice. by rewrite length_app.
Qed.

(** The values a server sends for the types. *)
Definition clock_ok (max : Z) (tm : MYSQL_TIME) : Prop :=
  0 <= hour tm <= max /\ 0 <= minute tm <= 59 /\ 0 <= second tm <= 59 /\ 0 <= second_part tm < 1000000.

Definition date_ok (tm : MYSQL_TIME) : Prop := 0 <= year tm <= 9999 /\ 0 <= month tm <= 12 /\ 0 <= day tm <= 31.

Lemma print_u_bytes w n : all_bytes (print_u w n).
Proof. apply digits_bytes, fixed_digit. Qed.

Lemma print_u_length w k n : (w <= S k)%nat -> n < 10 ^ Z.of_nat (S k) -> (length (print_u w n) <= S k)%nat.
Proof. intros Hw Hn. unfold print_u. rewrite length_fixed. pose proof (ndigits_small k 20 n Hn). lia. Qed.

Lemma date_text_bytes tm : date_ok tm -> all_bytes (date_text tm) /\ (length (date_text tm) <= 10)%nat.
Proof.
  intros (Hy & Hm & Hd). unfold date_text. split.
  - repeat first [apply Forall_app; split | apply Forall_cons; split; [unfold is_byte, uint; lia|]]; apply print_u_bytes.
  - repeat first [rewrite length_app | rewrite length_cons].
    pose proof (print_u_length 4 3 (year tm) ltac:(lia) ltac:(simpl; lia)).
    pose proof (print_u_length 2 1 (month tm) ltac:(lia) ltac:(simpl; lia)).
    pose proof (print_u_length 2 1 (day tm) ltac:(lia) ltac:(simpl; lia)). lia.
Qed.

Lemma clock_text_bytes tm : clock_ok 838 tm -> all_bytes (clock_text tm) /\ (length (clock_text tm) <= 9)%nat.
Proof.
  intros (Hh & Hm & Hs & _). unfold clock_text. split.
  - repeat first [apply Forall_app; split | apply Forall_cons; split; [unfold is_byte, uint; lia|]]; apply print_u_bytes.
  - repeat first [rewrite length_app | rewrite length_cons].
    pose proof (print_u_length 2 2 (hour tm) ltac:(lia) ltac:(simpl; lia)).
    pose proof (print_u_length 2 1 (minute tm) ltac:(lia) ltac:(simpl; lia)).
    pose proof (print_u_length 2 1 (second tm) ltac:(lia) ltac:(simpl; lia)). lia.
Qed.

Lemma time_read_as sg h m s ft vh vm vs v tm :
  field h vh 838 -> field m vm 59 -> field s vs 59 -> fraction ft v -> (3 <= length h + length m + length s)%nat ->
  read_as ((if (sg : bool) then [45] else []) ++ h ++ 58 :: m ++ 58 :: s ++ ft) tm
    (mk_time 0 0 0 vh vm vs v (if sg then 1 else 0) MYSQL_TIMESTAMP_TIME).
Proof. intros. apply padded; [by eapply time_solid|]. intros mem p Hm. by apply time_parses. Qed.

Lemma datetime_read_as y mo d h m s ft vy vmo vd vh vm vs v tm :
  field y vy 9999 -> (4 <= length y)%nat -> field mo vmo 12 -> field d vd 31 ->
  field h vh 23 -> field m vm 59 -> field s vs 59 -> fraction ft v ->
  read_as (y ++ 45 :: mo ++ 45 :: d ++ 32 :: h ++ 58 :: m ++ 58 :: s ++ ft) tm (mk_time vy vmo vd vh vm vs v 0 MYSQL_TIMESTAMP_DATETIME).
Proof.
  intros Hy H4 Hmo Hd Hh Hm Hs Hf. apply padded; [|intros mem p Ht; by apply datetime_parses]. pose proof Hs as (Hs1 & Hs2 & _).
  destruct (clock_last h m s ft v (y ++ 45 :: mo ++ 45 :: d ++ [32])) as (z & Hz & Hzs); [done|done|done|].
  repeat (rewrite <- !app_assoc in Hz; cbn [app] in Hz). by eapply date_solid.
Qed.

Lemma date_read_as y mo d vy vmo vd tm :
  field y vy 9999 -> (4 <= length y)%nat -> field mo vmo 12 -> field d vd 31 ->
  read_as (y ++ 45 :: mo ++ 45 :: d) tm (mk_time vy vmo vd 0 0 0 0 0 MYSQL_TIMESTAMP_DATE).
Proof.
  intros Hy H4 Hmo Hd. apply padded; [|intros mem p Ht; by apply date_parses]. pose proof Hd as (Hd1 & Hd2 & _).
  destruct (digit_last d Hd1 Hd2) as (z & Hz & Hzs). rewrite <- (app_nil_r d). eapply date_solid; [done| |done].
  rewrite app_nil_r. replace (y ++ 45 :: mo ++ 45 :: d) with ((y ++ 45 :: mo ++ [45]) ++ d) by (rewrite <- !app_assoc; simpl; by rewrite <- !app_assoc).
  by rewrite last_app_r.
Qed.



Example format_example :
  ('(b, n) ← format_time 7 12 3 (mk_time 2024 2 29 23 59 58 123456 0 1); str_to_TIME (Some b) 0 n zero_time)
  = Ret (0, mk_time 2024 2 29 23 59 58 123000 0 1).
Proof. reflexivity. Qed.

(** A fraction of seven digits does not fit into [ms]. *)
Lemma fraction_overflows : format_time 7 12 6 (mk_time 2024 2 29 23 59 58 1000000 0 1) = Fault.
Proof. reflexivity. Qed.

(** Junk behind the fraction is counted as digits: half a second becomes 500 microseconds. *)
Lemma fraction_junk_misread :
  str_to_TIME (Some [49; 50; 58; 51; 52; 58; 53; 54; 46; 53; 97; 98; 99]) 0 13 zero_time
  = Ret (0, mk_time 0 0 0 12 34 56 500 0 2).
Proof. reflexivity. Qed.

End TimeText.
