(* ===== verification/OracleTime.v ===== *)
(** Timestamps and intervals of Oracle mode: the binary forms that
    store_param_oracle_timestamp_nano_complex, store_param_oracle_timestamp_tz_complex and
    store_param_oracle_interval_complex of libmariadb/mariadb_stmt.c write, and their readers in
    ps_fetch_oracle_timestamp, fetch_result_ob_timestamp_complex, ps_fetch_oracle_interval and
    read_binary_interval of libmariadb/ma_stmt_codec.c.

    The pointers [tz_name] and [tz_abbr] of a timestamp point into a memory that goes with the
    value: the application's strings when it is stored, the bytes of the buffer behind the
    struct when it is read. *)

From stdpp Require Import tactics.
From S2P Require Import Prelude IntStore NumText LenEnc StmtTime.
Import NumText LenEnc StmtTime.

Module OracleTime.

Definition MAX_ORACLE_TIMESTAMP_REP_LENGTH : Z := 13.
Definition MYSQL_TYPE_OB_INTERVAL_YM : Z := 204.
Definition MYSQL_TYPE_OB_INTERVAL_DS : Z := 205.

Record ORACLE_TIME := mk_otime {
  century : Z; oyear : Z; omonth : Z; oday : Z; ohour : Z; ominute : Z; osecond : Z;
  nanos : Z;             (* second_part *)
  oscale : Z; offset_hour : Z; offset_minute : Z;
  tz_name : option Z; tz_abbr : option Z }.

(** On a machine with 64-bit pointers. *)
Definition sizeof_ORACLE_TIME : Z := 72.
Definition sizeof_ORACLE_INTERVAL : Z := 32.

Inductive interval_object :=
| ym_object (ym_year ym_month ym_scale : Z)
| ds_object (ds_day ds_hour ds_minute ds_second ds_frac_second ds_day_scale ds_frac_second_scale : Z).

(** The union [data_object] is read as [mysql_type] tells. *)
Record ORACLE_INTERVAL := mk_interval { mysql_type : Z; data_symbol : Z; data_object : interval_object }.

(** * Storing *)

Definition store_param_oracle_timestamp_nano_complex (junk : Z) (mem : bytes) (pos : Z) (tm : ORACLE_TIME) : cres (bytes * Z) :=
  let buff := repeat junk (Z.to_nat MAX_ORACLE_TIMESTAMP_REP_LENGTH) in
  buff ← store buff 0 12;
  buff ← store buff 1 (century tm);
  buff ← store buff 2 (oyear tm);
  buff ← store buff 3 (omonth tm);
  buff ← store buff 4 (oday tm);
  buff ← store buff 5 (ohour tm);
  buff ← store buff 6 (ominute tm);
  buff ← store buff 7 (osecond tm);
  buff ← int4store buff 8 (nanos tm);
  buff ← store buff 12 9;
  copy_out mem pos buff MAX_ORACLE_TIMESTAMP_REP_LENGTH.

(** One of the two names: memory, position and the length of the name. *)
Definition store_zone (mem : bytes) (pos : Z) (names : bytes) (zone : option Z) : cres (bytes * Z * Z) :=
  match zone with
  | Some a =>
    if a <? 0 then Fault
    else
      n ← strlen (drop (Z.to_nat a) names);
      let tz_length := u32 n in
      '(mem, to) ← mysql_net_store_length mem pos tz_length;
      bs ← load_bytes names a (Z.to_nat tz_length);
      mem ← store_bytes mem to bs;
      Ret (mem, to + tz_length, tz_length)
  | None =>
    '(mem, pos) ← mysql_net_store_length mem pos 0;
    Ret (mem, pos, 0)
  end.

Definition store_param_oracle_timestamp_tz_complex (junk : Z) (mem : bytes) (pos : Z) (tm : ORACLE_TIME) (names : bytes)
    : cres (bytes * Z) :=
  let length := 16 in
  '(mem, pos) ← store_param_oracle_timestamp_nano_complex junk mem pos tm;
  mem ← store mem pos (offset_hour tm);
  let pos := pos + 1 in
  mem ← store mem pos (offset_minute tm);
  let pos := pos + 1 in
  '(mem, pos, n) ← store_zone mem pos names (tz_name tm);
  let length := u32 (length + n) in
  '(mem, pos, n) ← store_zone mem pos names (tz_abbr tm);
  let length := u32 (length + n) in
  mem ← store mem (pos - length - 1) length;
  Ret (mem, pos).

Definition store_param_oracle_interval_complex (mem : bytes) (pos : Z) (interval : ORACLE_INTERVAL) : cres (bytes * Z) :=
  let buff := repeat 0 20 in
  let symbol := if data_symbol interval >=? 0 then 0 else 1 in
  '(buff, len) ←
    (if mysql_type interval =? MYSQL_TYPE_OB_INTERVAL_YM then
       match data_object interval with
       | ym_object ym_year ym_month ym_scale =>
         buff ← store buff 0 7;
         buff ← store buff 1 symbol;
         buff ← int4store buff 2 ym_year;
         buff ← store buff 6 ym_month;
         buff ← store buff 7 ym_scale;
         Ret (buff, 8)
       | _ => Fault
       end
     else if mysql_type interval =? MYSQL_TYPE_OB_INTERVAL_DS then
       match data_object interval with
       | ds_object ds_day ds_hour ds_minute ds_second ds_frac_second ds_day_scale ds_frac_second_scale =>
         buff ← store buff 0 14;
         buff ← store buff 1 symbol;
         buff ← int4store buff 2 ds_day;
         buff ← store buff 6 ds_hour;
         buff ← store buff 7 ds_minute;
         buff ← store buff 8 ds_second;
         buff ← int4store buff 9 ds_frac_second;
         buff ← store buff 13 ds_day_scale;
         buff ← store buff 14 ds_frac_second_scale;
         Ret (buff, 15)
       | _ => Fault
       end
     else Ret (buff, 0));
  copy_out mem pos buff len.

(** The size that is reserved for a timestamp with a time zone. *)
Definition zone_length (names : bytes) (zone : option Z) : cres Z :=
  match zone with
  | Some a => if a <? 0 then Fault else strlen (drop (Z.to_nat a) names)
  | None => Ret 0
  end.

Definition calculate_param_oracle_timestamp_len (tm : ORACLE_TIME) (names : bytes) : cres Z :=
  n1 ← zone_length names (tz_name tm);
  n2 ← zone_length names (tz_abbr tm);
  Ret (u64 (u64 (17 + n1) + n2)).

(** * Reading *)

(** One of the two names: the pointer into [tail], the memory behind the struct; [tail]; the
    offset in the buffer; the size the value needs; the position in the row.  [cap] is the size
    of the buffer. *)
Definition read_zone (mem : bytes) (to cap : Z) (tail : bytes) (buffer_offset buffer_length : Z)
    : cres (option Z * bytes * Z * Z * Z) :=
  tz_length ← load mem to;
  let to := to + 1 in
  let buffer_length := buffer_length + (tz_length + 1) in
  if (tz_length >? 0) && (buffer_offset + tz_length + 1 <? cap) then
    bs ← load_bytes mem to (Z.to_nat tz_length);
    let p := buffer_offset - sizeof_ORACLE_TIME in
    tail ← store_bytes tail p bs;
    tail ← store tail (p + tz_length) 0;
    Ret (Some p, tail, buffer_offset + tz_length + 1, buffer_length, to + tz_length)
  else Ret (None, tail, buffer_offset, buffer_length, to + tz_length).

(** The struct, the memory behind it, the size the value needs and the position behind it. *)
Definition read_timestamp (mem : bytes) (to length cap : Z) (tail : bytes) : cres (ORACLE_TIME * bytes * Z * Z) :=
  c ← load mem to;
  y ← load mem (to + 1);
  mo ← load mem (to + 2);
  d ← load mem (to + 3);
  h ← load mem (to + 4);
  mi ← load mem (to + 5);
  s ← load mem (to + 6);
  sp ← sint4korr mem (to + 7);
  sc ← load mem (to + 11);
  let to := to + 12 in
  if length >? 12 then
    oh ← load mem to;
    om ← load mem (to + 1);
    '(name, tail, buffer_offset, buffer_length, to) ←
      read_zone mem (to + 2) cap tail sizeof_ORACLE_TIME sizeof_ORACLE_TIME;
    '(abbr, tail, buffer_offset, buffer_length, to) ← read_zone mem to cap tail buffer_offset buffer_length;
    Ret (mk_otime (s8 c) (s8 y) mo d h mi s (u64 sp) sc (s8 oh) (s8 om) name abbr, tail, buffer_length, to)
  else Ret (mk_otime (s8 c) (s8 y) mo d h mi s (u64 sp) sc 0 0 None None, tail, sizeof_ORACLE_TIME, to).

(** The interval at [buffer]. *)
Definition read_interval_ym (mem : bytes) (buffer : Z) : cres ORACLE_INTERVAL :=
  sym ← load mem buffer;
  y ← sint4korr mem (buffer + 1);
  m ← load mem (buffer + 5);
  sc ← load mem (buffer + 6);
  Ret (mk_interval MYSQL_TYPE_OB_INTERVAL_YM (if sym >? 0 then -1 else 1) (ym_object y m sc)).

Definition read_interval_ds (mem : bytes) (buffer : Z) : cres ORACLE_INTERVAL :=
  sym ← load mem buffer;
  d ← sint4korr mem (buffer + 1);
  h ← load mem (buffer + 5);
  m ← load mem (buffer + 6);
  s ← load mem (buffer + 7);
  fs ← sint4korr mem (buffer + 8);
  dsc ← load mem (buffer + 12);
  fsc ← load mem (buffer + 13);
  Ret (mk_interval MYSQL_TYPE_OB_INTERVAL_DS (if sym >? 0 then -1 else 1) (ds_object d h m s fs dsc fsc)).

(** [tm] is what the struct held before. *)
Definition read_binary_interval (type : Z) (tm : ORACLE_INTERVAL) (mem : bytes) (pos : Z) : cres (ORACLE_INTERVAL * Z) :=
  '(length, to) ← net_field_length mem pos;
  let length := u32 length in
  interval ←
    (if type =? MYSQL_TYPE_OB_INTERVAL_DS then if length =? 14 then read_interval_ds mem to else Ret tm
     else if type =? MYSQL_TYPE_OB_INTERVAL_YM then if length =? 7 then read_interval_ym mem to else Ret tm
     else Ret tm);
  Ret (interval, to + length).

(** * Reference encodings *)

Definition timestamp_body (tm : ORACLE_TIME) : bytes :=
  [u8 (century tm); u8 (oyear tm); u8 (omonth tm); u8 (oday tm); u8 (ohour tm); u8 (ominute tm); u8 (osecond tm)]
    ++ le_bytes 4 (nanos tm) ++ [9].

Definition zone_bytes (t : bytes) : bytes := Z.of_nat (length t) :: t.

Definition timestamp_tz_bytes (tm : ORACLE_TIME) (name abbr : bytes) : bytes :=
  Z.of_nat (16 + length name + length abbr) :: timestamp_body tm
    ++ [u8 (offset_hour tm); u8 (offset_minute tm)] ++ zone_bytes name ++ zone_bytes abbr.

Definition interval_bytes (i : ORACLE_INTERVAL) : bytes :=
  let symbol := if data_symbol i >=? 0 then 0 else 1 in
  match data_object i with
  | ym_object y m sc => 7 :: symbol :: le_bytes 4 y ++ [u8 m; u8 sc]
  | ds_object d h m s fs dsc fsc => 14 :: symbol :: le_bytes 4 d ++ [u8 h; u8 m; u8 s] ++ le_bytes 4 fs ++ [u8 dsc; u8 fsc]
  end.

(** A pointer to a NUL-terminated text, or NULL for the empty one. *)
Definition zone_is (names : bytes) (zone : option Z) (t : bytes) : Prop :=
  Forall (fun c => 0 < c < 256) t
  /\ match zone with None => t = [] | Some a => text_at names a (t ++ [0]) end.

(** * Storing writes the reference encoding *)

Ltac timestamp_array := cbv [store int2store int4store repeat Z.to_nat Pos.to_nat Pos.iter_op Nat.add length
  insert list_insert MAX_ORACLE_TIMESTAMP_REP_LENGTH Z.ltb Z.leb Z.compare Pos.compare
  Pos.compare_cont Z.of_nat Pos.of_succ_nat Pos.succ orb Z.add Pos.add mbind cres_bind].

Ltac fill_timestamp :=
  match goal with |- _ = ?r => let R := fresh "R" in set (R := r) end;
  match goal with |- context [copy_out ?mem ?pos] => let k := fresh "k" in set (k := copy_out mem pos) end;
  timestamp_array.

Lemma store_nano_writes junk mem pos tm : room mem pos 13 ->
  store_param_oracle_timestamp_nano_complex junk mem pos tm = Ret (splice pos (12 :: timestamp_body tm) mem, pos + 13).
Proof.
  intros Hr. unfold store_param_oracle_timestamp_nano_complex, timestamp_body. fill_timestamp. array_done.
Qed.

Lemma store_interval_writes mem pos i : room mem pos 15 ->
  mysql_type i = (match data_object i with ym_object _ _ _ => MYSQL_TYPE_OB_INTERVAL_YM | _ => MYSQL_TYPE_OB_INTERVAL_DS end) ->
  store_param_oracle_interval_complex mem pos i
  = Ret (splice pos (interval_bytes i) mem, pos + Z.of_nat (length (interval_bytes i))).
Proof.
  intros Hr Ht. unfold store_param_oracle_interval_complex, interval_bytes. rewrite Ht.
  destruct (data_object i); [change (MYSQL_TYPE_OB_INTERVAL_YM =? MYSQL_TYPE_OB_INTERVAL_YM) with true
    |change (MYSQL_TYPE_OB_INTERVAL_DS =? MYSQL_TYPE_OB_INTERVAL_YM) with false; change (MYSQL_TYPE_OB_INTERVAL_DS =? MYSQL_TYPE_OB_INTERVAL_DS) with true];
    cbv iota; destruct (data_symbol i >=? 0); fill_timestamp; array_done.
Qed.

Lemma text_at_strlen names a t : Forall (fun c => 0 < c < 256) t -> text_at names a (t ++ [0]) ->
  0 <= a /\ strlen (drop (Z.to_nat a) names) = Ret (Z.of_nat (length t)) /\ load_bytes names a (length t) = Ret t.
Proof.
  intros Ht Hm. pose proof Hm as [Hm1 _]%text_at_app. unfold text_at in Hm.
  assert (room names a (length (t ++ [0]))) as Hr by (eapply load_bytes_room; [exact Hm|rewrite length_app; simpl; lia]).
  rewrite load_bytes_in in Hm by done. injection Hm as Hm. unfold room in Hr. split; [lia|]. split; [|exact Hm1].
  rewrite <- (take_drop (length (t ++ [0])) (drop (Z.to_nat a) names)), Hm, <- app_assoc. by apply strlen_cstr.
Qed.

Lemma lenenc_small n : 0 <= n < 251 -> lenenc n = [n].
Proof. intros Hn. unfold lenenc. by rewrite (proj2 (Z.ltb_lt n 251)) by lia. Qed.

Lemma store_zone_writes mem pos names zone t :
  zone_is names zone t -> (length t < 251)%nat -> room mem pos (1 + length t) ->
  store_zone mem pos names zone = Ret (splice pos (zone_bytes t) mem, pos + 1 + Z.of_nat (length t), Z.of_nat (length t)).
Proof.
  intros [Ht Hz] Hl Hr. unfold store_zone, zone_bytes. destruct zone as [a|].
  - destruct (text_at_strlen _ _ _ Ht Hz) as (Ha & -> & Hload). rewrite (proj2 (Z.ltb_ge a 0)), bind_ret by lia. cbv zeta.
    rewrite wrap_small by (unfold uint; lia). rewrite store_length_writes; [|unfold uint; lia|rewrite lenenc_small by lia; unfold room in *; simpl; lia].
    rewrite bind_ret, lenenc_small by lia. change (Z.of_nat (length [Z.of_nat (length t)])) with 1.
    rewrite Nat2Z.id, Hload, bind_ret.
    assert (all_bytes t) as Hb by (eapply Forall_impl; [exact Ht|]; unfold is_byte, uint; simpl; lia).
    rewrite store_bytes_splice, map_u8_bytes, bind_ret by (done || (unfold room in *; rewrite length_splice; unfold room; simpl; lia)).
    change (Z.of_nat (length t) :: t) with ([Z.of_nat (length t)] ++ t).
    rewrite <- (splice_app pos [Z.of_nat (length t)] t) by (unfold room in *; simpl; lia). done.
  - subst t. rewrite store_length_writes by (done || (unfold room in *; simpl in *; lia)). rewrite bind_ret. simpl. by rewrite Z.add_0_r.
Qed.

(** Writing one piece behind another. *)
Lemma store_tz_writes junk mem pos tm names name abbr :
  zone_is names (tz_name tm) name -> zone_is names (tz_abbr tm) abbr -> (length name + length abbr < 235)%nat ->
  room mem pos (17 + length name + length abbr) ->
  store_param_oracle_timestamp_tz_complex junk mem pos tm names
  = Ret (splice pos (timestamp_tz_bytes tm name abbr) mem, pos + Z.of_nat (length (timestamp_tz_bytes tm name abbr))).
Proof.
  intros Hn Ha Hl Hr. unfold store_param_oracle_timestamp_tz_complex. cbv zeta.
  rewrite store_nano_writes, bind_ret by (unfold room in *; lia).
  set (body := 12 :: timestamp_body tm). assert (length body = 13%nat) as Hbody by done.
  assert (forall a b v, splice pos a mem = b -> (length a + 1 <= 17 + length name + length abbr)%nat ->
    store b (pos + Z.of_nat (length a)) v = Ret (splice pos (a ++ [u8 v]) mem)) as Hst.
  { intros a b v <- Hla. rewrite <- store_u8, store_splice1.
    - f_equal. apply splice_app. rewrite length_app. unfold room in *. simpl. lia.
    - apply wrap_uint. lia.
    - unfold room in *. rewrite length_splice by (unfold room; lia). lia. }
  assert (forall a b z t, splice pos a mem = b -> zone_is names z t -> (length t < 251)%nat ->
    (length a + 1 + length t <= 17 + length name + length abbr)%nat ->
    store_zone b (pos + Z.of_nat (length a)) names z
    = Ret (splice pos (a ++ zone_bytes t) mem, pos + Z.of_nat (length (a ++ zone_bytes t)), Z.of_nat (length t))) as Hsz.
  { intros a b z t <- Hz Ht Hla. rewrite (store_zone_writes _ _ _ _ t) by (done || (unfold room in *; rewrite length_splice by (unfold room; lia); lia)).
    rewrite splice_app by (rewrite length_app; unfold room in *; simpl; lia). rewrite length_app. simpl. do 2 f_equal. f_equal. lia. }
  change (pos + 13) with (pos + Z.of_nat (length body)).
  rewrite (Hst body _ (offset_hour tm) eq_refl), bind_ret by (rewrite Hbody; lia).
  replace (pos + Z.of_nat (length body) + 1) with (pos + Z.of_nat (length (body ++ [u8 (offset_hour tm)]))) by (rewrite length_app, Hbody; simpl; lia).
  rewrite (Hst _ _ (offset_minute tm) eq_refl), bind_ret by (rewrite length_app, Hbody; simpl; lia).
  set (b2 := (body ++ [u8 (offset_hour tm)]) ++ [u8 (offset_minute tm)]). assert (length b2 = 15%nat) as Hb2 by done.
  replace (pos + Z.of_nat (length (body ++ [u8 (offset_hour tm)])) + 1) with (pos + Z.of_nat (length b2)) by (rewrite Hb2, length_app, Hbody; simpl; lia).
  rewrite (Hsz b2 _ _ name eq_refl Hn), bind_ret by lia.
  assert (length (b2 ++ zone_bytes name) = (16 + length name)%nat) as Hb3 by (rewrite length_app, Hb2; simpl; lia).
  rewrite (Hsz (b2 ++ zone_bytes name) _ _ abbr eq_refl Ha), bind_ret by lia.
  rewrite (wrap_small 32 (16 + _)), wrap_small by (unfold uint; lia).
  set (bs := (b2 ++ zone_bytes name) ++ zone_bytes abbr).
  assert (length bs = (17 + length name + length abbr)%nat) as Hbs by (unfold bs; rewrite length_app, Hb3; simpl; lia).
  replace (pos + Z.of_nat (length bs) - (16 + Z.of_nat (length name) + Z.of_nat (length abbr)) - 1) with pos by lia.
  rewrite store_splice1; [|unfold is_byte, uint; lia|unfold room in *; rewrite length_splice by (unfold room; lia); lia].
  rewrite bind_ret.
  assert (splice pos [16 + Z.of_nat (length name) + Z.of_nat (length abbr)] (splice pos bs mem) = splice pos (timestamp_tz_bytes tm name abbr) mem) as ->.
  { unfold bs, b2, body, timestamp_tz_bytes. rewrite <- !app_assoc.
    change ((12 :: timestamp_body tm) ++ ?x) with ([12] ++ (timestamp_body tm ++ x)).
    match goal with |- splice pos [?n] (splice pos ([12] ++ ?r) mem) = _ => set (rest := r); set (n0 := n) end.
    assert (length rest = (16 + length name + length abbr)%nat) as Hrest by (unfold rest; rewrite !length_app; simpl; lia).
    assert (forall x, room mem pos (length ([x] ++ rest))) as Hr' by (intros; unfold room in *; rewrite length_app, Hrest; cbn [length]; lia).
    assert (room mem pos 1) as Hr1 by (unfold room in *; lia).
    rewrite <- (splice_app_before pos [12] rest) by apply Hr'.
    rewrite splice_overwrite by (done || (unfold room in *; rewrite length_splice; unfold room; cbn [length]; lia)).
    rewrite (splice_app_before pos [n0] rest) by apply Hr'. unfold n0. do 2 f_equal. simpl. f_equal. lia. }
  reflexivity.
Qed.

(** * Reading gives the value back *)

Definition otime_ok (tm : ORACLE_TIME) : Prop :=
  sint 8 (century tm) /\ sint 8 (oyear tm) /\ is_byte (omonth tm) /\ is_byte (oday tm) /\ is_byte (ohour tm)
  /\ is_byte (ominute tm) /\ is_byte (osecond tm) /\ 0 <= nanos tm < 2147483648
  /\ sint 8 (offset_hour tm) /\ sint 8 (offset_minute tm).

Lemma s8_u8 v : sint 8 v -> s8 (u8 v) = v.
Proof. intros Hv. rewrite swrap_wrap by lia. apply swrap_small; [lia|done]. Qed.

Lemma read_zone_reads mem to cap tail off need t :
  text_at mem to (zone_bytes t) -> Forall (fun c => 0 < c < 256) t ->
  72 <= off -> off + Z.of_nat (length t) + 1 < cap <= 72 + Z.of_nat (length tail) ->
  exists z tail' off', read_zone mem to cap tail off need
      = Ret (z, tail', off', need + (Z.of_nat (length t) + 1), to + 1 + Z.of_nat (length t))
    /\ off <= off' <= off + Z.of_nat (length t) + 1 /\ zone_is tail' z t /\ length tail' = length tail
    /\ (forall a, z = Some a -> a + Z.of_nat (length (t ++ [0])) <= off' - 72)
    /\ forall i n, i + Z.of_nat n <= off - 72 -> load_bytes tail' i n = load_bytes tail i n.
Proof.
  intros [Hl Hm]%text_at_cons Ht Hoff Hcap. unfold read_zone. rewrite Hl, bind_ret. cbv zeta.
  destruct t as [|c t]; [eexists _, _, _; split; [done|]; simpl; rewrite ?Z.add_0_r; split_and!; try done; lia|].
  set (t' := c :: t) in *. assert (0 < length t')%nat by (simpl; lia).
  rewrite (proj2 (Z.gtb_lt _ 0)), (proj2 (Z.ltb_lt _ cap)) by lia. cbn [andb].
  unfold text_at in Hm. rewrite Nat2Z.id, Hm, bind_ret.
  assert (all_bytes t') as Hb by (eapply Forall_impl; [exact Ht|]; unfold is_byte, uint; simpl; lia).
  unfold sizeof_ORACLE_TIME. assert (room tail (off - 72) (length (t' ++ [0]))) as Hr by (unfold room; rewrite length_app; cbn [length]; lia).
  assert (room tail (off - 72) (length t')) as Hr1 by (unfold room in *; rewrite length_app in Hr; cbn [length] in Hr; lia).
  rewrite store_bytes_splice, map_u8_bytes, bind_ret by done.
  rewrite store_splice1 by (done || (unfold room in *; rewrite length_app in Hr; cbn [length] in Hr; rewrite length_splice by done; lia)).
  rewrite splice_app, bind_ret by done. eexists _, _, _. split; [done|]. split_and!.
  - lia.
  - lia.
  - split; [done|]. by apply load_bytes_splice.
  - by apply length_splice.
  - intros a [= <-]. rewrite length_app. cbn [length]. lia.
  - intros i n Hi. apply load_bytes_splice_out; [done|lia].
Qed.

Lemma zone_is_kept tail tail' z t off : zone_is tail z t ->
  (forall a, z = Some a -> a + Z.of_nat (length (t ++ [0])) <= off) ->
  (forall i n, i + Z.of_nat n <= off -> load_bytes tail' i n = load_bytes tail i n) -> zone_is tail' z t.
Proof.
  intros [Ht Hz] Hlow Hkeep. split; [done|]. destruct z as [a|]; [|done]. unfold text_at in *. rewrite Hkeep by (by apply Hlow). done.
Qed.

(** Sums of constants behind a position. *)
Ltac positions p := repeat match goal with
  | |- context [p + Zpos ?a + Zpos ?b] => let c := eval vm_compute in (Zpos a + Zpos b) in replace (p + Zpos a + Zpos b) with (p + c) by lia
  | H : context [p + Zpos ?a + Zpos ?b] |- _ => let c := eval vm_compute in (Zpos a + Zpos b) in replace (p + Zpos a + Zpos b) with (p + c) in H by lia
  end.

Lemma read_timestamp_reads mem to tm name abbr cap tail :
  otime_ok tm -> Forall (fun c => 0 < c < 256) name -> Forall (fun c => 0 < c < 256) abbr ->
  74 + Z.of_nat (length name) + Z.of_nat (length abbr) < cap <= 72 + Z.of_nat (length tail) ->
  text_at mem to (timestamp_body tm ++ [u8 (offset_hour tm); u8 (offset_minute tm)] ++ zone_bytes name ++ zone_bytes abbr) ->
  let length' := Z.of_nat (16 + length name + length abbr) in
  exists tail' z1 z2, read_timestamp mem to length' cap tail
      = Ret (mk_otime (century tm) (oyear tm) (omonth tm) (oday tm) (ohour tm) (ominute tm) (osecond tm) (nanos tm) 9
               (offset_hour tm) (offset_minute tm) z1 z2, tail', 74 + Z.of_nat (length name) + Z.of_nat (length abbr), to + length')
    /\ zone_is tail' z1 name /\ zone_is tail' z2 abbr /\ length tail' = length tail.
Proof.
  intros (Hc & Hy & Hmo & Hd & Hh & Hmi & Hs & Hn & Hoh & Hom) Hna Hab Hcap Hm length'.
  unfold timestamp_body in Hm. rewrite <- !app_assoc in Hm. cbn [app] in Hm.
  do 7 (apply text_at_cons in Hm; destruct Hm as [?H Hm]).
  positions to.
  pose proof (sint4_reads _ _ _ _ Hn Hm) as Hnano. apply text_at_app in Hm as [_ Hm]. rewrite length_le_bytes in Hm.
  do 3 (apply text_at_cons in Hm; destruct Hm as [?H Hm]). apply text_at_app in Hm as [Hm1 Hm2].
  change (Z.of_nat 4) with 4 in *. positions to.
  unfold read_timestamp. change sizeof_ORACLE_TIME with 72. rewrite H, H0, H1, H2, H3, H4, H5, Hnano, H6, !bind_ret.
  rewrite (proj2 (Z.gtb_lt length' 12)) by lia. positions to. rewrite H7, H8, !bind_ret.
  destruct (read_zone_reads mem (to + 14) cap tail 72 72 name) as (z1 & tail1 & off1 & -> & Ho1 & Hz1 & Hl1 & Hlow & _); [done|done|lia|lia|].
  rewrite bind_ret. cbn [length zone_bytes] in Hm2. rewrite Nat2Z.inj_succ in Hm2.
  destruct (read_zone_reads mem (to + 14 + 1 + Z.of_nat (length name)) cap tail1 off1 (72 + (Z.of_nat (length name) + 1)) abbr)
    as (z2 & tail2 & off2 & -> & Ho2 & Hz2 & Hl2 & _ & Hkeep); [|done|lia|lia|].
  { replace (to + 14 + 1 + Z.of_nat (length name)) with (to + 14 + Z.succ (Z.of_nat (length name))) by lia. done. }
  rewrite bind_ret. exists tail2, z1, z2. split.
  - rewrite !s8_u8 by done. rewrite !(wrap_small 8) by done. rewrite (wrap_small 64 (nanos tm)) by (unfold uint; lia).
    do 2 f_equal; [f_equal|]; lia.
  - split; [|split; [done|congruence]]. by apply (zone_is_kept tail1 tail2 z1 name (off1 - 72)).
Qed.

(** C32: a timestamp with a time zone that is stored as a parameter is read back by the routine that fetches it, in all
    its fields but the scale, which is always sent as 9; the names of the zone are found behind the struct as
    NUL-terminated texts (or NULL when empty), and the size reported is the size needed.  The buffer must be larger than
    that by a byte, and the names shorter than 235 characters together. *)
Theorem oracle_time_roundtrip junk mem pos tm names name abbr cap tail :
  otime_ok tm -> zone_is names (tz_name tm) name -> zone_is names (tz_abbr tm) abbr -> (length name + length abbr < 235)%nat ->
  room mem pos (17 + length name + length abbr) ->
  74 + Z.of_nat (length name) + Z.of_nat (length abbr) < cap <= 72 + Z.of_nat (length tail) ->
  let len := Z.of_nat (16 + length name + length abbr) in
  exists mem' tail' z1 z2,
    store_param_oracle_timestamp_tz_complex junk mem pos tm names = Ret (mem', pos + 1 + len)
    /\ net_field_length mem' pos = Ret (len, pos + 1)
    /\ read_timestamp mem' (pos + 1) len cap tail
       = Ret (mk_otime (century tm) (oyear tm) (omonth tm) (oday tm) (ohour tm) (ominute tm) (osecond tm) (nanos tm) 9
                (offset_hour tm) (offset_minute tm) z1 z2, tail', 74 + Z.of_nat (length name) + Z.of_nat (length abbr), pos + 1 + len)
    /\ zone_is tail' z1 name /\ zone_is tail' z2 abbr
    /\ forall i k, i + Z.of_nat k <= pos \/ pos + 1 + len <= i -> load_bytes mem' i k = load_bytes mem i k.
Proof.
  intros Hok Hn Ha Hl Hr Hcap len. pose proof Hn as [Hnt _]. pose proof Ha as [Hat _].
  rewrite (store_tz_writes junk mem pos tm names name abbr) by done. set (bs := timestamp_tz_bytes tm name abbr).
  assert (length bs = (17 + length name + length abbr)%nat) as Hbs by (unfold bs, timestamp_tz_bytes; cbn [length]; rewrite !length_app; cbn [length zone_bytes]; change (length (timestamp_body tm)) with 12%nat; lia).
  assert (text_at (splice pos bs mem) pos bs) as Hm by (apply load_bytes_splice; by rewrite Hbs).
  change (text_at (splice pos bs mem) pos (len :: timestamp_body tm ++ [u8 (offset_hour tm); u8 (offset_minute tm)]
    ++ zone_bytes name ++ zone_bytes abbr)) in Hm. apply text_at_cons in Hm as [Hm1 Hm2].
  destruct (read_timestamp_reads (splice pos bs mem) (pos + 1) tm name abbr cap tail) as (tail' & z1 & z2 & Hread & H1 & H2 & _); [done..|].
  exists (splice pos bs mem), tail', z1, z2. split_and!; try done.
  - do 2 f_equal. rewrite Hbs. unfold len. lia.
  - destruct (field_length_reads (splice pos bs mem) pos len) as [-> _]; [unfold uint; lia| |].
    + rewrite lenenc_small by lia. apply text_at_cons. done.
    + rewrite lenenc_small, wrap_small by (lia || (unfold uint; lia)). done.
  - intros i k Hi. apply load_bytes_splice_out; rewrite Hbs; [done|unfold len in Hi; lia].
Qed.

Definition example_time : ORACLE_TIME := mk_otime 20 24 2 29 23 59 58 123456789 9 (-8) (-30) (Some 0) (Some 4).

Lemma oracle_time_roundtrip_witness :
  exists mem' tail' z1 z2,
    store_param_oracle_timestamp_tz_complex 7 (repeat 9 30) 2 example_time [85; 84; 67; 0; 65; 0] = Ret (mem', 23)
    /\ net_field_length mem' 2 = Ret (20, 3)
    /\ read_timestamp mem' 3 20 79 (repeat 1 8)
       = Ret (mk_otime 20 24 2 29 23 59 58 123456789 9 (-8) (-30) z1 z2, tail', 78, 23)
    /\ zone_is tail' z1 [85; 84; 67] /\ zone_is tail' z2 [65].
Proof.
  destruct (oracle_time_roundtrip 7 (repeat 9 30) 2 example_time [85; 84; 67; 0; 65; 0] [85; 84; 67] [65] 79 (repeat 1 8))
    as (mem' & tail' & z1 & z2 & H1 & H2 & H3 & H4 & H5 & _).
  - split_and!; unfold sint, is_byte, uint; simpl; lia.
  - split; [repeat constructor; lia|reflexivity].
  - split; [repeat constructor; lia|reflexivity].
  - simpl. lia.
  - split; simpl; lia.
  - simpl. lia.
  - exists mem', tail', z1, z2. split_and!; done.
Defined.

(** With a buffer of just the size that is asked for, the second name is dropped without an error. *)
Lemma exact_buffer_loses_abbr :
  exists tail' tm, read_timestamp (timestamp_body example_time ++ [248; 226; 3; 85; 84; 67; 1; 65]) 0 20 78 (repeat 1 6)
      = Ret (tm, tail', 78, 20) /\ tz_name tm = Some 0 /\ tz_abbr tm = None.
Proof. eexists _, _. split; [vm_compute; reflexivity|done]. Qed.

(** Names of 235 characters together make the length byte a marker of the length encoding: 251, which means NULL. *)
Lemma long_zone_misread :
  exists mem', store_param_oracle_timestamp_tz_complex 7 (repeat 9 300) 0 (mk_otime 20 24 2 29 23 59 58 1 9 0 0 (Some 0) None) (repeat 65 235 ++ [0]) = Ret (mem', 252)
    /\ net_field_length mem' 0 = Ret (NULL_LENGTH, 1).
Proof. eexists. split; [vm_compute; reflexivity|reflexivity]. Qed.

(** Intervals: the type tells the member of the union, the sign is plus or minus, the numbers fit. *)
Definition interval_ok (i : ORACLE_INTERVAL) : Prop :=
  (data_symbol i = 1 \/ data_symbol i = -1)
  /\ match data_object i with
     | ym_object y m sc => mysql_type i = MYSQL_TYPE_OB_INTERVAL_YM /\ 0 <= y < 2147483648 /\ is_byte m /\ is_byte sc
     | ds_object d h m s fs dsc fsc => mysql_type i = MYSQL_TYPE_OB_INTERVAL_DS /\ 0 <= d < 2147483648 /\ is_byte h /\ is_byte m
         /\ is_byte s /\ 0 <= fs < 2147483648 /\ is_byte dsc /\ is_byte fsc
     end.

Lemma interval_symbol i : data_symbol i = 1 \/ data_symbol i = -1 ->
  (if (if data_symbol i >=? 0 then 0 else 1) >? 0 then -1 else 1) = data_symbol i.
Proof. by intros [-> | ->]. Qed.

(** An interval at a position is read back. *)
Lemma interval_reads mem p i : interval_ok i -> text_at mem (p + 1) (tail (interval_bytes i)) ->
  match data_object i with ym_object _ _ _ => read_interval_ym mem (p + 1) | _ => read_interval_ds mem (p + 1) end = Ret i.
Proof.
  intros [Hs Ho] Hm. destruct i as [t sym o]. unfold interval_bytes in Hm. cbn [data_object data_symbol mysql_type] in *.
  pose proof (interval_symbol (mk_interval t sym o) Hs) as Hsym. cbn [data_symbol] in Hsym.
  destruct o as [y m sc|d h m s fs dsc fsc]; cbn [List.tl tail] in Hm; apply text_at_cons in Hm as [Hm0 Hm].
  - destruct Ho as (-> & Hy & Hmb & Hsc). pose proof (sint4_reads _ _ _ _ Hy Hm) as Hr. apply text_at_app in Hm as [_ Hm].
    rewrite length_le_bytes in Hm. change (Z.of_nat 4) with 4 in Hm. do 2 (apply text_at_cons in Hm; destruct Hm as [?H Hm]).
    unfold read_interval_ym. positions p. rewrite Hm0, Hr, H, H0, !bind_ret, Hsym, !wrap_small by done. done.
  - destruct Ho as (-> & Hd & Hh & Hmb & Hsb & Hfs & Hdsc & Hfsc). pose proof (sint4_reads _ _ _ _ Hd Hm) as Hr. apply text_at_app in Hm as [_ Hm].
    rewrite length_le_bytes in Hm. change (Z.of_nat 4) with 4 in Hm. cbn [app] in Hm. do 3 (apply text_at_cons in Hm; destruct Hm as [?H Hm]).
    pose proof (sint4_reads _ _ _ _ Hfs Hm) as Hr2. apply text_at_app in Hm as [_ Hm]. rewrite length_le_bytes in Hm.
    change (Z.of_nat 4) with 4 in Hm. do 2 (apply text_at_cons in Hm; destruct Hm as [?H Hm]).
    unfold read_interval_ds. positions p. rewrite Hm0, Hr, H, H0, H1, Hr2, H2, H3, !bind_ret, Hsym, !wrap_small by done. done.
Qed.

(** An interval that is stored as a parameter is read back by the routine that reads it. *)
Lemma interval_roundtrip mem pos i tm : interval_ok i -> room mem pos 15 ->
  exists mem', store_param_oracle_interval_complex mem pos i = Ret (mem', pos + Z.of_nat (length (interval_bytes i)))
    /\ read_binary_interval (mysql_type i) tm mem' pos = Ret (i, pos + Z.of_nat (length (interval_bytes i))).
Proof.
  intros Hok Hr. exists (splice pos (interval_bytes i) mem). split.
  - apply store_interval_writes; [done|]. destruct Hok as [_ Ho]. destruct (data_object i); tauto.
  - assert (exists n, interval_bytes i = n :: tail (interval_bytes i) /\ n = Z.of_nat (length (tail (interval_bytes i))) /\ 0 <= n < 251)
      as (n & Hn & Hlen & Hn251) by (unfold interval_bytes; destruct (data_object i); eexists; split; [done|split; [done|lia] | done | split; [done|lia]]).
    assert (text_at (splice pos (interval_bytes i) mem) pos (interval_bytes i)) as Hm.
    { apply load_bytes_splice. unfold room in *. rewrite Hn. cbn [length]. unfold interval_bytes in *. destruct (data_object i); simpl in *; lia. }
    rewrite Hn in Hm at 2. apply text_at_cons in Hm as [Hm0 Hm]. unfold read_binary_interval.
    destruct (field_length_reads (splice pos (interval_bytes i) mem) pos n) as [-> _]; [unfold uint; lia|rewrite lenenc_small by lia; by apply text_at_cons|].
    rewrite bind_ret, lenenc_small, (wrap_small 32 n) by (lia || (unfold uint; lia)). cbn [length]. cbv zeta. rewrite (wrap_small 32 n) by (unfold uint; lia).
    pose proof (interval_reads _ pos i Hok Hm) as Hread. destruct Hok as [_ Ho]. revert Hread.
    destruct (data_object i) eqn:Hd; destruct Ho as (-> & _); intros Hread.
    + assert (n = 7) as -> by (unfold interval_bytes in Hn; rewrite Hd in Hn; by injection Hn).
      change (MYSQL_TYPE_OB_INTERVAL_YM =? MYSQL_TYPE_OB_INTERVAL_DS) with false. change (MYSQL_TYPE_OB_INTERVAL_YM =? MYSQL_TYPE_OB_INTERVAL_YM) with true.
      cbn [Z.eqb Pos.eqb]. change (Z.of_nat 1) with 1. rewrite Hread, bind_ret. unfold interval_bytes. rewrite Hd. do 2 f_equal. simpl. lia.
    + assert (n = 14) as -> by (unfold interval_bytes in Hn; rewrite Hd in Hn; by injection Hn).
      change (MYSQL_TYPE_OB_INTERVAL_DS =? MYSQL_TYPE_OB_INTERVAL_DS) with true.
      cbn [Z.eqb Pos.eqb]. change (Z.of_nat 1) with 1. rewrite Hread, bind_ret. unfold interval_bytes. rewrite Hd. do 2 f_equal. simpl. lia.
Qed.

End OracleTime.
