(* ===== verification/LobLocator.v ===== *)
(** Locators of large objects in Oracle mode: fill_ob_lob_locator and its companions and
    fetch_result_ob_lob's copy in libmariadb/ma_stmt_codec.c, and the store routines,
    get_ob_lob_locator_version and get_ob_lob_payload_data_len in libmariadb/mariadb_stmt.c.

    A locator is the memory of its struct.  The structs have no padding, their integers are
    little-endian and their bit-fields are laid out from the low bits upwards, so the 40 bytes
    of the header in memory and on the wire agree; that is what the theorems show. *)

From stdpp Require Import tactics.
From S2P Require Import Prelude IntStore NumText LenEnc StmtTime.
Import NumText LenEnc StmtTime.

Module LobLocator.

Definition MAX_OB_LOB_LOCATOR_HEADER_LENGTH : Z := 40.
Definition OBCLIENT_LOB_LOCATORV1 : Z := 1.
Definition OBCLIENT_LOB_LOCATORV2 : Z := 2.

Record ObClientMemLobCommon := mk_common {
  magic_ : Z; version_ : Z; type_ : Z; read_only_ : Z; is_inrow_ : Z; is_open_ : Z; is_simple : Z; has_extern : Z; reserved_ : Z }.

Record ObClientMemLobExternHeader := mk_extern {
  snapshot_ver_ : Z; table_id_ : Z; column_idx_ : Z; has_tx_info : Z; has_cid_hash : Z; has_view_info : Z; extern_flags_ : Z;
  rowkey_size_ : Z; payload_offset_ : Z; payload_size_ : Z }.

(** * From bytes to structs *)

Definition BIT1 : Z := 0x01.
Definition BIT4 : Z := 0x0F.
Definition BIT8 : Z := 0xFF.
Definition BIT13 : Z := 0x1FFF.
Definition BIT15 : Z := 0x7FFF.

Definition fill_ob_client_mem_lob_common (mem : bytes) (row : Z) : cres ObClientMemLobCommon :=
  magic ← uint4korr mem row;
  tmps ← uint4korr mem (row + 4);
  let version := Z.land tmps BIT8 in let tmps := Z.shiftr tmps 8 in
  let type := Z.land tmps BIT4 in let tmps := Z.shiftr tmps 4 in
  let read_only := Z.land tmps BIT1 in let tmps := Z.shiftr tmps 1 in
  let inrow := Z.land tmps BIT1 in let tmps := Z.shiftr tmps 1 in
  let open := Z.land tmps BIT1 in let tmps := Z.shiftr tmps 1 in
  let simple := Z.land tmps BIT1 in let tmps := Z.shiftr tmps 1 in
  let extern := Z.land tmps BIT1 in let tmps := Z.shiftr tmps 1 in
  Ret (mk_common magic version type read_only inrow open simple extern (Z.land tmps BIT15)).

Definition fill_ob_client_mem_lob_extern_header (mem : bytes) (row : Z) : cres ObClientMemLobExternHeader :=
  snapshot ← sint8korr mem row;
  table ← uint8korr mem (row + 8);
  column ← uint4korr mem (row + 16);
  tmps ← uint2korr mem (row + 20);
  let tx := Z.land tmps BIT1 in let tmps := Z.shiftr tmps 1 in
  let cid := Z.land tmps BIT1 in let tmps := Z.shiftr tmps 1 in
  let view := Z.land tmps BIT1 in let tmps := Z.shiftr tmps 1 in
  rowkey ← uint2korr mem (row + 22);
  offset ← uint4korr mem (row + 24);
  size ← uint4korr mem (row + 28);
  Ret (mk_extern snapshot table column tx cid view (Z.land tmps BIT13) rowkey offset size).

(** The members of a struct at [p]: the same bytes, read as the machine lays them out. *)
Definition common_at (mem : bytes) (p : Z) : cres ObClientMemLobCommon := fill_ob_client_mem_lob_common mem p.
Definition extern_at (mem : bytes) (p : Z) : cres ObClientMemLobExternHeader := fill_ob_client_mem_lob_extern_header mem p.

(** The words of the bit-fields. *)
Definition common_word (c : ObClientMemLobCommon) : Z :=
  let tmps := 0 in
  let tmps := Z.lor (u32 (Z.shiftl tmps 15)) (reserved_ c) in
  let tmps := Z.lor (u32 (Z.shiftl tmps 1)) (has_extern c) in
  let tmps := Z.lor (u32 (Z.shiftl tmps 1)) (is_simple c) in
  let tmps := Z.lor (u32 (Z.shiftl tmps 1)) (is_open_ c) in
  let tmps := Z.lor (u32 (Z.shiftl tmps 1)) (is_inrow_ c) in
  let tmps := Z.lor (u32 (Z.shiftl tmps 1)) (read_only_ c) in
  let tmps := Z.lor (u32 (Z.shiftl tmps 4)) (type_ c) in
  Z.lor (u32 (Z.shiftl tmps 8)) (version_ c).

Definition extern_word (h : ObClientMemLobExternHeader) : Z :=
  let tmps := 0 in
  let tmps := Z.lor (u16 (Z.shiftl tmps 13)) (extern_flags_ h) in
  let tmps := Z.lor (u16 (Z.shiftl tmps 1)) (has_view_info h) in
  let tmps := Z.lor (u16 (Z.shiftl tmps 1)) (has_cid_hash h) in
  Z.lor (u16 (Z.shiftl tmps 1)) (has_tx_info h).

(** * From structs to bytes *)

Definition ob_client_mem_lob_common_to_buff (mem : bytes) (pos : Z) (c : ObClientMemLobCommon) : cres (bytes * Z) :=
  mem ← int4store mem pos (magic_ c);
  mem ← int4store mem (pos + 4) (common_word c);
  Ret (mem, pos + 4 + 4).

Definition ob_client_mem_lob_extern_header_to_buff (mem : bytes) (pos : Z) (h : ObClientMemLobExternHeader) : cres (bytes * Z) :=
  mem ← int8store mem pos (snapshot_ver_ h);
  mem ← int8store mem (pos + 8) (table_id_ h);
  mem ← int4store mem (pos + 16) (column_idx_ h);
  mem ← int2store mem (pos + 20) (extern_word h);
  mem ← int2store mem (pos + 22) (rowkey_size_ h);
  mem ← int4store mem (pos + 24) (payload_offset_ h);
  mem ← int4store mem (pos + 28) (payload_size_ h);
  Ret (mem, pos + 32).

(** A locator in the memory [lob], stored at [pos] of [mem]. *)
Definition store_ob_lob_locator_v2 (lob mem : bytes) (pos : Z) : cres (bytes * Z) :=
  common ← common_at lob 0;
  '(mem, pos) ← ob_client_mem_lob_common_to_buff mem pos common;
  if nonzero (has_extern common) then
    header ← extern_at lob 8;
    ob_client_mem_lob_extern_header_to_buff mem pos header
  else Ret (mem, pos).

Definition store_ob_lob_locator_v1 (lob mem : bytes) (pos : Z) : cres (bytes * Z) :=
  magic_code ← uint4korr lob 0; mem ← int4store mem pos magic_code;
  version ← uint4korr lob 4; mem ← int4store mem (pos + 4) version;
  snapshot_version ← sint8korr lob 8; mem ← int8store mem (pos + 8) snapshot_version;
  table_id ← uint8korr lob 16; mem ← int8store mem (pos + 16) table_id;
  column_id ← uint4korr lob 24; mem ← int4store mem (pos + 24) column_id;
  mode ← uint2korr lob 28; mem ← int2store mem (pos + 28) mode;
  option ← uint2korr lob 30; mem ← int2store mem (pos + 30) option;
  payload_offset ← uint4korr lob 32; mem ← int4store mem (pos + 32) payload_offset;
  payload_size ← uint4korr lob 36; mem ← int4store mem (pos + 36) payload_size;
  Ret (mem, pos + 40).

Definition get_ob_lob_locator_version (lob : bytes) : cres Z := common ← common_at lob 0; Ret (version_ common).

(** The sum of offset and size of the payload, as the 32-bit members are added. *)
Definition payload_length (lob : bytes) (version : Z) : cres Z :=
  if version =? OBCLIENT_LOB_LOCATORV1 then
    offset ← uint4korr lob 32; size ← uint4korr lob 36; Ret (u32 (size + offset))
  else
    header ← extern_at lob 8; Ret (u32 (payload_size_ header + payload_offset_ header)).

Definition store_param_ob_lob_complex (lob mem : bytes) (pos : Z) : cres (bytes * Z) :=
  version ← get_ob_lob_locator_version lob;
  if (version =? OBCLIENT_LOB_LOCATORV1) || (version =? OBCLIENT_LOB_LOCATORV2) then
    offset_size ← payload_length lob version;
    whole ← (if version =? OBCLIENT_LOB_LOCATORV1 then
               offset ← uint4korr lob 32; size ← uint4korr lob 36; Ret (u32 (u32 (MAX_OB_LOB_LOCATOR_HEADER_LENGTH + size) + offset))
             else header ← extern_at lob 8;
               Ret (u32 (u32 (MAX_OB_LOB_LOCATOR_HEADER_LENGTH + payload_size_ header) + payload_offset_ header)));
    '(mem, pos) ← mysql_net_store_length mem pos whole;
    '(mem, pos) ← (if version =? OBCLIENT_LOB_LOCATORV1 then store_ob_lob_locator_v1 lob mem pos
                   else store_ob_lob_locator_v2 lob mem pos);
    data ← load_bytes lob MAX_OB_LOB_LOCATOR_HEADER_LENGTH (Z.to_nat offset_size);
    mem ← store_bytes mem pos data;
    Ret (mem, pos + offset_size)
  else Ret (mem, pos).

(** The size that the request reserves. *)
Definition calculate_param_ob_lob_len (lob : bytes) : cres Z :=
  version ← get_ob_lob_locator_version lob;
  if version =? OBCLIENT_LOB_LOCATORV1 then
    offset ← uint4korr lob 32; size ← uint4korr lob 36;
    let len := u32 (u32 (MAX_OB_LOB_LOCATOR_HEADER_LENGTH + offset) + size) in
    Ret (u64 (len + mysql_store_length_size len))
  else if version =? OBCLIENT_LOB_LOCATORV2 then
    header ← extern_at lob 8;
    let len := u32 (u32 (MAX_OB_LOB_LOCATOR_HEADER_LENGTH + payload_offset_ header) + payload_size_ header) in
    Ret (u64 (len + mysql_store_length_size len))
  else Ret 0.

(** * Fetching *)

Definition fill_ob_lob_locator (lob mem : bytes) (row : Z) : cres bytes :=
  magic_code ← uint4korr mem row; lob ← int4store lob 0 magic_code;
  version ← uint4korr mem (row + 4); lob ← int4store lob 4 version;
  snapshot_version ← sint8korr mem (row + 8); lob ← int8store lob 8 snapshot_version;
  table_id ← uint8korr mem (row + 16); lob ← int8store lob 16 table_id;
  column_id ← uint4korr mem (row + 24); lob ← int4store lob 24 column_id;
  mode ← uint2korr mem (row + 28); lob ← int2store lob 28 mode;
  option ← uint2korr mem (row + 30); lob ← int2store lob 30 option;
  payload_offset ← uint4korr mem (row + 32); lob ← int4store lob 32 payload_offset;
  payload_size ← uint4korr mem (row + 36); int4store lob 36 payload_size.

(** Assigning the members of the structs in memory. *)
Definition put_common (lob : bytes) (c : ObClientMemLobCommon) : cres bytes :=
  '(lob, _) ← ob_client_mem_lob_common_to_buff lob 0 c; Ret lob.

Definition put_extern (lob : bytes) (h : ObClientMemLobExternHeader) : cres bytes :=
  '(lob, _) ← ob_client_mem_lob_extern_header_to_buff lob 8 h; Ret lob.

Definition fill_ob_lob_locator_v2 (lob mem : bytes) (row : Z) : cres bytes :=
  common ← fill_ob_client_mem_lob_common mem row;
  lob ← put_common lob common;
  if nonzero (has_extern common) then
    header ← fill_ob_client_mem_lob_extern_header mem (row + 8);
    put_extern lob header
  else Ret lob.

(** What fetch_result_ob_lob makes of a column of [length] bytes at [row] and a buffer of [buffer_length] bytes: the
    buffer and the error flag ([error] before). *)
Definition fetch_lob (lob : bytes) (buffer_length error : Z) (mem : bytes) (row length : Z) : cres (bytes * Z) :=
  if (buffer_length <=? 0) || (buffer_length <? MAX_OB_LOB_LOCATOR_HEADER_LENGTH) || (length <? MAX_OB_LOB_LOCATOR_HEADER_LENGTH)
  then Ret (lob, 1)
  else
    common ← fill_ob_client_mem_lob_common mem row;
    if (version_ common =? OBCLIENT_LOB_LOCATORV1) || (version_ common =? OBCLIENT_LOB_LOCATORV2) then
      lob ← (if version_ common =? OBCLIENT_LOB_LOCATORV1 then fill_ob_lob_locator lob mem row
             else fill_ob_lob_locator_v2 lob mem row);
      let copy_length := Z.min (buffer_length - MAX_OB_LOB_LOCATOR_HEADER_LENGTH) (length - MAX_OB_LOB_LOCATOR_HEADER_LENGTH) in
      data ← load_bytes mem (row + MAX_OB_LOB_LOCATOR_HEADER_LENGTH) (Z.to_nat copy_length);
      lob ← store_bytes lob MAX_OB_LOB_LOCATOR_HEADER_LENGTH data;
      Ret (lob, if copy_length + MAX_OB_LOB_LOCATOR_HEADER_LENGTH <? length then 1 else 0)
    else Ret (lob, error).

(** The length of the data of a large object, -1 when it is not known. *)
Definition get_ob_lob_payload_data_len (lob : option bytes) : cres Z :=
  match lob with
  | None => Ret (-1)
  | Some lob =>
    common ← common_at lob 0;
    if version_ common =? OBCLIENT_LOB_LOCATORV1 then uint4korr lob 36
    else if version_ common =? OBCLIENT_LOB_LOCATORV2 then
      header ← extern_at lob 8;
      if nonzero (is_inrow_ common) then Ret (payload_size_ header)
      else
        let tmp_len := s32 (payload_offset_ header + payload_size_ header) in
        ex_size ← uint2korr lob MAX_OB_LOB_LOCATOR_HEADER_LENGTH;
        let offset := 2 + ex_size + rowkey_size_ header + 4 + 24 in
        if tmp_len >? offset then
          len ← uint8korr lob (MAX_OB_LOB_LOCATOR_HEADER_LENGTH + offset - 8); Ret (s64 len)
        else Ret (-1)
    else Ret (-1)
  end.

(** * Words of bit-fields *)

(** A word is put together again from its low part and the rest. *)
Lemma push_bits w k t : 0 <= k -> uint w t -> Z.lor (wrap w (Z.shiftl (Z.shiftr t k) k)) (Z.land t (Z.ones k)) = t.
Proof.
  intros Hk Ht. unfold uint in Ht. assert (0 < 2 ^ k) by (apply Z.pow_pos_nonneg; lia).
  pose proof (Z.div_mod t (2 ^ k) ltac:(lia)) as Hd. pose proof (Z.mod_pos_bound t (2 ^ k) ltac:(lia)) as Hm.
  assert (0 <= t / 2 ^ k) by (apply Z.div_pos; lia).
  rewrite Z.land_ones, Z.shiftr_div_pow2 by lia. rewrite (wrap_small w) by (unfold uint; rewrite Z.shiftl_mul_pow2 by lia; nia).
  rewrite lor_shiftl_add by lia. lia.
Qed.

Lemma shiftr_uint w t k : 0 <= k -> uint w t -> uint w (Z.shiftr t k).
Proof.
  intros Hk Ht. unfold uint in *. rewrite Z.shiftr_div_pow2 by lia. assert (0 < 2 ^ k) by (apply Z.pow_pos_nonneg; lia).
  split; [apply Z.div_pos; lia|]. apply Z.div_lt_upper_bound; nia.
Qed.

(** The members of a word of 32 bits, and of 16 bits. *)
Definition common_of (magic w : Z) : ObClientMemLobCommon :=
  let t1 := Z.shiftr w 8 in let t2 := Z.shiftr t1 4 in let t3 := Z.shiftr t2 1 in let t4 := Z.shiftr t3 1 in
  let t5 := Z.shiftr t4 1 in let t6 := Z.shiftr t5 1 in let t7 := Z.shiftr t6 1 in
  mk_common magic (Z.land w BIT8) (Z.land t1 BIT4) (Z.land t2 BIT1) (Z.land t3 BIT1) (Z.land t4 BIT1) (Z.land t5 BIT1)
    (Z.land t6 BIT1) (Z.land t7 BIT15).

Lemma common_word_of magic w : uint 32 w -> common_word (common_of magic w) = w.
Proof.
  intros Hw. unfold common_word, common_of. cbn [reserved_ has_extern is_simple is_open_ is_inrow_ read_only_ type_ version_].
  set (t1 := Z.shiftr w 8). set (t2 := Z.shiftr t1 4). set (t3 := Z.shiftr t2 1). set (t4 := Z.shiftr t3 1).
  set (t5 := Z.shiftr t4 1). set (t6 := Z.shiftr t5 1). set (t7 := Z.shiftr t6 1).
  assert (Z.lor (u32 (Z.shiftl 0 15)) (Z.land t7 BIT15) = t7) as ->.
  { change BIT15 with (Z.ones 15). change (u32 (Z.shiftl 0 15)) with 0. rewrite Z.lor_0_l, Z.land_ones by lia.
    apply Z.mod_small. unfold t7, t6, t5, t4, t3, t2, t1. rewrite !Z.shiftr_shiftr, Z.shiftr_div_pow2 by lia. unfold uint in Hw.
    split; [apply Z.div_pos; lia|]. apply Z.div_lt_upper_bound; lia. }
  assert (uint 32 t1) by (apply shiftr_uint; [lia|done]). assert (uint 32 t2) by (apply shiftr_uint; [lia|done]).
  assert (uint 32 t3) by (apply shiftr_uint; [lia|done]). assert (uint 32 t4) by (apply shiftr_uint; [lia|done]).
  assert (uint 32 t5) by (apply shiftr_uint; [lia|done]). assert (uint 32 t6) by (apply shiftr_uint; [lia|done]).
  change BIT1 with (Z.ones 1). change BIT4 with (Z.ones 4). change BIT8 with (Z.ones 8).
  unfold t7. rewrite (push_bits 32 1 t6) by (lia || done). unfold t6 at 1. rewrite (push_bits 32 1 t5) by (lia || done).
  unfold t5 at 1. rewrite (push_bits 32 1 t4) by (lia || done). unfold t4 at 1. rewrite (push_bits 32 1 t3) by (lia || done).
  unfold t3 at 1. rewrite (push_bits 32 1 t2) by (lia || done). unfold t2 at 1. rewrite (push_bits 32 4 t1) by (lia || done).
  unfold t1. apply push_bits; [lia|done].
Qed.

Definition extern_of (snapshot table column w rowkey offset size : Z) : ObClientMemLobExternHeader :=
  let t1 := Z.shiftr w 1 in let t2 := Z.shiftr t1 1 in let t3 := Z.shiftr t2 1 in
  mk_extern snapshot table column (Z.land w BIT1) (Z.land t1 BIT1) (Z.land t2 BIT1) (Z.land t3 BIT13) rowkey offset size.

Lemma extern_word_of a b c w d e f : uint 16 w -> extern_word (extern_of a b c w d e f) = w.
Proof.
  intros Hw. unfold extern_word, extern_of. cbn [extern_flags_ has_view_info has_cid_hash has_tx_info].
  set (t1 := Z.shiftr w 1). set (t2 := Z.shiftr t1 1). set (t3 := Z.shiftr t2 1).
  assert (Z.lor (u16 (Z.shiftl 0 13)) (Z.land t3 BIT13) = t3) as ->.
  { change BIT13 with (Z.ones 13). change (u16 (Z.shiftl 0 13)) with 0. rewrite Z.lor_0_l, Z.land_ones by lia.
    apply Z.mod_small. unfold t3, t2, t1. rewrite !Z.shiftr_shiftr, Z.shiftr_div_pow2 by lia. unfold uint in Hw.
    split; [apply Z.div_pos; lia|]. apply Z.div_lt_upper_bound; lia. }
  assert (uint 16 t1) by (apply shiftr_uint; [lia|done]). assert (uint 16 t2) by (apply shiftr_uint; [lia|done]).
  change BIT1 with (Z.ones 1). unfold t3. rewrite (push_bits 16 1 t2) by (lia || done). unfold t2 at 1.
  rewrite (push_bits 16 1 t1) by (lia || done). unfold t1. apply push_bits; [lia|done].
Qed.

(** * Fields as slices of the locator *)

Definition slice (k n : nat) (bs : bytes) : bytes := take n (drop k bs).

Lemma slice_bytes k n bs : all_bytes bs -> all_bytes (slice k n bs).
Proof. intros H. apply Forall_take, Forall_drop, H. Qed.

Lemma length_slice k n bs : (k + n <= length bs)%nat -> length (slice k n bs) = n.
Proof. intros H. unfold slice. rewrite length_take, length_drop. lia. Qed.

Lemma text_slice mem row bs k n : text_at mem row bs -> (k + n <= length bs)%nat -> (0 < n)%nat ->
  load_bytes mem (row + Z.of_nat k) n = Ret (slice k n bs).
Proof.
  intros Hm Hl Hn. rewrite <- (take_drop k bs) in Hm. apply text_at_app in Hm as [_ Hm].
  rewrite length_take, Nat.min_l in Hm by lia. rewrite <- (take_drop n (drop k bs)) in Hm. apply text_at_app in Hm as [Hm _].
  unfold text_at in Hm. rewrite length_take, length_drop, Nat.min_l in Hm by lia. exact Hm.
Qed.

Lemma slice_app a b bs k : slice k a bs ++ slice (k + a) b bs = slice k (a + b) bs.
Proof. unfold slice. rewrite <- drop_drop. apply take_take_drop. Qed.

Lemma le_val_slice_uint k n bs : all_bytes bs -> (k + n <= length bs)%nat -> uint (8 * Z.of_nat n) (le_val (slice k n bs)).
Proof. intros Hb Hl. pose proof (le_val_bound _ (slice_bytes k n bs Hb)) as H. by rewrite length_slice in H. Qed.

Lemma le_bytes_slice k n bs : all_bytes bs -> (k + n <= length bs)%nat -> le_bytes n (le_val (slice k n bs)) = slice k n bs.
Proof.
  intros Hb Hl. apply le_val_inj; [apply le_bytes_bytes|by apply slice_bytes|by rewrite length_le_bytes, length_slice|].
  rewrite le_val_le_bytes. apply wrap_small. by apply le_val_slice_uint.
Qed.

(** Writing the next slice behind those that are written. *)
Lemma splice_slice p k n bs mem : (k + n <= length bs)%nat -> room mem p (k + n) ->
  splice (p + Z.of_nat k) (slice k n bs) (splice p (slice 0 k bs) mem) = splice p (slice 0 (k + n) bs) mem.
Proof.
  intros Hl Hr. rewrite <- (slice_app k n bs 0). simpl Nat.add.
  rewrite <- splice_app by (rewrite length_app, !length_slice by lia; done). by rewrite length_slice by lia.
Qed.

Lemma splice_start p bs mem : splice p (slice 0 0 bs) mem = mem.
Proof. apply splice_nil. Qed.

Lemma slice_all bs : slice 0 (length bs) bs = bs.
Proof. unfold slice. rewrite drop_0. by apply take_ge. Qed.

Section fields.
Context (bs : bytes) (Hb : all_bytes bs) (H40 : (40 <= length bs)%nat).

Lemma get2 mem row q k : text_at mem row bs -> q = row + Z.of_nat k -> (k + 2 <= 40)%nat -> uint2korr mem q = Ret (le_val (slice k 2 bs)).
Proof. intros Hm -> Hk. apply uint2korr_load; [by apply slice_bytes|]. apply text_slice; done || lia. Qed.

Lemma get4 mem row q k : text_at mem row bs -> q = row + Z.of_nat k -> (k + 4 <= 40)%nat -> uint4korr mem q = Ret (le_val (slice k 4 bs)).
Proof. intros Hm -> Hk. apply uint4korr_load; [by apply slice_bytes|]. apply text_slice; done || lia. Qed.

Lemma get8 mem row q k : text_at mem row bs -> q = row + Z.of_nat k -> (k + 8 <= 40)%nat ->
  uint8korr mem q = Ret (le_val (slice k 8 bs)) /\ sint8korr mem q = Ret (s64 (le_val (slice k 8 bs))).
Proof.
  intros Hm -> Hk. split; [apply uint8korr_load|apply sint8korr_load]; try (by apply slice_bytes); apply text_slice; done || lia.
Qed.

Lemma put2 mem p q k v : q = p + Z.of_nat k -> (k + 2 <= 40)%nat -> room mem p 40 -> le_bytes 2 v = slice k 2 bs ->
  int2store (splice p (slice 0 k bs) mem) q v = Ret (splice p (slice 0 (k + 2) bs) mem).
Proof.
  intros -> Hk Hr Hv. rewrite int2store_splice, Hv; [f_equal; apply splice_slice; [lia|unfold room in *; lia]|].
  unfold room in *. rewrite length_splice by (rewrite length_slice by lia; unfold room; lia). lia.
Qed.

Lemma put4 mem p q k v : q = p + Z.of_nat k -> (k + 4 <= 40)%nat -> room mem p 40 -> le_bytes 4 v = slice k 4 bs ->
  int4store (splice p (slice 0 k bs) mem) q v = Ret (splice p (slice 0 (k + 4) bs) mem).
Proof.
  intros -> Hk Hr Hv. rewrite int4store_splice, Hv; [f_equal; apply splice_slice; [lia|unfold room in *; lia]|].
  unfold room in *. rewrite length_splice by (rewrite length_slice by lia; unfold room; lia). lia.
Qed.

Lemma put8 mem p q k v : q = p + Z.of_nat k -> (k + 8 <= 40)%nat -> room mem p 40 -> le_bytes 8 v = slice k 8 bs ->
  int8store (splice p (slice 0 k bs) mem) q v = Ret (splice p (slice 0 (k + 8) bs) mem).
Proof.
  intros -> Hk Hr Hv. rewrite int8store_splice, Hv; [f_equal; apply splice_slice; [lia|unfold room in *; lia]|].
  unfold room in *. rewrite length_splice by (rewrite length_slice by lia; unfold room; lia). lia.
Qed.

Lemma slice_value k n : (k + n <= 40)%nat -> le_bytes n (le_val (slice k n bs)) = slice k n bs.
Proof. intros. apply le_bytes_slice; [done|lia]. Qed.

Lemma slice_svalue k : (k + 8 <= 40)%nat -> le_bytes 8 (s64 (le_val (slice k 8 bs))) = slice k 8 bs.
Proof.
  intros Hk. rewrite <- (le_bytes_wrap 8 64) by lia. rewrite wrap_swrap, le_bytes_wrap by lia. apply slice_value. lia.
Qed.

Ltac side := first [done | lia | apply slice_value; lia | apply slice_svalue; lia].

(** One field: read at offset [k] of the locator, written behind the fields before it. *)
Lemma copy2 {A} mem row q p q' k dst (K : bytes -> cres A) :
  text_at mem row bs -> q = row + Z.of_nat k -> q' = p + Z.of_nat k -> (k + 2 <= 40)%nat -> room dst p 40 ->
  (v ← uint2korr mem q; d ← int2store (splice p (slice 0 k bs) dst) q' v; K d) = K (splice p (slice 0 (k + 2) bs) dst).
Proof. intros Hm -> -> Hk Hr. rewrite (get2 mem row _ k), bind_ret, put2, bind_ret by side. done. Qed.

Lemma copy4 {A} mem row q p q' k dst (K : bytes -> cres A) :
  text_at mem row bs -> q = row + Z.of_nat k -> q' = p + Z.of_nat k -> (k + 4 <= 40)%nat -> room dst p 40 ->
  (v ← uint4korr mem q; d ← int4store (splice p (slice 0 k bs) dst) q' v; K d) = K (splice p (slice 0 (k + 4) bs) dst).
Proof. intros Hm -> -> Hk Hr. rewrite (get4 mem row _ k), bind_ret, put4, bind_ret by side. done. Qed.

Lemma copy8 {A} mem row q p q' k dst (K : bytes -> cres A) :
  text_at mem row bs -> q = row + Z.of_nat k -> q' = p + Z.of_nat k -> (k + 8 <= 40)%nat -> room dst p 40 ->
  (v ← uint8korr mem q; d ← int8store (splice p (slice 0 k bs) dst) q' v; K d) = K (splice p (slice 0 (k + 8) bs) dst)
  /\ (v ← sint8korr mem q; d ← int8store (splice p (slice 0 k bs) dst) q' v; K d) = K (splice p (slice 0 (k + 8) bs) dst).
Proof.
  intros Hm -> -> Hk Hr. destruct (get8 mem row _ k Hm eq_refl Hk) as [-> ->].
  rewrite !bind_ret, !put8, !bind_ret by side. done.
Qed.

Ltac copy_header row := etransitivity; [apply (copy4 _ row _ _ _ 0); side|]; etransitivity; [apply (copy4 _ row _ _ _ 4); side|];
  etransitivity; [apply (copy8 _ row _ _ _ 8); side|]; etransitivity; [apply (copy8 _ row _ _ _ 16); side|];
  etransitivity; [apply (copy4 _ row _ _ _ 24); side|]; etransitivity; [apply (copy2 _ row _ _ _ 28); side|];
  etransitivity; [apply (copy2 _ row _ _ _ 30); side|]; etransitivity; [apply (copy4 _ row _ _ _ 32); side|].

Lemma store_v1_copies lob mem pos : text_at lob 0 bs -> room mem pos 40 ->
  store_ob_lob_locator_v1 lob mem pos = Ret (splice pos (slice 0 40 bs) mem, pos + 40).
Proof.
  intros Hm Hr. transitivity (store_ob_lob_locator_v1 lob (splice pos (slice 0 0 bs) mem) pos); [by rewrite splice_start|]. unfold store_ob_lob_locator_v1.
  copy_header 0. etransitivity; [apply (copy4 _ 0 _ _ _ 36); side|]. done.
Qed.

Lemma fill_v1_copies lob mem row : text_at mem row bs -> room lob 0 40 ->
  fill_ob_lob_locator lob mem row = Ret (splice 0 (slice 0 40 bs) lob).
Proof.
  intros Hm Hr. transitivity (fill_ob_lob_locator (splice 0 (slice 0 0 bs) lob) mem row); [by rewrite splice_start|]. unfold fill_ob_lob_locator.
  copy_header row. rewrite (get4 mem row _ 36), bind_ret, put4 by side. done.
Qed.

Definition header_common : ObClientMemLobCommon := common_of (le_val (slice 0 4 bs)) (le_val (slice 4 4 bs)).
Definition header_extern : ObClientMemLobExternHeader :=
  extern_of (s64 (le_val (slice 8 8 bs))) (le_val (slice 16 8 bs)) (le_val (slice 24 4 bs)) (le_val (slice 28 2 bs))
    (le_val (slice 30 2 bs)) (le_val (slice 32 4 bs)) (le_val (slice 36 4 bs)).

Lemma common_reads mem row : text_at mem row bs -> fill_ob_client_mem_lob_common mem row = Ret header_common.
Proof.
  intros Hm. unfold fill_ob_client_mem_lob_common. rewrite (get4 _ row row 0) by (done || lia). rewrite bind_ret, (get4 _ row (row + 4) 4) by (done || lia). done.
Qed.

Lemma extern_reads mem row q : text_at mem row bs -> q = row + 8 -> fill_ob_client_mem_lob_extern_header mem q = Ret header_extern.
Proof.
  intros Hm ->. unfold fill_ob_client_mem_lob_extern_header.
  destruct (get8 mem row (row + 8) 8) as [_ ->]; [done|done|lia|]. destruct (get8 mem row (row + 8 + 8) 16) as [-> _]; [done|lia|lia|].
  rewrite !bind_ret, (get4 _ row (row + 8 + 16) 24), bind_ret, (get2 _ row (row + 8 + 20) 28), bind_ret by (done || lia).
  rewrite (get2 _ row (row + 8 + 22) 30), bind_ret, (get4 _ row (row + 8 + 24) 32), bind_ret, (get4 _ row (row + 8 + 28) 36) by (done || lia). done.
Qed.

Lemma common_writes mem pos : room mem pos 40 -> ob_client_mem_lob_common_to_buff mem pos header_common = Ret (splice pos (slice 0 8 bs) mem, pos + 8).
Proof.
  intros Hr. transitivity (ob_client_mem_lob_common_to_buff (splice pos (slice 0 0 bs) mem) pos header_common); [by rewrite splice_start|]. unfold ob_client_mem_lob_common_to_buff.
  assert (common_word header_common = le_val (slice 4 4 bs)) as -> by (apply common_word_of, (le_val_slice_uint 4 4 bs Hb); lia).
  change (magic_ header_common) with (le_val (slice 0 4 bs)).
  rewrite (put4 _ _ _ 0), bind_ret by side.
  rewrite (put4 _ _ _ 4), bind_ret by side. do 2 f_equal. lia.
Qed.

Lemma extern_writes mem pos q : room mem pos 40 -> q = pos + 8 ->
  ob_client_mem_lob_extern_header_to_buff (splice pos (slice 0 8 bs) mem) q header_extern = Ret (splice pos (slice 0 40 bs) mem, pos + 40).
Proof.
  intros Hr ->. unfold ob_client_mem_lob_extern_header_to_buff.
  assert (extern_word header_extern = le_val (slice 28 2 bs)) as -> by (apply extern_word_of, (le_val_slice_uint 28 2 bs Hb); lia).
  unfold header_extern, extern_of. cbn [snapshot_ver_ table_id_ column_idx_ rowkey_size_ payload_offset_ payload_size_].
  rewrite (put8 _ pos _ 8), bind_ret by side.
  rewrite (put8 _ pos _ 16), bind_ret by side.
  rewrite (put4 _ pos _ 24), bind_ret by side.
  rewrite (put2 _ pos _ 28), bind_ret by side.
  rewrite (put2 _ pos _ 30), bind_ret by side.
  rewrite (put4 _ pos _ 32), bind_ret by side.
  rewrite (put4 _ pos _ 36), bind_ret by side. do 2 f_equal. lia.
Qed.

Lemma store_v2_copies lob mem pos : text_at lob 0 bs -> room mem pos 40 -> nonzero (has_extern header_common) = true ->
  store_ob_lob_locator_v2 lob mem pos = Ret (splice pos (slice 0 40 bs) mem, pos + 40).
Proof.
  intros Hm Hr He. unfold store_ob_lob_locator_v2, common_at, extern_at. rewrite (common_reads _ _ Hm), bind_ret, common_writes, bind_ret, He by done.
  rewrite (extern_reads _ 0), bind_ret by done. by apply extern_writes.
Qed.

Lemma fill_v2_copies lob mem row : text_at mem row bs -> room lob 0 40 -> nonzero (has_extern header_common) = true ->
  fill_ob_lob_locator_v2 lob mem row = Ret (splice 0 (slice 0 40 bs) lob).
Proof.
  intros Hm Hr He. unfold fill_ob_lob_locator_v2, put_common, put_extern.
  rewrite (common_reads _ _ Hm), bind_ret, common_writes, !bind_ret, He by done.
  rewrite (extern_reads _ row), bind_ret by done. by rewrite (extern_writes lob 0 8).
Qed.

End fields.

(** * A locator is kept byte by byte *)

(** The bytes of a locator of either version whose header tells its length. *)
Definition known_version (bs : bytes) : Prop :=
  version_ (header_common bs) = OBCLIENT_LOB_LOCATORV1
  \/ version_ (header_common bs) = OBCLIENT_LOB_LOCATORV2 /\ nonzero (has_extern (header_common bs)) = true.

Definition locator (bs : bytes) : Prop :=
  all_bytes bs /\ (40 <= length bs)%nat /\ Z.of_nat (length bs) < 2 ^ 32 /\ known_version bs
  /\ 40 + le_val (slice 32 4 bs) + le_val (slice 36 4 bs) = Z.of_nat (length bs).

Lemma fetch_lob_copies bs lob buffer_length error mem row :
  all_bytes bs -> (40 <= length bs)%nat -> known_version bs -> text_at mem row bs ->
  40 <= buffer_length <= Z.of_nat (length lob) ->
  fetch_lob lob buffer_length error mem row (Z.of_nat (length bs))
  = Ret (splice 0 (take (Z.to_nat buffer_length) bs) lob, if buffer_length <? Z.of_nat (length bs) then 1 else 0).
Proof.
  intros Hb H40 Hv Hm Hl. unfold fetch_lob, MAX_OB_LOB_LOCATOR_HEADER_LENGTH.
  destruct (Z.leb_spec buffer_length 0), (Z.ltb_spec buffer_length 40), (Z.ltb_spec (Z.of_nat (length bs)) 40); try lia. cbn [orb].
  rewrite (common_reads bs Hb H40 mem row Hm), bind_ret.
  assert ((version_ (header_common bs) =? OBCLIENT_LOB_LOCATORV1) || (version_ (header_common bs) =? OBCLIENT_LOB_LOCATORV2) = true) as ->
    by (destruct Hv as [-> |[-> _]]; done).
  assert ((if version_ (header_common bs) =? OBCLIENT_LOB_LOCATORV1 then fill_ob_lob_locator lob mem row else fill_ob_lob_locator_v2 lob mem row)
    = Ret (splice 0 (slice 0 40 bs) lob)) as ->.
  { assert (room lob 0 40) by (unfold room; lia).
    destruct Hv as [-> |[-> He]]; [by apply fill_v1_copies|]. by apply fill_v2_copies. }
  rewrite bind_ret. cbv zeta. set (c := Z.min (buffer_length - 40) (Z.of_nat (length bs) - 40)).
  assert (load_bytes mem (row + 40) (Z.to_nat c) = Ret (slice 40 (Z.to_nat c) bs)) as ->.
  { destruct (decide (Z.to_nat c = 0%nat)) as [E|E]; [by rewrite E|]. apply (text_slice mem row bs 40); [done|lia|lia]. }
  assert (length (slice 40 (Z.to_nat c) bs) = Z.to_nat c) as Hlen by (apply length_slice; lia).
  assert (length (splice 0 (slice 0 40 bs) lob) = length lob) as Hls by (apply length_splice; rewrite length_slice by lia; unfold room; lia).
  rewrite bind_ret, store_bytes_splice, map_u8_bytes, bind_ret by (by apply slice_bytes || (unfold room; rewrite Hlen, Hls; lia)).
  assert (splice 40 (slice 40 (Z.to_nat c) bs) (splice 0 (slice 0 40 bs) lob) = splice 0 (take (Z.to_nat buffer_length) bs) lob) as ->.
  { etransitivity; [apply (splice_slice 0 40 (Z.to_nat c) bs lob); [lia|unfold room; lia]|]. f_equal. unfold slice. rewrite drop_0.
    destruct (decide (Z.to_nat buffer_length <= length bs)%nat); [f_equal; lia|]. rewrite !take_ge by lia. done. }
  do 2 f_equal. destruct (Z.ltb_spec (c + 40) (Z.of_nat (length bs))), (Z.ltb_spec buffer_length (Z.of_nat (length bs))); done || lia.
Qed.

Section sending.
Context (bs lob : bytes) (Hloc : locator bs) (Hm : text_at lob 0 bs).

Lemma version_is : get_ob_lob_locator_version lob = Ret (version_ (header_common bs)).
Proof. destruct Hloc as (Hb & H40 & _). unfold get_ob_lob_locator_version, common_at. by rewrite (common_reads bs) by done. Qed.

Lemma extern_is : extern_at lob 8 = Ret (header_extern bs).
Proof. destruct Hloc as (Hb & H40 & _). unfold extern_at. by apply (extern_reads bs Hb H40 lob 0). Qed.

Lemma offset_size_is : uint4korr lob 32 = Ret (le_val (slice 32 4 bs)) /\ uint4korr lob 36 = Ret (le_val (slice 36 4 bs)).
Proof. destruct Hloc as (Hb & H40 & _). split; [apply (get4 bs Hb H40 lob 0 32 32)|apply (get4 bs Hb H40 lob 0 36 36)]; done || lia. Qed.

Lemma field_bounds : 0 <= le_val (slice 32 4 bs) /\ 0 <= le_val (slice 36 4 bs).
Proof.
  destruct Hloc as (Hb & H40 & _). split; [apply (le_val_slice_uint 32 4 bs Hb)|apply (le_val_slice_uint 36 4 bs Hb)]; lia.
Qed.

Lemma payload_length_is : payload_length lob (version_ (header_common bs)) = Ret (Z.of_nat (length bs) - 40).
Proof.
  destruct Hloc as (Hb & H40 & Hmax & Hv & Hsum). pose proof field_bounds. unfold payload_length. destruct offset_size_is as [-> ->].
  rewrite !bind_ret, extern_is, bind_ret.
  destruct (_ =? _); cbn [header_extern extern_of payload_size_ payload_offset_]; rewrite wrap_small by (unfold uint; lia); f_equal; lia.
Qed.

Lemma reserved_is : calculate_param_ob_lob_len lob = Ret (Z.of_nat (length (lenenc (Z.of_nat (length bs)) ++ bs))).
Proof.
  destruct Hloc as (Hb & H40 & Hmax & Hv & Hsum). pose proof field_bounds. unfold calculate_param_ob_lob_len. rewrite version_is, bind_ret.
  destruct offset_size_is as [-> ->]. rewrite !bind_ret, extern_is, bind_ret. unfold MAX_OB_LOB_LOCATOR_HEADER_LENGTH.
  assert (u64 (Z.of_nat (length bs) + mysql_store_length_size (Z.of_nat (length bs))) = Z.of_nat (length (lenenc (Z.of_nat (length bs)) ++ bs))) as Hlen.
  { rewrite <- length_lenenc, length_app. pose proof (lenenc_short (Z.of_nat (length bs))). rewrite wrap_small by (unfold uint; lia). lia. }
  destruct Hv as [-> |[-> _]];
    [change (OBCLIENT_LOB_LOCATORV1 =? OBCLIENT_LOB_LOCATORV1) with true
    |change (OBCLIENT_LOB_LOCATORV2 =? OBCLIENT_LOB_LOCATORV1) with false; change (OBCLIENT_LOB_LOCATORV2 =? OBCLIENT_LOB_LOCATORV2) with true];
    cbv iota zeta; cbn [header_extern extern_of payload_size_ payload_offset_];
    rewrite !(wrap_small 32) by (unfold uint; rewrite ?(wrap_small 32) by (unfold uint; lia); lia); by rewrite Hsum, Hlen.
Qed.

Lemma store_lob_writes mem pos : room mem pos (length (lenenc (Z.of_nat (length bs)) ++ bs)) ->
  store_param_ob_lob_complex lob mem pos
  = Ret (splice pos (lenenc (Z.of_nat (length bs)) ++ bs) mem, pos + Z.of_nat (length (lenenc (Z.of_nat (length bs)) ++ bs))).
Proof.
  intros Hr. pose proof field_bounds as Hf. pose proof Hloc as (Hb & H40 & Hmax & Hv & Hsum). set (n := Z.of_nat (length bs)) in *.
  unfold store_param_ob_lob_complex. rewrite version_is, bind_ret, payload_length_is, bind_ret. fold n.
  assert ((version_ (header_common bs) =? OBCLIENT_LOB_LOCATORV1) || (version_ (header_common bs) =? OBCLIENT_LOB_LOCATORV2) = true) as ->
    by (destruct Hv as [-> |[-> _]]; done).
  destruct offset_size_is as [-> ->]. rewrite !bind_ret, extern_is, bind_ret. unfold MAX_OB_LOB_LOCATOR_HEADER_LENGTH.
  assert ((if version_ (header_common bs) =? OBCLIENT_LOB_LOCATORV1 then Ret (u32 (u32 (40 + le_val (slice 36 4 bs)) + le_val (slice 32 4 bs)))
    else Ret (u32 (u32 (40 + payload_size_ (header_extern bs)) + payload_offset_ (header_extern bs)))) = Ret n) as ->.
  { destruct (_ =? _); cbn [header_extern extern_of payload_size_ payload_offset_];
      rewrite !(wrap_small 32) by (unfold uint; rewrite ?(wrap_small 32) by (unfold uint; lia); lia); f_equal; lia. }
  rewrite length_app in Hr. set (L := lenenc n) in *.
  assert (room mem pos (length L)) as HrL by (unfold room in *; lia).
  rewrite bind_ret, store_length_writes, bind_ret by (done || (unfold uint; lia)). fold L.
  set (mem1 := splice pos L mem). set (p1 := pos + Z.of_nat (length L)).
  assert (room mem1 p1 (length bs)) as Hr1 by (unfold room, mem1, p1 in *; rewrite length_splice by done; lia).
  assert (room mem1 p1 40) as Hr40 by (unfold room in *; lia).
  assert ((if version_ (header_common bs) =? OBCLIENT_LOB_LOCATORV1 then store_ob_lob_locator_v1 lob mem1 p1 else store_ob_lob_locator_v2 lob mem1 p1)
    = Ret (splice p1 (slice 0 40 bs) mem1, p1 + 40)) as ->.
  { destruct Hv as [-> |[-> He]]; [by apply store_v1_copies|]. by apply store_v2_copies. }
  rewrite bind_ret. assert (load_bytes lob 40 (Z.to_nat (n - 40)) = Ret (slice 40 (length bs - 40) bs)) as ->.
  { replace (Z.to_nat (n - 40)) with (length bs - 40)%nat by lia.
    destruct (decide (length bs - 40 = 0)%nat) as [E|E]; [by rewrite E|]. apply (text_slice lob 0 bs 40); [done|lia|lia]. }
  assert (length (slice 40 (length bs - 40) bs) = (length bs - 40)%nat) as Hls by (apply length_slice; lia).
  rewrite bind_ret, store_bytes_splice, map_u8_bytes, bind_ret
    by (by apply slice_bytes || (unfold room in *; rewrite Hls, length_splice by (rewrite length_slice by lia; done); lia)).
  assert (splice (p1 + 40) (slice 40 (length bs - 40) bs) (splice p1 (slice 0 40 bs) mem1) = splice p1 (slice 0 (40 + (length bs - 40)) bs) mem1)
    as -> by (apply (splice_slice p1 40); [lia|unfold room in *; lia]).
  replace (40 + (length bs - 40))%nat with (length bs) by lia. rewrite slice_all. unfold mem1, p1.
  rewrite splice_app by (rewrite length_app; done). do 2 f_equal. rewrite length_app. lia.
Qed.

End sending.

(** C28: a locator of a large object that is fetched into a large enough buffer can be sent back as a parameter: the
    buffer holds the bytes of the column, the size reserved for it is exactly its size on the wire, and the packet gets
    the same bytes behind their length; when the buffer is too small the error flag is set and its bytes are a prefix. *)
Theorem lob_roundtrip bs lob buffer_length error mem row packet pos :
  locator bs -> text_at mem row bs -> 40 <= buffer_length <= Z.of_nat (length lob) ->
  room packet pos (length (lenenc (Z.of_nat (length bs)) ++ bs)) ->
  exists lob' err, fetch_lob lob buffer_length error mem row (Z.of_nat (length bs)) = Ret (lob', err)
    /\ text_at lob' 0 (take (Z.to_nat buffer_length) bs)
    /\ (err = 0 <-> Z.of_nat (length bs) <= buffer_length)
    /\ (err = 0 ->
        calculate_param_ob_lob_len lob' = Ret (Z.of_nat (length (lenenc (Z.of_nat (length bs)) ++ bs)))
        /\ store_param_ob_lob_complex lob' packet pos
           = Ret (splice pos (lenenc (Z.of_nat (length bs)) ++ bs) packet, pos + Z.of_nat (length (lenenc (Z.of_nat (length bs)) ++ bs)))).
Proof.
  intros Hloc Hm Hl Hr. pose proof Hloc as (Hb & H40 & Hmax & Hv & Hsum).
  rewrite (fetch_lob_copies bs) by done. eexists _, _. split; [done|].
  assert (text_at (splice 0 (take (Z.to_nat buffer_length) bs) lob) 0 (take (Z.to_nat buffer_length) bs)) as Ht.
  { apply load_bytes_splice. unfold room. rewrite length_take. lia. }
  split_and!; [done|destruct (Z.ltb_spec buffer_length (Z.of_nat (length bs))); split; intros; lia || done..|].
  intros He. rewrite take_ge in Ht |- * by (destruct (Z.ltb_spec buffer_length (Z.of_nat (length bs))); lia || done).
  split; [by apply reserved_is|by apply store_lob_writes].
Qed.

(** A locator of version 2 with an external header, one byte of row key and two of data. *)
Definition example_locator : bytes :=
  [33; 0; 0; 0; 2; 32; 1; 0] ++ repeat 5 24 ++ [1; 0; 0; 0; 2; 0; 0; 0] ++ [7; 8; 9].

Lemma lob_roundtrip_witness :
  exists lob', fetch_lob (repeat 99 50) 45 1 (4 :: example_locator) 1 43 = Ret (lob', 0)
    /\ calculate_param_ob_lob_len lob' = Ret 44
    /\ store_param_ob_lob_complex lob' (repeat 3 60) 2 = Ret (splice 2 (43 :: example_locator) (repeat 3 60), 46).
Proof.
  destruct (lob_roundtrip example_locator (repeat 99 50) 45 1 (4 :: example_locator) 1 (repeat 3 60) 2) as (lob' & err & H1 & _ & H3 & H4).
  - split_and!; [|simpl; lia|reflexivity|right; split; reflexivity|reflexivity].
    unfold example_locator. simpl. repeat (apply Forall_cons; split; [unfold is_byte, uint; lia|]). by apply Forall_nil.
  - reflexivity.
  - simpl. lia.
  - split; simpl; lia.
  - assert (err = 0) as -> by (apply H3; discriminate). destruct (H4 eq_refl) as [H5 H6]. exists lob'. split; [exact H1|]. split; [exact H5|exact H6].
Defined.

(** A locator of version 2 without an external header has no length, and gets one from the bytes behind it. *)
Lemma no_extern_has_length :
  get_ob_lob_payload_data_len (Some ([33; 0; 0; 0; 2; 32; 0; 0] ++ repeat 5 32)) = Ret 84215045.
Proof. reflexivity. Qed.

(** Sent back, it announces the size of a header that is not written. *)
Lemma no_extern_malformed :
  exists mem, store_param_ob_lob_complex ([33; 0; 0; 0; 2; 32; 0; 0] ++ repeat 0 32) (repeat 3 60) 0 = Ret (mem, 9)
    /\ take 10 mem = [40; 33; 0; 0; 0; 2; 32; 0; 0; 3].
Proof. eexists. split; [vm_compute; reflexivity|reflexivity]. Qed.

End LobLocator.
