(* ===== verification/StmtFetch.v ===== *)
(** Results of prepared statements: the conversion of a column of a binary row into the
    buffer the application bound, from libmariadb/ma_stmt_codec.c (convert_froma_string,
    convert_from_long, the ps_fetch functions of integers, strings, dates and times).

    A bound buffer is an object of the application: bytes, or one of the structs for times.  strtod() of the
    C library, which decides the bits of a floating-point number, is an argument. *)

From stdpp Require Import tactics.
From S2P Require Import Prelude IntStore NumText LenEnc StmtTime TimeText OracleTime.
Import NumText LenEnc StmtTime TimeText OracleTime.

Module StmtFetch.

Definition MYSQL_TYPE_DECIMAL : Z := 0.
Definition MYSQL_TYPE_TINY : Z := 1.
Definition MYSQL_TYPE_SHORT : Z := 2.
Definition MYSQL_TYPE_LONG : Z := 3.
Definition MYSQL_TYPE_FLOAT : Z := 4.
Definition MYSQL_TYPE_DOUBLE : Z := 5.
Definition MYSQL_TYPE_NULL : Z := 6.
Definition MYSQL_TYPE_LONGLONG : Z := 8.
Definition MYSQL_TYPE_INT24 : Z := 9.
Definition MYSQL_TYPE_YEAR : Z := 13.
Definition MYSQL_TYPE_CURSOR : Z := 163.
Definition MYSQL_TYPE_JSON : Z := 245.
Definition MYSQL_TYPE_STRING : Z := 254.

Definition UNSIGNED_FLAG : Z := 32.
Definition ZEROFILL_FLAG : Z := 64.

Definition INT_MAX8 : Z := 0x7F.
Definition UINT_MAX8 : Z := 0xFF.
Definition INT_MIN8 : Z := -128.
Definition INT_MAX16 : Z := 0x7FFF.
Definition UINT_MAX16 : Z := 0xFFFF.
Definition INT_MIN16 : Z := -32768.
Definition INT_MAX32 : Z := 0x7FFFFFFF.
Definition UINT_MAX32 : Z := 0xFFFFFFFF.
Definition INT_MIN32 : Z := -2147483648.

(** The object the application bound; a timestamp of Oracle mode goes with the memory behind it. *)
Inductive object :=
| Mem (bs : bytes)
| Time (tm : MYSQL_TIME)
| OTime (tm : ORACLE_TIME) (names : bytes)
| OInterval (i : ORACLE_INTERVAL).

(** How a column is passed over. *)
Inductive skip_function := skip_result_fixed | skip_result_with_length | skip_result_string.

Record MYSQL_BIND := mk_bind {
  buffer : object;
  buffer_length : Z;
  blength : Z;         (* what [length] points to *)
  berror : Z;          (* what [error] points to *)
  is_null : Z;         (* what [is_null] points to *)
  offset : Z;
  buffer_type : Z;
  is_unsigned : bool;
  row_ptr : option Z;
  bflags : Z;
  pack_length : Z;
  skip_result : skip_function;
  no_need_to_parser_result : bool }.

Definition set_buffer (b : MYSQL_BIND) (v : object) : MYSQL_BIND :=
  mk_bind v (buffer_length b) (blength b) (berror b) (is_null b) (offset b) (buffer_type b) (is_unsigned b) (row_ptr b) (bflags b) (pack_length b) (skip_result b) (no_need_to_parser_result b).
Definition set_buffer_length (b : MYSQL_BIND) (v : Z) : MYSQL_BIND :=
  mk_bind (buffer b) v (blength b) (berror b) (is_null b) (offset b) (buffer_type b) (is_unsigned b) (row_ptr b) (bflags b) (pack_length b) (skip_result b) (no_need_to_parser_result b).
Definition set_length (b : MYSQL_BIND) (v : Z) : MYSQL_BIND :=
  mk_bind (buffer b) (buffer_length b) v (berror b) (is_null b) (offset b) (buffer_type b) (is_unsigned b) (row_ptr b) (bflags b) (pack_length b) (skip_result b) (no_need_to_parser_result b).
Definition set_error (b : MYSQL_BIND) (v : Z) : MYSQL_BIND :=
  mk_bind (buffer b) (buffer_length b) (blength b) v (is_null b) (offset b) (buffer_type b) (is_unsigned b) (row_ptr b) (bflags b) (pack_length b) (skip_result b) (no_need_to_parser_result b).
Definition set_is_null (b : MYSQL_BIND) (v : Z) : MYSQL_BIND :=
  mk_bind (buffer b) (buffer_length b) (blength b) (berror b) v (offset b) (buffer_type b) (is_unsigned b) (row_ptr b) (bflags b) (pack_length b) (skip_result b) (no_need_to_parser_result b).
Definition set_offset (b : MYSQL_BIND) (v : Z) : MYSQL_BIND :=
  mk_bind (buffer b) (buffer_length b) (blength b) (berror b) (is_null b) v (buffer_type b) (is_unsigned b) (row_ptr b) (bflags b) (pack_length b) (skip_result b) (no_need_to_parser_result b).
Definition set_row_ptr (b : MYSQL_BIND) (v : option Z) : MYSQL_BIND :=
  mk_bind (buffer b) (buffer_length b) (blength b) (berror b) (is_null b) (offset b) (buffer_type b) (is_unsigned b) v (bflags b) (pack_length b) (skip_result b) (no_need_to_parser_result b).

Record MYSQL_FIELD := mk_field {
  ftype : Z; fflags : Z; flength : Z; decimals : Z; charsetnr : Z; max_length : Z }.

Definition bool_z (b : bool) : Z := if b then 1 else 0.

Definition NUMERIC_TRUNCATION (val min_range max_range : Z) : bool := (val >? max_range) || (val <? min_range).

Definition unsigned_field (f : MYSQL_FIELD) : bool := nonzero (Z.land (fflags f) UNSIGNED_FLAG).

(** Writing through the pointer [buffer]. *)
Definition put (b : MYSQL_BIND) (f : bytes -> cres bytes) : cres MYSQL_BIND :=
  match buffer b with
  | Mem bs => bs ← f bs; Ret (set_buffer b (Mem bs))
  | _ => Fault
  end.

(** A MYSQL_TIME is written to an object of that type. *)
Definition put_time (b : MYSQL_BIND) (f : MYSQL_TIME -> cres MYSQL_TIME) : cres MYSQL_BIND :=
  match buffer b with
  | Time tm => tm ← f tm; Ret (set_buffer b (Time tm))
  | _ => Fault
  end.

Definition is_type (t : Z) (ts : list Z) : bool := existsb (Z.eqb t) ts.

(** * Conversion of integers without a change of width *)

Definition ps_fetch_from_1_to_8_bytes (r : MYSQL_BIND) (f : MYSQL_FIELD) (mem : bytes) (row byte_count : Z)
    : cres (MYSQL_BIND * Z) :=
  let unsigned := unsigned_field f in
  let differ := xorb unsigned (is_unsigned r) in
  let r := set_buffer_length r byte_count in
  r ← (if byte_count =? 1 then
         c ← load mem row;
         r ← put r (fun bs => store bs 0 c);
         Ret (set_error r (bool_z (differ && (c >? INT_MAX8))))
       else if byte_count =? 2 then
         v ← sint2korr mem row;
         r ← put r (fun bs => int2store bs 0 (u16 v));
         Ret (set_error r (bool_z (differ && (u16 v >? INT_MAX16))))
       else if byte_count =? 4 then
         v ← sint4korr mem row;
         r ← put r (fun bs => int4store bs 0 (u32 v));
         Ret (set_error r (bool_z (differ && (u32 v >? INT_MAX32))))
       else if byte_count =? 8 then
         v ← sint8korr mem row;
         r ← put r (fun bs => int8store bs 0 (u64 v));
         Ret (set_error r (bool_z (differ && (u64 v >? LONGLONG_MAX))))
       else Ret (set_buffer_length r 0));
  Ret (r, row + byte_count).

(** * Conversion from text *)

Section convert.
(** The bits of the double that strtod() returns for a text, and the errno it leaves. *)
Context (strtod : bytes -> Z * Z).
(** The bits of a double rounded to float. *)
Context (float_of_double : Z -> Z).

Definition MAX_DBL_STR : Z := 1077.

(** Bits and error. *)
Definition my_atod (mem : bytes) (number e : Z) : cres (Z * Z) :=
  let len := s32 (e - number) in
  let '(error, len) := if len >? MAX_DBL_STR then (1, MAX_DBL_STR) else (0, len) in
  text ← load_bytes mem number (Z.to_nat len);
  let '(val, errno) := strtod text in
  Ret (val, if nonzero errno then errno else error).

(** The bytes from [start] to [e], as far as they fit, and their number. *)
Definition copy_part (r : MYSQL_BIND) (mem : bytes) (start e : Z) : cres (MYSQL_BIND * Z) :=
  if start <? e then
    let copylen := e - start in
    r ← (if nonzero (buffer_length r) then
           bs ← load_bytes mem start (Z.to_nat (Z.min copylen (buffer_length r)));
           put r (fun dst => store_bytes dst 0 bs)
         else Ret r);
    Ret (r, copylen)
  else Ret (r, 0).

(** The cases of strings and binary data. *)
Definition copy_string (r : MYSQL_BIND) (mem : bytes) (buf len : Z) : cres MYSQL_BIND :=
  r ← (if len >=? offset r then
         '(r, copylen) ← copy_part r mem (buf + offset r) (buf + len);
         r ← (if copylen <? buffer_length r then put r (fun dst => store dst copylen 0) else Ret r);
         Ret (set_error r (bool_z (copylen >? buffer_length r)))
       else Ret r);
  Ret (set_length r len).

Definition text_error (r : MYSQL_BIND) (error val umax smin smax : Z) : Z :=
  if nonzero error then 1
  else if is_unsigned r then bool_z (NUMERIC_TRUNCATION val 0 umax)
  else bool_z (NUMERIC_TRUNCATION val smin smax || (error >? 0)).

Definition convert_froma_string (r : MYSQL_BIND) (mem : bytes) (buf len : Z) : cres MYSQL_BIND :=
  let type := buffer_type r in
  if type =? MYSQL_TYPE_TINY then
    '(val, error) ← my_atoll mem buf (buf + len) 0;
    let r := set_error r (text_error r error val UINT_MAX8 INT_MIN8 INT_MAX8) in
    r ← put r (fun bs => int1store bs 0 (u8 val));
    Ret (set_buffer_length r 1)
  else if is_type type [MYSQL_TYPE_YEAR; MYSQL_TYPE_SHORT] then
    '(val, error) ← my_atoll mem buf (buf + len) 0;
    let r := set_error r (text_error r error val UINT_MAX16 INT_MIN16 INT_MAX16) in
    r ← put r (fun bs => int2store bs 0 (s16 val));
    Ret (set_buffer_length r 2)
  else if is_type type [MYSQL_TYPE_LONG; MYSQL_TYPE_CURSOR] then
    '(val, error) ← my_atoll mem buf (buf + len) 0;
    let r := set_error r (text_error r error val UINT_MAX32 INT_MIN32 INT_MAX32) in
    r ← put r (fun bs => int4store bs 0 (s32 val));
    Ret (set_buffer_length r 4)
  else if type =? MYSQL_TYPE_LONGLONG then
    '(val, error) ← (if is_unsigned r then my_atoull mem buf (buf + len) 0 else my_atoll mem buf (buf + len) 0);
    let r := set_error r (bool_z (error >? 0)) in
    r ← put r (fun bs => int8store bs 0 (s64 val));
    Ret (set_buffer_length r 8)
  else if type =? MYSQL_TYPE_DOUBLE then
    '(val, error) ← my_atod mem buf (buf + len);
    let r := set_error r (bool_z (error >? 0)) in
    r ← put r (fun bs => int8store bs 0 val);
    Ret (set_buffer_length r 8)
  else if type =? MYSQL_TYPE_FLOAT then
    '(val, error) ← my_atod mem buf (buf + len);
    let r := set_error r (bool_z (error >? 0)) in
    r ← put r (fun bs => int4store bs 0 (float_of_double val));
    Ret (set_buffer_length r 4)
  else if is_type type [MYSQL_TYPE_TIME; MYSQL_TYPE_DATE; MYSQL_TYPE_DATETIME; MYSQL_TYPE_TIMESTAMP] then
    put_time r (fun tm => '(_, tm) ← str_to_TIME (Some mem) buf len tm; Ret tm)
  else copy_string r mem buf len.

(** * Conversion from integers *)

(** The nearest number with [prec] significant bits, ties to even: significand and exponent. *)
Definition round_to (prec n : Z) : Z * Z :=
  let b := Z.log2 n + 1 in
  if b <=? prec then (n * 2 ^ (prec - b), b - prec)
  else
    let s := b - prec in
    let q := n / 2 ^ s in
    let r := n mod 2 ^ s in
    let q := if (r >? 2 ^ (s - 1)) || ((r =? 2 ^ (s - 1)) && Z.odd q) then q + 1 else q in
    if q =? 2 ^ prec then (2 ^ (prec - 1), s + 1) else (q, s).

(** The value of an integer converted to a floating-point type, and its bits; [total] is the
    width of the type. *)
Definition float_value (prec v : Z) : Z :=
  let '(m, e) := round_to prec (Z.abs v) in
  Z.sgn v * (if e <? 0 then m / 2 ^ (- e) else m * 2 ^ e).

Definition float_bits (prec total v : Z) : Z :=
  let '(m, e) := round_to prec (Z.abs v) in
  let bias := 2 ^ (total - prec - 1) - 1 in
  if v =? 0 then 0
  else (if v <? 0 then 2 ^ (total - 1) else 0) + (e + (prec - 1) + bias) * 2 ^ (prec - 1) + (m - 2 ^ (prec - 1)).

(** Converting the value back: undefined outside the range of the integer type. *)
Definition float_differs (prec val is_unsigned : Z) : cres bool :=
  if nonzero is_unsigned then
    let d := float_value prec (u64 val) in
    if d <=? ULONGLONG_MAX then Ret (negb (d =? u64 val)) else Fault
  else
    let d := float_value prec val in
    if (LONGLONG_MIN <=? d) && (d <=? LONGLONG_MAX) then Ret (negb (d =? val)) else Fault.

(** Copies [n] bytes downwards, the last one first. *)
Fixpoint ma_bmove_upp (mem : bytes) (dst src : Z) (n : nat) : cres bytes :=
  match n with
  | O => Ret mem
  | S n => c ← load mem (src - 1); mem ← store mem (dst - 1) c; ma_bmove_upp mem (dst - 1) (src - 1) n
  end.

(** The decimal text of an integer column, with leading zeros for ZEROFILL: the local buffer,
    the length and whether the zeros were left out. *)
Definition long_text (junk : Z) (r : MYSQL_BIND) (f : MYSQL_FIELD) (val is_unsigned : Z) : cres (bytes * Z * Z) :=
  let buf := repeat junk (Z.to_nat (Z.max (flength f) 22)) in
  '(endptr, buf) ← ma_ll2str junk val buf 0 (if nonzero is_unsigned then 10 else -10);
  match endptr with
  | None => Fault
  | Some endptr =>
    let len := u32 (endptr - 0) in
    if nonzero (Z.land (fflags f) ZEROFILL_FLAG) then
      let display_width := u32 (Z.max (flength f) len) in
      if display_width <? buffer_length r then
        buf ← ma_bmove_upp buf (0 + display_width) (0 + len) (Z.to_nat len);
        buf ← store_bytes buf 0 (repeat 48 (Z.to_nat (display_width - len)));
        Ret (buf, display_width, 0)
      else Ret (buf, len, 1)
    else Ret (buf, len, 0)
  end.

Definition convert_from_long (junk : Z) (r : MYSQL_BIND) (f : MYSQL_FIELD) (val uns : Z) : cres MYSQL_BIND :=
  let type := buffer_type r in
  let trunc umax smin smax :=
    bool_z (if is_unsigned r then NUMERIC_TRUNCATION val 0 umax else NUMERIC_TRUNCATION val smin smax) in
  if type =? MYSQL_TYPE_TINY then
    r ← put r (fun bs => store bs 0 (u8 val));
    Ret (set_buffer_length (set_error r (trunc UINT_MAX8 INT_MIN8 INT_MAX8)) 1)
  else if is_type type [MYSQL_TYPE_SHORT; MYSQL_TYPE_YEAR] then
    r ← put r (fun bs => int2store bs 0 (s16 val));
    Ret (set_buffer_length (set_error r (trunc UINT_MAX16 INT_MIN16 INT_MAX16)) 2)
  else if is_type type [MYSQL_TYPE_LONG; MYSQL_TYPE_CURSOR] then
    r ← put r (fun bs => int4store bs 0 (s32 val));
    Ret (set_buffer_length (set_error r (trunc UINT_MAX32 INT_MIN32 INT_MAX32)) 4)
  else if type =? MYSQL_TYPE_LONGLONG then
    let r := set_error r (bool_z ((val <? 0) && negb (bool_z (is_unsigned r) =? uns))) in
    r ← put r (fun bs => int8store bs 0 val);
    Ret (set_buffer_length r 8)
  else if type =? MYSQL_TYPE_DOUBLE then
    r ← put r (fun bs => int8store bs 0 (float_bits 53 64 (if nonzero uns then u64 val else val)));
    d ← float_differs 53 val uns;
    Ret (set_buffer_length (set_error r (bool_z d)) 8)
  else if type =? MYSQL_TYPE_FLOAT then
    r ← put r (fun bs => int4store bs 0 (float_bits 24 32 (if nonzero uns then u64 val else val)));
    d ← float_differs 24 val uns;
    Ret (set_buffer_length (set_error r (bool_z d)) 4)
  else
    '(buf, len, zf_truncated) ← long_text junk r f val uns;
    r ← convert_froma_string r buf 0 len;
    Ret (set_error r (s8 (berror r + zf_truncated))).

(** * Integer columns *)

Definition ps_fetch_int8 (junk : Z) (r : MYSQL_BIND) (f : MYSQL_FIELD) (mem : bytes) (row : Z) : cres (MYSQL_BIND * Z) :=
  if buffer_type r =? MYSQL_TYPE_TINY then ps_fetch_from_1_to_8_bytes r f mem row 1
  else
    val ← load mem row;
    let lval := if unsigned_field f then val else s8 val in
    r ← convert_from_long junk r f lval (Z.land (fflags f) UNSIGNED_FLAG);
    Ret (r, row + 1).

Definition ps_fetch_int16 (junk : Z) (r : MYSQL_BIND) (f : MYSQL_FIELD) (mem : bytes) (row : Z) : cres (MYSQL_BIND * Z) :=
  if is_type (buffer_type r) [MYSQL_TYPE_YEAR; MYSQL_TYPE_SHORT] then ps_fetch_from_1_to_8_bytes r f mem row 2
  else
    sval ← sint2korr mem row;
    let lval := if unsigned_field f then u16 sval else sval in
    r ← convert_from_long junk r f lval (Z.land (fflags f) UNSIGNED_FLAG);
    Ret (r, row + 2).

Definition ps_fetch_int32 (junk : Z) (r : MYSQL_BIND) (f : MYSQL_FIELD) (mem : bytes) (row : Z) : cres (MYSQL_BIND * Z) :=
  if is_type (buffer_type r) [MYSQL_TYPE_INT24; MYSQL_TYPE_LONG; MYSQL_TYPE_CURSOR]
  then ps_fetch_from_1_to_8_bytes r f mem row 4
  else
    sval ← sint4korr mem row;
    let lval := if unsigned_field f then u32 sval else sval in
    r ← convert_from_long junk r f lval (Z.land (fflags f) UNSIGNED_FLAG);
    Ret (r, row + 4).

Definition ps_fetch_int64 (junk : Z) (r : MYSQL_BIND) (f : MYSQL_FIELD) (mem : bytes) (row : Z) : cres (MYSQL_BIND * Z) :=
  if buffer_type r =? MYSQL_TYPE_LONGLONG then ps_fetch_from_1_to_8_bytes r f mem row 8
  else
    sval ← sint8korr mem row;
    let lval := if unsigned_field f then s64 (u64 sval) else sval in
    r ← convert_from_long junk r f lval (Z.land (fflags f) UNSIGNED_FLAG);
    Ret (r, row + 8).

(** * Strings, binary data, dates and times *)

Definition ps_fetch_string (r : MYSQL_BIND) (f : MYSQL_FIELD) (mem : bytes) (row : Z) : cres (MYSQL_BIND * Z) :=
  '(field_length, row) ← net_field_length mem row;
  r ← convert_froma_string r mem row field_length;
  Ret (r, row + field_length).

(** Bytes of a column of character set 63. *)
Definition copy_binary (r : MYSQL_BIND) (mem : bytes) (row field_length : Z) : cres MYSQL_BIND :=
  let r := set_length r field_length in
  '(r, copylen) ← copy_part r mem (row + offset r) (row + field_length);
  r ← (if (copylen <? buffer_length r) && is_type (buffer_type r) [MYSQL_TYPE_STRING; MYSQL_TYPE_JSON]
       then put r (fun dst => store dst copylen 0) else Ret r);
  Ret (set_error r (bool_z (copylen >? buffer_length r))).

Definition ps_fetch_bin (r : MYSQL_BIND) (f : MYSQL_FIELD) (mem : bytes) (row : Z) : cres (MYSQL_BIND * Z) :=
  if charsetnr f =? 63 then
    '(field_length, row) ← net_field_length mem row;
    r ← copy_binary r mem row field_length;
    Ret (r, row + field_length)
  else ps_fetch_string r f mem row.

Definition ps_fetch_mysql_lob (r : MYSQL_BIND) (f : MYSQL_FIELD) (mem : bytes) (row : Z) : cres (MYSQL_BIND * Z) :=
  '(length, row) ← net_field_length mem row;
  r ← (if charsetnr f =? 63 then copy_binary r mem row length
       else convert_froma_string r mem row length);
  Ret (r, row + length).

Definition ps_fetch_datetime (junk : Z) (r : MYSQL_BIND) (f : MYSQL_FIELD) (mem : bytes) (row : Z) : cres (MYSQL_BIND * Z) :=
  '(len, row) ← net_field_length mem row;
  let len := u32 len in
  r ← (if is_type (buffer_type r) [MYSQL_TYPE_DATETIME; MYSQL_TYPE_TIMESTAMP; MYSQL_TYPE_DATE] then
         put_time r (fun _ => convert_to_datetime mem row len (ftype f))
       else if buffer_type r =? MYSQL_TYPE_TIME then
         put_time r (fun _ => t ← convert_to_datetime mem row len (ftype f);
                              Ret (set_year (set_day (set_month t 0) 0) 0))
       else if buffer_type r =? MYSQL_TYPE_YEAR then
         tm ← convert_to_datetime mem row len (ftype f);
         put r (fun bs => int2store bs 0 (year tm))
       else
         tm ← convert_to_datetime mem row len (ftype f);
         '(dtbuffer, length) ← format_time junk (ftype f) (decimals f) tm;
         convert_froma_string r dtbuffer 0 length);
  Ret (r, row + len).

End convert.

(** * Integer columns in integer buffers *)

(** The buffers that hold an integer, with their size. *)
Definition int_size (type : Z) : option nat :=
  if type =? MYSQL_TYPE_TINY then Some 1%nat
  else if is_type type [MYSQL_TYPE_SHORT; MYSQL_TYPE_YEAR] then Some 2%nat
  else if is_type type [MYSQL_TYPE_LONG; MYSQL_TYPE_CURSOR] then Some 4%nat
  else if type =? MYSQL_TYPE_LONGLONG then Some 8%nat
  else None.

(** The value of [w] bytes as a signed or unsigned integer, and the range of such integers. *)
Definition int_value (uns : bool) (w : nat) (bs : bytes) : Z :=
  if uns then le_val bs else swrap (8 * Z.of_nat w) (le_val bs).

Definition in_range (uns : bool) (n : nat) (v : Z) : Prop :=
  if uns then uint (8 * Z.of_nat n) v else sint (8 * Z.of_nat n) v.

#[export] Instance in_range_dec uns n v : Decision (in_range uns n v).
Proof. unfold in_range, uint, sint. destruct uns; apply _. Defined.

(** The buffer holds the value modulo its size, and the error flag tells whether it fits. *)
Definition stored (r r' : MYSQL_BIND) (n : nat) (v : Z) (dst : bytes) : Prop :=
  buffer r' = Mem (splice 0 (le_bytes n v) dst) /\ buffer_length r' = Z.of_nat n
  /\ berror r' = bool_z (negb (bool_decide (in_range (is_unsigned r) n v)))
  /\ blength r' = blength r /\ is_null r' = is_null r /\ row_ptr r' = row_ptr r.

Lemma put_mem r dst f dst' : buffer r = Mem dst -> f dst = Ret dst' -> put r f = Ret (set_buffer r (Mem dst')).
Proof. intros Hb Hf. unfold put. by rewrite Hb, Hf. Qed.

Lemma bool_z_range (b : bool) (P : Prop) `{!Decision P} : (b = false <-> P) -> bool_z b = bool_z (negb (bool_decide P)).
Proof. intros H. f_equal. destruct b; [rewrite bool_decide_false by (intros HP; apply H in HP; done)|rewrite bool_decide_true by tauto]; done. Qed.

Lemma trunc_false val lo hi : NUMERIC_TRUNCATION val lo hi = false <-> lo <= val <= hi.
Proof. unfold NUMERIC_TRUNCATION. rewrite orb_false_iff, Z.gtb_ltb, !Z.ltb_ge. lia. Qed.

Lemma le_bytes_mod n v v' : wrap (8 * Z.of_nat n) v = wrap (8 * Z.of_nat n) v' -> le_bytes n v = le_bytes n v'.
Proof. intros H. by rewrite <- (le_bytes_wrap n _ v (Z.le_refl _)), H, le_bytes_wrap by lia. Qed.

(** Conversion with a change of width. *)
Lemma convert_from_long_stores strtod fod junk r f val uns n dst :
  buffer r = Mem dst -> int_size (buffer_type r) = Some n -> (n <= length dst)%nat -> sint 64 val ->
  (val < 0 -> n = 8%nat -> uns = 0) ->
  exists r', convert_from_long strtod fod junk r f val uns = Ret r' /\ stored r r' n val dst.
Proof.
  intros Hb Hn Hlen Hval Hneg. unfold convert_from_long, int_size in *.
  assert (forall umax smin smax m, 0 < 8 * Z.of_nat m -> umax = 2 ^ (8 * Z.of_nat m) - 1 -> smin = - 2 ^ (8 * Z.of_nat m - 1) ->
    smax = 2 ^ (8 * Z.of_nat m - 1) - 1 ->
    bool_z (if is_unsigned r then NUMERIC_TRUNCATION val 0 umax else NUMERIC_TRUNCATION val smin smax)
    = bool_z (negb (bool_decide (in_range (is_unsigned r) m val)))) as Herr.
  { intros umax smin smax m Hm -> -> ->. apply bool_z_range. unfold in_range, uint, sint.
    destruct (is_unsigned r); rewrite trunc_false; lia. }
  destruct (buffer_type r =? MYSQL_TYPE_TINY); [|destruct (is_type _ [MYSQL_TYPE_SHORT; _]);
    [|destruct (is_type _ [MYSQL_TYPE_LONG; _]); [|destruct (_ =? MYSQL_TYPE_LONGLONG); [|done]]]]; injection Hn as <-.
  - rewrite (put_mem _ dst _ (splice 0 (le_bytes 1 val) dst) Hb), bind_ret.
    2: { rewrite store_u8. apply int1store_splice. split; lia. }
    eexists. split; [done|]. split_and!; try done. by apply Herr.
  - rewrite (put_mem _ dst _ (splice 0 (le_bytes 2 val) dst) Hb), bind_ret.
    2: { rewrite int2store_splice by (split; lia). do 2 f_equal. apply le_bytes_mod, wrap_swrap. lia. }
    eexists. split; [done|]. split_and!; try done. by apply Herr.
  - rewrite (put_mem _ dst _ (splice 0 (le_bytes 4 val) dst) Hb), bind_ret.
    2: { rewrite int4store_splice by (split; lia). do 2 f_equal. apply le_bytes_mod, wrap_swrap. lia. }
    eexists. split; [done|]. split_and!; try done. by apply Herr.
  - rewrite (put_mem _ dst _ (splice 0 (le_bytes 8 val) dst)), bind_ret; [|done|apply int8store_splice; split; lia].
    eexists. split; [done|]. split_and!; try done. apply bool_z_range. unfold in_range, uint, sint in *.
    change (8 * Z.of_nat 8) with 64. destruct (Z.ltb_spec val 0) as [Hlt|Hge]; simpl.
    + rewrite (Hneg Hlt eq_refl). destruct (is_unsigned r); simpl; split; intros; try done; lia.
    + split; [|done]. intros _. destruct (is_unsigned r); lia.
Qed.

(** Conversion without a change of width: the signs decide. *)
Lemma same_width_error w (uns uns' : bool) raw : 0 < w -> uint w raw ->
  (xorb uns uns' && (raw >? 2 ^ (w - 1) - 1)) = false
  <-> (if uns' then uint w (if uns then raw else swrap w raw) else sint w (if uns then raw else swrap w raw)).
Proof.
  intros Hw Hraw. pose proof (swrap_sint w raw Hw) as Hs. unfold uint, sint in *.
  assert (2 ^ w = 2 * 2 ^ (w - 1)) as Hp by (rewrite <- Z.pow_succ_r by lia; f_equal; lia).
  rewrite andb_false_iff, Z.gtb_ltb, Z.ltb_ge.
  assert (raw < 2 ^ (w - 1) /\ swrap w raw = raw \/ 2 ^ (w - 1) <= raw /\ swrap w raw < 0) as Hc.
  { destruct (decide (raw < 2 ^ (w - 1))); [left; split; [done|apply swrap_small; [done|unfold sint; lia]]|right; split; [lia|]].
    rewrite <- (swrap_period w raw (-1)), swrap_small by (lia || (unfold sint; lia)). lia. }
  destruct uns, uns'; simpl; split; intros H; try (destruct H; [done|]); try (by left); try right; lia.
Qed.

Lemma le_bytes_int_value uns w bs : (0 < w)%nat -> le_bytes w (int_value uns w bs) = le_bytes w (le_val bs).
Proof. intros Hw. unfold int_value. destruct uns; [done|]. apply le_bytes_mod, wrap_swrap. lia. Qed.

Lemma same_width_stores r f mem row bs w dst :
  buffer r = Mem dst -> (w <= length dst)%nat -> w = 1%nat \/ w = 2%nat \/ w = 4%nat \/ w = 8%nat ->
  all_bytes bs -> length bs = w -> text_at mem row bs ->
  exists r', ps_fetch_from_1_to_8_bytes r f mem row (Z.of_nat w) = Ret (r', row + Z.of_nat w)
    /\ stored r r' w (int_value (unsigned_field f) w bs) dst.
Proof.
  intros Hb Hlen Hw Hbs Hl Hm. pose proof (le_val_bound bs Hbs) as Hraw. rewrite Hl in Hraw.
  unfold text_at in Hm. rewrite Hl in Hm. unfold ps_fetch_from_1_to_8_bytes.
  assert (forall m, w = m -> (0 < m)%nat -> forall max, max = 2 ^ (8 * Z.of_nat m - 1) - 1 ->
    bool_z (xorb (unsigned_field f) (is_unsigned r) && (le_val bs >? max))
    = bool_z (negb (bool_decide (in_range (is_unsigned r) m (int_value (unsigned_field f) m bs))))) as Herr.
  { intros m <- Hp max ->. apply bool_z_range. unfold in_range, int_value. apply same_width_error; [lia|done]. }
  destruct Hw as [E|[E|[E|E]]]; rewrite E in *; cbn [Z.of_nat Pos.of_succ_nat Pos.succ Z.eqb Pos.eqb].
  - rewrite (uint1korr_load mem row bs Hbs Hm : load mem row = Ret (le_val bs)), bind_ret.
    rewrite (put_mem _ dst _ (splice 0 (le_bytes 1 (le_val bs)) dst)), !bind_ret; [|done|apply int1store_splice; split; lia].
    eexists. split; [done|]. split_and!; try done; [by rewrite le_bytes_int_value by lia|apply Herr; [done|lia|done]].
  - rewrite (sint2korr_load mem row bs Hbs Hm), bind_ret. rewrite wrap_swrap, wrap_small by (done || lia).
    rewrite (put_mem _ dst _ (splice 0 (le_bytes 2 (le_val bs)) dst)), !bind_ret; [|done|apply int2store_splice; split; lia].
    eexists. split; [done|]. split_and!; try done; [by rewrite le_bytes_int_value by lia|apply Herr; [done|lia|done]].
  - rewrite (sint4korr_load mem row bs Hbs Hm), bind_ret. rewrite wrap_swrap, wrap_small by (done || lia).
    rewrite (put_mem _ dst _ (splice 0 (le_bytes 4 (le_val bs)) dst)), !bind_ret; [|done|apply int4store_splice; split; lia].
    eexists. split; [done|]. split_and!; try done; [by rewrite le_bytes_int_value by lia|apply Herr; [done|lia|done]].
  - rewrite (sint8korr_load mem row bs Hbs Hm), bind_ret. rewrite wrap_swrap, wrap_small by (done || lia).
    rewrite (put_mem _ dst _ (splice 0 (le_bytes 8 (le_val bs)) dst)), !bind_ret; [|done|apply int8store_splice; split; lia].
    eexists. split; [done|]. split_and!; try done; [by rewrite le_bytes_int_value by lia|apply Herr; [done|lia|done]].
Qed.

(** The fetch functions of integer columns by the size of the column. *)
Definition ps_fetch_int (w : nat) strtod fod (junk : Z) (r : MYSQL_BIND) (f : MYSQL_FIELD) (mem : bytes) (row : Z)
    : cres (MYSQL_BIND * Z) :=
  match w with
  | 1%nat => ps_fetch_int8 strtod fod junk r f mem row
  | 2%nat => ps_fetch_int16 strtod fod junk r f mem row
  | 4%nat => ps_fetch_int32 strtod fod junk r f mem row
  | 8%nat => ps_fetch_int64 strtod fod junk r f mem row
  | _ => Fault
  end.

Lemma int_size_cases t n : int_size t = Some n ->
  t = MYSQL_TYPE_TINY /\ n = 1%nat \/ t = MYSQL_TYPE_SHORT /\ n = 2%nat \/ t = MYSQL_TYPE_YEAR /\ n = 2%nat
  \/ t = MYSQL_TYPE_LONG /\ n = 4%nat \/ t = MYSQL_TYPE_CURSOR /\ n = 4%nat \/ t = MYSQL_TYPE_LONGLONG /\ n = 8%nat.
Proof.
  unfold int_size, is_type. simpl. rewrite !orb_false_r.
  destruct (Z.eqb_spec t MYSQL_TYPE_TINY), (Z.eqb_spec t MYSQL_TYPE_SHORT), (Z.eqb_spec t MYSQL_TYPE_YEAR),
    (Z.eqb_spec t MYSQL_TYPE_LONG), (Z.eqb_spec t MYSQL_TYPE_CURSOR), (Z.eqb_spec t MYSQL_TYPE_LONGLONG);
    simpl; intros [= <-]; auto 10.
Qed.

(** The value of a column through its signed reader, as a 64-bit integer. *)
Lemma column_value w (uns : bool) bs : (0 < w <= 8)%nat -> all_bytes bs -> length bs = w ->
  let sval := swrap (8 * Z.of_nat w) (le_val bs) in
  s64 (if uns then wrap (8 * Z.of_nat w) sval else sval) = s64 (int_value uns w bs).
Proof.
  intros Hw Hbs Hl sval. unfold int_value, sval. destruct uns; [|done].
  rewrite wrap_swrap, wrap_small; [done| |lia]. pose proof (le_val_bound bs Hbs) as H. by rewrite Hl in H.
Qed.

Lemma column_small w (uns : bool) bs : (0 < w <= 4)%nat -> all_bytes bs -> length bs = w ->
  let sval := swrap (8 * Z.of_nat w) (le_val bs) in
  (if uns then wrap (8 * Z.of_nat w) sval else sval) = s64 (int_value uns w bs).
Proof.
  intros Hw Hbs Hl sval. rewrite <- (column_value w uns bs) by (done || lia). symmetry. apply swrap_small; [lia|].
  assert (2 ^ (8 * Z.of_nat w) <= 2 ^ 32) by (apply Z.pow_le_mono_r; lia).
  assert (2 ^ (8 * Z.of_nat w - 1) <= 2 ^ 32) by (apply Z.pow_le_mono_r; lia).
  pose proof (swrap_sint (8 * Z.of_nat w) (le_val bs) ltac:(lia)) as Hs.
  pose proof (wrap_uint (8 * Z.of_nat w) sval ltac:(lia)) as Hu. fold sval in Hs. unfold sint, uint in *.
  change (2 ^ (64 - 1)) with 9223372036854775808. destruct uns; lia.
Qed.

(** The two ways a fetch function goes: same size, or the value through a 64-bit integer. *)
Lemma fetch_int_cases w strtod fod junk r f mem row bs n :
  w = 1%nat \/ w = 2%nat \/ w = 4%nat \/ w = 8%nat -> int_size (buffer_type r) = Some n ->
  all_bytes bs -> length bs = w -> text_at mem row bs ->
  ps_fetch_int w strtod fod junk r f mem row
  = if decide (w = n) then ps_fetch_from_1_to_8_bytes r f mem row (Z.of_nat w)
    else r' ← convert_from_long strtod fod junk r f (s64 (int_value (unsigned_field f) w bs)) (Z.land (fflags f) UNSIGNED_FLAG);
         Ret (r', row + Z.of_nat w).
Proof.
  intros Hw Hn Hbs Hl Hm. pose proof (column_value w (unsigned_field f) bs) as Hv.
  pose proof (column_small w (unsigned_field f) bs) as Hsm.
  unfold text_at in Hm. rewrite Hl in Hm. apply int_size_cases in Hn.
  destruct Hw as [E|[E|[E|E]]]; rewrite E in *; cbn [ps_fetch_int];
    unfold ps_fetch_int8, ps_fetch_int16, ps_fetch_int32, ps_fetch_int64;
    [rewrite (uint1korr_load mem row bs Hbs Hm : load mem row = Ret (le_val bs))
    |rewrite (sint2korr_load mem row bs Hbs Hm)|rewrite (sint4korr_load mem row bs Hbs Hm)
    |rewrite (sint8korr_load mem row bs Hbs Hm)]; rewrite bind_ret.
  - rewrite <- Hsm by (done || lia). change (8 * Z.of_nat 1) with 8. rewrite wrap_swrap, (wrap_small 8) by
      (lia || (pose proof (le_val_bound bs Hbs) as H; rewrite Hl in H; exact H)).
    destruct Hn as [[-> ->]|[[-> ->]|[[-> ->]|[[-> ->]|[[-> ->]|[-> ->]]]]]]; done.
  - rewrite <- Hsm by (done || lia).
    destruct Hn as [[-> ->]|[[-> ->]|[[-> ->]|[[-> ->]|[[-> ->]|[-> ->]]]]]]; done.
  - rewrite <- Hsm by (done || lia).
    destruct Hn as [[-> ->]|[[-> ->]|[[-> ->]|[[-> ->]|[[-> ->]|[-> ->]]]]]]; done.
  - rewrite <- Hv by (done || lia). change (8 * Z.of_nat 8) with 64.
    replace (s64 (if unsigned_field f then u64 (s64 (le_val bs)) else s64 (le_val bs)))
      with (if unsigned_field f then s64 (u64 (s64 (le_val bs))) else s64 (le_val bs)).
    2: { destruct (unsigned_field f); [done|]. by rewrite (swrap_small 64 (s64 _)) by (lia || (apply swrap_sint; lia)). }
    destruct Hn as [[-> ->]|[[-> ->]|[[-> ->]|[[-> ->]|[[-> ->]|[-> ->]]]]]]; done.
Qed.

Lemma int_size_le t n : int_size t = Some n -> (n = 1 \/ n = 2 \/ n = 4 \/ n = 8)%nat.
Proof. intros H. apply int_size_cases in H. lia. Qed.

Lemma int_value_bound uns w bs : all_bytes bs -> length bs = w -> (0 < w <= 8)%nat ->
  0 <= int_value uns w bs < 2 ^ 64 \/ sint 64 (int_value uns w bs).
Proof.
  intros Hbs Hl Hw. pose proof (le_val_bound bs Hbs) as Hraw. rewrite Hl in Hraw. unfold int_value. destruct uns.
  - left. assert (2 ^ (8 * Z.of_nat w) <= 2 ^ 64) by (apply Z.pow_le_mono_r; lia). lia.
  - right. pose proof (swrap_sint (8 * Z.of_nat w) (le_val bs) ltac:(lia)) as Hs.
    assert (2 ^ (8 * Z.of_nat w - 1) <= 2 ^ (64 - 1)) by (apply Z.pow_le_mono_r; lia). unfold sint in *. lia.
Qed.

Lemma int_value_small uns w bs : all_bytes bs -> length bs = w -> (0 < w < 8)%nat -> sint 64 (int_value uns w bs).
Proof.
  intros Hbs Hl Hw. pose proof (le_val_bound bs Hbs) as Hraw. rewrite Hl in Hraw. unfold int_value, sint.
  assert (2 ^ (8 * Z.of_nat w) <= 2 ^ 56) by (apply Z.pow_le_mono_r; lia).
  pose proof (swrap_sint (8 * Z.of_nat w) (le_val bs) ltac:(lia)) as Hs. unfold sint in Hs.
  assert (2 ^ (8 * Z.of_nat w - 1) <= 2 ^ 56) by (apply Z.pow_le_mono_r; lia). destruct uns; lia.
Qed.

(** A value beyond the signed range is outside every smaller unsigned one, before and after the conversion. *)
Lemma range_s64 n v : (n < 8)%nat \/ sint 64 v -> 0 <= v < 2 ^ 64 \/ sint 64 v ->
  in_range true n (s64 v) <-> in_range true n v.
Proof.
  intros Hn Hv. destruct (decide (- 2 ^ 63 <= v < 2 ^ 63)) as [Hs|Hs].
  { by rewrite swrap_small by (lia || (unfold sint; lia)). }
  destruct Hv as [Hv|Hv]; [|done]. destruct Hn as [Hn|Hn]; [|done].
  rewrite <- (swrap_period 64 v (-1)), swrap_small by (lia || (unfold sint; lia)). unfold in_range, uint.
  assert (2 ^ (8 * Z.of_nat n) <= 2 ^ 56) by (apply Z.pow_le_mono_r; lia). lia.
Qed.

Lemma int_fetch_stores strtod fod junk w r f mem row bs n dst :
  w = 1%nat \/ w = 2%nat \/ w = 4%nat \/ w = 8%nat ->
  buffer r = Mem dst -> int_size (buffer_type r) = Some n -> (n <= length dst)%nat ->
  all_bytes bs -> length bs = w -> text_at mem row bs ->
  let v := int_value (unsigned_field f) w bs in
  sint 64 v \/ w = n \/ is_unsigned r = true ->
  exists r', ps_fetch_int w strtod fod junk r f mem row = Ret (r', row + Z.of_nat w)
    /\ stored r r' n v dst.
Proof.
  intros Hw Hb Hn Hlen Hbs Hl Hm v Hv. rewrite (fetch_int_cases w strtod fod junk r f mem row bs n) by done. fold v.
  case_decide as Hwn; [subst n; by apply same_width_stores|].
  destruct (convert_from_long_stores strtod fod junk r f (s64 v) (Z.land (fflags f) UNSIGNED_FLAG) n dst)
    as (r' & -> & Hst); try done; [apply swrap_sint; lia| |].
  - intros Hneg ->. destruct (unsigned_field f) eqn:Hu; [|by apply nonzero_false in Hu].
    rewrite swrap_small in Hneg by (lia || (apply int_value_small; done || lia)). unfold v, int_value in Hneg.
    pose proof (le_val_bound bs Hbs). lia.
  - eexists. split; [done|]. destruct Hst as (H1 & H2 & H3 & H4 & H5 & H6). split_and!; try done.
    + rewrite H1. do 2 f_equal. apply le_bytes_mod. rewrite <- (wrap_wrap_le _ 64 (s64 v)) by (apply int_size_le in Hn; lia).
      rewrite wrap_swrap, wrap_wrap_le by (apply int_size_le in Hn; lia). done.
    + rewrite H3. do 2 f_equal. apply bool_decide_ext.
      destruct Hv as [Hv|[->|Hv]]; [by rewrite swrap_small by (done || lia)|done|]. rewrite Hv.
      pose proof (int_size_le _ _ Hn). apply range_s64; [|apply int_value_bound; [done|done|lia]].
      destruct (decide (n = 8%nat)) as [->|]; [right; apply int_value_small; [done|done|lia]|left; lia].
Qed.


(** The low bytes of a value, read at the type of the buffer, give it back exactly when it is in range. *)
Lemma int_value_le_bytes uns n v : (0 < n)%nat -> int_value uns n (le_bytes n v) = v <-> in_range uns n v.
Proof.
  intros Hn. unfold int_value, in_range. rewrite le_val_le_bytes. destruct uns; split; intros H.
  - rewrite <- H. apply wrap_uint. lia.
  - by apply wrap_small.
  - rewrite swrap_wrap in H by lia. rewrite <- H. apply swrap_sint. lia.
  - rewrite swrap_wrap by lia. apply swrap_small; [lia|done].
Qed.

(** C29: an integer column is fetched into an integer buffer of one, two, four or eight bytes
    (INT24 buffers have no case) and either sign exactly: the
    buffer holds the value modulo its size, and the error flag is set exactly when the value
    is outside the range of the buffer, that is, when the application reads another value.  The row pointer is behind the column.  (A BIGINT
    UNSIGNED value of 2^63 or more in a smaller signed buffer is excluded.) *)
Theorem int_fetch_exact strtod fod junk w r f mem row bs n dst :
  w = 1%nat \/ w = 2%nat \/ w = 4%nat \/ w = 8%nat ->
  buffer r = Mem dst -> int_size (buffer_type r) = Some n -> (n <= length dst)%nat ->
  all_bytes bs -> length bs = w -> text_at mem row bs ->
  let v := int_value (unsigned_field f) w bs in
  sint 64 v \/ w = n \/ is_unsigned r = true ->
  exists r', ps_fetch_int w strtod fod junk r f mem row = Ret (r', row + Z.of_nat w)
    /\ stored r r' n v dst
    /\ (berror r' = 0 <-> match buffer r' with
         | Mem dst' => int_value (is_unsigned r) n (take n dst') = v | _ => False end).
Proof.
  intros Hw Hb Hn Hlen Hbs Hl Hm v Hv.
  destruct (int_fetch_stores strtod fod junk w r f mem row bs n dst) as (r' & Hr & Hst); try done.
  exists r'. split_and!; [done|done|]. destruct Hst as (-> & _ & -> & _). pose proof (int_size_le _ _ Hn).
  rewrite splice_0, take_app_length' by (by rewrite length_le_bytes). fold v. rewrite int_value_le_bytes by lia.
  case_bool_decide; simpl; naive_solver.
Qed.

Lemma int_fetch_exact_witness :
  exists r', ps_fetch_int 2 (fun _ => (0, 0)) (fun z => z) 7
      (mk_bind (Mem (repeat 9 4)) 0 0 0 0 0 MYSQL_TYPE_TINY false None 0 0 skip_result_fixed false) (mk_field MYSQL_TYPE_SHORT UNSIGNED_FLAG 6 0 0 0)
      [1; 200; 0] 1 = Ret (r', 1 + Z.of_nat 2)
    /\ stored (mk_bind (Mem (repeat 9 4)) 0 0 0 0 0 MYSQL_TYPE_TINY false None 0 0 skip_result_fixed false) r' 1 200 (repeat 9 4)
    /\ (berror r' = 0 <-> match buffer r' with Mem dst' => int_value false 1 (take 1 dst') = 200 | _ => False end).
Proof.
  apply (int_fetch_exact (fun _ => (0, 0)) (fun z => z) 7 2
    (mk_bind (Mem (repeat 9 4)) 0 0 0 0 0 MYSQL_TYPE_TINY false None 0 0 skip_result_fixed false) (mk_field MYSQL_TYPE_SHORT UNSIGNED_FLAG 6 0 0 0)
    [1; 200; 0] 1 [200; 0] 1 (repeat 9 4)); try done; [auto|simpl; lia| |].
  - repeat (apply Forall_cons; split; [unfold is_byte, uint; lia|]). by apply Forall_nil.
  - left. unfold sint. vm_compute. split; discriminate || reflexivity.
Defined.

(** The excluded case: the largest BIGINT UNSIGNED in a signed INT buffer becomes -1 without an error. *)
Lemma bigint_unsigned_unnoticed :
  exists r', ps_fetch_int64 (fun _ => (0, 0)) (fun z => z) 7
      (mk_bind (Mem (repeat 9 4)) 0 0 0 0 0 MYSQL_TYPE_LONG false None 0 0 skip_result_fixed false) (mk_field MYSQL_TYPE_LONGLONG UNSIGNED_FLAG 20 0 0 0)
      (repeat 255 8) 0 = Ret (r', 8)
    /\ buffer r' = Mem (repeat 255 4) /\ berror r' = 0.
Proof. eexists. split; [vm_compute; reflexivity|done]. Qed.

(** A TINY column in a MYSQL_TYPE_INT24 buffer of four bytes, whose buffer_length the application need not
    set, is converted to text, of which nothing is stored. *)
Lemma int24_buffer_not_filled :
  exists r', ps_fetch_int8 (fun _ => (0, 0)) (fun z => z) 7
      (mk_bind (Mem (repeat 9 4)) 0 4 0 0 0 MYSQL_TYPE_INT24 false None 0 0 skip_result_fixed false) (mk_field MYSQL_TYPE_TINY 0 4 0 0 0) [5] 0
    = Ret (r', 1) /\ buffer r' = Mem (repeat 9 4) /\ blength r' = 1 /\ berror r' = 1.
Proof. eexists. split; [vm_compute; reflexivity|done]. Qed.

(** * Strings in string buffers *)

(** The part of a text from an offset on that a buffer of [n] bytes takes, with a NUL when
    there is room for one. *)
Definition piece (n : Z) (text : bytes) : bytes :=
  take (Z.to_nat n) text ++ (if Z.of_nat (length text) <? n then [0] else []).

Lemma length_piece n text : 0 <= n -> (length (piece n text) <= Z.to_nat n)%nat.
Proof.
  intros Hn. unfold piece. rewrite length_app, length_take.
  destruct (Z.ltb_spec (Z.of_nat (length text)) n); simpl; lia.
Qed.

Lemma copy_part_copies r mem start rest dst :
  buffer r = Mem dst -> 0 <= buffer_length r <= Z.of_nat (length dst) -> all_bytes rest -> text_at mem start rest ->
  copy_part r mem start (start + Z.of_nat (length rest))
  = Ret (set_buffer r (Mem (splice 0 (take (Z.to_nat (buffer_length r)) rest) dst)), Z.of_nat (length rest)).
Proof.
  intros Hb Hbl Hbytes Hm. unfold copy_part. set (part := take (Z.to_nat (buffer_length r)) rest).
  assert (Forall is_byte part) as Hbp by (apply Forall_take; done).
  assert (length part = Z.to_nat (Z.min (Z.of_nat (length rest)) (buffer_length r))) as Hpart
    by (unfold part; rewrite length_take; lia).
  assert (part = [] -> r = set_buffer r (Mem (splice 0 part dst))) as Hnil
    by (intros ->; rewrite splice_nil, <- Hb; by destruct r).
  replace (start + Z.of_nat (length rest) - start) with (Z.of_nat (length rest)) by lia.
  destruct (Z.ltb_spec start (start + Z.of_nat (length rest))).
  - destruct (nonzero (buffer_length r)) eqn:Hz.
    + rewrite <- (take_drop (Z.to_nat (buffer_length r)) rest) in Hm.
      apply text_at_app in Hm as [Hm _]. fold part in Hm. unfold text_at in Hm. rewrite Hpart in Hm.
      rewrite Hm, bind_ret. rewrite (put_mem r dst _ (splice 0 part dst) Hb); [done|].
      rewrite store_bytes_splice, map_u8_bytes by (done || (unfold room; rewrite Hpart; lia)). done.
    + apply nonzero_false in Hz. rewrite bind_ret, <- Hnil; [done|]. apply nil_length_inv. lia.
  - rewrite <- Hnil by (apply nil_length_inv; lia). by replace (Z.of_nat (length rest)) with 0 by lia.
Qed.

Lemma text_at_drop mem p k t : (k <= length t)%nat -> text_at mem p t -> text_at mem (p + Z.of_nat k) (drop k t).
Proof.
  intros Hk Hm. rewrite <- (take_drop k t) in Hm. apply text_at_app in Hm as [_ Hm]. by rewrite length_take_le in Hm by lia.
Qed.

Lemma copy_string_copies r mem buf text dst :
  buffer r = Mem dst -> 0 <= buffer_length r <= Z.of_nat (length dst) -> all_bytes text -> text_at mem buf text ->
  0 <= offset r <= Z.of_nat (length text) ->
  let rest := drop (Z.to_nat (offset r)) text in
  copy_string r mem buf (Z.of_nat (length text))
  = Ret (set_length (set_error (set_buffer r (Mem (splice 0 (piece (buffer_length r) rest) dst)))
           (bool_z (Z.of_nat (length rest) >? buffer_length r))) (Z.of_nat (length text))).
Proof.
  intros Hb Hbl Hbytes Hm Hoff rest. unfold copy_string. rewrite Z.geb_leb, (proj2 (Z.leb_le _ _)) by lia.
  apply (text_at_drop _ _ (Z.to_nat (offset r))) in Hm; [|lia]. rewrite Z2Nat.id in Hm by lia. fold rest in Hm.
  replace (buf + Z.of_nat (length text)) with (buf + offset r + Z.of_nat (length rest)) by (unfold rest; rewrite length_drop; lia).
  rewrite (copy_part_copies r mem _ rest dst) by (done || by apply Forall_drop). rewrite bind_ret.
  unfold piece. cbn [buffer_length set_buffer]. set (part := take _ rest).
  destruct (Z.ltb_spec (Z.of_nat (length rest)) (buffer_length r)) as [Hlt|Hge]; [|by rewrite app_nil_r].
  assert (length part = length rest) as Hpart by (unfold part; rewrite length_take; lia).
  rewrite (put_mem _ (splice 0 part dst) _ (splice 0 (part ++ [0]) dst)); [done|done|].
  assert (room dst 0 (length part)) by (unfold room; lia).
  rewrite store_splice1 by (unfold is_byte, uint, room; rewrite ?length_splice by done; lia). f_equal.
  replace (Z.of_nat (length rest)) with (0 + Z.of_nat (length part)) by lia.
  apply splice_app. unfold room. rewrite length_app. simpl. lia.
Qed.

(** Buffers of characters and other bytes. *)
Definition string_type (t : Z) : bool :=
  negb (is_type t [MYSQL_TYPE_TINY; MYSQL_TYPE_YEAR; MYSQL_TYPE_SHORT; MYSQL_TYPE_LONG; MYSQL_TYPE_CURSOR; MYSQL_TYPE_LONGLONG;
    MYSQL_TYPE_DOUBLE; MYSQL_TYPE_FLOAT; MYSQL_TYPE_TIME; MYSQL_TYPE_DATE; MYSQL_TYPE_DATETIME; MYSQL_TYPE_TIMESTAMP]).

Lemma convert_string_type strtod fod r mem buf len : string_type (buffer_type r) = true ->
  convert_froma_string strtod fod r mem buf len = copy_string r mem buf len.
Proof.
  unfold string_type, convert_froma_string, is_type. rewrite negb_true_iff. simpl. rewrite !orb_false_iff, !orb_false_r.
  by intros (-> & -> & -> & -> & -> & -> & -> & -> & -> & -> & -> & -> & _).
Qed.

Lemma ps_fetch_string_copies strtod fod r f mem row text dst :
  string_type (buffer_type r) = true -> buffer r = Mem dst -> 0 <= buffer_length r <= Z.of_nat (length dst) ->
  all_bytes text -> Z.of_nat (length text) < 2 ^ 32 -> 0 <= offset r <= Z.of_nat (length text) ->
  text_at mem row (lenenc (Z.of_nat (length text)) ++ text) ->
  let rest := drop (Z.to_nat (offset r)) text in
  ps_fetch_string strtod fod r f mem row
  = Ret (set_length (set_error (set_buffer r (Mem (splice 0 (piece (buffer_length r) rest) dst)))
           (bool_z (Z.of_nat (length rest) >? buffer_length r))) (Z.of_nat (length text)),
         row + Z.of_nat (length (lenenc (Z.of_nat (length text)) ++ text))).
Proof.
  intros Ht Hb Hbl Hbytes H32 Hoff [Hm1 Hm2]%text_at_app rest.
  destruct (field_length_reads mem row (Z.of_nat (length text))) as [Hf _]; [unfold uint; lia|done|].
  unfold ps_fetch_string. rewrite Hf, bind_ret, convert_string_type by done. rewrite (wrap_small 32) by (unfold uint; lia).
  rewrite (copy_string_copies r mem _ text dst), bind_ret by done. fold rest. do 2 f_equal. rewrite length_app. lia.
Qed.

(** A string column (below four gigabytes) is fetched from an offset into a buffer of any
    size: as much as fits is copied, a NUL is added when there is room, nothing behind the buffer is touched,
    the length is that of the whole column, the error flag tells whether something was left out, and the row
    pointer is behind the column.  Fetching again from the end of a piece therefore continues it. *)
Theorem string_fetch strtod fod r f mem row text dst :
  string_type (buffer_type r) = true -> buffer r = Mem dst -> 0 <= buffer_length r <= Z.of_nat (length dst) ->
  all_bytes text -> Z.of_nat (length text) < 2 ^ 32 -> 0 <= offset r <= Z.of_nat (length text) ->
  text_at mem row (lenenc (Z.of_nat (length text)) ++ text) ->
  exists r', ps_fetch_string strtod fod r f mem row
      = Ret (r', row + Z.of_nat (length (lenenc (Z.of_nat (length text)) ++ text)))
    /\ (let rest := drop (Z.to_nat (offset r)) text in
        buffer r' = Mem (splice 0 (piece (buffer_length r) rest) dst)
        /\ blength r' = Z.of_nat (length text)
        /\ berror r' = bool_z (Z.of_nat (length rest) >? buffer_length r)
        /\ (forall k n, buffer_length r <= k -> match buffer r' with
             | Mem dst' => load_bytes dst' k n = load_bytes dst k n | _ => False end)
        /\ (berror r' = 1 -> take (Z.to_nat (offset r)) text ++ piece (buffer_length r) rest
              = take (Z.to_nat (offset r + buffer_length r)) text)).
Proof.
  intros Ht Hb Hbl Hbytes H32 Hoff Hm. rewrite (ps_fetch_string_copies strtod fod r f mem row text dst) by done.
  eexists. split; [done|]. cbn zeta.
  split_and!; [done|done|done| |].
  - intros k n Hk. cbn [buffer set_buffer set_length set_error].
    set (rest := drop _ text). pose proof (length_piece (buffer_length r) rest ltac:(lia)).
    apply load_bytes_splice_out; [unfold room; lia|right; lia].
  - cbn [berror set_length set_error]. intros He.
    set (rest := drop (Z.to_nat (offset r)) text) in *. rewrite Z.gtb_ltb in He.
    destruct (Z.ltb_spec (buffer_length r) (Z.of_nat (length rest))) as [Hlt|]; [|done].
    unfold piece. rewrite (proj2 (Z.ltb_ge _ _)) by lia. rewrite app_nil_r. unfold rest.
    rewrite Z2Nat.inj_add by lia. apply take_take_drop.
Qed.

Lemma string_fetch_witness :
  exists r', ps_fetch_string (fun _ => (0, 0)) (fun z => z)
      (mk_bind (Mem (repeat 9 4)) 2 0 0 0 1 MYSQL_TYPE_STRING false None 0 0 skip_result_fixed false)
      (mk_field MYSQL_TYPE_STRING 0 20 0 8 0) [0; 4; 65; 66; 67; 68] 1 = Ret (r', 1 + 5)
    /\ buffer r' = Mem [66; 67; 9; 9] /\ blength r' = 4 /\ berror r' = 1.
Proof.
  destruct (string_fetch (fun _ => (0, 0)) (fun z => z)
      (mk_bind (Mem (repeat 9 4)) 2 0 0 0 1 MYSQL_TYPE_STRING false None 0 0 skip_result_fixed false)
      (mk_field MYSQL_TYPE_STRING 0 20 0 8 0) [0; 4; 65; 66; 67; 68] 1 [65; 66; 67; 68] (repeat 9 4)) as (r' & H & H1 & H2 & H3 & _);
    try (simpl; (done || lia)).
  - repeat (apply Forall_cons; split; [unfold is_byte, uint; lia|]). by apply Forall_nil.
  - exists r'. split; [exact H|]. split; [exact H1|]. split; [exact H2|exact H3].
Defined.

Example float_bits_example : float_bits 53 64 (-3) = 0xC008000000000000.
Proof. reflexivity. Qed.

End StmtFetch.
