(* ===== verification/StmtFloat.v ===== *)
(** Floating-point columns of prepared statements: convert_from_float, convert_from_double,
    ps_fetch_float and ps_fetch_double of libmariadb/ma_stmt_codec.c.

    A floating-point number is its bits; [prec] is the number of bits of its significand and
    [total] its width (24 and 32 for float, 53 and 64 for double).  The conversion of a value
    to an integer type that cannot hold it is undefined in C, and is an argument; so are the
    routines ma_gcvt and ma_fcvt of ma_dtoa.c, which print a double. *)

From stdpp Require Import tactics.
From S2P Require Import Prelude IntStore NumText LenEnc StmtTime TimeText StmtFetch.
Import NumText LenEnc StmtTime TimeText StmtFetch.

Module StmtFloat.

Definition MAX_DOUBLE_STRING_REP_LENGTH : Z := 300.
Definition NOT_FIXED_DEC : Z := 31.
Definition MY_GCVT_ARG_FLOAT : Z := 0.
Definition MY_GCVT_ARG_DOUBLE : Z := 1.

(** * Numbers as bits *)

Definition mantissa_bits (prec bits : Z) : Z := bits mod 2 ^ (prec - 1).
Definition exponent_bits (prec total bits : Z) : Z := (bits / 2 ^ (prec - 1)) mod 2 ^ (total - prec).
Definition negative (total bits : Z) : bool := 2 ^ (total - 1) <=? bits.

(** Infinities and NaNs. *)
Definition special (prec total bits : Z) : bool := exponent_bits prec total bits =? 2 ^ (total - prec) - 1.
Definition isnan (prec total bits : Z) : bool := special prec total bits && nonzero (mantissa_bits prec bits).

(** A finite number is its significand times a power of two. *)
Definition significand (prec total bits : Z) : Z :=
  if exponent_bits prec total bits =? 0 then mantissa_bits prec bits else mantissa_bits prec bits + 2 ^ (prec - 1).
Definition scale (prec total bits : Z) : Z :=
  Z.max 1 (exponent_bits prec total bits) - (2 ^ (total - prec - 1) - 1) - (prec - 1).

(** The integer part: floor() of the magnitude, with the sign. *)
Definition int_part (prec total bits : Z) : Z :=
  let m := significand prec total bits in
  let k := scale prec total bits in
  let a := if k <? 0 then m / 2 ^ (- k) else m * 2 ^ k in
  if negative total bits then - a else a.

(** A float as a double. *)
Definition double_of_float (bits : Z) : Z :=
  let sign := if negative 32 bits then 2 ^ 63 else 0 in
  let f := mantissa_bits 24 bits in
  let e := exponent_bits 24 32 bits in
  if special 24 32 bits then sign + 2047 * 2 ^ 52 + (if f =? 0 then 0 else 2 ^ 51 + f mod 2 ^ 22 * 2 ^ 29)
  else if e =? 0 then
    if f =? 0 then sign
    else let b := Z.log2 f in sign + (b - 149 + 1023) * 2 ^ 52 + (f - 2 ^ b) * 2 ^ (52 - b)
  else sign + (e - 127 + 1023) * 2 ^ 52 + f * 2 ^ 29.

Section convert_float.
Context (strtod : bytes -> Z * Z) (float_of_double : Z -> Z) (junk : Z).
(** What the machine makes of a number that an integer type of so many bytes cannot hold. *)
Context (outside : nat -> bool -> Z -> Z).
(** The text that ma_gcvt and ma_fcvt write. *)
Context (ma_gcvt : Z -> Z -> Z -> bytes) (ma_fcvt : Z -> Z -> bytes).

(** Conversion to an integer type of [n] bytes. *)
Definition to_int (prec total : Z) (n : nat) (uns : bool) (val : Z) : Z :=
  let v := int_part prec total val in
  if negb (special prec total val) && bool_decide (in_range uns n v) then v
  else if uns then wrap (8 * Z.of_nat n) (outside n uns val) else swrap (8 * Z.of_nat n) (outside n uns val).

(** check_trunc_val != (double) ival *)
Definition check_differs (prec total val ival : Z) : bool :=
  special prec total val || negb (int_part prec total val =? float_value 53 ival).

(** The case of an integer buffer of [n] bytes. *)
Definition put_int (prec total : Z) (n : nat) (r : MYSQL_BIND) (val : Z) : cres MYSQL_BIND :=
  let ival := to_int prec total n (is_unsigned r) val in
  r ← put r (fun bs => match n with
                       | 1%nat => store bs 0 ival
                       | 2%nat => int2store bs 0 ival
                       | 4%nat => int4store bs 0 ival
                       | _ => int8store bs 0 ival
                       end);
  Ret (set_buffer_length (set_error r (bool_z (check_differs prec total val ival))) (Z.of_nat n)).

(** snprintf() of a constant text into the local buffer. *)
Definition snprintf (buf : bytes) (n : Z) (text : bytes) : cres bytes :=
  if n =? 0 then Ret buf else store_bytes buf 0 (take (Z.to_nat (n - 1)) text ++ [0]).

(** The default case: the number as text, with leading zeros for ZEROFILL.  [type] is the type
    that ma_gcvt is told. *)
Definition put_text (prec total type dval : Z) (r : MYSQL_BIND) (f : MYSQL_FIELD) (val : Z) : cres MYSQL_BIND :=
  let buff := repeat junk (Z.to_nat MAX_DOUBLE_STRING_REP_LENGTH) in
  let length := Z.min (MAX_DOUBLE_STRING_REP_LENGTH - 1) (buffer_length r) in
  '(buff, length) ←
    (if isnan prec total val then
       buff ← snprintf buff length [78; 97; 110]; Ret (buff, 3)
     else if special prec total val then
       if negb (negative total val) then buff ← snprintf buff length [73; 110; 102]; Ret (buff, 3)
       else buff ← snprintf buff length [45; 73; 110; 102]; Ret (buff, 4)
     else
       let text := if decimals f >=? NOT_FIXED_DEC then ma_gcvt dval type (s32 length) else ma_fcvt dval (decimals f) in
       buff ← store_bytes buff 0 (text ++ [0]);
       Ret (buff, Z.of_nat (List.length text)));
  if nonzero (Z.land (fflags f) ZEROFILL_FLAG) then
    if (flength f <? length) || (flength f >? MAX_DOUBLE_STRING_REP_LENGTH - 1) then Ret r
    else
      buff ← ma_bmove_upp buff (0 + flength f) (0 + length) (Z.to_nat length);
      buff ← store_bytes buff 0 (repeat 48 (Z.to_nat (flength f - length)));
      convert_froma_string strtod float_of_double r buff 0 (flength f)
  else convert_froma_string strtod float_of_double r buff 0 length.

Definition convert_from_float (r : MYSQL_BIND) (f : MYSQL_FIELD) (val : Z) : cres MYSQL_BIND :=
  let type := buffer_type r in
  if type =? MYSQL_TYPE_TINY then put_int 24 32 1 r val
  else if is_type type [MYSQL_TYPE_SHORT; MYSQL_TYPE_YEAR] then put_int 24 32 2 r val
  else if is_type type [MYSQL_TYPE_LONG; MYSQL_TYPE_CURSOR] then put_int 24 32 4 r val
  else if type =? MYSQL_TYPE_LONGLONG then put_int 24 32 8 r val
  else if type =? MYSQL_TYPE_DOUBLE then
    r ← put r (fun bs => int8store bs 0 (double_of_float val));
    Ret (set_buffer_length r 8)
  else put_text 24 32 MY_GCVT_ARG_FLOAT (double_of_float val) r f val.

(** The error of a float buffer compares the float with itself: only a NaN differs. *)
Definition convert_from_double (r : MYSQL_BIND) (f : MYSQL_FIELD) (val : Z) : cres MYSQL_BIND :=
  let type := buffer_type r in
  if type =? MYSQL_TYPE_TINY then put_int 53 64 1 r val
  else if is_type type [MYSQL_TYPE_SHORT; MYSQL_TYPE_YEAR] then put_int 53 64 2 r val
  else if is_type type [MYSQL_TYPE_LONG; MYSQL_TYPE_CURSOR] then put_int 53 64 4 r val
  else if type =? MYSQL_TYPE_LONGLONG then put_int 53 64 8 r val
  else if type =? MYSQL_TYPE_FLOAT then
    let fval := float_of_double val in
    r ← put r (fun bs => int4store bs 0 fval);
    Ret (set_buffer_length (set_error r (bool_z (isnan 24 32 fval))) 4)
  else put_text 53 64 MY_GCVT_ARG_DOUBLE val r f val.

Definition ps_fetch_double (r : MYSQL_BIND) (f : MYSQL_FIELD) (mem : bytes) (row : Z) : cres (MYSQL_BIND * Z) :=
  bs ← load_bytes mem row 8;
  if buffer_type r =? MYSQL_TYPE_DOUBLE then
    r ← put r (fun dst => store_bytes dst 0 bs);
    Ret (set_buffer_length r 8, row + 8)
  else
    r ← convert_from_double r f (le_val bs);
    Ret (r, row + 8).

Definition ps_fetch_float (r : MYSQL_BIND) (f : MYSQL_FIELD) (mem : bytes) (row : Z) : cres (MYSQL_BIND * Z) :=
  bs ← load_bytes mem row 4;
  if buffer_type r =? MYSQL_TYPE_FLOAT then
    r ← put r (fun dst => store_bytes dst 0 bs);
    Ret (set_error (set_buffer_length r 4) 0, row + 4)
  else
    r ← convert_from_float r f (le_val bs);
    Ret (r, row + 4).

End convert_float.

Example half_is_zero : int_part 53 64 0x3FE0000000000000 = 0 /\ int_part 53 64 0xC01C000000000000 = -7
  /\ int_part 53 64 0x43E0000000000000 = 2 ^ 63 /\ int_part 24 32 0x4B7FFFFF = 16777215
  /\ double_of_float 0x40E00000 = 0x401C000000000000 /\ double_of_float 1 = 0x36A0000000000000.
Proof. vm_compute. done. Qed.

(** * Numbers in integer buffers *)

(** A number with few enough significant bits is converted to floating point exactly. *)
Lemma float_value_exact prec v m k : 0 < prec -> 0 <= m < 2 ^ prec -> 0 <= k -> Z.abs v = m * 2 ^ k -> float_value prec v = v.
Proof.
  intros Hprec Hm Hk Ha. destruct (Z.eq_dec v 0) as [->|Hv]; [unfold float_value; by destruct (round_to _ _)|].
  unfold float_value. assert (Z.abs v > 0) as Hpos by lia. assert (0 < m) as Hm0 by nia.
  assert ((let '(m, e) := round_to prec (Z.abs v) in if e <? 0 then m / 2 ^ (- e) else m * 2 ^ e) = Z.abs v) as E.
  2: { destruct (round_to prec (Z.abs v)). rewrite E. rewrite Z.mul_comm. apply Z.abs_sgn. }
  unfold round_to. set (a := Z.abs v) in *. destruct (Z.log2_spec a ltac:(lia)) as [_ Hlog].
  rewrite <- Z.add_1_r in Hlog. set (b := Z.log2 a + 1) in *. pose proof (Z.log2_nonneg a).
  destruct (Z.leb_spec b prec).
  - destruct (Z.ltb_spec (b - prec) 0); [replace (- (b - prec)) with (prec - b) by lia; apply Z.div_mul; apply Z.pow_nonzero; lia|].
    replace b with prec by lia. rewrite Z.sub_diag. lia.
  - assert (Z.log2 m < prec) as Hlm by (apply Z.log2_lt_pow2; lia).
    assert (b - prec <= k) as Hsk by (unfold b; rewrite Ha, Z.log2_mul_pow2 by lia; lia).
    set (s := b - prec) in *. assert (a = m * 2 ^ (k - s) * 2 ^ s) as Hs.
    { rewrite <- Z.mul_assoc, <- Z.pow_add_r by lia. rewrite Ha. do 2 f_equal. lia. }
    assert (0 < 2 ^ s) by (apply Z.pow_pos_nonneg; lia). assert (0 < 2 ^ (s - 1)) by (apply Z.pow_pos_nonneg; lia).
    assert (a / 2 ^ s * 2 ^ s = a) as Hq by (rewrite Hs, Z.div_mul by lia; done).
    assert (a mod 2 ^ s = 0) as -> by (rewrite Hs; apply Z.mod_mul; lia).
    rewrite Z.gtb_ltb, (proj2 (Z.ltb_ge _ _)), (proj2 (Z.eqb_neq 0 _)) by lia. cbn [orb andb].
    assert (a / 2 ^ s < 2 ^ prec) as Hlt.
    { apply Z.div_lt_upper_bound; [lia|]. rewrite <- Z.pow_add_r by lia. replace (s + prec) with b by lia. done. }
    rewrite (proj2 (Z.eqb_neq _ _)) by lia. rewrite (proj2 (Z.ltb_ge _ _)) by lia. done.
Qed.

Lemma significand_bound prec total bits : 0 < prec -> 0 <= significand prec total bits < 2 ^ prec.
Proof.
  intros Hp. unfold significand, mantissa_bits. pose proof (Z.mod_pos_bound bits (2 ^ (prec - 1)) ltac:(apply Z.pow_pos_nonneg; lia)).
  assert (2 ^ prec = 2 * 2 ^ (prec - 1)) by (rewrite <- Z.pow_succ_r by lia; f_equal; lia).
  destruct (_ =? 0); lia.
Qed.

(** The integer part of a float or double is a double. *)
Lemma int_part_exact prec total bits : 0 < prec <= 53 -> float_value 53 (int_part prec total bits) = int_part prec total bits.
Proof.
  intros Hp. pose proof (significand_bound prec total bits ltac:(lia)) as Hs. unfold int_part.
  set (m := significand prec total bits) in *. set (k := scale prec total bits).
  assert (2 ^ prec <= 2 ^ 53) by (apply Z.pow_le_mono_r; lia).
  assert (forall a m' k', 0 <= m' < 2 ^ 53 -> 0 <= k' -> a = m' * 2 ^ k' -> forall neg : bool, float_value 53 (if neg then - a else a) = if neg then - a else a) as H'.
  { intros a m' k' Hm' Hk' Ha neg. apply (float_value_exact 53 _ m' k'); try lia.
    assert (0 <= a) by (rewrite Ha; apply Z.mul_nonneg_nonneg; [lia|apply Z.pow_nonneg; lia]). destruct neg; lia. }
  destruct (Z.ltb_spec k 0).
  - apply (H' _ (m / 2 ^ (- k)) 0); [|lia|lia]. assert (0 < 2 ^ (- k)) by (apply Z.pow_pos_nonneg; lia).
    split; [apply Z.div_pos; lia|]. apply Z.div_lt_upper_bound; nia.
  - apply (H' _ m k); lia.
Qed.

Lemma small_exact v : - 2 ^ 53 < v < 2 ^ 53 -> float_value 53 v = v.
Proof. intros. apply (float_value_exact 53 v (Z.abs v) 0); lia. Qed.

Section exact.
Context (strtod : bytes -> Z * Z) (float_of_double : Z -> Z) (junk : Z) (outside : nat -> bool -> Z -> Z).
Context (ma_gcvt : Z -> Z -> Z -> bytes) (ma_fcvt : Z -> Z -> bytes).

Lemma put_int_stores prec total n r val dst :
  0 < prec <= 53 -> (n = 1 \/ n = 2 \/ n = 4 \/ n = 8)%nat -> buffer r = Mem dst -> (n <= length dst)%nat ->
  exists r', put_int outside prec total n r val = Ret r' /\ buffer_length r' = Z.of_nat n
    /\ buffer r' = Mem (splice 0 (le_bytes n (to_int outside prec total n (is_unsigned r) val)) dst)
    /\ berror r' = bool_z (check_differs prec total val (to_int outside prec total n (is_unsigned r) val)).
Proof.
  intros Hp Hn Hb Hl. unfold put_int. set (v := to_int _ _ _ _ _ _).
  rewrite (put_mem _ dst _ (splice 0 (le_bytes n v) dst) Hb), bind_ret; [eexists; split; done|].
  destruct Hn as [->|[->|[->| ->]]];
    [apply int1store_splice|apply int2store_splice|apply int4store_splice|apply int8store_splice]; split; lia.
Qed.

(** The error flag tells whether the integer part is in range, for types of at most four bytes
    whatever the machine makes of the others. *)
Lemma check_in_range prec total n uns val :
  0 < prec <= 53 -> special prec total val = false -> in_range uns n (int_part prec total val) ->
  to_int outside prec total n uns val = int_part prec total val
  /\ check_differs prec total val (to_int outside prec total n uns val) = false.
Proof.
  intros Hp Hs Hr. unfold check_differs, to_int. rewrite Hs, bool_decide_true by done. cbn [negb andb orb]. split; [done|].
  by rewrite int_part_exact, Z.eqb_refl.
Qed.

Lemma check_out_of_range prec total n uns val :
  (0 < n <= 4)%nat -> special prec total val = true \/ ~ in_range uns n (int_part prec total val) ->
  check_differs prec total val (to_int outside prec total n uns val) = true.
Proof.
  intros Hn Hr. unfold check_differs. destruct (special prec total val) eqn:Hs; [done|]. destruct Hr as [|Hr]; [done|].
  unfold to_int. rewrite Hs, bool_decide_false by done. cbn [negb andb orb].
  assert (exists v, in_range uns n v /\ (if uns then wrap (8 * Z.of_nat n) (outside n uns val) else swrap (8 * Z.of_nat n) (outside n uns val)) = v)
    as (v & Hv & ->) by (eexists; split; [|done]; unfold in_range; destruct uns; [apply wrap_uint; lia|apply swrap_sint; lia]).
  assert (2 ^ (8 * Z.of_nat n) <= 2 ^ 32) by (apply Z.pow_le_mono_r; lia).
  assert (2 ^ (8 * Z.of_nat n - 1) <= 2 ^ 32) by (apply Z.pow_le_mono_r; lia).
  rewrite small_exact; [|unfold in_range, uint, sint in Hv; destruct uns; lia].
  destruct (Z.eqb_spec (int_part prec total val) v); [congruence|done].
Qed.

(** The fetch functions of floating-point columns. *)
Definition ps_fetch_real (wide : bool) :=
  if wide then ps_fetch_double strtod float_of_double junk outside ma_gcvt ma_fcvt
  else ps_fetch_float strtod float_of_double junk outside ma_gcvt ma_fcvt.
Definition real_prec (wide : bool) : Z := if wide then 53 else 24.
Definition real_size (wide : bool) : nat := if wide then 8%nat else 4%nat.
Definition real_bits (wide : bool) : Z := 8 * Z.of_nat (real_size wide).

Lemma fetch_real_int wide r f mem row bs n :
  int_size (buffer_type r) = Some n -> all_bytes bs -> length bs = real_size wide -> text_at mem row bs ->
  ps_fetch_real wide r f mem row
  = r' ← put_int outside (real_prec wide) (real_bits wide) n r (le_val bs); Ret (r', row + Z.of_nat (real_size wide)).
Proof.
  intros Hn Hb Hl Hm. unfold text_at in Hm. rewrite Hl in Hm. apply int_size_cases in Hn.
  destruct wide; cbn [ps_fetch_real real_size real_prec real_bits] in *; unfold ps_fetch_double, ps_fetch_float; rewrite Hm, bind_ret;
    unfold convert_from_double, convert_from_float;
    destruct Hn as [[-> ->]|[[-> ->]|[[-> ->]|[[-> ->]|[[-> ->]|[-> ->]]]]]]; done.
Qed.

(** C30: a FLOAT or DOUBLE column is fetched into an integer buffer of any size and sign: a finite
    value whose integer part is in the range of the buffer is stored as its integer part without
    an error, and for buffers of up to four bytes every other value, infinities and NaNs
    included, sets the error flag, whatever the machine's conversion yields for it. *)
Theorem real_fetch_exact wide r f mem row bs n dst :
  buffer r = Mem dst -> int_size (buffer_type r) = Some n -> (n <= length dst)%nat ->
  all_bytes bs -> length bs = real_size wide -> text_at mem row bs ->
  let sp := special (real_prec wide) (real_bits wide) (le_val bs) in
  let v := int_part (real_prec wide) (real_bits wide) (le_val bs) in
  exists r', ps_fetch_real wide r f mem row = Ret (r', row + Z.of_nat (real_size wide)) /\ buffer_length r' = Z.of_nat n
    /\ (sp = false -> in_range (is_unsigned r) n v -> buffer r' = Mem (splice 0 (le_bytes n v) dst) /\ berror r' = 0)
    /\ ((n <= 4)%nat -> sp = true \/ ~ in_range (is_unsigned r) n v -> berror r' = 1).
Proof.
  intros Hb Hn Hlen Hbs Hl Hm sp v. rewrite (fetch_real_int wide r f mem row bs n) by done. pose proof (int_size_le _ _ Hn).
  assert (0 < real_prec wide <= 53) as Hp by (destruct wide; done).
  destruct (put_int_stores (real_prec wide) (real_bits wide) n r (le_val bs) dst) as (r' & -> & Hbl & Hbuf & Herr); try done.
  exists r'. rewrite bind_ret. split_and!; [done|done| |].
  - intros Hs Hr. destruct (check_in_range (real_prec wide) (real_bits wide) n (is_unsigned r) (le_val bs)) as [E1 E2]; try done.
    split; [by rewrite Hbuf, E1|by rewrite Herr, E2].
  - intros Hn4 Hr. rewrite Herr, check_out_of_range by (done || lia). done.
Qed.

End exact.

Lemma real_fetch_exact_witness :
  exists r', ps_fetch_real (fun _ => (0, 0)) (fun z => z) 7 (fun _ _ _ => 0) (fun _ _ _ => []) (fun _ _ => []) true
      (mk_bind (Mem (repeat 9 4)) 0 0 0 0 0 MYSQL_TYPE_SHORT false None 0 0 skip_result_fixed false) (mk_field MYSQL_TYPE_DOUBLE 0 6 31 0 0)
      [1; 0; 0; 0; 0; 0; 0; 0x1C; 0xC0] 1 = Ret (r', 9)
    /\ buffer r' = Mem [249; 255; 9; 9] /\ berror r' = 0.
Proof.
  destruct (real_fetch_exact (fun _ => (0, 0)) (fun z => z) 7 (fun _ _ _ => 0) (fun _ _ _ => []) (fun _ _ => []) true
    (mk_bind (Mem (repeat 9 4)) 0 0 0 0 0 MYSQL_TYPE_SHORT false None 0 0 skip_result_fixed false) (mk_field MYSQL_TYPE_DOUBLE 0 6 31 0 0)
    [1; 0; 0; 0; 0; 0; 0; 0x1C; 0xC0] 1 [0; 0; 0; 0; 0; 0; 0x1C; 0xC0] 2 (repeat 9 4)) as (r' & H1 & _ & H2 & _); try done.
  - simpl. lia.
  - repeat (apply Forall_cons; split; [unfold is_byte, uint; lia|]). by apply Forall_nil.
  - exists r'. split; [exact H1|]. apply H2; [reflexivity|]. vm_compute. split; discriminate || reflexivity.
Defined.

(** The excluded case: on a machine that saturates, 2^63 in a BIGINT buffer becomes 2^63 - 1 without an error. *)
Lemma bigint_saturation_unnoticed :
  exists r', ps_fetch_double (fun _ => (0, 0)) (fun z => z) 7 (fun _ _ _ => 2 ^ 63 - 1) (fun _ _ _ => []) (fun _ _ => [])
      (mk_bind (Mem (repeat 9 8)) 0 0 0 0 0 MYSQL_TYPE_LONGLONG false None 0 0 skip_result_fixed false) (mk_field MYSQL_TYPE_DOUBLE 0 6 31 0 0)
      (le_bytes 8 0x43E0000000000000) 0 = Ret (r', 8)
    /\ buffer r' = Mem (le_bytes 8 (2 ^ 63 - 1)) /\ berror r' = 0.
Proof. eexists. split; [vm_compute; reflexivity|done]. Qed.

(** A double that is no float (0.1) is stored in a float buffer without an error. *)
Lemma float_truncation_unnoticed :
  exists r', ps_fetch_double (fun _ => (0, 0)) (fun _ => 0x3DCCCCCD) 7 (fun _ _ _ => 0) (fun _ _ _ => []) (fun _ _ => [])
      (mk_bind (Mem (repeat 9 4)) 0 0 1 0 0 MYSQL_TYPE_FLOAT false None 0 0 skip_result_fixed false) (mk_field MYSQL_TYPE_DOUBLE 0 6 31 0 0)
      (le_bytes 8 0x3FB999999999999A) 0 = Ret (r', 8)
    /\ buffer r' = Mem (le_bytes 4 0x3DCCCCCD) /\ berror r' = 0 /\ double_of_float 0x3DCCCCCD <> 0x3FB999999999999A.
Proof. eexists. split; [vm_compute; reflexivity|done]. Qed.

(** A text of 300 characters or more, as that of a number from 1e299 on, is written past the end of the local array. *)
Lemma fixed_text_overflows :
  ps_fetch_double (fun _ => (0, 0)) (fun z => z) 7 (fun _ _ _ => 0) (fun _ _ _ => []) (fun _ _ => 49 :: repeat 48 300 ++ [46; 48])
    (mk_bind (Mem (repeat 9 400)) 400 0 0 0 0 MYSQL_TYPE_STRING false None 0 0 skip_result_fixed false) (mk_field MYSQL_TYPE_DOUBLE 0 6 1 0 0)
    (le_bytes 8 0x7E37E43C8800759C) 0 = Fault.
Proof. vm_compute. reflexivity. Qed.

End StmtFloat.
