(* ===== verification/StmtOracle.v ===== *)
(** Columns of Oracle mode in prepared statements: ps_fetch_oracle_timestamp,
    ps_fetch_oracle_interval, ps_fetch_oracle_raw and fetch_result_ob_lob of
    libmariadb/ma_stmt_codec.c.

    [externals] collects what the fetch functions use and this library does not model: strtod()
    and the conversions of the machine, the routines of ma_dtoa.c, the texts that the format
    models of ob_oracle_format_models.c and mariadb_lib.c give for timestamps and intervals, and
    the fetch function of objects. *)

From stdpp Require Import tactics.
From S2P Require Import Prelude IntStore NumText LenEnc StmtTime TimeText OracleTime LobLocator StmtFetch StmtFloat.
Import NumText LenEnc StmtTime TimeText OracleTime LobLocator StmtFetch StmtFloat.

Module StmtOracle.

Definition MYSQL_TYPE_OB_TIMESTAMP_WITH_TIME_ZONE : Z := 200.
Definition MYSQL_TYPE_OB_TIMESTAMP_WITH_LOCAL_TIME_ZONE : Z := 201.
Definition MYSQL_TYPE_OB_TIMESTAMP_NANO : Z := 202.
Definition MYSQL_TYPE_OB_RAW : Z := 203.
Definition MYSQL_TYPE_VAR_STRING : Z := 253.

Record externals := mk_externals {
  x_strtod : bytes -> Z * Z;
  x_float_of_double : Z -> Z;
  x_junk : Z;
  x_outside : nat -> bool -> Z -> Z;
  x_gcvt : Z -> Z -> Z -> bytes;
  x_fcvt : Z -> Z -> bytes;
  (* calculate_new_time_length_with_nls and rewrite_new_time_with_nls: bytes of the column and its type *)
  x_time_length : bytes -> Z -> Z;
  x_time_text : bytes -> Z -> bytes;
  (* calculate_interval_length and rewrite_interval, which fails with None *)
  x_interval_length : bytes -> Z -> Z;
  x_interval_text : bytes -> Z -> option bytes;
  x_fetch_object : MYSQL_BIND -> MYSQL_FIELD -> bytes -> Z -> cres (MYSQL_BIND * Z) }.

Section oracle.
Context (X : externals).

Let from_string := convert_froma_string (x_strtod X) (x_float_of_double X).

Definition ps_fetch_oracle_timestamp (r : MYSQL_BIND) (f : MYSQL_FIELD) (mem : bytes) (row : Z) : cres (MYSQL_BIND * Z) :=
  '(length, row) ← net_field_length mem row;
  let length := u32 length in
  if is_type (buffer_type r) [MYSQL_TYPE_OB_TIMESTAMP_NANO; MYSQL_TYPE_OB_TIMESTAMP_WITH_LOCAL_TIME_ZONE; MYSQL_TYPE_OB_TIMESTAMP_WITH_TIME_ZONE] then
    let need := if length >? 16 then u32 (length - 16 + sizeof_ORACLE_TIME + 2) else sizeof_ORACLE_TIME in
    if buffer_length r <? need then Ret (set_error (set_length r need) 1, row + length)
    else
      match buffer r with
      | OTime _ names =>
        '(tm, names, need, to) ← read_timestamp mem row length (buffer_length r) names;
        Ret (set_error (set_length (set_buffer r (OTime tm names)) need) (bool_z (buffer_length r <? need)), to)
      | _ => Fault
      end
  else if is_type (buffer_type r) [MYSQL_TYPE_VAR_STRING; MYSQL_TYPE_STRING] then
    column ← load_bytes mem row (Z.to_nat length);
    let convert_len := x_time_length X column (ftype f) in
    let r := set_length r convert_len in
    r ← (if buffer_length r <? convert_len then Ret (set_error r 1)
         else
           let text := x_time_text X column (ftype f) in
           r ← put r (fun dst => store_bytes dst 0 text);
           Ret (set_length r (Z.of_nat (List.length text))));
    Ret (r, row + length)
  else
    r ← from_string r mem row length;
    Ret (r, row + length).

(** The struct is written when the buffer is large enough and the column has the length of the type. *)
Definition put_interval (r : MYSQL_BIND) (length expected : Z) (read : cres ORACLE_INTERVAL) : cres MYSQL_BIND :=
  let r := set_length r sizeof_ORACLE_INTERVAL in
  if (buffer_length r <? sizeof_ORACLE_INTERVAL) || negb (length =? expected) then Ret (set_error r 1)
  else
    match buffer r with
    | OInterval _ => i ← read; Ret (set_buffer r (OInterval i))
    | _ => Fault
    end.

Definition ps_fetch_oracle_interval (r : MYSQL_BIND) (f : MYSQL_FIELD) (mem : bytes) (row : Z) : cres (MYSQL_BIND * Z) :=
  '(length, row) ← net_field_length mem row;
  let length := u32 length in
  r ← (if buffer_type r =? MYSQL_TYPE_OB_INTERVAL_DS then put_interval r length 14 (read_interval_ds mem row)
       else if buffer_type r =? MYSQL_TYPE_OB_INTERVAL_YM then put_interval r length 7 (read_interval_ym mem row)
       else if is_type (buffer_type r) [MYSQL_TYPE_VAR_STRING; MYSQL_TYPE_STRING] then
         let column := drop (Z.to_nat row) mem in
         let convert_len := x_interval_length X column (ftype f) in
         let r := set_length r convert_len in
         if (negb (length =? 7) && negb (length =? 14)) || (buffer_length r <? convert_len) then Ret (set_error r 1)
         else
           match x_interval_text X column (ftype f) with
           | None => Ret (set_error r 1)
           | Some text => r ← put r (fun dst => store_bytes dst 0 text); Ret (set_length r (Z.of_nat (List.length text)))
           end
       else from_string r mem row length);
  Ret (r, row + length).

(** sprintf() of "%02X" for every byte: two digits and a NUL that the next one overwrites. *)
Definition hex_digit (d : Z) : Z := if d <? 10 then 48 + d else 55 + d.

Fixpoint hex_loop (dst : bytes) (to : Z) (cs : bytes) : cres (bytes * Z) :=
  match cs with
  | [] => Ret (dst, to)
  | c :: cs =>
    dst ← store_bytes dst to [hex_digit (c / 16); hex_digit (c mod 16); 0];
    hex_loop dst (to + 2) cs
  end.

Definition ps_fetch_oracle_raw (r : MYSQL_BIND) (f : MYSQL_FIELD) (mem : bytes) (row : Z) : cres (MYSQL_BIND * Z) :=
  '(length, row) ← net_field_length mem row;
  r ← (if buffer_type r =? MYSQL_TYPE_OB_RAW then from_string r mem row length
       else if is_type (buffer_type r) [MYSQL_TYPE_VAR_STRING; MYSQL_TYPE_STRING] then
         r ← (if buffer_length r <? u64 (length * 2) then Ret (set_error r 1)
              else
                cs ← load_bytes mem row (Z.to_nat length);
                put r (fun dst => '(dst, to) ← hex_loop dst 0 cs; store dst to 0));
         Ret (set_length r (u64 (length * 2)))
       else from_string r mem row length);
  Ret (r, row + length).

Definition fetch_result_ob_lob (r : MYSQL_BIND) (f : MYSQL_FIELD) (mem : bytes) (row : Z) : cres (MYSQL_BIND * Z) :=
  '(length, row) ← net_field_length mem row;
  r ← (match buffer r with
       | Mem lob =>
         '(lob, error) ← fetch_lob lob (buffer_length r) (berror r) mem row length;
         Ret (set_error (set_buffer r (Mem lob)) error)
       | _ => Fault
       end);
  Ret (set_length r length, row + length).

End oracle.

(** * RAW columns as hexadecimal text *)

Definition hex (cs : bytes) : bytes := concat (map (fun c => [hex_digit (c / 16); hex_digit (c mod 16)]) cs).

Lemma length_hex cs : length (hex cs) = (2 * length cs)%nat.
Proof. unfold hex. induction cs as [|c cs IH]; [done|]. simpl. rewrite IH. lia. Qed.

Lemma hex_digit_byte d : 0 <= d < 16 -> is_byte (hex_digit d).
Proof. intros Hd. unfold hex_digit, is_byte, uint. destruct (Z.ltb_spec d 10); lia. Qed.

Lemma hex_loop_writes cs : forall dst to, all_bytes cs -> room dst to (2 * length cs + 1) ->
  exists dst', hex_loop dst to cs = Ret (dst', to + 2 * Z.of_nat (length cs))
    /\ store dst' (to + 2 * Z.of_nat (length cs)) 0 = Ret (splice to (hex cs ++ [0]) dst).
Proof.
  induction cs as [|c cs IH]; intros dst to Hb Hr.
  { exists dst. split; [simpl; by rewrite Z.add_0_r|]. simpl. rewrite Z.add_0_r. apply store_splice1; [done|]. done. }
  apply Forall_cons in Hb as [Hc Hb]. unfold is_byte, uint in Hc. cbn [length] in Hr. unfold room in Hr.
  set (h := [hex_digit (c / 16); hex_digit (c mod 16)]).
  assert (all_bytes (h ++ [0])) as Hh.
  { unfold h. repeat (apply Forall_cons; split; [first [apply hex_digit_byte; split; [apply Z.div_pos; lia|apply Z.div_lt_upper_bound; lia]
      | apply hex_digit_byte, Z.mod_pos_bound; lia | done]|]). by apply Forall_nil. }
  cbn [hex_loop]. change [hex_digit (c / 16); hex_digit (c mod 16); 0] with (h ++ [0]).
  rewrite store_bytes_splice, map_u8_bytes, bind_ret by (done || (unfold room; simpl; lia)).
  destruct (IH (splice to (h ++ [0]) dst) (to + 2) Hb) as (dst' & -> & Hst).
  { unfold room. rewrite length_splice by (unfold room; simpl; lia). lia. }
  exists dst'. replace (to + 2 + 2 * Z.of_nat (length cs)) with (to + 2 * Z.of_nat (length (c :: cs))) in * by (cbn [length]; lia).
  split; [done|]. rewrite Hst. f_equal. change (hex (c :: cs)) with (h ++ hex cs). rewrite <- app_assoc.
  rewrite <- (splice_app to h [0]) by (unfold room; simpl; lia). change (to + 2) with (to + Z.of_nat (length h)).
  rewrite splice_overwrite.
  - apply splice_app. unfold room. rewrite !length_app, length_hex. simpl. lia.
  - unfold room. rewrite length_splice by (unfold room; simpl; lia). rewrite length_app, length_hex. simpl. lia.
  - rewrite length_app. simpl. lia.
Qed.

(** A RAW column is fetched into a string buffer that is longer than its hexadecimal text as that text, two digits for
    each byte, ended by a NUL, with its length reported; nothing else of the buffer changes and the row pointer is behind
    the column. *)
Theorem raw_fetch_hex X r f mem row cs dst :
  all_bytes cs -> 2 * Z.of_nat (length cs) < 2 ^ 32 -> text_at mem row (lenenc (Z.of_nat (length cs)) ++ cs) ->
  is_type (buffer_type r) [MYSQL_TYPE_VAR_STRING; MYSQL_TYPE_STRING] = true ->
  buffer r = Mem dst -> 2 * Z.of_nat (length cs) < buffer_length r <= Z.of_nat (length dst) ->
  exists r', ps_fetch_oracle_raw X r f mem row = Ret (r', row + Z.of_nat (length (lenenc (Z.of_nat (length cs)) ++ cs)))
    /\ buffer r' = Mem (splice 0 (hex cs ++ [0]) dst) /\ blength r' = Z.of_nat (length (hex cs)) /\ berror r' = berror r.
Proof.
  intros Hb H32 Hm Ht Hbuf Hl. unfold ps_fetch_oracle_raw. apply text_at_app in Hm as [Hm1 Hm2].
  destruct (field_length_reads mem row (Z.of_nat (length cs))) as [-> _]; [unfold uint; lia|done|].
  rewrite bind_ret, wrap_small by (unfold uint; lia). rewrite Ht.
  assert ((buffer_type r =? MYSQL_TYPE_OB_RAW) = false) as ->.
  { unfold is_type in Ht. apply existsb_exists in Ht as (t & Hin & E). apply Z.eqb_eq in E. subst t. destruct Hin as [<-|[<-|[]]]; done. }
  rewrite wrap_small by (unfold uint; lia). rewrite (proj2 (Z.ltb_ge _ _)) by lia.
  unfold text_at in Hm2. rewrite Nat2Z.id, Hm2, bind_ret.
  destruct (hex_loop_writes cs dst 0 Hb) as (dst' & Hloop & Hst); [unfold room; lia|].
  rewrite (put_mem _ dst _ (splice 0 (hex cs ++ [0]) dst) Hbuf) by (by rewrite Hloop, bind_ret). rewrite !bind_ret.
  eexists. split; [do 2 f_equal; rewrite length_app; lia|]. split; [done|]. split; [|done]. simpl. rewrite length_hex. lia.
Qed.

Definition no_externals : externals :=
  mk_externals (fun _ => (0, 0)) (fun z => z) 7 (fun _ _ _ => 0) (fun _ _ _ => []) (fun _ _ => []) (fun _ _ => 0) (fun _ _ => [])
    (fun _ _ => 0) (fun _ _ => None) (fun _ _ _ _ => Fault).

Lemma raw_fetch_hex_witness :
  exists r', ps_fetch_oracle_raw no_externals
      (mk_bind (Mem (repeat 9 6)) 5 0 0 0 0 MYSQL_TYPE_STRING false None 0 0 skip_result_string false) (mk_field MYSQL_TYPE_OB_RAW 0 6 0 63 0)
      [2; 0x1F; 0xA0] 0 = Ret (r', 3)
    /\ buffer r' = Mem [49; 70; 65; 48; 0; 9] /\ blength r' = 4 /\ berror r' = 0.
Proof.
  apply (raw_fetch_hex no_externals
    (mk_bind (Mem (repeat 9 6)) 5 0 0 0 0 MYSQL_TYPE_STRING false None 0 0 skip_result_string false) (mk_field MYSQL_TYPE_OB_RAW 0 6 0 63 0)
    [2; 0x1F; 0xA0] 0 [0x1F; 0xA0] (repeat 9 6)); try done.
  repeat (apply Forall_cons; split; [unfold is_byte, uint; lia|]). by apply Forall_nil.
Defined.

(** A buffer of exactly the length of the text is accepted, and the NUL is written behind its end. *)
Lemma raw_text_overflows :
  ps_fetch_oracle_raw no_externals
    (mk_bind (Mem (repeat 9 4)) 4 0 0 0 0 MYSQL_TYPE_STRING false None 0 0 skip_result_string false) (mk_field MYSQL_TYPE_OB_RAW 0 6 0 63 0)
    [2; 0x1F; 0xA0] 0 = Fault.
Proof. reflexivity. Qed.

End StmtOracle.
