(* ===== verification/StmtRow.v ===== *)
(** Rows of prepared statements: the table mysql_ps_fetch_functions that
    mysql_init_ps_subsystem of libmariadb/ma_stmt_codec.c fills, mthd_stmt_fetch_to_bind of
    libmariadb/mariadb_stmt.c, which takes a binary row apart, and the functions that pass over a
    column.

    [row_image] is the reference encoding of a row: a status byte, a bitmap of NULLs that
    starts at its third bit, and the values that are not NULL. *)

From stdpp Require Import tactics.
From S2P Require Import Prelude IntStore NumText LenEnc StmtTime TimeText OracleTime StmtFetch StmtFloat StmtOracle.
Import NumText LenEnc StmtTime TimeText OracleTime StmtFetch StmtFloat StmtOracle.

Module StmtRow.

Definition MYSQL_TYPE_NEWDATE : Z := 14.
Definition MYSQL_TYPE_VARCHAR : Z := 15.
Definition MYSQL_TYPE_BIT : Z := 16.
Definition MYSQL_TYPE_OBJECT : Z := 160.
Definition MYSQL_TYPE_OB_NUMBER_FLOAT : Z := 206.
Definition MYSQL_TYPE_OB_NVARCHAR2 : Z := 207.
Definition MYSQL_TYPE_OB_NCHAR : Z := 208.
Definition MYSQL_TYPE_OB_UROWID : Z := 209.
Definition MYSQL_TYPE_ORA_BLOB : Z := 210.
Definition MYSQL_TYPE_ORA_CLOB : Z := 211.
Definition MYSQL_TYPE_NEWDECIMAL : Z := 246.
Definition MYSQL_TYPE_ENUM : Z := 247.
Definition MYSQL_TYPE_SET : Z := 248.
Definition MYSQL_TYPE_TINY_BLOB : Z := 249.
Definition MYSQL_TYPE_MEDIUM_BLOB : Z := 250.
Definition MYSQL_TYPE_LONG_BLOB : Z := 251.
Definition MYSQL_TYPE_BLOB : Z := 252.
Definition MYSQL_TYPE_GEOMETRY : Z := 255.

Definition MYSQL_PS_SKIP_RESULT_W_LEN : Z := -1.
Definition MYSQL_PS_SKIP_RESULT_STR : Z := -2.
Definition MADB_BIND_DUMMY : Z := 1.
Definition MYSQL_DATA_TRUNCATED : Z := 101.

Section rows.
Context (X : externals).

Definition ps_fetch_null (r : MYSQL_BIND) (f : MYSQL_FIELD) (mem : bytes) (row : Z) : cres (MYSQL_BIND * Z) :=
  Ret (r, row).

(** The members [pack_len] and [func] of the table; a type without an entry has no function. *)
Definition pack_len (type : Z) : Z :=
  if type =? MYSQL_TYPE_TINY then 1
  else if is_type type [MYSQL_TYPE_SHORT; MYSQL_TYPE_YEAR] then 2
  else if is_type type [MYSQL_TYPE_INT24; MYSQL_TYPE_LONG; MYSQL_TYPE_CURSOR; MYSQL_TYPE_FLOAT] then 4
  else if is_type type [MYSQL_TYPE_LONGLONG; MYSQL_TYPE_DOUBLE] then 8
  else if is_type type [MYSQL_TYPE_TIME; MYSQL_TYPE_DATE; MYSQL_TYPE_OB_TIMESTAMP_NANO;
      MYSQL_TYPE_OB_TIMESTAMP_WITH_LOCAL_TIME_ZONE; MYSQL_TYPE_OB_TIMESTAMP_WITH_TIME_ZONE;
      MYSQL_TYPE_OB_INTERVAL_YM; MYSQL_TYPE_OB_INTERVAL_DS; MYSQL_TYPE_NEWDATE;
      MYSQL_TYPE_DATETIME; MYSQL_TYPE_TIMESTAMP; MYSQL_TYPE_OB_RAW] then MYSQL_PS_SKIP_RESULT_W_LEN
  else if is_type type [MYSQL_TYPE_TINY_BLOB; MYSQL_TYPE_BLOB; MYSQL_TYPE_MEDIUM_BLOB; MYSQL_TYPE_LONG_BLOB;
      MYSQL_TYPE_BIT; MYSQL_TYPE_VAR_STRING; MYSQL_TYPE_VARCHAR; MYSQL_TYPE_STRING; MYSQL_TYPE_JSON;
      MYSQL_TYPE_DECIMAL; MYSQL_TYPE_NEWDECIMAL; MYSQL_TYPE_OB_NUMBER_FLOAT; MYSQL_TYPE_OB_NVARCHAR2;
      MYSQL_TYPE_OB_NCHAR; MYSQL_TYPE_ENUM; MYSQL_TYPE_SET; MYSQL_TYPE_OB_UROWID; MYSQL_TYPE_ORA_BLOB;
      MYSQL_TYPE_ORA_CLOB; MYSQL_TYPE_OBJECT; MYSQL_TYPE_GEOMETRY] then MYSQL_PS_SKIP_RESULT_STR
  else 0.

Definition string_column (type : Z) : bool :=
  is_type type [MYSQL_TYPE_NEWDATE; MYSQL_TYPE_VAR_STRING; MYSQL_TYPE_VARCHAR; MYSQL_TYPE_STRING; MYSQL_TYPE_JSON;
    MYSQL_TYPE_DECIMAL; MYSQL_TYPE_NEWDECIMAL; MYSQL_TYPE_OB_NUMBER_FLOAT; MYSQL_TYPE_OB_NVARCHAR2;
    MYSQL_TYPE_OB_NCHAR; MYSQL_TYPE_ENUM; MYSQL_TYPE_SET; MYSQL_TYPE_OB_UROWID; MYSQL_TYPE_GEOMETRY].

Definition fetch_func (type : Z) (r : MYSQL_BIND) (f : MYSQL_FIELD) (mem : bytes) (row : Z) : cres (MYSQL_BIND * Z) :=
  if type =? MYSQL_TYPE_NULL then ps_fetch_null r f mem row
  else if type =? MYSQL_TYPE_TINY then ps_fetch_int8 (x_strtod X) (x_float_of_double X) (x_junk X) r f mem row
  else if is_type type [MYSQL_TYPE_SHORT; MYSQL_TYPE_YEAR] then ps_fetch_int16 (x_strtod X) (x_float_of_double X) (x_junk X) r f mem row
  else if is_type type [MYSQL_TYPE_INT24; MYSQL_TYPE_LONG; MYSQL_TYPE_CURSOR]
  then ps_fetch_int32 (x_strtod X) (x_float_of_double X) (x_junk X) r f mem row
  else if type =? MYSQL_TYPE_LONGLONG then ps_fetch_int64 (x_strtod X) (x_float_of_double X) (x_junk X) r f mem row
  else if type =? MYSQL_TYPE_FLOAT then ps_fetch_float (x_strtod X) (x_float_of_double X) (x_junk X) (x_outside X) (x_gcvt X) (x_fcvt X) r f mem row
  else if type =? MYSQL_TYPE_DOUBLE then ps_fetch_double (x_strtod X) (x_float_of_double X) (x_junk X) (x_outside X) (x_gcvt X) (x_fcvt X) r f mem row
  else if is_type type [MYSQL_TYPE_TIME; MYSQL_TYPE_DATE; MYSQL_TYPE_DATETIME; MYSQL_TYPE_TIMESTAMP]
  then ps_fetch_datetime (x_strtod X) (x_float_of_double X) (x_junk X) r f mem row
  else if is_type type [MYSQL_TYPE_TINY_BLOB; MYSQL_TYPE_BLOB; MYSQL_TYPE_MEDIUM_BLOB; MYSQL_TYPE_LONG_BLOB]
  then ps_fetch_mysql_lob (x_strtod X) (x_float_of_double X) r f mem row
  else if type =? MYSQL_TYPE_BIT then ps_fetch_bin (x_strtod X) (x_float_of_double X) r f mem row
  else if string_column type then ps_fetch_string (x_strtod X) (x_float_of_double X) r f mem row
  else if is_type type [MYSQL_TYPE_OB_TIMESTAMP_NANO; MYSQL_TYPE_OB_TIMESTAMP_WITH_LOCAL_TIME_ZONE; MYSQL_TYPE_OB_TIMESTAMP_WITH_TIME_ZONE]
  then ps_fetch_oracle_timestamp X r f mem row
  else if is_type type [MYSQL_TYPE_OB_INTERVAL_YM; MYSQL_TYPE_OB_INTERVAL_DS] then ps_fetch_oracle_interval X r f mem row
  else if type =? MYSQL_TYPE_OB_RAW then ps_fetch_oracle_raw X r f mem row
  else if is_type type [MYSQL_TYPE_ORA_BLOB; MYSQL_TYPE_ORA_CLOB] then fetch_result_ob_lob r f mem row
  else if type =? MYSQL_TYPE_OBJECT then x_fetch_object X r f mem row
  else Fault.

(** The functions that pass over a column: the row pointer and the field's max_length. *)
Definition skip (s : skip_function) (r : MYSQL_BIND) (f : MYSQL_FIELD) (mem : bytes) (row : Z) : cres (MYSQL_FIELD * Z) :=
  match s with
  | skip_result_fixed => Ret (f, row + pack_length r)
  | skip_result_with_length => '(length, row) ← net_field_length mem row; Ret (f, row + length)
  | skip_result_string =>
    '(length, row) ← net_field_length mem row;
    Ret (mk_field (ftype f) (fflags f) (flength f) (decimals f) (charsetnr f)
           (if max_length f <? length then length else max_length f), row + length)
  end.

Definition ps_fetch_result_skip_direct (r : MYSQL_BIND) (f : MYSQL_FIELD) (mem : bytes) (row : Z)
    : cres (MYSQL_BIND * MYSQL_FIELD * Z) :=
  '(f, row) ← skip (skip_result r) r f mem row;
  Ret (set_error r 0, f, row).

(** One column that is not NULL: bind, field, row pointer and what it adds to the truncations. *)
Definition fetch_column (done report : bool) (r : MYSQL_BIND) (f : MYSQL_FIELD) (mem : bytes) (row : Z)
    : cres (MYSQL_BIND * MYSQL_FIELD * Z * Z) :=
  let r := set_row_ptr r (Some row) in
  if negb done || nonzero (Z.land (bflags r) MADB_BIND_DUMMY) then
    '(length, row) ← (if pack_len (ftype f) >=? 0 then Ret (pack_len (ftype f), row) else net_field_length mem row);
    Ret (set_length r length, f, row + length, 0)
  else
    let r := set_is_null r 0 in
    '(r, f, row) ←
      (if no_need_to_parser_result r then ps_fetch_result_skip_direct r f mem row
       else '(r, row) ← fetch_func (ftype f) r f mem row; Ret (r, f, row));
    Ret (r, f, row, if report then berror r else 0).

Fixpoint fetch_loop (done report : bool) (cols : list (MYSQL_BIND * MYSQL_FIELD)) (mem : bytes)
    (null_ptr bit_offset row truncations : Z) : cres (list (MYSQL_BIND * MYSQL_FIELD) * Z) :=
  match cols with
  | [] => Ret ([], truncations)
  | (r, f) :: cols =>
    n ← load mem null_ptr;
    '(r, f, row, t) ←
      (if nonzero (Z.land n bit_offset) then Ret (set_row_ptr (set_is_null r 1) None, f, row, 0)
       else fetch_column done report r f mem row);
    let bit_offset := u8 (Z.shiftl bit_offset 1) in
    let '(null_ptr, bit_offset) := if bit_offset =? 0 then (null_ptr + 1, 1) else (null_ptr, bit_offset) in
    '(cols, truncations) ← fetch_loop done report cols mem null_ptr bit_offset row (u64 (truncations + t));
    Ret ((r, f) :: cols, truncations)
  end.

(** The columns after the fetch and the return value. *)
Definition mthd_stmt_fetch_to_bind (done report : bool) (cols : list (MYSQL_BIND * MYSQL_FIELD)) (mem : bytes) (row : Z)
    : cres (list (MYSQL_BIND * MYSQL_FIELD) * Z) :=
  let row := row + 1 in
  let null_ptr := row in
  let row := row + u32 (Z.of_nat (length cols) + 9) / 8 in
  '(cols, truncations) ← fetch_loop done report cols mem null_ptr 4 row 0;
  Ret (cols, if nonzero truncations then MYSQL_DATA_TRUNCATED else 0).

End rows.

(** * Reference rows *)

Inductive value :=
| VNull
| VInt (bs : bytes)
| VText (t : bytes)
| VDate (t : MYSQL_TIME).

Definition is_vnull (v : value) : bool := match v with VNull => true | _ => false end.

Definition value_bytes (v : value) : bytes :=
  match v with
  | VNull => []
  | VInt bs => bs
  | VText t => lenenc (Z.of_nat (length t)) ++ t
  | VDate t => datetime_bytes t
  end.

(** A row of values: the bit of column [i] in the bitmap is bit [i + 2]. *)
Definition null_map (nulls : bytes) (first : Z) (vs : list value) : Prop :=
  forall i v, vs !! i = Some v -> exists b, load nulls ((first + Z.of_nat i) / 8) = Ret b
    /\ Z.testbit b ((first + Z.of_nat i) mod 8) = is_vnull v.

Definition row_image (vs : list value) (text : bytes) : Prop :=
  exists status nulls, text = status :: nulls ++ concat (map value_bytes vs)
    /\ Z.of_nat (length nulls) = (Z.of_nat (length vs) + 9) / 8 /\ null_map nulls 2 vs.

Definition int_column (type : Z) : option nat :=
  if type =? MYSQL_TYPE_TINY then Some 1%nat
  else if is_type type [MYSQL_TYPE_SHORT; MYSQL_TYPE_YEAR] then Some 2%nat
  else if is_type type [MYSQL_TYPE_INT24; MYSQL_TYPE_LONG; MYSQL_TYPE_CURSOR] then Some 4%nat
  else if type =? MYSQL_TYPE_LONGLONG then Some 8%nat
  else None.

Definition column_int (f : MYSQL_FIELD) (bs : bytes) : Z := int_value (unsigned_field f) (length bs) bs.

(** A column that is bound to a buffer for its kind of value. *)
Definition bound (col : MYSQL_BIND * MYSQL_FIELD) (v : value) : Prop :=
  let '(r, f) := col in
  Z.land (bflags r) MADB_BIND_DUMMY = 0 /\ no_need_to_parser_result r = false
  /\ match v with
     | VNull => True
     | VInt bs => int_column (ftype f) = Some (length bs) /\ all_bytes bs
         /\ exists dst n, buffer r = Mem dst /\ int_size (buffer_type r) = Some n /\ (n <= length dst)%nat
            /\ (sint 64 (column_int f bs) \/ length bs = n \/ is_unsigned r = true)
     | VText t => string_column (ftype f) = true /\ all_bytes t /\ Z.of_nat (length t) < 2 ^ 32
         /\ string_type (buffer_type r) = true /\ offset r = 0
         /\ exists dst, buffer r = Mem dst /\ 0 <= buffer_length r <= Z.of_nat (length dst)
     | VDate t => In (ftype f) [MYSQL_TYPE_DATETIME; MYSQL_TYPE_TIMESTAMP] /\ datetime_ok t
         /\ In (buffer_type r) [MYSQL_TYPE_DATETIME; MYSQL_TYPE_TIMESTAMP; MYSQL_TYPE_DATE]
         /\ 0 <= berror r <= 1 /\ exists old, buffer r = Time old
     end.

(** What the application finds in a column afterwards. *)
Definition delivered (col : MYSQL_BIND * MYSQL_FIELD) (v : value) (col' : MYSQL_BIND * MYSQL_FIELD) : Prop :=
  let '(r, f) := col in let '(r', f') := col' in
  f' = f /\ match v with
  | VNull => is_null r' = 1 /\ row_ptr r' = None /\ buffer r' = buffer r
  | VInt bs => is_null r' = 0 /\ row_ptr r' <> None
      /\ exists dst n, buffer r = Mem dst /\ int_size (buffer_type r) = Some n /\ buffer_length r' = Z.of_nat n
         /\ buffer r' = Mem (splice 0 (le_bytes n (column_int f bs)) dst)
         /\ berror r' = bool_z (negb (bool_decide (in_range (is_unsigned r) n (column_int f bs))))
  | VText t => is_null r' = 0 /\ row_ptr r' <> None /\ blength r' = Z.of_nat (length t)
      /\ berror r' = bool_z (Z.of_nat (length t) >? buffer_length r)
      /\ exists dst, buffer r = Mem dst /\ buffer r' = Mem (splice 0 (piece (buffer_length r) t) dst)
  | VDate t => is_null r' = 0 /\ row_ptr r' <> None /\ buffer r' = Time (datetime_read t) /\ berror r' = berror r
  end.

(** * A row is taken apart *)

Lemma nonzero_land_bit n k : 0 <= k -> nonzero (Z.land n (2 ^ k)) = Z.testbit n k.
Proof.
  intros Hk. assert (Z.land n (2 ^ k) = if Z.testbit n k then 2 ^ k else 0) as ->.
  { apply Z.bits_inj'. intros i Hi. rewrite Z.land_spec, Z.pow2_bits_eqb by lia.
    destruct (Z.eqb_spec k i) as [->|Hne]; [|rewrite andb_false_r; destruct (Z.testbit n k); rewrite ?Z.pow2_bits_eqb, ?Z.bits_0 by lia; lia || done].
    destruct (Z.testbit n i); rewrite ?Z.pow2_bits_eqb, ?Z.bits_0 by lia; [by rewrite Z.eqb_refl|done]. }
  unfold nonzero. destruct (Z.testbit n k); [|done]. rewrite (proj2 (Z.eqb_neq (2 ^ k) 0)) by lia. done.
Qed.

(** The bit of the next column. *)
Lemma next_bit j base : 0 <= j ->
  (let bit := u8 (Z.shiftl (2 ^ (j mod 8)) 1) in
   if bit =? 0 then (base + j / 8 + 1, 1) else (base + j / 8, bit))
  = (base + (j + 1) / 8, 2 ^ ((j + 1) mod 8)).
Proof.
  intros Hj. pose proof (Z.mod_pos_bound j 8 ltac:(lia)) as Hm. pose proof (Z.div_mod j 8 ltac:(lia)) as Hd.
  assert (j mod 8 = 7 /\ (j + 1) / 8 = j / 8 + 1 /\ (j + 1) mod 8 = 0
          \/ j mod 8 < 7 /\ (j + 1) / 8 = j / 8 /\ (j + 1) mod 8 = j mod 8 + 1) as [(-> & -> & ->)|(Hlt & -> & ->)].
  { destruct (decide (j mod 8 = 7)); [left|right]; (split; [lia|]); split; dlia. }
  - simpl. f_equal. lia.
  - rewrite Z.shiftl_mul_pow2, <- Z.pow_add_r by lia.
    assert (0 < 2 ^ (j mod 8 + 1) < 2 ^ 8) by (split; [lia|apply Z.pow_lt_mono_r; lia]).
    rewrite wrap_small by (unfold uint; lia). cbn zeta. by rewrite (proj2 (Z.eqb_neq _ 0)) by lia.
Qed.

Section delivery.
Context (X : externals).

Lemma is_type_in t ts : is_type t ts = true -> In t ts.
Proof. unfold is_type. rewrite existsb_exists. intros (x & Hx & E). apply Z.eqb_eq in E. by subst. Qed.

Lemma fetch_func_int type w : int_column type = Some w ->
  (w = 1 \/ w = 2 \/ w = 4 \/ w = 8)%nat
  /\ fetch_func X type = ps_fetch_int w (x_strtod X) (x_float_of_double X) (x_junk X).
Proof.
  unfold int_column. destruct (Z.eqb_spec type MYSQL_TYPE_TINY) as [->|]; [by intros [= <-]; auto|].
  destruct (is_type type [MYSQL_TYPE_SHORT; _]) eqn:E1.
  { apply is_type_in in E1. intros [= <-]. destruct E1 as [<-|[<-|[]]]; auto. }
  destruct (is_type type [MYSQL_TYPE_INT24; _; _]) eqn:E2.
  { apply is_type_in in E2. intros [= <-]. destruct E2 as [<-|[<-|[<-|[]]]]; auto. }
  destruct (Z.eqb_spec type MYSQL_TYPE_LONGLONG) as [->|]; [by intros [= <-]; auto|done].
Qed.

Lemma fetch_func_string type : string_column type = true ->
  fetch_func X type = ps_fetch_string (x_strtod X) (x_float_of_double X).
Proof.
  intros H. apply is_type_in in H.
  repeat (destruct H as [<-|H]; [reflexivity|]). destruct H.
Qed.

Lemma fetch_func_date type : In type [MYSQL_TYPE_DATETIME; MYSQL_TYPE_TIMESTAMP] ->
  fetch_func X type = ps_fetch_datetime (x_strtod X) (x_float_of_double X) (x_junk X).
Proof. intros [<-|[<-|[]]]; reflexivity. Qed.

(** A date and time in a buffer for dates. *)
Lemma date_delivered r f mem row t old :
  In (ftype f) [MYSQL_TYPE_DATETIME; MYSQL_TYPE_TIMESTAMP] -> datetime_ok t ->
  In (buffer_type r) [MYSQL_TYPE_DATETIME; MYSQL_TYPE_TIMESTAMP; MYSQL_TYPE_DATE] -> buffer r = Time old ->
  text_at mem row (datetime_bytes t) ->
  ps_fetch_datetime (x_strtod X) (x_float_of_double X) (x_junk X) r f mem row
  = Ret (set_buffer r (Time (datetime_read t)), row + Z.of_nat (length (datetime_bytes t))).
Proof.
  intros Hf Hok Hr Hb Hm. destruct (datetime_bytes_head t) as (rest & E & Hl & _). pose proof Hm as Hm'. rewrite E in Hm'.
  apply text_at_cons in Hm' as [H1 H2]. unfold ps_fetch_datetime.
  assert (0 <= datetime_len t < 251) as Hn by (destruct (datetime_len_cases t) as [|[[]|[[]|[]]]]; lia).
  destruct (field_length_reads mem row (datetime_len t)) as [-> _]; [unfold uint; lia|rewrite lenenc_small by lia; by apply text_at_cons|].
  rewrite bind_ret, !(wrap_small 32 (datetime_len t)) by (unfold uint; lia). rewrite lenenc_small by lia. change (Z.of_nat (length [datetime_len t])) with 1.
  assert (is_type (buffer_type r) [MYSQL_TYPE_DATETIME; MYSQL_TYPE_TIMESTAMP; MYSQL_TYPE_DATE] = true) as ->.
  { unfold is_type. apply existsb_exists. exists (buffer_type r). split; [done|apply Z.eqb_refl]. }
  unfold put_time. rewrite Hb. destruct (convert_datetime_reads mem (row + 1) t rest Hok E H2) as [Hc _].
  assert (convert_to_datetime mem (row + 1) (datetime_len t) (ftype f) = Ret (datetime_read t)) as -> by (destruct Hf as [<-|[<-|[]]]; exact Hc).
  rewrite !bind_ret, E. cbn [length]. replace (row + 1 + datetime_len t) with (row + Z.of_nat (S (length rest))) by lia. done.
Qed.

Lemma column_delivered report r f v mem row :
  bound (r, f) v -> is_vnull v = false -> text_at mem row (value_bytes v) ->
  exists r', fetch_column X true report r f mem row
      = Ret (r', f, row + Z.of_nat (length (value_bytes v)), if report then berror r' else 0)
    /\ delivered (r, f) v (r', f) /\ 0 <= berror r' <= 1.
Proof.
  intros (Hd & Hn & Hv) Hnn Hm. unfold fetch_column. cbn [bflags set_row_ptr negb orb]. rewrite Hd.
  change (nonzero 0) with false. cbv iota. cbn [no_need_to_parser_result set_is_null set_row_ptr]. rewrite Hn.
  destruct v as [|bs|t|t]; [done|..]; cbn [value_bytes] in *.
  - destruct Hv as (Hc & Hbs & dst & n & Hb & Hsz & Hlen & Hrange).
    destruct (fetch_func_int _ _ Hc) as [Hw ->].
    destruct (int_fetch_stores (x_strtod X) (x_float_of_double X) (x_junk X) (length bs) (set_is_null (set_row_ptr r (Some row)) 0) f mem row bs n dst)
      as (r' & -> & Hst); try done.
    rewrite !bind_ret. destruct Hst as (H1 & H2 & H3 & H4 & H5 & H6). eexists. split; [done|]. split.
    + simpl. split; [done|]. rewrite H5, H6. split; [done|]. split; [done|]. exists dst, n. by split_and!.
    + rewrite H3. destruct (negb _); simpl; lia.
  - destruct Hv as (Hc & Hbs & H32 & Ht & Hoff & dst & Hb & Hbl). rewrite (fetch_func_string _ Hc).
    rewrite (ps_fetch_string_copies _ _ _ _ _ _ t dst); try done; [|cbn [offset set_is_null set_row_ptr]; lia].
    rewrite !bind_ret. cbn [offset set_is_null set_row_ptr]. rewrite Hoff. change (Z.to_nat 0) with 0%nat. rewrite drop_0.
    eexists. split; [done|]. split; [by split_and!; eauto|]. simpl. destruct (_ >? _); simpl; lia.
  - destruct Hv as (Hf & Hok & Hbt & He & old & Hb). rewrite (fetch_func_date _ Hf).
    rewrite (date_delivered _ _ _ _ t old) by done. rewrite !bind_ret. eexists. split; [done|]. split; [by split_and!|done].
Qed.

Definition truncated (v : value) (col : MYSQL_BIND * MYSQL_FIELD) : bool :=
  negb (is_vnull v) && nonzero (berror col.1).

(** The loop from column [j - 2] on. *)
Lemma loop_delivers report base nulls : forall cols vs j mem row t,
  Forall2 bound cols vs -> text_at mem base nulls -> 0 <= j -> null_map nulls j vs ->
  text_at mem row (concat (map value_bytes vs)) -> 0 <= t -> t + Z.of_nat (length vs) < 2 ^ 64 ->
  exists cols' t', fetch_loop X true report cols mem (base + j / 8) (2 ^ (j mod 8)) row t = Ret (cols', t')
    /\ Forall3 delivered cols vs cols'
    /\ 0 <= t' < 2 ^ 64 /\ nonzero t' = nonzero t || (report && existsb (fun '(v, c) => truncated v c) (zip vs cols')).
Proof.
  intros cols vs j mem row t Hall. revert j row t. induction Hall as [|[r f] v cols vs Hb Hall IH]; intros j row t Hnulls Hj Hmap Hm Ht Hmax.
  { eexists _, _. split; [done|]. split; [constructor|]. split; [simpl in *; lia|]. by rewrite andb_false_r, orb_false_r. }
  cbn [fetch_loop]. destruct (Hmap 0%nat v eq_refl) as (b & Hl & Hbit). rewrite Z.add_0_r in Hl, Hbit.
  assert (load mem (base + j / 8) = Ret b) as ->.
  { apply load_Ret in Hl as [Hr Hlk]. pose proof (load_bytes_room mem base (length nulls) nulls Hnulls ltac:(lia)).
    unfold text_at in Hnulls. rewrite load_bytes_in in Hnulls by done. injection Hnulls as Hn. rewrite <- Hn in Hlk.
    unfold room in *. rewrite lookup_take_lt, lookup_drop in Hlk by lia.
    apply load_lookup; [lia|]. by replace (Z.to_nat (base + j / 8)) with (Z.to_nat base + Z.to_nat (j / 8))%nat by lia. }
  rewrite bind_ret, nonzero_land_bit by (apply Z.mod_pos_bound; lia). rewrite Hbit.
  assert (null_map nulls (j + 1) vs) as Hmap'.
  { intros i w Hi. destruct (Hmap (S i) w Hi) as (c & Hc & Hcb). exists c.
    replace (j + 1 + Z.of_nat i) with (j + Z.of_nat (S i)) by lia. done. }
  cbn [map concat] in Hm. apply text_at_app in Hm as [Hm1 Hm2].
  assert (exists r' d, (if is_vnull v then Ret (set_row_ptr (set_is_null r 1) None, f, row, 0)
            else fetch_column X true report r f mem row)
           = Ret (r', f, row + Z.of_nat (length (value_bytes v)), d)
         /\ delivered (r, f) v (r', f) /\ 0 <= d <= 1 /\ nonzero d = report && truncated v (r', f)) as (r' & d & -> & Hdel & Hd & Hdt).
  { destruct (is_vnull v) eqn:Hn.
    - destruct v; try done. eexists _, 0. rewrite Z.add_0_r. split; [done|]. split; [by split_and!|].
      split; [lia|]. unfold truncated. simpl. by rewrite andb_false_r.
    - destruct (column_delivered report r f v mem row) as (r' & -> & Hdel & He); [done|done|done|].
      eexists _, _. split; [done|]. split; [done|]. split; [destruct report; lia|]. unfold truncated. rewrite Hn. simpl.
      by destruct report. }
  rewrite bind_ret. pose proof (next_bit j base Hj) as Hnext. cbv zeta in Hnext.
  cbn [length] in Hmax. rewrite (wrap_small 64 (t + d)) by (unfold uint; lia).
  destruct (IH (j + 1) (row + Z.of_nat (length (value_bytes v))) (t + d)) as (cols' & t' & Hloop & Hdel' & Ht' & Hnz); try done; [lia|lia|lia|].
  cbv zeta. rewrite Hnext, Hloop, bind_ret. eexists _, _. split; [done|]. split; [by constructor|]. split; [done|].
  rewrite Hnz. cbn [zip zip_with existsb]. rewrite andb_orb_distrib_r, <- Hdt.
  replace (nonzero (t + d)) with (nonzero t || nonzero d); [by rewrite orb_assoc|].
  unfold nonzero. destruct (Z.eqb_spec t 0), (Z.eqb_spec d 0), (Z.eqb_spec (t + d) 0); simpl; lia.
Qed.

(** What the row is expected to lose: an integer outside the range of its buffer, a text longer than its
    buffer.  A date and time is never cut; its column counts when the application left its flag set. *)
Definition lost (v : value) (col : MYSQL_BIND * MYSQL_FIELD) : bool :=
  let '(r, f) := col in
  match v with
  | VNull => false
  | VInt bs => match int_size (buffer_type r) with
      | Some n => negb (bool_decide (in_range (is_unsigned r) n (column_int f bs)))
      | None => false
      end
  | VText t => Z.of_nat (length t) >? buffer_length r
  | VDate _ => nonzero (berror r)
  end.

Lemma nonzero_bool_z b : nonzero (bool_z b) = b.
Proof. by destruct b. Qed.

Lemma truncated_lost col v col' : delivered col v col' -> truncated v col' = lost v col.
Proof.
  destruct col as [r f], col' as [r' f']. unfold truncated. intros [_ H]. destruct v as [|bs|t|t]; cbn [is_vnull negb andb lost fst] in *; [done|..].
  - destruct H as (_ & _ & dst & n & _ & -> & _ & _ & ->). by rewrite nonzero_bool_z.
  - destruct H as (_ & _ & _ & -> & _). by rewrite nonzero_bool_z.
  - by destruct H as (_ & _ & _ & ->).
Qed.

Lemma row_truncated cols vs cols' : Forall3 delivered cols vs cols' ->
  existsb (fun '(v, c) => truncated v c) (zip vs cols') = existsb (fun '(v, c) => lost v c) (zip vs cols).
Proof. induction 1 as [|col v col' cols vs cols' Hd _ IH]; [done|]. cbn [zip zip_with existsb]. by rewrite (truncated_lost _ _ _ Hd), IH. Qed.

(** C5: a binary row of integers, texts, dates with times and NULLs, each bound to a buffer for its kind of value, is
    taken apart column by column: the columns that the bitmap marks are NULL, an integer is stored modulo the size
    of its buffer and its error flag set exactly when it is outside the range of the buffer, a text is copied as
    far as it fits, with its full length reported and the flag set exactly when it was cut, a date and time is
    stored field by field with the flag left as it was, and every column finds the start of its own value.  The
    return value is MYSQL_DATA_TRUNCATED exactly when truncation is to be reported and some integer does not fit,
    some text was cut, or the flag of a date was set before.  (A BIGINT UNSIGNED value of 2^63 or more bound to a
    smaller signed buffer is excluded by [bound].) *)
Theorem row_delivered report cols vs text mem row :
  Z.of_nat (length cols) + 9 < 2 ^ 32 -> Forall2 bound cols vs -> row_image vs text -> text_at mem row text ->
  exists cols', mthd_stmt_fetch_to_bind X true report cols mem row
      = Ret (cols', if report && existsb (fun '(v, c) => lost v c) (zip vs cols) then MYSQL_DATA_TRUNCATED else 0)
    /\ Forall3 delivered cols vs cols'.
Proof.
  intros Hn Hall (status & nulls & -> & Hnl & Hmap) [_ Hm]%text_at_cons. unfold mthd_stmt_fetch_to_bind.
  apply text_at_app in Hm as [Hm1 Hm2]. pose proof (Forall2_length _ _ _ Hall) as Hl.
  rewrite wrap_small by (unfold uint; lia). rewrite Hl, <- Hnl.
  destruct (loop_delivers report (row + 1) nulls cols vs 2 mem (row + 1 + Z.of_nat (length nulls)) 0)
    as (cols' & t' & Hloop & Hdel & _ & Hnz); try done; [lia..|].
  change (row + 1 + 2 / 8) with (row + 1 + 0) in Hloop. rewrite Z.add_0_r in Hloop. change (2 ^ (2 mod 8)) with 4 in Hloop.
  rewrite Hloop, bind_ret. exists cols'. split; [|done]. by rewrite Hnz, (row_truncated _ _ _ Hdel).
Qed.

End delivery.

Definition row_columns : list (MYSQL_BIND * MYSQL_FIELD) :=
  [(mk_bind (Mem (repeat 9 4)) 0 0 0 0 0 MYSQL_TYPE_LONG false None 0 4 skip_result_fixed false, mk_field MYSQL_TYPE_LONG 0 11 0 63 0);
   (mk_bind (Mem (repeat 9 1)) 0 0 0 0 0 MYSQL_TYPE_TINY false None 0 1 skip_result_fixed false, mk_field MYSQL_TYPE_SHORT 0 6 0 63 0);
   (mk_bind (Mem (repeat 9 4)) 4 0 0 0 0 MYSQL_TYPE_STRING false None 0 0 skip_result_string false, mk_field MYSQL_TYPE_VAR_STRING 0 20 0 8 0)].

Lemma row_delivered_witness :
  exists cols', mthd_stmt_fetch_to_bind no_externals true true row_columns [0; 4; 200; 0; 2; 65; 66] 0
      = Ret (cols', MYSQL_DATA_TRUNCATED)
    /\ Forall3 delivered row_columns [VNull; VInt [200; 0]; VText [65; 66]] cols'.
Proof.
  apply (row_delivered no_externals true row_columns [VNull; VInt [200; 0]; VText [65; 66]] [0; 4; 200; 0; 2; 65; 66] [0; 4; 200; 0; 2; 65; 66] 0).
  - simpl. lia.
  - repeat (apply Forall2_cons; split); [..|by apply Forall2_nil]; split_and!; try done;
      try (repeat (apply Forall_cons; split; [unfold is_byte, uint; lia|]); by apply Forall_nil).
    + exists (repeat 9 1), 1%nat. split_and!; try done. left. vm_compute. split; discriminate || reflexivity.
    + exists (repeat 9 4). split; [done|]. simpl. lia.
  - exists 0, [4]. split_and!; [done|done|]. intros [|[|[|i]]] v; intros [= <-]; eexists; split; reflexivity.
  - reflexivity.
Defined.

(** A column that need not be parsed is passed over by the size of the buffer, not of the column: behind a
    BIGINT column bound to a LONG, the next column starts four bytes too early. *)
Lemma skip_by_buffer_type :
  exists cols', mthd_stmt_fetch_to_bind no_externals true true
      [(mk_bind (Mem (repeat 9 4)) 0 4 0 0 0 MYSQL_TYPE_LONG false None 0 4 skip_result_fixed true, mk_field MYSQL_TYPE_LONGLONG 0 20 0 63 0);
       (mk_bind (Mem (repeat 9 1)) 0 1 0 0 0 MYSQL_TYPE_TINY false None 0 1 skip_result_fixed false, mk_field MYSQL_TYPE_TINY 0 4 0 63 0)]
      [0; 0; 1; 2; 3; 4; 5; 6; 7; 8; 99] 0 = Ret (cols', 0)
    /\ (buffer ∘ fst <$> cols') = [Mem (repeat 9 4); Mem [5]].
Proof. eexists. split; [vm_compute; reflexivity|done]. Qed.

(** A text that is no date leaves a time buffer with an error type, and the error flag as it was. *)
Lemma bad_date_unreported :
  exists r', fetch_func no_externals MYSQL_TYPE_VAR_STRING
      (mk_bind (Time zero_time) 0 0 0 0 0 MYSQL_TYPE_DATETIME false None 0 0 skip_result_with_length false)
      (mk_field MYSQL_TYPE_VAR_STRING 0 20 0 8 0) [5; 97; 98; 99; 100; 101] 0 = Ret (r', 6)
    /\ buffer r' = Time time_error /\ berror r' = 0.
Proof. eexists. split; [vm_compute; reflexivity|done]. Qed.

End StmtRow.
