(* ===== verification/ObObject.v ===== *)
(** Cells: libmariadb/ob_object.c and include/ob_object.h, the typed values of the server
    with their serialization, and the maps between their types and those of the protocol.

    The union ObObjValue is its eight bytes, or a pointer; a pointer is the memory from it
    on.  The bits of a pointer, which a number shows that is read from a cell with a string
    in it, and the contents of a variable that was not initialized are arguments. *)

From stdpp Require Import tactics.
From S2P Require Import Prelude IntStore Serialize StmtTime OracleTime NumText LenEnc TimeText StmtFetch StmtOracle StmtRow.
Import Serialize StmtTime OracleTime StmtFetch StmtOracle StmtRow.

Module ObObject.

(** * Types *)

Definition ObNullType : Z := 0.
Definition ObTinyIntType : Z := 1.
Definition ObSmallIntType : Z := 2.
Definition ObMediumIntType : Z := 3.
Definition ObInt32Type : Z := 4.
Definition ObIntType : Z := 5.
Definition ObUTinyIntType : Z := 6.
Definition ObUSmallIntType : Z := 7.
Definition ObUMediumIntType : Z := 8.
Definition ObUInt32Type : Z := 9.
Definition ObUInt64Type : Z := 10.
Definition ObFloatType : Z := 11.
Definition ObDoubleType : Z := 12.
Definition ObUFloatType : Z := 13.
Definition ObUDoubleType : Z := 14.
Definition ObNumberType : Z := 15.
Definition ObDateTimeType : Z := 17.
Definition ObTimestampType : Z := 18.
Definition ObDateType : Z := 19.
Definition ObTimeType : Z := 20.
Definition ObYearType : Z := 21.
Definition ObVarcharType : Z := 22.
Definition ObExtendType : Z := 25.
Definition ObTinyTextType : Z := 27.
Definition ObTextType : Z := 28.
Definition ObMediumTextType : Z := 29.
Definition ObLongTextType : Z := 30.
Definition ObBitType : Z := 31.
Definition ObEnumType : Z := 32.
Definition ObSetType : Z := 33.
Definition ObTimestampTZType : Z := 36.
Definition ObTimestampLTZType : Z := 37.
Definition ObTimestampNanoType : Z := 38.
Definition ObRawType : Z := 39.
Definition ObMaxType : Z := 47.
Definition MAX_NO_FIELD_TYPES : Z := 256.

Definition CS_TYPE_BINARY : Z := 63.
Definition CS_LEVEL_IMPLICIT : Z := 2.
Definition CS_LEVEL_NUMERIC : Z := 5.

(** The member mysql_type of the initialized elements; the others are zero. *)
Definition type_maps_ : list Z :=
  [MYSQL_TYPE_NULL; MYSQL_TYPE_TINY; MYSQL_TYPE_SHORT; MYSQL_TYPE_INT24; MYSQL_TYPE_LONG; MYSQL_TYPE_LONGLONG;
   MYSQL_TYPE_TINY; MYSQL_TYPE_SHORT; MYSQL_TYPE_INT24; MYSQL_TYPE_LONG; MYSQL_TYPE_LONGLONG;
   MYSQL_TYPE_FLOAT; MYSQL_TYPE_DOUBLE; MYSQL_TYPE_FLOAT; MYSQL_TYPE_DOUBLE; MYSQL_TYPE_NEWDECIMAL; MYSQL_TYPE_NEWDECIMAL;
   MYSQL_TYPE_DATETIME; MYSQL_TYPE_TIMESTAMP; MYSQL_TYPE_DATE; MYSQL_TYPE_TIME; MYSQL_TYPE_YEAR;
   MYSQL_TYPE_VAR_STRING; MYSQL_TYPE_STRING; MYSQL_TYPE_VAR_STRING; MAX_NO_FIELD_TYPES; MAX_NO_FIELD_TYPES].

(** Returns the element of the table, or nothing for an error; an enum is unsigned. *)
Definition get_map (ob_type : Z) : option Z :=
  if ob_type >=? ObMaxType then None else Some (default 0 (type_maps_ !! Z.to_nat ob_type)).

Definition get_mysql_type (ob_type mysql_type : Z) : Z * Z :=
  match get_map ob_type with Some t => (0, t) | None => (1, mysql_type) end.

Definition get_ob_type (ob_type mysql_type : Z) : Z * Z :=
  let at_ t := mysql_type =? t in
  if at_ MYSQL_TYPE_NULL then (0, ObNullType)
  else if at_ MYSQL_TYPE_TINY then (0, ObTinyIntType)
  else if at_ MYSQL_TYPE_SHORT then (0, ObSmallIntType)
  else if at_ MYSQL_TYPE_INT24 then (0, ObMediumIntType)
  else if at_ MYSQL_TYPE_LONG then (0, ObInt32Type)
  else if at_ MYSQL_TYPE_LONGLONG then (0, ObIntType)
  else if at_ MYSQL_TYPE_FLOAT then (0, ObFloatType)
  else if at_ MYSQL_TYPE_DOUBLE then (0, ObDoubleType)
  else if at_ MYSQL_TYPE_TIMESTAMP then (0, ObTimestampType)
  else if at_ MYSQL_TYPE_DATETIME then (0, ObDateTimeType)
  else if at_ MYSQL_TYPE_TIME then (0, ObTimeType)
  else if at_ MYSQL_TYPE_DATE then (0, ObDateType)
  else if at_ MYSQL_TYPE_YEAR then (0, ObYearType)
  else if is_type mysql_type [MYSQL_TYPE_VARCHAR; MYSQL_TYPE_STRING; MYSQL_TYPE_VAR_STRING] then (0, ObVarcharType)
  else if at_ MYSQL_TYPE_TINY_BLOB then (0, ObTinyTextType)
  else if at_ MYSQL_TYPE_BLOB then (0, ObTextType)
  else if at_ MYSQL_TYPE_MEDIUM_BLOB then (0, ObMediumTextType)
  else if at_ MYSQL_TYPE_LONG_BLOB then (0, ObLongTextType)
  else if at_ MYSQL_TYPE_OB_TIMESTAMP_WITH_TIME_ZONE then (0, ObTimestampTZType)
  else if at_ MYSQL_TYPE_OB_TIMESTAMP_WITH_LOCAL_TIME_ZONE then (0, ObTimestampLTZType)
  else if at_ MYSQL_TYPE_OB_TIMESTAMP_NANO then (0, ObTimestampNanoType)
  else if at_ MYSQL_TYPE_OB_RAW then (0, ObRawType)
  else if is_type mysql_type [MYSQL_TYPE_DECIMAL; MYSQL_TYPE_NEWDECIMAL] then (0, ObNumberType)
  else if at_ MYSQL_TYPE_BIT then (0, ObBitType)
  else if at_ MYSQL_TYPE_ENUM then (0, ObEnumType)
  else if at_ MYSQL_TYPE_SET then (0, ObSetType)
  else if at_ MYSQL_TYPE_OBJECT then (0, ObExtendType)
  else (1, ob_type).

(** * Cells *)

Record ObObjMeta := mk_meta { type_ : Z; cs_level_ : Z; cs_type_ : Z; scale_ : Z }.

Inductive ObObjValue :=
| Bits (b : Z)
| String_ (p : ptr).

Record ObObj := mk_obj { meta_ : ObObjMeta; val_len_ : Z; v_ : ObObjValue }.

Definition set_v (o : ObObj) (v : ObObjValue) : ObObj := mk_obj (meta_ o) (val_len_ o) v.
Definition set_meta (o : ObObj) (m : ObObjMeta) : ObObj := mk_obj m (val_len_ o) (v_ o).

Section cells.
Context (address : ptr -> Z) (junk : wire_type -> Z).

(** The members of the union. *)
Definition uint64_ (v : ObObjValue) : Z := match v with Bits b => b | String_ p => u64 (address p) end.
Definition int64_ (v : ObObjValue) : Z := s64 (uint64_ v).
Definition float_ (v : ObObjValue) : Z := u32 (uint64_ v).
Definition double_ (v : ObObjValue) : Z := uint64_ v.
Definition string_ (v : ObObjValue) : cres ptr :=
  match v with String_ p => Ret p | Bits b => if b =? 0 then Ret None else Fault end.

Definition set_float_ (v : ObObjValue) (f : Z) : ObObjValue :=
  Bits (Z.shiftl (Z.shiftr (uint64_ v) 32) 32 + u32 f).

Definition get_tinyint (o : ObObj) : Z := s8 (int64_ (v_ o)).
Definition get_smallint (o : ObObj) : Z := s16 (int64_ (v_ o)).
Definition get_mediumint (o : ObObj) : Z := s32 (int64_ (v_ o)).
Definition get_int32 (o : ObObj) : Z := s32 (int64_ (v_ o)).
Definition get_int (o : ObObj) : Z := int64_ (v_ o).
Definition get_utinyint (o : ObObj) : Z := u8 (uint64_ (v_ o)).
Definition get_usmallint (o : ObObj) : Z := u16 (uint64_ (v_ o)).
Definition get_umediumint (o : ObObj) : Z := u32 (uint64_ (v_ o)).
Definition get_uint32 (o : ObObj) : Z := u32 (uint64_ (v_ o)).
Definition get_uint64 (o : ObObj) : Z := uint64_ (v_ o).
Definition get_float (o : ObObj) : Z := float_ (v_ o).
Definition get_double (o : ObObj) : Z := double_ (v_ o).
Definition get_ufloat (o : ObObj) : Z := float_ (v_ o).
Definition get_udouble (o : ObObj) : Z := double_ (v_ o).
Definition get_type (m : ObObjMeta) : Z := type_ m.

(** set_tinyint_meta and its fourteen fellows: [type] is the only difference. *)
Definition set_numeric_meta (type : Z) (m : ObObjMeta) : ObObjMeta :=
  mk_meta (u8 type) CS_LEVEL_NUMERIC CS_TYPE_BINARY (scale_ m).
Definition set_varchar_meta (m : ObObjMeta) : ObObjMeta :=
  mk_meta (u8 ObVarcharType) (cs_level_ m) (cs_type_ m) (scale_ m).

Definition set_integer (type : Z) (o : ObObj) (value : Z) : ObObj :=
  set_v (set_meta o (set_numeric_meta type (meta_ o))) (Bits (u64 value)).
Definition set_tinyint : ObObj -> Z -> ObObj := set_integer ObTinyIntType.
Definition set_smallint : ObObj -> Z -> ObObj := set_integer ObSmallIntType.
Definition set_mediumint : ObObj -> Z -> ObObj := set_integer ObMediumIntType.
Definition set_int32 : ObObj -> Z -> ObObj := set_integer ObInt32Type.
Definition set_int : ObObj -> Z -> ObObj := set_integer ObIntType.
Definition set_utinyint : ObObj -> Z -> ObObj := set_integer ObUTinyIntType.
Definition set_usmallint : ObObj -> Z -> ObObj := set_integer ObUSmallIntType.
Definition set_umediumint : ObObj -> Z -> ObObj := set_integer ObUMediumIntType.
Definition set_uint32 : ObObj -> Z -> ObObj := set_integer ObUInt32Type.
Definition set_uint64 : ObObj -> Z -> ObObj := set_integer ObUInt64Type.
Definition set_double : ObObj -> Z -> ObObj := set_integer ObDoubleType.
Definition set_udouble : ObObj -> Z -> ObObj := set_integer ObUDoubleType.
Definition set_real (type : Z) (o : ObObj) (value : Z) : ObObj :=
  set_v (set_meta o (set_numeric_meta type (meta_ o))) (set_float_ (v_ o) value).
Definition set_float : ObObj -> Z -> ObObj := set_real ObFloatType.
Definition set_ufloat : ObObj -> Z -> ObObj := set_real ObUFloatType.

(** The setters that leave the meta data alone. *)
Definition set_tinyint_value (o : ObObj) (value : Z) : ObObj := set_v o (Bits (u64 value)).
Definition set_smallint_value (o : ObObj) (value : Z) : ObObj := set_v o (Bits (u64 value)).
Definition set_int32_value (o : ObObj) (value : Z) : ObObj := set_v o (Bits (u64 value)).
Definition set_int_value (o : ObObj) (value : Z) : ObObj := set_v o (Bits (u64 value)).
Definition set_double_value (o : ObObj) (value : Z) : ObObj := set_v o (Bits (u64 value)).
Definition set_float_value (o : ObObj) (value : Z) : ObObj := set_v o (set_float_ (v_ o) value).

Definition set_varchar (o : ObObj) (p : ptr) (size : Z) : ObObj :=
  let m := set_varchar_meta (meta_ o) in
  mk_obj (mk_meta (type_ m) CS_LEVEL_IMPLICIT (cs_type_ m) (scale_ m)) (s32 size) (String_ p).

(** * Serialization *)

Record ObObjTypeFuncs := mk_funcs {
  serialize : ObObj -> ptr -> Z -> Z -> cres enc_result;
  deserialize : ObObj -> ptr -> Z -> Z -> cres (Z * ObObj * Z);
  get_serialize_size : ObObj -> Z }.

(** The variable [v] is not initialized: it is read when no byte is left. *)
Definition DEF_SERIALIZE_FUNCS (t : wire_type) (get : ObObj -> Z) (set : ObObj -> Z -> ObObj) : ObObjTypeFuncs :=
  mk_funcs
    (fun obj buf buf_len pos => OB_UNIS_ENCODE t (get obj) buf_len (OB_SUCCESS, buf, pos))
    (fun obj buf data_len pos =>
       '(ret, pos, v) ← OB_UNIS_DECODE t buf data_len (junk t) OB_SUCCESS pos;
       Ret (ret, if ret =? OB_SUCCESS then set obj v else obj, pos))
    (fun obj => OB_UNIS_ADD_LEN t (get obj) 0).

Definition obj_val_serialize_ObVarcharType (obj : ObObj) (buf : ptr) (buf_len pos : Z) : cres enc_result :=
  s ← string_ (v_ obj);
  '(_, buf, pos) ← encode_vstr_with_len buf buf_len pos s (val_len_ obj);
  Ret (OB_SUCCESS, buf, pos).

Definition obj_val_deserialize_ObVarcharType (obj : ObObj) (buf : ptr) (data_len pos : Z) : cres (Z * ObObj * Z) :=
  match buf with
  | None => Ret (OB_ERROR, obj, pos)
  | Some mem =>
    if data_len - pos <? 2 then Ret (OB_ERROR, obj, pos)
    else
      '(s, pos, len) ← decode_vstr_nocopy buf data_len pos 0;
      match s with
      | None => Ret (OB_ERROR, set_v obj (String_ None), pos)
      | Some off => Ret (OB_SUCCESS, mk_obj (meta_ obj) (s32 len) (String_ (Some (drop (Z.to_nat off) mem))), pos)
      end
  end.

Definition obj_val_get_serialize_size_ObVarcharType (obj : ObObj) : Z := encoded_length_vstr_with_len (val_len_ obj).

Definition null_funcs : ObObjTypeFuncs :=
  mk_funcs (fun obj buf buf_len pos => Ret (OB_ERROR, buf, pos)) (fun obj buf data_len pos => Ret (OB_ERROR, obj, pos)) (fun _ => 0).

Definition varchar_funcs : ObObjTypeFuncs :=
  mk_funcs obj_val_serialize_ObVarcharType obj_val_deserialize_ObVarcharType obj_val_get_serialize_size_ObVarcharType.

(** The 45 elements that are written down; the last two are NULL pointers. *)
Definition OBJ_FUNCS : list ObObjTypeFuncs :=
  [null_funcs;
   DEF_SERIALIZE_FUNCS wt_int8 get_tinyint set_tinyint;
   DEF_SERIALIZE_FUNCS wt_int16 get_smallint set_smallint;
   DEF_SERIALIZE_FUNCS wt_int32 get_mediumint set_mediumint;
   DEF_SERIALIZE_FUNCS wt_int32 get_int32 set_int32;
   DEF_SERIALIZE_FUNCS wt_int64 get_int set_int;
   DEF_SERIALIZE_FUNCS wt_uint8 get_utinyint set_utinyint;
   DEF_SERIALIZE_FUNCS wt_uint16 get_usmallint set_usmallint;
   DEF_SERIALIZE_FUNCS wt_uint32 get_umediumint set_umediumint;
   DEF_SERIALIZE_FUNCS wt_uint32 get_uint32 set_uint32;
   DEF_SERIALIZE_FUNCS wt_uint64 get_uint64 set_uint64;
   DEF_SERIALIZE_FUNCS wt_float get_float set_float;
   DEF_SERIALIZE_FUNCS wt_double get_double set_double;
   DEF_SERIALIZE_FUNCS wt_float get_ufloat set_ufloat;
   DEF_SERIALIZE_FUNCS wt_double get_udouble set_udouble] ++
  repeat null_funcs 7 ++ [varchar_funcs] ++ repeat null_funcs 22.

(** Calling through the table: a NULL pointer and an index behind its end are undefined. *)
Definition obj_funcs (type : Z) : cres ObObjTypeFuncs := of_option (OBJ_FUNCS !! Z.to_nat type).

(** The results of the four encoders and decoders are ignored. *)
Definition serialize_ObObjMeta (m : ObObjMeta) (buf : ptr) (buf_len pos : Z) : cres enc_result :=
  '(_, buf, pos) ← encode_uint8_t buf buf_len pos (type_ m);
  '(_, buf, pos) ← encode_uint8_t buf buf_len pos (cs_level_ m);
  '(_, buf, pos) ← encode_uint8_t buf buf_len pos (cs_type_ m);
  '(_, buf, pos) ← encode_int8_t buf buf_len pos (scale_ m);
  Ret (OB_SUCCESS, buf, pos).

Definition deserialize_ObObjMeta (buf : ptr) (data_len pos : Z) : cres (Z * ObObjMeta * Z) :=
  '(_, pos, type) ← decode_uint8_t buf data_len pos;
  '(_, pos, level) ← decode_uint8_t buf data_len pos;
  '(_, pos, cs) ← decode_uint8_t buf data_len pos;
  '(_, pos, scale) ← decode_int8_t buf data_len pos;
  Ret (OB_SUCCESS, mk_meta type level cs scale, pos).

Definition get_serialize_size_ObObjMeta (m : ObObjMeta) : Z :=
  encoded_length_uint8_t (type_ m) + encoded_length_uint8_t (cs_level_ m) + encoded_length_uint8_t (cs_type_ m)
  + encoded_length_int8_t (scale_ m).

Definition serialize_ObObj (obj : ObObj) (buf : ptr) (buf_len pos : Z) : cres enc_result :=
  '(ret, buf, pos) ← serialize_ObObjMeta (meta_ obj) buf buf_len pos;
  if ret =? OB_SUCCESS then
    if type_ (meta_ obj) <=? ObMaxType then
      f ← obj_funcs (get_type (meta_ obj)); serialize f obj buf buf_len pos
    else Ret (OB_ERROR, buf, pos)
  else Ret (ret, buf, pos).

Definition deserialize_ObObj (obj : ObObj) (buf : ptr) (data_len pos : Z) : cres (Z * ObObj * Z) :=
  '(ret, m, pos) ← deserialize_ObObjMeta buf data_len pos;
  let obj := set_meta obj m in
  if ret =? OB_SUCCESS then
    if type_ (meta_ obj) <=? ObMaxType then
      f ← obj_funcs (get_type (meta_ obj)); deserialize f obj buf data_len pos
    else Ret (OB_ERROR, obj, pos)
  else Ret (ret, obj, pos).

Definition get_serialize_size_ObObj (obj : ObObj) : cres Z :=
  let len := get_serialize_size_ObObjMeta (meta_ obj) in
  f ← obj_funcs (get_type (meta_ obj));
  Ret (len + get_serialize_size f obj).

End cells.

(** * Cells that can be sent *)

(** The value of a cell with a number. *)
Definition cell_value (address : ptr -> Z) (type : Z) (o : ObObj) : Z :=
  match type with
  | 1 => get_tinyint address o | 2 => get_smallint address o | 3 => get_mediumint address o
  | 4 => get_int32 address o | 5 => get_int address o | 6 => get_utinyint address o
  | 7 => get_usmallint address o | 8 => get_umediumint address o | 9 => get_uint32 address o
  | 10 => get_uint64 address o | 11 => get_float address o | 12 => get_double address o
  | 13 => get_ufloat address o | 14 => get_udouble address o
  | _ => 0
  end.

Definition wf_value (v : ObObjValue) : Prop := match v with Bits b => uint 64 b | String_ _ => True end.

Definition meta_ok (m : ObObjMeta) : Prop :=
  uint 8 (type_ m) /\ uint 8 (cs_level_ m) /\ uint 8 (cs_type_ m) /\ sint 8 (scale_ m).

(** The types of the variables that values are decoded into, and what they may hold before. *)
Definition wires : list wire_type :=
  [wt_int8; wt_int16; wt_int32; wt_int64; wt_uint8; wt_uint16; wt_uint32; wt_uint64; wt_float; wt_double].
Definition junk_ok (junk : wire_type -> Z) : Prop := Forall (fun t => wt_dom t (junk t)) wires.

(** What a cell of a numeric type promises to the generic functions: its wire type, and that
    what is set is what is got. *)
Record numeric (address : ptr -> Z) (type : Z) (t : wire_type) (get : ObObj -> Z) (set : ObObj -> Z -> ObObj) : Prop := {
  num_dom o : wf_value (v_ o) -> wt_dom t (get o);
  num_get_set o v : wf_value (v_ o) -> wt_dom t v -> get (set o v) = v;
  num_wf o v : wf_value (v_ o) -> wf_value (v_ (set o v));
  num_meta o v : meta_ (set o v) = mk_meta type CS_LEVEL_NUMERIC CS_TYPE_BINARY (scale_ (meta_ o));
  num_value o : get o = cell_value address type o;
  num_bits o v : type <> ObFloatType -> type <> ObUFloatType -> uint64_ address (v_ (set o v)) = u64 v;
  num_wire : In t wires;
  num_dec buf data_len pos pos' v : wt_dec t buf data_len pos = Ret (OB_SUCCESS, pos', v) -> wt_dom t v }.

Section numbers.
Context (address : ptr -> Z) (junk : wire_type -> Z).

Lemma uint64_range v : wf_value v -> uint 64 (uint64_ address v).
Proof. destruct v; simpl; [done|]. intros _. by apply wrap_uint. Qed.

Lemma swrap_u64 w v : 0 < w <= 64 -> sint w v -> swrap w (s64 (u64 v)) = v.
Proof.
  intros Hw Hv. rewrite swrap_wrap by lia. rewrite (swrap_small 64 v); [apply swrap_small; [lia|done]|lia|].
  unfold sint in *. assert (2 ^ (w - 1) <= 2 ^ (64 - 1)) by (apply Z.pow_le_mono_r; lia). lia.
Qed.

Lemma wrap_u64 w v : 0 <= w <= 64 -> uint w v -> wrap w (u64 v) = v.
Proof. intros Hw Hv. rewrite wrap_wrap_le by lia. by apply wrap_small. Qed.

Lemma float_set v f : wf_value v -> uint 32 f -> float_ address (set_float_ address v f) = f.
Proof.
  intros Hv Hf. unfold float_, set_float_, uint64_ at 1. rewrite Z.shiftl_mul_pow2 by lia.
  unfold wrap. rewrite Z.add_comm, Z.mod_add by lia. rewrite Z.mod_mod by lia. by apply Z.mod_small.
Qed.

Lemma set_float_wf v f : wf_value v -> wf_value (set_float_ address v f).
Proof.
  intros Hv. apply uint64_range in Hv. simpl. unfold uint in *.
  rewrite Z.shiftl_mul_pow2, Z.shiftr_div_pow2 by lia. pose proof (wrap_uint 32 f). unfold uint in *. dlia.
Qed.

Lemma decode_vi_range w buf data_len pos v0 pos' v :
  0 < w -> decode_vi w buf data_len pos v0 = Ret (OB_SUCCESS, pos', v) -> sint w v /\ 0 < pos' <= data_len.
Proof.
  intros Hw. unfold decode_vi. intros (mem & _ & ([[[ret tmp] acc] sh] & _ & E)%bind_Ret_inv)%bind_Ret_inv.
  unfold decode_vi_end in E. destruct (ret =? OB_SUCCESS) eqn:Er; [|injection E as -> _ _; done].
  destruct (Z.ltb_spec (data_len - tmp) 1); [done|].
  apply bind_Ret_inv in E as (c & Hc & (g & _ & [= <- <-])%bind_Ret_inv).
  apply load_Ret in Hc as [? _]. split; [by apply swrap_sint|lia].
Qed.

Lemma decode_i8_range buf data_len pos v0 pos' v : decode_i8 buf data_len pos v0 = Ret (OB_SUCCESS, pos', v) -> sint 8 v.
Proof.
  unfold decode_i8. destruct buf as [mem|]; [|done]. destruct (1 <=? _); [|done].
  intros (c & _ & [= _ <-])%bind_Ret_inv. by apply swrap_sint.
Qed.

Lemma conv_val_range (f : Z -> Z) m pos' v : conv_val f m = Ret (OB_SUCCESS, pos', v) -> exists x, v = f x.
Proof. intros ([[ret pos] x] & _ & [= _ _ <-])%bind_Ret_inv. by exists x. Qed.

Lemma decode_real_range (m : cres dec_result) w x0 pos' v :
  ('(ret, pos, tmp) ← m; if ret =? 0 then Ret (ret, pos, wrap w tmp) else Ret (ret, pos, x0)) = Ret (OB_SUCCESS, pos', v) ->
  exists x, v = wrap w x.
Proof.
  intros ([[ret pos] x] & _ & E)%bind_Ret_inv. destruct (Z.eqb_spec ret 0); injection E as ->; [by exists x|done].
Qed.

Ltac dec_range :=
  intros buf data_len pos pos' v H; simpl in *;
  first [ by apply decode_i8_range in H
        | apply decode_vi_range in H as [? _]; [done|lia]
        | apply conv_val_range in H as [? ->]; first [by apply wrap_uint | by apply swrap_sint]
        | apply decode_real_range in H as [? ->]; by apply wrap_uint ].

Lemma integer_numeric type t w (get : ObObj -> Z) (sgn : bool) :
  uint 8 type -> 0 < w <= 64 ->
  (forall v, wt_dom t v <-> if sgn then sint w v else uint w v) ->
  (forall o, wf_value (v_ o) -> get o = if sgn then swrap w (int64_ address (v_ o)) else wrap w (uint64_ address (v_ o))) ->
  (forall o, get o = cell_value address type o) ->
  (forall buf data_len pos pos' v, wt_dec t buf data_len pos = Ret (OB_SUCCESS, pos', v) -> wt_dom t v) -> In t wires ->
  numeric address type t get (set_integer type).
Proof.
  intros Ht Hw Hd Hg Hc Hdec Hin. split; [..|done|done|done|done].
  - intros o Ho. rewrite Hd, Hg by done. destruct sgn; [apply swrap_sint|apply wrap_uint]; lia.
  - intros o v Ho Hv. rewrite Hg by (simpl; by apply wrap_uint). apply Hd in Hv. simpl. unfold int64_, uint64_.
    destruct sgn; [by apply swrap_u64|apply wrap_u64; [lia|done]].
  - intros o v _. simpl. by apply wrap_uint.
  - intros o v. simpl. unfold set_numeric_meta. by rewrite (wrap_small 8).
Qed.

Lemma real_numeric type (get : ObObj -> Z) :
  uint 8 type -> (forall o, get o = float_ address (v_ o)) -> (forall o, get o = cell_value address type o) ->
  type = ObFloatType \/ type = ObUFloatType ->
  numeric address type wt_float get (set_real address type).
Proof.
  intros Ht Hg Hc Hty. split; [..|done|naive_solver|simpl; tauto|dec_range].
  - intros o Ho. rewrite Hg. by apply wrap_uint.
  - intros o v Ho Hv. rewrite Hg. simpl. by apply float_set.
  - intros o v Ho. simpl. by apply set_float_wf.
  - intros o v. simpl. unfold set_numeric_meta. by rewrite (wrap_small 8).
Qed.

Definition entry (type : Z) (t : wire_type) (c : WireCodec t) : Prop := exists get set,
  obj_funcs address junk type = Ret (DEF_SERIALIZE_FUNCS junk t get set) /\ numeric address type t get set.

Lemma int64_s64 v : swrap 64 (int64_ address v) = int64_ address v.
Proof. apply swrap_small; [lia|]. apply swrap_sint. lia. Qed.

Lemma uint64_u64 v : wf_value v -> wrap 64 (uint64_ address v) = uint64_ address v.
Proof. intros Hv. by apply wrap_small, uint64_range. Qed.

Ltac integer_entry t c w sgn :=
  exists t, c; eexists _, _; split; [reflexivity|];
  apply (integer_numeric _ _ w _ sgn);
  [done|lia|done| intros o Ho; first [done | by rewrite int64_s64 | by rewrite uint64_u64] |done|dec_range|simpl; tauto].

Lemma numeric_entry type : 1 <= type <= 14 -> exists t c, entry type t c.
Proof.
  intros Ht.
  assert (type = 1 \/ type = 2 \/ type = 3 \/ type = 4 \/ type = 5 \/ type = 6 \/ type = 7 \/ type = 8
    \/ type = 9 \/ type = 10 \/ type = 11 \/ type = 12 \/ type = 13 \/ type = 14) as H by lia.
  destruct H as [->|[->|[->|[->|[->|[->|[->|[->|[->|[->|[->|[->|[->| ->]]]]]]]]]]]]].
  - integer_entry wt_int8 codec_int8 8 true.
  - integer_entry wt_int16 codec_int16 16 true.
  - integer_entry wt_int32 codec_int32 32 true.
  - integer_entry wt_int32 codec_int32 32 true.
  - integer_entry wt_int64 codec_int64 64 true.
  - integer_entry wt_uint8 codec_uint8 8 false.
  - integer_entry wt_uint16 codec_uint16 16 false.
  - integer_entry wt_uint32 codec_uint32 32 false.
  - integer_entry wt_uint32 codec_uint32 32 false.
  - integer_entry wt_uint64 codec_uint64 64 false.
  - exists wt_float, codec_float. eexists _, _. split; [reflexivity|]. apply real_numeric; auto; done.
  - integer_entry wt_double codec_double 64 false.
  - exists wt_float, codec_float. eexists _, _. split; [reflexivity|]. apply real_numeric; auto; done.
  - integer_entry wt_double codec_double 64 false.
Qed.

(** * A cell on the wire *)

Definition meta_fields (m : ObObjMeta) : list field :=
  [Field wt_uint8 _ (type_ m); Field wt_uint8 _ (cs_level_ m); Field wt_uint8 _ (cs_type_ m); Field wt_int8 _ (scale_ m)].

Definition meta_bytes (m : ObObjMeta) : bytes := concat (map field_bytes (meta_fields m)).

Lemma meta_fields_ok m : meta_ok m -> Forall field_ok (meta_fields m).
Proof. intros (? & ? & ? & ?). repeat (apply Forall_cons; split; [done|]). by apply Forall_nil. Qed.

Lemma length_meta_bytes m : meta_ok m -> length (meta_bytes m) = 4%nat.
Proof.
  intros Hm. pose proof (unis_len_bytes (meta_fields m) 0 (meta_fields_ok m Hm)) as H.
  unfold meta_bytes. change (unis_len (meta_fields m) 0) with 4 in H. lia.
Qed.

Lemma serialize_meta_splice m mem buf_len pos :
  meta_ok m -> 0 <= pos -> pos + 4 <= buf_len <= Z.of_nat (length mem) ->
  serialize_ObObjMeta m (Some mem) buf_len pos = Ret (OB_SUCCESS, Some (splice pos (meta_bytes m) mem), pos + 4).
Proof.
  intros Hm Hp Hb. pose proof (meta_fields_ok m Hm) as Hf.
  assert (unis_encode (meta_fields m) buf_len (OB_SUCCESS, Some mem, pos)
    = Ret (OB_SUCCESS, Some (splice pos (meta_bytes m) mem), pos + 4)) as E.
  { rewrite unis_encode_splice by (done || (change (unis_len (meta_fields m) pos) with (pos + 1 + 1 + 1 + 1); lia)).
    change (unis_len (meta_fields m) pos) with (pos + 1 + 1 + 1 + 1). do 2 f_equal. lia. }
  rewrite <- E. unfold serialize_ObObjMeta, meta_fields. cbn [unis_encode]. unfold OB_UNIS_ENCODE. simpl f_type. simpl f_val.
  destruct Hm as (H1 & H2 & H3 & H4).
  assert (forall mem pos t (c : WireCodec t) v, wt_dom t v -> wt_len t v = 1 -> 0 <= pos -> pos + 1 <= buf_len <= Z.of_nat (length mem) ->
    exists mem', wt_enc t (Some mem) buf_len pos v = Ret (OB_SUCCESS, Some mem', pos + 1) /\ length mem' = length mem) as Hstep.
  { intros mem0 pos0 t c v Hv Hl Hp0 Hb0. exists (splice pos0 (wc_bytes v) mem0). rewrite <- Hl.
    pose proof (wc_len v Hv). split; [apply wc_enc; first [done|lia]|]. apply length_splice. split; lia. }
  change (OB_SUCCESS =? OB_SUCCESS) with true. cbv iota.
  destruct (Hstep mem pos wt_uint8 _ (type_ m)) as (m1 & E1 & L1); [done..|lia|].
  destruct (Hstep m1 (pos + 1) wt_uint8 _ (cs_level_ m)) as (m2 & E2 & L2); [done..|lia|lia|].
  destruct (Hstep m2 (pos + 1 + 1) wt_uint8 _ (cs_type_ m)) as (m3 & E3 & L3); [done..|lia|lia|].
  destruct (Hstep m3 (pos + 1 + 1 + 1) wt_int8 _ (scale_ m)) as (m4 & E4 & L4); [done..|lia|lia|].
  change (wt_enc wt_uint8) with encode_uint8_t in *. change (wt_enc wt_int8) with encode_int8_t in *.
  rewrite E1, !bind_ret. cbv iota beta. change (OB_SUCCESS =? OB_SUCCESS) with true. cbv iota. rewrite E2, !bind_ret. cbv iota beta.
  change (OB_SUCCESS =? OB_SUCCESS) with true. cbv iota. rewrite E3, !bind_ret. cbv iota beta.
  change (OB_SUCCESS =? OB_SUCCESS) with true. cbv iota. by rewrite E4, !bind_ret.
Qed.

Lemma deserialize_meta_bytes m mem data_len pos :
  meta_ok m -> 0 <= pos -> pos + 4 <= data_len < 2 ^ 31 -> load_bytes mem pos 4 = Ret (meta_bytes m) ->
  deserialize_ObObjMeta (Some mem) data_len pos = Ret (OB_SUCCESS, m, pos + 4).
Proof.
  intros Hm Hp Hb Hl. pose proof (length_meta_bytes m Hm) as Hlen. destruct Hm as (H1 & H2 & H3 & H4).
  assert (forall p t (c : WireCodec t) v, wt_dom t v -> wt_len t v = 1 -> 0 <= p -> p + 1 <= data_len ->
    load_bytes mem p (length (wc_bytes v)) = Ret (wc_bytes v) -> wt_dec t (Some mem) data_len p = Ret (OB_SUCCESS, p + 1, v)) as Hstep.
  { intros p t c v Hv Hl1 Hp0 Hb0 Hload. rewrite <- Hl1. apply wc_dec; first [done|lia]. }
  rewrite <- Hlen in Hl. unfold meta_bytes in Hl. cbn [meta_fields map concat] in Hl.
  apply load_bytes_app in Hl as [L1 Hl]. apply load_bytes_app in Hl as [L2 Hl].
  apply load_bytes_app in Hl as [L3 Hl]. apply load_bytes_app in Hl as [L4 _].
  unfold field_bytes in *. cbn [f_codec f_val f_type] in *.
  change (length (wc_bytes (t := wt_uint8) ?v)) with 1%nat in L2, L3, L4.
  unfold deserialize_ObObjMeta. change decode_uint8_t with (wt_dec wt_uint8). change decode_int8_t with (wt_dec wt_int8).
  rewrite (Hstep pos wt_uint8 _ (type_ m)) by (done || lia). rewrite bind_ret. cbv iota beta.
  rewrite (Hstep (pos + 1) wt_uint8 _ (cs_level_ m)) by (done || lia). rewrite bind_ret. cbv iota beta.
  rewrite (Hstep (pos + 1 + 1) wt_uint8 _ (cs_type_ m)) by (done || lia). rewrite bind_ret. cbv iota beta.
  rewrite (Hstep (pos + 1 + 1 + 1) wt_int8 _ (scale_ m)) by (done || lia). rewrite bind_ret. cbv iota beta.
  destruct m. do 2 f_equal. lia.
Qed.

Definition text_of (o : ObObj) : option bytes :=
  match v_ o with String_ (Some m) => Some (take (Z.to_nat (val_len_ o)) m) | _ => None end.

(** A number of any numeric type, or a text. *)
Definition cell_ok (o : ObObj) : Prop :=
  meta_ok (meta_ o) /\
  ((1 <= type_ (meta_ o) <= 14 /\ wf_value (v_ o)) \/
   (type_ (meta_ o) = ObVarcharType /\ exists data rest, v_ o = String_ (Some (data ++ rest)) /\ all_bytes data
      /\ val_len_ o = Z.of_nat (length data) /\ encoded_length_vstr_with_len (val_len_ o) < 2 ^ 31)).

(** The cell [o'] holds what the cell [o] held: the collation of a number is not transported. *)
Definition same_cell (o o' : ObObj) : Prop :=
  if type_ (meta_ o) =? ObVarcharType then meta_ o' = meta_ o /\ val_len_ o' = val_len_ o /\ text_of o' = text_of o
  else meta_ o' = mk_meta (type_ (meta_ o)) CS_LEVEL_NUMERIC CS_TYPE_BINARY (scale_ (meta_ o))
       /\ cell_value address (type_ (meta_ o)) o' = cell_value address (type_ (meta_ o)) o.

Definition delivers (o old : ObObj) (mem : bytes) (buf_len pos n : Z) : Prop := exists mem' o',
  serialize_ObObj address junk o (Some mem) buf_len pos = Ret (OB_SUCCESS, Some mem', pos + n)
  /\ length mem' = length mem /\ (forall i, i < pos \/ pos + n <= i -> load mem' i = load mem i)
  /\ deserialize_ObObj address junk old (Some mem') buf_len pos = Ret (OB_SUCCESS, o', pos + n)
  /\ same_cell o o'.

(** Both parts of a cell: the header and its body, which is [body]. *)
Lemma cell_parts o old mem buf_len pos body o' f :
  meta_ok (meta_ o) -> type_ (meta_ o) <= ObMaxType -> obj_funcs address junk (type_ (meta_ o)) = Ret f ->
  0 <= pos -> pos + 4 + Z.of_nat (length body) <= buf_len <= Z.of_nat (length mem) -> buf_len < 2 ^ 31 ->
  (forall mem, pos + 4 + Z.of_nat (length body) <= buf_len <= Z.of_nat (length mem) ->
    serialize f o (Some mem) buf_len (pos + 4) = Ret (OB_SUCCESS, Some (splice (pos + 4) body mem), pos + 4 + Z.of_nat (length body))) ->
  (let mem' := splice (pos + 4) body (splice pos (meta_bytes (meta_ o)) mem) in
   deserialize f (set_meta old (meta_ o)) (Some mem') buf_len (pos + 4) = Ret (OB_SUCCESS, o', pos + 4 + Z.of_nat (length body))) ->
  same_cell o o' -> delivers o old mem buf_len pos (4 + Z.of_nat (length body)).
Proof.
  intros Hm Ht Hf Hp Hb Hmax Hs Hd Hsame. pose proof (length_meta_bytes _ Hm) as Hl.
  assert (room mem pos (length (meta_bytes (meta_ o)))) as Hr by (split; lia).
  assert (room mem pos (length (meta_bytes (meta_ o) ++ body))) as Hr2 by (split; [lia|rewrite length_app; lia]).
  exists (splice (pos + 4) body (splice pos (meta_bytes (meta_ o)) mem)), o'.
  assert (splice (pos + 4) body (splice pos (meta_bytes (meta_ o)) mem) = splice pos (meta_bytes (meta_ o) ++ body) mem) as E.
  { rewrite <- splice_app by done. by rewrite Hl. }
  split_and!.
  - unfold serialize_ObObj. rewrite serialize_meta_splice by (done || lia). rewrite bind_ret. cbv iota beta.
    change (OB_SUCCESS =? OB_SUCCESS) with true. cbv iota. rewrite (proj2 (Z.leb_le _ _)) by done.
    unfold get_type. rewrite Hf, bind_ret, Hs by (rewrite length_splice by done; lia). do 2 f_equal. lia.
  - rewrite E. by apply length_splice.
  - intros i Hi. rewrite E. apply load_splice_out; [done|]. rewrite length_app. lia.
  - unfold deserialize_ObObj. rewrite (deserialize_meta_bytes (meta_ o)); [|done|done|lia|].
    + rewrite bind_ret. cbv iota beta zeta. change (OB_SUCCESS =? OB_SUCCESS) with true. cbv iota.
      change (meta_ (set_meta old (meta_ o))) with (meta_ o). rewrite (proj2 (Z.leb_le _ _)) by done.
      unfold get_type. rewrite Hf, bind_ret. cbv zeta in Hd. rewrite Hd. do 2 f_equal. lia.
    + rewrite E. pose proof (load_bytes_splice pos _ mem Hr2) as Hld. apply load_bytes_app in Hld as [Hld _].
      by rewrite <- Hl.
  - done.
Qed.

Lemma number_delivered o old mem buf_len pos :
  meta_ok (meta_ o) -> 1 <= type_ (meta_ o) <= 14 -> wf_value (v_ o) -> wf_value (v_ old) ->
  exists n, get_serialize_size_ObObj address junk o = Ret n /\
    (0 <= pos -> pos + n <= buf_len <= Z.of_nat (length mem) -> buf_len < 2 ^ 31 -> delivers o old mem buf_len pos n).
Proof.
  intros Hm Ht Hv Hold. destruct (numeric_entry _ Ht) as (t & c & get & set & Hf & N).
  pose proof (num_dom _ _ _ _ _ N o Hv) as Hdom. pose proof (wc_len _ Hdom) as Hlen. pose proof (wc_nonempty _ Hdom) as Hne.
  exists (4 + Z.of_nat (length (wc_bytes (get o)))). split.
  { unfold get_serialize_size_ObObj, get_type. rewrite Hf, bind_ret. simpl. unfold OB_UNIS_ADD_LEN. do 2 f_equal. lia. }
  intros Hp Hb Hmax. eapply (cell_parts _ _ _ _ _ _ (set (set_meta old (meta_ o)) (get o))); [done|unfold ObMaxType; lia|exact Hf|done|lia|done|..].
  - intros mem0 Hb0. simpl. unfold OB_UNIS_ENCODE. change (OB_SUCCESS =? OB_SUCCESS) with true. cbv iota.
    rewrite wc_enc by (done || lia). by rewrite Hlen.
  - cbv zeta. simpl. unfold OB_UNIS_DECODE. change (OB_SUCCESS =? OB_SUCCESS) with true.
    rewrite (proj2 (Z.ltb_lt _ _)) by lia. cbn [andb].
    rewrite (wc_dec _ _ _ (get o)); [|done|lia|lia|].
    + rewrite bind_ret. cbv iota beta. change (OB_SUCCESS =? OB_SUCCESS) with true. by rewrite Hlen.
    + apply load_bytes_splice. pose proof (length_meta_bytes _ Hm). split; [lia|]. rewrite length_splice; [lia|]. split; lia.
  - unfold same_cell. rewrite (proj2 (Z.eqb_neq _ _)) by (unfold ObVarcharType; lia).
    rewrite (num_meta _ _ _ _ _ N). split; [done|].
    rewrite <- !(num_value _ _ _ _ _ N). by apply (num_get_set _ _ _ _ _ N).
Qed.

Lemma text_delivered o old mem buf_len pos data rest :
  meta_ok (meta_ o) -> type_ (meta_ o) = ObVarcharType -> v_ o = String_ (Some (data ++ rest)) -> all_bytes data ->
  val_len_ o = Z.of_nat (length data) -> encoded_length_vstr_with_len (val_len_ o) < 2 ^ 31 ->
  exists n, get_serialize_size_ObObj address junk o = Ret n /\
    (0 <= pos -> pos + n <= buf_len <= Z.of_nat (length mem) -> buf_len < 2 ^ 31 -> delivers o old mem buf_len pos n).
Proof.
  intros Hm Ht Ev Hbytes El Hmax31.
  assert (obj_funcs address junk (type_ (meta_ o)) = Ret varchar_funcs) as Hf by (by rewrite Ht).
  assert (0 <= Z.of_nat (length data) < 2 ^ 31) as Hlen.
  { unfold encoded_length_vstr_with_len in Hmax31. rewrite encoded_length_vi64_len, El in Hmax31.
    pose proof (vi_len_pos (u64 (Z.of_nat (length data)))). lia. }
  pose proof (length_vstr_bytes data ltac:(lia)) as Hvl.
  assert (2 <= encoded_length_vstr_with_len (Z.of_nat (length data))) as H2.
  { unfold encoded_length_vstr_with_len. rewrite encoded_length_vi64_len. pose proof (vi_len_pos (u64 (Z.of_nat (length data)))). lia. }
  exists (4 + Z.of_nat (length (vstr_bytes data))). split.
  { unfold get_serialize_size_ObObj, get_type. rewrite Hf, bind_ret. simpl. unfold obj_val_get_serialize_size_ObVarcharType.
    by rewrite Hvl, El. }
  intros Hp Hb Hmax. set (mem1 := splice pos (meta_bytes (meta_ o)) mem).
  assert (length mem1 = length mem) as L1.
  { apply length_splice. rewrite length_meta_bytes by done. split; lia. }
  destruct (vstr_roundtrip mem1 buf_len (pos + 4) data rest data 0) as (mem' & off & He & Hd & Hload & _);
    [done|lia|by rewrite <- El|lia|lia|].
  pose proof (encode_vstr_with_len_splice mem1 buf_len (pos + 4) data rest Hbytes ltac:(lia)) as He'.
  rewrite <- El in He', Hd, He. rewrite He' in He by (rewrite ?El; lia).
  injection He as <-.
  eapply (cell_parts _ _ _ _ _ (vstr_bytes data)); [done|rewrite Ht; by vm_compute|exact Hf|done|lia|done|..].
  - intros mem0 Hb0. simpl. unfold obj_val_serialize_ObVarcharType. rewrite Ev. simpl string_. rewrite bind_ret.
    rewrite El, encode_vstr_with_len_splice by (done || (rewrite <- ?El; lia) || lia). rewrite bind_ret. cbv iota beta.
    do 2 f_equal. lia.
  - cbv zeta. cbn [deserialize varchar_funcs]. unfold obj_val_deserialize_ObVarcharType. rewrite (proj2 (Z.ltb_ge _ 2)) by lia.
    fold mem1. rewrite Hd, bind_ret. cbv iota beta. rewrite El, <- Hvl. reflexivity.
  - assert (s32 (Z.of_nat (length data)) = Z.of_nat (length data)) as Es by (apply swrap_small; [lia|unfold sint; simpl; lia]).
    unfold same_cell. rewrite Ht. change (ObVarcharType =? ObVarcharType) with true. cbv iota.
    unfold text_of. cbn [meta_ set_meta val_len_ v_]. rewrite Es, Ev, El. split_and!; [done..|].
    rewrite Nat2Z.id, take_app_length. f_equal.
    destruct (decide (length data = 0%nat)) as [E0|E0]; [rewrite E0; by destruct data|].
    pose proof (load_bytes_room _ _ _ _ Hload ltac:(lia)). rewrite load_bytes_in in Hload by done. by injection Hload.
Qed.

(** C19: a cell with a number of any numeric type or with a text is written by serialize_ObObj in exactly the
    size that get_serialize_size_ObObj announces, no byte outside that range is touched, and deserialize_ObObj
    reads it back from there into any cell: the type, the scale and the value, for a text also its collation;
    the collation of a number is set to that of numbers. *)
Theorem cell_roundtrip o old mem buf_len pos :
  cell_ok o -> wf_value (v_ old) ->
  exists n, get_serialize_size_ObObj address junk o = Ret n /\
    (0 <= pos -> pos + n <= buf_len <= Z.of_nat (length mem) -> buf_len < 2 ^ 31 -> delivers o old mem buf_len pos n).
Proof.
  intros [Hm [[Ht Hv]|(Ht & data & rest & Ev & Hb & El & Hmax)]] Hold.
  - by apply number_delivered.
  - by apply (text_delivered o old mem buf_len pos data rest).
Qed.

(** * Whatever was received is a well-typed cell *)

(** A number is held without loss in the union and has the collation of numbers; a text lies in memory. *)
Definition typed (o : ObObj) : Prop :=
  (1 <= type_ (meta_ o) <= 14 /\ wf_value (v_ o) /\ cs_level_ (meta_ o) = CS_LEVEL_NUMERIC /\ cs_type_ (meta_ o) = CS_TYPE_BINARY
   /\ (type_ (meta_ o) <> ObFloatType -> type_ (meta_ o) <> ObUFloatType ->
       uint64_ address (v_ o) = u64 (cell_value address (type_ (meta_ o)) o)))
  \/ (type_ (meta_ o) = ObVarcharType /\ exists s, v_ o = String_ (Some s) /\ 0 <= val_len_ o <= Z.of_nat (length s)).

Lemma null_entry type f : 0 <= type -> ~ 1 <= type <= 14 -> type <> ObVarcharType ->
  obj_funcs address junk type = Ret f -> f = null_funcs.
Proof.
  intros H0 Hn Hv. unfold obj_funcs. remember (Z.to_nat type) as n eqn:En.
  assert (n = 0 \/ 15 <= n)%nat as [->|Hn'] by lia; [by intros [= <-]|].
  assert (n <> 22)%nat by (unfold ObVarcharType in Hv; lia).
  do 15 (destruct n as [|n]; [lia|]). do 30 (destruct n as [|n]; [first [lia | by intros [= <-]]|]). done.
Qed.

Lemma deserialize_meta_range buf data_len pos ret m pos' :
  deserialize_ObObjMeta buf data_len pos = Ret (ret, m, pos') -> uint 8 (type_ m).
Proof.
  unfold deserialize_ObObjMeta. intros ([[r1 p1] t] & E1 & E)%bind_Ret_inv.
  apply bind_Ret_inv in E as ([[r2 p2] l] & _ & ([[r3 p3] c] & _ & ([[r4 p4] sc] & _ & [= _ <- _])%bind_Ret_inv)%bind_Ret_inv).
  apply bind_Ret_inv in E1 as ([[r p] x] & _ & [= _ _ <-]). simpl. by apply wrap_uint.
Qed.

Lemma number_typed type o buf data_len pos o' pos' f :
  junk_ok junk -> wf_value (v_ o) -> 1 <= type <= 14 -> obj_funcs address junk type = Ret f ->
  deserialize f o buf data_len pos = Ret (OB_SUCCESS, o', pos') -> typed o'.
Proof.
  intros Hj Hv Ht Hf Hd. destruct (numeric_entry _ Ht) as (t & c & get & set & Hf' & N).
  rewrite Hf' in Hf. injection Hf as <-.
  simpl in Hd. apply bind_Ret_inv in Hd as ([[ret p] v] & E & Hd).
  destruct (ret =? OB_SUCCESS) eqn:Er; [|injection Hd as -> _ _; done].
  apply Z.eqb_eq in Er. subst ret. injection Hd as <- <-.
  assert (wt_dom t v) as Hdom.
  { unfold OB_UNIS_DECODE in E. destruct (_ && _) in E; [by apply (num_dec _ _ _ _ _ N) in E|injection E as _ <-]. unfold junk_ok in Hj. rewrite List.Forall_forall in Hj. apply Hj, (num_wire _ _ _ _ _ N). }
  left. rewrite (num_meta _ _ _ _ _ N). simpl. split_and!; [lia|lia|by apply (num_wf _ _ _ _ _ N)|done..|].
  intros H1 H2. rewrite (num_bits _ _ _ _ _ N) by done. by rewrite <- (num_value _ _ _ _ _ N), (num_get_set _ _ _ _ _ N).
Qed.

Lemma text_typed o mem data_len pos o' pos' :
  type_ (meta_ o) = ObVarcharType -> data_len <= Z.of_nat (length mem) -> data_len < 2 ^ 31 ->
  obj_val_deserialize_ObVarcharType o (Some mem) data_len pos = Ret (OB_SUCCESS, o', pos') -> typed o'.
Proof.
  intros Ht Hd Hmax. unfold obj_val_deserialize_ObVarcharType. destruct (_ <? 2); [done|].
  intros ([[s p] len] & E & H)%bind_Ret_inv. destruct s as [off|]; [|done]. injection H as <- <-.
  right. simpl. split; [done|]. eexists. split; [done|].
  unfold decode_vstr_nocopy in E. destruct (_ || _); [done|].
  apply bind_Ret_inv in E as ([[ret tp] tl] & Hvi & E).
  destruct (Z.eqb_spec ret OB_SUCCESS) as [->|]; [|done]. simpl in E.
  destruct (Z.leb_spec 0 tl); [|done]. destruct (Z.leb_spec tl (data_len - tp)); [|done].
  injection E as <- _ <-. apply decode_vi_range in Hvi as [_ Hp]; [|lia].
  rewrite swrap_small by (first [lia | unfold sint; simpl; lia]). rewrite length_drop. lia.
Qed.

(** C39: whatever bytes are received, a cell that deserialize_ObObj accepts is well typed: its type is one of
    the types that have functions, a number is in the range of its type and held without loss, with the
    collation of numbers, and a text points to as many bytes of the buffer as the cell says. *)
Theorem deserialized_typed o mem data_len pos o' pos' :
  junk_ok junk -> wf_value (v_ o) -> data_len <= Z.of_nat (length mem) -> data_len < 2 ^ 31 ->
  deserialize_ObObj address junk o (Some mem) data_len pos = Ret (OB_SUCCESS, o', pos') -> typed o'.
Proof.
  intros Hj Hv Hd Hmax. unfold deserialize_ObObj. intros ([[ret m] p] & Em & E)%bind_Ret_inv.
  pose proof (deserialize_meta_range _ _ _ _ _ _ Em) as [Ht0 _].
  destruct (ret =? OB_SUCCESS) eqn:Er; [|injection E as -> _ _; done].
  change (meta_ (set_meta o m)) with m in E. destruct (type_ m <=? ObMaxType); [|done].
  apply bind_Ret_inv in E as (f & Hf & E). unfold get_type in Hf.
  destruct (decide (1 <= type_ m <= 14)); [by eapply (number_typed (type_ m)); [..|exact E]|].
  destruct (decide (type_ m = ObVarcharType)) as [Ev|].
  - rewrite Ev in Hf. injection Hf as <-. by eapply text_typed; [..|exact E].
  - apply null_entry in Hf as ->; [done|lia|done|done].
Qed.

End numbers.

Definition example_text : ObObj := mk_obj (mk_meta ObVarcharType 2 45 (-1)) 2 (String_ (Some [104; 105; 0])).
Definition empty_cell : ObObj := mk_obj (mk_meta 0 0 0 0) 0 (Bits 0).

Lemma example_text_ok : cell_ok example_text.
Proof.
  split; [split_and!; vm_compute; split; congruence|]. right. split; [done|]. exists [104; 105], [0]. split_and!; [done|..|done|done].
  repeat (apply Forall_cons; split; [unfold is_byte, uint; lia|]). by apply Forall_nil.
Qed.

Lemma cell_roundtrip_witness :
  exists n, get_serialize_size_ObObj (fun _ => 0) (fun _ => 0) example_text = Ret n
    /\ delivers (fun _ => 0) (fun _ => 0) example_text empty_cell (repeat 9 16) 16 3 n.
Proof.
  destruct (cell_roundtrip (fun _ => 0) (fun _ => 0) example_text empty_cell (repeat 9 16) 16 3) as (n & E & H);
    [exact example_text_ok|simpl; unfold uint; lia|].
  exists n. split; [exact E|]. injection E as <-. apply H; [lia|vm_compute; split; discriminate|lia].
Defined.

Lemma deserialized_typed_witness :
  exists o', deserialize_ObObj (fun _ => 0) (fun _ => 0) empty_cell (Some [2; 5; 63; 0; 200; 1]) 6 0 = Ret (OB_SUCCESS, o', 6)
    /\ typed (fun _ => 0) o'.
Proof.
  eexists. split; [vm_compute; reflexivity|].
  eapply (deserialized_typed (fun _ => 0) (fun _ => 0) empty_cell [2; 5; 63; 0; 200; 1] 6 0);
    [repeat (apply Forall_cons; split; [vm_compute; split; congruence|]); by apply Forall_nil
    |simpl; unfold uint; lia|simpl; lia|lia|vm_compute; reflexivity].
Defined.

(** A cell that does not fit is reported as written, with nothing of its value. *)
Lemma text_overflow_unreported :
  serialize_ObObj (fun _ => 0) (fun _ => 0) example_text (Some (repeat 9 6)) 6 0
  = Ret (OB_SUCCESS, Some [22; 2; 45; 255; 9; 9], 4).
Proof. reflexivity. Qed.

(** A cell whose value is missing is accepted, with whatever the variable held. *)
Lemma missing_value_accepted junk : uint 64 (junk wt_uint64) ->
  exists o', deserialize_ObObj (fun _ => 0) junk empty_cell (Some [10; 5; 63; 0]) 4 0 = Ret (OB_SUCCESS, o', 4)
    /\ get_uint64 (fun _ => 0) o' = junk wt_uint64.
Proof. intros Hj. eexists. split; [reflexivity|]. by apply wrap_small. Qed.

(** The types 45, 46 (NULL pointers) and 47 (behind the table) pass the check and are called. *)
Lemma unlisted_type_called : forall type, In type [45; 46; 47] ->
  deserialize_ObObj (fun _ => 0) (fun _ => 0) empty_cell (Some [type; 0; 0; 0; 0]) 5 0 = Fault.
Proof. intros type [<-|[<-|[<-|[]]]]; reflexivity. Qed.

(** The table of types ends at ObUnknownType: every later type is taken for a DECIMAL. *)
Lemma late_types_decimal : forall type, ObTinyTextType <= type < ObMaxType -> get_mysql_type type 0 = (0, MYSQL_TYPE_DECIMAL).
Proof.
  intros type Ht. unfold get_mysql_type, get_map. destruct (Z.geb_spec type ObMaxType); [lia|].
  rewrite lookup_ge_None_2; [done|]. unfold ObTinyTextType in Ht. simpl. lia.
Qed.

End ObObject.
