(* ===== verification/Charset.v ===== *)
(** Character sets: libmariadb/ma_charset.c.  The functions that recognize the characters of the
    multibyte character sets, the table of collations with its searches, and the escaping of
    texts for statements (mysql_cset_escape_slashes, mysql_cset_escape_quotes and
    mysql_real_escape_string of mariadb_lib.c).

    A text is given by its memory, its start and its end.  Characters are bytes; where the
    code converts a char to unsigned int the sign is extended. *)

From stdpp Require Import tactics.
From S2P Require Import Prelude.

Module Charset.

(** * Characters of several bytes *)

Definition between (lo hi c : Z) : bool := (lo <=? c) && (c <=? hi).

(** (uchar) c ^ 0x80 < 0x40 *)
Definition is_tail (c : Z) : bool := Z.lxor c 0x80 <? 0x40.

Definition check_mb_utf8mb3_sequence (mem : bytes) (start end_ : Z) : cres Z :=
  if start >=? end_ then Ret 0
  else
    c ← load mem start;
    if c <? 0x80 then Ret 1
    else if c <? 0xC2 then Ret 0
    else if c <? 0xE0 then
      if start + 2 >? end_ then Ret 0
      else c1 ← load mem (start + 1); Ret (if negb (is_tail c1) then 0 else 2)
    else if c <? 0xF0 then
      if start + 3 >? end_ then Ret 0
      else
        c1 ← load mem (start + 1); c2 ← load mem (start + 2);
        Ret (if negb (is_tail c1 && is_tail c2 && ((c >=? 0xE1) || (c1 >=? 0xA0))) then 0 else 3)
    else Ret 0.

Definition check_mb_utf8_sequence (mem : bytes) (start end_ : Z) : cres Z :=
  if start >=? end_ then Ret 0
  else
    c ← load mem start;
    if c <? 0x80 then Ret 1
    else if c <? 0xC2 then Ret 0
    else if c <? 0xE0 then
      if start + 2 >? end_ then Ret 0
      else c1 ← load mem (start + 1); Ret (if negb (is_tail c1) then 0 else 2)
    else if c <? 0xF0 then
      if start + 3 >? end_ then Ret 0
      else
        c1 ← load mem (start + 1); c2 ← load mem (start + 2);
        Ret (if negb (is_tail c1 && is_tail c2 && ((c >=? 0xE1) || (c1 >=? 0xA0))) then 0 else 3)
    else if c <? 0xF5 then
      if start + 4 >? end_ then Ret 0
      else
        c1 ← load mem (start + 1); c2 ← load mem (start + 2); c3 ← load mem (start + 3);
        Ret (if negb (is_tail c1 && is_tail c2 && is_tail c3 && ((c >=? 0xF1) || (c1 >=? 0x90)) && ((c <=? 0xF3) || (c1 <=? 0x8F)))
             then 0 else 4)
    else Ret 0.

Definition check_mb_utf8mb3_valid (mem : bytes) (start end_ : Z) : cres Z :=
  len ← check_mb_utf8mb3_sequence mem start end_; Ret (if len >? 1 then len else 0).

Definition check_mb_utf8_valid (mem : bytes) (start end_ : Z) : cres Z :=
  len ← check_mb_utf8_sequence mem start end_; Ret (if len >? 1 then len else 0).

Definition mysql_mbcharlen_utf8mb3 (utf8 : Z) : Z :=
  if utf8 <? 0x80 then 1 else if utf8 <? 0xC2 then 0 else if utf8 <? 0xE0 then 2 else if utf8 <? 0xF0 then 3 else 0.

Definition mysql_mbcharlen_utf8 (utf8 : Z) : Z :=
  if utf8 <? 0x80 then 1 else if utf8 <? 0xC2 then 0 else if utf8 <? 0xE0 then 2 else if utf8 <? 0xF0 then 3
  else if utf8 <? 0xF8 then 4 else 0.

Definition valid_big5head : Z -> bool := between 0xA1 0xF9.
Definition valid_big5tail (c : Z) : bool := between 0x40 0x7E c || between 0xA1 0xFE c.

(** The pattern of the functions for characters of two bytes: head && end - start > 1 && tail. *)
Definition two_bytes (head tail : Z -> bool) (mem : bytes) (start end_ : Z) : cres Z :=
  c ← load mem start;
  if head c && (end_ - start >? 1) then c1 ← load mem (start + 1); Ret (if tail c1 then 2 else 0) else Ret 0.

Definition check_mb_big5 : bytes -> Z -> Z -> cres Z := two_bytes valid_big5head valid_big5tail.
Definition mysql_mbcharlen_big5 (big5 : Z) : Z := if valid_big5head big5 then 2 else 1.

Definition valid_cp932head (c : Z) : bool := between 0x81 0x9F c || between 0xE0 0xFC c.
Definition valid_cp932tail (c : Z) : bool := between 0x40 0x7E c || between 0x80 0xFC c.
Definition check_mb_cp932 : bytes -> Z -> Z -> cres Z := two_bytes valid_cp932head valid_cp932tail.
Definition mysql_mbcharlen_cp932 (cp932 : Z) : Z := if valid_cp932head (u8 cp932) then 2 else 1.

Definition valid_euckr (c : Z) : bool := between 0xA1 0xFE (u8 c).
Definition check_mb_euckr (mem : bytes) (start end_ : Z) : cres Z :=
  if end_ - start <=? 1 then Ret 0
  else
    c ← load mem start;
    if c <? 0x80 then Ret 0 else c1 ← load mem (start + 1); Ret (if valid_euckr c1 then 2 else 0).
Definition mysql_mbcharlen_euckr (kr : Z) : Z := if valid_euckr kr then 2 else 1.

Definition valid_eucjpms (c : Z) : bool := between 0xA1 0xFE (Z.land c 0xFF).
Definition valid_eucjpms_kata (c : Z) : bool := between 0xA1 0xDF (Z.land c 0xFF).
Definition valid_eucjpms_ss2 (c : Z) : bool := Z.land c 0xFF =? 0x8E.
Definition valid_eucjpms_ss3 (c : Z) : bool := Z.land c 0xFF =? 0x8F.

(** The conditions are tried in order, and a byte is loaded only where && gets to it. *)
Definition check_mb_eucjpms (mem : bytes) (start end_ : Z) : cres Z :=
  c ← load mem start;
  if c <? 0x80 then Ret 0
  else
    a ← (if valid_eucjpms c && (end_ - start >? 1) then c1 ← load mem (start + 1); Ret (valid_eucjpms c1) else Ret false);
    if (a : bool) then Ret 2
    else
      a ← (if valid_eucjpms_ss2 c && (end_ - start >? 1) then c1 ← load mem (start + 1); Ret (valid_eucjpms_kata c1) else Ret false);
      if (a : bool) then Ret 2
      else
        a ← (if valid_eucjpms_ss3 c && (end_ - start >? 2)
             then c1 ← load mem (start + 1); c2 ← load mem (start + 2); Ret (valid_eucjpms c1 && valid_eucjpms c2) else Ret false);
        Ret (if (a : bool) then 2 else 0).

Definition mysql_mbcharlen_eucjpms (jpms : Z) : Z :=
  if valid_eucjpms jpms || valid_eucjpms_ss2 jpms then 2 else if valid_eucjpms_ss3 jpms then 3 else 1.

Definition valid_gb2312_head (c : Z) : bool := between 0xA1 0xF7 (u8 c).
Definition valid_gb2312_tail (c : Z) : bool := between 0xA1 0xFE (u8 c).
Definition check_mb_gb2312 : bytes -> Z -> Z -> cres Z := two_bytes valid_gb2312_head valid_gb2312_tail.
Definition mysql_mbcharlen_gb2312 (gb : Z) : Z := if valid_gb2312_head gb then 2 else 1.

Definition valid_gbk_head (c : Z) : bool := between 0x81 0xFE (u8 c).
Definition valid_gbk_tail (c : Z) : bool := between 0x40 0x7E (u8 c) || between 0x80 0xFE (u8 c).
Definition check_mb_gbk : bytes -> Z -> Z -> cres Z := two_bytes valid_gbk_head valid_gbk_tail.
Definition mysql_mbcharlen_gbk (gbk : Z) : Z := if valid_gbk_head gbk then 2 else 1.

Definition valid_sjis_head (c : Z) : bool := between 0x81 0x9F c || between 0xE0 0xFC c.
Definition valid_sjis_tail (c : Z) : bool := between 0x40 0x7E c || between 0x80 0xFC c.
Definition check_mb_sjis : bytes -> Z -> Z -> cres Z := two_bytes valid_sjis_head valid_sjis_tail.
Definition mysql_mbcharlen_sjis (sjis : Z) : Z := if valid_sjis_head (u8 sjis) then 2 else 1.

Definition check_mb_ucs2 (mem : bytes) (start end_ : Z) : cres Z := Ret 2.
Definition mysql_mbcharlen_ucs2 (ucs2 : Z) : Z := 2.

Definition valid_ujis (c : Z) : bool := between 0xA1 0xFE (Z.land c 0xFF).
Definition valid_ujis_kata (c : Z) : bool := between 0xA1 0xDF (Z.land c 0xFF).
Definition valid_ujis_ss2 (c : Z) : bool := Z.land c 0xFF =? 0x8E.
Definition valid_ujis_ss3 (c : Z) : bool := Z.land c 0xFF =? 0x8F.

(** The first two conditions do not compare with [end_]. *)
Definition check_mb_ujis (mem : bytes) (start end_ : Z) : cres Z :=
  c ← load mem start;
  if c <? 0x80 then Ret 0
  else
    a ← (if valid_ujis c then c1 ← load mem (start + 1); Ret (valid_ujis c1) else Ret false);
    if (a : bool) then Ret 2
    else
      a ← (if valid_ujis_ss2 c then c1 ← load mem (start + 1); Ret (valid_ujis_kata c1) else Ret false);
      if (a : bool) then Ret 2
      else
        a ← (if valid_ujis_ss3 c && (end_ - start >? 2)
             then c1 ← load mem (start + 1); c2 ← load mem (start + 2); Ret (valid_ujis c1 && valid_ujis c2) else Ret false);
        Ret (if (a : bool) then 3 else 0).

Definition mysql_mbcharlen_ujis (ujis : Z) : Z :=
  if valid_ujis ujis then 2 else if valid_ujis_ss2 ujis then 2 else if valid_ujis_ss3 ujis then 3 else 1.

Definition UTF16_HIGH_HEAD (x : Z) : bool := Z.land (u8 x) 0xFC =? 0xD8.
Definition UTF16_LOW_HEAD (x : Z) : bool := Z.land (u8 x) 0xFC =? 0xDC.
Definition check_mb_utf16 (mem : bytes) (start end_ : Z) : cres Z :=
  if start + 2 >? end_ then Ret 0
  else
    c ← load mem start;
    if UTF16_HIGH_HEAD c then
      if start + 4 <=? end_ then c2 ← load mem (start + 2); Ret (if UTF16_LOW_HEAD c2 then 4 else 0) else Ret 0
    else Ret (if UTF16_LOW_HEAD c then 0 else 2).
Definition mysql_mbcharlen_utf16 (utf16 : Z) : Z := if UTF16_HIGH_HEAD utf16 then 4 else 2.

Definition check_mb_utf32 (mem : bytes) (start end_ : Z) : cres Z := Ret 4.
Definition mysql_mbcharlen_utf32 (utf32 : Z) : Z := 4.

Definition is_gb18030_odd (c : Z) : bool := between 0x81 0xFE (u8 c).
Definition is_gb18030_even_2 (c : Z) : bool := between 0x40 0x7E (u8 c) || between 0x80 0xFE (u8 c).
Definition is_gb18030_even_4 (c : Z) : bool := between 0x30 0x39 (u8 c).

Definition mysql_mbcharlen_gb18030 (c : Z) : Z :=
  if c <=? 0xFF then if is_gb18030_odd c then 0 else 1
  else if (c >? 0xFFFF) || negb (is_gb18030_odd (Z.land (Z.shiftr c 8) 0xFF)) then 0
  else if is_gb18030_even_2 (Z.land c 0xFF) then 2
  else if is_gb18030_even_4 (Z.land c 0xFF) then 4
  else 0.

Definition check_mb_gb18030_valid (mem : bytes) (start end_ : Z) : cres Z :=
  if end_ - start <=? 1 then Ret 0
  else
    c ← load mem start;
    if negb (is_gb18030_odd c) then Ret 0
    else
      c1 ← load mem (start + 1);
      if is_gb18030_even_2 c1 then Ret 2
      else if (end_ - start >? 3) && is_gb18030_even_4 c1 then
        c2 ← load mem (start + 2);
        if is_gb18030_odd c2 then c3 ← load mem (start + 3); Ret (if is_gb18030_even_4 c3 then 4 else 0) else Ret 0
      else Ret 0.

(** * The table *)

(** The pairs of functions that the rows of the table have. *)
Inductive mb_functions :=
| none | mb_utf8mb3 | mb_utf8 | mb_big5 | mb_cp932 | mb_euckr | mb_eucjpms | mb_gb2312 | mb_gbk | mb_sjis | mb_ucs2
| mb_ujis | mb_utf16 | mb_utf32 | mb_gb18030.

#[export] Instance mb_functions_eq_dec : EqDecision mb_functions.
Proof. solve_decision. Defined.

Definition mb_valid (f : mb_functions) : bytes -> Z -> Z -> cres Z :=
  match f with
  | none => fun _ _ _ => Fault
  | mb_utf8mb3 => check_mb_utf8mb3_valid
  | mb_utf8 => check_mb_utf8_valid
  | mb_big5 => check_mb_big5
  | mb_cp932 => check_mb_cp932
  | mb_euckr => check_mb_euckr
  | mb_eucjpms => check_mb_eucjpms
  | mb_gb2312 => check_mb_gb2312
  | mb_gbk => check_mb_gbk
  | mb_sjis => check_mb_sjis
  | mb_ucs2 => check_mb_ucs2
  | mb_ujis => check_mb_ujis
  | mb_utf16 => check_mb_utf16
  | mb_utf32 => check_mb_utf32
  | mb_gb18030 => check_mb_gb18030_valid
  end.

Definition mb_charlen (f : mb_functions) (c : Z) : cres Z :=
  match f with
  | none => Fault
  | mb_utf8mb3 => Ret (mysql_mbcharlen_utf8mb3 c)
  | mb_utf8 => Ret (mysql_mbcharlen_utf8 c)
  | mb_big5 => Ret (mysql_mbcharlen_big5 c)
  | mb_cp932 => Ret (mysql_mbcharlen_cp932 c)
  | mb_euckr => Ret (mysql_mbcharlen_euckr c)
  | mb_eucjpms => Ret (mysql_mbcharlen_eucjpms c)
  | mb_gb2312 => Ret (mysql_mbcharlen_gb2312 c)
  | mb_gbk => Ret (mysql_mbcharlen_gbk c)
  | mb_sjis => Ret (mysql_mbcharlen_sjis c)
  | mb_ucs2 => Ret (mysql_mbcharlen_ucs2 c)
  | mb_ujis => Ret (mysql_mbcharlen_ujis c)
  | mb_utf16 => Ret (mysql_mbcharlen_utf16 c)
  | mb_utf32 => Ret (mysql_mbcharlen_utf32 c)
  | mb_gb18030 => Ret (mysql_mbcharlen_gb18030 c)
  end.

(** The member dir is empty in every row. *)
Record MARIADB_CHARSET_INFO := mk_charset {
  nr : Z; state : Z; csname : string; name : string; codepage : Z; encoding : string;
  char_minlen : Z; char_maxlen : Z; mb : mb_functions }.

(** The rows before the one with number 0. *)
Definition mariadb_compiled_charsets : list MARIADB_CHARSET_INFO := [
   mk_charset 1 1 "big5" "big5_chinese_ci" 950 "BIG5" 1 2 mb_big5;
   mk_charset 3 1 "dec8" "dec8_swedish_ci" 0 "DEC" 1 1 none;
   mk_charset 4 1 "cp850" "cp850_general_ci" 850 "CP850" 1 1 none;
   mk_charset 6 1 "hp8" "hp8_english_ci" 0 "HP-ROMAN8" 1 1 none;
   mk_charset 7 1 "koi8r" "koi8r_general_ci" 20866 "KOI8R" 1 1 none;
   mk_charset 8 1 "latin1" "latin1_swedish_ci" 1252 "LATIN1" 1 1 none;
   mk_charset 9 1 "latin2" "latin2_general_ci" 852 "LATIN2" 1 1 none;
   mk_charset 10 1 "swe7" "swe7_swedish_ci" 20107 EmptyString 1 1 none;
   mk_charset 11 1 "ascii" "ascii_general_ci" 1252 "ASCII" 1 1 none;
   mk_charset 12 1 "ujis" "ujis_japanese_ci" 20932 "UJIS" 1 3 mb_ujis;
   mk_charset 13 1 "sjis" "sjis_japanese_ci" 932 "SJIS" 1 2 mb_sjis;
   mk_charset 16 1 "hebrew" "hebrew_general_ci" 1255 "HEBREW" 1 1 none;
   mk_charset 18 1 "tis620" "tis620_thai_ci" 874 "TIS620" 1 1 none;
   mk_charset 19 1 "euckr" "euckr_korean_ci" 51949 "EUCKR" 1 2 mb_euckr;
   mk_charset 22 1 "koi8u" "koi8u_general_ci" 21866 "KOI8U" 1 1 none;
   mk_charset 24 1 "gb2312" "gb2312_chinese_ci" 936 "GB2312" 1 2 mb_gb2312;
   mk_charset 25 1 "greek" "greek_general_ci" 28597 "GREEK" 1 1 none;
   mk_charset 26 1 "cp1250" "cp1250_general_ci" 1250 "CP1250" 1 1 none;
   mk_charset 28 1 "gbk" "gbk_chinese_ci" 936 "GBK" 1 2 mb_gbk;
   mk_charset 30 1 "latin5" "latin5_turkish_ci" 1254 "LATIN5" 1 1 none;
   mk_charset 32 1 "armscii8" "armscii8_general_ci" 0 "ARMSCII-8" 1 1 none;
   mk_charset 33 1 "utf8" "utf8_general_ci" 65001 "UTF-8" 1 3 mb_utf8mb3;
   mk_charset 35 1 "ucs2" "ucs2_general_ci" 1200 "UCS-2BE" 2 2 mb_ucs2;
   mk_charset 36 1 "cp866" "cp866_general_ci" 866 "CP866" 1 1 none;
   mk_charset 37 1 "keybcs2" "keybcs2_general_ci" 0 EmptyString 1 1 none;
   mk_charset 38 1 "macce" "macce_general_ci" 10029 "CP1282" 1 1 none;
   mk_charset 39 1 "macroman" "macroman_general_ci" 10000 "MACINTOSH" 1 1 none;
   mk_charset 40 1 "cp852" "cp852_general_ci" 852 "CP852" 1 1 none;
   mk_charset 41 1 "latin7" "latin7_general_ci" 28603 "LATIN7" 1 1 none;
   mk_charset 51 1 "cp1251" "cp1251_general_ci" 1251 "CP1251" 1 1 none;
   mk_charset 57 1 "cp1256" "cp1256_general_ci" 1256 "CP1256" 1 1 none;
   mk_charset 59 1 "cp1257" "cp1257_general_ci" 1257 "CP1257" 1 1 none;
   mk_charset 63 1 "binary" "binary" 0 "ASCII" 1 1 none;
   mk_charset 64 1 "armscii8" "armscii8_bin" 0 "ARMSCII-8" 1 1 none;
   mk_charset 92 1 "geostd8" "geostd8_general_ci" 0 "GEORGIAN-PS" 1 1 none;
   mk_charset 95 1 "cp932" "cp932_japanese_ci" 932 "CP932" 1 2 mb_cp932;
   mk_charset 97 1 "eucjpms" "eucjpms_japanese_ci" 932 "EUC-JP-MS" 1 3 mb_eucjpms;
   mk_charset 2 1 "latin2" "latin2_czech_cs" 852 "LATIN2" 1 1 none;
   mk_charset 5 1 "latin1" "latin1_german1_ci" 1252 "LATIN1" 1 1 none;
   mk_charset 14 1 "cp1251" "cp1251_bulgarian_ci" 1251 "CP1251" 1 1 none;
   mk_charset 15 1 "latin1" "latin1_danish_ci" 1252 "LATIN1" 1 1 none;
   mk_charset 17 1 "filename" "filename" 0 EmptyString 1 5 none;
   mk_charset 20 1 "latin7" "latin7_estonian_cs" 28603 "LATIN7" 1 1 none;
   mk_charset 21 1 "latin2" "latin2_hungarian_ci" 852 "LATIN2" 1 1 none;
   mk_charset 23 1 "cp1251" "cp1251_ukrainian_ci" 1251 "CP1251" 1 1 none;
   mk_charset 27 1 "latin2" "latin2_croatian_ci" 852 "LATIN2" 1 1 none;
   mk_charset 29 1 "cp1257" "cp1257_lithuanian_ci" 1257 "CP1257" 1 1 none;
   mk_charset 31 1 "latin1" "latin1_german2_ci" 1252 "LATIN1" 1 1 none;
   mk_charset 34 1 "cp1250" "cp1250_czech_cs" 1250 "CP1250" 1 1 none;
   mk_charset 42 1 "latin7" "latin7_general_cs" 28603 "LATIN7" 1 1 none;
   mk_charset 43 1 "macce" "macce_bin" 10029 "CP1282" 1 1 none;
   mk_charset 44 1 "cp1250" "cp1250_croatian_ci" 1250 "CP1250" 1 1 none;
   mk_charset 45 1 "utf8mb4" "utf8mb4_general_ci" 65001 "UTF-8" 1 4 mb_utf8;
   mk_charset 46 1 "utf8mb4" "utf8mb4_bin" 65001 "UTF-8" 1 4 mb_utf8;
   mk_charset 47 1 "latin1" "latin1_bin" 1250 "LATIN1" 1 1 none;
   mk_charset 48 1 "latin1" "latin1_general_ci" 1250 "LATIN1" 1 1 none;
   mk_charset 49 1 "latin1" "latin1_general_cs" 1250 "LATIN1" 1 1 none;
   mk_charset 50 1 "cp1251" "cp1251_bin" 1251 "CP1251" 1 1 none;
   mk_charset 52 1 "cp1251" "cp1251_general_cs" 1251 "CP1251" 1 1 none;
   mk_charset 53 1 "macroman" "macroman_bin" 10000 "MACINTOSH" 1 1 none;
   mk_charset 54 1 "utf16" "utf16_general_ci" 0 "UTF16" 2 4 mb_utf16;
   mk_charset 55 1 "utf16" "utf16_bin" 0 "UTF16" 2 4 mb_utf16;
   mk_charset 56 1 "utf16le" "utf16_general_ci" 1200 "UTF16LE" 2 4 mb_utf16;
   mk_charset 58 1 "cp1257" "cp1257_bin" 1257 "CP1257" 1 1 none;
   mk_charset 60 1 "utf32" "utf32_general_ci" 0 "UTF32" 4 4 mb_utf32;
   mk_charset 61 1 "utf32" "utf32_bin" 0 "UTF32" 4 4 mb_utf32;
   mk_charset 62 1 "utf16le" "utf16_bin" 1200 "UTF16LE" 2 4 mb_utf16;
   mk_charset 65 1 "ascii" "ascii_bin" 1252 "ASCII" 1 1 none;
   mk_charset 66 1 "cp1250" "cp1250_bin" 1250 "CP1250" 1 1 none;
   mk_charset 67 1 "cp1256" "cp1256_bin" 1256 "CP1256" 1 1 none;
   mk_charset 68 1 "cp866" "cp866_bin" 866 "CP866" 1 1 none;
   mk_charset 69 1 "dec8" "dec8_bin" 0 "DEC" 1 1 none;
   mk_charset 70 1 "greek" "greek_bin" 28597 "GREEK" 1 1 none;
   mk_charset 71 1 "hebrew" "hebrew_bin" 1255 "hebrew" 1 1 none;
   mk_charset 72 1 "hp8" "hp8_bin" 0 "HPROMAN-8" 1 1 none;
   mk_charset 73 1 "keybcs2" "keybcs2_bin" 0 EmptyString 1 1 none;
   mk_charset 74 1 "koi8r" "koi8r_bin" 20866 "KOI8R" 1 1 none;
   mk_charset 75 1 "koi8u" "koi8u_bin" 21866 "KOI8U" 1 1 none;
   mk_charset 76 1 "utf8" "utf8_tolower_ci" 65001 "UTF-8" 1 3 mb_utf8mb3;
   mk_charset 77 1 "latin2" "latin2_bin" 28592 "LATIN2" 1 1 none;
   mk_charset 78 1 "latin5" "latin5_bin" 1254 "LATIN5" 1 1 none;
   mk_charset 79 1 "latin7" "latin7_bin" 28603 "LATIN7" 1 1 none;
   mk_charset 80 1 "cp850" "cp850_bin" 850 "CP850" 1 1 none;
   mk_charset 81 1 "cp852" "cp852_bin" 852 "CP852" 1 1 none;
   mk_charset 82 1 "swe7" "swe7_bin" 0 EmptyString 1 1 none;
   mk_charset 93 1 "geostd8" "geostd8_bin" 0 "GEORGIAN-PS" 1 1 none;
   mk_charset 83 1 "utf8" "utf8_bin" 65001 "UTF-8" 1 3 mb_utf8mb3;
   mk_charset 84 1 "big5" "big5_bin" 65000 "BIG5" 1 2 mb_big5;
   mk_charset 85 1 "euckr" "euckr_bin" 51949 "EUCKR" 1 2 mb_euckr;
   mk_charset 86 1 "gb2312" "gb2312_bin" 936 "GB2312" 1 2 mb_gb2312;
   mk_charset 87 1 "gbk" "gbk_bin" 936 "GBK" 1 2 mb_gbk;
   mk_charset 88 1 "sjis" "sjis_bin" 932 "SJIS" 1 2 mb_sjis;
   mk_charset 89 1 "tis620" "tis620_bin" 874 "TIS620" 1 1 none;
   mk_charset 90 1 "ucs2" "ucs2_bin" 1200 "UCS-2BE" 2 2 mb_ucs2;
   mk_charset 91 1 "ujis" "ujis_bin" 20932 "UJIS" 1 3 mb_ujis;
   mk_charset 94 1 "latin1" "latin1_spanish_ci" 1252 "LATIN1" 1 1 none;
   mk_charset 96 1 "cp932" "cp932_bin" 932 "CP932" 1 2 mb_cp932;
   mk_charset 99 1 "cp1250" "cp1250_polish_ci" 1250 "CP1250" 1 1 none;
   mk_charset 98 1 "eucjpms" "eucjpms_bin" 932 "EUCJP-MS" 1 3 mb_eucjpms;
   mk_charset 101 1 "utf16" "utf16_unicode_ci" 0 "UTF16" 2 4 mb_utf16;
   mk_charset 102 1 "utf16" "utf16_icelandic_ci" 0 "UTF16" 2 4 mb_utf16;
   mk_charset 103 1 "utf16" "utf16_latvian_ci" 0 "UTF16" 2 4 mb_utf16;
   mk_charset 104 1 "utf16" "utf16_romanian_ci" 0 "UTF16" 2 4 mb_utf16;
   mk_charset 105 1 "utf16" "utf16_slovenian_ci" 0 "UTF16" 2 4 mb_utf16;
   mk_charset 106 1 "utf16" "utf16_polish_ci" 0 "UTF16" 2 4 mb_utf16;
   mk_charset 107 1 "utf16" "utf16_estonian_ci" 0 "UTF16" 2 4 mb_utf16;
   mk_charset 108 1 "utf16" "utf16_spanish_ci" 0 "UTF16" 2 4 mb_utf16;
   mk_charset 109 1 "utf16" "utf16_swedish_ci" 0 "UTF16" 2 4 mb_utf16;
   mk_charset 110 1 "utf16" "utf16_turkish_ci" 0 "UTF16" 2 4 mb_utf16;
   mk_charset 111 1 "utf16" "utf16_czech_ci" 0 "UTF16" 2 4 mb_utf16;
   mk_charset 112 1 "utf16" "utf16_danish_ci" 0 "UTF16" 2 4 mb_utf16;
   mk_charset 113 1 "utf16" "utf16_lithunian_ci" 0 "UTF16" 2 4 mb_utf16;
   mk_charset 114 1 "utf16" "utf16_slovak_ci" 0 "UTF16" 2 4 mb_utf16;
   mk_charset 115 1 "utf16" "utf16_spanish2_ci" 0 "UTF16" 2 4 mb_utf16;
   mk_charset 116 1 "utf16" "utf16_roman_ci" 0 "UTF16" 2 4 mb_utf16;
   mk_charset 117 1 "utf16" "utf16_persian_ci" 0 "UTF16" 2 4 mb_utf16;
   mk_charset 118 1 "utf16" "utf16_esperanto_ci" 0 "UTF16" 2 4 mb_utf16;
   mk_charset 120 1 "utf16" "utf16_sinhala_ci" 0 "UTF16" 2 4 mb_utf16;
   mk_charset 121 1 "utf16" "utf16_german2_ci" 0 "UTF16" 2 4 mb_utf16;
   mk_charset 122 1 "utf16" "utf16_croatian_mysql561_ci" 0 "UTF16" 2 4 mb_utf16;
   mk_charset 123 1 "utf16" "utf16_unicode_520_ci" 0 "UTF16" 2 4 mb_utf16;
   mk_charset 124 1 "utf16" "utf16_vietnamese_ci" 0 "UTF16" 2 4 mb_utf16;
   mk_charset 128 1 "ucs2" "ucs2_unicode_ci" 1200 "UCS-2BE" 2 2 mb_ucs2;
   mk_charset 129 1 "ucs2" "ucs2_icelandic_ci" 1200 "UCS-2BE" 2 2 mb_ucs2;
   mk_charset 130 1 "ucs2" "ucs2_latvian_ci" 1200 "UCS-2BE" 2 2 mb_ucs2;
   mk_charset 131 1 "ucs2" "ucs2_romanian_ci" 1200 "UCS2-BE" 2 2 mb_ucs2;
   mk_charset 132 1 "ucs2" "ucs2_slovenian_ci" 1200 "UCS2-BE" 2 2 mb_ucs2;
   mk_charset 133 1 "ucs2" "ucs2_polish_ci" 1200 "UCS2-BE" 2 2 mb_ucs2;
   mk_charset 134 1 "ucs2" "ucs2_estonian_ci" 1200 "UCS2-BE" 2 2 mb_ucs2;
   mk_charset 135 1 "ucs2" "ucs2_spanish_ci" 1200 "UCS2-BE" 2 2 mb_ucs2;
   mk_charset 136 1 "ucs2" "ucs2_swedish_ci" 1200 "UCS2-BE" 2 2 mb_ucs2;
   mk_charset 137 1 "ucs2" "ucs2_turkish_ci" 1200 "UCS2-BE" 2 2 mb_ucs2;
   mk_charset 138 1 "ucs2" "ucs2_czech_ci" 1200 "UCS2-BE" 2 2 mb_ucs2;
   mk_charset 139 1 "ucs2" "ucs2_danish_ci" 1200 "UCS2-BE" 2 2 mb_ucs2;
   mk_charset 140 1 "ucs2" "ucs2_lithuanian_ci" 1200 "UCS2-BE" 2 2 mb_ucs2;
   mk_charset 141 1 "ucs2" "ucs2_slovak_ci" 1200 "UCS2-BE" 2 2 mb_ucs2;
   mk_charset 142 1 "ucs2" "ucs2_spanish2_ci" 1200 "UCS2-BE" 2 2 mb_ucs2;
   mk_charset 143 1 "ucs2" "ucs2_roman_ci" 1200 "UCS2-BE" 2 2 mb_ucs2;
   mk_charset 144 1 "ucs2" "ucs2_persian_ci" 1200 "UCS2-BE" 2 2 mb_ucs2;
   mk_charset 145 1 "ucs2" "ucs2_esperanto_ci" 1200 "UCS2-BE" 2 2 mb_ucs2;
   mk_charset 146 1 "ucs2" "ucs2_hungarian_ci" 1200 "UCS2-BE" 2 2 mb_ucs2;
   mk_charset 147 1 "ucs2" "ucs2_sinhala_ci" 1200 "UCS2-BE" 2 2 mb_ucs2;
   mk_charset 148 1 "ucs2" "ucs2_german2_ci" 1200 "UCS2-BE" 2 2 mb_ucs2;
   mk_charset 149 1 "ucs2" "ucs2_croatian_ci" 1200 "UCS2-BE" 2 2 mb_ucs2;
   mk_charset 150 1 "ucs2" "ucs2_unicode_520_ci" 1200 "UCS2-BE" 2 2 mb_ucs2;
   mk_charset 151 1 "ucs2" "ucs2_vietnamese_ci" 1200 "UCS2-BE" 2 2 mb_ucs2;
   mk_charset 159 1 "ucs2" "ucs2_general_mysql500_ci" 1200 "UCS2-BE" 2 2 mb_ucs2;
   mk_charset 160 1 "utf32" "utf32_unicode_ci" 0 "UTF32" 4 4 mb_utf32;
   mk_charset 161 1 "utf32" "utf32_icelandic_ci" 0 "UTF32" 4 4 mb_utf32;
   mk_charset 162 1 "utf32" "utf32_latvian_ci" 0 "UTF32" 4 4 mb_utf32;
   mk_charset 163 1 "utf32" "utf32_romanian_ci" 0 "UTF32" 4 4 mb_utf32;
   mk_charset 164 1 "utf32" "utf32_slovenian_ci" 0 "UTF32" 4 4 mb_utf32;
   mk_charset 165 1 "utf32" "utf32_polish_ci" 0 "UTF32" 4 4 mb_utf32;
   mk_charset 166 1 "utf32" "utf32_estonian_ci" 0 "UTF32" 4 4 mb_utf32;
   mk_charset 167 1 "utf32" "utf32_spanish_ci" 0 "UTF32" 4 4 mb_utf32;
   mk_charset 168 1 "utf32" "utf32_swedish_ci" 0 "UTF32" 4 4 mb_utf32;
   mk_charset 169 1 "utf32" "utf32_turkish_ci" 0 "UTF32" 4 4 mb_utf32;
   mk_charset 170 1 "utf32" "utf32_czech_ci" 0 "UTF32" 4 4 mb_utf32;
   mk_charset 171 1 "utf32" "utf32_danish_ci" 0 "UTF32" 4 4 mb_utf32;
   mk_charset 172 1 "utf32" "utf32_lithuanian_ci" 0 "UTF32" 4 4 mb_utf32;
   mk_charset 173 1 "utf32" "utf32_slovak_ci" 0 "UTF32" 4 4 mb_utf32;
   mk_charset 174 1 "utf32" "utf32_spanish_ci" 0 "UTF32" 4 4 mb_utf32;
   mk_charset 175 1 "utf32" "utf32_roman_ci" 0 "UTF32" 4 4 mb_utf32;
   mk_charset 176 1 "utf32" "utf32_persian_ci" 0 "UTF32" 4 4 mb_utf32;
   mk_charset 177 1 "utf32" "utf32_esperanto_ci" 0 "UTF32" 4 4 mb_utf32;
   mk_charset 178 1 "utf32" "utf32_hungarian_ci" 0 "UTF32" 4 4 mb_utf32;
   mk_charset 179 1 "utf32" "utf32_sinhala_ci" 0 "UTF32" 4 4 mb_utf32;
   mk_charset 180 1 "utf32" "utf32_german2_ci" 0 "UTF32" 4 4 mb_utf32;
   mk_charset 181 1 "utf32" "utf32_croatian_mysql561_ci" 0 "UTF32" 4 4 mb_utf32;
   mk_charset 182 1 "utf32" "utf32_unicode_520_ci" 0 "UTF32" 4 4 mb_utf32;
   mk_charset 183 1 "utf32" "utf32_vietnamese_ci" 0 "UTF32" 4 4 mb_utf32;
   mk_charset 192 1 "utf8" "utf8_general_ci" 65001 "UTF-8" 1 3 mb_utf8mb3;
   mk_charset 193 1 "utf8" "utf8_icelandic_ci" 65001 "UTF-8" 1 3 mb_utf8mb3;
   mk_charset 194 1 "utf8" "utf8_latvian_ci" 65001 "UTF-8" 1 3 mb_utf8mb3;
   mk_charset 195 1 "utf8" "utf8_romanian_ci" 65001 "UTF-8" 1 3 mb_utf8mb3;
   mk_charset 196 1 "utf8" "utf8_slovenian_ci" 65001 "UTF-8" 1 3 mb_utf8mb3;
   mk_charset 197 1 "utf8" "utf8_polish_ci" 65001 "UTF-8" 1 3 mb_utf8mb3;
   mk_charset 198 1 "utf8" "utf8_estonian_ci" 65001 "UTF-8" 1 3 mb_utf8mb3;
   mk_charset 199 1 "utf8" "utf8_spanish_ci" 65001 "UTF-8" 1 3 mb_utf8mb3;
   mk_charset 119 1 "utf8" "utf8_spanish_ci" 65001 "UTF-8" 1 3 mb_utf8mb3;
   mk_charset 200 1 "utf8" "utf8_swedish_ci" 65001 "UTF-8" 1 3 mb_utf8mb3;
   mk_charset 201 1 "utf8" "utf8_turkish_ci" 65001 "UTF-8" 1 3 mb_utf8mb3;
   mk_charset 202 1 "utf8" "utf8_czech_ci" 65001 "UTF-8" 1 3 mb_utf8mb3;
   mk_charset 203 1 "utf8" "utf8_danish_ci" 65001 "UTF-8" 1 3 mb_utf8mb3;
   mk_charset 204 1 "utf8" "utf8_lithuanian_ci" 65001 "UTF-8" 1 3 mb_utf8mb3;
   mk_charset 205 1 "utf8" "utf8_slovak_ci" 65001 "UTF-8" 1 3 mb_utf8mb3;
   mk_charset 206 1 "utf8" "utf8_spanish2_ci" 65001 "UTF-8" 1 3 mb_utf8mb3;
   mk_charset 207 1 "utf8" "utf8_roman_ci" 65001 "UTF-8" 1 3 mb_utf8mb3;
   mk_charset 208 1 "utf8" "utf8_persian_ci" 65001 "UTF-8" 1 3 mb_utf8mb3;
   mk_charset 209 1 "utf8" "utf8_esperanto_ci" 65001 "UTF-8" 1 3 mb_utf8mb3;
   mk_charset 210 1 "utf8" "utf8_hungarian_ci" 65001 "UTF-8" 1 3 mb_utf8mb3;
   mk_charset 211 1 "utf8" "utf8_sinhala_ci" 65001 "UTF-8" 1 3 mb_utf8mb3;
   mk_charset 212 1 "utf8" "utf8_german2_ci" 65001 "UTF-8" 1 3 mb_utf8mb3;
   mk_charset 214 1 "utf8" "utf8_unicode_520_ci" 65001 "UTF-8" 1 3 mb_utf8mb3;
   mk_charset 215 1 "utf8" "utf8_vietnamese_ci" 65001 "UTF-8" 1 3 mb_utf8mb3;
   mk_charset 213 1 "utf8" "utf8_croatian_ci" 65001 "UTF-8" 1 3 mb_utf8mb3;
   mk_charset 223 1 "utf8" "utf8_general_mysql500_ci" 65001 "UTF-8" 1 3 mb_utf8mb3;
   mk_charset 224 1 "utf8mb4" "utf8mb4_unicode_ci" 65001 "UTF-8" 1 4 mb_utf8;
   mk_charset 225 1 "utf8mb4" "utf8mb4_icelandic_ci" 65001 "UTF-8" 1 4 mb_utf8;
   mk_charset 226 1 "utf8mb4" "utf8mb4_latvian_ci" 65001 "UTF-8" 1 4 mb_utf8;
   mk_charset 227 1 "utf8mb4" "utf8mb4_romanian_ci" 65001 "UTF-8" 1 4 mb_utf8;
   mk_charset 228 1 "utf8mb4" "utf8mb4_slovenian_ci" 65001 "UTF-8" 1 4 mb_utf8;
   mk_charset 229 1 "utf8mb4" "utf8mb4_polish_ci" 65001 "UTF-8" 1 4 mb_utf8;
   mk_charset 230 1 "utf8mb4" "utf8mb4_estonian_ci" 65001 "UTF-8" 1 4 mb_utf8;
   mk_charset 231 1 "utf8mb4" "utf8mb4_spanish_ci" 65001 "UTF-8" 1 4 mb_utf8;
   mk_charset 232 1 "utf8mb4" "utf8mb4_swedish_ci" 65001 "UTF-8" 1 4 mb_utf8;
   mk_charset 233 1 "utf8mb4" "utf8mb4_turkish_ci" 65001 "UTF-8" 1 4 mb_utf8;
   mk_charset 234 1 "utf8mb4" "utf8mb4_czech_ci" 65001 "UTF-8" 1 4 mb_utf8;
   mk_charset 235 1 "utf8mb4" "utf8mb4_danish_ci" 65001 "UTF-8" 1 4 mb_utf8;
   mk_charset 236 1 "utf8mb4" "utf8mb4_lithuanian_ci" 65001 "UTF-8" 1 4 mb_utf8;
   mk_charset 237 1 "utf8mb4" "utf8mb4_slovak_ci" 65001 "UTF-8" 1 4 mb_utf8;
   mk_charset 238 1 "utf8mb4" "utf8mb4_spanish2_ci" 65001 "UTF-8" 1 4 mb_utf8;
   mk_charset 239 1 "utf8mb4" "utf8mb4_roman_ci" 65001 "UTF-8" 1 4 mb_utf8;
   mk_charset 240 1 "utf8mb4" "utf8mb4_persian_ci" 65001 "UTF-8" 1 4 mb_utf8;
   mk_charset 241 1 "utf8mb4" "utf8mb4_esperanto_ci" 65001 "UTF-8" 1 4 mb_utf8;
   mk_charset 242 1 "utf8mb4" "utf8mb4_hungarian_ci" 65001 "UTF-8" 1 4 mb_utf8;
   mk_charset 243 1 "utf8mb4" "utf8mb4_sinhala_ci" 65001 "UTF-8" 1 4 mb_utf8;
   mk_charset 244 1 "utf8mb4" "utf8mb4_german2_ci" 65001 "UTF-8" 1 4 mb_utf8;
   mk_charset 245 1 "utf8mb4" "utf8mb4_croatian_mysql561_ci" 65001 "UTF-8" 1 4 mb_utf8;
   mk_charset 246 1 "utf8mb4" "utf8mb4_unicode_520_ci" 65001 "UTF-8" 1 4 mb_utf8;
   mk_charset 247 1 "utf8mb4" "utf8mb4_vietnamese_ci" 65001 "UTF-8" 1 4 mb_utf8;
   mk_charset 248 1 "gb18030" "gb18030_chinese_ci" 54936 "GB18030" 1 4 mb_gb18030;
   mk_charset 249 1 "gb18030" "gb18030_bin" 54936 "GB18030" 1 4 mb_gb18030;
   mk_charset 250 1 "gb18030" "gb18030_unicode_520_ci" 54936 "GB18030" 1 4 mb_gb18030;
   mk_charset 254 1 "utf8" "utf8_general_cs" 65001 "UTF-8" 1 3 mb_utf8;
   mk_charset 255 1 "utf8mb4" "utf8mb4_0900_ai_ci" 65001 "UTF-8" 1 4 mb_utf8;
   mk_charset 256 1 "utf8mb4" "utf8mb4_de_pb_0900_ai_ci" 65001 "UTF-8" 1 4 mb_utf8;
   mk_charset 257 1 "utf8mb4" "utf8mb4_is_0900_ai_ci" 65001 "UTF-8" 1 4 mb_utf8;
   mk_charset 258 1 "utf8mb4" "utf8mb4_lv_0900_ai_ci" 65001 "UTF-8" 1 4 mb_utf8;
   mk_charset 259 1 "utf8mb4" "utf8mb4_ro_0900_ai_ci" 65001 "UTF-8" 1 4 mb_utf8;
   mk_charset 260 1 "utf8mb4" "utf8mb4_sl_0900_ai_ci" 65001 "UTF-8" 1 4 mb_utf8;
   mk_charset 261 1 "utf8mb4" "utf8mb4_pl_0900_ai_ci" 65001 "UTF-8" 1 4 mb_utf8;
   mk_charset 262 1 "utf8mb4" "utf8mb4_et_0900_ai_ci" 65001 "UTF-8" 1 4 mb_utf8;
   mk_charset 263 1 "utf8mb4" "utf8mb4_es_0900_ai_ci" 65001 "UTF-8" 1 4 mb_utf8;
   mk_charset 264 1 "utf8mb4" "utf8mb4_sv_0900_ai_ci" 65001 "UTF-8" 1 4 mb_utf8;
   mk_charset 265 1 "utf8mb4" "utf8mb4_tr_0900_ai_ci" 65001 "UTF-8" 1 4 mb_utf8;
   mk_charset 266 1 "utf8mb4" "utf8mb4_cs_0900_ai_ci" 65001 "UTF-8" 1 4 mb_utf8;
   mk_charset 267 1 "utf8mb4" "utf8mb4_da_0900_ai_ci" 65001 "UTF-8" 1 4 mb_utf8;
   mk_charset 268 1 "utf8mb4" "utf8mb4_lt_0900_ai_ci" 65001 "UTF-8" 1 4 mb_utf8;
   mk_charset 269 1 "utf8mb4" "utf8mb4_sk_0900_ai_ci" 65001 "UTF-8" 1 4 mb_utf8;
   mk_charset 270 1 "utf8mb4" "utf8mb4_es_trad_0900_ai_ci" 65001 "UTF-8" 1 4 mb_utf8;
   mk_charset 271 1 "utf8mb4" "utf8mb4_la_0900_ai_ci" 65001 "UTF-8" 1 4 mb_utf8;
   mk_charset 273 1 "utf8mb4" "utf8mb4_eo_0900_ai_ci" 65001 "UTF-8" 1 4 mb_utf8;
   mk_charset 274 1 "utf8mb4" "utf8mb4_hu_0900_ai_ci" 65001 "UTF-8" 1 4 mb_utf8;
   mk_charset 275 1 "utf8mb4" "utf8mb4_hr_0900_ai_ci" 65001 "UTF-8" 1 4 mb_utf8;
   mk_charset 277 1 "utf8mb4" "utf8mb4_vi_0900_ai_ci" 65001 "UTF-8" 1 4 mb_utf8;
   mk_charset 278 1 "utf8mb4" "utf8mb4_0900_as_cs" 65001 "UTF-8" 1 4 mb_utf8;
   mk_charset 279 1 "utf8mb4" "utf8mb4_de_pb__0900_as_cs" 65001 "UTF-8" 1 4 mb_utf8;
   mk_charset 280 1 "utf8mb4" "utf8mb4_is_0900_as_cs" 65001 "UTF-8" 1 4 mb_utf8;
   mk_charset 281 1 "utf8mb4" "utf8mb4_lv_0900_as_cs" 65001 "UTF-8" 1 4 mb_utf8;
   mk_charset 282 1 "utf8mb4" "utf8mb4_ro_0900_as_cs" 65001 "UTF-8" 1 4 mb_utf8;
   mk_charset 283 1 "utf8mb4" "utf8mb4_sl_0900_as_cs" 65001 "UTF-8" 1 4 mb_utf8;
   mk_charset 284 1 "utf8mb4" "utf8mb4_pl_0900_as_cs" 65001 "UTF-8" 1 4 mb_utf8;
   mk_charset 285 1 "utf8mb4" "utf8mb4_et_0900_as_cs" 65001 "UTF-8" 1 4 mb_utf8;
   mk_charset 286 1 "utf8mb4" "utf8mb4_es_0900_as_cs" 65001 "UTF-8" 1 4 mb_utf8;
   mk_charset 287 1 "utf8mb4" "utf8mb4_sv_0900_as_cs" 65001 "UTF-8" 1 4 mb_utf8;
   mk_charset 288 1 "utf8mb4" "utf8mb4_tr_0900_as_cs" 65001 "UTF-8" 1 4 mb_utf8;
   mk_charset 289 1 "utf8mb4" "utf8mb4_cs_0900_as_cs" 65001 "UTF-8" 1 4 mb_utf8;
   mk_charset 290 1 "utf8mb4" "utf8mb4_da_0900_as_cs" 65001 "UTF-8" 1 4 mb_utf8;
   mk_charset 291 1 "utf8mb4" "utf8mb4_lt_0900_as_cs" 65001 "UTF-8" 1 4 mb_utf8;
   mk_charset 292 1 "utf8mb4" "utf8mb4_sk_0900_as_cs" 65001 "UTF-8" 1 4 mb_utf8;
   mk_charset 293 1 "utf8mb4" "utf8mb4_es_trad_0900_as_cs" 65001 "UTF-8" 1 4 mb_utf8;
   mk_charset 294 1 "utf8mb4" "utf8mb4_la_0900_as_cs" 65001 "UTF-8" 1 4 mb_utf8;
   mk_charset 296 1 "utf8mb4" "utf8mb4_eo_0900_as_cs" 65001 "UTF-8" 1 4 mb_utf8;
   mk_charset 297 1 "utf8mb4" "utf8mb4_hu_0900_as_cs" 65001 "UTF-8" 1 4 mb_utf8;
   mk_charset 298 1 "utf8mb4" "utf8mb4_hr_0900_as_cs" 65001 "UTF-8" 1 4 mb_utf8;
   mk_charset 300 1 "utf8mb4" "utf8mb4_vi_0900_as_cs" 65001 "UTF-8" 1 4 mb_utf8;
   mk_charset 303 1 "utf8mb4" "utf8mb4_ja_0900_as_cs" 65001 "UTF-8" 1 4 mb_utf8;
   mk_charset 304 1 "utf8mb4" "utf8mb4_ja_0900_as_cs_ks" 65001 "UTF-8" 1 4 mb_utf8;
   mk_charset 305 1 "utf8mb4" "utf8mb4_0900_as_ci" 65001 "UTF-8" 1 4 mb_utf8;
   mk_charset 306 1 "utf8mb4" "utf8mb4_ru_0900_as_ci" 65001 "UTF-8" 1 4 mb_utf8;
   mk_charset 307 1 "utf8mb4" "utf8mb4_ru_0900_as_cs" 65001 "UTF-8" 1 4 mb_utf8;
   mk_charset 576 1 "utf8" "utf8_croatian_ci" 65001 "UTF-8" 1 3 mb_utf8mb3;
   mk_charset 577 1 "utf8" "utf8_myanmar_ci" 65001 "UTF-8" 1 3 mb_utf8mb3;
   mk_charset 578 1 "utf8" "utf8_thai_520_w2" 65001 "UTF-8" 1 3 mb_utf8mb3;
   mk_charset 608 1 "utf8mb4" "utf8mb4_croatian_ci" 65001 "UTF-8" 1 4 mb_utf8;
   mk_charset 609 1 "utf8mb4" "utf8mb4_myanmar_ci" 65001 "UTF-8" 1 4 mb_utf8;
   mk_charset 610 1 "utf8mb4" "utf8mb4_thai_520_w2" 65001 "UTF-8" 1 4 mb_utf8;
   mk_charset 640 1 "ucs2" "ucs2_croatian_ci" 1200 "UCS2-BE" 2 2 mb_ucs2;
   mk_charset 641 1 "ucs2" "ucs2_myanmar_ci" 1200 "UCS2-BE" 2 2 mb_ucs2;
   mk_charset 642 1 "ucs2" "ucs2_thai_520_w2" 1200 "UCS2-BE" 2 2 mb_ucs2;
   mk_charset 672 1 "utf16" "utf16_croatian_ci" 0 "UTF16" 2 4 mb_utf16;
   mk_charset 673 1 "utf16" "utf16_myanmar_ci" 0 "UTF16" 2 4 mb_utf16;
   mk_charset 674 1 "utf16" "utf16_thai_520_w2" 0 "UTF16" 2 4 mb_utf16;
   mk_charset 736 1 "utf32" "utf32_croatian_ci" 0 "UTF32" 4 4 mb_utf32;
   mk_charset 737 1 "utf32" "utf32_myanmar_ci" 0 "UTF32" 4 4 mb_utf32;
   mk_charset 738 1 "utf32" "utf32_thai_520_w2" 0 "UTF32" 4 4 mb_utf32;
   mk_charset 1025 1 "big5" "big5_chinese_nopad_ci" 950 "BIG5" 1 2 mb_big5;
   mk_charset 1027 1 "dec8" "dec8_swedisch_nopad_ci" 0 "DEC" 1 1 none;
   mk_charset 1028 1 "cp850" "cp850_general_nopad_ci" 850 "CP850" 1 1 none;
   mk_charset 1030 1 "hp8" "hp8_english_nopad_ci" 0 "HP-ROMAN8" 1 1 none;
   mk_charset 1031 1 "koi8r" "koi8r_general_nopad_ci" 878 "KOI8R" 1 1 none;
   mk_charset 1032 1 "latin1" "latin1_swedish_nopad_ci" 850 "LATIN1" 1 1 none;
   mk_charset 1033 1 "latin2" "latin2_general_nopad_ci" 852 "LATIN2" 1 1 none;
   mk_charset 1034 1 "swe7" "swe7_swedish_nopad_ci" 20107 EmptyString 1 1 none;
   mk_charset 1035 1 "ascii" "ascii_general_nopad_ci" 1252 "ASCII" 1 1 none;
   mk_charset 1036 1 "ujis" "ujis_japanese_nopad_ci" 20932 "UJIS" 1 3 mb_ujis;
   mk_charset 1037 1 "sjis" "sjis_japanese_nopad_ci" 932 "SJIS" 1 2 mb_sjis;
   mk_charset 1040 1 "hebrew" "hebrew_general_nopad_ci" 1255 "HEBREW" 1 1 none;
   mk_charset 1042 1 "tis620" "tis620_thai_nopad_ci" 874 "TIS620" 1 1 none;
   mk_charset 1043 1 "euckr" "euckr_korean_nopad_ci" 51949 "EUCKR" 1 2 mb_euckr;
   mk_charset 1046 1 "koi8u" "koi8u_general_nopad_ci" 20866 "KOI8U" 1 1 none;
   mk_charset 1048 1 "gb2312" "gb2312_chinese_nopad_ci" 936 "GB2312" 1 2 mb_gb2312;
   mk_charset 1049 1 "greek" "greek_general_nopad_ci" 28597 "GREEK" 1 1 none;
   mk_charset 1050 1 "cp1250" "cp1250_general_nopad_ci" 1250 "CP1250" 1 1 none;
   mk_charset 1052 1 "gbk" "gbk_chinese_nopad_ci" 936 "GBK" 1 2 mb_gbk;
   mk_charset 1054 1 "latin5" "latin5_turkish_nopad_ci" 1254 "LATIN5" 1 1 none;
   mk_charset 1056 1 "armscii8" "armscii8_general_nopad_ci" 0 "ARMSCII-8" 1 1 none;
   mk_charset 1057 1 "utf8" "utf8_general_nopad_ci" 65001 "UTF-8" 1 3 mb_utf8mb3;
   mk_charset 1059 1 "ucs2" "ucs2_general_nopad_ci" 1200 "UCS-2BE" 2 2 mb_ucs2;
   mk_charset 1060 1 "cp866" "cp866_general_nopad_ci" 866 "CP866" 1 1 none;
   mk_charset 1061 1 "keybcs2" "keybcs2_general_nopad_ci" 0 EmptyString 1 1 none;
   mk_charset 1062 1 "macce" "macce_general_nopad_ci" 10029 "CP1282" 1 1 none;
   mk_charset 1063 1 "macroman" "macroman_general_nopad_ci" 10000 "MACINTOSH" 1 1 none;
   mk_charset 1064 1 "cp852" "cp852_general_nopad_ci" 852 "CP852" 1 1 none;
   mk_charset 1065 1 "latin7" "latin7_general_nopad_ci" 28603 "LATIN7" 1 1 none;
   mk_charset 1067 1 "macce" "macce_nopad_bin" 10029 "CP1282" 1 1 none;
   mk_charset 1069 1 "utf8mb4" "utf8mb4_general_nopad_ci" 65001 "UTF-8" 1 4 mb_utf8;
   mk_charset 1070 1 "utf8mb4" "utf8mb4_general_nopad_bin" 65001 "UTF-8" 1 4 mb_utf8;
   mk_charset 1071 1 "latin1" "latin1_nopad_bin" 850 "LATIN1" 1 1 none;
   mk_charset 1074 1 "cp1251" "cp1251_nopad_bin" 1251 "CP1251" 1 1 none;
   mk_charset 1075 1 "cp1251" "cp1251_general_nopad_ci" 1251 "CP1251" 1 1 none;
   mk_charset 1077 1 "macroman" "macroman_nopad_bin" 10000 "MACINTOSH" 1 1 none;
   mk_charset 1078 1 "utf16" "utf16_general_nopad_ci" 0 "UTF16" 2 4 mb_utf16;
   mk_charset 1079 1 "utf16" "utf16_nopad_bin" 0 "UTF16" 2 4 mb_utf16;
   mk_charset 1080 1 "utf16le" "utf16le_general_nopad_ci" 1200 "UTF16LE" 2 4 mb_utf16;
   mk_charset 1081 1 "cp1256" "cp1256_general_nopad_ci" 1256 "CP1256" 1 1 none;
   mk_charset 1082 1 "cp1257" "cp1257_nopad_bin" 1257 "CP1257" 1 1 none;
   mk_charset 1083 1 "cp1257" "cp1257_general_nopad_ci" 1257 "CP1257" 1 1 none;
   mk_charset 1084 1 "utf32" "utf32_general_nopad_ci" 0 "UTF32" 4 4 mb_utf32;
   mk_charset 1085 1 "utf32" "utf32_nopad_bin" 0 "UTF32" 4 4 mb_utf32;
   mk_charset 1086 1 "utf16le" "utf16le_nopad_bin" 1200 "UTF16LE" 2 4 mb_utf16;
   mk_charset 1088 1 "armscii8" "armscii8_nopad_bin" 0 "ARMSCII-8" 1 1 none;
   mk_charset 1089 1 "ascii" "ascii_nopad_bin" 1252 "ASCII" 1 1 none;
   mk_charset 1090 1 "cp1250" "cp1250_nopad_bin" 1250 "CP1250" 1 1 none;
   mk_charset 1091 1 "cp1256" "cp1256_nopad_bin" 1256 "CP1256" 1 1 none;
   mk_charset 1092 1 "cp866" "cp866_nopad_bin" 866 "CP866" 1 1 none;
   mk_charset 1093 1 "dec8" "dec8_nopad_bin" 0 "DEC" 1 1 none;
   mk_charset 1094 1 "greek" "greek_nopad_bin" 28597 "GREEK" 1 1 none;
   mk_charset 1095 1 "hebrew" "hebrew_nopad_bin" 1255 "HEBREW" 1 1 none;
   mk_charset 1096 1 "hp8" "hp8_nopad_bin" 0 "HP-ROMAN8" 1 1 none;
   mk_charset 1097 1 "keybcs2" "keybcs2_nopad_bin" 0 EmptyString 1 1 none;
   mk_charset 1098 1 "koi8r" "koi8r_nopad_bin" 878 "KOI8R" 1 1 none;
   mk_charset 1099 1 "koi8u" "koi8u_nopad_bin" 20866 "KOI8U" 1 1 none;
   mk_charset 1101 1 "latin2" "latin2_nopad_bin" 852 "LATIN2" 1 1 none;
   mk_charset 1102 1 "latin5" "latin5_nopad_bin" 1254 "LATIN5" 1 1 none;
   mk_charset 1103 1 "latin7" "latin7_nopad_bin" 28603 "LATIN7" 1 1 none;
   mk_charset 1104 1 "cp850" "cp850_nopad_bin" 850 "CP850" 1 1 none;
   mk_charset 1105 1 "cp852" "cp852_nopad_bin" 852 "CP852" 1 1 none;
   mk_charset 1106 1 "swe7" "swe7_nopad_bin" 20107 EmptyString 1 1 none;
   mk_charset 1107 1 "utf8" "utf8_nopad_bin" 65001 "UTF-8" 1 3 mb_utf8mb3;
   mk_charset 1108 1 "big5" "big5_nopad_bin" 950 "BIG5" 1 2 mb_big5;
   mk_charset 1109 1 "euckr" "euckr_nopad_bin" 51949 "EUCKR" 1 2 mb_euckr;
   mk_charset 1110 1 "gb2312" "gb2312_nopad_bin" 936 "GB2312" 1 2 mb_gb2312;
   mk_charset 1111 1 "gbk" "gbk_nopad_bin" 936 "GBK" 1 2 mb_gbk;
   mk_charset 1112 1 "sjis" "sjis_nopad_bin" 932 "SJIS" 1 2 mb_sjis;
   mk_charset 1113 1 "tis620" "tis620_nopad_bin" 874 "TIS620" 1 1 none;
   mk_charset 1114 1 "ucs2" "ucs2_nopad_bin" 1200 "UCS-2BE" 2 2 mb_ucs2;
   mk_charset 1115 1 "ujis" "ujis_nopad_bin" 20932 "UJIS" 1 3 mb_ujis;
   mk_charset 1116 1 "geostd8" "geostd8_general_nopad_ci" 0 "GEORGIAN-PS" 1 1 none;
   mk_charset 1117 1 "geostd8" "geostd8_nopad_bin" 0 "GEORGIAN-PS" 1 1 none;
   mk_charset 1119 1 "cp932" "cp932_japanese_nopad_ci" 932 "CP932" 1 2 mb_cp932;
   mk_charset 1120 1 "cp932" "cp932_nopad_bin" 932 "CP932" 1 2 mb_cp932;
   mk_charset 1121 1 "eucjpms" "eucjpms_japanese_nopad_ci" 932 "EUCJP-MS" 1 3 mb_eucjpms;
   mk_charset 1122 1 "eucjpms" "eucjpms_nopad_bin" 932 "EUCJP-MS" 1 3 mb_eucjpms;
   mk_charset 1125 1 "utf16" "utf16_unicode_nopad_ci" 1200 "UTF16" 2 4 mb_utf16;
   mk_charset 1147 1 "utf16" "utf16_unicode_520_nopad_ci" 1200 "UTF16" 2 4 mb_utf16;
   mk_charset 1152 1 "ucs2" "ucs2_unicode_nopad_ci" 1200 "UCS-2BE" 2 2 mb_ucs2;
   mk_charset 1174 1 "ucs2" "ucs2_unicode_520_nopad_ci" 1200 "UCS-2BE" 2 2 mb_ucs2;
   mk_charset 1184 1 "utf32" "utf32_unicode_nopad_ci" 0 "UTF32" 4 4 mb_utf32;
   mk_charset 1206 1 "utf32" "utf32_unicode_520_nopad_ci" 0 "UTF32" 4 4 mb_utf32;
   mk_charset 1216 1 "utf8" "utf8_unicode_nopad_ci" 65001 "UTF-8" 1 3 mb_utf8mb3;
   mk_charset 1238 1 "utf8" "utf8_unicode_520_nopad_ci" 65001 "UTF-8" 1 3 mb_utf8mb3;
   mk_charset 1248 1 "utf8mb4" "utf8mb4_unicode_nopad_ci" 65001 "UTF-8" 1 4 mb_utf8].

(** strcasecmp(a, b) == 0 in the C locale. *)
Definition tolower (c : Ascii.ascii) : Ascii.ascii :=
  let n := Ascii.N_of_ascii c in
  if ((65 <=? n) && (n <=? 90))%N then Ascii.ascii_of_N (n + 32) else c.

Fixpoint strcaseeq (a b : string) : bool :=
  match a, b with
  | EmptyString, EmptyString => true
  | String c a, String d b => Ascii.eqb (tolower c) (tolower d) && strcaseeq a b
  | _, _ => false
  end.

(** The loop tests a row before it tests for the end of the table. *)
Definition mysql_find_charset_nr (charsetnr : Z) : option MARIADB_CHARSET_INFO :=
  find (fun c => nr c =? charsetnr) mariadb_compiled_charsets.

Definition MADB_AUTODETECT_CHARSET_NAME : string := "auto".

(** [os_charset] is what madb_get_os_character_set() returns. *)
Definition mysql_find_charset_name (os_charset name : string) : option MARIADB_CHARSET_INFO :=
  let csname_ := if strcaseeq name MADB_AUTODETECT_CHARSET_NAME then os_charset else name in
  find (fun c => strcaseeq (csname c) csname_) mariadb_compiled_charsets.

(** * Escaping *)

(** One round of the loop for a character of several bytes, at most [newstr_e] in the target:
    None when the character would not fit. *)
Definition copy_char (mem : bytes) (esc_ : Z) (dst : bytes) (newstr newstr_e len : Z) : cres (option (bytes * Z * Z)) :=
  if newstr + len >? newstr_e then Ret None
  else bs ← load_bytes mem esc_ (Z.to_nat len); dst ← store_bytes dst newstr bs; Ret (Some (dst, newstr + len, esc_ + len)).

(** Appending [bs]. *)
Definition emit (dst : bytes) (newstr newstr_e esc_ : Z) (bs : bytes) : cres (option (bytes * Z * Z)) :=
  if newstr + Z.of_nat (length bs) >? newstr_e then Ret None
  else dst ← store_bytes dst newstr bs; Ret (Some (dst, newstr + Z.of_nat (length bs), esc_ + 1)).

Definition quotes_round (cs : MARIADB_CHARSET_INFO) (mem : bytes) (end_ : Z) (dst : bytes) (newstr newstr_e esc_ : Z)
    : cres (option (bytes * Z * Z)) :=
  len ← (if char_maxlen cs >? 1 then mb_valid (mb cs) mem esc_ end_ else Ret 0);
  if negb (len =? 0) then copy_char mem esc_ dst newstr newstr_e len
  else
    c ← load mem esc_;
    emit dst newstr newstr_e esc_ (if c =? 39 then [39; 39] else [c]).

(** The character behind the backslash, or 0. *)
Definition esc_of (c : Z) : Z :=
  if c =? 0 then 48 else if c =? 10 then 110 else if c =? 13 then 114
  else if (c =? 92) || (c =? 39) || (c =? 34) then c else if c =? 26 then 90 else 0.

(** *escapestr is a char, which mb_charlen gets as an unsigned int. *)
Definition slashes_round (cs : MARIADB_CHARSET_INFO) (mem : bytes) (end_ : Z) (dst : bytes) (newstr newstr_e esc_ : Z)
    : cres (option (bytes * Z * Z)) :=
  len ← (if char_maxlen cs >? 1 then mb_valid (mb cs) mem esc_ end_ else Ret 0);
  if negb (len =? 0) then copy_char mem esc_ dst newstr newstr_e len
  else
    c ← load mem esc_;
    n ← (if char_maxlen cs >? 1 then mb_charlen (mb cs) (u32 (s8 c)) else Ret 0);
    let esc := if n >? 1 then c else esc_of c in
    emit dst newstr newstr_e esc_ (if negb (esc =? 0) then [92; esc] else [c]).

(** The loop: (overflow, target, newstr). *)
Fixpoint escape_loop (round : bytes -> Z -> Z -> Z -> cres (option (bytes * Z * Z))) (fuel : nat) (end_ : Z)
    (dst : bytes) (newstr newstr_e esc_ : Z) : cres (bool * bytes * Z) :=
  if esc_ <? end_ then
    match fuel with
    | O => OutOfFuel
    | S fuel =>
      r ← round dst newstr newstr_e esc_;
      match r with
      | None => Ret (true, dst, newstr)
      | Some (dst, newstr, esc_) => escape_loop round fuel end_ dst newstr newstr_e esc_
      end
    end
  else Ret (false, dst, newstr).

(** Returns (size_t)~0 when the text would need more than twice its length. *)
Definition escape_text (round : bytes -> Z -> Z -> Z -> cres (option (bytes * Z * Z))) (dst : bytes) (escapestr escapestr_len : Z)
    : cres (Z * bytes) :=
  '(escape_overflow, dst, newstr) ←
    escape_loop round (Z.to_nat escapestr_len) (escapestr + escapestr_len) dst 0 (2 * escapestr_len) escapestr;
  dst ← store dst newstr 0;
  Ret (if (escape_overflow : bool) then 2 ^ 64 - 1 else newstr, dst).

Definition mysql_cset_escape_quotes (cs : MARIADB_CHARSET_INFO) (dst mem : bytes) (escapestr escapestr_len : Z) : cres (Z * bytes) :=
  escape_text (quotes_round cs mem (escapestr + escapestr_len)) dst escapestr escapestr_len.

Definition mysql_cset_escape_slashes (cs : MARIADB_CHARSET_INFO) (dst mem : bytes) (escapestr escapestr_len : Z) : cres (Z * bytes) :=
  escape_text (slashes_round cs mem (escapestr + escapestr_len)) dst escapestr escapestr_len.

Definition SERVER_STATUS_NO_BACKSLASH_ESCAPES : Z := 512.

Definition mysql_real_escape_string (server_status : Z) (cs : MARIADB_CHARSET_INFO) (to from : bytes) (start len : Z) : cres (Z * bytes) :=
  if negb (Z.land server_status SERVER_STATUS_NO_BACKSLASH_ESCAPES =? 0) then mysql_cset_escape_quotes cs to from start len
  else mysql_cset_escape_slashes cs to from start len.

End Charset.
