(* ===== verification/Escape.v ===== *)
(** Escaping of texts (mysql_real_escape_string, Charset.v): what is written between quotes is
    read by the server as the original text, and the literal ends where it should.

    [scan] is the reference: how a server with the character set reads a literal, character by
    character, up to the closing quote.  [SafeCharset] states what a character set promises for
    that; the character sets of one byte, UTF-8, GBK, GB2312, SJIS, CP932 and EUC-KR discharge
    it, Big5 and GB18030 do not. *)

From stdpp Require Import tactics.
From S2P Require Import Prelude IntStore NumText Charset.
Import NumText Charset.

Module Escape.

Lemma esc_byte c : is_byte c -> is_byte (esc_of c).
Proof. unfold esc_of, is_byte, uint. intros H. repeat case_match; lia. Qed.

Ltac byte_list := repeat (apply Forall_cons; split; [first [done | by apply esc_byte | unfold is_byte, uint; lia]|]); first [done | by apply Forall_nil].


(** * The reference reader of a literal *)

Definition unescape (d : Z) : bytes :=
  if d =? 48 then [0] else if d =? 110 then [10] else if d =? 114 then [13] else if d =? 90 then [26]
  else if d =? 116 then [9] else if d =? 98 then [8] else if (d =? 37) || (d =? 95) then [92; d] else [d].

Section scan.
Context (mb_len : bytes -> nat) (backslash : bool).

(** The text and what follows its closing quote; [mb_len s] is the length of the character of
    several bytes at the start of [s], or 0. *)
Fixpoint scan (fuel : nat) (s : bytes) : option (bytes * bytes) :=
  match fuel, s with
  | O, _ => None
  | _, [] => None
  | S fuel, c :: s' =>
    if decide (0 < mb_len s)%nat then '(t, r) ← scan fuel (drop (mb_len s) s); Some (take (mb_len s) s ++ t, r)
    else if backslash && (c =? 92) then
      match s' with
      | [] => None
      | d :: s'' => '(t, r) ← scan fuel s''; Some (unescape d ++ t, r)
      end
    else if c =? 39 then
      match s' with
      | d :: s'' => if d =? 39 then '(t, r) ← scan fuel s''; Some (39 :: t, r) else Some ([], s')
      | [] => Some ([], s')
      end
    else '(t, r) ← scan fuel s'; Some (c :: t, r)
  end.
End scan.

(** * What a character set promises *)

Definition valid_len (cs : MARIADB_CHARSET_INFO) (mem : bytes) (p e : Z) : cres Z :=
  if char_maxlen cs >? 1 then mb_valid (mb cs) mem p e else Ret 0.

Definition head_len (cs : MARIADB_CHARSET_INFO) (c : Z) : cres Z :=
  if char_maxlen cs >? 1 then mb_charlen (mb cs) (u32 (s8 c)) else Ret 0.

(** A character lies inside the text and is recognized by its own bytes; it starts with a byte
    above ASCII and has no quote in it; its first byte is known to be one, or its other bytes
    are above ASCII too. *)
Class SafeCharset (cs : MARIADB_CHARSET_INFO) := {
  mb_len : bytes -> nat;
  head_of : Z -> Z;
  mb_spec mem p s : s <> [] -> all_bytes s -> text_at mem p s -> valid_len cs mem p (p + Z.of_nat (length s)) = Ret (Z.of_nat (mb_len s));
  head_spec c : is_byte c -> head_len cs c = Ret (head_of c);
  head_high c : is_byte c -> 1 < head_of c -> 0x80 <= c;
  mb_bound s : (mb_len s <= length s)%nat;
  mb_local s s' : all_bytes s -> (0 < mb_len s)%nat -> take (mb_len s) s' = take (mb_len s) s -> mb_len s' = mb_len s;
  mb_high c s : all_bytes (c :: s) -> (0 < mb_len (c :: s))%nat -> 0x80 <= c;
  mb_quote s : all_bytes s -> (0 < mb_len s)%nat -> Forall (fun b => b <> 39) (take (mb_len s) s);
  mb_escape c s : all_bytes (c :: s) -> (0 < mb_len (c :: s))%nat ->
    1 < head_of c \/ Forall (fun b => 0x80 <= b) (take (mb_len (c :: s)) (c :: s)) }.

Section escape.
Context (cs : MARIADB_CHARSET_INFO) `{SC : SafeCharset cs}.

(** What the two functions write for a byte that starts no character of several bytes. *)
Definition slash_unit (c : Z) : bytes :=
  let esc := if head_of c >? 1 then c else esc_of c in if negb (esc =? 0) then [92; esc] else [c].
Definition quote_unit (c : Z) : bytes := if c =? 39 then [39; 39] else [c].

(** [escapes unit s t]: [t] is the escaped form of [s]. *)
Inductive escapes (unit : Z -> bytes) : bytes -> bytes -> Prop :=
| escapes_nil : escapes unit [] []
| escapes_mb s t : (0 < mb_len s)%nat -> escapes unit (drop (mb_len s) s) t -> escapes unit s (take (mb_len s) s ++ t)
| escapes_one c s t : mb_len (c :: s) = 0%nat -> escapes unit s t -> escapes unit (c :: s) (unit c ++ t).

Definition unit_ok (unit : Z -> bytes) : Prop := forall c, is_byte c -> (1 <= length (unit c) <= 2)%nat /\ all_bytes (unit c).

Lemma escapes_length unit s t : unit_ok unit -> all_bytes s -> escapes unit s t -> (length t <= 2 * length s)%nat /\ all_bytes t.
Proof.
  intros Hu Hs H. induction H as [|s t Hn _ IH|c s t Hn _ IH]; [done|..].
  - pose proof (mb_bound s). destruct IH as [IH1 IH2]; [by apply Forall_drop|]. rewrite length_drop in IH1.
    rewrite length_app, length_take. split; [lia|]. apply Forall_app. split; [by apply Forall_take|done].
  - apply Forall_cons in Hs as [Hc Hs]. destruct (IH Hs) as [IH1 IH2]. destruct (Hu c Hc) as [[_ ?] ?].
    rewrite length_app. simpl length. split; [lia|]. by apply Forall_app.
Qed.

(** ** The prefix of the escaped text that no escape touched is a prefix of the text *)

Lemma untouched_prefix unit (bad : Z -> Prop) s t (r : bytes) k :
  (forall c, unit c = [c] \/ exists b u, unit c = b :: u /\ bad b) -> bad 39 -> escapes unit s t ->
  (k <= length (t ++ 39%Z :: r))%nat -> Forall (fun b => ~ bad b) (take k (t ++ 39 :: r)) ->
  take k (t ++ 39 :: r) = take k s /\ (k <= length s)%nat.
Proof.
  intros Hu Hq H. revert k. induction H as [|s t Hn _ IH|c s t Hn _ IH]; intros k Hk Hf.
  - destruct k; [done|]. simpl in Hf. apply Forall_cons in Hf as [? _]. done.
  - pose proof (mb_bound s) as Hb. rewrite <- app_assoc in *.
    destruct (decide (k <= mb_len s)%nat).
    + rewrite take_app_le by (rewrite length_take; lia). rewrite take_take, Nat.min_l by lia. split; [done|lia].
    + rewrite take_app_ge in Hf |- * by (rewrite length_take; lia). rewrite length_take, Nat.min_l in * by lia.
      apply Forall_app in Hf as [_ Hf]. rewrite length_app, length_take, Nat.min_l in Hk by lia.
      destruct (IH (k - mb_len s)%nat) as [E Hl]; [lia|done|]. rewrite E. rewrite length_drop in Hl. split; [|lia].
      replace k with (mb_len s + (k - mb_len s))%nat at 2 by lia. by rewrite <- take_take_drop.
  - rewrite <- app_assoc in *. destruct k as [|k]; [split; [done|lia]|].
    destruct (Hu c) as [E|(b & u & E & Hbad)]; rewrite E in *; simpl in *; apply Forall_cons in Hf as [? Hf]; [|done].
    destruct (IH k) as [E' Hl]; [lia|done|]. rewrite E'. split; [done|lia].
Qed.

(** A byte that is copied as it is does not become the start of a character. *)
Lemma raw_stays unit (bad : Z -> Prop) c s t (r : bytes) :
  (forall c, unit c = [c] \/ exists b u, unit c = b :: u /\ bad b) -> bad 39 -> escapes unit s t ->
  all_bytes (c :: s) -> all_bytes (t ++ 39 :: r) -> mb_len (c :: s) = 0%nat ->
  (forall n, (0 < n)%nat -> n = mb_len (c :: t ++ 39 :: r) -> Forall (fun b => ~ bad b) (take n (c :: t ++ 39 :: r))) ->
  mb_len (c :: t ++ 39 :: r) = 0%nat.
Proof.
  intros Hu Hq He Hs Ht H0 Hf. remember (mb_len (c :: t ++ 39 :: r)) as n eqn:En.
  destruct n as [|n]; [done|]. specialize (Hf (S n) ltac:(lia) eq_refl). simpl in Hf. apply Forall_cons in Hf as [_ Hf].
  pose proof (mb_bound (c :: t ++ 39 :: r)) as Hb. rewrite <- En in Hb. simpl in Hb.
  destruct (untouched_prefix unit bad s t r n Hu Hq He) as [E Hl]; [lia|done|].
  assert (mb_len (c :: s) = mb_len (c :: t ++ 39 :: r)) as E'; [|congruence].
  apply mb_local; [constructor; [by apply Forall_cons in Hs as [? _]|done]|lia|]. rewrite <- En. simpl. by rewrite E.
Qed.

Lemma slash_unit_bad c : slash_unit c = [c] \/ exists b u, slash_unit c = b :: u /\ b < 0x80.
Proof. unfold slash_unit. destruct (negb _); [right|by left]. eexists _, _. split; [done|lia]. Qed.

Lemma quote_unit_bad c : quote_unit c = [c] \/ exists b u, quote_unit c = b :: u /\ b = 39.
Proof. unfold quote_unit. destruct (Z.eqb_spec c 39) as [->|]; [right|by left]. by exists 39, [39]. Qed.

Lemma slash_unit_ok : unit_ok slash_unit.
Proof.
  intros c Hc. unfold slash_unit. pose proof (esc_byte c Hc).
  assert (is_byte 92) by (unfold is_byte, uint; lia).
  destruct (negb _); simpl; (split; [lia|]); repeat (apply Forall_cons; split; [by repeat case_match|]); by apply Forall_nil.
Qed.

Lemma quote_unit_ok : unit_ok quote_unit.
Proof.
  intros c Hc. unfold quote_unit. destruct (Z.eqb_spec c 39) as [->|]; simpl; (split; [lia|]);
    repeat (apply Forall_cons; split; [done|]); by apply Forall_nil.
Qed.

Lemma unescape_unit c : esc_of c <> 0 -> unescape (esc_of c) = [c].
Proof.
  unfold esc_of. intros He.
  repeat match goal with |- context [c =? ?k] => destruct (Z.eqb_spec c k); [subst; done|] end. done.
Qed.

Lemma unescape_high c : 0x80 <= c -> unescape c = [c].
Proof.
  intros H. unfold unescape. repeat match goal with |- context [c =? ?k] => destruct (Z.eqb_spec c k); [lia|] end. done.
Qed.

(** ** The reader undoes the escaping *)

Lemma take_mb_app (s u : bytes) : take (mb_len s) (take (mb_len s) s ++ u) = take (mb_len s) s.
Proof. pose proof (mb_bound s). rewrite take_app_le, take_take, Nat.min_l by (rewrite ?length_take; lia). done. Qed.

Lemma mb_len_app (s u : bytes) : all_bytes s -> (0 < mb_len s)%nat -> mb_len (take (mb_len s) s ++ u) = mb_len s.
Proof. intros Hs Hn. apply mb_local; [done|done|apply take_mb_app]. Qed.

Lemma low_no_mb c (s : bytes) : 0 <= c < 0x80 -> all_bytes s -> mb_len (c :: s) = 0%nat.
Proof.
  intros Hc Hs. destruct (mb_len (c :: s)) eqn:E; [done|].
  pose proof (mb_high c s ltac:(apply Forall_cons; split; [unfold is_byte, uint; lia|done]) ltac:(lia)). lia.
Qed.

(** One character of several bytes in front of the rest of the literal. *)
Lemma scan_mb bs fuel s u : all_bytes s -> (0 < mb_len s)%nat -> (0 < length u)%nat ->
  scan mb_len bs (S fuel) (take (mb_len s) s ++ u) = ('(t, r) ← scan mb_len bs fuel u; Some (take (mb_len s) s ++ t, r)).
Proof.
  intros Hs Hn Hu. pose proof (mb_bound s) as Hb. pose proof (mb_len_app s u Hs Hn) as E.
  destruct (take (mb_len s) s ++ u) as [|c s'] eqn:Es.
  { apply (f_equal length) in Es. rewrite length_app in Es. simpl in Es. lia. }
  cbn [scan]. rewrite decide_True by lia. rewrite <- Es in *. rewrite E, take_mb_app.
  rewrite drop_app_ge by (rewrite length_take; lia). rewrite length_take, Nat.min_l, Nat.sub_diag by lia. done.
Qed.

Lemma scan_slashes s t (r : bytes) fuel : escapes slash_unit s t -> all_bytes s -> all_bytes r -> head r <> Some 39 ->
  (length t < fuel)%nat -> scan mb_len true fuel (t ++ 39 :: r) = Some (s, r).
Proof.
  intros He. revert fuel. induction He as [|s t Hn He IH|c s t Hn He IH]; intros fuel Hs Hr Hh Hfuel;
    (destruct fuel as [|fuel]; [simpl in Hfuel; lia|]).
  - cbn [scan app]. rewrite low_no_mb by (lia || done || byte_list). simpl. destruct r as [|b r]; [done|]. simpl in Hh.
    rewrite (proj2 (Z.eqb_neq b 39)) by congruence. done.
  - rewrite <- app_assoc. pose proof (mb_bound s). rewrite length_app, length_take in Hfuel.
    rewrite scan_mb by (done || (rewrite length_app; simpl; lia)).
    rewrite IH by (try apply Forall_drop; done || lia). simpl. by rewrite take_drop.
  - apply Forall_cons in Hs as [Hc Hs]. rewrite <- app_assoc.
    assert (all_bytes (t ++ 39 :: r)) as Hb.
    { apply Forall_app. split; [by apply (escapes_length slash_unit s t slash_unit_ok)|].
      apply Forall_cons. split; [unfold is_byte, uint; lia|done]. }
    rewrite length_app in Hfuel. revert Hfuel. unfold slash_unit at 1 2.
    destruct (Z.gtb_spec (head_of c) 1) as [Hh1|Hh1].
    + pose proof (head_high c Hc Hh1). rewrite (proj2 (Z.eqb_neq c 0)) by lia. simpl. intros Hfuel.
      rewrite low_no_mb by (lia || done || byte_list). simpl. rewrite unescape_high, IH by (done || lia). done.
    + destruct (Z.eqb_spec (esc_of c) 0) as [E0|E0]; simpl; intros Hfuel.
      * assert (mb_len (c :: t ++ 39 :: r) = 0%nat) as E.
        { apply (raw_stays slash_unit (fun b => b < 0x80) c s t r slash_unit_bad); [lia|done|by apply Forall_cons|done|done|].
          intros n Hpos En. destruct (mb_escape c (t ++ 39 :: r)) as [?|Hf]; [by apply Forall_cons|lia|lia|].
          rewrite <- En in Hf. eapply Forall_impl; [exact Hf|]. simpl. lia. }
        rewrite E. simpl.
        assert (c <> 92 /\ c <> 39) as [? ?] by (split; intros ->; done).
        rewrite (proj2 (Z.eqb_neq c 92)), (proj2 (Z.eqb_neq c 39)), IH by (done || lia). done.
      * rewrite low_no_mb by (lia || done || byte_list). simpl. rewrite unescape_unit, IH by (done || lia). done.
Qed.

Lemma scan_quotes s t (r : bytes) fuel : escapes quote_unit s t -> all_bytes s -> all_bytes r -> head r <> Some 39 ->
  (length t < fuel)%nat -> scan mb_len false fuel (t ++ 39 :: r) = Some (s, r).
Proof.
  intros He. revert fuel. induction He as [|s t Hn He IH|c s t Hn He IH]; intros fuel Hs Hr Hh Hfuel;
    (destruct fuel as [|fuel]; [simpl in Hfuel; lia|]).
  - cbn [scan app]. rewrite low_no_mb by (lia || done || byte_list). simpl. destruct r as [|b r]; [done|]. simpl in Hh.
    rewrite (proj2 (Z.eqb_neq b 39)) by congruence. done.
  - rewrite <- app_assoc. pose proof (mb_bound s). rewrite length_app, length_take in Hfuel.
    rewrite scan_mb by (done || (rewrite length_app; simpl; lia)).
    rewrite IH by (try apply Forall_drop; done || lia). simpl. by rewrite take_drop.
  - apply Forall_cons in Hs as [Hc Hs]. rewrite <- app_assoc.
    assert (all_bytes (t ++ 39 :: r)) as Hb.
    { apply Forall_app. split; [by apply (escapes_length quote_unit s t quote_unit_ok)|].
      apply Forall_cons. split; [unfold is_byte, uint; lia|done]. }
    rewrite length_app in Hfuel. revert Hfuel. unfold quote_unit at 1 2.
    destruct (Z.eqb_spec c 39) as [->|Hc39]; simpl; intros Hfuel.
    + rewrite low_no_mb by (lia || done || byte_list). simpl. rewrite IH by (done || lia). done.
    + assert (mb_len (c :: t ++ 39 :: r) = 0%nat) as E.
      { apply (raw_stays quote_unit (fun b => b = 39) c s t r quote_unit_bad); [done|done|by apply Forall_cons|done|done|].
        intros n Hpos En. subst n. apply mb_quote; [by apply Forall_cons|done]. }
      rewrite E. simpl. rewrite (proj2 (Z.eqb_neq c 39)), IH by (done || lia). done.
Qed.

(** ** The functions write the escaped form *)

Definition round_writes (unit : Z -> bytes) (mem : bytes) (e : Z) (round : bytes -> Z -> Z -> Z -> cres (option (bytes * Z * Z))) : Prop :=
  forall dst new ne p s, s <> [] -> all_bytes s -> text_at mem p s -> p + Z.of_nat (length s) = e ->
  round dst new ne p =
    if decide (0 < mb_len s)%nat then copy_char mem p dst new ne (Z.of_nat (mb_len s))
    else match s with [] => Fault | c :: _ => emit dst new ne p (unit c) end.

Lemma slashes_round_writes mem e : round_writes slash_unit mem e (slashes_round cs mem e).
Proof.
  intros dst new ne p s Hne Hs Ht He. unfold slashes_round. fold (valid_len cs mem p e). rewrite <- He, mb_spec by done.
  rewrite bind_ret. destruct (decide _).
  - rewrite (proj2 (Z.eqb_neq _ 0)) by lia. done.
  - replace (mb_len s) with 0%nat by lia. simpl. destruct s as [|c s]; [done|]. apply text_at_cons in Ht as [-> _]. simpl.
    fold (head_len cs c). apply Forall_cons in Hs as [Hc _]. rewrite (head_spec c Hc). done.
Qed.

Lemma quotes_round_writes mem e : round_writes quote_unit mem e (quotes_round cs mem e).
Proof.
  intros dst new ne p s Hne Hs Ht He. unfold quotes_round. fold (valid_len cs mem p e). rewrite <- He, mb_spec by done.
  rewrite bind_ret. destruct (decide _).
  - rewrite (proj2 (Z.eqb_neq _ 0)) by lia. done.
  - replace (mb_len s) with 0%nat by lia. simpl. destruct s as [|c s]; [done|]. apply text_at_cons in Ht as [-> _]. done.
Qed.

Lemma escape_loop_writes unit mem e round : unit_ok unit -> round_writes unit mem e round ->
  forall fuel s dst new ne p, all_bytes s -> text_at mem p s -> p + Z.of_nat (length s) = e -> (length s <= fuel)%nat ->
  0 <= new -> new + 2 * Z.of_nat (length s) <= ne -> ne <= Z.of_nat (length dst) ->
  exists t, escapes unit s t /\ escape_loop round fuel e dst new ne p = Ret (false, splice new t dst, new + Z.of_nat (length t)).
Proof.
  intros Hu Hround. induction fuel as [|fuel IH]; intros s dst new ne p Hs Ht He Hf Hn Hne Hd.
  { destruct s; [|simpl in Hf; lia]. simpl in *. exists []. split; [constructor|]. destruct (Z.ltb_spec p e); [lia|].
    rewrite splice_nil. simpl. do 2 f_equal. lia. }
  destruct (decide (s = [])) as [->|Hs0].
  { simpl in *. exists []. split; [constructor|]. destruct (Z.ltb_spec p e); [lia|]. rewrite splice_nil. simpl. do 2 f_equal. lia. }
  assert (0 < length s)%nat as Hl0 by (destruct s; [done|simpl; lia]).
  cbn [escape_loop]. destruct (Z.ltb_spec p e); [|lia]. rewrite (Hround dst new ne p s) by done.
  pose proof (mb_bound s) as Hb. destruct (decide (0 < mb_len s)%nat) as [Hmb|Hmb].
  - unfold copy_char. destruct (Z.gtb_spec (new + Z.of_nat (mb_len s)) ne); [lia|].
    pose proof Ht as Ht'. rewrite <- (take_drop (mb_len s) s) in Ht'. apply text_at_app in Ht' as [Ht1 Ht2].
    unfold text_at in Ht1. rewrite length_take, Nat.min_l in Ht1, Ht2 by lia. rewrite Nat2Z.id, Ht1, bind_ret.
    assert (length (take (mb_len s) s) = mb_len s) as Hlt by (rewrite length_take; lia).
    rewrite store_bytes_splice by (split; lia). rewrite map_u8_bytes by (by apply Forall_take). rewrite !bind_ret.
    assert (room dst new (length (take (mb_len s) s))) as Hr by (split; lia).
    destruct (IH (drop (mb_len s) s) (splice new (take (mb_len s) s) dst) (new + Z.of_nat (mb_len s)) ne (p + Z.of_nat (mb_len s)))
      as (t & He' & E); rewrite ?length_drop, ?length_splice; [by apply Forall_drop|done|lia..|done|].
    exists (take (mb_len s) s ++ t). split; [by constructor|]. rewrite E.
    destruct (escapes_length unit _ _ Hu ltac:(by apply Forall_drop) He') as [Hlen _]. rewrite length_drop in Hlen.
    rewrite <- Hlt at 1. rewrite splice_app, length_app, Hlt by (split; [lia|rewrite length_app; lia]). do 2 f_equal. lia.
  - destruct s as [|c s]; [done|]. apply Forall_cons in Hs as [Hc Hs]. destruct (Hu c Hc) as [Hul Hub].
    apply text_at_cons in Ht as [_ Ht]. simpl length in *.
    unfold emit. destruct (Z.gtb_spec (new + Z.of_nat (length (unit c))) ne); [lia|].
    rewrite store_bytes_splice by (split; lia). rewrite map_u8_bytes by done. rewrite !bind_ret.
    assert (room dst new (length (unit c))) as Hr by (split; lia).
    destruct (IH s (splice new (unit c) dst) (new + Z.of_nat (length (unit c))) ne (p + 1))
      as (t & He' & E); rewrite ?length_splice; [done|done|lia..|done|].
    exists (unit c ++ t). split; [constructor; [lia|done]|]. rewrite E.
    destruct (escapes_length unit _ _ Hu Hs He') as [Hlen _].
    rewrite splice_app, length_app by (split; [lia|rewrite length_app; lia]). do 2 f_equal. lia.
Qed.

Lemma escape_text_writes unit mem round dst start text : unit_ok unit ->
  round_writes unit mem (start + Z.of_nat (length text)) round -> all_bytes text -> text_at mem start text ->
  2 * Z.of_nat (length text) + 1 <= Z.of_nat (length dst) ->
  exists out, escapes unit text out /\
    escape_text round dst start (Z.of_nat (length text)) = Ret (Z.of_nat (length out), splice 0 (out ++ [0]) dst).
Proof.
  intros Hu Hr Ht Hm Hd. unfold escape_text. rewrite Nat2Z.id.
  destruct (escape_loop_writes unit mem (start + Z.of_nat (length text)) round Hu Hr (length text) text dst 0 (2 * Z.of_nat (length text)) start)
    as (out & He & E); [done|done|lia..|]. rewrite E, bind_ret.
  destruct (escapes_length unit _ _ Hu Ht He) as [Hl Hb].
  exists out. split; [done|]. rewrite store_splice1.
  - rewrite bind_ret. rewrite Z.add_0_l. pose proof (splice_app 0 out [0] dst) as Es. rewrite Z.add_0_l in Es.
    rewrite Es; [done|]. split; [lia|]. rewrite length_app. simpl. lia.
  - unfold is_byte, uint. lia.
  - split; [lia|]. rewrite length_splice by (split; lia). lia.
Qed.
End escape.

(** * Character sets that keep the promise *)

Lemma byte_forall (P : Z -> bool) : forallb P (map Z.of_nat (seq 0 256)) = true -> forall c, is_byte c -> P c = true.
Proof.
  intros H c [H0 H1]. rewrite forallb_forall in H. apply H, in_map_iff. exists (Z.to_nat c). split; [lia|].
  apply in_seq. change (2 ^ 8) with 256 in H1. lia.
Qed.

Lemma valid_len_mb cs mem p e : 1 < char_maxlen cs -> valid_len cs mem p e = mb_valid (mb cs) mem p e.
Proof. intros H. unfold valid_len. destruct (Z.gtb_spec (char_maxlen cs) 1); [done|lia]. Qed.

Lemma head_len_mb cs c : 1 < char_maxlen cs -> head_len cs c = mb_charlen (mb cs) (u32 (s8 c)).
Proof. intros H. unfold head_len. destruct (Z.gtb_spec (char_maxlen cs) 1); [done|lia]. Qed.

(** One byte per character. *)
Definition single_safe cs : char_maxlen cs <= 1 -> SafeCharset cs.
Proof.
  intros H. assert ((char_maxlen cs >? 1) = false) as E by (destruct (Z.gtb_spec (char_maxlen cs) 1); [lia|done]).
  refine {| mb_len := fun _ => 0%nat; head_of := fun _ => 0 |}; intros *; rewrite ?E; try (simpl; lia).
  - intros _ _ _. unfold valid_len. by rewrite E.
  - intros _. unfold head_len. by rewrite E.
Defined.

(** Two bytes: a head and a tail. *)
Definition two_len (head tail : Z -> bool) (s : bytes) : nat :=
  match s with a :: b :: _ => if head a && tail b then 2%nat else 0%nat | _ => 0%nat end.

Lemma two_len_inv head tail s : (0 < two_len head tail s)%nat ->
  exists a b s', s = a :: b :: s' /\ head a = true /\ tail b = true /\ two_len head tail s = 2%nat.
Proof.
  destruct s as [|a [|b s]]; simpl; [lia|lia|]. destruct (head a) eqn:Ha, (tail b) eqn:Hb; simpl; try lia.
  intros _. exists a, b, s. done.
Qed.

Lemma two_bytes_spec head tail mem p s : s <> [] -> text_at mem p s ->
  two_bytes head tail mem p (p + Z.of_nat (length s)) = Ret (Z.of_nat (two_len head tail s)).
Proof.
  intros Hs Ht. unfold two_bytes. destruct s as [|a s]; [done|]. apply text_at_cons in Ht as [-> Ht]. rewrite bind_ret.
  destruct s as [|b s].
  - destruct (Z.gtb_spec (p + Z.of_nat (length [a]) - p) 1); [simpl length in *; lia|]. by rewrite andb_false_r.
  - apply text_at_cons in Ht as [-> _]. destruct (Z.gtb_spec (p + Z.of_nat (length (a :: b :: s)) - p) 1); [|simpl length in *; lia].
    rewrite andb_true_r. simpl. destruct (head a), (tail b); done.
Qed.

Definition two_safe cs (head tail : Z -> bool) (hd : Z -> Z) :
  (forall mem p s, s <> [] -> all_bytes s -> text_at mem p s -> valid_len cs mem p (p + Z.of_nat (length s)) = Ret (Z.of_nat (two_len head tail s))) ->
  (forall c, is_byte c -> head_len cs c = Ret (hd c)) ->
  (forall c, is_byte c -> implb (1 <? hd c) (0x80 <=? c) && implb (head c) (0x80 <=? c) && implb (tail c) (negb (c =? 39)) = true) ->
  (forall c d, is_byte c -> is_byte d -> head c = true -> tail d = true -> 1 < hd c \/ 0x80 <= d) ->
  SafeCharset cs.
Proof.
  intros Hspec Hhead Hb Hesc.
  assert (forall c, is_byte c -> (1 < hd c -> 0x80 <= c) /\ (head c = true -> 0x80 <= c) /\ (tail c = true -> c <> 39)) as Hb'.
  { intros c Hc. specialize (Hb c Hc). apply andb_prop in Hb as [[H1 H2]%andb_prop H3]. split_and!; intros H.
    - rewrite (proj2 (Z.ltb_lt _ _) H) in H1. simpl in H1. lia.
    - rewrite H in H2. simpl in H2. lia.
    - rewrite H in H3. destruct (Z.eqb_spec c 39); done. }
  refine {| mb_len := two_len head tail; head_of := hd |}.
  - exact Hspec.
  - exact Hhead.
  - intros c Hc H. destruct (Hb' c Hc) as (H1 & _ & _). by apply H1.
  - intros s. destruct s as [|a [|b s]]; simpl; [lia|lia|]. destruct (head a && tail b); lia.
  - intros s s' Hs Hn Ht. apply two_len_inv in Hn as (a & b & s1 & -> & Ha & Hbt & E). rewrite E in *. simpl in Ht.
    destruct s' as [|a' [|b' s']]; try done. injection Ht as -> ->. simpl. by rewrite Ha, Hbt.
  - intros c s Hs Hn. apply two_len_inv in Hn as (a & b & s1 & [= -> ->] & Ha & _). apply Forall_cons in Hs as [Hc _]. destruct (Hb' a Hc) as (_ & H2 & _). by apply H2.
  - intros s Hs Hn. apply two_len_inv in Hn as (a & b & s1 & -> & Ha & Hbt & E). rewrite E. simpl.
    apply Forall_cons in Hs as [Hca Hs]. apply Forall_cons in Hs as [Hcb _].
    destruct (Hb' a Hca) as (_ & H2 & _). destruct (Hb' b Hcb) as (_ & _ & H3). specialize (H2 Ha).
    constructor; [lia|]. constructor; [by apply H3|constructor].
  - intros c s Hs Hn. apply two_len_inv in Hn as (a & b & s1 & [= -> ->] & Ha & Hbt & E). rewrite E. simpl.
    apply Forall_cons in Hs as [Hca Hs]. apply Forall_cons in Hs as [Hcb _].
    destruct (Hb' a Hca) as (_ & H2 & _). specialize (H2 Ha).
    destruct (Hesc a b Hca Hcb Ha Hbt); [by left|right]. constructor; [lia|]. constructor; [done|constructor].
Defined.

(** The functions for pairs of bytes: the conditions are checked for every byte. *)
Definition pair_safe cs (head tail : Z -> bool) (hd : Z -> Z) :
  1 < char_maxlen cs -> mb_valid (mb cs) = two_bytes head tail ->
  (forall c, mb_charlen (mb cs) c = Ret (hd c)) ->
  forallb (fun c => implb (1 <? hd (u32 (s8 c))) (0x80 <=? c) && implb (head c) (0x80 <=? c) && implb (tail c) (negb (c =? 39))
     && implb (head c) (1 <? hd (u32 (s8 c)))) (map Z.of_nat (seq 0 256)) = true ->
  SafeCharset cs.
Proof.
  intros Hmax Hv Hh Hb. pose proof (byte_forall _ Hb) as Hb'. simpl in Hb'.
  apply (two_safe cs head tail (fun c => hd (u32 (s8 c)))).
  - intros mem p s Hs _ Ht. rewrite valid_len_mb, Hv by done. by apply two_bytes_spec.
  - intros c _. by rewrite head_len_mb, Hh.
  - intros c Hc. by apply Hb', andb_prop in Hc as [? _].
  - intros c d Hc Hd H1 _. left. apply Hb', andb_prop in Hc as [_ H]. rewrite H1 in H. simpl in H. lia.
Defined.

Lemma euckr_spec mem p s : s <> [] -> text_at mem p s ->
  check_mb_euckr mem p (p + Z.of_nat (length s)) = Ret (Z.of_nat (two_len (fun c => 0x80 <=? c) valid_euckr s)).
Proof.
  intros Hs Ht. unfold check_mb_euckr. destruct s as [|a [|b s]]; [done|..].
  - simpl length. destruct (Z.leb_spec (p + Z.of_nat 1 - p) 1); [done|lia].
  - destruct (Z.leb_spec (p + Z.of_nat (length (a :: b :: s)) - p) 1); [simpl length in *; lia|].
    apply text_at_cons in Ht as [-> Ht]. apply text_at_cons in Ht as [-> _]. rewrite bind_ret. simpl two_len.
    destruct (Z.ltb_spec a 128), (Z.leb_spec 128 a); try lia; [done|]. rewrite bind_ret. simpl. by destruct (valid_euckr b).
Qed.

Definition euckr_safe cs : 1 < char_maxlen cs -> mb cs = mb_euckr -> SafeCharset cs.
Proof.
  intros Hmax Hmb. apply (two_safe cs (fun c => 0x80 <=? c) valid_euckr (fun c => mysql_mbcharlen_euckr (u32 (s8 c)))).
  - intros mem p s Hs _ Ht. rewrite valid_len_mb, Hmb by done. by apply euckr_spec.
  - intros c _. by rewrite head_len_mb, Hmb.
  - apply byte_forall. vm_compute. reflexivity.
  - intros c d _ Hd _ Ht. right. unfold valid_euckr, between in Ht. rewrite (wrap_small 8) in Ht by done. lia.
Defined.

(** UTF-8 of up to three or four bytes. *)
Definition utf8_len (four : bool) (s : bytes) : nat :=
  match s with
  | c :: c1 :: s2 =>
    if c <? 0xC2 then 0%nat
    else if c <? 0xE0 then if is_tail c1 then 2%nat else 0%nat
    else match s2 with
    | c2 :: s3 =>
      if c <? 0xF0 then if is_tail c1 && is_tail c2 && ((c >=? 0xE1) || (c1 >=? 0xA0)) then 3%nat else 0%nat
      else match s3 with
      | c3 :: _ =>
        if four && (c <? 0xF5) &&
           (is_tail c1 && is_tail c2 && is_tail c3 && ((c >=? 0xF1) || (c1 >=? 0x90)) && ((c <=? 0xF3) || (c1 <=? 0x8F)))
        then 4%nat else 0%nat
      | [] => 0%nat
      end
    | [] => 0%nat
    end
  | _ => 0%nat
  end.

Lemma is_tail_high c : is_byte c -> is_tail c = true -> 0x80 <= c.
Proof.
  intros Hc Ht. pose proof (byte_forall (fun c => implb (is_tail c) (0x80 <=? c)) ltac:(vm_compute; reflexivity) c Hc) as H.
  simpl in H. rewrite Ht in H. simpl in H. lia.
Qed.

(** The shapes of a character, with what its function tests. *)
Lemma utf8_len_inv four s : (0 < utf8_len four s)%nat -> exists c c1 s2, s = c :: c1 :: s2 /\ 0xC2 <= c /\ is_tail c1 = true /\
  ((utf8_len four s = 2%nat /\ c < 0xE0)
   \/ (exists c2 s3, utf8_len four s = 3%nat /\ s2 = c2 :: s3 /\ is_tail c2 = true)
   \/ (exists c2 c3 s4, utf8_len four s = 4%nat /\ s2 = c2 :: c3 :: s4 /\ is_tail c2 = true /\ is_tail c3 = true)).
Proof.
  destruct s as [|c [|c1 s2]]; simpl; [lia|lia|]. intros H. exists c, c1, s2. split; [done|]. revert H.
  destruct (Z.ltb_spec c 0xC2); [lia|]. destruct (Z.ltb_spec c 0xE0).
  { destruct (is_tail c1); [|lia]. intros _. split_and!; [done..|]. by left. }
  destruct s2 as [|c2 s3]; [lia|]. destruct (Z.ltb_spec c 0xF0).
  { destruct (is_tail c1), (is_tail c2) eqn:E2; simpl; try lia. destruct (_ || _); [|lia].
    intros _. split_and!; [done..|]. right. left. by exists c2, s3. }
  destruct s3 as [|c3 s4]; [lia|]. destruct (four && _); simpl; [|lia].
  destruct (is_tail c1), (is_tail c2) eqn:E2, (is_tail c3) eqn:E3; simpl; try lia. destruct (_ && _); [|lia].
  intros _. split_and!; [done..|]. right. right. by exists c2, c3, s4.
Qed.

Lemma utf8_local four s s' : (0 < utf8_len four s)%nat -> take (utf8_len four s) s' = take (utf8_len four s) s -> utf8_len four s' = utf8_len four s.
Proof.
  intros Hn. destruct (utf8_len_inv four s Hn) as (c & c1 & s2 & -> & Hc & _ & [[E Hc']|[(c2 & s3 & E & -> & _)|(c2 & c3 & s4 & E & -> & _)]]);
    rewrite E; simpl take; intros Ht.
  - destruct s' as [|c' [|c1' s2']]; try done. injection Ht as -> ->. rewrite <- E. simpl.
    by rewrite (proj2 (Z.ltb_lt c 0xE0)).
  - destruct s' as [|c' [|c1' [|c2' s3']]]; try done. injection Ht as -> -> ->. rewrite <- E. revert E. simpl.
    destruct (c <? 0xC2), (c <? 0xE0), (is_tail c1), (c <? 0xF0); try done.
    all: destruct s3 as [|c3 s4]; [done|]; destruct (_ && _) in |- *; done.
  - destruct s' as [|c' [|c1' [|c2' [|c3' s4']]]]; try done. by injection Ht as -> -> -> ->.
Qed.

Lemma utf8_bytes_high four s : all_bytes s -> (0 < utf8_len four s)%nat -> Forall (fun b => 0x80 <= b) (take (utf8_len four s) s).
Proof.
  intros Hs Hn. destruct (utf8_len_inv four s Hn) as (c & c1 & s2 & -> & Hc & T1 & [[E _]|[(c2 & s3 & E & -> & T2)|(c2 & c3 & s4 & E & -> & T2 & T3)]]);
    rewrite E; simpl take; decompose_Forall_hyps; repeat (apply Forall_cons; split; [first [by apply is_tail_high | lia]|]); by apply Forall_nil.
Qed.

Definition utf8_charlen (four : bool) : Z -> Z := if four then mysql_mbcharlen_utf8 else mysql_mbcharlen_utf8mb3.

Definition utf8_safe cs four :
  (forall mem p s, s <> [] -> text_at mem p s -> valid_len cs mem p (p + Z.of_nat (length s)) = Ret (Z.of_nat (utf8_len four s))) ->
  (forall c, head_len cs c = Ret (utf8_charlen four (u32 (s8 c)))) -> SafeCharset cs.
Proof.
  intros Hspec Hhead. refine {| mb_len := utf8_len four; head_of := fun c => utf8_charlen four (u32 (s8 c)) |}.
  - auto.
  - auto.
  - intros c Hc H. pose proof (byte_forall (fun c => implb (1 <? utf8_charlen four (u32 (s8 c))) (0x80 <=? c))
      ltac:(destruct four; vm_compute; reflexivity) c Hc) as Hb. simpl in Hb. rewrite (proj2 (Z.ltb_lt _ _) H) in Hb. simpl in Hb. lia.
  - intros s. destruct (utf8_len four s) eqn:En; [lia|]. rewrite <- En.
    destruct (utf8_len_inv four s ltac:(lia)) as (c & c1 & s2 & -> & _ & _ & [[E _]|[(c2 & s3 & E & -> & _)|(c2 & c3 & s4 & E & -> & _)]]);
      rewrite E; simpl; lia.
  - intros s s' _. apply utf8_local.
  - intros c s _ Hn. destruct (utf8_len_inv _ _ Hn) as (? & ? & ? & [= -> ->] & ? & _). lia.
  - intros s Hs Hn. eapply Forall_impl; [by apply utf8_bytes_high|]. simpl. lia.
  - intros c s Hs Hn. right. by apply utf8_bytes_high.
Defined.

Definition p_end (p : Z) (n : nat) : Z := p + Z.of_nat n.

(** Decides a comparison of positions. *)
Ltac position :=
  match goal with |- context [?a >? p_end ?p ?n] =>
    let H := fresh in destruct (Z.gtb_spec a (p_end p n)) as [H|H]; unfold p_end in H; try lia
  end.

Lemma utf8_sequence_spec mem p s : s <> [] -> text_at mem p s ->
  check_mb_utf8_valid mem p (p_end p (length s)) = Ret (Z.of_nat (utf8_len true s)) /\
  check_mb_utf8mb3_valid mem p (p_end p (length s)) = Ret (Z.of_nat (utf8_len false s)).
Proof.
  intros Hs Ht. unfold check_mb_utf8_valid, check_mb_utf8_sequence, check_mb_utf8mb3_valid, check_mb_utf8mb3_sequence.
  destruct s as [|c s]; [done|]. apply text_at_cons in Ht as [Hc Ht].
  destruct (Z.geb_spec p (p_end p (length (c :: s)))) as [H|_]; [unfold p_end in H; simpl length in H; lia|]. rewrite Hc, !bind_ret.
  destruct s as [|c1 s]; [|apply text_at_cons in Ht as [Hc1 Ht]; destruct s as [|c2 s];
    [|apply text_at_cons in Ht as [Hc2 Ht]; destruct s as [|c3 s]; [|apply text_at_cons in Ht as [Hc3 _]]]];
  replace (p + 1 + 1) with (p + 2) in * by lia; replace (p + 2 + 1) with (p + 3) in * by lia;
  cbn [length utf8_len andb];
  destruct (Z.ltb_spec c 0x80), (Z.ltb_spec c 0xC2); try lia; try done;
  destruct (Z.ltb_spec c 0xE0); try (position; rewrite ?Hc1, ?bind_ret; split; by destruct (is_tail _)); try (by position);
  destruct (Z.ltb_spec c 0xF0);
    try (position; rewrite ?Hc1, ?bind_ret, ?Hc2, ?bind_ret; split; by destruct (is_tail _ && _ && _)); try (by position);
  destruct (Z.ltb_spec c 0xF5); try (split; done); try (by position).
  position. rewrite Hc1, bind_ret, Hc2, bind_ret, Hc3, bind_ret. split; [|done]. by destruct (_ && _ && _ && _ && _).
Qed.

(** * Escaped texts are read back *)

(** The character sets whose functions keep the promise. *)
Definition trusted (cs : MARIADB_CHARSET_INFO) : bool :=
  (char_maxlen cs <=? 1)
  || existsb (fun f => bool_decide (mb cs = f)) [mb_utf8mb3; mb_utf8; mb_cp932; mb_euckr; mb_gb2312; mb_gbk; mb_sjis].

(** How a server with the character set finds the length of a character of several bytes. *)
Definition char_len (cs : MARIADB_CHARSET_INFO) (s : bytes) : nat :=
  match valid_len cs s 0 (Z.of_nat (length s)) with Ret n => Z.to_nat n | _ => 0%nat end.

Ltac pair_case cs Hmax E head tail hd :=
  apply (pair_safe cs head tail hd); [exact Hmax|by rewrite E|by intros c; rewrite E|vm_compute; reflexivity].

Definition trusted_safe cs : trusted cs = true -> SafeCharset cs.
Proof.
  intros H. destruct (Z_le_gt_dec (char_maxlen cs) 1) as [Hmax|Hmax]; [by apply single_safe|]. apply Z.gt_lt in Hmax.
  unfold trusted in H. rewrite (proj2 (Z.leb_gt _ _) Hmax) in H.
  destruct (mb cs) eqn:E; try (exfalso; exact (Bool.diff_false_true H)).
  - apply (utf8_safe cs false); [|by intros c; rewrite head_len_mb, E].
    intros mem p s Hs Ht. rewrite valid_len_mb, E by done. by apply utf8_sequence_spec.
  - apply (utf8_safe cs true); [|by intros c; rewrite head_len_mb, E].
    intros mem p s Hs Ht. rewrite valid_len_mb, E by done. by apply utf8_sequence_spec.
  - pair_case cs Hmax E valid_cp932head valid_cp932tail mysql_mbcharlen_cp932.
  - by apply euckr_safe.
  - pair_case cs Hmax E valid_gb2312_head valid_gb2312_tail mysql_mbcharlen_gb2312.
  - pair_case cs Hmax E valid_gbk_head valid_gbk_tail mysql_mbcharlen_gbk.
  - pair_case cs Hmax E valid_sjis_head valid_sjis_tail mysql_mbcharlen_sjis.
Defined.

Lemma char_len_mb cs `{SafeCharset cs} s : s <> [] -> all_bytes s -> char_len cs s = mb_len s.
Proof.
  intros Hs Hb. unfold char_len. pose proof (mb_spec s 0 s Hs Hb) as E. rewrite Z.add_0_l in E. rewrite E; [lia|].
  unfold text_at. rewrite load_bytes_in by (split; lia). by rewrite drop_0, firstn_all.
Qed.

Lemma scan_ext (f g : bytes -> nat) bs fuel : forall s, (forall s, s <> [] -> all_bytes s -> f s = g s) -> all_bytes s ->
  scan f bs fuel s = scan g bs fuel s.
Proof.
  induction fuel as [|fuel IH]; intros s Hfg Hs; [by destruct s|]. destruct s as [|c s']; [done|].
  cbn [scan]. rewrite (Hfg (c :: s')) by done. pose proof Hs as [Hc Hs']%Forall_cons.
  destruct (decide _); [rewrite IH by (done || by apply Forall_drop); done|].
  destruct s' as [|d s'']; [by rewrite !IH|]. pose proof Hs' as [_ Hs'']%Forall_cons.
  rewrite (IH s''), (IH (d :: s'')) by done. done.
Qed.

Definition no_backslash (server_status : Z) : bool := negb (Z.land server_status SERVER_STATUS_NO_BACKSLASH_ESCAPES =? 0).

(** C7: with a character set of one byte, UTF-8, GBK, GB2312, SJIS, CP932 or EUC-KR, mysql_real_escape_string
    writes any text into a buffer of twice its length and one byte, returns the length of what it wrote, and a
    server with that character set (and that mode for backslashes) reads what was written, with a quote behind it,
    as exactly the original text: no byte of the text ends the literal or changes what follows it. *)
Theorem escaped_text_read server_status cs to from start text rest :
  trusted cs = true -> all_bytes text -> text_at from start text ->
  2 * Z.of_nat (length text) + 1 <= Z.of_nat (length to) -> all_bytes rest -> head rest <> Some 39 ->
  exists out,
    mysql_real_escape_string server_status cs to from start (Z.of_nat (length text))
      = Ret (Z.of_nat (length out), splice 0 (out ++ [0]) to)
    /\ (length out <= 2 * length text)%nat
    /\ scan (char_len cs) (negb (no_backslash server_status)) (S (length out)) (out ++ 39 :: rest) = Some (text, rest).
Proof.
  intros Hcs Ht Hm Hd Hr Hh. pose proof (trusted_safe cs Hcs) as SC.
  assert (forall unit out, unit_ok unit -> escapes cs unit text out ->
    (length out <= 2 * length text)%nat /\ forall bs fuel, scan (char_len cs) bs fuel (out ++ 39 :: rest) = scan mb_len bs fuel (out ++ 39 :: rest)) as Hout.
  { intros unit out Hu He. destruct (escapes_length cs unit _ _ Hu Ht He) as [Hl Hb]. split; [done|]. intros bs fuel.
    apply scan_ext; [intros s; apply char_len_mb|]. apply Forall_app. split; [done|]. apply Forall_cons. split; [unfold is_byte, uint; lia|done]. }
  unfold mysql_real_escape_string. fold (no_backslash server_status). destruct (no_backslash server_status).
  - destruct (escape_text_writes cs quote_unit from _ to start text quote_unit_ok (quotes_round_writes cs from _)) as (out & He & E); [done..|].
    exists out. destruct (Hout _ _ quote_unit_ok He) as [Hl ->]. split_and!; [done|done|]. by apply scan_quotes; [..|lia].
  - destruct (escape_text_writes cs (slash_unit cs) from _ to start text (slash_unit_ok cs) (slashes_round_writes cs from _)) as (out & He & E); [done..|].
    exists out. destruct (Hout _ _ (slash_unit_ok cs) He) as [Hl ->]. split_and!; [done|done|]. by apply scan_slashes; [..|lia].
Qed.

(** The row of the table with a number. *)
Definition row (n : Z) : MARIADB_CHARSET_INFO :=
  default (mk_charset 0 0 EmptyString EmptyString 0 EmptyString 1 1 none) (mysql_find_charset_nr n).

Lemma escaped_text_read_witness :
  exists out, mysql_real_escape_string 0 (row 28) (repeat 7 16) [0x81; 39; 0xC4; 0xE3; 10] 0 5
      = Ret (Z.of_nat (length out), splice 0 (out ++ [0]) (repeat 7 16))
    /\ scan (char_len (row 28)) true (S (length out)) (out ++ 39 :: [59]) = Some ([0x81; 39; 0xC4; 0xE3; 10], [59]).
Proof.
  destruct (escaped_text_read 0 (row 28) (repeat 7 16) [0x81; 39; 0xC4; 0xE3; 10] 0 [0x81; 39; 0xC4; 0xE3; 10] [59]) as (out & E & _ & S);
    [reflexivity|by repeat (apply Forall_cons; split; [unfold is_byte, uint; lia|])|reflexivity|simpl; lia
    |by repeat (apply Forall_cons; split; [unfold is_byte, uint; lia|])|done|].
  exists out. split; [exact E|exact S].
Defined.

(** Every row of the table is found by its number, and the rows that are not trusted are those of these
    character sets. *)
Lemma find_nr_complete c : In c mariadb_compiled_charsets -> mysql_find_charset_nr (nr c) = Some c.
Proof.
  intros H. apply list_elem_of_In, list_elem_of_lookup in H as [i Hi].
  assert (NoDup (map nr mariadb_compiled_charsets)) as Hn by (by apply (bool_decide_unpack _); vm_compute).
  unfold mysql_find_charset_nr. revert Hi Hn. generalize mariadb_compiled_charsets. clear.
  intros l. revert i. induction l as [|d l IH]; intros i Hi Hn; [done|]. simpl in Hn. apply NoDup_cons in Hn as [Hd Hn]. simpl.
  destruct i as [|i]; simpl in Hi; [injection Hi as ->; by rewrite Z.eqb_refl|].
  destruct (Z.eqb_spec (nr d) (nr c)) as [E|]; [|by apply (IH i)].
  destruct Hd. rewrite E. apply list_elem_of_In, in_map, list_elem_of_In, list_elem_of_lookup. by exists i.
Qed.

Lemma untrusted_rows : forallb (fun c => trusted c || existsb (String.eqb (csname c))
    ["big5"; "ujis"; "eucjpms"; "gb18030"; "ucs2"; "utf16"; "utf16le"; "utf32"; "filename"]%string) mariadb_compiled_charsets = true.
Proof. vm_compute. reflexivity. Qed.

(** Big5: mb_charlen gets the first byte with its sign extended and does not know it, so it is not escaped; the
    backslash that is written for the quote behind it becomes the second byte of a character, and the quote ends
    the literal. *)
Lemma big5_quote_escapes : exists out,
  mysql_real_escape_string 0 (row 1) (repeat 7 8) [0xA1; 39; 59] 0 3 = Ret (Z.of_nat (length out), splice 0 (out ++ [0]) (repeat 7 8))
  /\ scan (char_len (row 1)) true 9 (out ++ [39]) = Some ([0xA1; 92], [59; 39]).
Proof. exists [0xA1; 92; 39; 59]. split; vm_compute; reflexivity. Qed.

(** GB18030: the same with any first byte, whose length is never more than one. *)
Lemma gb18030_quote_escapes : exists out,
  mysql_real_escape_string 0 (row 248) (repeat 7 8) [0x81; 39; 59] 0 3 = Ret (Z.of_nat (length out), splice 0 (out ++ [0]) (repeat 7 8))
  /\ scan (char_len (row 248)) true 9 (out ++ [39]) = Some ([0x81; 92], [59; 39]).
Proof. exists [0x81; 92; 39; 59]. split; vm_compute; reflexivity. Qed.

(** UJIS: the second byte is read without a look at the end of the text; a byte behind it is taken over. *)
Lemma ujis_reads_on :
  mysql_real_escape_string 0 (row 12) (repeat 7 8) [0xA1] 0 1 = Fault
  /\ mysql_real_escape_string 0 (row 12) (repeat 7 8) [0xA1; 0xFE] 0 1 = Ret (2, [0xA1; 0xFE; 0; 7; 7; 7; 7; 7]).
Proof. split; vm_compute; reflexivity. Qed.

(** UCS-2: the last byte of a text of odd length is copied together with the one behind it. *)
Lemma ucs2_reads_on : mysql_real_escape_string 0 (row 35) (repeat 7 8) [65] 0 1 = Fault.
Proof. vm_compute. reflexivity. Qed.

End Escape.
