(* ===== verification/OracleFormat.v ===== *)
(** The printer of Oracle date formats of libmariadb/ob_oracle_format_models.c: the format
    elements, parsing of a format string (parse_datetime_format_string), the length of the
    text (calculate_str_oracle_dfm_length), the text (ob_time_to_str_oracle_dfm), days and
    weeks (ob_time_to_date, ob_time_to_week).

    The array of parsed elements is the list that ma_array.c makes of it (DynArray.v);
    its allocations succeed.  A signed 32-bit result that overflows is a [Fault]. *)

From stdpp Require Import tactics.
From S2P Require Import Prelude IntStore Uuid TraceText NumText LenEnc StmtTime TimeText.
Import Uuid NumText StmtTime TimeText.

Module OracleFormat.

(** * Data *)

Inductive ElementFlag : Type :=
  | AD | AD2 | BC | BC2 | CC | SCC | D | DAY | DD | DDD | DY | FF1 | FF2 | FF3 | FF4 | FF5 | FF6
  | FF7 | FF8 | FF9 | FF | HH | HH24 | HH12 | IW | I | IY | IYY | IYYY | MI | MM | MONTH | MON
  | AM | AM2 | PM | PM2 | Q | RR | RRRR | SS | SSSSS | WW | W | YGYYY | YEAR | SYEAR | YYYY
  | SYYYY | YYY | YY | Y | DS | DL | TZH | TZM | TZD | TZR | X | J.

Definition all_flags : list ElementFlag :=
  [AD; AD2; BC; BC2; CC; SCC; D; DAY; DD; DDD; DY; FF1; FF2; FF3; FF4; FF5; FF6; FF7; FF8; FF9;
   FF; HH; HH24; HH12; IW; I; IY; IYY; IYYY; MI; MM; MONTH; MON; AM; AM2; PM; PM2; Q; RR; RRRR;
   SS; SSSSS; WW; W; YGYYY; YEAR; SYEAR; YYYY; SYYYY; YYY; YY; Y; DS; DL; TZH; TZM; TZD; TZR; X; J].

Inductive UpperCaseMode : Type := NON_CHARACTER | ONLY_FIRST_CHARACTER | ALL_CHARACTER.

#[export] Instance ElementFlag_eq_dec : EqDecision ElementFlag.
Proof. solve_decision. Defined.

(** A name with its length; the pointer of an entry without initialiser is NULL. *)
Record ObTimeConstStr : Type := ConstStr { ptr_ : ptr; len_ : Z }.

Definition const_str (s : string) : ObTimeConstStr := ConstStr (Some (str s)) (Z.of_nat (String.length s)).

(** PATTERNEX has an initialiser for every flag but the last. *)
Definition PATTERNEX (flag : ElementFlag) : ObTimeConstStr :=
  match flag with
  | AD => const_str "AD"
  | AD2 => const_str "A.D."
  | BC => const_str "BC"
  | BC2 => const_str "B.C."
  | CC => const_str "CC"
  | SCC => const_str "SCC"
  | D => const_str "D"
  | DAY => const_str "DAY"
  | DD => const_str "DD"
  | DDD => const_str "DDD"
  | DY => const_str "DY"
  | FF1 => const_str "FF1"
  | FF2 => const_str "FF2"
  | FF3 => const_str "FF3"
  | FF4 => const_str "FF4"
  | FF5 => const_str "FF5"
  | FF6 => const_str "FF6"
  | FF7 => const_str "FF7"
  | FF8 => const_str "FF8"
  | FF9 => const_str "FF9"
  | FF => const_str "FF"
  | HH => const_str "HH"
  | HH24 => const_str "HH24"
  | HH12 => const_str "HH12"
  | IW => const_str "IW"
  | I => const_str "I"
  | IY => const_str "IY"
  | IYY => const_str "IYY"
  | IYYY => const_str "IYYY"
  | MI => const_str "MI"
  | MM => const_str "MM"
  | MONTH => const_str "MONTH"
  | MON => const_str "MON"
  | AM => const_str "AM"
  | AM2 => const_str "A.M."
  | PM => const_str "PM"
  | PM2 => const_str "P.M."
  | Q => const_str "Q"
  | RR => const_str "RR"
  | RRRR => const_str "RRRR"
  | SS => const_str "SS"
  | SSSSS => const_str "SSSSS"
  | WW => const_str "WW"
  | W => const_str "W"
  | YGYYY => const_str "Y,YYY"
  | YEAR => const_str "YEAR"
  | SYEAR => const_str "SYEAR"
  | YYYY => const_str "YYYY"
  | SYYYY => const_str "SYYYY"
  | YYY => const_str "YYY"
  | YY => const_str "YY"
  | Y => const_str "Y"
  | DS => const_str "DS"
  | DL => const_str "DL"
  | TZH => const_str "TZH"
  | TZM => const_str "TZM"
  | TZD => const_str "TZD"
  | TZR => const_str "TZR"
  | X => const_str "X"
  | J => ConstStr None 0
  end.

Definition WDAY_NAMES : list ObTimeConstStr :=
  map const_str
    ["null"; "Monday"; "Tuesday"; "Wednesday"; "Thursday"; "Friday"; "Saturday"; "Sunday"].

Definition WDAY_ABBR_NAMES : list ObTimeConstStr :=
  map const_str
    ["null"; "Mon"; "Tue"; "Wed"; "Thu"; "Fri"; "Sat"; "Sun"].

Definition MON_NAMES : list ObTimeConstStr :=
  map const_str
    ["null"; "January"; "February"; "March"; "April"; "May"; "June"; "July"; "August";
    "September"; "October"; "November"; "December"].

Definition MON_ABBR_NAMES : list ObTimeConstStr :=
  map const_str
    ["null"; "Jan"; "Feb"; "Mar"; "Apr"; "May"; "Jun"; "Jul"; "Aug"; "Sep"; "Oct"; "Nov"; "Dec"].

Definition WDAY_OFFSET_ARR : list (list Z) :=
  [[0; 2; 3; 4; 5; 6; 7; 1];
   [0; 3; 4; 5; 6; 7; 1; 2];
   [0; 4; 5; 6; 7; 1; 2; 3];
   [0; 5; 6; 7; 1; 2; 3; 4];
   [0; 6; 7; 1; 2; 3; 4; 5];
   [0; 7; 1; 2; 3; 4; 5; 6];
   [0; 1; 2; 3; 4; 5; 6; 7];
   [0; 2; 3; 4; 5; 6; 7; 1];
   [0; 3; 4; 5; 6; 7; 1; 2];
   [0; 4; 5; 6; 7; 1; 2; 3];
   [0; 5; 6; 7; 1; 2; 3; 4];
   [0; 6; 7; 1; 2; 3; 4; 5];
   [0; 7; 1; 2; 3; 4; 5; 6]].

Definition DAYS_UNTIL_MON : list (list Z) :=
  [[0; 31; 59; 90; 120; 151; 181; 212; 243; 273; 304; 334; 365];
   [0; 31; 60; 91; 121; 152; 182; 213; 244; 274; 305; 335; 366]].

Definition YDAY_WEEK1 : list (list (list Z)) :=
  [[[0; 0]; [0; 0]];
   [[1; 1]; [7; 0]];
   [[7; 0]; [6; (-1)]];
   [[6; (-1)]; [5; (-2)]];
   [[5; (-2)]; [4; 4]];
   [[4; 4]; [3; 3]];
   [[3; 3]; [2; 2]];
   [[2; 2]; [1; 1]]].

Definition power_of_10 : list Z :=
  [1; 10; 100; 1000; 10000; 100000; 1000000; 10000000; 100000000; 1000000000].

(** Indices of the parts of a time. *)
Definition DT_YEAR : nat := 0.
Definition DT_MON : nat := 1.
Definition DT_MDAY : nat := 2.
Definition DT_HOUR : nat := 3.
Definition DT_MIN : nat := 4.
Definition DT_SEC : nat := 5.
Definition DT_USEC : nat := 6.
Definition DT_DATE : nat := 7.
Definition DT_YDAY : nat := 8.
Definition DT_WDAY : nat := 9.
Definition DT_OFFSET_MIN : nat := 10.

Definition OB_MAX_TZ_ABBR_LEN : Z := 32.
Definition OB_MAX_TZ_NAME_LEN : Z := 64.
Definition DT_WEEK_SUN_BEGIN : Z := 32.
Definition DT_WEEK_ZERO_BEGIN : Z := 64.
Definition DT_WEEK_GE_4_BEGIN : Z := 128.
Definition DT_TYPE_ORACLE : Z := 256.
Definition MAX_VARCHAR_LENGTH : Z := 1024 * 1024.
Definition MAX_SCALE_FOR_ORACLE_TEMPORAL : Z := 9.
Definition DEFAULT_SCALE_FOR_ORACLE_FRACTIONAL_SECONDS : Z := 6.
Definition MAX_WDAY_NAME_LENGTH : Z := 9.
Definition MAX_MON_NAME_LENGTH : Z := 9.
Definition MAX_DIGITS10_STR_SIZE : Z := 23.
Definition ZERO_DATE : Z := -106751991.
Definition INT64_MAX : Z := 9223372036854775807.

(** The time to print; [parts_] has eleven entries of type int32_t. *)
Record ObTime : Type := Time {
  mode_ : Z; parts_ : list Z; tz_name_ : bytes; tzd_abbr_ : bytes; time_zone_id_ : Z; nano_scale_ : Z }.

Definition part (i : nat) (t : ObTime) : Z := default 0 (parts_ t !! i).
Definition set_part (i : nat) (v : Z) (t : ObTime) : ObTime :=
  Time (mode_ t) (<[i := v]> (parts_ t)) (tz_name_ t) (tzd_abbr_ t) (time_zone_id_ t) (nano_scale_ t).

Definition HAS_TYPE_ORACLE (mode : Z) : bool := nonzero (Z.land DT_TYPE_ORACLE mode).

(** An element of a format string; [None] is INVALID_FLAG. *)
Record ObDFMElem : Type := Elem {
  elem_flag_ : option ElementFlag; offset_ : Z; is_single_dot_before_ : bool; upper_case_mode_ : UpperCaseMode }.

(** Results of type int, int division and tables. *)
Definition int32 (z : Z) : cres Z := if (- 2 ^ 31 <=? z) && (z <? 2 ^ 31) then Ret z else Fault.
Definition abs (z : Z) : cres Z := int32 (Z.abs z).
Definition entry {A} (l : list A) (i : Z) : cres A := if i <? 0 then Fault else of_option (l !! Z.to_nat i).

(** * Days and weeks *)

Definition IS_LEAP_YEAR (y : Z) : Z :=
  if (Z.rem y 4 =? 0) && (negb (Z.rem y 100 =? 0) || (Z.rem y 400 =? 0)) then 1 else 0.
Definition LEAP_YEAR_COUNT (y : Z) : Z := Z.quot y 4 - Z.quot y 100 + Z.quot y 400.
Definition DAYS_PER_YEAR (leap : Z) : Z := if leap =? 1 then 366 else 365.

(** The row pointer WDAY_OFFSET is that of row 6. *)
Definition WDAY_OFFSET (offset wday : Z) : cres Z :=
  row ← entry WDAY_OFFSET_ARR (offset + 6);
  entry row wday.

(** The value and the time with its DT_YDAY and DT_WDAY set. *)
Definition ob_time_to_date (t : ObTime) : cres (Z * ObTime) :=
  if (part DT_DATE t =? ZERO_DATE) && negb (HAS_TYPE_ORACLE (mode_ t)) then Ret (ZERO_DATE, t)
  else
    row ← entry DAYS_UNTIL_MON (IS_LEAP_YEAR (part DT_YEAR t));
    until ← entry row (part DT_MON t - 1);
    yday ← int32 (until + part DT_MDAY t);
    let t := set_part DT_YDAY yday t in
    days_of_years ← int32 ((part DT_YEAR t - 1970) * 365);
    let leap_year_count := LEAP_YEAR_COUNT (part DT_YEAR t - 1) - LEAP_YEAR_COUNT 1969 in
    value ← int32 (days_of_years + leap_year_count + part DT_YDAY t - 1);
    wday ← WDAY_OFFSET (Z.rem value 7) 4;
    Ret (value, set_part DT_WDAY wday t).

Definition week1 (wday sun ge4 : Z) : cres Z :=
  a ← entry YDAY_WEEK1 wday;
  b ← entry a sun;
  entry b ge4.

Definition ob_time_to_week (t : ObTime) (mode : Z) : cres Z :=
  let is_sun_begin := if nonzero (Z.land DT_WEEK_SUN_BEGIN mode) then 1 else 0 in
  let is_zero_begin := nonzero (Z.land DT_WEEK_ZERO_BEGIN mode) in
  let is_ge_4_begin := if nonzero (Z.land DT_WEEK_GE_4_BEGIN mode) then 1 else 0 in
  week ← (if (part DT_YDAY t >? 365 - 3) && nonzero is_ge_4_begin && negb is_zero_begin then
            let days_cur_year := DAYS_PER_YEAR (IS_LEAP_YEAR (part DT_YEAR t)) in
            wday_next_yday1 ← WDAY_OFFSET (days_cur_year - part DT_YDAY t + 1) (part DT_WDAY t);
            yday_next_week1 ← week1 wday_next_yday1 is_sun_begin is_ge_4_begin;
            Ret (if part DT_YDAY t >=? days_cur_year + yday_next_week1 then 1 else 0)
          else Ret 0);
  if week =? 0 then
    wday_cur_yday1 ← WDAY_OFFSET (Z.rem (1 - part DT_YDAY t) 7) (part DT_WDAY t);
    yday_cur_week1 ← week1 wday_cur_yday1 is_sun_begin is_ge_4_begin;
    if (part DT_YDAY t <? yday_cur_week1) && negb is_zero_begin then
      let days_prev_year := DAYS_PER_YEAR (IS_LEAP_YEAR (part DT_YEAR t - 1)) in
      wday_prev_yday1 ← WDAY_OFFSET (Z.rem (1 - days_prev_year - part DT_YDAY t) 7) (part DT_WDAY t);
      yday_prev_week1 ← week1 wday_prev_yday1 is_sun_begin is_ge_4_begin;
      Ret (Z.quot (days_prev_year + part DT_YDAY t - yday_prev_week1 + 7) 7)
    else Ret (Z.quot (part DT_YDAY t - yday_cur_week1 + 7) 7)
  else Ret week.

(** * Parsing a format string *)

(** The position [cur_ch_] is an offset from [fmt_str_]. *)
Definition is_split_char (ch : Z) : bool :=
  (ch =? 10) || (ch =? 9)
  || ((0x20 <=? ch) && (ch <=? 0x7E)
      && negb ((48 <=? ch) && (ch <=? 57) || (97 <=? ch) && (ch <=? 122) || (65 <=? ch) && (ch <=? 90))).

Definition isupper (c : Z) : bool := (65 <=? c) && (c <=? 90).
Definition toupper (c : Z) : Z := if (97 <=? c) && (c <=? 122) then c - 32 else c.
Definition tolower (c : Z) : Z := if (65 <=? c) && (c <=? 90) then c + 32 else c.

(** strncasecmp with a string that has no NUL. *)
Fixpoint same_ignoring_case (fmt : bytes) (p : Z) (pat : bytes) : cres bool :=
  match pat with
  | [] => Ret true
  | c :: pat => a ← load fmt p; if tolower a =? tolower c then same_ignoring_case fmt (p + 1) pat else Ret false
  end.

Definition match_pattern_ignore_case (fmt : bytes) (cur_ch remain_len : Z) (pattern : ObTimeConstStr) : cres bool :=
  if remain_len >=? len_ pattern then
    p ← of_option (ptr_ pattern);
    same_ignoring_case fmt cur_ch (take (Z.to_nat (len_ pattern)) p)
  else Ret false.

(** At most [n] separators; their number. *)
Fixpoint skip_loop (fmt : bytes) (p : Z) (n : nat) (except_char : Z) : cres Z :=
  match n with
  | O => Ret 0
  | S n =>
      c ← load fmt p;
      if is_split_char c && negb (s8 c =? except_char) then k ← skip_loop fmt (p + 1) n except_char; Ret (k + 1)
      else Ret 0
  end.

Definition skip_separate_chars_with_limit (fmt : bytes) (cur_ch remain_len limit except_char : Z) : cres (Z * Z * Z) :=
  sep_len ← skip_loop fmt cur_ch (Z.to_nat (Z.min remain_len limit)) except_char;
  Ret (sep_len, cur_ch + sep_len, remain_len - sep_len).

Definition skip_separate_chars (fmt : bytes) (cur_ch remain_len : Z) : cres (Z * Z * Z) :=
  skip_separate_chars_with_limit fmt cur_ch remain_len MAX_VARCHAR_LENGTH INT64_MAX.

(** The first of the longest patterns that match. *)
Fixpoint search_pattern (fmt : bytes) (cur_ch remain_len : Z) (flags : list ElementFlag)
    (winner_flag : option ElementFlag) (max_matched_len : Z) : cres (option ElementFlag * Z) :=
  match flags with
  | [] => Ret (winner_flag, max_matched_len)
  | flag :: flags =>
      matched ← (if max_matched_len <? len_ (PATTERNEX flag) then
                   match_pattern_ignore_case fmt cur_ch remain_len (PATTERNEX flag)
                 else Ret false);
      if (matched : bool) then search_pattern fmt cur_ch remain_len flags (Some flag) (len_ (PATTERNEX flag))
      else search_pattern fmt cur_ch remain_len flags winner_flag max_matched_len
  end.

Definition upper_case (fmt : bytes) (cur_ch remain_len : Z) (flag : ElementFlag) : cres (Z * UpperCaseMode) :=
  match flag with
  | MON | MONTH | DAY | DY | AM | PM | AD | BC =>
      if remain_len <? 2 then Ret (1, NON_CHARACTER)
      else
        a ← load fmt cur_ch;
        b ← load fmt (cur_ch + 1);
        Ret (0, if isupper a && isupper b then ALL_CHARACTER
                else if isupper a then ONLY_FIRST_CHARACTER else NON_CHARACTER)
  | AM2 | PM2 | AD2 | BC2 =>
      if remain_len <? 4 then Ret (1, NON_CHARACTER)
      else a ← load fmt cur_ch; Ret (0, if isupper a then ALL_CHARACTER else NON_CHARACTER)
  | _ => Ret (0, NON_CHARACTER)
  end.

(** Returns (ret, cur_ch_, remain_len_, *elem). *)
Definition parse_one_elem (fmt : bytes) (cur_ch remain_len : Z) (elem : ObDFMElem) : cres (Z * Z * Z * ObDFMElem) :=
  if remain_len <=? 0 then Ret (1, cur_ch, remain_len, elem)
  else
    '(winner_flag, max_matched_len) ← search_pattern fmt cur_ch remain_len all_flags None 0;
    match winner_flag with
    | Some flag =>
        '(ret, mode) ← upper_case fmt cur_ch remain_len flag;
        Ret (ret, cur_ch + max_matched_len, remain_len - max_matched_len,
             Elem (Some flag) cur_ch (is_single_dot_before_ elem) mode)
    | None => Ret (1, cur_ch, remain_len, elem)
    end.

(** One round of the loop: separators, then an element; returns (ret, cur_ch_, remain_len_,
    elements). *)
Definition parse_round (fmt : bytes) (cur_ch remain_len : Z) (array : list ObDFMElem)
    : cres (Z * Z * Z * list ObDFMElem) :=
  '(skipped_len, cur_ch, remain_len) ← skip_separate_chars fmt cur_ch remain_len;
  if remain_len >? 0 then
    dot ← (if cur_ch >? 0 then
             if skipped_len =? 1 then c ← load fmt (cur_ch - 1); Ret (c =? 46) else Ret false
           else Ret false);
    '(ret, cur_ch, remain_len, elem) ← parse_one_elem fmt cur_ch remain_len (Elem None (-1) dot NON_CHARACTER);
    Ret (ret, cur_ch, remain_len, if nonzero ret then array else array ++ [elem])
  else Ret (0, cur_ch, remain_len, array).

Fixpoint parse_loop (fuel : nat) (fmt : bytes) (ret cur_ch remain_len : Z) (array : list ObDFMElem)
    : cres (Z * list ObDFMElem) :=
  if nonzero ret || (remain_len <=? 0) then Ret (ret, array)
  else match fuel with
    | O => OutOfFuel
    | S fuel =>
        '(ret, cur_ch, remain_len, array) ← parse_round fmt cur_ch remain_len array;
        parse_loop fuel fmt ret cur_ch remain_len array
    end.

(** Every round consumes a character or ends the loop. *)
Definition parse_datetime_format_string (fmt_str : ptr) (fmt_len : Z) : cres (Z * list ObDFMElem) :=
  match fmt_str with
  | None => Ret (0, [])
  | Some fmt => if fmt_len =? 0 then Ret (0, []) else parse_loop (Z.to_nat fmt_len) fmt 0 0 fmt_len []
  end.

(** * Printing into a buffer

    The buffer is [mem + buf]; every printer returns (ret, mem, *pos). *)

(** %0wd; [print_d 1] is %d. *)
Definition print_d (w : nat) (z : Z) : bytes :=
  if z <? 0 then 45 :: print_u (w - 1) (- z) else print_u w z.

(** %.*s: at most [n] characters, up to a NUL. *)
Fixpoint load_prefix (mem : bytes) (p : Z) (n : nat) : cres bytes :=
  match n with
  | O => Ret []
  | S n => c ← load mem p; if c =? 0 then Ret [] else s ← load_prefix mem (p + 1) n; Ret (c :: s)
  end.

Definition print_s (mem : bytes) (p n : Z) : cres bytes :=
  if n <? 0 then cstr (drop (Z.to_nat p) mem) else load_prefix mem p (Z.to_nat n).

Definition print_name (s : ObTimeConstStr) : cres bytes := p ← of_option (ptr_ s); print_s p 0 (len_ s).

Definition databuff_printf (mem : bytes) (buf buf_len pos : Z) (text : bytes) : cres (Z * bytes * Z) :=
  if (0 <=? pos) && (pos <? buf_len) then
    '(mem, len) ← TraceText.snprintf mem (buf + pos) (buf_len - pos) text;
    if len <? 0 then Ret (1, mem, pos)
    else if len <? buf_len - pos then Ret (0, mem, pos + len)
    else Ret (1, mem, buf_len - 1)
  else Ret (1, mem, pos).

(** A letter at index [i] of a name. *)
Definition set_case (mode : UpperCaseMode) (i c : Z) : Z :=
  if (97 <=? c) && (c <=? 122) || (65 <=? c) && (c <=? 90) then
    match mode with
    | ALL_CHARACTER => toupper c
    | ONLY_FIRST_CHARACTER => if i =? 0 then toupper c else tolower c
    | NON_CHARACTER => tolower c
    end
  else c.

Fixpoint special_chars (mem : bytes) (buf pos : Z) (mode : UpperCaseMode) (i : Z) (cs : bytes) : cres (bytes * Z) :=
  match cs with
  | [] => Ret (mem, pos)
  | c :: cs => mem ← store mem (buf + pos) (set_case mode i c); special_chars mem buf (pos + 1) mode (i + 1) cs
  end.

Definition special_mode_sprintf (mem : bytes) (buf buf_len pos : Z) (s : ObTimeConstStr) (mode : UpperCaseMode)
    (padding : Z) : cres (Z * bytes * Z) :=
  match ptr_ s with
  | None => Ret (1, mem, pos)
  | Some p =>
      if (len_ s <=? 0) || (padding >? 0) && (padding <? len_ s) then Ret (1, mem, pos)
      else if pos + (if padding >? 0 then padding else len_ s) >=? buf_len then Ret (1, mem, pos)
      else
        cs ← load_bytes p 0 (Z.to_nat (len_ s));
        '(mem, pos) ← special_chars mem buf pos mode 0 cs;
        mem ← store_bytes mem (buf + pos) (repeat 32 (Z.to_nat (padding - len_ s)));
        Ret (0, mem, pos + Z.max 0 (padding - len_ s))
  end.

(** The characters DIGITS[2 v] and DIGITS[2 v + 1] for [v] below 100. *)
Definition DIGITS (i : Z) : Z := 48 + (if Z.even i then i / 2 / 10 else i / 2 mod 10).

Fixpoint format_loop (fuel : nat) (b : bytes) (p value : Z) : cres (bytes * Z * Z) :=
  if value <? 100 then Ret (b, p, value)
  else match fuel with
    | O => OutOfFuel
    | S fuel =>
        let index := 2 * (value mod 100) in
        b ← store b (p - 1) (DIGITS (index + 1));
        b ← store b (p - 2) (DIGITS index);
        format_loop fuel b (p - 2) (value / 100)
    end.

(** A 64-bit number has at most ten pairs of digits. *)
Definition format_unsigned (b : bytes) (value : Z) : cres (bytes * Z) :=
  '(b, p, value) ← format_loop 10 b (MAX_DIGITS10_STR_SIZE - 1) value;
  if value <? 10 then b ← store b (p - 1) (48 + value); Ret (b, p - 1)
  else
    let index := 2 * value in
    b ← store b (p - 1) (DIGITS (index + 1));
    b ← store b (p - 2) (DIGITS index);
    Ret (b, p - 2).

(** The buffer, the start of the text and its length. *)
Definition format_signed (b : bytes) (value : Z) : cres (bytes * Z * Z) :=
  '(b, p) ← (if value <? 0 then
               '(b, p) ← format_unsigned b (u64 (- value));
               b ← store b (p - 1) 45;
               Ret (b, p - 1)
             else format_unsigned b value);
  Ret (b, p, MAX_DIGITS10_STR_SIZE - 1 - p).

Definition data_fmt_nd (mem : bytes) (buf buf_len pos n target : Z) : cres (Z * bytes * Z) :=
  if (n <=? 0) || (target <? 0) || (target >? 999999999) then Ret (1, mem, pos)
  else if n >? buf_len - pos then Ret (1, mem, pos)
  else
    '(b, p, len) ← format_signed (repeat 0 (Z.to_nat MAX_DIGITS10_STR_SIZE)) target;
    if len >? n then Ret (1, mem, pos)
    else
      mem ← store_bytes mem (buf + pos) (repeat 48 (Z.to_nat (n - len)));
      digits ← load_bytes b p (Z.to_nat len);
      mem ← store_bytes mem (buf + pos + n - len) digits;
      Ret (0, mem, pos + n).

(** FF1 to FF9 *)
Definition fraction_digits (flag : ElementFlag) : Z :=
  match flag with
  | FF1 => 1 | FF2 => 2 | FF3 => 3 | FF4 => 4 | FF5 => 5 | FF6 => 6 | FF7 => 7 | FF8 => 8 | _ => 9
  end.

(** * The length of the text *)

(** One element: (ret, added length). *)
Definition elem_length (t : ObTime) (scale : Z) (flag : ElementFlag) : cres (Z * Z) :=
  let oracle (len : cres Z) := if HAS_TYPE_ORACLE (mode_ t) then n ← len; Ret (0, n) else Ret (1, 0) in
  match flag with
  | AD | BC => Ret (0, len_ (PATTERNEX (if part DT_YEAR t >? 0 then AD else BC)))
  | AD2 | BC2 => Ret (0, len_ (PATTERNEX (if part DT_YEAR t >? 0 then AD2 else BC2)))
  | CC => Ret (0, 2)
  | SCC => Ret (0, 2)
  | D => Ret (0, 1)
  | DAY => Ret (0, MAX_WDAY_NAME_LENGTH)
  | DD => Ret (0, 2)
  | DDD => Ret (0, 3)
  | DY => s ← entry WDAY_ABBR_NAMES (part DT_WDAY t); Ret (0, len_ s)
  | DS => Ret (0, 2 + 1 + 2 + 1 + 1)
  | DL =>
      w ← entry WDAY_NAMES (part DT_WDAY t);
      m ← entry MON_NAMES (part DT_MON t);
      Ret (0, len_ w + 2 + len_ m + 1 + 2 + 2 + 1)
  | FF => oracle (Ret scale)
  | FF1 | FF2 | FF3 | FF4 | FF5 | FF6 | FF7 | FF8 | FF9 => oracle (Ret (fraction_digits flag))
  | HH | HH12 | HH24 | IW | MI | MM => Ret (0, 2)
  | MONTH => Ret (0, MAX_MON_NAME_LENGTH)
  | MON => s ← entry MON_ABBR_NAMES (part DT_MON t); Ret (0, len_ s)
  | AM | PM => Ret (0, len_ (PATTERNEX (if part DT_HOUR t >=? 12 then PM else AM)))
  | AM2 | PM2 => Ret (0, len_ (PATTERNEX (if part DT_HOUR t >=? 12 then PM2 else AM2)))
  | Q => Ret (0, 1)
  | RR => Ret (0, 2)
  | RRRR => Ret (0, 4)
  | SS => Ret (0, 2)
  | SSSSS => Ret (0, 5)
  | WW => Ret (0, 2)
  | W => Ret (0, 1)
  | YGYYY => Ret (0, 1 + 1 + 3)
  | YEAR | SYEAR => Ret (1, 0)
  | SYYYY => Ret (0, 5)
  | YYYY | IYYY => Ret (0, 4)
  | YYY | IYY => Ret (0, 3)
  | YY | IY => Ret (0, 2)
  | Y | I => Ret (0, 1)
  | TZD => oracle (if negb (time_zone_id_ t =? -1) then strlen (tzd_abbr_ t) else Ret 0)
  | TZR => oracle (if negb (time_zone_id_ t =? -1) then strlen (tz_name_ t) else Ret 6)
  | TZH => oracle (Ret 3)
  | TZM => oracle (Ret 2)
  | X => Ret (0, 1)
  | J => Ret (1, 0)
  end.

(** Returns (ret, length, last_elem_end_pos). *)
Fixpoint dfm_length_loop (t : ObTime) (scale : Z) (elems : list ObDFMElem) (ret len last_elem_end_pos : Z)
    : cres (Z * Z * Z) :=
  match elems with
  | [] => Ret (ret, len, last_elem_end_pos)
  | elem :: elems =>
      if nonzero ret then Ret (ret, len, last_elem_end_pos)
      else match elem_flag_ elem with
        | Some flag =>
            if offset_ elem <? 0 then Ret (1, len, last_elem_end_pos)
            else
              let separate_chars_len := offset_ elem - last_elem_end_pos in
              let len := if separate_chars_len >? 0 then len + separate_chars_len else len in
              '(ret, n) ← elem_length t scale flag;
              dfm_length_loop t scale elems ret (len + n) (offset_ elem + len_ (PATTERNEX flag))
        | None => Ret (1, len, last_elem_end_pos)
        end
  end.

(** Returns (ret, *len). *)
Definition calculate_str_oracle_dfm_length (t : ObTime) (fmt_str : ptr) (fmt_len scale len : Z) : cres (Z * Z) :=
  if bool_decide (fmt_str = None) || (fmt_len <=? 0) || (scale >? MAX_SCALE_FOR_ORACLE_TEMPORAL) then Ret (1, len)
  else
    let scale := if scale <? 0 then DEFAULT_SCALE_FOR_ORACLE_FRACTIONAL_SECONDS else scale in
    '(ret, dfm_elems) ← parse_datetime_format_string fmt_str fmt_len;
    '(ret, length, last_elem_end_pos) ← dfm_length_loop t scale dfm_elems ret 0 0;
    let separate_chars_len := fmt_len - last_elem_end_pos in
    Ret (ret, if negb (nonzero ret) && (separate_chars_len >? 0) then length + separate_chars_len else length).

(** * The text *)

(** Text that needs a name, a week or a sum first. *)
Definition printf (mem : bytes) (buf buf_len pos : Z) (text : cres bytes) : cres (Z * bytes * Z) :=
  s ← text;
  databuff_printf mem buf buf_len pos s.

(** The current element. *)
Definition print_elem (t : ObTime) (scale : Z) (elem : ObDFMElem) (flag : ElementFlag) (mem : bytes) (buf buf_len pos : Z)
    : cres (Z * bytes * Z) :=
  let print := databuff_printf mem buf buf_len pos in
  let printf := printf mem buf buf_len pos in
  let special s padding := special_mode_sprintf mem buf buf_len pos s (upper_case_mode_ elem) padding in
  let oracle (r : cres (Z * bytes * Z)) := if HAS_TYPE_ORACLE (mode_ t) then r else Ret (1, mem, pos) in
  let fraction scale :=
    p ← entry power_of_10 (MAX_SCALE_FOR_ORACLE_TEMPORAL - scale);
    data_fmt_nd mem buf buf_len pos scale (Z.quot (part DT_USEC t) p) in
  let symbol (neg : bool) := if neg then 45 else 43 in
  match flag with
  | AD | BC => special (PATTERNEX (if part DT_YEAR t >? 0 then AD else BC)) (-1)
  | AD2 | BC2 => special (PATTERNEX (if part DT_YEAR t >? 0 then AD2 else BC2)) (-1)
  | CC => printf (a ← abs (part DT_YEAR t); n ← int32 (a + 99); Ret (print_d 2 (Z.quot n 100)))
  | SCC => printf (a ← abs (part DT_YEAR t); n ← int32 (a + 99);
                   Ret ((if part DT_YEAR t >? 0 then 32 else 45) :: print_d 2 (Z.quot n 100)))
  | D => print (print_d 1 (Z.rem (part DT_WDAY t) 7 + 1))
  | DAY => s ← entry WDAY_NAMES (part DT_WDAY t); special s MAX_WDAY_NAME_LENGTH
  | DD => print (print_d 2 (part DT_MDAY t))
  | DDD => print (print_d 3 (part DT_YDAY t))
  | DY => s ← entry WDAY_ABBR_NAMES (part DT_WDAY t); special s (-1)
  | DS => print (print_d 2 (part DT_MON t) ++ 47 :: print_d 2 (part DT_MDAY t) ++ 47 :: print_d 1 (part DT_YEAR t))
  | DL => printf (w ← entry WDAY_NAMES (part DT_WDAY t); m ← entry MON_NAMES (part DT_MON t);
                  w ← print_name w; m ← print_name m;
                  Ret (w ++ str ", " ++ m ++ 32 :: print_d 2 (part DT_MDAY t) ++ str ", " ++ print_d 1 (part DT_YEAR t)))
  | FF => oracle (if scale =? 0 then Ret (0, mem, pos) else fraction scale)
  | FF1 | FF2 | FF3 | FF4 | FF5 | FF6 | FF7 | FF8 | FF9 => oracle (fraction (fraction_digits flag))
  | HH | HH12 =>
      let h := Z.rem (part DT_HOUR t) 12 in
      print (print_d 2 (if h =? 0 then 12 else h))
  | HH24 => print (print_d 2 (part DT_HOUR t))
  | IW => printf (w ← ob_time_to_week t DT_WEEK_GE_4_BEGIN; Ret (print_d 2 w))
  | J => if part DT_DATE t <? -62091 then Ret (1, mem, pos)
         else printf (n ← int32 (2378497 + part DT_DATE t); n ← int32 (n + 62091); Ret (print_d 7 n))
  | MI => print (print_d 2 (part DT_MIN t))
  | MM => print (print_d 2 (part DT_MON t))
  | MONTH => s ← entry MON_NAMES (part DT_MON t); special s MAX_MON_NAME_LENGTH
  | MON => s ← entry MON_ABBR_NAMES (part DT_MON t); special s (-1)
  | AM | PM => special (PATTERNEX (if part DT_HOUR t >=? 12 then PM else AM)) (-1)
  | AM2 | PM2 => special (PATTERNEX (if part DT_HOUR t >=? 12 then PM2 else AM2)) (-1)
  | Q => printf (n ← int32 (part DT_MON t + 2); Ret (print_d 1 (Z.quot n 3)))
  | RR => print (print_d 2 (Z.rem (part DT_YEAR t) 100))
  | RRRR => print (print_d 4 (part DT_YEAR t))
  | SS => print (print_d 2 (part DT_SEC t))
  | SSSSS => printf (h ← int32 (part DT_HOUR t * 3600); m ← int32 (part DT_MIN t * 60); n ← int32 (h + m);
                     n ← int32 (n + part DT_SEC t); Ret (print_d 5 n))
  | WW => printf (n ← int32 (part DT_YDAY t - 1); Ret (print_d 2 (Z.quot n 7 + 1)))
  | W => printf (n ← int32 (part DT_MDAY t - 1); Ret (print_d 1 (Z.quot n 7 + 1)))
  | YGYYY => printf (a ← abs (part DT_YEAR t); Ret (print_d 1 (Z.quot a 1000) ++ 44 :: print_d 3 (Z.rem a 1000)))
  | YEAR | SYEAR => Ret (1, mem, pos)
  | SYYYY => printf (a ← abs (part DT_YEAR t); Ret ((if part DT_YEAR t <? 0 then 45 else 32) :: print_d 4 a))
  | YYYY | IYYY => printf (a ← abs (part DT_YEAR t); Ret (print_d 4 a))
  | YYY | IYY => print (print_d 3 (Z.abs (Z.rem (part DT_YEAR t) 1000)))
  | YY | IY => print (print_d 2 (Z.abs (Z.rem (part DT_YEAR t) 100)))
  | Y | I => print (print_d 1 (Z.abs (Z.rem (part DT_YEAR t) 10)))
  | TZD => oracle (if negb (time_zone_id_ t =? -1) then
                     printf (n ← strlen (tzd_abbr_ t); print_s (tzd_abbr_ t) 0 (s32 n))
                   else Ret (0, mem, pos))
  | TZR => oracle (if negb (time_zone_id_ t =? -1) then
                     printf (n ← strlen (tz_name_ t); print_s (tz_name_ t) 0 (s32 n))
                   else
                     printf (a ← abs (part DT_OFFSET_MIN t);
                             Ret (symbol (part DT_OFFSET_MIN t <? 0) :: print_d 2 (Z.quot a 60) ++ 58 :: print_d 2 (Z.rem a 60))))
  | TZH => oracle (printf (a ← abs (part DT_OFFSET_MIN t);
                           Ret (symbol (part DT_OFFSET_MIN t <? 0) :: print_d 2 (Z.quot a 60))))
  | TZM => oracle (printf (a ← abs (part DT_OFFSET_MIN t); Ret (print_d 2 (Z.rem a 60))))
  | X => print [46]
  end.

(** Separators of the format, when there are any. *)
Definition print_separators (fmt : bytes) (last_elem_end_pos separate_chars_len : Z) (mem : bytes) (buf buf_len pos : Z)
    : cres (Z * bytes * Z) :=
  if separate_chars_len >? 0 then
    printf mem buf buf_len pos (print_s fmt last_elem_end_pos (s32 separate_chars_len))
  else Ret (0, mem, pos).

(** Returns (ret, mem, *pos, last_elem_end_pos). *)
Fixpoint print_loop (t : ObTime) (fmt : bytes) (scale : Z) (elems : list ObDFMElem) (ret : Z) (mem : bytes)
    (buf buf_len pos last_elem_end_pos : Z) : cres (Z * bytes * Z * Z) :=
  match elems with
  | [] => Ret (ret, mem, pos, last_elem_end_pos)
  | elem :: elems =>
      if nonzero ret then Ret (ret, mem, pos, last_elem_end_pos)
      else match elem_flag_ elem with
        | Some flag =>
            if offset_ elem <? 0 then Ret (1, mem, pos, last_elem_end_pos)
            else
              '(ret, mem, pos) ← print_separators fmt last_elem_end_pos (offset_ elem - last_elem_end_pos)
                                   mem buf buf_len pos;
              let last_elem_end_pos := offset_ elem + len_ (PATTERNEX flag) in
              '(ret, mem, pos) ← (if nonzero ret then Ret (ret, mem, pos)
                                  else print_elem t scale elem flag mem buf buf_len pos);
              print_loop t fmt scale elems ret mem buf buf_len pos last_elem_end_pos
        | None => Ret (1, mem, pos, last_elem_end_pos)
        end
  end.

Definition ob_time_to_str_oracle_dfm (t : ObTime) (fmt_str : ptr) (fmt_len scale : Z) (mem : bytes) (buf buf_len pos : Z)
    : cres (Z * bytes * Z) :=
  match fmt_str with
  | None => Ret (1, mem, pos)
  | Some fmt =>
      if (buf_len <=? 0) || (fmt_len <=? 0) || (scale >? MAX_SCALE_FOR_ORACLE_TEMPORAL) then Ret (1, mem, pos)
      else
        let scale := if scale <? 0 then DEFAULT_SCALE_FOR_ORACLE_FRACTIONAL_SECONDS else scale in
        '(ret, dfm_elems) ← parse_datetime_format_string fmt_str fmt_len;
        '(ret, mem, pos, last_elem_end_pos) ← print_loop t fmt scale dfm_elems ret mem buf buf_len pos 0;
        if nonzero ret then Ret (ret, mem, pos)
        else print_separators fmt last_elem_end_pos (fmt_len - last_elem_end_pos) mem buf buf_len pos
  end.

End OracleFormat.
