(* ===== verification/OracleText.v ===== *)
(** What the printer of OracleFormat.v prints: a format string is cut into separators and
    elements ([pieces]), and its text is that of the pieces ([elem_text] is the reference
    for one element), with exactly the length that was calculated before.  Weeks are those
    of ISO 8601. *)

From stdpp Require Import tactics.
From S2P Require Import Prelude IntStore Uuid TraceText NumText LenEnc StmtTime TimeText OracleFormat.
Import Uuid NumText StmtTime TimeText OracleFormat.

Module OracleText.

(** * Reference *)

Definition cased (mode : UpperCaseMode) (s : bytes) : bytes :=
  match mode with
  | ALL_CHARACTER => map toupper s
  | NON_CHARACTER => map tolower s
  | ONLY_FIRST_CHARACTER => map toupper (take 1 s) ++ map tolower (drop 1 s)
  end.

Definition padded (n : nat) (s : bytes) : bytes := s ++ repeat 32 (n - length s).

Definition name (l : list ObTimeConstStr) (i : Z) : bytes :=
  match l !! Z.to_nat i with Some (ConstStr (Some s) _) => s | _ => [] end.

(** The bytes in front of the NUL. *)
Fixpoint until_nul (m : bytes) : bytes :=
  match m with [] => [] | c :: m => if c =? 0 then [] else c :: until_nul m end.

(** The week of ISO 8601: the week that has the Thursday of the same week. *)
Definition iso_week (leap prev_leap : bool) (yday wday : Z) : Z :=
  let days := if leap then 366 else 365 in
  let thursday := yday + 4 - wday in
  let thursday := if thursday <? 1 then thursday + (if prev_leap then 366 else 365)
                  else if days <? thursday then thursday - days else thursday in
  (thursday - 1) / 7 + 1.

Definition leap_year (y : Z) : bool := ((y mod 4 =? 0) && negb (y mod 100 =? 0)) || (y mod 400 =? 0).

Definition sign_char (z : Z) : Z := if z <? 0 then 45 else 43.

Definition elem_text (t : ObTime) (scale : Z) (mode : UpperCaseMode) (flag : ElementFlag) : bytes :=
  let fraction k := fixed (Z.to_nat k) (part DT_USEC t / 10 ^ (9 - k)) in
  match flag with
  | AD | BC => cased mode (if 0 <? part DT_YEAR t then str "AD" else str "BC")
  | AD2 | BC2 => cased mode (if 0 <? part DT_YEAR t then str "A.D." else str "B.C.")
  | CC => fixed 2 ((part DT_YEAR t + 99) / 100)
  | D => fixed 1 (part DT_WDAY t mod 7 + 1)
  | DAY => padded 9 (cased mode (name WDAY_NAMES (part DT_WDAY t)))
  | DD => fixed 2 (part DT_MDAY t)
  | DDD => fixed 3 (part DT_YDAY t)
  | DY => cased mode (name WDAY_ABBR_NAMES (part DT_WDAY t))
  | FF => fraction scale
  | FF1 | FF2 | FF3 | FF4 | FF5 | FF6 | FF7 | FF8 | FF9 => fraction (fraction_digits flag)
  | HH | HH12 => fixed 2 (if part DT_HOUR t mod 12 =? 0 then 12 else part DT_HOUR t mod 12)
  | HH24 => fixed 2 (part DT_HOUR t)
  | IW => fixed 2 (iso_week (leap_year (part DT_YEAR t)) (leap_year (part DT_YEAR t - 1)) (part DT_YDAY t) (part DT_WDAY t))
  | MI => fixed 2 (part DT_MIN t)
  | MM => fixed 2 (part DT_MON t)
  | MONTH => padded 9 (cased mode (name MON_NAMES (part DT_MON t)))
  | MON => cased mode (name MON_ABBR_NAMES (part DT_MON t))
  | AM | PM => cased mode (if 12 <=? part DT_HOUR t then str "PM" else str "AM")
  | AM2 | PM2 => cased mode (if 12 <=? part DT_HOUR t then str "P.M." else str "A.M.")
  | Q => fixed 1 ((part DT_MON t + 2) / 3)
  | SS => fixed 2 (part DT_SEC t)
  | SSSSS => fixed 5 (part DT_HOUR t * 3600 + part DT_MIN t * 60 + part DT_SEC t)
  | WW => fixed 2 ((part DT_YDAY t - 1) / 7 + 1)
  | W => fixed 1 ((part DT_MDAY t - 1) / 7 + 1)
  | YGYYY => fixed 1 (part DT_YEAR t / 1000) ++ 44 :: fixed 3 (part DT_YEAR t)
  | SYYYY => 32 :: fixed 4 (part DT_YEAR t)
  | YYYY | IYYY | RRRR => fixed 4 (part DT_YEAR t)
  | YYY | IYY => fixed 3 (part DT_YEAR t)
  | YY | IY | RR => fixed 2 (part DT_YEAR t)
  | Y | I => fixed 1 (part DT_YEAR t)
  | TZD => if time_zone_id_ t =? -1 then [] else until_nul (tzd_abbr_ t)
  | TZR => if time_zone_id_ t =? -1
           then sign_char (part DT_OFFSET_MIN t) :: fixed 2 (Z.abs (part DT_OFFSET_MIN t) / 60) ++ 58 :: fixed 2 (Z.abs (part DT_OFFSET_MIN t) mod 60)
           else until_nul (tz_name_ t)
  | TZH => sign_char (part DT_OFFSET_MIN t) :: fixed 2 (Z.abs (part DT_OFFSET_MIN t) / 60)
  | TZM => fixed 2 (Z.abs (part DT_OFFSET_MIN t) mod 60)
  | X => [46]
  | SCC | DS | DL | YEAR | SYEAR | J => []
  end.

Definition c_string (m : bytes) : Prop := Exists (fun c => c = 0) m /\ all_bytes m /\ Z.of_nat (length m) < 2 ^ 31.

(** The parts that an element needs are in range. *)
Definition elem_ok (t : ObTime) (flag : ElementFlag) : Prop :=
  let oracle := HAS_TYPE_ORACLE (mode_ t) = true in
  let year := 1 <= part DT_YEAR t <= 9999 in
  let offset := - 960 < part DT_OFFSET_MIN t < 960 in
  match flag with
  | AD | BC | AD2 | BC2 | AM | PM | AM2 | PM2 | X => True
  | CC => 1 <= part DT_YEAR t <= 9900
  | D | DAY | DY => 1 <= part DT_WDAY t <= 7
  | DD | W => 1 <= part DT_MDAY t <= 31
  | DDD | WW => 1 <= part DT_YDAY t <= 366
  | FF | FF1 | FF2 | FF3 | FF4 | FF5 | FF6 | FF7 | FF8 | FF9 => oracle /\ 0 <= part DT_USEC t <= 999999999
  | HH | HH12 | HH24 => 0 <= part DT_HOUR t <= 23
  | IW => year /\ 1 <= part DT_WDAY t <= 7 /\ 1 <= part DT_YDAY t <= (if leap_year (part DT_YEAR t) then 366 else 365)
  | MI => 0 <= part DT_MIN t <= 59
  | MM | MONTH | MON | Q => 1 <= part DT_MON t <= 12
  | SS => 0 <= part DT_SEC t <= 59
  | SSSSS => 0 <= part DT_HOUR t <= 23 /\ 0 <= part DT_MIN t <= 59 /\ 0 <= part DT_SEC t <= 59
  | YGYYY | SYYYY | YYYY | IYYY | RRRR | YYY | IYY | YY | IY | RR | Y | I => year
  | TZD => oracle /\ c_string (tzd_abbr_ t)
  | TZR => oracle /\ c_string (tz_name_ t) /\ offset
  | TZH | TZM => oracle /\ offset
  | SCC | DS | DL | YEAR | SYEAR | J => False
  end.

(** * Text in a buffer *)

(** [r] is the state after [t] was written behind [pos]. *)
Definition puts (mem : bytes) (buf buf_len pos : Z) (t : bytes) (r : cres (Z * bytes * Z)) : Prop :=
  exists mem', r = Ret (0, mem', pos + Z.of_nat (length t)) /\ length mem' = length mem
    /\ text_at mem' (buf + pos) t
    /\ forall i k, i + Z.of_nat k <= buf + pos \/ buf + buf_len <= i -> load_bytes mem' i k = load_bytes mem i k.

(** There is a buffer, and [n] bytes and a NUL fit behind [pos]. *)
Definition fits_in (mem : bytes) (buf buf_len pos : Z) (n : nat) : Prop :=
  0 <= buf /\ 0 <= pos /\ pos + Z.of_nat n < buf_len < 2 ^ 31 /\ buf + buf_len <= Z.of_nat (length mem).

Lemma puts_splice mem buf buf_len pos t :
  fits_in mem buf buf_len pos (length t) -> puts mem buf buf_len pos t (Ret (0, splice (buf + pos) t mem, pos + Z.of_nat (length t))).
Proof.
  intros (Hb & Hp & Hl & Hm). assert (room mem (buf + pos) (length t)) by (unfold room; lia).
  eexists. split_and!; [done|by apply length_splice|by apply load_bytes_splice|].
  intros i k Hik. apply load_bytes_splice_out; [done|]. lia.
Qed.

Lemma puts_nil mem buf buf_len pos : puts mem buf buf_len pos [] (Ret (0, mem, pos)).
Proof. exists mem. split_and!; [|done|done|done]. do 2 f_equal. simpl. lia. Qed.

(** Printing in two steps. *)
Lemma puts_app mem buf buf_len pos t1 t2 r (k : Z * bytes * Z -> cres (Z * bytes * Z)) :
  fits_in mem buf buf_len pos (length (t1 ++ t2)) ->
  puts mem buf buf_len pos t1 r ->
  (forall mem', fits_in mem' buf buf_len (pos + Z.of_nat (length t1)) (length t2) ->
    puts mem' buf buf_len (pos + Z.of_nat (length t1)) t2 (k (0, mem', pos + Z.of_nat (length t1)))) ->
  puts mem buf buf_len pos (t1 ++ t2) (r ≫= k).
Proof.
  intros (Hb & Hp & Hl & Hm) (m1 & -> & Hl1 & Ht1 & Ho1) H2. rewrite length_app in *. rewrite bind_ret.
  destruct (H2 m1) as (m2 & -> & Hl2 & Ht2 & Ho2); [unfold fits_in; lia|].
  exists m2. split_and!; [do 2 f_equal; rewrite ?length_app; lia|lia| |].
  - apply text_at_app. split; [|by rewrite <- Z.add_assoc].
    unfold text_at. rewrite Ho2 by lia. done.
  - intros i n Hi. rewrite Ho2 by lia. apply Ho1. lia.
Qed.

Lemma printf_puts mem buf buf_len pos t :
  all_bytes t -> fits_in mem buf buf_len pos (length t) -> puts mem buf buf_len pos t (databuff_printf mem buf buf_len pos t).
Proof.
  intros Hby Hf. pose proof Hf as (Hb & Hp & Hl & Hm). unfold databuff_printf.
  rewrite (proj2 (Z.leb_le 0 pos)), (proj2 (Z.ltb_lt pos buf_len)) by lia. cbn [andb].
  unfold TraceText.TraceText.snprintf. rewrite (proj2 (Z.eqb_neq _ _)), take_ge by lia.
  assert (room mem (buf + pos) (length (t ++ [0]))) by (unfold room; rewrite length_app; simpl; lia).
  rewrite store_bytes_splice, map_u8_bytes by (done || (apply Forall_app; split; [done|]; apply Forall_singleton; unfold is_byte, uint; lia)).
  rewrite !bind_ret. rewrite swrap_small by (lia || (unfold sint; lia)).
  rewrite (proj2 (Z.ltb_ge _ 0)), (proj2 (Z.ltb_lt _ (buf_len - pos))) by lia.
  exists (splice (buf + pos) (t ++ [0]) mem). split_and!; [done|by apply length_splice| |].
  - assert (text_at (splice (buf + pos) (t ++ [0]) mem) (buf + pos) (t ++ [0])) as Ht by (by apply load_bytes_splice).
    by apply text_at_app in Ht as [? _].
  - intros i k Hik. apply load_bytes_splice_out; [done|]. rewrite length_app. simpl. lia.
Qed.

Lemma repeat_bytes c n : is_byte c -> all_bytes (repeat c n).
Proof. intros Hc. induction n; simpl; by constructor. Qed.

Lemma set_case_bytes mode i c : is_byte c -> is_byte (set_case mode i c).
Proof. unfold is_byte, uint, set_case, toupper, tolower. intros Hc. repeat case_match; simpl in *; lia. Qed.

(** The letters of a name from index [i] on. *)
Lemma special_chars_writes mode cs : forall mem buf pos i,
  all_bytes cs -> room mem (buf + pos) (length cs) ->
  special_chars mem buf pos mode i cs
  = Ret (splice (buf + pos) (imap (fun k c => set_case mode (i + Z.of_nat k) c) cs) mem, pos + Z.of_nat (length cs)).
Proof.
  induction cs as [|c cs IH]; intros mem buf pos i Hb Hr; cbn [special_chars imap].
  { rewrite splice_nil. do 2 f_equal. simpl. lia. }
  apply Forall_cons in Hb as [Hc Hb]. simpl in Hr.
  rewrite store_splice1, bind_ret by (done || (apply set_case_bytes; done) || (unfold room in *; lia)).
  rewrite IH by (done || (unfold room in *; rewrite length_splice by (unfold room; simpl; lia); lia)).
  do 2 f_equal; [|simpl; lia]. rewrite Z.add_0_r.
  replace (imap (fun k c => set_case mode (i + 1 + Z.of_nat k) c) cs)
    with (imap ((fun k c => set_case mode (i + Z.of_nat k) c) ∘ S) cs)
    by (apply imap_ext; intros; simpl; f_equal; lia).
  replace (buf + (pos + 1)) with (buf + pos + Z.of_nat 1) by lia.
  apply (splice_app (buf + pos) [_]). unfold room in *. simpl. rewrite length_imap. lia.
Qed.

Lemma set_case_all c : set_case ALL_CHARACTER 0 c = toupper c.
Proof. unfold set_case, toupper. repeat case_match; simpl in *; try done; lia. Qed.

Lemma set_case_none i c : set_case NON_CHARACTER i c = tolower c.
Proof. unfold set_case, tolower. repeat case_match; simpl in *; try done; lia. Qed.

Lemma imap_map (f : nat -> Z -> Z) (g : Z -> Z) s : (forall k c, f k c = g c) -> imap f s = map g s.
Proof. revert f. induction s as [|c s IH]; intros f Hf; simpl; [done|]. rewrite Hf, IH; [done|]. intros k d. apply Hf. Qed.

Lemma imap_cased mode s : imap (fun k c => set_case mode (0 + Z.of_nat k) c) s = cased mode s.
Proof.
  destruct mode; unfold cased.
  - apply imap_map. intros. apply set_case_none.
  - destruct s as [|c s]; [done|]. cbn [imap take drop map app]. f_equal; [apply (set_case_all c)|].
    apply imap_map. intros k d. rewrite <- (set_case_none (0 + Z.of_nat (S k)) d). unfold set_case.
    destruct (Z.eqb_spec (0 + Z.of_nat (S k)) 0); [lia|done].
  - apply imap_map. intros k c. apply (set_case_all c).
Qed.

Lemma length_cased mode s : length (cased mode s) = length s.
Proof. destruct mode; unfold cased; rewrite ?length_app, ?length_map, ?length_take, ?length_drop; lia. Qed.

(** A name of a table, padded or not. *)
Lemma special_puts mem buf buf_len pos s mode padding :
  all_bytes s -> s <> [] -> (padding = -1 \/ Z.of_nat (length s) <= padding) ->
  fits_in mem buf buf_len pos (Nat.max (length s) (Z.to_nat padding)) ->
  puts mem buf buf_len pos (cased mode s ++ repeat 32 (Z.to_nat (padding - Z.of_nat (length s))))
    (special_mode_sprintf mem buf buf_len pos (ConstStr (Some s) (Z.of_nat (length s))) mode padding).
Proof.
  intros Hs Hne Hpad (Hb & Hp & Hl & Hm). unfold special_mode_sprintf. cbn [ptr_ len_].
  assert (0 < length s)%nat by (destruct s; simpl; [done|lia]).
  rewrite (proj2 (Z.leb_gt _ 0)) by lia.
  assert ((padding >? 0) && (padding <? Z.of_nat (length s)) = false) as ->.
  { destruct (Z.gtb_spec padding 0), (Z.ltb_spec padding (Z.of_nat (length s))); simpl; try done; lia. }
  cbn [orb].
  assert ((pos + (if padding >? 0 then padding else Z.of_nat (length s)) >=? buf_len) = false) as ->.
  { rewrite Z.geb_leb. apply Z.leb_gt. destruct (Z.gtb_spec padding 0); lia. }
  rewrite Nat2Z.id. rewrite (load_bytes_in s 0 (length s)) by (unfold room; lia).
  rewrite bind_ret. change (Z.to_nat 0) with 0%nat. rewrite drop_0, take_ge by lia.
  rewrite special_chars_writes, imap_cased by (done || (unfold room; lia)). rewrite bind_ret.
  set (sp := repeat 32 (Z.to_nat (padding - Z.of_nat (length s)))).
  assert (room (splice (buf + pos) (cased mode s) mem) (buf + (pos + Z.of_nat (length s))) (length sp)).
  { unfold room, sp. rewrite length_splice by (unfold room; rewrite length_cased; lia). rewrite repeat_length. lia. }
  rewrite store_bytes_splice, map_u8_bytes by (done || (apply repeat_bytes; unfold is_byte, uint; lia)).
  rewrite bind_ret. replace (buf + (pos + Z.of_nat (length s))) with (buf + pos + Z.of_nat (length (cased mode s))) by (rewrite length_cased; lia).
  rewrite splice_app by (unfold room, sp; rewrite length_app, length_cased, repeat_length; lia).
  replace (pos + Z.of_nat (length s) + Z.max 0 (padding - Z.of_nat (length s)))
    with (pos + Z.of_nat (length (cased mode s ++ sp))) by (unfold sp; rewrite length_app, length_cased, repeat_length; lia).
  apply puts_splice. unfold fits_in, sp. rewrite length_app, length_cased, repeat_length. lia.
Qed.

(** * Digits of the fraction *)

Lemma digits_pair v : 0 <= v < 100 -> [DIGITS (2 * v); DIGITS (2 * v + 1)] = fixed 2 v.
Proof.
  intros Hv. unfold DIGITS. rewrite Z.even_add, Z.even_mul. cbn [Z.even orb Bool.eqb fixed app].
  replace (2 * v / 2) with v by dlia. replace ((2 * v + 1) / 2) with v by dlia.
  rewrite (Z.mod_small (v / 10)) by dlia. done.
Qed.

Lemma fixed_mod k v : fixed k (v mod 10 ^ Z.of_nat k) = fixed k v.
Proof.
  revert v. induction k as [|k IH]; intros v; [done|]. cbn [fixed].
  rewrite Nat2Z.inj_succ, Z.pow_succ_r, Z.rem_mul_r by lia. f_equal.
  - rewrite Z.mul_comm, Z.div_add, Z.div_small by (lia || (apply Z.mod_pos_bound; lia)). by rewrite Z.add_0_l.
  - do 2 f_equal. rewrite Z.mul_comm, Z.mod_add, Z.mod_mod by lia. done.
Qed.

Lemma fixed_bytes k v : all_bytes (fixed k v).
Proof. eapply Forall_impl; [apply fixed_digit|]. unfold digit, is_byte, uint. lia. Qed.

Lemma fixed_zero k : fixed k 0 = repeat 48 k.
Proof. induction k; cbn [fixed]; [done|]. rewrite Zdiv_0_l, IHk. by rewrite <- repeat_cons. Qed.

(** Writes the digits of a number in front of [p]. *)
Definition format_from (fuel : nat) (b : bytes) (p value : Z) : cres (bytes * Z) :=
  '(b, p, value) ← format_loop fuel b p value;
  if value <? 10 then b ← store b (p - 1) (48 + value); Ret (b, p - 1)
  else
    let index := 2 * value in
    b ← store b (p - 1) (DIGITS (index + 1));
    b ← store b (p - 2) (DIGITS index);
    Ret (b, p - 2).

Lemma store_pair b p v : 0 <= v < 100 -> room b (p - 2) 2 ->
  (b ← store b (p - 1) (DIGITS (2 * v + 1)); store b (p - 2) (DIGITS (2 * v))) = Ret (splice (p - 2) (fixed 2 v) b).
Proof.
  intros Hv Hr. pose proof (fixed_bytes 2 v) as Hb. rewrite <- digits_pair in Hb |- * by done.
  apply Forall_cons in Hb as [H1 Hb]. apply Forall_cons in Hb as [H2 _].
  rewrite store_splice1, bind_ret by (done || (unfold room in *; lia)).
  rewrite store_splice1 by (done || (unfold room in *; rewrite length_splice by (unfold room in *; simpl; lia); lia)).
  f_equal. replace (p - 1) with (p - 2 + Z.of_nat 1) by lia. by apply (splice_app_before (p - 2) [_] [_]).
Qed.

Lemma format_digits fuel : forall b p v,
  0 <= v < 100 ^ Z.of_nat (S fuel) -> room b (p - 2 * Z.of_nat (S fuel)) (2 * S fuel) ->
  exists n, (0 < n)%nat /\ (n <= 2 * S fuel)%nat /\ v < 10 ^ Z.of_nat n /\ (n = 1%nat \/ 10 ^ Z.of_nat (n - 1) <= v)
    /\ format_from fuel b p v = Ret (splice (p - Z.of_nat n) (fixed n v) b, p - Z.of_nat n).
Proof.
  induction fuel as [|fuel IH]; intros b p v Hv Hr; unfold format_from; cbn [format_loop];
    destruct (Z.ltb_spec v 100) as [Hs|Hs].
  1,3: rewrite bind_ret; destruct (Z.ltb_spec v 10);
    [exists 1%nat; split_and!; try (simpl; lia);
     rewrite store_splice1, bind_ret by (unfold is_byte, uint, room in *; lia);
     do 3 f_equal; cbn [fixed app]; by rewrite Z.mod_small by lia
    |exists 2%nat; split_and!; try (simpl; lia);
     rewrite <- bind_assoc, store_pair, bind_ret by (unfold room in *; lia); done].
  - change (100 ^ Z.of_nat 1) with 100 in Hv. lia.
  - rewrite !Nat2Z.inj_succ, !Z.pow_succ_r in Hv by lia.
    rewrite <- (bind_assoc (store b _ _)), store_pair, bind_ret by (unfold room in *; pose proof (Z.mod_pos_bound v 100); lia).
    assert (room b (p - 2) 2) by (unfold room in *; lia).
    destruct (IH (splice (p - 2) (fixed 2 (v mod 100)) b) (p - 2) (v / 100)) as (n & Hn0 & Hn & Hlt & Hmin & E).
    { rewrite Nat2Z.inj_succ, Z.pow_succ_r by lia. split; [apply Z.div_pos; lia|]. apply Z.div_lt_upper_bound; lia. }
    { unfold room in *. rewrite length_splice by done. lia. }
    exists (n + 2)%nat. unfold format_from in E. rewrite E.
    assert (10 ^ Z.of_nat (n + 2) = 100 * 10 ^ Z.of_nat n) as E10.
    { rewrite Nat2Z.inj_add, Z.pow_add_r by lia. change (10 ^ Z.of_nat 2) with 100. lia. }
    split_and!; [lia|lia|rewrite E10; dlia| |].
    + right. destruct Hmin as [->|Hmin]; [change (10 ^ Z.of_nat (1 + 2 - 1)) with 100; lia|].
      replace (Z.of_nat (n + 2 - 1)) with (Z.of_nat (n - 1) + 2) by lia. rewrite Z.pow_add_r by lia. change (10 ^ 2) with 100. dlia.
    + do 2 f_equal; [|lia]. rewrite (fixed_app n 2). change (10 ^ Z.of_nat 2) with 100.
      replace (p - Z.of_nat (n + 2)) with (p - 2 - Z.of_nat n) by lia.
      rewrite <- (fixed_mod 2 v). change (10 ^ Z.of_nat 2) with 100.
      rewrite <- splice_app_before by (unfold room in *; rewrite length_app, !length_fixed; lia).
      rewrite length_fixed. do 2 f_equal. lia.
Qed.

(** A number of up to [n] digits is printed with [n] digits. *)
Lemma fmt_nd_puts mem buf buf_len pos n v :
  0 < n <= 9 -> 0 <= v < 10 ^ n -> fits_in mem buf buf_len pos (Z.to_nat n) ->
  puts mem buf buf_len pos (fixed (Z.to_nat n) v) (data_fmt_nd mem buf buf_len pos n v).
Proof.
  intros Hn Hv (Hb & Hp & Hl & Hm). assert (10 ^ n <= 10 ^ 9) by (apply Z.pow_le_mono_r; lia). change (10 ^ 9) with 1000000000 in *.
  unfold data_fmt_nd. rewrite (proj2 (Z.leb_gt _ _)), (proj2 (Z.ltb_ge _ _)) by lia.
  rewrite !Z.gtb_ltb, (proj2 (Z.ltb_ge _ v)), (proj2 (Z.ltb_ge _ n)) by lia. cbn [orb].
  unfold format_signed. rewrite (proj2 (Z.ltb_ge v 0)) by lia.
  set (b0 := repeat 0 (Z.to_nat MAX_DIGITS10_STR_SIZE)). unfold format_unsigned. fold (format_from 10 b0 (MAX_DIGITS10_STR_SIZE - 1) v).
  destruct (format_digits 10 b0 (MAX_DIGITS10_STR_SIZE - 1) v) as (k & Hk0 & Hk & Hlt & Hmin & ->).
  { change (100 ^ Z.of_nat 11) with 10000000000000000000000. lia. }
  { unfold b0, room, MAX_DIGITS10_STR_SIZE. rewrite repeat_length. lia. }
  rewrite !bind_ret. unfold MAX_DIGITS10_STR_SIZE in *. replace (23 - 1 - (23 - 1 - Z.of_nat k)) with (Z.of_nat k) by lia.
  assert (k <= Z.to_nat n)%nat as Hkn.
  { destruct Hmin as [->|Hmin]; [lia|]. destruct (decide (k <= Z.to_nat n)%nat) as [|Hgt]; [done|].
    assert (10 ^ n <= 10 ^ Z.of_nat (k - 1)) by (apply Z.pow_le_mono_r; lia). lia. }
  rewrite Z.gtb_ltb, (proj2 (Z.ltb_ge n _)) by lia.
  assert (load_bytes (splice (23 - 1 - Z.of_nat k) (fixed k v) b0) (23 - 1 - Z.of_nat k) k = Ret (fixed k v)) as Hd.
  { rewrite <- (length_fixed k v) at 4. apply load_bytes_splice. unfold room, b0. rewrite length_fixed, repeat_length. lia. }
  assert (fixed (Z.to_nat n) v = repeat 48 (Z.to_nat (n - Z.of_nat k)) ++ fixed k v) as Ef.
  { replace (Z.to_nat n) with (Z.to_nat (n - Z.of_nat k) + k)%nat by lia. rewrite fixed_app, Z.div_small, fixed_zero by lia. done. }
  set (zeros := repeat 48 (Z.to_nat (n - Z.of_nat k))) in *.
  assert (length zeros = Z.to_nat (n - Z.of_nat k)) as Hz by apply repeat_length.
  assert (room mem (buf + pos) (length (zeros ++ fixed k v))) as Hr by (unfold room; rewrite length_app, length_fixed; lia).
  rewrite store_bytes_splice, map_u8_bytes by (apply repeat_bytes; unfold is_byte, uint; lia) || (unfold room in *; rewrite length_app in *; lia).
  rewrite bind_ret, Nat2Z.id, Hd, bind_ret.
  rewrite store_bytes_splice, map_u8_bytes by (apply fixed_bytes) || (unfold room in *; rewrite length_splice by (unfold room; lia); rewrite length_fixed; lia).
  rewrite bind_ret. replace (buf + pos + n - Z.of_nat k) with (buf + pos + Z.of_nat (length zeros)) by lia.
  rewrite splice_app, Ef by done.
  replace (pos + n) with (pos + Z.of_nat (length (zeros ++ fixed k v))) by (rewrite length_app, length_fixed; lia).
  apply puts_splice. unfold fits_in. rewrite length_app, length_fixed. lia.
Qed.

(** * Weeks *)

Lemma leap_year_ok y : 0 <= y -> IS_LEAP_YEAR y = if leap_year y then 1 else 0.
Proof.
  intros Hy. unfold IS_LEAP_YEAR, leap_year. rewrite !Z.rem_mod_nonneg by lia.
  destruct (Z.eqb_spec (y mod 4) 0), (Z.eqb_spec (y mod 100) 0), (Z.eqb_spec (y mod 400) 0); simpl; try done; dlia.
Qed.

(** The week as a function of what it depends on. *)
Definition week_of (leap prev_leap : bool) (yday wday : Z) : cres Z :=
  ob_time_to_week (Time 0 [if leap then 2000 else if prev_leap then 2001 else 2002; 0; 0; 0; 0; 0; 0; 0; yday; wday; 0] [] [] 0 0)
    DT_WEEK_GE_4_BEGIN.

#[export] Instance cres_eq_dec {A} `{EqDecision A} : EqDecision (cres A).
Proof. solve_decision. Defined.

Definition weeks_agree (leap prev_leap : bool) : bool :=
  forallb (fun yday => forallb (fun wday =>
    bool_decide (week_of leap prev_leap yday wday = Ret (iso_week leap prev_leap yday wday))) (seqZ 1 7))
    (seqZ 1 (if leap then 366 else 365)).

Lemma weeks_agree_all leap prev_leap : leap && prev_leap = false -> weeks_agree leap prev_leap = true.
Proof. destruct leap, prev_leap; [done|..]; intros _; vm_compute; done. Qed.

Lemma week_depends t y yday wday :
  part DT_YDAY t = yday -> part DT_WDAY t = wday ->
  IS_LEAP_YEAR (part DT_YEAR t) = IS_LEAP_YEAR y -> IS_LEAP_YEAR (part DT_YEAR t - 1) = IS_LEAP_YEAR (y - 1) ->
  ob_time_to_week t DT_WEEK_GE_4_BEGIN
  = ob_time_to_week (Time 0 [y; 0; 0; 0; 0; 0; 0; 0; yday; wday; 0] [] [] 0 0) DT_WEEK_GE_4_BEGIN.
Proof.
  intros Hy Hw Hl Hp. unfold ob_time_to_week. rewrite Hy, Hw, Hl, Hp. reflexivity.
Qed.

Lemma consecutive_leap y : leap_year y && leap_year (y - 1) = false.
Proof.
  unfold leap_year.
  destruct (Z.eqb_spec (y mod 4) 0), (Z.eqb_spec ((y - 1) mod 4) 0); simpl; try dlia;
    destruct (Z.eqb_spec (y mod 400) 0), (Z.eqb_spec ((y - 1) mod 400) 0); rewrite ?andb_false_r; simpl; try done; dlia.
Qed.

Lemma week_iso t : elem_ok t IW ->
  ob_time_to_week t DT_WEEK_GE_4_BEGIN
  = Ret (iso_week (leap_year (part DT_YEAR t)) (leap_year (part DT_YEAR t - 1)) (part DT_YDAY t) (part DT_WDAY t)).
Proof.
  intros (Hy & Hw & Hd).
  pose proof (weeks_agree_all _ _ (consecutive_leap (part DT_YEAR t))) as Hall.
  unfold weeks_agree in Hall. rewrite forallb_forall in Hall.
  assert (In (part DT_YDAY t) (seqZ 1 (if leap_year (part DT_YEAR t) then 366 else 365))) as Hin.
  { apply list_elem_of_In, elem_of_seqZ. destruct (leap_year (part DT_YEAR t)); lia. }
  specialize (Hall _ Hin). rewrite forallb_forall in Hall.
  specialize (Hall (part DT_WDAY t) ltac:(apply list_elem_of_In, elem_of_seqZ; lia)). apply bool_decide_eq_true in Hall.
  rewrite <- Hall. unfold week_of. apply week_depends; [done|done|..].
  - rewrite leap_year_ok by lia. destruct (leap_year (part DT_YEAR t)), (leap_year (part DT_YEAR t - 1)); done.
  - rewrite leap_year_ok by lia. pose proof (consecutive_leap (part DT_YEAR t)).
    destruct (leap_year (part DT_YEAR t)), (leap_year (part DT_YEAR t - 1)); done.
Qed.

Lemma iso_week_bound (leap prev : bool) yday wday :
  1 <= wday <= 7 -> 1 <= yday <= (if leap then 366 else 365) -> 1 <= iso_week leap prev yday wday <= 53.
Proof.
  intros Hw Hy. unfold iso_week.
  destruct (Z.ltb_spec (yday + 4 - wday) 1), leap, prev; try dlia;
    destruct (Z.ltb_spec 366 (yday + 4 - wday)), (Z.ltb_spec 365 (yday + 4 - wday)); dlia.
Qed.

(** * One element *)

(** Every name of a table has the length that is written beside it, at most [k]. *)
Definition table_ok (k : nat) (l : list ObTimeConstStr) : bool :=
  forallb (fun s => match s with
    | ConstStr (Some s) n => (Z.of_nat (length s) =? n) && (0 <? length s)%nat && (length s <=? k)%nat
        && forallb (fun c => (0 <? c) && (c <? 256)) s
    | _ => false
    end) l.

Definition is_name (k : nat) (s : ObTimeConstStr) (t : bytes) : Prop :=
  s = ConstStr (Some t) (Z.of_nat (length t)) /\ all_bytes t /\ (0 < length t <= k)%nat.

Lemma table_ok_name k s : table_ok k [s] = true -> exists t, is_name k s t.
Proof.
  destruct s as [[s|] n]; simpl; [|done]. rewrite andb_true_r, !andb_true_iff. intros [[[Hn H0] Hk] Hb].
  apply Z.eqb_eq in Hn. apply Nat.ltb_lt in H0. apply Nat.leb_le in Hk. rewrite forallb_forall in Hb.
  exists s. split_and!; [by rewrite Hn| |lia|lia]. apply Forall_forall. intros c Hc%list_elem_of_In%Hb.
  apply andb_true_iff in Hc as [?%Z.ltb_lt ?%Z.ltb_lt]. unfold is_byte, uint. lia.
Qed.

Lemma entry_name k l i : table_ok k l = true -> 0 <= i < Z.of_nat (length l) ->
  exists s, entry l i = Ret s /\ is_name k s (name l i).
Proof.
  intros Hok Hi. unfold entry, name. rewrite (proj2 (Z.ltb_ge _ _)) by lia.
  destruct (l !! Z.to_nat i) as [s|] eqn:E; [|apply lookup_ge_None in E; lia].
  exists s. split; [done|]. unfold table_ok in Hok. rewrite forallb_forall in Hok.
  destruct (table_ok_name k s) as (t & -> & Ht & Hl); [|done].
  unfold table_ok. simpl. rewrite andb_true_r. apply Hok, list_elem_of_In. by eapply list_elem_of_lookup_2.
Qed.

Lemma print_d_fixed w v : (0 < w)%nat -> 0 <= v < 10 ^ Z.of_nat w -> print_d w v = fixed w v.
Proof. intros Hw Hv. unfold print_d. rewrite (proj2 (Z.ltb_ge v 0)) by lia. apply print_u_fixed; [done|lia]. Qed.

Lemma int32_ok z : - 2 ^ 31 <= z < 2 ^ 31 -> int32 z = Ret z.
Proof. intros Hz. unfold int32. by rewrite (proj2 (Z.leb_le _ _)), (proj2 (Z.ltb_lt _ _)) by lia. Qed.

Lemma load_prefix_text m p s : text_at m p s -> Forall (fun c => c <> 0) s -> load_prefix m p (length s) = Ret s.
Proof.
  intros Ht Hs. revert p Ht. induction Hs as [|c s Hc _ IH]; intros p Ht; [done|].
  apply text_at_cons in Ht as [Hl Ht]. cbn [length load_prefix]. rewrite Hl, bind_ret.
  rewrite (proj2 (Z.eqb_neq c 0)) by done. by rewrite IH, bind_ret.
Qed.

Lemma until_nul_nonzero m : Forall (fun c => c <> 0) (until_nul m).
Proof. induction m as [|c m IH]; cbn [until_nul]; [by constructor|]. destruct (Z.eqb_spec c 0); by constructor. Qed.

Lemma until_nul_prefix m : exists rest, m = until_nul m ++ rest.
Proof.
  induction m as [|c m [rest IH]]; cbn [until_nul]; [by exists []|].
  destruct (c =? 0); [by exists (c :: m)|]. exists rest. simpl. by rewrite <- IH.
Qed.

Lemma strlen_until_nul m : c_string m -> strlen m = Ret (Z.of_nat (length (until_nul m))).
Proof.
  intros [He _]. induction He as [c m Hc|c m _ IH]; cbn [strlen until_nul]; [by rewrite (proj2 (Z.eqb_eq c 0))|].
  destruct (c =? 0); [done|]. rewrite IH, bind_ret. simpl. f_equal. lia.
Qed.

Lemma print_until_nul m : c_string m -> print_s m 0 (s32 (Z.of_nat (length (until_nul m)))) = Ret (until_nul m).
Proof.
  intros (_ & _ & Hl). destruct (until_nul_prefix m) as [rest E].
  assert (length (until_nul m) <= length m)%nat by (rewrite E at 2; rewrite length_app; lia).
  rewrite swrap_small by (lia || (unfold sint; lia)). unfold print_s. rewrite (proj2 (Z.ltb_ge _ _)) by lia.
  rewrite Nat2Z.id. apply load_prefix_text; [|apply until_nul_nonzero].
  unfold text_at. rewrite load_bytes_in by (unfold room; lia). change (Z.to_nat 0) with 0%nat. rewrite drop_0.
  f_equal. rewrite E at 2. by rewrite take_app_length.
Qed.

Lemma until_nul_bytes m : c_string m -> all_bytes (until_nul m).
Proof. intros (_ & Hb & _). destruct (until_nul_prefix m) as [rest E]. rewrite E in Hb. by apply Forall_app in Hb as [? _]. Qed.

Lemma power_entry k : 1 <= k <= 9 -> entry power_of_10 (9 - k) = Ret (10 ^ (9 - k)).
Proof.
  intros Hk. assert (k = 1 \/ k = 2 \/ k = 3 \/ k = 4 \/ k = 5 \/ k = 6 \/ k = 7 \/ k = 8 \/ k = 9) by lia.
  by repeat (destruct H as [->|H]; [done|]); subst.
Qed.

Lemma fraction_digits_bound flag : 1 <= fraction_digits flag <= 9.
Proof. destruct flag; simpl; lia. Qed.

(** The fraction with its first [k] digits. *)
Lemma fraction_puts t mem buf buf_len pos k :
  1 <= k <= 9 -> 0 <= part DT_USEC t <= 999999999 -> fits_in mem buf buf_len pos (Z.to_nat k) ->
  puts mem buf buf_len pos (fixed (Z.to_nat k) (part DT_USEC t / 10 ^ (9 - k)))
    (p ← entry power_of_10 (MAX_SCALE_FOR_ORACLE_TEMPORAL - k);
     data_fmt_nd mem buf buf_len pos k (Z.quot (part DT_USEC t) p)).
Proof.
  intros Hk Hu Hf. unfold MAX_SCALE_FOR_ORACLE_TEMPORAL. rewrite power_entry, bind_ret by done.
  assert (0 < 10 ^ (9 - k)) by (apply Z.pow_pos_nonneg; lia).
  rewrite Z.quot_div_nonneg by lia. apply fmt_nd_puts; [lia| |done].
  split; [apply Z.div_pos; lia|]. apply Z.div_lt_upper_bound; [lia|]. rewrite <- Z.pow_add_r by lia.
  replace (9 - k + k) with 9 by lia. lia.
Qed.

Lemma special_name mem buf buf_len pos k s t mode :
  is_name k s t -> fits_in mem buf buf_len pos (length t) ->
  puts mem buf buf_len pos (cased mode t) (special_mode_sprintf mem buf buf_len pos s mode (-1)).
Proof.
  intros (-> & Hb & Hl) Hf.
  pose proof (special_puts mem buf buf_len pos t mode (-1) Hb ltac:(destruct t; [simpl in *; lia|done]) (or_introl eq_refl)) as H.
  replace (Z.to_nat (-1 - Z.of_nat (length t))) with 0%nat in H by lia. rewrite app_nil_r in H. apply H.
  by rewrite Nat.max_l by lia.
Qed.

Lemma special_padded mem buf buf_len pos s t mode :
  is_name 9 s t -> fits_in mem buf buf_len pos 9 ->
  puts mem buf buf_len pos (padded 9 (cased mode t)) (special_mode_sprintf mem buf buf_len pos s mode 9).
Proof.
  intros (-> & Hb & Hl) Hf. unfold padded. rewrite length_cased.
  replace (9 - length t)%nat with (Z.to_nat (9 - Z.of_nat (length t))) by lia.
  apply special_puts; [done|destruct t; [simpl in *; lia|done]|lia|]. by rewrite Nat.max_r by lia.
Qed.

Lemma length_padded s : (length s <= 9)%nat -> length (padded 9 s) = 9%nat.
Proof. intros. unfold padded. rewrite length_app, repeat_length. lia. Qed.

Lemma wday_name l k w : table_ok k l = true -> length l = 8%nat -> 1 <= w <= 7 ->
  exists s, entry l w = Ret s /\ is_name k s (name l w).
Proof. intros Ht Hl Hw. apply entry_name; [done|lia]. Qed.

Lemma mon_name l k m : table_ok k l = true -> length l = 13%nat -> 1 <= m <= 12 ->
  exists s, entry l m = Ret s /\ is_name k s (name l m).
Proof. intros Ht Hl Hw. apply entry_name; [done|lia]. Qed.

Lemma pattern_name f : f <> J -> exists t, is_name 5 (PATTERNEX f) t /\ ptr_ (PATTERNEX f) = Some t.
Proof. intros Hf. destruct (table_ok_name 5 (PATTERNEX f)) as (t & Ht); [by destruct f|]. exists t. split; [done|]. by destruct Ht as [-> _]. Qed.

Lemma number_puts mem buf buf_len pos w v v' :
  (0 < w)%nat -> v = v' mod 10 ^ Z.of_nat w -> fits_in mem buf buf_len pos (length (fixed w v')) ->
  puts mem buf buf_len pos (fixed w v') (databuff_printf mem buf buf_len pos (print_d w v)).
Proof.
  intros Hw -> Hf. rewrite print_d_fixed, fixed_mod by (done || apply Z.mod_pos_bound; lia).
  apply printf_puts; [apply fixed_bytes|done].
Qed.

Lemma text_puts mem buf buf_len pos text s :
  text = Ret s -> all_bytes s -> fits_in mem buf buf_len pos (length s) -> puts mem buf buf_len pos s (printf mem buf buf_len pos text).
Proof. intros -> Hs Hf. unfold printf. rewrite bind_ret. by apply printf_puts. Qed.

(** One of two names that the code spells like their patterns. *)
Lemma pattern_puts mem buf buf_len pos (b : bool) f g mode :
  f <> J -> g <> J ->
  fits_in mem buf buf_len pos (length (cased mode (default [] (ptr_ (PATTERNEX (if b then f else g)))))) ->
  puts mem buf buf_len pos (cased mode (default [] (ptr_ (PATTERNEX (if b then f else g)))))
    (special_mode_sprintf mem buf buf_len pos (PATTERNEX (if b then f else g)) mode (-1)).
Proof.
  intros Hf Hg Hfit. destruct (pattern_name (if b then f else g)) as (s & Hs & E); [by destruct b|].
  rewrite E in Hfit |- *. simpl in *. rewrite length_cased in Hfit. by apply (special_name _ _ _ _ 5).
Qed.

Ltac pow10 :=
  change (10 ^ Z.of_nat 1) with 10; change (10 ^ Z.of_nat 2) with 100; change (10 ^ Z.of_nat 3) with 1000;
  change (10 ^ Z.of_nat 4) with 10000; change (10 ^ Z.of_nat 5) with 100000.

(** Closes the equation between a computed text and the reference. *)
Ltac int_text :=
  unfold abs; repeat first [rewrite bind_ret | rewrite int32_ok by lia];
  rewrite ?Z.abs_eq, ?Z.rem_mod_nonneg, ?Z.quot_div_nonneg by lia;
  rewrite ?print_d_fixed by (pow10; dlia); try reflexivity.

Ltac bytes_text :=
  repeat first
    [ apply fixed_bytes | apply Forall_nil_2 | apply Forall_app; split
    | apply Forall_cons; split; [unfold sign_char, is_byte, uint; repeat case_match; lia|] ].

Ltac no_elem H := exfalso; simpl in H; clear - H; intuition discriminate.
Ltac number := apply number_puts; [lia|(pow10; dlia)|done].
Ltac int_puts := apply text_puts; [int_text|bytes_text|done].

Lemma year_puts t scale e flag mem buf buf_len pos :
  elem_ok t flag -> In flag [CC; YGYYY; SYYYY; YYYY; IYYY; RRRR; YYY; IYY; YY; IY; RR; Y; I] ->
  fits_in mem buf buf_len pos (length (elem_text t scale (upper_case_mode_ e) flag)) ->
  puts mem buf buf_len pos (elem_text t scale (upper_case_mode_ e) flag) (print_elem t scale e flag mem buf buf_len pos).
Proof.
  intros Hok Hin Hf. destruct flag; cbn [elem_ok elem_text print_elem] in *; try solve [no_elem Hin | number | int_puts].
  - apply text_puts; [|bytes_text|done]. int_text. by rewrite <- (fixed_mod 3 (part DT_YEAR t)).
  - apply text_puts; [|bytes_text|done]. rewrite (proj2 (Z.ltb_ge _ 0)) by lia. int_text.
Qed.

Lemma day_puts t scale e flag mem buf buf_len pos :
  elem_ok t flag -> In flag [D; DAY; DD; DDD; DY; IW; MM; MONTH; MON; Q; WW; W] ->
  fits_in mem buf buf_len pos (length (elem_text t scale (upper_case_mode_ e) flag)) ->
  puts mem buf buf_len pos (elem_text t scale (upper_case_mode_ e) flag) (print_elem t scale e flag mem buf buf_len pos).
Proof.
  intros Hok Hin Hf. destruct flag; cbn [elem_ok elem_text print_elem] in *; try solve [no_elem Hin | number | int_puts].
  - destruct (wday_name WDAY_NAMES 9 (part DT_WDAY t)) as (s & -> & Hs); [done..|]. rewrite bind_ret.
    rewrite length_padded in Hf by (rewrite length_cased; apply Hs). by apply special_padded.
  - destruct (wday_name WDAY_ABBR_NAMES 9 (part DT_WDAY t)) as (s & -> & Hs); [done..|]. rewrite bind_ret.
    rewrite length_cased in Hf. by apply (special_name _ _ _ _ 9).
  - apply text_puts; [|bytes_text|done]. rewrite week_iso, bind_ret by done.
    pose proof (iso_week_bound (leap_year (part DT_YEAR t)) (leap_year (part DT_YEAR t - 1)) (part DT_YDAY t) (part DT_WDAY t)) as Hw.
    by rewrite print_d_fixed by (pow10; lia).
  - destruct (mon_name MON_NAMES 9 (part DT_MON t)) as (s & -> & Hs); [done..|]. rewrite bind_ret.
    rewrite length_padded in Hf by (rewrite length_cased; apply Hs). by apply special_padded.
  - destruct (mon_name MON_ABBR_NAMES 9 (part DT_MON t)) as (s & -> & Hs); [done..|]. rewrite bind_ret.
    rewrite length_cased in Hf. by apply (special_name _ _ _ _ 9).
Qed.

Lemma time_puts t scale e flag mem buf buf_len pos :
  elem_ok t flag -> 0 <= scale <= 9 ->
  In flag [FF; FF1; FF2; FF3; FF4; FF5; FF6; FF7; FF8; FF9; HH; HH12; HH24; MI; SS; SSSSS; X] ->
  fits_in mem buf buf_len pos (length (elem_text t scale (upper_case_mode_ e) flag)) ->
  puts mem buf buf_len pos (elem_text t scale (upper_case_mode_ e) flag) (print_elem t scale e flag mem buf buf_len pos).
Proof.
  intros Hok Hsc Hin Hf. destruct flag; cbn [elem_ok elem_text print_elem] in *; try solve [no_elem Hin | number | int_puts];
    try (rewrite (proj1 Hok); rewrite length_fixed in Hf;
         try (apply fraction_puts; [apply fraction_digits_bound|apply Hok|done])).
  - destruct (Z.eqb_spec scale 0) as [->|]; [apply puts_nil|]. apply fraction_puts; [lia|apply Hok|done].
  - rewrite Z.rem_mod_nonneg by lia. destruct (Z.eqb_spec (part DT_HOUR t mod 12) 0); number.
  - rewrite Z.rem_mod_nonneg by lia. destruct (Z.eqb_spec (part DT_HOUR t mod 12) 0); number.
  - apply printf_puts; [bytes_text|done].
Qed.

Lemma zone_puts t scale e flag mem buf buf_len pos :
  elem_ok t flag -> In flag [TZD; TZR; TZH; TZM] ->
  fits_in mem buf buf_len pos (length (elem_text t scale (upper_case_mode_ e) flag)) ->
  puts mem buf buf_len pos (elem_text t scale (upper_case_mode_ e) flag) (print_elem t scale e flag mem buf buf_len pos).
Proof.
  intros Hok Hin Hf. destruct flag; cbn [elem_ok elem_text print_elem] in *; try solve [no_elem Hin];
    destruct Hok as [Hor Hok]; rewrite Hor; try int_puts.
  - destruct (Z.eqb_spec (time_zone_id_ t) (-1)); cbn [negb]; [apply puts_nil|].
    apply text_puts; [|by apply until_nul_bytes|done]. by rewrite strlen_until_nul, bind_ret, print_until_nul.
  - destruct Hok as [Hc Ho]. destruct (Z.eqb_spec (time_zone_id_ t) (-1)); cbn [negb]; [int_puts|].
    apply text_puts; [|by apply until_nul_bytes|done]. by rewrite strlen_until_nul, bind_ret, print_until_nul.
Qed.

Lemma elem_puts t scale e flag mem buf buf_len pos :
  elem_ok t flag -> 0 <= scale <= 9 ->
  fits_in mem buf buf_len pos (length (elem_text t scale (upper_case_mode_ e) flag)) ->
  puts mem buf buf_len pos (elem_text t scale (upper_case_mode_ e) flag) (print_elem t scale e flag mem buf buf_len pos).
Proof.
  intros Hok Hsc Hf. destruct flag;
    try solve [done | apply year_puts; [done|simpl; tauto|done] | apply day_puts; [done|simpl; tauto|done]
              | apply time_puts; [done|done|simpl; tauto|done] | apply zone_puts; [done|simpl; tauto|done]];
    cbn [elem_text print_elem] in *; rewrite ?Z.gtb_ltb, ?Z.geb_leb in *;
    [pose proof (pattern_puts mem buf buf_len pos (0 <? part DT_YEAR t) AD BC (upper_case_mode_ e)) as H
    |pose proof (pattern_puts mem buf buf_len pos (0 <? part DT_YEAR t) AD2 BC2 (upper_case_mode_ e)) as H
    |pose proof (pattern_puts mem buf buf_len pos (0 <? part DT_YEAR t) AD BC (upper_case_mode_ e)) as H
    |pose proof (pattern_puts mem buf buf_len pos (0 <? part DT_YEAR t) AD2 BC2 (upper_case_mode_ e)) as H
    |pose proof (pattern_puts mem buf buf_len pos (12 <=? part DT_HOUR t) PM AM (upper_case_mode_ e)) as H
    |pose proof (pattern_puts mem buf buf_len pos (12 <=? part DT_HOUR t) PM2 AM2 (upper_case_mode_ e)) as H
    |pose proof (pattern_puts mem buf buf_len pos (12 <=? part DT_HOUR t) PM AM (upper_case_mode_ e)) as H
    |pose proof (pattern_puts mem buf buf_len pos (12 <=? part DT_HOUR t) PM2 AM2 (upper_case_mode_ e)) as H];
    repeat match type of Hf with context [if ?b then _ else _] => destruct b end; by apply H.
Qed.

Lemma length_name k l i : table_ok k l = true -> 0 <= i < Z.of_nat (length l) ->
  exists s, entry l i = Ret s /\ len_ s = Z.of_nat (length (name l i)) /\ (length (name l i) <= k)%nat.
Proof. intros Ht Hi. destruct (entry_name k l i Ht Hi) as (s & Hs & (E & _ & Hl)). exists s. split_and!; [done|by rewrite E|lia]. Qed.

(** The length that is calculated for an element is that of its text. *)
Lemma elem_lengths t scale mode flag :
  elem_ok t flag -> 0 <= scale <= 9 -> elem_length t scale flag = Ret (0, Z.of_nat (length (elem_text t scale mode flag))).
Proof.
  intros Hok Hsc. destruct flag; cbn [elem_ok elem_text elem_length] in *; try done;
    rewrite ?length_cased, ?length_fixed, ?Z.gtb_ltb, ?Z.geb_leb; try done;
    try (by repeat case_match); try (destruct Hok as [Hor Hok]; rewrite Hor); rewrite ?length_fixed, ?bind_ret;
    try (done || (do 2 f_equal; pose proof fraction_digits_bound; lia)).
  - destruct (length_name 9 WDAY_NAMES (part DT_WDAY t)) as (s & _ & _ & Hl); [done|simpl; lia|].
    by rewrite length_padded by (by rewrite length_cased).
  - destruct (length_name 9 WDAY_ABBR_NAMES (part DT_WDAY t)) as (s & -> & E & _); [done|simpl; lia|]. by rewrite bind_ret, E.
  - destruct (length_name 9 MON_NAMES (part DT_MON t)) as (s & _ & _ & Hl); [done|simpl; lia|].
    by rewrite length_padded by (by rewrite length_cased).
  - destruct (length_name 9 MON_ABBR_NAMES (part DT_MON t)) as (s & -> & E & _); [done|simpl; lia|]. by rewrite bind_ret, E.
  - destruct (time_zone_id_ t =? -1); [done|]. cbn [negb]. by rewrite strlen_until_nul, bind_ret.
  - destruct (time_zone_id_ t =? -1); [done|]. cbn [negb]. by rewrite strlen_until_nul, bind_ret by apply Hok.
Qed.

(** * A whole format *)

Record piece : Type := Piece { sep : bytes; word : bytes; elem : ObDFMElem }.

Definition source (ps : list piece) (tail : bytes) : bytes := concat (map (fun p => sep p ++ word p) ps) ++ tail.

Definition piece_text (t : ObTime) (scale : Z) (e : ObDFMElem) : bytes :=
  match elem_flag_ e with Some flag => elem_text t scale (upper_case_mode_ e) flag | None => [] end.

Definition rendered (t : ObTime) (scale : Z) (ps : list piece) (tail : bytes) : bytes :=
  concat (map (fun p => sep p ++ piece_text t scale (elem p)) ps) ++ tail.

Abbreviation separators := (Forall (fun c => is_split_char c = true)).

Definition spelled (flag : ElementFlag) (w : bytes) : Prop :=
  exists pat, ptr_ (PATTERNEX flag) = Some pat /\ map tolower w = map tolower pat.

(** The case of a name follows the spelling of its element. *)
Definition spelled_case (flag : ElementFlag) (w : bytes) : UpperCaseMode :=
  match flag, w with
  | (MON | MONTH | DAY | DY | AM | PM | AD | BC), a :: b :: _ =>
      if isupper a && isupper b then ALL_CHARACTER else if isupper a then ONLY_FIRST_CHARACTER else NON_CHARACTER
  | (AM2 | PM2 | AD2 | BC2), a :: _ => if isupper a then ALL_CHARACTER else NON_CHARACTER
  | _, _ => NON_CHARACTER
  end.

(** Separators, then the longest element that the text starts with. *)
Definition piece_at (p : Z) (pc : piece) (rest : bytes) : Prop :=
  separators (sep pc) /\ offset_ (elem pc) = p + Z.of_nat (length (sep pc))
  /\ exists flag, elem_flag_ (elem pc) = Some flag /\ spelled flag (word pc)
       /\ upper_case_mode_ (elem pc) = spelled_case flag (word pc)
       /\ forall flag' w rest', spelled flag' w -> word pc ++ rest = w ++ rest' -> (length w <= length (word pc))%nat.

Fixpoint tiled (p : Z) (ps : list piece) (tail : bytes) : Prop :=
  match ps with
  | [] => separators tail
  | pc :: ps => piece_at p pc (source ps tail) /\ tiled (p + Z.of_nat (length (sep pc ++ word pc))) ps tail
  end.

Definition piece_ok (t : ObTime) (e : ObDFMElem) : Prop := forall flag, elem_flag_ e = Some flag -> elem_ok t flag.

Lemma source_cons pc ps tail : source (pc :: ps) tail = (sep pc ++ word pc) ++ source ps tail.
Proof. unfold source. simpl. by rewrite !app_assoc. Qed.

Lemma rendered_cons t scale pc ps tail :
  rendered t scale (pc :: ps) tail = sep pc ++ piece_text t scale (elem pc) ++ rendered t scale ps tail.
Proof. unfold rendered. simpl. by rewrite !app_assoc. Qed.

Lemma spelled_length flag w : spelled flag w -> len_ (PATTERNEX flag) = Z.of_nat (length w) /\ flag <> J /\ w <> [].
Proof.
  intros (pat & Hp & Hw). assert (flag <> J) as Hj by (by intros ->).
  destruct (pattern_name flag Hj) as (t & (E & _ & Hl) & Ht). rewrite Ht in Hp. injection Hp as <-.
  assert (length w = length t) as El by (apply (f_equal length) in Hw; by rewrite !length_map in Hw).
  split_and!; [rewrite E, El; done|done|]. intros ->. simpl in El. lia.
Qed.

Lemma split_char_range c : is_split_char c = true -> 0 < c < 128.
Proof. unfold is_split_char. rewrite !orb_true_iff, !andb_true_iff, !Z.eqb_eq, !Z.leb_le. lia. Qed.

Lemma separators_bytes s : separators s -> all_bytes s /\ Forall (fun c => c <> 0) s.
Proof.
  intros Hs. split; (eapply Forall_impl; [exact Hs|]); intros c Hc%split_char_range; unfold is_byte, uint; lia.
Qed.

Lemma separators_puts fmt mem buf buf_len pos last s :
  text_at fmt last s -> separators s -> fits_in mem buf buf_len pos (length s) ->
  puts mem buf buf_len pos s (print_separators fmt last (Z.of_nat (length s)) mem buf buf_len pos).
Proof.
  intros Ht Hs Hf. destruct (separators_bytes s Hs) as [Hb Hn]. unfold print_separators.
  destruct (Z.gtb_spec (Z.of_nat (length s)) 0); [|destruct s; [apply puts_nil|simpl in *; lia]].
  apply text_puts; [|done|done]. rewrite swrap_small by (lia || (unfold fits_in, sint in *; lia)).
  unfold print_s. rewrite (proj2 (Z.ltb_ge _ 0)), Nat2Z.id by lia. by apply load_prefix_text.
Qed.

Lemma print_tiled t fmt scale ps tail : forall mem buf buf_len pos last,
  0 <= scale <= 9 -> 0 <= last -> text_at fmt last (source ps tail) -> tiled last ps tail ->
  Forall (piece_ok t) (map elem ps) -> fits_in mem buf buf_len pos (length (rendered t scale ps tail)) ->
  puts mem buf buf_len pos (rendered t scale ps tail)
    ('(ret, mem, pos, last') ← print_loop t fmt scale (map elem ps) 0 mem buf buf_len pos last;
     if nonzero ret then Ret (ret, mem, pos)
     else print_separators fmt last' (last + Z.of_nat (length (source ps tail)) - last') mem buf buf_len pos).
Proof.
  induction ps as [|pc ps IH]; intros mem buf buf_len pos last Hsc Hlast Ht Htile Hok Hf.
  { cbn [map print_loop]. rewrite bind_ret. cbn [nonzero negb Z.eqb]. unfold rendered, source in *. cbn [map concat app] in *.
    replace (last + Z.of_nat (length tail) - last) with (Z.of_nat (length tail)) by lia. by apply separators_puts. }
  destruct Htile as ((Hsep & Hoff & flag & Hfl & Hsp & Hcase & _) & Htile). apply Forall_cons in Hok as [Hpc Hok].
  destruct (spelled_length _ _ Hsp) as (Hlen & _ & _). rewrite source_cons in *. rewrite rendered_cons in *.
  apply text_at_app in Ht as [Ht1 Ht2]. apply text_at_app in Ht1 as [Hts _].
  cbn [map print_loop]. cbn [nonzero negb Z.eqb]. rewrite Hfl, Hoff, Hlen, (proj2 (Z.ltb_ge _ 0)) by lia.
  replace (last + Z.of_nat (length (sep pc)) - last) with (Z.of_nat (length (sep pc))) by lia.
  rewrite bind_assoc. apply puts_app; [done|apply separators_puts; [done|done|]|].
  { unfold fits_in in *. rewrite length_app in Hf. lia. }
  intros m1 Hf1. cbn [nonzero negb Z.eqb]. rewrite bind_assoc. unfold piece_text in *. rewrite Hfl in *.
  apply puts_app; [done|apply elem_puts; [by apply Hpc|done|]|].
  { unfold fits_in in *. rewrite length_app in Hf1. lia. }
  intros m2 Hf2. 
  specialize (IH m2 buf buf_len (pos + Z.of_nat (length (sep pc)) + Z.of_nat (length (elem_text t scale (upper_case_mode_ (elem pc)) flag)))
    (last + Z.of_nat (length (sep pc ++ word pc))) Hsc).
  rewrite length_app in IH |- *.
  replace (last + Z.of_nat (length (sep pc)) + Z.of_nat (length (word pc))) with (last + Z.of_nat (length (sep pc) + length (word pc))) by lia.
  rewrite length_app in Htile, Ht2. rewrite length_app.
  replace (last + Z.of_nat (length (sep pc) + length (word pc) + length (source ps tail)))
    with (last + Z.of_nat (length (sep pc) + length (word pc)) + Z.of_nat (length (source ps tail))) by lia.
  apply IH; [lia|done|done|done|done].
Qed.

Lemma dfm_length_tiled t scale ps tail : forall len last,
  0 <= scale <= 9 -> 0 <= last -> tiled last ps tail -> Forall (piece_ok t) (map elem ps) ->
  dfm_length_loop t scale (map elem ps) 0 len last
  = Ret (0, len + Z.of_nat (length (rendered t scale ps tail)) - Z.of_nat (length tail),
         last + Z.of_nat (length (source ps tail)) - Z.of_nat (length tail)).
Proof.
  induction ps as [|pc ps IH]; intros len last Hsc Hlast Htile Hok.
  { cbn [map dfm_length_loop]. unfold rendered, source. cbn [map concat app]. repeat f_equal; lia. }
  destruct Htile as ((Hsep & Hoff & flag & Hfl & Hsp & Hcase & _) & Htile). apply Forall_cons in Hok as [Hpc Hok].
  destruct (spelled_length _ _ Hsp) as (Hlen & _ & _). rewrite source_cons, rendered_cons, !length_app.
  cbn [map dfm_length_loop]. cbn [nonzero negb Z.eqb]. rewrite Hfl, Hoff, Hlen, (proj2 (Z.ltb_ge _ 0)) by lia.
  rewrite (elem_lengths t scale (upper_case_mode_ (elem pc))), bind_ret by (done || by apply Hpc).
  rewrite length_app in Htile. replace (last + Z.of_nat (length (sep pc)) + Z.of_nat (length (word pc)))
    with (last + Z.of_nat (length (sep pc) + length (word pc))) by lia.
  rewrite IH by (done || lia). unfold piece_text. rewrite Hfl. do 2 f_equal; [f_equal|lia].
  destruct (Z.gtb_spec (last + Z.of_nat (length (sep pc)) - last) 0); lia.
Qed.

(** * Parsing *)

Lemma same_case_text fmt p pat : forall w rest,
  length w = length pat -> text_at fmt p (w ++ rest) ->
  same_ignoring_case fmt p pat = Ret (bool_decide (map tolower w = map tolower pat)).
Proof.
  revert p. induction pat as [|c pat IH]; intros p [|a w] rest Hl Ht; try done. injection Hl as Hl.
  apply text_at_cons in Ht as [Ha Ht]. cbn [same_ignoring_case]. rewrite Ha, bind_ret.
  destruct (Z.eqb_spec (tolower a) (tolower c)) as [E|E].
  - rewrite (IH _ w rest) by done. f_equal. apply bool_decide_ext. simpl. rewrite E. split; [by intros ->|congruence].
  - f_equal. symmetry. apply bool_decide_eq_false. simpl. congruence.
Qed.

(** Whether a text starts with the element. *)
Definition starts (flag : ElementFlag) (text : bytes) : Prop := exists w rest, text = w ++ rest /\ spelled flag w.

Lemma match_pattern_starts fmt p text flag :
  text_at fmt p text -> flag <> J ->
  exists b, match_pattern_ignore_case fmt p (Z.of_nat (length text)) (PATTERNEX flag) = Ret b /\ (b = true <-> starts flag text).
Proof.
  intros Ht Hj. destruct (pattern_name flag Hj) as (pat & (E & _ & Hl) & Hp). unfold match_pattern_ignore_case.
  rewrite E. cbn [len_ ptr_]. destruct (Z.geb_spec (Z.of_nat (length text)) (Z.of_nat (length pat))) as [Hge|Hlt].
  - cbn [of_option]. rewrite bind_ret, Nat2Z.id, take_ge by lia.
    rewrite (same_case_text fmt p pat (take (length pat) text) (drop (length pat) text)); [|rewrite length_take; lia|by rewrite take_drop].
    eexists. split; [done|]. rewrite bool_decide_eq_true. split.
    + intros Hw. exists (take (length pat) text), (drop (length pat) text). rewrite take_drop. split; [done|]. by exists pat.
    + intros (w & rest & -> & (pat' & Hp' & Hw)). rewrite Hp in Hp'. injection Hp' as <-.
      assert (length w = length pat) as <- by (apply (f_equal length) in Hw; by rewrite !length_map in Hw).
      by rewrite take_app_length.
  - exists false. split; [done|]. split; [done|]. intros (w & rest & -> & (pat' & Hp' & Hw)). rewrite Hp in Hp'. injection Hp' as <-.
    apply (f_equal length) in Hw. rewrite !length_map in Hw. rewrite length_app in Hlt. lia.
Qed.

(** The longest element of those looked at, if there is one. *)
Definition best (text : bytes) (winner : option ElementFlag) (m : Z) : Prop :=
  match winner with Some flag => starts flag text /\ m = len_ (PATTERNEX flag) | None => m = 0 end.

Lemma search_best fmt p text flags : forall winner m,
  text_at fmt p text -> best text winner m ->
  exists winner' m', search_pattern fmt p (Z.of_nat (length text)) flags winner m = Ret (winner', m')
    /\ best text winner' m' /\ m <= m' /\ Forall (fun flag => starts flag text -> len_ (PATTERNEX flag) <= m') flags.
Proof.
  induction flags as [|flag flags IH]; intros winner m Ht Hb; cbn [search_pattern].
  { exists winner, m. split_and!; [done|done|lia|by constructor]. }
  destruct (Z.ltb_spec m (len_ (PATTERNEX flag))) as [Hlt|Hge].
  - assert (flag <> J) as Hj by (intros ->; simpl in Hlt; destruct winner as [f|]; simpl in Hb; [|lia];
      destruct Hb as [(w & r & _ & Hs) ->]; destruct (spelled_length _ _ Hs); lia).
    destruct (match_pattern_starts fmt p text flag Ht Hj) as (b & -> & Hst). rewrite bind_ret. destruct b.
    + destruct (IH (Some flag) (len_ (PATTERNEX flag)) Ht) as (w' & m' & -> & Hb' & Hm & Hall); [split; [by apply Hst|done]|].
      exists w', m'. split_and!; [done|done|lia|constructor; [done|done]].
    + destruct (IH winner m Ht Hb) as (w' & m' & -> & Hb' & Hm & Hall).
      exists w', m'. split_and!; [done|done|lia|constructor; [|done]]. intros Hs%Hst. done.
  - rewrite bind_ret. destruct (IH winner m Ht Hb) as (w' & m' & -> & Hb' & Hm & Hall).
    exists w', m'. split_and!; [done|done|lia|constructor; [lia|done]].
Qed.

Lemma upper_case_spelled fmt p w rest flag :
  text_at fmt p (w ++ rest) -> spelled flag w ->
  upper_case fmt p (Z.of_nat (length (w ++ rest))) flag = Ret (0, spelled_case flag w).
Proof.
  intros Ht Hs. destruct (spelled_length flag w Hs) as (Hl & _ & _). rewrite length_app.
  destruct flag; try (destruct w; done); cbn in Hl; (destruct w as [|a [|b [|c [|d w]]]]; try (simpl in Hl; lia));
    cbn [upper_case spelled_case app] in *; rewrite (proj2 (Z.ltb_ge _ _)) by (simpl; lia);
    apply text_at_cons in Ht as [Ha Ht]; rewrite Ha, bind_ret; try done;
    apply text_at_cons in Ht as [Hb Ht]; by rewrite Hb, bind_ret.
Qed.

Lemma skip_loop_text fmt : forall n p text,
  (n <= length text)%nat -> text_at fmt p text -> all_bytes text ->
  exists s rest, text = s ++ rest /\ separators s /\ skip_loop fmt p n INT64_MAX = Ret (Z.of_nat (length s)).
Proof.
  induction n as [|n IH]; intros p text Hn Ht Hb; cbn [skip_loop].
  { exists [], text. split_and!; [done|by constructor|done]. }
  destruct text as [|c text]; [simpl in Hn; lia|]. apply text_at_cons in Ht as [Hc Ht]. apply Forall_cons in Hb as [Hcb Hb].
  rewrite Hc, bind_ret. assert ((s8 c =? INT64_MAX) = false) as ->.
  { apply Z.eqb_neq. pose proof (swrap_sint 8 c). unfold sint, INT64_MAX in *. lia. }
  rewrite andb_true_r. destruct (is_split_char c) eqn:E.
  - destruct (IH (p + 1) text) as (s & rest & -> & Hs & ->); [simpl in Hn; lia|done|done|].
    exists (c :: s), rest. split_and!; [done|by constructor|]. rewrite bind_ret. f_equal. simpl. lia.
  - exists [], (c :: text). split_and!; [done|by constructor|done].
Qed.

(** An element is found or there is an error. *)
Lemma parse_one_text fmt p text dot :
  text_at fmt p text -> text <> [] ->
  (exists e, parse_one_elem fmt p (Z.of_nat (length text)) (Elem None (-1) dot NON_CHARACTER) = Ret (1, p, Z.of_nat (length text), e))
  \/ exists w rest flag, text = w ++ rest /\ spelled flag w
       /\ parse_one_elem fmt p (Z.of_nat (length text)) (Elem None (-1) dot NON_CHARACTER)
          = Ret (0, p + Z.of_nat (length w), Z.of_nat (length rest), Elem (Some flag) p dot (spelled_case flag w))
       /\ forall flag' w' rest', spelled flag' w' -> w ++ rest = w' ++ rest' -> (length w' <= length w)%nat.
Proof.
  intros Ht Hne. assert (0 < length text)%nat by (destruct text; simpl; [done|lia]).
  unfold parse_one_elem. rewrite (proj2 (Z.leb_gt _ 0)) by lia.
  destruct (search_best fmt p text all_flags None 0 Ht eq_refl) as ([flag|] & m & -> & Hb & _ & Hall); rewrite bind_ret.
  - destruct Hb as [(w & rest & -> & Hs) ->]. right. exists w, rest, flag.
    destruct (spelled_length flag w Hs) as (Hl & _ & _).
    rewrite (upper_case_spelled fmt p w rest), bind_ret by done. rewrite Hl, length_app. split_and!; [done|done| |].
    + do 3 f_equal. lia.
    + intros flag' w' rest' Hs' E. destruct (spelled_length flag' w' Hs') as (Hl' & _ & _).
      rewrite Forall_forall in Hall. specialize (Hall flag').
      assert (flag' ∈ all_flags) as Hin by (apply list_elem_of_In; destruct flag'; cbn; tauto).
      specialize (Hall Hin ltac:(by exists w', rest')). lia.
  - left. eauto.
Qed.

Lemma parse_round_text fmt p text array :
  text_at fmt p text -> all_bytes text -> 0 <= p -> text <> [] ->
  exists ret cur remain arr, parse_round fmt p (Z.of_nat (length text)) array = Ret (ret, cur, remain, arr)
    /\ (ret <> 0 \/ ret = 0 /\ remain = 0 /\ arr = array /\ separators text
        \/ exists pc rest, text = sep pc ++ word pc ++ rest /\ piece_at p pc rest /\ word pc <> [] /\ ret = 0
             /\ cur = p + Z.of_nat (length (sep pc ++ word pc)) /\ remain = Z.of_nat (length rest) /\ arr = array ++ [elem pc]).
Proof.
  intros Ht Hb Hp Hne. unfold parse_round, skip_separate_chars, skip_separate_chars_with_limit.
  destruct (skip_loop_text fmt (Z.to_nat (Z.min (Z.of_nat (length text)) MAX_VARCHAR_LENGTH)) p text) as (s & rest & -> & Hs & ->); [lia|done|done|].
  rewrite !bind_ret, length_app. apply text_at_app in Ht as [Hts Htr].
  replace (Z.of_nat (length s + length rest) - Z.of_nat (length s)) with (Z.of_nat (length rest)) by lia.
  destruct (Z.gtb_spec (Z.of_nat (length rest)) 0) as [Hpos|Hnil].
  2:{ destruct rest; [|simpl in Hnil; lia]. do 4 eexists. split; [done|]. right; left. rewrite app_nil_r. done. }
  set (dot := (if p + Z.of_nat (length s) >? 0 then _ else _ : cres bool)).
  assert (exists b, dot = Ret b) as [b ->].
  { unfold dot. destruct (Z.gtb_spec (p + Z.of_nat (length s)) 0); [|by eauto]. destruct (Z.eqb_spec (Z.of_nat (length s)) 1) as [E|]; [|by eauto].
    destruct s as [|c [|]]; try (simpl in E; lia). apply text_at_cons in Hts as [Hc _].
    replace (p + Z.of_nat (length [c]) - 1) with p by (simpl; lia). rewrite Hc, bind_ret. eauto. }
  rewrite bind_ret. destruct (parse_one_text fmt (p + Z.of_nat (length s)) rest b Htr) as [(e & ->)|(w & r & flag & -> & Hw & -> & Hmax)];
    [by intros ->|rewrite bind_ret..].
  - do 4 eexists. split; [done|]. by left.
  - do 4 eexists. split; [done|]. right; right.
    exists (Piece s w (Elem (Some flag) (p + Z.of_nat (length s)) b (spelled_case flag w))), r. cbn [sep word elem].
    split_and!; try done; [|by destruct (spelled_length flag w Hw) as (_ & _ & ?)|rewrite length_app; lia].
    split_and!; [done|done|]. exists flag. split_and!; [done|done|done|]. intros f' w' r'. apply Hmax.
Qed.

(** The loop returns, and when it succeeds the elements tile the format. *)
Lemma parse_tiles fmt : forall fuel p text array,
  (length text <= fuel)%nat -> text_at fmt p text -> all_bytes text -> 0 <= p ->
  exists ret r, parse_loop fuel fmt 0 p (Z.of_nat (length text)) array = Ret (ret, r)
    /\ (ret = 0 -> exists ps tail, r = array ++ map elem ps /\ text = source ps tail /\ tiled p ps tail).
Proof.
  assert (forall fuel p array, exists ret r, parse_loop fuel fmt 0 p 0 array = Ret (ret, r) /\ ret = 0 /\ r = array) as Hend.
  { intros [|fuel] p array; simpl; eauto. }
  assert (forall fuel ret p n array, ret <> 0 -> parse_loop fuel fmt ret p n array = Ret (ret, array)) as Herr.
  { intros fuel ret p n array Hr. unfold nonzero. destruct fuel; cbn [parse_loop]; unfold nonzero; by rewrite (proj2 (Z.eqb_neq ret 0)). }
  induction fuel as [|fuel IH]; intros p text array Hl Ht Hb Hp.
  { destruct text; [|simpl in Hl; lia]. exists 0, array. split; [done|]. intros _. exists [], []. rewrite app_nil_r. split_and!; [done|done|by constructor]. }
  destruct (decide (text = [])) as [->|Hne].
  { exists 0, array. split; [done|]. intros _. exists [], []. rewrite app_nil_r. split_and!; [done|done|by constructor]. }
  cbn [parse_loop]. cbn [nonzero negb Z.eqb orb]. rewrite (proj2 (Z.leb_gt _ 0)) by (destruct text; simpl; [done|lia]).
  destruct (parse_round_text fmt p text array Ht Hb Hp Hne) as (ret & cur & remain & arr & -> & Hcase). rewrite bind_ret.
  destruct Hcase as [Hr|[(-> & -> & -> & Hs)|(pc & rest & -> & Hpc & Hw & -> & -> & -> & ->)]].
  - rewrite Herr by done. by do 2 eexists.
  - destruct (Hend fuel cur array) as (r1 & r2 & -> & -> & ->). do 2 eexists. split; [done|]. intros _.
    exists [], text. rewrite app_nil_r. done.
  - rewrite app_assoc in Ht, Hb, Hl. apply text_at_app in Ht as [_ Ht]. apply Forall_app in Hb as [_ Hb].
    assert (length (word pc) <> 0)%nat by (by destruct (word pc)).
    rewrite !length_app in Hl.
    destruct (IH (p + Z.of_nat (length (sep pc ++ word pc))) rest (array ++ [elem pc])) as (ret & r & -> & Hgo); [lia|done|done|lia|].
    do 2 eexists. split; [done|]. intros H0. destruct (Hgo H0) as (ps & tail & -> & -> & Htile).
    exists (pc :: ps), tail. rewrite source_cons, <- !app_assoc. done.
Qed.

Lemma chars_at text rest : text_at (text ++ 0 :: rest) 0 text.
Proof.
  unfold text_at. rewrite load_bytes_in by (unfold room; rewrite length_app; simpl; lia). change (Z.to_nat 0) with 0%nat.
  by rewrite drop_0, take_app_length.
Qed.

(** A format whose pieces are known. *)
Section Pieces.
Context (t : ObTime) (text rest tail : bytes) (scale : Z) (ps : list piece).
Hypothesis Hsc : 0 <= scale <= 9.
Hypothesis Hne : text <> [].
Hypothesis Hparse : parse_datetime_format_string (Some (text ++ 0 :: rest)) (Z.of_nat (length text)) = Ret (0, map elem ps).
Hypothesis Htext : text = source ps tail.
Hypothesis Htile : tiled 0 ps tail.
Hypothesis Hok : Forall (piece_ok t) (map elem ps).

Lemma chars_some : 0 < Z.of_nat (length text).
Proof. destruct text; simpl; [done|lia]. Qed.

Lemma pieces_length len :
  calculate_str_oracle_dfm_length t (Some (text ++ 0 :: rest)) (Z.of_nat (length text)) scale len
  = Ret (0, Z.of_nat (length (rendered t scale ps tail))).
Proof.
  pose proof chars_some. unfold calculate_str_oracle_dfm_length.
  rewrite (proj2 (Z.leb_gt _ 0)), Z.gtb_ltb, (proj2 (Z.ltb_ge _ scale)), (proj2 (Z.ltb_ge scale 0)) by (unfold MAX_SCALE_FOR_ORACLE_TEMPORAL; lia).
  cbn [bool_decide orb]. rewrite Hparse, bind_ret, (dfm_length_tiled t scale ps tail), bind_ret by (done || lia).
  rewrite <- Htext. cbn [nonzero negb Z.eqb andb]. rewrite !Z.add_0_l, Z.sub_sub_distr, Z.sub_diag, Z.add_0_l.
  do 2 f_equal. destruct (Z.gtb_spec (Z.of_nat (length tail)) 0); lia.
Qed.

Lemma pieces_puts mem buf buf_len :
  fits_in mem buf buf_len 0 (length (rendered t scale ps tail)) ->
  puts mem buf buf_len 0 (rendered t scale ps tail)
    (ob_time_to_str_oracle_dfm t (Some (text ++ 0 :: rest)) (Z.of_nat (length text)) scale mem buf buf_len 0).
Proof.
  intros Hf. pose proof chars_some. unfold ob_time_to_str_oracle_dfm.
  rewrite (proj2 (Z.leb_gt buf_len 0)), (proj2 (Z.leb_gt _ 0)) by (unfold fits_in in Hf; lia).
  rewrite Z.gtb_ltb, (proj2 (Z.ltb_ge _ scale)), (proj2 (Z.ltb_ge scale 0)) by (unfold MAX_SCALE_FOR_ORACLE_TEMPORAL; lia).
  cbn [orb]. rewrite Hparse, bind_ret. pose proof (chars_at text rest) as Ht. rewrite Htext in Ht at 2.
  pose proof (print_tiled t _ scale ps tail mem buf buf_len 0 0 Hsc (Z.le_refl 0) Ht Htile Hok Hf) as H'.
  rewrite Z.add_0_l, <- Htext in H'. exact H'.
Qed.

End Pieces.

(** C16: a format string is cut into separators and elements, each the longest that its text
    starts with, or an error is reported.  Where the parts of the time that the elements
    need are in range (and the format has none of the elements SCC, DS, DL, YEAR and
    SYEAR), calculate_str_oracle_dfm_length gives exactly the length of the text and
    ob_time_to_str_oracle_dfm writes exactly this text, changing nothing outside the buffer:
    separators as they are, numbers with their leading zeros, names in the case of their
    element, weeks as in ISO 8601. *)
Theorem oracle_text_printed t text rest scale :
  Forall (fun c => 0 < c < 256) text -> text <> [] -> 0 <= scale <= 9 ->
  exists ret elems, parse_datetime_format_string (Some (text ++ 0 :: rest)) (Z.of_nat (length text)) = Ret (ret, elems)
    /\ (ret = 0 -> Forall (piece_ok t) elems ->
        exists ps tail, elems = map elem ps /\ text = source ps tail /\ tiled 0 ps tail
          /\ (forall len, calculate_str_oracle_dfm_length t (Some (text ++ 0 :: rest)) (Z.of_nat (length text)) scale len
              = Ret (0, Z.of_nat (length (rendered t scale ps tail))))
          /\ forall mem buf buf_len, fits_in mem buf buf_len 0 (length (rendered t scale ps tail)) ->
             puts mem buf buf_len 0 (rendered t scale ps tail)
               (ob_time_to_str_oracle_dfm t (Some (text ++ 0 :: rest)) (Z.of_nat (length text)) scale mem buf buf_len 0)).
Proof.
  intros Hc Hne Hsc. pose proof (chars_at text rest) as Ht.
  assert (0 < length text)%nat by (destruct text; simpl; [done|lia]).
  assert (all_bytes text) as Hb by (eapply Forall_impl; [exact Hc|]; unfold is_byte, uint; lia).
  destruct (parse_tiles (text ++ 0 :: rest) (Z.to_nat (Z.of_nat (length text))) 0 text []) as (ret & elems & Hparse & Htiles); [lia|done|done|lia|].
  assert (parse_datetime_format_string (Some (text ++ 0 :: rest)) (Z.of_nat (length text)) = Ret (ret, elems)) as Hp.
  { unfold parse_datetime_format_string. by rewrite (proj2 (Z.eqb_neq _ 0)) by lia. }
  exists ret, elems. split; [done|]. intros -> Hok. destruct (Htiles eq_refl) as (ps & tail & -> & Esrc & Htile). cbn [app] in *.
  exists ps, tail. split_and!; [done|done|done|intros len; by apply pieces_length|intros mem buf buf_len Hf; by apply pieces_puts].
Qed.

(** * Examples *)

Lemma chars_ok text : forallb (fun c => (0 <? c) && (c <? 256)) text = true -> Forall (fun c => 0 < c < 256) text.
Proof. rewrite forallb_forall. intros H. apply Forall_forall. intros c Hc%list_elem_of_In%H. lia. Qed.

Definition leap_day : ObTime :=
  Time DT_TYPE_ORACLE [2024; 2; 29; 23; 59; 58; 123456789; 19782; 60; 4; -510] (repeat 0 64) (repeat 0 32) (-1) 9.

Definition usual_format : bytes := str "Dy, DD-MON-YYYY HH24:MI:SS.FF TZR (IW)".

Lemma oracle_text_printed_witness :
  exists ps tail, usual_format = source ps tail
    /\ rendered leap_day 9 ps tail = str "Thu, 29-FEB-2024 23:59:58.123456789 -08:30 (09)"
    /\ calculate_str_oracle_dfm_length leap_day (Some (usual_format ++ [0])) (Z.of_nat (length usual_format)) 9 0 = Ret (0, 47)
    /\ puts (repeat 0 60) 0 50 0 (rendered leap_day 9 ps tail)
         (ob_time_to_str_oracle_dfm leap_day (Some (usual_format ++ [0])) (Z.of_nat (length usual_format)) 9 (repeat 0 60) 0 50 0).
Proof.
  destruct (oracle_text_printed leap_day usual_format [] 9) as (ret & elems & Hp & Ht).
  - apply chars_ok. vm_compute. reflexivity.
  - discriminate.
  - lia.
  - vm_compute in Hp. injection Hp as <- <-. destruct (Ht eq_refl) as (ps & tail & He & Hs & Hti & Hl & Hput).
    + repeat (apply Forall_cons; split; [intros f Hf; injection Hf as <-; cbn; unfold part; cbn; try lia|]); try (apply Forall_nil; done).
      all: repeat split; try (cbn; lia); try reflexivity.
      1: apply Exists_cons_hd; reflexivity.
      1: apply (repeat_bytes 0 64); unfold is_byte, uint; lia.
      vm_compute. discriminate.
    + assert (calculate_str_oracle_dfm_length leap_day (Some (usual_format ++ [0])) (Z.of_nat (length usual_format)) 9 0 = Ret (0, 47)) as Ec
        by (vm_compute; reflexivity).
      assert (length (rendered leap_day 9 ps tail) = 47%nat) as Hlen.
      { rewrite (Hl 0) in Ec. injection Ec as Ec. lia. }
      assert (fits_in (repeat 0 60) 0 50 0 (length (rendered leap_day 9 ps tail))) as Hfit by (unfold fits_in; rewrite Hlen; cbn; lia).
      exists ps, tail. split; [exact Hs|]. split; [|split; [exact Ec|exact (Hput _ _ _ Hfit)]].
      destruct (Hput _ _ _ Hfit) as (m & Hm & _ & Htext & _). unfold text_at in Htext. rewrite Hlen in Hm, Htext.
      assert (exists m', ob_time_to_str_oracle_dfm leap_day (Some (usual_format ++ [0])) (Z.of_nat (length usual_format)) 9 (repeat 0 60) 0 50 0
                = Ret (0, m', 47) /\ load_bytes m' 0 47 = Ret (str "Thu, 29-FEB-2024 23:59:58.123456789 -08:30 (09)")) as (m' & Hm' & Ht').
      { eexists. split; vm_compute; reflexivity. }
      rewrite Hm' in Hm. injection Hm as <-. rewrite Z.add_0_l in Htext. rewrite Ht' in Htext. injection Htext as <-. reflexivity.
Defined.

(** The lengths calculated for SCC, DS and DL are short, and that of CC is for the years
    behind 9900: this is what [elem_ok] leaves out. *)
Definition text_of (t : ObTime) (fmt : string) : cres (Z * bytes) :=
  '(_, mem, pos) ← ob_time_to_str_oracle_dfm t (Some (str fmt ++ [0])) (Z.of_nat (length (str fmt))) 9 (repeat 0 80) 0 80 0;
  '(_, len) ← calculate_str_oracle_dfm_length t (Some (str fmt ++ [0])) (Z.of_nat (length (str fmt))) 9 0;
  Ret (len, take (Z.to_nat pos) mem).

Lemma lengths_too_short :
  text_of leap_day "SCC" = Ret (2, str " 21") /\ text_of leap_day "DS" = Ret (7, str "02/29/2024")
  /\ text_of leap_day "DL" = Ret (24, str "Thursday, February 29, 2024")
  /\ text_of (set_part DT_YEAR 9950 leap_day) "CC" = Ret (2, str "100").
Proof. vm_compute. done. Qed.

(** Days of the Julian calendar are printed by the switch, but PATTERNEX has no entry for J. *)
Lemma julian_day_refused :
  parse_datetime_format_string (Some (str "J" ++ [0])) 1 = Ret (1, []).
Proof. vm_compute. done. Qed.

(** The first of January 2021 is in week 53 of 2020; IYYY prints the calendar year. *)
Definition new_year : ObTime :=
  Time DT_TYPE_ORACLE [2021; 1; 1; 0; 0; 0; 0; 18628; 1; 5; 0] (repeat 0 64) (repeat 0 32) (-1) 9.

Lemma iso_year_not_printed : text_of new_year "IYYY-IW" = Ret (7, str "2021-53").
Proof. vm_compute. done. Qed.

End OracleText.
