(* ===== verification/OracleBuffer.v ===== *)
(** The printer of OracleFormat.v stays inside its buffer whatever the format is and
    however short the buffer; a fraction may fill it to the last byte. *)

From stdpp Require Import tactics.
From S2P Require Import Prelude IntStore Uuid TraceText NumText LenEnc StmtTime TimeText OracleFormat OracleText.
Import Uuid NumText StmtTime TimeText OracleFormat OracleText.

Module OracleBuffer.

(** The buffer that ends at [buf + buf_len] is not left; the position may reach its end. *)
Definition inside (mem : bytes) (buf buf_len : Z) (r : cres (Z * bytes * Z)) : Prop :=
  exists ret mem' pos, r = Ret (ret, mem', pos) /\ length mem' = length mem /\ 0 <= pos <= buf_len
    /\ forall i k, i + Z.of_nat k <= buf \/ buf + buf_len <= i -> load_bytes mem' i k = load_bytes mem i k.

Definition buffer_ok (mem : bytes) (buf buf_len pos : Z) : Prop :=
  0 <= buf /\ 0 <= pos <= buf_len /\ buf + buf_len <= Z.of_nat (length mem).

Lemma inside_stay mem buf buf_len pos ret : 0 <= pos <= buf_len -> inside mem buf buf_len (Ret (ret, mem, pos)).
Proof. intros. by exists ret, mem, pos. Qed.

Lemma inside_splice mem buf buf_len pos bs ret pos' :
  buffer_ok mem buf buf_len pos -> pos + Z.of_nat (length bs) <= buf_len -> 0 <= pos' <= buf_len ->
  inside mem buf buf_len (Ret (ret, splice (buf + pos) bs mem, pos')).
Proof.
  intros (Hb & Hp & Hm) Hl Hp'. assert (room mem (buf + pos) (length bs)) by (unfold room; lia).
  do 3 eexists. split_and!; [done|by apply length_splice|lia|lia|].
  intros i k Hik. apply load_bytes_splice_out; [done|lia].
Qed.

Lemma inside_bind mem buf buf_len r (k : Z * bytes * Z -> cres (Z * bytes * Z)) :
  inside mem buf buf_len r ->
  (forall ret mem' pos', length mem' = length mem -> 0 <= pos' <= buf_len -> inside mem' buf buf_len (k (ret, mem', pos'))) ->
  inside mem buf buf_len (r ≫= k).
Proof.
  intros (ret & m1 & p1 & -> & Hl1 & Hp1 & Ho1) Hk. rewrite bind_ret.
  destruct (Hk ret m1 p1 Hl1 Hp1) as (ret2 & m2 & p2 & -> & Hl2 & Hp2 & Ho2).
  exists ret2, m2, p2. split_and!; [done|lia|lia|lia|]. intros i n Hi. rewrite Ho2 by done. by apply Ho1.
Qed.

Lemma printf_inside mem buf buf_len pos text :
  buffer_ok mem buf buf_len pos -> returns text -> inside mem buf buf_len (printf mem buf buf_len pos text).
Proof.
  intros Hok [s ->]. pose proof Hok as (Hb & Hp & Hm). unfold printf. rewrite bind_ret. unfold databuff_printf.
  destruct (Z.leb_spec 0 pos), (Z.ltb_spec pos buf_len); cbn [andb]; try (by apply inside_stay).
  unfold TraceText.TraceText.snprintf. rewrite (proj2 (Z.eqb_neq (buf_len - pos) 0)) by lia.
  set (out := take _ s ++ [0]). assert (pos + Z.of_nat (length out) <= buf_len).
  { unfold out. rewrite length_app, length_take. simpl. lia. }
  rewrite store_bytes_splice by (unfold room; lia). rewrite !bind_ret.
  assert (pos + Z.of_nat (length (map (wrap 8) out)) <= buf_len) by (by rewrite length_map).
  repeat case_match; apply inside_splice; try done; lia.
Qed.

Lemma special_inside mem buf buf_len pos k s t mode padding :
  is_name k s t -> buffer_ok mem buf buf_len pos -> inside mem buf buf_len (special_mode_sprintf mem buf buf_len pos s mode padding).
Proof.
  intros (-> & Hb & Hl) Hok. pose proof Hok as (H1 & H2 & H3). unfold special_mode_sprintf. cbn [ptr_ len_].
  destruct (Z.leb_spec (Z.of_nat (length t)) 0); [lia|]. cbn [orb].
  destruct ((padding >? 0) && (padding <? Z.of_nat (length t))) eqn:E; [apply inside_stay; lia|].
  apply andb_false_iff in E. rewrite Z.gtb_ltb, !Z.ltb_ge in E.
  destruct (Z.geb_spec (pos + (if padding >? 0 then padding else Z.of_nat (length t))) buf_len) as [|Hlt]; [apply inside_stay; lia|].
  rewrite Nat2Z.id, (load_bytes_in t 0 (length t)) by (unfold room; lia). rewrite bind_ret. change (Z.to_nat 0) with 0%nat.
  rewrite drop_0, take_ge by lia.
  assert (pos + Z.max (Z.of_nat (length t)) padding < buf_len) by (destruct (Z.gtb_spec padding 0); lia).
  rewrite special_chars_writes, imap_cased by (done || (unfold room; lia)). rewrite bind_ret.
  set (sp := repeat 32 (Z.to_nat (padding - Z.of_nat (length t)))).
  assert (length sp = Z.to_nat (padding - Z.of_nat (length t))) by apply repeat_length.
  rewrite store_bytes_splice, map_u8_bytes by first [apply repeat_bytes; unfold is_byte, uint; lia
    | unfold room; rewrite length_splice by (unfold room; rewrite length_cased; lia); lia].
  rewrite bind_ret. replace (buf + (pos + Z.of_nat (length t))) with (buf + pos + Z.of_nat (length (cased mode t))) by (rewrite length_cased; lia).
  rewrite splice_app by (unfold room; rewrite length_app, length_cased; lia).
  apply inside_splice; [done|rewrite length_app, length_cased; lia|lia].
Qed.

Lemma fmt_nd_inside mem buf buf_len pos n v :
  1 <= n <= 9 -> buffer_ok mem buf buf_len pos -> inside mem buf buf_len (data_fmt_nd mem buf buf_len pos n v).
Proof.
  intros Hn Hok. pose proof Hok as (H1 & H2 & H3). unfold data_fmt_nd.
  destruct ((n <=? 0) || (v <? 0) || (v >? 999999999)) eqn:E; [apply inside_stay; lia|].
  rewrite !orb_false_iff, Z.gtb_ltb, Z.leb_gt, !Z.ltb_ge in E.
  destruct (Z.gtb_spec n (buf_len - pos)); [apply inside_stay; lia|].
  unfold format_signed. rewrite (proj2 (Z.ltb_ge v 0)) by lia.
  set (b0 := repeat 0 (Z.to_nat MAX_DIGITS10_STR_SIZE)). unfold format_unsigned. fold (format_from 10 b0 (MAX_DIGITS10_STR_SIZE - 1) v).
  assert (length b0 = 23%nat) as Hb0 by done.
  destruct (format_digits 10 b0 (MAX_DIGITS10_STR_SIZE - 1) v) as (k & Hk0 & Hk & _ & _ & ->).
  { change (100 ^ Z.of_nat 11) with 10000000000000000000000. lia. }
  { unfold room, MAX_DIGITS10_STR_SIZE. lia. }
  rewrite !bind_ret. unfold MAX_DIGITS10_STR_SIZE in *. replace (23 - 1 - (23 - 1 - Z.of_nat k)) with (Z.of_nat k) by lia.
  destruct (Z.gtb_spec (Z.of_nat k) n); [apply inside_stay; lia|].
  set (zeros := repeat 48 (Z.to_nat (n - Z.of_nat k))).
  assert (length zeros = Z.to_nat (n - Z.of_nat k)) as Hz by apply repeat_length.
  rewrite store_bytes_splice, map_u8_bytes by first [apply repeat_bytes; unfold is_byte, uint; lia | unfold room; lia].
  rewrite bind_ret, Nat2Z.id.
  rewrite load_bytes_in by (unfold room; rewrite length_splice by (unfold room; rewrite length_fixed; lia); lia). rewrite bind_ret.
  set (ds := take k _). assert (length ds <= k)%nat as Hd by (unfold ds; rewrite length_take; lia).
  assert (room mem (buf + pos) (length zeros)) by (unfold room; lia).
  replace (buf + pos + n - Z.of_nat k) with (buf + pos + Z.of_nat (length zeros)) by lia.
  rewrite store_bytes_splice by (unfold room; rewrite length_splice by done; lia). rewrite bind_ret.
  rewrite splice_app by (unfold room; rewrite length_app, length_map; lia).
  apply inside_splice; [done|rewrite length_app, length_map; lia|lia].
Qed.

(** The parts are in the range of the tables, and their arithmetic does not overflow. *)
Definition time_safe (t : ObTime) : Prop :=
  - 1000000 <= part DT_YEAR t <= 1000000 /\ 0 <= part DT_MON t <= 12 /\ - 1000000 <= part DT_MDAY t <= 1000000
  /\ - 10000 <= part DT_HOUR t <= 10000 /\ - 10000 <= part DT_MIN t <= 10000 /\ - 10000 <= part DT_SEC t <= 10000
  /\ - 1000000000 <= part DT_DATE t <= 1000000000 /\ 0 <= part DT_YDAY t <= 366 /\ 0 <= part DT_WDAY t <= 7
  /\ - 1000000 <= part DT_OFFSET_MIN t <= 1000000 /\ c_string (tz_name_ t) /\ c_string (tzd_abbr_ t).

Definition offsets_ok : bool :=
  forallb (fun o => forallb (fun w =>
    match WDAY_OFFSET o w with Ret v => (0 <=? v) && (v <=? 7) | _ => false end) (seqZ 0 8)) (seqZ (-6) 13).

Lemma wday_offset_ok o w : -6 <= o <= 6 -> 0 <= w <= 7 -> exists v, WDAY_OFFSET o w = Ret v /\ 0 <= v <= 7.
Proof.
  intros Ho Hw. assert (offsets_ok = true) as H by done. unfold offsets_ok in H. rewrite forallb_forall in H.
  specialize (H o ltac:(apply list_elem_of_In, elem_of_seqZ; lia)). rewrite forallb_forall in H.
  specialize (H w ltac:(apply list_elem_of_In, elem_of_seqZ; lia)).
  destruct (WDAY_OFFSET o w) as [v| |]; try done. exists v. split; [done|]. lia.
Qed.

Lemma week1_ok w a b : 0 <= w <= 7 -> 0 <= a <= 1 -> 0 <= b <= 1 -> returns (week1 w a b).
Proof.
  intros Hw Ha Hb. assert (a = 0 \/ a = 1) as [->| ->] by lia; assert (b = 0 \/ b = 1) as [->| ->] by lia;
    assert (w = 0 \/ w = 1 \/ w = 2 \/ w = 3 \/ w = 4 \/ w = 5 \/ w = 6 \/ w = 7) as H by lia;
    repeat (destruct H as [->|H]; [by eexists|]); subst; by eexists.
Qed.

Lemma week_returns t mode : 0 <= part DT_YDAY t <= 366 -> 0 <= part DT_WDAY t <= 7 -> returns (ob_time_to_week t mode).
Proof.
  intros Hy Hw. unfold ob_time_to_week.
  set (sun := if nonzero (Z.land DT_WEEK_SUN_BEGIN mode) then 1 else 0).
  set (ge4 := if nonzero (Z.land DT_WEEK_GE_4_BEGIN mode) then 1 else 0).
  assert (0 <= sun <= 1) by (unfold sun; case_match; lia). assert (0 <= ge4 <= 1) by (unfold ge4; case_match; lia).
  assert (forall l, DAYS_PER_YEAR l = 365 \/ DAYS_PER_YEAR l = 366) as Hd by (intros l; unfold DAYS_PER_YEAR; case_match; lia).
  match goal with |- returns (?m ≫= _) => assert (returns m) as [week ->] end.
  { destruct (Z.gtb_spec (part DT_YDAY t) (365 - 3)); cbn [andb]; [|by eexists]. case_match; [|by eexists].
    destruct (wday_offset_ok (DAYS_PER_YEAR (IS_LEAP_YEAR (part DT_YEAR t)) - part DT_YDAY t + 1) (part DT_WDAY t)) as (v & -> & Hv);
      [destruct (Hd (IS_LEAP_YEAR (part DT_YEAR t))); lia|done|].
    rewrite bind_ret. destruct (week1_ok v sun ge4) as [x ->]; [done..|]. by eexists. }
  rewrite bind_ret. destruct (week =? 0); [|by eexists].
  destruct (wday_offset_ok (Z.rem (1 - part DT_YDAY t) 7) (part DT_WDAY t)) as (v & -> & Hv); [dlia|done|].
  rewrite bind_ret. destruct (week1_ok v sun ge4) as [x ->]; [done..|]. rewrite bind_ret. case_match; [|by eexists].
  destruct (wday_offset_ok (Z.rem (1 - DAYS_PER_YEAR (IS_LEAP_YEAR (part DT_YEAR t - 1)) - part DT_YDAY t) 7) (part DT_WDAY t))
    as (v' & -> & Hv'); [dlia|done|].
  rewrite bind_ret. destruct (week1_ok v' sun ge4) as [x' ->]; [done..|]. by eexists.
Qed.

Lemma print_inside mem buf buf_len pos s :
  buffer_ok mem buf buf_len pos -> inside mem buf buf_len (databuff_printf mem buf buf_len pos s).
Proof. intros Hok. apply (printf_inside mem buf buf_len pos (Ret s)); [done|by eexists]. Qed.

Lemma pattern_inside mem buf buf_len pos f mode padding :
  f <> J -> buffer_ok mem buf buf_len pos -> inside mem buf buf_len (special_mode_sprintf mem buf buf_len pos (PATTERNEX f) mode padding).
Proof. intros Hf Hok. destruct (pattern_name f Hf) as (s & Hs & _). by apply (special_inside _ _ _ _ 5 _ s). Qed.

Lemma table_inside mem buf buf_len pos l i mode padding :
  table_ok 9 l = true -> 0 <= i < Z.of_nat (length l) -> buffer_ok mem buf buf_len pos ->
  inside mem buf buf_len (s ← entry l i; special_mode_sprintf mem buf buf_len pos s mode padding).
Proof.
  intros Ht Hi Hok. destruct (entry_name 9 l i Ht Hi) as (s & -> & Hs). rewrite bind_ret.
  by apply (special_inside _ _ _ _ 9 _ (name l i)).
Qed.

Lemma fraction_inside mem buf buf_len pos k v :
  1 <= k <= 9 -> buffer_ok mem buf buf_len pos ->
  inside mem buf buf_len (p ← entry power_of_10 (MAX_SCALE_FOR_ORACLE_TEMPORAL - k); data_fmt_nd mem buf buf_len pos k (Z.quot v p)).
Proof.
  intros Hk Hok. unfold MAX_SCALE_FOR_ORACLE_TEMPORAL. rewrite power_entry, bind_ret by done. by apply fmt_nd_inside.
Qed.

Lemma load_prefix_returns m p n : room m p n -> returns (load_prefix m p n).
Proof.
  revert p. induction n as [|n IH]; intros p Hr; [by eexists|]. cbn [load_prefix].
  destruct (load_in m p) as (c & -> & _); [unfold room in Hr; lia|]. rewrite bind_ret. destruct (c =? 0); [by eexists|].
  destruct (IH (p + 1)) as [s ->]; [unfold room in *; lia|]. by eexists.
Qed.

Lemma print_name_returns k s t : is_name k s t -> returns (print_name s).
Proof.
  intros (-> & _ & Hl). unfold print_name, print_s. cbn [ptr_ len_ of_option]. rewrite bind_ret, (proj2 (Z.ltb_ge _ _)) by lia.
  apply load_prefix_returns. unfold room. lia.
Qed.

Ltac int_returns := unfold abs; repeat first [rewrite bind_ret | rewrite int32_ok by lia]; by eexists.

Lemma elem_inside t scale e flag mem buf buf_len pos :
  time_safe t -> 0 <= scale <= 9 -> buffer_ok mem buf buf_len pos ->
  inside mem buf buf_len (print_elem t scale e flag mem buf buf_len pos).
Proof.
  intros (Hy & Hmo & Hd & Hh & Hmi & Hs & Hda & Hyd & Hw & Hof & Hn & Ha) Hsc Hok.
  assert (inside mem buf buf_len (Ret (1, mem, pos))) as H1 by (apply inside_stay; apply Hok).
  assert (inside mem buf buf_len (Ret (0, mem, pos))) as H0 by (apply inside_stay; apply Hok).
  destruct flag; cbn [print_elem]; try done; try (by apply print_inside);
    try (apply printf_inside; [done|int_returns]);
    try (destruct (HAS_TYPE_ORACLE (mode_ t)); [|done]; try (apply fraction_inside; [apply fraction_digits_bound|done]);
         try (apply printf_inside; [done|int_returns]));
    try (apply pattern_inside; [by case_match|done]);
    try (apply table_inside; [done|simpl; lia|done]).
  - destruct (Z.eqb_spec scale 0); [done|]. apply fraction_inside; [lia|done].
  - apply printf_inside; [done|]. destruct (week_returns t DT_WEEK_GE_4_BEGIN Hyd Hw) as [w ->]. by eexists.
  - apply printf_inside; [done|]. destruct (entry_name 9 WDAY_NAMES (part DT_WDAY t)) as (w & -> & Hwn); [done|simpl; lia|].
    destruct (entry_name 9 MON_NAMES (part DT_MON t)) as (m & -> & Hmn); [done|simpl; lia|]. rewrite !bind_ret.
    destruct (print_name_returns 9 w _ Hwn) as [? ->], (print_name_returns 9 m _ Hmn) as [? ->]. by eexists.
  - case_match; [|done]. apply printf_inside; [done|]. rewrite strlen_until_nul, bind_ret, print_until_nul by done. by eexists.
  - case_match; [|apply printf_inside; [done|int_returns]].
    apply printf_inside; [done|]. rewrite strlen_until_nul, bind_ret, print_until_nul by done. by eexists.
  - case_match; [done|]. apply printf_inside; [done|int_returns].
Qed.

Lemma separators_inside fmt mem buf buf_len pos last s :
  text_at fmt last s -> separators s -> Z.of_nat (length s) < 2 ^ 31 -> buffer_ok mem buf buf_len pos ->
  inside mem buf buf_len (print_separators fmt last (Z.of_nat (length s)) mem buf buf_len pos).
Proof.
  intros Ht Hs Hl Hok. unfold print_separators. destruct (Z.gtb_spec (Z.of_nat (length s)) 0); [|apply inside_stay; apply Hok].
  apply printf_inside; [done|]. rewrite swrap_small by (lia || (unfold sint; lia)).
  unfold print_s. rewrite (proj2 (Z.ltb_ge _ 0)), Nat2Z.id by lia. exists s. apply load_prefix_text; [done|]. by apply separators_bytes.
Qed.

Lemma tiled_inside t fmt scale ps tail : forall mem buf buf_len pos last,
  time_safe t -> 0 <= scale <= 9 -> 0 <= last -> Z.of_nat (length (source ps tail)) < 2 ^ 31 ->
  text_at fmt last (source ps tail) -> tiled last ps tail -> buffer_ok mem buf buf_len pos ->
  inside mem buf buf_len
    ('(ret, mem, pos, last') ← print_loop t fmt scale (map elem ps) 0 mem buf buf_len pos last;
     if nonzero ret then Ret (ret, mem, pos)
     else print_separators fmt last' (last + Z.of_nat (length (source ps tail)) - last') mem buf buf_len pos).
Proof.
  induction ps as [|pc ps IH]; intros mem buf buf_len pos last Hsafe Hsc Hlast Hmax Ht Htile Hok.
  { cbn [map print_loop]. rewrite bind_ret. cbn [nonzero negb Z.eqb]. unfold source in *. cbn [map concat app] in *.
    replace (last + Z.of_nat (length tail) - last) with (Z.of_nat (length tail)) by lia. by apply separators_inside. }
  destruct Htile as ((Hsep & Hoff & flag & Hfl & Hsp & _) & Htile).
  destruct (spelled_length _ _ Hsp) as (Hlen & _ & _). rewrite source_cons, !length_app in *.
  apply text_at_app in Ht as [Ht1 Ht2]. apply text_at_app in Ht1 as [Hts _]. rewrite length_app in Ht2.
  cbn [map print_loop]. cbn [nonzero negb Z.eqb]. rewrite Hfl, Hoff, Hlen, (proj2 (Z.ltb_ge _ 0)) by lia.
  replace (last + Z.of_nat (length (sep pc)) - last) with (Z.of_nat (length (sep pc))) by lia.
  rewrite bind_assoc. apply inside_bind; [apply separators_inside; [done|done|lia|done]|].
  intros ret m1 p1 Hl1 Hp1. assert (buffer_ok m1 buf buf_len p1) as Hok1 by (unfold buffer_ok in *; lia).
  rewrite bind_assoc. apply inside_bind.
  { destruct (nonzero ret); [apply inside_stay; lia|by apply elem_inside]. }
  intros ret2 m2 p2 Hl2 Hp2. destruct (nonzero ret2) eqn:E.
  { destruct (map elem ps) as [|x xs]; cbn [print_loop]; rewrite ?E, bind_ret, E; apply inside_stay; lia. }
  assert (ret2 = 0) as -> by (unfold nonzero in E; destruct (Z.eqb_spec ret2 0); [done|discriminate]).
  specialize (IH m2 buf buf_len p2 (last + Z.of_nat (length (sep pc) + length (word pc))) Hsafe Hsc).
  replace (last + Z.of_nat (length (sep pc)) + Z.of_nat (length (word pc))) with (last + Z.of_nat (length (sep pc) + length (word pc))) by lia.
  replace (last + Z.of_nat (length (sep pc) + length (word pc) + length (source ps tail)))
    with (last + Z.of_nat (length (sep pc) + length (word pc)) + Z.of_nat (length (source ps tail))) by lia.
  apply IH; [lia|lia|done|done|unfold buffer_ok in *; lia].
Qed.

(** C40: ob_time_to_str_oracle_dfm returns for every format string and buffer, also where the
    text does not fit or the format is refused, as long as month and week day index their
    tables: it changes no byte outside the buffer, and the position it returns is at most
    the end of the buffer. *)
Theorem print_stays_inside t text rest scale mem buf buf_len pos :
  time_safe t -> Forall (fun c => 0 < c < 256) text -> Z.of_nat (length text) < 2 ^ 31 -> scale <= 9 ->
  buffer_ok mem buf buf_len pos ->
  inside mem buf buf_len
    (ob_time_to_str_oracle_dfm t (Some (text ++ 0 :: rest)) (Z.of_nat (length text)) scale mem buf buf_len pos).
Proof.
  intros Hsafe Hc Hmax Hsc Hok. pose proof (chars_at text rest) as Ht.
  assert (all_bytes text) as Hb by (eapply Forall_impl; [exact Hc|]; unfold is_byte, uint; lia).
  unfold ob_time_to_str_oracle_dfm. case_match; [apply inside_stay; apply Hok|].
  set (scale' := if scale <? 0 then _ else scale). assert (0 <= scale' <= 9) as Hsc'.
  { unfold scale', DEFAULT_SCALE_FOR_ORACLE_FRACTIONAL_SECONDS. destruct (Z.ltb_spec scale 0); lia. }
  destruct (parse_tiles (text ++ 0 :: rest) (Z.to_nat (Z.of_nat (length text))) 0 text []) as (ret & elems & Hparse & Htiles); [lia|done|done|lia|].
  assert (parse_datetime_format_string (Some (text ++ 0 :: rest)) (Z.of_nat (length text)) = Ret (ret, elems)) as ->.
  { unfold parse_datetime_format_string. apply orb_false_iff in H as [H _]. apply orb_false_iff in H as [_ H%Z.leb_gt].
    by rewrite (proj2 (Z.eqb_neq _ 0)) by lia. }
  rewrite bind_ret. destruct (Z.eqb_spec ret 0) as [->|Hne].
  - destruct (Htiles eq_refl) as (ps & tail & -> & Esrc & Htile). rewrite Esrc in Ht, Hmax. cbn [app].
    pose proof (tiled_inside t _ scale' ps tail mem buf buf_len pos 0 Hsafe Hsc' (Z.le_refl 0) Hmax Ht Htile Hok) as H'.
    rewrite Z.add_0_l, <- Esrc in H'. exact H'.
  - assert (nonzero ret = true) as E by (unfold nonzero; by rewrite (proj2 (Z.eqb_neq ret 0))).
    destruct elems; cbn [print_loop]; rewrite ?E, bind_ret, E; apply inside_stay; apply Hok.
Qed.

(** A buffer of three bytes for ten characters. *)
Lemma print_stays_inside_witness :
  inside (repeat 7 9) 2 3 (ob_time_to_str_oracle_dfm leap_day (Some (str "DD-MM-YYYY" ++ [0])) 10 9 (repeat 7 9) 2 3 0)
  /\ ob_time_to_str_oracle_dfm leap_day (Some (str "DD-MM-YYYY" ++ [0])) 10 9 (repeat 7 9) 2 3 0
     = Ret (1, [7; 7; 50; 57; 0; 7; 7; 7; 7], 2).
Proof.
  split; [|vm_compute; reflexivity].
  apply (print_stays_inside leap_day (str "DD-MM-YYYY") [] 9 (repeat 7 9) 2 3 0).
  - assert (c_string (repeat 0 64) /\ c_string (repeat 0 32)) as [H1 H2].
    { split; (split; [apply Exists_cons_hd; reflexivity|split; [|vm_compute; reflexivity]]); apply repeat_bytes; unfold is_byte, uint; lia. }
    unfold time_safe, part. cbn -[repeat]. repeat (split; [lia|]). split; [exact H1|exact H2].
  - apply chars_ok. vm_compute. reflexivity.
  - vm_compute. reflexivity.
  - lia.
  - unfold buffer_ok. cbn. lia.
Defined.

(** The check of data_fmt_nd leaves no room for the NUL: behind two elements whose length
    was calculated one short, a fraction fills a buffer of two spare bytes, and the byte
    behind the text is not in the buffer any more. *)
Lemma fraction_fills_buffer :
  calculate_str_oracle_dfm_length leap_day (Some (str "SCC SCC FF9" ++ [0])) 11 9 0 = Ret (0, 15)
  /\ exists mem, ob_time_to_str_oracle_dfm leap_day (Some (str "SCC SCC FF9" ++ [0])) 11 9 (repeat 0 17) 0 (15 + 2) 0 = Ret (0, mem, 17)
       /\ length mem = 17%nat /\ store mem 17 0 = Fault.
Proof. split; [vm_compute; done|]. eexists. split; [vm_compute; reflexivity|]. vm_compute. done. Qed.

End OracleBuffer.
