(* ===== verification/TextTime.v ===== *)
(** Times and intervals of Oracle mode in text rows, libmariadb/mariadb_lib.c: from the bytes of a
    column to the time that OracleFormat.v prints (oracle_date_to_ob_time with strtoll10 of
    ob_strtoll10.c, oracle_timestamp_to_ob_time), its length and text in the format of the
    session, and the text of intervals.

    A timestamp is the calendar date that was sent, with its day of the year and week
    ([stamp_time]), and an interval is printed in at most the characters that were
    calculated ([interval_text]). *)

From stdpp Require Import tactics.
From S2P Require Import Prelude IntStore Uuid TraceText NumText LenEnc StmtTime TimeText OracleTime StmtFetch StmtFloat StmtOracle OracleFormat OracleText.
Import Uuid NumText StmtTime TimeText OracleTime StmtOracle OracleFormat OracleText.

Module TextTime.

(** nls_date_format, nls_timestamp_format and nls_timestamp_tz_format of the extension. *)
Record nls_formats : Type := Nls { nls_date_format : ptr; nls_timestamp_format : ptr; nls_timestamp_tz_format : ptr }.

Definition timestamp_type (type : Z) : bool :=
  (type =? MYSQL_TYPE_OB_TIMESTAMP_NANO) || (type =? MYSQL_TYPE_OB_TIMESTAMP_WITH_LOCAL_TIME_ZONE)
  || (type =? MYSQL_TYPE_OB_TIMESTAMP_WITH_TIME_ZONE).

(** * Dates *)

(** strtol of the C library, with base 10. *)
Fixpoint skip_white (m : bytes) (p : Z) : cres (bytes * Z) :=
  match m with
  | [] => Fault
  | c :: m' => if isspace c then skip_white m' (p + 1) else Ret (m, p)
  end.

Fixpoint strtol_digits (m : bytes) (v n : Z) : cres (Z * Z) :=
  match m with
  | [] => Fault
  | c :: m => if (48 <=? c) && (c <=? 57) then strtol_digits m (v * 10 + (c - 48)) (n + 1) else Ret (v, n)
  end.

(** The value and the position behind it. *)
Definition strtol (mem : bytes) (p : Z) : cres (Z * Z) :=
  '(m, q) ← skip_white (drop (Z.to_nat p) mem) p;
  c ← of_option (head m);
  let sign := (c =? 45) || (c =? 43) in
  '(v, n) ← strtol_digits (if sign then tail m else m) 0 0;
  let v := if c =? 45 then - v else v in
  if n =? 0 then Ret (0, p)
  else Ret (Z.max LONGLONG_MIN (Z.min LONGLONG_MAX v), q + (if sign then 1 else 0) + n).

(** The byte at [*endptr] is a NUL while the number is read. *)
Definition strtoll10 (mem : bytes) (nptr endptr : Z) : cres (Z * Z) :=
  mem ← store mem endptr 0;
  strtol mem nptr.

(** The parts with the separators behind them; the seconds are the last part. *)
Definition date_parts : list (nat * Z) := [(DT_YEAR, 45); (DT_MON, 45); (DT_MDAY, 32); (DT_HOUR, 58); (DT_MIN, 58)].

Fixpoint read_parts (mem : bytes) (start end_ : Z) (parts : list (nat * Z)) (t : ObTime) : cres ObTime :=
  match parts with
  | [] => '(v, _) ← strtoll10 mem start end_; Ret (set_part DT_SEC (s32 v) t)
  | (i, separator) :: parts =>
      '(v, pos) ← strtol mem start;
      let t := set_part i (s32 v) t in
      c ← load mem pos;
      if (c =? separator) && (end_ - pos >? 1) then read_parts mem (pos + 1) end_ parts t else Ret t
  end.

Definition set_zone_id (v : Z) (t : ObTime) : ObTime := Time (mode_ t) (parts_ t) (tz_name_ t) (tzd_abbr_ t) v (nano_scale_ t).

Definition oracle_date_to_ob_time (t : ObTime) (mem : bytes) (cp len : Z) : cres ObTime :=
  let t := set_zone_id (-1) t in
  if len >? 0 then read_parts mem cp (cp + len) date_parts t else Ret t.

(** * Timestamps *)

Definition schar (mem : bytes) (p : Z) : cres Z := c ← load mem p; Ret (s8 c).

(** Hours and minutes, or centuries and years, with one sign. *)
Definition signed_pair (a b factor : Z) : Z := (if (a <? 0) || (b <? 0) then -1 else 1) * (Z.abs a * factor + Z.abs b).

Fixpoint copy_parts (mem : bytes) (p : Z) (i : nat) (n : nat) (t : ObTime) : cres ObTime :=
  match n with
  | O => Ret t
  | S n => v ← schar mem p; copy_parts mem (p + 1) (S i) n (set_part i v t)
  end.

(** What every timestamp has. *)
Definition timestamp_parts (t : ObTime) (mem : bytes) (cp : Z) : cres ObTime :=
  c ← schar mem cp;
  y ← schar mem (cp + 1);
  t ← copy_parts mem (cp + 2) DT_MON 6 (set_part DT_YEAR (signed_pair c y 100) t);
  nano ← uint4korr mem (cp + 7);
  '(date, t) ← ob_time_to_date (set_part DT_USEC (s32 nano) t);
  let t := set_part DT_DATE date t in
  scale ← load mem (cp + 11);
  Ret (Time (mode_ t) (parts_ t) (tz_name_ t) (tzd_abbr_ t) (-1) (Z.min scale 9)).

(** The zone, by its offset or by its names, which go to arrays of 64 and 32 bytes. *)
Definition timestamp_zone (t : ObTime) (mem : bytes) (cp : Z) : cres ObTime :=
  h ← schar mem (cp + 12);
  m ← schar mem (cp + 13);
  let t := set_part DT_OFFSET_MIN (signed_pair h m 60) t in
  tz_m ← load mem (cp + 14);
  tz_n ← load mem (cp + 15 + tz_m);
  if tz_m >? 0 then
    name ← load_bytes mem (cp + 15) (Z.to_nat tz_m);
    tz_name ← store_bytes (tz_name_ t) 0 name;
    abbr ← load_bytes mem (cp + 15 + tz_m + 1) (Z.to_nat tz_n);
    tzd_abbr ← store_bytes (tzd_abbr_ t) 0 abbr;
    Ret (Time (mode_ t) (parts_ t) tz_name tzd_abbr 0 (nano_scale_ t))
  else Ret t.

Definition oracle_timestamp_to_ob_time (t : ObTime) (mem : bytes) (cp type : Z) : cres ObTime :=
  t ← timestamp_parts t mem cp;
  if type =? MYSQL_TYPE_OB_TIMESTAMP_WITH_TIME_ZONE then timestamp_zone t mem cp else Ret t.

(** * In the format of the session *)

Definition get_nls_format (nls : nls_formats) (type : Z) : ptr :=
  if type =? MYSQL_TYPE_DATETIME then nls_date_format nls
  else if (type =? MYSQL_TYPE_OB_TIMESTAMP_NANO) || (type =? MYSQL_TYPE_OB_TIMESTAMP_WITH_LOCAL_TIME_ZONE) then nls_timestamp_format nls
  else if type =? MYSQL_TYPE_OB_TIMESTAMP_WITH_TIME_ZONE then nls_timestamp_tz_format nls
  else None.

(** memset, and DT_TYPE_ORACLE. *)
Definition no_time : ObTime :=
  Time DT_TYPE_ORACLE (repeat 0 11) (repeat 0 (Z.to_nat OB_MAX_TZ_NAME_LEN)) (repeat 0 (Z.to_nat OB_MAX_TZ_ABBR_LEN)) 0 0.

Definition column_time (mem : bytes) (cp len type : Z) : cres ObTime :=
  if timestamp_type type then oracle_timestamp_to_ob_time no_time mem cp type else oracle_date_to_ob_time no_time mem cp len.

Definition calculate_new_time_length_with_nls (nls : nls_formats) (mem : bytes) (cp len type : Z) : cres Z :=
  t ← column_time mem cp len type;
  match get_nls_format nls type with
  | Some fmt =>
      fmt_len ← strlen fmt;
      '(_, length) ← calculate_str_oracle_dfm_length t (Some fmt) fmt_len (nano_scale_ t) 0;
      Ret (u64 length)
  | None => Ret 0
  end.

(** The text goes to [out + to]; returns the memory and the length. *)
Definition rewrite_new_time_with_nls (nls : nls_formats) (mem : bytes) (cp len : Z) (out : bytes) (to buf_len type : Z)
    : cres (bytes * Z) :=
  t ← column_time mem cp len type;
  let fmt := get_nls_format nls type in
  fmt_len ← (match fmt with Some s => strlen s | None => Ret 0 end);
  '(_, out, pos) ← ob_time_to_str_oracle_dfm t fmt fmt_len (nano_scale_ t) out to buf_len 0;
  Ret (out, u64 pos).

(** * Intervals *)

Definition digits (i : Z) : Z := default 0 (str "0123456789abcdef" !! Z.to_nat i).

(** From the last of [n] places on; the memory and the next place. *)
Fixpoint ultoa_digits (n : nat) (mem : bytes) (p base val : Z) : cres (bytes * nat) :=
  match n with
  | O => Ret (mem, O)
  | S n' =>
      mem ← store mem (p + Z.of_nat n') (digits (val mod base));
      if val / base =? 0 then Ret (mem, n') else ultoa_digits n' mem p base (val / base)
  end.

(** Zeros in front; returns the memory and the start of the text, or [None] for NULL. *)
Definition my_safe_ultoa (base val : Z) (mem : bytes) (buf length : Z) (need_zero : bool) : cres (bytes * option Z) :=
  if length <=? 0 then Ret (mem, None)
  else
    '(mem, n) ← ultoa_digits (Z.to_nat length) mem buf base val;
    if need_zero then
      mem ← store_bytes mem buf (repeat 48 n);
      Ret (mem, Some buf)
    else Ret (mem, Some (buf + Z.of_nat n)).

Definition my_safe_ltoa (base val : Z) (mem : bytes) (buf length : Z) (need_zero : bool) : cres (bytes * option Z) :=
  if length <=? 1 then Ret (mem, None)
  else
    '(mem, b) ← my_safe_ultoa base (u64 (Z.abs val)) mem (buf + 1) (u32 (length - 1)) need_zero;
    b ← of_option b;
    mem ← store mem (b - 1) (if val <? 0 then 45 else 43);
    Ret (mem, Some (b - 1)).

Fixpoint fast_digits10 (fuel : nat) (v : Z) : cres Z :=
  if v <? 10 then Ret 1
  else if v <? 100 then Ret 2
  else if v <? 1000 then Ret 3
  else if v <? 1000000000000 then
    if v <? 100000000 then
      if v <? 1000000 then
        if v <? 10000 then Ret 4 else Ret (5 + if v >=? 100000 then 1 else 0)
      else Ret (7 + if v >=? 10000000 then 1 else 0)
    else if v <? 10000000000 then Ret (9 + if v >=? 1000000000 then 1 else 0)
    else Ret (11 + if v >=? 100000000000 then 1 else 0)
  else match fuel with
    | O => OutOfFuel
    | S fuel => n ← fast_digits10 fuel (v / 1000000000000); Ret (12 + n)
    end.

Definition calculate_interval_length (mem : bytes) (cp type : Z) : cres Z :=
  if type =? MYSQL_TYPE_OB_INTERVAL_YM then
    year ← uint4korr mem (cp + 1);
    year_digit_cnt ← fast_digits10 1 year;
    year_scale ← load mem (cp + 6);
    Ret (Z.max 7 (4 + Z.max year_digit_cnt year_scale))
  else
    day ← uint4korr mem (cp + 1);
    day_digit_cnt ← fast_digits10 1 day;
    fs ← uint4korr mem (cp + 8);
    fs_digit_cnt ← fast_digits10 1 fs;
    day_scale ← load mem (cp + 12);
    fs_scale ← schar mem (cp + 13);
    let convert_len := 10 + Z.max day_digit_cnt day_scale in
    let convert_len := if fs_scale >? 0 then convert_len + 1 + Z.max fs_digit_cnt fs_scale else convert_len in
    Ret (Z.max 14 convert_len).

(** The format %0?u; its digit is that of the scale, and another character is no valid
    conversion. *)
Definition print_scaled (scale v : Z) : cres bytes := if scale <=? 9 then Ret (print_u (Z.to_nat scale) v) else Fault.

(** Two digits at [p]. *)
Definition two_digits (out : bytes) (p v : Z) : cres bytes :=
  '(out, _) ← my_safe_ultoa 10 v out p 2 true;
  Ret out.

(** Sign and first number, which both intervals start with; the length printed so far. *)
Definition interval_head (mem : bytes) (cp scale : Z) (out : bytes) (to to_size : Z) : cres (bytes * Z) :=
  sign ← load mem cp;
  out ← store out to (if sign >? 0 then 45 else 43);
  scale ← load mem (cp + scale);
  v ← uint4korr mem (cp + 1);
  text ← print_scaled scale v;
  TraceText.TraceText.snprintf out (to + 1) to_size text.

(** The memory and the length, or [None] for a failure. *)
Definition rewrite_interval (mem : bytes) (cp : Z) (out : bytes) (to to_size type : Z) : cres (bytes * option Z) :=
  if type =? MYSQL_TYPE_OB_INTERVAL_YM then
    '(out, wlen) ← interval_head mem cp 6 out to to_size;
    if wlen <=? 0 then Ret (out, None)
    else
      let convert_len := 1 + wlen in
      out ← store out (to + convert_len) 45;
      month ← load mem (cp + 5);
      out ← two_digits out (to + convert_len + 1) month;
      Ret (out, Some (convert_len + 3))
  else
    '(out, wlen) ← interval_head mem cp 12 out to to_size;
    if wlen <=? 0 then Ret (out, None)
    else
      let convert_len := 1 + wlen in
      out ← store out (to + convert_len) 32;
      hour ← load mem (cp + 5);
      out ← two_digits out (to + convert_len + 1) hour;
      out ← store out (to + convert_len + 3) 58;
      minute ← load mem (cp + 6);
      out ← two_digits out (to + convert_len + 4) minute;
      out ← store out (to + convert_len + 6) 58;
      second ← load mem (cp + 7);
      out ← two_digits out (to + convert_len + 7) second;
      let convert_len := convert_len + 9 in
      fs_scale ← schar mem (cp + 13);
      if fs_scale >? 0 then
        out ← store out (to + convert_len) 46;
        fs ← uint4korr mem (cp + 8);
        '(nano_buffer, _) ← my_safe_ultoa 10 fs (repeat 0 10) 0 9 true;
        fraction ← load_bytes nano_buffer 0 (Z.to_nat (Z.min fs_scale 9));
        out ← store_bytes out (to + convert_len + 1) fraction;
        Ret (out, Some (convert_len + 1 + Z.min fs_scale 9))
      else Ret (out, Some convert_len).

(** * The calendar *)

Definition month_days (leap : bool) (mo : Z) : Z :=
  if mo =? 2 then if leap then 29 else 28
  else if (mo =? 4) || (mo =? 6) || (mo =? 9) || (mo =? 11) then 30 else 31.

Definition day_of_year (y mo d : Z) : Z :=
  fold_right Z.add 0 (map (month_days (leap_year y)) (seqZ 1 (mo - 1))) + d.

(** Days since the end of the year 0; the first of January of the year 1 was a Monday. *)
Definition day_number (y mo d : Z) : Z := 365 * (y - 1) + (y - 1) / 4 - (y - 1) / 100 + (y - 1) / 400 + day_of_year y mo d.
Definition week_day (y mo d : Z) : Z := (day_number y mo d - 1) mod 7 + 1.

Definition calendar_date (y mo d : Z) : Prop := 1 <= y <= 9999 /\ 1 <= mo <= 12 /\ 1 <= d <= month_days (leap_year y) mo.

Definition until_month (leap : bool) (mo : Z) : Z := fold_right Z.add 0 (map (month_days leap) (seqZ 1 (mo - 1))).

Definition months_agree (leap : bool) : bool :=
  forallb (fun mo => bool_decide
    ((row ← entry DAYS_UNTIL_MON (if leap then 1 else 0); entry row (mo - 1)) = Ret (until_month leap mo))
    && (0 <=? until_month leap mo) && (until_month leap mo + month_days leap mo <=? (if leap then 366 else 365))) (seqZ 1 12).

Lemma months_table (leap : bool) mo : 1 <= mo <= 12 ->
  (row ← entry DAYS_UNTIL_MON (if leap then 1 else 0); entry row (mo - 1)) = Ret (until_month leap mo)
  /\ 0 <= until_month leap mo /\ until_month leap mo + month_days leap mo <= (if leap then 366 else 365).
Proof.
  intros Hm. assert (months_agree leap = true) as H by (by destruct leap). unfold months_agree in H. rewrite forallb_forall in H.
  specialize (H mo ltac:(apply list_elem_of_In, elem_of_seqZ; lia)). rewrite !andb_true_iff, bool_decide_eq_true, !Z.leb_le in H.
  destruct H as [[? ?] ?]. done.
Qed.

Lemma day_of_year_bound y mo d : calendar_date y mo d -> 1 <= day_of_year y mo d <= (if leap_year y then 366 else 365).
Proof.
  intros (Hy & Hm & Hd). destruct (months_table (leap_year y) mo Hm) as (_ & H0 & H1).
  unfold day_of_year. fold (until_month (leap_year y) mo). lia.
Qed.

Lemma week_day_bound y mo d : 1 <= week_day y mo d <= 7.
Proof. unfold week_day. pose proof (Z.mod_pos_bound (day_number y mo d - 1) 7). lia. Qed.

Lemma week_offset r : -6 <= r <= 6 -> WDAY_OFFSET r 4 = Ret ((r + 3) mod 7 + 1).
Proof.
  intros Hr. assert (forallb (fun r => bool_decide (WDAY_OFFSET r 4 = Ret ((r + 3) mod 7 + 1))) (seqZ (-6) 13) = true) as H by done.
  rewrite forallb_forall in H. specialize (H r ltac:(apply list_elem_of_In, elem_of_seqZ; lia)). by apply bool_decide_eq_true in H.
Qed.

(** ob_time_to_date gives the number of days since 1970 and sets the days of year and week. *)
Lemma date_known t y mo d :
  calendar_date y mo d -> part DT_YEAR t = y -> part DT_MON t = mo -> part DT_MDAY t = d -> HAS_TYPE_ORACLE (mode_ t) = true ->
  length (parts_ t) = 11%nat ->
  ob_time_to_date t
  = Ret (day_number y mo d - 719163, set_part DT_WDAY (week_day y mo d) (set_part DT_YDAY (day_of_year y mo d) t)).
Proof.
  intros Hd Hy Hm Hdd Hor Hlen. pose proof Hd as (Hry & Hrm & Hrd).
  pose proof (day_of_year_bound y mo d Hd) as Hb. destruct (months_table (leap_year y) mo Hrm) as (Ht & H0 & H1).
  assert (day_of_year y mo d <= 366) by (destruct (leap_year y); lia).
  unfold ob_time_to_date. rewrite Hor, andb_false_r, Hy, Hm, leap_year_ok by lia.
  rewrite <- bind_assoc, Ht, bind_ret, Hdd. fold (until_month (leap_year y) mo) in *.
  change (until_month (leap_year y) mo + d) with (day_of_year y mo d). rewrite int32_ok, bind_ret by lia.
  assert (forall v, part DT_YEAR (set_part DT_YDAY v t) = y) as HY.
  { intros v. unfold part, set_part in *. cbn [parts_]. rewrite list_lookup_insert_ne by done. exact Hy. }
  assert (forall v, part DT_YDAY (set_part DT_YDAY v t) = v) as HD.
  { intros v. unfold part, set_part. cbn [parts_]. rewrite list_lookup_insert_eq; [done|rewrite Hlen; unfold DT_YDAY; lia]. }
  rewrite !HY, !HD, int32_ok, bind_ret by lia.
  assert (LEAP_YEAR_COUNT (y - 1) - LEAP_YEAR_COUNT 1969 = (y - 1) / 4 - (y - 1) / 100 + (y - 1) / 400 - 477) as ->.
  { unfold LEAP_YEAR_COUNT. rewrite !(Z.quot_div_nonneg (y - 1)) by lia. reflexivity. }
  assert ((y - 1970) * 365 + ((y - 1) / 4 - (y - 1) / 100 + (y - 1) / 400 - 477) + day_of_year y mo d - 1 = day_number y mo d - 719163) as ->.
  { unfold day_number. lia. }
  rewrite int32_ok, bind_ret by (unfold day_number; dlia). rewrite week_offset, bind_ret by dlia.
  do 3 f_equal. unfold week_day. f_equal. clear. dlia.
Qed.

(** * Timestamps as sent *)

Record stamp : Type := Stamp {
  s_year : Z; s_month : Z; s_day : Z; s_hour : Z; s_minute : Z; s_second : Z; s_nano : Z; s_scale : Z;
  s_offset : Z; s_zone : bytes; s_abbr : bytes }.

Definition stamp_bytes (s : stamp) : bytes :=
  [s_year s / 100; s_year s mod 100; s_month s; s_day s; s_hour s; s_minute s; s_second s] ++ le_bytes 4 (s_nano s) ++ [s_scale s].

(** Hours and minutes have the sign of the offset. *)
Definition zone_image (s : stamp) : bytes :=
  [u8 (Z.quot (s_offset s) 60); u8 (Z.rem (s_offset s) 60)] ++ zone_bytes (s_zone s) ++ zone_bytes (s_abbr s).

(** The names with their NUL fit the arrays. *)
Definition stamp_ok (s : stamp) : Prop :=
  calendar_date (s_year s) (s_month s) (s_day s) /\ 0 <= s_hour s <= 23 /\ 0 <= s_minute s <= 59 /\ 0 <= s_second s <= 59
  /\ 0 <= s_nano s <= 999999999 /\ 0 <= s_scale s <= 255 /\ -960 < s_offset s < 960
  /\ Forall (fun c => 0 < c < 256) (s_zone s) /\ (length (s_zone s) <= 63)%nat
  /\ Forall (fun c => 0 < c < 256) (s_abbr s) /\ (length (s_abbr s) <= 31)%nat.

(** The time that stands for the stamp; the zone is only there for one type. *)
Definition stamp_time (zoned : bool) (s : stamp) : ObTime :=
  let named := zoned && negb (bool_decide (s_zone s = [])) in
  Time DT_TYPE_ORACLE
    [s_year s; s_month s; s_day s; s_hour s; s_minute s; s_second s; s_nano s;
     day_number (s_year s) (s_month s) (s_day s) - 719163; day_of_year (s_year s) (s_month s) (s_day s);
     week_day (s_year s) (s_month s) (s_day s); if zoned then s_offset s else 0]
    (if named then s_zone s ++ repeat 0 (64 - length (s_zone s)) else repeat 0 64)
    (if named then s_abbr s ++ repeat 0 (32 - length (s_abbr s)) else repeat 0 32)
    (if named then 0 else -1) (Z.min (s_scale s) 9).

Lemma schar_small mem p c : load mem p = Ret c -> 0 <= c < 128 -> schar mem p = Ret c.
Proof. intros Hl Hc. unfold schar. rewrite Hl, bind_ret, swrap_small by (lia || (unfold sint; lia)). done. Qed.

Lemma schar_u8 mem p v : load mem p = Ret (u8 v) -> -128 <= v < 128 -> schar mem p = Ret v.
Proof. intros Hl Hv. unfold schar. rewrite Hl, bind_ret, swrap_wrap, swrap_small by (lia || (unfold sint; lia)). done. Qed.

Lemma drop_repeat k n (x : Z) : drop k (repeat x n) = repeat x (n - k).
Proof. revert n. induction k as [|k IH]; intros [|n]; simpl; done. Qed.

Lemma store_name n name : (length name <= n)%nat -> all_bytes name ->
  store_bytes (repeat 0 n) 0 name = Ret (name ++ repeat 0 (n - length name)).
Proof.
  intros Hl Hb. rewrite store_bytes_splice, map_u8_bytes by (done || (unfold room; rewrite repeat_length; lia)).
  f_equal. unfold splice. rewrite take_0. cbn [app]. by rewrite drop_repeat.
Qed.

Lemma name_bytes s : Forall (fun c => 0 < c < 256) s -> all_bytes s.
Proof. intros Hs. eapply Forall_impl; [exact Hs|]. unfold is_byte, uint. lia. Qed.

Lemma text_load mem p t k c : text_at mem p t -> 0 <= k -> t !! Z.to_nat k = Some c -> load mem (p + k) = Ret c.
Proof.
  intros Ht Hk Hc. revert p k Ht Hk Hc. induction t as [|x t IH]; intros p k Ht Hk Hc; [done|].
  apply text_at_cons in Ht as [Hx Ht]. destruct (Z.eq_dec k 0) as [->|Hne].
  - rewrite Z.add_0_r. change (Z.to_nat 0) with 0%nat in Hc. simpl in Hc. congruence.
  - replace (p + k) with (p + 1 + (k - 1)) by lia. apply IH; [done|lia|].
    replace (Z.to_nat k) with (S (Z.to_nat (k - 1))) in Hc by lia. done.
Qed.

Fixpoint put_parts (i : nat) (vs : bytes) (t : ObTime) : ObTime :=
  match vs with [] => t | v :: vs => put_parts (S i) vs (set_part i v t) end.

Lemma copy_parts_text mem vs : forall p i t,
  text_at mem p vs -> all_bytes vs -> copy_parts mem p i (length vs) t = Ret (put_parts i (map (swrap 8) vs) t).
Proof.
  induction vs as [|v vs IH]; intros p i t Ht Hs; [done|]. apply text_at_cons in Ht as [Hv Ht]. apply Forall_cons in Hs as [Hb Hs].
  cbn [length copy_parts map put_parts]. unfold schar at 1. rewrite Hv, !bind_ret. by apply IH.
Qed.

(** The parts that every timestamp has. *)
Lemma stamp_parts s mem cp :
  stamp_ok s -> text_at mem cp (stamp_bytes s) ->
  timestamp_parts no_time mem cp = Ret (stamp_time false s).
Proof.
  unfold timestamp_parts. intros (Hcal & Hh & Hmi & Hs & Hn & Hsc & _) Ht. pose proof Hcal as (Hy & Hm & Hd).
  assert (1 <= s_day s <= 31) by (unfold month_days in Hd; repeat case_match; lia).
  assert (load mem cp = Ret (s_year s / 100)) as L0 by (rewrite <- (Z.add_0_r cp); by eapply text_load).
  assert (load mem (cp + 1) = Ret (s_year s mod 100)) as L1 by (by eapply text_load).
  assert (exists b, text_at mem (cp + 2) ([s_month s; s_day s; s_hour s; s_minute s; s_second s] ++ [b]) /\ is_byte b) as (b & Hparts & Hb).
  { exists (u8 (s_nano s)). split; [|apply wrap_uint; lia].
    change (stamp_bytes s) with ([s_year s / 100; s_year s mod 100] ++ [s_month s; s_day s; s_hour s; s_minute s; s_second s; u8 (s_nano s)]
      ++ le_bytes 3 (Z.shiftr (s_nano s) 8) ++ [s_scale s]) in Ht.
    apply text_at_app in Ht as [_ Ht]. by apply text_at_app in Ht as [Ht _]. }
  assert (text_at mem (cp + 7) (le_bytes 4 (s_nano s)) /\ load mem (cp + 11) = Ret (s_scale s)) as [Hnano L11].
  { unfold stamp_bytes in Ht. apply text_at_app in Ht as [_ Ht]. apply text_at_app in Ht as [Hn' Ht]. split; [done|].
    rewrite length_le_bytes in Ht. apply text_at_cons in Ht as [Hl _]. rewrite <- Hl. f_equal. cbn. lia. }
  rewrite (schar_small _ _ _ L0), bind_ret, (schar_small _ _ _ L1), bind_ret by dlia.
  assert (signed_pair (s_year s / 100) (s_year s mod 100) 100 = s_year s) as ->.
  { unfold signed_pair. rewrite !(proj2 (Z.ltb_ge _ 0)) by dlia. cbn [orb]. rewrite !Z.abs_eq by dlia. dlia. }
  rewrite (copy_parts_text mem ([s_month s; s_day s; s_hour s; s_minute s; s_second s] ++ [b]) (cp + 2) DT_MON), bind_ret
    by (done || (repeat (apply Forall_cons; split; [unfold is_byte, uint; lia|]); apply Forall_singleton; done)).
  cbn [app map]. rewrite !(swrap_small 8) by first [lia | unfold sint; lia].
  rewrite (uint4korr_load _ _ (le_bytes 4 (s_nano s))), bind_ret by (apply le_bytes_bytes || done).
  rewrite le_val_le_bytes, wrap_small by (unfold uint; lia). rewrite swrap_small by (lia || (unfold sint; lia)).
  rewrite (date_known _ (s_year s) (s_month s) (s_day s)) by done. rewrite bind_ret, L11, bind_ret. reflexivity.
Qed.

Lemma signed_pair_offset o : -960 < o < 960 -> signed_pair (Z.quot o 60) (Z.rem o 60) 60 = o.
Proof.
  intros Ho. unfold signed_pair. destruct (Z.ltb_spec (Z.quot o 60) 0), (Z.ltb_spec (Z.rem o 60) 0); cbn [orb]; dlia.
Qed.

Lemma stamp_zone s mem cp :
  stamp_ok s -> text_at mem cp (stamp_bytes s ++ zone_image s) ->
  timestamp_zone (stamp_time false s) mem cp = Ret (stamp_time true s).
Proof.
  unfold timestamp_zone. intros (_ & _ & _ & _ & _ & _ & Ho & Hz & Hzl & Ha & Hal) Ht. apply text_at_app in Ht as [_ Ht].
  assert (length (stamp_bytes s) = 12%nat) as Hl by (unfold stamp_bytes; rewrite !length_app, length_le_bytes; done).
  rewrite Hl in Ht. change (Z.of_nat 12) with 12 in Ht.
  assert (load mem (cp + 12) = Ret (u8 (Z.quot (s_offset s) 60))) as L12 by (rewrite <- (Z.add_0_r (cp + 12)); by eapply text_load).
  assert (load mem (cp + 13) = Ret (u8 (Z.rem (s_offset s) 60))) as L13 by (replace (cp + 13) with (cp + 12 + 1) by lia; by eapply text_load).
  assert (load mem (cp + 14) = Ret (Z.of_nat (length (s_zone s)))) as L14 by (replace (cp + 14) with (cp + 12 + 2) by lia; by eapply text_load).
  apply text_at_app in Ht as [_ Ht]. apply text_at_app in Ht as [Htz Hta].
  apply text_at_cons in Htz as [_ Htz]. cbn [length] in *. 
  replace (cp + 12 + Z.of_nat 2 + 1) with (cp + 15) in Htz by lia.
  replace (cp + 12 + Z.of_nat 2 + Z.of_nat (length (zone_bytes (s_zone s)))) with (cp + 15 + Z.of_nat (length (s_zone s))) in Hta
    by (unfold zone_bytes; cbn [length]; lia).
  apply text_at_cons in Hta as [Ln Hta].
  rewrite (schar_u8 _ _ _ L12), bind_ret, (schar_u8 _ _ _ L13), bind_ret, L14, bind_ret, Ln, bind_ret by dlia.
  rewrite signed_pair_offset by done.
  unfold text_at in Htz, Hta. rewrite !Nat2Z.id, Htz, Hta, !bind_ret.
  destruct (Z.gtb_spec (Z.of_nat (length (s_zone s))) 0) as [Hpos|Hzero].
  - assert (s_zone s <> []) as Hne by (by destruct (s_zone s)).
    change (tz_name_ (set_part DT_OFFSET_MIN (s_offset s) (stamp_time false s))) with (repeat 0 64).
    change (tzd_abbr_ (set_part DT_OFFSET_MIN (s_offset s) (stamp_time false s))) with (repeat 0 32).
    do 2 (rewrite store_name by (lia || by apply name_bytes); rewrite !bind_ret).
    unfold stamp_time. rewrite bool_decide_eq_false_2 by done. reflexivity.
  - assert (s_zone s = []) as E by (destruct (s_zone s); [done|simpl in *; lia]).
    unfold stamp_time. rewrite E. reflexivity.
Qed.

Lemma stamp_read s mem cp type :
  stamp_ok s -> text_at mem cp (stamp_bytes s ++ if type =? MYSQL_TYPE_OB_TIMESTAMP_WITH_TIME_ZONE then zone_image s else []) ->
  oracle_timestamp_to_ob_time no_time mem cp type = Ret (stamp_time (type =? MYSQL_TYPE_OB_TIMESTAMP_WITH_TIME_ZONE) s).
Proof.
  intros Hs Ht. unfold oracle_timestamp_to_ob_time. pose proof (proj1 (proj1 (text_at_app _ _ _ _) Ht)) as Hp.
  rewrite (stamp_parts s), bind_ret by done. destruct (type =? _); [by apply stamp_zone|done].
Qed.

(** * Times in the format of the session *)

(** A format without the elements whose length is too short, for a time whose parts they
    need are in range; [ps] and [tail] are its pieces. *)
Definition format_shows (t : ObTime) (fmt : bytes) (text : bytes) : Prop :=
  exists chars rest ps tail ret elems, fmt = chars ++ 0 :: rest /\ Forall (fun c => 0 < c < 256) chars /\ chars <> []
    /\ parse_datetime_format_string (Some fmt) (Z.of_nat (length chars)) = Ret (ret, elems) /\ ret = 0 /\ Forall (piece_ok t) elems
    /\ elems = map elem ps /\ chars = source ps tail /\ tiled 0 ps tail /\ text = rendered t (nano_scale_ t) ps tail.

Lemma format_length t fmt text : 0 <= nano_scale_ t <= 9 -> format_shows t fmt text ->
  (fmt_len ← strlen fmt; '(_, length) ← calculate_str_oracle_dfm_length t (Some fmt) fmt_len (nano_scale_ t) 0; Ret (u64 length))
  = Ret (u64 (Z.of_nat (length text))).
Proof.
  intros Hsc (chars & rest & ps & tail & ret & elems & -> & Hc & Hne & Hp & -> & Hok & -> & Es & Htile & ->).
  by rewrite strlen_cstr, bind_ret, (pieces_length t chars rest tail (nano_scale_ t) ps) by done.
Qed.

Lemma format_puts t fmt text out to buf_len : 0 <= nano_scale_ t <= 9 -> format_shows t fmt text -> fits_in out to buf_len 0 (length text) ->
  exists out', (fmt_len ← strlen fmt;
    '(_, out, pos) ← ob_time_to_str_oracle_dfm t (Some fmt) fmt_len (nano_scale_ t) out to buf_len 0; Ret (out, u64 pos))
  = Ret (out', Z.of_nat (length text)) /\ length out' = length out /\ text_at out' to text
    /\ forall i k, i + Z.of_nat k <= to \/ to + buf_len <= i -> load_bytes out' i k = load_bytes out i k.
Proof.
  intros Hsc (chars & rest & ps & tail & ret & elems & -> & Hc & Hne & Hp & -> & Hok & -> & Es & Htile & ->) Hf.
  destruct (pieces_puts t chars rest tail (nano_scale_ t) ps Hsc Hne Hp Es Htile Hok out to buf_len Hf) as (out' & H' & Hl & Hat & Ho).
  rewrite Z.add_0_r in Hat, Ho. exists out'. split_and!; [|done|done|done].
  rewrite strlen_cstr, bind_ret, H', bind_ret, Z.add_0_l by done. do 2 f_equal. apply wrap_small. unfold fits_in, uint in *. lia.
Qed.

(** * Intervals as sent *)

Inductive interval : Type :=
| YearMonth (negative : bool) (year month scale : Z)
| DaySecond (negative : bool) (day hour minute second fraction day_scale fraction_scale : Z).

Definition interval_type (i : interval) : Z :=
  match i with YearMonth _ _ _ _ => MYSQL_TYPE_OB_INTERVAL_YM | _ => MYSQL_TYPE_OB_INTERVAL_DS end.

Definition interval_image (i : interval) : bytes :=
  match i with
  | YearMonth neg y mo sc => [if neg then 1 else 0] ++ le_bytes 4 y ++ [mo; sc]
  | DaySecond neg d h m s fs dsc fsc => [if neg then 1 else 0] ++ le_bytes 4 d ++ [h; m; s] ++ le_bytes 4 fs ++ [dsc; fsc]
  end.

Definition interval_fits (i : interval) : Prop :=
  match i with
  | YearMonth _ y mo sc => uint 32 y /\ is_byte mo /\ 0 <= sc <= 9
  | DaySecond _ d h m s fs dsc fsc => uint 32 d /\ is_byte h /\ is_byte m /\ is_byte s /\ uint 32 fs /\ 0 <= dsc <= 9 /\ 0 <= fsc <= 9
  end.

Definition fraction_text (fs fsc : Z) : bytes := if fsc >? 0 then 46 :: take (Z.to_nat fsc) (fixed 9 fs) else [].

Definition interval_text (i : interval) : bytes :=
  match i with
  | YearMonth neg y mo sc => [if neg then 45 else 43] ++ print_u (Z.to_nat sc) y ++ [45] ++ fixed 2 mo
  | DaySecond neg d h m s fs dsc fsc =>
      [if neg then 45 else 43] ++ print_u (Z.to_nat dsc) d ++ [32] ++ fixed 2 h ++ [58] ++ fixed 2 m ++ [58] ++ fixed 2 s ++ fraction_text fs fsc
  end.

Lemma ndigits_unique n v : 0 <= v -> (0 < n <= 20)%nat -> (n = 1%nat \/ 10 ^ Z.of_nat (n - 1) <= v) -> v < 10 ^ Z.of_nat n -> ndigits 20 v = n.
Proof.
  intros Hv Hn Hlow Hhigh. assert (v < 10 ^ Z.of_nat (ndigits 20 v)) as Hb.
  { apply ndigits_bound. split; [done|]. eapply Z.lt_le_trans; [exact Hhigh|]. apply Z.pow_le_mono_r; lia. }
  pose proof (ndigits_pos 20 v) as Hp. pose proof (ndigits_small (n - 1) 20 v) as Hs.
  replace (S (n - 1)) with n in Hs by lia. specialize (Hs Hhigh).
  destruct Hlow as [->|Hlow]; [lia|]. destruct (decide (ndigits 20 v = n)) as [|Hne]; [done|].
  assert (10 ^ Z.of_nat (ndigits 20 v) <= 10 ^ Z.of_nat (n - 1)) by (apply Z.pow_le_mono_r; lia). lia.
Qed.

Ltac digit_case n := f_equal; symmetry; rewrite (ndigits_unique n) by (try lia; simpl; lia); done.

Lemma fast_digits_count v : uint 32 v -> fast_digits10 1 v = Ret (Z.of_nat (ndigits 20 v)).
Proof.
  unfold uint. intros Hv. cbn [fast_digits10].
  destruct (Z.ltb_spec v 10); [digit_case 1%nat|]. destruct (Z.ltb_spec v 100); [digit_case 2%nat|].
  destruct (Z.ltb_spec v 1000); [digit_case 3%nat|]. destruct (Z.ltb_spec v 1000000000000); [|lia].
  destruct (Z.ltb_spec v 100000000).
  - destruct (Z.ltb_spec v 1000000).
    + destruct (Z.ltb_spec v 10000); [digit_case 4%nat|]. destruct (Z.geb_spec v 100000); [digit_case 6%nat|digit_case 5%nat].
    + destruct (Z.geb_spec v 10000000); [digit_case 8%nat|digit_case 7%nat].
  - destruct (Z.ltb_spec v 10000000000); [|lia]. destruct (Z.geb_spec v 1000000000); [digit_case 10%nat|digit_case 9%nat].
Qed.

Lemma length_print_u w v : length (print_u w v) = Nat.max w (ndigits 20 v).
Proof. unfold print_u. apply length_fixed. Qed.

Lemma digits_char v : 0 <= v < 10 -> digits v = 48 + v.
Proof. intros Hv. assert (v = 0 \/ v = 1 \/ v = 2 \/ v = 3 \/ v = 4 \/ v = 5 \/ v = 6 \/ v = 7 \/ v = 8 \/ v = 9) as H by lia.
  by repeat (destruct H as [->|H]; [done|]); subst. Qed.

(** The places from [n'] to [n] have the last digits; in front of them there are none. *)
Lemma ultoa_writes n : forall mem p v, 0 <= v -> (0 < n)%nat -> room mem p n ->
  exists n', (n' <= n)%nat /\ ultoa_digits n mem p 10 v = Ret (splice (p + Z.of_nat n') (fixed (n - n') v) mem, n')
    /\ (n' = 0%nat \/ v / 10 ^ Z.of_nat (n - n') = 0).
Proof.
  induction n as [|n IH]; intros mem p v Hv Hn Hr; [lia|]. cbn [ultoa_digits].
  pose proof (Z.mod_pos_bound v 10 ltac:(lia)).
  assert (room mem (p + Z.of_nat n) 1) by (unfold room in *; lia).
  rewrite digits_char, store_splice1, bind_ret by (done || (unfold is_byte, uint; lia)).
  destruct (Z.eqb_spec (v / 10) 0) as [E|E].
  - exists n. split_and!; [lia| |right; by replace (S n - n)%nat with 1%nat by lia].
    replace (S n - n)%nat with 1%nat by lia. cbn [fixed app]. done.
  - destruct n as [|n].
    { exists 0%nat. split_and!; [lia|cbn [ultoa_digits fixed app]; done|by left]. }
    destruct (IH (splice (p + Z.of_nat (S n)) [48 + v mod 10] mem) p (v / 10)) as (n' & Hn' & -> & Hz);
      [apply Z.div_pos; lia|lia|unfold room in *; rewrite length_splice by done; lia|].
    exists n'. split_and!; [lia| |].
    + do 2 f_equal. replace (S (S n) - n')%nat with (S (S n - n')) by lia. cbn [fixed].
      rewrite <- splice_app_before by (unfold room in *; rewrite length_app, length_fixed; simpl; lia).
      rewrite length_fixed. do 2 f_equal. lia.
    + destruct Hz as [Hz|Hz]; [by left|right]. replace (S (S n) - n')%nat with (S (S n - n')) by lia.
      rewrite Nat2Z.inj_succ, Z.pow_succ_r, <- Zdiv_Zdiv by lia. done.
Qed.

Lemma safe_ultoa_fixed mem p v k : 0 <= v -> 0 < k -> room mem p (Z.to_nat k) ->
  my_safe_ultoa 10 v mem p k true = Ret (splice p (fixed (Z.to_nat k) v) mem, Some p).
Proof.
  intros Hv Hk Hr. unfold my_safe_ultoa. rewrite (proj2 (Z.leb_gt k 0)) by done.
  destruct (ultoa_writes (Z.to_nat k) mem p v) as (n' & Hn' & -> & Hz); [done|lia|done|]. rewrite bind_ret.
  assert (fixed (Z.to_nat k) v = repeat 48 n' ++ fixed (Z.to_nat k - n') v) as ->.
  { replace (Z.to_nat k) with (n' + (Z.to_nat k - n'))%nat at 1 by lia. rewrite fixed_app. f_equal.
    destruct Hz as [->|Hz]; [done|]. by rewrite Hz, fixed_zero. }
  assert (length (repeat 48 n') = n') as Hl by apply repeat_length.
  rewrite store_bytes_splice, map_u8_bytes by first [apply repeat_bytes; unfold is_byte, uint; lia
    | unfold room in *; rewrite length_splice by (unfold room; rewrite length_fixed; lia); lia].
  rewrite bind_ret. do 2 f_equal. rewrite <- splice_app_before by (unfold room in *; rewrite length_app, length_fixed; lia).
  by rewrite Hl.
Qed.

(** [t] was written at [to], into a buffer of [n] bytes there. *)
Record wrote (out : bytes) (to n : Z) (t out' : bytes) : Prop := {
  wrote_buffer : 0 <= to /\ 0 <= n /\ to + n <= Z.of_nat (length out);
  wrote_length : length out' = length out;
  wrote_fits : Z.of_nat (length t) <= n;
  wrote_text : text_at out' to t;
  wrote_outside : forall i k, i + Z.of_nat k <= to \/ to + n <= i -> load_bytes out' i k = load_bytes out i k }.

Lemma wrote_nil out to n : 0 <= to -> 0 <= n -> to + n <= Z.of_nat (length out) -> wrote out to n [] out.
Proof. intros. constructor; try done; simpl; lia. Qed.

Lemma wrote_room out to n t out' k : wrote out to n t out' -> Z.of_nat (length t) + k <= n -> room out' (to + Z.of_nat (length t)) (Z.to_nat k).
Proof. intros [Hb Hl Hf _ _] Hk. unfold room. lia. Qed.

Lemma wrote_app out to n t out' bs : wrote out to n t out' -> Z.of_nat (length (t ++ bs)) <= n ->
  wrote out to n (t ++ bs) (splice (to + Z.of_nat (length t)) bs out').
Proof.
  intros [Hb Hl Hf Ht Ho] Hn. rewrite length_app in Hn.
  assert (room out' (to + Z.of_nat (length t)) (length bs)) as Hr by (unfold room; lia).
  constructor; [done|by rewrite length_splice|by rewrite length_app| |].
  - apply text_at_app. split; [|by apply load_bytes_splice]. unfold text_at. by rewrite load_bytes_splice_out by (done || lia).
  - intros i k Hi. rewrite load_bytes_splice_out by (done || lia). by apply Ho.
Qed.

Lemma wrote_prefix out to n t1 t2 out' : wrote out to n (t1 ++ t2) out' -> wrote out to n t1 out'.
Proof. intros [Hb Hl Hf Ht Ho]. rewrite length_app in Hf. constructor; try done; [lia|]. by apply text_at_app in Ht as [? _]. Qed.

(** One more character, two more digits. *)
Lemma wrote_char out to n t out' c p : wrote out to n t out' -> is_byte c -> p = to + Z.of_nat (length t) -> Z.of_nat (length t) + 1 <= n ->
  exists out'', store out' p c = Ret out'' /\ wrote out to n (t ++ [c]) out''.
Proof.
  intros Hw Hc -> Hn. exists (splice (to + Z.of_nat (length t)) [c] out'). split.
  - apply store_splice1; [done|]. by apply (wrote_room _ _ _ _ _ 1 Hw).
  - apply wrote_app; [done|]. rewrite length_app. simpl. lia.
Qed.

Lemma wrote_two out to n t out' v p : wrote out to n t out' -> 0 <= v -> p = to + Z.of_nat (length t) -> Z.of_nat (length t) + 2 <= n ->
  exists out'', two_digits out' p v = Ret out'' /\ wrote out to n (t ++ fixed 2 v) out''.
Proof.
  intros Hw Hv -> Hn. exists (splice (to + Z.of_nat (length t)) (fixed 2 v) out'). split.
  - unfold two_digits. rewrite safe_ultoa_fixed, bind_ret by (lia || by apply (wrote_room _ _ _ _ _ 2 Hw)). done.
  - apply wrote_app; [done|]. rewrite length_app, length_fixed. lia.
Qed.

Lemma print_scaled_ok sc v : 0 <= sc <= 9 -> print_scaled sc v = Ret (print_u (Z.to_nat sc) v).
Proof. intros. unfold print_scaled. by rewrite (proj2 (Z.leb_le sc 9)) by lia. Qed.

Lemma head_wrote mem cp scale out to n (neg : bool) v sc :
  load mem cp = Ret (if neg then 1 else 0) -> uint4korr mem (cp + 1) = Ret v -> load mem (cp + scale) = Ret sc -> 0 <= sc <= 9 ->
  uint 32 v -> 0 <= to -> 0 <= n < 2 ^ 31 -> to + n <= Z.of_nat (length out) -> Z.of_nat (length (print_u (Z.to_nat sc) v)) + 1 < n ->
  exists out', interval_head mem cp scale out to (n - 1) = Ret (out', Z.of_nat (length (print_u (Z.to_nat sc) v)))
    /\ wrote out to n ([if neg then 45 else 43] ++ print_u (Z.to_nat sc) v) out'.
Proof.
  intros Hs Hv Hsc Hr Hu Ht Hn Hm Hfit. set (text := print_u (Z.to_nat sc) v) in *. unfold interval_head. rewrite Hs, bind_ret.
  destruct (wrote_char out to n [] out (if neg then 45 else 43) to) as (o1 & E1 & W1);
    [by apply wrote_nil; lia|unfold is_byte, uint; destruct neg; lia|simpl; lia|simpl; lia|].
  replace (if (if neg then 1 else 0) >? 0 then 45 else 43) with (if neg then 45 else 43) by (by destruct neg).
  rewrite E1, bind_ret, Hsc, bind_ret, Hv, bind_ret, print_scaled_ok, bind_ret by done. fold text. cbn [app] in W1.
  unfold TraceText.TraceText.snprintf. rewrite (proj2 (Z.eqb_neq _ 0)), take_ge by lia.
  assert (all_bytes (text ++ [0])) as Hb by (apply Forall_app; split; [apply fixed_bytes|apply Forall_singleton; unfold is_byte, uint; lia]).
  assert (room o1 (to + 1) (length (text ++ [0]))) as Hroom.
  { unfold room. rewrite length_app, (wrote_length _ _ _ _ _ W1). simpl. lia. }
  rewrite store_bytes_splice, map_u8_bytes, bind_ret, swrap_small by (done || lia || (unfold sint; lia)).
  eexists. split; [done|]. apply (wrote_prefix _ _ _ _ [0]). rewrite <- app_assoc. apply (wrote_app _ _ _ _ _ (text ++ [0])) in W1; [done|].
  rewrite !length_app. simpl. lia.
Qed.

Lemma le4_read mem p v bs : uint 32 v -> text_at mem p (le_bytes 4 v ++ bs) -> uint4korr mem p = Ret v.
Proof.
  intros Hv Ht. apply text_at_app in Ht as [Ht _]. rewrite (uint4korr_load _ _ (le_bytes 4 v)) by (apply le_bytes_bytes || done).
  rewrite le_val_le_bytes. by rewrite wrap_small.
Qed.

Lemma interval_length_ok mem cp i :
  interval_fits i -> text_at mem cp (interval_image i) ->
  exists n, calculate_interval_length mem cp (interval_type i) = Ret n /\ Z.of_nat (length (interval_text i)) <= n <= 32
    /\ Z.of_nat (length (interval_image i)) <= n.
Proof.
  intros Hf Ht. unfold calculate_interval_length. destruct i as [neg y mo sc|neg d h m s fs dsc fsc]; cbn [interval_fits interval_type interval_image interval_text] in *.
  - destruct Hf as (Hy & Hmo & Hsc). rewrite Z.eqb_refl.
    assert (load mem (cp + 6) = Ret sc) as -> by (by eapply text_load). apply text_at_app in Ht as [_ Ht].
    cbn [length] in Ht. change (Z.of_nat 1) with 1 in Ht.
    rewrite (le4_read _ _ y _ Hy Ht), bind_ret, fast_digits_count, !bind_ret by done. eexists. split; [done|].
    rewrite !length_app, length_print_u, length_fixed, length_le_bytes. cbn [length]. pose proof (ndigits_small 9 20 y ltac:(unfold uint in Hy; simpl; lia)). lia.
  - destruct Hf as (Hd & Hh & Hm & Hs & Hfs & Hdsc & Hfsc). change (MYSQL_TYPE_OB_INTERVAL_DS =? MYSQL_TYPE_OB_INTERVAL_YM) with false. cbv iota.
    assert (load mem (cp + 12) = Ret dsc) as L12 by (by eapply text_load). assert (load mem (cp + 13) = Ret fsc) as L13 by (by eapply text_load).
    apply text_at_app in Ht as [_ Ht]. cbn [length] in Ht. change (Z.of_nat 1) with 1 in Ht. rewrite (le4_read _ _ d _ Hd Ht), bind_ret, fast_digits_count, bind_ret by done.
    apply text_at_app in Ht as [_ Ht]. apply text_at_app in Ht as [_ Ht]. rewrite length_le_bytes in Ht. cbn [length] in Ht.
    replace (cp + 1 + Z.of_nat 4 + Z.of_nat 3) with (cp + 8) in Ht by lia.
    rewrite (le4_read _ _ fs _ Hfs Ht), bind_ret, fast_digits_count, bind_ret, L12, bind_ret by done.
    rewrite (schar_small _ _ _ L13), bind_ret by lia. eexists. split; [done|].
    pose proof (ndigits_small 9 20 d ltac:(unfold uint in Hd; simpl; lia)). pose proof (ndigits_small 9 20 fs ltac:(unfold uint in Hfs; simpl; lia)).
    unfold fraction_text. destruct (Z.gtb_spec fsc 0);
      repeat (rewrite ?length_app, ?length_print_u, ?length_fixed, ?length_take, ?length_le_bytes; cbn [length]); lia.
Qed.

Ltac one_char W c := 
  let o := fresh "o" in let E := fresh "E" in let W' := fresh "W" in
  match goal with |- context [store ?m ?p ?x] =>
    destruct (wrote_char _ _ _ _ _ c p W) as (o & E & W');
    [unfold is_byte, uint; lia|rewrite ?length_app, ?length_fixed; cbn [length]; lia|rewrite ?length_app, ?length_fixed; cbn [length]; lia|];
    rewrite E, bind_ret; clear E W; rename W' into W
  end.

Ltac two_chars W v :=
  let o := fresh "o" in let E := fresh "E" in let W' := fresh "W" in
  match goal with |- context [two_digits ?m ?p v] =>
    destruct (wrote_two _ _ _ _ _ v p W) as (o & E & W');
    [unfold is_byte, uint in *; lia|rewrite ?length_app, ?length_fixed; cbn [length]; lia|rewrite ?length_app, ?length_fixed; cbn [length]; lia|];
    rewrite E, bind_ret; clear E W; rename W' into W
  end.

Lemma fraction_wrote mem cp out to n t o fs fsc :
  uint4korr mem (cp + 8) = Ret fs -> load mem (cp + 13) = Ret fsc -> uint 32 fs -> 0 <= fsc <= 9 ->
  wrote out to n t o -> Z.of_nat (length (t ++ fraction_text fs fsc)) <= n ->
  exists o', (fs_scale ← schar mem (cp + 13);
      if fs_scale >? 0 then
        o ← store o (to + Z.of_nat (length t)) 46;
        fs ← uint4korr mem (cp + 8);
        '(nano_buffer, _) ← my_safe_ultoa 10 fs (repeat 0 10) 0 9 true;
        fraction ← load_bytes nano_buffer 0 (Z.to_nat (Z.min fs_scale 9));
        o ← store_bytes o (to + Z.of_nat (length t) + 1) fraction;
        Ret (o, Some (Z.of_nat (length t) + 1 + Z.min fs_scale 9))
      else Ret (o, Some (Z.of_nat (length t))))
    = Ret (o', Some (Z.of_nat (length (t ++ fraction_text fs fsc)))) /\ wrote out to n (t ++ fraction_text fs fsc) o'.
Proof.
  intros Hfs L13 Hu Hfsc W Hn. rewrite (schar_small _ _ _ L13), bind_ret by lia. unfold fraction_text in *.
  destruct (Z.gtb_spec fsc 0); [|rewrite app_nil_r; by exists o].
  rewrite length_app in *. cbn [length] in *. rewrite length_take, length_fixed in *.
  destruct (wrote_char _ _ _ _ _ 46 (to + Z.of_nat (length t)) W) as (o1 & -> & W1); [unfold is_byte, uint; lia|done|lia|].
  rewrite bind_ret, Hfs, bind_ret.
  rewrite safe_ultoa_fixed, bind_ret by (unfold uint, room in *; simpl length; lia).
  rewrite Z.min_l by lia. set (ds := take (Z.to_nat fsc) (fixed 9 fs)).
  assert (length ds = Z.to_nat fsc) as Hd by (unfold ds; rewrite length_take, length_fixed; lia).
  assert (load_bytes (splice 0 (fixed (Z.to_nat 9) fs) (repeat 0 10)) 0 (Z.to_nat fsc) = Ret ds) as ->.
  { rewrite load_bytes_in by (unfold room; rewrite length_splice by (unfold room; rewrite length_fixed; simpl; lia); simpl length; lia).
    change (Z.to_nat 0) with 0%nat. rewrite drop_0, splice_0. f_equal. unfold ds. change (Z.to_nat 9) with 9%nat. by rewrite take_app_le by (rewrite length_fixed; lia). }
  assert (all_bytes ds) as Hb by (unfold ds; apply Forall_take, fixed_bytes).
  rewrite bind_ret, store_bytes_splice, map_u8_bytes, bind_ret by (done || (unfold room; rewrite (wrote_length _ _ _ _ _ W1); destruct (wrote_buffer _ _ _ _ _ W); lia)).
  eexists. split; [do 3 f_equal; lia|]. apply (wrote_app _ _ _ _ _ ds) in W1; [|rewrite !length_app; simpl; lia].
  rewrite length_app in W1. cbn [length] in W1. replace (to + Z.of_nat (length t + 1)) with (to + Z.of_nat (length t) + 1) in W1 by lia.
  by rewrite <- app_assoc in W1.
Qed.

(** An interval is printed as its text. *)
Lemma interval_wrote mem cp out to n i :
  interval_fits i -> text_at mem cp (interval_image i) -> 0 <= to -> Z.of_nat (length (interval_text i)) < n < 2 ^ 31 ->
  to + n <= Z.of_nat (length out) ->
  exists out', rewrite_interval mem cp out to (n - 1) (interval_type i) = Ret (out', Some (Z.of_nat (length (interval_text i))))
    /\ wrote out to n (interval_text i) out'.
Proof.
  intros Hf Ht Hto Hn Hm. unfold rewrite_interval.
  destruct i as [neg y mo sc|neg d h m s fs dsc fsc]; cbn [interval_fits interval_type interval_image interval_text] in *.
  - destruct Hf as (Hy & Hmo & Hsc). rewrite Z.eqb_refl.
    assert (load mem cp = Ret (if neg then 1 else 0)) as L0 by (rewrite <- (Z.add_0_r cp); by eapply text_load).
    assert (load mem (cp + 5) = Ret mo) as L5 by (by eapply text_load). assert (load mem (cp + 6) = Ret sc) as L6 by (by eapply text_load).
    apply text_at_app in Ht as [_ Ht]. cbn [length] in Ht. change (Z.of_nat 1) with 1 in Ht.
    rewrite !length_app, length_fixed in Hn. cbn [length] in Hn.
    destruct (head_wrote mem cp 6 out to n neg y sc) as (o1 & -> & W); try done; [by eapply le4_read|lia|lia|].
    rewrite bind_ret. assert (0 < length (print_u (Z.to_nat sc) y))%nat by (rewrite length_print_u; pose proof (ndigits_pos 20 y); lia).
    rewrite (proj2 (Z.leb_gt _ 0)) by lia. one_char W 45. rewrite L5, bind_ret. two_chars W mo.
    rewrite <- !app_assoc in W. eexists. split; [|exact W]. do 3 f_equal. rewrite !length_app, length_fixed. cbn [length]. lia.
  - destruct Hf as (Hd & Hh & Hmi & Hs & Hfs & Hdsc & Hfsc). change (MYSQL_TYPE_OB_INTERVAL_DS =? MYSQL_TYPE_OB_INTERVAL_YM) with false. cbv iota.
    assert (load mem cp = Ret (if neg then 1 else 0)) as L0 by (rewrite <- (Z.add_0_r cp); by eapply text_load).
    assert (load mem (cp + 5) = Ret h) as L5 by (by eapply text_load). assert (load mem (cp + 6) = Ret m) as L6 by (by eapply text_load).
    assert (load mem (cp + 7) = Ret s) as L7 by (by eapply text_load). assert (load mem (cp + 12) = Ret dsc) as L12 by (by eapply text_load).
    assert (load mem (cp + 13) = Ret fsc) as L13 by (by eapply text_load).
    apply text_at_app in Ht as [_ Ht]. cbn [length] in Ht. change (Z.of_nat 1) with 1 in Ht. pose proof (le4_read _ _ d _ Hd Ht) as Hday.
    apply text_at_app in Ht as [_ Ht]. apply text_at_app in Ht as [_ Ht]. rewrite length_le_bytes in Ht. cbn [length] in Ht.
    replace (cp + 1 + Z.of_nat 4 + Z.of_nat 3) with (cp + 8) in Ht by lia. pose proof (le4_read _ _ fs _ Hfs Ht) as Hfr.
    rewrite !length_app, !length_fixed in Hn. cbn [length] in Hn.
    destruct (head_wrote mem cp 12 out to n neg d dsc) as (o1 & -> & W); try done; [lia|lia|].
    rewrite bind_ret. assert (0 < length (print_u (Z.to_nat dsc) d))%nat by (rewrite length_print_u; pose proof (ndigits_pos 20 d); lia).
    rewrite (proj2 (Z.leb_gt _ 0)) by lia.
    one_char W 32. rewrite L5, bind_ret. two_chars W h. one_char W 58. rewrite L6, bind_ret. two_chars W m.
    one_char W 58. rewrite L7, bind_ret. two_chars W s.
    destruct (fraction_wrote mem cp out to n _ _ fs fsc Hfr L13 Hfs Hfsc W) as (o' & E & W').
    { repeat (rewrite ?length_app, ?length_fixed; cbn [length]). lia. }
    match type of W with wrote _ _ _ ?t _ => set (tt := t) in * end.
    assert (length tt = length (print_u (Z.to_nat dsc) d) + 10)%nat as Hlen
      by (unfold tt; repeat (rewrite ?length_app, ?length_fixed; cbn [length]); lia).
    replace (1 + Z.of_nat (length (print_u (Z.to_nat dsc) d)) + 9) with (Z.of_nat (length tt)) by lia.
    exists o'. rewrite E. unfold tt in *. rewrite <- !app_assoc in W' |- *. done.
Qed.

(** * Dates as sent *)

Lemma text_drop mem p t : text_at mem p t -> t <> [] -> exists rest, drop (Z.to_nat p) mem = t ++ rest.
Proof.
  intros Ht Hne. assert (room mem p (length t)) as Hr by (eapply load_bytes_room; [exact Ht|destruct t; simpl; [done|lia]]).
  unfold text_at in Ht. rewrite load_bytes_in in Ht by done. injection Ht as Ht.
  exists (drop (length t) (drop (Z.to_nat p) mem)). by rewrite <- Ht at 1; rewrite take_drop.
Qed.

Lemma strtol_digits_run ds c rest : forall v n, Forall digit ds -> ~ digit c ->
  strtol_digits (ds ++ c :: rest) v n = Ret (radix_from 10 v ds, n + Z.of_nat (length ds)).
Proof.
  induction ds as [|d ds IH]; intros v n Hd Hc; cbn [strtol_digits app].
  - assert ((48 <=? c) && (c <=? 57) = false) as -> by (unfold digit in Hc; apply andb_false_iff; rewrite !Z.leb_gt; lia).
    do 2 f_equal. simpl. lia.
  - apply Forall_cons in Hd as [Hd Hds]. assert ((48 <=? d) && (d <=? 57) = true) as -> by (unfold digit in Hd; apply andb_true_iff; rewrite !Z.leb_le; lia).
    rewrite IH by done. cbn [radix_from fold_left length]. rewrite digit_val_digit by done. do 2 f_equal. lia.
Qed.

(** A number of up to 18 digits that another character follows. *)
Lemma strtol_number mem p ds c : ds <> [] -> Forall digit ds -> (length ds <= 18)%nat -> ~ digit c -> text_at mem p (ds ++ [c]) ->
  strtol mem p = Ret (decimal ds, p + Z.of_nat (length ds)).
Proof.
  intros Hne Hds Hl Hc Ht. destruct (text_drop mem p (ds ++ [c]) Ht) as (rest & E); [by destruct ds|].
  unfold strtol. rewrite E, <- app_assoc. cbn [app]. destruct ds as [|d ds]; [done|]. pose proof (Forall_inv Hds) as Hd. unfold digit in Hd.
  cbn [app skip_white]. assert (isspace d = false) as ->.
  { unfold isspace. apply orb_false_iff. rewrite Z.eqb_neq, andb_false_iff, !Z.leb_gt. lia. }
  rewrite bind_ret. cbn [head of_option]. rewrite bind_ret. rewrite (proj2 (Z.eqb_neq d 45)), (proj2 (Z.eqb_neq d 43)) by lia. cbn [orb].
  change (d :: ds ++ c :: rest) with ((d :: ds) ++ c :: rest). rewrite strtol_digits_run, bind_ret by done.
  rewrite (proj2 (Z.eqb_neq _ 0)) by (simpl; lia). fold (radix_value 10 (d :: ds)).
  assert (0 <= decimal (d :: ds) < 10 ^ Z.of_nat (length (d :: ds))) as Hb by (by apply decimal_bound).
  assert (10 ^ Z.of_nat (length (d :: ds)) <= 10 ^ 18) by (apply Z.pow_le_mono_r; lia). change (10 ^ 18) with 1000000000000000000 in *.
  unfold LONGLONG_MIN, LONGLONG_MAX. do 2 f_equal; lia.
Qed.

Definition date_image (y mo d h mi s : Z) : bytes :=
  fixed 4 y ++ [45] ++ fixed 2 mo ++ [45] ++ fixed 2 d ++ [32] ++ fixed 2 h ++ [58] ++ fixed 2 mi ++ [58] ++ fixed 2 s.

(** The week and the day of the year are not set. *)
Definition date_time (y mo d h mi s : Z) : ObTime :=
  Time DT_TYPE_ORACLE [y; mo; d; h; mi; s; 0; 0; 0; 0; 0] (repeat 0 64) (repeat 0 32) (-1) 0.

Lemma part_read mem start end_ k v i c ps t rest :
  (0 < k <= 9)%nat -> 0 <= v < 10 ^ Z.of_nat k -> ~ digit c -> text_at mem start (fixed k v ++ [c] ++ rest) -> end_ - (start + Z.of_nat k) > 1 ->
  read_parts mem start end_ ((i, c) :: ps) t = read_parts mem (start + Z.of_nat k + 1) end_ ps (set_part i v t)
  /\ text_at mem (start + Z.of_nat k + 1) rest.
Proof.
  intros Hk Hv Hc Ht He. rewrite app_assoc in Ht. apply text_at_app in Ht as [Ht Hrest]. rewrite length_app, length_fixed in Hrest.
  cbn [length] in Hrest. replace (start + Z.of_nat (k + 1)) with (start + Z.of_nat k + 1) in Hrest by lia. split; [|done].
  cbn [read_parts]. rewrite (strtol_number mem start (fixed k v) c);
    [|intros E; apply (f_equal length) in E; rewrite length_fixed in E; simpl in E; lia|apply fixed_digit|rewrite length_fixed; lia|done|done].
  rewrite bind_ret, decimal_fixed, Z.mod_small, length_fixed by done.
  apply text_at_app in Ht as [_ Ht]. rewrite length_fixed in Ht. apply text_at_cons in Ht as [-> _]. rewrite bind_ret, Z.eqb_refl.
  assert (10 ^ Z.of_nat k <= 10 ^ 9) by (apply Z.pow_le_mono_r; lia). change (10 ^ 9) with 1000000000 in *.
  rewrite Z.gtb_ltb, (proj2 (Z.ltb_lt 1 _)) by lia. cbn [andb]. rewrite swrap_small by (lia || (unfold sint; lia)). done.
Qed.

Lemma date_read mem cp y mo d h mi s c :
  0 <= y <= 9999 -> 0 <= mo <= 99 -> 0 <= d <= 99 -> 0 <= h <= 99 -> 0 <= mi <= 99 -> 0 <= s <= 99 ->
  text_at mem cp (date_image y mo d h mi s ++ [c]) ->
  oracle_date_to_ob_time no_time mem cp 19 = Ret (date_time y mo d h mi s).
Proof.
  intros Hy Hmo Hd Hh Hmi Hs Ht. unfold oracle_date_to_ob_time. cbn [Z.gtb Z.compare]. unfold date_image, date_parts in *. rewrite <- !app_assoc in Ht.
  destruct (part_read mem cp (cp + 19) 4 y DT_YEAR 45 [(DT_MON, 45); (DT_MDAY, 32); (DT_HOUR, 58); (DT_MIN, 58)] (set_zone_id (-1) no_time) _
    ltac:(lia) ltac:(simpl; lia) ltac:(unfold digit; lia) Ht ltac:(lia)) as [-> Ht1]. clear Ht.
  edestruct (part_read mem (cp + Z.of_nat 4 + 1) (cp + 19) 2 mo DT_MON 45) as [-> Ht2];
    [lia|simpl; lia|unfold digit; lia|exact Ht1|lia|]. clear Ht1.
  edestruct (part_read mem (cp + Z.of_nat 4 + 1 + Z.of_nat 2 + 1) (cp + 19) 2 d DT_MDAY 32) as [-> Ht3];
    [lia|simpl; lia|unfold digit; lia|exact Ht2|lia|]. clear Ht2.
  edestruct (part_read mem (cp + Z.of_nat 4 + 1 + Z.of_nat 2 + 1 + Z.of_nat 2 + 1) (cp + 19) 2 h DT_HOUR 58) as [-> Ht4];
    [lia|simpl; lia|unfold digit; lia|exact Ht3|lia|]. clear Ht3.
  edestruct (part_read mem (cp + Z.of_nat 4 + 1 + Z.of_nat 2 + 1 + Z.of_nat 2 + 1 + Z.of_nat 2 + 1) (cp + 19) 2 mi DT_MIN 58) as [-> Ht5];
    [lia|simpl; lia|unfold digit; lia|exact Ht4|lia|]. clear Ht4.
  match type of Ht5 with text_at _ ?p _ => replace p with (cp + 17) in * by lia end.
  cbn [read_parts]. unfold strtoll10. apply text_at_app in Ht5 as [Hsec Hlast]. rewrite length_fixed in Hlast.
  replace (cp + 17 + Z.of_nat 2) with (cp + 19) in Hlast by lia. apply text_at_cons in Hlast as [Hlast _].
  destruct (load_Ret mem (cp + 19) c) as [Hlo Hup]; [done|].
  rewrite store_splice1, bind_ret by (unfold is_byte, uint, room in *; lia).
  assert (room mem (cp + 19) 1) as Hr by (unfold room; lia).
  rewrite (strtol_number _ (cp + 17) (fixed 2 s) 0); [|done|apply fixed_digit|rewrite length_fixed; lia|unfold digit; lia|].
  - rewrite bind_ret, decimal_fixed, Z.mod_small, swrap_small by (simpl; lia || (unfold sint; lia)). reflexivity.
  - apply text_at_app. rewrite length_fixed. split; [unfold text_at; rewrite load_bytes_splice_out by (done || (rewrite length_fixed; lia)); exact Hsec|].
    apply text_at_cons. split; [|done]. replace (cp + 17 + Z.of_nat 2) with (cp + 19 + 0) by lia. apply (text_load _ _ [0]); [|done|done].
    by apply (load_bytes_splice (cp + 19) [0]).
Qed.

(** * Findings *)

(** The names of a time zone are copied without regard to the arrays they go to. *)
Definition long_zone : bytes :=
  [20; 24; 2; 29; 23; 59; 58; 0; 0; 0; 0; 9; 8; 0; 65] ++ repeat 65 65 ++ [0].

Lemma zone_name_overflows :
  oracle_timestamp_to_ob_time no_time long_zone 0 MYSQL_TYPE_OB_TIMESTAMP_WITH_TIME_ZONE = Fault
  /\ load_bytes long_zone 15 65 = Ret (repeat 65 65) /\ store_bytes (repeat 0 65) 0 (repeat 65 65) = Ret (repeat 65 65).
Proof. split_and!; vm_compute; reflexivity. Qed.

(** The month of a timestamp indexes a table of thirteen elements unchecked. *)
Lemma month_outside_table :
  oracle_timestamp_to_ob_time no_time [20; 24; 100; 29; 23; 59; 58; 0; 0; 0; 0; 9] 0 MYSQL_TYPE_OB_TIMESTAMP_NANO = Fault.
Proof. vm_compute. done. Qed.

(** A date has no day of the week: DAY prints the entry of index 0. *)
Lemma date_without_week_day :
  text_of (date_time 2024 2 29 23 59 58) "DD DAY DDD" = Ret (16, str "29 NULL      000").
Proof. vm_compute. done. Qed.

(** The number that ends a column is read on into the next one. *)
Lemma date_reads_on :
  (t ← oracle_date_to_ob_time no_time (str "20" ++ str "24-05" ++ [0]) 0 2; Ret (part DT_YEAR t)) = Ret 2024.
Proof. vm_compute. done. Qed.

(** A scale of ten makes a conversion that printf does not have. *)
Lemma interval_scale_unchecked :
  rewrite_interval ([0] ++ le_bytes 4 5 ++ [6; 10]) 0 (repeat 0 30) 0 29 MYSQL_TYPE_OB_INTERVAL_YM = Fault.
Proof. vm_compute. done. Qed.

End TextTime.
