(* ===== verification/StmtParam.v ===== *)
(** Parameters of prepared statements: store_param and
    mysql_stmt_execute_generate_simple_request of libmariadb/mariadb_stmt.c, which builds the
    packet that executes a statement with one set of parameters.

    The packet is built in an allocation that grows; whether an allocation of a size succeeds
    is an argument.  Objects (MYSQL_TYPE_OBJECT) are measured and stored by arguments.  A statement
    without an array of parameters has neither indicators nor row offsets, so ma_get_indicator
    is 0, ma_get_buffer_offset is the buffer and ma_get_length is what [length] points to. *)

From stdpp Require Import tactics.
From S2P Require Import Prelude IntStore NumText LenEnc StmtTime TimeText OracleTime LobLocator StmtFetch StmtFloat StmtOracle StmtRow.
Import NumText LenEnc StmtTime TimeText OracleTime LobLocator StmtFetch StmtFloat StmtOracle StmtRow.

Module StmtParam.

Definition STMT_ID_LENGTH : Z := 4.

(** A parameter: the object it is bound to (or NULL), and what its pointers [is_null] (0 for
    NULL) and [length] hold. *)
Record PARAM := mk_param {
  pbuffer : option object;
  ptype : Z;
  punsigned : bool;
  pnull : Z;
  plength : option Z;
  long_data_used : bool }.

Definition reset_long_data (pr : PARAM) : PARAM :=
  mk_param (pbuffer pr) (ptype pr) (punsigned pr) (pnull pr) (plength pr) false.

Definition ma_get_length (pr : PARAM) : Z := match plength pr with None => 0 | Some l => l end.

Definition mem_of (pr : PARAM) : cres bytes :=
  match pbuffer pr with Some (Mem bs) => Ret bs | _ => Fault end.

Definition time_of (pr : PARAM) : cres MYSQL_TIME :=
  match pbuffer pr with Some (Time t) => Ret t | _ => Fault end.

Section request.
Context (junk : Z).
(** store_param_object and the size of an object. *)
Context (store_object : PARAM -> bytes -> Z -> cres (bytes * Z)).
Context (size_object : PARAM -> Z).
(** What store_param_type writes for an object behind its type code. *)
Context (store_object_type : PARAM -> bytes -> Z -> cres (bytes * Z)).
Context (alloc_ok : Z -> bool).

(** The length is -1 for a text that ends with a NUL. *)
Definition store_text (pr : PARAM) (mem : bytes) (p : Z) : cres (Z * bytes * Z) :=
  buf ← mem_of pr;
  let len := u64 (ma_get_length pr) in
  len ← (if len =? ULONGLONG_MAX then strlen buf else Ret len);
  '(mem, to) ← mysql_net_store_length mem p len;
  mem ← (if nonzero len then bs ← load_bytes buf 0 (Z.to_nat len); store_bytes mem to bs else Ret mem);
  Ret (0, mem, to + len).

Definition text_type (t : Z) : bool :=
  is_type t [MYSQL_TYPE_TINY_BLOB; MYSQL_TYPE_MEDIUM_BLOB; MYSQL_TYPE_LONG_BLOB; MYSQL_TYPE_BLOB; MYSQL_TYPE_OB_RAW;
    MYSQL_TYPE_VARCHAR; MYSQL_TYPE_VAR_STRING; MYSQL_TYPE_STRING; MYSQL_TYPE_JSON; MYSQL_TYPE_DECIMAL; MYSQL_TYPE_NEWDECIMAL].

Definition oracle_text_type (t : Z) : bool :=
  is_type t [MYSQL_TYPE_OB_NVARCHAR2; MYSQL_TYPE_OB_NCHAR; MYSQL_TYPE_OB_NUMBER_FLOAT; MYSQL_TYPE_OB_UROWID].

Definition otime_of (pr : PARAM) : cres (ORACLE_TIME * bytes) :=
  match pbuffer pr with Some (OTime tm names) => Ret (tm, names) | _ => Fault end.

Definition interval_of (pr : PARAM) : cres ORACLE_INTERVAL :=
  match pbuffer pr with Some (OInterval i) => Ret i | _ => Fault end.

(** Return value (1 for an unsupported type), memory and position behind the value. *)
Definition store_param (pr : PARAM) (mem : bytes) (p : Z) : cres (Z * bytes * Z) :=
  let t := ptype pr in
  if t =? MYSQL_TYPE_TINY then
    buf ← mem_of pr; v ← load buf 0; mem ← int1store mem p v; Ret (0, mem, p + 1)
  else if is_type t [MYSQL_TYPE_SHORT; MYSQL_TYPE_YEAR] then
    buf ← mem_of pr; v ← sint2korr buf 0; mem ← int2store mem p v; Ret (0, mem, p + 2)
  else if t =? MYSQL_TYPE_FLOAT then
    buf ← mem_of pr; bs ← load_bytes buf 0 4; mem ← store_bytes mem p bs; Ret (0, mem, p + 4)
  else if t =? MYSQL_TYPE_DOUBLE then
    buf ← mem_of pr; bs ← load_bytes buf 0 8; mem ← store_bytes mem p bs; Ret (0, mem, p + 8)
  else if t =? MYSQL_TYPE_LONGLONG then
    buf ← mem_of pr; v ← uint8korr buf 0; mem ← int8store mem p v; Ret (0, mem, p + 8)
  else if is_type t [MYSQL_TYPE_LONG; MYSQL_TYPE_INT24; MYSQL_TYPE_CURSOR] then
    buf ← mem_of pr; v ← sint4korr buf 0; mem ← int4store mem p v; Ret (0, mem, p + 4)
  else if t =? MYSQL_TYPE_TIME then
    tm ← time_of pr; '(mem, p) ← store_time junk mem p tm; Ret (0, mem, p)
  else if is_type t [MYSQL_TYPE_DATE; MYSQL_TYPE_TIMESTAMP; MYSQL_TYPE_DATETIME] then
    tm ← time_of pr; '(mem, p) ← store_datetime junk mem p tm; Ret (0, mem, p)
  else if text_type t || oracle_text_type t then store_text pr mem p
  else if t =? MYSQL_TYPE_OB_TIMESTAMP_WITH_TIME_ZONE then
    '(tm, names) ← otime_of pr;
    '(mem, p) ← store_param_oracle_timestamp_tz_complex junk mem p tm names; Ret (0, mem, p)
  else if is_type t [MYSQL_TYPE_OB_TIMESTAMP_NANO; MYSQL_TYPE_OB_TIMESTAMP_WITH_LOCAL_TIME_ZONE] then
    '(tm, _) ← otime_of pr;
    '(mem, p) ← store_param_oracle_timestamp_nano_complex junk mem p tm; Ret (0, mem, p)
  else if is_type t [MYSQL_TYPE_ORA_BLOB; MYSQL_TYPE_ORA_CLOB] then
    lob ← mem_of pr; '(mem, p) ← store_param_ob_lob_complex lob mem p; Ret (0, mem, p)
  else if t =? MYSQL_TYPE_OBJECT then '(mem, p) ← store_object pr mem p; Ret (0, mem, p)
  else if is_type t [MYSQL_TYPE_OB_INTERVAL_DS; MYSQL_TYPE_OB_INTERVAL_YM] then
    i ← interval_of pr; '(mem, p) ← store_param_oracle_interval_complex mem p i; Ret (0, mem, p)
  else Ret (1, mem, p).

Definition calculate_param_len (pr : PARAM) : cres Z :=
  let t := ptype pr in
  if t =? MYSQL_TYPE_OBJECT then Ret (size_object pr)
  else if t =? MYSQL_TYPE_OB_TIMESTAMP_WITH_TIME_ZONE then
    '(tm, names) ← otime_of pr; calculate_param_oracle_timestamp_len tm names
  else if is_type t [MYSQL_TYPE_ORA_BLOB; MYSQL_TYPE_ORA_CLOB] then
    match pbuffer pr with None => Ret 0 | Some _ => lob ← mem_of pr; calculate_param_ob_lob_len lob end
  else match plength pr with Some l => Ret l | None => Fault end.

(** The size that the request reserves for a value, and whether the parameter has data. *)
Definition param_size (pr : PARAM) : cres (Z * bool) :=
  let t := ptype pr in
  if t =? MYSQL_TYPE_NULL then Ret (0, false)
  else if is_type t [MYSQL_TYPE_TINY; MYSQL_TYPE_SHORT; MYSQL_TYPE_YEAR; MYSQL_TYPE_INT24; MYSQL_TYPE_LONG; MYSQL_TYPE_LONGLONG;
      MYSQL_TYPE_FLOAT; MYSQL_TYPE_DOUBLE; MYSQL_TYPE_CURSOR] then Ret (pack_len t, true)
  else if is_type t [MYSQL_TYPE_TINY_BLOB; MYSQL_TYPE_MEDIUM_BLOB; MYSQL_TYPE_LONG_BLOB; MYSQL_TYPE_BLOB; MYSQL_TYPE_VARCHAR;
      MYSQL_TYPE_VAR_STRING; MYSQL_TYPE_STRING; MYSQL_TYPE_JSON; MYSQL_TYPE_DECIMAL; MYSQL_TYPE_NEWDECIMAL; MYSQL_TYPE_GEOMETRY;
      MYSQL_TYPE_NEWDATE; MYSQL_TYPE_ENUM; MYSQL_TYPE_BIT; MYSQL_TYPE_SET; MYSQL_TYPE_OB_RAW; MYSQL_TYPE_OB_TIMESTAMP_NANO;
      MYSQL_TYPE_OB_UROWID; MYSQL_TYPE_OB_TIMESTAMP_WITH_LOCAL_TIME_ZONE; MYSQL_TYPE_TIME; MYSQL_TYPE_DATE; MYSQL_TYPE_DATETIME;
      MYSQL_TYPE_TIMESTAMP] then Ret (u64 (5 + u64 (ma_get_length pr)), true)
  else if is_type t [MYSQL_TYPE_ORA_BLOB; MYSQL_TYPE_ORA_CLOB; MYSQL_TYPE_OB_TIMESTAMP_WITH_TIME_ZONE; MYSQL_TYPE_OBJECT]
  then n ← calculate_param_len pr; Ret (u64 n, true)
  else Ret (u64 (ma_get_length pr), true).

Definition is_null_param (pr : PARAM) : bool :=
  nonzero (pnull pr) || (ptype pr =? MYSQL_TYPE_NULL) || match pbuffer pr with None => true | Some _ => false end.

(** realloc() to [n] bytes, or None when it fails. *)
Definition grow (start : bytes) (n : Z) : option bytes := if alloc_ok n then Some (resize junk n start) else None.

(** The loop over the parameters; None is the label mem_error. *)
Fixpoint param_loop (prs : list PARAM) (i : Z) (start : bytes) (len null_byte_offset p : Z)
    : cres (option (bytes * Z) * list PARAM) :=
  match prs with
  | [] => Ret (Some (start, p), [])
  | pr0 :: prs =>
    let has_data := negb (long_data_used pr0) in
    let pr := reset_long_data pr0 in
    let has_data := has_data && negb (match pbuffer pr with None => true | Some _ => false end || nonzero (pnull pr)) in
    '(size, has_data) ← (if has_data then param_size pr else Ret (0, false));
    let free_bytes := u64 (len - p) in
    match (if free_bytes <? u64 (size + 20) then
             let len := Z.max (u64 (2 * len)) (u64 (p + size + 20)) in
             match grow start len with Some start => Some (start, len) | None => None end
           else Some (start, len)) with
    | None => Ret (None, pr :: prs)
    | Some (start, len) =>
      '(start, has_data) ←
        (if is_null_param pr then
           b ← load start (null_byte_offset + i / 8);
           start ← store start (null_byte_offset + i / 8) (Z.lor b (u8 (Z.shiftl 1 (Z.land i 7))));
           Ret (start, false)
         else Ret (start, has_data));
      '(start, p) ← (if (has_data : bool) then '(_, start, p) ← store_param pr start p; Ret (start, p) else Ret (start, p));
      '(res, prs) ← param_loop prs (u32 (i + 1)) start len null_byte_offset p;
      Ret (res, pr :: prs)
    end
  end.

Definition type_code (pr : PARAM) : Z := Z.lor (ptype pr) (if punsigned pr then 32768 else 0).

Definition store_param_type (pr : PARAM) (start : bytes) (p : Z) : cres (bytes * Z) :=
  start ← int2store start p (type_code pr);
  let p := p + 2 in
  if ptype pr =? MYSQL_TYPE_OBJECT then store_object_type pr start p else Ret (start, p).

Fixpoint store_types (prs : list PARAM) (start : bytes) (p : Z) : cres (bytes * Z) :=
  match prs with
  | [] => Ret (start, p)
  | pr :: prs =>
    '(start, p) ← store_param_type pr start p;
    store_types prs start p
  end.

(** The bitmap, the types and the values. *)
Definition store_params (prs : list PARAM) (send_types_to_server : Z) (start : bytes) (len p : Z)
    : cres (option (bytes * Z) * list PARAM) :=
  let param_count := Z.of_nat (length prs) in
  let null_count := u32 (param_count + 7) / 8 in
  let free_bytes := u64 (len - p) in
  match (if free_bytes <? null_count + 20 then
           let len := u64 (len + (p + null_count + 20)) in
           match grow start len with Some start => Some (start, len) | None => None end
         else Some (start, len)) with
  | None => Ret (None, prs)
  | Some (start, len) =>
    let null_byte_offset := p in
    start ← store_bytes start p (repeat 0 (Z.to_nat null_count));
    let p := p + null_count in
    start ← int1store start p send_types_to_server;
    let p := p + 1 in
    let free_bytes := u64 (len - p) in
    match (if nonzero send_types_to_server && (free_bytes <? u32 (u32 (param_count * 2) + 20)) then
             let len := u64 (p + u32 (param_count * 2) + 20) in
             match grow start len with Some start => Some (start, len) | None => None end
           else Some (start, len)) with
    | None => Ret (None, prs)
    | Some (start, len) =>
      '(start, p) ← (if nonzero send_types_to_server then store_types prs start p else Ret (start, p));
      param_loop prs 0 start len null_byte_offset p
    end
  end.

(** The packet (None when memory is exhausted), send_types_to_server and the parameters afterwards. *)
Definition mysql_stmt_execute_generate_simple_request (stmt_id flags send_types_to_server : Z) (prs : list PARAM)
    : cres (option bytes * Z * list PARAM) :=
  let len := 1024 in
  if negb (alloc_ok len) then Ret (None, send_types_to_server, prs)
  else
    let start := repeat junk (Z.to_nat len) in
    let p := 0 in
    start ← int4store start p stmt_id;
    let p := p + STMT_ID_LENGTH in
    start ← int1store start p (u8 flags);
    let p := p + 1 in
    start ← int4store start p 1;
    let p := p + 4 in
    '(res, prs) ← (if nonzero (Z.of_nat (length prs)) then store_params prs send_types_to_server start len p
                   else Ret (Some (start, p), prs));
    match res with
    | None => Ret (None, send_types_to_server, prs)
    | Some (start, p) => Ret (Some (take (Z.to_nat p) start), 0, prs)
    end.

End request.

(** * The layout of the packet *)

(** The size of a parameter that is copied as it is. *)
Definition raw_width (t : Z) : option nat :=
  if t =? MYSQL_TYPE_TINY then Some 1%nat
  else if is_type t [MYSQL_TYPE_SHORT; MYSQL_TYPE_YEAR] then Some 2%nat
  else if is_type t [MYSQL_TYPE_FLOAT; MYSQL_TYPE_LONG; MYSQL_TYPE_INT24; MYSQL_TYPE_CURSOR] then Some 4%nat
  else if is_type t [MYSQL_TYPE_DOUBLE; MYSQL_TYPE_LONGLONG] then Some 8%nat
  else None.

(** The name of a time zone, and the length of a locator. *)
Definition zone_text (names : bytes) (zone : option Z) : bytes :=
  match zone with
  | None => []
  | Some a => match cstr (drop (Z.to_nat a) names) with Ret t => t | _ => [] end
  end.

Definition lob_length (lob : bytes) : Z := 40 + le_val (slice 32 4 lob) + le_val (slice 36 4 lob).

(** The bytes of a value: a number as it is in memory, a date or time in its short form, a text or a locator behind its length. *)
Definition object_bytes (t len : Z) (o : object) : bytes :=
  match o with
  | Mem bs =>
    match raw_width t with
    | Some w => take w bs
    | None => let n := if is_type t [MYSQL_TYPE_ORA_BLOB; MYSQL_TYPE_ORA_CLOB] then lob_length bs else len in
              lenenc n ++ take (Z.to_nat n) bs
    end
  | Time tm => if t =? MYSQL_TYPE_TIME then time_bytes tm else datetime_bytes tm
  | OTime tm names =>
    if t =? MYSQL_TYPE_OB_TIMESTAMP_WITH_TIME_ZONE
    then timestamp_tz_bytes tm (zone_text names (tz_name tm)) (zone_text names (tz_abbr tm)) else 12 :: timestamp_body tm
  | OInterval i => interval_bytes i
  end.

Definition value_of (pr : PARAM) : bytes :=
  match pbuffer pr with Some o => object_bytes (ptype pr) (ma_get_length pr) o | None => [] end.

Definition param_bytes (pr : PARAM) : bytes := if long_data_used pr || is_null_param pr then [] else value_of pr.

(** An object that fits the type and length of its parameter. *)
Definition object_ok (t len : Z) (o : object) : Prop :=
  match o with
  | Mem bs => all_bytes bs
      /\ match raw_width t with
         | Some w => (w <= length bs)%nat
         | None => text_type t || oracle_text_type t = true /\ len <= Z.of_nat (length bs)
             \/ is_type t [MYSQL_TYPE_ORA_BLOB; MYSQL_TYPE_ORA_CLOB] = true /\ lob_length bs <= Z.of_nat (length bs)
                /\ locator (take (Z.to_nat (lob_length bs)) bs)
         end
  | Time _ => In t [MYSQL_TYPE_TIME; MYSQL_TYPE_DATE; MYSQL_TYPE_TIMESTAMP; MYSQL_TYPE_DATETIME]
  | OTime tm names =>
      t = MYSQL_TYPE_OB_TIMESTAMP_WITH_TIME_ZONE
      /\ zone_is names (tz_name tm) (zone_text names (tz_name tm)) /\ zone_is names (tz_abbr tm) (zone_text names (tz_abbr tm))
      /\ (length (zone_text names (tz_name tm)) + length (zone_text names (tz_abbr tm)) < 235)%nat
      \/ In t [MYSQL_TYPE_OB_TIMESTAMP_NANO; MYSQL_TYPE_OB_TIMESTAMP_WITH_LOCAL_TIME_ZONE]
  | OInterval i => In t [MYSQL_TYPE_OB_INTERVAL_DS; MYSQL_TYPE_OB_INTERVAL_YM]
      /\ mysql_type i = match data_object i with ym_object _ _ _ => MYSQL_TYPE_OB_INTERVAL_YM | _ => MYSQL_TYPE_OB_INTERVAL_DS end
  end.

Definition param_ok (pr : PARAM) : Prop :=
  ptype pr <> MYSQL_TYPE_OBJECT /\ 0 <= ma_get_length pr < 2 ^ 60
  /\ (is_null_param pr = true \/ match pbuffer pr with None => False | Some o => object_ok (ptype pr) (ma_get_length pr) o end).

Lemma raw_width_cases t w : raw_width t = Some w ->
  t = MYSQL_TYPE_TINY /\ w = 1%nat \/ In t [MYSQL_TYPE_SHORT; MYSQL_TYPE_YEAR] /\ w = 2%nat
  \/ In t [MYSQL_TYPE_FLOAT; MYSQL_TYPE_LONG; MYSQL_TYPE_INT24; MYSQL_TYPE_CURSOR] /\ w = 4%nat
  \/ In t [MYSQL_TYPE_DOUBLE; MYSQL_TYPE_LONGLONG] /\ w = 8%nat.
Proof.
  unfold raw_width. destruct (Z.eqb_spec t MYSQL_TYPE_TINY); [intros [= <-]; auto|].
  destruct (is_type t [MYSQL_TYPE_SHORT; _]) eqn:E1; [intros [= <-]; apply is_type_in in E1; auto|].
  destruct (is_type t [MYSQL_TYPE_FLOAT; _; _; _]) eqn:E2; [intros [= <-]; apply is_type_in in E2; auto|].
  destruct (is_type t [MYSQL_TYPE_DOUBLE; _]) eqn:E3; [intros [= <-]; apply is_type_in in E3; auto 10|done].
Qed.

Section layout.
Context (junk : Z) (put_object : PARAM -> bytes -> Z -> cres (bytes * Z)) (size_object : PARAM -> Z).
Context (object_type : PARAM -> bytes -> Z -> cres (bytes * Z)) (alloc_ok : Z -> bool).

Lemma store_raw_writes pr mem p bs w :
  pbuffer pr = Some (Mem bs) -> raw_width (ptype pr) = Some w -> all_bytes bs -> (w <= length bs)%nat -> room mem p w ->
  store_param junk put_object pr mem p = Ret (0, splice p (take w bs) mem, p + Z.of_nat w).
Proof.
  intros Hb Hw Hbs Hl Hr. unfold store_param, mem_of. rewrite Hb.
  assert (load_bytes bs 0 w = Ret (take w bs)) as Hload.
  { rewrite load_bytes_in by (split; lia). by change (Z.to_nat 0) with 0%nat. }
  assert (all_bytes (take w bs)) as Hbt by (apply Forall_take; done).
  assert (length (take w bs) = w) as Hlt by (rewrite length_take; lia).
  pose proof (le_bytes_le_val _ _ Hbt Hlt) as Hle.
  destruct (raw_width_cases _ _ Hw) as [[-> ->]|[[Ht ->]|[[Ht ->]|[Ht ->]]]].
  - simpl is_type. cbv iota. rewrite Z.eqb_refl, !bind_ret, (uint1korr_load bs 0 _ Hbt Hload : load bs 0 = _), bind_ret.
    by rewrite int1store_splice, Hle by done.
  - destruct Ht as [<-|[<-|[]]]; cbn [is_type existsb Z.eqb orb]; rewrite !bind_ret, (sint2korr_load bs 0 _ Hbt Hload), bind_ret;
      rewrite int2store_splice by done; rewrite bind_ret, (le_bytes_mod 2 _ (le_val (take 2 bs))), Hle by (apply wrap_swrap; lia); done.
  - destruct Ht as [<-|[<-|[<-|[<-|[]]]]]; cbn [is_type existsb Z.eqb orb]; rewrite !bind_ret;
      [rewrite Hload, bind_ret, store_bytes_splice, map_u8_bytes by (done || by rewrite Hlt); done|..];
      rewrite (sint4korr_load bs 0 _ Hbt Hload), bind_ret;
      rewrite int4store_splice by done; rewrite bind_ret, (le_bytes_mod 4 _ (le_val (take 4 bs))), Hle by (apply wrap_swrap; lia); done.
  - destruct Ht as [<-|[<-|[]]]; cbn [is_type existsb Z.eqb orb]; rewrite !bind_ret;
      [rewrite Hload, bind_ret, store_bytes_splice, map_u8_bytes by (done || by rewrite Hlt); done|].
    rewrite (uint8korr_load bs 0 _ Hbt Hload), bind_ret, int8store_splice, bind_ret, Hle by done. done.
Qed.

Lemma store_text_writes pr mem p bs :
  pbuffer pr = Some (Mem bs) -> raw_width (ptype pr) = None -> text_type (ptype pr) || oracle_text_type (ptype pr) = true ->
  all_bytes bs -> 0 <= ma_get_length pr <= Z.of_nat (length bs) -> ma_get_length pr < 2 ^ 60 ->
  let vb := lenenc (ma_get_length pr) ++ take (Z.to_nat (ma_get_length pr)) bs in
  room mem p (length vb) ->
  store_param junk put_object pr mem p = Ret (0, splice p vb mem, p + Z.of_nat (length vb)).
Proof.
  intros Hb Hw Ht Hbs Hl H60 vb Hr.
  assert (store_param junk put_object pr mem p = store_text pr mem p) as ->.
  { unfold store_param. apply orb_true_iff in Ht as [Ht|Ht]; apply is_type_in in Ht;
      repeat (destruct Ht as [Ht|Ht]; [by rewrite <- Ht|]); destruct Ht. }
  unfold store_text, mem_of. rewrite Hb, bind_ret, wrap_small by (unfold uint; lia).
  set (len := ma_get_length pr) in *. unfold ULONGLONG_MAX. rewrite (proj2 (Z.eqb_neq len _)), bind_ret by lia.
  assert (length (take (Z.to_nat len) bs) = Z.to_nat len) as Hlt by (rewrite length_take; lia).
  unfold vb in Hr. rewrite length_app, Hlt in Hr.
  assert (room mem p (length (lenenc len))) as Hr1 by (unfold room in *; lia).
  rewrite store_length_writes, bind_ret by (done || (unfold uint; lia)).
  assert ((if nonzero len then bs ← load_bytes bs 0 (Z.to_nat len); store_bytes (splice p (lenenc len) mem) (p + Z.of_nat (length (lenenc len))) bs
           else Ret (splice p (lenenc len) mem)) = Ret (splice p vb mem)) as ->.
  { destruct (nonzero len) eqn:Hz.
    - rewrite load_bytes_in, bind_ret by (split; lia). change (Z.to_nat 0) with 0%nat. rewrite drop_0.
      rewrite store_bytes_splice, map_u8_bytes by (by apply Forall_take || (unfold room in *; rewrite length_splice by done; lia)).
      f_equal. apply splice_app. by rewrite length_app, Hlt.
    - apply nonzero_false in Hz. unfold vb. rewrite Hz. simpl. by rewrite ?app_nil_r. }
  rewrite bind_ret. do 2 f_equal. unfold vb. rewrite length_app, Hlt. lia.
Qed.

Lemma datetime_bytes_short t : (length (datetime_bytes t) <= 12)%nat.
Proof.
  destruct (datetime_bytes_head t) as (rest & -> & Hl & _). simpl.
  destruct (datetime_len_cases t) as [|[[]|[[]|[]]]]; lia.
Qed.

Lemma time_bytes_short t : (length (time_bytes t) <= 13)%nat.
Proof.
  destruct (time_bytes_head t) as (rest & -> & Hl). simpl. destruct (time_len_cases t) as [|[[]|[]]]; lia.
Qed.

(** What holds of a value: a size is reserved that it needs at most, up to 20 bytes, and it is written where it is announced. *)
Definition written (pr : PARAM) : Prop :=
  exists size, param_size size_object pr = Ret (size, true) /\ 0 <= size <= ma_get_length pr + Z.of_nat (length (value_of pr)) + 13
    /\ Z.of_nat (length (value_of pr)) <= size + 20
    /\ forall mem p, room mem p (Z.to_nat (size + 20)) ->
        store_param junk put_object pr mem p = Ret (0, splice p (value_of pr) mem, p + Z.of_nat (length (value_of pr))).

Lemma length_wraps pr : 0 <= ma_get_length pr < 2 ^ 60 ->
  u64 (ma_get_length pr) = ma_get_length pr /\ u64 (5 + ma_get_length pr) = 5 + ma_get_length pr.
Proof. intros H. split; apply wrap_small; unfold uint; lia. Qed.

Lemma mem_written pr bs : pbuffer pr = Some (Mem bs) -> 0 <= ma_get_length pr < 2 ^ 60 ->
  object_ok (ptype pr) (ma_get_length pr) (Mem bs) -> is_type (ptype pr) [MYSQL_TYPE_ORA_BLOB; MYSQL_TYPE_ORA_CLOB] = false -> written pr.
Proof.
  intros Hb Hlen [Hbs Hok] Hlob. unfold written, value_of. rewrite Hb. unfold object_bytes. rewrite Hlob. destruct (length_wraps pr Hlen) as [Hw Hw5].
  destruct (raw_width (ptype pr)) as [w|] eqn:Hrw.
  - assert (w <= 8)%nat by (destruct (raw_width_cases _ _ Hrw) as [[_ ->]|[[_ ->]|[[_ ->]|[_ ->]]]]; lia).
    exists (Z.of_nat w). rewrite length_take, Nat.min_l by lia. split_and!; [|lia..|].
    + unfold param_size. destruct (raw_width_cases _ _ Hrw) as [[-> ->]|[[Ht ->]|[[Ht ->]|[Ht ->]]]]; [done|..];
        repeat (destruct Ht as [Ht|Ht]; [by rewrite <- Ht|]); destruct Ht.
    + intros mem p Hr. apply store_raw_writes; try done. unfold room in *. lia.
  - destruct Hok as [[Ht Hle]|[Ht _]]; [|congruence]. cbv zeta.
    assert (param_size size_object pr = Ret (5 + ma_get_length pr, true) \/ param_size size_object pr = Ret (ma_get_length pr, true)) as Hsz.
    { unfold param_size. rewrite Hw, Hw5. apply orb_true_iff in Ht as [Ht|Ht]; apply is_type_in in Ht;
        repeat (destruct Ht as [Ht|Ht]; [rewrite <- Ht; auto|]); destruct Ht. }
    pose proof (lenenc_short (ma_get_length pr)). set (vb := lenenc (ma_get_length pr) ++ take (Z.to_nat (ma_get_length pr)) bs).
    assert (Z.to_nat (ma_get_length pr) <= length vb <= 9 + Z.to_nat (ma_get_length pr))%nat as Hvb by (unfold vb; rewrite length_app, length_take; lia).
    destruct Hsz as [-> | ->]; eexists; (split; [done|]); (split; [lia|]); (split; [lia|]); intros mem p Hr;
      (apply store_text_writes; try done; [lia|lia|]; fold vb; unfold room in *; lia).
Qed.

Lemma lob_written pr bs : pbuffer pr = Some (Mem bs) -> 0 <= ma_get_length pr < 2 ^ 60 ->
  object_ok (ptype pr) (ma_get_length pr) (Mem bs) -> is_type (ptype pr) [MYSQL_TYPE_ORA_BLOB; MYSQL_TYPE_ORA_CLOB] = true -> written pr.
Proof.
  intros Hb Hlen [Hbs Hok] Hlob. unfold written, value_of. rewrite Hb. unfold object_bytes. rewrite Hlob.
  assert (ptype pr = MYSQL_TYPE_ORA_BLOB \/ ptype pr = MYSQL_TYPE_ORA_CLOB) as Ht by (apply is_type_in in Hlob as [?|[?|[]]]; auto).
  assert (raw_width (ptype pr) = None) as Hrw by (destruct Ht as [-> | ->]; done). rewrite Hrw in *. cbv zeta.
  destruct Hok as [[Hx _]|(_ & Hle & Hloc)]; [by destruct Ht as [Ht|Ht]; rewrite Ht in Hx|]. set (n := lob_length bs) in *.
  assert (0 <= n) as Hn by (destruct Hloc as (_ & Hl40 & _); rewrite length_take in Hl40; lia).
  set (l := take (Z.to_nat n) bs) in *. assert (Z.of_nat (length l) = n) as Hl by (unfold l; rewrite length_take; lia).
  assert (text_at bs 0 l) as Hm.
  { unfold text_at. rewrite load_bytes_in by (unfold room; lia). change (Z.to_nat 0) with 0%nat. rewrite drop_0. unfold l. by rewrite length_take, Nat.min_l by lia. }
  pose proof (reserved_is l bs Hloc Hm) as Hres. rewrite Hl in Hres. set (vb := lenenc n ++ l) in *.
  exists (Z.of_nat (length vb)). split_and!; [|lia..|].
  - unfold param_size, calculate_param_len, mem_of. rewrite Hb.
    assert (u64 (Z.of_nat (length vb)) = Z.of_nat (length vb)) as Hw.
    { apply wrap_small. destruct Hloc as (_ & _ & Hmax & _). pose proof (lenenc_short n). unfold uint, vb. rewrite length_app. lia. }
    destruct Ht as [-> | ->]; cbn [is_type existsb Z.eqb orb Pos.eqb]; cbn -[calculate_param_ob_lob_len vb u64]; rewrite Hres, bind_ret, Hw; done.
  - intros mem p Hr. pose proof (store_lob_writes l bs Hloc Hm mem p) as Hst. rewrite Hl in Hst. fold vb in Hst.
    unfold store_param, mem_of. rewrite Hb.
    assert (room mem p (length vb)) as Hr' by (unfold room in *; lia).
    destruct Ht as [-> | ->]; cbn -[store_param_ob_lob_complex vb splice]; rewrite Hst, bind_ret by done; done.
Qed.

Lemma time_written pr tm : pbuffer pr = Some (Time tm) -> 0 <= ma_get_length pr < 2 ^ 60 ->
  object_ok (ptype pr) (ma_get_length pr) (Time tm) -> written pr.
Proof.
  intros Hb Hlen Ht. unfold written, value_of. rewrite Hb. unfold object_bytes. destruct (length_wraps pr Hlen) as [Hw Hw5].
  simpl in Ht. pose proof (time_bytes_short tm). pose proof (datetime_bytes_short tm). exists (5 + ma_get_length pr).
  assert (param_size size_object pr = Ret (5 + ma_get_length pr, true)) as ->.
  { unfold param_size. rewrite Hw, Hw5. repeat (destruct Ht as [Ht|Ht]; [by rewrite <- Ht|]); destruct Ht. }
  assert (Z.of_nat (length (if ptype pr =? MYSQL_TYPE_TIME then time_bytes tm else datetime_bytes tm)) <= 13) by (destruct (_ =? _); lia).
  split_and!; [done|lia..|]. intros mem p Hr. unfold store_param, time_of. rewrite Hb.
  destruct Ht as [<-|[<-|[<-|[<-|[]]]]]; cbn -[store_time store_datetime time_bytes datetime_bytes splice];
    rewrite ?store_time_writes, ?store_datetime_writes by (unfold room in *; lia); done.
Qed.

Lemma zone_length_is names z t : zone_is names z t -> zone_length names z = Ret (Z.of_nat (length t)).
Proof.
  intros [Ht Hz]. destruct z as [a|]; [|by subst t]. destruct (text_at_strlen _ _ _ Ht Hz) as (Ha & Hs & _).
  unfold zone_length. by rewrite (proj2 (Z.ltb_ge a 0)) by lia.
Qed.

Lemma otime_written pr tm names : pbuffer pr = Some (OTime tm names) -> 0 <= ma_get_length pr < 2 ^ 60 ->
  object_ok (ptype pr) (ma_get_length pr) (OTime tm names) -> written pr.
Proof.
  intros Hb Hlen Hok. unfold written, value_of. rewrite Hb. unfold object_bytes. destruct (length_wraps pr Hlen) as [Hw Hw5].
  destruct Hok as [(Ht & Hz1 & Hz2 & Hz)|Ht].
  - rewrite Ht. change (MYSQL_TYPE_OB_TIMESTAMP_WITH_TIME_ZONE =? MYSQL_TYPE_OB_TIMESTAMP_WITH_TIME_ZONE) with true. cbv iota.
    set (t1 := zone_text names (tz_name tm)) in *. set (t2 := zone_text names (tz_abbr tm)) in *.
    assert (Z.of_nat (length (timestamp_tz_bytes tm t1 t2)) = 17 + Z.of_nat (length t1) + Z.of_nat (length t2)) as Hl.
    { unfold timestamp_tz_bytes. cbn [length]. rewrite !length_app. cbn [length zone_bytes]. change (length (timestamp_body tm)) with 12%nat. lia. }
    exists (17 + Z.of_nat (length t1) + Z.of_nat (length t2)). split_and!; [|lia..|].
    + unfold param_size, calculate_param_len, otime_of. rewrite Ht, Hb.
      cbn -[calculate_param_oracle_timestamp_len u64]. unfold calculate_param_oracle_timestamp_len.
      rewrite (zone_length_is _ _ _ Hz1), (zone_length_is _ _ _ Hz2), !bind_ret.
      rewrite (wrap_small 64 (17 + _)) by (unfold uint; lia). by rewrite !(wrap_small 64 (_ + Z.of_nat (length t2))) by (unfold uint; lia).
    + intros mem p Hr. unfold store_param, otime_of. rewrite Ht, Hb. cbn -[store_param_oracle_timestamp_tz_complex timestamp_tz_bytes splice].
      rewrite (store_tz_writes junk mem p tm names t1 t2), bind_ret by (done || (unfold room in *; lia)). done.
  - assert ((ptype pr =? MYSQL_TYPE_OB_TIMESTAMP_WITH_TIME_ZONE) = false) as -> by (destruct Ht as [<-|[<-|[]]]; done).
    exists (5 + ma_get_length pr). change (length (12 :: timestamp_body tm)) with 13%nat. split_and!; [|lia..|].
    + unfold param_size. rewrite Hw, Hw5. by destruct Ht as [<-|[<-|[]]].
    + intros mem p Hr. unfold store_param, otime_of. rewrite Hb.
      destruct Ht as [<-|[<-|[]]]; cbn -[store_param_oracle_timestamp_nano_complex timestamp_body splice];
        rewrite store_nano_writes by (unfold room in *; lia); done.
Qed.

Lemma interval_written pr i : pbuffer pr = Some (OInterval i) -> 0 <= ma_get_length pr < 2 ^ 60 ->
  object_ok (ptype pr) (ma_get_length pr) (OInterval i) -> written pr.
Proof.
  intros Hb Hlen [Ht Hi]. unfold written, value_of. rewrite Hb. unfold object_bytes. destruct (length_wraps pr Hlen) as [Hw Hw5].
  assert (length (interval_bytes i) <= 15)%nat by (unfold interval_bytes; destruct (data_object i); simpl; lia).
  exists (ma_get_length pr). split_and!; [|lia..|].
  - unfold param_size. rewrite Hw. by destruct Ht as [<-|[<-|[]]].
  - intros mem p Hr. unfold store_param, interval_of. rewrite Hb.
    destruct Ht as [<-|[<-|[]]]; cbn -[store_param_oracle_interval_complex interval_bytes splice];
      rewrite store_interval_writes by (done || (unfold room in *; lia)); done.
Qed.

Lemma store_param_writes pr : param_ok pr -> is_null_param pr = false -> written pr.
Proof.
  intros (Hobj & Hlen & [|Hok]) Hnull; [congruence|]. destruct (pbuffer pr) as [[bs|tm|tm names|i]|] eqn:Hb; [| | | |done].
  - destruct (is_type (ptype pr) [MYSQL_TYPE_ORA_BLOB; MYSQL_TYPE_ORA_CLOB]) eqn:E; [by apply (lob_written pr bs)|by apply (mem_written pr bs)].
  - by apply (time_written pr tm).
  - by apply (otime_written pr tm names).
  - by apply (interval_written pr i).
Qed.

(** Bit [k] of a bitmap. *)
Definition nbit (nulls : bytes) (k : Z) : bool :=
  match nulls !! Z.to_nat (k / 8) with Some b => Z.testbit b (k mod 8) | None => false end.

Lemma set_bit_byte b i k : is_byte b -> 0 <= i < 8 -> 0 <= k < 8 ->
  is_byte (Z.lor b (2 ^ i)) /\ Z.testbit (Z.lor b (2 ^ i)) k = Z.testbit b k || (k =? i).
Proof.
  intros Hb Hi Hk. split.
  - unfold is_byte, uint in *. assert (2 ^ i < 2 ^ 8) by (apply Z.pow_lt_mono_r; lia). split; [apply Z.lor_nonneg; lia|].
    apply Z.log2_lt_cancel. change (Z.log2 (2 ^ 8)) with 8. rewrite Z.log2_lor by lia. rewrite Z.log2_pow2 by lia.
    assert (Z.log2 b < 8); [|lia]. destruct (decide (b = 0)) as [->|]; [done|]. apply Z.log2_lt_pow2; lia.
  - rewrite Z.lor_spec, Z.pow2_bits_eqb by lia. f_equal. destruct (Z.eqb_spec i k), (Z.eqb_spec k i); lia || done.
Qed.

Lemma nbit_insert nulls i b : 0 <= i -> all_bytes nulls -> nulls !! Z.to_nat (i / 8) = Some b ->
  let nulls' := <[Z.to_nat (i / 8) := Z.lor b (2 ^ (i mod 8))]> nulls in
  all_bytes nulls' /\ forall k, 0 <= k -> nbit nulls' k = nbit nulls k || (k =? i).
Proof.
  intros Hi Hb Hl nulls'. pose proof (Z.mod_pos_bound i 8 ltac:(lia)) as Hm.
  assert (is_byte b) as Hbb by (eapply Forall_lookup_1; eauto). split.
  - apply Forall_insert; [done|]. apply (set_bit_byte b (i mod 8) 0); [done|lia|lia].
  - intros k Hk. pose proof (Z.mod_pos_bound k 8 ltac:(lia)). unfold nbit, nulls'.
    destruct (decide (Z.to_nat (k / 8) = Z.to_nat (i / 8))) as [E|E].
    + rewrite E, list_lookup_insert_eq, Hl by (by eapply lookup_lt_Some).
      destruct (set_bit_byte b (i mod 8) (k mod 8)) as [_ ->]; [done|lia|lia|]. f_equal.
      assert (k / 8 = i / 8) by (assert (0 <= k / 8) by (apply Z.div_pos; lia); assert (0 <= i / 8) by (apply Z.div_pos; lia); lia).
      destruct (Z.eqb_spec (k mod 8) (i mod 8)), (Z.eqb_spec k i); try done; exfalso; dlia.
    + rewrite list_lookup_insert_ne by done. destruct (Z.eqb_spec k i); [by subst|]. by rewrite orb_false_r.
Qed.

(** The allocation: [C] is written, and [len] bytes are there in all. *)
Definition filled (start : bytes) (len p : Z) (C : bytes) : Prop :=
  len = Z.of_nat (length start) /\ p = Z.of_nat (length C) /\ len < 2 ^ 63 /\ exists rest, start = C ++ rest.

Lemma filled_write start len p C vb : filled start len p C -> p + Z.of_nat (length vb) <= len ->
  room start p (length vb) /\ filled (splice p vb start) len (p + Z.of_nat (length vb)) (C ++ vb).
Proof.
  intros (-> & -> & Hl & rest & ->) Hr. rewrite length_app in Hr.
  assert (room (C ++ rest) (Z.of_nat (length C)) (length vb)) as Hroom by (unfold room; rewrite length_app; lia).
  split; [done|]. split_and!; [by rewrite length_splice|rewrite length_app; lia|done|].
  eexists. rewrite splice_front by lia. by rewrite app_assoc.
Qed.

Lemma filled_grow start len p C n : filled start len p C -> len <= n < 2 ^ 63 -> filled (resize junk n start) n p C.
Proof.
  intros (-> & -> & Hl & rest & ->) Hn. split_and!; [by rewrite length_resize by lia|done|lia|].
  rewrite resize_grow by lia. rewrite <- app_assoc. by eexists.
Qed.

(** Making room before a value. *)
Lemma ensure_room start len p C size :
  filled start len p C -> 0 <= size -> p + size + 20 < 2 ^ 62 ->
  let r := if u64 (len - p) <? u64 (size + 20) then
             let len := Z.max (u64 (2 * len)) (u64 (p + size + 20)) in
             match grow junk alloc_ok start len with Some start => Some (start, len) | None => None end
           else Some (start, len) in
  (r = None /\ exists n, alloc_ok n = false)
  \/ exists start' len', r = Some (start', len') /\ filled start' len' p C /\ p + size + 20 <= len'.
Proof.
  intros Hf Hs Hsum. pose proof Hf as (Hl & Hp & Hmax & rest & Hst).
  assert (p <= len) by (rewrite Hl, Hst, length_app; lia).
  rewrite (wrap_small 64 (len - p)), (wrap_small 64 (size + 20)), (wrap_small 64 (p + size + 20)) by (unfold uint; lia).
  destruct (Z.ltb_spec (len - p) (size + 20)); [|right; eexists _, _; split; [done|]; split; [done|lia]].
  rewrite wrap_small by (unfold uint; lia). unfold grow.
  destruct (alloc_ok (Z.max (2 * len) (p + size + 20))) eqn:E; [|left; eauto].
  right. eexists _, _. split; [done|]. split; [apply (filled_grow start len); [done|lia]|lia].
Qed.

(** Setting the bit of a NULL parameter in the middle of what is written. *)
Lemma filled_set_bit start len p A nulls B i :
  filled start len p (A ++ nulls ++ B) -> all_bytes nulls -> 0 <= i -> i / 8 < Z.of_nat (length nulls) ->
  exists start' nulls', (b ← load start (Z.of_nat (length A) + i / 8);
           start ← store start (Z.of_nat (length A) + i / 8) (Z.lor b (u8 (Z.shiftl 1 (Z.land i 7))));
           Ret (start, false)) = Ret (start', false)
    /\ filled start' len p (A ++ nulls' ++ B) /\ length nulls' = length nulls /\ all_bytes nulls'
    /\ forall k, 0 <= k -> nbit nulls' k = nbit nulls k || (k =? i).
Proof.
  intros (-> & -> & Hl & rest & ->) Hb Hi Hin. assert (0 <= i / 8) by (apply Z.div_pos; lia).
  destruct (lookup_lt_is_Some_2 nulls (Z.to_nat (i / 8))) as [b Hlk]; [lia|].
  destruct (nbit_insert nulls i b Hi Hb Hlk) as [Hb' Hbits]. cbv zeta in Hb', Hbits.
  set (nulls' := <[_ := _]> nulls) in *.
  assert (((A ++ nulls ++ B) ++ rest) !! Z.to_nat (Z.of_nat (length A) + i / 8) = Some b) as Hlk'.
  { rewrite <- !app_assoc. replace (Z.to_nat _) with (length A + Z.to_nat (i / 8))%nat by lia.
    rewrite lookup_app_r by lia. replace (_ - _)%nat with (Z.to_nat (i / 8)) by lia.
    rewrite lookup_app_l by lia. done. }
  rewrite (load_lookup _ _ b) by (lia || done). rewrite bind_ret.
  rewrite Z.shiftl_1_l. change 7 with (Z.ones 3). rewrite Z.land_ones by lia. change (2 ^ 3) with 8.
  pose proof (Z.mod_pos_bound i 8 ltac:(lia)) as Hm.
  assert (2 ^ (i mod 8) < 2 ^ 8) by (apply Z.pow_lt_mono_r; lia).
  rewrite (wrap_small 8 (2 ^ (i mod 8))) by (unfold uint; lia).
  assert (is_byte b) as Hbb by exact (Forall_lookup_1 _ _ _ _ Hb Hlk).
  destruct (set_bit_byte b (i mod 8) 0 Hbb) as [Hby _]; [lia|lia|].
  rewrite store_in by (split; [lia|]; rewrite !length_app; lia). rewrite bind_ret, wrap_small by done.
  eexists _, nulls'. split; [done|]. split; [|split; [unfold nulls'; apply length_insert|done]].
  split_and!; [by rewrite length_insert|unfold nulls'; rewrite !length_app, length_insert; lia|done|].
  exists rest. rewrite <- !app_assoc. replace (Z.to_nat (Z.of_nat (length A) + i / 8)) with (length A + Z.to_nat (i / 8))%nat by lia.
  rewrite insert_app_r, insert_app_l by lia. done.
Qed.

(** What the loop does with a parameter. *)
Definition plan (pr : PARAM) : cres (Z * bool) :=
  if negb (long_data_used pr) && negb (match pbuffer (reset_long_data pr) with None => true | Some _ => false end || nonzero (pnull (reset_long_data pr)))
  then param_size size_object (reset_long_data pr) else Ret (0, false).

Lemma plan_cases pr :
  is_null_param (reset_long_data pr) = is_null_param pr
  /\ (param_bytes pr = [] /\ plan pr = Ret (0, false)
      \/ is_null_param pr = false /\ param_bytes pr = value_of pr /\ reset_long_data pr = pr /\ plan pr = param_size size_object pr).
Proof.
  split; [done|]. destruct pr as [b t u n l lg]. unfold plan, param_bytes, is_null_param. simpl.
  destruct lg; [auto|]. destruct b as [o|]; [|left; by rewrite !orb_true_r]. destruct (nonzero n) eqn:Hn; [left; auto|]. simpl.
  destruct (Z.eqb_spec t MYSQL_TYPE_NULL) as [->|]; [left; auto|right; auto].
Qed.

(** An upper bound of what a list of parameters takes. *)
Definition params_size (prs : list PARAM) : Z := foldr (fun pr n => ma_get_length pr + Z.of_nat (length (param_bytes pr)) + 60 + n) 0 prs.

Lemma params_size_nonneg prs : Forall param_ok prs -> 0 <= params_size prs.
Proof. induction 1 as [|pr prs (_ & Hl & _)]; simpl; lia. Qed.

Definition null_of (prs : list PARAM) (k : Z) : bool :=
  match prs !! Z.to_nat k with Some pr => is_null_param pr | None => false end.

(** The size that is reserved, and that it is enough. *)
Lemma plan_size pr : param_ok pr -> exists size has, plan pr = Ret (size, has)
  /\ 0 <= size <= ma_get_length pr + Z.of_nat (length (param_bytes pr)) + 13 /\ Z.of_nat (length (param_bytes pr)) <= size + 20.
Proof.
  intros Hok. pose proof Hok as (_ & Hl & _). destruct (plan_cases pr) as [_ [[-> ->]|(Hn & -> & _ & ->)]]; [eexists _, _; split; [done|simpl; lia]|].
  destruct (store_param_writes pr Hok Hn) as (size & -> & Hsz & Hfit & _). eexists _, _. split; [done|lia].
Qed.

(** One parameter: the bit of a NULL, or the value behind what is written. *)
Lemma param_step pr size has start len p A nulls B i (K : bytes -> Z -> cres (option (bytes * Z) * list PARAM)) :
  param_ok pr -> plan pr = Ret (size, has) -> filled start len p (A ++ nulls ++ B) -> p + size + 20 <= len -> all_bytes nulls ->
  0 <= i -> i / 8 < Z.of_nat (length nulls) ->
  exists start' nulls', ('(start, has_data) ←
        (if is_null_param (reset_long_data pr) then
           b ← load start (Z.of_nat (length A) + i / 8);
           start ← store start (Z.of_nat (length A) + i / 8) (Z.lor b (u8 (Z.shiftl 1 (Z.land i 7))));
           Ret (start, false)
         else Ret (start, has));
      '(start, p) ← (if (has_data : bool) then '(_, start, p) ← store_param junk put_object (reset_long_data pr) start p; Ret (start, p) else Ret (start, p));
      K start p) = K start' (p + Z.of_nat (length (param_bytes pr)))
    /\ filled start' len (p + Z.of_nat (length (param_bytes pr))) (A ++ nulls' ++ B ++ param_bytes pr)
    /\ length nulls' = length nulls /\ all_bytes nulls'
    /\ forall k, 0 <= k -> nbit nulls' k = nbit nulls k || ((k =? i) && is_null_param pr).
Proof.
  intros Hok Hplan Hf Hroom Hb Hi Hin. destruct (plan_cases pr) as [-> Hcases]. destruct (is_null_param pr) eqn:Hn.
  - destruct (filled_set_bit start len p A nulls B i) as (start' & nulls' & -> & Hf' & Hlen & Hb' & Hbits); try done.
    exists start', nulls'. rewrite !bind_ret. destruct Hcases as [[-> _]|[? _]]; [|done].
    simpl. rewrite Z.add_0_r, app_nil_r. split_and!; try done. intros k Hk. by rewrite Hbits, andb_true_r.
  - rewrite bind_ret. destruct Hcases as [[-> E]|(_ & -> & -> & E)]; rewrite E in Hplan.
    + injection Hplan as <- <-. exists start, nulls. rewrite bind_ret. simpl. rewrite Z.add_0_r, app_nil_r. split_and!; try done.
      intros k _. by rewrite andb_false_r, orb_false_r.
    + pose proof Hf as (Hl & Hp & Hmax & rest & Hst).
      destruct (store_param_writes pr Hok Hn) as (size' & E' & Hsz & Hfit & Hw). rewrite E' in Hplan. injection Hplan as <- <-.
      rewrite Hw by (unfold room; lia). rewrite !bind_ret.
      destruct (filled_write start len p (A ++ nulls ++ B) (value_of pr) Hf) as [_ Hf']; [lia|].
      rewrite <- !app_assoc in Hf'. eexists _, nulls. split; [done|]. split_and!; try done.
      intros k _. by rewrite andb_false_r, orb_false_r.
Qed.

(** The loop appends the values and sets the bits of the NULL parameters, or an allocation fails. *)
Lemma param_loop_writes prs : forall i start len p A nulls B,
  Forall param_ok prs -> filled start len p (A ++ nulls ++ B) -> all_bytes nulls ->
  0 <= i -> i + Z.of_nat (length prs) <= 8 * Z.of_nat (length nulls) -> i + Z.of_nat (length prs) < 2 ^ 32 ->
  p + params_size prs < 2 ^ 61 ->
  let r := param_loop junk put_object size_object alloc_ok prs i start len (Z.of_nat (length A)) p in
  (exists prs' n, r = Ret (None, prs') /\ alloc_ok n = false)
  \/ exists start' p' len' nulls', r = Ret (Some (start', p'), map reset_long_data prs)
      /\ filled start' len' p' (A ++ nulls' ++ B ++ concat (map param_bytes prs))
      /\ length nulls' = length nulls
      /\ forall k, 0 <= k -> nbit nulls' k = nbit nulls k || ((i <=? k) && null_of prs (k - i)).
Proof.
  induction prs as [|pr prs IH]; intros i start len p A nulls B Hok Hf Hb Hi Hbits H32 Hsize.
  { right. exists start, p, len, nulls. simpl. rewrite app_nil_r. split_and!; try done.
    intros k _. unfold null_of. rewrite lookup_nil, andb_false_r, orb_false_r. done. }
  apply Forall_cons in Hok as [Hpr Hok]. destruct (plan_size pr Hpr) as (size & has & Hplan & Hsz & Hfit).
  pose proof (params_size_nonneg prs Hok). simpl in Hsize. simpl length in Hbits, H32. cbv zeta. cbn [param_loop]. cbv zeta.
  fold (plan pr). rewrite Hplan, bind_ret.
  destruct (ensure_room start len p (A ++ nulls ++ B) size Hf) as [[Hr (n & Hn)]|(start1 & len1 & Hr & Hf1 & Hroom)]; [lia|lia|..];
    cbv zeta in Hr; rewrite Hr; [left; by eexists _, n|].
  destruct (param_step pr size has start1 len1 p A nulls B i
    (fun start p => '(res, prs) ← param_loop junk put_object size_object alloc_ok prs (u32 (i + 1)) start len1 (Z.of_nat (length A)) p;
      Ret (res, reset_long_data pr :: prs)) Hpr Hplan Hf1) as (start2 & nulls2 & Hstep & Hf2 & Hlen2 & Hb2 & Hbit2);
    [done|done|lia|dlia|].
  rewrite Hstep. clear Hstep. rewrite wrap_small by (unfold uint; lia).
  destruct (IH (i + 1) start2 len1 (p + Z.of_nat (length (param_bytes pr))) A nulls2 (B ++ param_bytes pr))
    as [(prs' & n & -> & Hn)|(start3 & p3 & len3 & nulls3 & -> & Hf3 & Hlen3 & Hbit3)]; try done; try lia.
  - rewrite bind_ret. left. by eexists _, n.
  - rewrite bind_ret. right. exists start3, p3, len3, nulls3. split; [done|]. simpl concat. rewrite app_assoc.
    rewrite <- !app_assoc in *. split_and!; [done|by rewrite Hlen3|].
    intros k Hk. rewrite Hbit3, Hbit2, <- orb_assoc by done. f_equal. unfold null_of.
    destruct (Z.eqb_spec k i) as [->|Hne].
    + rewrite Z.sub_diag, Z.leb_refl. destruct (Z.leb_spec (i + 1) i); [lia|]. simpl. by rewrite orb_false_r.
    + simpl. destruct (Z.leb_spec i k) as [Hle|Hgt], (Z.leb_spec (i + 1) k); try lia.
      replace (Z.to_nat (k - i)) with (S (Z.to_nat (k - (i + 1)))) by lia. done.
Qed.

Definition types_bytes (prs : list PARAM) : bytes := concat (map (fun pr => le_bytes 2 (type_code pr)) prs).

Lemma length_types_bytes prs : Z.of_nat (length (types_bytes prs)) = 2 * Z.of_nat (length prs).
Proof.
  unfold types_bytes. induction prs as [|pr prs IH]; [done|]. cbn [map concat length].
  rewrite length_app, length_le_bytes, Nat2Z.inj_add, IH. lia.
Qed.

Lemma store_types_writes prs : forall start len p C,
  Forall param_ok prs -> filled start len p C -> p + 2 * Z.of_nat (length prs) <= len ->
  exists start', store_types object_type prs start p = Ret (start', p + 2 * Z.of_nat (length prs))
    /\ filled start' len (p + 2 * Z.of_nat (length prs)) (C ++ types_bytes prs).
Proof.
  unfold types_bytes. induction prs as [|pr prs IH]; intros start len p C Hok Hf Hr.
  { exists start. simpl. by rewrite Z.add_0_r, app_nil_r. }
  apply Forall_cons in Hok as [(Hobj & _) Hok]. simpl length in Hr |- *.
  destruct (filled_write start len p C (le_bytes 2 (type_code pr)) Hf) as [Hroom Hf1]; rewrite length_le_bytes in *; [lia|].
  cbn [store_types]. unfold store_param_type. rewrite int2store_splice, bind_ret by done. cbv zeta.
  rewrite (proj2 (Z.eqb_neq _ _) Hobj), bind_ret.
  destruct (IH _ len (p + 2) _ Hok Hf1) as (start' & -> & Hf2); [lia|]. exists start'.
  replace (p + 2 + 2 * Z.of_nat (length prs)) with (p + 2 * Z.of_nat (S (length prs))) in * by lia.
  split; [done|]. simpl. by rewrite <- app_assoc in Hf2.
Qed.

Lemma nbit_zeros n k : nbit (repeat 0 n) k = false.
Proof.
  unfold nbit. destruct (repeat 0 n !! Z.to_nat (k / 8)) as [b|] eqn:E; [|done].
  apply list_elem_of_lookup_2, list_elem_of_In, repeat_spec in E as ->. apply Z.bits_0.
Qed.

Lemma grow_or_fail start len p C n : filled start len p C -> len <= n < 2 ^ 63 ->
  grow junk alloc_ok start n = None /\ alloc_ok n = false
  \/ exists start', grow junk alloc_ok start n = Some start' /\ filled start' n p C.
Proof.
  intros Hf Hn. unfold grow. destruct (alloc_ok n) eqn:E; [right|by left].
  eexists. split; [done|]. by apply (filled_grow start len).
Qed.

(** The allocation before the bitmap and the one before the types. *)
Lemma null_room start len p C nc : filled start len p C -> len < 2 ^ 61 -> 0 <= nc < 2 ^ 32 ->
  let r := if u64 (len - p) <? nc + 20 then
             let len := u64 (len + (p + nc + 20)) in
             match grow junk alloc_ok start len with Some start => Some (start, len) | None => None end
           else Some (start, len) in
  (r = None /\ exists n, alloc_ok n = false)
  \/ exists start' len', r = Some (start', len') /\ filled start' len' p C /\ p + nc + 20 <= len' < 2 ^ 62 + 2 ^ 34.
Proof.
  intros Hf Hlen Hnc. pose proof Hf as (Hl & Hp & Hmax & rest & Hst).
  assert (0 <= p <= len) by (rewrite Hl, Hst, length_app; lia).
  rewrite (wrap_small 64 (len - p)), (wrap_small 64 (len + _)) by (unfold uint; lia).
  destruct (Z.ltb_spec (len - p) (nc + 20)); [|right; eexists _, _; split; [done|]; split; [done|lia]]. cbv zeta.
  destruct (grow_or_fail start len p C (len + (p + nc + 20)) Hf) as [[-> Hn]|(start' & -> & Hf')]; [lia|left; eauto|].
  right. eexists _, _. split; [done|]. split; [done|lia].
Qed.

Lemma types_room start len p C n send : filled start len p C -> p < 2 ^ 61 -> 0 <= n < 2 ^ 30 ->
  let r := if nonzero send && (u64 (len - p) <? u32 (u32 (n * 2) + 20)) then
             let len := u64 (p + u32 (n * 2) + 20) in
             match grow junk alloc_ok start len with Some start => Some (start, len) | None => None end
           else Some (start, len) in
  (r = None /\ exists n, alloc_ok n = false)
  \/ exists start' len', r = Some (start', len') /\ filled start' len' p C /\ (nonzero send = true -> p + 2 * n <= len').
Proof.
  intros Hf Hlen Hnc. pose proof Hf as (Hl & Hp & Hmax & rest & Hst).
  assert (0 <= p <= len) by (rewrite Hl, Hst, length_app; lia).
  rewrite (wrap_small 64 (len - p)), !(wrap_small 32), (wrap_small 64 (p + _ + 20)) by (unfold uint; rewrite ?wrap_small; unfold uint; lia).
  destruct (nonzero send); [|right; eexists _, _; split; [done|]; split; done].
  simpl. destruct (Z.ltb_spec (len - p) (n * 2 + 20)); [|right; eexists _, _; split; [done|]; split; [done|lia]].
  destruct (grow_or_fail start len p C (p + n * 2 + 20) Hf) as [[-> Hn]|(start' & -> & Hf')]; [lia|left; eauto|].
  right. eexists _, _. split; [done|]. split; [done|lia].
Qed.

(** The bitmap, the types and the values behind what is written. *)
Lemma store_params_writes prs send start p C :
  Forall param_ok prs -> Z.of_nat (length prs) < 2 ^ 30 -> params_size prs < 2 ^ 60 -> filled start 1024 p C -> p < 100 ->
  let r := store_params junk put_object size_object object_type alloc_ok prs send start 1024 p in
  (exists prs' n, r = Ret (None, prs') /\ alloc_ok n = false)
  \/ exists start' p' len' nulls, r = Ret (Some (start', p'), map reset_long_data prs)
      /\ filled start' len' p' (C ++ nulls ++ [u8 send] ++ (if nonzero send then types_bytes prs else []) ++ concat (map param_bytes prs))
      /\ Z.of_nat (length nulls) = (Z.of_nat (length prs) + 7) / 8
      /\ forall k, 0 <= k -> nbit nulls k = null_of prs k.
Proof.
  intros Hok Hn Hsize Hf Hp r. unfold r, store_params. cbv zeta. set (n := Z.of_nat (length prs)) in *.
  rewrite (wrap_small 32 (n + 7)) by (unfold uint; lia). set (nc := (n + 7) / 8).
  assert (0 <= nc < 2 ^ 28 /\ n <= 8 * nc) as [Hnc H8] by (unfold nc; split; [split|]; dlia).
  destruct (null_room start 1024 p C nc Hf) as [[E (m & Hm)]|(start1 & len1 & E & Hf1 & Hr1)]; [lia|lia|..];
    cbv zeta in E; rewrite E; clear E; [left; by eexists _, m|].
  set (zeros := repeat 0 (Z.to_nat nc)). assert (Z.of_nat (length zeros) = nc) as Hz by (unfold zeros; rewrite repeat_length; lia).
  assert (all_bytes zeros) as Hzb by (apply Forall_forall; intros b Hb; apply list_elem_of_In, repeat_spec in Hb as ->; done).
  destruct (filled_write start1 len1 p C zeros Hf1) as [Hroom1 Hf2]; [lia|].
  rewrite store_bytes_splice, map_u8_bytes, bind_ret by done. cbv zeta. rewrite Hz in Hf2.
  destruct (filled_write _ len1 (p + nc) _ [u8 send] Hf2) as [Hroom2 Hf3]; [simpl; lia|].
  rewrite int1store_splice, bind_ret by done. change (le_bytes 1 send) with [u8 send].
  change (Z.of_nat (length [u8 send])) with 1 in Hf3. rewrite <- app_assoc in Hf3.
  destruct (types_room _ len1 (p + nc + 1) _ n send Hf3) as [[E (m & Hm)]|(start4 & len4 & E & Hf4 & Hr4)]; [lia|lia|..];
    cbv zeta in E; rewrite E; clear E; [left; by eexists _, m|].
  assert (exists start5, (if nonzero send then store_types object_type prs start4 (p + nc + 1) else Ret (start4, p + nc + 1))
    = Ret (start5, Z.of_nat (length (C ++ zeros ++ [u8 send] ++ if nonzero send then types_bytes prs else [])))
    /\ filled start5 len4 (Z.of_nat (length (C ++ zeros ++ [u8 send] ++ if nonzero send then types_bytes prs else [])))
         (C ++ zeros ++ [u8 send] ++ if nonzero send then types_bytes prs else [])) as (start5 & -> & Hf5).
  { pose proof Hf4 as (_ & Hp4 & _). destruct (nonzero send).
    - destruct (store_types_writes prs start4 len4 (p + nc + 1) _ Hok Hf4) as (start5 & -> & Hf5); [lia|]. exists start5.
      pose proof Hf5 as (_ & Hp5 & _). rewrite <- !app_assoc in Hp5, Hf5. rewrite <- Hp5. done.
    - exists start4. rewrite app_nil_r, <- Hp4. done. }
  rewrite bind_ret. set (p5 := Z.of_nat (length (C ++ _))) in *. pose proof Hf as (_ & HpC & _).
  assert (p5 <= p + nc + 1 + 2 * n) as Hp5.
  { unfold p5. rewrite !length_app. change (length [u8 send]) with 1%nat. destruct (nonzero send); [pose proof (length_types_bytes prs)|simpl]; lia. }
  rewrite HpC. destruct (param_loop_writes prs 0 start5 len4 p5 C zeros _ Hok Hf5 Hzb)
    as [(prs' & m & -> & Hm)|(start6 & p6 & len6 & nulls & -> & Hf6 & Hlen6 & Hbits)]; [lia|lia|lia|lia|left; by eexists _, m|].
  right. exists start6, p6, len6, nulls. rewrite <- !app_assoc in Hf6. split_and!; [done|done|by rewrite Hlen6|].
  intros k Hk. rewrite Hbits by done. unfold zeros. rewrite nbit_zeros, Z.sub_0_r. destruct (Z.leb_spec 0 k); [done|lia].
Qed.

(** C8: the packet that executes a statement is the statement's id, one byte of flags, the iteration count 1 and, when
    there are parameters, the NULL bitmap with one bit for each, whether types follow, the types (with the unsigned
    flag), and the values in order, NULL ones and those sent as long data left out; the flag of long data is reset,
    and the types are not sent again. The parameters are of the supported types, without objects, and have
    their lengths given (a text of length -1 is excluded by [param_ok]); for those nothing is written past the
    allocation, whatever the sizes, and no packet is made only when an allocation fails. *)
Theorem request_layout stmt_id flags send prs :
  Forall param_ok prs -> Z.of_nat (length prs) < 2 ^ 30 -> params_size prs < 2 ^ 60 ->
  let r := mysql_stmt_execute_generate_simple_request junk put_object size_object object_type alloc_ok stmt_id flags send prs in
  (exists prs' n, r = Ret (None, send, prs') /\ alloc_ok n = false)
  \/ exists nulls, r = Ret (Some (le_bytes 4 stmt_id ++ [u8 flags] ++ le_bytes 4 1
          ++ (if nonzero (Z.of_nat (length prs))
              then nulls ++ [u8 send] ++ (if nonzero send then types_bytes prs else []) ++ concat (map param_bytes prs) else [])), 0,
        map reset_long_data prs)
      /\ Z.of_nat (length nulls) = (Z.of_nat (length prs) + 7) / 8
      /\ forall k, 0 <= k -> nbit nulls k = null_of prs k.
Proof.
  intros Hok Hn Hsize r. unfold r, mysql_stmt_execute_generate_simple_request.
  destruct (alloc_ok 1024) eqn:Ha; [|left; by eexists _, 1024]. cbn [negb]. cbv zeta.
  change (0 + STMT_ID_LENGTH + 1 + 4) with 9. change (0 + STMT_ID_LENGTH + 1) with 5. change (0 + STMT_ID_LENGTH) with 4.
  assert (filled (repeat junk (Z.to_nat 1024)) 1024 0 []) as Hf0 by (split_and!; [by rewrite repeat_length|done|lia|by eexists]).
  destruct (filled_write _ 1024 0 [] (le_bytes 4 stmt_id) Hf0) as [R1 Hf1]; [rewrite length_le_bytes; lia|].
  rewrite int4store_splice, bind_ret by (by rewrite length_le_bytes in R1). rewrite length_le_bytes in Hf1.
  change (0 + Z.of_nat 4) with 4 in Hf1. simpl app in Hf1.
  destruct (filled_write _ 1024 _ _ [u8 flags] Hf1) as [R2 Hf2]; [simpl; lia|]. change (4 + Z.of_nat (length [u8 flags])) with 5 in Hf2.
  rewrite int1store_splice, bind_ret by done. change (le_bytes 1 (u8 flags)) with [u8 (u8 flags)].
  rewrite (wrap_small 8 (u8 flags)) by (apply wrap_uint; lia).
  destruct (filled_write _ 1024 _ _ (le_bytes 4 1) Hf2) as [R3 Hf3]; [simpl; lia|].
  rewrite int4store_splice, bind_ret by done. rewrite <- app_assoc in Hf3.
  change (5 + Z.of_nat (length (le_bytes 4 1))) with 9 in Hf3.
  destruct (nonzero (Z.of_nat (length prs))) eqn:Hnz.
  - destruct (store_params_writes prs send _ 9 _ Hok Hn Hsize Hf3) as [(prs' & n & E & Hfail)|(start & p & len & nulls & E & Hf & Hlen & Hbits)];
      [lia| |]; cbv zeta in E; rewrite E, bind_ret; [left; by eexists _, n|].
    right. exists nulls. split; [|done]. destruct Hf as (_ & -> & _ & rest & ->). rewrite Nat2Z.id, take_app_length, <- !app_assoc. done.
  - apply nonzero_false in Hnz. destruct prs; [|simpl in Hnz; lia]. rewrite bind_ret. right. exists [].
    split; [|done]. destruct Hf3 as (_ & _ & _ & rest & ->). reflexivity.
Qed.

End layout.

Definition example_params : list PARAM :=
  [mk_param (Some (Mem [1; 2; 3; 4])) MYSQL_TYPE_LONG true 0 None false;
   mk_param None MYSQL_TYPE_STRING false 0 None false;
   mk_param (Some (Mem [65; 66])) MYSQL_TYPE_STRING false 0 (Some 2) true;
   mk_param (Some (Mem [65; 66])) MYSQL_TYPE_STRING false 0 (Some 2) false].

Lemma example_params_ok : Forall param_ok example_params.
Proof.
  repeat constructor; try done; right; (split; [repeat constructor; done|]); simpl; lia || (split; [done|cbn; lia]).
Qed.

Lemma request_layout_witness : exists nulls,
  mysql_stmt_execute_generate_simple_request 7 (fun _ _ _ => Fault) (fun _ => 0) (fun _ _ _ => Fault) (fun _ => true) 5 0 1 example_params
  = Ret (Some ([5; 0; 0; 0; 0; 1; 0; 0; 0] ++ nulls ++ [1; 3; 128; 254; 0; 254; 0; 254; 0; 1; 2; 3; 4; 2; 65; 66]), 0, map reset_long_data example_params)
  /\ length nulls = 1%nat /\ nbit nulls 1 = true /\ nbit nulls 2 = false.
Proof.
  destruct (request_layout 7 (fun _ _ _ => Fault) (fun _ => 0) (fun _ _ _ => Fault) (fun _ => true) 5 0 1 example_params)
    as [(prs & n & _ & Hn)|(nulls & E & Hl & Hb)]; [apply example_params_ok|reflexivity|reflexivity|discriminate Hn|].
  exists nulls. split; [exact E|]. split; [apply Nat2Z.inj, Hl|]. split; rewrite Hb by lia; reflexivity.
Defined.

Example request_example :
  mysql_stmt_execute_generate_simple_request 7 (fun _ _ _ => Fault) (fun _ => 0) (fun _ _ _ => Fault) (fun _ => true) 5 0 1
    [mk_param (Some (Mem [1; 2; 3; 4])) MYSQL_TYPE_LONG true 0 None false;
     mk_param None MYSQL_TYPE_STRING false 0 None false;
     mk_param (Some (Mem [65; 66])) MYSQL_TYPE_STRING false 0 (Some 2) false]
  = Ret (Some [5; 0; 0; 0; 0; 1; 0; 0; 0; 2; 1; 3; 128; 254; 0; 254; 0; 1; 2; 3; 4; 2; 65; 66], 0,
    [mk_param (Some (Mem [1; 2; 3; 4])) MYSQL_TYPE_LONG true 0 None false;
     mk_param None MYSQL_TYPE_STRING false 0 None false;
     mk_param (Some (Mem [65; 66])) MYSQL_TYPE_STRING false 0 (Some 2) false]).
Proof. vm_compute. reflexivity. Qed.

(** A text of length -1 (ended by a NUL) is reserved four bytes for: one that does not fit into what is left
    of the first kilobyte is copied past the end of the allocation. *)
Lemma nul_terminated_overflows :
  mysql_stmt_execute_generate_simple_request 7 (fun _ _ _ => Fault) (fun _ => 0) (fun _ _ _ => Fault) (fun _ => true) 5 0 1
    [mk_param (Some (Mem (repeat 65 1100 ++ [0]))) MYSQL_TYPE_STRING false 0 (Some (-1)) false] = Fault.
Proof. vm_compute. reflexivity. Qed.

(** A parameter of an unsupported type is left out: the packet announces two values and carries one. *)
Lemma unsupported_parameter_sent :
  exists prs, mysql_stmt_execute_generate_simple_request 7 (fun _ _ _ => Fault) (fun _ => 0) (fun _ _ _ => Fault) (fun _ => true) 5 0 1
    [mk_param (Some (Mem [1])) MYSQL_TYPE_BIT false 0 (Some 1) false;
     mk_param (Some (Mem [9])) MYSQL_TYPE_TINY false 0 None false]
  = Ret (Some [5; 0; 0; 0; 0; 1; 0; 0; 0; 0; 1; 16; 0; 1; 0; 9], 0, prs).
Proof. eexists. vm_compute. reflexivity. Qed.

End StmtParam.
