(* ===== verification/Net.v ===== *)
(** libmariadb/ma_net.c, with the read-ahead cache of ma_pvio.c and the wrappers of
    ma_compress.c: framing, buffering, compression and the 2.0 protocol between the
    commands of the library and the transport.

    [buff] is the packet buffer as an allocation; pointers into it are offsets, and
    [buff_end] is always [buff + max_packet].  The transport is a [Pvio]: what was sent
    so far, how many bytes each further write accepts, what arrives in which pieces,
    and which allocations fail.  zlib's compress and uncompress are parameters. *)

From stdpp Require Import tactics gmap.
From S2P Require Import Prelude IntStore Serialize MaList FltCodec Trace Crc16 Crc32 Protocol20.
Import Serialize MaList FltCodec Crc16 Crc32 Protocol20.

Module Net.

Definition MAX_PACKET_LENGTH : Z := 256 * 256 * 256 - 1.
Definition OB20_HEADER_SIZE : Z := 24.
Definition OB20_TAILER_SIZE : Z := 4.
Definition OB20_EXTRAINFO_LENGTH_SIZE : Z := 4.
Definition MAX_PACKET_LENGTH_WITH_OB20 : Z :=
  MAX_PACKET_LENGTH - OB20_HEADER_SIZE - OB20_TAILER_SIZE - OB20_EXTRAINFO_LENGTH_SIZE.
Definition packet_error : Z := 0xffffffff.
Definition IO_SIZE : Z := 4096.
Definition PVIO_READ_AHEAD_CACHE_SIZE : Z := 16384.
Definition PVIO_READ_AHEAD_CACHE_MIN_SIZE : Z := 2048.
Definition MIN_COMPRESS_LENGTH : Z := 50.
Definition ER_OUT_OF_RESOURCES : Z := 1041.
Definition ER_NET_PACKET_TOO_LARGE : Z := 1153.
Definition ER_NET_UNCOMPRESS_ERROR : Z := 1157.
Definition ER_NET_READ_ERROR : Z := 1158.
Definition ER_NET_ERROR_ON_WRITE : Z := 1160.
Definition COM_MULTI_OFF : Z := 0.

(** * Transport *)

(** [accept] lists what the next writes of the transport return at most (a value that is
    not positive is an error; an empty list accepts everything), [arriving] the pieces
    in which data arrives (nothing more is an error), [cached] the unread part of the
    read-ahead cache, [allocs] the outcomes of the next allocations (an empty list
    means success), and [junk] is the byte that fresh memory holds. *)
Record Pvio : Type := MkPvio {
  sent : bytes; accept : list Z; arriving : list bytes; cached : bytes; allocs : list bool; junk : Z }.

(** pvio->methods->write *)
Definition ma_pvio_write (p : Pvio) (data : bytes) : Z * Pvio :=
  match accept p with
  | [] => (Z.of_nat (length data), MkPvio (sent p ++ data) [] (arriving p) (cached p) (allocs p) (junk p))
  | k :: ks =>
      if k <=? 0 then (k, MkPvio (sent p) ks (arriving p) (cached p) (allocs p) (junk p))
      else
        let d := take (Z.to_nat k) data in
        (Z.of_nat (length d), MkPvio (sent p ++ d) ks (arriving p) (cached p) (allocs p) (junk p))
  end.

(** pvio->methods->read of at most [n] bytes: the return value and the bytes. *)
Definition ma_pvio_read (p : Pvio) (n : Z) : Z * bytes * Pvio :=
  match arriving p with
  | [] => (-1, [], p)
  | c :: cs =>
      let d := take (Z.to_nat n) c in
      let rest := drop (Z.to_nat n) c in
      (Z.of_nat (length d), d,
       MkPvio (sent p) (accept p) (match rest with [] => cs | _ => rest :: cs end) (cached p) (allocs p) (junk p))
  end.

Definition set_cached (p : Pvio) (c : bytes) : Pvio :=
  MkPvio (sent p) (accept p) (arriving p) c (allocs p) (junk p).

Definition ma_pvio_cache_read (p : Pvio) (n : Z) : Z * bytes * Pvio :=
  match cached p with
  | _ :: _ =>
      let d := take (Z.to_nat n) (cached p) in
      (Z.of_nat (length d), d, set_cached p (drop (Z.to_nat n) (cached p)))
  | [] =>
      if PVIO_READ_AHEAD_CACHE_MIN_SIZE <=? n then ma_pvio_read p n
      else
        let '(r, d, p) := ma_pvio_read p PVIO_READ_AHEAD_CACHE_SIZE in
        if r >? 0 then
          if n <? r then (n, take (Z.to_nat n) d, set_cached p (drop (Z.to_nat n) d))
          else (r, d, p)
        else (r, [], p)
  end.

(** The outcome of the next allocation. *)
Definition alloc (p : Pvio) : bool * Pvio :=
  match allocs p with
  | [] => (true, p)
  | b :: bs => (b, MkPvio (sent p) (accept p) (arriving p) (cached p) bs (junk p))
  end.

(** * The connection *)

Record NET : Type := Net {
  buff : bytes; write_pos : Z; read_pos : Z; remain_in_buf : Z; buf_length : Z; where_b : Z;
  max_packet : Z; max_packet_size : Z; pkt_nr : Z; compress_pkt_nr : Z; reading_or_writing : Z;
  save_char : Z; compress : bool; use_ob20protocol : bool; last_errno : Z; net_error : Z;
  multi_status : Z; ob20 : option PState; pvio : Pvio }.

Definition set_buff (r : NET) (v : bytes) : NET := Net v (write_pos r) (read_pos r) (remain_in_buf r)
  (buf_length r) (where_b r) (max_packet r) (max_packet_size r) (pkt_nr r) (compress_pkt_nr r)
  (reading_or_writing r) (save_char r) (compress r) (use_ob20protocol r) (last_errno r) (net_error r)
  (multi_status r) (ob20 r) (pvio r).
Definition set_write_pos (r : NET) (v : Z) : NET := Net (buff r) v (read_pos r) (remain_in_buf r)
  (buf_length r) (where_b r) (max_packet r) (max_packet_size r) (pkt_nr r) (compress_pkt_nr r)
  (reading_or_writing r) (save_char r) (compress r) (use_ob20protocol r) (last_errno r) (net_error r)
  (multi_status r) (ob20 r) (pvio r).
Definition set_read_pos (r : NET) (v : Z) : NET := Net (buff r) (write_pos r) v (remain_in_buf r)
  (buf_length r) (where_b r) (max_packet r) (max_packet_size r) (pkt_nr r) (compress_pkt_nr r)
  (reading_or_writing r) (save_char r) (compress r) (use_ob20protocol r) (last_errno r) (net_error r)
  (multi_status r) (ob20 r) (pvio r).
Definition set_remain_in_buf (r : NET) (v : Z) : NET := Net (buff r) (write_pos r) (read_pos r) v
  (buf_length r) (where_b r) (max_packet r) (max_packet_size r) (pkt_nr r) (compress_pkt_nr r)
  (reading_or_writing r) (save_char r) (compress r) (use_ob20protocol r) (last_errno r) (net_error r)
  (multi_status r) (ob20 r) (pvio r).
Definition set_buf_length (r : NET) (v : Z) : NET := Net (buff r) (write_pos r) (read_pos r)
  (remain_in_buf r) v (where_b r) (max_packet r) (max_packet_size r) (pkt_nr r) (compress_pkt_nr r)
  (reading_or_writing r) (save_char r) (compress r) (use_ob20protocol r) (last_errno r) (net_error r)
  (multi_status r) (ob20 r) (pvio r).
Definition set_where_b (r : NET) (v : Z) : NET := Net (buff r) (write_pos r) (read_pos r) (remain_in_buf
  r) (buf_length r) v (max_packet r) (max_packet_size r) (pkt_nr r) (compress_pkt_nr r)
  (reading_or_writing r) (save_char r) (compress r) (use_ob20protocol r) (last_errno r) (net_error r)
  (multi_status r) (ob20 r) (pvio r).
Definition set_max_packet (r : NET) (v : Z) : NET := Net (buff r) (write_pos r) (read_pos r)
  (remain_in_buf r) (buf_length r) (where_b r) v (max_packet_size r) (pkt_nr r) (compress_pkt_nr r)
  (reading_or_writing r) (save_char r) (compress r) (use_ob20protocol r) (last_errno r) (net_error r)
  (multi_status r) (ob20 r) (pvio r).
Definition set_pkt_nr (r : NET) (v : Z) : NET := Net (buff r) (write_pos r) (read_pos r) (remain_in_buf
  r) (buf_length r) (where_b r) (max_packet r) (max_packet_size r) v (compress_pkt_nr r)
  (reading_or_writing r) (save_char r) (compress r) (use_ob20protocol r) (last_errno r) (net_error r)
  (multi_status r) (ob20 r) (pvio r).
Definition set_compress_pkt_nr (r : NET) (v : Z) : NET := Net (buff r) (write_pos r) (read_pos r)
  (remain_in_buf r) (buf_length r) (where_b r) (max_packet r) (max_packet_size r) (pkt_nr r) v
  (reading_or_writing r) (save_char r) (compress r) (use_ob20protocol r) (last_errno r) (net_error r)
  (multi_status r) (ob20 r) (pvio r).
Definition set_reading_or_writing (r : NET) (v : Z) : NET := Net (buff r) (write_pos r) (read_pos r)
  (remain_in_buf r) (buf_length r) (where_b r) (max_packet r) (max_packet_size r) (pkt_nr r)
  (compress_pkt_nr r) v (save_char r) (compress r) (use_ob20protocol r) (last_errno r) (net_error r)
  (multi_status r) (ob20 r) (pvio r).
Definition set_save_char (r : NET) (v : Z) : NET := Net (buff r) (write_pos r) (read_pos r)
  (remain_in_buf r) (buf_length r) (where_b r) (max_packet r) (max_packet_size r) (pkt_nr r)
  (compress_pkt_nr r) (reading_or_writing r) v (compress r) (use_ob20protocol r) (last_errno r)
  (net_error r) (multi_status r) (ob20 r) (pvio r).
Definition set_compress (r : NET) (v : bool) : NET := Net (buff r) (write_pos r) (read_pos r)
  (remain_in_buf r) (buf_length r) (where_b r) (max_packet r) (max_packet_size r) (pkt_nr r)
  (compress_pkt_nr r) (reading_or_writing r) (save_char r) v (use_ob20protocol r) (last_errno r)
  (net_error r) (multi_status r) (ob20 r) (pvio r).
Definition set_use_ob20protocol (r : NET) (v : bool) : NET := Net (buff r) (write_pos r) (read_pos r)
  (remain_in_buf r) (buf_length r) (where_b r) (max_packet r) (max_packet_size r) (pkt_nr r)
  (compress_pkt_nr r) (reading_or_writing r) (save_char r) (compress r) v (last_errno r) (net_error r)
  (multi_status r) (ob20 r) (pvio r).
Definition set_last_errno (r : NET) (v : Z) : NET := Net (buff r) (write_pos r) (read_pos r)
  (remain_in_buf r) (buf_length r) (where_b r) (max_packet r) (max_packet_size r) (pkt_nr r)
  (compress_pkt_nr r) (reading_or_writing r) (save_char r) (compress r) (use_ob20protocol r) v (net_error
  r) (multi_status r) (ob20 r) (pvio r).
Definition set_net_error (r : NET) (v : Z) : NET := Net (buff r) (write_pos r) (read_pos r)
  (remain_in_buf r) (buf_length r) (where_b r) (max_packet r) (max_packet_size r) (pkt_nr r)
  (compress_pkt_nr r) (reading_or_writing r) (save_char r) (compress r) (use_ob20protocol r) (last_errno
  r) v (multi_status r) (ob20 r) (pvio r).
Definition set_multi_status (r : NET) (v : Z) : NET := Net (buff r) (write_pos r) (read_pos r)
  (remain_in_buf r) (buf_length r) (where_b r) (max_packet r) (max_packet_size r) (pkt_nr r)
  (compress_pkt_nr r) (reading_or_writing r) (save_char r) (compress r) (use_ob20protocol r) (last_errno
  r) (net_error r) v (ob20 r) (pvio r).
Definition set_ob20 (r : NET) (v : option PState) : NET := Net (buff r) (write_pos r) (read_pos r)
  (remain_in_buf r) (buf_length r) (where_b r) (max_packet r) (max_packet_size r) (pkt_nr r)
  (compress_pkt_nr r) (reading_or_writing r) (save_char r) (compress r) (use_ob20protocol r) (last_errno
  r) (net_error r) (multi_status r) v (pvio r).
Definition set_pvio (r : NET) (v : Pvio) : NET := Net (buff r) (write_pos r) (read_pos r) (remain_in_buf
  r) (buf_length r) (where_b r) (max_packet r) (max_packet_size r) (pkt_nr r) (compress_pkt_nr r)
  (reading_or_writing r) (save_char r) (compress r) (use_ob20protocol r) (last_errno r) (net_error r)
  (multi_status r) (ob20 r) v.

(** [buff_size] is net_buffer_length, [max_allowed] max_allowed_packet; a NULL pvio is not
    modelled.  Returns (ret, net); the fields that ma_net_init leaves alone are those
    of [net0]. *)
Definition ma_net_init (net0 : NET) (buff_size max_allowed : Z) : Z * NET :=
  let '(ok, p) := alloc (pvio net0) in
  if negb ok then (1, set_pvio net0 p)
  else
    (0, Net (repeat 0 (Z.to_nat buff_size)) 0 0 0 (buf_length net0) 0 buff_size
          (Z.max buff_size max_allowed) 0 0 0 (save_char net0) false false 0 0
          (multi_status net0) (ob20 net0) p).

Definition ma_net_end (fuel : nat) (net : NET) : cres NET :=
  match ob20 net with
  | None => Ret (set_buff net [])
  | Some s =>
      _ ← ob20_end fuel s;
      Ret (set_compress (set_use_ob20protocol (set_ob20 (set_buff net []) None) false) false)
  end.

(** Returns (error, net). *)
Definition net_realloc (net : NET) (len : Z) : Z * NET :=
  if len >=? max_packet_size net then (1, set_last_errno (set_net_error net 1) ER_NET_PACKET_TOO_LARGE)
  else
    let pkt_length := Z.land (u64 (len + IO_SIZE - 1)) (u64 (Z.lnot (IO_SIZE - 1))) in
    let '(ok, p) := alloc (pvio net) in
    let net := set_pvio net p in
    if negb ok then (1, set_net_error net 1)
    else
      let b := resize (junk p) (pkt_length + NET_HEADER_SIZE + COMP_HEADER_SIZE) (buff net) in
      (0, set_max_packet (set_write_pos (set_buff net b) 0) pkt_length).

Definition ma_net_clear (net : NET) : NET :=
  if multi_status net >? COM_MULTI_OFF then net
  else set_write_pos (set_pkt_nr (set_compress_pkt_nr net 0) 0) 0.

(** * Writing *)

(** The loop of ma_net_real_write over the data still to be sent. *)
Fixpoint write_loop (fuel : nat) (p : Pvio) (data : bytes) : cres (bool * Pvio) :=
  match data with
  | [] => Ret (true, p)
  | _ =>
      match fuel with
      | O => OutOfFuel
      | S fuel' =>
          let '(n, p) := ma_pvio_write p data in
          if n <=? 0 then Ret (false, p) else write_loop fuel' p (drop (Z.to_nat n) data)
      end
  end.

Definition send (net : NET) (data : bytes) : cres (Z * NET) :=
  '(ok, p) ← write_loop (length data) (pvio net) data;
  let net := set_pvio net p in
  if ok : bool then Ret (0, set_reading_or_writing net 0)
  else Ret (1, set_reading_or_writing (set_last_errno (set_net_error net 2) ER_NET_ERROR_ON_WRITE) 0).

Definition out_of_memory (net : NET) : NET :=
  set_reading_or_writing (set_net_error (set_last_errno net ER_OUT_OF_RESOURCES) 2) 0.

(** The flags OB_EXTRA_INFO_EXIST, OB_IS_LAST_PACKET and OB_IS_NEW_EXTRA_INFO are bits 0, 1
    and 3 of the flag word. *)
Definition with_flags (p : Ob20Protocol) (f : Z -> Z) : Ob20Protocol :=
  let h := header p in
  set_header p (Build_Ob20ProtocolHeader (magic_num h) (version h) (connection_id h) (request_id h)
    (pkt_seq h) (payload_len h) (f (flags h)) (reserved h) (header_checksum h)).
Definition with_payload_len (p : Ob20Protocol) (n : Z) : Ob20Protocol :=
  let h := header p in
  set_header p (Build_Ob20ProtocolHeader (magic_num h) (version h) (connection_id h) (request_id h)
    (pkt_seq h) n (flags h) (reserved h) (header_checksum h)).
Definition set_write_buffer (p : Ob20Protocol) (b : ptr) (n : Z) : Ob20Protocol :=
  Build_Ob20Protocol (header p) (extra_list p) (extra_current p) (checksum p) b n (flt p)
    (update_request_id_flag p).

Definition flags_extra (f : Z) : Z := Z.land (Z.lor f 9) (u32 (Z.lnot 2)).
Definition flags_plain (f : Z) : Z := Z.land f (u32 (Z.lnot 9)).

(** The realloc of [real_write_buffer] to at least [n] bytes.  Returns (success, net, s). *)
Definition ready_write_buffer (net : NET) (s : PState) (n : Z) : bool * NET * PState :=
  if real_write_buffer_length (prot s) <? n then
    let '(ok, p) := alloc (pvio net) in
    let net := set_pvio net p in
    if ok then
      (true, net, set_prot s (set_write_buffer (prot s)
         (Some (resize (junk p) n (default [] (real_write_buffer (prot s))))) n))
    else (false, net, set_prot s (set_write_buffer (prot s) None (real_write_buffer_length (prot s))))
  else (true, net, s).

(** The 2.0 part of ma_net_real_write: builds the packet in [real_write_buffer].
    Returns (error, net, packet); an error of 1 leaves everything else as it is. *)
Definition ob20_packet (fuel : nat) (net : NET) (s : PState) (data : bytes) : cres (Z * NET * bytes) :=
  let len := Z.of_nat (length data) in
  let ob20_header_length := NET_HEADER_SIZE + COMP_HEADER_SIZE + OB20_HEADER_SIZE in
  '(extra, s) ← get_protocol20_extra_info_length fuel s;
  let extra_info_length := u32 extra in
  let ob20_packet_len :=
    if negb (0 =? extra_info_length)
    then u32 (len + extra_info_length + OB20_HEADER_SIZE + OB20_TAILER_SIZE + OB20_EXTRAINFO_LENGTH_SIZE)
    else u32 (len + extra_info_length + OB20_HEADER_SIZE + OB20_TAILER_SIZE) in
  let real_write_buffer_length' := u32 (ob20_packet_len + NET_HEADER_SIZE + COMP_HEADER_SIZE + 1) in
  let '(ok, net, s) := ready_write_buffer net s real_write_buffer_length' in
  if negb ok then Ret (1, out_of_memory (set_ob20 net (Some s)), [])
  else
    b ← deref (real_write_buffer (prot s));
    '(ret, s, b, extra_info_length) ←
      (if negb (0 =? extra_info_length) then
         b ← int4store b ob20_header_length extra_info_length;
         let at_ := ob20_header_length + OB20_EXTRAINFO_LENGTH_SIZE in
         '(s, b, check_result) ← fill_protocol20_extra_info fuel s b at_ extra_info_length;
         let s := set_prot s (with_flags (prot s) flags_extra) in
         if negb (check_result =? at_ + extra_info_length) then Ret (1, s, b, extra_info_length)
         else
           s ← clear_extra_info fuel s;
           Ret (0, s, b, u32 (extra_info_length + OB20_EXTRAINFO_LENGTH_SIZE))
       else Ret (0, set_prot s (with_flags (prot s) flags_plain), b, 0));
    if negb (ret =? 0) then
      Ret (1, set_ob20 net (Some (set_prot s (set_write_buffer (prot s) (Some b)
                (real_write_buffer_length (prot s))))), [])
    else
      b ← store_bytes b (ob20_header_length + extra_info_length) data;
      crc32 ← ob_crc32 0 b ob20_header_length (len + extra_info_length);
      b ← int4store b (ob20_header_length + extra_info_length + len) crc32;
      let p := with_payload_len (prot s) (u32 (len + extra_info_length)) in
      '(p, b, check_result) ← fill_protocol20_header p ob20_packet_len (compress_pkt_nr net) 0 b;
      let net := set_compress_pkt_nr net (u32 (compress_pkt_nr net + 1)) in
      let net := set_ob20 net (Some (set_prot s (set_write_buffer p (Some b) (real_write_buffer_length p)))) in
      if negb (check_result =? ob20_header_length) then Ret (1, net, [])
      else
        packet ← load_bytes b 0 (Z.to_nat (ob20_packet_len + NET_HEADER_SIZE + COMP_HEADER_SIZE));
        Ret (0, net, packet).

Section zlib.
Context (zcompress : bytes -> option bytes) (zuncompress : bytes -> Z -> option bytes).

(** _mariadb_compress of [data]: (returned value, data, len, complen, transport).  A failed
    allocation or compression leaves the estimate in [complen] and reports success. *)
Definition mariadb_compress (p : Pvio) (data : bytes) : bool * bytes * Z * Pvio :=
  let len := Z.of_nat (length data) in
  if len <? MIN_COMPRESS_LENGTH then (false, data, 0, p)
  else
    let complen := len * 120 / 100 + 12 in
    let '(ok, p) := alloc p in
    if negb ok then (complen =? 0, data, complen, p)
    else
      match zcompress data with
      | None => (complen =? 0, data, complen, p)
      | Some z => if Z.of_nat (length z) >=? len then (true, data, 0, p) else (false, z, len, p)
      end.

(** The packet of the plain compressed protocol. *)
Definition compressed_packet (net : NET) (data : bytes) : cres (Z * NET * bytes) :=
  let '(ok, p) := alloc (pvio net) in
  let net := set_pvio net p in
  if negb ok then Ret (1, out_of_memory net, [])
  else
    let '(failed, z, complen, p) := mariadb_compress (pvio net) data in
    let complen := if failed : bool then 0 else complen in
    let net := set_pvio net p in
    b ← int3store (repeat 0 7) NET_HEADER_SIZE complen;
    b ← int3store b 0 (Z.of_nat (length z));
    b ← store b 3 (compress_pkt_nr net);
    Ret (0, set_compress_pkt_nr net (u32 (compress_pkt_nr net + 1)), b ++ z).

(** Returns (ret, net). *)
Definition ma_net_real_write (fuel : nat) (net : NET) (data : bytes) : cres (Z * NET) :=
  if net_error net =? 2 then Ret (-1, net)
  else
    let net := set_reading_or_writing net 2 in
    if compress net then
      '(ret, net, packet) ←
        (if use_ob20protocol net then
           s ← of_option (ob20 net); ob20_packet fuel net s data
         else compressed_packet net data);
      if negb (ret =? 0) then Ret (ret, net) else send net packet
    else send net data.

Definition ma_net_flush (fuel : nat) (net : NET) : cres (Z * NET) :=
  if multi_status net >? COM_MULTI_OFF then Ret (0, net)
  else
    '(error, net) ←
      (if negb (write_pos net =? 0) then
         data ← load_bytes (buff net) 0 (Z.to_nat (write_pos net));
         '(e, net) ← ma_net_real_write fuel net data;
         Ret (e, set_write_pos net 0)
       else Ret (0, net));
    Ret (error, if compress net then set_pkt_nr net (compress_pkt_nr net) else net).

(** [while (len > left_length)] for compressed connections. *)
Fixpoint write_blocks (rounds fuel : nat) (net : NET) (left_length : Z) (data : bytes)
    : cres (Z * NET * bytes) :=
  if Z.of_nat (length data) >? left_length then
    match rounds with
    | O => OutOfFuel
    | S rounds' =>
        '(ret, net) ← ma_net_real_write fuel net (take (Z.to_nat left_length) data);
        if negb (ret =? 0) then Ret (1, net, data)
        else write_blocks rounds' fuel net left_length (drop (Z.to_nat left_length) data)
    end
  else Ret (0, net, data).

(** The 2.0 part of ma_net_write_buff: send the extra information alone when it does not
    fit, enlarge the buffer.  Returns (error, net). *)
Definition ob20_make_room (fuel : nat) (net : NET) (len : Z) : cres (Z * NET) :=
  s ← of_option (ob20 net);
  '(extra_info_length, s) ← get_protocol20_extra_info_length fuel s;
  let net := set_ob20 net (Some s) in
  if extra_info_length >? MAX_PACKET_LENGTH_WITH_OB20 then Ret (1, net)
  else
    '(ret, net) ←
      (if extra_info_length + write_pos net >? MAX_PACKET_LENGTH_WITH_OB20
       then ma_net_real_write fuel net [] else Ret (0, net));
    if negb (ret =? 0) then Ret (1, net)
    else
      let left_length := max_packet net - write_pos net in
      if (len >? left_length) && (max_packet net <=? MAX_PACKET_LENGTH_WITH_OB20) then
        let write_len := write_pos net in
        let resize_len := Z.min (len + write_len) MAX_PACKET_LENGTH_WITH_OB20 in
        let '(e, net) := net_realloc net resize_len in
        if negb (e =? 0) then Ret (1, net) else Ret (0, set_write_pos net (write_pos net + write_len))
      else Ret (0, net).

(** The memcpy to [write_pos]. *)
Definition append_buff (net : NET) (data : bytes) : cres (Z * NET) :=
  b ← store_bytes (buff net) (write_pos net) data;
  Ret (0, set_write_pos (set_buff net b) (write_pos net + Z.of_nat (length data))).

(** Fill the buffer up with the first part of the block and send it.  Returns (error,
    net, rest of the block). *)
Definition fill_and_send (fuel : nat) (net : NET) (left_length : Z) (packet : bytes)
    : cres (Z * NET * bytes) :=
  b ← store_bytes (buff net) (write_pos net) (take (Z.to_nat left_length) packet);
  data ← load_bytes b 0 (Z.to_nat (write_pos net + left_length));
  '(ret, net) ← ma_net_real_write fuel (set_buff net b) data;
  if negb (ret =? 0) then Ret (1, net, packet)
  else Ret (0, set_write_pos net 0, drop (Z.to_nat left_length) packet).

Definition ma_net_write_buff (rounds fuel : nat) (net : NET) (packet : bytes) : cres (Z * NET) :=
  let len := Z.of_nat (length packet) in
  if len =? 0 then Ret (0, net)
  else
    '(ret, net) ← (if use_ob20protocol net then ob20_make_room fuel net len else Ret (0, net));
    if negb (ret =? 0) then Ret (1, net)
    else
      let left_length :=
        if (max_packet net >? MAX_PACKET_LENGTH_WITH_OB20) && compress net && use_ob20protocol net
        then u64 (MAX_PACKET_LENGTH_WITH_OB20 - write_pos net)
        else if (max_packet net >? MAX_PACKET_LENGTH) && compress net
        then u64 (MAX_PACKET_LENGTH - write_pos net)
        else u64 (max_packet net - write_pos net) in
      if len >? left_length then
        '(ret, net, packet) ←
          (if negb (write_pos net =? 0) then fill_and_send fuel net left_length packet
           else Ret (0, net, packet));
        if negb (ret =? 0) then Ret (1, net)
        else
          '(ret, net, packet) ←
            (if compress net then
               write_blocks rounds fuel net
                 (if use_ob20protocol net then MAX_PACKET_LENGTH_WITH_OB20 else MAX_PACKET_LENGTH) packet
             else Ret (0, net, packet));
          if negb (ret =? 0) then Ret (1, net)
          else if Z.of_nat (length packet) >? max_packet net then
            '(ret, net) ← ma_net_real_write fuel net packet;
            Ret (if ret =? 0 then 0 else 1, net)
          else append_buff net packet
      else append_buff net packet.

(** The packet header of MySQL: length and sequence number. *)
Definition packet_header (len nr : Z) : cres bytes :=
  b ← int3store (repeat 0 4) 0 len; store b 3 nr.

(** One packet: header, then data.  Returns (error, net). *)
Definition write_packet (rounds fuel : nat) (net : NET) (head data : bytes) : cres (Z * NET) :=
  '(r, net) ← ma_net_write_buff rounds fuel net head;
  if negb (r =? 0) then Ret (1, net)
  else
    '(r, net) ← ma_net_write_buff rounds fuel net data;
    if negb (r =? 0) then Ret (1, net) else Ret (0, net).

Definition next_request (net : NET) (always : bool) : NET :=
  match ob20 net with
  | Some s =>
      let p := prot s in
      if use_ob20protocol net && (always || update_request_id_flag p) then
        let h := header p in
        set_ob20 net (Some (set_prot s (set_header p (Build_Ob20ProtocolHeader (magic_num h) (version h)
          (connection_id h) (update_request_id (request_id h)) (pkt_seq h) (payload_len h) (flags h)
          (reserved h) (header_checksum h)))))
      else net
  | None => net
  end.

(** The loop of ma_net_write and the last packet behind it, one round per packet. *)
Fixpoint write_packets (packets rounds fuel : nat) (net : NET) (packet : bytes) : cres (Z * NET) :=
  let len := Z.of_nat (length packet) in
  match packets with
  | O => OutOfFuel
  | S packets' =>
      if len >=? MAX_PACKET_LENGTH then
        head ← packet_header MAX_PACKET_LENGTH (pkt_nr net);
        let net := set_pkt_nr net (u32 (pkt_nr net + 1)) in
        '(r, net) ← write_packet rounds fuel net head (take (Z.to_nat MAX_PACKET_LENGTH) packet);
        if negb (r =? 0) then Ret (1, net)
        else write_packets packets' rounds fuel net (drop (Z.to_nat MAX_PACKET_LENGTH) packet)
      else
        head ← packet_header len (pkt_nr net);
        let net := set_pkt_nr net (u32 (pkt_nr net + 1)) in
        write_packet rounds fuel net head packet
  end.

Definition ma_net_write (packets rounds fuel : nat) (net : NET) (packet : bytes) : cres (Z * NET) :=
  write_packets packets rounds fuel (next_request net false) packet.

(** The number in a command header: 0 on a compressed connection without the 2.0
    protocol, otherwise the next packet number. *)
Definition command_nr (net : NET) : Z * NET :=
  if use_ob20protocol net || negb (compress net)
  then (pkt_nr net, set_pkt_nr net (u32 (pkt_nr net + 1))) else (0, net).

(** [prefix] is the command byte in the first packet and empty afterwards. *)
Fixpoint command_packets (packets rounds fuel : nat) (net : NET) (prefix packet : bytes) : cres (Z * NET) :=
  let n := Z.of_nat (length prefix + length packet) in
  match packets with
  | O => OutOfFuel
  | S packets' =>
      let '(nr, net) := command_nr net in
      if n >=? MAX_PACKET_LENGTH then
        head ← packet_header MAX_PACKET_LENGTH nr;
        let k := Z.to_nat (MAX_PACKET_LENGTH - Z.of_nat (length prefix)) in
        '(r, net) ← write_packet rounds fuel net (head ++ prefix) (take k packet);
        if negb (r =? 0) then Ret (1, net)
        else command_packets packets' rounds fuel net [] (drop k packet)
      else
        head ← packet_header n nr;
        write_packet rounds fuel net (head ++ prefix) packet
  end.

Definition ma_net_write_command (packets rounds fuel : nat) (net : NET) (command : Z) (packet : bytes)
    (disable_flush : bool) : cres (Z * NET) :=
  '(rc, net) ← command_packets packets rounds fuel (next_request net true) [u8 command] packet;
  if (rc =? 0) && negb disable_flush then
    '(e, net) ← ma_net_flush fuel net; Ret (if e =? 0 then 0 else 1, net)
  else Ret (rc, net).

Definition net_add_multi_command (packets rounds fuel : nat) (net : NET) (command : Z) (packet : bytes)
    : cres (Z * NET) :=
  if multi_status net =? COM_MULTI_OFF then Ret (1, net)
  else
    ma_net_write_command packets rounds fuel (set_compress_pkt_nr (set_pkt_nr net 0) 0) command packet true.

(** * Reading *)

(** [while (remain > 0)]: reads into [buff + pos].  Returns (success, net). *)
Fixpoint read_loop (fuel : nat) (net : NET) (pos remain : Z) : cres (bool * NET) :=
  if remain <=? 0 then Ret (true, net)
  else match fuel with
  | O => OutOfFuel
  | S fuel' =>
      let '(n, d, p) := ma_pvio_cache_read (pvio net) remain in
      let net := set_pvio net p in
      if n <=? 0 then Ret (false, set_net_error net 2)
      else
        b ← store_bytes (buff net) pos d;
        read_loop fuel' (set_buff net b) (pos + n) (remain - n)
  end.

(** Returns (len, *complen, net). *)
Definition ma_real_read (net : NET) : cres (Z * Z * NET) :=
  let net := set_reading_or_writing net 1 in
  let done r := Ret (r.1.1, r.1.2, set_reading_or_writing r.2 0) in
  let remain := if compress net then NET_HEADER_SIZE + COMP_HEADER_SIZE else NET_HEADER_SIZE in
  '(ok, net) ← read_loop (Z.to_nat remain) net (where_b net) remain;
  if negb ok then done (packet_error, 0, net)
  else
    nr ← load (buff net) (where_b net + 3);
    let net := set_compress_pkt_nr (set_pkt_nr net (u32 (nr + 1))) (u32 (nr + 1)) in
    complen ← (if compress net then uint3korr (buff net) (where_b net + NET_HEADER_SIZE) else Ret 0);
    len ← uint3korr (buff net) (where_b net);
    if len =? 0 then done (0, complen, net)
    else
      let helping := Z.max len complen + where_b net in
      let '(e, net) := if helping >=? max_packet net then net_realloc net helping else (0, net) in
      if negb (e =? 0) then done (packet_error, complen, net)
      else
        '(ok, net) ← read_loop (Z.to_nat len) net (where_b net) len;
        if negb ok then done (packet_error, complen, net)
        else done (len, complen, net).

(** The loop over the packets of a long message.  Returns (len, length, net). *)
Fixpoint read_more (packets : nat) (net : NET) (len total : Z) : cres (Z * Z * NET) :=
  match packets with
  | O => OutOfFuel
  | S packets' =>
      let total := total + len in
      '(len, _, net) ← ma_real_read (set_where_b net (where_b net + len));
      if len =? MAX_PACKET_LENGTH then read_more packets' net len total else Ret (len, total, net)
  end.

(** ma_net_read of a connection without compression.  Returns (len, net). *)
Definition read_plain (packets : nat) (net : NET) : cres (Z * NET) :=
  '(len, _, net) ← ma_real_read net;
  '(len, net) ←
    (if len =? MAX_PACKET_LENGTH then
       let last_pos := where_b net in
       '(len, total, net) ← read_more packets net len 0;
       Ret (if len =? packet_error then len else len + total, set_where_b net last_pos)
     else Ret (len, net));
  let net := set_read_pos net (where_b net) in
  if len =? packet_error then Ret (len, net)
  else b ← store (buff net) (read_pos net + len) 0; Ret (len, set_buff net b).

(** [memmove(buff + dst, buff + src, n)] *)
Definition memmove (b : bytes) (dst src n : Z) : cres bytes :=
  if n <? 0 then Fault else d ← load_bytes b src (Z.to_nat n); store_bytes b dst d.

(** The 2.0 part of the read loop, on the packet just read at [where_b].  Returns
    (success, complen, net). *)
Definition ob20_unpack (fuel : nat) (net : NET) (s : PState) (packet_length : Z) : cres (bool * Z * NET) :=
  let start := where_b net in
  let fail net := set_last_errno (set_net_error net 2) ER_NET_READ_ERROR in
  '(ret, p) ← decode_protocol20_header (prot s) (drop (Z.to_nat start) (buff net)) packet_length
                (u32 (pkt_nr net - 1)) 0;
  let s := set_prot s p in
  if negb (ret =? 0) then Ret (false, 0, fail (set_ob20 net (Some s)))
  else
    let current := start + OB20_HEADER_SIZE in
    packet_crc32 ← uint4korr (buff net) (current + payload_len (header p));
    crc ← (if negb (packet_crc32 =? 0) then ob_crc32 0 (buff net) current (payload_len (header p))
           else Ret 0);
    if negb (crc =? packet_crc32) then Ret (false, 0, fail (set_ob20 net (Some s)))
    else
      s ← clear_extra_info fuel s;
      '(extra, s) ←
        (if Z.testbit (flags (header (prot s))) 0 then
           n ← uint4korr (buff net) current;
           p ← (if Z.testbit (flags (header (prot s))) 3 then
                  '(_, p) ← decode_protocol20_extra_info fuel (prot s)
                              (drop (Z.to_nat current) (buff net));
                  Ret p
                else Ret (prot s));
           Ret (n + OB20_EXTRAINFO_LENGTH_SIZE, set_prot s p)
         else Ret (0, s));
      let complen := u64 (payload_len (header (prot s)) - extra) in
      b ← memmove (buff net) start (current + extra) complen;
      Ret (true, complen, set_buff (set_ob20 net (Some s)) b).

(** _mariadb_uncompress of the packet at [where_b].  Returns (failed, complen, net). *)
Definition mariadb_uncompress (net : NET) (packet_length complen : Z) : cres (bool * Z * NET) :=
  if negb (complen =? 0) then
    let '(ok, p) := alloc (pvio net) in
    let net := set_pvio net p in
    if negb ok then Ret (true, complen, net)
    else
      z ← load_bytes (buff net) (where_b net) (Z.to_nat packet_length);
      match zuncompress z complen with
      | None => Ret (true, complen, net)
      | Some d =>
          b ← store_bytes (buff net) (where_b net) d;
          Ret (false, Z.of_nat (length d), set_buff net b)
      end
  else Ret (false, packet_length, net).

(** The local variables of the read loop. *)
Record Scan : Type := MkScan { buffer_length : Z; current : Z; start : Z; is_multi_packet : bool }.

(** [for (;;)] of ma_net_read on a compressed or 2.0 connection: scan the buffered data
    for complete packets, read more when there is none.  Returns (success, scan, net);
    no success is [return packet_error]. *)
Fixpoint scan_loop (rounds fuel : nat) (net : NET) (v : Scan) : cres (bool * Scan * NET) :=
  match rounds with
  | O => OutOfFuel
  | S rounds' =>
      let '(MkScan buffer_length current start is_multi_packet) := v in
      let read_on :=
        (b ← (if negb (start =? 0) then memmove (buff net) 0 start (u64 (buffer_length - start)) else Ret (buff net));
         let current := u64 (current - start) in
         let buffer_length := u64 (buffer_length - start) in
         let net := set_where_b (set_buff net b) buffer_length in
         '(packet_length, complen, net) ← ma_real_read net;
         if packet_length =? packet_error then Ret (false, v, net)
         else if use_ob20protocol net then
           s ← of_option (ob20 net);
           '(ok, complen, net) ← ob20_unpack fuel net s packet_length;
           if negb ok then Ret (false, v, net)
           else scan_loop rounds' fuel net (MkScan (buffer_length + complen) current 0 is_multi_packet)
         else
           '(failed, complen, net) ← mariadb_uncompress net packet_length complen;
           if failed : bool then
             Ret (true, MkScan buffer_length current 0 is_multi_packet,
                  set_last_errno (set_net_error net 2) ER_NET_UNCOMPRESS_ERROR)
           else scan_loop rounds' fuel net (MkScan (buffer_length + complen) current 0 is_multi_packet)) in
      if u64 (buffer_length - current) >=? 4 then
        packet_length ← uint3korr (buff net) current;
        if packet_length =? 0 then Ret (true, MkScan buffer_length (current + 4) start is_multi_packet, net)
        else if packet_length + 4 <=? u64 (buffer_length - current) then
          '(buffer_length, current, net) ←
            (if negb is_multi_packet then Ret (buffer_length, current + packet_length + 4, net)
             else
               b ← memmove (buff net) current (current + 4) (u64 (buffer_length - current));
               Ret (buffer_length - 4, current + packet_length, set_buff net b));
          if negb (packet_length =? MAX_PACKET_LENGTH) then
            Ret (true, MkScan buffer_length current start false, net)
          else if negb (start =? 0) then
            b ← memmove (buff net) 0 start (u64 (buffer_length - start));
            scan_loop rounds' fuel (set_buff net b) (MkScan (u64 (buffer_length - start)) current 0 true)
          else scan_loop rounds' fuel net (MkScan buffer_length current 0 true)
        else read_on
      else read_on
  end.

(** ma_net_read of a connection with compression or the 2.0 protocol. *)
Definition read_packed (rounds fuel : nat) (net : NET) : cres (Z * NET) :=
  '(v, net) ←
    (if remain_in_buf net =? 0 then Ret (MkScan 0 0 0 false, net)
     else
       let cur := buf_length net - remain_in_buf net in
       b ← store (buff net) cur (save_char net);
       Ret (MkScan (buf_length net) cur cur false, set_buff net b));
  '(ok, v, net) ← scan_loop rounds fuel net v;
  if negb ok then Ret (packet_error, net)
  else
    let net := set_remain_in_buf (set_buf_length net (buffer_length v)) (u64 (buffer_length v - current v)) in
    let net := set_read_pos net (start v + 4) in
    let len := u64 (current v - start v - 4) in
    let len := if is_multi_packet v then u64 (len - 4) else len in
    c ← load (buff net) (read_pos net + len);
    let net := set_save_char net c in
    b ← store (buff net) (read_pos net + len) 0;
    Ret (len, set_buff net b).

Definition ma_net_read (packets rounds fuel : nat) (net : NET) : cres (Z * NET) :=
  if compress net then read_packed rounds fuel net else read_plain packets net.

End zlib.

End Net.
