(* ===== verification/NetPlain.v ===== *)
(** Connections without compression (libmariadb/ma_net.c): however messages are buffered,
    split into packets and delivered in pieces, the bytes on the wire are the packets of
    the messages in order, and reading them gives the messages back. *)

From stdpp Require Import tactics gmap.
From S2P Require Import Prelude IntStore Serialize Protocol20 Net.
Import Serialize Protocol20 Net.

Module NetPlain.

(** * The wire format *)

Definition packet_image (nr : Z) (data : bytes) : bytes :=
  le_bytes 3 (Z.of_nat (length data)) ++ le_bytes 1 nr ++ data.

(** A message as packets: full packets of 2^24 - 1 bytes, then a shorter one, which is
    empty when the length is a multiple. *)
Fixpoint packets_image (n : nat) (nr : Z) (data : bytes) : bytes :=
  match n with
  | O => []
  | S n' =>
      if Z.of_nat (length data) >=? MAX_PACKET_LENGTH then
        packet_image nr (take (Z.to_nat MAX_PACKET_LENGTH) data) ++
        packets_image n' (u32 (nr + 1)) (drop (Z.to_nat MAX_PACKET_LENGTH) data)
      else packet_image nr data
  end.

(** How many packets a message needs. *)
Definition packet_count (data : bytes) : nat :=
  S (Z.to_nat (Z.of_nat (length data) / MAX_PACKET_LENGTH)).

(** The number the packet after the message gets. *)
Definition next_nr (nr : Z) (n : nat) : Z := Nat.iter n (fun k => u32 (k + 1)) nr.

Lemma packet_header_image len nr : packet_header len nr = Ret (le_bytes 3 len ++ le_bytes 1 nr).
Proof.
  unfold packet_header. rewrite int3store_splice, bind_ret by (split; simpl; lia).
  pose proof (store_next (repeat 0 4) (le_bytes 3 len) (fun b t => store b t nr) 1 nr) as Hn.
  change (Z.of_nat (length (le_bytes 3 len))) with 3 in Hn. rewrite Hn; [|intros; by apply store_byte_splice|simpl; lia].
  reflexivity.
Qed.

Lemma packet_count_step data :
  MAX_PACKET_LENGTH <= Z.of_nat (length data) ->
  packet_count data = S (packet_count (drop (Z.to_nat MAX_PACKET_LENGTH) data)).
Proof.
  intros Hl. unfold packet_count. f_equal. rewrite length_drop.
  rewrite Nat2Z.inj_sub, Z2Nat.id by (unfold MAX_PACKET_LENGTH in *; lia).
  set (m := MAX_PACKET_LENGTH) in *. assert (0 < m) by (unfold m, MAX_PACKET_LENGTH; lia).
  replace (Z.of_nat (length data) / m) with (Z.succ ((Z.of_nat (length data) - m) / m)).
  - rewrite Z2Nat.inj_succ; [done|]. apply Z.div_pos; lia.
  - rewrite <- Z.add_1_r, <- Z.div_add by lia. f_equal. lia.
Qed.

Lemma packet_count_last data :
  Z.of_nat (length data) < MAX_PACKET_LENGTH -> packet_count data = 1%nat.
Proof. intros Hl. unfold packet_count. rewrite Z.div_small; [done|]. unfold MAX_PACKET_LENGTH in *. lia. Qed.

(** * Writing *)

(** A usable uncompressed connection whose transport may accept fewer bytes than offered
    but reports no error. *)
Record plain (net : NET) : Prop := {
  plain_compress : compress net = false;
  plain_ob20 : use_ob20protocol net = false;
  plain_error : net_error net <> 2;
  plain_multi : multi_status net = COM_MULTI_OFF;
  plain_accept : Forall (Z.lt 0) (accept (pvio net));
  plain_pos : 0 <= write_pos net <= max_packet net;
  plain_buff : max_packet net <= Z.of_nat (length (buff net));
  plain_size : max_packet net < 2 ^ 64 }.

(** What the peer has received once the buffer is flushed. *)
Definition stream (net : NET) : bytes :=
  sent (pvio net) ++ take (Z.to_nat (write_pos net)) (buff net).

(** What writing leaves alone. *)
Definition kept (net net' : NET) : Prop :=
  pkt_nr net' = pkt_nr net /\ ob20 net' = ob20 net /\ max_packet net' = max_packet net /\
  arriving (pvio net') = arriving (pvio net) /\ cached (pvio net') = cached (pvio net).

Lemma kept_refl net : kept net net.
Proof. unfold kept. tauto. Qed.

Lemma kept_trans a b c : kept a b -> kept b c -> kept a c.
Proof. unfold kept. intuition congruence. Qed.

#[local] Hint Resolve kept_refl : core.

Lemma write_loop_ok fuel : forall data p,
  Forall (Z.lt 0) (accept p) -> (length data <= fuel)%nat ->
  exists ks, write_loop fuel p data =
    Ret (true, MkPvio (sent p ++ data) ks (arriving p) (cached p) (allocs p) (junk p)) /\ Forall (Z.lt 0) ks.
Proof.
  induction fuel as [|fuel IH]; intros [|x data] p Ha Hf; try (simpl in Hf; lia).
  1,2: exists (accept p); rewrite app_nil_r; by destruct p.
  cbn [write_loop]. unfold ma_pvio_write. destruct (accept p) as [|k ks] eqn:Ek.
  - simpl length. destruct (Z.leb_spec (Z.of_nat (S (length data))) 0); [lia|].
    rewrite drop_ge by (simpl; lia). exists []. split; [by destruct fuel|constructor].
  - apply Forall_cons in Ha as [Hk Hks]. destruct (Z.leb_spec k 0); [lia|].
    set (d := take (Z.to_nat k) (x :: data)).
    assert (0 < length d <= S (length data))%nat as Hd by (unfold d; rewrite length_take; simpl; lia).
    destruct (Z.leb_spec (Z.of_nat (length d)) 0); [lia|].
    edestruct (IH (drop (Z.to_nat (Z.of_nat (length d))) (x :: data))) as (ks' & -> & Hks');
      [exact Hks|rewrite length_drop; simpl in *; lia|].
    exists ks'. split; [|done]. simpl. do 3 f_equal. rewrite <- app_assoc. f_equal.
    rewrite Nat2Z.id. unfold d. rewrite length_take.
    destruct (decide (Z.to_nat k <= length (x :: data))%nat).
    + rewrite Nat.min_l by done. apply take_drop.
    + rewrite Nat.min_r by lia. rewrite take_ge, drop_ge by lia. apply app_nil_r.
Qed.

Lemma real_write_plain zc fuel net data :
  plain net -> exists net', ma_net_real_write zc fuel net data = Ret (0, net') /\ plain net' /\
    sent (pvio net') = sent (pvio net) ++ data /\ buff net' = buff net /\ write_pos net' = write_pos net /\
    kept net net'.
Proof.
  intros [Hc Ho He Hm Ha Hp Hb Hs]. unfold ma_net_real_write.
  destruct (Z.eqb_spec (net_error net) 2); [done|]. simpl compress. rewrite Hc. unfold send. simpl pvio.
  destruct (write_loop_ok (length data) data (pvio net) Ha) as (ks & -> & Hks); [done|].
  rewrite bind_ret. eexists. split; [reflexivity|]. split; [by split|]. repeat split.
Qed.


Lemma append_plain net data :
  plain net -> all_bytes data -> write_pos net + Z.of_nat (length data) <= max_packet net ->
  exists net', append_buff net data = Ret (0, net') /\ plain net' /\ stream net' = stream net ++ data /\
    kept net net'.
Proof.
  intros [Hc Ho He Hm Ha Hp Hb Hs] Hd Hl. unfold append_buff.
  rewrite store_bytes_splice, bind_ret, map_u8_bytes by (done || (split; lia)).
  eexists. split; [reflexivity|].
  assert (length (splice (write_pos net) data (buff net)) = length (buff net)) as Ls
    by (apply length_splice; split; lia).
  split; [|split].
  - split; simpl; rewrite ?Ls; done || lia.
  - unfold stream. cbn [set_write_pos set_buff pvio sent write_pos buff]. rewrite <- app_assoc. f_equal.
    unfold splice. rewrite app_assoc.
    assert (length (take (Z.to_nat (write_pos net)) (buff net) ++ data) =
            Z.to_nat (write_pos net + Z.of_nat (length data))) as Lt by (rewrite length_app, length_take; lia).
    by apply take_app_length'.
  - repeat split.
Qed.

Lemma fill_and_send_plain zc fuel net data :
  plain net -> all_bytes data -> max_packet net - write_pos net < Z.of_nat (length data) ->
  exists net' rest,
    fill_and_send zc fuel net (max_packet net - write_pos net) data = Ret (0, net', rest) /\
    plain net' /\ write_pos net' = 0 /\ all_bytes rest /\ stream net' ++ rest = stream net ++ data /\
    kept net net'.
Proof.
  intros [Hc Ho He Hm Ha Hp Hb Hs] Hd Hgt. set (left := max_packet net - write_pos net) in *. unfold fill_and_send.
  assert (length (take (Z.to_nat left) data) = Z.to_nat left) as Lt by (rewrite length_take; lia).
  rewrite store_bytes_splice, bind_ret, map_u8_bytes by ((split; lia) || (by apply Forall_take)).
  set (b := splice _ _ _).
  assert (length b = length (buff net)) as Lb by (apply length_splice; split; lia).
  assert (load_bytes b 0 (Z.to_nat (write_pos net + left)) =
          Ret (take (Z.to_nat (write_pos net)) (buff net) ++ take (Z.to_nat left) data)) as ->.
  { rewrite load_bytes_in by (split; lia). f_equal. unfold b, splice. rewrite drop_0, app_assoc.
    apply take_app_length'. rewrite length_app, length_take. lia. }
  rewrite bind_ret.
  destruct (real_write_plain zc fuel (set_buff net b)
    (take (Z.to_nat (write_pos net)) (buff net) ++ take (Z.to_nat left) data)) as
    (net1 & -> & H1 & S1 & B1 & W1 & K1); [split; simpl; rewrite ?Lb; done|].
  rewrite bind_ret. simpl (negb (0 =? 0)). cbv iota. eexists _, _. split; [reflexivity|].
  destruct H1 as [? ? ? ? ? ? ? ?]. split; [split; simpl; try done; lia|]. split; [done|].
  split; [by apply Forall_drop|]. split; [|exact K1].
  unfold stream. simpl. rewrite S1, take_0, app_nil_r. simpl. rewrite <- !app_assoc, take_drop. done.
Qed.

(** Whatever fits goes to the buffer, a full buffer is sent, and a block larger than the
    buffer is sent directly; the stream grows by the block in each case. *)
Lemma write_buff_plain zc rounds fuel net data :
  plain net -> all_bytes data ->
  exists net', ma_net_write_buff zc rounds fuel net data = Ret (0, net') /\ plain net' /\
    stream net' = stream net ++ data /\ kept net net'.
Proof.
  intros Hnet Hd. pose proof Hnet as [Hc Ho He Hm Ha Hp Hb Hs]. unfold ma_net_write_buff.
  destruct (Z.eqb_spec (Z.of_nat (length data)) 0) as [E|E].
  { destruct data; [|simpl in E; lia]. exists net. by rewrite app_nil_r. }
  rewrite Ho, bind_ret, Hc, !andb_false_r, ?andb_false_l. simpl negb. cbv iota zeta.
  rewrite (wrap_small 64 (max_packet net - write_pos net)) by (unfold uint; lia).
  destruct (Z.gtb_spec (Z.of_nat (length data)) (max_packet net - write_pos net)) as [Hgt|Hle].
  2: { apply append_plain; [done|done|lia]. }
  assert (exists net1 rest,
    (if negb (write_pos net =? 0) then fill_and_send zc fuel net (max_packet net - write_pos net) data
     else Ret (0, net, data)) = Ret (0, net1, rest) /\
    plain net1 /\ write_pos net1 = 0 /\ all_bytes rest /\ stream net1 ++ rest = stream net ++ data /\
    kept net net1) as (net1 & rest & E1 & H1 & W1 & B1 & S1 & K1).
  { destruct (Z.eqb_spec (write_pos net) 0) as [W|W]; [exists net, data; by split_and!|].
    apply fill_and_send_plain; [done|done|lia]. }
  rewrite E1, bind_ret. simpl (negb (0 =? 0)). cbv iota.
  pose proof H1 as [Hc1 _ _ _ _ Hp1 _ _]. rewrite Hc1, bind_ret. simpl (negb (0 =? 0)). cbv iota.
  destruct (Z.gtb_spec (Z.of_nat (length rest)) (max_packet net1)).
  - destruct (real_write_plain zc fuel net1 rest H1) as (net2 & -> & H2 & S2 & B2 & W2 & K2).
    rewrite bind_ret. exists net2. split; [reflexivity|]. split; [done|].
    split; [|by eapply kept_trans]. rewrite <- S1. unfold stream. rewrite S2, W2, W1, !take_0, !app_nil_r. done.
  - destruct (append_plain net1 rest H1 B1) as (net2 & -> & H2 & S2 & K2); [lia|].
    exists net2. split; [reflexivity|]. split; [done|]. split; [by rewrite S2|by eapply kept_trans].
Qed.

Lemma write_packet_plain zc rounds fuel net head data :
  plain net -> all_bytes head -> all_bytes data ->
  exists net', write_packet zc rounds fuel net head data = Ret (0, net') /\ plain net' /\
    stream net' = stream net ++ head ++ data /\ kept net net'.
Proof.
  intros Hn Hh Hd. unfold write_packet.
  destruct (write_buff_plain zc rounds fuel net head Hn Hh) as (n1 & -> & H1 & S1 & K1).
  rewrite bind_ret. simpl (negb (0 =? 0)). cbv iota.
  destruct (write_buff_plain zc rounds fuel n1 data H1 Hd) as (n2 & -> & H2 & S2 & K2).
  rewrite bind_ret. simpl (negb (0 =? 0)). cbv iota. exists n2. split; [done|]. split; [done|].
  split; [by rewrite S2, S1, <- app_assoc|by eapply kept_trans].
Qed.

Lemma header_bytes len nr : all_bytes (le_bytes 3 len ++ le_bytes 1 nr).
Proof. apply Forall_app. split; apply le_bytes_bytes. Qed.

Lemma plain_set_nr net nr : plain net -> plain (set_pkt_nr net nr).
Proof. intros []. by split. Qed.

(** The messages after numbering. *)
Lemma write_packets_plain zc rounds fuel : forall n net data,
  n = packet_count data -> plain net -> all_bytes data ->
  exists net', write_packets zc n rounds fuel net data = Ret (0, net') /\ plain net' /\
    stream net' = stream net ++ packets_image n (pkt_nr net) data /\
    pkt_nr net' = next_nr (pkt_nr net) n /\ arriving (pvio net') = arriving (pvio net).
Proof.
  induction n as [|n IH]; intros net data En Hn Hd; [done|]. cbn [write_packets packets_image].
  destruct (Z.geb_spec (Z.of_nat (length data)) MAX_PACKET_LENGTH) as [Hge|Hlt].
  - rewrite packet_header_image, bind_ret.
    assert (length (take (Z.to_nat MAX_PACKET_LENGTH) data) = Z.to_nat MAX_PACKET_LENGTH) as Lt
      by (rewrite length_take; unfold MAX_PACKET_LENGTH in *; lia).
    destruct (write_packet_plain zc rounds fuel (set_pkt_nr net (u32 (pkt_nr net + 1)))
      (le_bytes 3 MAX_PACKET_LENGTH ++ le_bytes 1 (pkt_nr net)) (take (Z.to_nat MAX_PACKET_LENGTH) data))
      as (n1 & -> & H1 & S1 & K1); [by apply plain_set_nr|apply header_bytes|by apply Forall_take|].
    rewrite bind_ret. simpl (negb (0 =? 0)). cbv iota.
    destruct (IH n1 (drop (Z.to_nat MAX_PACKET_LENGTH) data)) as (n2 & -> & H2 & S2 & N2 & A2);
      [rewrite packet_count_step in En by done; lia|done|by apply Forall_drop|].
    destruct K1 as (Kn & _ & _ & Ka & _). simpl in Kn, Ka. exists n2. split; [done|]. split; [done|].
    split; [|split].
    + rewrite S2, S1, Kn, <- app_assoc. f_equal. unfold packet_image.
      rewrite Lt, Z2Nat.id by (unfold MAX_PACKET_LENGTH; lia). by rewrite <- !app_assoc.
    + rewrite N2, Kn. unfold next_nr. by rewrite Nat.iter_succ_r.
    + by rewrite A2, Ka.
  - rewrite packet_header_image, bind_ret. rewrite packet_count_last in En by done. injection En as ->.
    destruct (write_packet_plain zc rounds fuel (set_pkt_nr net (u32 (pkt_nr net + 1)))
      (le_bytes 3 (Z.of_nat (length data)) ++ le_bytes 1 (pkt_nr net)) data)
      as (n1 & -> & H1 & S1 & K1); [by apply plain_set_nr|apply header_bytes|done|].
    destruct K1 as (Kn & _ & _ & Ka & _). simpl in Kn, Ka. exists n1. split; [done|]. split; [done|].
    split; [|done]. rewrite S1. unfold packet_image. by rewrite <- !app_assoc.
Qed.

Lemma ma_net_write_plain zc rounds fuel net data :
  plain net -> all_bytes data ->
  exists net', ma_net_write zc (packet_count data) rounds fuel net data = Ret (0, net') /\ plain net' /\
    stream net' = stream net ++ packets_image (packet_count data) (pkt_nr net) data /\
    pkt_nr net' = next_nr (pkt_nr net) (packet_count data) /\ arriving (pvio net') = arriving (pvio net).
Proof.
  intros Hn Hd. unfold ma_net_write.
  replace (next_request net false) with net; [by apply write_packets_plain|].
  unfold next_request. destruct (ob20 net); [|done]. by rewrite (plain_ob20 _ Hn).
Qed.

Lemma flush_plain zc fuel net :
  plain net -> exists net', ma_net_flush zc fuel net = Ret (0, net') /\ plain net' /\
    sent (pvio net') = stream net /\ write_pos net' = 0.
Proof.
  intros Hn. pose proof Hn as [Hc Ho He Hm Ha Hp Hb Hs]. unfold ma_net_flush. rewrite Hm.
  change (COM_MULTI_OFF >? COM_MULTI_OFF) with false. cbv iota.
  destruct (Z.eqb_spec (write_pos net) 0) as [W|W]; simpl negb; cbv iota.
  - rewrite bind_ret, Hc. exists net. split; [done|]. split; [done|].
    unfold stream. by rewrite W, take_0, app_nil_r.
  - rewrite load_bytes_in, bind_ret by (split; lia).
    destruct (real_write_plain zc fuel net (take (Z.to_nat (write_pos net)) (drop (Z.to_nat 0) (buff net))) Hn)
      as (n1 & -> & H1 & S1 & _ & _ & _).
    rewrite !bind_ret. simpl. rewrite (plain_compress _ H1). eexists. split; [reflexivity|].
    destruct H1 as [? ? ? ? ? ? ? ?]. split; [split; simpl; try done; lia|]. split; [exact S1|done].
Qed.

(** A sequence of messages, each numbered from where the one before ended. *)
Fixpoint messages_image (nr : Z) (msgs : list bytes) : bytes :=
  match msgs with
  | [] => []
  | m :: ms => packets_image (packet_count m) nr m ++ messages_image (next_nr nr (packet_count m)) ms
  end.

Fixpoint write_messages (zc : bytes -> option bytes) (rounds fuel : nat) (net : NET) (msgs : list bytes)
    : cres (Z * NET) :=
  match msgs with
  | [] => ma_net_flush zc fuel net
  | m :: ms =>
      '(r, net) ← ma_net_write zc (packet_count m) rounds fuel net m;
      if negb (r =? 0) then Ret (r, net) else write_messages zc rounds fuel net ms
  end.

(** C2: on a connection without compression, writing any messages and flushing succeeds
    and sends exactly the packets of the messages in order behind what was buffered
    before, however large the messages are compared with the buffer and however few
    bytes the transport accepts at a time. *)
Theorem messages_written zc rounds fuel net msgs :
  plain net -> Forall all_bytes msgs ->
  exists net', write_messages zc rounds fuel net msgs = Ret (0, net') /\ plain net' /\
    write_pos net' = 0 /\ sent (pvio net') = stream net ++ messages_image (pkt_nr net) msgs.
Proof.
  intros Hn Hm. revert net Hn. induction Hm as [|m ms Hm _ IH]; intros net Hn; cbn [write_messages messages_image].
  - destruct (flush_plain zc fuel net Hn) as (n1 & -> & H1 & S1 & W1). exists n1. by rewrite app_nil_r.
  - destruct (ma_net_write_plain zc rounds fuel net m Hn Hm) as (n1 & -> & H1 & S1 & N1 & _).
    rewrite bind_ret. simpl (negb (0 =? 0)). cbv iota.
    destruct (IH n1 H1) as (n2 & -> & H2 & W2 & S2). exists n2. split; [done|]. split; [done|].
    split; [done|]. by rewrite S2, S1, N1, <- app_assoc.
Qed.

(** A connection after ma_net_init with an 8-byte buffer and a transport that takes three
    bytes, then one, then anything. *)
Definition small_net : NET :=
  (ma_net_init (Net [] 0 0 0 0 0 0 0 0 0 0 0 false false 0 0 0 None
    (MkPvio [] [3; 1] [] [] [] 0)) 8 1024).2.

Lemma small_net_plain : plain small_net.
Proof. split; try done. repeat constructor; lia. Qed.

Lemma messages_written_witness : exists net',
  write_messages (fun _ => None) 0 0 small_net [[1; 2; 3; 4; 5; 6]; []] = Ret (0, net') /\
  sent (pvio net') = [6; 0; 0; 0; 1; 2; 3; 4; 5; 6; 0; 0; 0; 1].
Proof.
  destruct (messages_written (fun _ => None) 0 0 small_net [[1; 2; 3; 4; 5; 6]; []] small_net_plain)
    as (n & E & _ & _ & S); [repeat constructor; simpl; lia|].
  exists n. split; [exact E|]. rewrite S. reflexivity.
Defined.

End NetPlain.
