(* ===== verification/NetRead.v ===== *)
(** Reading on connections without compression (ma_real_read and ma_net_read of
    libmariadb/ma_net.c): what the peer sends is never stored outside the buffer,
    whatever it is, and complete messages arrive unchanged, however the transport
    cuts the stream. *)

From stdpp Require Import tactics gmap.
From S2P Require Import Prelude IntStore Serialize Protocol20 Net NetPlain.
Import Serialize Protocol20 Net NetPlain.

Module NetRead.

(** What is still to be read. *)
Definition incoming (p : Pvio) : bytes := cached p ++ concat (arriving p).

(** The buffer has seven bytes behind [max_packet], or has its initial size, which is
    below that of a full packet. *)
Definition roomy (net : NET) : Prop :=
  Z.of_nat (length (buff net)) = max_packet net + 7 \/
  (Z.of_nat (length (buff net)) = max_packet net /\ 4 <= max_packet net <= MAX_PACKET_LENGTH).

(** The transport returns at least one byte until the stream ends. *)
Definition pieces (p : Pvio) : Prop := Forall (fun c => c <> []) (arriving p).

(** An uncompressed connection. *)
Record reader (net : NET) : Prop := {
  reader_compress : compress net = false;
  reader_pieces : pieces (pvio net);
  reader_bytes : all_bytes (incoming (pvio net));
  reader_room : roomy net;
  reader_max : 0 <= max_packet net < max_packet_size net + IO_SIZE;
  reader_size : max_packet_size net + 2 * IO_SIZE <= packet_error }.

(** ** The read-ahead cache *)

Lemma raw_read_ok p n :
  pieces p -> 0 < n -> arriving p <> [] ->
  exists d p', ma_pvio_read p n = (Z.of_nat (length d), d, p') /\ 0 < Z.of_nat (length d) <= n /\
    concat (arriving p) = d ++ concat (arriving p') /\ pieces p' /\ cached p' = cached p /\ allocs p' = allocs p.
Proof.
  unfold pieces, ma_pvio_read. intros Hp Hn Hne. destruct (arriving p) as [|c cs] eqn:E; [done|].
  apply Forall_cons in Hp as [Hc Hcs].
  assert (0 < length c)%nat by (destruct c; [done|simpl; lia]).
  assert (0 < Z.of_nat (length (take (Z.to_nat n) c)) <= n) by (rewrite length_take; lia).
  pose proof (take_drop (Z.to_nat n) c) as Htd.
  destruct (drop (Z.to_nat n) c) as [|y r] eqn:Ed; eexists _, _; (split; [reflexivity|]); simpl;
    (split; [done|]); (split; [|split; [|done]]); try done.
  - rewrite app_nil_r in Htd. by rewrite Htd.
  - rewrite <- Htd at 1. by rewrite <- app_assoc.
  - by constructor.
Qed.

Lemma cache_read_ok p n :
  pieces p -> 0 < n -> incoming p <> [] ->
  exists d p', ma_pvio_cache_read p n = (Z.of_nat (length d), d, p') /\ 0 < Z.of_nat (length d) <= n /\
    incoming p = d ++ incoming p' /\ pieces p' /\ allocs p' = allocs p.
Proof.
  unfold incoming, ma_pvio_cache_read. intros Hp Hn Hne. destruct (cached p) as [|x c] eqn:Ec.
  - assert (arriving p <> []) as Ha by (intros E; apply Hne; by rewrite E).
    destruct (Z.leb_spec PVIO_READ_AHEAD_CACHE_MIN_SIZE n).
    + destruct (raw_read_ok p n Hp Hn Ha) as (d & p' & -> & Hd & Hcat & Hp' & Hc' & Hal).
      exists d, p'. rewrite Hc', Ec. simpl. auto.
    + destruct (raw_read_ok p PVIO_READ_AHEAD_CACHE_SIZE Hp ltac:(done) Ha)
        as (d & p' & -> & Hd & Hcat & Hp' & Hc' & Hal).
      rewrite Z.gtb_ltb. destruct (Z.ltb_spec 0 (Z.of_nat (length d))); [|lia].
      destruct (Z.ltb_spec n (Z.of_nat (length d))).
      * exists (take (Z.to_nat n) d), (set_cached p' (drop (Z.to_nat n) d)).
        rewrite length_take, Nat.min_l, Z2Nat.id by lia. split; [done|]. split; [lia|].
        simpl cached. simpl arriving. rewrite app_assoc, take_drop. simpl. by rewrite Hcat.
      * exists d, p'. rewrite Hc', Ec. split; [done|]. split; [lia|]. simpl. auto.
  - exists (take (Z.to_nat n) (x :: c)), (set_cached p (drop (Z.to_nat n) (x :: c))).
    split; [done|]. split; [rewrite length_take; simpl length; lia|]. split; [|done].
    simpl cached. by rewrite app_assoc, take_drop.
Qed.

Lemma cache_read_end p n :
  pieces p -> 0 < n -> incoming p = [] ->
  exists k p', ma_pvio_cache_read p n = (k, [], p') /\ k <= 0 /\ incoming p' = [] /\ pieces p' /\ allocs p' = allocs p.
Proof.
  unfold incoming, ma_pvio_cache_read, ma_pvio_read. intros Hp Hn Hne.
  apply app_eq_nil in Hne as [Hca Hc]. unfold pieces in Hp.
  assert (arriving p = []) as E.
  { destruct (arriving p) as [|c cs]; [done|]. apply Forall_cons in Hp as [Hp _].
    simpl in Hc. by apply app_eq_nil in Hc as [? _]. }
  rewrite Hca, E. exists (-1), p. unfold pieces. rewrite Hca, E. by destruct (_ <=? n).
Qed.

(** ** Filling the buffer *)

Lemma read_loop_full fuel : forall net pos data rest,
  pieces (pvio net) -> incoming (pvio net) = data ++ rest -> all_bytes data ->
  room (buff net) pos (length data) -> (length data <= fuel)%nat ->
  exists p', read_loop fuel net pos (Z.of_nat (length data)) =
    Ret (true, set_pvio (set_buff net (splice pos data (buff net))) p') /\
    incoming p' = rest /\ pieces p' /\ allocs p' = allocs (pvio net).
Proof.
  induction fuel as [|fuel IH]; intros net pos data rest Hp Hin Hb Hr Hf.
  - destruct data; [|simpl in Hf; lia]. exists (pvio net). rewrite splice_nil. by destruct net.
  - cbn [read_loop]. destruct (Z.leb_spec (Z.of_nat (length data)) 0).
    { destruct data; [|simpl in *; lia]. exists (pvio net). rewrite splice_nil. by destruct net. }
    destruct (cache_read_ok (pvio net) (Z.of_nat (length data)) Hp) as (d & p1 & -> & Hd & Hin1 & Hp1 & Ha1);
      [lia|rewrite Hin; destruct data; [simpl in *; lia|done]|].
    destruct (Z.leb_spec (Z.of_nat (length d)) 0); [lia|]. simpl buff.
    assert (exists d2, data = d ++ d2 /\ incoming p1 = d2 ++ rest) as (d2 & -> & Hin2).
    { rewrite Hin in Hin1. apply app_eq_inv in Hin1 as [(k & -> & ->)|(k & -> & ->)].
      - by exists k.
      - destruct k as [|x k]; [exists []; by rewrite !app_nil_r|]. rewrite length_app in Hd. simpl in Hd. lia. }
    apply Forall_app in Hb as [Hb1 Hb2]. rewrite length_app in Hr, Hf |- *. destruct Hr as [Hr1 Hr2].
    rewrite store_bytes_splice, bind_ret, map_u8_bytes by (done || (split; lia)).
    replace (Z.of_nat (length d + length d2) - Z.of_nat (length d)) with (Z.of_nat (length d2)) by lia.
    assert (length (splice pos d (buff net)) = length (buff net)) as Ls by (apply length_splice; split; lia).
    destruct (IH (set_buff (set_pvio net p1) (splice pos d (buff net))) (pos + Z.of_nat (length d)) d2 rest)
      as (p2 & -> & Hin3 & Hp2 & Ha2); [done|done|done|split; simpl; lia|lia|].
    exists p2. simpl. rewrite splice_app by (rewrite length_app; split; lia). split; [reflexivity|].
    split; [done|]. split; [done|]. simpl in Ha2. congruence.
Qed.

Lemma read_loop_short fuel : forall net pos remain,
  pieces (pvio net) -> all_bytes (incoming (pvio net)) -> Z.of_nat (length (incoming (pvio net))) < remain ->
  room (buff net) pos (Z.to_nat remain) -> (Z.to_nat remain <= fuel)%nat ->
  exists b p', read_loop fuel net pos remain = Ret (false, set_net_error (set_pvio (set_buff net b) p') 2) /\
    length b = length (buff net) /\ incoming p' = [] /\ pieces p' /\ allocs p' = allocs (pvio net).
Proof.
  induction fuel as [|fuel IH]; intros net pos remain Hp Hb Hlt Hr Hf; [lia|].
  cbn [read_loop]. destruct (Z.leb_spec remain 0); [lia|]. destruct Hr as [Hr1 Hr2].
  destruct (decide (incoming (pvio net) = [])) as [E|E].
  - destruct (cache_read_end (pvio net) remain Hp) as (k & p1 & -> & Hk & Hin1 & Hp1 & Ha1); [lia|done|].
    destruct (Z.leb_spec k 0); [|lia]. exists (buff net), p1. by destruct net.
  - destruct (cache_read_ok (pvio net) remain Hp) as (d & p1 & -> & Hd & Hin1 & Hp1 & Ha1); [lia|done|].
    destruct (Z.leb_spec (Z.of_nat (length d)) 0); [lia|]. simpl buff.
    rewrite Hin1, length_app in Hlt. rewrite Hin1 in Hb. apply Forall_app in Hb as [Hb1 Hb2].
    rewrite store_bytes_splice, bind_ret, map_u8_bytes by (done || (split; lia)).
    assert (length (splice pos d (buff net)) = length (buff net)) as Ls by (apply length_splice; split; lia).
    destruct (IH (set_buff (set_pvio net p1) (splice pos d (buff net))) (pos + Z.of_nat (length d))
      (remain - Z.of_nat (length d))) as (b & p2 & -> & Lb & Hin2 & Hp2 & Ha2);
      [done|done|simpl; lia|split; simpl; lia|lia|].
    exists b, p2. simpl in Lb, Ha2. rewrite Ls in Lb. rewrite Ha1 in Ha2. by split_and!.
Qed.

(** ** Enlarging the buffer *)

Lemma round_up n : 0 <= n < 2 ^ 32 ->
  let r := Z.land (u64 (n + IO_SIZE - 1)) (u64 (Z.lnot (IO_SIZE - 1))) in n <= r < n + 4096.
Proof.
  intros Hn r. unfold IO_SIZE in r.
  assert (r = (n + 4095) / 2 ^ 12 * 2 ^ 12) as Er.
  { unfold r. rewrite <- Z.shiftl_mul_pow2, <- Z.shiftr_div_pow2 by lia.
    rewrite (wrap_small 64 (n + 4096 - 1)) by (unfold uint; lia).
    replace (n + 4096 - 1) with (n + 4095) by lia. apply Z.bits_inj'. intros i Hi.
    rewrite Z.land_spec, testbit_wrap, Z.lnot_spec by lia. change (4096 - 1) with (Z.ones 12).
    rewrite Z.testbit_ones_nonneg by lia. destruct (decide (i < 12)).
    - rewrite Z.shiftl_spec_low by lia. destruct (Z.ltb_spec i 12); [|lia]. by rewrite !andb_false_r.
    - rewrite Z.shiftl_spec_high, Z.shiftr_spec by lia. destruct (Z.ltb_spec i 12); [lia|].
      replace (i - 12 + 12) with i by lia. destruct (Z.ltb_spec i 64); [by rewrite andb_true_r|].
      rewrite andb_false_r. symmetry. apply Z.testbit_false; [lia|].
      rewrite Z.div_small; [done|]. split; [lia|]. apply Z.lt_le_trans with (2 ^ 64); [lia|].
      apply Z.pow_le_mono_r; lia. }
  rewrite Er. change (2 ^ 12) with 4096. dlia.
Qed.

(** Either the buffer has grown as asked, with its contents, or an error is reported. *)
Lemma net_realloc_ok net n :
  0 <= n -> max_packet_size net + 2 * IO_SIZE <= packet_error ->
  (exists e q, net_realloc net n = (1, set_last_errno (set_net_error (set_pvio net q) 1) e) /\
     incoming q = incoming (pvio net) /\ (pieces (pvio net) -> pieces q) /\
     (Forall (eq true) (allocs (pvio net)) -> max_packet_size net <= n /\ q = pvio net)) \/
  (exists b m q, net_realloc net n = (0, set_max_packet (set_write_pos (set_buff (set_pvio net q) b) 0) m) /\
     n <= m < max_packet_size net + IO_SIZE /\ Z.of_nat (length b) = m + 7 /\
     (forall k, (k <= length (buff net))%nat -> Z.of_nat k <= n -> take k b = take k (buff net)) /\
     incoming q = incoming (pvio net) /\ (pieces (pvio net) -> pieces q) /\
     (Forall (eq true) (allocs (pvio net)) -> Forall (eq true) (allocs q))).
Proof.
  intros Hn Hs. unfold net_realloc. destruct (Z.geb_spec n (max_packet_size net)).
  { left. exists ER_NET_PACKET_TOO_LARGE, (pvio net). split; [by destruct net|]. by split_and!. }
  pose proof (round_up n ltac:(unfold packet_error, IO_SIZE in *; lia)) as Hr. cbv zeta in Hr |- *.
  set (m := Z.land _ _) in *.
  unfold alloc. destruct (allocs (pvio net)) as [|[] bs] eqn:Ea; simpl negb; cbv iota.
  - right. eexists _, m, (pvio net). split; [reflexivity|]. split; [unfold IO_SIZE; lia|].
    split; [rewrite length_resize; unfold NET_HEADER_SIZE, COMP_HEADER_SIZE; lia|].
    split; [|by rewrite Ea]. intros k Hk Hkn. apply take_resize; [done|].
    unfold NET_HEADER_SIZE, COMP_HEADER_SIZE. lia.
  - right. eexists _, m, _. split; [reflexivity|]. split; [unfold IO_SIZE; lia|].
    split; [rewrite length_resize; unfold NET_HEADER_SIZE, COMP_HEADER_SIZE; lia|].
    split; [|split; [done|split; [done|]]].
    + intros k Hk Hkn. apply take_resize; [done|]. unfold NET_HEADER_SIZE, COMP_HEADER_SIZE. lia.
    + simpl. by intros [_ ?]%Forall_cons.
  - left. eexists (last_errno net), _. split; [by destruct net|]. split; [done|]. split; [done|].
    by intros [? _]%Forall_cons.
Qed.

(** ** One packet *)

(** The first four bytes of a stream as a packet header. *)
Lemma split_header (bs : bytes) :
  all_bytes bs -> (4 <= length bs)%nat ->
  exists len nr tail, bs = (le_bytes 3 len ++ le_bytes 1 nr) ++ tail /\ uint 24 len /\ is_byte nr.
Proof.
  intros Hb Hl. destruct bs as [|a [|b [|c [|d tail]]]]; try (simpl in Hl; lia).
  assert (all_bytes [a; b; c] /\ is_byte d) as [H3 Hd] by (by decompose_Forall_hyps; rewrite !Forall_cons).
  exists (le_val [a; b; c]), d, tail. split; [|split; [|done]].
  - pose proof (le_bytes_le_val [a; b; c] 3 H3 eq_refl) as E. rewrite E. simpl.
    by rewrite (wrap_small 8).
  - pose proof (le_val_bound [a; b; c] H3) as E. exact E.
Qed.

Lemma header_inj len nr tail data nr' rest :
  uint 24 len -> Z.of_nat (length data) <= MAX_PACKET_LENGTH ->
  (le_bytes 3 len ++ le_bytes 1 nr) ++ tail = packet_image nr' data ++ rest ->
  len = Z.of_nat (length data) /\ tail = data ++ rest.
Proof.
  intros Hl Hd E. unfold packet_image in E. rewrite <- !app_assoc in E.
  apply app_inj_1 in E as [E1 E2]; [|by rewrite !length_le_bytes].
  apply app_inj_1 in E2 as [_ E2]; [|done]. split; [|done].
  apply (f_equal le_val) in E1. rewrite !le_val_le_bytes in E1. change (8 * Z.of_nat 3) with 24 in E1.
  rewrite !wrap_small in E1; [done| |done]. unfold uint, MAX_PACKET_LENGTH in *. lia.
Qed.

(** The result of reading one packet into [buff + where_b]. *)
Record packet_read (net net' : NET) (len nr : Z) (data : bytes) : Prop := {
  pr_stream : incoming (pvio net) = packet_image nr data ++ incoming (pvio net');
  pr_len : len = Z.of_nat (length data);
  pr_max : len <= MAX_PACKET_LENGTH;
  pr_inside : where_b net + len < Z.of_nat (length (buff net'));
  pr_next : len = MAX_PACKET_LENGTH -> where_b net + len + 4 <= Z.of_nat (length (buff net'));
  pr_data : take (Z.to_nat (where_b net + len)) (buff net') = take (Z.to_nat (where_b net)) (buff net) ++ data }.

(** What reading keeps. *)
Definition still (net net' : NET) : Prop :=
  reader net' /\ max_packet_size net' = max_packet_size net /\
  (Forall (eq true) (allocs (pvio net)) -> Forall (eq true) (allocs (pvio net'))).
Definition read_kept (net net' : NET) : Prop :=
  reader net' /\ where_b net' = where_b net /\ max_packet_size net' = max_packet_size net /\
  (Forall (eq true) (allocs (pvio net)) -> Forall (eq true) (allocs (pvio net'))).

Lemma take_splice i bs buf k :
  room buf i (length bs) -> k = (Z.to_nat i + length bs)%nat -> take k (splice i bs buf) = take (Z.to_nat i) buf ++ bs.
Proof.
  intros [? ?] ->. unfold splice. rewrite app_assoc. apply take_app_length'.
  rewrite length_app, length_take. lia.
Qed.

Lemma take_splice_before i bs buf k :
  room buf i (length bs) -> (k <= Z.to_nat i)%nat -> take k (splice i bs buf) = take k buf.
Proof.
  intros [? ?] Hk. unfold splice. rewrite take_app_le by (rewrite length_take; lia).
  rewrite take_take. f_equal. lia.
Qed.

(** The buffer can take a packet of [len] bytes at [where_b], the terminating NUL and,
    behind a full packet, the next header. *)
Definition fits (net : NET) (len : Z) : Prop :=
  where_b net + len < Z.of_nat (length (buff net)) /\
  (len = MAX_PACKET_LENGTH -> where_b net + len + 4 <= Z.of_nat (length (buff net))).

Definition make_room (net : NET) (len : Z) : Z * NET :=
  let helping := Z.max len 0 + where_b net in
  if helping >=? max_packet net then net_realloc net helping else (0, net).

Lemma make_room_ok net len :
  reader net -> 0 <= where_b net -> where_b net <= Z.of_nat (length (buff net)) ->
  0 < len <= MAX_PACKET_LENGTH ->
  let '(e, net') := make_room net len in
  read_kept net net' /\ incoming (pvio net') = incoming (pvio net) /\
  (if e =? 0 then fits net' len /\
     take (Z.to_nat (where_b net)) (buff net') = take (Z.to_nat (where_b net)) (buff net)
   else Forall (eq true) (allocs (pvio net)) -> max_packet_size net <= where_b net + len).
Proof.
  intros Hrd Hw Hwb Hlen. unfold make_room. rewrite Z.max_l by lia.
  pose proof Hrd as [Hc Hp Hb Hro Hm Hs]. destruct (Z.geb_spec (len + where_b net) (max_packet net)).
  - destruct (net_realloc_ok net (len + where_b net)) as
      [(e & q & -> & Hin & Hpi & Hal)|(b & m & q & -> & Hnm & Hlb & Htk & Hin & Hpi & Hal)]; [lia|done| |]; simpl.
    + split; [|split; [done|intros ?; destruct Hal; [done|lia]]].
      split; [|split; [done|split; [done|intros Ha; by destruct (Hal Ha) as [_ ->]]]].
      split; simpl; [done|auto|by rewrite Hin|done|done|done].
    + split; [|split; [done|split; [split; simpl; lia|apply Htk; lia]]].
      split; [|split; [done|split; [done|done]]].
      split; simpl; [done|auto|by rewrite Hin|by left|lia|done].
  - simpl. split; [|split; [done|split; [|done]]].
    + by split.
    + destruct Hro; split; lia.
Qed.

(** The body of a packet, once the buffer has room for it. *)
Lemma read_body net len :
  reader net -> 0 <= where_b net -> 0 < len -> where_b net + len <= Z.of_nat (length (buff net)) ->
  exists ok net', read_loop (Z.to_nat len) net (where_b net) len = Ret (ok, net') /\
  read_kept net net' /\ length (buff net') = length (buff net) /\
  (if ok : bool then exists data, incoming (pvio net) = data ++ incoming (pvio net') /\
     len = Z.of_nat (length data) /\ buff net' = splice (where_b net) data (buff net)
   else Z.of_nat (length (incoming (pvio net))) < len).
Proof.
  intros Hrd Hw Hlen Hf1. pose proof Hrd as [Hc Hp Hb Hro Hm Hs]. set (tail := incoming (pvio net)) in *.
  destruct (decide (len <= Z.of_nat (length tail))) as [Hl|Hl].
  - set (data := take (Z.to_nat len) tail). assert (length data = Z.to_nat len) as Ld by (unfold data; rewrite length_take; lia).
    destruct (read_loop_full (Z.to_nat len) net (where_b net) data (drop (Z.to_nat len) tail))
      as (p' & E & Hin' & Hp' & Ha'); [done|unfold data; by rewrite take_drop|by apply Forall_take|split; lia|lia|].
    rewrite Ld, Z2Nat.id in E by lia. eexists true, _. split; [exact E|].
    assert (length (splice (where_b net) data (buff net)) = length (buff net)) as Ls by (apply length_splice; split; lia).
    split; [|split; [exact Ls|]].
    + split; [|simpl; rewrite Ha'; auto]. split; simpl; [done|done| | |done|done].
      * rewrite Hin'. by apply Forall_drop.
      * unfold roomy. simpl. rewrite Ls. exact Hro.
    + exists data. simpl. rewrite Hin'. unfold data at 1. rewrite take_drop. split; [done|]. split; [lia|done].
  - destruct (read_loop_short (Z.to_nat len) net (where_b net) len) as (b & p' & E & Lb & Hin' & Hp' & Ha');
      [done|done|unfold tail in *; lia|split; lia|lia|].
    eexists false, _. split; [exact E|]. split; [|split; [done|lia]].
    split; [|simpl; split; [done|split; [done|]]].
    + split; simpl; [done|done|by rewrite Hin'|unfold roomy; simpl; by rewrite Lb|done|done].
    + by rewrite Ha'.
Qed.

Lemma read_kept_trans a b c : read_kept a b -> read_kept b c -> read_kept a c.
Proof. intros (_ & ? & ? & ?) (? & ? & ? & ?). split; [done|]. split; [congruence|]. split; [congruence|auto]. Qed.

Lemma header_fields buf i len nr :
  room buf i 4 -> uint 24 len -> is_byte nr ->
  let b := splice i (le_bytes 3 len ++ le_bytes 1 nr) buf in
  load b (i + 3) = Ret nr /\ uint3korr b i = Ret len.
Proof.
  intros Hr Hl Hn b. split.
  - apply load_splice_in; [done|simpl; lia|]. replace (Z.to_nat (i + 3 - i)) with 3%nat by lia. simpl.
    by rewrite (wrap_small 8).
  - pose proof (load_bytes_splice i (le_bytes 3 len ++ le_bytes 1 nr) buf Hr) as E.
    apply load_bytes_app in E as [E _]. rewrite length_le_bytes in E.
    apply uint3korr_load in E; [|apply le_bytes_bytes]. unfold b. rewrite E, le_val_le_bytes. by rewrite wrap_small.
Qed.

(** The end of ma_real_read: more room where it is needed, then the body. *)
Lemma read_rest net len :
  reader net -> 0 <= where_b net -> where_b net <= Z.of_nat (length (buff net)) ->
  0 < len <= MAX_PACKET_LENGTH ->
  exists r net',
  (let '(e, net) := make_room net len in
   if negb (e =? 0) then Ret (packet_error, 0, set_reading_or_writing net 0)
   else '(ok, net) ← read_loop (Z.to_nat len) net (where_b net) len;
        if negb ok then Ret (packet_error, 0, set_reading_or_writing net 0)
        else Ret (len, 0, set_reading_or_writing net 0)) = Ret (r, 0, net') /\
  read_kept net net' /\
  (r = packet_error \/ r = len /\ exists data, incoming (pvio net) = data ++ incoming (pvio net') /\
     len = Z.of_nat (length data) /\ fits net' len /\
     take (Z.to_nat (where_b net + len)) (buff net') = take (Z.to_nat (where_b net)) (buff net) ++ data) /\
  (len <= Z.of_nat (length (incoming (pvio net))) -> where_b net + len < max_packet_size net ->
   Forall (eq true) (allocs (pvio net)) -> r <> packet_error).
Proof.
  intros Hrd Hw Hwb Hlen. pose proof (make_room_ok net len Hrd Hw Hwb Hlen) as Hm.
  destruct (make_room net len) as [e net1]. destruct Hm as (Hk1 & Hin1 & He).
  destruct (e =? 0); simpl negb; cbv iota.
  - destruct He as [Hf Ht]. pose proof Hk1 as (Hrd1 & W1 & _).
    destruct (read_body net1 len Hrd1) as (ok & net2 & E & Hk2 & L2 & Hok);
      [lia|lia|destruct Hf; lia|].
    rewrite E, bind_ret. assert (read_kept net (set_reading_or_writing net2 0)) as Hk.
    { apply (read_kept_trans _ net1); [done|]. destruct Hk2 as ([] & ? & ? & ?). split; [by split|done]. }
    destruct ok; eexists _, _; (split; [reflexivity|]); (split; [exact Hk|]); simpl.
    + destruct Hok as (data & Hin2 & Ld & Eb). split; [|unfold packet_error, MAX_PACKET_LENGTH in *; lia].
      right. split; [done|]. exists data. rewrite <- Hin1. split; [done|]. split; [done|].
      split; [|rewrite Eb, W1, <- Ht; apply take_splice; [destruct Hf; split; lia|lia]].
      unfold fits in *. simpl. destruct Hk2 as (_ & -> & _). by rewrite L2.
    + split; [by left|]. rewrite <- Hin1. lia.
  - eexists _, _. split; [reflexivity|]. destruct Hk1 as ([] & ? & ? & ?).
    split; [split; [by split|done]|]. split; [by left|]. intros _ ? ?. specialize (He ltac:(done)). lia.
Qed.

(** ma_real_read without compression: an error, or the next packet of the stream.  With
    memory and a packet below the limit there is no error. *)
Lemma real_read_spec net :
  reader net -> 0 <= where_b net -> where_b net + 4 <= Z.of_nat (length (buff net)) ->
  exists len complen net', ma_real_read net = Ret (len, complen, net') /\ read_kept net net' /\
  (len = packet_error \/ exists nr data, packet_read net net' len nr data) /\
  (forall nr data rest, incoming (pvio net) = packet_image nr data ++ rest ->
     Z.of_nat (length data) <= MAX_PACKET_LENGTH -> where_b net + Z.of_nat (length data) < max_packet_size net ->
     Forall (eq true) (allocs (pvio net)) -> len <> packet_error).
Proof.
  intros Hrd Hw Hwb. unfold ma_real_read. simpl compress. rewrite (reader_compress _ Hrd).
  change NET_HEADER_SIZE with 4. set (net0 := set_reading_or_writing net 1).
  assert (reader net0) as Hrd0 by (destruct Hrd; by split).
  destruct (read_body net0 4 Hrd0) as (ok & net1 & E & Hk1 & L1 & Hok); [done|done|done|].
  rewrite E, bind_ret. destruct ok; simpl negb; cbv iota.
  2:{ eexists _, _, _. split; [reflexivity|]. split; [|split; [by left|]].
      - destruct Hk1 as ([] & ? & ? & ?). split; [by split|done].
      - intros nr data rest Hin. simpl in Hok. rewrite Hin in Hok. unfold packet_image in Hok.
        rewrite !length_app, !length_le_bytes in Hok. lia. }
  destruct Hok as (h & Hin1 & Lh & Eb1). 
  destruct (split_header h) as (len & nr & tail & -> & Hlen & Hnr);
    [pose proof (reader_bytes _ Hrd) as Hb; simpl in Hin1; rewrite Hin1 in Hb; by apply Forall_app in Hb as [? _]|lia|].
  destruct tail; [|rewrite !length_app, !length_le_bytes in Lh; simpl in Lh; lia]. rewrite app_nil_r in *.
  assert (where_b net1 = where_b net) as W1 by (by destruct Hk1 as (_ & -> & _)).
  destruct (header_fields (buff net0) (where_b net1) len nr) as [Hl3 Hl]; [split; simpl; lia|done|done|].
  simpl in Hl3, Hl, L1. rewrite W1 in Hl3, Hl. simpl in Eb1. rewrite <- Eb1 in Hl3, Hl. rewrite <- W1 in Hl3, Hl.
  rewrite Hl3, bind_ret, (reader_compress net1), bind_ret by apply Hk1.
  set (net2 := set_compress_pkt_nr _ _). change (buff net2) with (buff net1). change (where_b net2) with (where_b net1).
  rewrite Hl, bind_ret.
  assert (read_kept net net2) as Hk2 by (destruct Hk1 as ([] & ? & ? & ?); split; [by split|done]).
  assert (take (Z.to_nat (where_b net)) (buff net2) = take (Z.to_nat (where_b net)) (buff net)) as Ht2.
  { simpl. rewrite Eb1. apply take_splice_before; [split; simpl; lia|done]. }
  destruct (Z.eqb_spec len 0) as [->|Hnz].
  { eexists _, _, _. split; [reflexivity|]. simpl.
    split; [destruct Hk2 as ([] & ? & ? & ?); split; [by split|done]|].
    split; [|done]. right. exists nr, []. split; simpl; try done; [lia|].
    rewrite Z.add_0_r, app_nil_r. done. }
  assert (0 < len <= MAX_PACKET_LENGTH) as Hlm by (unfold uint, MAX_PACKET_LENGTH in *; lia).
  destruct (read_rest net2 len) as (r & net3 & E3 & Hk3 & Hr3 & Hc3);
    [apply Hk2|simpl; lia|simpl; rewrite W1, L1; lia|done|].
  exists r, 0, net3. split; [exact E3|]. split; [by apply (read_kept_trans _ net2)|].
  simpl in Hr3, Hc3. rewrite W1 in Hr3, Hc3. destruct Hk1 as (_ & _ & M1 & A1).
  split.
  - destruct Hr3 as [->|(-> & data & Hin3 & -> & [Hf Hf'] & Ht)]; [by left|]. right. exists nr, data.
    destruct Hk3 as (_ & W3 & _). simpl in W3. rewrite W3, W1 in Hf, Hf'. split; [|done|lia|done|done|].
    + simpl in Hin1. rewrite Hin1, Hin3. unfold packet_image. by rewrite <- !app_assoc.
    + by rewrite Ht, <- Ht2.
  - intros nr' data rest Hin Hd Hlim Hal. simpl in Hin1. rewrite Hin in Hin1. symmetry in Hin1.
    apply header_inj in Hin1 as [El Ein]; [|done|done].
    apply Hc3; [rewrite Ein, length_app; lia|simpl in M1; rewrite M1; lia|by apply A1].
Qed.

Lemma reader_length net : reader net -> Z.of_nat (length (buff net)) < packet_error.
Proof. intros [_ _ _ Hr Hm Hs]. unfold IO_SIZE in *. destruct Hr; lia. Qed.

(** ** Messages *)

(** A message on the wire, whatever the sequence numbers: full packets, then a shorter
    one. *)
Inductive message : bytes -> bytes -> Prop :=
  | message_last nr data :
      Z.of_nat (length data) < MAX_PACKET_LENGTH -> message data (packet_image nr data)
  | message_more nr part data w :
      Z.of_nat (length part) = MAX_PACKET_LENGTH -> message data w ->
      message (part ++ data) (packet_image nr part ++ w).

Lemma packets_message data : forall n nr, n = packet_count data -> message data (packets_image n nr data).
Proof.
  intros n. revert data. induction n as [|n IH]; intros data nr E; [done|]. cbn [packets_image].
  destruct (Z.geb_spec (Z.of_nat (length data)) MAX_PACKET_LENGTH) as [H|H].
  - rewrite <- (take_drop (Z.to_nat MAX_PACKET_LENGTH) data) at 1. apply message_more.
    + rewrite length_take. unfold MAX_PACKET_LENGTH in *. lia.
    + apply IH. rewrite (packet_count_step _ H) in E. by injection E.
  - by apply message_last.
Qed.

Lemma packet_image_inj nr part rest nr' part' rest' :
  Z.of_nat (length part) <= MAX_PACKET_LENGTH -> Z.of_nat (length part') <= MAX_PACKET_LENGTH ->
  packet_image nr part ++ rest = packet_image nr' part' ++ rest' -> part = part' /\ rest = rest'.
Proof.
  intros Hp Hp' E. unfold packet_image at 1 in E. rewrite <- app_assoc, (app_assoc (le_bytes 3 _)) in E.
  rewrite <- app_assoc in E. rewrite (app_assoc (le_bytes 3 _)) in E.
  apply header_inj in E as [El Et]; [|unfold uint, MAX_PACKET_LENGTH in *; lia|done].
  apply app_inj_1 in Et; [done|lia].
Qed.

(** Streams decode in one way. *)
Lemma message_inj data w rest : message data w -> forall data' w' rest', message data' w' ->
  w ++ rest = w' ++ rest' -> data = data' /\ rest = rest'.
Proof.
  induction 1 as [nr data Hd|nr part data w Hp _ IH]; intros data' w' rest' Hm E;
    destruct Hm as [nr' data' Hd'|nr' part' data' w' Hp' Hm']; rewrite <- ?app_assoc in E;
    apply packet_image_inj in E as [-> E]; try lia; [done|].
  by destruct (IH _ _ _ Hm' E) as [-> ->].
Qed.

(** The rest of a message, read behind the first [w] bytes of the buffer. *)
Record message_read (net net' : NET) (w : Z) (data : bytes) : Prop := {
  mr_stream : exists wire, message data wire /\ incoming (pvio net) = wire ++ incoming (pvio net');
  mr_inside : w + Z.of_nat (length data) < Z.of_nat (length (buff net'));
  mr_data : take (Z.to_nat (w + Z.of_nat (length data))) (buff net') = take (Z.to_nat w) (buff net) ++ data }.

(** A message is due: it starts the stream, it is below the limit and there is memory. *)
Definition due (net : NET) (w : Z) : Prop :=
  exists data wire rest, message data wire /\ incoming (pvio net) = wire ++ rest /\
    w + Z.of_nat (length data) < max_packet_size net /\ Forall (eq true) (allocs (pvio net)).

Lemma due_read net : due net (where_b net) ->
  exists nr data rest, incoming (pvio net) = packet_image nr data ++ rest /\
    Z.of_nat (length data) <= MAX_PACKET_LENGTH /\ where_b net + Z.of_nat (length data) < max_packet_size net.
Proof.
  intros (data & wire & rest & Hm & Hin & Hlim & _). destruct Hm as [nr data Hd|nr part data wire Hp _].
  - exists nr, data, rest. split; [done|]. lia.
  - exists nr, part, (wire ++ rest). rewrite Hin, <- app_assoc. split; [done|]. rewrite length_app in Hlim. lia.
Qed.

(** Behind a full packet the rest of the message is due. *)
Lemma due_more net net' nr data len :
  due net (where_b net) -> read_kept net net' -> packet_read net net' len nr data -> len = MAX_PACKET_LENGTH ->
  due net' (where_b net + len).
Proof.
  intros (d & wire & rest & Hm & Hin & Hlim & Ha) (_ & _ & M & A) [Hs Hl _ _ _ _] Hmax.
  rewrite Hs in Hin. destruct Hm as [nr' d Hd|nr' part d wire Hp Hm].
  - apply packet_image_inj in Hin as [-> _]; lia.
  - rewrite <- app_assoc in Hin. apply packet_image_inj in Hin as [-> Hin]; [|lia..].
    exists d, wire, rest. split; [done|]. split; [done|]. rewrite length_app in Hlim. split; [rewrite M; lia|auto].
Qed.

Lemma message_read_last net net' len nr data :
  packet_read net net' len nr data -> len <> MAX_PACKET_LENGTH -> message_read net net' (where_b net) data.
Proof.
  intros [Hs Hl Hm Hi _ Hd] Hne. split; [|lia|by rewrite <- Hl].
  exists (packet_image nr data). split; [apply message_last; lia|done].
Qed.

Lemma message_read_more net net1 net2 len nr part data :
  packet_read net net1 len nr part -> len = MAX_PACKET_LENGTH ->
  message_read net1 net2 (where_b net + len) data -> message_read net net2 (where_b net) (part ++ data).
Proof.
  intros [Hs Hl Hm Hi _ Hd] Hmax [(wire & Hw & Hin) Hi2 Hd2]. split.
  - exists (packet_image nr part ++ wire). split; [apply message_more; [lia|done]|].
    by rewrite Hs, Hin, <- app_assoc.
  - rewrite length_app. lia.
  - rewrite length_app, Nat2Z.inj_add, Z.add_assoc, <- Hl, Hd2, Hd. by rewrite <- app_assoc.
Qed.

Lemma read_more_spec packets : forall net len total,
  reader net -> 0 <= where_b net -> 0 <= len -> where_b net + len + 4 <= Z.of_nat (length (buff net)) ->
  (length (incoming (pvio net)) < packets)%nat ->
  exists len' total' net', read_more packets net len total = Ret (len', total', net') /\ still net net' /\
  (len' = packet_error \/ exists data, message_read net net' (where_b net + len) data /\
     len' <> packet_error /\ len' + total' = total + len + Z.of_nat (length data)) /\
  (due net (where_b net + len) -> len' <> packet_error).
Proof.
  induction packets as [|packets IH]; intros net len total Hrd Hw Hl Hr Hf; [lia|]. cbn [read_more].
  set (net0 := set_where_b net (where_b net + len)).
  assert (reader net0) as Hrd0 by (destruct Hrd; by split).
  destruct (real_read_spec net0 Hrd0) as (len1 & c1 & net1 & -> & Hk1 & Hr1 & Hd1); [simpl; lia|simpl; lia|].
  rewrite bind_ret. pose proof Hk1 as (Hrd1 & W1 & M1 & A1). simpl in W1, M1, A1.
  assert (due net (where_b net + len) -> len1 <> packet_error) as Hdue.
  { intros Hd. destruct (due_read net0 Hd) as (nr & data & rest & ? & ? & ?).
    destruct Hd as (_ & _ & _ & _ & _ & _ & Ha). by apply (Hd1 nr data rest). }
  destruct (Z.eqb_spec len1 MAX_PACKET_LENGTH) as [Hmax|Hne].
  - destruct Hr1 as [->|(nr & part & Hp)]; [done|]. pose proof Hp as [Hs Hlp _ _ Hn _].
    destruct (IH net1 len1 (total + len) Hrd1) as (len2 & t2 & net2 & -> & Hrd2 & Hr2 & Hd2);
      [lia|lia|rewrite W1; by apply Hn| |].
    { change (pvio net0) with (pvio net) in Hs. rewrite Hs in Hf. unfold packet_image in Hf. rewrite !length_app, !length_le_bytes in Hf. lia. }
    exists len2, t2, net2. split; [done|].
    split; [destruct Hrd2 as (? & ? & ?); split; [done|split; [congruence|auto]]|]. rewrite W1 in Hr2, Hd2. split.
    + destruct Hr2 as [?|(data & Hm & Hne & Ht)]; [by left|]. right. exists (part ++ data).
      split; [|split; [done|rewrite length_app; lia]].
      destruct (message_read_more net0 net1 net2 len1 nr part data Hp Hmax Hm). by split.
    + intros Hd. apply Hd2. exact (due_more net0 net1 nr part len1 Hd Hk1 Hp Hmax).
  - eexists _, _, _. split; [reflexivity|]. split; [done|]. split; [|done].
    destruct Hr1 as [?|(nr & data & Hp)]; [by left|]. right. exists data.
    split; [destruct (message_read_last net0 net1 len1 nr data Hp Hne); by split|].
    destruct Hp as [_ Hlp Hm _ _ _]. split; [unfold packet_error, MAX_PACKET_LENGTH in *; lia|lia].
Qed.

(** What a caller of ma_net_read finds: the message at [read_pos] with a NUL behind it. *)
Definition payload (net : NET) (len : Z) : cres bytes := load_bytes (buff net) (read_pos net) (S (Z.to_nat len)).

Lemma store_nul net len :
  0 <= where_b net -> 0 <= len -> where_b net + len < Z.of_nat (length (buff net)) ->
  exists b, store (buff net) (where_b net + len) 0 = Ret b /\ length b = length (buff net) /\
    load_bytes b (where_b net) (S (Z.to_nat len)) =
      Ret (drop (Z.to_nat (where_b net)) (take (Z.to_nat (where_b net + len)) (buff net)) ++ [0]).
Proof.
  intros Hw Hl Hi. set (i := where_b net + len).
  assert (room (buff net) i 1) as Hr by (split; simpl; lia). rewrite store_byte_splice by done.
  change (le_bytes 1 0) with [0]. eexists. split; [reflexivity|]. split; [by apply length_splice|].
  set (d := drop (Z.to_nat (where_b net)) (take (Z.to_nat i) (buff net))).
  assert (length d = Z.to_nat len) as Ld by (unfold d, i; rewrite length_drop, length_take; lia).
  replace (S (Z.to_nat len)) with (length (d ++ [0])) by (rewrite length_app; simpl; lia).
  apply load_bytes_app. rewrite Ld. split.
  - rewrite load_bytes_splice_out by (done || (left; unfold i; lia)).
    rewrite load_bytes_in by (split; lia). f_equal. unfold d. rewrite take_drop_commute. do 2 f_equal. unfold i. lia.
  - replace (where_b net + Z.of_nat (Z.to_nat len)) with i by (unfold i; lia). by apply (load_bytes_splice i [0]).
Qed.

(** ma_net_read before it sets [read_pos]. *)
Lemma read_first packets net :
  reader net -> 0 <= where_b net -> where_b net + 4 <= Z.of_nat (length (buff net)) ->
  (length (incoming (pvio net)) < packets)%nat ->
  exists len net',
  ('(len, _, net) ← ma_real_read net;
   if len =? MAX_PACKET_LENGTH then
     let last_pos := where_b net in
     '(len, total, net) ← read_more packets net len 0;
     Ret (if len =? packet_error then len else len + total, set_where_b net last_pos)
   else Ret (len, net)) = Ret (len, net') /\
  still net net' /\ where_b net' = where_b net /\
  (len = packet_error \/ exists data, message_read net net' (where_b net) data /\ len = Z.of_nat (length data)) /\
  (due net (where_b net) -> len <> packet_error).
Proof.
  intros Hrd Hw Hr Hf.
  destruct (real_read_spec net Hrd Hw Hr) as (len1 & c1 & net1 & -> & Hk1 & Hr1 & Hd1). rewrite bind_ret.
  pose proof Hk1 as (Hrd1 & W1 & M1 & A1).
  destruct (Z.eqb_spec len1 MAX_PACKET_LENGTH) as [Hmax|Hne].
  - destruct Hr1 as [->|(nr & part & Hp)]; [done|]. pose proof Hp as [Hs Hlp _ _ Hn _].
    destruct (read_more_spec packets net1 len1 0 Hrd1) as (len2 & t2 & net2 & -> & (Hrd2 & M2 & A2) & Hr2 & Hd2);
      [lia|lia|rewrite W1; by apply Hn| |].
    { rewrite Hs in Hf. unfold packet_image in Hf. rewrite !length_app, !length_le_bytes in Hf. lia. }
    rewrite bind_ret. rewrite W1 in Hr2, Hd2.
    eexists _, _. split; [reflexivity|]. split; [destruct Hrd2; split; [by split|split; [simpl; congruence|auto]]|].
    split; [done|]. destruct (Z.eqb_spec len2 packet_error) as [->|He].
    + split; [by left|]. intros Hd. apply Hd2. by apply (due_more net net1 nr part len1).
    + destruct Hr2 as [?|(data & Hm & _ & Ht)]; [done|].
      pose proof (message_read_more net net1 net2 len1 nr part data Hp Hmax Hm) as Hm2.
      assert (len2 + t2 = Z.of_nat (length (part ++ data))) as El by (rewrite length_app; lia). rewrite El. split.
      * right. exists (part ++ data). split; [destruct Hm2; by split|done].
      * intros _. destruct Hm2 as [_ Hi _]. pose proof (reader_length _ Hrd2). lia.
  - eexists _, _. split; [reflexivity|]. split; [done|]. split; [done|]. split.
    + destruct Hr1 as [?|(nr & data & Hp)]; [by left|]. right. exists data.
      split; [exact (message_read_last net net1 len1 nr data Hp Hne)|apply Hp].
    + intros Hd. destruct (due_read net Hd) as (nr & data & rest & ? & ? & ?).
      destruct Hd as (_ & _ & _ & _ & _ & _ & Ha). by apply (Hd1 nr data rest).
Qed.

(** A message taken from the stream and left at [read_pos]. *)
Definition received (net net' : NET) (data : bytes) : Prop :=
  (exists wire, message data wire /\ incoming (pvio net) = wire ++ incoming (pvio net')) /\
  payload net' (Z.of_nat (length data)) = Ret (data ++ [0]).

Lemma read_plain_spec packets net :
  reader net -> 0 <= where_b net -> where_b net + 4 <= Z.of_nat (length (buff net)) ->
  (length (incoming (pvio net)) < packets)%nat ->
  exists len net', read_plain packets net = Ret (len, net') /\ still net net' /\ where_b net' = where_b net /\
  (len = packet_error \/ exists data, received net net' data /\ len = Z.of_nat (length data)) /\
  (due net (where_b net) -> len <> packet_error).
Proof.
  intros Hrd Hw Hr Hf. destruct (read_first packets net Hrd Hw Hr Hf) as (len & net1 & E & Hk & W & Hr1 & Hd).
  apply bind_Ret_inv in E as ([[l c] n] & E1 & E2). unfold read_plain. rewrite E1, bind_ret.
  cbv zeta in E2 |- *. rewrite E2, bind_ret.
  exists len. destruct Hk as (Hrd1 & M1 & A1). simpl. destruct (Z.eqb_spec len packet_error) as [->|He].
  { eexists. split; [reflexivity|]. destruct Hrd1. split; [split; [by split|done]|]. split; [done|]. split; [by left|done]. }
  destruct Hr1 as [?|(data & [(wire & Hm & Hin) Hi Ht] & ->)]; [done|]. rewrite <- W in Hi, Ht.
  destruct (store_nul net1 (Z.of_nat (length data))) as (b & -> & Lb & Hb); [lia|lia|done|].
  rewrite bind_ret. eexists. split; [reflexivity|].
  split; [destruct Hrd1; split; [split; try done; unfold roomy; simpl; by rewrite Lb|done]|].
  split; [done|]. split; [|done]. right. exists data. split; [|done]. split; [by exists wire|].
  unfold payload. cbn [read_pos buff set_buff set_read_pos]. rewrite Hb, Ht. do 2 f_equal. rewrite W. apply drop_app_length'. rewrite length_take. lia.
Qed.

(** C3: whatever bytes arrive and in whatever pieces, ma_net_read on a connection without
    compression returns: it reports an error, or it has taken one message off the front of
    the stream and left exactly its data at [read_pos], followed by a NUL; nothing is
    stored outside the buffer, and the connection can be read again. *)
Theorem read_any_stream zc rounds fuel packets net :
  reader net -> 0 <= where_b net -> where_b net + 4 <= Z.of_nat (length (buff net)) ->
  (length (incoming (pvio net)) < packets)%nat ->
  exists len net', ma_net_read zc packets rounds fuel net = Ret (len, net') /\ reader net' /\
  (len = packet_error \/ exists data, received net net' data /\ len = Z.of_nat (length data)).
Proof.
  intros Hrd Hw Hr Hf. unfold ma_net_read. rewrite (reader_compress _ Hrd).
  destruct (read_plain_spec packets net Hrd Hw Hr Hf) as (len & net' & E & (Hrd' & _) & _ & Hl & _). eauto.
Qed.

(** Read [n] messages, with their NULs. *)
Fixpoint read_messages (zu : bytes -> Z -> option bytes) (packets n : nat) (net : NET) : cres (option (list bytes) * NET) :=
  match n with
  | O => Ret (Some [], net)
  | S n' =>
      '(len, net) ← ma_net_read zu packets 0 0 net;
      if len =? packet_error then Ret (None, net)
      else
        d ← payload net len;
        '(ds, net) ← read_messages zu packets n' net;
        Ret (option_map (cons d) ds, net)
  end.

(** C1: the bytes that writing a sequence of messages puts on the wire are read back as
    exactly these messages, one per ma_net_read, in whatever pieces they arrive, and what
    follows them is left unread. *)
Theorem messages_read zu packets net nr msgs rest :
  reader net -> where_b net = 0 ->
  incoming (pvio net) = messages_image nr msgs ++ rest -> Forall (eq true) (allocs (pvio net)) ->
  Forall (fun m => Z.of_nat (length m) < max_packet_size net) msgs ->
  (length (incoming (pvio net)) < packets)%nat ->
  exists net', read_messages zu packets (length msgs) net = Ret (Some (map (fun m => m ++ [0]) msgs), net') /\
    incoming (pvio net') = rest.
Proof.
  revert nr net. induction msgs as [|m ms IH]; intros nr net Hrd Hw Hin Ha Hm Hf; [by exists net|].
  apply Forall_cons in Hm as [Hm Hms]. cbn [messages_image] in Hin. rewrite <- app_assoc in Hin.
  cbn [read_messages length]. unfold ma_net_read. rewrite (reader_compress _ Hrd).
  destruct (read_plain_spec packets net Hrd) as (len & net1 & -> & (Hrd1 & M1 & A1) & W1 & Hr & Hd);
    [lia|destruct Hrd as [_ _ _ [] [] _]; lia|done|].
  pose proof (packets_message m (packet_count m) nr eq_refl) as Hmsg. rewrite bind_ret.
  assert (len <> packet_error) as Hne.
  { apply Hd. eexists m, _, _. split; [exact Hmsg|]. split; [exact Hin|]. split; [lia|done]. }
  destruct (Z.eqb_spec len packet_error); [done|].
  destruct Hr as [?|(data & [(wire & Hmsg' & Hin') Hpay] & ->)]; [done|]. rewrite Hpay, bind_ret.
  assert (length (incoming (pvio net1)) < packets)%nat as Hf1 by (rewrite Hin', length_app in Hf; lia).
  rewrite Hin in Hin'. destruct (message_inj _ _ _ Hmsg _ _ _ Hmsg' Hin') as [<- Hrest].
  destruct (IH (next_nr nr (packet_count m)) net1) as (net2 & -> & Hin2); [done|lia| | | | |].
  - by rewrite Hrest.
  - auto.
  - by rewrite M1.
  - exact Hf1.
  - rewrite bind_ret. exists net2. by split.
Qed.

(** A connection with an 8-byte buffer on which the messages 1 2 3 and 4 5 6 7 8 9 arrive in
    three pieces, with one more byte behind them. *)
Definition reading_net : NET :=
  (ma_net_init (Net [] 0 0 0 0 0 0 0 0 0 0 0 false false 0 0 0 None
    (MkPvio [] [] [[3; 0]; [0; 0; 1; 2; 3; 6; 0; 0; 1; 4]; [5; 6; 7; 8; 9; 77]] [] [] 0)) 8 1024).2.

Lemma reading_net_reader : reader reading_net.
Proof.
  split; try done.
  - repeat constructor; done.
  - repeat constructor; unfold is_byte, uint; simpl; lia.
  - right. split; [done|]. simpl. unfold MAX_PACKET_LENGTH. lia.
Qed.

Lemma read_any_stream_witness : exists len net',
  ma_net_read (fun _ _ => None) 40 0 0 reading_net = Ret (len, net') /\ reader net'.
Proof.
  destruct (read_any_stream (fun _ _ => None) 0 0 40 reading_net reading_net_reader) as (len & net' & E & Hr & _);
    [done|by apply Z.leb_le|apply Nat.ltb_lt; reflexivity|]. by exists len, net'.
Defined.

Lemma messages_read_witness : exists net',
  read_messages (fun _ _ => None) 40 2 reading_net = Ret (Some [[1; 2; 3; 0]; [4; 5; 6; 7; 8; 9; 0]], net') /\
  incoming (pvio net') = [77].
Proof.
  apply (messages_read (fun _ _ => None) 40 reading_net 0 [[1; 2; 3]; [4; 5; 6; 7; 8; 9]] [77]);
    [exact reading_net_reader|done|done|constructor|repeat constructor|apply Nat.ltb_lt; reflexivity].
Defined.

End NetRead.
