(* ===== verification/TextRow.v ===== *)
(** Rows of the text protocol, libmariadb/mariadb_lib.c: ma_net_safe_read, which reads a packet of
    the server, mthd_my_read_rows, which stores the rows of a result, and
    mthd_my_read_one_row, which reads the next one.

    Packets come from a [PacketReader]; [NetPackets.v] makes one of ma_net.c.  The characters
    of a stored row are an allocation of their own, behind its array of pointers, and
    pointers into it are offsets; NULL is [None].  Whether the allocations for a row succeed
    is an argument.

    The result of a query is delivered as it was sent: NULL or the text of every column, in
    order, with its length and a NUL behind it ([rows_delivered]). *)

From stdpp Require Import tactics.
From S2P Require Import Prelude IntStore Uuid NumText LenEnc StmtTime TimeText OracleTime StmtFetch StmtFloat StmtOracle OracleFormat OracleText TextTime.
Import Uuid NumText LenEnc StmtTime TimeText OracleTime StmtOracle OracleFormat OracleText TextTime.

(** What the rows need of the packet layer: reading a packet gives its length; its bytes are
    in the buffer from the read position on. *)
Class PacketReader (S : Type) := {
  net_read : S -> cres (Z * S);
  net_buff : S -> bytes;
  net_set_buff : S -> bytes -> S;
  net_read_pos : S -> Z;
  net_errno : S -> Z }.

(** [queued ms s]: the peer has sent [ms] next.  A message that is read lies in the buffer with a
    NUL behind it; changing the buffer does not change what comes. *)
Class PacketReaderLaws (S : Type) `{PacketReader S} := {
  queued : list bytes -> S -> Prop;
  read_queued m ms s : queued (m :: ms) s ->
    exists s', net_read s = Ret (Z.of_nat (length m), s') /\ queued ms s'
      /\ text_at (net_buff s') (net_read_pos s') (m ++ [0]) /\ 0 <= net_read_pos s';
  queued_small m ms s : queued (m :: ms) s -> all_bytes m /\ 0 < Z.of_nat (length m) < 2 ^ 30;
  net_buff_set s b : net_buff (net_set_buff s b) = b;
  queued_set_buff ms s b : queued ms s -> length b = length (net_buff s) -> queued ms (net_set_buff s b) }.

Module TextRow.

Definition packet_error : Z := 4294967295.
Definition ER_NET_PACKET_TOO_LARGE : Z := 1153.
Definition CR_UNKNOWN_ERROR : Z := 2000.
Definition CR_OUT_OF_MEMORY : Z := 2008.
Definition CR_SERVER_LOST : Z := 2013.
Definition CR_NET_PACKET_TOO_LARGE : Z := 2020.
Definition MYSQL_ERRMSG_SIZE : Z := 512.
Definition SQLSTATE_LENGTH : Z := 5.
Definition SQLSTATE_UNKNOWN : bytes := str "HY000".
Definition SERVER_MORE_RESULTS_EXIST : Z := 8.

(** An error with its state and the text that the server sent; client errors have their text
    in a table. *)
Record error_info : Type := Error { errno : Z; sqlstate : bytes; last_error : bytes }.

Section Rows.
Context {S : Type} `{PacketReader S}.

(** The connection, as far as rows need it. *)
Record MYSQL : Type := Mysql {
  net : S; connected : bool; error : option error_info; warning_count : Z; server_status : Z;
  oracle_mode : bool; nls : nls_formats; pkt_buffer : bytes; ext_pkt_len : Z }.

Definition set_net (m : MYSQL) (s : S) : MYSQL :=
  Mysql s (connected m) (error m) (warning_count m) (server_status m) (oracle_mode m) (nls m) (pkt_buffer m) (ext_pkt_len m).
Definition set_connected (m : MYSQL) (b : bool) : MYSQL :=
  Mysql (net m) b (error m) (warning_count m) (server_status m) (oracle_mode m) (nls m) (pkt_buffer m) (ext_pkt_len m).
Definition set_error (m : MYSQL) (e : error_info) : MYSQL :=
  Mysql (net m) (connected m) (Some e) (warning_count m) (server_status m) (oracle_mode m) (nls m) (pkt_buffer m) (ext_pkt_len m).
Definition set_status (m : MYSQL) (warnings status : Z) : MYSQL :=
  Mysql (net m) (connected m) (error m) warnings status (oracle_mode m) (nls m) (pkt_buffer m) (ext_pkt_len m).
Definition set_pkt_buffer (m : MYSQL) (b : bytes) : MYSQL :=
  Mysql (net m) (connected m) (error m) (warning_count m) (server_status m) (oracle_mode m) (nls m) b (ext_pkt_len m).

Definition client_error (no : Z) : error_info := Error no SQLSTATE_UNKNOWN [].

(** * A packet *)

(** The error of a packet that starts with 255 and has [len] bytes. *)
Definition server_error (mem : bytes) (read_pos len : Z) : cres error_info :=
  if len >? 3 then
    last_errno ← uint2korr mem (read_pos + 1);
    let pos := read_pos + 3 in
    c ← load mem pos;
    '(state, pos) ← (if c =? 35 then
                       s ← load_prefix mem (pos + 1) (Z.to_nat SQLSTATE_LENGTH);
                       Ret (s, pos + SQLSTATE_LENGTH + 1)
                     else Ret (SQLSTATE_UNKNOWN, pos));
    text ← load_prefix mem pos (Z.to_nat (Z.min (len - 2) (MYSQL_ERRMSG_SIZE - 1)));
    Ret (Error last_errno state text)
  else Ret (client_error CR_UNKNOWN_ERROR).

(** The length of the packet or packet_error; a connection that was closed has no transport. *)
Definition ma_net_safe_read (m : MYSQL) : cres (Z * MYSQL) :=
  '(len, s) ← (if connected m then net_read (net m) else Ret (0, net m));
  let m := set_net m s in
  if (len =? packet_error) || (len =? 0) then
    Ret (packet_error, set_error (set_connected m false)
      (client_error (if net_errno s =? ER_NET_PACKET_TOO_LARGE then CR_NET_PACKET_TOO_LARGE else CR_SERVER_LOST)))
  else
    c ← load (net_buff s) (net_read_pos s);
    if c =? 255 then
      e ← server_error (net_buff s) (net_read_pos s) len;
      Ret (packet_error, set_status (set_error m e) (warning_count m) (Z.ldiff (server_status m) SERVER_MORE_RESULTS_EXIST))
    else Ret (len, m).

(** * One field *)

Definition interval_column (type : Z) : bool := (type =? MYSQL_TYPE_OB_INTERVAL_YM) || (type =? MYSQL_TYPE_OB_INTERVAL_DS).

(** Times are converted in Oracle mode. *)
Definition time_column (oracle : bool) (type : Z) : bool := oracle && ((type =? MYSQL_TYPE_DATETIME) || timestamp_type type).

(** The length of the row's text: that of the packet with the converted columns in place of
    those received. *)
Fixpoint row_length (oracle : bool) (f : nls_formats) (mem : bytes) (cp : Z) (types : list Z) (pkt_len : Z) : cres Z :=
  match types with
  | [] => Ret pkt_len
  | type :: types =>
      '(len, cp) ← net_field_length mem cp;
      if len =? NULL_LENGTH then row_length oracle f mem cp types pkt_len
      else
        pkt_len ← (if time_column oracle type then
                     convert_len ← calculate_new_time_length_with_nls f mem cp len type;
                     Ret (u64 (pkt_len - len + convert_len))
                   else if type =? MYSQL_TYPE_OB_RAW then Ret (u64 (pkt_len - len + u64 (len * 2)))
                   else if interval_column type then
                     convert_len ← calculate_interval_length mem cp type;
                     Ret (u64 (pkt_len - len + convert_len))
                   else Ret pkt_len);
        row_length oracle f mem (cp + len) types pkt_len
  end.

Definition print_02X (v : Z) : bytes := [hex_digit (v / 16); hex_digit (v mod 16)].

(** sprintf with %02X for every byte; the memory and the end of the text. *)
Fixpoint copy_hex (mem : bytes) (cp : Z) (n : nat) (out : bytes) (to : Z) : cres (bytes * Z) :=
  match n with
  | O => Ret (out, to)
  | Datatypes.S n =>
      c ← load mem cp;
      out ← sprintf out to (print_02X c);
      copy_hex mem (cp + 1) n out (to + 2)
  end.

(** The text of a column and a NUL go to [out + to]; [end_to] is the last byte.  Returns the
    memory and the length, or [None] for an interval that cannot be printed.  [type] is [None]
    where there are no field descriptions. *)
Definition copy_column (oracle : bool) (f : nls_formats) (mem : bytes) (cp len : Z) (type : option Z) (out : bytes) (to end_to : Z)
    : cres (bytes * option Z) :=
  let plain :=
    text ← load_bytes mem cp (Z.to_nat len);
    out ← store_bytes out to text;
    out ← store out (to + len) 0;
    Ret (out, Some len) in
  match type with
  | None => plain
  | Some type =>
      if time_column oracle type then
        '(out, convert_len) ← rewrite_new_time_with_nls f mem cp len out to (end_to - to + 1) type;
        out ← store out (to + convert_len) 0;
        Ret (out, Some convert_len)
      else if type =? MYSQL_TYPE_OB_RAW then
        '(out, end_) ← copy_hex mem cp (Z.to_nat len) out to;
        out ← store out end_ 0;
        Ret (out, Some (u64 (len * 2)))
      else if interval_column type then
        '(out, convert_len) ← rewrite_interval mem cp out to (u32 (end_to - to)) type;
        match convert_len with
        | Some convert_len => out ← store out (to + convert_len) 0; Ret (out, Some convert_len)
        | None => Ret (out, None)
        end
      else plain
  end.

(** * Rows that are stored *)

Record MYSQL_FIELD : Type := Field { type : Z; max_length : Z }.

(** The characters, the pointers and the lengths; both lists have an entry for the end. *)
Record MYSQL_ROWS : Type := Row { chars : bytes; data : list (option Z); data_length : list Z }.

(** The fields with their new maximal lengths come with every outcome.  A failure comes with
    the pointers and lengths set before it, the pointer of the failing field included. *)
Inductive outcome : Type :=
| Copied (out : bytes) (to cp : Z) (data : list (option Z)) (lengths : list Z)
| TooLong (out : bytes) (data : list (option Z)) (lengths : list Z)
| NotPrinted (out : bytes) (data : list (option Z)) (lengths : list Z).

Abbreviation copied := (outcome * option (list MYSQL_FIELD))%type.

Definition put_field (fd : option MYSQL_FIELD) (r : copied) : copied :=
  (fst r, match snd r, fd with Some fs, Some x => Some (x :: fs) | fs, _ => fs end).

Definition put_value (p : option Z) (len : Z) (r : copied) : copied :=
  (match fst r with
   | Copied out to cp d l => Copied out to cp (p :: d) (len :: l)
   | TooLong out d l => TooLong out (p :: d) (len :: l)
   | NotPrinted out d l => NotPrinted out (p :: d) (len :: l)
   end, snd r).

(** The second pass over the packet; [too_long] is the check in front of a field. *)
Fixpoint copy_fields (too_long : option Z -> Z -> Z -> bool) (oracle : bool) (f : nls_formats) (mem : bytes) (end_to : Z) (n : nat)
    (fields : option (list MYSQL_FIELD)) (cp : Z) (out : bytes) (to : Z) : cres copied :=
  match n with
  | O => Ret (Copied out to cp [] [], fields)
  | Datatypes.S n =>
      fd ← (match fields with
            | None => Ret None
            | Some (x :: _) => Ret (Some x)
            | Some [] => Fault
            end);
      let rest := tail <$> fields in
      '(len, cp) ← net_field_length mem cp;
      if len =? NULL_LENGTH then
        r ← copy_fields too_long oracle f mem end_to n rest cp out to;
        Ret (put_field fd (put_value None 0 r))
      else if too_long (type <$> fd) len to then Ret (TooLong out [Some to] [], fields)
      else
        '(out, l) ← copy_column oracle f mem cp len (type <$> fd) out to end_to;
        match l with
        | None => Ret (NotPrinted out [Some to] [], fields)
        | Some l =>
            r ← copy_fields too_long oracle f mem end_to n rest (cp + len) out (to + l + 1);
            Ret (put_field ((fun x => Field (type x) (Z.max (max_length x) l)) <$> fd) (put_value (Some to) l r))
        end
  end.

(** The check of mthd_my_read_rows. *)
Definition rows_too_long (oracle : bool) (end_to : Z) (ty : option Z) (len to : Z) : bool :=
  ((len >? u64 (end_to - to)) || (to >? end_to)) && negb (match ty with Some ty => time_column oracle ty | None => false end).

(** A row of a packet, or an error number, 0 for no error. *)
Definition store_row (m : MYSQL) (pkt_len : Z) (fields : option (list MYSQL_FIELD)) (n : nat)
    : cres ((MYSQL_ROWS + Z) * option (list MYSQL_FIELD)) :=
  let mem := net_buff (net m) in
  let cp := net_read_pos (net m) in
  let end_cp := cp + pkt_len in
  pkt_len ← (match fields with Some fs => row_length (oracle_mode m) (nls m) mem cp (take n (type <$> fs)) pkt_len | None => Ret pkt_len end);
  let size := Z.of_nat n + pkt_len in
  let end_to := size - 1 in
  '(r, fields) ← copy_fields (rows_too_long (oracle_mode m) end_to) (oracle_mode m) (nls m) mem end_to n fields cp (repeat 0 (Z.to_nat size)) 0;
  match r with
  | TooLong _ _ _ => Ret (inr CR_UNKNOWN_ERROR, fields)
  | NotPrinted _ _ _ => Ret (inr 0, fields)
  | Copied out to cp d l =>
      let convert_len := if end_cp - cp >=? 0 then end_cp - cp else 0 in
      rest ← load_bytes mem cp (Z.to_nat convert_len);
      out ← store_bytes out to rest;
      Ret (inl (Row out (d ++ [Some to]) (l ++ [convert_len])), fields)
  end.

(** The loop; [alloc k] tells whether the allocations for the row [k] succeed. *)
Fixpoint rows_loop (fuel : nat) (alloc : Z -> bool) (m : MYSQL) (pkt_len : Z) (fields : option (list MYSQL_FIELD)) (n : nat) (rows : list MYSQL_ROWS)
    : cres (option (list MYSQL_ROWS) * option (list MYSQL_FIELD) * MYSQL) :=
  let mem := net_buff (net m) in
  let cp := net_read_pos (net m) in
  c ← load mem cp;
  if (c =? 254) && (pkt_len <? 8) then
    m ← (if pkt_len >? 1 then
           w ← uint2korr mem (cp + 1);
           s ← uint2korr mem (cp + 3);
           Ret (set_status m w s)
         else Ret m);
    Ret (Some rows, fields, m)
  else match fuel with
    | O => OutOfFuel
    | Datatypes.S fuel =>
        if negb (alloc (Z.of_nat (length rows) + 1)) then Ret (None, fields, set_error m (client_error CR_OUT_OF_MEMORY))
        else
          '(r, fields) ← store_row m pkt_len fields n;
          match r with
          | inr no => Ret (None, fields, if no =? 0 then m else set_error m (client_error no))
          | inl row =>
              '(pkt_len, m) ← ma_net_safe_read m;
              if pkt_len =? packet_error then Ret (None, fields, m)
              else rows_loop fuel alloc m pkt_len fields n (rows ++ [row])
          end
    end.

Definition mthd_my_read_rows (fuel : nat) (alloc : Z -> bool) (m : MYSQL) (fields : option (list MYSQL_FIELD)) (n : nat)
    : cres (option (list MYSQL_ROWS) * option (list MYSQL_FIELD) * MYSQL) :=
  '(pkt_len, m) ← ma_net_safe_read m;
  if pkt_len =? packet_error then Ret (None, fields, m)
  else if negb (alloc 0) then Ret (None, fields, set_error m (client_error CR_OUT_OF_MEMORY))
  else rows_loop fuel alloc m pkt_len fields n [].

(** * The next row *)

(** What mthd_my_read_one_row returns: 0 with a row, 1 at the end, -1 for an error, and the
    entries it set in the caller's arrays, which keep what they held behind them.  The
    pointers go into [row_mem]. *)
Record one_row : Type := OneRow { ret : Z; row_mem : bytes; row : list (option Z); lengths : list Z }.

(** Fields in the packet buffer; a NUL is stored behind a field when the length of the next
    one has been read.  Returns whether all fields were read, their pointers and lengths, and
    [prev_pos]. *)
Fixpoint in_place (mem : bytes) (end_pos : Z) (n : nat) (pos : Z) (prev_pos : option Z) : cres (bytes * (bool * list (option Z) * list Z * option Z)) :=
  match n with
  | O => Ret (mem, (true, [], [], prev_pos))
  | Datatypes.S n =>
      '(len, pos) ← net_field_length mem pos;
      if negb (len =? NULL_LENGTH) && ((len >? u64 (end_pos - pos)) || (pos >? end_pos)) then Ret (mem, (false, [], [], prev_pos))
      else
        let is_null := len =? NULL_LENGTH in
        let next := if is_null then pos else pos + len in
        mem ← (match prev_pos with Some p => store mem p 0 | None => Ret mem end);
        '(mem, (all, ps, ls, last)) ← in_place mem end_pos n next (Some next);
        Ret (mem, (all, (if is_null then None else Some pos) :: ps, (if is_null then 0 else len) :: ls, last))
  end.

(** [alloc] tells whether realloc succeeds; its new memory holds [junk].  The length that is
    compared is never set. *)
Definition read_one_row_ob_extension_buffer_check (alloc : bool) (junk : Z) (m : MYSQL) (pkt : Z) : Z * MYSQL :=
  if pkt =? 0 then (1, m)
  else if ext_pkt_len m <? pkt then if alloc then (0, set_pkt_buffer m (resize junk pkt (pkt_buffer m))) else (1, set_pkt_buffer m [])
  else (0, m).

Definition one_too_long (end_to : Z) (ty : option Z) (len to : Z) : bool :=
  (len >? u64 (end_to - to))
  && negb (match ty with
           | Some ty => time_column true ty || (ty =? MYSQL_TYPE_OB_RAW) || interval_column ty
           | None => false
           end).

Definition mthd_my_read_one_row (alloc : bool) (junk : Z) (m : MYSQL) (fields : option (list MYSQL_FIELD)) (n : nat)
    : cres (one_row * option (list MYSQL_FIELD) * MYSQL) :=
  '(pkt_len, m) ← ma_net_safe_read m;
  if pkt_len =? packet_error then Ret (OneRow (-1) [] [] [], fields, m)
  else
    let mem := net_buff (net m) in
    let pos := net_read_pos (net m) in
    c ← load mem pos;
    if (pkt_len <=? 8) && (c =? 254) then
      w ← uint2korr mem (pos + 1);
      s ← uint2korr mem (pos + 3);
      Ret (OneRow 1 [] [] [], fields, set_status m w s)
    else if oracle_mode m then
      match fields with
      | None => Ret (OneRow 1 [] [] [], fields, m)
      | Some fs =>
          len ← row_length true (nls m) mem pos (take n (type <$> fs)) pkt_len;
          let new_pkt_len := len + Z.of_nat n in
          let '(failed, m) := read_one_row_ob_extension_buffer_check alloc junk m new_pkt_len in
          if nonzero failed then Ret (OneRow 1 [] [] [], fields, m)
          else
            let end_to := new_pkt_len - 1 in
            '(r, fields) ← copy_fields (one_too_long end_to) true (nls m) mem end_to n fields pos (pkt_buffer m) 0;
            match r with
            | TooLong out d l => Ret (OneRow (-1) out d l, fields, set_error (set_pkt_buffer m out) (client_error CR_UNKNOWN_ERROR))
            | NotPrinted out d l => Ret (OneRow 0 out d l, fields, set_pkt_buffer m out)
            | Copied out _ _ d l => Ret (OneRow 0 out d l, fields, set_pkt_buffer m out)
            end
      end
    else
      '(mem, (all, ps, ls, last)) ← in_place mem (pos + pkt_len) n pos None;
      if negb all then
        Ret (OneRow (-1) mem ps ls, fields, set_error (set_net m (net_set_buff (net m) mem)) (client_error CR_UNKNOWN_ERROR))
      else
        p ← of_option last;
        mem ← store mem p 0;
        Ret (OneRow 0 mem (ps ++ [Some (p + 1)]) ls, fields, set_net m (net_set_buff (net m) mem)).

End Rows.
End TextRow.
