(* ===== verification/NetPackets.v ===== *)
(** The packets of libmariadb/ma_net.c for the code that reads results: a connection without
    compression is a [PacketReader] that keeps its laws.  What the clients of the interface
    prove of packets that are queued holds for messages that arrive on the wire, in whatever
    pieces. *)

From stdpp Require Import tactics gmap.
From S2P Require Import Prelude IntStore NumText Serialize Protocol20 Net NetPlain NetRead TextRow.
Import NumText Serialize Protocol20 Net NetPlain NetRead.

Module NetPackets.

Section Reader.
Context (zu : bytes -> Z -> option bytes) (packets : nat).

(** [packets] bounds the parts of a message. *)
#[export] Instance net_packets : PacketReader NET := {
  net_read := ma_net_read zu packets 0 0;
  net_buff := buff;
  net_set_buff := set_buff;
  net_read_pos := read_pos;
  net_errno := last_errno }.

(** The messages are next in the stream, not empty and within the limits of the connection. *)
Record on_wire (ms : list bytes) (net : NET) : Prop := {
  wire_reader : reader net;
  wire_start : where_b net = 0;
  wire_image : exists nr rest, incoming (pvio net) = messages_image nr ms ++ rest;
  wire_memory : Forall (eq true) (allocs (pvio net));
  wire_limit : Forall (fun m => 0 < Z.of_nat (length m) < Z.min (max_packet_size net) (2 ^ 30)) ms;
  wire_bytes : Forall all_bytes ms;
  wire_fuel : (length (incoming (pvio net)) < packets)%nat }.

Lemma wire_read m ms net : on_wire (m :: ms) net ->
  exists net', ma_net_read zu packets 0 0 net = Ret (Z.of_nat (length m), net') /\ on_wire ms net'
    /\ text_at (buff net') (read_pos net') (m ++ [0]) /\ 0 <= read_pos net'.
Proof.
  intros [Hrd Hw (nr & rest & Hin) Ha Hl Hb Hf]. apply Forall_cons in Hl as [Hm Hl]. apply Forall_cons in Hb as [_ Hb].
  cbn [messages_image] in Hin. rewrite <- app_assoc in Hin. unfold ma_net_read. rewrite (reader_compress _ Hrd).
  destruct (read_plain_spec packets net Hrd) as (len & net1 & E & (Hrd1 & M1 & A1) & W1 & Hr & Hd);
    [lia|destruct Hrd as [_ _ _ [] [] _]; lia|done|].
  pose proof (packets_message m (packet_count m) nr eq_refl) as Hmsg.
  assert (len <> Net.packet_error) as Hne.
  { apply Hd. eexists m, _, _. split; [exact Hmsg|]. split; [exact Hin|]. split; [lia|done]. }
  destruct Hr as [?|(data & [(wire & Hmsg' & Hin') Hpay] & ->)]; [done|].
  assert (length (incoming (pvio net1)) < packets)%nat as Hf1 by (rewrite Hin', length_app in Hf; lia).
  rewrite Hin in Hin'. destruct (message_inj _ _ _ Hmsg _ _ _ Hmsg' Hin') as [<- Hrest].
  unfold payload in Hpay. rewrite Nat2Z.id in Hpay.
  exists net1. split_and!; [done| | |].
  - split; [done|lia|by eauto|auto|by rewrite M1|done|done].
  - unfold text_at. rewrite length_app, Nat.add_1_r. exact Hpay.
  - apply load_bytes_room in Hpay; [|lia]. apply Hpay.
Qed.

Lemma wire_small m ms net : on_wire (m :: ms) net -> all_bytes m /\ 0 < Z.of_nat (length m) < 2 ^ 30.
Proof. intros [_ _ _ _ Hl Hb _]. apply Forall_cons in Hl as [Hl _]. apply Forall_cons in Hb as [Hb _]. split; [done|lia]. Qed.

Lemma wire_buff ms net b : on_wire ms net -> length b = length (buff net) -> on_wire ms (set_buff net b).
Proof. intros [[? ? ? Hr ? ?] ? ? ? ? ? ?] Hb. split; try done. split; try done. unfold roomy in *. simpl. by rewrite Hb. Qed.

#[export] Instance net_packets_laws : PacketReaderLaws NET := {
  queued := on_wire;
  read_queued := wire_read;
  queued_small := wire_small;
  net_buff_set net b := eq_refl;
  queued_set_buff := wire_buff }.

End Reader.

(** A connection with a buffer of 64 bytes on which the pieces arrive. *)
Definition wire_net (arriving : list bytes) : NET :=
  (ma_net_init (Net [] 0 0 0 0 0 0 0 0 0 0 0 false false 0 0 0 None (MkPvio [] [] arriving [] [] 0)) 64 1024).2.

Lemma wire_net_queued packets ms arriving :
  concat arriving = messages_image 0 ms -> Forall (fun c => c <> []) arriving -> all_bytes (concat arriving) ->
  Forall all_bytes ms -> Forall (fun m => 0 < Z.of_nat (length m) < 1024) ms -> (length (concat arriving) < packets)%nat ->
  on_wire packets ms (wire_net arriving).
Proof.
  intros Hc Hp Hb Hbs Hl Hf. split; try done.
  - split; try done. right. split; [done|]. simpl. unfold MAX_PACKET_LENGTH. lia.
  - exists 0, []. unfold incoming. cbn. by rewrite app_nil_r.
Qed.

End NetPackets.
