(* ===== verification/TextResult.v ===== *)
(** What the functions of TextRow.v deliver: [shows] is the reference text of a column, which is
    the column itself, hexadecimal digits, an interval or a time in the format of the
    session; [row_stored] says that a stored row has these texts. *)

From stdpp Require Import tactics.
From S2P Require Import Prelude IntStore Uuid NumText LenEnc StmtTime TimeText OracleTime StmtFetch StmtFloat StmtOracle OracleFormat OracleText TextTime Net NetPlain TextRow NetPackets.
Import Uuid NumText LenEnc StmtTime TimeText OracleTime StmtOracle OracleFormat OracleText TextTime TextRow.

Module TextResult.

(** * Reference *)

Inductive shows (oracle : bool) (f : nls_formats) : Z -> bytes -> bytes -> Prop :=
| shows_plain ty w : time_column oracle ty = false -> ty <> MYSQL_TYPE_OB_RAW -> interval_column ty = false -> shows oracle f ty w w
| shows_raw w : shows oracle f MYSQL_TYPE_OB_RAW w (hex w)
| shows_interval i : interval_fits i -> shows oracle f (interval_type i) (interval_image i) (interval_text i)
| shows_stamp ty s fmt text :
    oracle = true -> timestamp_type ty = true -> stamp_ok s -> get_nls_format f ty = Some fmt ->
    format_shows (stamp_time (ty =? MYSQL_TYPE_OB_TIMESTAMP_WITH_TIME_ZONE) s) fmt text ->
    shows oracle f ty (stamp_bytes s ++ if ty =? MYSQL_TYPE_OB_TIMESTAMP_WITH_TIME_ZONE then zone_image s else []) text
| shows_date y mo d h mi s fmt text :
    oracle = true -> 0 <= y <= 9999 -> 0 <= mo <= 99 -> 0 <= d <= 99 -> 0 <= h <= 99 -> 0 <= mi <= 99 -> 0 <= s <= 99 ->
    nls_date_format f = Some fmt -> format_shows (date_time y mo d h mi s) fmt text ->
    shows oracle f MYSQL_TYPE_DATETIME (date_image y mo d h mi s) text.

Definition encode_value (v : option bytes) : bytes :=
  match v with Some w => lenenc (Z.of_nat (length w)) ++ w | None => [251] end.

Definition row_packet (vs : list (option bytes)) : bytes := concat (map encode_value vs).

(** A value and its text; NULL has none. *)
Definition value_shows (oracle : bool) (f : nls_formats) (ty : Z) (v t : option bytes) : Prop :=
  match v, t with Some w, Some s => shows oracle f ty w s | None, None => True | _, _ => False end.

(** A pointer and a length with the text. *)
Definition cell (mem : bytes) (t : option bytes) (p : option Z) (len : Z) : Prop :=
  match t, p with
  | Some s, Some a => len = Z.of_nat (length s) /\ text_at mem a (s ++ [0])
  | None, None => len = 0
  | _, _ => False
  end.

Fixpoint cells (mem : bytes) (ts : list (option bytes)) (ps : list (option Z)) (ls : list Z) : Prop :=
  match ts, ps, ls with
  | [], [], [] => True
  | t :: ts, p :: ps, l :: ls => cell mem t p l /\ cells mem ts ps ls
  | _, _, _ => False
  end.

(** The fields with the length of the longest text. *)
Definition widen (x : MYSQL_FIELD) (t : option bytes) : MYSQL_FIELD :=
  match t with Some s => Field (type x) (Z.max (max_length x) (Z.of_nat (length s))) | None => x end.

(** * One column *)

Lemma wrote_nul out to n t out' p : wrote out to n t out' -> p = to + Z.of_nat (length t) -> Z.of_nat (length t) < n ->
  exists out'', store out' p 0 = Ret out'' /\ wrote out to n (t ++ [0]) out''.
Proof. intros W Hp Hn. eapply wrote_char; [exact W|unfold is_byte, uint; lia|done|lia]. Qed.

Lemma copy_hex_wrote mem w : forall cp out to n t o,
  text_at mem cp w -> all_bytes w -> wrote out to n t o -> Z.of_nat (length (t ++ hex w)) < n ->
  exists o', copy_hex mem cp (length w) o (to + Z.of_nat (length t)) = Ret (o', to + Z.of_nat (length (t ++ hex w)))
    /\ wrote out to n (t ++ hex w) o'.
Proof.
  induction w as [|c w IH]; intros cp out to n t o Ht Hb W Hn.
  { exists o. cbn [copy_hex length hex map concat]. rewrite app_nil_r. done. }
  apply text_at_cons in Ht as [Hc Ht]. apply Forall_cons in Hb as [Hcb Hb]. unfold is_byte, uint in Hcb.
  assert (hex (c :: w) = print_02X c ++ hex w) as E by done. rewrite E in *. rewrite app_assoc, !length_app in *.
  cbn [copy_hex length]. rewrite Hc, bind_ret. unfold sprintf. cbn [print_02X length] in Hn.
  assert (all_bytes (print_02X c ++ [0])) as Hx.
  { unfold print_02X. cbn [app]. repeat (apply Forall_cons; split; [first [apply hex_digit_byte; dlia|unfold is_byte, uint; lia]|]). by apply Forall_nil. }
  destruct (wrote_buffer _ _ _ _ _ W). pose proof (wrote_length _ _ _ _ _ W) as Hlen.
  rewrite store_bytes_splice, map_u8_bytes, bind_ret by (done || (unfold room; rewrite length_app; simpl; lia)).
  assert (wrote out to n (t ++ print_02X c) (splice (to + Z.of_nat (length t)) (print_02X c ++ [0]) o)) as W'.
  { apply (wrote_prefix _ _ _ _ [0]). rewrite <- app_assoc. apply wrote_app; [done|]. rewrite !length_app. simpl. lia. }
  destruct (IH (cp + 1) out to n (t ++ print_02X c) _ Ht Hb W') as (o' & E' & W''); [rewrite !length_app; simpl; lia|].
  exists o'. rewrite !length_app in E'. cbn [length print_02X] in *.
  replace (to + Z.of_nat (length t) + 2) with (to + Z.of_nat (length t + 2)) by lia. rewrite E'. split; [done|done].
Qed.

Lemma time_types ty : interval_column ty = true \/ ty = MYSQL_TYPE_OB_RAW -> forall oracle, time_column oracle ty = false.
Proof.
  unfold interval_column, time_column, timestamp_type, MYSQL_TYPE_OB_RAW, MYSQL_TYPE_OB_INTERVAL_YM, MYSQL_TYPE_OB_INTERVAL_DS,
    MYSQL_TYPE_DATETIME, MYSQL_TYPE_OB_TIMESTAMP_NANO, MYSQL_TYPE_OB_TIMESTAMP_WITH_LOCAL_TIME_ZONE, MYSQL_TYPE_OB_TIMESTAMP_WITH_TIME_ZONE.
  rewrite orb_true_iff, !Z.eqb_eq. intros H oracle. apply andb_false_iff. right. rewrite !orb_false_iff, !Z.eqb_neq. lia.
Qed.

Lemma interval_type_column i : interval_column (interval_type i) = true /\ interval_type i <> MYSQL_TYPE_OB_RAW.
Proof. by destruct i. Qed.

Definition scale_ok (t : ObTime) : Prop := 0 <= nano_scale_ t <= 9.

(** The time of a column that is printed in the format of the session. *)
Lemma shows_time oracle f ty w s mem cp c :
  shows oracle f ty w s -> time_column oracle ty = true -> text_at mem cp (w ++ [c]) ->
  exists t fmt, column_time mem cp (Z.of_nat (length w)) ty = Ret t /\ scale_ok t /\ get_nls_format f ty = Some fmt /\ format_shows t fmt s.
Proof.
  intros Hs Hty Ht. destruct Hs as [ty w Hno|w|i Hi|ty st fmt text -> Htt Hok Hfmt Hshow|y mo d h mi s fmt text -> Hy Hmo Hd Hh Hmi Hse Hfmt Hshow].
  - by rewrite Hno in Hty.
  - by rewrite time_types in Hty by (by right).
  - by rewrite time_types in Hty by (left; apply interval_type_column).
  - exists (stamp_time (ty =? MYSQL_TYPE_OB_TIMESTAMP_WITH_TIME_ZONE) st), fmt. unfold column_time. rewrite Htt.
    split_and!; [|unfold scale_ok; destruct Hok as (_ & _ & _ & _ & _ & Hsc & _); simpl; lia|done|done].
    apply text_at_app in Ht as [Ht _]. by apply stamp_read.
  - exists (date_time y mo d h mi s), fmt. unfold column_time. change (timestamp_type MYSQL_TYPE_DATETIME) with false. cbv iota.
    split_and!; [|unfold scale_ok; simpl; lia|done|done]. by eapply date_read.
Qed.

Definition time_width (oracle : bool) (ty : Z) (w s : bytes) : Z :=
  if time_column oracle ty then Z.of_nat (length s) else Z.max (Z.of_nat (length w)) (Z.of_nat (length s)).

(** The step of row_length for one column. *)
Definition column_length (oracle : bool) (f : nls_formats) (mem : bytes) (cp len ty pkt_len : Z) : cres Z :=
  if time_column oracle ty then
    convert_len ← calculate_new_time_length_with_nls f mem cp len ty;
    Ret (u64 (pkt_len - len + convert_len))
  else if ty =? MYSQL_TYPE_OB_RAW then Ret (u64 (pkt_len - len + u64 (len * 2)))
  else if interval_column ty then
    convert_len ← calculate_interval_length mem cp ty;
    Ret (u64 (pkt_len - len + convert_len))
  else Ret pkt_len.

(** What is reserved for a column is enough for the bytes received and for the text. *)
Lemma column_reserved oracle f ty w s mem cp c pkt_len :
  shows oracle f ty w s -> text_at mem cp (w ++ [c]) -> Z.of_nat (length w) <= pkt_len < 2 ^ 40 -> Z.of_nat (length s) < 2 ^ 40 ->
  exists conv, column_length oracle f mem cp (Z.of_nat (length w)) ty pkt_len = Ret (pkt_len - Z.of_nat (length w) + conv)
    /\ time_width oracle ty w s <= conv <= Z.of_nat (length w) + Z.of_nat (length s) + 32.
Proof.
  intros Hs Ht Hp Hl. unfold column_length, time_width. destruct (time_column oracle ty) eqn:Hty.
  - destruct (shows_time oracle f ty w s mem cp c Hs Hty Ht) as (t & fmt & E & Hsc & Hfmt & Hshow).
    unfold calculate_new_time_length_with_nls. rewrite E, bind_ret, Hfmt, (format_length t fmt s Hsc Hshow), bind_ret.
    exists (Z.of_nat (length s)). split; [|lia]. f_equal. rewrite (wrap_small 64 (Z.of_nat _)) by (unfold uint; lia).
    apply wrap_small. unfold uint. lia.
  - destruct Hs as [ty w _ Hr Hi|w|i Hi|ty st fmt text -> Htt|y mo d h mi s fmt text ->].
    + rewrite (proj2 (Z.eqb_neq ty MYSQL_TYPE_OB_RAW)), Hi by done. exists (Z.of_nat (length w)). split; [f_equal; lia|lia].
    + rewrite Z.eqb_refl. exists (2 * Z.of_nat (length w)). rewrite length_hex. split; [|lia].
      f_equal. rewrite (wrap_small 64 (Z.of_nat (length w) * 2)) by (unfold uint; lia). rewrite wrap_small by (unfold uint; lia). lia.
    + destruct (interval_type_column i) as [Hi1 Hi2]. rewrite (proj2 (Z.eqb_neq _ _)), Hi1 by done.
      apply text_at_app in Ht as [Ht _]. destruct (interval_length_ok mem cp i Hi Ht) as (n & -> & Hn & Hn').
      rewrite bind_ret. exists n. split; [|lia]. f_equal. apply wrap_small. unfold uint. lia.
    + unfold time_column in Hty. by rewrite Htt, orb_true_r in Hty.
    + done.
Qed.

Lemma plain_wrote mem cp w c out to size :
  text_at mem cp (w ++ [c]) -> all_bytes w -> 0 <= to -> Z.of_nat (length out) = size -> to + Z.of_nat (length w) < size ->
  exists out', (text ← load_bytes mem cp (Z.to_nat (Z.of_nat (length w)));
    out ← store_bytes out to text; out ← store out (to + Z.of_nat (length w)) 0; Ret (out, Some (Z.of_nat (length w))))
    = Ret (out', Some (Z.of_nat (length w))) /\ wrote out to (size - to) (w ++ [0]) out'.
Proof.
  intros Ht Hb Hto Hsize Hfit. apply text_at_app in Ht as [Ht _]. unfold text_at in Ht. rewrite Nat2Z.id, Ht, bind_ret.
  assert (wrote out to (size - to) [] out) as W0 by (apply wrote_nil; lia).
  rewrite store_bytes_splice, map_u8_bytes, bind_ret by (done || (unfold room; lia)).
  apply (wrote_app _ _ _ _ _ w) in W0; [|simpl; lia]. cbn [app length] in W0. rewrite Z.add_0_r in W0.
  destruct (wrote_nul _ _ _ _ _ _ W0 eq_refl) as (o & -> & W); [lia|]. rewrite bind_ret. eauto.
Qed.

(** The text and a NUL are written, and nothing in front of them. *)
Lemma column_copied oracle f ty w s mem cp c out to size :
  shows oracle f ty w s -> text_at mem cp (w ++ [c]) -> all_bytes w -> 0 <= to -> Z.of_nat (length out) = size ->
  to + time_width oracle ty w s < size -> size < 2 ^ 31 ->
  exists out', copy_column oracle f mem cp (Z.of_nat (length w)) (Some ty) out to (size - 1) = Ret (out', Some (Z.of_nat (length s)))
    /\ wrote out to (size - to) (s ++ [0]) out'.
Proof.
  intros Hs Ht Hb Hto Hsize Hfit Hmax. unfold copy_column, time_width in *. destruct (time_column oracle ty) eqn:Hty.
  - destruct (shows_time oracle f ty w s mem cp c Hs Hty Ht) as (t & fmt & E & Hsc & Hfmt & Hshow).
    unfold rewrite_new_time_with_nls. rewrite E, bind_ret, Hfmt. cbv zeta.
    replace (size - 1 - to + 1) with (size - to) by lia.
    destruct (format_puts t fmt s out to (size - to) Hsc Hshow) as (o & -> & Hl & Hat & Ho); [unfold fits_in; lia|]. rewrite bind_ret.
    assert (wrote out to (size - to) s o) as W by (constructor; [lia|done|lia|done|done]).
    destruct (wrote_nul _ _ _ _ _ (to + Z.of_nat (length s)) W eq_refl) as (o' & -> & W'); [lia|]. rewrite bind_ret. eauto.
  - destruct Hs as [ty w _ Hr Hi|w|i Hi|ty st fmt text -> Htt|y mo d h mi s fmt text ->].
    + rewrite (proj2 (Z.eqb_neq ty MYSQL_TYPE_OB_RAW)), Hi by done. eapply plain_wrote; [done|done|done|done|lia].
    + rewrite Z.eqb_refl, Nat2Z.id. rewrite length_hex in *. apply text_at_app in Ht as [Ht _].
      assert (wrote out to (size - to) [] out) as W0 by (apply wrote_nil; lia).
      destruct (copy_hex_wrote mem w cp out to (size - to) [] out Ht Hb W0) as (o & E & W); [cbn [app]; rewrite length_hex; lia|].
      cbn [app length] in *. rewrite Z.add_0_r in E. rewrite E, bind_ret.
      destruct (wrote_nul _ _ _ _ _ _ W eq_refl) as (o' & -> & W'); [rewrite length_hex; lia|]. rewrite bind_ret.
      exists o'. split; [|done]. do 3 f_equal. rewrite wrap_small by (unfold uint; lia). lia.
    + destruct (interval_type_column i) as [Hi1 Hi2]. rewrite (proj2 (Z.eqb_neq _ _)), Hi1 by done.
      apply text_at_app in Ht as [Ht _].
      rewrite (wrap_small 32) by (unfold uint; lia). replace (size - 1 - to) with (size - to - 1) by lia.
      destruct (interval_wrote mem cp out to (size - to) i Hi Ht Hto) as (o & -> & W); [lia|lia|]. rewrite bind_ret.
      destruct (wrote_nul _ _ _ _ _ _ W eq_refl) as (o' & -> & W'); [lia|]. rewrite bind_ret. eauto.
    + unfold time_column in Hty. by rewrite Htt, orb_true_r in Hty.
    + done.
Qed.

(** * One row *)

Fixpoint row_shows (oracle : bool) (f : nls_formats) (types : list Z) (vs ts : list (option bytes)) : Prop :=
  match types, vs, ts with
  | [], [], [] => True
  | ty :: types, v :: vs, t :: ts => value_shows oracle f ty v t /\ row_shows oracle f types vs ts
  | _, _, _ => False
  end.

Definition bytes_of (v : option bytes) : Z := match v with Some w => Z.of_nat (length w) | None => 0 end.
Definition total (vs : list (option bytes)) : Z := fold_right Z.add 0 (map bytes_of vs).

(** The room for the columns with a NUL for each. *)
Fixpoint widths (oracle : bool) (types : list Z) (vs ts : list (option bytes)) : Z :=
  match types, vs, ts with
  | ty :: types, v :: vs, t :: ts =>
      match v, t with Some w, Some s => time_width oracle ty w s + 1 | _, _ => 0 end + widths oracle types vs ts
  | _, _, _ => 0
  end.

Lemma total_nonneg vs : 0 <= total vs.
Proof. induction vs as [|[w|] vs IH]; unfold total in *; simpl; lia. Qed.

Lemma widths_nonneg oracle types : forall vs ts, 0 <= widths oracle types vs ts.
Proof.
  induction types as [|ty tys IH]; intros [|v vs] [|t ts]; cbn [widths]; try done.
  specialize (IH vs ts). unfold time_width. repeat case_match; lia.
Qed.

Lemma lenenc_pos n : (0 < length (lenenc n))%nat.
Proof. unfold lenenc. repeat case_match; simpl; lia. Qed.

Lemma total_packet vs : total vs + Z.of_nat (length vs) <= Z.of_nat (length (row_packet vs)).
Proof.
  induction vs as [|v vs IH]; [done|]. unfold total, row_packet in *. cbn [map fold_right concat length]. rewrite length_app.
  destruct v as [w|]; cbn [bytes_of encode_value]; rewrite ?length_app; [pose proof (lenenc_pos (Z.of_nat (length w)))|simpl]; lia.
Qed.

Lemma value_read mem p w rest :
  Z.of_nat (length w) < 2 ^ 32 -> text_at mem p (encode_value (Some w) ++ rest) ->
  net_field_length mem p = Ret (Z.of_nat (length w), p + Z.of_nat (length (lenenc (Z.of_nat (length w)))))
  /\ text_at mem (p + Z.of_nat (length (lenenc (Z.of_nat (length w))))) (w ++ rest)
  /\ (Z.of_nat (length w) =? NULL_LENGTH) = false.
Proof.
  intros Hl Ht. cbn [encode_value] in Ht. rewrite <- app_assoc in Ht. apply text_at_app in Ht as [Hn Ht].
  destruct (field_length_reads mem p (Z.of_nat (length w))) as [E _]; [unfold uint; lia|done|].
  rewrite (wrap_small 32) in E by (unfold uint; lia). split_and!; [done|done|]. apply Z.eqb_neq. unfold NULL_LENGTH. lia.
Qed.

Lemma null_read mem p rest : text_at mem p (encode_value None ++ rest) ->
  net_field_length mem p = Ret (NULL_LENGTH, p + 1) /\ text_at mem (p + 1) rest.
Proof. intros Ht. apply text_at_cons in Ht as [Hc Ht]. split; [|done]. unfold net_field_length. by rewrite Hc. Qed.

(** There is a byte behind every column. *)
Lemma next_byte (vs : list (option bytes)) c : exists b rest, row_packet vs ++ [c] = b :: rest.
Proof. destruct (row_packet vs) as [|b l]; simpl; eauto. Qed.

Lemma row_packet_cons v vs c : row_packet (v :: vs) ++ [c] = encode_value v ++ row_packet vs ++ [c].
Proof. unfold row_packet. cbn [map concat]. by rewrite <- app_assoc. Qed.

Lemma packet_bytes v vs : all_bytes (row_packet (v :: vs)) -> match v with Some w => all_bytes w | None => True end /\ all_bytes (row_packet vs).
Proof.
  unfold row_packet. cbn [map concat]. intros [Hv Hvs]%Forall_app. split; [|done]. destruct v as [w|]; [|done].
  cbn [encode_value] in Hv. by apply Forall_app in Hv as [_ ?].
Qed.

(** The first pass reserves enough. *)
Lemma row_reserved oracle f types : forall vs ts mem cp c pkt_len,
  row_shows oracle f types vs ts -> text_at mem cp (row_packet vs ++ [c]) -> total vs <= pkt_len ->
  pkt_len + total vs + total ts + 32 * Z.of_nat (length types) < 2 ^ 32 ->
  exists L, row_length oracle f mem cp types pkt_len = Ret L
    /\ pkt_len - total vs + widths oracle types vs ts - Z.of_nat (length types) <= L <= pkt_len + total ts + 32 * Z.of_nat (length types).
Proof.
  induction types as [|ty types IH]; intros [|v vs] [|t ts] mem cp c pkt_len Hs Ht Hp Hmax; try done.
  { exists pkt_len. unfold total. cbn. split; [done|lia]. }
  destruct Hs as [Hv Hs]. rewrite row_packet_cons in Ht. cbn [row_length widths].
  assert (total (v :: vs) = bytes_of v + total vs /\ total (t :: ts) = bytes_of t + total ts) as [E1 E2] by done.
  pose proof (total_nonneg vs). pose proof (total_nonneg ts). rewrite E1, E2 in *. cbn [length] in *.
  destruct v as [w|], t as [s|]; try done; cbn [bytes_of value_shows] in *.
  - destruct (value_read mem cp w _ ltac:(lia) Ht) as (-> & Ht' & En). rewrite bind_ret, En.
    destruct (next_byte vs c) as (b & rest & Eb). pose proof Ht' as Hw. rewrite Eb in Hw. change (b :: rest) with ([b] ++ rest) in Hw.
    rewrite app_assoc in Hw. apply text_at_app in Hw as [Hw _].
    set (cp' := cp + Z.of_nat (length (lenenc (Z.of_nat (length w))))) in *.
    destruct (column_reserved oracle f ty w s mem cp' b pkt_len Hv Hw ltac:(lia) ltac:(lia)) as (conv & E & Hconv).
    unfold column_length in E. rewrite E, bind_ret. apply text_at_app in Ht' as [_ Ht'].
    assert (0 <= time_width oracle ty w s) by (unfold time_width; case_match; lia).
    destruct (IH vs ts mem (cp' + Z.of_nat (length w)) c (pkt_len - Z.of_nat (length w) + conv) Hs Ht') as (L & -> & HL); [lia|lia|].
    exists L. split; [done|]. lia.
  - destruct (null_read mem cp _ Ht) as (-> & Ht'). rewrite bind_ret, Z.eqb_refl.
    destruct (IH vs ts mem (cp + 1) c pkt_len Hs Ht') as (L & -> & HL); [lia|lia|]. exists L. split; [done|]. lia.
Qed.

Lemma cells_kept mem mem' ts ps ls n :
  cells mem ts ps ls -> (forall i k, n <= i -> load_bytes mem' i k = load_bytes mem i k) ->
  Forall (fun p => match p with Some a => n <= a | None => True end) ps -> cells mem' ts ps ls.
Proof.
  revert ps ls. induction ts as [|t ts IH]; intros [|p ps] [|l ls]; try done. cbn [cells]. intros [Hc Hcs] Hk Hp.
  apply Forall_cons in Hp as [Hp Hps]. split; [|by apply IH]. destruct t, p; try done. destruct Hc as [-> Ht]. split; [done|].
  unfold text_at. by rewrite Hk.
Qed.

(** The second pass writes the texts one behind the other. *)
Lemma row_copied too_long oracle f mem size fs : forall vs ts cp c out to,
  (forall ty w s to, shows oracle f ty w s -> 0 <= to -> to + time_width oracle ty w s < size -> too_long (Some ty) (Z.of_nat (length w)) to = false) ->
  row_shows oracle f (map type fs) vs ts -> text_at mem cp (row_packet vs ++ [c]) -> all_bytes (row_packet vs) ->
  Z.of_nat (length (row_packet vs)) < 2 ^ 30 ->
  0 <= to -> Z.of_nat (length out) = size -> to + widths oracle (map type fs) vs ts <= size -> size < 2 ^ 31 ->
  exists out' to' ps ls,
    copy_fields too_long oracle f mem (size - 1) (length fs) (Some fs) cp out to
    = Ret (Copied out' to' (cp + Z.of_nat (length (row_packet vs))) ps ls, Some (zip_with widen fs ts))
    /\ length out' = length out /\ cells out' ts ps ls /\ to <= to' <= size
    /\ (forall i k, i + Z.of_nat k <= to -> load_bytes out' i k = load_bytes out i k).
Proof.
  induction fs as [|x fs IH]; intros [|v vs] [|t ts] cp c out to Hlong Hs Ht Hb Hpl Hto Hsize Hfit Hmax; try done.
  { exists out, to, [], []. cbn. rewrite Z.add_0_r. cbn in Hfit. split_and!; try done; lia. }
  destruct Hs as [Hv Hs]. rewrite row_packet_cons in Ht. cbn [copy_fields length widths map zip_with] in *.
  rewrite bind_ret. cbn [fmap option_fmap option_map tail]. apply packet_bytes in Hb as [Hbw Hb].
  assert (length (row_packet (v :: vs)) = length (encode_value v) + length (row_packet vs))%nat as El
    by (unfold row_packet; cbn [map concat]; apply length_app). rewrite El in Hpl.
  pose proof (widths_nonneg oracle (map type fs) vs ts) as Hw0.
  destruct v as [w|], t as [s|]; try done; cbn [value_shows] in *.
  - assert (length (encode_value (Some w)) = length (lenenc (Z.of_nat (length w))) + length w)%nat as Ee by (cbn [encode_value]; apply length_app).
    destruct (value_read mem cp w _ ltac:(lia) Ht) as (-> & Ht' & En). rewrite bind_ret, En.
    destruct (next_byte vs c) as (b & rest & Eb). pose proof Ht' as Hw. rewrite Eb in Hw. change (b :: rest) with ([b] ++ rest) in Hw.
    rewrite app_assoc in Hw. apply text_at_app in Hw as [Hw _]. apply text_at_app in Ht' as [_ Ht'].
    assert (0 <= time_width oracle (type x) w s /\ Z.of_nat (length s) <= time_width oracle (type x) w s) as [Htw Hts] by (unfold time_width; case_match; lia).
    rewrite (Hlong (type x) w s to Hv Hto) by lia.
    destruct (column_copied oracle f (type x) w s mem _ b out to size Hv Hw Hbw Hto Hsize ltac:(lia) Hmax) as (o1 & -> & W). rewrite bind_ret.
    destruct (IH vs ts (cp + Z.of_nat (length (lenenc (Z.of_nat (length w)))) + Z.of_nat (length w)) c o1 (to + Z.of_nat (length s) + 1))
      as (o2 & to2 & ps & ls & -> & Hl2 & Hc2 & Hto2 & Hk2); try done; [lia|lia|rewrite (wrote_length _ _ _ _ _ W); done|lia|].
    exists o2, to2, (Some to :: ps), (Z.of_nat (length s) :: ls). rewrite bind_ret. unfold put_field, put_value. cbn [fst snd widen].
    split_and!; [do 3 f_equal; rewrite El, Ee; lia|rewrite Hl2; apply (wrote_length _ _ _ _ _ W)| |lia|lia|].
    + split; [split; [done|]|done]. unfold text_at. rewrite Hk2 by (rewrite length_app; simpl; lia). apply (wrote_text _ _ _ _ _ W).
    + intros i k Hi. rewrite Hk2 by lia. apply (wrote_outside _ _ _ _ _ W). lia.
  - destruct (null_read mem cp _ Ht) as (-> & Ht'). rewrite bind_ret, Z.eqb_refl.
    destruct (IH vs ts (cp + 1) c out to) as (o2 & to2 & ps & ls & -> & Hl2 & Hc2 & Hto2 & Hk2); try done; [cbn [encode_value length] in Hpl; lia|].
    exists o2, to2, (None :: ps), (0 :: ls). rewrite bind_ret. unfold put_field, put_value. cbn [fst snd widen].
    split_and!; [do 3 f_equal; rewrite El; cbn [encode_value length]; lia|done|done|lia|lia|done].
Qed.

(** * A result *)

Definition eof_packet (warnings status : Z) : bytes := 254 :: le_bytes 2 warnings ++ le_bytes 2 status.

(** Texts of a stored row: pointers, lengths, and the end of the row. *)
Definition row_stored (ts : list (option bytes)) (r : MYSQL_ROWS) : Prop :=
  exists ps ls to, data r = ps ++ [Some to] /\ data_length r = ls ++ [0] /\ cells (chars r) ts ps ls.

(** A row with its texts is far below two gigabytes. *)
Definition row_small (n : nat) (vs ts : list (option bytes)) : Prop :=
  Z.of_nat (length (row_packet vs)) < 2 ^ 30
  /\ 2 * Z.of_nat (length (row_packet vs)) + total ts + 33 * Z.of_nat n < 2 ^ 31.

Lemma first_byte vs : vs <> [] -> Z.of_nat (length (row_packet vs)) < 2 ^ 30 ->
  exists b rest, row_packet vs = b :: rest /\ b <> 255 /\ (b = 254 -> 8 < Z.of_nat (length (row_packet vs))).
Proof.
  intros Hne Hl. destruct vs as [|v vs]; [done|]. unfold row_packet in *. cbn [map concat] in *. destruct v as [w|]; cbn [encode_value] in *.
  2:{ eexists _, _. split; [done|]. split; [lia|lia]. }
  unfold lenenc in *. rewrite <- !app_assoc, !length_app in *. destruct (Z.ltb_spec (Z.of_nat (length w)) 251).
  { eexists _, _. split; [done|]. split; lia. }
  destruct (Z.ltb_spec (Z.of_nat (length w)) 65536); [eexists _, _; split; [done|]; split; lia|].
  destruct (Z.ltb_spec (Z.of_nat (length w)) 16777216); [eexists _, _; split; [done|]; split; lia|].
  eexists _, _. split; [done|]. split; [lia|]. intros _. lia.
Qed.

Lemma eof_reads mem p warnings status : text_at mem p (eof_packet warnings status ++ [0]) -> uint 16 warnings -> uint 16 status ->
  load mem p = Ret 254 /\ uint2korr mem (p + 1) = Ret warnings /\ uint2korr mem (p + 3) = Ret status.
Proof.
  intros Ht Hw Hst. cbn [app eof_packet] in Ht. apply text_at_cons in Ht as [Hc Ht]. rewrite <- app_assoc in Ht. apply text_at_app in Ht as [H1 H2].
  apply text_at_app in H2 as [H2 _]. rewrite length_le_bytes in H2. replace (p + 1 + Z.of_nat 2) with (p + 3) in H2 by lia.
  pose proof (uint2korr_load _ _ _ (le_bytes_bytes 2 warnings) H1) as G1. pose proof (uint2korr_load _ _ _ (le_bytes_bytes 2 status) H2) as G2.
  by rewrite le_val_le_bytes, wrap_small in G1, G2 by done.
Qed.

Section Result.
Context {S : Type} `{PacketReaderLaws S}.

(** The packet [p] was read and [ms] follow. *)
Definition holding (p : bytes) (ms : list bytes) (m : MYSQL (S := S)) : Prop :=
  text_at (net_buff (net m)) (net_read_pos (net m)) (p ++ [0]) /\ queued ms (net m) /\ all_bytes p.

(** Nothing but the packet layer and the buffers changed. *)
Definition same_session (m m' : MYSQL (S := S)) : Prop :=
  connected m' = connected m /\ error m' = error m /\ oracle_mode m' = oracle_mode m /\ nls m' = nls m /\ ext_pkt_len m' = ext_pkt_len m.

Lemma same_session_trans a b c : same_session a b -> same_session b c -> same_session a c.
Proof. intros (? & ? & ? & ? & ?) (? & ? & ? & ? & ?). split_and!; congruence. Qed.

Lemma safe_read m p ms b rest : connected m = true -> queued (p :: ms) (net m) -> p = b :: rest -> b <> 255 ->
  exists m', ma_net_safe_read m = Ret (Z.of_nat (length p), m') /\ holding p ms m' /\ same_session m m'.
Proof.
  intros Hcon Hq -> Hb. destruct (queued_small _ _ _ Hq) as [Hby Hl]. destruct (read_queued _ _ _ Hq) as (s' & E & Hq' & Ht & Hp).
  unfold ma_net_safe_read. rewrite Hcon, E, bind_ret. set (p := b :: rest) in *.
  rewrite (proj2 (Z.eqb_neq _ packet_error)), (proj2 (Z.eqb_neq _ 0)) by (unfold packet_error; lia). cbn [orb].
  pose proof Ht as Hc. apply text_at_cons in Hc as [-> _]. rewrite bind_ret, (proj2 (Z.eqb_neq b 255)) by done.
  exists (set_net m s'). split_and!; [done|done|done]. 
Qed.

Lemma row_stores m fs vs ts ms :
  holding (row_packet vs) ms m -> row_shows (oracle_mode m) (nls m) (map type fs) vs ts -> row_small (length fs) vs ts ->
  exists r, store_row m (Z.of_nat (length (row_packet vs))) (Some fs) (length fs) = Ret (inl r, Some (zip_with widen fs ts)) /\ row_stored ts r.
Proof.
  intros (Ht & _ & Hb) Hs (Hsm1 & Hsm2). unfold store_row.
  pose proof (total_packet vs). pose proof (total_nonneg vs). pose proof (total_nonneg ts).
  rewrite take_ge by (rewrite length_fmap; lia). change (type <$> fs) with (map type fs).
  destruct (row_reserved (oracle_mode m) (nls m) (map type fs) vs ts _ _ 0 (Z.of_nat (length (row_packet vs))) Hs Ht) as (L & -> & HL);
    [lia|rewrite length_map; lia|]. rewrite bind_ret. rewrite length_map in HL.
  pose proof (widths_nonneg (oracle_mode m) (map type fs) vs ts).
  set (size := Z.of_nat (length fs) + L) in *.
  destruct (row_copied (rows_too_long (oracle_mode m) (size - 1)) (oracle_mode m) (nls m) (net_buff (net m)) size fs vs ts (net_read_pos (net m)) 0
    (repeat 0 (Z.to_nat size)) 0) as (out & to & ps & ls & -> & Hl & Hc & Hto & _); try done; [|rewrite repeat_length; lia|lia|lia|].
  - intros ty w s to Hsh Hto Hfit. unfold rows_too_long. destruct (time_column (oracle_mode m) ty) eqn:E; [by rewrite andb_false_r|].
    rewrite andb_true_r. unfold time_width in Hfit. rewrite E in Hfit. apply orb_false_iff. rewrite !Z.gtb_ltb, !Z.ltb_ge.
    rewrite wrap_small by (unfold uint; lia). lia.
  - rewrite bind_ret. cbn [fst snd]. rewrite Z.sub_diag. cbn [Z.geb Z.compare]. change (Z.to_nat 0) with 0%nat. cbn [load_bytes]. rewrite bind_ret.
    cbn [store_bytes]. rewrite bind_ret. eexists. split; [done|]. exists ps, ls, to. done.
Qed.

Lemma row_shows_length oracle f types : forall vs ts, row_shows oracle f types vs ts -> length vs = length types /\ length ts = length types.
Proof.
  induction types as [|ty types IH]; intros [|v vs] [|t ts] Hs; try done. destruct Hs as [_ Hs]. destruct (IH _ _ Hs) as [E1 E2]. cbn [length]. by rewrite E1, E2.
Qed.

Lemma widen_types fs : forall ts, length ts = length fs -> map type (zip_with widen fs ts) = map type fs /\ length (zip_with widen fs ts) = length fs.
Proof.
  induction fs as [|x fs IH]; intros [|t ts] Hl; try done. injection Hl as Hl. destruct (IH ts Hl) as [E1 E2]. cbn [zip_with map length].
  rewrite E1, E2. by destruct t.
Qed.

(** Packets of rows and of the end of a result do not start with 255. *)
Lemma packet_first rows oracle f types texts n warnings status p ms :
  types <> [] -> Forall2 (row_shows oracle f types) rows texts -> Forall2 (row_small n) rows texts ->
  map row_packet rows ++ [eof_packet warnings status] = p :: ms -> exists b rest, p = b :: rest /\ b <> 255.
Proof.
  intros Hne Hs Hsm E. destruct rows as [|vs rows]; cbn [map app] in E; injection E as <- <-; [by eexists _, _|].
  inversion Hs as [|? ts ? ? Hrow]; subst. inversion Hsm as [|? ? ? ? [Hl _]]; subst.
  destruct (first_byte vs) as (b & rest & -> & Hb & _); [|done|eauto].
  intros ->. destruct types; [done|]. by destruct ts.
Qed.

(** The loop over the rows of a result. *)
Lemma rows_read alloc warnings status m0 types rows : forall texts fuel m fs acc p ms,
  (forall k, alloc k = true) -> connected m0 = true -> uint 16 warnings -> uint 16 status -> types <> [] -> map type fs = types -> (length rows <= fuel)%nat ->
  Forall2 (row_shows (oracle_mode m0) (nls m0) types) rows texts -> Forall2 (row_small (length fs)) rows texts ->
  map row_packet rows ++ [eof_packet warnings status] = p :: ms -> holding p ms m -> same_session m0 m ->
  exists res m', rows_loop fuel alloc m (Z.of_nat (length p)) (Some fs) (length fs) acc
      = Ret (Some (acc ++ res), Some (fold_left (zip_with widen) texts fs), m')
    /\ Forall2 row_stored texts res /\ same_session m0 m' /\ warning_count m' = warnings /\ server_status m' = status
    /\ queued [] (net m').
Proof.
  induction rows as [|vs rows IH]; intros texts fuel m fs acc p ms Hal Hcon Hw Hst Hne Hty Hfuel Hs Hsm E Hh Hsame.
  - inversion Hs; subst. cbn [map app] in E. injection E as <- <-. destruct Hh as (Ht & Hq & _).
    destruct (eof_reads _ _ warnings status Ht Hw Hst) as (Hc & G1 & G2).
    exists [], (set_status m warnings status). rewrite app_nil_r. split_and!; try done.
    assert (Z.of_nat (length (eof_packet warnings status)) = 5) as -> by done.
    destruct fuel; cbn [rows_loop]; rewrite Hc, bind_ret; cbn [Z.eqb Pos.eqb Z.ltb Z.gtb Z.compare Pos.compare Pos.compare_cont andb];
      by rewrite G1, bind_ret, G2, !bind_ret.
  - inversion Hs as [|? ts ? texts' Hrow Hrows]; subst. inversion Hsm as [|? ? ? ? Hsmall Hsmalls]; subst.
    cbn [map app] in E. injection E as <- Ems. destruct fuel as [|fuel]; [simpl in Hfuel; lia|].
    destruct (row_shows_length _ _ _ _ _ Hrow) as [Hlv Hlt]. rewrite length_map in Hlv, Hlt.
    destruct (first_byte vs) as (b & rest & Eb & Hb & H254); [intros ->; destruct fs; [done|simpl in Hlv; lia]|apply Hsmall|].
    pose proof Hh as (Ht & Hq & Hby). pose proof Ht as Hc. rewrite Eb in Hc. apply text_at_cons in Hc as [Hc _].
    cbn [rows_loop]. rewrite Hc, bind_ret, Hal.
    assert ((b =? 254) && (Z.of_nat (length (row_packet vs)) <? 8) = false) as ->.
    { apply andb_false_iff. rewrite Z.eqb_neq, Z.ltb_ge. destruct (Z.eq_dec b 254); [right; specialize (H254 ltac:(done)); lia|by left]. }
    cbn [negb]. pose proof Hsame as (Econ & _ & Eo & En & _).
    destruct (row_stores m fs vs ts ms Hh) as (r & -> & Hr); [by rewrite Eo, En|done|]. rewrite bind_ret.
    destruct ms as [|p' ms]; [by destruct rows|].
    destruct (packet_first rows _ _ _ _ _ _ _ p' ms Hne Hrows Hsmalls Ems) as (b' & rest' & Ep' & Hb').
    destruct (safe_read m p' ms b' rest' ltac:(congruence) Hq Ep' Hb') as (m1 & -> & Hh1 & Hsame1). rewrite bind_ret.
    destruct (queued_small _ _ _ Hq) as [_ Hl']. rewrite (proj2 (Z.eqb_neq _ packet_error)) by (unfold packet_error; lia).
    destruct (widen_types fs ts Hlt) as [Et El].
    destruct (IH texts' fuel m1 (zip_with widen fs ts) (acc ++ [r]) p' ms) as (res & m' & Eres & Hres & Hsame' & Hww & Hss & Hq'); try done.
    { simpl in Hfuel. lia. }
    { by rewrite El. }
    { by eapply same_session_trans. }
    rewrite El, <- app_assoc in Eres. exists (r :: res), m'. split_and!; [exact Eres|by constructor|done|done|done|done].
Qed.

(** C6: a result that the server sends as one packet per row and a packet for the end is stored
    by mthd_my_read_rows as what was sent, whatever the packets are read from: for every row
    and column NULL, or a pointer to the text with a NUL behind it and its length.  The text
    is the column itself; of a RAW column its hexadecimal digits; of an interval its
    numbers in the given scale; and in Oracle mode, of a date or timestamp the time in the
    format of the session.  The longest length of every column, the warning count and the
    server status are set and no packet is left. *)
Theorem rows_delivered alloc (m : MYSQL (S := S)) fs rows texts warnings status fuel :
  queued (map row_packet rows ++ [eof_packet warnings status]) (net m) ->
  Forall2 (row_shows (oracle_mode m) (nls m) (map type fs)) rows texts -> Forall2 (row_small (length fs)) rows texts ->
  fs <> [] -> connected m = true -> uint 16 warnings -> uint 16 status -> (forall k, alloc k = true) -> (length rows <= fuel)%nat ->
  exists res m', mthd_my_read_rows fuel alloc m (Some fs) (length fs)
      = Ret (Some res, Some (fold_left (zip_with widen) texts fs), m')
    /\ Forall2 row_stored texts res /\ same_session m m' /\ warning_count m' = warnings /\ server_status m' = status
    /\ queued [] (net m').
Proof.
  intros Hq Hs Hsm Hne Hcon Hw Hst Hal Hfuel. unfold mthd_my_read_rows. assert (map type fs <> []) as Hty by (by destruct fs).
  destruct (map row_packet rows ++ [eof_packet warnings status]) as [|p ms] eqn:E; [by destruct rows|].
  destruct (packet_first rows _ _ _ _ _ _ _ p ms Hty Hs Hsm E) as (b & rest & Ep & Hb).
  destruct (safe_read m p ms b rest Hcon Hq Ep Hb) as (m1 & -> & Hh & Hsame). rewrite bind_ret, Hal.
  destruct (queued_small _ _ _ Hq) as [_ Hl]. rewrite (proj2 (Z.eqb_neq _ packet_error)) by (unfold packet_error; lia). cbn [negb].
  apply (rows_read alloc warnings status m (map type fs) rows texts fuel m1 fs [] p ms); done.
Qed.

End Result.

(** * A result on the wire *)

(** A row of a text, a RAW value, an interval, a date and NULL, and one of NULLs but for the
    text, which arrive in two pieces. *)
Definition sample_fields : list MYSQL_FIELD :=
  [Field 253 0; Field MYSQL_TYPE_OB_RAW 0; Field MYSQL_TYPE_OB_INTERVAL_YM 0; Field MYSQL_TYPE_DATETIME 0; Field 253 0].

Definition sample_rows : list (list (option bytes)) :=
  [[Some (str "abc"); Some [0; 171]; Some (interval_image (YearMonth true 12 5 2)); Some (str "2024-02-29 23:59:58"); None];
   [Some (str "d"); None; None; None; None]].

Definition sample_texts : list (list (option bytes)) :=
  [[Some (str "abc"); Some (str "00AB"); Some (str "-12-05"); Some (str "59:58"); None];
   [Some (str "d"); None; None; None; None]].

Definition sample_messages : list bytes := map row_packet sample_rows ++ [eof_packet 1 2].

Definition sample_net : Net.NET := let w := NetPlain.messages_image 0 sample_messages in NetPackets.wire_net [take 7 w; drop 7 w].

Definition sample_nls : nls_formats := Nls (Some (str "MI:SS" ++ [0])) None None.

Definition sample_connection : MYSQL (S := Net.NET) := Mysql sample_net true None 0 0 true sample_nls [] 0.

(** The text of a format, by running the parser and the printer. *)
Lemma format_runs t chars rest n m text elems :
  Forall (fun c => 0 < c < 256) chars -> chars <> [] -> 0 <= nano_scale_ t <= 9 -> 0 < n < 2 ^ 31 ->
  parse_datetime_format_string (Some (chars ++ 0 :: rest)) (Z.of_nat (length chars)) = Ret (0, elems) -> Forall (piece_ok t) elems ->
  calculate_str_oracle_dfm_length t (Some (chars ++ 0 :: rest)) (Z.of_nat (length chars)) (nano_scale_ t) 0 = Ret (0, Z.of_nat (length text)) ->
  Z.of_nat (length text) < n ->
  ob_time_to_str_oracle_dfm t (Some (chars ++ 0 :: rest)) (Z.of_nat (length chars)) (nano_scale_ t) (repeat 0 (Z.to_nat n)) 0 n 0
    = Ret (0, m, Z.of_nat (length text)) ->
  load_bytes m 0 (length text) = Ret text -> format_shows t (chars ++ 0 :: rest) text.
Proof.
  intros Hc Hne Hsc Hn Hp Hok Hlen Hfit Hput Htext. pose proof (chars_at chars rest) as Hat.
  assert (0 < length chars)%nat by (destruct chars; simpl; [done|lia]).
  assert (all_bytes chars) as Hb by (eapply Forall_impl; [exact Hc|]; unfold is_byte, uint; lia).
  destruct (parse_tiles (chars ++ 0 :: rest) (Z.to_nat (Z.of_nat (length chars))) 0 chars []) as (ret & es & Hparse & Htiles); [lia|done|done|lia|].
  pose proof Hp as Hp'. unfold parse_datetime_format_string in Hp'. rewrite (proj2 (Z.eqb_neq _ 0)), Hparse in Hp' by lia.
  injection Hp' as -> ->. destruct (Htiles eq_refl) as (ps & tail & -> & Esrc & Htile). cbn [app] in *.
  rewrite (pieces_length t chars rest tail (nano_scale_ t) ps) in Hlen by done. injection Hlen as Hlen.
  destruct (pieces_puts t chars rest tail (nano_scale_ t) ps Hsc Hne Hp Esrc Htile Hok (repeat 0 (Z.to_nat n)) 0 n) as (m' & E & _ & Ht & _).
  { unfold fits_in. rewrite repeat_length. lia. }
  rewrite E in Hput. injection Hput as -> _. unfold text_at in Ht. rewrite Z.add_0_r in Ht. replace (length (rendered t (nano_scale_ t) ps tail)) with (length text) in Ht by lia.
   rewrite Htext in Ht. injection Ht as ->. exists chars, rest, ps, tail, 0, (map elem ps). done.
Qed.

Lemma sample_format : format_shows (date_time 2024 2 29 23 59 58) (str "MI:SS" ++ [0]) (str "59:58").
Proof.
  eapply (format_runs _ (str "MI:SS") [] 30); try (vm_compute; reflexivity); try done; try (simpl; lia).
  - apply chars_ok. vm_compute. reflexivity.
  - repeat (apply Forall_cons; split; [intros f Hf; injection Hf as <-; cbn; unfold part; cbn; try lia|]). apply Forall_nil. done.
Qed.

Lemma sample_queued : NetPackets.on_wire 1000 sample_messages sample_net.
Proof.
  apply NetPackets.wire_net_queued.
  - vm_compute. reflexivity.
  - repeat constructor; discriminate.
  - apply (bool_decide_unpack (Forall (fun v => 0 <= v < 2 ^ 8) _)). vm_compute. exact Logic.I.
  - repeat (constructor; [apply (bool_decide_unpack (Forall (fun v => 0 <= v < 2 ^ 8) _)); vm_compute; exact Logic.I|]). constructor.
  - repeat (constructor; [split; vm_compute; reflexivity|]). constructor.
  - apply Nat.ltb_lt. vm_compute. reflexivity.
Qed.

Lemma sample_shown : Forall2 (row_shows true sample_nls (map type sample_fields)) sample_rows sample_texts.
Proof.
  constructor; [|constructor; [|constructor]]; repeat split; try (by constructor).
  - apply (shows_interval _ _ (YearMonth true 12 5 2)). unfold interval_fits, uint, is_byte, uint. lia.
  - apply (shows_date _ _ 2024 2 29 23 59 58 (str "MI:SS" ++ [0])); try lia; [reflexivity..|apply sample_format].
Qed.

Lemma rows_delivered_witness : exists res m',
  mthd_my_read_rows (H := NetPackets.net_packets (fun _ _ => None) 1000) 5 (fun _ => true) sample_connection (Some sample_fields) 5
    = Ret (Some res, Some [Field 253 3; Field MYSQL_TYPE_OB_RAW 4; Field MYSQL_TYPE_OB_INTERVAL_YM 6; Field MYSQL_TYPE_DATETIME 5; Field 253 0], m')
  /\ Forall2 row_stored sample_texts res /\ warning_count m' = 1 /\ server_status m' = 2.
Proof.
  destruct (rows_delivered (H0 := NetPackets.net_packets_laws (fun _ _ => None) 1000) (fun _ => true) sample_connection sample_fields sample_rows
    sample_texts 1 2 5) as (res & m' & E & Hres & _ & Hw & Hs & _).
  - apply sample_queued.
  - apply sample_shown.
  - repeat (constructor; [split; vm_compute; reflexivity|]). constructor.
  - discriminate.
  - reflexivity.
  - unfold uint. lia.
  - unfold uint. lia.
  - reflexivity.
  - simpl. lia.
  - exists res, m'. split; [exact E|]. split; [exact Hres|]. split; [exact Hw|exact Hs].
Defined.

End TextResult.
