(* ===== verification/TextFetch.v ===== *)
(** Rows read one at a time, mthd_my_read_one_row of libmariadb/mariadb_lib.c: outside Oracle mode
    the columns stay in the packet buffer and are ended by NULs over the lengths that follow
    them; in Oracle mode they are converted into a buffer of the connection.  Either way the
    rows of a result come in order and with the texts that were sent ([rows_fetched]). *)

From stdpp Require Import tactics.
From S2P Require Import Prelude IntStore Uuid NumText LenEnc StmtTime TimeText OracleTime StmtFetch StmtFloat StmtOracle OracleFormat OracleText TextTime Net NetPlain TextRow NetPackets TextResult.
Import Uuid NumText LenEnc StmtTime TimeText OracleTime StmtOracle OracleFormat OracleText TextTime TextRow TextResult.

Module TextFetch.

(** * Columns in the packet buffer *)

Lemma text_at_kept mem mem' p t :
  text_at mem p t -> (forall i, p <= i < p + Z.of_nat (length t) -> load mem' i = load mem i) -> text_at mem' p t.
Proof.
  revert p. induction t as [|c t IH]; intros p Ht Hk; [done|]. apply text_at_cons in Ht as [Hc Ht]. apply text_at_cons. cbn [length] in Hk.
  split; [rewrite Hk by lia; done|]. apply IH; [done|]. intros i Hi. apply Hk. lia.
Qed.

(** The NUL behind a column; before the first one there is none. *)
Definition end_column (mem : bytes) (prev_pos : option Z) : cres bytes :=
  match prev_pos with Some p => store mem p 0 | None => Ret mem end.

Lemma end_column_ok mem pos prev c : load mem pos = Ret c -> prev = None \/ prev = Some pos ->
  exists mem', end_column mem prev = Ret mem' /\ length mem' = length mem
    /\ (prev = Some pos -> load mem' pos = Ret 0) /\ forall i, i <> pos -> load mem' i = load mem i.
Proof.
  intros Hc [->| ->]; [by exists mem|]. apply load_Ret in Hc as [Hpos _]. cbn [end_column]. rewrite store_in by done.
  eexists. split; [done|]. rewrite length_insert. split; [done|]. split.
  - intros _. apply load_lookup; [lia|]. rewrite list_lookup_insert_eq by lia. done.
  - intros i Hi. unfold load. destruct (Z.ltb_spec i 0); [done|]. rewrite list_lookup_insert_ne by lia. done.
Qed.

(** All columns end up in the buffer with their NULs; before them nothing changes. *)
Lemma in_place_row vs : forall mem end_pos pos prev,
  text_at mem pos (row_packet vs ++ [0]) -> end_pos = pos + Z.of_nat (length (row_packet vs)) ->
  Z.of_nat (length (row_packet vs)) < 2 ^ 30 -> prev = None /\ vs <> [] \/ prev = Some pos ->
  exists mem1 mem2 ps ls, in_place mem end_pos (length vs) pos prev = Ret (mem1, (true, ps, ls, Some end_pos))
    /\ store mem1 end_pos 0 = Ret mem2 /\ length mem1 = length mem /\ length mem2 = length mem
    /\ (forall i, i < pos -> load mem2 i = load mem i) /\ (prev = Some pos -> load mem2 pos = Ret 0) /\ cells mem2 vs ps ls.
Proof.
  induction vs as [|v vs IH]; intros mem end_pos pos prev Ht -> Hl Hprev.
  { destruct Hprev as [[_ ?]| ->]; [done|]. cbn [row_packet map concat app length] in *. rewrite Z.add_0_r. apply text_at_cons in Ht as [Hc _].
    destruct (end_column_ok mem pos (Some pos) 0 Hc ltac:(by right)) as (mem2 & E & El & E0 & Ek).
    exists mem, mem2, [], []. split_and!; try done. intros i Hi. apply Ek. lia. }
  assert (prev = None \/ prev = Some pos) as Hpp by naive_solver. clear Hprev.
  rewrite row_packet_cons in Ht.
  assert (exists c, load mem pos = Ret c) as (c & Hc).
  { destruct v as [w|]; cbn [encode_value app] in Ht; [|apply text_at_cons in Ht as [Hc _]; eauto].
    pose proof (lenenc_pos (Z.of_nat (length w))). destruct (lenenc (Z.of_nat (length w))); [simpl in *; lia|]. cbn [app] in Ht. apply text_at_cons in Ht as [Hc _]. eauto. }
  destruct (end_column_ok mem pos prev c Hc Hpp) as (mem' & E & El & E0 & Ek). unfold end_column in E.
  assert (length (row_packet (v :: vs)) = length (encode_value v) + length (row_packet vs))%nat as Er
    by (unfold row_packet; cbn [map concat]; apply length_app). rewrite Er in *. cbn [in_place length].
  destruct v as [w|].
  - assert (length (encode_value (Some w)) = length (lenenc (Z.of_nat (length w))) + length w)%nat as Ee by (cbn [encode_value]; apply length_app). rewrite Ee in *.
    pose proof (lenenc_pos (Z.of_nat (length w))). destruct (value_read mem pos w _ ltac:(lia) Ht) as (-> & Hw & En). rewrite bind_ret, En. cbn [negb andb].
    set (pos' := pos + Z.of_nat (length (lenenc (Z.of_nat (length w))))) in *.
    replace (pos + Z.of_nat (length (lenenc (Z.of_nat (length w))) + length w + length (row_packet vs)))
      with (pos' + Z.of_nat (length w) + Z.of_nat (length (row_packet vs))) by lia.
    rewrite wrap_small by (unfold uint; lia). rewrite !Z.gtb_ltb, !(proj2 (Z.ltb_ge _ _)) by lia. cbn [orb]. rewrite E, bind_ret.
    assert (text_at mem' pos' (w ++ row_packet vs ++ [0])) as Hw' by (eapply text_at_kept; [exact Hw|]; intros i Hi; apply Ek; lia).
    apply text_at_app in Hw' as [Hw1 Hw2].
    destruct (IH mem' _ (pos' + Z.of_nat (length w)) (Some (pos' + Z.of_nat (length w))) Hw2 eq_refl) as (mem1 & mem2 & ps & ls & -> & Es & L1 & L2 & Hk & H0 & Hcs); [lia|by right|].
    rewrite bind_ret. eexists mem1, mem2, _, _. split_and!; [done|done|congruence|congruence| | |].
    + intros i Hi. rewrite Hk by lia. apply Ek. lia.
    + intros ->. rewrite Hk by lia. by apply E0.
    + split; [|done]. split; [done|]. apply text_at_app. split.
      * eapply text_at_kept; [exact Hw1|]. intros i Hi. apply Hk. lia.
      * apply text_at_cons. split; [by apply H0|done].
  - destruct (null_read mem pos _ Ht) as (-> & Hw). rewrite bind_ret, Z.eqb_refl. cbn [negb andb]. rewrite E, bind_ret.
    assert (text_at mem' (pos + 1) (row_packet vs ++ [0])) as Hw' by (eapply text_at_kept; [exact Hw|]; intros i Hi; apply Ek; lia).
    cbn [encode_value length] in *. replace (pos + Z.of_nat (1 + length (row_packet vs))) with (pos + 1 + Z.of_nat (length (row_packet vs))) by lia.
    destruct (IH mem' _ (pos + 1) (Some (pos + 1)) Hw' eq_refl) as (mem1 & mem2 & ps & ls & -> & Es & L1 & L2 & Hk & H0 & Hcs); [lia|by right|].
    rewrite bind_ret. eexists mem1, mem2, _, _. split_and!; [done|done|congruence|congruence| | |].
    + intros i Hi. rewrite Hk by lia. apply Ek. lia.
    + intros ->. rewrite Hk by lia. by apply E0.
    + by split.
Qed.

(** * The rows of a result *)

Definition one_shows (oracle : bool) (f : nls_formats) (types : list Z) (vs ts : list (option bytes)) : Prop :=
  if oracle then row_shows true f types vs ts else ts = vs /\ length vs = length types.

(** The row that a call returned has the texts. *)
Definition fetched (ts : list (option bytes)) (r : one_row) : Prop :=
  ret r = 0 /\ exists ps extra, row r = ps ++ extra /\ cells (row_mem r) ts ps (lengths r).

Section Fetch.
Context {S : Type} `{PacketReaderLaws S}.

(** The fields as they are after the rows: the longest lengths are set in Oracle mode only. *)
Definition fields_after (oracle : bool) (fs : list MYSQL_FIELD) (texts : list (list (option bytes))) : list MYSQL_FIELD :=
  if oracle then fold_left (zip_with widen) texts fs else fs.

Lemma fields_kept oracle fs ts : length ts = length fs ->
  map type (fields_after oracle fs [ts]) = map type fs /\ length (fields_after oracle fs [ts]) = length fs.
Proof. intros Hl. unfold fields_after. destruct oracle; [|done]. by apply widen_types. Qed.

Lemma one_row_converted junk (m : MYSQL (S := S)) fs vs ts ms :
  holding (row_packet vs) ms m -> row_shows true (nls m) (map type fs) vs ts -> row_small (length fs) vs ts -> fs <> [] -> ext_pkt_len m = 0 ->
  exists len out to d l,
    row_length true (nls m) (net_buff (net m)) (net_read_pos (net m)) (take (length fs) (type <$> fs)) (Z.of_nat (length (row_packet vs))) = Ret len
    /\ read_one_row_ob_extension_buffer_check true junk m (len + Z.of_nat (length fs)) = (0, set_pkt_buffer m (resize junk (len + Z.of_nat (length fs)) (pkt_buffer m)))
    /\ copy_fields (one_too_long (len + Z.of_nat (length fs) - 1)) true (nls m) (net_buff (net m)) (len + Z.of_nat (length fs) - 1) (length fs) (Some fs)
         (net_read_pos (net m)) (resize junk (len + Z.of_nat (length fs)) (pkt_buffer m)) 0
       = Ret (Copied out to (net_read_pos (net m) + Z.of_nat (length (row_packet vs))) d l, Some (zip_with widen fs ts))
    /\ cells out ts d l.
Proof.
  intros (Ht & _ & Hb) Hs (Hsm1 & Hsm2) Hne Hext.
  pose proof (total_packet vs). pose proof (total_nonneg vs). pose proof (total_nonneg ts). pose proof (widths_nonneg true (map type fs) vs ts).
  assert (0 < length fs)%nat by (destruct fs; [done|simpl; lia]).
  destruct (row_shows_length _ _ _ _ _ Hs) as [Hlv _]. rewrite length_map in Hlv.
  rewrite take_ge by (rewrite length_fmap; lia). change (type <$> fs) with (map type fs).
  destruct (row_reserved true (nls m) (map type fs) vs ts _ _ 0 (Z.of_nat (length (row_packet vs))) Hs Ht) as (L & -> & HL);
    [lia|rewrite length_map; lia|]. rewrite length_map in HL. set (size := L + Z.of_nat (length fs)) in *.
  destruct (row_copied (one_too_long (size - 1)) true (nls m) (net_buff (net m)) size fs vs ts (net_read_pos (net m)) 0
    (resize junk size (pkt_buffer m)) 0) as (out & to & ps & ls & E & Hl & Hc & Hto & _); try done; [|apply length_resize; lia|lia|lia|].
  - intros ty w s to Hsh Hto Hfit. unfold one_too_long. destruct (time_column true ty) eqn:Et; [by rewrite andb_false_r|].
    unfold time_width in Hfit. rewrite Et in Hfit. apply andb_false_iff. left. rewrite Z.gtb_ltb, Z.ltb_ge.
    rewrite wrap_small by (unfold uint; lia). lia.
  - exists L, out, to, ps, ls. split_and!; [done| |exact E|done].
    unfold read_one_row_ob_extension_buffer_check. rewrite Hext, (proj2 (Z.eqb_neq _ 0)), (proj2 (Z.ltb_lt _ _)) by lia. done.
Qed.

(** The next row. *)
Lemma row_fetched junk (m : MYSQL (S := S)) fs vs ts ms :
  queued (row_packet vs :: ms) (net m) -> one_shows (oracle_mode m) (nls m) (map type fs) vs ts -> row_small (length fs) vs ts -> fs <> [] ->
  connected m = true -> ext_pkt_len m = 0 ->
  exists r m', mthd_my_read_one_row true junk m (Some fs) (length fs) = Ret (r, Some (fields_after (oracle_mode m) fs [ts]), m')
    /\ fetched ts r /\ queued ms (net m') /\ same_session m m' /\ ext_pkt_len m' = 0.
Proof.
  intros Hq Hs Hsm Hne Hcon Hext.
  assert (length vs = length fs) as Hlen.
  { unfold one_shows in Hs. case_match; [apply row_shows_length in Hs as [E _]|destruct Hs as [_ E]]; by rewrite length_map in E. }
  destruct (first_byte vs) as (b & rest & Eb & Hb & H254); [by intros ->; destruct fs|apply Hsm|].
  destruct (safe_read m _ ms b rest Hcon Hq Eb Hb) as (m1 & E1 & Hh & Hsame). pose proof Hh as (Ht & Hq1 & Hby).
  pose proof Hsame as (_ & _ & Eo & En & Ee). rewrite <- Eo, <- En in Hs. rewrite <- Eo.
  unfold mthd_my_read_one_row. rewrite E1, bind_ret.
  destruct (queued_small _ _ _ Hq) as [_ Hpl]. rewrite (proj2 (Z.eqb_neq _ packet_error)) by (unfold packet_error; lia).
  pose proof Ht as Hc. rewrite Eb in Hc. apply text_at_cons in Hc as [Hc _]. rewrite Hc, bind_ret.
  assert ((Z.of_nat (length (row_packet vs)) <=? 8) && (b =? 254) = false) as ->.
  { apply andb_false_iff. rewrite Z.eqb_neq, Z.leb_gt. destruct (Z.eq_dec b 254) as [E|]; [left; auto|by right]. }
  destruct (oracle_mode m1) eqn:Hmode; cbn [one_shows fields_after fold_left] in *.
  - destruct (one_row_converted junk m1 fs vs ts ms Hh Hs Hsm Hne ltac:(congruence)) as (len & out & to & d & l & E2 & E3 & E & Hcells).
    rewrite E2, bind_ret, E3. cbn [nonzero Z.eqb negb]. cbn [nls pkt_buffer set_pkt_buffer]. rewrite E, bind_ret.
    eexists _, _. split; [done|]. split_and!; [|exact Hq1|exact Hsame|cbn; congruence].
    split; [done|]. exists d, []. by rewrite app_nil_r.
  - destruct Hs as [-> _].
    destruct (in_place_row vs (net_buff (net m1)) _ (net_read_pos (net m1)) None Ht eq_refl) as (mem1 & mem2 & ps & ls & E & Est & L1 & L2 & _ & _ & Hcells);
      [lia|left; split; [done|by intros ->; destruct fs]|].
    rewrite Hlen in E. rewrite E, bind_ret. cbn [of_option negb]. rewrite bind_ret, Est, bind_ret.
    eexists _, _. split; [done|]. split_and!; [|by apply queued_set_buff|exact Hsame|cbn; congruence].
    split; [done|]. by eexists ps, _.
Qed.

(** The end of the result. *)
Lemma end_fetched junk (m : MYSQL (S := S)) fields n warnings status ms :
  queued (eof_packet warnings status :: ms) (net m) -> connected m = true -> uint 16 warnings -> uint 16 status ->
  exists r m', mthd_my_read_one_row true junk m fields n = Ret (r, fields, m') /\ ret r = 1
    /\ queued ms (net m') /\ same_session m m' /\ warning_count m' = warnings /\ server_status m' = status.
Proof.
  intros Hq Hcon Hw Hst. destruct (safe_read m _ ms 254 _ Hcon Hq eq_refl ltac:(done)) as (m1 & E1 & (Ht & Hq1 & _) & Hsame).
  unfold mthd_my_read_one_row. rewrite E1, bind_ret.
  destruct (eof_reads _ _ warnings status Ht Hw Hst) as (Hc & G1 & G2).
  assert (Z.of_nat (length (eof_packet warnings status)) = 5) as -> by done. rewrite Hc, bind_ret.
  cbn [Z.eqb Pos.eqb packet_error Z.leb Z.compare Pos.compare Pos.compare_cont andb]. rewrite G1, bind_ret, G2, bind_ret.
  eexists _, _. split; [done|]. done.
Qed.

(** What a client does with a result it does not store: it reads until there is no more row.  The
    rows are taken as they are when they are returned. *)
Fixpoint fetch_rows (fuel : nat) (junk : Z) (m : MYSQL (S := S)) (fields : option (list MYSQL_FIELD)) (n : nat)
    : cres (list one_row * Z * option (list MYSQL_FIELD) * MYSQL) :=
  '(r, fields, m) ← mthd_my_read_one_row true junk m fields n;
  if ret r =? 0 then
    match fuel with
    | O => OutOfFuel
    | Datatypes.S fuel =>
        '(rs, last, fields, m) ← fetch_rows fuel junk m fields n;
        Ret (r :: rs, last, fields, m)
    end
  else Ret ([], ret r, fields, m).

(** C15: a result that the server sends as one packet per row and a packet for the end is read
    row by row by mthd_my_read_one_row: every call gives the next row, with NULL or a pointer
    to a text with a NUL behind it and its length for every column, and the call after the
    last row returns 1 with the warning count and the server status set.  The text is the
    column itself, in place in the packet buffer; in Oracle mode it is the converted text as
    for results that are stored, in a buffer of the connection. *)
Theorem rows_fetched fuel junk (m : MYSQL (S := S)) fs rows texts warnings status :
  queued (map row_packet rows ++ [eof_packet warnings status]) (net m) ->
  Forall2 (one_shows (oracle_mode m) (nls m) (map type fs)) rows texts -> Forall2 (row_small (length fs)) rows texts ->
  fs <> [] -> connected m = true -> uint 16 warnings -> uint 16 status -> ext_pkt_len m = 0 -> (length rows <= fuel)%nat ->
  exists rs m', fetch_rows fuel junk m (Some fs) (length fs) = Ret (rs, 1, Some (fields_after (oracle_mode m) fs texts), m')
    /\ Forall2 fetched texts rs /\ same_session m m' /\ warning_count m' = warnings /\ server_status m' = status /\ queued [] (net m').
Proof.
  revert fuel m fs texts. induction rows as [|vs rows IH]; intros fuel m fs texts Hq Hs Hsm Hne Hcon Hw Hst Hext Hfuel.
  - inversion Hs; subst. destruct (end_fetched junk m (Some fs) (length fs) warnings status [] Hq Hcon Hw Hst) as (r & m' & E & Hr & Hq' & Hsame & Hw' & Hs').
    exists [], m'. split_and!; try done. unfold fields_after. cbn [fold_left]. 
    destruct fuel; cbn [fetch_rows]; rewrite E, bind_ret, Hr; by destruct (oracle_mode m).
  - inversion Hs as [|? ts ? texts' Hrow Hrows]; subst. inversion Hsm as [|? ? ? ? Hsmall Hsmalls]; subst.
    destruct fuel as [|fuel]; [simpl in Hfuel; lia|].
    destruct (row_fetched junk m fs vs ts _ Hq Hrow Hsmall Hne Hcon Hext) as (r & m1 & E & Hr & Hq1 & Hsame & Hext1).
    assert (length ts = length fs) as Hlt.
    { unfold one_shows in Hrow. case_match; [apply row_shows_length in Hrow as [_ El]|destruct Hrow as [-> El]]; by rewrite length_map in El. }
    destruct (fields_kept (oracle_mode m) fs ts Hlt) as [Et El]. pose proof Hsame as (Econ & _ & Eo & En & _).
    destruct (IH fuel m1 (fields_after (oracle_mode m) fs [ts]) texts') as (rs & m' & E' & Hrs & Hsame' & Hw' & Hs' & Hq'); try done.
    { by rewrite Eo, En, Et. }
    { by rewrite El. }
    { intros E0. rewrite E0 in El. by destruct fs. }
    { congruence. }
    { simpl in Hfuel. lia. }
    exists (r :: rs), m'. cbn [fetch_rows]. rewrite E, bind_ret. destruct Hr as [Hr0 Hr]. rewrite Hr0, Z.eqb_refl. rewrite El in E'. rewrite E', bind_ret.
    split_and!; try done; [|by constructor|by eapply same_session_trans].
    rewrite Eo. unfold fields_after. by destruct (oracle_mode m).
Qed.

End Fetch.

(** The same packets, read outside Oracle mode: the columns are as they were sent. *)
Definition plain_connection : MYSQL (S := Net.NET) := Mysql sample_net true None 0 0 false sample_nls [] 0.

Lemma rows_fetched_witness :
  (exists rs m', fetch_rows (H := NetPackets.net_packets (fun _ _ => None) 1000) 5 77 sample_connection (Some sample_fields) 5
    = Ret (rs, 1, Some [Field 253 3; Field MYSQL_TYPE_OB_RAW 4; Field MYSQL_TYPE_OB_INTERVAL_YM 6; Field MYSQL_TYPE_DATETIME 5; Field 253 0], m')
    /\ Forall2 fetched sample_texts rs)
  /\ exists rs m', fetch_rows (H := NetPackets.net_packets (fun _ _ => None) 1000) 5 77 plain_connection (Some sample_fields) 5
    = Ret (rs, 1, Some sample_fields, m') /\ Forall2 fetched sample_rows rs.
Proof.
  split.
  - destruct (rows_fetched (H0 := NetPackets.net_packets_laws (fun _ _ => None) 1000) 5 77 sample_connection sample_fields sample_rows
      sample_texts 1 2) as (rs & m' & E & Hrs & _); [apply sample_queued|apply sample_shown|
      repeat (constructor; [split; vm_compute; reflexivity|]); constructor|discriminate|reflexivity|unfold uint; lia|unfold uint; lia|reflexivity|simpl; lia|].
    exists rs, m'. split; [exact E|exact Hrs].
  - destruct (rows_fetched (H0 := NetPackets.net_packets_laws (fun _ _ => None) 1000) 5 77 plain_connection sample_fields sample_rows
      sample_rows 1 2) as (rs & m' & E & Hrs & _); [apply sample_queued|repeat (constructor; [split; reflexivity|]); constructor|
      repeat (constructor; [split; vm_compute; reflexivity|]); constructor|discriminate|reflexivity|unfold uint; lia|unfold uint; lia|reflexivity|simpl; lia|].
    exists rs, m'. split; [exact E|exact Hrs].
Defined.

End TextFetch.
