(* ===== verification/NetPacked.v ===== *)
(** Reading on connections with compression or the 2.0 protocol (libmariadb/ma_net.c): what
    both share, from the packet that ma_real_read stores to the message that ma_net_read
    returns. *)

From stdpp Require Import tactics gmap.
From S2P Require Import Prelude IntStore Serialize Protocol20 Net NetPlain NetRead.
Import Serialize Protocol20 Net NetPlain NetRead.

Module NetPacked.

(** The transport apart from its allocations. *)
Definition same_io (p q : Pvio) : Prop :=
  sent q = sent p /\ accept q = accept p /\ arriving q = arriving p /\ cached q = cached p.

Lemma alloc_ok p :
  Forall (eq true) (allocs p) -> exists q, alloc p = (true, q) /\ same_io p q /\ Forall (eq true) (allocs q).
Proof.
  unfold alloc. destruct (allocs p) as [|[] bs] eqn:E; intros Ha.
  - exists p. by rewrite E.
  - apply Forall_cons in Ha as [_ Ha]. by eexists.
  - by apply Forall_cons in Ha as [? _].
Qed.

Lemma send_all net packet :
  Forall (Z.lt 0) (accept (pvio net)) ->
  exists p, send net packet = Ret (0, set_reading_or_writing (set_pvio net p) 0) /\ sent p = sent (pvio net) ++ packet.
Proof.
  intros Hacc. unfold send. destruct (write_loop_ok (length packet) packet (pvio net) Hacc) as (ks & -> & _); [done|].
  rewrite bind_ret. by eexists.
Qed.

Lemma memmove_ok b dst src n d :
  0 <= n -> load_bytes b src (Z.to_nat n) = Ret d -> all_bytes d -> room b dst (Z.to_nat n) ->
  memmove b dst src n = Ret (splice dst d b).
Proof.
  intros Hn Hl Hd Hr. pose proof (load_bytes_length _ _ _ _ Hl) as L. unfold memmove.
  destruct (Z.ltb_spec n 0); [lia|]. rewrite Hl, bind_ret, store_bytes_splice, map_u8_bytes by (done || by rewrite L). done.
Qed.

(** Reading one packet with the headers of a compressed connection into [where_b], when
    the buffer is large enough. *)
Lemma real_read_packed net nr complen body rest :
  let len := Z.of_nat (length body) in
  compress net = true -> pieces (pvio net) -> all_bytes body -> 0 <= where_b net -> 0 < len <= MAX_PACKET_LENGTH ->
  uint 24 complen -> where_b net + Z.max len complen < max_packet net <= Z.of_nat (length (buff net)) ->
  where_b net + 7 <= Z.of_nat (length (buff net)) ->
  incoming (pvio net) = (net_image len nr complen ++ body) ++ rest ->
  exists p' b, ma_real_read net =
    Ret (len, complen, set_reading_or_writing (set_pvio (set_buff (set_compress_pkt_nr (set_pkt_nr net
      (u32 (u8 nr + 1))) (u32 (u8 nr + 1))) (splice (where_b net) body b)) p') 0) /\
    length b = length (buff net) /\ incoming p' = rest /\ pieces p' /\ allocs p' = allocs (pvio net).
Proof.
  intros len Hc Hp Hb Hw Hlen Hcl Hroom Hhead Hin. unfold ma_real_read. cbv zeta.
  change (compress (set_reading_or_writing net 1)) with (compress net). rewrite Hc.
  change (where_b (set_reading_or_writing net 1)) with (where_b net).
  change (NET_HEADER_SIZE + COMP_HEADER_SIZE) with (Z.of_nat (length (net_image len nr complen))).
  rewrite <- app_assoc in Hin.
  destruct (read_loop_full (Z.to_nat (Z.of_nat (length (net_image len nr complen)))) (set_reading_or_writing net 1)
    (where_b net) (net_image len nr complen) (body ++ rest)) as (p1 & -> & Hin1 & Hp1 & Ha1);
    [done|done|apply net_image_bytes|split; [done|rewrite length_net_image; simpl; unfold len in *; lia]|lia|].
  rewrite bind_ret. cbn [negb]. cbv iota. set (b1 := splice _ _ _).
  assert (length b1 = length (buff net)) as L1 by (apply length_splice; split; [done|rewrite length_net_image; simpl; unfold len in *; lia]).
  assert (load_bytes b1 (where_b net) (length (net_image len nr complen)) = Ret (net_image len nr complen)) as Hl.
  { apply load_bytes_splice. split; [done|]. rewrite length_net_image. simpl. unfold len in *. lia. }
  unfold net_image in Hl. apply load_bytes_app in Hl as [Hl3 Hl4]. apply load_bytes_app in Hl4 as [Hl4 Hl5].
  apply uint3korr_load in Hl3, Hl5; [|apply le_bytes_bytes..]. rewrite le_val_le_bytes in Hl3, Hl5.
  change (8 * Z.of_nat 3) with 24 in Hl3, Hl5. rewrite (wrap_small 24 complen) in Hl5 by done.
  rewrite (wrap_small 24 len) in Hl3 by (unfold MAX_PACKET_LENGTH, uint in *; lia).
  rewrite !length_le_bytes in Hl4, Hl5.
  replace (where_b net + Z.of_nat 3 + Z.of_nat 1) with (where_b net + 4) in Hl5 by lia.
  change (Z.of_nat 3) with 3 in Hl4. cbn [load_bytes] in Hl4. apply bind_Ret_inv in Hl4 as (nrb & Hnr & E).
  rewrite bind_ret in E. injection E as ->.
  set (n1 := set_pvio _ p1). change (buff n1) with b1. change (where_b n1) with (where_b net). rewrite Hnr, bind_ret.
  set (n2 := set_compress_pkt_nr _ _). change (compress n2) with (compress net). rewrite Hc.
  change (buff n2) with b1. change (where_b n2) with (where_b net). change NET_HEADER_SIZE with 4.
  rewrite Hl5, bind_ret, Hl3, bind_ret. destruct (Z.eqb_spec len 0); [lia|].
  change (max_packet n2) with (max_packet net).
  destruct (Z.geb_spec (Z.max len complen + where_b net) (max_packet net)); [lia|]. cbn [negb Z.eqb]. cbv iota.
  change (where_b n2) with (where_b net).
  destruct (read_loop_full (Z.to_nat len) n2 (where_b net) body rest) as (p2 & E2 & Hin2 & Hp2 & Ha2);
    [done|done|done|split; [done|change (buff n2) with b1; unfold len in *; lia]|unfold len; lia|].
  fold len in E2. rewrite E2, bind_ret. cbn [negb]. cbv iota. exists p2, b1. split; [done|].
  split; [done|]. split; [done|]. split; [done|]. rewrite Ha2. exact Ha1.
Qed.

(** A MySQL packet alone in the buffer is found by the scan. *)
Lemma scan_found zu rounds fuel net nr0 data :
  let n := Z.of_nat (length data) in
  n < MAX_PACKET_LENGTH -> load_bytes (buff net) 0 (length (packet_image nr0 data)) = Ret (packet_image nr0 data) ->
  scan_loop zu (S rounds) fuel net (MkScan (n + 4) 0 0 false) = Ret (true, MkScan (n + 4) (n + 4) 0 false, net).
Proof.
  intros n Hn Hl. unfold packet_image in Hl. apply load_bytes_app in Hl as [Hl _].
  apply uint3korr_load in Hl; [|apply le_bytes_bytes]. rewrite le_val_le_bytes in Hl. fold n in Hl.
  rewrite (wrap_small (8 * Z.of_nat 3) n) in Hl by (unfold MAX_PACKET_LENGTH, uint in *; change (8 * Z.of_nat 3) with 24; unfold n; lia).
  cbn [scan_loop]. rewrite Z.sub_0_r. rewrite (wrap_small 64 (n + 4)) by (unfold MAX_PACKET_LENGTH, uint in *; unfold n; lia).
  destruct (Z.geb_spec (n + 4) 4); [|unfold n in *; lia]. rewrite Hl, bind_ret.
  destruct (Z.eqb_spec n 0) as [->|]; [done|]. destruct (Z.leb_spec (n + 4) (n + 4)); [|lia].
  cbn [negb]. rewrite bind_ret. destruct (Z.eqb_spec n MAX_PACKET_LENGTH); [lia|]. done.
Qed.

(** The end of ma_net_read once the scan has found a message at the start of the buffer. *)
Lemma read_packed_found zu packets rounds fuel net n1 nr0 payload :
  let data := packet_image nr0 payload in
  let len := Z.of_nat (length data) in
  compress net = true -> remain_in_buf net = 0 -> len < 2 ^ 64 -> len < Z.of_nat (length (buff n1)) ->
  scan_loop zu rounds fuel net (MkScan 0 0 0 false) = Ret (true, MkScan len len 0 false, n1) ->
  load_bytes (buff n1) 0 (length data) = Ret data ->
  exists net', ma_net_read zu packets rounds fuel net = Ret (Z.of_nat (length payload), net') /\
    NetRead.payload net' (Z.of_nat (length payload)) = Ret (payload ++ [0]) /\ incoming (pvio net') = incoming (pvio n1).
Proof.
  intros data len Hc Hi H64 Hroom Hs Hl. unfold ma_net_read. rewrite Hc. unfold read_packed. rewrite Hi.
  cbn [Z.eqb]. cbv iota. rewrite bind_ret, Hs, bind_ret. cbn [negb buffer_length current start is_multi_packet].
  cbv iota zeta. set (n := Z.of_nat (length payload)).
  assert (len = n + 4) as Elen by (unfold len, data, packet_image, n; rewrite !length_app, !length_le_bytes; lia).
  assert (u64 (len - 0 - 4) = n) as ->.
  { rewrite wrap_small; [lia|]. unfold uint, n in *. lia. }
  change (0 + 4) with 4. set (n2 := set_read_pos _ 4). change (buff n2) with (buff n1). change (read_pos n2) with 4.
  destruct (load_in (buff n1) (4 + n)) as (c & Hc4 & _); [unfold n in *; lia|]. rewrite Hc4, bind_ret.
  set (n3 := set_save_char n2 c). change (buff n3) with (buff n1). change (read_pos n3) with 4.
  assert (room (buff n1) (4 + n) 1) as Hr by (split; unfold n in *; simpl; lia).
  rewrite store_byte_splice, bind_ret by done. change (le_bytes 1 0) with [0].
  eexists. split; [reflexivity|]. split; [|done].
  unfold NetRead.payload. cbn [read_pos buff set_buff].
  change (read_pos n3) with 4. unfold n. rewrite Nat2Z.id.
  replace (S (length payload)) with (length (payload ++ [0])) by (rewrite length_app; simpl; lia).
  apply load_bytes_app. split.
  - rewrite load_bytes_splice_out by (done || (left; unfold n; lia)).
    unfold data, packet_image in Hl. rewrite app_assoc in Hl. apply load_bytes_app in Hl as [_ Hl].
    rewrite length_app, !length_le_bytes in Hl. exact Hl.
  - by apply (load_bytes_splice (4 + n) [0]).
Qed.

End NetPacked.
