(* ===== verification/Net20.v ===== *)
(** The 2.0 protocol in libmariadb/ma_net.c: the packet that ma_net_real_write builds,
    what ma_net_read makes of it, and damage that its checksums detect. *)

From stdpp Require Import tactics gmap.
From S2P Require Import Prelude IntStore Serialize MaList FltCodec Trace CrcBits Crc16 Crc32 Protocol20 Net NetPlain NetRead NetPacked.
Import Serialize MaList FltCodec Crc16 Crc32 Protocol20 Net NetPlain NetRead NetPacked.

Module Net20.

(** * The packet on the wire *)

(** The header of a packet without extra information. *)
Definition plain_header (h : Ob20ProtocolHeader) (len : Z) : Ob20ProtocolHeader :=
  Build_Ob20ProtocolHeader (magic_num h) (version h) (connection_id h) (request_id h) (pkt_seq h) len
    (flags_plain (flags h)) (reserved h) (header_checksum h).

Definition ob20_image (h : Ob20ProtocolHeader) (nr : Z) (data : bytes) : bytes :=
  let len := Z.of_nat (length data) in
  header_image (len + 28) nr 0 (plain_header h len) ++ data ++ le_bytes 4 (crc32_ref 0 data).

(** The write buffer has the length noted for it. *)
Definition buffer_ok (p : Ob20Protocol) : Prop :=
  real_write_buffer_length p = Z.of_nat (length (default [] (real_write_buffer p))) /\
  (real_write_buffer p = None -> real_write_buffer_length p = 0).

Lemma no_extra fuel s :
  extra_list (prot s) = NULL ->
  get_protocol20_extra_info_length fuel s = Ret (0, set_prot s (set_extra (prot s) NULL NULL)).
Proof.
  intros E. unfold get_protocol20_extra_info_length. rewrite E.
  assert (length_loop fuel s 0 NULL = Ret 0) as -> by (by destruct fuel). by rewrite bind_ret.
Qed.

(** The writes of ob20_packet behind its header, then the header. *)
Lemma image_spliced (img data tail b : bytes) :
  length img = 31%nat -> (31 + length data + length tail <= length b)%nat ->
  splice 0 img (splice (31 + Z.of_nat (length data)) tail (splice 31 data b)) = splice 0 (img ++ data ++ tail) b.
Proof.
  intros Li Lb. rewrite splice_app by (split; rewrite ?length_app; lia).
  pose proof (splice_app_before 0 img (data ++ tail) b) as H. rewrite Li in H. apply H.
  split; [lia|]. rewrite !length_app. lia.
Qed.

(** What building a packet leaves in the connection. *)
Definition packet_built (net net' : NET) (h : Ob20ProtocolHeader) : Prop :=
  same_io (pvio net) (pvio net') /\
  (exists q b n, ob20 net' = Some q /\ header (prot q) = h /\ extra_list (prot q) = NULL /\
     real_write_buffer (prot q) = Some b /\ real_write_buffer_length (prot q) = n /\ n = Z.of_nat (length b)) /\
  compress_pkt_nr net' = u32 (compress_pkt_nr net + 1).

Lemma buffer_ready net s n :
  buffer_ok (prot s) -> Forall (eq true) (allocs (pvio net)) -> 0 < n ->
  exists p b,
  ready_write_buffer net s n =
  (true, set_pvio net p, set_prot s (set_write_buffer (prot s) (Some b) (Z.of_nat (length b)))) /\
  same_io (pvio net) p /\ n <= Z.of_nat (length b).
Proof.
  intros [Hl Hn] Ha H0. unfold ready_write_buffer. destruct (Z.ltb_spec (real_write_buffer_length (prot s)) n).
  - destruct (alloc_ok _ Ha) as (q & -> & Hq & _). exists q, (resize (junk q) n (default [] (real_write_buffer (prot s)))).
    rewrite length_resize by lia. split; [done|]. split; [done|lia].
  - destruct (real_write_buffer (prot s)) as [b|] eqn:Eb; [|specialize (Hn eq_refl); lia].
    exists (pvio net), b. simpl in Hl. rewrite <- Hl. split; [|split; [done|lia]].
    destruct net, s as [[]]. simpl in *. by subst.
Qed.

Lemma ob20_packet_ok fuel net s data :
  extra_list (prot s) = NULL -> buffer_ok (prot s) -> Forall (eq true) (allocs (pvio net)) ->
  all_bytes data -> Z.of_nat (length data) <= MAX_PACKET_LENGTH_WITH_OB20 ->
  let len := Z.of_nat (length data) in
  let h := plain_header (header (prot s)) len in
  exists net', ob20_packet fuel net s data = Ret (0, net', ob20_image (header (prot s)) (compress_pkt_nr net) data) /\
    packet_built net net' (Build_Ob20ProtocolHeader (magic_num h) (version h) (connection_id h) (request_id h)
      (u8 (compress_pkt_nr net)) len (flags h) (reserved h) (header_crc (len + 28) (compress_pkt_nr net) 0 h)).
Proof.
  intros Hx Hb Ha Hd Hl len h. unfold ob20_packet. fold len. rewrite no_extra, bind_ret by done.
  assert (0 <= len <= 16777183) as Hlen by (split; [unfold len; lia|exact Hl]).
  change (negb (0 =? u32 0)) with false. cbv iota zeta.
  change NET_HEADER_SIZE with 4. change COMP_HEADER_SIZE with 3. change OB20_HEADER_SIZE with 24.
  change OB20_TAILER_SIZE with 4.
  assert (u32 (len + u32 0 + 24 + 4) = len + 28) as ->.
  { change (u32 0) with 0. rewrite wrap_small; [lia|unfold uint; lia]. }
  assert (u32 (len + 28 + 4 + 3 + 1) = len + 36) as ->.
  { rewrite wrap_small; [lia|unfold uint; lia]. }
  set (s1 := set_prot s (set_extra (prot s) NULL NULL)).
  destruct (buffer_ready net s1 (len + 36)) as (p & b & -> & Hio & Lb); [done|done|unfold len; lia|].
  cbn [negb real_write_buffer prot set_prot set_write_buffer]. change (deref (Some b)) with (@Ret bytes b).
  rewrite !bind_ret.
  cbn [negb Z.eqb prot set_prot]. change (4 + 3 + 24 + 0) with 31. rewrite !Z.add_0_r.
  rewrite store_bytes_splice, map_u8_bytes, bind_ret by (done || (split; unfold len in *; lia)).
  assert (length (splice 31 data b) = length b) as L1 by (apply length_splice; split; unfold len in *; lia).
  rewrite (ob_crc32_range 0 (splice 31 data b) (4 + 3 + 24) len data), bind_ret;
    [|split; simpl; lia|done|done|apply load_bytes_splice; split; unfold len in *; lia].
  rewrite int4store_splice, bind_ret by (split; unfold len in *; lia).
  set (b2 := splice (31 + len) _ _).
  assert (length b2 = length b) as L2.
  { unfold b2. rewrite length_splice by (split; rewrite ?length_le_bytes; unfold len in *; lia). done. }
  assert (u32 len = len) as ->.
  { apply wrap_small. unfold uint. lia. }
  set (pp := with_payload_len _ len). assert (header pp = h) as Eh by reflexivity.
  rewrite fill_header_ok, bind_ret by (unfold len in *; lia). rewrite Eh.
  change (negb (31 =? 4 + 3 + 24)) with false. cbv iota. change (compress_pkt_nr (set_pvio net p)) with (compress_pkt_nr net).
  unfold b2, len. rewrite image_spliced by (rewrite ?length_le_bytes; unfold len in Lb; (reflexivity || lia)).
  fold len. assert (room b 0 (length (header_image (len + 28) (compress_pkt_nr net) 0 h ++ data ++
    le_bytes 4 (crc32_ref 0 data)))) as Hr.
  { split; [lia|]. rewrite !length_app, length_header_image, length_le_bytes. unfold len in Lb. lia. }
  replace (Z.to_nat (len + 28 + 4 + 3)) with (length (header_image (len + 28) (compress_pkt_nr net) 0 h ++ data ++
    le_bytes 4 (crc32_ref 0 data))) by (rewrite !length_app, length_header_image, length_le_bytes; unfold len; lia).
  rewrite load_bytes_splice, bind_ret by done. eexists. split; [reflexivity|].
  split; [exact Hio|]. split; [|done]. eexists _, _, _. do 5 (split; [reflexivity|]).
  by rewrite (length_splice 0 _ b Hr).
Qed.

(** * Reading the packet *)

(** The receiver waits for this connection, request and packet number. *)
Definition expects (q : Ob20Protocol) (h : Ob20ProtocolHeader) (nr : Z) : Prop :=
  magic_num (header q) = magic_num h /\ version (header q) = version h /\
  connection_id (header q) = connection_id h /\ request_id (header q) = request_id h /\
  u8 (pkt_seq (header q) + 1) = u8 nr.

Lemma wire_crc_nr len nr nr' complen body :
  u8 nr = u8 nr' -> wire_crc len nr complen body = wire_crc len nr' complen body.
Proof. intros E. unfold wire_crc, net_image, le_bytes. by rewrite E. Qed.

(** The part of a packet behind the MySQL headers, with [crc] as payload checksum. *)
Definition body_with (h : Ob20ProtocolHeader) (nr : Z) (data : bytes) (crc : Z) : bytes :=
  let len := Z.of_nat (length data) in
  let h := plain_header h len in
  (fields_image h nr ++ le_bytes 2 (header_crc (len + 28) nr 0 h)) ++ data ++ le_bytes 4 crc.
Definition body_image (h : Ob20ProtocolHeader) (nr : Z) (data : bytes) : bytes :=
  body_with h nr data (crc32_ref 0 data).

Lemma ob20_image_body h nr data :
  ob20_image h nr data = net_image (Z.of_nat (length data) + 28) nr 0 ++ body_image h nr data.
Proof. unfold ob20_image, body_image, body_with, header_image. by rewrite <- !app_assoc. Qed.

Lemma length_body_with h nr data crc : length (body_with h nr data crc) = (length data + 28)%nat.
Proof. unfold body_with. rewrite !length_app, length_fields_image, !length_le_bytes. lia. Qed.

Lemma body_with_bytes h nr data crc : all_bytes data -> all_bytes (body_with h nr data crc).
Proof.
  intros Hd. unfold body_with. rewrite !Forall_app.
  split_and!; [apply fields_image_bytes|apply le_bytes_bytes|done|apply le_bytes_bytes].
Qed.

Lemma decode_accepts q h nr nr' (data mem : bytes) :
  let len := Z.of_nat (length data) in
  header_ok (plain_header h len) -> expects q h nr -> u8 nr' = u8 nr ->
  load_bytes mem 0 24 = Ret (fields_image (plain_header h len) nr ++
    le_bytes 2 (header_crc (len + 28) nr 0 (plain_header h len))) ->
  exists p, decode_protocol20_header q mem (len + 28) nr' 0 = Ret (0, p) /\
    payload_len (header p) = len /\ flags (header p) = flags_plain (flags h) /\ extra_list p = extra_list q.
Proof.
  intros len Hok (E1 & E2 & E3 & E4 & E5) Hnr Hload.
  rewrite (decode_unfold q mem (plain_header h len) nr _ (len + 28) nr' 0 Hok (header_crc_uint _ _ _ _) Hload).
  rewrite (wire_crc_nr _ _ _ _ _ Hnr). unfold header_crc.
  generalize (wire_crc (len + 28) nr 0 (fields_image (plain_header h len) nr)). intros c.
  cbn [magic_num version connection_id request_id plain_header].
  rewrite E1, E2, E3, E4, E5, !Z.eqb_refl.
  replace ((if 0 =? c then 0 else c) =? c) with true by (destruct (Z.eqb_spec 0 c); lia).
  cbv iota zeta. cbn [negb]. by eexists.
Qed.

Lemma no_items fuel s : extra_list (prot s) = NULL ->
  clear_extra_info fuel s = Ret (Build_PState (set_extra (prot s) NULL NULL) (pnodes s) (items s) (vals s)).
Proof.
  intros E. unfold clear_extra_info. rewrite E.
  assert (clear_loop fuel (pnodes s) NULL NULL = Ret (pnodes s)) as -> by (by destruct fuel). by rewrite bind_ret.
Qed.

Lemma flags_plain_bit f : Z.testbit (flags_plain f) 0 = false.
Proof. unfold flags_plain. by rewrite Z.land_spec, andb_false_r. Qed.

Lemma body_parts buf i h nr data crc :
  uint 32 crc -> load_bytes buf i (length data + 28) = Ret (body_with h nr data crc) ->
  let len := Z.of_nat (length data) in
  load_bytes buf i 24 = Ret (fields_image (plain_header h len) nr ++
    le_bytes 2 (header_crc (len + 28) nr 0 (plain_header h len))) /\
  load_bytes buf (i + 24) (length data) = Ret data /\
  uint4korr buf (i + 24 + len) = Ret crc.
Proof.
  intros Hc32 Hb len. rewrite <- (length_body_with h nr data crc) in Hb. unfold body_with in Hb. fold len in Hb.
  apply load_bytes_app in Hb as [Hf Hb]. apply load_bytes_app in Hb as [Hdata Hc]. split; [exact Hf|].
  split; [exact Hdata|]. apply uint4korr_load in Hc; [|apply le_bytes_bytes].
  by rewrite le_val_le_bytes, wrap_small in Hc.
Qed.

Lemma crc32_uint data : all_bytes data -> uint 32 (crc32_ref 0 data).
Proof. apply crc32_ref_uint. split; simpl; lia. Qed.

(** ob20_unpack on a packet it waits for: the payload, or an error when the payload has
    another checksum. *)
Lemma unpack_spec fuel net q h nr data crc :
  let len := Z.of_nat (length data) in
  header_ok (plain_header h len) -> expects (prot q) h nr -> extra_list (prot q) = NULL ->
  u8 (u32 (pkt_nr net - 1)) = u8 nr -> all_bytes data -> 0 <= where_b net -> uint 32 crc ->
  load_bytes (buff net) (where_b net) (length data + 28) = Ret (body_with h nr data crc) ->
  exists q', ob20_unpack fuel net q (len + 28) =
    if (crc =? 0) || (crc32_ref 0 data =? crc)
    then Ret (true, len, set_buff (set_ob20 net (Some q')) (splice (where_b net) data (buff net)))
    else Ret (false, 0, set_last_errno (set_net_error (set_ob20 net (Some q')) 2) ER_NET_READ_ERROR).
Proof.
  intros len Hok Hex Hx Hnr Hd Hw Hcrc Hb. destruct (body_parts _ _ _ _ _ _ Hcrc Hb) as (Hf & Hdata & Hc).
  fold len in Hf, Hdata, Hc. apply load_bytes_room in Hb as [_ Hroom]; [|lia].
  unfold ob20_unpack.
  destruct (decode_accepts (prot q) h nr (u32 (pkt_nr net - 1)) data (drop (Z.to_nat (where_b net)) (buff net)) Hok Hex Hnr)
    as (p & E & Hlen & Hfl & Hxl).
  { rewrite load_bytes_drop by lia. rewrite Z2Nat.id, Z.add_0_r by lia. exact Hf. }
  fold len in E, Hlen. rewrite E, bind_ret. cbn [negb Z.eqb]. cbv iota zeta.
  change OB20_HEADER_SIZE with 24. rewrite Hlen, Hc, bind_ret.
  rewrite (ob_crc32_range 0 (buff net) (where_b net + 24) len data) by (done || (split; simpl; lia)).
  replace (if negb (crc =? 0) then Ret (crc32_ref 0 data) else Ret 0)
    with (Ret (if crc =? 0 then 0 else crc32_ref 0 data)) by (by destruct (crc =? 0)).
  rewrite bind_ret.
  replace ((if crc =? 0 then 0 else crc32_ref 0 data) =? crc) with ((crc =? 0) || (crc32_ref 0 data =? crc)).
  2:{ destruct (Z.eqb_spec crc 0) as [->|]; [by rewrite orb_true_l|by rewrite orb_false_l]. }
  destruct ((crc =? 0) || (crc32_ref 0 data =? crc)); cbn [negb]; cbv iota; [|by eexists].
  rewrite no_items, bind_ret by (cbn [prot set_prot]; by rewrite Hxl).
  cbn [prot set_prot set_extra header flags]. rewrite Hfl, flags_plain_bit. cbv iota. rewrite bind_ret.
  cbn [prot set_prot set_extra header]. rewrite Hlen.
  assert (u64 (len - 0) = len) as ->.
  { rewrite Z.sub_0_r. apply wrap_small. destruct Hok as (_ & _ & _ & _ & [? ?] & _). cbn [payload_len plain_header] in *.
    split; [lia|]. eapply Z.lt_trans; [eassumption|reflexivity]. }
  rewrite (memmove_ok _ _ _ _ data), bind_ret; [by eexists|unfold len; lia| |done|split; unfold len; lia].
  unfold len. rewrite Nat2Z.id, Z.add_0_r. exact Hdata.
Qed.

(** A connection that waits for a packet with header [h] and number [nr]. *)
Record receiver (net : NET) (q : PState) (h : Ob20ProtocolHeader) (nr : Z) : Prop := {
  rc_compress : compress net = true;
  rc_ob20 : use_ob20protocol net = true;
  rc_state : ob20 net = Some q;
  rc_idle : remain_in_buf net = 0;
  rc_pieces : pieces (pvio net);
  rc_items : extra_list (prot q) = NULL;
  rc_expects : expects (prot q) h nr;
  rc_room : max_packet net <= Z.of_nat (length (buff net)) }.

(** The scan of an idle connection reads the next packet: its payload is scanned next,
    or the payload checksum is wrong and the connection is given up. *)
Lemma scan_packet zu rounds fuel net q h nr data crc rest :
  let len := Z.of_nat (length data) in
  receiver net q h nr -> header_ok (plain_header h len) -> all_bytes data -> uint 32 crc ->
  len + 28 < max_packet net -> len + 28 <= MAX_PACKET_LENGTH ->
  incoming (pvio net) = (net_image (len + 28) nr 0 ++ body_with h nr data crc) ++ rest ->
  exists net', incoming (pvio net') = rest /\ length (buff net') = length (buff net) /\
  if (crc =? 0) || (crc32_ref 0 data =? crc) then
    scan_loop zu (S rounds) fuel net (MkScan 0 0 0 false) = scan_loop zu rounds fuel net' (MkScan len 0 0 false) /\
    load_bytes (buff net') 0 (length data) = Ret data
  else
    scan_loop zu (S rounds) fuel net (MkScan 0 0 0 false) =
    Ret (false, MkScan 0 0 0 false, set_last_errno (set_net_error net' 2) ER_NET_READ_ERROR).
Proof.
  intros len [Hc Ho Hq _ Hp Hx Hex Hr] Hok Hd Hcrc Hroom Hmax Hin. set (body := body_with h nr data crc) in *.
  assert (all_bytes body) as Hbody by by apply body_with_bytes.
  assert (length body = (length data + 28)%nat) as Lb by apply length_body_with.
  replace (len + 28) with (Z.of_nat (length body)) in Hin by (unfold len; lia).
  cbn [scan_loop]. change (u64 (0 - 0) >=? 4) with false.
  cbn [negb Z.eqb]. cbv iota zeta. rewrite bind_ret. change (u64 (0 - 0)) with 0.
  set (n1 := set_where_b _ 0).
  destruct (real_read_packed n1 nr 0 body rest) as (p1 & b1 & -> & Lb1 & Hin1 & Hp1 & _);
    [done|done|done|done|rewrite Lb; unfold len in *; lia|split; simpl; lia|change (where_b n1) with 0; change (max_packet n1) with (max_packet net);
     change (buff n1) with (buff net); rewrite Lb; unfold len in *; lia|change (where_b n1) with 0; change (buff n1) with (buff net);
     unfold len in *; lia|exact Hin|].
  change (buff n1) with (buff net) in Lb1.
  rewrite bind_ret. destruct (Z.eqb_spec (Z.of_nat (length body)) packet_error) as [E|_];
    [rewrite Lb in E; unfold len, packet_error, MAX_PACKET_LENGTH in *; lia|].
  set (n2 := set_reading_or_writing _ 0). change (use_ob20protocol n2) with (use_ob20protocol net).
  change (ob20 n2) with (ob20 net). rewrite Ho, Hq. cbn [of_option]. rewrite bind_ret.
  replace (Z.of_nat (length body)) with (len + 28) by (unfold len; lia).
  assert (room b1 0 (length body)) as Hr0 by (split; [lia|rewrite Lb, Lb1; unfold len in *; lia]).
  destruct (unpack_spec fuel n2 q h nr data crc Hok Hex Hx) as (q' & E); [|done|done|done| |].
  { change (pkt_nr n2) with (u32 (u8 nr + 1)). pose proof (wrap_uint 8 nr ltac:(lia)) as Hu. unfold uint in Hu.
    rewrite (wrap_small 32 (u8 nr + 1)) by (unfold uint; lia). replace (u8 nr + 1 - 1) with (u8 nr) by lia.
    rewrite (wrap_small 32) by (unfold uint; lia). by rewrite wrap_wrap by lia. }
  { change (where_b n2) with 0. change (buff n2) with (splice 0 body b1). rewrite <- Lb.
    by apply load_bytes_splice. }
  fold len in E. rewrite E. assert (length (splice 0 body b1) = length (buff net)) as L1 by (rewrite length_splice; done).
  assert (room (splice 0 body b1) 0 (length data)) as Hr1 by (split; [lia|rewrite L1; unfold len in *; lia]).
  destruct ((crc =? 0) || (crc32_ref 0 data =? crc)); rewrite bind_ret; cbn [negb]; cbv iota.
  - change (buff n2) with (splice 0 body b1). change (where_b n2) with 0. rewrite Z.add_0_l.
    set (n3 := set_buff _ _). exists n3. split; [exact Hin1|].
    split; [|split; [reflexivity|by apply load_bytes_splice]].
    change (length (splice 0 data (splice 0 body b1)) = length (buff net)). by rewrite length_splice.
  - exists (set_ob20 n2 (Some q')). split; [exact Hin1|]. split; [exact L1|reflexivity].
Qed.

Lemma scan_receives zu rounds fuel net q h nr nr0 payload rest :
  let data := packet_image nr0 payload in
  let len := Z.of_nat (length data) in
  receiver net q h nr -> header_ok (plain_header h len) -> all_bytes payload ->
  len + 28 < max_packet net -> len + 28 <= MAX_PACKET_LENGTH ->
  incoming (pvio net) = ob20_image h nr data ++ rest ->
  exists net', scan_loop zu (S (S rounds)) fuel net (MkScan 0 0 0 false) = Ret (true, MkScan len len 0 false, net') /\
    incoming (pvio net') = rest /\ length (buff net') = length (buff net) /\
    load_bytes (buff net') 0 (length data) = Ret data.
Proof.
  intros data len Hrc Hok Hb Hroom Hmax Hin.
  assert (all_bytes data) as Hd by (unfold data, packet_image; rewrite !Forall_app; split_and!; [apply le_bytes_bytes..|done]).
  rewrite ob20_image_body in Hin. fold len in Hin.
  destruct (scan_packet zu (S rounds) fuel net q h nr data _ rest Hrc Hok Hd (crc32_uint data Hd) Hroom Hmax Hin)
    as (n & Hin1 & L1 & Hs).
  rewrite Z.eqb_refl, orb_true_r in Hs. destruct Hs as [-> Hl]. exists n. split; [|done]. fold len.
  assert (len = Z.of_nat (length payload) + 4) as Elen.
  { unfold len, data, packet_image. rewrite !length_app, !length_le_bytes. lia. }
  rewrite Elen. apply (scan_found zu rounds fuel n nr0 payload); [lia|exact Hl].
Qed.

Lemma read20_ok zu packets rounds fuel net q h nr nr0 payload rest :
  let data := packet_image nr0 payload in
  let len := Z.of_nat (length data) in
  receiver net q h nr -> header_ok (plain_header h len) -> all_bytes payload ->
  len + 28 < max_packet net -> len + 28 <= MAX_PACKET_LENGTH ->
  incoming (pvio net) = ob20_image h nr data ++ rest ->
  exists net', ma_net_read zu packets (S (S rounds)) fuel net = Ret (Z.of_nat (length payload), net') /\
    NetRead.payload net' (Z.of_nat (length payload)) = Ret (payload ++ [0]) /\ incoming (pvio net') = rest.
Proof.
  intros data len Hrc Hok Hb Hroom Hmax Hin.
  destruct (scan_receives zu rounds fuel net q h nr nr0 payload rest Hrc Hok Hb Hroom Hmax Hin)
    as (n1 & E & Hin1 & L1 & Hl).
  destruct (read_packed_found zu packets (S (S rounds)) fuel net n1 nr0 payload) as (n2 & E2 & Hp2 & Hin2);
    [apply Hrc|apply Hrc|fold data len; assert (MAX_PACKET_LENGTH = 16777215) by done; lia| |exact E|exact Hl|].
  - fold data len. destruct Hrc. lia.
  - exists n2. rewrite Hin2. done.
Qed.

(** * Writing a message *)

(** A connection that can send: nothing queued as extra information, no error, memory. *)
Record sender (net : NET) (s : PState) : Prop := {
  sn_compress : compress net = true;
  sn_ob20 : use_ob20protocol net = true;
  sn_state : ob20 net = Some s;
  sn_error : net_error net <> 2;
  sn_multi : multi_status net = COM_MULTI_OFF;
  sn_items : extra_list (prot s) = NULL;
  sn_buffer : buffer_ok (prot s);
  sn_allocs : Forall (eq true) (allocs (pvio net));
  sn_accept : Forall (Z.lt 0) (accept (pvio net));
  sn_pos : 0 <= write_pos net;
  sn_room : max_packet net <= Z.of_nat (length (buff net));
  sn_size : max_packet net < 2 ^ 64 }.

(** What appending to the buffer does. *)
Definition appended (net net' : NET) (s s' : PState) (data : bytes) : Prop :=
  sender net' s' /\ header (prot s') = header (prot s) /\
  write_pos net' = write_pos net + Z.of_nat (length data) /\
  take (Z.to_nat (write_pos net')) (buff net') = take (Z.to_nat (write_pos net)) (buff net) ++ data /\
  pvio net' = pvio net /\ compress_pkt_nr net' = compress_pkt_nr net /\ max_packet net' = max_packet net.

Lemma appended_trans a b c s t u d e :
  appended a b s t d -> appended b c t u e -> appended a c s u (d ++ e).
Proof.
  intros (_ & H1 & W1 & T1 & P1 & N1 & M1) (S2 & H2 & W2 & T2 & P2 & N2 & M2).
  split; [done|]. rewrite length_app. split; [congruence|]. split; [lia|].
  split; [rewrite T2, T1; by rewrite <- app_assoc|]. split_and!; congruence.
Qed.

Lemma write_buff_20 zc rounds fuel net s data :
  sender net s -> all_bytes data -> write_pos net + Z.of_nat (length data) <= max_packet net ->
  write_pos net + Z.of_nat (length data) <= MAX_PACKET_LENGTH_WITH_OB20 ->
  exists net' s', ma_net_write_buff zc rounds fuel net data = Ret (0, net') /\ appended net net' s s' data.
Proof.
  intros Hs Hd Hm Hm20. pose proof Hs as [Hc Ho Hq He Hmu Hx Hb Ha Hacc Hp Hr H64].
  unfold ma_net_write_buff. destruct (Z.eqb_spec (Z.of_nat (length data)) 0) as [E0|E0].
  { exists net, s. destruct data; [|simpl in E0; lia]. split; [done|]. split; [done|]. split_and!; try done.
    - simpl. lia.
    - by rewrite app_nil_r. }
  rewrite Ho. unfold ob20_make_room. rewrite Hq. cbn [of_option]. rewrite bind_ret, no_extra, bind_ret by done.
  change (0 >? MAX_PACKET_LENGTH_WITH_OB20) with false. cbv iota zeta.
  set (s1 := set_prot s _). set (n1 := set_ob20 net (Some s1)).
  change (write_pos n1) with (write_pos net). change (max_packet n1) with (max_packet net).
  rewrite Z.add_0_l, Z.gtb_ltb. destruct (Z.ltb_spec MAX_PACKET_LENGTH_WITH_OB20 (write_pos net)); [lia|].
  rewrite bind_ret. cbn [negb Z.eqb]. cbv iota. change (write_pos n1) with (write_pos net). change (max_packet n1) with (max_packet net).
  rewrite (Z.gtb_ltb (Z.of_nat (length data))). destruct (Z.ltb_spec (max_packet net - write_pos net) (Z.of_nat (length data))); [lia|].
  cbn [andb]. rewrite bind_ret. cbn [negb Z.eqb]. cbv iota.
  change (write_pos n1) with (write_pos net). change (max_packet n1) with (max_packet net).
  change (compress n1) with (compress net). change (use_ob20protocol n1) with (use_ob20protocol net). rewrite Hc, Ho, !andb_true_r.
  match goal with |- context [Z.of_nat (length data) >? ?l] => set (left := l) end.
  assert (Z.of_nat (length data) <= left) as Hleft.
  { unfold left. assert (MAX_PACKET_LENGTH_WITH_OB20 = 16777183) as EM by done.
    assert (MAX_PACKET_LENGTH = 16777215) as EM' by done.
    rewrite !Z.gtb_ltb. destruct (Z.ltb_spec MAX_PACKET_LENGTH_WITH_OB20 (max_packet net));
      [|destruct (Z.ltb_spec MAX_PACKET_LENGTH (max_packet net)); [lia|]];
      rewrite wrap_small by (unfold uint; lia); lia. }
  rewrite Z.gtb_ltb. destruct (Z.ltb_spec left (Z.of_nat (length data))); [lia|].
  unfold append_buff. change (write_pos n1) with (write_pos net). change (buff n1) with (buff net).
  assert (room (buff net) (write_pos net) (length data)) as Hroom by (split; lia).
  rewrite store_bytes_splice, map_u8_bytes, bind_ret by done.
  eexists _, s1. split; [reflexivity|]. split; [|split_and!; try done].
  - split; try done; simpl; [lia|]. by rewrite length_splice.
  - cbn [write_pos set_write_pos buff set_buff]. apply take_splice; [done|lia].
Qed.

(** The header that the next message is sent with. *)
Definition next_header (p : Ob20Protocol) : Ob20ProtocolHeader :=
  let h := header p in
  if update_request_id_flag p then
    Build_Ob20ProtocolHeader (magic_num h) (version h) (connection_id h) (update_request_id (request_id h))
      (pkt_seq h) (payload_len h) (flags h) (reserved h) (header_checksum h)
  else h.

Lemma sender_ext net net' s s' :
  sender net s -> compress net' = compress net -> use_ob20protocol net' = use_ob20protocol net ->
  ob20 net' = Some s' -> net_error net' = net_error net -> multi_status net' = multi_status net ->
  extra_list (prot s') = extra_list (prot s) -> real_write_buffer (prot s') = real_write_buffer (prot s) ->
  real_write_buffer_length (prot s') = real_write_buffer_length (prot s) -> pvio net' = pvio net ->
  write_pos net' = write_pos net -> buff net' = buff net -> max_packet net' = max_packet net -> sender net' s'.
Proof.
  intros [? ? ? ? ? ? Hb ? ? ? ? ?] Ec Eo E Ee Emu Ex Eb El Ep Ew Ebu Em.
  split; rewrite ?Ec, ?Eo, ?Ee, ?Emu, ?Ex, ?Ep, ?Ew, ?Ebu, ?Em; try done. unfold buffer_ok in *. by rewrite Eb, El.
Qed.

Lemma next_request_ok net s :
  sender net s -> exists s', sender (next_request net false) s' /\ header (prot s') = next_header (prot s) /\
    same_io (pvio net) (pvio (next_request net false)) /\ buff (next_request net false) = buff net /\
    write_pos (next_request net false) = write_pos net /\ pkt_nr (next_request net false) = pkt_nr net /\
    compress_pkt_nr (next_request net false) = compress_pkt_nr net /\
    max_packet (next_request net false) = max_packet net.
Proof.
  intros Hs. unfold next_request, next_header. rewrite (sn_state _ _ Hs), (sn_ob20 _ _ Hs). cbn [andb orb].
  destruct (update_request_id_flag (prot s)) eqn:Eu.
  - eexists. split; [by eapply (sender_ext net _ s)|]. done.
  - exists s. done.
Qed.

(** Flushing sends the buffer as one packet. *)
Lemma flush_20 zc fuel net s :
  sender net s -> 0 < write_pos net -> write_pos net <= MAX_PACKET_LENGTH_WITH_OB20 ->
  write_pos net <= max_packet net -> all_bytes (take (Z.to_nat (write_pos net)) (buff net)) ->
  exists net', ma_net_flush zc fuel net = Ret (0, net') /\
    sent (pvio net') = sent (pvio net) ++
      ob20_image (header (prot s)) (compress_pkt_nr net) (take (Z.to_nat (write_pos net)) (buff net)).
Proof.
  intros [Hc Ho Hq He Hmu Hx Hb Ha Hacc Hp Hr H64] H0 H20 Hm Hd. unfold ma_net_flush. rewrite Hmu.
  change (COM_MULTI_OFF >? COM_MULTI_OFF) with false. cbv iota.
  destruct (Z.eqb_spec (write_pos net) 0); [lia|]. cbn [negb].
  rewrite load_bytes_in, bind_ret by (split; lia). change (drop (Z.to_nat 0) (buff net)) with (buff net).
  set (data := take _ _) in *. unfold ma_net_real_write. destruct (Z.eqb_spec (net_error net) 2); [done|].
  set (n1 := set_reading_or_writing net 2). change (compress n1) with (compress net).
  change (use_ob20protocol n1) with (use_ob20protocol net). change (ob20 n1) with (ob20 net).
  rewrite Hc, Ho, Hq. cbn [of_option]. rewrite bind_ret.
  destruct (ob20_packet_ok fuel n1 s data) as (n2 & -> & Hbuilt); [done|done|done|done|unfold data; rewrite length_take; lia|].
  rewrite bind_ret. cbn [negb Z.eqb].
  destruct Hbuilt as ((Es & Eacc & _) & _).
  destruct (send_all n2 (ob20_image (header (prot s)) (compress_pkt_nr n1) data)) as (p & -> & Hsent);
    [by rewrite Eacc|]. rewrite Es in Hsent.
  rewrite !bind_ret. eexists. split; [reflexivity|].
  match goal with |- sent (pvio (if ?c then ?a else ?b)) = _ => destruct c end; exact Hsent.
Qed.

Lemma write_20 zc packets rounds fuel net s payload :
  let data := packet_image (pkt_nr net) payload in
  let len := Z.of_nat (length data) in
  sender net s -> write_pos net = 0 -> all_bytes payload ->
  len <= max_packet net -> len <= MAX_PACKET_LENGTH_WITH_OB20 ->
  exists net', ma_net_write zc (S packets) rounds fuel net payload = Ret (0, net') /\
    exists s', sender net' s' /\ header (prot s') = next_header (prot s) /\ write_pos net' = len /\
      take (Z.to_nat (write_pos net')) (buff net') = data /\ sent (pvio net') = sent (pvio net) /\
      compress_pkt_nr net' = compress_pkt_nr net /\ max_packet net' = max_packet net.
Proof.
  intros data len Hs Hw Hb Hm Hm20. destruct (next_request_ok net s Hs) as (s1 & Hs1 & Hh & Hio & Eb & Ew & En & Ec & Em).
  unfold ma_net_write. set (n1 := next_request net false) in *. rewrite Hw in Ew. cbn [write_packets].
  assert (len = Z.of_nat (length payload) + 4) as Elen.
  { unfold len, data, packet_image. rewrite !length_app, !length_le_bytes. lia. }
  assert (MAX_PACKET_LENGTH_WITH_OB20 = 16777183) as EM by done.
  destruct (Z.geb_spec (Z.of_nat (length payload)) MAX_PACKET_LENGTH);
    [assert (MAX_PACKET_LENGTH = 16777215) by done; lia|].
  rewrite packet_header_image, bind_ret. rewrite En.
  set (head := le_bytes 3 _ ++ le_bytes 1 _). set (n2 := set_pkt_nr n1 _).
  assert (sender n2 s1) as Hs2 by (eapply (sender_ext n1 n2 s1 s1); try done; apply Hs1).
  assert (length head = 4%nat) as Lh by done. unfold write_packet.
  destruct (write_buff_20 zc rounds fuel n2 s1 head Hs2) as (n3 & s3 & -> & A3);
    [apply Forall_app; split; apply le_bytes_bytes|change (write_pos n2) with (write_pos n1); change (max_packet n2) with (max_packet n1);
     rewrite Ew, Lh, Em; lia|change (write_pos n2) with (write_pos n1); rewrite Ew, Lh; lia|].
  rewrite bind_ret. cbn [negb Z.eqb]. pose proof A3 as (Hs3 & _ & W3 & _ & _ & _ & M3).
  change (write_pos n2) with (write_pos n1) in W3. change (max_packet n2) with (max_packet n1) in M3.
  destruct (write_buff_20 zc rounds fuel n3 s3 payload Hs3) as (n4 & s4 & -> & A4); [done|lia|lia|].
  rewrite bind_ret. cbn [negb Z.eqb]. exists n4. split; [done|]. exists s4.
  destruct (appended_trans _ _ _ _ _ _ _ _ A3 A4) as (Hs4 & H4 & W4 & T4 & P4 & C4 & M4).
  change (write_pos n2) with (write_pos n1) in *. change (pvio n2) with (pvio n1) in P4.
  change (buff n2) with (buff n1) in T4. rewrite Ew in T4, W4. change (take (Z.to_nat 0) (buff n1)) with (@nil Z) in T4.
  split; [done|]. split; [congruence|]. split; [rewrite W4, length_app, Lh; lia|].
  split; [rewrite T4; unfold head, data, packet_image; by rewrite <- app_assoc|].
  split; [rewrite P4; apply Hio|]. split; [rewrite C4; exact Ec|rewrite M4; exact Em].
Qed.

(** C4: on an idle 2.0 connection with no extra information queued, a message that fits one
    packet and the buffer, written and flushed, goes out as one packet, with a
    fresh request number and both checksums, behind what was sent before, however the
    transport cuts it; a peer that waits for this request and packet number, whatever
    pieces the bytes arrive in, returns exactly the message from ma_net_read and leaves
    what follows unread. *)
Theorem ob20_delivery zc zu packets rounds fuel net s payload :
  let data := packet_image (pkt_nr net) payload in
  let len := Z.of_nat (length data) in
  sender net s -> write_pos net = 0 -> all_bytes payload ->
  len <= max_packet net -> len <= MAX_PACKET_LENGTH_WITH_OB20 -> header_ok (plain_header (next_header (prot s)) len) ->
  exists net1 net2 wire,
    ma_net_write zc (S packets) rounds fuel net payload = Ret (0, net1) /\ ma_net_flush zc fuel net1 = Ret (0, net2) /\
    sent (pvio net2) = sent (pvio net) ++ wire /\
    forall peer q rest, receiver peer q (next_header (prot s)) (compress_pkt_nr net) ->
      len + 28 < max_packet peer -> incoming (pvio peer) = wire ++ rest ->
      exists peer', ma_net_read zu packets (S (S rounds)) fuel peer = Ret (Z.of_nat (length payload), peer') /\
        NetRead.payload peer' (Z.of_nat (length payload)) = Ret (payload ++ [0]) /\ incoming (pvio peer') = rest.
Proof.
  intros data len Hs Hw Hb Hm Hm20 Hok.
  destruct (write_20 zc packets rounds fuel net s payload Hs Hw Hb Hm Hm20) as (n1 & E1 & s1 & Hs1 & Hh & W1 & T1 & P1 & C1 & M1).
  fold data len in W1, T1. assert (4 <= len) as H4 by (unfold len, data, packet_image; rewrite !length_app, !length_le_bytes; lia).
  destruct (flush_20 zc fuel n1 s1 Hs1) as (n2 & E2 & Hsent); [lia|lia|lia| |].
  { rewrite T1. unfold data, packet_image. rewrite !Forall_app. split_and!; [apply le_bytes_bytes..|done]. }
  rewrite T1, Hh, C1, P1 in Hsent. exists n1, n2. eexists. split; [exact E1|]. split; [exact E2|]. split; [exact Hsent|].
  intros peer q rest Hrc Hroom Hin. eapply (read20_ok zu packets rounds fuel peer q _ _ _ _ rest Hrc Hok Hb Hroom); [|exact Hin].
  fold data len. assert (MAX_PACKET_LENGTH_WITH_OB20 = 16777183) by done. unfold MAX_PACKET_LENGTH. lia.
Qed.

(** A fresh 2.0 connection with a buffer of 64 bytes and a transport that takes five bytes
    at first; its peer, which has seen packet number 255, where [wire] arrives. *)
Definition net_20 : NET :=
  Net (repeat 0 64) 0 0 0 0 0 64 1024 0 0 0 0 true true 0 0 0 (Some (ob20_init 7 5 None).2)
    (MkPvio [] [5] [] [] [] 0).
Definition peer_state : PState :=
  let s := (ob20_init 7 5 None).2 in
  set_prot s (set_header (prot s) (Build_Ob20ProtocolHeader 0x20AB 20 7 6 255 0 0 0 0)).
Definition peer_20 (wire : bytes) : NET :=
  Net (repeat 0 64) 0 0 0 0 0 64 1024 0 0 0 0 true true 0 0 0 (Some peer_state)
    (MkPvio [] [] (match wire with [] => [] | _ => [wire] end) [] [] 0).

Lemma net_20_sender : sender net_20 (ob20_init 7 5 None).2.
Proof. split; try done. by constructor. Qed.

Lemma peer_20_receiver wire : receiver (peer_20 wire) peer_state (next_header (prot (ob20_init 7 5 None).2)) 0.
Proof. split; try done. destruct wire; simpl; [constructor|by repeat constructor]. Qed.

Lemma ob20_delivery_witness : exists net1 net2 peer',
  ma_net_write (fun _ => None) 1 0 0 net_20 [1; 2; 3] = Ret (0, net1) /\
  ma_net_flush (fun _ => None) 0 net1 = Ret (0, net2) /\
  ma_net_read (fun _ _ => None) 0 2 0 (peer_20 (sent (pvio net2))) = Ret (3, peer') /\
  NetRead.payload peer' 3 = Ret [1; 2; 3; 0].
Proof.
  destruct (ob20_delivery (fun _ => None) (fun _ _ => None) 0 0 0 net_20 (ob20_init 7 5 None).2 [1; 2; 3] net_20_sender)
    as (n1 & n2 & wire & E1 & E2 & Hs & Hr);
    [done|repeat constructor; simpl; lia|apply Z.leb_le; reflexivity|apply Z.leb_le; reflexivity|vm_compute; intuition discriminate|].
  change (sent (pvio net_20) ++ wire) with wire in Hs.
  destruct (Hr (peer_20 (sent (pvio n2))) peer_state []) as (peer' & E3 & Hp & _);
    [apply peer_20_receiver|by apply Z.ltb_lt|rewrite Hs; unfold incoming, peer_20; simpl; destruct wire; [done|simpl; by rewrite !app_nil_r]|].
  exists n1, n2, peer'. split; [exact E1|]. split; [exact E2|]. split; [exact E3|exact Hp].
Defined.

(** * Damage *)

(** The bytes of a packet whose payload [data] was replaced by [data'] of the same length
    on the way. *)
Definition damaged (h : Ob20ProtocolHeader) (nr : Z) (data data' : bytes) : bytes :=
  net_image (Z.of_nat (length data) + 28) nr 0 ++ body_with h nr data' (crc32_ref 0 data).

Lemma damaged_none h nr data : damaged h nr data data = ob20_image h nr data.
Proof. by rewrite ob20_image_body. Qed.

Lemma crc32_splice data k x y :
  all_bytes data -> 0 <= k -> k + 2 <= Z.of_nat (length data) -> is_byte x -> is_byte y ->
  splice k [x; y] data <> data ->
  all_bytes (splice k [x; y] data) /\ crc32_ref 0 (splice k [x; y] data) <> crc32_ref 0 data.
Proof.
  intros Hd Hk0 Hk Hx Hy Hne. destruct (split_two data (Z.to_nat k)) as (a & x0 & y0 & b & -> & La); [lia|].
  replace k with (Z.of_nat (length a)) in * by lia. rewrite splice_middle in * by done.
  assert (all_bytes [x; y]) as Hxy by (by rewrite !Forall_cons).
  assert (all_bytes (a ++ [x; y] ++ b)) as Hall by (rewrite !Forall_app in *; tauto).
  split; [done|]. intros E. symmetry in E. revert E. apply (CrcBits.crc_ref_burst (w := 32)); [exact _|split; simpl; lia|done|done|].
  intros [= -> ->]. by apply Hne.
Qed.

(** C20: when two adjacent bytes of the payload of a 2.0 packet without extra information change
    on the way, ma_net_read
    reports an error and marks the connection as broken instead of returning data, unless
    the checksum of the original payload is 0, the value that switches the test off. *)
Theorem payload_damage_detected zu packets rounds fuel net q h nr data k x y rest :
  let len := Z.of_nat (length data) in
  receiver net q h nr -> header_ok (plain_header h len) -> all_bytes data ->
  len + 28 < max_packet net -> len + 28 <= MAX_PACKET_LENGTH ->
  0 <= k -> k + 2 <= len -> is_byte x -> is_byte y -> splice k [x; y] data <> data -> crc32_ref 0 data <> 0 ->
  incoming (pvio net) = damaged h nr data (splice k [x; y] data) ++ rest ->
  exists net', ma_net_read zu packets (S rounds) fuel net = Ret (packet_error, net') /\
    net_error net' = 2 /\ last_errno net' = ER_NET_READ_ERROR /\ incoming (pvio net') = rest.
Proof.
  intros len Hrc Hok Hd Hroom Hmax Hk0 Hk Hx Hy Hne H0 Hin.
  destruct (crc32_splice data k x y Hd Hk0 Hk Hx Hy Hne) as [Hd' Hcrc]. set (data' := splice k [x; y] data) in *.
  assert (length data' = length data) as Ld by (apply length_splice; split; simpl; unfold len in *; lia).
  unfold damaged in Hin. unfold len in *. rewrite <- Ld in Hok, Hroom, Hmax, Hin.
  destruct (scan_packet zu rounds fuel net q h nr data' _ rest Hrc Hok Hd' (crc32_uint data Hd) Hroom Hmax Hin)
    as (n & Hin1 & _ & Hs).
  rewrite (proj2 (Z.eqb_neq _ _) H0), (proj2 (Z.eqb_neq _ _) Hcrc) in Hs. cbn [orb] in Hs.
  unfold ma_net_read. rewrite (rc_compress _ _ _ _ Hrc). unfold read_packed. rewrite (rc_idle _ _ _ _ Hrc).
  cbn [Z.eqb]. cbv iota. rewrite bind_ret, Hs, bind_ret. cbn [negb]. eexists. split; [reflexivity|].
  split; [done|]. split; [done|exact Hin1].
Qed.

Lemma payload_damage_detected_witness : exists net',
  ma_net_read (fun _ _ => None) 0 1 0
    (peer_20 (damaged (next_header (prot (ob20_init 7 5 None).2)) 0 [3; 0; 0; 0; 1; 2; 3] [3; 0; 0; 0; 1; 9; 9])) =
  Ret (packet_error, net').
Proof.
  destruct (payload_damage_detected (fun _ _ => None) 0 0 0 
    (peer_20 (damaged (next_header (prot (ob20_init 7 5 None).2)) 0 [3; 0; 0; 0; 1; 2; 3] [3; 0; 0; 0; 1; 9; 9]))
    peer_state (next_header (prot (ob20_init 7 5 None).2)) 0 [3; 0; 0; 0; 1; 2; 3] 5 9 9 []) as (n & E & _);
    [apply peer_20_receiver|vm_compute; intuition discriminate|repeat constructor; simpl; lia|by apply Z.ltb_lt|
     by apply Z.leb_le|lia|simpl; lia|split; simpl; lia|split; simpl; lia|vm_compute; discriminate|vm_compute; discriminate|
     vm_compute; reflexivity|].
  exists n. exact E.
Defined.

End Net20.
