(* ===== verification/NetCompress.v ===== *)
(** Compressed connections without the 2.0 protocol (libmariadb/ma_net.c with
    ma_compress.c), against the interface of zlib: what is written is read back, and what
    happens when data cannot be uncompressed. *)

From stdpp Require Import tactics gmap.
From S2P Require Import Prelude IntStore Serialize Protocol20 Net NetPlain NetRead NetPacked.
Import Serialize Protocol20 Net NetPlain NetRead NetPacked.

Module NetCompress.

(** What the connection relies on of zlib's compress and uncompress: compression of bytes
    succeeds and gives a stream that is not empty, from which uncompress, told the
    original size, gets the bytes back. *)
Class Zlib (zcompress : bytes -> option bytes) (zuncompress : bytes -> Z -> option bytes) : Prop :=
  zlib_inverse : forall d, all_bytes d ->
    exists z, zcompress d = Some z /\ all_bytes z /\ z <> [] /\ zuncompress z (Z.of_nat (length d)) = Some d.

Section delivery.
Context {zc : bytes -> option bytes} {zu : bytes -> Z -> option bytes} `{Zlib zc zu}.

(** ** Writing *)

(** The contents of a packet for [data]: the data itself, or a shorter compressed form with
    the size of the data. *)
Definition packed (data z : bytes) (complen : Z) : Prop :=
  (complen = 0 /\ z = data) \/
  (complen = Z.of_nat (length data) /\ (length z < length data)%nat /\ z <> [] /\ all_bytes z /\ zu z complen = Some data).

Lemma compress_packed p data :
  all_bytes data -> Forall (eq true) (allocs p) ->
  exists failed z complen q, mariadb_compress zc p data = (failed, z, complen, q) /\
    packed data z (if failed : bool then 0 else complen) /\ same_io p q.
Proof.
  intros Hd Ha. unfold mariadb_compress. destruct (Z.ltb_spec (Z.of_nat (length data)) MIN_COMPRESS_LENGTH).
  { exists false, data, 0, p. split; [done|]. split; [by left|done]. }
  destruct (alloc_ok p Ha) as (q & -> & Hq & _). cbn [negb].
  destruct (zlib_inverse data Hd) as (z & -> & Hz & Hne & Hinv).
  destruct (Z.geb_spec (Z.of_nat (length z)) (Z.of_nat (length data))).
  - exists true, data, 0, q. split; [done|]. split; [by left|done].
  - exists false, z, (Z.of_nat (length data)), q. split; [done|]. split; [right|done]. split_and!; (done || lia).
Qed.

Lemma compressed_packet_ok net data :
  all_bytes data -> Forall (eq true) (allocs (pvio net)) ->
  exists net' z complen,
    compressed_packet zc net data =
      Ret (0, net', net_image (Z.of_nat (length z)) (compress_pkt_nr net) complen ++ z) /\
    packed data z complen /\ same_io (pvio net) (pvio net').
Proof.
  intros Hd Ha. unfold compressed_packet. destruct (alloc_ok _ Ha) as (q & -> & Hq & Haq). cbn [negb].
  change (pvio (set_pvio net q)) with q.
  destruct (compress_packed q data Hd Haq) as (failed & z & complen & r & -> & Hp & Hr).
  set (n1 := set_pvio _ r). change (compress_pkt_nr n1) with (compress_pkt_nr net).
  pose proof (net_stores (repeat 0 7) (Z.of_nat (length z)) (compress_pkt_nr net) (if failed then 0 else complen)
    ltac:(simpl; lia)) as Hst. unfold fill_net_headers in Hst.
  apply bind_Ret_inv in Hst as (b1 & E1 & Hst). apply bind_Ret_inv in Hst as (b2 & E2 & E3).
  cbv zeta. rewrite E1, bind_ret, E2, bind_ret, E3, bind_ret. eexists _, z, _. split; [reflexivity|]. split; [exact Hp|].
  destruct Hq as (? & ? & ? & ?), Hr as (? & ? & ? & ?). unfold same_io. simpl. split_and!; congruence.
Qed.

(** ** Reading *)

(** A connection that is idle between messages. *)
Record idle (net : NET) : Prop := {
  id_compress : compress net = true;
  id_ob20 : use_ob20protocol net = false;
  id_buffer : remain_in_buf net = 0;
  id_pieces : pieces (pvio net);
  id_allocs : Forall (eq true) (allocs (pvio net));
  id_room : max_packet net <= Z.of_nat (length (buff net)) }.

Lemma uncompress_packed net z complen data :
  packed data z complen -> all_bytes data -> Forall (eq true) (allocs (pvio net)) ->
  0 <= where_b net -> where_b net + Z.of_nat (length data) <= Z.of_nat (length (buff net)) ->
  load_bytes (buff net) (where_b net) (length z) = Ret z ->
  exists net', mariadb_uncompress zu net (Z.of_nat (length z)) complen = Ret (false, Z.of_nat (length data), net') /\
    incoming (pvio net') = incoming (pvio net) /\ length (buff net') = length (buff net) /\
    load_bytes (buff net') (where_b net) (length data) = Ret data.
Proof.
  intros Hp Hd Ha Hw Hroom Hl. unfold mariadb_uncompress. destruct Hp as [[-> ->]|(-> & Hlt & Hne & _ & Hz)].
  - cbn [Z.eqb negb]. by exists net.
  - destruct (Z.eqb_spec (Z.of_nat (length data)) 0); [lia|]. cbn [negb].
    destruct (alloc_ok _ Ha) as (q & -> & (_ & _ & Ear & Eca) & _). cbn [negb]. rewrite Nat2Z.id.
    set (n1 := set_pvio net q). change (buff n1) with (buff net). change (where_b n1) with (where_b net).
    rewrite Hl, bind_ret, Hz.
    assert (room (buff net) (where_b net) (length data)) as Hr by (split; lia).
    rewrite store_bytes_splice, map_u8_bytes, bind_ret by done. eexists. split; [reflexivity|].
    split; [unfold incoming; simpl; by rewrite Ear, Eca|]. split; [by apply length_splice|by apply load_bytes_splice].
Qed.

Lemma scan_compressed rounds fuel net nr0 nr payload z complen rest :
  let data := packet_image nr0 payload in
  let len := Z.of_nat (length data) in
  idle net -> all_bytes payload -> packed data z complen -> len <= MAX_PACKET_LENGTH -> len < max_packet net ->
  7 <= max_packet net ->
  incoming (pvio net) = (net_image (Z.of_nat (length z)) nr complen ++ z) ++ rest ->
  exists net', scan_loop zu (S (S rounds)) fuel net (MkScan 0 0 0 false) = Ret (true, MkScan len len 0 false, net') /\
    incoming (pvio net') = rest /\ length (buff net') = length (buff net) /\
    load_bytes (buff net') 0 (length data) = Ret data.
Proof.
  intros data len [Hc Ho Hi Hp Ha Hr] Hb Hpk Hmax Hroom H7 Hin.
  assert (all_bytes data) as Hd by (unfold data, packet_image; rewrite !Forall_app; split_and!; [apply le_bytes_bytes..|done]).
  assert (len = Z.of_nat (length payload) + 4) as Elen.
  { unfold len, data, packet_image. rewrite !length_app, !length_le_bytes. lia. }
  assert (0 < length z <= length data)%nat as Hlz.
  { destruct Hpk as [[_ ->]|(_ & ? & Hne & _)]; [unfold len in *; lia|destruct z; [done|simpl in *; lia]]. }
  assert (all_bytes z) as Hz by (destruct Hpk as [[_ ->]|(_ & _ & _ & ? & _)]; done).
  assert (0 <= complen <= len) as Hcl by (destruct Hpk as [[-> _]|(-> & _)]; unfold len; lia).
  remember (S rounds) as r eqn:Er. cbn [scan_loop]. change (u64 (0 - 0) >=? 4) with false.
  cbn [negb Z.eqb]. cbv iota zeta. rewrite bind_ret. change (u64 (0 - 0)) with 0.
  set (n1 := set_where_b _ 0).
  destruct (real_read_packed n1 nr complen z rest) as (p1 & b1 & -> & Lb1 & Hin1 & Hp1 & Ha1);
    [done|done|done|done|unfold len in *; lia|assert (MAX_PACKET_LENGTH = 16777215) by done; split; simpl; lia|
     change (where_b n1) with 0; change (max_packet n1) with (max_packet net);
     change (buff n1) with (buff net); unfold len in *; lia|change (where_b n1) with 0; change (buff n1) with (buff net);
     lia|exact Hin|].
  change (buff n1) with (buff net) in Lb1.
  rewrite bind_ret. destruct (Z.eqb_spec (Z.of_nat (length z)) packet_error) as [E|_];
    [assert (MAX_PACKET_LENGTH = 16777215) by done; unfold packet_error, len in *; lia|].
  set (n2 := set_reading_or_writing _ 0). change (use_ob20protocol n2) with (use_ob20protocol net). rewrite Ho.
  assert (room b1 0 (length z)) as Hr1 by (split; unfold len in *; lia).
  destruct (uncompress_packed n2 z complen data Hpk Hd) as (n3 & E & Hin3 & L3 & Hl3).
  - change (allocs p1 = allocs (pvio net)) in Ha1. change (allocs (pvio n2)) with (allocs p1). by rewrite Ha1.
  - done.
  - change (buff n2) with (splice 0 z b1). change (where_b n2) with 0. rewrite length_splice, Lb1 by done. unfold len in *. lia.
  - change (buff n2) with (splice 0 z b1). change (where_b n2) with 0. by apply load_bytes_splice.
  - rewrite E, bind_ret. rewrite Z.add_0_l. fold len. change (where_b n2) with 0 in Hl3.
    exists n3. split; [|split; [by rewrite Hin3|split; [|done]]].
    + rewrite Elen. subst r. apply (scan_found zu rounds fuel n3 nr0 payload); [lia|exact Hl3].
    + rewrite L3. change (buff n2) with (splice 0 z b1). by rewrite length_splice, Lb1.
Qed.

(** C21: on a connection with compression, against any zlib that inverts itself, a packet
    given to ma_net_real_write, however it compresses and however the transport cuts it,
    is returned as the original message by ma_net_read of an idle peer, and what follows
    is left unread. *)
Theorem compressed_delivery packets rounds fuel net nr0 payload :
  let data := packet_image nr0 payload in
  let len := Z.of_nat (length data) in
  compress net = true -> use_ob20protocol net = false -> net_error net <> 2 ->
  Forall (eq true) (allocs (pvio net)) -> Forall (Z.lt 0) (accept (pvio net)) ->
  all_bytes payload -> len <= MAX_PACKET_LENGTH ->
  exists net' wire, ma_net_real_write zc fuel net data = Ret (0, net') /\
    sent (pvio net') = sent (pvio net) ++ wire /\
    forall peer rest, idle peer -> len < max_packet peer -> 7 <= max_packet peer -> incoming (pvio peer) = wire ++ rest ->
      exists peer', ma_net_read zu packets (S (S rounds)) fuel peer = Ret (Z.of_nat (length payload), peer') /\
        NetRead.payload peer' (Z.of_nat (length payload)) = Ret (payload ++ [0]) /\ incoming (pvio peer') = rest.
Proof.
  intros data len Hc Ho He Ha Hacc Hb Hmax.
  assert (all_bytes data) as Hd by (unfold data, packet_image; rewrite !Forall_app; split_and!; [apply le_bytes_bytes..|done]).
  unfold ma_net_real_write. destruct (Z.eqb_spec (net_error net) 2); [done|].
  set (n1 := set_reading_or_writing net 2). change (compress n1) with (compress net).
  change (use_ob20protocol n1) with (use_ob20protocol net). rewrite Hc, Ho.
  destruct (compressed_packet_ok n1 data Hd Ha) as (n2 & z & complen & -> & Hpk & Hio).
  rewrite bind_ret. cbn [negb Z.eqb].
  destruct (send_all n2 (net_image (Z.of_nat (length z)) (compress_pkt_nr n1) complen ++ z)) as (p & -> & Hsent).
  { destruct Hio as (_ & -> & _). exact Hacc. }
  eexists _, _. split; [reflexivity|]. split; [simpl; rewrite Hsent; by destruct Hio as (-> & _)|].
  intros peer rest Hidle Hroom H7 Hin.
  destruct (scan_compressed rounds fuel peer nr0 (compress_pkt_nr n1) payload z complen rest Hidle Hb Hpk Hmax Hroom H7 Hin)
    as (n3 & E & Hin3 & L3 & Hl3).
  destruct (read_packed_found zu packets (S (S rounds)) fuel peer n3 nr0 payload) as (n4 & E4 & Hp4 & Hin4);
    [apply Hidle|apply Hidle|fold data len; assert (MAX_PACKET_LENGTH = 16777215) by done; lia| |exact E|exact Hl3|].
  - fold data len. destruct Hidle. lia.
  - exists n4. by rewrite Hin4.
Qed.

End delivery.

(** ** A small instance *)

(** Dropping trailing zeros. *)
Fixpoint strip (d : bytes) : bytes :=
  match d with
  | [] => []
  | x :: r => match strip r with [] => if x =? 0 then [] else [x] | s => x :: s end
  end.
Definition strip_compress (d : bytes) : option bytes := Some (match strip d with [] => [0] | s => s end).
Definition strip_uncompress (z : bytes) (n : Z) : option bytes :=
  Some (take (Z.to_nat n) z ++ repeat 0 (Z.to_nat n - length z)).

Lemma strip_app d : exists k, d = strip d ++ repeat 0 k.
Proof.
  induction d as [|x r (k & IH)]; [by exists 0%nat|]. simpl. destruct (strip r) as [|y s] eqn:E.
  - destruct (Z.eqb_spec x 0) as [->|].
    + exists (S k). simpl. by rewrite IH at 1.
    + exists k. simpl. by rewrite IH at 1.
  - exists k. by rewrite IH at 1.
Qed.

#[export] Instance strip_zlib : Zlib strip_compress strip_uncompress.
Proof.
  intros d Hd. destruct (strip_app d) as (k & E). unfold strip_compress, strip_uncompress.
  destruct (strip d) as [|x s].
  - exists [0]. split; [done|]. split; [repeat constructor; simpl; lia|]. split; [done|]. f_equal. rewrite Nat2Z.id.
    simpl in E. rewrite E, repeat_length. destruct k; [done|]. simpl. by rewrite take_nil, Nat.sub_0_r.
  - exists (x :: s). rewrite E in Hd. apply Forall_app in Hd as [Hd _]. split; [done|]. split; [done|]. split; [done|].
    f_equal. rewrite Nat2Z.id.
    assert (length d = length (x :: s) + k)%nat as -> by (by rewrite E, length_app, repeat_length).
    rewrite E, take_ge by lia. do 2 f_equal. lia.
Qed.

Definition zip_net (arrived : bytes) : NET :=
  Net (repeat 0 100) 0 0 0 0 0 100 1024 0 0 0 0 true false 0 0 0 None
    (MkPvio [] [5] (match arrived with [] => [] | _ => [arrived] end) [] [] 0).

Lemma zip_net_idle arrived : idle (zip_net arrived).
Proof. split; try done. destruct arrived; simpl; [constructor|by repeat constructor]. Qed.

(** Sixty zeros behind their header shrink to one byte. *)
Lemma compressed_delivery_witness : exists net' peer',
  ma_net_real_write strip_compress 0 (zip_net []) (packet_image 0 (repeat 0 60)) = Ret (0, net') /\
  ma_net_read strip_uncompress 0 2 0 (zip_net (sent (pvio net'))) = Ret (60, peer') /\
  NetRead.payload peer' 60 = Ret (repeat 0 60 ++ [0]) /\ sent (pvio net') = [1; 0; 0; 0; 64; 0; 0; 60].
Proof.
  destruct (compressed_delivery (zc := strip_compress) (zu := strip_uncompress) 0 0 0 (zip_net []) 0 (repeat 0 60))
    as (net' & wire & E & Hs & Hr);
    [done|done|done|constructor|by repeat constructor|
     apply Forall_forall; intros x ->%list_elem_of_In%repeat_spec; split; simpl; lia|by apply Z.leb_le|].
  change (sent (pvio (zip_net [])) ++ wire) with wire in Hs.
  destruct (Hr (zip_net (sent (pvio net'))) []) as (peer' & E2 & Hp & _);
    [apply zip_net_idle|by apply Z.ltb_lt|by apply Z.leb_le|
     rewrite Hs; unfold incoming, zip_net; simpl; destruct wire; [done|simpl; by rewrite !app_nil_r]|].
  exists net', peer'. split; [exact E|]. split; [exact E2|]. split; [exact Hp|].
  vm_compute in E. injection E as <-. reflexivity.
Defined.

(** ** Failures *)

(** C34: when the peer's data cannot be uncompressed, ma_net_read leaves its loop as if a
    message had been found, with the error noted but not returned: from an idle connection
    the length becomes 0 - 4 in 64 bits and the terminating NUL is stored through
    read_pos + 2^64 - 4, outside the buffer. *)
Theorem uncompress_failure_unreported zu packets rounds fuel net nr complen z rest :
  idle net -> all_bytes z -> 0 < Z.of_nat (length z) <= MAX_PACKET_LENGTH -> uint 24 complen -> complen <> 0 ->
  Z.max (Z.of_nat (length z)) complen < max_packet net -> 7 <= max_packet net -> Z.of_nat (length (buff net)) < 2 ^ 64 ->
  zu z complen = None ->
  incoming (pvio net) = (net_image (Z.of_nat (length z)) nr complen ++ z) ++ rest ->
  (exists net', scan_loop zu (S rounds) fuel net (MkScan 0 0 0 false) = Ret (true, MkScan 0 0 0 false, net') /\
     net_error net' = 2 /\ last_errno net' = ER_NET_UNCOMPRESS_ERROR /\ length (buff net') = length (buff net)) /\
  ma_net_read zu packets (S rounds) fuel net = Fault.
Proof.
  intros [Hc Ho Hi Hp Ha Hr] Hz Hlz Hcl H0 Hroom H7 H64 Hzu Hin.
  assert (exists net', scan_loop zu (S rounds) fuel net (MkScan 0 0 0 false) = Ret (true, MkScan 0 0 0 false, net') /\
     net_error net' = 2 /\ last_errno net' = ER_NET_UNCOMPRESS_ERROR /\ length (buff net') = length (buff net)) as Hs.
  { cbn [scan_loop]. change (u64 (0 - 0) >=? 4) with false.
    cbn [negb Z.eqb]. cbv iota zeta. rewrite bind_ret. change (u64 (0 - 0)) with 0. set (n1 := set_where_b _ 0).
    destruct (real_read_packed n1 nr complen z rest) as (p1 & b1 & -> & Lb1 & Hin1 & Hp1 & Ha1);
      [done|done|done|done|done|done|change (where_b n1) with 0; change (max_packet n1) with (max_packet net);
       change (buff n1) with (buff net); lia|change (where_b n1) with 0; change (buff n1) with (buff net); lia|exact Hin|].
    change (buff n1) with (buff net) in Lb1. rewrite bind_ret.
    destruct (Z.eqb_spec (Z.of_nat (length z)) packet_error) as [E|_]; [unfold packet_error, MAX_PACKET_LENGTH in *; lia|].
    set (n2 := set_reading_or_writing _ 0). change (use_ob20protocol n2) with (use_ob20protocol net). rewrite Ho.
    assert (room b1 0 (length z)) as Hr1 by (split; lia).
    unfold mariadb_uncompress. destruct (Z.eqb_spec complen 0); [done|]. cbn [negb].
    destruct (alloc_ok (pvio n2)) as (q & -> & _); [change (pvio n2) with p1; by rewrite Ha1|]. cbn [negb]. rewrite Nat2Z.id.
    change (buff (set_pvio n2 q)) with (splice 0 z b1). change (where_b (set_pvio n2 q)) with 0.
    rewrite load_bytes_splice, bind_ret, Hzu, bind_ret by done. eexists. split; [reflexivity|]. split; [done|]. split; [done|].
    change (length (splice 0 z b1) = length (buff net)). by rewrite length_splice. }
  split; [exact Hs|]. destruct Hs as (n & E & _ & _ & L). unfold ma_net_read, read_packed. rewrite Hc, Hi.
  cbn [Z.eqb]. cbv iota. rewrite bind_ret, E, bind_ret. cbn [negb buffer_length current start is_multi_packet]. cbv iota zeta.
  rewrite load_oob; [done|]. right. change (u64 (0 - 0 - 4)) with 18446744073709551612.
  simpl. rewrite L. lia.
Qed.

Lemma uncompress_failure_unreported_witness :
  ma_net_read (fun _ _ => None) 0 1 0 (zip_net [1; 0; 0; 0; 64; 0; 0; 60]) = Fault.
Proof.
  apply (uncompress_failure_unreported (fun _ _ => None) 0 0 0 (zip_net [1; 0; 0; 0; 64; 0; 0; 60]) 0 64 [60] []);
    [apply zip_net_idle|repeat constructor; simpl; lia|split; simpl; [lia|by apply Z.leb_le]|split; simpl; lia|done|
     by apply Z.ltb_lt|by apply Z.leb_le|by apply Z.ltb_lt|done|done].
Defined.

(** A failed allocation, like a failed compression, is reported as success: the data goes
    out uncompressed with a size that announces compressed data. *)
Theorem compress_failure_announced zc p data :
  MIN_COMPRESS_LENGTH <= Z.of_nat (length data) -> allocs p = [false] ->
  exists q, mariadb_compress zc p data = (false, data, Z.of_nat (length data) * 120 / 100 + 12, q).
Proof.
  intros Hl Ha. unfold mariadb_compress. destruct (Z.ltb_spec (Z.of_nat (length data)) MIN_COMPRESS_LENGTH); [lia|].
  unfold alloc. rewrite Ha. cbn [negb]. eexists. do 3 f_equal.
  apply Z.eqb_neq. assert (0 <= Z.of_nat (length data) * 120 / 100) by (apply Z.div_pos; lia). lia.
Qed.

(** The first full packet of a long message that does not start at the front of the buffer:
    the data moves to the front, but the position of the next packet does not move with
    it and lies behind what was read. *)
Theorem long_message_position_stale zu rounds fuel net from d :
  0 < from -> from + MAX_PACKET_LENGTH + 4 <= Z.of_nat (length (buff net)) -> Z.of_nat (length (buff net)) < 2 ^ 64 ->
  load_bytes (buff net) from (Z.to_nat (MAX_PACKET_LENGTH + 4)) = Ret d -> all_bytes d ->
  uint3korr (buff net) from = Ret MAX_PACKET_LENGTH ->
  scan_loop zu (S rounds) fuel net (MkScan (from + MAX_PACKET_LENGTH + 4) from from false) =
  scan_loop zu rounds fuel (set_buff net (splice 0 d (buff net)))
    (MkScan (MAX_PACKET_LENGTH + 4) (from + MAX_PACKET_LENGTH + 4) 0 true).
Proof.
  intros Hf Hl H64 Hd Hb H3. assert (MAX_PACKET_LENGTH = 16777215) as EM by done. set (m := MAX_PACKET_LENGTH) in *.
  cbn [scan_loop].
  assert (u64 (from + m + 4 - from) = m + 4) as Eu by (rewrite wrap_small; [lia|unfold uint; lia]). rewrite Eu.
  destruct (Z.geb_spec (m + 4) 4); [|lia]. rewrite H3, bind_ret. destruct (Z.eqb_spec m 0); [lia|].
  rewrite Z.leb_refl. cbn [negb]. rewrite bind_ret. fold m. rewrite Z.eqb_refl. cbn [negb].
  destruct (Z.eqb_spec from 0); [lia|]. cbn [negb].
  rewrite Eu, (memmove_ok _ _ _ _ d), bind_ret; [done|lia|exact Hd|done|split; lia].
Qed.

End NetCompress.
