(* ===== verification/Tns.v ===== *)
(** Service names, libmariadb/ob_tnsname.c: descriptions of services in the syntax of tnsnames.ora,
    given in place of a name or found in a file, with groups of addresses, strategies for
    choosing among them and for keeping a list of addresses that failed.

    The text is read through a buffer of 1024 bytes and cut into tokens; a configuration is a
    list of pairs whose values are words or lists of pairs.  A C string in an array is the
    bytes of the array.  The results of the allocations are part of the state of the parser;
    memory that is released is not tracked.  Printing for debugging is left out. *)

From stdpp Require Import tactics.
From S2P Require Import Prelude IntStore Uuid TraceText NumText OracleTime StmtOracle OracleFormat TextTime.
Import Uuid NumText OracleFormat TextTime.

Module Tns.

Definition OBCLIENT_TNS_KEY_SIZE : Z := 256.
Definition OBCLIENT_TNS_HOST_BUFFER_SIZE : Z := OBCLIENT_TNS_KEY_SIZE.
Definition OBCLIENT_TNS_PORT_BUFFER_SIZE : Z := 6.
Definition OBCLIENT_TNS_BUFFER_SIZE : Z := 1024.
Definition OBCLIENT_TNS_MEMORY_COUNT : Z := 6.
Definition TNS_NO_DATA : Z := 100.

Inductive ObClientTnsParseMode : Type := TNS_MODE_FILE | TNS_MODE_DESCRIPTION.

Inductive ObClientTnsTokenType : Type := TNS_EQUAL_SIGN | TNS_LEFT_PARENTHESES | TNS_RIGHT_PARENTHESES | TNS_KEY.

Inductive ObClientLBKeyType : Type :=
| OBCLIENT_LB_ERROR_KEY | OBCLIENT_LB_DESCRIPTION | OBCLIENT_LB_OBLB | OBCLIENT_LB_CONNECT_TIMEOUT | OBCLIENT_LB_READ_TIMEOUT
| OBCLIENT_LB_WRITE_TIMEOUT | OBCLIENT_LB_OBLB_GROUP_STRATEGY | OBCLIENT_LB_OBLB_RETRY_ALL_DOWNS | OBCLIENT_LB_OBLB_RETRY_TIMEOUT
| OBCLIENT_LB_OBLB_BLACKLIST | OBCLIENT_LB_REMOVE_STRATEGY | OBCLIENT_LB_NAME | OBCLIENT_LB_TIMEOUT | OBCLIENT_LB_APPEND_STRATEGY
| OBCLIENT_LB_RETRY_TIMES | OBCLIENT_LB_DRUATION | OBCLIENT_LB_ADDRESS_LIST | OBCLIENT_LB_OBLB_STRATEGY | OBCLIENT_LB_ADDRESS
| OBCLIENT_LB_PROTOCOL | OBCLIENT_LB_HOST | OBCLIENT_LB_PORT | OBCLIENT_LB_WEIGHT | OBCLIENT_LB_CONNECT_DATA
| OBCLIENT_LB_SERVICE_NAME | OBCLIENT_LB_SID | OBCLIENT_LB_EXTRA_INFO | OBCLIENT_LB_OB_MODE | OBCLIENT_LB_USE_DEFAULT_SID
| OBCLIENT_LB_SESSION_VARIABLE | OBCLIENT_LB_OB_ENABLE_SSL.

#[export] Instance token_eq_dec : EqDecision ObClientTnsTokenType.
Proof. solve_decision. Defined.
#[export] Instance key_eq_dec : EqDecision ObClientLBKeyType.
Proof. solve_decision. Defined.

(** Strategies; 0 where none is set. *)
Definition OBCLIENT_LB_OPTION_GROUP_ROTATION : Z := 0.
Definition OBCLIENT_LB_OPTION_RANDOM : Z := 1001.
Definition OBCLIENT_LB_OPTION_SERVERAFFINITY : Z := 1002.
Definition OBCLIENT_LB_OPTION_ROTATION : Z := 1003.
Definition OBCLIENT_LB_OPTION_TIMEOUT : Z := 2001.
Definition OBCLIENT_LB_OPTION_RETRY_DERUATION : Z := 3001.
Definition OBCLIENT_LB_OPTION_NORMAL : Z := 3002.

(** * The state of the parser *)

(** The buffer holds the [buffer_len] bytes that were read last, [tns_file] the part of the file
    that was not read yet. *)
Record ObClientTnsParseParams : Type := Params {
  tns_buffer : bytes; tns_key : bytes; buffer_pos : Z; tns_key_len : Z; is_eof : bool; mode : ObClientTnsParseMode;
  tns_file : bytes; description : bytes; description_offset : Z; is_comment : bool;
  tns_token_type : ObClientTnsTokenType; key_type : ObClientLBKeyType; allocs : list bool }.

Definition buffer_len (p : ObClientTnsParseParams) : Z := Z.of_nat (length (tns_buffer p)).

Definition set_buffer_pos (p : ObClientTnsParseParams) (pos : Z) (comment : bool) : ObClientTnsParseParams :=
  Params (tns_buffer p) (tns_key p) pos (tns_key_len p) (is_eof p) (mode p) (tns_file p) (description p) (description_offset p) comment
    (tns_token_type p) (key_type p) (allocs p).
Definition set_key (p : ObClientTnsParseParams) (pos : Z) (key : bytes) (len : Z) : ObClientTnsParseParams :=
  Params (tns_buffer p) key pos len (is_eof p) (mode p) (tns_file p) (description p) (description_offset p) (is_comment p)
    (tns_token_type p) (key_type p) (allocs p).
Definition set_eof (p : ObClientTnsParseParams) : ObClientTnsParseParams :=
  Params (tns_buffer p) (tns_key p) (buffer_pos p) (tns_key_len p) true (mode p) (tns_file p) (description p) (description_offset p) (is_comment p)
    (tns_token_type p) (key_type p) (allocs p).
Definition set_token (p : ObClientTnsParseParams) (t : ObClientTnsTokenType) : ObClientTnsParseParams :=
  Params (tns_buffer p) (tns_key p) (buffer_pos p) (tns_key_len p) (is_eof p) (mode p) (tns_file p) (description p) (description_offset p) (is_comment p)
    t (key_type p) (allocs p).
Definition set_key_type (p : ObClientTnsParseParams) (t : ObClientLBKeyType) : ObClientTnsParseParams :=
  Params (tns_buffer p) (tns_key p) (buffer_pos p) (tns_key_len p) (is_eof p) (mode p) (tns_file p) (description p) (description_offset p) (is_comment p)
    (tns_token_type p) t (allocs p).
Definition set_allocs (p : ObClientTnsParseParams) (l : list bool) : ObClientTnsParseParams :=
  Params (tns_buffer p) (tns_key p) (buffer_pos p) (tns_key_len p) (is_eof p) (mode p) (tns_file p) (description p) (description_offset p) (is_comment p)
    (tns_token_type p) (key_type p) l.

(** malloc or realloc; it succeeds when nothing else is said. *)
Definition alloc (p : ObClientTnsParseParams) : bool * ObClientTnsParseParams :=
  match allocs p with [] => (true, p) | ok :: l => (ok, set_allocs p l) end.

(** * The buffer *)

Definition refill (p : ObClientTnsParseParams) (data file : bytes) (offset : Z) : ObClientTnsParseParams :=
  Params data (tns_key p) 0 (tns_key_len p) (is_eof p || (Z.of_nat (length data) =? 0)) (mode p) file (description p) offset (is_comment p)
    (tns_token_type p) (key_type p) (allocs p).

Definition ObClientTnsCheckBuffer (p : ObClientTnsParseParams) : Z * ObClientTnsParseParams :=
  if buffer_pos p <? buffer_len p then (0, p)
  else if is_eof p then (-1, p)
  else
    let p := match mode p with
             | TNS_MODE_DESCRIPTION =>
                 let data := take (Z.to_nat OBCLIENT_TNS_BUFFER_SIZE) (drop (Z.to_nat (description_offset p)) (description p)) in
                 refill p data (tns_file p) (description_offset p + Z.of_nat (length data))
             | TNS_MODE_FILE =>
                 refill p (take (Z.to_nat OBCLIENT_TNS_BUFFER_SIZE) (tns_file p)) (drop (Z.to_nat OBCLIENT_TNS_BUFFER_SIZE) (tns_file p)) (description_offset p)
             end in
    (if buffer_len p =? 0 then -1 else 0, p).

(** What has not been read yet bounds the rounds over the buffer. *)
Definition unread (p : ObClientTnsParseParams) : bytes :=
  match mode p with TNS_MODE_DESCRIPTION => drop (Z.to_nat (description_offset p)) (description p) | TNS_MODE_FILE => tns_file p end.

Definition in_buffer (p : ObClientTnsParseParams) : bytes := drop (Z.to_nat (buffer_pos p)) (tns_buffer p).

Definition is_blank (c : Z) : bool := (c =? 9) || (c =? 10) || (c =? 32) || (c =? 13).

(** The blanks and comments at the start of the buffered characters: their number, and whether a
    comment goes on. *)
Fixpoint blanks (chars : bytes) (comment : bool) : Z * bool :=
  match chars with
  | [] => (0, comment)
  | c :: chars =>
      if comment then
        if c =? 0 then (0, false) else let '(n, r) := blanks chars (negb (c =? 10)) in (1 + n, r)
      else if is_blank c then let '(n, r) := blanks chars false in (1 + n, r)
      else if c =? 35 then let '(n, r) := blanks chars true in (1 + n, r)
      else (0, false)
  end.

(** Each loop of the lexer counts its rounds and is out of fuel when they are used up. *)
Fixpoint blank_loop (rounds : nat) (p : ObClientTnsParseParams) : cres (Z * ObClientTnsParseParams) :=
  let '(ret, p) := ObClientTnsCheckBuffer p in
  if negb (ret =? 0) then Ret (if is_eof p then TNS_NO_DATA else ret, p)
  else
    let '(n, comment) := blanks (in_buffer p) (is_comment p) in
    let p := set_buffer_pos p (buffer_pos p + n) comment in
    if buffer_pos p <? buffer_len p then Ret (0, p)
    else match rounds with O => OutOfFuel | S rounds => blank_loop rounds p end.

Definition ObClientTnsParseBlank (p : ObClientTnsParseParams) : cres (Z * ObClientTnsParseParams) := blank_loop (S (length (unread p))) p.

(** * Words *)

Definition ends_key (c : Z) : bool := (c =? 32) || (c =? 10) || (c =? 13) || (c =? 9) || (c =? 61) || (c =? 40) || (c =? 41).

(** The characters that the word takes from the buffer: their number, whether a quote is open, and
    the word; [room] is what is left of the array. *)
Fixpoint key_chars (chars : bytes) (quote : bool) (room : nat) : Z * bool * bytes :=
  match chars, room with
  | c :: chars, S room' =>
      if c =? 34 then let '(n, q, k) := key_chars chars (negb quote) room in (1 + n, q, k)
      else if negb quote && ends_key c then (0, quote, [])
      else let '(n, q, k) := key_chars chars quote room' in (1 + n, q, c :: k)
  | _, _ => (0, quote, [])
  end.

(** [pos] characters are in the array. *)
Fixpoint key_loop (rounds : nat) (p : ObClientTnsParseParams) (pos : nat) (quote : bool) : cres (Z * ObClientTnsParseParams) :=
  let '(ret, p) := ObClientTnsCheckBuffer p in
  if negb (ret =? 0) then Ret (if is_eof p then TNS_NO_DATA else ret, p)
  else
    let '(n, quote, k) := key_chars (in_buffer p) quote (Z.to_nat OBCLIENT_TNS_KEY_SIZE - pos) in
    let pos' := (pos + length k)%nat in
    let p := set_key p (buffer_pos p + n) (splice (Z.of_nat pos) k (tns_key p)) (tns_key_len p) in
    if buffer_pos p <? buffer_len p then Ret (0, set_key p (buffer_pos p) (tns_key p) (Z.of_nat pos'))
    else if Z.of_nat pos' =? OBCLIENT_TNS_KEY_SIZE then Ret (-1, p)
    else match rounds with O => OutOfFuel | S rounds => key_loop rounds p pos' quote end.

Definition ObClientTnsParseKey (p : ObClientTnsParseParams) : cres (Z * ObClientTnsParseParams) := key_loop (S (length (unread p))) p 0 false.

Definition token_of (c : Z) : ObClientTnsTokenType :=
  if c =? 61 then TNS_EQUAL_SIGN else if c =? 40 then TNS_LEFT_PARENTHESES else if c =? 41 then TNS_RIGHT_PARENTHESES else TNS_KEY.

(** [head] is there: [ObClientTnsParseBlank] succeeded. *)
Definition ObClientTnsParse (p : ObClientTnsParseParams) (expect_type : ObClientTnsTokenType) : cres (Z * ObClientTnsParseParams) :=
  '(ret, p) ← ObClientTnsParseBlank p;
  if negb (ret =? 0) then Ret (ret, p)
  else
    let got_type := token_of (default 0 (head (in_buffer p))) in
    if decide (got_type <> expect_type) then Ret (-1, p)
    else if decide (got_type = TNS_KEY) then ObClientTnsParseKey (set_token p got_type)
    else
      let p := set_token p got_type in
      Ret (0, set_buffer_pos p (buffer_pos p + 1) (is_comment p)).

(** * Key words *)

(** strncasecmp(a, b, n) == 0. *)
Fixpoint strncaseeq (n : nat) (a b : bytes) : bool :=
  match n with
  | O => true
  | S n =>
      match a, b with
      | c :: a, d :: b => (tolower c =? tolower d) && ((c =? 0) || strncaseeq n a b)
      | _, _ => false
      end
  end.

Definition tns_keys : list (string * ObClientLBKeyType) := [
  ("SID", OBCLIENT_LB_SID); ("OBLB", OBCLIENT_LB_OBLB); ("HOST", OBCLIENT_LB_HOST); ("PORT", OBCLIENT_LB_PORT); ("NAME", OBCLIENT_LB_NAME);
  ("WEIGHT", OBCLIENT_LB_WEIGHT); ("ADDRESS", OBCLIENT_LB_ADDRESS); ("TIMEOUT", OBCLIENT_LB_TIMEOUT); ("OB_MODE", OBCLIENT_LB_OB_MODE);
  ("PROTOCOL", OBCLIENT_LB_PROTOCOL); ("DURATION", OBCLIENT_LB_DRUATION); ("RETRYTIMES", OBCLIENT_LB_RETRY_TIMES);
  ("DESCRIPTION", OBCLIENT_LB_DESCRIPTION); ("RETRY_TIMES", OBCLIENT_LB_RETRY_TIMES); ("ADDRESS_LIST", OBCLIENT_LB_ADDRESS_LIST);
  ("CONNECT_DATA", OBCLIENT_LB_CONNECT_DATA); ("SERVICE_NAME", OBCLIENT_LB_SERVICE_NAME); ("OBLB_STRATEGY", OBCLIENT_LB_OBLB_STRATEGY);
  ("OB_ENABLE_SSL", OBCLIENT_LB_OB_ENABLE_SSL); ("OBLB_BLACKLIST", OBCLIENT_LB_OBLB_BLACKLIST); ("REMOVE_STRATEGY", OBCLIENT_LB_REMOVE_STRATEGY);
  ("APPEND_STRATEGY", OBCLIENT_LB_APPEND_STRATEGY); ("USE_DEFAULT_SID", OBCLIENT_LB_USE_DEFAULT_SID);
  ("SESSION_VARIABLE", OBCLIENT_LB_SESSION_VARIABLE); ("OBLB_READ_TIMEOUT", OBCLIENT_LB_READ_TIMEOUT);
  ("OB_USER_EXTRA_INFO", OBCLIENT_LB_EXTRA_INFO); ("OBLB_RETRY_TIMEOUT", OBCLIENT_LB_OBLB_RETRY_TIMEOUT);
  ("OBLB_WRITE_TIMEOUT", OBCLIENT_LB_WRITE_TIMEOUT); ("OBLB_GROUP_STRATEGY", OBCLIENT_LB_OBLB_GROUP_STRATEGY);
  ("OB_SESSION_VARIABLE", OBCLIENT_LB_SESSION_VARIABLE); ("OBLB_RETRY_ALL_DOWNS", OBCLIENT_LB_OBLB_RETRY_ALL_DOWNS);
  ("OBLB_CONNECT_TIMEOUT", OBCLIENT_LB_CONNECT_TIMEOUT)]%string.

(** The words of the length [len], of which the arrays tns_key_0 to tns_key_20 hold one each. *)
Definition tns_key_array (len : Z) : list (string * ObClientLBKeyType) := filter (fun e => Z.of_nat (String.length e.1) = len) tns_keys.

Definition ObClientTnsGetKeyType (p : ObClientTnsParseParams) : Z * ObClientTnsParseParams :=
  if tns_key_len p <=? 20 then
    let t := fold_left (fun t e => if strncaseeq (Z.to_nat (tns_key_len p)) (tns_key p) (str e.1) then e.2 else t)
               (tns_key_array (tns_key_len p)) OBCLIENT_LB_ERROR_KEY in
    (if decide (t = OBCLIENT_LB_ERROR_KEY) then -1 else 0, set_key_type p t)
  else (0, set_key_type p OBCLIENT_LB_ERROR_KEY).

(** TNS_GET_KEY_TYPE *)
Definition tns_get_key_type (p : ObClientTnsParseParams) : Z * ObClientTnsParseParams :=
  let '(ret, p) := ObClientTnsGetKeyType p in
  (if (ret =? 0) && bool_decide (key_type p = OBCLIENT_LB_ERROR_KEY) then -1 else ret, p).

(** A step is done when the one before it succeeded. *)
Definition and_then (r : Z * ObClientTnsParseParams) (f : ObClientTnsParseParams -> cres (Z * ObClientTnsParseParams)) : cres (Z * ObClientTnsParseParams) :=
  if r.1 =? 0 then f r.2 else Ret r.

(** The start of a pair: a parenthesis, a key word, an equals sign. *)
Definition pair_head (p : ObClientTnsParseParams) : cres (Z * ObClientTnsParseParams) :=
  r ← ObClientTnsParse p TNS_LEFT_PARENTHESES;
  r ← and_then r (fun p => ObClientTnsParse p TNS_KEY);
  r ← and_then r (fun p => Ret (tns_get_key_type p));
  and_then r (fun p => ObClientTnsParse p TNS_EQUAL_SIGN).

(** strncasecmp(tns_key, word, tns_key_len) == 0 *)
Definition key_is (p : ObClientTnsParseParams) (word : string) : bool := strncaseeq (Z.to_nat (tns_key_len p)) (tns_key p) (str word ++ [0]).

(** * Values *)

(** strncpy to the start of an array. *)
Fixpoint until_nul (s : bytes) : bytes :=
  match s with
  | [] => []
  | c :: s => if c =? 0 then [] else c :: until_nul s
  end.
Definition strncpy (dest src : bytes) (n : Z) : bytes :=
  let s := until_nul (take (Z.to_nat n) src) in splice 0 (s ++ repeat 0 (Z.to_nat n - length s)) dest.

(** TNS_PARSE_STRING_VALUE; the array and its length.  Words that are too long are ignored. *)
Definition string_value (p : ObClientTnsParseParams) (dest : bytes) (dest_len dest_limit : Z) : cres (Z * ObClientTnsParseParams * bytes * Z) :=
  '(ret, p) ← ObClientTnsParse p TNS_KEY;
  Ret (if (ret =? 0) && (tns_key_len p <=? dest_limit) then (ret, p, strncpy dest (tns_key p) (tns_key_len p), tns_key_len p)
       else (ret, p, dest, dest_len)).

(** TNS_PARSE_INTRGER_VALUE *)
Definition integer_value (p : ObClientTnsParseParams) : cres (Z * ObClientTnsParseParams * Z) :=
  '(ret, p) ← ObClientTnsParse p TNS_KEY;
  '(v, endptr) ← strtoll10 (tns_key p) 0 (tns_key_len p);
  Ret (if tns_key_len p =? endptr then ret else -1, p, u64 v).

(** The options of a key word; the first that matches counts. *)
Fixpoint choose {A} (p : ObClientTnsParseParams) (options : list (string * A)) : option A :=
  match options with
  | [] => None
  | (w, a) :: options => if key_is p w then Some a else choose p options
  end.

Definition choice {A} (p : ObClientTnsParseParams) (options : list (string * A)) (old : A) : cres (Z * ObClientTnsParseParams * A) :=
  '(ret, p) ← ObClientTnsParse p TNS_KEY;
  Ret (match choose p options with Some a => (ret, p, a) | None => (-1, p, old) end).

(** * Lists of pairs *)

(** The loop over the pairs of a value; [handle] reads the value of a pair. *)
Fixpoint pairs {A} (fuel : nat) (handle : ObClientLBKeyType -> A -> ObClientTnsParseParams -> cres (Z * A * ObClientTnsParseParams))
    (a : A) (p : ObClientTnsParseParams) : cres (A * ObClientTnsParseParams) :=
  '(ret, p) ← pair_head p;
  '(ret, a, p) ← (if ret =? 0 then handle (key_type p) a p else Ret (ret, a, p));
  '(ret, p) ← and_then (ret, p) (fun p => ObClientTnsParse p TNS_RIGHT_PARENTHESES);
  if ret =? 0 then match fuel with O => OutOfFuel | S fuel => pairs fuel handle a p end
  else Ret (a, p).

(** The list has ended when no parenthesis follows that of its last pair. *)
Definition pairs_end (p : ObClientTnsParseParams) : bool := bool_decide (tns_token_type p = TNS_RIGHT_PARENTHESES).

Definition build {A} (fuel : nat) (handle : ObClientLBKeyType -> A -> ObClientTnsParseParams -> cres (Z * A * ObClientTnsParseParams))
    (a : A) (p : ObClientTnsParseParams) : cres (Z * A * ObClientTnsParseParams) :=
  '(a, p) ← pairs fuel handle a p;
  Ret (if pairs_end p then 0 else -1, a, p).

(** * Addresses *)

Record ObClientAddress : Type := Address { host : bytes; protocol : bytes; host_len : Z; protocol_len : Z; port : Z; weight : Z }.

Definition ObClientAddressInit : ObClientAddress :=
  Address (repeat 0 (Z.to_nat (OBCLIENT_TNS_HOST_BUFFER_SIZE + 1))) (repeat 0 (Z.to_nat OBCLIENT_TNS_PORT_BUFFER_SIZE)) 0 0 0 1.

Definition known_protocol (s : bytes) (len : Z) : bool :=
  ((len =? 3) && strncaseeq (Z.to_nat len) s (str "TCP" ++ [0])) || ((len =? 4) && strncaseeq (Z.to_nat len) s (str "TCPS" ++ [0])).

Definition address_pair (t : ObClientLBKeyType) (a : ObClientAddress) (p : ObClientTnsParseParams) : cres (Z * ObClientAddress * ObClientTnsParseParams) :=
  match t with
  | OBCLIENT_LB_PROTOCOL =>
      '(ret, p, s, len) ← string_value p (protocol a) (protocol_len a) OBCLIENT_TNS_PORT_BUFFER_SIZE;
      Ret (if known_protocol s len then ret else -1, Address (host a) s (host_len a) len (port a) (weight a), p)
  | OBCLIENT_LB_HOST =>
      '(ret, p, s, len) ← string_value p (host a) (host_len a) OBCLIENT_TNS_HOST_BUFFER_SIZE;
      Ret (ret, Address s (protocol a) len (protocol_len a) (port a) (weight a), p)
  | OBCLIENT_LB_PORT =>
      '(ret, p, v) ← integer_value p; Ret (ret, Address (host a) (protocol a) (host_len a) (protocol_len a) v (weight a), p)
  | OBCLIENT_LB_WEIGHT =>
      '(ret, p, v) ← integer_value p; Ret (ret, Address (host a) (protocol a) (host_len a) (protocol_len a) (port a) v, p)
  | _ => Ret (-1, a, p)
  end.

(** The array of addresses has room for [address_memory]. *)
Record ObClientAddressList : Type := AddressList { address : list ObClientAddress; address_memory : Z; list_oblb : bool; list_strategy : Z }.

(** realloc when the array is full. *)
Definition check (count memory : Z) (p : ObClientTnsParseParams) : Z * Z * ObClientTnsParseParams :=
  if count =? memory then
    let '(ok, p) := alloc p in if ok then (0, memory + OBCLIENT_TNS_MEMORY_COUNT, p) else (-1, memory, p)
  else (0, memory, p).

Definition ObClientAddressListCheck (l : ObClientAddressList) (p : ObClientTnsParseParams) : Z * ObClientAddressList * ObClientTnsParseParams :=
  let '(ret, memory, p) := check (Z.of_nat (length (address l))) (address_memory l) p in
  (ret, AddressList (address l) memory (list_oblb l) (list_strategy l), p).

Definition ObClientAddressListInit (p : ObClientTnsParseParams) : Z * ObClientAddressList * ObClientTnsParseParams :=
  ObClientAddressListCheck (AddressList [] 0 false 0) p.

Definition ObClientAddressListClear (l : ObClientAddressList) : ObClientAddressList :=
  if address_memory l =? 0 then l else AddressList [] 0 (list_oblb l) (list_strategy l).

Definition ObClientAddressBuild (fuel : nat) (l : ObClientAddressList) (p : ObClientTnsParseParams) : cres (Z * ObClientAddressList * ObClientTnsParseParams) :=
  let '(ret, l, p) := ObClientAddressListCheck l p in
  if negb (ret =? 0) then Ret (-1, l, p)
  else
    '(ret, a, p) ← build fuel address_pair ObClientAddressInit p;
    Ret (ret, if ret =? 0 then AddressList (address l ++ [a]) (address_memory l) (list_oblb l) (list_strategy l) else l, p).

Definition on_off : list (string * bool) := [("ON", true); ("OFF", false)]%string.
Definition strategies : list (string * Z) :=
  [("RANDOM", OBCLIENT_LB_OPTION_RANDOM); ("SERVERAFFINITY", OBCLIENT_LB_OPTION_SERVERAFFINITY); ("ROTATION", OBCLIENT_LB_OPTION_ROTATION)]%string.

Definition address_list_pair (fuel : nat) (t : ObClientLBKeyType) (l : ObClientAddressList) (p : ObClientTnsParseParams)
    : cres (Z * ObClientAddressList * ObClientTnsParseParams) :=
  match t with
  | OBCLIENT_LB_ADDRESS => ObClientAddressBuild fuel l p
  | OBCLIENT_LB_OBLB_STRATEGY =>
      '(ret, p, v) ← choice p strategies (list_strategy l); Ret (ret, AddressList (address l) (address_memory l) (list_oblb l) v, p)
  | OBCLIENT_LB_OBLB =>
      '(ret, p, v) ← choice p on_off (list_oblb l); Ret (ret, AddressList (address l) (address_memory l) v (list_strategy l), p)
  | _ => Ret (-1, l, p)
  end.

(** * The list of addresses that failed *)

Record ObClientBlacklistConf : Type := BlacklistConf {
  remove_strategy : Z; remove_timeout : Z; append_strategy : Z; retry_times : Z; duration : Z }.

Definition ObClientBlacklistConfInit : ObClientBlacklistConf := BlacklistConf OBCLIENT_LB_OPTION_TIMEOUT 50 OBCLIENT_LB_OPTION_NORMAL 1 10.

Definition remove_pair (t : ObClientLBKeyType) (b : ObClientBlacklistConf) (p : ObClientTnsParseParams) : cres (Z * ObClientBlacklistConf * ObClientTnsParseParams) :=
  match t with
  | OBCLIENT_LB_NAME =>
      '(ret, p, v) ← choice p [("TIMEOUT"%string, OBCLIENT_LB_OPTION_TIMEOUT)] (remove_strategy b);
      Ret (ret, BlacklistConf v (remove_timeout b) (append_strategy b) (retry_times b) (duration b), p)
  | OBCLIENT_LB_TIMEOUT =>
      '(ret, p, v) ← integer_value p; Ret (ret, BlacklistConf (remove_strategy b) v (append_strategy b) (retry_times b) (duration b), p)
  | _ => Ret (-1, b, p)
  end.

Definition ObClientRemoveStrategyBuild (fuel : nat) := build fuel remove_pair.

Definition append_pair (t : ObClientLBKeyType) (b : ObClientBlacklistConf) (p : ObClientTnsParseParams) : cres (Z * ObClientBlacklistConf * ObClientTnsParseParams) :=
  match t with
  | OBCLIENT_LB_NAME =>
      '(ret, p, v) ← choice p [("RETRYDURATION", OBCLIENT_LB_OPTION_RETRY_DERUATION); ("NORMAL", OBCLIENT_LB_OPTION_NORMAL)]%string (append_strategy b);
      Ret (ret, BlacklistConf (remove_strategy b) (remove_timeout b) v (retry_times b) (duration b), p)
  | OBCLIENT_LB_RETRY_TIMES =>
      '(ret, p, v) ← integer_value p; Ret (ret, BlacklistConf (remove_strategy b) (remove_timeout b) (append_strategy b) v (duration b), p)
  | OBCLIENT_LB_DRUATION =>
      '(ret, p, v) ← integer_value p; Ret (ret, BlacklistConf (remove_strategy b) (remove_timeout b) (append_strategy b) (retry_times b) v, p)
  | _ => Ret (-1, b, p)
  end.

Definition ObClientAppendStrategyBuild (fuel : nat) := build fuel append_pair.

Definition blacklist_pair (fuel : nat) (t : ObClientLBKeyType) (b : ObClientBlacklistConf) (p : ObClientTnsParseParams)
    : cres (Z * ObClientBlacklistConf * ObClientTnsParseParams) :=
  match t with
  | OBCLIENT_LB_REMOVE_STRATEGY => ObClientRemoveStrategyBuild fuel b p
  | OBCLIENT_LB_APPEND_STRATEGY => ObClientAppendStrategyBuild fuel b p
  | _ => Ret (-1, b, p)
  end.

Definition ObClientBlacklistConfBuild (fuel : nat) := build fuel (blacklist_pair fuel).

(** * Connect data *)

Record ObClientConnectData : Type := ConnectData {
  service_name : bytes; service_name_len : Z; user_extra_info : bytes; user_extra_info_len : Z;
  session_variable : bytes; session_variable_len : Z; ob_mode : Z; use_default_sid : Z; ob_enable_ssl : Z }.

Definition ObClientConnectDataInit : ObClientConnectData :=
  ConnectData (repeat 0 (Z.to_nat (OBCLIENT_TNS_KEY_SIZE + 1))) 0 (repeat 0 (Z.to_nat OBCLIENT_TNS_KEY_SIZE)) 0
    (repeat 0 (Z.to_nat OBCLIENT_TNS_KEY_SIZE)) 0 0 0 0.

Definition connect_pair (t : ObClientLBKeyType) (c : ObClientConnectData) (p : ObClientTnsParseParams) : cres (Z * ObClientConnectData * ObClientTnsParseParams) :=
  match t with
  | OBCLIENT_LB_SERVICE_NAME | OBCLIENT_LB_SID =>
      '(ret, p, s, len) ← string_value p (service_name c) (service_name_len c) OBCLIENT_TNS_KEY_SIZE;
      Ret (ret, ConnectData s len (user_extra_info c) (user_extra_info_len c) (session_variable c) (session_variable_len c) (ob_mode c)
             (use_default_sid c) (ob_enable_ssl c), p)
  | OBCLIENT_LB_EXTRA_INFO =>
      '(ret, p, s, len) ← string_value p (user_extra_info c) (user_extra_info_len c) OBCLIENT_TNS_KEY_SIZE;
      Ret (ret, ConnectData (service_name c) (service_name_len c) s len (session_variable c) (session_variable_len c) (ob_mode c)
             (use_default_sid c) (ob_enable_ssl c), p)
  | OBCLIENT_LB_OB_MODE =>
      '(ret, p, v) ← integer_value p;
      Ret (ret, ConnectData (service_name c) (service_name_len c) (user_extra_info c) (user_extra_info_len c) (session_variable c)
             (session_variable_len c) v (use_default_sid c) (ob_enable_ssl c), p)
  | OBCLIENT_LB_USE_DEFAULT_SID =>
      '(ret, p, v) ← integer_value p;
      Ret (ret, ConnectData (service_name c) (service_name_len c) (user_extra_info c) (user_extra_info_len c) (session_variable c)
             (session_variable_len c) (ob_mode c) v (ob_enable_ssl c), p)
  | OBCLIENT_LB_SESSION_VARIABLE =>
      '(ret, p, s, len) ← string_value p (session_variable c) (session_variable_len c) OBCLIENT_TNS_KEY_SIZE;
      Ret (ret, ConnectData (service_name c) (service_name_len c) (user_extra_info c) (user_extra_info_len c) s len (ob_mode c)
             (use_default_sid c) (ob_enable_ssl c), p)
  | OBCLIENT_LB_OB_ENABLE_SSL =>
      '(ret, p, v) ← integer_value p;
      Ret (ret, ConnectData (service_name c) (service_name_len c) (user_extra_info c) (user_extra_info_len c) (session_variable c)
             (session_variable_len c) (ob_mode c) (use_default_sid c) v, p)
  | _ => Ret (-1, c, p)
  end.

(** The result of the loop is in a variable of its own that hides [ret]: once the memory is there
    the function returns 0. *)
Definition ObClientConnectDataBuild (fuel : nat) (old : option ObClientConnectData) (p : ObClientTnsParseParams)
    : cres (Z * option ObClientConnectData * ObClientTnsParseParams) :=
  let '(ok, p) := alloc p in
  if negb ok then Ret (-1, old, p)
  else
    '(c, p) ← pairs fuel connect_pair ObClientConnectDataInit p;
    Ret (0, if pairs_end p then match old with None => Some c | Some _ => old end else old, p).

(** * Descriptions *)

Record ObClientDescription : Type := Description {
  address_list : list ObClientAddressList; address_list_memory : Z; connect_data : option ObClientConnectData; oblb : bool;
  retry_all_downs : Z; connect_timout : Z; read_timout : Z; write_timout : Z; retry_timeout : Z;
  oblb_strategy : Z; oblb_group_strategy : Z; black_list_conf : ObClientBlacklistConf }.

Definition set_address_list (d : ObClientDescription) (l : list ObClientAddressList) (memory : Z) : ObClientDescription :=
  Description l memory (connect_data d) (oblb d) (retry_all_downs d) (connect_timout d) (read_timout d) (write_timout d) (retry_timeout d)
    (oblb_strategy d) (oblb_group_strategy d) (black_list_conf d).
Definition set_connect_data (d : ObClientDescription) (c : option ObClientConnectData) : ObClientDescription :=
  Description (address_list d) (address_list_memory d) c (oblb d) (retry_all_downs d) (connect_timout d) (read_timout d) (write_timout d)
    (retry_timeout d) (oblb_strategy d) (oblb_group_strategy d) (black_list_conf d).
Definition set_blacklist (d : ObClientDescription) (b : ObClientBlacklistConf) : ObClientDescription :=
  Description (address_list d) (address_list_memory d) (connect_data d) (oblb d) (retry_all_downs d) (connect_timout d) (read_timout d)
    (write_timout d) (retry_timeout d) (oblb_strategy d) (oblb_group_strategy d) b.
Definition set_strategies (d : ObClientDescription) (lb : bool) (strategy group : Z) : ObClientDescription :=
  Description (address_list d) (address_list_memory d) (connect_data d) lb (retry_all_downs d) (connect_timout d) (read_timout d) (write_timout d)
    (retry_timeout d) strategy group (black_list_conf d).
Definition set_times (d : ObClientDescription) (downs connect read write timeout : Z) : ObClientDescription :=
  Description (address_list d) (address_list_memory d) (connect_data d) (oblb d) downs connect read write timeout (oblb_strategy d)
    (oblb_group_strategy d) (black_list_conf d).

Definition ObClientDescriptionCheck (d : ObClientDescription) (p : ObClientTnsParseParams) : Z * ObClientDescription * ObClientTnsParseParams :=
  let '(ret, memory, p) := check (Z.of_nat (length (address_list d))) (address_list_memory d) p in
  (ret, set_address_list d (address_list d) memory, p).

(** The first group is for addresses outside groups; that its array could not be allocated is not
    noticed. *)
Definition ObClientDescriptionInit (p : ObClientTnsParseParams) : Z * ObClientDescription * ObClientTnsParseParams :=
  let '(ret, d, p) := ObClientDescriptionCheck (Description [] 0 None false 0 0 0 0 0 0 0 ObClientBlacklistConfInit) p in
  if negb (ret =? 0) then (-1, d, p)
  else
    let '(_, l, p) := ObClientAddressListInit p in
    (0, Description [l] (address_list_memory d) None false 120 0 0 0 10000 0 OBCLIENT_LB_OPTION_GROUP_ROTATION (black_list_conf d), p).

Definition ObClientAddressListBuild (fuel : nat) (d : ObClientDescription) (p : ObClientTnsParseParams) : cres (Z * ObClientDescription * ObClientTnsParseParams) :=
  let '(ret, d, p) := ObClientDescriptionCheck d p in
  if negb (ret =? 0) then Ret (-1, d, p)
  else
    let '(ret, l, p) := ObClientAddressListInit p in
    if negb (ret =? 0) then Ret (ret, d, p)
    else
      '(ret, l, p) ← build fuel (address_list_pair fuel) l p;
      Ret (ret, if ret =? 0 then set_address_list d (address_list d ++ [l]) (address_list_memory d) else d, p).

Definition description_pair (fuel : nat) (t : ObClientLBKeyType) (d : ObClientDescription) (p : ObClientTnsParseParams)
    : cres (Z * ObClientDescription * ObClientTnsParseParams) :=
  match t with
  | OBCLIENT_LB_OBLB =>
      '(ret, p, v) ← choice p on_off (oblb d); Ret (ret, set_strategies d v (oblb_strategy d) (oblb_group_strategy d), p)
  | OBCLIENT_LB_OBLB_RETRY_ALL_DOWNS =>
      '(ret, p, v) ← integer_value p; Ret (ret, set_times d v (connect_timout d) (read_timout d) (write_timout d) (retry_timeout d), p)
  | OBCLIENT_LB_OBLB_RETRY_TIMEOUT =>
      '(ret, p, v) ← integer_value p; Ret (ret, set_times d (retry_all_downs d) (connect_timout d) (read_timout d) (write_timout d) v, p)
  | OBCLIENT_LB_CONNECT_TIMEOUT =>
      '(ret, p, v) ← integer_value p; Ret (ret, set_times d (retry_all_downs d) v (read_timout d) (write_timout d) (retry_timeout d), p)
  | OBCLIENT_LB_READ_TIMEOUT =>
      '(ret, p, v) ← integer_value p; Ret (ret, set_times d (retry_all_downs d) (connect_timout d) v (write_timout d) (retry_timeout d), p)
  | OBCLIENT_LB_WRITE_TIMEOUT =>
      '(ret, p, v) ← integer_value p; Ret (ret, set_times d (retry_all_downs d) (connect_timout d) (read_timout d) v (retry_timeout d), p)
  | OBCLIENT_LB_OBLB_STRATEGY =>
      '(ret, p, v) ← choice p strategies (oblb_strategy d); Ret (ret, set_strategies d (oblb d) v (oblb_group_strategy d), p)
  | OBCLIENT_LB_OBLB_GROUP_STRATEGY =>
      '(ret, p, v) ← choice p [("ROTATION"%string, OBCLIENT_LB_OPTION_GROUP_ROTATION)] (oblb_group_strategy d);
      Ret (ret, set_strategies d (oblb d) (oblb_strategy d) v, p)
  | OBCLIENT_LB_OBLB_BLACKLIST =>
      '(ret, b, p) ← ObClientBlacklistConfBuild fuel (black_list_conf d) p; Ret (ret, set_blacklist d b, p)
  | OBCLIENT_LB_ADDRESS_LIST => ObClientAddressListBuild fuel d p
  | OBCLIENT_LB_CONNECT_DATA =>
      '(ret, c, p) ← ObClientConnectDataBuild fuel (connect_data d) p; Ret (ret, set_connect_data d c, p)
  | OBCLIENT_LB_ADDRESS =>
      let '(ret, d, p) := ObClientDescriptionCheck d p in
      if negb (ret =? 0) then Ret (-1, d, p)
      else
        l ← of_option (head (address_list d));
        '(ret, l, p) ← ObClientAddressBuild fuel l p;
        Ret (if ret =? 0 then 0 else -1, set_address_list d (l :: tail (address_list d)) (address_list_memory d), p)
  | _ => Ret (-1, d, p)
  end.

(** The values of a description behind its equals sign. *)
Definition description_body (fuel : nat) (p : ObClientTnsParseParams) : cres (Z * ObClientDescription * ObClientTnsParseParams) :=
  let '(ret, d, p) := ObClientDescriptionInit p in
  if negb (ret =? 0) then Ret (-1, d, p) else build fuel (description_pair fuel) d p.

Definition ObClientDescriptionClear (d : ObClientDescription) : ObClientDescription :=
  set_connect_data (if address_list_memory d =? 0 then d else set_address_list d [] 0) None.

(** * Services *)

Record ObClientSystemVariables : Type := SystemVariables { sys_session_variable : bytes; sys_session_variable_len : Z }.

Record ObClientTnsService : Type := TnsService {
  descriptions : list ObClientDescription; description_memory : Z; sys_vars : ObClientSystemVariables;
  net_service_name : bytes; net_service_name_len : Z }.

Record ObClientTns : Type := MkTns { tns_service : option ObClientTnsService; tns_service_count : Z }.

Definition ObClientTnsInit : ObClientTns := MkTns None 0.

Definition ObClientSystemVariablesInit : ObClientSystemVariables := SystemVariables (repeat 0 (Z.to_nat (OBCLIENT_TNS_KEY_SIZE + 1))) 0.

Definition ObClientTnsServiceInit (name : bytes) (name_size : Z) : ObClientTnsService :=
  TnsService [] 0 ObClientSystemVariablesInit
    (strncpy (repeat 0 (Z.to_nat OBCLIENT_TNS_BUFFER_SIZE)) name (Z.min name_size OBCLIENT_TNS_BUFFER_SIZE)) name_size.

Definition set_descriptions (s : ObClientTnsService) (l : list ObClientDescription) (memory : Z) : ObClientTnsService :=
  TnsService l memory (sys_vars s) (net_service_name s) (net_service_name_len s).

Definition ObClientTnsServiceCheck (s : ObClientTnsService) (p : ObClientTnsParseParams) : Z * ObClientTnsService * ObClientTnsParseParams :=
  let '(ret, memory, p) := check (Z.of_nat (length (descriptions s))) (description_memory s) p in
  (ret, set_descriptions s (descriptions s) memory, p).

(** -1 when there is nothing to release. *)
Definition ObClientTnsServiceClear (s : ObClientTnsService) : Z * ObClientTnsService :=
  match descriptions s with [] => (-1, s) | _ => (0, set_descriptions s [] 0) end.

Definition ObClientTnsClear (t : ObClientTns) : ObClientTns :=
  match tns_service t with
  | Some s => if tns_service_count t =? 0 then t else MkTns (Some (snd (ObClientTnsServiceClear s))) (tns_service_count t)
  | None => t
  end.

Definition ObClientDescriptionBuild (fuel : nat) (s : ObClientTnsService) (p : ObClientTnsParseParams) : cres (Z * ObClientTnsService * ObClientTnsParseParams) :=
  let '(ret, s, p) := ObClientTnsServiceCheck s p in
  if negb (ret =? 0) then Ret (-1, s, p)
  else
    '(ret, d, p) ← description_body fuel p;
    Ret (ret, if ret =? 0 then set_descriptions s (descriptions s ++ [d]) (description_memory s) else s, p).

Definition ObClientSystemVariablesBuild (v : ObClientSystemVariables) (p : ObClientTnsParseParams) : cres (Z * ObClientSystemVariables * ObClientTnsParseParams) :=
  match key_type p with
  | OBCLIENT_LB_SESSION_VARIABLE =>
      '(ret, p, s, len) ← string_value p (sys_session_variable v) (sys_session_variable_len v) OBCLIENT_TNS_KEY_SIZE;
      Ret (ret, SystemVariables s len, p)
  | _ => '(_, p) ← ObClientTnsParse p TNS_KEY; Ret (0, v, p)
  end.

Definition add_service (t : ObClientTns) (s : ObClientTnsService) : ObClientTns :=
  MkTns (match tns_service t with None => Some s | old => old end) (tns_service_count t + 1).

(** The loop over the descriptions of a service; [ok] tells whether a pair was read. *)
Fixpoint service_pairs (fuel : nat) (is_sys_vars : bool) (s : ObClientTnsService) (p : ObClientTnsParseParams) (ok : bool)
    : cres (ObClientTnsService * ObClientTnsParseParams * bool) :=
  '(ret, p) ← ObClientTnsParse p TNS_LEFT_PARENTHESES;
  if negb (ret =? 0) then Ret (s, p, ok)
  else
    r ← ObClientTnsParse p TNS_KEY;
    '(ret, p) ← and_then r (fun p => Ret (tns_get_key_type p));
    let ret := if is_sys_vars then 0 else ret in
    '(ret, p) ← and_then (ret, p) (fun p => ObClientTnsParse p TNS_EQUAL_SIGN);
    '(ret, s, p) ← (if negb (ret =? 0) then Ret (ret, s, p)
                    else if is_sys_vars then
                      '(ret, v, p) ← ObClientSystemVariablesBuild (sys_vars s) p;
                      Ret (ret, TnsService (descriptions s) (description_memory s) v (net_service_name s) (net_service_name_len s), p)
                    else if bool_decide (key_type p = OBCLIENT_LB_DESCRIPTION) then ObClientDescriptionBuild fuel s p
                    else Ret (-1, s, p));
    '(ret, p) ← and_then (ret, p) (fun p => ObClientTnsParse p TNS_RIGHT_PARENTHESES);
    if ret =? 0 then match fuel with O => OutOfFuel | S fuel => service_pairs fuel is_sys_vars s p true end
    else Ret (s, p, ok).

Definition SYSTEM_VARIABLES : string := "OBCISYSTEMVARIABLES".

Definition ObClientTnsServiceBuild (fuel : nat) (t : ObClientTns) (p : ObClientTnsParseParams) : cres (Z * ObClientTns * ObClientTnsParseParams) :=
  let '(ok, p) := alloc p in
  if negb ok then Ret (-1, t, p)
  else
    let s := ObClientTnsServiceInit (tns_key p) (tns_key_len p) in
    '(s, p, parse_ok) ← service_pairs fuel (key_is p SYSTEM_VARIABLES) s p false;
    if parse_ok && pairs_end p then Ret (0, add_service t s, p) else Ret (-1, t, p).

(** strncmp(a, b, n) == 0. *)
Fixpoint strneq (n : nat) (a b : bytes) : bool :=
  match n with
  | O => true
  | S n =>
      match a, b with
      | c :: a, d :: b => (c =? d) && ((c =? 0) || strneq n a b)
      | _, _ => false
      end
  end.

(** Characters up to the parenthesis that closes [depth] open ones: their number and what stays
    open. *)
Fixpoint closing (chars : bytes) (depth : Z) : Z * Z :=
  match chars with
  | [] => (0, depth)
  | c :: chars =>
      if depth =? 0 then (0, depth)
      else
        let '(n, d) := closing chars (if c =? 40 then depth + 1 else if c =? 41 then depth - 1 else depth) in (1 + n, d)
  end.

Fixpoint skip_loop (rounds : nat) (p : ObClientTnsParseParams) (left_parentheses : Z) : cres (Z * ObClientTnsParseParams) :=
  if left_parentheses =? 0 then Ret (0, p)
  else
    let '(ret, p) := ObClientTnsCheckBuffer p in
    if negb (ret =? 0) then Ret (if is_eof p then TNS_NO_DATA else ret, p)
    else
      let '(n, left_parentheses) := closing (in_buffer p) left_parentheses in
      let p := set_buffer_pos p (buffer_pos p + n) (is_comment p) in
      match rounds with O => OutOfFuel | S rounds => skip_loop rounds p left_parentheses end.

Definition ObClientTnsServiceSkip (p : ObClientTnsParseParams) : cres (Z * ObClientTnsParseParams) :=
  if strneq (Z.to_nat (tns_key_len p)) (str SYSTEM_VARIABLES ++ [0]) (tns_key p) then Ret (0, set_eof p)
  else
    r ← ObClientTnsParse p TNS_LEFT_PARENTHESES;
    and_then r (fun p => skip_loop (S (length (unread p))) p 1).

(** * Finding a service *)

Definition parse_params (m : ObClientTnsParseMode) (file text : bytes) (l : list bool) : ObClientTnsParseParams :=
  Params [] (repeat 0 (Z.to_nat OBCLIENT_TNS_KEY_SIZE)) 0 0 false m file text 0 false TNS_EQUAL_SIGN OBCLIENT_LB_ERROR_KEY l.

(** The first thirteen characters that are not blank. *)
Fixpoint first_chars (n : nat) (text : bytes) : bytes :=
  match n, text with
  | S n', c :: text => if is_blank c then first_chars n text else c :: first_chars n' text
  | _, _ => []
  end.

Definition IsDescriptionTns (text : bytes) : bool := strncaseeq 13 (first_chars 13 text ++ repeat 0 7) (str "(DESCRIPTION=" ++ [0]).

(** Returns (ret, tns, find). *)
Definition ObClientTnsBuildDes (fuel : nat) (l : list bool) (t : ObClientTns) (dbname : bytes) : cres (Z * ObClientTns * bool) :=
  let p := parse_params TNS_MODE_DESCRIPTION [] dbname l in
  '(ret, p) ← pair_head p;
  let failed t ret := Ret (if ret =? TNS_NO_DATA then 0 else ret, t, false) in
  if negb (ret =? 0) then failed t ret
  else if bool_decide (key_type p <> OBCLIENT_LB_DESCRIPTION) then failed t (-1)
  else
    let '(ok, p) := alloc p in
    '(ret, s, p) ← (if negb ok then Ret (-1, ObClientTnsServiceInit [] 0, p)
                    else
                      '(ret, s, p) ← ObClientDescriptionBuild fuel (ObClientTnsServiceInit (tns_key p) (tns_key_len p)) p;
                      Ret (if ret =? 0 then 0 else -1, s, p));
    '(ret, p) ← and_then (ret, p) (fun p => ObClientTnsParse p TNS_RIGHT_PARENTHESES);
    '(ret, p) ← and_then (ret, p) (fun p => '(st, p) ← ObClientTnsParseBlank p; Ret (if st =? TNS_NO_DATA then 0 else -1, p));
    if (ret =? 0) && pairs_end p then Ret (0, add_service t s, true) else failed t (-1).

(** The loop over the services of a file. *)
Fixpoint find_service (fuel : nat) (t : ObClientTns) (dbname : bytes) (p : ObClientTnsParseParams) : cres (Z * ObClientTns * bool) :=
  if is_eof p then Ret (0, t, false)
  else
    r ← ObClientTnsParse p TNS_KEY;
    '(ret, p) ← and_then r (fun p => ObClientTnsParse p TNS_EQUAL_SIGN);
    if negb (ret =? 0) then Ret (if ret =? TNS_NO_DATA then 0 else ret, t, false)
    else if negb (Z.of_nat (length dbname) =? tns_key_len p) || negb (strneq (length dbname) dbname (tns_key p)) then
      '(ret, p) ← ObClientTnsServiceSkip p;
      if negb (ret =? 0) then Ret (if ret =? TNS_NO_DATA then 0 else ret, t, false)
      else match fuel with O => OutOfFuel | S fuel => find_service fuel t dbname p end
    else
      '(ret, t, p) ← ObClientTnsServiceBuild fuel t p;
      Ret (if ret =? 0 then 0 else -1, t, ret =? 0).

(** The name of the file: [getenv] is the environment. *)
Definition tns_file_name (getenv : string -> option bytes) : cres (option bytes) :=
  let empty := repeat 0 (Z.to_nat (OBCLIENT_TNS_KEY_SIZE + 1)) in
  let with_suffix (dir : bytes) (suffix : string) :=
    prefix_len ← strlen dir;
    let name := strncpy empty dir OBCLIENT_TNS_KEY_SIZE in
    if prefix_len >? OBCLIENT_TNS_KEY_SIZE then Fault
    else Ret (Some (take (Z.to_nat prefix_len) name
           ++ strncpy (drop (Z.to_nat prefix_len) name) (str suffix ++ [0]) (OBCLIENT_TNS_KEY_SIZE - prefix_len))) in
  match getenv "OBCI_TNS_FILE", getenv "TNS_ADMIN", getenv "ORACLE_HOME" with
  | Some f, _, _ => Ret (Some (strncpy empty f OBCLIENT_TNS_KEY_SIZE))
  | None, Some dir, _ => with_suffix dir "/tnsnames.ora"%string
  | None, None, Some dir => with_suffix dir "/network/admin/tnsnames.ora"%string
  | None, None, None => Ret None
  end%string.

(** [fopen] gives the contents of a file that can be opened. *)
Definition ObClientTnsBuild (fuel : nat) (l : list bool) (getenv : string -> option bytes) (fopen : bytes -> option bytes) (t : ObClientTns)
    (dbname : bytes) : cres (Z * ObClientTns * bool) :=
  if IsDescriptionTns dbname then ObClientTnsBuildDes fuel l t dbname
  else
    name ← tns_file_name getenv;
    match name with
    | None => Ret (0, t, false)
    | Some name =>
        match fopen (until_nul name) with
        | None => Ret (0, t, false)
        | Some file => find_service fuel t dbname (parse_params TNS_MODE_FILE file [] l)
        end
    end.

End Tns.
