(* ===== verification/TnsText.v ===== *)
(** What the lexer of ob_tnsname.c makes of a text: however long the text is, the buffer does not
    show; blanks and comments are skipped, and words, with quotes or without and in either
    case, are read one after the other.  Lists of pairs are read by any handler of pairs
    that reads what they contain (the section [Items]). *)

From stdpp Require Import tactics.
From S2P Require Import Prelude IntStore Uuid TraceText NumText StmtTime TimeText OracleTime StmtOracle OracleFormat TextTime Tns.
Import Uuid NumText TimeText OracleFormat TextTime Tns.

Module TnsText.

(** * The text that is left *)

Lemma drop_suffix {A} n (l : list A) : drop n l `suffix_of` l.
Proof. exists (take n l). by rewrite take_drop. Qed.

Definition todo (p : ObClientTnsParseParams) : bytes := in_buffer p ++ unread p.

Record sane (p : ObClientTnsParseParams) : Prop := {
  sane_pos : 0 <= buffer_pos p <= buffer_len p;
  sane_eof : is_eof p = true -> unread p = [];
  sane_key : length (tns_key p) = 256%nat;
  sane_offset : 0 <= description_offset p;
  sane_key_len : 0 <= tns_key_len p <= 256 }.

(** What reading does not change. *)
Record still (p p' : ObClientTnsParseParams) : Prop := {
  still_mode : mode p' = mode p;
  still_key : tns_key p' = tns_key p;
  still_key_len : tns_key_len p' = tns_key_len p;
  still_token : tns_token_type p' = tns_token_type p;
  still_key_type : key_type p' = key_type p;
  still_allocs : allocs p' = allocs p }.

Lemma still_refl p : still p p.
Proof. by split. Qed.

Lemma still_trans a b c : still a b -> still b c -> still a c.
Proof. intros [] []. split; congruence. Qed.

Lemma in_buffer_nil p : 0 <= buffer_pos p -> buffer_len p <= buffer_pos p -> in_buffer p = [].
Proof. intros H0 H. unfold in_buffer, buffer_len in *. apply drop_ge. lia. Qed.

Lemma in_buffer_cons p : 0 <= buffer_pos p < buffer_len p -> in_buffer p <> [].
Proof. intros H. unfold in_buffer, buffer_len in *. intros E. apply (f_equal length) in E. rewrite length_drop in E. simpl in E. lia. Qed.

Lemma length_in_buffer p : 0 <= buffer_pos p <= buffer_len p -> Z.of_nat (length (in_buffer p)) = buffer_len p - buffer_pos p.
Proof. intros H. unfold in_buffer, buffer_len in *. rewrite length_drop. lia. Qed.

Lemma refill_ok p data rest file offset :
  sane p -> in_buffer p = [] -> is_eof p = false -> unread p = data ++ rest -> (data = [] -> rest = []) -> 0 <= offset ->
  unread (refill p data file offset) = rest ->
  let q := refill p data file offset in
  sane q /\ still p q /\ is_comment q = is_comment p /\ todo q = todo p /\ (length (unread q) <= length (unread p))%nat
  /\ (if buffer_len q =? 0 then todo p = [] /\ is_eof q = true
      else buffer_pos q < buffer_len q /\ (length (unread q) < length (unread p))%nat).
Proof.
  intros [Hp He Hk Ho Hl] Eb Eeof Eu Hd Hoff Eq q. assert (unread q = rest) as Eq' by exact Eq.
  assert (todo q = todo p) as Et by (unfold todo; rewrite Eq', Eb, Eu; done).
  assert (buffer_len q = Z.of_nat (length data)) as El by done.
  split_and!; try done.
  - split; try done; [rewrite El; cbn; lia|]. intros E. rewrite Eq'. cbn in E. rewrite Eeof in E. cbn in E.
    apply Z.eqb_eq in E. apply Hd. by destruct data.
  - rewrite Eq', Eu, length_app. lia.
  - rewrite El. destruct (Z.eqb_spec (Z.of_nat (length data)) 0) as [E|E].
    + assert (data = []) as -> by (by destruct data). rewrite Hd in Eu by done. unfold todo. rewrite Eb, Eu. split; [done|].
      cbn. by rewrite Eeof.
    + split; [cbn; lia|]. rewrite Eq', Eu, length_app. lia.
Qed.

(** After a successful check there are characters in the buffer. *)
Lemma check_buffer p : sane p ->
  exists ret p', ObClientTnsCheckBuffer p = (ret, p') /\ sane p' /\ still p p' /\ is_comment p' = is_comment p /\ todo p' = todo p
    /\ (length (unread p') <= length (unread p))%nat
    /\ (todo p = [] /\ ret = -1 /\ is_eof p' = true
        \/ ret = 0 /\ buffer_pos p' < buffer_len p' /\ (in_buffer p = [] -> (length (unread p') < length (unread p))%nat)).
Proof.
  intros Hs. destruct (Hs) as [Hp He Hk Ho Hl]. unfold ObClientTnsCheckBuffer. destruct (Z.ltb_spec (buffer_pos p) (buffer_len p)).
  { exists 0, p. split_and!; try done. right. split_and!; [done|done|]. intros E. destruct (in_buffer_cons p); [lia|done]. }
  pose proof (in_buffer_nil p ltac:(lia) ltac:(lia)) as Eb.
  destruct (is_eof p) eqn:Eeof.
  { exists (-1), p. specialize (He eq_refl). split_and!; try done. left. unfold todo. by rewrite Eb, He. }
  destruct (mode p) eqn:Em.
  - destruct (refill_ok p (take 1024 (tns_file p)) (drop 1024 (tns_file p)) (drop 1024 (tns_file p)) (description_offset p)) as (H1 & H2 & H3 & H4 & H5 & H6);
      try done.
    + unfold unread. rewrite Em. by rewrite take_drop.
    + destruct (tns_file p); done.
    + unfold unread. cbn. by rewrite Em.
    + eexists _, _. split; [reflexivity|]. change (Z.to_nat OBCLIENT_TNS_BUFFER_SIZE) with 1024%nat. split_and!; try done.
      destruct (_ =? 0); [left|right]; destruct H6; done.
  - set (u := drop (Z.to_nat (description_offset p)) (description p)).
    destruct (refill_ok p (take 1024 u) (drop 1024 u) (tns_file p) (description_offset p + Z.of_nat (length (take 1024 u)))) as (H1 & H2 & H3 & H4 & H5 & H6);
      try done.
    + unfold unread. rewrite Em. by rewrite take_drop.
    + by destruct u.
    + lia.
    + unfold unread. cbn. rewrite Em. rewrite length_take. unfold u. rewrite !drop_drop, length_drop.
      destruct (Nat.le_gt_cases 1024 (length (description p) - Z.to_nat (description_offset p))).
      * f_equal. lia.
      * rewrite !drop_ge; [done|lia|lia].
    + eexists _, _. split; [reflexivity|]. change (Z.to_nat OBCLIENT_TNS_BUFFER_SIZE) with 1024%nat. fold u. split_and!; try done.
      destruct (_ =? 0); [left|right]; destruct H6; done.
Qed.

(** * Blanks *)

Lemma blanks_bound chars : forall c, 0 <= (blanks chars c).1 <= Z.of_nat (length chars).
Proof.
  induction chars as [|x chars IH]; intros c; cbn [blanks length]; [simpl; lia|].
  repeat case_match; simpl; try lia; match goal with H : blanks chars ?c = (?n, _) |- _ => specialize (IH c); rewrite H in IH; simpl in IH; lia end.
Qed.

(** The part in front of what was read last, and the rest. *)
Lemma blanks_app a b : forall c, blanks (a ++ b) c =
  let '(n, c') := blanks a c in
  if n =? Z.of_nat (length a) then let '(m, c'') := blanks b c' in (n + m, c'') else (n, c').
Proof.
  induction a as [|x a IH]; intros c; cbn [app blanks length].
  { destruct (blanks b c). done. }
  assert (forall c', (let '(n, r) := blanks (a ++ b) c' in (1 + n, r)) =
    let '(n, c'') := (let '(n, r) := blanks a c' in (1 + n, r)) in
    if n =? Z.of_nat (S (length a)) then let '(m, c3) := blanks b c'' in (n + m, c3) else (n, c'')) as Hs.
  { intros c'. rewrite IH. destruct (blanks a c') as [n r]. destruct (Z.eqb_spec n (Z.of_nat (length a))), (Z.eqb_spec (1 + n) (Z.of_nat (S (length a)))); try lia; [|done].
    destruct (blanks b r). f_equal. lia. }
  destruct c.
  - destruct (x =? 0); [|apply Hs]. by destruct (Z.eqb_spec 0 (Z.of_nat (S (length a)))); [lia|].
  - destruct (is_blank x); [apply Hs|]. destruct (x =? 35); [apply Hs|]. by destruct (Z.eqb_spec 0 (Z.of_nat (S (length a)))); [lia|].
Qed.

Lemma drop_pos p n c : 0 <= buffer_pos p -> 0 <= n -> n <= Z.of_nat (length (in_buffer p)) ->
  in_buffer (set_buffer_pos p (buffer_pos p + n) c) = drop (Z.to_nat n) (in_buffer p)
  /\ todo (set_buffer_pos p (buffer_pos p + n) c) = drop (Z.to_nat n) (todo p).
Proof.
  intros Hp Hn Hl. assert (in_buffer (set_buffer_pos p (buffer_pos p + n) c) = drop (Z.to_nat n) (in_buffer p)) as E.
  { unfold in_buffer. cbn. rewrite drop_drop. f_equal. lia. }
  split; [done|]. unfold todo. rewrite E, drop_app_le by lia. done.
Qed.

Lemma sane_set_pos p pos c : sane p -> 0 <= pos <= buffer_len p -> sane (set_buffer_pos p pos c).
Proof. intros []. by split. Qed.

(** The rounds that a loop over the buffer needs: the first may find characters, the others read
    some, the last sees the end. *)
Definition rounds_for (p : ObClientTnsParseParams) : nat := length (unread p) + match in_buffer p with [] => 0 | _ => 1 end.

Lemma rounds_enough p : (rounds_for p <= S (length (unread p)))%nat.
Proof. unfold rounds_for. case_match; lia. Qed.

Lemma rounds_next p p1 p2 : in_buffer p2 = [] -> unread p2 = unread p1 -> (length (unread p1) <= length (unread p))%nat ->
  (in_buffer p = [] -> (length (unread p1) < length (unread p))%nat) -> (rounds_for p2 < rounds_for p)%nat.
Proof. intros E2 Eu Hu Hless. unfold rounds_for. rewrite E2, Eu. destruct (in_buffer p); [specialize (Hless eq_refl)|]; lia. Qed.

Lemma blank_loop_spec rounds : forall p, sane p -> (rounds_for p <= rounds)%nat ->
  exists p', blank_loop rounds p = Ret (if (blanks (todo p) (is_comment p)).1 =? Z.of_nat (length (todo p)) then TNS_NO_DATA else 0, p')
    /\ sane p' /\ still p p' /\ todo p' = drop (Z.to_nat (blanks (todo p) (is_comment p)).1) (todo p)
    /\ is_comment p' = (blanks (todo p) (is_comment p)).2
    /\ ((blanks (todo p) (is_comment p)).1 <> Z.of_nat (length (todo p)) -> in_buffer p' <> []).
Proof.
  induction rounds as [|rounds IH]; intros p Hs Hr; cbn [blank_loop];
    destruct (check_buffer p Hs) as (ret & p1 & -> & Hs1 & Hst & Hc & Ht & Hu & [(E0 & -> & Heof)|(-> & Hpos & Hless)]);
    try (cbn [negb Z.eqb Pos.eqb]; rewrite Heof, E0; exists p1; cbn; split_and!; try done; by rewrite Ht, E0).
  all: cbn [negb Z.eqb]; rewrite <- Hc, <- Ht; pose proof (sane_pos _ Hs1) as Hp1; pose proof (length_in_buffer p1 Hp1) as Hlen.
  all: pose proof (blanks_bound (in_buffer p1) (is_comment p1)) as Hb; destruct (blanks (in_buffer p1) (is_comment p1)) as [n c] eqn:Eb; cbn [fst] in Hb.
  all: destruct (drop_pos p1 n c ltac:(lia) ltac:(lia) ltac:(lia)) as [E1 E2]; set (p2 := set_buffer_pos p1 (buffer_pos p1 + n) c) in *.
  all: assert (sane p2) as Hs2 by (apply sane_set_pos; [done|lia]); assert (still p p2) as Hst2 by (eapply still_trans; [exact Hst|by split]).
  all: assert (length (todo p1) = length (in_buffer p1) + length (unread p1))%nat as Elt by (unfold todo; apply length_app).
  all: change (buffer_pos p2) with (buffer_pos p1 + n); change (buffer_len p2) with (buffer_len p1).
  all: assert (blanks (todo p1) (is_comment p1) = if n =? Z.of_nat (length (in_buffer p1)) then let '(m, c'') := blanks (unread p1) c in (n + m, c'') else (n, c)) as EB
    by (unfold todo; by rewrite blanks_app, Eb); rewrite EB.
  all: destruct (Z.ltb_spec (buffer_pos p1 + n) (buffer_len p1));
    [rewrite (proj2 (Z.eqb_neq n _)) by lia; cbn [fst snd]; rewrite (proj2 (Z.eqb_neq n _)) by lia; exists p2; split_and!; try done;
     intros _; apply in_buffer_cons; change (0 <= buffer_pos p1 + n < buffer_len p1); lia|].
  all: rewrite (proj2 (Z.eqb_eq n _)) by lia.
  all: assert (in_buffer p2 = []) as Enil by (rewrite E1; apply drop_ge; lia); pose proof (rounds_next p p1 p2 Enil eq_refl Hu Hless).
  - lia.
  - assert (todo p2 = unread p1) as Et2 by (unfold todo; by rewrite Enil).
    destruct (IH p2 Hs2 ltac:(lia)) as (p3 & -> & Hs3 & Hst3 & Ht3 & Hc3 & Hin3). rewrite Et2 in *. change (is_comment p2) with c in *.
    pose proof (blanks_bound (unread p1) c). destruct (blanks (unread p1) c) as [m c'] eqn:Em. cbn [fst snd] in *.
    exists p3. replace (n + m =? Z.of_nat (length (todo p1))) with (m =? Z.of_nat (length (unread p1)))
      by (destruct (Z.eqb_spec m (Z.of_nat (length (unread p1)))), (Z.eqb_spec (n + m) (Z.of_nat (length (todo p1)))); done || lia).
    split_and!; try done; [by eapply still_trans| |].
    + rewrite Ht3. unfold todo. rewrite drop_app_ge by lia. f_equal. lia.
    + intros Hne. apply Hin3. lia.
Qed.

(** * Words *)

Lemma key_chars_bound chars : forall q r, let '(n, _, k) := key_chars chars q r in 0 <= n <= Z.of_nat (length chars) /\ (length k <= r)%nat.
Proof.
  induction chars as [|x chars IH]; intros q [|r]; cbn [key_chars length]; try (simpl; lia).
  destruct (x =? 34); [specialize (IH (negb q) (S r)); destruct (key_chars chars (negb q) (S r)) as [[n q'] k]; lia|].
  destruct (negb q && ends_key x); [simpl; lia|]. specialize (IH q r). destruct (key_chars chars q r) as [[n q'] k]. simpl. lia.
Qed.

Lemma key_chars_full chars q : key_chars chars q 0 = (0, q, []).
Proof. by destruct chars. Qed.

Lemma key_chars_app a b : forall q r, key_chars (a ++ b) q r =
  let '(n, q', k) := key_chars a q r in
  if n =? Z.of_nat (length a) then let '(m, q'', k') := key_chars b q' (r - length k) in (n + m, q'', k ++ k') else (n, q', k).
Proof.
  induction a as [|x a IH]; intros q r; cbn [app length].
  { cbn [key_chars]. rewrite Z.eqb_refl. cbn [length]. rewrite Nat.sub_0_r. by destruct (key_chars b q r) as [[m q''] k']. }
  destruct r as [|r]; [cbn [key_chars]; by destruct (Z.eqb_spec 0 (Z.of_nat (S (length a)))); [lia|]|]. cbn [key_chars].
  destruct (x =? 34).
  - rewrite IH. destruct (key_chars a (negb q) (S r)) as [[n q'] k].
    destruct (Z.eqb_spec n (Z.of_nat (length a))), (Z.eqb_spec (1 + n) (Z.of_nat (S (length a)))); try lia; [|done].
    destruct (key_chars b q' (S r - length k)) as [[m q''] k']. f_equal. f_equal. lia.
  - destruct (negb q && ends_key x); [by destruct (Z.eqb_spec 0 (Z.of_nat (S (length a)))); [lia|]|].
    rewrite IH. destruct (key_chars a q r) as [[n q'] k].
    destruct (Z.eqb_spec n (Z.of_nat (length a))), (Z.eqb_spec (1 + n) (Z.of_nat (S (length a)))); try lia; [|done].
    cbn [length Nat.sub]. destruct (key_chars b q' (r - length k)) as [[m q''] k']. f_equal. f_equal. lia.
Qed.

(** What reading a word does not change. *)
Record word_still (p p' : ObClientTnsParseParams) : Prop := {
  word_mode : mode p' = mode p;
  word_token : tns_token_type p' = tns_token_type p;
  word_key_type : key_type p' = key_type p;
  word_comment : is_comment p' = is_comment p;
  word_allocs : allocs p' = allocs p }.

Lemma word_still_trans a b c : word_still a b -> word_still b c -> word_still a c.
Proof. intros [] []. split; congruence. Qed.

Lemma still_word p p' : still p p' -> is_comment p' = is_comment p -> word_still p p'.
Proof. intros [] ?. by split. Qed.

Lemma set_key_pos p n k len : sane p -> 0 <= n <= Z.of_nat (length (in_buffer p)) -> length k = 256%nat -> 0 <= len <= 256 ->
  let q := set_key p (buffer_pos p + n) k len in
  sane q /\ word_still p q /\ in_buffer q = drop (Z.to_nat n) (in_buffer p) /\ todo q = drop (Z.to_nat n) (todo p).
Proof.
  intros [] Hn Hk Hl q. pose proof (length_in_buffer p ltac:(done)).
  assert (in_buffer q = drop (Z.to_nat n) (in_buffer p)) as E by (unfold in_buffer, q; cbn; rewrite drop_drop; f_equal; lia).
  split_and!; [split; try done; change (0 <= buffer_pos p + n <= buffer_len p); lia|by split|done|].
  unfold todo. rewrite E, drop_app_le by lia. done.
Qed.

(** A word that fits the array is what [key_chars] takes from the text, whatever the buffer. *)
Lemma key_loop_spec rounds : forall p pos q, sane p -> (rounds_for p <= rounds)%nat -> (pos <= 256)%nat ->
  let '(n, _, k) := key_chars (todo p) q (256 - pos) in
  exists ret p', key_loop rounds p pos q = Ret (ret, p') /\ sane p' /\ word_still p p' /\ todo p' `suffix_of` todo p
    /\ (tns_key_len p' = tns_key_len p \/ tns_key_len p' = Z.of_nat (pos + length k))
    /\ ((pos + length k < 256)%nat -> todo p' = drop (Z.to_nat n) (todo p) /\ tns_key p' = splice (Z.of_nat pos) k (tns_key p)
        /\ if n =? Z.of_nat (length (todo p)) then ret = TNS_NO_DATA else ret = 0 /\ tns_key_len p' = Z.of_nat (pos + length k)).
Proof.
  induction rounds as [|rounds IH]; intros p pos q Hs Hr Hpos256; cbn [key_loop];
    destruct (check_buffer p Hs) as (ret & p1 & -> & Hs1 & Hst & Hc & Ht & Hu & [(E0 & -> & Heof)|(-> & Hpos & Hless)]);
    try (cbn [negb Z.eqb Pos.eqb]; rewrite Heof, E0; cbn [key_chars]; eexists _, p1; split; [reflexivity|]; rewrite splice_nil, Ht, E0;
         split_and!; try done; [by apply still_word|left; apply Hst|intros _; split_and!; try done; apply Hst]).
  all: cbn [negb Z.eqb]; rewrite <- Ht; pose proof (sane_pos _ Hs1) as Hp1; pose proof (length_in_buffer p1 Hp1) as Hlen.
  all: change (Z.to_nat OBCLIENT_TNS_KEY_SIZE) with 256%nat; change OBCLIENT_TNS_KEY_SIZE with 256.
  all: pose proof (key_chars_bound (in_buffer p1) q (256 - pos)) as Hb; unfold todo at 1; rewrite key_chars_app;
    destruct (key_chars (in_buffer p1) q (256 - pos)) as [[n q'] k] eqn:Eb.
  all: assert (length (splice (Z.of_nat pos) k (tns_key p1)) = 256%nat) as Hkey
    by (pose proof (sane_key _ Hs1); rewrite length_splice; [done|unfold room; lia]).
  all: destruct (set_key_pos p1 n (splice (Z.of_nat pos) k (tns_key p1)) (tns_key_len p1) Hs1 ltac:(lia) Hkey (sane_key_len _ Hs1)) as (Hs2 & Hst2 & E1 & E2);
    set (p2 := set_key p1 (buffer_pos p1 + n) (splice (Z.of_nat pos) k (tns_key p1)) (tns_key_len p1)) in *.
  all: assert (word_still p p2) as Hst' by (eapply word_still_trans; [by apply still_word|done]).
  all: assert (length (todo p1) = length (in_buffer p1) + length (unread p1))%nat as Elt by (unfold todo; apply length_app).
  all: change (buffer_pos p2) with (buffer_pos p1 + n); change (buffer_len p2) with (buffer_len p1); rewrite <- (still_key _ _ Hst).
  all: destruct (Z.ltb_spec (buffer_pos p1 + n) (buffer_len p1)).
  1, 3: rewrite (proj2 (Z.eqb_neq n (Z.of_nat (length (in_buffer p1))))) by lia; eexists 0, _; split; [reflexivity|].
  1, 2: destruct (set_key_pos p1 n (splice (Z.of_nat pos) k (tns_key p1)) (Z.of_nat (pos + length k)) Hs1 ltac:(lia) Hkey ltac:(lia)) as (Hs3 & Hst3 & _ & E3).
  1, 2: split_and!; [exact Hs3|eapply word_still_trans; [by apply still_word|exact Hst3]|change (todo (set_key p1 (buffer_pos p1 + n)
      (splice (Z.of_nat pos) k (tns_key p1)) (Z.of_nat (pos + length k))) `suffix_of` todo p1); rewrite E3; apply drop_suffix|by right|].
  1, 2: intros _; split_and!; [exact E3|done|]; by rewrite (proj2 (Z.eqb_neq n (Z.of_nat (length (todo p1))))) by lia.
  all: rewrite (proj2 (Z.eqb_eq n (Z.of_nat (length (in_buffer p1))))) by lia.
  all: assert (in_buffer p2 = []) as Enil by (rewrite E1; apply drop_ge; lia); pose proof (rounds_next p p1 p2 Enil eq_refl Hu Hless).
  1: lia.
  pose proof (key_chars_bound (unread p1) q' (256 - pos - length k)) as Hb'.
  assert (todo p2 = unread p1) as Et2 by (unfold todo; by rewrite Enil).
  destruct (Z.eqb_spec (Z.of_nat (pos + length k)) 256).
  { destruct (key_chars (unread p1) q' (256 - pos - length k)) as [[m q''] k']. eexists _, p2. split; [reflexivity|]. rewrite Et2.
    split_and!; [done|done|by exists (in_buffer p1)|left; apply Hst|]. rewrite length_app. lia. }
  specialize (IH p2 (pos + length k)%nat q' Hs2 ltac:(lia) ltac:(lia)). rewrite Et2 in IH.
  replace (256 - (pos + length k))%nat with (256 - pos - length k)%nat in IH by lia.
  destruct (key_chars (unread p1) q' (256 - pos - length k)) as [[m q''] k'].
  destruct IH as (ret & p3 & E & Hs3 & Hst3 & Hl3 & Hkl & Hex). exists ret, p3. split; [exact E|]. split_and!; [done|by eapply word_still_trans| | |].
  { etrans; [exact Hl3|]. by exists (in_buffer p1). }
  { rewrite length_app, Nat.add_assoc. destruct Hkl as [->|]; [left; apply Hst|by right]. }
  rewrite length_app. intros Hfit. destruct (Hex ltac:(lia)) as (Ht3 & Hk3 & Hret). split_and!.
  - rewrite Ht3. unfold todo. rewrite drop_app_ge by lia. f_equal. lia.
  - rewrite Hk3. cbn [tns_key p2 set_key]. rewrite Nat2Z.inj_add. apply splice_app. pose proof (sane_key _ Hs1). unfold room. rewrite length_app. lia.
  - replace (n + m =? Z.of_nat (length (todo p1))) with (m =? Z.of_nat (length (unread p1)))
      by (destruct (Z.eqb_spec m (Z.of_nat (length (unread p1)))), (Z.eqb_spec (n + m) (Z.of_nat (length (todo p1)))); done || lia).
    by rewrite Nat.add_assoc.
Qed.

(** * Tokens *)

Lemma parse_blank p : sane p ->
  let '(n, c) := blanks (todo p) (is_comment p) in
  exists p', ObClientTnsParseBlank p = Ret (if n =? Z.of_nat (length (todo p)) then TNS_NO_DATA else 0, p')
    /\ sane p' /\ still p p' /\ todo p' = drop (Z.to_nat n) (todo p) /\ is_comment p' = c
    /\ (n <> Z.of_nat (length (todo p)) -> in_buffer p' <> []).
Proof.
  intros Hs. destruct (blank_loop_spec (S (length (unread p))) p Hs (rounds_enough p)) as (p' & H).
  destruct (blanks (todo p) (is_comment p)) as [n c]. eauto.
Qed.

Lemma sane_set_token p t : sane p -> sane (set_token p t).
Proof. intros []. by split. Qed.

(** Every word of the text is shorter than the array for words. *)
Definition short_words (t : bytes) : Prop := forall u, u `suffix_of` t -> (length (key_chars u false 256).2 < 256)%nat.

Lemma short_suffix t u : short_words t -> u `suffix_of` t -> short_words u.
Proof. intros Ht Hu v Hv. apply Ht. by trans u. Qed.

(** Parsing goes on in the text; a parenthesis or an equals sign takes a character. *)
Lemma parse_any p tok : sane p ->
  exists ret p', ObClientTnsParse p tok = Ret (ret, p') /\ sane p' /\ todo p' `suffix_of` todo p
    /\ (ret = 0 -> tok <> TNS_KEY -> (length (todo p') < length (todo p))%nat)
    /\ (tns_key_len p < 256 -> short_words (todo p) -> tns_key_len p' < 256).
Proof.
  intros Hs. unfold ObClientTnsParse. pose proof (parse_blank p Hs) as Hp. pose proof (blanks_bound (todo p) (is_comment p)) as Hb.
  destruct (blanks (todo p) (is_comment p)) as [n c]. destruct Hp as (p1 & -> & Hs1 & Hst & Ht & _ & Hin). rewrite bind_ret. cbn [fst] in Hb.
  assert (todo p1 `suffix_of` todo p) as Hl by (rewrite Ht; apply drop_suffix). pose proof (still_key_len _ _ Hst) as Hkl.
  destruct (Z.eqb_spec n (Z.of_nat (length (todo p)))) as [E|E]; cbn [negb Z.eqb TNS_NO_DATA].
  { eexists _, p1. split; [reflexivity|]. by rewrite Hkl. }
  destruct (decide (token_of _ <> tok)) as [|Hg]; [eexists _, p1; split; [reflexivity|]; by rewrite Hkl|].
  apply dec_stable in Hg. rewrite Hg. destruct (decide (tok = TNS_KEY)) as [->|Hne].
  - unfold ObClientTnsParseKey. pose proof (key_loop_spec (S (length (unread p1))) (set_token p1 TNS_KEY) 0 false (sane_set_token _ _ Hs1)) as Hk.
    change (unread (set_token p1 TNS_KEY)) with (unread p1). change (todo (set_token p1 TNS_KEY)) with (todo p1) in Hk.
    specialize (Hk (rounds_enough (set_token p1 TNS_KEY)) ltac:(lia)). change (256 - 0)%nat with 256%nat in Hk.
    destruct (key_chars (todo p1) false 256) as [[m q'] k] eqn:Ek. destruct Hk as (ret & p2 & -> & Hs2 & _ & Hl2 & Hkl2 & _).
    exists ret, p2. split_and!; [done|done|by trans (todo p1)|done|]. intros H1 H2. change (tns_key_len (set_token p1 TNS_KEY)) with (tns_key_len p1) in Hkl2.
    specialize (H2 _ Hl). rewrite Ek in H2. cbn [snd] in H2. destruct Hkl2; lia.
  - specialize (Hin E). pose proof (sane_pos _ Hs1) as Hp. pose proof (length_in_buffer p1 Hp) as Hlen.
    assert (0 < length (in_buffer p1))%nat by (destruct (in_buffer p1); [done|simpl; lia]).
    destruct (drop_pos (set_token p1 tok) 1 (is_comment p1)) as [_ Et]; [apply Hp|lia|change (in_buffer (set_token p1 tok)) with (in_buffer p1); lia|].
    eexists 0, _. split; [reflexivity|]. split; [apply sane_set_pos; [by apply sane_set_token|change (0 <= buffer_pos p1 + 1 <= buffer_len p1); lia]|].
    change (todo (set_token p1 tok)) with (todo p1) in Et.
    match goal with |- context [todo ?x] => change (todo x) with (todo (set_buffer_pos (set_token p1 tok) (buffer_pos (set_token p1 tok) + 1) (is_comment p1))) end.
    assert (length (todo p1) = length (in_buffer p1) + length (unread p1))%nat by (unfold todo; apply length_app).
    split_and!; [rewrite Et; etrans; [apply drop_suffix|exact Hl]| |by intros H1 _; cbn; rewrite Hkl].
    rewrite Et, length_drop. apply suffix_length in Hl. change (Z.to_nat 1) with 1%nat. lia.
Qed.

(** Blanks and comments between tokens. *)
Inductive blank_text : bytes -> Prop :=
| no_blank : blank_text []
| one_blank c b : is_blank c = true -> blank_text b -> blank_text (c :: b)
| comment s b : Forall (fun c => c <> 10 /\ c <> 0) s -> blank_text b -> blank_text ((35 :: s) ++ 10 :: b).

Lemma comment_blanks s b : Forall (fun c => c <> 10 /\ c <> 0) s -> blanks (s ++ 10 :: b) true = let '(n, c) := blanks b false in (Z.of_nat (length s) + 1 + n, c).
Proof.
  induction 1 as [|c s [H1 H2] _ IH]; cbn [app blanks length].
  - cbn. by destruct (blanks b false).
  - rewrite (proj2 (Z.eqb_neq c 0)), (proj2 (Z.eqb_neq c 10)) by done. cbn [negb]. rewrite IH. destruct (blanks b false). f_equal. lia.
Qed.

Lemma blank_text_skipped b c rest : blank_text b -> is_blank c = false -> c <> 35 -> blanks (b ++ c :: rest) false = (Z.of_nat (length b), false).
Proof.
  intros Hb Hc Hc'. induction Hb as [|x b Hx _ IH|s b Hs _ IH].
  - cbn [app blanks]. by rewrite Hc, (proj2 (Z.eqb_neq c 35)).
  - cbn [app blanks length]. rewrite Hx, IH. f_equal. lia.
  - cbn [app blanks]. rewrite <- app_assoc. cbn [app]. change (is_blank 35) with false. cbv iota. rewrite Z.eqb_refl, comment_blanks, IH by done.
    cbn [length]. rewrite length_app. cbn [length]. f_equal. lia.
Qed.

(** The parser is in front of the text [t], outside a comment, and memory can be had. *)
Definition ready (p : ObClientTnsParseParams) (t : bytes) : Prop := sane p /\ is_comment p = false /\ todo p = t /\ allocs p = [].

Lemma blank_ready p b c rest : ready p (b ++ c :: rest) -> blank_text b -> is_blank c = false -> c <> 35 ->
  exists p', ObClientTnsParseBlank p = Ret (0, p') /\ ready p' (c :: rest) /\ still p p' /\ head (in_buffer p') = Some c.
Proof.
  intros (Hs & Hc & Ht & Ha) Hb Hx Hx'. pose proof (parse_blank p Hs) as H. rewrite Ht, Hc, (blank_text_skipped b c rest Hb Hx Hx') in H.
  destruct H as (p' & -> & Hs' & Hst & Ht' & Hc' & Hin). rewrite length_app in *. cbn [length] in *.
  rewrite (proj2 (Z.eqb_neq _ _)) by lia. specialize (Hin ltac:(lia)). rewrite Nat2Z.id, drop_app_length in Ht'.
  exists p'. split_and!; try done; [split_and!; try done; by rewrite (still_allocs _ _ Hst)|].
  unfold todo in Ht'. destruct (in_buffer p'); [done|]. by injection Ht' as ->.
Qed.

Lemma parse_punct p b c rest tok : ready p (b ++ c :: rest) -> blank_text b -> token_of c = tok -> tok <> TNS_KEY ->
  exists p', ObClientTnsParse p tok = Ret (0, p') /\ ready p' rest /\ tns_token_type p' = tok
    /\ tns_key p' = tns_key p /\ tns_key_len p' = tns_key_len p /\ key_type p' = key_type p.
Proof.
  intros Hr Hb Ht Hne. assert (is_blank c = false /\ c <> 35) as [Hx Hx'].
  { unfold token_of in Ht. unfold is_blank. destruct (Z.eqb_spec c 61); [by subst|]. destruct (Z.eqb_spec c 40); [by subst|]. destruct (Z.eqb_spec c 41); [by subst|]. done. }
  destruct (blank_ready p b c rest Hr Hb Hx Hx') as (p1 & E & (Hs1 & Hc1 & Ht1 & Ha1) & Hst & Hh). unfold ObClientTnsParse. rewrite E, bind_ret. cbn [negb Z.eqb].
  rewrite Hh. change (default 0 (Some c)) with c. rewrite Ht. destruct (decide (tok <> tok)); [done|]. destruct (decide (tok = TNS_KEY)); [done|].
  pose proof (sane_pos _ Hs1) as Hp. pose proof (length_in_buffer p1 Hp).
  assert (0 < length (in_buffer p1))%nat by (destruct (in_buffer p1); [done|simpl; lia]).
  destruct (drop_pos (set_token p1 tok) 1 (is_comment p1)) as [_ Et]; [apply Hp|lia|change (in_buffer (set_token p1 tok)) with (in_buffer p1); lia|].
  change (todo (set_token p1 tok)) with (todo p1) in Et. rewrite Ht1 in Et.
  eexists. split; [reflexivity|]. destruct Hst. split_and!; try done. split_and!; try done.
  apply sane_set_pos; [by apply sane_set_token|]. change (0 <= buffer_pos p1 + 1 <= buffer_len p1). lia.
Qed.

(** Another token is not taken. *)
Lemma parse_other p b c rest tok : ready p (b ++ c :: rest) -> blank_text b -> is_blank c = false -> c <> 35 -> token_of c <> tok ->
  exists p', ObClientTnsParse p tok = Ret (-1, p') /\ ready p' (c :: rest) /\ tns_token_type p' = tns_token_type p.
Proof.
  intros Hr Hb Hx Hx' Ht. destruct (blank_ready p b c rest Hr Hb Hx Hx') as (p1 & E & Hr1 & Hst & Hh). unfold ObClientTnsParse. rewrite E, bind_ret. cbn [negb Z.eqb].
  rewrite Hh. change (default 0 (Some c)) with c. destruct (decide (token_of c <> tok)); [|done]. exists p1. split_and!; try done. apply Hst.
Qed.

(** How a word is written: parts of it may be quoted. *)
Inductive quoted : bytes -> bytes -> Prop :=
| quoted_end : quoted [] []
| quoted_char c w t : ends_key c = false -> c <> 34 -> quoted w t -> quoted (c :: w) (c :: t)
| quoted_part s w t : Forall (fun c => c <> 34) s -> quoted w t -> quoted (s ++ w) ((34 :: s) ++ 34 :: t).

Definition word_text (w t : bytes) : Prop :=
  quoted w t /\ (length w < 256)%nat /\ match t with c :: _ => c <> 35 | [] => False end.

Lemma part_chars s u : forall r, Forall (fun c => c <> 34) s -> (length s < r)%nat ->
  key_chars (s ++ 34 :: u) true r = let '(n, q, k) := key_chars u false (r - length s) in (Z.of_nat (length s) + 1 + n, q, s ++ k).
Proof.
  induction s as [|c s IH]; intros r Hs Hr; cbn [app length].
  - destruct r as [|r]; [lia|]. cbn [key_chars]. cbn [Z.eqb Pos.eqb negb Nat.sub]. by destruct (key_chars u false (S r)) as [[n q] k].
  - apply Forall_cons in Hs as [Hc Hs]. simpl in Hr. destruct r as [|r]; [lia|]. cbn [key_chars]. rewrite (proj2 (Z.eqb_neq c 34)) by done. cbn [negb andb].
    rewrite IH by (done || lia). cbn [Nat.sub]. destruct (key_chars u false (r - length s)) as [[n q] k]. f_equal. f_equal. lia.
Qed.

Lemma quoted_chars w t c rest : quoted w t -> ends_key c = true -> forall r, (length w < r)%nat ->
  key_chars (t ++ c :: rest) false r = (Z.of_nat (length t), false, w).
Proof.
  intros Hq Hc. induction Hq as [|x w t Hx Hx' _ IH|s w t Hs _ IH]; intros r Hr.
  - destruct r as [|r]; [lia|]. cbn [app key_chars]. assert ((c =? 34) = false) as -> by (by apply Z.eqb_neq; intros ->). by rewrite Hc.
  - simpl in Hr. destruct r as [|r]; [lia|]. cbn [app key_chars length]. rewrite (proj2 (Z.eqb_neq x 34)), Hx by done. cbn [negb andb].
    rewrite IH by lia. f_equal. f_equal. lia.
  - rewrite length_app in Hr. destruct r as [|r]; [lia|]. cbn [app key_chars]. cbn [Z.eqb Pos.eqb negb]. rewrite <- app_assoc. cbn [app].
    rewrite part_chars by (done || lia). rewrite IH by lia. cbn [length]. rewrite length_app. cbn [length]. f_equal. f_equal. lia.
Qed.

(** The key that was read. *)
Definition holds_key (p : ObClientTnsParseParams) (w : bytes) : Prop :=
  tns_key_len p = Z.of_nat (length w) /\ (length w < 256)%nat /\ exists rest, tns_key p = w ++ rest /\ length (w ++ rest) = 256%nat.

Lemma parse_word p b w t c rest : ready p (b ++ t ++ c :: rest) -> blank_text b -> word_text w t -> ends_key c = true ->
  exists p', ObClientTnsParse p TNS_KEY = Ret (0, p') /\ ready p' (c :: rest) /\ holds_key p' w
    /\ tns_token_type p' = TNS_KEY /\ key_type p' = key_type p.
Proof.
  intros Hr Hb (Hq & Hw & Hh) Hc. destruct t as [|x t]; [done|].
  assert (is_blank x = false /\ token_of x = TNS_KEY) as [Hx Htok].
  { inversion Hq as [|? ? ? Hx|]; subst; [|done]. unfold ends_key in Hx. unfold is_blank, token_of. rewrite !orb_false_iff, !Z.eqb_neq in Hx.
    destruct Hx as ((((((H1 & H2) & H3) & H4) & H5) & H6) & H7). by rewrite !(proj2 (Z.eqb_neq x _)). }
  destruct (blank_ready p b x (t ++ c :: rest) Hr Hb Hx Hh) as (p1 & E & (Hs1 & Hc1 & Ht1 & Ha1) & Hst & Hhd).
  unfold ObClientTnsParse. rewrite E, bind_ret. cbn [negb Z.eqb]. rewrite Hhd. change (default 0 (Some x)) with x. rewrite Htok.
  destruct (decide (TNS_KEY <> TNS_KEY)); [done|]. destruct (decide (TNS_KEY = TNS_KEY)); [|done].
  set (p2 := set_token p1 TNS_KEY). assert (sane p2) as Hs2 by (by apply sane_set_token). assert (todo p2 = (x :: t) ++ c :: rest) as Ht2 by exact Ht1.
  pose proof (key_loop_spec _ p2 0 false Hs2 (rounds_enough p2) ltac:(lia)) as Hk. rewrite Ht2, (quoted_chars w (x :: t) c rest Hq Hc) in Hk by lia.
  unfold ObClientTnsParseKey. destruct Hk as (ret & p3 & -> & Hs3 & [_ Wt Wk Wc Wa] & _ & _ & Hex). destruct (Hex ltac:(lia)) as (Ht3 & Hk3 & Hret).
  rewrite length_app in Hret. cbn [length] in Hret. rewrite (proj2 (Z.eqb_neq _ _)) in Hret by lia. destruct Hret as [-> Hlen3].
  exists p3. rewrite Nat2Z.id, drop_app_length in Ht3. pose proof (sane_key _ Hs2). destruct Hst. split_and!; try done.
  - split_and!; try done; [by rewrite Wc|by rewrite Wa].
  - rewrite splice_0 in Hk3. split; [done|]. split; [done|]. eexists. split; [exact Hk3|]. rewrite length_app, length_drop. lia.
  - by rewrite Wk.
Qed.

(** * Key words *)

Abbreviation lower := (map tolower).

Lemma tolower_nul c : tolower c = 0 <-> c = 0.
Proof. unfold tolower. destruct (Z.leb_spec 65 c), (Z.leb_spec c 90); simpl; lia. Qed.

Lemma tolower_twice c : tolower (tolower c) = tolower c.
Proof. unfold tolower. destruct (Z.leb_spec 65 c), (Z.leb_spec c 90); simpl; repeat case_match; lia. Qed.

Lemma strncaseeq_lower w rest s : Forall (fun c => c <> 0) w -> strncaseeq (length w) (w ++ rest) s = strncaseeq (length w) (lower w) s.
Proof.
  intros Hw. revert s. induction Hw as [|c w Hc _ IH]; intros s; [done|]. cbn [length strncaseeq app map].
  destruct s as [|d s]; [done|]. rewrite tolower_twice, IH. pose proof (tolower_nul c).
  by rewrite (proj2 (Z.eqb_neq c 0)), (proj2 (Z.eqb_neq (tolower c) 0)) by tauto.
Qed.

(** [w] is the word [s], but for the case of its letters. *)
Definition same_word (s : string) (w : bytes) : Prop := lower w = lower (str s).

Definition no_nul (s : string) : bool := forallb (fun c => negb (c =? 0)) (lower (str s)).

Lemma same_word_chars s w : same_word s w -> no_nul s = true -> Forall (fun c => c <> 0) w /\ length w = length (str s).
Proof.
  unfold same_word, no_nul. intros E Hs. split.
  - rewrite <- E in Hs. apply Forall_forall. intros c Hc Hz. apply forallb_forall with (x := tolower c) in Hs.
    + rewrite (proj2 (tolower_nul c) Hz) in Hs. done.
    + apply in_map. by apply list_elem_of_In.
  - apply (f_equal length) in E. by rewrite !length_map in E.
Qed.

Lemma key_matches p s w d : holds_key p w -> same_word s w -> no_nul s = true ->
  strncaseeq (Z.to_nat (tns_key_len p)) (tns_key p) d = strncaseeq (length (str s)) (lower (str s)) d.
Proof.
  intros (-> & _ & rest & -> & _) Hw Hs. destruct (same_word_chars s w Hw Hs) as [Hc Hl]. rewrite Nat2Z.id, strncaseeq_lower, Hl by done. by rewrite Hw.
Qed.

Definition word_type (s : string) : ObClientLBKeyType :=
  fold_left (fun t e => if strncaseeq (length (str s)) (lower (str s)) (str e.1) then e.2 else t) (tns_key_array (Z.of_nat (length (str s))))
    OBCLIENT_LB_ERROR_KEY.

Definition key_word (s : string) : Prop := no_nul s = true /\ (length (str s) <= 20)%nat /\ word_type s <> OBCLIENT_LB_ERROR_KEY.

Lemma fold_left_ext {A B} (f g : A -> B -> A) l : (forall a b, f a b = g a b) -> forall a, fold_left f l a = fold_left g l a.
Proof. intros E. induction l as [|b l IH]; intros a; [done|]. cbn. by rewrite E, IH. Qed.

Lemma key_type_read p s w : holds_key p w -> same_word s w -> key_word s -> tns_get_key_type p = (0, set_key_type p (word_type s)).
Proof.
  intros Hk Hw (Hs & Hl & Ht). destruct (same_word_chars s w Hw Hs) as [_ El]. unfold tns_get_key_type, ObClientTnsGetKeyType.
  destruct Hk as (El' & Hk). rewrite (proj2 (Z.leb_le (tns_key_len p) 20)) by lia.
  assert (fold_left (fun t e => if strncaseeq (Z.to_nat (tns_key_len p)) (tns_key p) (str e.1) then e.2 else t) (tns_key_array (tns_key_len p))
    OBCLIENT_LB_ERROR_KEY = word_type s) as ->.
  { unfold word_type. rewrite El', El. apply fold_left_ext. intros t e. rewrite <- El at 1. rewrite <- El'. by rewrite (key_matches p s w) by done. }
  destruct (decide (word_type s = OBCLIENT_LB_ERROR_KEY)); [done|]. cbn [Z.eqb andb key_type set_key_type].
  destruct (bool_decide_reflect (word_type s = OBCLIENT_LB_ERROR_KEY)); [done|]. done.
Qed.

(** * Pairs *)

(** Blanks behind a word do not start with a comment. *)
Definition gap (b : bytes) : Prop := blank_text b /\ match b with [] => True | c :: _ => is_blank c = true end.

Lemma gap_then b c rest : gap b -> ends_key c = true -> exists d u, b ++ c :: rest = d :: u /\ ends_key d = true.
Proof.
  intros [_ Hb] Hc. destruct b as [|d b]; [by exists c, rest|]. exists d, (b ++ c :: rest). split; [done|].
  unfold is_blank in Hb. unfold ends_key. rewrite !orb_true_iff, !Z.eqb_eq in *. naive_solver.
Qed.

Definition word_in (s : string) (t : bytes) : Prop := exists w, word_text w t /\ same_word s w.

(** [(key=value)] *)
Inductive pair_text (s : string) (v : bytes) : bytes -> Prop :=
| a_pair b1 b2 k b3 b4 : blank_text b1 -> blank_text b2 -> word_in s k -> gap b3 -> gap b4 ->
    pair_text s v (b1 ++ 40 :: b2 ++ k ++ b3 ++ 61 :: v ++ b4 ++ [41]).

Lemma ready_key_type p t rest : ready p rest -> ready (set_key_type p t) rest.
Proof. intros (H & ? & ? & ?). split_and!; try done. destruct H. by split. Qed.

Lemma pair_head_read p b1 b2 s k b3 rest :
  ready p (b1 ++ 40 :: b2 ++ k ++ b3 ++ 61 :: rest) -> blank_text b1 -> blank_text b2 -> word_in s k -> gap b3 -> key_word s ->
  exists p', pair_head p = Ret (0, p') /\ ready p' rest /\ key_type p' = word_type s /\ tns_token_type p' = TNS_EQUAL_SIGN.
Proof.
  intros Hr Hb1 Hb2 (w & Hw & Hsame) Hb3 Hkw. unfold pair_head.
  destruct (parse_punct p b1 40 _ TNS_LEFT_PARENTHESES Hr Hb1 eq_refl ltac:(done)) as (p1 & -> & Hr1 & _).
  destruct (gap_then b3 61 rest Hb3 eq_refl) as (d & u & Ed & Hd). rewrite Ed in Hr1.
  rewrite bind_ret. unfold and_then. cbn [fst snd Z.eqb].
  destruct (parse_word p1 b2 w k d u Hr1 Hb2 Hw Hd) as (p2 & -> & Hr2 & Hk2 & _ & _).
  rewrite bind_ret. cbn [fst snd Z.eqb]. rewrite (key_type_read p2 s w Hk2 Hsame Hkw), bind_ret.
  cbn [fst snd Z.eqb]. rewrite <- Ed in Hr2.
  destruct (parse_punct (set_key_type p2 (word_type s)) b3 61 rest TNS_EQUAL_SIGN (ready_key_type _ _ _ Hr2) (proj1 Hb3) eq_refl ltac:(done))
    as (p3 & -> & Hr3 & Htok & _ & _ & Hkt). exists p3. done.
Qed.

Section Items.
Context {A X : Type} (handle : ObClientLBKeyType -> A -> ObClientTnsParseParams -> cres (Z * A * ObClientTnsParseParams)).
Context (kw : X -> string) (value : X -> bytes -> Prop) (put : X -> A -> A) (inv : A -> Prop) (fuel : nat).

Inductive items_text : list X -> bytes -> Prop :=
| no_item : items_text [] []
| an_item x xs v t ts : value x v -> pair_text (kw x) v t -> items_text xs ts -> items_text (x :: xs) (t ++ ts).

(** Reading the value of an item puts it into the structure. *)
Definition item_read : Prop := forall x v a p b more, inv a -> value x v -> gap b -> (length v <= fuel)%nat -> ready p (v ++ b ++ 41 :: more) ->
  exists p' b', handle (word_type (kw x)) a p = Ret (0, put x a, p') /\ inv (put x a) /\ ready p' (b' ++ 41 :: more) /\ blank_text b'.

Hypothesis Hkw : forall x, key_word (kw x).
Hypothesis Hitem : item_read.

Lemma items_length xs ts : items_text xs ts -> (length xs <= length ts)%nat.
Proof.
  induction 1 as [|x xs v t ts _ Ht _ IH]; [done|]. cbn [length]. rewrite length_app. destruct Ht. rewrite !length_app. cbn [length]. lia.
Qed.

Lemma pairs_read xs ts : items_text xs ts -> forall n a p b more,
  inv a -> (length xs <= n)%nat -> (length ts <= fuel)%nat -> blank_text b -> ready p (ts ++ b ++ 41 :: more) ->
  xs <> [] \/ tns_token_type p = TNS_RIGHT_PARENTHESES ->
  exists p', pairs n handle a p = Ret (fold_left (fun a x => put x a) xs a, p') /\ ready p' (41 :: more) /\ tns_token_type p' = TNS_RIGHT_PARENTHESES.
Proof.
  induction 1 as [|x xs v t ts Hv Ht Hts IH]; intros n a p b more Hi Hn Hf Hb Hr Htok.
  - destruct Htok as [?|Htok]; [done|]. cbn [app] in Hr.
    destruct (parse_other p b 41 more TNS_LEFT_PARENTHESES Hr Hb eq_refl ltac:(done) ltac:(done)) as (p' & E & Hr' & Et).
    exists p'. assert (pair_head p = Ret (-1, p')) as Eh by (unfold pair_head; by rewrite E).
    destruct n; cbn [pairs]; rewrite Eh, bind_ret; cbn [Z.eqb]; rewrite bind_ret; cbn [and_then fst snd Z.eqb fold_left]; split_and!; done || congruence.
  - destruct Ht as [b1 b2 k b3 b4 Hb1 Hb2 Hk Hb3 Hb4]. repeat (rewrite <- !app_assoc in Hr; cbn [app] in Hr).
    repeat (rewrite !length_app in Hf; cbn [length] in Hf).
    destruct n as [|n]; [simpl in Hn; lia|]. cbn [length] in Hn.
    destruct (pair_head_read p b1 b2 (kw x) k b3 _ Hr Hb1 Hb2 Hk Hb3 (Hkw x)) as (p1 & E1 & Hr1 & Ek & _).
    destruct (Hitem x v a p1 b4 _ Hi Hv Hb4 ltac:(lia) Hr1) as (p2 & b' & E2 & Hi2 & Hr2 & Hb').
    destruct (parse_punct p2 b' 41 _ TNS_RIGHT_PARENTHESES Hr2 Hb' eq_refl ltac:(done)) as (p3 & E3 & Hr3 & Htok3 & _).
    destruct (IH n (put x a) p3 b more Hi2 ltac:(lia) ltac:(lia) Hb Hr3 ltac:(by right)) as (p4 & E4 & Hr4 & Htok4).
    exists p4. cbn [pairs]. rewrite E1, bind_ret. cbn [Z.eqb]. rewrite Ek, E2, bind_ret. unfold and_then. cbn [fst snd Z.eqb]. rewrite E3, bind_ret. cbn [Z.eqb]. rewrite E4. done.
Qed.

Lemma build_read xs ts a p b more : inv a -> items_text xs ts -> xs <> [] -> (length ts <= fuel)%nat -> blank_text b -> ready p (ts ++ b ++ 41 :: more) ->
  exists p', build fuel handle a p = Ret (0, fold_left (fun a x => put x a) xs a, p') /\ ready p' (41 :: more).
Proof.
  intros Hi Hts Hne Hf Hb Hr. pose proof (items_length xs ts Hts). destruct (pairs_read xs ts Hts fuel a p b more Hi ltac:(lia) Hf Hb Hr ltac:(by left)) as (p' & E & Hr' & Htok).
  exists p'. unfold build, pairs_end. rewrite E, bind_ret, Htok. done.
Qed.

End Items.

(** * Values *)

(** A word with blanks in front of it. *)
Definition name_text (w t : bytes) : Prop := exists b u, t = b ++ u /\ blank_text b /\ word_text w u.

Definition number_text (v : Z) (t : bytes) : Prop :=
  exists w, name_text w t /\ Forall digit w /\ (1 <= length w <= 18)%nat /\ decimal w = v.

Definition choice_text (s : string) (t : bytes) : Prop := exists w, name_text w t /\ same_word s w.

Lemma name_read p w t b more : ready p (t ++ b ++ 41 :: more) -> name_text w t -> gap b ->
  exists p', ObClientTnsParse p TNS_KEY = Ret (0, p') /\ ready p' (b ++ 41 :: more) /\ holds_key p' w.
Proof.
  intros Hr (b0 & u & -> & Hb0 & Hw) Hb. rewrite <- app_assoc in Hr. destruct (gap_then b 41 more Hb eq_refl) as (d & r & E & Hd). rewrite E in *.
  destruct (parse_word p b0 w u d r Hr Hb0 Hw Hd) as (p' & E' & Hr' & Hk & _). eauto.
Qed.

Lemma string_read p dest len limit w t b more : ready p (t ++ b ++ 41 :: more) -> name_text w t -> gap b -> Z.of_nat (length w) <= limit ->
  exists p', string_value p dest len limit = Ret (0, p', strncpy dest w (Z.of_nat (length w)), Z.of_nat (length w)) /\ ready p' (b ++ 41 :: more).
Proof.
  intros Hr Hw Hb Hl. destruct (name_read p w t b more Hr Hw Hb) as (p' & E & Hr' & El & _ & rest & Ek & _). exists p'. split; [|done].
  unfold string_value. rewrite E, bind_ret, El, (proj2 (Z.leb_le _ limit)), Ek by done. cbn [Z.eqb andb]. unfold strncpy. by rewrite Nat2Z.id, take_app_length, firstn_all.
Qed.

Lemma number_read p v t b more : ready p (t ++ b ++ 41 :: more) -> number_text v t -> gap b ->
  exists p', integer_value p = Ret (0, p', v) /\ ready p' (b ++ 41 :: more).
Proof.
  intros Hr (w & Hw & Hd & Hl & <-) Hb. destruct (name_read p w t b more Hr Hw Hb) as (p' & E & Hr' & El & Hlt & rest & Ek & H256). exists p'. split; [|done].
  unfold integer_value, strtoll10. rewrite E, bind_ret, El, Ek. rewrite length_app in H256.
  assert (room (w ++ rest) (Z.of_nat (length w)) 1) as Hroom by (unfold room; rewrite length_app; lia).
  rewrite store_splice1, bind_ret by (done || (unfold is_byte, uint; lia)).
  rewrite (strtol_number _ 0 w 0); [|by intros ->; simpl in *; lia|done|lia|unfold digit; lia|].
  - rewrite bind_ret, Z.add_0_l, Z.eqb_refl. do 2 f_equal. pose proof (decimal_bound w Hd).
    assert (10 ^ Z.of_nat (length w) <= 10 ^ 18) by (apply Z.pow_le_mono_r; lia). apply wrap_small. unfold uint. lia.
  - apply text_at_app. split; unfold text_at.
    + rewrite load_bytes_splice_out by (done || lia). apply (load_bytes_app (w ++ rest) 0 w rest). rewrite load_bytes_in by (unfold room; lia).
      f_equal. change (Z.to_nat 0) with 0%nat. rewrite drop_0. apply firstn_all.
    + rewrite Z.add_0_l. by apply (load_bytes_splice _ [0]).
Qed.

(** What the options of a word come to. *)
Fixpoint option_of {A} (s : string) (options : list (string * A)) : option A :=
  match options with
  | [] => None
  | (w, a) :: options => if strncaseeq (length (str s)) (lower (str s)) (str w ++ [0]) then Some a else option_of s options
  end.

Lemma choice_read {A} p (options : list (string * A)) old s a t b more :
  ready p (t ++ b ++ 41 :: more) -> choice_text s t -> gap b -> no_nul s = true -> option_of s options = Some a ->
  exists p', choice p options old = Ret (0, p', a) /\ ready p' (b ++ 41 :: more).
Proof.
  intros Hr (w & Hw & Hsame) Hb Hs Ho. destruct (name_read p w t b more Hr Hw Hb) as (p' & E & Hr' & Hk). exists p'. split; [|done].
  unfold choice. rewrite E, bind_ret. assert (choose p' options = option_of s options) as ->; [|by rewrite Ho].
  clear Ho. induction options as [|[x y] options IH]; [done|]. cbn [choose option_of]. unfold key_is. by rewrite (key_matches p' s w), IH by done.
Qed.

End TnsText.
