(* ===== verification/TnsService.v ===== *)
(** The settings of a description of libmariadb/ob_tnsname.c, as a syntax tree: how they are written
    and what they put into the structures.  A text that lists settings is read as exactly
    these ([description_read]). *)

From stdpp Require Import tactics.
From S2P Require Import Prelude IntStore Uuid TraceText NumText StmtTime TimeText OracleTime StmtOracle OracleFormat TextTime Tns TnsText.
Import Uuid NumText TimeText OracleFormat TextTime Tns TnsText.

Module TnsService.

(** * Settings *)

Inductive strategy : Type := Random | ServerAffinity | Rotation.
Definition strategy_name (s : strategy) : string := match s with Random => "RANDOM" | ServerAffinity => "SERVERAFFINITY" | Rotation => "ROTATION" end.
Definition strategy_code (s : strategy) : Z :=
  match s with Random => OBCLIENT_LB_OPTION_RANDOM | ServerAffinity => OBCLIENT_LB_OPTION_SERVERAFFINITY | Rotation => OBCLIENT_LB_OPTION_ROTATION end.

Definition switch (on : bool) : string := if on then "ON" else "OFF".

(** Names as they are written. *)
Inductive address_item : Type := Protocol (w : bytes) | Host (w : bytes) | Port (n : Z) | Weight (n : Z).

Inductive group_item : Type := Member (l : list address_item) | GroupStrategy (s : strategy) | GroupSwitch (on : bool).

Inductive remove_item : Type := RemoveName | RemoveTimeout (n : Z).
Inductive append_item : Type := AppendName (by_duration : bool) | AppendTimes (n : Z) | AppendDuration (n : Z).
Inductive black_item : Type := Remove (l : list remove_item) | Append (l : list append_item).

Inductive connect_item : Type :=
| ServiceName (w : bytes) | Sid (w : bytes) | ExtraInfo (w : bytes) | ObMode (n : Z) | DefaultSid (n : Z) | SessionVariable (w : bytes) | EnableSsl (n : Z).

Inductive description_item : Type :=
| Switch (on : bool) | RetryAllDowns (n : Z) | RetryTimeout (n : Z) | ConnectTimeout (n : Z) | ReadTimeout (n : Z) | WriteTimeout (n : Z)
| Strategy (s : strategy) | Groups | Blacklist (l : list black_item) | Group (l : list group_item) | Connect (l : list connect_item)
| Single (l : list address_item).

Definition address_key (x : address_item) : string := match x with Protocol _ => "PROTOCOL" | Host _ => "HOST" | Port _ => "PORT" | Weight _ => "WEIGHT" end.
Definition group_key (x : group_item) : string := match x with Member _ => "ADDRESS" | GroupStrategy _ => "OBLB_STRATEGY" | GroupSwitch _ => "OBLB" end.
Definition remove_key (x : remove_item) : string := match x with RemoveName => "NAME" | RemoveTimeout _ => "TIMEOUT" end.
Definition append_key (x : append_item) : string := match x with AppendName _ => "NAME" | AppendTimes _ => "RETRYTIMES" | AppendDuration _ => "DURATION" end.
Definition black_key (x : black_item) : string := match x with Remove _ => "REMOVE_STRATEGY" | Append _ => "APPEND_STRATEGY" end.
Definition connect_key (x : connect_item) : string :=
  match x with
  | ServiceName _ => "SERVICE_NAME" | Sid _ => "SID" | ExtraInfo _ => "OB_USER_EXTRA_INFO" | ObMode _ => "OB_MODE" | DefaultSid _ => "USE_DEFAULT_SID"
  | SessionVariable _ => "OB_SESSION_VARIABLE" | EnableSsl _ => "OB_ENABLE_SSL"
  end.
Definition description_key (x : description_item) : string :=
  match x with
  | Switch _ => "OBLB" | RetryAllDowns _ => "OBLB_RETRY_ALL_DOWNS" | RetryTimeout _ => "OBLB_RETRY_TIMEOUT" | ConnectTimeout _ => "OBLB_CONNECT_TIMEOUT"
  | ReadTimeout _ => "OBLB_READ_TIMEOUT" | WriteTimeout _ => "OBLB_WRITE_TIMEOUT" | Strategy _ => "OBLB_STRATEGY" | Groups => "OBLB_GROUP_STRATEGY"
  | Blacklist _ => "OBLB_BLACKLIST" | Group _ => "ADDRESS_LIST" | Connect _ => "CONNECT_DATA" | Single _ => "ADDRESS"
  end.

(** * How values are written *)

Definition address_value (x : address_item) (t : bytes) : Prop :=
  match x with
  | Protocol w => name_text w t /\ (same_word "TCP" w \/ same_word "TCPS" w)
  | Host w => name_text w t
  | Port n | Weight n => number_text n t
  end.

(** A value of pairs is not empty. *)
Definition list_value {X} (text : list X -> bytes -> Prop) (l : list X) (t : bytes) : Prop := text l t /\ l <> [].

Abbreviation addresses := (items_text address_key address_value).

Definition group_value (x : group_item) (t : bytes) : Prop :=
  match x with
  | Member l => list_value addresses l t
  | GroupStrategy s => choice_text (strategy_name s) t
  | GroupSwitch on => choice_text (switch on) t
  end.

Definition remove_value (x : remove_item) (t : bytes) : Prop :=
  match x with RemoveName => choice_text "TIMEOUT" t | RemoveTimeout n => number_text n t end.

Definition append_value (x : append_item) (t : bytes) : Prop :=
  match x with
  | AppendName d => choice_text (if d then "RETRYDURATION" else "NORMAL") t
  | AppendTimes n | AppendDuration n => number_text n t
  end.

Definition black_value (x : black_item) (t : bytes) : Prop :=
  match x with
  | Remove l => list_value (items_text remove_key remove_value) l t
  | Append l => list_value (items_text append_key append_value) l t
  end.

Definition connect_value (x : connect_item) (t : bytes) : Prop :=
  match x with
  | ServiceName w | Sid w | ExtraInfo w | SessionVariable w => name_text w t
  | ObMode n | DefaultSid n | EnableSsl n => number_text n t
  end.

Definition description_value (x : description_item) (t : bytes) : Prop :=
  match x with
  | Switch on => choice_text (switch on) t
  | RetryAllDowns n | RetryTimeout n | ConnectTimeout n | ReadTimeout n | WriteTimeout n => number_text n t
  | Strategy s => choice_text (strategy_name s) t
  | Groups => choice_text "ROTATION" t
  | Blacklist l => list_value (items_text black_key black_value) l t
  | Group l => list_value (items_text group_key group_value) l t
  | Connect l => list_value (items_text connect_key connect_value) l t
  | Single l => list_value addresses l t
  end.

(** * What settings mean *)

(** A name in an array. *)
Definition put_name (dest w : bytes) : bytes := strncpy dest w (Z.of_nat (length w)).

Definition put_address (x : address_item) (a : ObClientAddress) : ObClientAddress :=
  match x with
  | Protocol w => Address (host a) (put_name (protocol a) w) (host_len a) (Z.of_nat (length w)) (port a) (weight a)
  | Host w => Address (put_name (host a) w) (protocol a) (Z.of_nat (length w)) (protocol_len a) (port a) (weight a)
  | Port n => Address (host a) (protocol a) (host_len a) (protocol_len a) n (weight a)
  | Weight n => Address (host a) (protocol a) (host_len a) (protocol_len a) (port a) n
  end.

Abbreviation put_all put := (fold_left (fun a x => put x a)).

(** The room of an array to which an element is added. *)
Definition grow (count memory : Z) : Z := if count =? memory then memory + OBCLIENT_TNS_MEMORY_COUNT else memory.

Definition add_address (items : list address_item) (l : ObClientAddressList) : ObClientAddressList :=
  AddressList (address l ++ [put_all put_address items ObClientAddressInit]) (grow (Z.of_nat (length (address l))) (address_memory l)) (list_oblb l)
    (list_strategy l).

Definition put_group (x : group_item) (l : ObClientAddressList) : ObClientAddressList :=
  match x with
  | Member items => add_address items l
  | GroupStrategy s => AddressList (address l) (address_memory l) (list_oblb l) (strategy_code s)
  | GroupSwitch on => AddressList (address l) (address_memory l) on (list_strategy l)
  end.

Definition empty_group : ObClientAddressList := AddressList [] OBCLIENT_TNS_MEMORY_COUNT false 0.

Definition put_remove (x : remove_item) (b : ObClientBlacklistConf) : ObClientBlacklistConf :=
  match x with
  | RemoveName => BlacklistConf OBCLIENT_LB_OPTION_TIMEOUT (remove_timeout b) (append_strategy b) (retry_times b) (duration b)
  | RemoveTimeout n => BlacklistConf (remove_strategy b) n (append_strategy b) (retry_times b) (duration b)
  end.

Definition put_append (x : append_item) (b : ObClientBlacklistConf) : ObClientBlacklistConf :=
  match x with
  | AppendName d =>
      BlacklistConf (remove_strategy b) (remove_timeout b) (if d then OBCLIENT_LB_OPTION_RETRY_DERUATION else OBCLIENT_LB_OPTION_NORMAL)
        (retry_times b) (duration b)
  | AppendTimes n => BlacklistConf (remove_strategy b) (remove_timeout b) (append_strategy b) n (duration b)
  | AppendDuration n => BlacklistConf (remove_strategy b) (remove_timeout b) (append_strategy b) (retry_times b) n
  end.

Definition put_black (x : black_item) (b : ObClientBlacklistConf) : ObClientBlacklistConf :=
  match x with Remove l => put_all put_remove l b | Append l => put_all put_append l b end.

Definition put_connect (x : connect_item) (c : ObClientConnectData) : ObClientConnectData :=
  let 'ConnectData sn snl ei eil sv svl om ds ssl := c in
  match x with
  | ServiceName w | Sid w => ConnectData (put_name sn w) (Z.of_nat (length w)) ei eil sv svl om ds ssl
  | ExtraInfo w => ConnectData sn snl (put_name ei w) (Z.of_nat (length w)) sv svl om ds ssl
  | ObMode n => ConnectData sn snl ei eil sv svl n ds ssl
  | DefaultSid n => ConnectData sn snl ei eil sv svl om n ssl
  | SessionVariable w => ConnectData sn snl ei eil (put_name sv w) (Z.of_nat (length w)) om ds ssl
  | EnableSsl n => ConnectData sn snl ei eil sv svl om ds n
  end.

(** The first connect data count. *)
Definition put_description (x : description_item) (d : ObClientDescription) : ObClientDescription :=
  let room := grow (Z.of_nat (length (address_list d))) (address_list_memory d) in
  match x with
  | Switch on => set_strategies d on (oblb_strategy d) (oblb_group_strategy d)
  | RetryAllDowns n => set_times d n (connect_timout d) (read_timout d) (write_timout d) (retry_timeout d)
  | RetryTimeout n => set_times d (retry_all_downs d) (connect_timout d) (read_timout d) (write_timout d) n
  | ConnectTimeout n => set_times d (retry_all_downs d) n (read_timout d) (write_timout d) (retry_timeout d)
  | ReadTimeout n => set_times d (retry_all_downs d) (connect_timout d) n (write_timout d) (retry_timeout d)
  | WriteTimeout n => set_times d (retry_all_downs d) (connect_timout d) (read_timout d) n (retry_timeout d)
  | Strategy s => set_strategies d (oblb d) (strategy_code s) (oblb_group_strategy d)
  | Groups => set_strategies d (oblb d) (oblb_strategy d) OBCLIENT_LB_OPTION_GROUP_ROTATION
  | Blacklist l => set_blacklist d (put_all put_black l (black_list_conf d))
  | Group l => set_address_list d (address_list d ++ [put_all put_group l empty_group]) room
  | Connect l =>
      set_connect_data d (match connect_data d with None => Some (put_all put_connect l ObClientConnectDataInit) | old => old end)
  | Single l =>
      set_address_list d (match address_list d with [] => [] | g :: gs => add_address l g :: gs end) room
  end.

(** The defaults: 120 attempts within ten seconds; the first group takes the single addresses. *)
Definition default_description : ObClientDescription :=
  Description [empty_group] OBCLIENT_TNS_MEMORY_COUNT None false 120 0 0 0 10000 0 OBCLIENT_LB_OPTION_GROUP_ROTATION ObClientBlacklistConfInit.

(** * Reading *)

Ltac key_type := repeat match goal with |- context [word_type ?s] =>
  let t := eval vm_compute in (word_type s) in replace (word_type s) with t by (vm_compute; reflexivity) end.

Ltac is_key_word := split; [vm_compute; reflexivity|split; [apply Nat.leb_le; vm_compute; reflexivity|vm_compute; discriminate]].

(** A value that is a number. *)
Ltac number_item Hr Hv Hb := 
  let p' := fresh "p" in let E := fresh "E" in let Hr' := fresh "Hr" in
  destruct (number_read _ _ _ _ _ Hr Hv Hb) as (p' & E & Hr'); eexists p', _; key_type;
  cbn [address_pair remove_pair append_pair connect_pair description_pair]; rewrite E, bind_ret; split_and!; [done|done|exact Hr'|apply Hb].

(** A value that is one of several words. *)
Ltac choice_item Hr Hv Hb :=
  key_type; cbn [address_list_pair remove_pair append_pair description_pair];
  match type of Hv with choice_text ?s _ =>
    match goal with |- context [choice ?p ?opts ?old] =>
      let o := eval vm_compute in (option_of s opts) in
      match o with Some ?a =>
        let p' := fresh "p" in let E := fresh "E" in let Hr' := fresh "Hr" in
        destruct (choice_read p opts old s a _ _ _ Hr Hv Hb) as (p' & E & Hr'); [vm_compute; reflexivity|vm_compute; reflexivity|];
        eexists p', _; rewrite E; split_and!; [reflexivity|done|exact Hr'|apply Hb]
      end
    end
  end.

Definition any {A} (a : A) : Prop := True.

Lemma address_keys x : key_word (address_key x).
Proof. destruct x; is_key_word. Qed.

Lemma put_name_word dest w : Forall (fun c => c <> 0) w -> put_name dest w = w ++ drop (length w) dest.
Proof.
  intros Hw. unfold put_name, strncpy. rewrite Nat2Z.id, firstn_all.
  assert (until_nul w = w) as ->.
  { induction Hw as [|c w Hc _ IH]; [done|]. cbn [until_nul]. by rewrite (proj2 (Z.eqb_neq c 0)), IH. }
  rewrite Nat.sub_diag, app_nil_r, splice_0. done.
Qed.

Lemma protocol_known dest s w : same_word s w -> no_nul s = true -> Z.of_nat (length (str s)) = 3 \/ Z.of_nat (length (str s)) = 4 ->
  strncaseeq (length (str s)) (lower (str s)) (str (if Z.of_nat (length (str s)) =? 3 then "TCP" else "TCPS") ++ [0]) = true ->
  known_protocol (put_name dest w) (Z.of_nat (length w)) = true.
Proof.
  intros Hw Hs Hl He. destruct (same_word_chars s w Hw Hs) as [Hc Hlen]. unfold known_protocol. rewrite put_name_word, Nat2Z.id, !strncaseeq_lower by done.
  rewrite Hw, Hlen. destruct Hl as [E|E]; rewrite E in *; cbn [Z.eqb Pos.eqb andb orb] in *; rewrite He; by rewrite ?orb_true_r.
Qed.

Lemma address_read fuel : item_read address_pair address_key address_value put_address any fuel.
Proof.
  intros [w|w|n|n] v a p b more _ Hv Hb Hf Hr; cbn [address_key address_value put_address] in *; try number_item Hr Hv Hb.
  - destruct Hv as [Hv Hw].
    assert (known_protocol (put_name (protocol a) w) (Z.of_nat (length w)) = true /\ Z.of_nat (length w) <= OBCLIENT_TNS_PORT_BUFFER_SIZE) as [Hk Hl].
    { destruct Hw as [Hw|Hw]; (split; [eapply protocol_known; [exact Hw|vm_compute; reflexivity..| |vm_compute; reflexivity]; vm_compute; auto|]);
        destruct (same_word_chars _ _ Hw eq_refl) as [_ ->]; vm_compute; discriminate. }
    destruct (string_read p (protocol a) (protocol_len a) OBCLIENT_TNS_PORT_BUFFER_SIZE w v b more Hr Hv Hb Hl) as (p' & E & Hr').
    exists p', b. key_type. cbn [address_pair]. rewrite E, bind_ret. fold (put_name (protocol a) w). rewrite Hk. split_and!; [done|done|exact Hr'|apply Hb].
  - assert (Z.of_nat (length w) <= OBCLIENT_TNS_HOST_BUFFER_SIZE) as Hl by (destruct Hv as (? & ? & _ & _ & _ & ? & _); unfold OBCLIENT_TNS_HOST_BUFFER_SIZE, OBCLIENT_TNS_KEY_SIZE; lia).
    destruct (string_read p (host a) (host_len a) OBCLIENT_TNS_HOST_BUFFER_SIZE w v b more Hr Hv Hb Hl) as (p' & E & Hr').
    exists p', b. key_type. cbn [address_pair]. rewrite E. split_and!; [done|done|exact Hr'|apply Hb].
Qed.

Lemma check_grows p count memory : allocs p = [] -> check count memory p = (0, grow count memory, p).
Proof. intros Ha. unfold check, grow, alloc. rewrite Ha. by destruct (count =? memory). Qed.

Lemma ready_allocs p t : ready p t -> allocs p = [].
Proof. intros (_ & _ & _ & ?). done. Qed.

(** A value of pairs ends in front of the parenthesis. *)
Lemma list_read {A X} (handle : ObClientLBKeyType -> A -> ObClientTnsParseParams -> cres (Z * A * ObClientTnsParseParams))
    (kw : X -> string) value put fuel a p l v b more :
  (forall x, key_word (kw x)) -> item_read handle kw value put any fuel -> list_value (items_text kw value) l v -> gap b ->
  (length v <= fuel)%nat -> ready p (v ++ b ++ 41 :: more) ->
  exists p', build fuel handle a p = Ret (0, put_all put l a, p') /\ ready p' ([] ++ 41 :: more).
Proof. intros Hk Hi [Hl Hne] Hb Hf Hr. apply (build_read handle kw value put any fuel Hk Hi l v a p b more); try done. apply Hb. Qed.

Lemma address_build_read fuel l g p v b more : list_value addresses l v -> gap b -> (length v <= fuel)%nat -> ready p (v ++ b ++ 41 :: more) ->
  exists p', ObClientAddressBuild fuel g p = Ret (0, add_address l g, p') /\ ready p' ([] ++ 41 :: more).
Proof.
  intros Hv Hb Hf Hr. unfold ObClientAddressBuild, ObClientAddressListCheck. rewrite check_grows by (by eapply ready_allocs). cbn [negb Z.eqb].
  destruct (list_read address_pair address_key address_value put_address fuel ObClientAddressInit p l v b more address_keys (address_read fuel) Hv Hb Hf Hr) as (p' & E & Hr').
  rewrite E, bind_ret. exists p'. done.
Qed.

Lemma group_keys x : key_word (group_key x).
Proof. destruct x; is_key_word. Qed.

Lemma group_read fuel : item_read (address_list_pair fuel) group_key group_value put_group any fuel.
Proof.
  intros [l|s|on] v a p b more _ Hv Hb Hf Hr; cbn [group_key group_value put_group] in *.
  - destruct (address_build_read fuel l a p v b more Hv Hb Hf Hr) as (p' & E & Hr'). eexists p', []. key_type. cbn [address_list_pair].
    split_and!; [exact E|done|exact Hr'|constructor].
  - destruct s; choice_item Hr Hv Hb.
  - destruct on; choice_item Hr Hv Hb.
Qed.

Lemma remove_keys x : key_word (remove_key x).
Proof. destruct x; is_key_word. Qed.

Lemma remove_read fuel : item_read remove_pair remove_key remove_value put_remove any fuel.
Proof.
  intros [|n] v a p b more _ Hv Hb Hf Hr; cbn [remove_key remove_value put_remove] in *; [choice_item Hr Hv Hb|number_item Hr Hv Hb].
Qed.

Lemma append_keys x : key_word (append_key x).
Proof. destruct x; is_key_word. Qed.

Lemma append_read fuel : item_read append_pair append_key append_value put_append any fuel.
Proof.
  intros [d|n|n] v a p b more _ Hv Hb Hf Hr; cbn [append_key append_value put_append] in *; try number_item Hr Hv Hb. destruct d; choice_item Hr Hv Hb.
Qed.

Lemma black_keys x : key_word (black_key x).
Proof. destruct x; is_key_word. Qed.

Lemma black_read fuel : item_read (blacklist_pair fuel) black_key black_value put_black any fuel.
Proof.
  intros [l|l] v a p b more _ Hv Hb Hf Hr; cbn [black_key black_value put_black] in *.
  - destruct (list_read remove_pair remove_key remove_value put_remove fuel a p l v b more remove_keys (remove_read fuel) Hv Hb Hf Hr) as (p' & E & Hr').
    eexists p', []. key_type. split_and!; [exact E|done|exact Hr'|constructor].
  - destruct (list_read append_pair append_key append_value put_append fuel a p l v b more append_keys (append_read fuel) Hv Hb Hf Hr) as (p' & E & Hr').
    eexists p', []. key_type. split_and!; [exact E|done|exact Hr'|constructor].
Qed.

Lemma connect_keys x : key_word (connect_key x).
Proof. destruct x; is_key_word. Qed.

Lemma connect_read fuel : item_read connect_pair connect_key connect_value put_connect any fuel.
Proof.
  intros x v a p b more _ Hv Hb Hf Hr. destruct x as [w|w|w|n|n|w|n]; cbn [connect_key connect_value put_connect] in *; destruct a as [sn snl ei eil sv svl om ds ssl];
    try number_item Hr Hv Hb.
  all: assert (Z.of_nat (length w) <= OBCLIENT_TNS_KEY_SIZE) as Hl by (destruct Hv as (? & ? & _ & _ & _ & ? & _); unfold OBCLIENT_TNS_KEY_SIZE; lia).
  1, 2: destruct (string_read p sn snl OBCLIENT_TNS_KEY_SIZE w v b more Hr Hv Hb Hl) as (p' & E & Hr').
  3: destruct (string_read p ei eil OBCLIENT_TNS_KEY_SIZE w v b more Hr Hv Hb Hl) as (p' & E & Hr').
  4: destruct (string_read p sv svl OBCLIENT_TNS_KEY_SIZE w v b more Hr Hv Hb Hl) as (p' & E & Hr').
  all: exists p', b; key_type; cbn [connect_pair service_name service_name_len user_extra_info user_extra_info_len session_variable session_variable_len];
    rewrite E; split_and!; [reflexivity|done|exact Hr'|apply Hb].
Qed.

Lemma description_keys x : key_word (description_key x).
Proof. destruct x; is_key_word. Qed.

(** There is a group for single addresses. *)
Definition has_group (d : ObClientDescription) : Prop := address_list d <> [].

Lemma description_items_read fuel : item_read (description_pair fuel) description_key description_value put_description has_group fuel.
Proof.
  intros x v d p b more Hd Hv Hb Hf Hr. unfold has_group in *. pose proof (ready_allocs _ _ Hr) as Ha.
  destruct x as [on|n|n|n|n|n|s| |l|l|l|l]; cbn [description_key description_value put_description] in *; try number_item Hr Hv Hb.
  - destruct on; choice_item Hr Hv Hb.
  - destruct s; choice_item Hr Hv Hb.
  - choice_item Hr Hv Hb.
  - destruct (list_read (blacklist_pair fuel) black_key black_value put_black fuel (black_list_conf d) p l v b more black_keys (black_read fuel) Hv Hb Hf Hr) as (p' & E & Hr').
    eexists p', []. key_type. cbn [description_pair]. unfold ObClientBlacklistConfBuild. rewrite E, bind_ret. split_and!; [done|done|exact Hr'|constructor].
  - destruct (list_read (address_list_pair fuel) group_key group_value put_group fuel empty_group p l v b more group_keys (group_read fuel) Hv Hb Hf Hr) as (p' & E & Hr').
    eexists p', []. key_type. cbn [description_pair]. unfold ObClientAddressListBuild, ObClientDescriptionCheck, ObClientAddressListInit, ObClientAddressListCheck.
    rewrite !check_grows by done. cbn [negb Z.eqb]. change (AddressList _ (grow _ _) _ _) with empty_group. rewrite E, bind_ret. cbn [Z.eqb].
    split_and!; [done|cbn; by destruct (address_list d)|exact Hr'|constructor].
  - destruct Hv as [Hl Hne]. pose proof (items_length _ _ _ _ Hl).
    destruct (pairs_read connect_pair connect_key connect_value put_connect any fuel connect_keys (connect_read fuel) l v Hl fuel ObClientConnectDataInit p b more) as (p' & E & Hr' & Htok);
      [done|lia|done|apply Hb|done|by left|].
    eexists p', []. key_type. cbn [description_pair]. unfold ObClientConnectDataBuild, alloc. rewrite Ha. cbn [negb]. rewrite E, !bind_ret. unfold pairs_end. rewrite Htok.
    split_and!; [by destruct (connect_data d)|done|exact Hr'|constructor].
  - destruct (address_list d) as [|g gs] eqn:Eg; [done|].
    destruct (address_build_read fuel l g p v b more Hv Hb Hf Hr) as (p' & E & Hr'). eexists p', []. key_type. cbn [description_pair].
    unfold ObClientDescriptionCheck. rewrite check_grows by done. cbn [negb Z.eqb address_list set_address_list]. rewrite Eg. cbn [head of_option]. rewrite bind_ret, E, bind_ret.
    split_and!; [done|done|exact Hr'|constructor].
Qed.

Lemma blank_all b : blank_text b -> blanks b false = (Z.of_nat (length b), false).
Proof.
  induction 1 as [|x b Hx _ IH|s b Hs _ IH]; [done| |].
  - cbn [blanks length]. rewrite Hx, IH. f_equal. lia.
  - cbn [app blanks]. change (is_blank 35) with false. cbv iota. rewrite Z.eqb_refl, comment_blanks, IH by done.
    cbn [length]. rewrite length_app. cbn [length]. f_equal. lia.
Qed.

Lemma parse_start text : ready (parse_params TNS_MODE_DESCRIPTION [] text []) text.
Proof. by split_and!. Qed.

(** The value of a description. *)
Lemma description_body_read fuel items v p b more :
  items_text description_key description_value items v -> items <> [] -> gap b -> (length v <= fuel)%nat -> ready p (v ++ b ++ 41 :: more) ->
  exists p', description_body fuel p = Ret (0, put_all put_description items default_description, p') /\ ready p' (41 :: more).
Proof.
  intros Hi Hne Hb Hf Hr. pose proof (ready_allocs _ _ Hr) as Ha.
  unfold description_body, ObClientDescriptionInit, ObClientDescriptionCheck, ObClientAddressListInit, ObClientAddressListCheck.
  rewrite !check_grows by done. cbn [negb Z.eqb].
  apply (build_read (description_pair fuel) description_key description_value put_description has_group fuel description_keys (description_items_read fuel)
    items v default_description p b more); try done. apply Hb.
Qed.

(** C17: a description of a service in place of a name is read as the settings it lists: written as
    nested pairs of key words and values, with any blanks and comments between them, key
    words in capitals or small letters and words quoted or not, of any length and wherever
    the buffer of the parser ends, it gives a service with one description that has the
    default values changed by the settings, in their order. *)
Theorem description_read fuel getenv fopen tns items v t b :
  items_text description_key description_value items v -> items <> [] -> pair_text "DESCRIPTION" v t -> blank_text b ->
  IsDescriptionTns (t ++ b) = true -> (length (t ++ b) <= fuel)%nat ->
  exists s, ObClientTnsBuild fuel [] getenv fopen tns (t ++ b) = Ret (0, add_service tns s, true)
    /\ descriptions s = [put_all put_description items default_description].
Proof.
  intros Hi Hne Hp Hb His Hf. unfold ObClientTnsBuild. rewrite His. unfold ObClientTnsBuildDes. set (text := t ++ b) in *.
  pose proof (parse_start text) as Hr. set (p0 := parse_params TNS_MODE_DESCRIPTION [] text []) in *.
  destruct Hp as [b1 b2 k b3 b4 Hb1 Hb2 Hk Hb3 Hb4]. unfold text in Hr, Hf.
  repeat (rewrite <- !app_assoc in Hr; cbn [app] in Hr). repeat (rewrite !length_app in Hf; cbn [length] in Hf).
  destruct (pair_head_read p0 b1 b2 "DESCRIPTION" k b3 _ Hr Hb1 Hb2 Hk Hb3) as (p1 & -> & Hr1 & Ek & _); [is_key_word|].
  pose proof (ready_allocs _ _ Hr1) as Ha1. rewrite bind_ret. cbn [negb Z.eqb]. rewrite Ek. key_type. rewrite bool_decide_eq_false_2 by (by intros []).
  unfold alloc. rewrite Ha1. cbn [negb]. unfold ObClientDescriptionBuild, ObClientTnsServiceCheck. rewrite check_grows by done. cbn [negb Z.eqb].
  destruct (description_body_read fuel items v p1 b4 b Hi Hne Hb4 ltac:(lia) Hr1) as (p2 & -> & Hr2). rewrite !bind_ret. cbn [Z.eqb].
  destruct (parse_punct p2 [] 41 b TNS_RIGHT_PARENTHESES Hr2 ltac:(constructor) eq_refl ltac:(done)) as (p3 & E3 & (Hs3 & Hc3 & Ht3 & _) & Htok & _).
  unfold and_then. cbn [fst snd Z.eqb]. rewrite E3, bind_ret. cbn [fst snd Z.eqb].
  pose proof (parse_blank p3 Hs3) as Hbl. rewrite Ht3, Hc3, (blank_all b Hb) in Hbl. destruct Hbl as (p4 & -> & _ & Hst & _). rewrite !bind_ret, Z.eqb_refl.
  unfold pairs_end. rewrite (still_token _ _ Hst), Htok. cbn [Z.eqb TNS_NO_DATA Pos.eqb andb bool_decide]. eexists. split; [reflexivity|]. done.
Qed.

(** * An example *)

Definition plain (w : bytes) : bool :=
  forallb (fun c => negb (ends_key c) && negb (c =? 34)) w && (length w <? 256)%nat && match w with c :: _ => negb (c =? 35) | [] => false end.

Lemma plain_word w : plain w = true -> word_text w w.
Proof.
  unfold plain. rewrite !andb_true_iff. intros [[Hw Hl] Hh]. apply Nat.ltb_lt in Hl. split; [|split; [done|]].
  - clear Hl Hh. induction w as [|c w IH]; [constructor|]. cbn [forallb] in Hw. apply andb_true_iff in Hw as [Hc Hw]. apply andb_true_iff in Hc as [H1 H2].
    constructor; [by apply negb_true_iff|by apply Z.eqb_neq, negb_true_iff|auto].
  - destruct w; [done|]. by apply Z.eqb_neq, negb_true_iff.
Qed.

Lemma plain_name b w : blank_text b -> plain w = true -> name_text w (b ++ w).
Proof. intros Hb Hw. exists b, w. split_and!; [done|done|by apply plain_word]. Qed.

(** A pair with the blanks [b] in front of it. *)
Definition written (b : bytes) (k : string) (v : bytes) : bytes := b ++ 40 :: [] ++ str k ++ [] ++ 61 :: v ++ [] ++ [41].

Lemma written_pair b k v s : blank_text b -> plain (str k) = true -> same_word s (str k) -> pair_text s v (written b k v).
Proof. intros Hb Hk Hs. unfold written. apply a_pair; [done|apply no_blank| |by split; [apply no_blank|]..]. exists (str k). split; [by apply plain_word|done]. Qed.

Definition remark : bytes := (35 :: str " two servers") ++ 10 :: [32].

Lemma remark_blank : blank_text remark.
Proof. apply comment; [|by repeat constructor]. apply (bool_decide_unpack (Forall (fun c => c <> 10 /\ c <> 0) _)). vm_compute. exact Logic.I. Qed.

Definition sample_items : list description_item :=
  [Switch true; RetryAllDowns 9; Group [Member [Host (str "db 1"); Port 2881]]; Connect [Sid (str "test")]].

(** The host is quoted. *)
Definition host_text : bytes := [] ++ (34 :: str "db 1") ++ 34 :: [].

Definition sample_value : bytes :=
  written [] "oblb" ([] ++ str "On")
  ++ written remark "OBLB_RETRY_ALL_DOWNS" ([32] ++ str "9")
  ++ written [] "Address_List" (written [] "ADDRESS" (written [] "HOST" host_text ++ written [] "PORT" ([] ++ str "2881") ++ []) ++ [])
  ++ written [] "CONNECT_DATA" (written [] "SID" ([] ++ str "test") ++ []) ++ [].

Ltac write := apply written_pair; [first [apply no_blank|apply remark_blank]|vm_compute; reflexivity|vm_compute; reflexivity].

Lemma sample_items_text : items_text description_key description_value sample_items sample_value.
Proof.
  unfold sample_items, sample_value. eapply an_item; [|write|eapply an_item; [|write|eapply an_item; [|write|eapply an_item; [|write|apply no_item]]]]; cbn [description_value].
  - exists (str "On"). split; [|vm_compute; reflexivity]. apply plain_name; [constructor|vm_compute; reflexivity].
  - exists (str "9"). split_and!; [apply plain_name; [by repeat constructor|vm_compute; reflexivity]|apply (bool_decide_unpack (Forall (fun c => 48 <= c <= 57) _)); vm_compute; exact Logic.I|vm_compute; lia|vm_compute; lia|vm_compute; reflexivity].
  - split; [|discriminate]. eapply an_item; [|write|apply no_item]. cbn [group_value]. split; [|discriminate].
    eapply an_item; [|write|eapply an_item; [|write|apply no_item]]; cbn [address_value].
    + exists [], ((34 :: str "db 1") ++ 34 :: []). split_and!; [done|constructor|].
      split; [apply (quoted_part (str "db 1") [] []); [apply (bool_decide_unpack (Forall (fun c => c <> 34) _)); vm_compute; exact Logic.I|constructor]|].
      split; [vm_compute; lia|vm_compute; discriminate].
    + exists (str "2881"). split_and!; [apply plain_name; [constructor|vm_compute; reflexivity]|apply (bool_decide_unpack (Forall (fun c => 48 <= c <= 57) _)); vm_compute; exact Logic.I|vm_compute; lia|vm_compute; lia|vm_compute; reflexivity].
  - split; [|discriminate]. eapply an_item; [|write|apply no_item]. cbn [connect_value]. apply plain_name; [constructor|vm_compute; reflexivity].
Qed.

Lemma description_read_witness : exists s,
  ObClientTnsBuild 400 [] (fun _ => None) (fun _ => None) ObClientTnsInit (written [32] "DESCRIPTION" sample_value ++ [10])
    = Ret (0, add_service ObClientTnsInit s, true)
  /\ map retry_all_downs (descriptions s) = [9]
  /\ map (fun d => map (fun g => map (fun a => (take (Z.to_nat (host_len a)) (host a), port a)) (address g)) (address_list d)) (descriptions s)
     = [[[]; [(str "db 1", 2881)]]].
Proof.
  destruct (description_read 400 (fun _ => None) (fun _ => None) ObClientTnsInit sample_items sample_value (written [32] "DESCRIPTION" sample_value) [10])
    as (s & E & Hd).
  - exact sample_items_text.
  - discriminate.
  - apply written_pair; [by repeat constructor|vm_compute; reflexivity|vm_compute; reflexivity].
  - by repeat constructor.
  - vm_compute. reflexivity.
  - apply Nat.leb_le. vm_compute. reflexivity.
  - exists s. rewrite Hd. split; [exact E|]. split; vm_compute; reflexivity.
Defined.

End TnsService.
