(* ===== verification/TnsEnds.v ===== *)
(** Parsing of libmariadb/ob_tnsname.c ends, whatever the description or the file contains and
    whichever allocations fail: every round of its loops, of the lexer and of the parser,
    takes at least one character of the text, and where no word fills the array for words
    it ends without a memory error ([service_search_ends]).  What the parser gets wrong is
    at the end. *)

From stdpp Require Import tactics.
From S2P Require Import Prelude IntStore Uuid TraceText NumText StmtTime TimeText OracleTime StmtOracle OracleFormat TextTime Tns TnsText.
Import Uuid NumText TimeText OracleFormat TextTime Tns TnsText.

Module TnsEnds.

(** The text that is left, as a measure. *)
Abbreviation left p := (length (todo p)).

(** * Numbers *)

Lemma skip_white_ends m : forall p, loop_free (skip_white m p).
Proof. induction m as [|c m IH]; intros p; cbn [skip_white]; [done|]. by destruct (isspace c). Qed.

Lemma strtol_digits_ends m : forall v n, loop_free (strtol_digits m v n).
Proof. induction m as [|c m IH]; intros v n; cbn [strtol_digits]; [done|]. by destruct (_ && _). Qed.

Lemma strtoll10_ends mem p e : loop_free (strtoll10 mem p e).
Proof.
  unfold strtoll10, strtol. apply loop_free_bind; [unfold store; repeat case_match; done|]. intros m.
  apply loop_free_bind; [apply skip_white_ends|]. intros [m' q]. apply loop_free_bind; [apply loop_free_of_option|]. intros c.
  apply loop_free_bind; [apply strtol_digits_ends|]. intros [v n]. by destruct (n =? 0).
Qed.

(** The NUL that is stored ends the number. *)
Lemma skip_white_nul m : forall p, 0 ∈ m -> exists m' q, skip_white m p = Ret (m', q) /\ 0 ∈ m'.
Proof.
  induction m as [|c m IH]; intros p Hm; [by apply not_elem_of_nil in Hm|]. cbn [skip_white].
  destruct (isspace c) eqn:E; [|eauto]. apply IH. apply elem_of_cons in Hm as [<-|]; [done|done].
Qed.

Lemma strtol_digits_nul m : forall v n, 0 ∈ m -> exists r, strtol_digits m v n = Ret r.
Proof.
  induction m as [|c m IH]; intros v n Hm; [by apply not_elem_of_nil in Hm|]. cbn [strtol_digits].
  destruct (_ && _) eqn:E; [|eauto]. apply IH. apply elem_of_cons in Hm as [<-|]; [done|done].
Qed.

Lemma strtoll10_returns mem e : 0 <= e < Z.of_nat (length mem) -> exists r, strtoll10 mem 0 e = Ret r.
Proof.
  intros He. unfold strtoll10, strtol. rewrite store_splice1, bind_ret by (unfold room, is_byte, uint; lia).
  assert (0 ∈ splice e [0] mem) as Hm by (unfold splice; rewrite !elem_of_app, list_elem_of_singleton; auto).
  change (drop (Z.to_nat 0) (splice e [0] mem)) with (splice e [0] mem).
  destruct (skip_white_nul _ 0 Hm) as (m & q & -> & Hm'). rewrite bind_ret. destruct m as [|c m]; [by apply not_elem_of_nil in Hm'|].
  cbn [head of_option tail]. rewrite bind_ret.
  destruct (strtol_digits_nul (if (c =? 45) || (c =? 43) then m else c :: m) 0 0) as [[v n] ->].
  { destruct ((c =? 45) || (c =? 43)) eqn:E; [|done]. apply elem_of_cons in Hm' as [<-|]; [done|done]. }
  rewrite bind_ret. destruct (n =? 0); eauto.
Qed.

(** * Outcomes *)

(** A text is parsed with care when nothing in it can overrun an array; [careful] is what has to
    hold for that. *)
Section Careful.
Context (careful : Prop).

(** A result; a memory error only without care; never out of rounds. *)
Definition outcome {A} (P : A -> Prop) (r : cres A) : Prop :=
  match r with Ret a => P a | Fault => ~ careful | OutOfFuel => False end.

Lemma outcome_bind {A B} (P : A -> Prop) (Q : B -> Prop) r (f : A -> cres B) :
  outcome P r -> (forall a, P a -> outcome Q (f a)) -> outcome Q (r ≫= f).
Proof. destruct r as [a| |]; cbn; [|done|done]. intros Ha Hf. by apply Hf. Qed.

Lemma outcome_impl {A} (P Q : A -> Prop) r : outcome P r -> (forall a, P a -> Q a) -> outcome Q r.
Proof. destruct r; cbn; auto. Qed.

(** A state of the parser whose key and text are short enough. *)
Definition tame (p : ObClientTnsParseParams) : Prop := sane p /\ (careful -> tns_key_len p < 256 /\ short_words (todo p)).

(** The parser does not go back in the text. *)
Definition goes_on (p p' : ObClientTnsParseParams) : Prop := tame p' /\ todo p' `suffix_of` todo p.

Lemma goes_refl p : tame p -> goes_on p p.
Proof. by split. Qed.

Lemma goes_trans p q r : goes_on p q -> goes_on q r -> goes_on p r.
Proof. intros [_ H1] [H2 H3]. split; [done|by trans (todo q)]. Qed.

Lemma goes_tame p q : goes_on p q -> tame q.
Proof. by intros []. Qed.

Lemma goes_left p q : goes_on p q -> (left q <= left p)%nat.
Proof. intros [_ H]. by apply suffix_length. Qed.

#[local] Hint Resolve goes_refl goes_tame : core.

(** Reading the rest of the state leaves the text alone. *)
Lemma goes_same p q : tame p -> sane q -> todo q = todo p -> tns_key_len q = tns_key_len p -> goes_on p q.
Proof. intros [_ Hc] Hs Ht Hk. split; [|by rewrite Ht]. split; [done|]. by rewrite Ht, Hk. Qed.

(** * Tokens *)

Lemma parse_tame p tok : tame p ->
  outcome (fun '(ret, p') => goes_on p p' /\ (ret = 0 -> tok <> TNS_KEY -> (left p' < left p)%nat)) (ObClientTnsParse p tok).
Proof.
  intros [Hs Hc]. destruct (parse_any p tok Hs) as (ret & p' & -> & Hs' & Ht & Hl & Hk). cbn. split; [|done]. split; [|done]. split; [done|].
  intros H. destruct (Hc H). split; [auto|by eapply short_suffix].
Qed.

Lemma parse_on p tok : tame p -> outcome (fun '(_, p') => goes_on p p') (ObClientTnsParse p tok).
Proof. intros Hp. eapply outcome_impl; [by apply parse_tame|]. by intros [? ?] [? _]. Qed.

Lemma blank_on p : tame p -> outcome (fun '(_, p') => goes_on p p') (ObClientTnsParseBlank p).
Proof.
  intros Hp. pose proof (parse_blank p (proj1 Hp)) as H. destruct (blanks (todo p) (is_comment p)) as [n c]. destruct H as (p' & -> & Hs & Hst & Ht & _).
  assert (todo p' `suffix_of` todo p) by (rewrite Ht; apply drop_suffix). split; [|done]. split; [done|]. intros Hc. destruct Hp as [_ Hp]. destruct (Hp Hc).
  rewrite (still_key_len _ _ Hst). split; [done|by eapply short_suffix].
Qed.

Lemma key_type_on p : tame p -> outcome (fun '(_, p') => goes_on p p') (Ret (tns_get_key_type p)).
Proof.
  intros Hp. unfold tns_get_key_type, ObClientTnsGetKeyType.
  assert (forall t, goes_on p (set_key_type p t)) as H by (intros t; apply goes_same; [done|destruct Hp as [[] _]; by split|done|done]).
  destruct (_ <=? 20); apply H.
Qed.

Lemma then_on p r f : tame p -> (forall q, tame q -> outcome (fun '(_, q') => goes_on q q') (f q)) ->
  outcome (fun '(r', q) => goes_on p q /\ (r' = 0 -> r = 0)) (and_then (r, p) f).
Proof.
  intros Hp Hf. unfold and_then. cbn [fst snd]. destruct (Z.eqb_spec r 0); [|cbn; auto]. eapply outcome_impl; [by apply Hf|]. by intros [? ?].
Qed.

Lemma outcome_step {A B} (P : Z -> A -> Prop) (Q : B -> Prop) r (f : Z * A -> cres B) :
  outcome (fun '(ret, a) => P ret a) r -> (forall ret a, P ret a -> outcome Q (f (ret, a))) -> outcome Q (r ≫= f).
Proof. intros Hr Hf. eapply outcome_bind; [exact Hr|]. intros [ret a]. apply Hf. Qed.

Ltac step r p H := eapply outcome_step; [|intros r p H].

Lemma head_on p : tame p -> outcome (fun '(ret, p') => goes_on p p' /\ (ret = 0 -> (left p' < left p)%nat)) (pair_head p).
Proof.
  intros Hp. unfold pair_head. step r1 p1 H1; [by apply parse_tame|]. destruct H1 as [H1 L1].
  step r2 p2 H2; [apply then_on; [eauto|intros; by apply parse_on]|]. destruct H2 as [H2 L2].
  step r3 p3 H3; [apply then_on; [eauto|intros; by apply key_type_on]|]. destruct H3 as [H3 L3].
  eapply outcome_impl; [apply then_on; [eauto|intros; by apply parse_on]|]. intros [r4 p4] [H4 L4].
  assert (goes_on p1 p4) as H14 by (eapply goes_trans; [|exact H4]; by eapply goes_trans).
  split; [by eapply goes_trans|]. intros ->. pose proof (goes_left _ _ H14). specialize (L1 ltac:(auto) ltac:(done)). lia.
Qed.

(** * Pairs *)

(** A function that builds a structure with the property [inv]. *)
Definition ends {A} (inv : A -> Prop) (p : ObClientTnsParseParams) (r : cres (Z * A * ObClientTnsParseParams)) : Prop :=
  outcome (fun '(_, a, p') => inv a /\ goes_on p p') r.

Definition any {A} (a : A) : Prop := True.

Lemma ends_trans {A} (inv : A -> Prop) p q {r} : goes_on p q -> ends inv q r -> ends inv p r.
Proof. intros H Hr. eapply outcome_impl; [exact Hr|]. intros [[? a] p'] [? ?]. split; [done|by eapply goes_trans]. Qed.

Section Handler.
Context {A : Type} (handle : ObClientLBKeyType -> A -> ObClientTnsParseParams -> cres (Z * A * ObClientTnsParseParams)) (inv : A -> Prop) (bound : nat).
Hypothesis Hh : forall t a p, inv a -> tame p -> (left p <= bound)%nat -> ends inv p (handle t a p).

Lemma pairs_end_up n : forall a p, inv a -> tame p -> (left p <= n)%nat -> (left p <= bound)%nat ->
  outcome (fun '(a', p') => inv a' /\ goes_on p p') (pairs n handle a p).
Proof.
  induction n as [|n IH]; intros a p Ha Hp Hn Hb; cbn [pairs]; (step r1 p1 H1; [by apply head_on|]); destruct H1 as [H1 L1]; pose proof (goes_left _ _ H1).
  all: apply (outcome_bind (fun '(r2, a2, p2) => inv a2 /\ goes_on p1 p2 /\ (r2 = 0 -> r1 = 0)));
    [destruct (Z.eqb_spec r1 0) as [->|]; [eapply outcome_impl; [apply Hh; [done|eauto|lia]|]; by intros [[? ?] ?] [? ?]|cbn; eauto]|].
  all: intros [[r2 a2] p2] (Ha2 & H2 & L2); (step r3 p3 H3; [apply then_on; [eauto|intros; by apply parse_on]|]); destruct H3 as [H3 L3].
  all: assert (goes_on p p3) as Hp3 by (eapply goes_trans; [exact H1|]; by eapply goes_trans).
  all: destruct (Z.eqb_spec r3 0) as [->|]; [|done]; specialize (L1 ltac:(auto)); pose proof (goes_left _ _ H2); pose proof (goes_left _ _ H3).
  - lia.
  - eapply outcome_impl; [apply IH; [done|eauto|lia|lia]|]. intros [a' p'] [? ?]. split; [done|by eapply goes_trans].
Qed.

Lemma build_ends n a p : inv a -> tame p -> (left p <= n)%nat -> (left p <= bound)%nat -> ends inv p (build n handle a p).
Proof. intros. unfold build. eapply outcome_bind; [by apply pairs_end_up|]. by intros [a' p'] ?. Qed.

End Handler.

(** * Values *)

Lemma string_on p dest len limit : tame p -> outcome (fun '(_, p', _, _) => goes_on p p') (string_value p dest len limit).
Proof. intros Hp. unfold string_value. step r p1 H1; [by apply parse_on|]. cbn. by destruct ((r =? 0) && _). Qed.

Lemma choice_on {A} p (options : list (string * A)) old : tame p -> outcome (fun '(_, p', _) => goes_on p p') (choice p options old).
Proof. intros Hp. unfold choice. step r p1 H1; [by apply parse_on|]. cbn. by destruct (choose p1 options). Qed.

(** A number is read, or its word fills the array. *)
Lemma integer_on p : tame p -> outcome (fun '(_, p', _) => goes_on p p') (integer_value p).
Proof.
  intros Hp. unfold integer_value. step r p1 H1; [by apply parse_on|]. destruct H1 as [[Hs Hc] Ht].
  apply (outcome_bind (fun _ => True)); [|by intros [v e] _].
  pose proof (strtoll10_ends (tns_key p1) 0 (tns_key_len p1)) as Hends. pose proof (sane_key _ Hs). pose proof (sane_key_len _ Hs).
  destruct (strtoll10 (tns_key p1) 0 (tns_key_len p1)) as [v| |] eqn:E; cbn; [done| |done].
  intros H'. destruct (Hc H') as [Hl _]. destruct (strtoll10_returns (tns_key p1) (tns_key_len p1)) as [x Hx]; [lia|]. congruence.
Qed.

(** The value of a pair is a word of some kind. *)
Ltac simple_value :=
  match goal with
  | |- context [integer_value _] => eapply outcome_bind; [by apply integer_on|by intros [[? ?] ?] ?]
  | |- context [string_value _ _ _ _] => eapply outcome_bind; [by apply string_on|by intros [[[? ?] ?] ?] ?]
  | |- context [choice _ _ _] => eapply outcome_bind; [by apply choice_on|by intros [[? ?] ?] ?]
  | |- ends _ _ (Ret _) => split; [done|by apply goes_refl]
  end.

Lemma address_ends t a p : tame p -> ends any p (address_pair t a p).
Proof. intros Hp. destruct t; cbn [address_pair]; simple_value. Qed.

Lemma alloc_on p : tame p -> goes_on p (alloc p).2.
Proof. intros Hp. unfold alloc. destruct (allocs p) as [|ok l]; [by apply goes_refl|]. apply goes_same; [done|destruct Hp as [[] _]; by split|done|done]. Qed.

Lemma check_on p count memory : tame p -> goes_on p (check count memory p).2.
Proof. intros Hp. unfold check. destruct (count =? memory); [|by apply goes_refl]. pose proof (alloc_on p Hp). destruct (alloc p) as [[] p']; done. Qed.

(** A step that may allocate, then the rest. *)
Ltac checked p count memory Hp q Hq :=
  let ret := fresh "ret" in let m := fresh "m" in
  pose proof (check_on p count memory Hp) as Hq; destruct (check count memory p) as [[ret m] q]; cbn [snd] in Hq; destruct (negb (ret =? 0)).

Lemma address_build_ends fuel l p : tame p -> (left p <= fuel)%nat -> ends any p (ObClientAddressBuild fuel l p).
Proof.
  intros Hp Hf. unfold ObClientAddressBuild, ObClientAddressListCheck. checked p (Z.of_nat (length (address l))) (address_memory l) Hp q Hq; [by split|].
  pose proof (goes_left _ _ Hq). apply (ends_trans _ p q Hq).
  eapply outcome_bind; [apply (build_ends address_pair any fuel); [intros; by apply address_ends|done|eauto|lia|lia]|]. by intros [[r a] p'] [_ ?].
Qed.

Lemma group_ends fuel t l p : tame p -> (left p <= fuel)%nat -> ends any p (address_list_pair fuel t l p).
Proof. intros Hp Hf. destruct t; cbn [address_list_pair]; try simple_value. by apply address_build_ends. Qed.

Lemma remove_ends t b p : tame p -> ends any p (remove_pair t b p).
Proof. intros Hp. destruct t; cbn [remove_pair]; simple_value. Qed.

Lemma append_ends t b p : tame p -> ends any p (append_pair t b p).
Proof. intros Hp. destruct t; cbn [append_pair]; simple_value. Qed.

Lemma black_ends fuel t b p : tame p -> (left p <= fuel)%nat -> ends any p (blacklist_pair fuel t b p).
Proof.
  intros Hp Hf. destruct t; cbn [blacklist_pair]; try simple_value.
  - apply (build_ends remove_pair any fuel); try done. intros; by apply remove_ends.
  - apply (build_ends append_pair any fuel); try done. intros; by apply append_ends.
Qed.

Lemma connect_ends t c p : tame p -> ends any p (connect_pair t c p).
Proof. intros Hp. destruct t; cbn [connect_pair]; simple_value. Qed.

Lemma connect_build_ends fuel old p : tame p -> (left p <= fuel)%nat -> ends any p (ObClientConnectDataBuild fuel old p).
Proof.
  intros Hp Hf. unfold ObClientConnectDataBuild. pose proof (alloc_on p Hp) as Hq. destruct (alloc p) as [ok q]. cbn [snd] in Hq. destruct (negb ok); [by split|].
  pose proof (goes_left _ _ Hq). apply (ends_trans _ p q Hq).
  eapply outcome_bind; [apply (pairs_end_up connect_pair any fuel); [intros; by apply connect_ends|done|eauto|lia|lia]|]. by intros [c p'] [_ ?].
Qed.

(** * Descriptions *)

(** The first group takes the addresses outside groups: it must be there. *)
Definition has_group (d : ObClientDescription) : Prop := address_list d <> [].

Lemma list_build_ends fuel d p : has_group d -> tame p -> (left p <= fuel)%nat -> ends has_group p (ObClientAddressListBuild fuel d p).
Proof.
  intros Hd Hp Hf. unfold ObClientAddressListBuild, ObClientDescriptionCheck, ObClientAddressListInit, ObClientAddressListCheck.
  checked p (Z.of_nat (length (address_list d))) (address_list_memory d) Hp q Hq; [by split|]. cbn [address address_memory list_oblb list_strategy].
  apply (ends_trans _ p q Hq). checked q (Z.of_nat (length (@nil ObClientAddress))) 0 (goes_tame _ _ Hq) q2 Hq2; [by split|].
  pose proof (goes_left _ _ Hq). pose proof (goes_left _ _ Hq2). apply (ends_trans _ q q2 Hq2).
  eapply outcome_bind; [apply (build_ends (address_list_pair fuel) any fuel); [intros; by apply group_ends|done|eauto|lia|lia]|].
  intros [[r a] p'] [_ ?]. split; [|done]. destruct (r =? 0); [|done]. unfold has_group. cbn. by destruct (address_list d).
Qed.

Lemma description_ends fuel t d p : has_group d -> tame p -> (left p <= fuel)%nat -> ends has_group p (description_pair fuel t d p).
Proof.
  intros Hd Hp Hf. destruct t; cbn [description_pair]; try simple_value.
  - eapply outcome_bind; [apply (build_ends (blacklist_pair fuel) any fuel); try done; intros; by apply black_ends|]. by intros [[r b] p'] [_ ?].
  - by apply list_build_ends.
  - unfold ObClientDescriptionCheck. checked p (Z.of_nat (length (address_list d))) (address_list_memory d) Hp q Hq; [by split|].
    unfold has_group in Hd. cbn [address_list set_address_list]. destruct (address_list d) as [|g gs]; [done|]. cbn [head of_option]. rewrite bind_ret.
    pose proof (goes_left _ _ Hq). apply (ends_trans _ p q Hq). eapply outcome_bind; [apply address_build_ends; [eauto|lia]|]. by intros [[r b] p'] [_ ?].
  - eapply outcome_bind; [by apply connect_build_ends|]. by intros [[r b] p'] [_ ?].
Qed.

Lemma body_ends fuel p : tame p -> (left p <= fuel)%nat -> ends any p (description_body fuel p).
Proof.
  intros Hp Hf. unfold description_body, ObClientDescriptionInit, ObClientDescriptionCheck, ObClientAddressListInit, ObClientAddressListCheck.
  cbn [address_list address_list_memory address address_memory list_oblb list_strategy].
  checked p (Z.of_nat (length (@nil ObClientAddressList))) 0 Hp q Hq; [by split|].
  pose proof (check_on q (Z.of_nat (length (@nil ObClientAddress))) 0 (goes_tame _ _ Hq)) as Hq2.
  destruct (check (Z.of_nat (length (@nil ObClientAddress))) 0 q) as [[r2 m2] q2]. cbn [snd] in Hq2. cbn [negb Z.eqb].
  pose proof (goes_left _ _ Hq). pose proof (goes_left _ _ Hq2). apply (ends_trans _ p q2); [by eapply goes_trans|].
  eapply outcome_impl; [apply (build_ends (description_pair fuel) has_group fuel); [intros; by apply description_ends|done|eauto|lia|lia]|]. by intros [[r d] p'] [_ ?].
Qed.

Lemma description_build_ends fuel s p : tame p -> (left p <= fuel)%nat -> ends any p (ObClientDescriptionBuild fuel s p).
Proof.
  intros Hp Hf. unfold ObClientDescriptionBuild, ObClientTnsServiceCheck. checked p (Z.of_nat (length (descriptions s))) (description_memory s) Hp q Hq; [by split|].
  pose proof (goes_left _ _ Hq). apply (ends_trans _ p q Hq). eapply outcome_bind; [apply body_ends; [eauto|lia]|]. by intros [[r d] p'] [_ ?].
Qed.

(** * Services *)

Lemma system_ends v p : tame p -> ends any p (ObClientSystemVariablesBuild v p).
Proof.
  intros Hp. unfold ObClientSystemVariablesBuild.
  destruct (key_type p); solve [simple_value | step r q Hq; [by apply parse_on|]; by split].
Qed.

Lemma service_pairs_end fuel sys : forall s p ok, tame p -> (left p <= fuel)%nat ->
  outcome (fun _ => True) (service_pairs fuel sys s p ok).
Proof.
  induction fuel as [|fuel IH]; intros s p ok Hp Hf; cbn [service_pairs]; (step r1 p1 H1; [by apply parse_tame|]); destruct H1 as [H1 L1].
  all: destruct (Z.eqb_spec r1 0) as [->|]; [specialize (L1 eq_refl ltac:(done))|done]; cbn [negb].
  1: lia.
  step r2 p2 H2; [apply parse_on; eauto|]. cbn beta in H2. step r3 p3 H3; [apply then_on; [eauto|intros; by apply key_type_on]|]. destruct H3 as [H3 _].
  step r4 p4 H4; [apply then_on; [eauto|intros; by apply parse_on]|]. destruct H4 as [H4 _].
  assert (goes_on p1 p4) as H14 by (eapply goes_trans; [|exact H4]; by eapply goes_trans). pose proof (goes_left _ _ H14).
  apply (outcome_bind (fun '(_, _, q) => any s /\ goes_on p1 q)).
  { apply (ends_trans any p1 p4 H14). destruct (negb (r4 =? 0)); [split; [done|eauto]|]. destruct sys.
    - eapply outcome_bind; [apply system_ends; eauto|]. by intros [[r v] q] [_ ?].
    - destruct (bool_decide _); [|split; [done|eauto]]. apply description_build_ends; [eauto|lia]. }
  intros [[r5 s5] p5] [_ H5]. step r6 p6 H6; [apply then_on; [eauto|intros; by apply parse_on]|]. destruct H6 as [H6 _].
  destruct (r6 =? 0); [|done]. pose proof (goes_left _ _ H5). pose proof (goes_left _ _ H6). apply IH; [eauto|lia].
Qed.

Lemma service_build_ends fuel t p : tame p -> (left p <= fuel)%nat -> outcome (fun _ => True) (ObClientTnsServiceBuild fuel t p).
Proof.
  intros Hp Hf. unfold ObClientTnsServiceBuild. pose proof (alloc_on p Hp) as Hq. destruct (alloc p) as [ok q]. cbn [snd] in Hq. destruct (negb ok); [done|].
  pose proof (goes_left _ _ Hq). eapply outcome_bind; [apply service_pairs_end; [eauto|lia]|]. intros [[s p'] k] _. by destruct (k && pairs_end p').
Qed.

(** * Skipping a service *)

Lemma closing_bound chars : forall d, 0 <= (closing chars d).1 <= Z.of_nat (length chars).
Proof.
  induction chars as [|c chars IH]; intros d; cbn [closing length]; [simpl; lia|]. destruct (d =? 0); [simpl; lia|].
  match goal with |- context [closing chars ?e] => specialize (IH e); destruct (closing chars e) end. simpl in *. lia.
Qed.

Lemma closing_app a b : forall d, closing (a ++ b) d =
  let '(n, d') := closing a d in if d' =? 0 then (n, d') else let '(m, d'') := closing b d' in (n + m, d'').
Proof.
  induction a as [|c a IH]; intros d; cbn [app closing].
  - destruct (Z.eqb_spec d 0) as [->|Hd]; [by destruct b|]. by destruct (closing b d).
  - destruct (Z.eqb_spec d 0) as [->|Hd]; [done|]. rewrite IH. destruct (closing a _) as [n d']. destruct (d' =? 0); [done|]. destruct (closing b d'). f_equal. lia.
Qed.

Lemma closing_all a : forall d, (closing a d).2 <> 0 -> (closing a d).1 = Z.of_nat (length a).
Proof.
  induction a as [|c a IH]; intros d; cbn [closing]; [done|]. destruct (Z.eqb_spec d 0) as [->|Hd]; [done|].
  specialize (IH (if c =? 40 then d + 1 else if c =? 41 then d - 1 else d)). destruct (closing a _) as [n d']. cbn [fst snd length] in *. lia.
Qed.

(** The text behind the closing parenthesis, whatever the buffer. *)
Lemma skip_spec rounds : forall p d, sane p -> (rounds_for p <= rounds)%nat -> d <> 0 ->
  let '(n, d') := closing (todo p) d in
  exists p', skip_loop rounds p d = Ret (if d' =? 0 then 0 else TNS_NO_DATA, p') /\ sane p' /\ tns_key_len p' = tns_key_len p /\ todo p' = drop (Z.to_nat n) (todo p).
Proof.
  induction rounds as [|rounds IH]; intros p d Hs Hr Hd; cbn [skip_loop]; rewrite (proj2 (Z.eqb_neq d 0)) by done;
    destruct (check_buffer p Hs) as (ret & p1 & -> & Hs1 & Hst & _ & Ht & Hu & [(E0 & -> & Heof)|(-> & Hpos & Hless)]);
    try (cbn [negb Z.eqb Pos.eqb]; rewrite Heof, E0; cbn [closing]; rewrite (proj2 (Z.eqb_neq d 0)) by done; exists p1; split_and!; [done|done|apply Hst|by rewrite Ht, E0]).
  all: cbn [negb Z.eqb]; pose proof (sane_pos _ Hs1) as Hp1; pose proof (length_in_buffer p1 Hp1) as Hlen.
  - exfalso. unfold rounds_for in Hr. destruct (in_buffer p); [specialize (Hless eq_refl)|]; lia.
  - pose proof (closing_bound (in_buffer p1) d) as Hb. pose proof (closing_all (in_buffer p1) d) as Hall. rewrite <- Ht. unfold todo at 1. rewrite closing_app.
    destruct (closing (in_buffer p1) d) as [n d'] eqn:Ec. cbn [fst snd] in Hb, Hall.
    destruct (drop_pos p1 n (is_comment p1) ltac:(lia) ltac:(lia) ltac:(lia)) as [E1 E2].
    assert (sane (set_buffer_pos p1 (buffer_pos p1 + n) (is_comment p1))) as Hs2 by (apply sane_set_pos; [done|lia]).
    set (p2 := set_buffer_pos p1 (buffer_pos p1 + n) (is_comment p1)) in *. destruct (Z.eqb_spec d' 0) as [->|Hd'].
    + rewrite Z.eqb_refl. exists p2. split_and!; [by destruct rounds|done|apply Hst|done].
    + specialize (Hall Hd'). assert (in_buffer p2 = []) as Enil by (rewrite E1; apply drop_ge; lia). pose proof (rounds_next p p1 p2 Enil eq_refl Hu Hless).
      specialize (IH p2 d' Hs2 ltac:(lia) Hd'). assert (todo p2 = unread p1) as Et2 by (unfold todo; by rewrite Enil). rewrite Et2 in IH.
      pose proof (closing_bound (unread p1) d') as Hm. destruct (closing (unread p1) d') as [m d'']. cbn [fst] in Hm. destruct IH as (p3 & E3 & Hs3 & Hk3 & Ht3). exists p3. split_and!; [exact E3|done|rewrite Hk3; apply Hst|].
      rewrite Ht3. unfold todo. rewrite drop_app_ge by lia. f_equal. lia.
Qed.

Lemma service_skip_on p : tame p -> outcome (fun '(_, p') => is_eof p' = true \/ goes_on p p') (ObClientTnsServiceSkip p).
Proof.
  intros Hp. unfold ObClientTnsServiceSkip. destruct (strneq _ _ _); [by left|]. step r p1 H1; [by apply parse_on|]. cbn beta in H1.
  eapply outcome_impl; [apply then_on; [eauto|]|intros [r' q] [Hq _]; right; by eapply goes_trans]. clear -careful. intros q Hq.
  pose proof (skip_spec _ q 1 (proj1 Hq) (rounds_enough q) ltac:(done)) as H. destruct (closing (todo q) 1) as [n d']. destruct H as (p2 & -> & Hs2 & Hk & Ht2).
  assert (todo p2 `suffix_of` todo q) by (rewrite Ht2; apply drop_suffix). split; [|done]. split; [done|]. intros Hc. destruct Hq as [_ Hq]. destruct (Hq Hc).
  rewrite Hk. split; [done|by eapply short_suffix].
Qed.

(** * The search *)

Lemma find_service_ends fuel : forall t dbname p, is_eof p = true \/ tame p -> (left p <= fuel)%nat -> outcome (fun _ => True) (find_service fuel t dbname p).
Proof.
  induction fuel as [|fuel IH]; intros t dbname p Hp Hf; cbn [find_service]; (destruct (is_eof p) eqn:Ee; [done|]); destruct Hp as [?|Hp]; try done.
  all: step r1 p1 H1; [by apply parse_on|]; cbn beta in H1.
  all: apply (outcome_bind (fun '(r2, p2) => goes_on p1 p2 /\ (r2 = 0 -> (left p2 < left p1)%nat)));
    [unfold and_then; cbn [fst snd]; destruct (Z.eqb_spec r1 0); [eapply outcome_impl; [apply parse_tame; eauto|]; intros [? ?] [? ?]; split; [done|auto]|cbn; split; [eauto|done]]|].
  all: intros [r2 p2] [H2 L2]; pose proof (goes_left _ _ H1); pose proof (goes_left _ _ H2); destruct (Z.eqb_spec r2 0) as [->|]; [specialize (L2 eq_refl)|done]; cbn [negb].
  1: lia.
  destruct (negb (Z.of_nat (length dbname) =? tns_key_len p2) || negb (strneq (length dbname) dbname (tns_key p2))).
  - step r3 p3 H3; [apply service_skip_on; eauto|]. cbn beta in H3. destruct (negb (r3 =? 0)); [done|].
    destruct H3 as [He|H3]; [destruct fuel; cbn [find_service]; by rewrite He|]. pose proof (goes_left _ _ H3). apply IH; [eauto|lia].
  - eapply outcome_bind; [apply service_build_ends; [eauto|lia]|]. by intros [[ret t'] p'] _.
Qed.

Lemma description_search_ends fuel l t dbname : (careful -> short_words dbname) -> (length dbname <= fuel)%nat ->
  outcome (fun _ => True) (ObClientTnsBuildDes fuel l t dbname).
Proof.
  intros Hc Hf. unfold ObClientTnsBuildDes. set (p0 := parse_params TNS_MODE_DESCRIPTION [] dbname l).
  assert (tame p0) as Hp0 by (split; [by split|]; intros H; split; [done|by apply Hc]). assert (todo p0 = dbname) as Ht0 by done.
  step r1 p1 H1; [by apply head_on|]. destruct H1 as [H1 _]. pose proof (goes_left _ _ H1) as L1. rewrite Ht0 in L1.
  destruct (negb (r1 =? 0)); [done|]. destruct (bool_decide _); [done|].
  pose proof (alloc_on p1 (goes_tame _ _ H1)) as H2. destruct (alloc p1) as [ok p2]. cbn [snd] in H2. pose proof (goes_left _ _ H2).
  apply (outcome_bind (fun '(_, _, q) => any t /\ goes_on p1 q)).
  { destruct (negb ok); [split; [done|eauto]|]. eapply outcome_bind; [apply description_build_ends; [eauto|lia]|]. intros [[r s] q] [_ ?]. split; [done|by eapply goes_trans]. }
  intros [[r s] q] [_ Hq]. step r3 p3 H3; [apply then_on; [eauto|intros; by apply parse_on]|]. destruct H3 as [H3 _].
  step r4 p4 H4; [apply then_on; [eauto|]|by destruct ((r4 =? 0) && pairs_end p4)].
  intros x Hx. step st y Hy; [by apply blank_on|]. done.
Qed.

End Careful.

Lemma strlen_ends s : loop_free (strlen s).
Proof. induction s as [|c s IH]; cbn [strlen]; [done|]. destruct (c =? 0); [done|]. by apply loop_free_bind. Qed.

(** A round per character of the name or description and of every file. *)
Definition enough_rounds (fuel : nat) (fopen : bytes -> option bytes) (dbname : bytes) : Prop :=
  (length dbname <= fuel)%nat /\ (forall name file, fopen name = Some file -> (length file <= fuel)%nat).

(** Texts that fit the arrays: no word of 256 characters anywhere, and directories that are C strings
    of at most 256 characters. *)
Definition fitting_texts (getenv : string -> option bytes) (fopen : bytes -> option bytes) (dbname : bytes) : Prop :=
  short_words dbname /\ (forall name file, fopen name = Some file -> short_words file)
  /\ forall v dir, getenv v = Some dir -> exists n, strlen dir = Ret n /\ n <= 256.

Lemma file_name_ends careful getenv : (careful -> forall v dir, getenv v = Some dir -> exists n, strlen dir = Ret n /\ n <= 256) ->
  outcome careful (fun _ => True) (tns_file_name getenv).
Proof.
  intros Hc. unfold tns_file_name. destruct (getenv "OBCI_TNS_FILE"%string); [done|].
  assert (forall v dir suffix, getenv v = Some dir -> outcome careful (fun _ => True)
    (prefix_len ← strlen dir; let name := strncpy (repeat 0 (Z.to_nat (OBCLIENT_TNS_KEY_SIZE + 1))) dir OBCLIENT_TNS_KEY_SIZE in
     if prefix_len >? OBCLIENT_TNS_KEY_SIZE then Fault
     else Ret (Some (take (Z.to_nat prefix_len) name
           ++ strncpy (drop (Z.to_nat prefix_len) name) (str suffix ++ [0]) (OBCLIENT_TNS_KEY_SIZE - prefix_len))))) as Hdir.
  { intros v dir suffix E. specialize (fun H => Hc H v dir E). pose proof (strlen_ends dir). destruct (strlen dir) as [n| |]; [rewrite bind_ret; cbv zeta|cbn; naive_solver|done].
    rewrite Z.gtb_ltb. destruct (Z.ltb_spec OBCLIENT_TNS_KEY_SIZE n); [|done]. cbn. intros H'. destruct (Hc H') as (m & [= <-] & ?). unfold OBCLIENT_TNS_KEY_SIZE in *. lia. }
  destruct (getenv "TNS_ADMIN"%string) eqn:E1; [by eapply Hdir|]. destruct (getenv "ORACLE_HOME"%string) eqn:E2; [by eapply Hdir|done].
Qed.

Lemma search_ends fuel l getenv fopen tns dbname : enough_rounds fuel fopen dbname ->
  outcome (fitting_texts getenv fopen dbname) (fun _ => True) (ObClientTnsBuild fuel l getenv fopen tns dbname).
Proof.
  intros [Hd Hfile]. unfold ObClientTnsBuild. destruct (IsDescriptionTns dbname); [apply description_search_ends; [by intros []|done]|].
  eapply outcome_bind; [apply file_name_ends; by intros (_ & _ & ?)|]. intros [name|] _; [|done]. destruct (fopen (until_nul name)) as [file|] eqn:E; [|done].
  apply find_service_ends; [|by apply (Hfile _ _ E)]. right. split; [by split|]. intros (_ & Hf & _). split; [done|by apply (Hf _ _ E)].
Qed.

(** C27: the search for a service ends: whatever the name or description, the environment and the
    file, and whichever allocations fail, no loop of ObClientTnsBuild, of the lexer or of
    the parser, goes on for more rounds than the longer of the two texts has characters
    (the buffer loops: than there are characters left).  Where no word of 256 characters
    can be cut out of the texts and the directories of the environment have at most 256
    characters it also returns without a memory error. *)
Theorem service_search_ends fuel l getenv fopen tns dbname :
  enough_rounds fuel fopen dbname ->
  loop_free (ObClientTnsBuild fuel l getenv fopen tns dbname)
  /\ (fitting_texts getenv fopen dbname -> exists r, ObClientTnsBuild fuel l getenv fopen tns dbname = Ret r).
Proof.
  intros H. pose proof (search_ends fuel l getenv fopen tns dbname H) as Ho.
  destruct (ObClientTnsBuild fuel l getenv fopen tns dbname) as [r| |]; cbn in Ho; [split; [done|eauto]| |done]. split; [done|]. intros Hf. by destruct Ho.
Qed.

(** A text that is shorter than the array fits. *)
Lemma short_text t : (length t < 256)%nat -> short_words t.
Proof.
  intros Ht u Hu%suffix_length. assert (forall chars q r, (length (key_chars chars q r).2 <= length chars)%nat) as H.
  { induction chars as [|c chars IH]; intros q [|r]; cbn [key_chars length]; try (simpl; lia).
    destruct (c =? 34); [specialize (IH (negb q) (S r)); destruct (key_chars chars (negb q) (S r)) as [[? ?] ?]; cbn [snd] in *; lia|].
    destruct (negb q && ends_key c); [simpl; lia|]. specialize (IH q r). destruct (key_chars chars q r) as [[? ?] ?]. cbn [snd length] in *. lia. }
  specialize (H u false 256%nat). lia.
Qed.

(** * Findings *)

Definition first_description (text : bytes) : cres (option ObClientDescription) :=
  '(_, t, _) ← ObClientTnsBuildDes 300 [] ObClientTnsInit text;
  Ret (s ← tns_service t; head (descriptions s)).

Definition data_of (text : bytes) : cres (option (bytes * Z)) :=
  d ← first_description text;
  Ret (d ← d; c ← connect_data d; Some (until_nul (service_name c), service_name_len c)).

(** A shorter name leaves the end of the one before it, and the name is used up to the NUL. *)
Lemma service_name_mixed : data_of (str "(DESCRIPTION=(CONNECT_DATA=(SID=abcdef)(SID=xy)))") = Ret (Some (str "xycdef", 2)).
Proof. vm_compute. reflexivity. Qed.

(** Connect data given twice are not an error: the code that refuses them sets another variable. *)
Lemma second_data_ignored : data_of (str "(DESCRIPTION=(CONNECT_DATA=(SID=a))(CONNECT_DATA=(SID=b)))") = Ret (Some (str "a", 1)).
Proof. vm_compute. reflexivity. Qed.

(** Values are compared in the length of what was read: O is ON, R is RANDOM. *)
Lemma values_abbreviated :
  (d ← first_description (str "(DESCRIPTION=(OBLB=O)(OBLB_STRATEGY=R))"); Ret (option_map (fun d => (oblb d, oblb_strategy d)) d))
  = Ret (Some (true, OBCLIENT_LB_OPTION_RANDOM)).
Proof. vm_compute. reflexivity. Qed.

(** A word of 256 characters is accepted or refused depending on where the buffer ends. *)
Lemma long_word_by_buffer :
  let w := repeat 65 256 ++ [41] in
  (exists p, ObClientTnsParse (parse_params TNS_MODE_DESCRIPTION [] w []) TNS_KEY = Ret (0, p))
  /\ exists p, ObClientTnsParse (parse_params TNS_MODE_DESCRIPTION [] (repeat 32 768 ++ w) []) TNS_KEY = Ret (-1, p).
Proof. split; eexists; vm_compute; reflexivity. Qed.

(** A number of 256 characters: its NUL is stored behind the array. *)
Lemma long_number_overruns : integer_value (parse_params TNS_MODE_DESCRIPTION [] (repeat 49 256 ++ [41]) []) = Fault.
Proof. vm_compute. reflexivity. Qed.

(** A long directory makes the size of the suffix negative. *)
Lemma long_directory_overruns : tns_file_name (fun v => if String.eqb v "TNS_ADMIN" then Some (repeat 47 257 ++ [0]) else None) = Fault.
Proof. vm_compute. reflexivity. Qed.

Lemma service_search_ends_witness :
  exists r, ObClientTnsBuild 20 [false] (fun _ => Some (str "f" ++ [0])) (fun _ => Some (str "a=(b)(((")) ObClientTnsInit (str "x") = Ret r.
Proof.
  apply service_search_ends.
  - split; [apply Nat.leb_le; vm_compute; reflexivity|]. intros name file E. injection E as <-. apply Nat.leb_le. vm_compute. reflexivity.
  - split_and!; [apply short_text; apply Nat.ltb_lt; vm_compute; reflexivity| |].
    + intros name file E. injection E as <-. apply short_text. apply Nat.ltb_lt. vm_compute. reflexivity.
    + intros v dir E. injection E as <-. exists 1. split; [reflexivity|discriminate].
Defined.

End TnsEnds.
