(* ===== verification/LoadBalance.v ===== *)
(** Load balancing, libmariadb/ob_load_balance.c: connecting to one of several addresses, given as a
    list, as a text or by a service name.  Addresses are chosen at random, by weight or in
    rotation; one that failed goes to a black list that all connections share, and comes back
    after a while.

    The clock, rand() and the outcome of an attempt to connect are functions of how often they
    were asked; [World] counts, and records the attempts, the requests that were sent, the
    black list and the results of allocations.  Taking the lock of the black list is left
    out: the functions are sequential. *)

From stdpp Require Import tactics.
From S2P Require Import Prelude IntStore Uuid TraceText NumText StmtTime TimeText OracleTime StmtOracle OracleFormat TextTime Tns.
Import Uuid NumText TimeText OracleFormat TextTime Tns.

Module LoadBalance.

Definition CONNECT_CNT_INIT : Z := 32.
Definition MAX_KEY_LEN : Z := 128.
Definition ACCESS_DENIED : Z := 1045.

Inductive ObLbAddressState : Type := OBCLIENT_LB_BLACK | OBCLIENT_LB_WHITE | OBCLIENT_LB_GRAY.

#[export] Instance state_eq_dec : EqDecision ObLbAddressState.
Proof. solve_decision. Defined.

(** Times of attempts, eight bytes each; the array may be missing. *)
Record ConnectInfo : Type := MkConnectInfo { connect_cnt : Z; connect_max : Z; connect_list : ptr }.

(** [lb_host] is an array of 128 bytes. *)
Record ObLbAddress : Type := LbAddress {
  no : Z; lb_host : bytes; lb_port : Z; lb_weight : Z; state : ObLbAddressState; use_ssl : bool; black_time : Z; last_time : Z;
  connect_info : option ConnectInfo }.

Record ObLbAddressList : Type := LbAddressList { lb_option : Z; rotation_flag : Z; add_arr : list ObLbAddress }.

Definition set_state (a : ObLbAddress) (s : ObLbAddressState) (time : Z) : ObLbAddress :=
  LbAddress (no a) (lb_host a) (lb_port a) (lb_weight a) s (use_ssl a) time (last_time a) (connect_info a).
Definition set_last_time (a : ObLbAddress) (time : Z) : ObLbAddress :=
  LbAddress (no a) (lb_host a) (lb_port a) (lb_weight a) (state a) (use_ssl a) (black_time a) time (connect_info a).
Definition set_connect_info (a : ObLbAddress) (i : option ConnectInfo) : ObLbAddress :=
  LbAddress (no a) (lb_host a) (lb_port a) (lb_weight a) (state a) (use_ssl a) (black_time a) (last_time a) i.
Definition set_weight (a : ObLbAddress) (w : Z) : ObLbAddress :=
  LbAddress (no a) (lb_host a) (lb_port a) w (state a) (use_ssl a) (black_time a) (last_time a) (connect_info a).

(** The black list; [None] when it has no memory. *)
Record Black : Type := MkBlack { key : bytes; black_since : Z }.
Record BlackList : Type := MkBlackList { blacks : option (list Black); black_max : Z }.

(** * Settings *)

Inductive opt_value : Type := Number (n : Z) | Text (s : ptr).

Record ObClientLbConfig : Type := Config {
  lb_retry_all_downs : Z; lb_retry_timeout : Z; black_remove_strategy : Z; black_remove_timeout : Z; black_append_strategy : Z;
  black_append_retrytimes : Z; black_append_duration : Z;
  mysql_connect_timeout : Z; mysql_read_timeout : Z; mysql_write_timeout : Z; mysql_is_proxy_mode : bool; mysql_init_command : ptr;
  mysql_charset_name : ptr; mysql_is_compress : bool; mysql_is_local_infile : bool; mysql_local_infile : Z; mysql_opt_protocol : Z;
  mysql_opt_plugin_dir : ptr; mysql_opt_default_auth : ptr; mysql_program_name : ptr; mysql_ob_proxy_user : ptr; mysql_opt_secure_auth : bool;
  mysql_opt_interactive : bool; mysql_report_data_truncation : bool; mysql_opt_reconnect : bool; mysql_read_default_file : ptr;
  mysql_opt_use_ssl : bool; mysql_opt_ssl_verify_server_cert : bool; mysql_opt_ssl_key : ptr; mysql_opt_ssl_cert : ptr; mysql_opt_ssl_ca : ptr;
  mysql_opt_ssl_capath : ptr; mysql_opt_ssl_cipher : ptr; mysql_opt_ssl_crl : ptr; mysql_opt_ssl_crlpath : ptr; mysql_opt_tls_version : ptr;
  mysql_opt_close_attr_obclient_ip : bool; mysql_opt_close_attr_obclient_name : bool }.

Definition set_balancing (c : ObClientLbConfig) (downs timeout remove remove_timeout append times duration : Z) : ObClientLbConfig :=
  Config downs timeout remove remove_timeout append times duration (mysql_connect_timeout c) (mysql_read_timeout c) (mysql_write_timeout c)
    (mysql_is_proxy_mode c) (mysql_init_command c) (mysql_charset_name c) (mysql_is_compress c) (mysql_is_local_infile c) (mysql_local_infile c)
    (mysql_opt_protocol c) (mysql_opt_plugin_dir c) (mysql_opt_default_auth c) (mysql_program_name c) (mysql_ob_proxy_user c) (mysql_opt_secure_auth c)
    (mysql_opt_interactive c) (mysql_report_data_truncation c) (mysql_opt_reconnect c) (mysql_read_default_file c) (mysql_opt_use_ssl c)
    (mysql_opt_ssl_verify_server_cert c) (mysql_opt_ssl_key c) (mysql_opt_ssl_cert c) (mysql_opt_ssl_ca c) (mysql_opt_ssl_capath c)
    (mysql_opt_ssl_cipher c) (mysql_opt_ssl_crl c) (mysql_opt_ssl_crlpath c) (mysql_opt_tls_version c) (mysql_opt_close_attr_obclient_ip c)
    (mysql_opt_close_attr_obclient_name c).

Definition set_downs (c : ObClientLbConfig) (downs : Z) : ObClientLbConfig :=
  set_balancing c downs (lb_retry_timeout c) (black_remove_strategy c) (black_remove_timeout c) (black_append_strategy c) (black_append_retrytimes c)
    (black_append_duration c).

Definition set_timeouts (c : ObClientLbConfig) (connect read write : Z) (ssl : bool) : ObClientLbConfig :=
  Config (lb_retry_all_downs c) (lb_retry_timeout c) (black_remove_strategy c) (black_remove_timeout c) (black_append_strategy c) (black_append_retrytimes c)
    (black_append_duration c) connect read write
    (mysql_is_proxy_mode c) (mysql_init_command c) (mysql_charset_name c) (mysql_is_compress c) (mysql_is_local_infile c) (mysql_local_infile c)
    (mysql_opt_protocol c) (mysql_opt_plugin_dir c) (mysql_opt_default_auth c) (mysql_program_name c) (mysql_ob_proxy_user c) (mysql_opt_secure_auth c)
    (mysql_opt_interactive c) (mysql_report_data_truncation c) (mysql_opt_reconnect c) (mysql_read_default_file c) ssl
    (mysql_opt_ssl_verify_server_cert c) (mysql_opt_ssl_key c) (mysql_opt_ssl_cert c) (mysql_opt_ssl_ca c) (mysql_opt_ssl_capath c)
    (mysql_opt_ssl_cipher c) (mysql_opt_ssl_crl c) (mysql_opt_ssl_crlpath c) (mysql_opt_tls_version c) (mysql_opt_close_attr_obclient_ip c)
    (mysql_opt_close_attr_obclient_name c).

(** What all zeros give. *)
Definition default_config : ObClientLbConfig :=
  Config 0 0 0 0 0 0 0 0 0 0 false None None false false 0 0 None None None None false false false false None false false None None None None None None None None
    false false.

(** p && *p *)
Definition not_empty (s : ptr) : bool := match s with Some (c :: _) => negb (c =? 0) | _ => false end.

Definition given (b : bool) (l : list (string * opt_value)) : list (string * opt_value) := if b then l else [].

(** The options that are set in front of an attempt, in order. *)
Definition options (c : ObClientLbConfig) (address_ssl : bool) : list (string * opt_value) :=
 [("MYSQL_REPORT_DATA_TRUNCATION"%string, Number 1); ("MYSQL_OPT_LOCAL_INFILE"%string, Number 2); ("MYSQL_OPT_CONNECT_TIMEOUT"%string, Number 6)]
  ++ given (mysql_connect_timeout c >? 0) [("MYSQL_OPT_CONNECT_TIMEOUT"%string, Number (mysql_connect_timeout c))]
  ++ given (mysql_read_timeout c >? 0) [("MYSQL_OPT_READ_TIMEOUT"%string, Number (mysql_read_timeout c))]
  ++ given (mysql_write_timeout c >? 0) [("MYSQL_OPT_WRITE_TIMEOUT"%string, Number (mysql_write_timeout c))]
  ++ given (mysql_is_proxy_mode c) [("ob_server_version"%string, Number 254)]
  ++ given (not_empty (mysql_init_command c)) [("MYSQL_INIT_COMMAND"%string, Text (mysql_init_command c))]
  ++ given (not_empty (mysql_charset_name c)) [("MYSQL_SET_CHARSET_NAME"%string, Text (mysql_charset_name c))]
  ++ given (mysql_is_compress c) [("MYSQL_OPT_COMPRESS"%string, Text None)]
  ++ given (mysql_is_local_infile c) [("MYSQL_OPT_LOCAL_INFILE"%string, Number (mysql_local_infile c))]
  ++ given (negb (mysql_opt_protocol c =? 0)) [("MYSQL_OPT_PROTOCOL"%string, Number (mysql_opt_protocol c))]
  ++ given (not_empty (mysql_opt_plugin_dir c)) [("MYSQL_PLUGIN_DIR"%string, Text (mysql_opt_plugin_dir c))]
  ++ given (not_empty (mysql_opt_default_auth c)) [("MYSQL_DEFAULT_AUTH"%string, Text (mysql_opt_default_auth c))]
  ++ given (not_empty (mysql_program_name c))
       [("MYSQL_OPT_CONNECT_ATTR_RESET"%string, Text None); ("program_name"%string, Text (mysql_program_name c))]
  ++ given (not_empty (mysql_ob_proxy_user c)) [("OB_OPT_PROXY_USER"%string, Text (mysql_ob_proxy_user c))]
  ++ given (mysql_opt_secure_auth c) [("MYSQL_SECURE_AUTH"%string, Number 1)]
  ++ given (mysql_opt_interactive c) [("MARIADB_OPT_INTERACTIVE"%string, Number 1)]
  ++ given (mysql_report_data_truncation c) [("MYSQL_REPORT_DATA_TRUNCATION"%string, Number 1)]
  ++ given (mysql_opt_reconnect c) [("MYSQL_OPT_RECONNECT"%string, Number 1)]
  ++ given (not_empty (mysql_read_default_file c)) [("MYSQL_READ_DEFAULT_FILE"%string, Text (mysql_read_default_file c))]
  ++ given (mysql_opt_use_ssl c || address_ssl)
       [("ssl_key"%string, Text (mysql_opt_ssl_key c)); ("ssl_cert"%string, Text (mysql_opt_ssl_cert c)); ("ssl_ca"%string, Text (mysql_opt_ssl_ca c));
        ("ssl_capath"%string, Text (mysql_opt_ssl_capath c)); ("ssl_cipher"%string, Text (mysql_opt_ssl_cipher c)); ("MYSQL_OPT_SSL_CRL"%string, Text (mysql_opt_ssl_crl c));
        ("MYSQL_OPT_SSL_CRLPATH"%string, Text (mysql_opt_ssl_crlpath c)); ("MARIADB_OPT_TLS_VERSION"%string, Text (mysql_opt_tls_version c))]
  ++ given (mysql_opt_ssl_verify_server_cert c) [("MYSQL_OPT_SSL_VERIFY_SERVER_CERT"%string, Number 1)]
  ++ given (mysql_opt_close_attr_obclient_ip c) [("OB_OPT_CLOSE_ATTR_OBCLIENT_IP"%string, Number 1)]
  ++ given (mysql_opt_close_attr_obclient_name c) [("OB_OPT_CLOSE_ATTR_OBCLIENT_NAME"%string, Number 1)].

(** The arguments that go to mysql_real_connect as they are. *)
Record Login : Type := MkLogin { user : ptr; passwd : ptr; db : ptr; unix_socket : ptr; client_flag : Z }.

(** An attempt to connect. *)
Record attempt : Type := Attempt { to_host : bytes; to_port : Z; login : Login; with_options : list (string * opt_value) }.

(** The error of the handle: CR_UNKNOWN_ERROR with a message, or that of mysql_real_connect. *)
Inductive lb_error : Type := CR_UNKNOWN_ERROR (message : bytes) | Refused (code : Z).

Record World : Type := MkWorld {
  ticks : nat; rands : nat; attempts : list attempt; queries : list bytes; blacklist : BlackList; last_error : option lb_error; lb_allocs : list bool }.

Definition set_blacklist (w : World) (b : BlackList) : World :=
  MkWorld (ticks w) (rands w) (attempts w) (queries w) b (last_error w) (lb_allocs w).
Definition log_attempt (w : World) (a : attempt) (e : option lb_error) : World :=
  MkWorld (ticks w) (rands w) (attempts w ++ [a]) (queries w) (blacklist w) e (lb_allocs w).
Definition log_query (w : World) (q : bytes) : World :=
  MkWorld (ticks w) (rands w) (attempts w) (queries w ++ [q]) (blacklist w) (last_error w) (lb_allocs w).

(** SET_CLIENT_ERROR *)
Definition set_error (w : World) (message : bytes) : World :=
  MkWorld (ticks w) (rands w) (attempts w) (queries w) (blacklist w) (Some (CR_UNKNOWN_ERROR message)) (lb_allocs w).

Definition lb_alloc (w : World) : bool * World :=
  match lb_allocs w with
  | [] => (true, w)
  | ok :: l => (ok, MkWorld (ticks w) (rands w) (attempts w) (queries w) (blacklist w) (last_error w) l)
  end.

(** * The black list *)

(** host:port, cut to the size of a key. *)
Definition address_key (a : ObLbAddress) : cres bytes :=
  h ← TraceText.cstring (lb_host a);
  Ret (take (Z.to_nat (MAX_KEY_LEN - 1)) (h ++ [58] ++ print_d 1 (lb_port a))).

(** strcasecmp(a, b) == 0 *)
Definition same_key (a b : bytes) : bool := bool_decide (map tolower a = map tolower b).

Definition find_black (k : bytes) (l : list Black) : option (nat * Black) := list_find (fun b => same_key k (key b) = true) l.

(** Room for another entry. *)
Definition grow_blacks (w : World) : BlackList * World :=
  let b := blacklist w in
  match blacks b with
  | None => let '(ok, w) := lb_alloc w in (if ok then MkBlackList (Some []) CONNECT_CNT_INIT else MkBlackList None (black_max b), w)
  | Some l =>
      if Z.of_nat (length l) >=? u32 (black_max b - 1) then
        let '(ok, w) := lb_alloc w in (if ok then MkBlackList (Some l) (u32 (black_max b * 2)) else MkBlackList None (black_max b), w)
      else (b, w)
  end.

Definition append_blacklist (w : World) (a : ObLbAddress) : cres World :=
  k ← address_key a;
  let '(b, w) := grow_blacks w in
  match blacks b with
  | None => Ret (set_blacklist w b)
  | Some l =>
      match find_black k l with
      | Some _ => Ret (set_blacklist w b)
      | None =>
          if Z.of_nat (length l) <? black_max b then Ret (set_blacklist w (MkBlackList (Some (l ++ [MkBlack k (black_time a)])) (black_max b)))
          else Fault
      end
  end.

Definition remove_blacklist (w : World) (a : ObLbAddress) : cres World :=
  k ← address_key a;
  match blacks (blacklist w) with
  | None => Ret w
  | Some l =>
      match find_black k l with
      | None => Ret w
      | Some (i, _) => Ret (set_blacklist w (MkBlackList (Some (take i l ++ drop (S i) l)) (black_max (blacklist w))))
      end
  end.

(** The time since when an address is on the list. *)
Definition is_at_blacklist (w : World) (a : ObLbAddress) : cres (option Z) :=
  k ← address_key a;
  Ret (match blacks (blacklist w) with
       | None => None
       | Some l => match find_black k l with Some (_, b) => Some (black_since b) | None => None end
       end).

(** * Times of attempts *)

Definition init_connect_info (junk : Z) (w : World) (a : ObLbAddress) : World * ObLbAddress :=
  match connect_info a with
  | None =>
      let '(ok, w) := lb_alloc w in
      if ok then
        let '(ok, w) := lb_alloc w in
        (w, set_connect_info a (Some (MkConnectInfo 0 CONNECT_CNT_INIT (if ok then Some (repeat junk (Z.to_nat (8 * CONNECT_CNT_INIT))) else None))))
      else (w, a)
  | Some i =>
      if connect_cnt i >=? u32 (connect_max i - 1) then
        let '(ok, w) := lb_alloc w in
        let max := u32 (connect_max i * 2) in
        (w, set_connect_info a (Some (MkConnectInfo (connect_cnt i) max
               (if ok then Some (resize junk (8 * max) (default [] (connect_list i))) else None))))
      else (w, a)
  end.

Definition check_connect_info (a : ObLbAddress) : bool :=
  match connect_info a with Some i => match connect_list i with Some _ => true | None => false end | None => false end.

Section Balance.
Context (clock : nat -> Z) (rand : nat -> Z) (mysql_real_connect : nat -> attempt -> option Z) (mysql_real_query : bytes -> Z) (junk : Z).

Definition get_current_time_us (w : World) : Z * World :=
  (clock (ticks w), MkWorld (S (ticks w)) (rands w) (attempts w) (queries w) (blacklist w) (last_error w) (lb_allocs w)).

Definition draw (w : World) : Z * World :=
  (rand (rands w), MkWorld (ticks w) (S (rands w)) (attempts w) (queries w) (blacklist w) (last_error w) (lb_allocs w)).

(** The address turns black now. *)
Definition blacken (w : World) (a : ObLbAddress) : World * ObLbAddress :=
  let '(now, w) := get_current_time_us w in (w, set_state a OBCLIENT_LB_BLACK now).

Definition append_ob_address_connect_info (w : World) (a : ObLbAddress) : cres (World * ObLbAddress) :=
  let '(w, a) := init_connect_info junk w a in
  match connect_info a with
  | Some (MkConnectInfo cnt max (Some l)) =>
      let '(now, w) := get_current_time_us w in
      l ← store_bytes l (8 * cnt) (le_bytes 8 now);
      let '(now, w) := get_current_time_us w in
      Ret (w, set_last_time (set_connect_info a (Some (MkConnectInfo (u32 (cnt + 1)) max (Some l)))) now)
  | _ => Ret (blacken w a)
  end.

(** * Choosing *)

Definition positive_weight (a : ObLbAddress) : ObLbAddress := if lb_weight a <=? 0 then set_weight a 1 else a.

(** The white addresses. *)
Fixpoint whites (l : list ObLbAddress) (i : nat) : list nat :=
  match l with
  | [] => []
  | a :: l => if decide (state a = OBCLIENT_LB_WHITE) then i :: whites l (S i) else whites l (S i)
  end.

(** The loop of SERVERAFFINITY over the white addresses. *)
Fixpoint by_weight (l : list ObLbAddress) (idx : list nat) (rand_number : Z) : option nat :=
  match idx with
  | [] => None
  | [i] => Some i
  | i :: idx =>
      let r := s32 (rand_number - match l !! i with Some a => lb_weight a | None => 0 end) in
      if r <=? 0 then Some i else by_weight l idx r
  end.

(** The loop of ROTATION: from [i] to the end; counts the steps. *)
Fixpoint rotate (l : list ObLbAddress) (i : nat) (flag : Z) : option nat * Z :=
  match l with
  | [] => (None, flag)
  | a :: l => if decide (state a = OBCLIENT_LB_WHITE) then (Some i, u32 (flag + 1)) else rotate l (S i) (u32 (flag + 1))
  end.

Definition total_weight (l : list ObLbAddress) : Z :=
  fold_left (fun w a => if decide (state a = OBCLIENT_LB_WHITE) then u32 (w + lb_weight a) else w) l 0.

(** The index of the address; its entry is updated. *)
Definition choose_index (w : World) (l : ObLbAddressList) : cres (World * ObLbAddressList * option nat) :=
  let arr := map positive_weight (add_arr l) in
  let l := LbAddressList (lb_option l) (rotation_flag l) arr in
  let idx := whites arr 0 in
  match idx with
  | [] => Ret (w, l, None)
  | [i] => Ret (w, l, Some i)
  | _ =>
      if lb_option l =? OBCLIENT_LB_OPTION_RANDOM then
        let '(r, w) := draw w in Ret (w, l, idx !! Z.to_nat (u32 r mod Z.of_nat (length idx)))
      else if lb_option l =? OBCLIENT_LB_OPTION_SERVERAFFINITY then
        let '(r, w) := draw w in
        let weight := total_weight arr in
        if weight =? 0 then Fault else Ret (w, l, by_weight arr idx (s32 (u32 r mod weight + 1)))
      else if lb_option l =? OBCLIENT_LB_OPTION_ROTATION then
        let from := Z.to_nat (rotation_flag l mod Z.of_nat (length arr)) in
        let '(i, flag) := rotate (drop from arr) from (rotation_flag l) in
        match i with
        | None => Ret (w, LbAddressList (lb_option l) flag arr, None)
        | Some i =>
            let '(now, w) := get_current_time_us w in
            Ret (w, LbAddressList (lb_option l) flag (alter (fun a => set_last_time a now) i arr), Some i)
        end
      else Ret (w, l, None)
  end.

Definition get_ob_address_by_address_list (w : World) (l : ObLbAddressList) : cres (World * ObLbAddressList * option nat) :=
  if (length (add_arr l) =? 0)%nat then Ret (w, l, None)
  else
    let '(ok, w) := lb_alloc w in
    if negb ok then Ret (w, l, None)
    else
      '(w, l, i) ← choose_index w l;
      match i with
      | None => Ret (w, l, None)
      | Some i =>
          a ← of_option (add_arr l !! i);
          '(w, a) ← append_ob_address_connect_info w a;
          Ret (w, LbAddressList (lb_option l) (rotation_flag l) (<[i := a]> (add_arr l)), Some i)
      end.

(** * Black and white *)

(** The first attempt that is not too old. *)
Fixpoint recent (l : bytes) (now duration : Z) (idx n : nat) : cres nat :=
  match n with
  | O => Ret idx
  | S n =>
      t ← load_bytes l (8 * Z.of_nat idx) 8;
      if now - s64 (le_val t) <=? duration then Ret idx else recent l now duration (S idx) n
  end.

(** An attempt failed.  The number of bytes that memmove is given is that of elements. *)
Definition check_ob_address_black (w : World) (a : ObLbAddress) (c : ObClientLbConfig) : cres (World * ObLbAddress) :=
  let '(w, a) := if negb (check_connect_info a) then blacken w a else (w, a) in
  if decide (state a <> OBCLIENT_LB_WHITE) then Ret (w, a)
  else if black_append_strategy c =? OBCLIENT_LB_OPTION_NORMAL then
    let '(w, a) := blacken w a in
    w ← append_blacklist w a;
    Ret (w, a)
  else if black_append_strategy c =? OBCLIENT_LB_OPTION_RETRY_DERUATION then
    match connect_info a with
    | Some (MkConnectInfo cnt max (Some l)) =>
        let '(now, w) := get_current_time_us w in
        idx ← recent l now (u32 (black_append_duration c * 1000)) 0 (Z.to_nat cnt);
        let newsize := cnt - Z.of_nat idx in
        l ← (if (idx =? 0)%nat then Ret l else d ← load_bytes l (8 * Z.of_nat idx) (Z.to_nat newsize); store_bytes l 0 d);
        let a := set_connect_info a (Some (MkConnectInfo newsize max (Some l))) in
        if newsize >=? black_append_retrytimes c then
          let '(w, a) := blacken w a in
          w ← append_blacklist w a;
          Ret (w, a)
        else Ret (w, a)
    | _ => Fault
    end
  else Ret (w, a).

(** Addresses that were black for long enough turn white. *)
Fixpoint whiten (w : World) (now timeout : Z) (l : list ObLbAddress) : cres (World * list ObLbAddress) :=
  match l with
  | [] => Ret (w, [])
  | a :: l =>
      '(w, a) ← (if bool_decide (state a = OBCLIENT_LB_BLACK) && (now - black_time a >=? timeout) then
                   let a := set_state a OBCLIENT_LB_WHITE (black_time a) in
                   w ← remove_blacklist w a;
                   Ret (w, a)
                 else Ret (w, a));
      '(w, l) ← whiten w now timeout l;
      Ret (w, a :: l)
  end.

Definition check_ob_address_white (w : World) (l : ObLbAddressList) (c : ObClientLbConfig) : cres (World * ObLbAddressList) :=
  let '(now, w) := get_current_time_us w in
  let timeout := u32 (black_remove_timeout c * 1000) in
  if timeout >? 0 then
    '(w, arr) ← whiten w now timeout (add_arr l);
    Ret (w, LbAddressList (lb_option l) (rotation_flag l) arr)
  else Ret (w, l).

(** * Connecting *)

(** The first loop of connect_by_addresslist. *)
Fixpoint start_addresses (w : World) (i : Z) (l : list ObLbAddress) : World * list ObLbAddress :=
  match l with
  | [] => (w, [])
  | a :: l =>
      let a := LbAddress (i + 1) (lb_host a) (lb_port a) (lb_weight a) OBCLIENT_LB_WHITE (use_ssl a) (black_time a) (last_time a) None in
      let '(w, a) := init_connect_info junk w (positive_weight a) in
      let '(w, l) := start_addresses w (i + 1) l in
      (w, a :: l)
  end.

(** Addresses of the black list are black from the start. *)
Fixpoint mark_black (w : World) (l : list ObLbAddress) : cres (list ObLbAddress) :=
  match l with
  | [] => Ret []
  | a :: l =>
      since ← is_at_blacklist w a;
      l ← mark_black w l;
      Ret (match since with Some t => set_state a OBCLIENT_LB_BLACK t | None => a end :: l)
  end.

Definition retry_message (timeout start now : Z) : bytes :=
  take 127 (str "retry_timeout(" ++ print_d 1 (s32 timeout) ++ str ")(" ++ print_d 1 start ++ str "-" ++ print_d 1 now ++ str ").").

(** get_current_time_us() > lb_endtime is asked when there is a limit; the message asks again. *)
Definition out_of_time (w : World) (c : ObClientLbConfig) (start : Z) : bool * World :=
  if lb_retry_timeout c >? 0 then
    let '(now, w) := get_current_time_us w in
    if now >? start + u32 (lb_retry_timeout c * 1000) then
      let '(now, w) := get_current_time_us w in (true, set_error w (retry_message (lb_retry_timeout c) start now))
    else (false, w)
  else (false, w).

(** Where the address goes that was reached. *)
Record ObClientLbAddress : Type := ClientLbAddress { client_host : bytes; client_port : Z }.

(** The do loop: connected or not, the addresses, the settings and [*success]. *)
Fixpoint connect_loop (fuel : nat) (w : World) (start : Z) (l : ObLbAddressList) (c : ObClientLbConfig) (who : Login) (success : option ObClientLbAddress)
    : cres (bool * World * ObLbAddressList * ObClientLbConfig * option ObClientLbAddress) :=
  '(w, l) ← check_ob_address_white w l c;
  '(w, l, i) ← get_ob_address_by_address_list w l;
  match i with
  | None => Ret (false, set_error w (str "address list is empty(all in black)."), l, c, success)
  | Some i =>
      a ← of_option (add_arr l !! i);
      if decide (state a <> OBCLIENT_LB_WHITE) then
        match fuel with O => OutOfFuel | S fuel => connect_loop fuel w start l c who success end
      else
        let t := Attempt (lb_host a) (lb_port a) who (options c (use_ssl a)) in
        match mysql_real_connect (length (attempts w)) t with
        | None =>
            let w := log_attempt w t None in
            match success with
            | None => Ret (true, w, l, c, None)
            | Some s =>
                h ← TraceText.cstring (lb_host a);
                h ← store_bytes (client_host s) 0 h;
                Ret (true, w, l, c, Some (ClientLbAddress h (u32 (lb_port a))))
            end
        | Some code =>
            let w := log_attempt w t (Some (Refused code)) in
            if code =? ACCESS_DENIED then Ret (false, w, l, c, success)
            else
              '(w, a) ← check_ob_address_black w a c;
              let l := LbAddressList (lb_option l) (rotation_flag l) (<[i := a]> (add_arr l)) in
              let '(late, w) := out_of_time w c start in
              if late then Ret (false, w, l, c, success)
              else
                let c := set_downs c (u32 (lb_retry_all_downs c - 1)) in
                if lb_retry_all_downs c <=? 0 then Ret (false, set_error w (str "retry_all_downs is zero."), l, c, success)
                else match fuel with O => OutOfFuel | S fuel => connect_loop fuel w start l c who success end
        end
  end.

Definition known_option (o : Z) : bool :=
  (o =? OBCLIENT_LB_OPTION_RANDOM) || (o =? OBCLIENT_LB_OPTION_ROTATION) || (o =? OBCLIENT_LB_OPTION_SERVERAFFINITY).

Definition connect_by_addresslist (fuel : nat) (w : World) (start : Z) (l : ObLbAddressList) (c : ObClientLbConfig) (who : Login)
    (success : option ObClientLbAddress) : cres (bool * World * ObLbAddressList * ObClientLbConfig * option ObClientLbAddress) :=
  if (length (add_arr l) =? 0)%nat then Ret (false, set_error w (str "invalid handle or address list is zero."), l, c, success)
  else
    let option := if known_option (lb_option l) then lb_option l else OBCLIENT_LB_OPTION_ROTATION in
    let '(w, arr) := start_addresses w 0 (add_arr l) in
    '(w, l) ← check_ob_address_white w (LbAddressList option (rotation_flag l) arr) c;
    arr ← mark_black w (add_arr l);
    '(ok, w, l, c, success) ← connect_loop fuel w start (LbAddressList (lb_option l) (rotation_flag l) arr) c who success;
    Ret (ok, w, LbAddressList (lb_option l) (rotation_flag l) (map (fun a => set_connect_info a None) (add_arr l)), c, success).

(** * Lists of addresses

    An entry that calloc gives; a black state is zero. *)
Definition no_address : ObLbAddress := LbAddress 0 (repeat 0 128) 0 0 OBCLIENT_LB_BLACK false 0 0 None.

Definition set_address (a : ObLbAddress) (h : bytes) (p wt : Z) (s : ObLbAddressState) (ssl : bool) : ObLbAddress :=
  LbAddress (no a) h p wt s ssl (black_time a) (last_time a) (connect_info a).

Definition client_address (a : ObClientLbAddress) : cres ObLbAddress :=
  h ← TraceText.cstring (client_host a);
  h ← store_bytes (lb_host no_address) 0 h;
  Ret (set_address no_address h (s32 (client_port a)) 1 OBCLIENT_LB_WHITE false).

Fixpoint client_addresses (l : list ObClientLbAddress) : cres (list ObLbAddress) :=
  match l with
  | [] => Ret []
  | a :: l => a ← client_address a; l ← client_addresses l; Ret (a :: l)
  end.

(** The list, when there is one; [None] is the missing array. *)
Definition init_oblb_addresslist (w : World) (l : option (list ObClientLbAddress)) (strategy : Z) : cres (World * option ObLbAddressList) :=
  match l with
  | None | Some [] => Ret (w, None)
  | Some l =>
      let '(ok, w) := lb_alloc w in
      if negb ok then Ret (w, None)
      else arr ← client_addresses l; Ret (w, Some (LbAddressList strategy 0 arr))
  end.

Definition tns_address (a : ObClientAddress) : cres ObLbAddress :=
  h ← load_bytes (host a) 0 (Z.to_nat (host_len a));
  h ← store_bytes (lb_host no_address) 0 h;
  Ret (set_address no_address h (s32 (port a)) (s32 (weight a)) OBCLIENT_LB_WHITE
         ((protocol_len a =? 4) && strncaseeq 4 (protocol a) (str "TCPS" ++ [0]))).

Fixpoint tns_addresses (l : list ObClientAddress) : cres (list ObLbAddress) :=
  match l with
  | [] => Ret []
  | a :: l => a ← tns_address a; l ← tns_addresses l; Ret (a :: l)
  end.

Definition init_oblb_addresslist_tns (w : World) (l : ObClientAddressList) (strategy : Z) : cres (World * option ObLbAddressList) :=
  match address l with
  | [] => Ret (w, None)
  | _ =>
      let '(ok, w) := lb_alloc w in
      if negb ok then Ret (w, None)
      else
        arr ← tns_addresses (address l);
        Ret (w, Some (LbAddressList (if known_option (list_strategy l) then list_strategy l else strategy) 0 arr))
  end.

(** The loop over the text; [s] and [e] are where a host starts and ends, [p] is the position. *)
Fixpoint text_addresses (mem rest : bytes) (p : Z) (instring valid : bool) (s e : option Z) (idx : nat) (arr : list ObLbAddress)
    : cres (nat * list ObLbAddress) :=
  match rest with
  | [] => Fault
  | c :: rest =>
      if c =? 0 then Ret (idx, arr)
      else if negb instring && (c =? 91) then text_addresses mem rest (p + 1) true false (Some (p + 1)) e idx arr
      else if instring && (c =? 93) then text_addresses mem rest (p + 1) false true s (Some p) idx arr
      else if negb instring && (c =? 44) then text_addresses mem rest (p + 1) instring false (Some (p + 1)) None idx arr
      else if negb instring && (c =? 58) then
        let e := if valid then e else Some p in
        match s, e with
        | Some from, Some to =>
            a ← of_option (arr !! idx);
            h ← load_bytes mem from (Z.to_nat (to - from));
            h ← store_bytes (lb_host a) 0 h;
            '(port, _) ← strtol mem (p + 1);
            let arr := <[idx := set_address a h (s32 port) (lb_weight a) (state a) (use_ssl a)]> arr in
            let arr := alter (fun a => set_address a (lb_host a) (lb_port a) 1 OBCLIENT_LB_WHITE (use_ssl a)) 0%nat arr in
            text_addresses mem rest (p + 1) instring false None None (S idx) arr
        | _, _ => text_addresses mem rest (p + 1) instring valid s e idx arr
        end
      else text_addresses mem rest (p + 1) instring valid s e idx arr
  end.

Definition init_oblb_addresslist_str (w : World) (text : ptr) (strategy : Z) : cres (World * option ObLbAddressList) :=
  match text with
  | None => Ret (w, None)
  | Some mem =>
      t ← TraceText.cstring mem;
      let count := S (length (filter (fun c => c = 44) t)) in
      let '(ok, w) := lb_alloc w in
      if negb ok then Ret (w, None)
      else
        '(idx, arr) ← text_addresses mem mem 0 false false None None 0 (repeat no_address count);
        Ret (w, Some (LbAddressList strategy 0 (take idx arr)))
  end.

(** The statement goes through an array of 1024 bytes; its length is that of the whole text. *)
Definition post_session_variable (w : World) (session_variable : bytes) (len : Z) : cres (Z * World) :=
  if len =? 0 then Ret (0, w)
  else
    v ← print_s session_variable 0 len;
    '(post_sql, n) ← TraceText.snprintf (repeat 0 1024) 0 1024 (str "set " ++ v);
    q ← load_bytes post_sql 0 (Z.to_nat n);
    Ret (if mysql_real_query q =? 0 then 0 else -1, log_query w q).

(** The user's name with the extra information behind it, in an array of 256 bytes. *)
Definition new_user_name (user : ptr) (user_len : Z) (extra : option ObClientConnectData) : cres bytes :=
  name ← store_bytes (repeat 0 256) 0 (take (Z.to_nat user_len) (default [] user));
  match extra with
  | Some d =>
      if user_extra_info_len d >? 0 then
        store_bytes name user_len (strncpy (repeat 0 (Z.to_nat (user_extra_info_len d))) (user_extra_info d) (user_extra_info_len d))
      else Ret name
  | None => Ret name
  end.

(** The settings of a description. *)
Definition tns_config (c : ObClientLbConfig) (d : ObClientDescription) : ObClientLbConfig :=
  let b := black_list_conf d in
  let later old v := if v >? 0 then u32 v else old in
  let ssl := match connect_data d with Some cd => ob_enable_ssl cd >? 0 | None => false end in
  set_timeouts
    (set_balancing c (u32 (retry_all_downs d)) (u32 (retry_timeout d)) (remove_strategy b) (u32 (remove_timeout b)) (append_strategy b)
       (u32 (retry_times b)) (u32 (duration b)))
    (later (mysql_connect_timeout c) (connect_timout d)) (later (mysql_read_timeout c) (read_timout d))
    (later (mysql_write_timeout c) (write_timout d)) (ssl || mysql_opt_use_ssl c).

(** The list is released in the end. *)
Definition connect_to (fuel : nat) (w : World) (start : Z) (l : option ObLbAddressList) (c : ObClientLbConfig) (who : Login)
    (success : option ObClientLbAddress) : cres (bool * World * ObClientLbConfig * option ObClientLbAddress) :=
  match l with
  | None => Ret (false, w, c, success)
  | Some l =>
      '(ok, w, _, c, success) ← connect_by_addresslist fuel w start l c who success;
      Ret (ok, w, c, success)
  end.

(** The loop over the lists of a description. *)
Fixpoint connect_lists (fuel : nat) (w : World) (start : Z) (d : ObClientDescription) (ls : list ObClientAddressList) (c : ObClientLbConfig)
    (who : Login) (success : option ObClientLbAddress) : cres (bool * World * ObClientLbConfig * option ObClientLbAddress) :=
  match ls with
  | [] => Ret (false, w, c, success)
  | l :: ls =>
      '(w, l) ← init_oblb_addresslist_tns w l (oblb_strategy d);
      '(ok, w, c, success) ← connect_to fuel w start l c who success;
      if (ok : bool) then
        match connect_data d with
        | Some cd =>
            '(_, w) ← post_session_variable w (session_variable cd) (session_variable_len cd);
            Ret (true, w, c, success)
        | None => Ret (true, w, c, success)
        end
      else if lb_retry_all_downs c <=? 0 then Ret (false, set_error w (str "retry_all_downs is zero."), c, success)
      else
        let '(late, w) := out_of_time w c start in
        if late then Ret (false, w, c, success) else connect_lists fuel w start d ls c who success
  end.

(** A missing name leaves the structure that is cleared at the end as it was. *)
Definition connect_by_tnsname (fuel : nat) (w : World) (start : Z) (tns_allocs : list bool) (getenv : string -> option bytes) (fopen : bytes -> option bytes) (tns_name : ptr)
    (c : ObClientLbConfig) (who : Login) (success : option ObClientLbAddress) : cres (bool * World * ObClientLbConfig * option ObClientLbAddress) :=
  user_len ← (match user who with Some u => strlen u | None => Ret 0 end);
  name ← of_option tns_name;
  name ← TraceText.cstring name;
  '(ret, tns, find) ← ObClientTnsBuild fuel tns_allocs getenv fopen ObClientTnsInit name;
  if negb (ret =? 0) then Ret (false, set_error w (str "ob client tns build fail."), c, success)
  else
    match find, tns_service tns with
    | true, Some (TnsService (d :: _) _ _ _ _) =>
        u ← new_user_name (user who) user_len (connect_data d);
        let sid := match connect_data d with Some cd => if use_default_sid cd =? 0 then Some (service_name cd) else db who | None => db who end in
        connect_lists fuel w start d (address_list d) (tns_config c d) (MkLogin (Some u) (passwd who) sid (unix_socket who) (client_flag who)) success
    | _, _ => Ret (false, set_error w (str "tns description is null."), c, success)
    end.

(** What a list of addresses takes for settings that are missing. *)
Definition list_config (c : ObClientLbConfig) (count : Z) : ObClientLbConfig :=
  set_balancing c (if lb_retry_all_downs c <=? 0 then count else lb_retry_all_downs c) (lb_retry_timeout c) OBCLIENT_LB_OPTION_TIMEOUT
    (if black_remove_timeout c <=? 0 then 60000 else black_remove_timeout c)
    (if (black_append_strategy c =? OBCLIENT_LB_OPTION_NORMAL) || (black_append_strategy c =? OBCLIENT_LB_OPTION_RETRY_DERUATION)
     then black_append_strategy c else OBCLIENT_LB_OPTION_NORMAL)
    (if black_append_retrytimes c <=? 0 then 1 else black_append_retrytimes c)
    (if black_append_duration c <=? 0 then 10000 else black_append_duration c).

Definition config_of_list (c : ObClientLbConfig) (l : option ObLbAddressList) : ObClientLbConfig :=
  match l with Some l => list_config c (Z.of_nat (length (add_arr l))) | None => c end.

(** [c] is the settings of the caller, when there are some; they come back changed. *)
Definition ob_mysql_real_connect (fuel : nat) (w : World) (tns_allocs : list bool) (getenv : string -> option bytes) (fopen : bytes -> option bytes) (tns_name : ptr)
    (addr_list : option (option (list ObClientLbAddress))) (config : option ObClientLbConfig) (who : Login) (success : option ObClientLbAddress)
    : cres (bool * World * ObClientLbConfig * option ObClientLbAddress) :=
  let '(start, w) := get_current_time_us w in
  let c := default default_config config in
  if not_empty tns_name then connect_by_tnsname fuel w start tns_allocs getenv fopen tns_name c who success
  else
    match addr_list with
    | None => Ret (false, set_error w (str "tns_name/addr_list is null."), c, success)
    | Some addrs =>
        '(w, l) ← init_oblb_addresslist w addrs OBCLIENT_LB_OPTION_ROTATION;
        connect_to fuel w start l (config_of_list c l) who success
    end.

Definition ob_mysql_real_connect2 (fuel : nat) (w : World) (tns_allocs : list bool) (getenv : string -> option bytes) (fopen : bytes -> option bytes) (tns_name addr_list : ptr)
    (config : option ObClientLbConfig) (who : Login) (success : ptr) (len_success : Z) : cres (bool * World * ObClientLbConfig * ptr) :=
  let '(start, w) := get_current_time_us w in
  let none := Some (ClientLbAddress (repeat 0 128) 0) in
  let c := default default_config config in
  '(ok, w, c, reached) ←
    (if not_empty tns_name then connect_by_tnsname fuel w start tns_allocs getenv fopen tns_name c who none
     else
       match addr_list with
       | None => Ret (false, set_error w (str "tns_name/addr_list is null."), c, none)
       | Some _ =>
           '(w, l) ← init_oblb_addresslist_str w addr_list OBCLIENT_LB_OPTION_ROTATION;
           connect_to fuel w start l (config_of_list c l) who none
       end);
  match ok, success, reached with
  | true, Some out, Some a =>
      if len_success >? 0 then
        h ← TraceText.cstring (client_host a);
        '(out, _) ← TraceText.snprintf out 0 len_success (str "[" ++ h ++ str "]:" ++ print_d 1 (s32 (client_port a)));
        Ret (ok, w, c, Some out)
      else Ret (ok, w, c, success)
  | _, _, _ => Ret (ok, w, c, success)
  end.

End Balance.

End LoadBalance.
