(* ===== verification/LoadOrder.v ===== *)
(** The order of attempts of libmariadb/ob_load_balance.c: ob_mysql_real_connect with a list of
    addresses and the strategy NORMAL tries those that are not on the black list, each once and in the order of the
    list, until one is reached or refuses the user; the others go to the black list
    ([addresses_tried_in_order]).  What the code gets wrong is at the end. *)

From stdpp Require Import tactics.
From S2P Require Import Prelude IntStore Uuid TraceText NumText StmtTime TimeText OracleTime StmtOracle OracleFormat TextTime Tns LoadBalance.
Import Uuid NumText TimeText OracleFormat TextTime Tns LoadBalance.

Module LoadOrder.

(** * What should happen *)

Section Reference.
Context (mysql_real_connect : nat -> attempt -> option Z).

(** The attempts, those that fail for another reason than the user, and the one that succeeds; [n]
    attempts were made before. *)
Fixpoint try_all (n : nat) (l : list attempt) : list attempt * list attempt * option attempt :=
  match l with
  | [] => ([], [], None)
  | t :: l =>
      match mysql_real_connect n t with
      | None => ([t], [], Some t)
      | Some code =>
          if code =? ACCESS_DENIED then ([t], [], None)
          else let '(tried, failed, reached) := try_all (S n) l in (t :: tried, t :: failed, reached)
      end
  end.

End Reference.

Definition attempt_of (c : ObClientLbConfig) (who : Login) (a : ObLbAddress) : attempt :=
  Attempt (lb_host a) (lb_port a) who (options c (use_ssl a)).

Definition text_key (h : bytes) (p : Z) : bytes := take 127 (until_nul h ++ [58] ++ print_d 1 p).
Definition attempt_key (t : attempt) : bytes := text_key (to_host t) (to_port t).

(** The keys of the black list, and one more. *)
Definition black_keys (b : BlackList) : list bytes := map key (default [] (blacks b)).
Definition listed (l : list bytes) (k : bytes) : bool := existsb (same_key k) l.
Definition add_key (l : list bytes) (k : bytes) : list bytes := if listed l k then l else l ++ [k].

(** The caller that asks for the address gets that of the attempt that succeeded. *)
Definition report (success : option ObClientLbAddress) (reached : option attempt) : option ObClientLbAddress :=
  match success, reached with
  | Some _, Some t => Some (ClientLbAddress (to_host t) (u32 (to_port t)))
  | _, _ => success
  end.

(** * Texts and keys *)

Lemma cstring_until h : 0 ∈ h -> TraceText.cstring h = Ret (until_nul h).
Proof.
  induction h as [|c h IH]; [by intros ?%elem_of_nil|]. intros H. cbn. destruct (Z.eqb_spec c 0) as [->|]; [done|].
  rewrite IH; [done|]. by apply elem_of_cons in H as [?|?].
Qed.

Lemma length_until h : 0 ∈ h -> (length (until_nul h) < length h)%nat.
Proof.
  induction h as [|c h IH]; [by intros ?%elem_of_nil|]. intros H. cbn. destruct (Z.eqb_spec c 0) as [->|]; cbn; [lia|].
  apply elem_of_cons in H as [?|?%IH]; [done|lia].
Qed.

Lemma until_bytes h : all_bytes h -> all_bytes (until_nul h).
Proof. induction 1 as [|c h Hc Hh IH]; cbn; [constructor|]. case_match; [constructor|by constructor]. Qed.

Lemma until_padded h n : until_nul (until_nul h ++ repeat 0 n) = until_nul h.
Proof.
  induction h as [|c h IH]; cbn; [by destruct n|]. destruct (Z.eqb_spec c 0) as [->|Hc]; cbn; [by destruct n|].
  by rewrite (proj2 (Z.eqb_neq c 0) Hc), IH.
Qed.

(** A text in an array of 128 bytes, with zeros behind it. *)
Definition padded (h : bytes) : bytes := h ++ repeat 0 (128 - length h).

(** An address whose host ends inside its array. *)
Definition named (a : ObLbAddress) : Prop :=
  0 ∈ lb_host a /\ all_bytes (lb_host a) /\ length (lb_host a) = 128%nat /\ lb_host a = padded (until_nul (lb_host a)).

Definition key_of (a : ObLbAddress) : bytes := text_key (lb_host a) (lb_port a).

Lemma key_read a : named a -> address_key a = Ret (key_of a).
Proof. intros [H _]. unfold address_key. by rewrite cstring_until. Qed.

Lemma find_listed k l : match find_black k l with Some (i, b) => l !! i = Some b /\ listed (map key l) k = true | None => listed (map key l) k = false end.
Proof.
  unfold find_black. destruct (list_find _ l) as [[i b]|] eqn:E.
  - apply list_find_Some in E as (Hi & Hk & _). split; [done|]. unfold listed. rewrite existsb_exists. exists (key b).
    split; [|done]. apply list_elem_of_In, list_elem_of_fmap_2. by apply list_elem_of_lookup_2 in Hi.
  - apply list_find_None in E. apply not_true_is_false. unfold listed. rewrite existsb_exists. intros (x & Hx & Hk).
    apply in_map_iff in Hx as (b & <- & Hb). rewrite Forall_forall in E. apply (E b); [by apply list_elem_of_In|done].
Qed.

(** [n] bounds the entries the list had. *)
Definition good_blacks (n : Z) (b : BlackList) : Prop :=
  match blacks b with None => True | Some l => Z.of_nat (length l) <= n /\ Z.of_nat (length l) < black_max b /\ 2 <= black_max b <= 2 * n + 32 end.

Definition with_memory (w : World) : Prop := lb_allocs w = [].

Lemma lb_alloc_ok w : with_memory w -> lb_alloc w = (true, w).
Proof. intros H. unfold lb_alloc. by rewrite H. Qed.

Lemma grown w n :
  with_memory w -> good_blacks n (blacklist w) -> 0 <= n < 2 ^ 30 ->
  exists b l, grow_blacks w = (b, w) /\ blacks b = Some l /\ map key l = black_keys (blacklist w) /\
    Z.of_nat (length l) <= n /\ Z.of_nat (length l) + 1 < black_max b /\ 2 <= black_max b <= 2 * (n + 1) + 32.
Proof.
  intros Hw Hb Hn. unfold grow_blacks, good_blacks, black_keys in *. destruct (blacks (blacklist w)) as [l|] eqn:E; rewrite (lb_alloc_ok w Hw); cbn.
  - unfold u32 at 1, wrap. rewrite Z.mod_small by lia. destruct (Z.geb_spec (Z.of_nat (length l)) (black_max (blacklist w) - 1)).
    + exists (MkBlackList (Some l) (u32 (black_max (blacklist w) * 2))), l. cbn. unfold u32, wrap. rewrite Z.mod_small by lia.
      repeat split; try done; lia.
    + exists (blacklist w), l. repeat split; try done; lia.
  - exists (MkBlackList (Some []) CONNECT_CNT_INIT), []. unfold CONNECT_CNT_INIT. cbn. repeat split; try done; lia.
Qed.

Lemma appended w a n :
  named a -> with_memory w -> good_blacks n (blacklist w) -> 0 <= n < 2 ^ 30 ->
  exists b, append_blacklist w a = Ret (LoadBalance.set_blacklist w b) /\ good_blacks (n + 1) b /\ black_keys b = add_key (black_keys (blacklist w)) (key_of a).
Proof.
  intros Ha Hw Hb Hn. unfold append_blacklist. rewrite (key_read _ Ha), bind_ret.
  destruct (grown w n Hw Hb Hn) as (b & l & -> & Hl & Hk & H). rewrite Hl.
  pose proof (find_listed (key_of a) l) as Hf. unfold add_key. rewrite <- Hk. destruct (find_black (key_of a) l) as [[i x]|].
  - destruct Hf as [_ ->]. exists b. split; [done|]. unfold good_blacks, black_keys. rewrite Hl. cbn. split; [lia|done].
  - rewrite Hf. destruct (Z.ltb_spec (Z.of_nat (length l)) (black_max b)); [|lia]. eexists. split; [done|].
    unfold good_blacks, black_keys. cbn. rewrite length_app, map_app. cbn. split; [lia|done].
Qed.

(** * Choosing in rotation *)

Section Order.
Context (clock : nat -> Z) (rand : nat -> Z) (mysql_real_connect : nat -> attempt -> option Z) (mysql_real_query : bytes -> Z) (junk : Z).

(** Only the clock was read. *)
Definition later (w : World) (n : nat) : World := MkWorld n (rands w) (attempts w) (queries w) (blacklist w) (last_error w) (lb_allocs w).

Definition first_info : ConnectInfo := MkConnectInfo 0 CONNECT_CNT_INIT (Some (repeat junk (Z.to_nat (8 * CONNECT_CNT_INIT)))).

(** An address that was not tried, and one that is black since [since] or later. *)
Definition ready (a : ObLbAddress) : Prop := named a /\ state a = OBCLIENT_LB_WHITE /\ 0 < lb_weight a /\ connect_info a = Some first_info.
Definition resting (since : Z) (a : ObLbAddress) : Prop := state a = OBCLIENT_LB_BLACK /\ since <= black_time a /\ 0 < lb_weight a.

Abbreviation white a := (state a = OBCLIENT_LB_WHITE).

Lemma rest_weights t l : Forall (resting t) l -> map positive_weight l = l.
Proof.
  induction 1 as [|a l (_ & _ & Ha) _ IH]; [done|]. cbn. rewrite IH. f_equal. unfold positive_weight. by destruct (Z.leb_spec (lb_weight a) 0); [lia|].
Qed.

Lemma all_weights t l : Forall (fun a => ready a \/ resting t a) l -> map positive_weight l = l.
Proof.
  induction 1 as [|a l Ha _ IH]; [done|]. cbn. rewrite IH. f_equal. unfold positive_weight, ready, resting in *.
  by destruct (Z.leb_spec (lb_weight a) 0); [lia|].
Qed.

Lemma whites_rest t l i : Forall (resting t) l -> whites l i = [].
Proof. intros H. revert i. induction H as [|a l (Ha & _) _ IH]; intros i; [done|]. cbn. by rewrite Ha, IH. Qed.

Lemma whites_skip t l r i : Forall (resting t) l -> whites (l ++ r) i = whites r (i + length l)%nat.
Proof.
  intros H. revert i. induction H as [|a l (Ha & _) _ IH]; intros i; [by rewrite Nat.add_0_r|]. cbn. rewrite Ha, IH. cbn. f_equal. lia.
Qed.

Lemma rotate_skip t l a r i :
  Forall (resting t) l -> white a -> Z.of_nat (i + length l) < 2 ^ 31 ->
  rotate (l ++ a :: r) i (Z.of_nat i) = (Some (i + length l)%nat, Z.of_nat (i + length l) + 1).
Proof.
  intros H Ha. revert i. induction H as [|b l (Hb & _) _ IH]; intros i Hi; cbn -[u32].
  - rewrite Ha, Nat.add_0_r. cbn -[u32]. f_equal. unfold u32, wrap. apply Z.mod_small. lia.
  - rewrite Hb. cbn in Hi. replace (u32 (Z.of_nat i + 1)) with (Z.of_nat (S i)) by (unfold u32, wrap; rewrite Z.mod_small; lia).
    cbn -[u32]. rewrite IH by lia. by rewrite Nat.add_succ_r.
Qed.

(** The first white address is chosen, when the rotation is not past it. *)
Lemma chosen t w flag l a r :
  Forall (resting t) l -> ready a -> Forall (fun a => ready a \/ resting t a) r -> 0 <= flag <= Z.of_nat (length l) ->
  Z.of_nat (length (l ++ a :: r)) < 2 ^ 30 ->
  exists n flag' a', choose_index clock rand w (LbAddressList OBCLIENT_LB_OPTION_ROTATION flag (l ++ a :: r)) =
    Ret (later w n, LbAddressList OBCLIENT_LB_OPTION_ROTATION flag' (l ++ a' :: r), Some (length l)) /\
    0 <= flag' <= Z.of_nat (length l) + 1 /\ (a' = a \/ exists time, a' = set_last_time a time).
Proof.
  intros Hl Ha Hr Hf Hn. unfold choose_index. cbn [add_arr lb_option rotation_flag].
  assert (map positive_weight (l ++ a :: r) = l ++ a :: r) as ->.
  { apply all_weights with t. apply Forall_app. split; [eapply Forall_impl; [exact Hl|by right]|]. constructor; [by left|done]. }
  rewrite (whites_skip t) by done. destruct Ha as (Hna & Hwa & _). cbn [whites]. rewrite Hwa. cbn [decide]. 
  destruct (decide (OBCLIENT_LB_WHITE = OBCLIENT_LB_WHITE)) as [_|]; [|done]. rewrite Nat.add_0_l.
  destruct (whites r (S (length l))) as [|j js].
  - exists (ticks w), flag, a. split; [by destruct w|]. split; [lia|by left].
  - change (OBCLIENT_LB_OPTION_ROTATION =? OBCLIENT_LB_OPTION_RANDOM) with false.
    change (OBCLIENT_LB_OPTION_ROTATION =? OBCLIENT_LB_OPTION_SERVERAFFINITY) with false. rewrite Z.eqb_refl.
    rewrite length_app in Hn. cbn in Hn. rewrite Z.mod_small by (rewrite length_app; cbn; lia).
    destruct (Z_of_nat_complete flag) as [f ->]; [lia|]. rewrite Nat2Z.id, drop_app_le by lia.
    rewrite (rotate_skip t) by (done || (by apply Forall_drop) || (rewrite length_drop; lia)).
    rewrite length_drop. replace (f + (length l - f))%nat with (length l) by lia.
    exists (S (ticks w)), (Z.of_nat (length l) + 1), (set_last_time a (clock (ticks w))). split; [|split; [lia|by right; eexists]].
    unfold get_current_time_us. by rewrite alter_app_r_alt, Nat.sub_diag.
Qed.

(** One attempt more for the address that is chosen. *)
Lemma attempted t w flag l a r :
  with_memory w -> Forall (resting t) l -> ready a -> Forall (fun a => ready a \/ resting t a) r -> 0 <= flag <= Z.of_nat (length l) ->
  Z.of_nat (length (l ++ a :: r)) < 2 ^ 30 ->
  exists n flag' a' times, get_ob_address_by_address_list clock rand junk w (LbAddressList OBCLIENT_LB_OPTION_ROTATION flag (l ++ a :: r)) =
    Ret (later w n, LbAddressList OBCLIENT_LB_OPTION_ROTATION flag' (l ++ a' :: r), Some (length l)) /\
    0 <= flag' <= Z.of_nat (length l) + 1 /\ lb_host a' = lb_host a /\ lb_port a' = lb_port a /\ use_ssl a' = use_ssl a /\
    white a' /\ 0 < lb_weight a' /\ connect_info a' = Some (MkConnectInfo 1 CONNECT_CNT_INIT (Some times)).
Proof.
  intros Hw Hl Ha Hr Hf Hn. unfold get_ob_address_by_address_list. cbn [add_arr]. rewrite (lb_alloc_ok w Hw).
  replace (length (l ++ a :: r) =? 0)%nat with false by (symmetry; apply Nat.eqb_neq; rewrite length_app; cbn; lia). cbn [negb].
  destruct (chosen t w flag l a r Hl Ha Hr Hf Hn) as (n & flag' & b & -> & Hf' & Hb). rewrite bind_ret. cbn [add_arr].
  rewrite lookup_app_r, Nat.sub_diag by lia. cbn [lookup list_lookup of_option]. rewrite bind_ret.
  assert (lb_host b = lb_host a /\ lb_port b = lb_port a /\ use_ssl b = use_ssl a /\ white b /\ 0 < lb_weight b /\ connect_info b = Some first_info)
    as (Hh & Hp & Hs & Hwb & Hwt & Hi) by (destruct Ha as (_ & ? & ? & ?), Hb as [->|[? ->]]; done).
  unfold append_ob_address_connect_info, init_connect_info. rewrite Hi. cbn [connect_cnt connect_max connect_list first_info].
  change (0 >=? u32 (CONNECT_CNT_INIT - 1)) with false. cbv beta iota. rewrite Hi. unfold first_info, get_current_time_us.
  rewrite store_bytes_splice by (split; [lia|]; rewrite length_le_bytes, repeat_length; unfold CONNECT_CNT_INIT; lia).
  rewrite !bind_ret. do 4 eexists. split.
  - cbn [lb_option rotation_flag add_arr ticks later]. rewrite insert_app_r_alt, Nat.sub_diag by lia. cbn [insert list_insert]. reflexivity.
  - cbn -[CONNECT_CNT_INIT]. split_and!; done || lia.
Qed.

(** All are black. *)
Lemma none_left t w flag l :
  with_memory w -> Forall (resting t) l ->
  get_ob_address_by_address_list clock rand junk w (LbAddressList OBCLIENT_LB_OPTION_ROTATION flag l) =
    Ret (w, LbAddressList OBCLIENT_LB_OPTION_ROTATION flag l, None).
Proof.
  intros Hw Hl. unfold get_ob_address_by_address_list. cbn [add_arr]. case_match; [done|]. rewrite (lb_alloc_ok w Hw). cbn [negb].
  unfold choose_index. cbn [add_arr lb_option rotation_flag]. by rewrite (rest_weights t), (whites_rest t).
Qed.

(** An address that fails turns black at once. *)
Lemma blackened w a c n times :
  named a -> white a -> connect_info a = Some (MkConnectInfo 1 CONNECT_CNT_INIT (Some times)) -> black_append_strategy c = OBCLIENT_LB_OPTION_NORMAL ->
  with_memory w -> good_blacks n (blacklist w) -> 0 <= n < 2 ^ 30 ->
  exists b, check_ob_address_black clock w a c =
      Ret (LoadBalance.set_blacklist (later w (S (ticks w))) b, set_state a OBCLIENT_LB_BLACK (clock (ticks w))) /\
    good_blacks (n + 1) b /\ black_keys b = add_key (black_keys (blacklist w)) (key_of a).
Proof.
  intros Ha Hwa Hi Hs Hw Hb Hn. unfold check_ob_address_black, check_connect_info. rewrite Hi. cbn [connect_list negb].
  rewrite decide_False by (rewrite Hwa; auto). rewrite Hs, Z.eqb_refl. unfold blacken, get_current_time_us. change (MkWorld _ _ _ _ _ _ _) with (later w (S (ticks w))).
  destruct (appended (later w (S (ticks w))) (set_state a OBCLIENT_LB_BLACK (clock (ticks w))) n Ha Hw Hb Hn) as (b & -> & Hg & Hk). by exists b.
Qed.

(** No address was black for long enough. *)
Lemma still_black t w l o flag c :
  Forall (fun a => white a \/ resting t a) l -> (forall n, clock n - t < u32 (black_remove_timeout c * 1000)) ->
  check_ob_address_white clock w (LbAddressList o flag l) c = Ret (later w (S (ticks w)), LbAddressList o flag l).
Proof.
  intros Hl Ht. unfold check_ob_address_white, get_current_time_us. case_match; [|done]. cbn [add_arr lb_option rotation_flag].
  change (MkWorld _ _ _ _ _ _ _) with (later w (S (ticks w))).
  assert (whiten (later w (S (ticks w))) (clock (ticks w)) (u32 (black_remove_timeout c * 1000)) l = Ret (later w (S (ticks w)), l)) as ->; [|done].
  induction Hl as [|a l Ha _ IH]; [done|]. cbn [whiten].
  replace (bool_decide (state a = OBCLIENT_LB_BLACK) && (clock (ticks w) - black_time a >=? u32 (black_remove_timeout c * 1000))) with false;
    [by rewrite bind_ret, IH|].
  destruct Ha as [->|(-> & Hb & _)]; [done|]. specialize (Ht (ticks w)). symmetry. apply andb_false_iff. right.
  by destruct (Z.geb_spec (clock (ticks w) - black_time a) (u32 (black_remove_timeout c * 1000))); [lia|].
Qed.

(** * The loop *)

(** Failing is enough to be black, no time passes that matters. *)
Definition settled (t start : Z) (c : ObClientLbConfig) : Prop :=
  black_append_strategy c = OBCLIENT_LB_OPTION_NORMAL /\ (forall n, t <= clock n /\ clock n - t < u32 (black_remove_timeout c * 1000)) /\
  (lb_retry_timeout c > 0 -> forall n, clock n <= start + u32 (lb_retry_timeout c * 1000)).

(** The caller's array is zeroed: no NUL is copied to it. *)
Definition receives (success : option ObClientLbAddress) : Prop := match success with Some s => client_host s = repeat 0 128 | None => True end.

Lemma split_white t r :
  Forall (fun a => ready a \/ resting t a) r ->
  (filter (fun a => white a) r = [] /\ Forall (resting t) r) \/
  exists l a r', r = l ++ a :: r' /\ Forall (resting t) l /\ ready a /\ filter (fun a => white a) r = a :: filter (fun a => white a) r'.
Proof.
  induction 1 as [|a r Ha Hr IH]; [by left|]. destruct Ha as [Ha|Ha].
  - right. exists [], a, r. destruct (id Ha) as (_ & Hw & _). rewrite filter_cons_True by done. done.
  - destruct (id Ha) as (Hb & _). rewrite filter_cons_False by (rewrite Hb; done). destruct IH as [[-> Hl]|(l & b & r' & -> & Hl & Hb' & ->)].
    + left. by split; [|constructor].
    + right. exists (a :: l), b, r'. split; [done|]. by split; [constructor|].
Qed.

Lemma in_time w t start c : settled t start c -> exists n, out_of_time clock w c start = (false, later w n).
Proof.
  intros (_ & _ & H). unfold out_of_time, get_current_time_us. destruct (Z.gtb_spec (lb_retry_timeout c) 0); [|by exists (ticks w); destruct w].
  destruct (Z.gtb_spec (clock (ticks w)) (start + u32 (lb_retry_timeout c * 1000))); [|by eexists].
  specialize (H ltac:(lia) (ticks w)). lia.
Qed.

(** What an attempt is, and what the loop should do with those that are left. *)
Definition outcome (w : World) (success : option ObClientLbAddress) (l : list attempt)
    (r : cres (bool * World * ObLbAddressList * ObClientLbConfig * option ObClientLbAddress)) : Prop :=
  let '(tried, failed, reached) := try_all mysql_real_connect (length (attempts w)) l in
  exists w' l' c', r = Ret (bool_decide (is_Some reached), w', l', c', report success reached) /\ attempts w' = attempts w ++ tried /\
    black_keys (blacklist w') = fold_left add_key (map attempt_key failed) (black_keys (blacklist w)).

Lemma outcome_stop w w' l' c' success : attempts w' = attempts w -> blacklist w' = blacklist w -> outcome w success [] (Ret (false, w', l', c', success)).
Proof. intros Ha Hb. exists w', l', c'. rewrite app_nil_r, Hb. by destruct success. Qed.

Lemma outcome_more w w' success t code l r :
  mysql_real_connect (length (attempts w)) t = Some code -> code <> ACCESS_DENIED -> attempts w' = attempts w ++ [t] ->
  black_keys (blacklist w') = add_key (black_keys (blacklist w)) (attempt_key t) -> outcome w' success l r -> outcome w success (t :: l) r.
Proof.
  intros Hc Hd Ha Hb H. unfold outcome in *. cbn [try_all]. rewrite Hc, (proj2 (Z.eqb_neq _ _) Hd).
  rewrite Ha, length_app, Nat.add_1_r in H. destruct (try_all _ _ l) as [[tried failed] reached]. destruct H as (w'' & l' & c' & -> & Ha' & Hb').
  exists w'', l', c'. split; [done|]. rewrite Ha', Hb', Hb, <- app_assoc. done.
Qed.

Lemma outcome_denied w w' l l' c' success t :
  mysql_real_connect (length (attempts w)) t = Some ACCESS_DENIED -> attempts w' = attempts w ++ [t] -> blacklist w' = blacklist w ->
  outcome w success (t :: l) (Ret (false, w', l', c', success)).
Proof. intros Hc Ha Hb. unfold outcome. cbn [try_all]. rewrite Hc. exists w', l', c'. rewrite Hb. by destruct success. Qed.

Lemma outcome_reached w w' l l' c' success t a :
  mysql_real_connect (length (attempts w)) t = None -> attempts w' = attempts w ++ [t] -> blacklist w' = blacklist w ->
  named a -> to_host t = lb_host a -> to_port t = lb_port a -> receives success ->
  outcome w success (t :: l)
    match success with
    | None => Ret (true, w', l', c', None)
    | Some s =>
        h ← TraceText.cstring (lb_host a);
        h ← store_bytes (client_host s) 0 h;
        Ret (true, w', l', c', Some (ClientLbAddress h (u32 (lb_port a))))
    end.
Proof.
  intros Hc Ha Hb Hna Hh Hp Hs. unfold outcome. cbn [try_all]. rewrite Hc. exists w', l', c'. rewrite Hb. split; [|done].
  destruct success as [s|]; [|done]. destruct Hna as (Hz & Hbs & Hl & Hpad). rewrite cstring_until, bind_ret by done. pose proof (length_until _ Hz).
  cbn [receives] in Hs. rewrite Hs, store_bytes_splice, bind_ret by (split; [lia|rewrite repeat_length; lia]). rewrite map_u8_bytes by (by apply until_bytes).
  rewrite splice_0, drop_repeat. fold (padded (until_nul (lb_host a))). unfold report. by rewrite Hh, Hp, <- Hpad.
Qed.

Lemma attempt_set_downs c d who l : map (attempt_of (set_downs c d) who) l = map (attempt_of c who) l.
Proof. done. Qed.

Lemma loop_tries t start who success :
  forall fuel l r flag w c n,
    with_memory w -> Forall (resting t) l -> Forall (fun a => ready a \/ resting t a) r -> 0 <= flag <= Z.of_nat (length l) ->
    Z.of_nat (length (l ++ r)) < 2 ^ 30 -> settled t start c -> receives success -> good_blacks n (blacklist w) -> 0 <= n ->
    n + Z.of_nat (length r) <= 2 ^ 30 -> 0 < lb_retry_all_downs c < 2 ^ 32 -> (length (filter (fun a => white a) r) <= fuel)%nat ->
    outcome w success (take (Z.to_nat (lb_retry_all_downs c)) (map (attempt_of c who) (filter (fun a => white a) r)))
      (connect_loop clock rand mysql_real_connect junk fuel w start (LbAddressList OBCLIENT_LB_OPTION_ROTATION flag (l ++ r)) c who success).
Proof.
  induction fuel as [|fuel IH]; intros l r flag w c n Hw Hl Hr Hf Hlen Hc Hs Hb Hn Hnr Hd Hfuel.
  all: pose proof Hc as (Hstr & Hclk & _).
  all: assert (Forall (fun a => white a \/ resting t a) (l ++ r)) as Hall
    by (apply Forall_app; split; [eapply Forall_impl; [exact Hl|by right]|eapply Forall_impl; [exact Hr|]; unfold ready; naive_solver]).
  all: cbn [connect_loop]; rewrite (still_black t w (l ++ r) _ flag c Hall) by (intros k; apply Hclk); rewrite bind_ret.
  all: destruct (split_white t r Hr) as [[Hnone Hrest]|(l2 & a & r2 & -> & Hl2 & Ha & Hws)]; rewrite ?Hnone, ?Hws in *; cbn in Hfuel; try lia.
  1,2: cbn [map]; rewrite take_nil, (none_left t) by (done || by apply Forall_app); rewrite bind_ret; by apply outcome_stop.
  apply Forall_app in Hr as [_ Hr]. apply Forall_cons in Hr as [_ Hr]. rewrite app_assoc in *. rewrite !length_app in Hlen. cbn in Hlen.
  destruct (attempted t (later w (S (ticks w))) flag (l ++ l2) a r2) as (m & flag' & a' & times & -> & Hf' & Hh & Hp & Hssl & Hwa & Hwt & Hi);
    [done|by apply Forall_app|done|done|rewrite length_app; lia|rewrite !length_app; cbn; lia|].
  rewrite bind_ret. cbn [add_arr]. rewrite lookup_app_r, Nat.sub_diag by lia. cbn [lookup list_lookup of_option]. rewrite bind_ret.
  rewrite decide_False by auto. rewrite Hh, Hp, Hssl. change (Attempt _ _ _ _) with (attempt_of c who a).
  replace (Z.to_nat (lb_retry_all_downs c)) with (S (Z.to_nat (lb_retry_all_downs c - 1))) by lia. cbn [map take].
  change (attempts (later (later w (S (ticks w))) m)) with (attempts w).
  assert (named a') as Hna by (destruct Ha as ((? & ? & ? & ?) & _); unfold named; by rewrite Hh).
  destruct (mysql_real_connect (length (attempts w)) (attempt_of c who a)) as [code|] eqn:Ec.
  2: { rewrite <- Hh, <- Hp. by apply outcome_reached. }
  destruct (Z.eqb_spec code ACCESS_DENIED) as [->|Hcode]; [by apply outcome_denied|].
  destruct (blackened (log_attempt (later (later w (S (ticks w))) m) (attempt_of c who a) (Some (Refused code))) a' c n times)
    as (b & -> & Hgb & Hkb); [done..|cbn in Hnr; rewrite length_app in Hnr; cbn in Hnr; lia|].
  rewrite bind_ret. set (w2 := LoadBalance.set_blacklist _ b). destruct (in_time w2 t start c Hc) as [k ->]. cbn [lb_option rotation_flag add_arr].
  rewrite insert_app_r_alt, Nat.sub_diag by lia. cbn [insert list_insert].
  eapply outcome_more; [exact Ec|done|instantiate (1 := later w2 k); done| |].
  { cbn. rewrite Hkb. unfold key_of, attempt_key. cbn. by rewrite Hh, Hp. }
  assert (lb_retry_all_downs (set_downs c (u32 (lb_retry_all_downs c - 1))) = lb_retry_all_downs c - 1) as Hdd
    by (cbn -[u32]; unfold u32, wrap; rewrite Z.mod_small; lia).
  rewrite Hdd. destruct (Z.leb_spec (lb_retry_all_downs c - 1) 0).
  { replace (Z.to_nat (lb_retry_all_downs c - 1)) with 0%nat by lia. by apply outcome_stop. }
  set (a2 := set_state a' OBCLIENT_LB_BLACK _). replace ((l ++ l2) ++ a2 :: r2) with (((l ++ l2) ++ [a2]) ++ r2) by (by rewrite <- app_assoc).
  rewrite <- (attempt_set_downs c (u32 (lb_retry_all_downs c - 1))). assert (settled t start (set_downs c (u32 (lb_retry_all_downs c - 1)))) as Hc2 by exact Hc.
  revert Hdd Hc2. generalize (set_downs c (u32 (lb_retry_all_downs c - 1))) as c2. intros c2 Hdd Hc2. rewrite <- Hdd. rewrite length_app in Hnr. cbn in Hnr.
  apply IH with (n + 1); rewrite ?Hdd; try done.
  - repeat apply Forall_app_2; [done..|]. constructor; [|constructor]. split; [done|]. split; [apply Hclk|done].
  - rewrite !length_app. rewrite length_app in Hf'. cbn. lia.
  - rewrite !length_app. cbn. lia.
  - lia.
  - lia.
  - lia.
  - lia.
Qed.

(** * From the caller's list *)

(** What an attempt takes of an address. *)
Definition view (a : ObLbAddress) : bytes * Z * bool := (lb_host a, lb_port a, use_ssl a).

Lemma started w : with_memory w -> forall l i, Forall named l -> exists arr, start_addresses junk w i l = (w, arr) /\ Forall ready arr /\ map view arr = map view l.
Proof.
  intros Hw l. induction l as [|a l IH]; intros i Hl; [by exists []|]. apply Forall_cons in Hl as [Ha Hl]. cbn [start_addresses].
  set (a1 := LbAddress _ _ _ _ _ _ _ _ None).
  assert (init_connect_info junk w (positive_weight a1) = (w, set_connect_info (positive_weight a1) (Some first_info))) as ->.
  { unfold init_connect_info. replace (connect_info (positive_weight a1)) with (@None ConnectInfo) by (unfold positive_weight; by case_match).
    by rewrite !(lb_alloc_ok w Hw). }
  destruct (IH (i + 1) Hl) as (arr & -> & Hr & Hv). eexists. split; [done|].
  split; [constructor; [|done]|cbn; rewrite Hv; f_equal; unfold positive_weight; by case_match].
  unfold positive_weight. destruct (Z.leb_spec (lb_weight a1) 0); (split; [exact Ha|]); by repeat split; cbn; try lia.
Qed.

Definition since (t : Z) (b : BlackList) : Prop := Forall (fun x => t <= black_since x) (default [] (blacks b)).

Lemma marked w t arr :
  since t (blacklist w) -> Forall ready arr ->
  exists arr', mark_black w arr = Ret arr' /\ Forall (fun a => ready a \/ resting t a) arr' /\ length arr' = length arr /\
    filter (fun a => white a) arr' = filter (fun a => listed (black_keys (blacklist w)) (key_of a) = false) arr.
Proof.
  intros Ht. induction 1 as [|a arr Ha _ IH]; [by exists []|]. destruct IH as (arr' & He & Hr & Hl & Hf). cbn [mark_black].
  pose proof Ha as (Hn & Hw & Hwt & _). unfold is_at_blacklist. rewrite (key_read _ Hn), !bind_ret, He, bind_ret. unfold since, black_keys in *.
  destruct (blacks (blacklist w)) as [l|] eqn:El; cbn [default option_fmap id] in *.
  - pose proof (find_listed (key_of a) l) as Hk. destruct (find_black (key_of a) l) as [[i b]|].
    + destruct Hk as [Hb Hk]. eexists. split; [done|]. rewrite !filter_cons_False by (cbn [key_of]; rewrite ?Hk; discriminate). split; [|split; [cbn; lia|done]].
      constructor; [|done]. right. split; [done|]. split; [|done]. cbn. by apply (proj1 (Forall_lookup _ _) Ht _ _ Hb).
    + eexists. split; [done|]. rewrite !filter_cons_True by done. rewrite Hf. split; [constructor; [by left|done]|]. split; [cbn; lia|done].
  - eexists. split; [done|]. rewrite !filter_cons_True by done. rewrite Hf. split; [constructor; [by left|done]|]. split; [cbn; lia|done].
Qed.

(** The attempts that a list of addresses allows. *)
Definition allowed (c : ObClientLbConfig) (b : BlackList) (l : list attempt) : list attempt :=
  take (Z.to_nat (lb_retry_all_downs c)) (filter (fun t => listed (black_keys b) (attempt_key t) = false) l).

Lemma views_attempts c who arr l : map view arr = map view l -> map (attempt_of c who) arr = map (attempt_of c who) l.
Proof.
  revert l. induction arr as [|a arr IH]; intros [|b l]; [done..|]. cbn. intros [= Hh Hp Hs Hl]. rewrite (IH l Hl). unfold attempt_of. by rewrite Hh, Hp, Hs.
Qed.

Lemma filter_attempts c who keys arr :
  map (attempt_of c who) (filter (fun a => listed keys (key_of a) = false) arr) =
  filter (fun t => listed keys (attempt_key t) = false) (map (attempt_of c who) arr).
Proof.
  induction arr as [|a arr IH]; [done|]. cbn [map]. destruct (listed keys (key_of a)) eqn:E.
  - rewrite !filter_cons_False; [done| |]; [change (attempt_key (attempt_of c who a)) with (key_of a)|]; by rewrite E.
  - rewrite !filter_cons_True by done. cbn [map]. by rewrite IH.
Qed.

Lemma list_tried fuel t w start arr c who success n :
  with_memory w -> good_blacks n (blacklist w) -> 0 <= n -> n + Z.of_nat (length arr) < 2 ^ 30 -> since t (blacklist w) -> settled t start c ->
  Forall named arr -> arr <> [] -> receives success -> 0 < lb_retry_all_downs c < 2 ^ 32 -> (length arr <= fuel)%nat ->
  outcome w success (allowed c (blacklist w) (map (attempt_of c who) arr))
    (connect_by_addresslist clock rand mysql_real_connect junk fuel w start (LbAddressList OBCLIENT_LB_OPTION_ROTATION 0 arr) c who success).
Proof.
  intros Hw Hb Hn Hlen Ht Hc Ha Hne Hs Hd Hf. unfold connect_by_addresslist. cbn [add_arr lb_option rotation_flag].
  destruct (Nat.eqb_spec (length arr) 0) as [He|_]; [by destruct arr|]. change (known_option OBCLIENT_LB_OPTION_ROTATION) with true. cbv iota.
  destruct (started w Hw arr 0 Ha) as (arr1 & -> & Hr & Hv).
  assert (length arr1 = length arr) as Hl1 by (rewrite <- (length_map view arr1), Hv; apply length_map).
  rewrite (still_black t); [|eapply Forall_impl; [exact Hr|unfold ready; naive_solver]|by destruct Hc as (_ & Hk & _); intros k; apply Hk].
  rewrite bind_ret. cbn [add_arr lb_option rotation_flag]. destruct (marked (later w (S (ticks w))) t arr1 Ht Hr) as (arr2 & -> & Hr2 & Hl2 & Hf2). rewrite bind_ret.
  assert (length (filter (fun a => white a) arr2) <= fuel)%nat by (pose proof (length_filter (fun a => white a) arr2); lia).
  pose proof (loop_tries t start who success fuel [] arr2 0 (later w (S (ticks w))) c n Hw) as H'. cbn [app length] in H'.
  specialize (H' ltac:(constructor) Hr2 ltac:(lia) ltac:(lia) Hc Hs Hb Hn ltac:(lia) Hd ltac:(done)).
  unfold outcome in *. rewrite Hf2, filter_attempts, (views_attempts _ _ _ _ Hv) in H'. unfold allowed.
  cbn [attempts blacklist later] in H'.
  destruct (try_all _ _ _) as [[tried failed] reached]. destruct H' as (w' & l' & c' & -> & Ha' & Hb'). rewrite bind_ret. by do 3 eexists.
Qed.

(** A host that ends inside the caller's array. *)
Definition valid (a : ObClientLbAddress) : Prop := 0 ∈ client_host a /\ all_bytes (client_host a) /\ length (client_host a) = 128%nat.

(** The attempt for an address of the caller. *)
Definition goes_to (c : ObClientLbConfig) (who : Login) (a : ObClientLbAddress) : attempt :=
  Attempt (padded (until_nul (client_host a))) (s32 (client_port a)) who (options c false).

Lemma addresses_copied c who l :
  Forall valid l ->
  exists arr, client_addresses l = Ret arr /\ Forall named arr /\ map (attempt_of c who) arr = map (goes_to c who) l.
Proof.
  induction 1 as [|a l (Hz & Hb & Hl) _ (arr & He & Hn & Hm)]; [by exists []|]. cbn [client_addresses]. unfold client_address.
  pose proof (length_until _ Hz). rewrite cstring_until, bind_ret by done.
  rewrite store_bytes_splice by (split; cbn -[repeat]; [lia|rewrite repeat_length; lia]). rewrite !bind_ret, He, bind_ret.
  rewrite map_u8_bytes by (by apply until_bytes). rewrite splice_0. change (lb_host no_address) with (repeat 0 128). rewrite drop_repeat.
  eexists. split; [done|]. cbn [map]. rewrite Hm. split; [|done]. constructor; [|done]. unfold named. cbn [set_address lb_host].
  fold (padded (until_nul (client_host a))). split_and!.
  - apply elem_of_app. right. replace (128 - length (until_nul (client_host a)))%nat with (S (127 - length (until_nul (client_host a)))) by lia. left.
  - apply Forall_app_2; [by apply until_bytes|]. apply Forall_forall. intros x Hx%list_elem_of_In%repeat_spec. subst. unfold is_byte, uint. lia.
  - unfold padded. rewrite length_app, repeat_length. lia.
  - unfold padded. by rewrite until_padded.
Qed.

(** C18: ob_mysql_real_connect with a list of addresses, when failing makes an address black
    (the strategy NORMAL), no black address has had its time and the limit of time is not
    reached during the call: the addresses that are not on the black list are tried in the
    order of the list, each once and at most retry_all_downs of them, up to the first that
    is reached or that denies access; nothing else is tried.  The call returns, it succeeds
    exactly when an address was reached, a caller whose array is zeroed finds exactly the
    host and the port of that address in it, and the keys of those that failed are on the
    black list afterwards. *)
Theorem addresses_tried_in_order fuel w t n tns_allocs getenv fopen tns_name addrs config who success
    (c := list_config (default default_config config) (Z.of_nat (length addrs))) :
  with_memory w -> good_blacks n (blacklist w) -> 0 <= n -> n + Z.of_nat (length addrs) < 2 ^ 30 -> since t (blacklist w) ->
  settled t (clock (ticks w)) c -> Forall valid addrs -> addrs <> [] -> receives success -> 0 < lb_retry_all_downs c < 2 ^ 32 ->
  not_empty tns_name = false -> (length addrs <= fuel)%nat ->
  let '(tried, failed, reached) :=
    try_all mysql_real_connect (length (attempts w)) (allowed c (blacklist w) (map (goes_to c who) addrs)) in
  exists w' c',
    ob_mysql_real_connect clock rand mysql_real_connect mysql_real_query junk fuel w tns_allocs getenv fopen tns_name (Some (Some addrs)) config who success =
      Ret (bool_decide (is_Some reached), w', c', report success reached) /\
    attempts w' = attempts w ++ tried /\
    black_keys (blacklist w') = fold_left add_key (map attempt_key failed) (black_keys (blacklist w)).
Proof.
  intros Hw Hb Hn Hlen Ht Hc Hv Hne Hs Hd Htns Hf. destruct (addresses_copied c who addrs Hv) as (arr & He & Hna & Hm).
  assert (length arr = length addrs) as Hl by (rewrite <- (length_map (attempt_of c who)), Hm; apply length_map).
  unfold ob_mysql_real_connect, get_current_time_us. rewrite Htns. change (MkWorld _ _ _ _ _ _ _) with (later w (S (ticks w))).
  assert (init_oblb_addresslist (later w (S (ticks w))) (Some addrs) OBCLIENT_LB_OPTION_ROTATION =
    Ret (later w (S (ticks w)), Some (LbAddressList OBCLIENT_LB_OPTION_ROTATION 0 arr))) as ->.
  { unfold init_oblb_addresslist. rewrite (lb_alloc_ok (later w (S (ticks w))) Hw). cbn [negb]. rewrite He. by destruct addrs. }
  rewrite bind_ret. unfold config_of_list. cbn [add_arr]. rewrite Hl. fold c.
  pose proof (list_tried fuel t (later w (S (ticks w))) (clock (ticks w)) arr c who success n Hw Hb Hn) as H.
  specialize (H ltac:(lia) Ht Hc Hna ltac:(by intros ->; destruct addrs) Hs Hd ltac:(lia)). unfold outcome in H. rewrite Hm in H.
  cbn [attempts blacklist later] in H. destruct (try_all _ _ _) as [[tried failed] reached]. destruct H as (w' & l' & c' & H1 & H2 & H3).
  exists w', c'. cbn [connect_to]. rewrite H1, bind_ret. done.
Qed.

End Order.

(** * Examples *)

Definition text_address (h : string) (p : Z) : ObClientLbAddress := ClientLbAddress (str h ++ repeat 0 (128 - String.length h)) p.
Definition nobody : Login := MkLogin None None None None 0.
Definition quiet (b : BlackList) : World := MkWorld 0 0 [] [] b None [].
Definition empty_list : BlackList := MkBlackList None 0.

(** The first attempt fails, the second succeeds. *)
Definition second_time (n : nat) (_ : attempt) : option Z := if (n =? 0)%nat then Some 2003 else None.

Definition four : list ObClientLbAddress := [text_address "a" 1; text_address "b" 2; text_address "c" 3; text_address "d" 4].
Definition a_is_black : BlackList := MkBlackList (Some [MkBlack (str "A:1") 900]) CONNECT_CNT_INIT.
Definition four_config : ObClientLbConfig := list_config default_config 4.

(** Of four addresses the first is on the black list and the second fails: the third is reached. *)
Lemma addresses_tried_in_order_witness :
  exists w' c',
    ob_mysql_real_connect (fun _ => 1000) (fun _ => 0) second_time (fun _ => 0) 0 4 (quiet a_is_black) [] (fun _ => None) (fun _ => None) None
      (Some (Some four)) None nobody (Some (text_address "" 0)) = Ret (true, w', c', Some (text_address "c" 3)) /\
    attempts w' = [goes_to four_config nobody (text_address "b" 2); goes_to four_config nobody (text_address "c" 3)] /\
    black_keys (blacklist w') = [str "A:1"; str "b:2"].
Proof.
  apply (addresses_tried_in_order (fun _ => 1000) (fun _ => 0) second_time (fun _ => 0) 0 4 (quiet a_is_black) 900 1 [] (fun _ => None) (fun _ => None) None
    four None nobody (Some (text_address "" 0))).
  - reflexivity.
  - vm_compute. intuition discriminate.
  - lia.
  - reflexivity.
  - constructor; [vm_compute; discriminate|constructor].
  - split; [reflexivity|]. split; [intros _; vm_compute; split; [discriminate|reflexivity]|]. intros H. vm_compute in H. discriminate H.
  - repeat (apply Forall_cons_2; [split; [by apply (bool_decide_unpack _)|split; [by apply (bool_decide_unpack _)|reflexivity]]|]). apply Forall_nil_2.
  - discriminate.
  - reflexivity.
  - split; reflexivity.
  - reflexivity.
  - apply le_n.
Defined.

(** * What goes wrong *)

Definition never (_ : nat) (_ : attempt) : option Z := Some 2003.
Definition three_config (downs : Z) : ObClientLbConfig :=
  set_balancing default_config downs 0 OBCLIENT_LB_OPTION_TIMEOUT 1 OBCLIENT_LB_OPTION_NORMAL 1 10.

Definition slow (n : nat) : Z := if (n <? 13)%nat then 0 else 5000.

(** While the third address is tried the first two come back.  They are white, and the call reports
    after three of ten attempts that all are black: the loop of the rotation starts behind
    them and ends at the end of the array. *)
Lemma rotation_misses_whites :
  match connect_by_addresslist slow (fun _ => 0) never 0 10 (quiet empty_list) 0
    (LbAddressList OBCLIENT_LB_OPTION_ROTATION 0
       (map (fun p => set_address no_address (str "h" ++ repeat 0 127) p 1 OBCLIENT_LB_WHITE false) [1; 2; 3])) (three_config 10) nobody None with
  | Ret (ok, w, l, c, _) =>
      ok = false /\ last_error w = Some (CR_UNKNOWN_ERROR (str "address list is empty(all in black).")) /\ map to_port (attempts w) = [1; 2; 3] /\
      map state (add_arr l) = [OBCLIENT_LB_WHITE; OBCLIENT_LB_WHITE; OBCLIENT_LB_BLACK] /\ lb_retry_all_downs c = 7
  | _ => False
  end.
Proof. by vm_compute. Qed.

Definition hosts_and_ports (r : cres (World * option ObLbAddressList)) : cres (option (list (bytes * Z))) :=
  '(_, l) ← r;
  Ret (match l with Some l => Some (map (fun a => (until_nul (lb_host a), lb_port a)) (add_arr l)) | None => None end).

(** A first address without brackets is dropped: nothing marks its start. *)
Lemma first_address_dropped :
  hosts_and_ports (init_oblb_addresslist_str (quiet empty_list) (Some (str "10.0.0.1:1,10.0.0.2:2" ++ [0])) OBCLIENT_LB_OPTION_ROTATION) =
  Ret (Some [(str "10.0.0.2", 2)]).
Proof. reflexivity. Qed.

Lemma bracketed_addresses_read :
  hosts_and_ports (init_oblb_addresslist_str (quiet empty_list) (Some (str "[fe80::1]:1,[10.0.0.2]:2,10.0.0.3:3" ++ [0])) OBCLIENT_LB_OPTION_ROTATION) =
  Ret (Some [(str "fe80::1", 1); (str "10.0.0.2", 2); (str "10.0.0.3", 3)]).
Proof. reflexivity. Qed.

(** The array is as long as there are commas; a text without them fills more. *)
Lemma addresses_without_commas_overrun :
  init_oblb_addresslist_str (quiet empty_list) (Some (str "[a]:1[b]:2" ++ [0])) OBCLIENT_LB_OPTION_ROTATION = Fault.
Proof. reflexivity. Qed.

(** A host of a description can be longer than the array it is copied to. *)
Lemma long_host_overruns : tns_address (Tns.Address (repeat 97 129 ++ repeat 0 128) (str "TCP" ++ repeat 0 3) 129 3 1 1) = Fault.
Proof. reflexivity. Qed.

(** The user's name is copied to an array of 256 bytes. *)
Lemma long_user_overruns : new_user_name (Some (repeat 97 257 ++ [0])) 257 None = Fault.
Proof. reflexivity. Qed.

(** memmove is given a number of elements as a number of bytes: the time that is kept is mixed with
    the one that is dropped. *)
Definition tried_twice : ObLbAddress :=
  set_connect_info (set_address no_address (lb_host no_address) 1 1 OBCLIENT_LB_WHITE false)
    (Some (MkConnectInfo 2 CONNECT_CNT_INIT (Some (le_bytes 8 1 ++ le_bytes 8 1000000 ++ repeat 0 240)))).

Definition first_time (r : cres (World * ObLbAddress)) : cres (option (Z * Z)) :=
  '(_, a) ← r;
  match connect_info a with
  | Some (MkConnectInfo cnt _ (Some l)) => t ← load_bytes l 0 8; Ret (Some (cnt, s64 (le_val t)))
  | _ => Ret None
  end.

Lemma times_mixed :
  first_time (check_ob_address_black (fun _ => 1000000) (quiet empty_list) tried_twice
    (set_balancing default_config 1 0 OBCLIENT_LB_OPTION_TIMEOUT 1 OBCLIENT_LB_OPTION_RETRY_DERUATION 2 10)) = Ret (Some (1, 64)).
Proof. reflexivity. Qed.

(** A limit of 4294968 ms is less than one millisecond: the product has 32 bits. *)
Lemma timeout_wraps : (out_of_time (fun _ => 1000) (quiet empty_list) (set_balancing default_config 1 4294968 0 0 0 0 0) 0).1 = true.
Proof. reflexivity. Qed.

(** A limit of no attempts is one of 4294967295 more. *)
Lemma zero_downs_wrap :
  match connect_by_addresslist (fun _ => 0) (fun _ => 0) never 0 2 (quiet empty_list) 0
    (LbAddressList OBCLIENT_LB_OPTION_ROTATION 0 [set_address no_address (lb_host no_address) 1 1 OBCLIENT_LB_WHITE false]) (three_config 0) nobody None with
  | Ret (_, _, _, c, _) => lb_retry_all_downs c = 4294967295
  | _ => False
  end.
Proof. reflexivity. Qed.

(** No NUL follows the host that is reported: what the caller's array held shows behind it. *)
Definition always (_ : nat) (_ : attempt) : option Z := None.

Lemma reported_host_mixed :
  match ob_mysql_real_connect (fun _ => 1000) (fun _ => 0) always (fun _ => 0) 0 1 (quiet empty_list) [] (fun _ => None) (fun _ => None) None
      (Some (Some [text_address "db" 3])) None nobody (Some (text_address "localhost" 0)) with
  | Ret (ok, _, _, reported) => ok = true /\ reported = Some (text_address "dbcalhost" 3)
  | _ => False
  end.
Proof. vm_compute. split; reflexivity. Qed.

End LoadOrder.
